(* ===== verification/_CoqProject ===== *)
-Q . S2P
Prelude.v
Monad.v
OpenFlow.v
Packet.v
ByteMatch.v
FlowEntry.v
Hashmap.v
FlowinfoIntf.v
FlowinfoBasic.v
FlowinfoTable.v
FlowinfoNodes.v
FlowinfoMask.v
FlowinfoTree.v
FlowTable.v
Endian.v
ActionSet.v
PacketEdit.v
Checksum.v
PacketActions.v
SetField.v
Tunnel.v
PacketHash.v
FlowCache.v
Shared.v
Meter.v
Group.v
DpTimer.v
Bridge.v
FlowDB.v
FlowDBInv.v
FlowDBSpec.v
FlowDBDelete.v
FlowDBModify.v
FlowDBRun.v
Pipeline.v
PipelineLogic.v
PipelineOwn.v
PipelineTerm.v
PipelineRun.v
Pbuf.v
Generator.v
OpenFlowH.v
Tlv.v
MatchCodec.v
ActionCodec.v
InstructionCodec.v
CodecSound.v
Datapath.v
FlowModHandler.v
BucketCodec.v
GroupModHandler.v
MeterModHandler.v
Role.v
OfpHandler.v
Framing.v
Hello.v
Channel.v
Multipart.v
MultipartReply.v
Output.v
Cbuffer.v
CbufferThreads.v
