(* ===== verification/Prelude.v ===== *)
(** * Lagopus: a verification library for the OpenFlow switch

    Lagopus is an OpenFlow 1.3 software switch.  Its data plane receives frames, finds their
    headers, looks them up in flow tables and executes the instructions of the flows that match;
    its agent reads the messages of the controllers and changes the tables at their request.  This
    library models the data plane, the databases it works on and the way of a message from its
    bytes to the databases, as they are built by default on x86: raw sockets, without
    DPDK, without HYBRID, USE_MBTREE and USE_THTABLE, with PBB_IS_VLAN and GENERAL_TUNNEL_SUPPORT.

    ** The program and the files that model it

    - [Prelude] (this file): result codes, machine integers ([u8], [u16], [u32], [u64] wrap
      around), bytes in memory and byte order, lemmas and tactics on lists, options and maps.
    - [OpenFlow]: the data of [src/include/lagopus/flowdb.h]: matches, actions, instructions, flows.
    - [Packet]: [struct lagopus_packet] and the classification of frames ([classify_*] of
      [datapath.c]); a header pointer is an offset into the frame.
    - [ByteMatch]: [flowinfo_basic.c], the compilation of a match into words with masks and the
      comparison with a packet.
    - [FlowEntry]: the functions of [mgr/flowdb.c] on one flow: allocation, the checks of a
      match list, comparison.
    - [Hashmap], [Shared]: [lib/hashmap.c] and the tables keyed by an identifier above it.
    - [FlowinfoIntf], [FlowinfoBasic], [FlowinfoTable], [FlowinfoNodes], [FlowinfoMask],
      [FlowinfoTree], [FlowTable]: the lookup tree of a flow table ([flowinfo_*.c]).
      [FlowinfoIntf] is the interface, a class with the add, delete, match and find function of a
      node and a class with their laws; each node kind is an instance that is given its
      children's instances, as in the C files one [struct flowinfo] holds others.
      [FlowTable] compares the tree with its specification, a list of flows.
    - [Bridge], [FlowDB]: the state of a bridge and the commands on it: FLOW_MOD, deletion with
      FLOW_REMOVED, expiry, statistics ([mgr/flowdb.c], [mgr/flow_timer.c]).  [FlowDBInv] is the invariant,
      [FlowDBSpec], [FlowDBDelete], [FlowDBModify] specify the commands, [FlowDBRun] runs histories
      of commands.  Flows are cells of a heap ([br_flows]), named by references as C names
      them by pointers: lists, trees, groups, timers and caches share them.
    - [Meter], [Group], [DpTimer]: [mgr/meter.c], [mgr/group.c], [mgr/dp_timer.c].
    - [Endian], [PacketEdit]: byte swapping, and the packet buffer with its headroom.
      [Monad] defines the monad of the data plane: a state with the outcomes [Done],
      [Undefined] (the C program would access memory it must not) and [OutOfFuel].
    - [ActionSet], [PacketActions], [SetField], [Tunnel], [Checksum], [PacketHash]: the actions
      of [datapath.c] that rewrite packets, action sets, [csum.h], and the hash of a packet.
    - [FlowCache]: [ofcache.c].
    - [Pipeline]: [lagopus_match_and_action] with all it calls: tables, instructions,
      actions, groups, meters, the cached path, sending ([sock_io.c]) and PACKET_OUT ([comm.c]).
      [PipelineLogic] is a weakest precondition for it, with which [PipelineOwn] proves who frees
      packets and [PipelineTerm] that processing ends; [PipelineRun] runs it end to end.
    - [Pbuf], [Generator], [OpenFlowH]: the buffers of messages ([lib/pbuf.c]); the generator of
      encoders and decoders ([agent/generator.c]) as a function from declarations to programs,
      and the meaning of these; the declarations of [openflow13.h] the generator is run on.
    - [Tlv], [MatchCodec], [ActionCodec], [InstructionCodec], [BucketCodec]: the parsers and
      encoders that walk over lists of elements ([ofp_match.c], [ofp_action.c],
      [ofp_instruction.c], [ofp_bucket.c]).  [CodecSound] is a logic for the parsers.
    - [Datapath]: what the agent calls of the data path, and the passage from the agent's
      structures to those of [OpenFlow]; [FlowModHandler], [GroupModHandler], [MeterModHandler]:
      the handlers that read these three messages, up to the tables.
    - [Role], [OfpHandler]: the roles of controllers, generation identifiers and asynchronous
      masks, and the dispatch of a message by [s_process_channelq_entry].
    - [Framing], [Channel], [Output]: the connection to a controller ([agent/channel.c]): cutting the
      bytes of the socket into messages, the state machine with its timer and session
      ([lib/session.c]), and the ways to send.  [Hello]: the elements of a HELLO and the choice
      of the version ([ofp_element.c], [ofp_hello_handler.c]).
    - [Multipart], [MultipartReply]: requests that come in several messages, and the replies with
      statistics and descriptions, divided into messages.
    - [Cbuffer], [CbufferThreads]: the bounded blocking queue between the threads ([lib/cbuffer.c]):
      the circular buffer under its lock, and the threads that wait at it as a transition system
      whose steps are critical sections.

    A message takes this way: [Framing] cuts it from the stream and puts it into the queue of
    [OfpHandler], whose dispatch calls the handlers, which end in the commands of [Datapath].
    The commands change a [bridge]; the pipeline reads the same [bridge] inside its [world],
    looks flows up with [lagopus_find_flow] and updates counters and times only.  The invariant
    that the commands keep ([bridge_inv]) is the hypothesis of the lookup and of termination.
    Replies go back through [Output].

    ** What the theorems show

    - The flow database: every history of commands and timer steps keeps lists sorted, trees and
      lists with the same flows and matches compiled; ADD, MODIFY and DELETE have the effects the
      protocol asks for on exactly the flows concerned, errors included; timeouts are exact.
    - Lookup: the tree finds a flow of the highest priority among those that match, as a search
      of the sorted list would; compiled matches agree with the fields of the packet.
    - Groups, meters, timers: GROUP_MOD ADD accepts exactly the groups that close no circle;
      METER_MOD; buckets are chosen in proportion to their weights; timers fire in time.
    - Packets: what the set-field action writes, a match on the same field finds; push and pop,
      encapsulation and decapsulation are inverse; checksums and their incremental update are
      correct; the fields of classified packets are consistent.
    - The cache: a lookup answers with what the last registration under the hash stored.
    - The pipeline: a frame that matches a flow with outputs leaves unchanged by these ports in
      order, a table miss leaves by none; no packet buffer is lost or freed twice; processing
      ends whenever groups do not run in circles, in spite of recursion through
      groups, watched groups and tables.
    - The codec: whatever encoder and decoder the generator makes of a declaration are inverse;
      so are the encoders and parsers of matches, actions, instructions and buckets.
      On arbitrary bytes the parsers end and take no byte outside the message, and what they
      accept is the wire form of what they return, except at the elements the program reads
      past ([short_action], [short_in_instructions], [short_in_buckets]).
    - The agent: a well-formed message has the effect of the command it encodes; whatever bytes
      arrive, the tables of every bridge keep their invariant; a slave changes no table; a stale
      generation identifier is refused, and other masters become slaves.
    - The connection: the messages that are cut from the stream do not depend on how the socket
      divides it; a channel over TCP is never stuck: it waits for its timer, or it has a socket;
      with a controller that answers it is established, by a HELLO both sides accept; what is
      sent through the list of the channel reaches the socket whole and in order.  Requests in
      several messages are reassembled as a finite map from transactions would, and replies are
      divided into messages without losing an entry.
    - The queues between the threads: whatever the order of the threads, the circular buffer is a
      first-in first-out queue of bounded length, every call returns what it has moved, and no
      thread sleeps on while what it waits for is there.
    - Theorems without a claim number document defects of the program on concrete inputs; the
      comment of each says what goes wrong.

    ** Bounds and fuel

    Loops that consume a list or a length recurse on it, or take its length as fuel, and the
    theorems show that the fuel never runs out ([classify_terminates], [group_add_acyclic]).  The
    loop over tables has 255 turns: the program stops at [LAGOPUS_DP_PIPELINE_MAX] = 254 matches.
    [fuel] of [lagopus_match_and_action] bounds the nesting of groups and of OFPP_TABLE; it is as
    deep as the groups refer to each other ([receive_terminates]), and without a bound for
    groups that run in circles ([loop_free_terminates], [watch_group_loops]).  The parsers have the
    number of unread bytes, or the length an element states, as fuel: every turn takes bytes.  Counters and
    lengths wrap around at their width in C.

    ** Assumptions

    Memory allocation succeeds; queues to the agent do not fill up; the queue entry of a message
    has some room behind the message ([received]), which the buffer of a channel has for
    messages up to 65278 bytes ([entry_received]); every packet has a bridge; the host is
    little-endian.  What a system call answers is an argument of the functions that make it.  A lock is held as the program holds it, so that a command or the
    processing of a packet is one step; the threads at a queue are interleaved.  The hash functions (CityHash, murmur), the CRC32C of
    SCTP and the metering of a driver are parameters ([driver]).

    ** Not modelled

    The handlers of messages that only answer with a fixed structure (echo, features, switch
    configuration, barrier) and the collection of statistics below the replies, apart from that of
    tables, groups and meters; the TLS handshake and the event loop around the channels; the
    datastore with its command language, which stores configuration under names and reaches
    packets through the commands that are modelled; ports, interfaces and queues as managed objects, which wrap
    system calls; the DPDK and hybrid data planes and the alternative lookup structures, which the
    default build leaves out; the SNMP agent; threads, locks and logging of [src/lib];
    the third-party hash functions. *)
From Stdlib Require Export ZArith Lia.
From stdpp Require Export base gmap list list_numbers sorting.

#[global] Open Scope Z_scope.
#[global] Set Default Proof Using "Type*".

(** ** Notation of the development *)
Declare Scope lagopus_scope.
Delimit Scope lagopus_scope with lagopus.

(** Result codes of [src/include/lagopus_error.h] that the modelled functions
    return. *)
Inductive lagopus_result :=
  | LAGOPUS_RESULT_OK
  | LAGOPUS_RESULT_ANY_FAILURES
  | LAGOPUS_RESULT_NO_MEMORY
  | LAGOPUS_RESULT_NOT_FOUND
  | LAGOPUS_RESULT_ALREADY_EXISTS
  | LAGOPUS_RESULT_NOT_OPERATIONAL
  | LAGOPUS_RESULT_INVALID_ARGS
  | LAGOPUS_RESULT_NOT_DEFINED
  | LAGOPUS_RESULT_ITERATION_HALTED
  | LAGOPUS_RESULT_OFP_ERROR
  | LAGOPUS_RESULT_INVALID_OBJECT
  | LAGOPUS_RESULT_STOP
  | LAGOPUS_RESULT_NO_MORE_ACTION
  | LAGOPUS_RESULT_CONTINUE
  | LAGOPUS_RESULT_OUT_OF_RANGE
  | LAGOPUS_RESULT_OXM_ERROR
  | LAGOPUS_RESULT_EINPROGRESS
  | LAGOPUS_RESULT_SOCKET_ERROR
  | LAGOPUS_RESULT_POSIX_API_ERROR
  | LAGOPUS_RESULT_BUSY
  | LAGOPUS_RESULT_TIMEDOUT
  | LAGOPUS_RESULT_WAKEUP_REQUESTED
  | LAGOPUS_RESULT_NOT_ALLOWED
  | LAGOPUS_RESULT_UNSUPPORTED
  | LAGOPUS_RESULT_TOO_LARGE
  | LAGOPUS_RESULT_TOO_SMALL
  | LAGOPUS_RESULT_TOO_LONG
  | LAGOPUS_RESULT_TOO_SHORT
  | OFPBAC_BAD_HEADER_TYPE.

#[global] Instance lagopus_result_eq_dec : EqDecision lagopus_result.
Proof. solve_decision. Defined.

Definition is_ok (r : lagopus_result) : bool :=
  match r with LAGOPUS_RESULT_OK => true | _ => false end.

(** ** Machine integers *)
Definition u8 (x : Z) : Z := x mod 2 ^ 8.
Definition u16 (x : Z) : Z := x mod 2 ^ 16.
Definition u32 (x : Z) : Z := x mod 2 ^ 32.
Definition u64 (x : Z) : Z := x mod 2 ^ 64.
(** Two's complement reading of a 64-bit word: the cast [(int64_t) x]. *)
Definition s64 (x : Z) : Z := (x + 2 ^ 63) mod 2 ^ 64 - 2 ^ 63.

Lemma u64_range x : 0 <= u64 x < 2 ^ 64.
Proof. apply Z.mod_pos_bound. lia. Qed.

Lemma u64_small x : 0 <= x < 2 ^ 64 -> u64 x = x.
Proof. apply Z.mod_small. Qed.

(** ** Memory: bytes and little-endian loads (the supported hosts are x86) *)
Abbreviation bytes := (list Z).

(** A byte load; the model reads 0 past the end of a block. *)
Definition rd8 (l : bytes) (i : nat) : Z := nth i l 0.
Definition rd16 (l : bytes) (i : nat) : Z := rd8 l i + 2 ^ 8 * rd8 l (i + 1).
Definition rd32 (l : bytes) (i : nat) : Z := rd16 l i + 2 ^ 16 * rd16 l (i + 2).
Definition rd64 (l : bytes) (i : nat) : Z := rd32 l i + 2 ^ 32 * rd32 l (i + 4).

(** Little-endian stores of a [w]-byte word. *)
Fixpoint le_bytes (w : nat) (x : Z) : bytes :=
  match w with
  | O => []
  | S w' => Z.land x 255 :: le_bytes w' (Z.shiftr x 8)
  end.

(** [OS_NTOHS] and its inverse, as they act on a little-endian host. *)
Definition OS_NTOHS (x : Z) : Z :=
  Z.lor (Z.land (Z.shiftr x 8) 255) (Z.shiftl (Z.land x 255) 8).
Definition OS_NTOHL (x : Z) : Z :=
  Z.lor (OS_NTOHS (Z.shiftr x 16)) (Z.shiftl (OS_NTOHS (Z.land x 65535)) 16).
Definition OS_NTOHLL (x : Z) : Z :=
  Z.lor (OS_NTOHL (Z.shiftr x 32)) (Z.shiftl (OS_NTOHL (Z.land x 4294967295)) 32).
Abbreviation OS_HTONS := OS_NTOHS.
Abbreviation OS_HTONL := OS_NTOHL.
Abbreviation OS_HTONLL := OS_NTOHLL.

(** Memory holds bytes. *)
Definition bytes_ok (d : bytes) : Prop := Forall (fun b => 0 <= b < 256) d.

Lemma rd8_range d i : bytes_ok d -> 0 <= rd8 d i < 256.
Proof.
  intros Hd. unfold rd8. destruct (nth_in_or_default i d 0) as [Hin| ->]; [|lia].
  unfold bytes_ok in Hd. rewrite List.Forall_forall in Hd. by apply Hd.
Qed.

(** [memcpy (dst + off, src, len)] for [len] bytes of [src]. *)
Definition memcpy_at (off : nat) (src dst : bytes) : bytes := list_inserts off src dst.

(** [memcmp (a, b, n) == 0]. *)
Definition memcmp_eq (n : nat) (a b : bytes) : bool :=
  forallb (fun i => rd8 a i =? rd8 b i) (seq 0 n).

Lemma memcmp_eq_spec n a b :
  memcmp_eq n a b = true <-> forall i, (i < n)%nat -> rd8 a i = rd8 b i.
Proof.
  unfold memcmp_eq. rewrite forallb_forall. split.
  - intros H i Hi. apply Z.eqb_eq, H, in_seq. lia.
  - intros H i Hi%in_seq. apply Z.eqb_eq, H. lia.
Qed.

Lemma memcmp_eq_refl n a : memcmp_eq n a a = true.
Proof. by apply memcmp_eq_spec. Qed.

Lemma memcmp_eq_sym n a b : memcmp_eq n a b = true -> memcmp_eq n b a = true.
Proof. rewrite !memcmp_eq_spec. intros H i Hi. symmetry. auto. Qed.

Lemma memcmp_eq_trans n a b c :
  memcmp_eq n a b = true -> memcmp_eq n b c = true -> memcmp_eq n a c = true.
Proof. rewrite !memcmp_eq_spec. intros H1 H2 i Hi. rewrite H1; auto. Qed.

(** ** Arrays kept sorted by a binary search

    Both [flow_add_sub] (flowdb.c) and [add_flow_basic] (flowinfo_basic.c) find
    the insertion point with the same loop over [st] and [ed]; [ge off] is the
    test [flows[off]->priority >= flow->priority]. *)
Fixpoint bisect (fuel : nat) (ge : nat -> bool) (st ed : nat) : nat :=
  match fuel with
  | O => ed
  | S fuel' =>
      if (st <? ed)%nat then
        let off := (st + (ed - st) / 2)%nat in
        if ge off then bisect fuel' ge (off + 1)%nat ed else bisect fuel' ge st off
      else ed
  end.

(** The [memmove] that opens a slot at [i], and the store into it. *)
Definition insert_at {A} (i : nat) (x : A) (l : list A) : list A :=
  take i l ++ x :: drop i l.

(** The [memmove] that closes the slot [i]. *)
Definition remove_at {A} (i : nat) (l : list A) : list A :=
  take i l ++ drop (S i) l.

Lemma bisect_spec fuel ge st ed :
  (ed - st <= fuel)%nat -> (st <= ed)%nat ->
  (forall i, (i < st)%nat -> ge i = true) ->
  (forall i j, (i <= j)%nat -> ge j = true -> ge i = true) ->
  let p := bisect fuel ge st ed in
  (st <= p <= ed)%nat /\
  (forall i, (i < p)%nat -> ge i = true) /\
  (forall i, (p <= i < ed)%nat -> ge i = false).
Proof.
  intros Hf Hle Hlow Hmono. revert st ed Hf Hle Hlow.
  induction fuel as [|fuel IH]; intros st ed Hf Hle Hlow; cbn [bisect]; cbv zeta.
  { split_and!; [lia|lia| |intros; lia]. intros. apply Hlow. lia. }
  destruct (Nat.ltb_spec st ed) as [Hlt|Hge]; cycle 1.
  { split_and!; [lia|lia| |intros; lia]. intros. apply Hlow. lia. }
  set (off := (st + (ed - st) / 2)%nat).
  assert (st <= off < ed)%nat as Hoff.
  { subst off. pose proof (Nat.div_lt (ed - st) 2 ltac:(lia) ltac:(lia)). lia. }
  destruct (ge off) eqn:Ege.
  - destruct (IH (off + 1)%nat ed) as (H1 & H2 & H3); [lia|lia| |].
    { intros i Hi. apply (Hmono i off); [lia|done]. }
    split_and!; [lia|lia|done|done].
  - destruct (IH st off) as (H1 & H2 & H3); [lia|lia|done|].
    split_and!; [lia|lia|done|].
    intros i Hi. destruct (Nat.ltb_spec i off); [apply H3; lia|].
    destruct (ge i) eqn:Ei; [|done].
    rewrite (Hmono off i) in Ege; [done|lia|done].
Qed.

(** Once the fuel covers the interval, more fuel changes nothing: the loop has
    terminated. *)
Lemma bisect_fuel fuel fuel' ge st ed :
  (ed - st <= fuel)%nat -> (ed - st <= fuel')%nat ->
  bisect fuel ge st ed = bisect fuel' ge st ed.
Proof.
  revert fuel' st ed. induction fuel as [|fuel IH]; intros fuel' st ed Hf Hf'.
  { destruct fuel'; cbn [bisect]; [done|]. destruct (Nat.ltb_spec st ed); [lia|done]. }
  destruct fuel' as [|fuel']; cbn [bisect]; cbv zeta.
  { destruct (Nat.ltb_spec st ed); [lia|done]. }
  destruct (Nat.ltb_spec st ed); [|done].
  pose proof (Nat.div_lt (ed - st) 2 ltac:(lia) ltac:(lia)).
  destruct (ge _); apply IH; lia.
Qed.

Lemma insert_at_perm {A} i (x : A) l : insert_at i x l ≡ₚ x :: l.
Proof.
  unfold insert_at. rewrite <- (take_drop i l) at 3. by rewrite Permutation_middle.
Qed.

Lemma remove_at_perm {A} i (x : A) l :
  l !! i = Some x -> l ≡ₚ x :: remove_at i l.
Proof.
  intros Hi. unfold remove_at. rewrite <- (take_drop_middle l i x Hi) at 1.
  by rewrite Permutation_middle.
Qed.

Lemma length_insert_at {A} i (x : A) l : length (insert_at i x l) = S (length l).
Proof. by rewrite (Permutation_length (insert_at_perm i x l)). Qed.

(** *** Descending arrays *)

(** The test of the binary search: [flows[off]->priority >= p]; past the end no
    element is read. *)
Definition ge_at {A} (key : A -> Z) (p : Z) (l : list A) (off : nat) : bool :=
  match l !! off with Some x => p <=? key x | None => false end.

Definition descending {A} (key : A -> Z) (l : list A) : Prop :=
  StronglySorted (fun x y => key y <= key x) l.

Lemma descending_lookup {A} (key : A -> Z) l i j x y :
  descending key l -> l !! i = Some x -> l !! j = Some y -> (i <= j)%nat -> key y <= key x.
Proof.
  intros Hs Hi Hj Hij. destruct (decide (i = j)) as [->|]; [simplify_eq; lia|].
  revert i j Hi Hj Hij n. induction Hs as [|z l Hs IH Hall]; intros [|i] [|j] Hi Hj Hij Hne;
    simplify_eq/=; try lia.
  - rewrite Forall_forall in Hall. apply Hall. by eapply list_elem_of_lookup_2.
  - apply (IH i j); [done|done|lia|lia].
Qed.

Lemma descending_ext {A} (key key' : A -> Z) l :
  (forall x, x ∈ l -> key x = key' x) -> descending key l -> descending key' l.
Proof.
  intros Heq Hs. unfold descending in *.
  induction Hs as [|x l Hs IH Hall]; constructor.
  - apply IH. intros y Hy. apply Heq. by right.
  - rewrite Forall_forall in Hall |- *. intros y Hy.
    rewrite <- !Heq by (by left || by right). auto.
Qed.

Lemma descending_app {A} (key : A -> Z) l k :
  descending key (l ++ k) <->
  descending key l /\ descending key k /\ forall x y, x ∈ l -> y ∈ k -> key y <= key x.
Proof.
  unfold descending. induction l as [|z l IH]; cbn.
  - split; [|tauto]. intros H. split_and!; [constructor|done|set_solver].
  - split.
    + inversion 1 as [|?? H1 H2]; subst. apply IH in H1 as (H1 & H3 & H4).
      rewrite Forall_app, !Forall_forall in H2. destruct H2 as [H2 H5].
      split_and!; [constructor; [done|by apply Forall_forall]|done|].
      intros x y [->|Hx]%elem_of_cons Hy; auto.
    + intros (H1 & H2 & H3). inversion H1 as [|?? H4 H5]; subst. constructor.
      * apply IH. split_and!; [done|done|]. intros x y Hx. apply H3. by right.
      * rewrite Forall_app. split; [done|]. apply Forall_forall. intros y Hy.
        apply H3; [by left|done].
Qed.

(** The slot found by the binary search keeps the array descending, and the new
    element goes behind those of its own key. *)
Lemma descending_insert {A} (key : A -> Z) (x : A) l :
  descending key l ->
  let i := bisect (length l) (ge_at key (key x) l) 0 (length l) in
  descending key (insert_at i x l) /\
  (forall y, y ∈ take i l -> key x <= key y) /\ (forall y, y ∈ drop i l -> key y < key x).
Proof.
  intros Hs. cbv zeta.
  destruct (bisect_spec (length l) (ge_at key (key x) l) 0 (length l)) as (H1 & H2 & H3);
    [lia|lia|intros; lia| |].
  { intros i j Hij. unfold ge_at.
    destruct (l !! j) as [y|] eqn:Ej; [|done]. destruct (l !! i) as [z|] eqn:Ei.
    - pose proof (descending_lookup key l i j z y Hs Ei Ej Hij).
      rewrite !Z.leb_le. lia.
    - apply lookup_ge_None in Ei. apply lookup_lt_Some in Ej. lia. }
  set (i := bisect _ _ _ _) in *. clearbody i.
  assert (forall y, y ∈ take i l -> key x <= key y) as Hlo.
  { intros y (j & Hj)%list_elem_of_lookup. apply lookup_take_Some in Hj as [Hj Hlt].
    specialize (H2 j Hlt). unfold ge_at in H2. rewrite Hj in H2. lia. }
  assert (forall y, y ∈ drop i l -> key y < key x) as Hhi.
  { intros y (j & Hj)%list_elem_of_lookup. rewrite lookup_drop in Hj.
    specialize (H3 (i + j)%nat). unfold ge_at in H3. rewrite Hj in H3.
    apply lookup_lt_Some in Hj. specialize (H3 ltac:(lia)). lia. }
  split_and!; [|done|done]. unfold insert_at.
  rewrite <- (take_drop i l) in Hs. apply descending_app in Hs as (S1 & S2 & S3).
  apply descending_app. split_and!; [done| |].
  - constructor; [done|]. apply Forall_forall. intros y Hy. specialize (Hhi y Hy). lia.
  - intros y z Hy [->|Hz]%elem_of_cons; [by apply Hlo|by apply S3].
Qed.

Lemma descending_remove {A} (key : A -> Z) i l :
  descending key l -> descending key (remove_at i l).
Proof.
  unfold remove_at. intros Hs. rewrite <- (take_drop i l) in Hs.
  apply descending_app in Hs as (S1 & S2 & S3). apply descending_app.
  replace (S i) with (i + 1)%nat by lia. rewrite <- drop_drop.
  rewrite <- (take_drop 1 (drop i l)) in S2, S3. apply descending_app in S2 as (_ & S2 & _).
  split_and!; [done|done|]. intros x y Hx Hy. apply S3; [done|]. apply elem_of_app. by right.
Qed.

(** ** The first element of a list that satisfies a test *)

Lemma find_app {A} (p : A -> bool) (l k : list A) :
  find p (l ++ k) = match find p l with Some x => Some x | None => find p k end.
Proof. induction l as [|x l IH]; [done|]. cbn. by destruct (p x). Qed.

Lemma find_all_false {A} (p : A -> bool) (l : list A) :
  (forall x, x ∈ l -> p x = false) -> find p l = None.
Proof.
  induction l as [|x l IH]; intros H; [done|]. cbn. rewrite H by by left. apply IH. intros y Hy.
  apply H. by right.
Qed.

(** ** Proof automation *)
Create HintDb lagopus discriminated.
#[export] Hint Resolve memcmp_eq_refl : lagopus.

(** Case analysis on the tests of an executable definition. *)
Ltac case_tests :=
  repeat match goal with
  | |- context [if ?b then _ else _] => destruct b eqn:?
  | |- context [match ?x with Some _ => _ | None => _ end] => destruct x eqn:?
  end.

(** Split conjunctions and equations of pairs and options in the context. *)
Ltac inv_pairs :=
  repeat match goal with
  | H : (_, _) = (_, _) |- _ => injection H as ?; subst
  | H : Some _ = Some _ |- _ => injection H as ?; subst
  | H : _ /\ _ |- _ => destruct H
  end.
