(* ===== verification/Monad.v ===== *)
(** * The state monad of the modelled programs

    Code that touches memory is written in a state monad whose outcome is [Undefined] where the
    C program accesses memory it must not or fails an assertion, and [OutOfFuel] where a
    recursion is cut. *)
From S2P Require Import Prelude.

(** ** Outcomes and the state monad *)

Inductive outcome (A : Type) :=
  | Done (a : A)
  | Undefined
  | OutOfFuel.
Arguments Done {A} a.
Arguments Undefined {A}.
Arguments OutOfFuel {A}.

Definition M (S A : Type) : Type := S -> outcome (A * S).

#[global] Instance M_ret {S} : MRet (M S) := fun A a s => Done (a, s).
#[global] Instance M_bind {S} : MBind (M S) := fun A B k m s =>
  match m s with
  | Done (a, s') => k a s'
  | Undefined => Undefined
  | OutOfFuel => OutOfFuel
  end.

Section Monad.
Context {S : Type}.

Definition undefined {A} : M S A := fun _ => Undefined.
Definition out_of_fuel {A} : M S A := fun _ => OutOfFuel.
Definition get : M S S := fun s => Done (s, s).
Definition gets {A} (f : S -> A) : M S A := fun s => Done (f s, s).
Definition modify (f : S -> S) : M S unit := fun s => Done (tt, f s).
Definition assert (b : bool) : M S unit := if b then mret tt else undefined.

End Monad.

(** ** Lemmas on the monad *)

Lemma bind_Done {S A B} (m : M S A) (k : A -> M S B) s a s' :
  m s = Done (a, s') -> (m ≫= k) s = k a s'.
Proof. intros E. unfold mbind, M_bind. by rewrite E. Qed.

Lemma bind_Undefined {S A B} (m : M S A) (k : A -> M S B) s :
  m s = Undefined -> (m ≫= k) s = Undefined.
Proof. intros E. unfold mbind, M_bind. by rewrite E. Qed.

Lemma bind_inv {S A B} (m : M S A) (k : A -> M S B) s b s' :
  (m ≫= k) s = Done (b, s') -> exists a s1, m s = Done (a, s1) /\ k a s1 = Done (b, s').
Proof. unfold mbind, M_bind. destruct (m s) as [[a s1]| |]; [eauto|done|done]. Qed.

Lemma bind_bind {S A B C} (m : M S A) (f : A -> M S B) (g : B -> M S C) s :
  ((m ≫= f) ≫= g) s = (m ≫= fun x => f x ≫= g) s.
Proof. unfold mbind, M_bind. by destruct (m s) as [[]| |]. Qed.

Lemma bind_ret {S A B} (a : A) (k : A -> M S B) s : (mret a ≫= k) s = k a s.
Proof. done. Qed.
