(* ===== verification/OpenFlow.v ===== *)
(** * OpenFlow data as the switch stores it

    The constants of [src/include/openflow13.h] the modelled code tests, and the
    structures of [src/include/lagopus/flowdb.h]: matches, actions, instructions
    and flow entries.  Pointers between heap objects are references into a store
    ([ref]); a flow's [instruction] array points into its own instruction list,
    so its entries are positions of that list. *)
From S2P Require Import Prelude.

(** ** Constants *)
Definition OFPXMC_OPENFLOW_BASIC := 0x8000.
Definition OFPXMT_OFB_IN_PORT := 0.
Definition OFPXMT_OFB_IN_PHY_PORT := 1.
Definition OFPXMT_OFB_METADATA := 2.
Definition OFPXMT_OFB_ETH_DST := 3.
Definition OFPXMT_OFB_ETH_SRC := 4.
Definition OFPXMT_OFB_ETH_TYPE := 5.
Definition OFPXMT_OFB_VLAN_VID := 6.
Definition OFPXMT_OFB_VLAN_PCP := 7.
Definition OFPXMT_OFB_IP_DSCP := 8.
Definition OFPXMT_OFB_IP_ECN := 9.
Definition OFPXMT_OFB_IP_PROTO := 10.
Definition OFPXMT_OFB_IPV4_SRC := 11.
Definition OFPXMT_OFB_IPV4_DST := 12.
Definition OFPXMT_OFB_TCP_SRC := 13.
Definition OFPXMT_OFB_TCP_DST := 14.
Definition OFPXMT_OFB_UDP_SRC := 15.
Definition OFPXMT_OFB_UDP_DST := 16.
Definition OFPXMT_OFB_SCTP_SRC := 17.
Definition OFPXMT_OFB_SCTP_DST := 18.
Definition OFPXMT_OFB_ICMPV4_TYPE := 19.
Definition OFPXMT_OFB_ICMPV4_CODE := 20.
Definition OFPXMT_OFB_ARP_OP := 21.
Definition OFPXMT_OFB_ARP_SPA := 22.
Definition OFPXMT_OFB_ARP_TPA := 23.
Definition OFPXMT_OFB_ARP_SHA := 24.
Definition OFPXMT_OFB_ARP_THA := 25.
Definition OFPXMT_OFB_IPV6_SRC := 26.
Definition OFPXMT_OFB_IPV6_DST := 27.
Definition OFPXMT_OFB_IPV6_FLABEL := 28.
Definition OFPXMT_OFB_ICMPV6_TYPE := 29.
Definition OFPXMT_OFB_ICMPV6_CODE := 30.
Definition OFPXMT_OFB_IPV6_ND_TARGET := 31.
Definition OFPXMT_OFB_IPV6_ND_SLL := 32.
Definition OFPXMT_OFB_IPV6_ND_TLL := 33.
Definition OFPXMT_OFB_MPLS_LABEL := 34.
Definition OFPXMT_OFB_MPLS_TC := 35.
Definition OFPXMT_OFB_MPLS_BOS := 36.
Definition OFPXMT_OFB_PBB_ISID := 37.
Definition OFPXMT_OFB_TUNNEL_ID := 38.
Definition OFPXMT_OFB_IPV6_EXTHDR := 39.
Definition OFPXMT_OFB_PACKET_TYPE := 42.
Definition OFPXMT_OFB_GRE_FLAGS := 43.
Definition OFPXMT_OFB_GRE_VER := 44.
Definition OFPXMT_OFB_GRE_PROTOCOL := 45.
Definition OFPXMT_OFB_GRE_KEY := 46.
Definition OFPXMT_OFB_VXLAN_FLAGS := 51.
Definition OFPXMT_OFB_VXLAN_VNI := 52.
Definition OFPXMT_OFB_GTPU_FLAGS := 61.
Definition OFPXMT_OFB_GTPU_VER := 62.
Definition OFPXMT_OFB_GTPU_MSGTYPE := 63.
Definition OFPXMT_OFB_GTPU_TEID := 64.
Definition OFPVID_PRESENT := 0x1000.

Definition OFPP_IN_PORT := 0xfffffff8.
Definition OFPP_TABLE := 0xfffffff9.
Definition OFPP_NORMAL := 0xfffffffa.
Definition OFPP_FLOOD := 0xfffffffb.
Definition OFPP_ALL := 0xfffffffc.
Definition OFPP_CONTROLLER := 0xfffffffd.
Definition OFPP_LOCAL := 0xfffffffe.
Definition OFPP_ANY := 0xffffffff.

Definition OFPIT_GOTO_TABLE := 1.
Definition OFPIT_WRITE_METADATA := 2.
Definition OFPIT_WRITE_ACTIONS := 3.
Definition OFPIT_APPLY_ACTIONS := 4.
Definition OFPIT_CLEAR_ACTIONS := 5.
Definition OFPIT_METER := 6.
Definition OFPIT_EXPERIMENTER := 0xFFFF.

Definition OFPAT_OUTPUT := 0.
Definition OFPAT_COPY_TTL_OUT := 11.
Definition OFPAT_COPY_TTL_IN := 12.
Definition OFPAT_SET_MPLS_TTL := 15.
Definition OFPAT_DEC_MPLS_TTL := 16.
Definition OFPAT_PUSH_VLAN := 17.
Definition OFPAT_POP_VLAN := 18.
Definition OFPAT_PUSH_MPLS := 19.
Definition OFPAT_POP_MPLS := 20.
Definition OFPAT_SET_QUEUE := 21.
Definition OFPAT_GROUP := 22.
Definition OFPAT_SET_NW_TTL := 23.
Definition OFPAT_DEC_NW_TTL := 24.
Definition OFPAT_SET_FIELD := 25.
Definition OFPAT_PUSH_PBB := 26.
Definition OFPAT_POP_PBB := 27.
Definition OFPAT_ENCAP := 28.
Definition OFPAT_DECAP := 29.
Definition OFPAT_EXPERIMENTER := 0xffff.

Definition OPENFLOW_VERSION_1_3 := 0x04.
Definition OFPMT_OXM := 1.
Definition OFPPPT_PROP_PORT_NAME := 1.

Definition OFPTT_MAX := 0xfe.
Definition OFPTT_ALL := 0xff.

Definition OFPFC_ADD := 0.
Definition OFPFC_MODIFY := 1.
Definition OFPFC_MODIFY_STRICT := 2.
Definition OFPFC_DELETE := 3.
Definition OFPFC_DELETE_STRICT := 4.

(** Commands and types of groups, commands and flags of meters. *)
Definition OFPGC_ADD := 0.
Definition OFPGC_MODIFY := 1.
Definition OFPGC_DELETE := 2.
Definition OFPGT_ALL := 0.
Definition OFPGT_SELECT := 1.
Definition OFPGT_INDIRECT := 2.
Definition OFPGT_FF := 3.
Definition OFPMC_ADD := 0.
Definition OFPMC_MODIFY := 1.
Definition OFPMC_DELETE := 2.
Definition OFPMF_KBPS := 1.
Definition OFPMF_PKTPS := 2.
Definition OFPMF_BURST := 4.
Definition OFPMF_STATS := 8.

Definition OFPFF_SEND_FLOW_REM := 1.
Definition OFPFF_CHECK_OVERLAP := 2.
Definition OFPFF_RESET_COUNTS := 4.
Definition OFPFF_NO_PKT_COUNTS := 8.
Definition OFPFF_NO_BYT_COUNTS := 16.

Definition OFPG_ALL := 0xfffffffc.
Definition OFPG_ANY := 0xffffffff.
Definition OFPM_ALL := 0xffffffff.

Definition OFPRR_IDLE_TIMEOUT := 0.
Definition OFPRR_HARD_TIMEOUT := 1.
Definition OFPRR_DELETE := 2.
Definition OFPRR_GROUP_DELETE := 3.

Definition ETHERTYPE_IP := 0x0800.
Definition ETHERTYPE_ARP := 0x0806.
Definition ETHERTYPE_VLAN := 0x8100.
Definition ETHERTYPE_IPV6 := 0x86dd.
Definition ETHERTYPE_MPLS := 0x8847.
Definition ETHERTYPE_MPLS_MCAST := 0x8848.
Definition ETHERTYPE_PBB := 0x88e7.
Definition ETHERTYPE_QINQ := 0x88a8.

(** [struct ofp_error] as (type, code) with the values of openflow13.h. *)
Definition ofp_error := (Z * Z)%type.
Definition OFPET_BAD_REQUEST := 1.
Definition OFPET_BAD_ACTION := 2.
Definition OFPET_BAD_INSTRUCTION := 3.
Definition OFPET_BAD_MATCH := 4.
Definition OFPET_FLOW_MOD_FAILED := 5.
Definition OFPET_GROUP_MOD_FAILED := 6.
Definition OFPET_ROLE_REQUEST_FAILED := 11.
Definition OFPET_METER_MOD_FAILED := 12.
Definition OFPBRC_BAD_VERSION := 0.
Definition OFPBRC_BAD_TYPE := 1.
Definition OFPBRC_BAD_EXPERIMENTER := 3.
Definition OFPBRC_BAD_LEN := 6.
Definition OFPBRC_BAD_TABLE_ID := 9.
Definition OFPBRC_IS_SLAVE := 10.
Definition OFPBAC_BAD_TYPE := 0.
Definition OFPBAC_BAD_LEN := 1.
Definition OFPBAC_BAD_OUT_PORT := 4.
Definition OFPBAC_BAD_OUT_GROUP := 9.
Definition OFPBAC_BAD_SET_TYPE := 13.
Definition OFPBAC_BAD_SET_LEN := 14.
Definition OFPBIC_UNKNOWN_INST := 0.
Definition OFPBIC_UNSUP_INST := 1.
Definition OFPBIC_BAD_TABLE_ID := 2.
Definition OFPBIC_BAD_LEN := 7.
Definition OFPBMC_BAD_TYPE := 0.
Definition OFPBMC_BAD_LEN := 1.
Definition OFPBMC_BAD_WILDCARDS := 5.
Definition OFPBMC_BAD_FIELD := 6.
Definition OFPBMC_BAD_PREREQ := 9.
Definition OFPBMC_DUP_FIELD := 10.
Definition OFPFMFC_UNKNOWN := 0.
Definition OFPFMFC_BAD_TABLE_ID := 2.
Definition OFPFMFC_OVERLAP := 3.
Definition OFPFMFC_BAD_COMMAND := 6.
Definition OFPFMFC_BAD_FLAGS := 7.
Definition OFPGMFC_GROUP_EXISTS := 0.
Definition OFPGMFC_LOOP := 7.
Definition OFPGMFC_UNKNOWN_GROUP := 8.
Definition OFPGMFC_BAD_TYPE := 10.
Definition OFPGMFC_BAD_COMMAND := 11.
Definition OFPGMFC_BAD_BUCKET := 12.
Definition OFPRRFC_STALE := 0.
Definition OFPRRFC_BAD_ROLE := 2.
Definition OFPMMFC_METER_EXISTS := 1.
Definition OFPMMFC_INVALID_METER := 2.
Definition OFPMMFC_UNKNOWN_METER := 3.
Definition OFPMMFC_BAD_COMMAND := 4.
Definition OFPMMFC_BAD_FLAGS := 5.
Definition OFPMMFC_BAD_BAND := 8.

(** ** Structures *)

(** References to heap objects (flows). *)
Abbreviation ref := nat (only parsing).

(** [struct timespec]: seconds and nanoseconds. *)
Definition timespec := (Z * Z)%type.

(** A slot of a timer's entry array: the timer's identity and the index. *)
Definition timer_ref := (nat * nat)%type.

(** [struct match] *)
Record match_ := Match {
  except_flag : bool;
  oxm_class : Z;
  oxm_field : Z;
  oxm_length : Z;
  oxm_value : bytes
}.

(** [OXM_FIELD_TYPE], [OXM_FIELD_MASK] and the value length of a match. *)
Definition OXM_FIELD_TYPE (field : Z) : Z := Z.shiftr field 1.
Definition OXM_FIELD_HAS_MASK (field : Z) : bool := negb (Z.land field 1 =? 0).
Definition FIELD (n : Z) : Z := Z.shiftl n 1.
Definition FIELD_WITH_MASK (n : Z) : Z := Z.shiftl n 1 + 1.

(** [struct byteoff_match]: which bytes of a header are compared, with what. *)
Record byteoff_match := ByteoffMatch {
  bo_bits : Z;
  bo_bytes : bytes;
  bo_masks : bytes
}.

Definition byteoff_zero : byteoff_match := ByteoffMatch 0 (replicate 32 0) (replicate 32 0).

(** The indices of [pkt->base] and of [flow->byteoff_match]. *)
Definition OOB_BASE := 0%nat.
Definition ETH_BASE := 1%nat.
Definition PBB_BASE := 2%nat.
Definition MPLS_BASE := 3%nat.
Definition L3_BASE := 4%nat.
Definition IPPROTO_BASE := 5%nat.
Definition L4_BASE := 6%nat.
Definition L4P_BASE := 7%nat.
Definition OOB2_BASE := 8%nat.
Definition V6SRC_BASE := 9%nat.
Definition V6DST_BASE := 10%nat.
Definition NDSLL_BASE := 11%nat.
Definition NDTLL_BASE := 12%nat.
Definition MAX_BASE := 13%nat.

(** The action header with the payload the modelled code reads through casts to the
    structures of [openflow13.h]; every other action is its type. *)
Inductive ofp_action :=
  | ofp_action_output (port max_len : Z)
  | ofp_action_group (group_id : Z)
  | ofp_action_set_field (field : bytes)
  | ofp_action_push (type ethertype : Z)
  | ofp_action_pop_mpls (ethertype : Z)
  | ofp_action_mpls_ttl (mpls_ttl : Z)
  | ofp_action_nw_ttl (nw_ttl : Z)
  | ofp_action_set_queue (queue_id : Z)
  | ofp_action_encap (packet_type : Z)
  | ofp_action_decap (cur_pkt_type new_pkt_type : Z)
  | ofp_action_other (type : Z).

Definition ofpat_type (a : ofp_action) : Z :=
  match a with
  | ofp_action_output _ _ => OFPAT_OUTPUT
  | ofp_action_group _ => OFPAT_GROUP
  | ofp_action_set_field _ => OFPAT_SET_FIELD
  | ofp_action_push type _ => type
  | ofp_action_pop_mpls _ => OFPAT_POP_MPLS
  | ofp_action_mpls_ttl _ => OFPAT_SET_MPLS_TTL
  | ofp_action_nw_ttl _ => OFPAT_SET_NW_TTL
  | ofp_action_set_queue _ => OFPAT_SET_QUEUE
  | ofp_action_encap _ => OFPAT_ENCAP
  | ofp_action_decap _ _ => OFPAT_DECAP
  | ofp_action_other type => type
  end.

(** [struct action]; [act_exec] is the type whose handler the register hook
    installed, [None] before. *)
Record action := Action {
  act_exec : option Z;
  act_cookie : Z;
  act_flags : Z;
  act_ofpat : ofp_action
}.

Definition SET_FIELD_ETH_DST := 1.
Definition SET_FIELD_ETH_SRC := 2.
Definition OUTPUT_PACKET := 4.
Definition OUTPUT_COPIED_PACKET := 8.

(** [struct instruction]: the union is read according to [type]. *)
Record instruction := Instruction {
  ins_type : Z;
  ins_table_id : Z;
  ins_metadata : Z;
  ins_metadata_mask : Z;
  ins_meter_id : Z;
  ins_action_list : list action;
  ins_exec : option Z
}.

Definition INSTRUCTION_INDEX_METER := 0%nat.
Definition INSTRUCTION_INDEX_APPLY_ACTIONS := 1%nat.
Definition INSTRUCTION_INDEX_CLEAR_ACTIONS := 2%nat.
Definition INSTRUCTION_INDEX_WRITE_ACTIONS := 3%nat.
Definition INSTRUCTION_INDEX_WRITE_METADATA := 4%nat.
Definition INSTRUCTION_INDEX_GOTO_TABLE := 5%nat.
Definition INSTRUCTION_INDEX_MAX := 6%nat.

(** [struct flow] *)
Record flow := Flow {
  fl_byteoff_match : list byteoff_match;
  fl_instruction : list (option nat);
  fl_packet_count : Z;
  fl_byte_count : Z;
  fl_flags : Z;
  fl_priority : Z;
  fl_cookie : Z;
  fl_idle_timeout : Z;
  fl_hard_timeout : Z;
  fl_match_list : list match_;
  fl_instruction_list : list instruction;
  fl_field_bits : Z;
  fl_table_id : Z;
  fl_create_time : timespec;
  fl_update_time : timespec;
  fl_flow_timer : option timer_ref
}.

Definition set_fl_byteoff_match (v : list byteoff_match) (f : flow) : flow :=
  Flow v f.(fl_instruction) f.(fl_packet_count) f.(fl_byte_count) f.(fl_flags)
    f.(fl_priority) f.(fl_cookie) f.(fl_idle_timeout) f.(fl_hard_timeout)
    f.(fl_match_list) f.(fl_instruction_list) f.(fl_field_bits)
    f.(fl_table_id) f.(fl_create_time) f.(fl_update_time) f.(fl_flow_timer).
Definition set_fl_instruction (v : list (option nat)) (f : flow) : flow :=
  Flow f.(fl_byteoff_match) v f.(fl_packet_count) f.(fl_byte_count)
    f.(fl_flags) f.(fl_priority) f.(fl_cookie) f.(fl_idle_timeout)
    f.(fl_hard_timeout) f.(fl_match_list) f.(fl_instruction_list)
    f.(fl_field_bits) f.(fl_table_id) f.(fl_create_time) f.(fl_update_time)
    f.(fl_flow_timer).
Definition set_fl_packet_count (v : Z) (f : flow) : flow :=
  Flow f.(fl_byteoff_match) f.(fl_instruction) v f.(fl_byte_count)
    f.(fl_flags) f.(fl_priority) f.(fl_cookie) f.(fl_idle_timeout)
    f.(fl_hard_timeout) f.(fl_match_list) f.(fl_instruction_list)
    f.(fl_field_bits) f.(fl_table_id) f.(fl_create_time) f.(fl_update_time)
    f.(fl_flow_timer).
Definition set_fl_byte_count (v : Z) (f : flow) : flow :=
  Flow f.(fl_byteoff_match) f.(fl_instruction) f.(fl_packet_count) v
    f.(fl_flags) f.(fl_priority) f.(fl_cookie) f.(fl_idle_timeout)
    f.(fl_hard_timeout) f.(fl_match_list) f.(fl_instruction_list)
    f.(fl_field_bits) f.(fl_table_id) f.(fl_create_time) f.(fl_update_time)
    f.(fl_flow_timer).
Definition set_fl_match_list (v : list match_) (f : flow) : flow :=
  Flow f.(fl_byteoff_match) f.(fl_instruction) f.(fl_packet_count)
    f.(fl_byte_count) f.(fl_flags) f.(fl_priority) f.(fl_cookie)
    f.(fl_idle_timeout) f.(fl_hard_timeout) v f.(fl_instruction_list)
    f.(fl_field_bits) f.(fl_table_id) f.(fl_create_time) f.(fl_update_time)
    f.(fl_flow_timer).
Definition set_fl_instruction_list (v : list instruction) (f : flow) : flow :=
  Flow f.(fl_byteoff_match) f.(fl_instruction) f.(fl_packet_count)
    f.(fl_byte_count) f.(fl_flags) f.(fl_priority) f.(fl_cookie)
    f.(fl_idle_timeout) f.(fl_hard_timeout) f.(fl_match_list) v
    f.(fl_field_bits) f.(fl_table_id) f.(fl_create_time) f.(fl_update_time)
    f.(fl_flow_timer).
Definition set_fl_field_bits (v : Z) (f : flow) : flow :=
  Flow f.(fl_byteoff_match) f.(fl_instruction) f.(fl_packet_count)
    f.(fl_byte_count) f.(fl_flags) f.(fl_priority) f.(fl_cookie)
    f.(fl_idle_timeout) f.(fl_hard_timeout) f.(fl_match_list)
    f.(fl_instruction_list) v f.(fl_table_id) f.(fl_create_time)
    f.(fl_update_time) f.(fl_flow_timer).
Definition set_fl_table_id (v : Z) (f : flow) : flow :=
  Flow f.(fl_byteoff_match) f.(fl_instruction) f.(fl_packet_count)
    f.(fl_byte_count) f.(fl_flags) f.(fl_priority) f.(fl_cookie)
    f.(fl_idle_timeout) f.(fl_hard_timeout) f.(fl_match_list)
    f.(fl_instruction_list) f.(fl_field_bits) v f.(fl_create_time)
    f.(fl_update_time) f.(fl_flow_timer).
Definition set_fl_update_time (v : timespec) (f : flow) : flow :=
  Flow f.(fl_byteoff_match) f.(fl_instruction) f.(fl_packet_count)
    f.(fl_byte_count) f.(fl_flags) f.(fl_priority) f.(fl_cookie)
    f.(fl_idle_timeout) f.(fl_hard_timeout) f.(fl_match_list)
    f.(fl_instruction_list) f.(fl_field_bits) f.(fl_table_id)
    f.(fl_create_time) v f.(fl_flow_timer).
Definition set_fl_flow_timer (v : option timer_ref) (f : flow) : flow :=
  Flow f.(fl_byteoff_match) f.(fl_instruction) f.(fl_packet_count)
    f.(fl_byte_count) f.(fl_flags) f.(fl_priority) f.(fl_cookie)
    f.(fl_idle_timeout) f.(fl_hard_timeout) f.(fl_match_list)
    f.(fl_instruction_list) f.(fl_field_bits) f.(fl_table_id)
    f.(fl_create_time) f.(fl_update_time) v.

(** A block fresh from [calloc]. *)
Definition flow_zero : flow :=
  Flow (replicate MAX_BASE byteoff_zero) (replicate INSTRUCTION_INDEX_MAX None)
    0 0 0 0 0 0 0 [] [] 0 0 (0, 0) (0, 0) None.

#[global] Instance flow_inhabited : Inhabited flow := populate flow_zero.

(** The heap of flow entries.  The code dereferences flow pointers without a
    test; the model's total lookup yields a zeroed flow for a reference that is
    not in the heap, and the invariants exclude that case. *)
Abbreviation flow_heap := (gmap ref flow).

(** What the lookup structures read of a flow: the counters and the byte-offset
    match are not part of it. *)
Definition same_key (f g : flow) : Prop :=
  fl_priority f = fl_priority g /\ fl_field_bits f = fl_field_bits g /\
  map (fun m => (oxm_class m, oxm_field m, oxm_length m, oxm_value m)) (fl_match_list f) =
  map (fun m => (oxm_class m, oxm_field m, oxm_length m, oxm_value m)) (fl_match_list g).

#[global] Instance same_key_equiv : Equivalence same_key.
Proof.
  split; unfold same_key.
  - intros f. auto.
  - intros f g. intuition.
  - intros f g h (H1 & H2 & H3) (H4 & H5 & H6). split_and!; congruence.
Qed.
