(* ===== verification/Packet.v ===== *)
(** * Packets and their classification

    [struct lagopus_packet] of [src/dataplane/ofproto/packet.h] and the functions
    of [datapath.c] that find the protocol headers of a received frame
    ([classify_packet_l2], [_ipv4], [_ipv6], [_l4], [lagopus_packet_init]).

    A header pointer is an offset into the frame or the address of one of the
    two out-of-band blocks of the packet structure; a load past the end of the
    frame yields 0.  Words are kept as the host (little-endian) holds them, so
    that a field in network order is the raw loaded word. *)
From S2P Require Import Prelude OpenFlow.

Inductive ptr :=
  | PData (off : nat)
  | POob
  | POob2.

Record lagopus_packet := Packet {
  pk_data : bytes;
  pk_hash64 : Z;
  pk_nmatched : nat;
  pk_matched_flow : list ref;
  pk_table_id : Z;
  pk_flow : option ref;
  pk_in_port : Z;
  pk_ether_type : Z;
  oob_metadata : Z;
  oob_in_port : Z;
  oob_in_phy_port : Z;
  oob_packet_type : Z;
  oob_ether_type : Z;
  oob_vlan_tci : Z;
  oob2_tunnel_id : Z;
  oob2_ipv6_exthdr : Z;
  pk_vlan : option nat;
  pk_base : list (option ptr);
  pk_actions : list (list action);
  pk_flags : Z
}.

Definition set_pk_data (v : bytes) (p : lagopus_packet) : lagopus_packet :=
  Packet v p.(pk_hash64) p.(pk_nmatched) p.(pk_matched_flow) p.(pk_table_id)
    p.(pk_flow) p.(pk_in_port) p.(pk_ether_type) p.(oob_metadata)
    p.(oob_in_port) p.(oob_in_phy_port) p.(oob_packet_type) p.(oob_ether_type)
    p.(oob_vlan_tci) p.(oob2_tunnel_id) p.(oob2_ipv6_exthdr) p.(pk_vlan)
    p.(pk_base) p.(pk_actions) p.(pk_flags).
Definition set_pk_hash64 (v : Z) (p : lagopus_packet) : lagopus_packet :=
  Packet p.(pk_data) v p.(pk_nmatched) p.(pk_matched_flow) p.(pk_table_id)
    p.(pk_flow) p.(pk_in_port) p.(pk_ether_type) p.(oob_metadata)
    p.(oob_in_port) p.(oob_in_phy_port) p.(oob_packet_type) p.(oob_ether_type)
    p.(oob_vlan_tci) p.(oob2_tunnel_id) p.(oob2_ipv6_exthdr) p.(pk_vlan)
    p.(pk_base) p.(pk_actions) p.(pk_flags).
Definition set_pk_nmatched (v : nat) (p : lagopus_packet) : lagopus_packet :=
  Packet p.(pk_data) p.(pk_hash64) v p.(pk_matched_flow) p.(pk_table_id)
    p.(pk_flow) p.(pk_in_port) p.(pk_ether_type) p.(oob_metadata)
    p.(oob_in_port) p.(oob_in_phy_port) p.(oob_packet_type) p.(oob_ether_type)
    p.(oob_vlan_tci) p.(oob2_tunnel_id) p.(oob2_ipv6_exthdr) p.(pk_vlan)
    p.(pk_base) p.(pk_actions) p.(pk_flags).
Definition set_pk_matched_flow (v : list ref) (p : lagopus_packet) : lagopus_packet :=
  Packet p.(pk_data) p.(pk_hash64) p.(pk_nmatched) v p.(pk_table_id)
    p.(pk_flow) p.(pk_in_port) p.(pk_ether_type) p.(oob_metadata)
    p.(oob_in_port) p.(oob_in_phy_port) p.(oob_packet_type) p.(oob_ether_type)
    p.(oob_vlan_tci) p.(oob2_tunnel_id) p.(oob2_ipv6_exthdr) p.(pk_vlan)
    p.(pk_base) p.(pk_actions) p.(pk_flags).
Definition set_pk_table_id (v : Z) (p : lagopus_packet) : lagopus_packet :=
  Packet p.(pk_data) p.(pk_hash64) p.(pk_nmatched) p.(pk_matched_flow) v
    p.(pk_flow) p.(pk_in_port) p.(pk_ether_type) p.(oob_metadata)
    p.(oob_in_port) p.(oob_in_phy_port) p.(oob_packet_type) p.(oob_ether_type)
    p.(oob_vlan_tci) p.(oob2_tunnel_id) p.(oob2_ipv6_exthdr) p.(pk_vlan)
    p.(pk_base) p.(pk_actions) p.(pk_flags).
Definition set_pk_flow (v : option ref) (p : lagopus_packet) : lagopus_packet :=
  Packet p.(pk_data) p.(pk_hash64) p.(pk_nmatched) p.(pk_matched_flow)
    p.(pk_table_id) v p.(pk_in_port) p.(pk_ether_type) p.(oob_metadata)
    p.(oob_in_port) p.(oob_in_phy_port) p.(oob_packet_type) p.(oob_ether_type)
    p.(oob_vlan_tci) p.(oob2_tunnel_id) p.(oob2_ipv6_exthdr) p.(pk_vlan)
    p.(pk_base) p.(pk_actions) p.(pk_flags).
Definition set_pk_in_port (v : Z) (p : lagopus_packet) : lagopus_packet :=
  Packet p.(pk_data) p.(pk_hash64) p.(pk_nmatched) p.(pk_matched_flow)
    p.(pk_table_id) p.(pk_flow) v p.(pk_ether_type) p.(oob_metadata)
    p.(oob_in_port) p.(oob_in_phy_port) p.(oob_packet_type) p.(oob_ether_type)
    p.(oob_vlan_tci) p.(oob2_tunnel_id) p.(oob2_ipv6_exthdr) p.(pk_vlan)
    p.(pk_base) p.(pk_actions) p.(pk_flags).
Definition set_pk_ether_type (v : Z) (p : lagopus_packet) : lagopus_packet :=
  Packet p.(pk_data) p.(pk_hash64) p.(pk_nmatched) p.(pk_matched_flow)
    p.(pk_table_id) p.(pk_flow) p.(pk_in_port) v p.(oob_metadata)
    p.(oob_in_port) p.(oob_in_phy_port) p.(oob_packet_type) p.(oob_ether_type)
    p.(oob_vlan_tci) p.(oob2_tunnel_id) p.(oob2_ipv6_exthdr) p.(pk_vlan)
    p.(pk_base) p.(pk_actions) p.(pk_flags).
Definition set_oob_metadata (v : Z) (p : lagopus_packet) : lagopus_packet :=
  Packet p.(pk_data) p.(pk_hash64) p.(pk_nmatched) p.(pk_matched_flow)
    p.(pk_table_id) p.(pk_flow) p.(pk_in_port) p.(pk_ether_type) v
    p.(oob_in_port) p.(oob_in_phy_port) p.(oob_packet_type) p.(oob_ether_type)
    p.(oob_vlan_tci) p.(oob2_tunnel_id) p.(oob2_ipv6_exthdr) p.(pk_vlan)
    p.(pk_base) p.(pk_actions) p.(pk_flags).
Definition set_oob_in_port (v : Z) (p : lagopus_packet) : lagopus_packet :=
  Packet p.(pk_data) p.(pk_hash64) p.(pk_nmatched) p.(pk_matched_flow)
    p.(pk_table_id) p.(pk_flow) p.(pk_in_port) p.(pk_ether_type)
    p.(oob_metadata) v p.(oob_in_phy_port) p.(oob_packet_type)
    p.(oob_ether_type) p.(oob_vlan_tci) p.(oob2_tunnel_id)
    p.(oob2_ipv6_exthdr) p.(pk_vlan) p.(pk_base) p.(pk_actions) p.(pk_flags).
Definition set_oob_in_phy_port (v : Z) (p : lagopus_packet) : lagopus_packet :=
  Packet p.(pk_data) p.(pk_hash64) p.(pk_nmatched) p.(pk_matched_flow)
    p.(pk_table_id) p.(pk_flow) p.(pk_in_port) p.(pk_ether_type)
    p.(oob_metadata) p.(oob_in_port) v p.(oob_packet_type) p.(oob_ether_type)
    p.(oob_vlan_tci) p.(oob2_tunnel_id) p.(oob2_ipv6_exthdr) p.(pk_vlan)
    p.(pk_base) p.(pk_actions) p.(pk_flags).
Definition set_oob_packet_type (v : Z) (p : lagopus_packet) : lagopus_packet :=
  Packet p.(pk_data) p.(pk_hash64) p.(pk_nmatched) p.(pk_matched_flow)
    p.(pk_table_id) p.(pk_flow) p.(pk_in_port) p.(pk_ether_type)
    p.(oob_metadata) p.(oob_in_port) p.(oob_in_phy_port) v p.(oob_ether_type)
    p.(oob_vlan_tci) p.(oob2_tunnel_id) p.(oob2_ipv6_exthdr) p.(pk_vlan)
    p.(pk_base) p.(pk_actions) p.(pk_flags).
Definition set_oob_ether_type (v : Z) (p : lagopus_packet) : lagopus_packet :=
  Packet p.(pk_data) p.(pk_hash64) p.(pk_nmatched) p.(pk_matched_flow)
    p.(pk_table_id) p.(pk_flow) p.(pk_in_port) p.(pk_ether_type)
    p.(oob_metadata) p.(oob_in_port) p.(oob_in_phy_port) p.(oob_packet_type) v
    p.(oob_vlan_tci) p.(oob2_tunnel_id) p.(oob2_ipv6_exthdr) p.(pk_vlan)
    p.(pk_base) p.(pk_actions) p.(pk_flags).
Definition set_oob_vlan_tci (v : Z) (p : lagopus_packet) : lagopus_packet :=
  Packet p.(pk_data) p.(pk_hash64) p.(pk_nmatched) p.(pk_matched_flow)
    p.(pk_table_id) p.(pk_flow) p.(pk_in_port) p.(pk_ether_type)
    p.(oob_metadata) p.(oob_in_port) p.(oob_in_phy_port) p.(oob_packet_type)
    p.(oob_ether_type) v p.(oob2_tunnel_id) p.(oob2_ipv6_exthdr) p.(pk_vlan)
    p.(pk_base) p.(pk_actions) p.(pk_flags).
Definition set_oob2_tunnel_id (v : Z) (p : lagopus_packet) : lagopus_packet :=
  Packet p.(pk_data) p.(pk_hash64) p.(pk_nmatched) p.(pk_matched_flow)
    p.(pk_table_id) p.(pk_flow) p.(pk_in_port) p.(pk_ether_type)
    p.(oob_metadata) p.(oob_in_port) p.(oob_in_phy_port) p.(oob_packet_type)
    p.(oob_ether_type) p.(oob_vlan_tci) v p.(oob2_ipv6_exthdr) p.(pk_vlan)
    p.(pk_base) p.(pk_actions) p.(pk_flags).
Definition set_oob2_ipv6_exthdr (v : Z) (p : lagopus_packet) : lagopus_packet :=
  Packet p.(pk_data) p.(pk_hash64) p.(pk_nmatched) p.(pk_matched_flow)
    p.(pk_table_id) p.(pk_flow) p.(pk_in_port) p.(pk_ether_type)
    p.(oob_metadata) p.(oob_in_port) p.(oob_in_phy_port) p.(oob_packet_type)
    p.(oob_ether_type) p.(oob_vlan_tci) p.(oob2_tunnel_id) v p.(pk_vlan)
    p.(pk_base) p.(pk_actions) p.(pk_flags).
Definition set_pk_vlan (v : option nat) (p : lagopus_packet) : lagopus_packet :=
  Packet p.(pk_data) p.(pk_hash64) p.(pk_nmatched) p.(pk_matched_flow)
    p.(pk_table_id) p.(pk_flow) p.(pk_in_port) p.(pk_ether_type)
    p.(oob_metadata) p.(oob_in_port) p.(oob_in_phy_port) p.(oob_packet_type)
    p.(oob_ether_type) p.(oob_vlan_tci) p.(oob2_tunnel_id)
    p.(oob2_ipv6_exthdr) v p.(pk_base) p.(pk_actions) p.(pk_flags).
Definition set_pk_base (v : list (option ptr)) (p : lagopus_packet) : lagopus_packet :=
  Packet p.(pk_data) p.(pk_hash64) p.(pk_nmatched) p.(pk_matched_flow)
    p.(pk_table_id) p.(pk_flow) p.(pk_in_port) p.(pk_ether_type)
    p.(oob_metadata) p.(oob_in_port) p.(oob_in_phy_port) p.(oob_packet_type)
    p.(oob_ether_type) p.(oob_vlan_tci) p.(oob2_tunnel_id)
    p.(oob2_ipv6_exthdr) p.(pk_vlan) v p.(pk_actions) p.(pk_flags).
Definition set_pk_actions (v : list (list action)) (p : lagopus_packet) : lagopus_packet :=
  Packet p.(pk_data) p.(pk_hash64) p.(pk_nmatched) p.(pk_matched_flow)
    p.(pk_table_id) p.(pk_flow) p.(pk_in_port) p.(pk_ether_type)
    p.(oob_metadata) p.(oob_in_port) p.(oob_in_phy_port) p.(oob_packet_type)
    p.(oob_ether_type) p.(oob_vlan_tci) p.(oob2_tunnel_id)
    p.(oob2_ipv6_exthdr) p.(pk_vlan) p.(pk_base) v p.(pk_flags).
Definition set_pk_flags (v : Z) (p : lagopus_packet) : lagopus_packet :=
  Packet p.(pk_data) p.(pk_hash64) p.(pk_nmatched) p.(pk_matched_flow)
    p.(pk_table_id) p.(pk_flow) p.(pk_in_port) p.(pk_ether_type)
    p.(oob_metadata) p.(oob_in_port) p.(oob_in_phy_port) p.(oob_packet_type)
    p.(oob_ether_type) p.(oob_vlan_tci) p.(oob2_tunnel_id)
    p.(oob2_ipv6_exthdr) p.(pk_vlan) p.(pk_base) p.(pk_actions) v.

(** The bytes of [struct oob_data] and [struct oob2_data] in memory. *)
Definition oob_bytes (p : lagopus_packet) : bytes :=
  le_bytes 8 (oob_metadata p) ++ le_bytes 4 (oob_in_port p) ++
  le_bytes 4 (oob_in_phy_port p) ++ le_bytes 4 (oob_packet_type p) ++
  le_bytes 2 (oob_ether_type p) ++ le_bytes 2 (oob_vlan_tci p).

Definition oob2_bytes (p : lagopus_packet) : bytes :=
  le_bytes 8 (oob2_tunnel_id p) ++ le_bytes 2 (oob2_ipv6_exthdr p).

(** The block a pointer refers to, from the pointed byte on. *)
Definition ptr_bytes (p : lagopus_packet) (x : ptr) : bytes :=
  match x with
  | PData off => drop off (pk_data p)
  | POob => oob_bytes p
  | POob2 => oob2_bytes p
  end.

Definition base_ptr (p : lagopus_packet) (b : nat) : option ptr := mjoin (pk_base p !! b).

Definition set_base (b : nat) (x : option ptr) (p : lagopus_packet) : lagopus_packet :=
  set_pk_base (<[b := x]> (pk_base p)) p.

(** The offset of a header; headers looked up this way are in the frame. *)
Definition base_off (p : lagopus_packet) (b : nat) : nat :=
  match base_ptr p b with Some (PData off) => off | _ => 0%nat end.

(** Loads relative to [pkt->base[b]]. *)
Definition base_bytes (p : lagopus_packet) (b : nat) : bytes :=
  match base_ptr p b with Some x => ptr_bytes p x | None => [] end.

(** Sizes and offsets of the headers. *)
Definition ETHER_HDR_size := 14%nat.
Definition VLAN_HDR_size := 4%nat.
Definition PBB_HDR_size := 18%nat.
Definition MPLS_HDR_size := 4%nat.
Definition IPV6_HDR_size := 40%nat.
Definition sizeof_pointer := 8%nat.

(** The loop that strips the inner VLAN and PBB headers.  The boolean is false
    when the function has to return at once (the frame is too short). *)
Fixpoint strip_l2 (fuel : nat) (pkt : lagopus_packet) (ether_type pktlen : Z)
    : option (lagopus_packet * Z * Z * bool) :=
  if (ether_type =? ETHERTYPE_VLAN) || (ether_type =? ETHERTYPE_PBB)
     || (ether_type =? ETHERTYPE_QINQ) then
    match fuel with
    | O => None
    | S fuel' =>
        let l3 := base_off pkt L3_BASE in
        let d := pk_data pkt in
        if ether_type =? ETHERTYPE_PBB then
          let ether_type := OS_NTOHS (rd16 d (l3 + 16)) in
          let pkt := match base_ptr pkt PBB_BASE with
                     | None => set_base PBB_BASE (Some (PData l3)) pkt
                     | Some _ => pkt
                     end in
          strip_l2 fuel' (set_base L3_BASE (Some (PData (l3 + PBB_HDR_size))) pkt)
            ether_type pktlen
        else
          let pktlen := pktlen - Z.of_nat VLAN_HDR_size in
          if pktlen <? 0 then Some (pkt, ether_type, pktlen, false)
          else
            let pkt := match pk_vlan pkt with
                       | None => set_oob_vlan_tci
                                   (Z.lor (rd16 d l3) (OS_HTONS OFPVID_PRESENT))
                                   (set_pk_vlan (Some l3) pkt)
                       | Some _ => pkt
                       end in
            strip_l2 fuel' (set_base L3_BASE (Some (PData (l3 + VLAN_HDR_size))) pkt)
              (OS_NTOHS (rd16 d (l3 + 2))) pktlen
    end
  else Some (pkt, ether_type, pktlen, true).

(** The fields [classify_packet_l2] resets, and the Ethernet header. *)
Definition classify_l2_reset (pkt : lagopus_packet) : lagopus_packet :=
  let pkt := set_pk_vlan None (set_oob_vlan_tci 0 pkt) in
  let pkt := set_base PBB_BASE None pkt in
  let pkt := set_base MPLS_BASE None pkt in
  let pkt := set_base IPPROTO_BASE None pkt in
  let pkt := set_base OOB_BASE (Some POob) pkt in
  let pkt := set_base OOB2_BASE (Some POob2) pkt in
  let pkt := set_base ETH_BASE (Some (PData 0)) pkt in
  set_base L3_BASE (Some (PData ETHER_HDR_size)) pkt.

(** The outermost tag; the PBB case advances by the size of a pointer to the
    header and not by the size of the header, as the source does. *)
Definition classify_l2_outer (pkt : lagopus_packet) : lagopus_packet * Z :=
  let d := pk_data pkt in
  let ether_type := OS_NTOHS (rd16 d 12) in
  let l3 := base_off pkt L3_BASE in
  if ether_type =? ETHERTYPE_PBB then
    let pkt := set_base PBB_BASE (Some (PData l3)) pkt in
    (set_base L3_BASE (Some (PData (l3 + sizeof_pointer))) pkt,
     OS_NTOHS (rd16 d (l3 + 16)))
  else if (ether_type =? ETHERTYPE_VLAN) || (ether_type =? ETHERTYPE_QINQ) then
    let pkt := set_pk_vlan (Some l3) pkt in
    let pkt := set_oob_vlan_tci (Z.lor (rd16 d l3) (OS_HTONS OFPVID_PRESENT)) pkt in
    (set_base L3_BASE (Some (PData (l3 + VLAN_HDR_size))) pkt,
     OS_NTOHS (rd16 d (l3 + 2)))
  else (pkt, ether_type).

(** The switch on the ethertype under the tags. *)
Definition classify_l2_inner (pkt : lagopus_packet) (ether_type pktlen : Z) : lagopus_packet :=
  let d := pk_data pkt in
  let l3 := base_off pkt L3_BASE in
  if (ether_type =? ETHERTYPE_MPLS) || (ether_type =? ETHERTYPE_MPLS_MCAST) then
    if pktlen - Z.of_nat MPLS_HDR_size <? 0 then pkt
    else
      let pkt := set_base MPLS_BASE (Some (PData l3)) pkt in
      let l3 := (l3 + MPLS_HDR_size)%nat in
      let pkt := set_base L3_BASE (Some (PData l3)) pkt in
      if (0x45 <=? rd8 d l3) && (rd8 d l3 <=? 0x4f) then set_pk_ether_type ETHERTYPE_IP pkt
      else if Z.land (rd8 d l3) 0xf0 =? 0x60 then set_pk_ether_type ETHERTYPE_IPV6 pkt
      else pkt
  else if ether_type =? ETHERTYPE_PBB then
    if pktlen - Z.of_nat PBB_HDR_size <? 0 then pkt
    else
      let pkt := set_base PBB_BASE (Some (PData l3)) pkt in
      let pkt := set_base L3_BASE (Some (PData (l3 + PBB_HDR_size))) pkt in
      set_pk_ether_type (OS_NTOHS (rd16 d (l3 + 16))) pkt
  else pkt.

(** Every turn of the loop moves the header pointer by at least four bytes, and
    a load past the frame ends it: the length of the frame is fuel enough
    ([strip_l2_total]). *)
Definition classify_packet_l2 (pkt : lagopus_packet) : lagopus_packet :=
  let pkt := classify_l2_reset pkt in
  let pktlen := Z.of_nat (length (pk_data pkt)) in
  let '(pkt, ether_type) := classify_l2_outer pkt in
  match strip_l2 (S (length (pk_data pkt))) pkt ether_type pktlen with
  | None => pkt
  | Some (pkt, ether_type, pktlen, false) => pkt
  | Some (pkt, ether_type, pktlen, true) =>
      let pkt := set_pk_ether_type ether_type pkt in
      let pkt := set_oob_ether_type (OS_HTONS ether_type) pkt in
      classify_l2_inner pkt ether_type pktlen
  end.

(** *** IPv4, IPv6 and the transport header *)

Definition IPPROTO_HOPOPTS := 0.
Definition IPPROTO_ICMP := 1.
Definition IPPROTO_TCP := 6.
Definition IPPROTO_UDP := 17.
Definition IPPROTO_ROUTING := 43.
Definition IPPROTO_FRAGMENT := 44.
Definition IPPROTO_ESP := 50.
Definition IPPROTO_AH := 51.
Definition IPPROTO_ICMPV6 := 58.
Definition IPPROTO_NONE := 59.
Definition IPPROTO_DSTOPTS := 60.
Definition IPPROTO_SCTP := 132.

Definition OFPIEH_NONEXT := 1.
Definition OFPIEH_ESP := 2.
Definition OFPIEH_AUTH := 4.
Definition OFPIEH_DEST := 8.
Definition OFPIEH_FRAG := 16.
Definition OFPIEH_ROUTER := 32.
Definition OFPIEH_HOP := 64.
Definition OFPIEH_UNREP := 128.
Definition OFPIEH_UNSEQ := 256.
Definition OFPIEH_AFTER_AH := Z.lor (Z.lor OFPIEH_ESP OFPIEH_DEST) OFPIEH_UNREP.
(** The macro joins its two flags with the logical or, whose value is 1. *)
Definition OFPIEH_AFTER_ESP :=
  if negb (OFPIEH_DEST =? 0) || negb (OFPIEH_UNREP =? 0) then 1 else 0.

Definition classify_packet_ipv4 (pkt : lagopus_packet) : lagopus_packet :=
  let l3 := base_off pkt L3_BASE in
  let ihl := Z.to_nat (Z.land (rd8 (pk_data pkt) l3) 0x0f) in
  let pkt := set_base IPPROTO_BASE (Some (PData (l3 + 9))) pkt in
  set_base L4_BASE (Some (PData (l3 + 4 * ihl))) pkt.

(** One extension header: the flags after it and the length of the header, or
    [None] when the protocol is not an extension header. *)
Definition ipv6_exthdr_step (flags proto hdrlen : Z) : option (Z * Z) :=
  let test m := negb (Z.land flags m =? 0) in
  let unseq b f := if b : bool then Z.lor f OFPIEH_UNSEQ else f in
  let unrep b f := if b : bool then Z.lor f OFPIEH_UNREP else f in
  let len8 := Z.shiftl (1 + hdrlen) 3 in
  if proto =? IPPROTO_HOPOPTS then
    let f := unseq (negb (flags =? 0)) flags in
    let f := unrep (negb (Z.land f OFPIEH_HOP =? 0)) f in
    Some (Z.lor f OFPIEH_HOP, len8)
  else if proto =? IPPROTO_ROUTING then
    let f := unseq (test (Z.lor (Z.lor OFPIEH_HOP OFPIEH_DEST) OFPIEH_UNREP)) flags in
    let f := unrep (negb (Z.land f OFPIEH_ROUTER =? 0)) f in
    Some (Z.lor f OFPIEH_ROUTER, len8)
  else if proto =? IPPROTO_FRAGMENT then
    let f := unseq (test (Z.lor (Z.lor (Z.lor OFPIEH_HOP OFPIEH_DEST) OFPIEH_ROUTER)
                            OFPIEH_UNREP)) flags in
    let f := unrep (negb (Z.land f OFPIEH_FRAG =? 0)) f in
    Some (Z.lor f OFPIEH_FRAG, 8)
  else if proto =? IPPROTO_AH then
    let f := unseq (test OFPIEH_AFTER_AH) flags in
    let f := unrep (negb (Z.land f OFPIEH_AUTH =? 0)) f in
    Some (Z.lor f OFPIEH_AUTH, Z.shiftl (2 + hdrlen) 2)
  else if proto =? IPPROTO_ESP then
    let f := unseq (test OFPIEH_AFTER_ESP) flags in
    let f := unrep (negb (Z.land f OFPIEH_ESP =? 0)) f in
    Some (Z.lor f OFPIEH_ESP, len8)
  else if proto =? IPPROTO_DSTOPTS then
    let f := unrep (test OFPIEH_DEST) flags in
    Some (Z.lor f OFPIEH_DEST, len8)
  else None.

(** The walk over the extension headers: (flags, proto pointer, next header
    pointer) when it ends. *)
Fixpoint ipv6_walk (fuel : nat) (d : bytes) (flags : Z) (proto next_hdr : nat) (pktlen : Z)
    : option (Z * nat * nat) :=
  if pktlen <=? 2 then Some (flags, proto, next_hdr)
  else
    match fuel with
    | O => None
    | S fuel' =>
        match ipv6_exthdr_step flags (rd8 d proto) (rd8 d (next_hdr + 1)) with
        | Some (flags, len) =>
            ipv6_walk fuel' d flags next_hdr (next_hdr + Z.to_nat len) (pktlen - len)
        | None =>
            if rd8 d proto =? IPPROTO_NONE then
              let flags := if negb (Z.land flags OFPIEH_NONEXT =? 0)
                           then Z.lor flags OFPIEH_UNREP else flags in
              Some (Z.lor flags OFPIEH_NONEXT, next_hdr, (next_hdr + 2)%nat)
            else Some (flags, proto, next_hdr)
        end
    end.

(** Each extension header is at least eight bytes long, so the remaining length
    bounds the number of turns ([ipv6_walk_total]). *)
Definition classify_packet_ipv6 (pkt : lagopus_packet) : lagopus_packet :=
  let d := pk_data pkt in
  let l3 := base_off pkt L3_BASE in
  let pkt := set_base V6SRC_BASE (Some (PData (l3 + 8))) pkt in
  let pkt := set_base V6DST_BASE (Some (PData (l3 + 24))) pkt in
  let pktlen := Z.of_nat (length d) - Z.of_nat (l3 - base_off pkt ETH_BASE) in
  match ipv6_walk (S (length d)) d 0 (l3 + 6) (l3 + IPV6_HDR_size) pktlen with
  | None => pkt
  | Some (flags, proto, next_hdr) =>
      let pkt := set_base IPPROTO_BASE (Some (PData proto)) pkt in
      let pkt := set_base L4_BASE (Some (PData next_hdr)) pkt in
      set_oob2_ipv6_exthdr (OS_HTONS flags) pkt
  end.

(** The neighbour-discovery option of type [ty] in the block from [nd_ptr]. *)
Fixpoint nd_option (fuel : nat) (d : bytes) (ty : Z) (nd_ptr end_ptr : nat) : option nat :=
  match fuel with
  | O => None
  | S fuel' =>
      if (nd_ptr <? end_ptr)%nat && negb (rd8 d (nd_ptr + 1) =? 0) then
        if rd8 d nd_ptr =? ty then Some nd_ptr
        else nd_option fuel' d ty
               (nd_ptr + Z.to_nat (Z.shiftl (rd8 d (nd_ptr + 1)) 3)) end_ptr
      else None
  end.

Definition classify_packet_l4 (pkt : lagopus_packet) : lagopus_packet :=
  let d := pk_data pkt in
  let l4 := base_off pkt L4_BASE in
  let proto := rd8 (base_bytes pkt IPPROTO_BASE) 0 in
  if proto =? IPPROTO_ICMPV6 then
    let pkt := set_base NDSLL_BASE None pkt in
    let pkt := set_base NDTLL_BASE None pkt in
    let plen := Z.to_nat (OS_NTOHS (rd16 d (base_off pkt L3_BASE + 4))) in
    let end_ptr := (l4 + plen)%nat in
    if rd8 d l4 =? 135 then
      match nd_option (S plen) d 1 (l4 + 24) end_ptr with
      | Some nd => set_base NDSLL_BASE (Some (PData nd)) pkt
      | None => pkt
      end
    else if rd8 d l4 =? 136 then
      match nd_option (S plen) d 2 (l4 + 24) end_ptr with
      | Some nd => set_base NDTLL_BASE (Some (PData nd)) pkt
      | None => pkt
      end
    else pkt
  else if proto =? IPPROTO_UDP then set_base L4P_BASE (Some (PData (l4 + 8))) pkt
  else if proto =? IPPROTO_TCP then set_base L4P_BASE (Some (PData (l4 + 20))) pkt
  else if proto =? IPPROTO_SCTP then set_base L4P_BASE (Some (PData (l4 + 2))) pkt
  else pkt.

Definition classify_l3l4 (pkt : lagopus_packet) : lagopus_packet :=
  if pk_ether_type pkt =? ETHERTYPE_IP then classify_packet_l4 (classify_packet_ipv4 pkt)
  else if pk_ether_type pkt =? ETHERTYPE_IPV6 then
    classify_packet_l4 (classify_packet_ipv6 pkt)
  else pkt.

Definition re_classify_packet (pkt : lagopus_packet) : lagopus_packet :=
  classify_l3l4 (classify_packet_l2 pkt).

(** [(OFPHTN_ONF << 16) | OFPHTO_ETHERNET], both 0. *)
Definition packet_type_ethernet := 0.

Definition classify_ether_packet (pkt : lagopus_packet) : lagopus_packet :=
  classify_l3l4 (set_oob_packet_type packet_type_ethernet (classify_packet_l2 pkt)).

Definition lagopus_packet_init (pkt : lagopus_packet) (port_no : Z) : lagopus_packet :=
  let pkt := set_pk_table_id 0 pkt in
  let pkt := set_oob_metadata 0 pkt in
  let pkt := set_oob2_tunnel_id 0 pkt in
  let pkt := set_pk_flags 0 pkt in
  let pkt := set_pk_nmatched 0 pkt in
  let pkt := set_pk_in_port port_no pkt in
  let pkt := set_oob_in_port (OS_HTONL port_no) pkt in
  let pkt := set_oob_in_phy_port (OS_HTONL port_no) pkt in
  classify_ether_packet pkt.

(** A packet structure before initialisation, around the frame [data]. *)
Definition packet_of (data : bytes) : lagopus_packet :=
  Packet data 0 0 [] 0 None 0 0 0 0 0 0 0 0 0 0 None (replicate MAX_BASE None)
    (replicate 11 []) 0.

(** ** Lemmas *)

(** The base array has its thirteen slots; every step keeps it so. *)
Definition packet_wf (p : lagopus_packet) : Prop := length (pk_base p) = MAX_BASE.

Lemma packet_of_wf d : packet_wf (packet_of d).
Proof. done. Qed.

Lemma set_base_wf b x p : packet_wf p -> packet_wf (set_base b x p).
Proof. unfold packet_wf, set_base. cbn. by rewrite length_insert. Qed.
#[export] Hint Resolve set_base_wf : lagopus.

Lemma base_ptr_set b b' x p :
  packet_wf p -> (b < MAX_BASE)%nat ->
  base_ptr (set_base b x p) b' = if decide (b' = b) then x else base_ptr p b'.
Proof.
  unfold packet_wf, base_ptr, set_base. cbn [pk_base set_pk_base]. intros Hl Hb.
  destruct (decide (b' = b)) as [->|Hne].
  - rewrite list_lookup_insert_eq by lia. by destruct x.
  - by rewrite list_lookup_insert_ne.
Qed.

Lemma base_off_set_L3 off p :
  packet_wf p -> base_off (set_base L3_BASE (Some (PData off)) p) L3_BASE = off.
Proof.
  intros Hp. unfold base_off. rewrite base_ptr_set by (done || unfold L3_BASE, MAX_BASE; lia).
  by destruct (decide _).
Qed.

Definition is_tag (ether_type : Z) : bool :=
  (ether_type =? ETHERTYPE_VLAN) || (ether_type =? ETHERTYPE_PBB)
  || (ether_type =? ETHERTYPE_QINQ).

Lemma is_tag_rd16 d i : is_tag (OS_NTOHS (rd16 d i)) = true -> (i < length d)%nat.
Proof.
  intros H. destruct (Nat.ltb_spec i (length d)) as [|Hge]; [done|].
  unfold rd16, rd8 in H. rewrite !nth_overflow in H by lia. done.
Qed.

Lemma strip_l2_enough fuel pkt ether_type pktlen :
  packet_wf pkt ->
  (length (pk_data pkt) + 2 <= base_off pkt L3_BASE + fuel)%nat ->
  (is_tag ether_type = true -> base_off pkt L3_BASE <= length (pk_data pkt) + 1)%nat ->
  exists r, strip_l2 fuel pkt ether_type pktlen = Some r.
Proof.
  revert pkt ether_type pktlen.
  induction fuel as [|fuel IH]; intros pkt ty len Hwf Hf Ht; cbn [strip_l2];
    fold (is_tag ty); destruct (is_tag ty) eqn:Ety; [|by eauto| |by eauto].
  { specialize (Ht eq_refl). lia. }
  specialize (Ht eq_refl).
  destruct (ty =? ETHERTYPE_PBB) eqn:Epbb.
  - destruct (base_ptr pkt PBB_BASE); apply IH; rewrite ?base_off_set_L3; cbn;
      auto with lagopus; try (unfold PBB_HDR_size; lia);
      intros Hr%is_tag_rd16; unfold PBB_HDR_size; lia.
  - destruct (_ <? 0) eqn:El; [by eauto|].
    destruct (pk_vlan pkt); apply IH; rewrite ?base_off_set_L3; cbn;
      auto with lagopus; try (unfold VLAN_HDR_size; lia);
      intros Hr%is_tag_rd16; unfold VLAN_HDR_size; lia.
Qed.

Lemma ipv6_exthdr_step_len flags proto hdrlen f len :
  0 <= hdrlen -> ipv6_exthdr_step flags proto hdrlen = Some (f, len) -> 8 <= len.
Proof.
  intros Hh. unfold ipv6_exthdr_step. rewrite !Z.shiftl_mul_pow2 by lia.
  intros H. repeat case_match; simplify_eq; lia.
Qed.

Lemma ipv6_walk_enough fuel d flags proto next pktlen :
  bytes_ok d -> pktlen <= Z.of_nat fuel ->
  exists r, ipv6_walk fuel d flags proto next pktlen = Some r.
Proof.
  intros Hd. revert flags proto next pktlen.
  induction fuel as [|fuel IH]; intros flags proto next pktlen Hf; cbn [ipv6_walk].
  { destruct (Z.leb_spec pktlen 2); [by eauto|lia]. }
  destruct (pktlen <=? 2); [by eauto|].
  destruct (ipv6_exthdr_step _ _ _) as [[f len]|] eqn:E.
  - apply IH. apply ipv6_exthdr_step_len in E; [lia|]. by apply rd8_range.
  - destruct (_ =? _); eauto.
Qed.

Lemma nd_option_fuel fuel fuel' d ty nd e :
  bytes_ok d -> (e - nd <= fuel)%nat -> (e - nd <= fuel')%nat ->
  nd_option fuel d ty nd e = nd_option fuel' d ty nd e.
Proof.
  intros Hd. revert fuel' nd.
  induction fuel as [|fuel IH]; intros fuel' nd Hf Hf'; cbn [nd_option].
  { destruct fuel'; cbn [nd_option]; [done|]. by destruct (Nat.ltb_spec nd e); [lia|]. }
  destruct fuel' as [|fuel']; cbn [nd_option].
  { by destruct (Nat.ltb_spec nd e); [lia|]. }
  destruct (nd <? e)%nat eqn:El; cbn [andb]; [|done].
  destruct (rd8 d (nd + 1) =? 0) eqn:E0; cbn [negb]; [done|].
  destruct (rd8 d nd =? ty); [done|].
  assert (1 <= Z.to_nat (Z.shiftl (rd8 d (nd + 1)) 3))%nat as Hadv.
  { pose proof (rd8_range d (nd + 1) Hd). apply Z.eqb_neq in E0.
    rewrite Z.shiftl_mul_pow2 by lia. lia. }
  apply IH; lia.
Qed.

(** What classification does not change. *)
Definition same_frame (p q : lagopus_packet) : Prop :=
  pk_data p = pk_data q /\ pk_in_port p = pk_in_port q /\
  oob_in_port p = oob_in_port q /\ oob_in_phy_port p = oob_in_phy_port q /\
  oob_metadata p = oob_metadata q /\ oob2_tunnel_id p = oob2_tunnel_id q /\
  pk_table_id p = pk_table_id q /\ pk_flags p = pk_flags q.

#[global] Instance same_frame_equiv : Equivalence same_frame.
Proof.
  unfold same_frame. split.
  - intros p. tauto.
  - intros p q. intuition.
  - intros p q r H1 H2. intuition congruence.
Qed.

(** The out-of-band VLAN tag mirrors the outermost VLAN header of the frame. *)
Definition vlan_consistent (p : lagopus_packet) : Prop :=
  oob_vlan_tci p =
  match pk_vlan p with
  | Some off => Z.lor (rd16 (pk_data p) off) (OS_HTONS OFPVID_PRESENT)
  | None => 0
  end.

(** The invariant of the Layer-2 steps, relative to the packet [p] received. *)
Definition l2_inv (p q : lagopus_packet) : Prop :=
  packet_wf q /\ same_frame p q /\ vlan_consistent q.

Lemma l2_inv_set_base p q b x : l2_inv p q -> l2_inv p (set_base b x q).
Proof. intros (H1 & H2 & H3). split_and!; [by apply set_base_wf|exact H2|exact H3]. Qed.

Lemma l2_inv_set_ether_type p q x : l2_inv p q -> l2_inv p (set_pk_ether_type x q).
Proof. auto. Qed.

Lemma l2_inv_set_oob_ether_type p q x : l2_inv p q -> l2_inv p (set_oob_ether_type x q).
Proof. auto. Qed.

Lemma l2_inv_set_packet_type p q x : l2_inv p q -> l2_inv p (set_oob_packet_type x q).
Proof. auto. Qed.

Lemma l2_inv_set_vlan p q off :
  l2_inv p q ->
  l2_inv p (set_oob_vlan_tci (Z.lor (rd16 (pk_data q) off) (OS_HTONS OFPVID_PRESENT))
              (set_pk_vlan (Some off) q)).
Proof. intros (H1 & H2 & H3). split_and!; [exact H1|exact H2|done]. Qed.
#[export] Hint Resolve l2_inv_set_base l2_inv_set_ether_type l2_inv_set_oob_ether_type
  l2_inv_set_vlan : lagopus.

Lemma l2_inv_reset p : packet_wf p -> l2_inv p (classify_l2_reset p).
Proof.
  intros Hp. unfold classify_l2_reset. do 7 apply l2_inv_set_base.
  by split_and!.
Qed.

Lemma l2_inv_outer p q : l2_inv p q -> l2_inv p (classify_l2_outer q).1.
Proof.
  intros H. unfold classify_l2_outer. repeat case_match; cbn [fst]; auto with lagopus.
Qed.

Lemma l2_inv_strip p fuel q ty len r ty' len' b :
  l2_inv p q -> strip_l2 fuel q ty len = Some (r, ty', len', b) -> l2_inv p r.
Proof.
  revert q ty len.
  induction fuel as [|fuel IH]; intros q ty len Hq; cbn [strip_l2];
    repeat case_match; intros; simplify_eq; eauto with lagopus.
Qed.

Lemma l2_inv_inner p q ty len : l2_inv p q -> l2_inv p (classify_l2_inner q ty len).
Proof. intros H. unfold classify_l2_inner. repeat case_match; auto with lagopus. Qed.

Lemma l2_inv_l2 p : packet_wf p -> l2_inv p (classify_packet_l2 p).
Proof.
  intros Hp. unfold classify_packet_l2.
  destruct (classify_l2_outer (classify_l2_reset p)) as [q ty] eqn:Eo.
  assert (l2_inv p q) as Hq.
  { pose proof (l2_inv_outer p _ (l2_inv_reset p Hp)) as H. by rewrite Eo in H. }
  destruct (strip_l2 _ q ty _) as [[[[r ty'] len'] []]|] eqn:Es; [| |done].
  - apply l2_inv_inner, l2_inv_set_oob_ether_type, l2_inv_set_ether_type.
    by eapply l2_inv_strip.
  - by eapply l2_inv_strip.
Qed.

Lemma l2_inv_l3l4 p q : l2_inv p q -> l2_inv p (classify_l3l4 q).
Proof.
  intros H. assert (forall r, l2_inv p r -> l2_inv p (classify_packet_l4 r)) as H4.
  { intros r Hr. unfold classify_packet_l4. repeat case_match; auto with lagopus. }
  unfold classify_l3l4, classify_packet_ipv4, classify_packet_ipv6.
  repeat case_match; auto 6 with lagopus.
  apply H4. assert (forall r x, l2_inv p r -> l2_inv p (set_oob2_ipv6_exthdr x r)) as H6 by done.
  auto 8 with lagopus.
Qed.

Lemma classify_l2_outer_bound q q' ty :
  packet_wf q -> base_off q L3_BASE = ETHER_HDR_size ->
  classify_l2_outer q = (q', ty) ->
  (14 <= base_off q' L3_BASE)%nat /\
  (is_tag ty = true -> base_off q' L3_BASE <= length (pk_data q) + 1)%nat.
Proof.
  intros Hq H3. unfold classify_l2_outer. rewrite H3. unfold ETHER_HDR_size, VLAN_HDR_size.
  intros Ho. repeat case_match; simplify_eq;
    rewrite ?base_off_set_L3, ?H3 by auto with lagopus; unfold sizeof_pointer, ETHER_HDR_size;
    (split; [lia|intros Ht%is_tag_rd16; lia]).
Qed.

Lemma classify_l2_reset_L3 p :
  packet_wf p -> base_off (classify_l2_reset p) L3_BASE = ETHER_HDR_size.
Proof. intros Hp. apply base_off_set_L3. do 6 apply set_base_wf. done. Qed.

Lemma packet_init_inv (p : lagopus_packet) (port_no : Z) :
  packet_wf p ->
  let q := lagopus_packet_init p port_no in
  packet_wf q /\ vlan_consistent q /\ pk_data q = pk_data p /\
  pk_in_port q = port_no /\
  oob_in_port q = OS_HTONL port_no /\ oob_in_phy_port q = OS_HTONL port_no /\
  oob_metadata q = 0 /\ oob2_tunnel_id q = 0 /\ pk_table_id q = 0 /\ pk_flags q = 0.
Proof.
  intros Hp. cbv zeta. unfold lagopus_packet_init, classify_ether_packet.
  match goal with |- context [classify_packet_l2 ?r] => set (p0 := r) end.
  assert (packet_wf p0) as H0 by exact Hp.
  destruct (l2_inv_l3l4 p0 _ (l2_inv_set_packet_type p0 _ packet_type_ethernet
    (l2_inv_l2 p0 H0))) as (Hw & (F1 & F2 & F3 & F4 & F5 & F6 & F7 & F8) & Hv).
  rewrite <- F1, <- F2, <- F3, <- F4, <- F5, <- F6, <- F7, <- F8.
  split_and!; [exact Hw|exact Hv|reflexivity..].
Qed.

(** ** Properties *)

(** Every loop of the classifier terminates within the fuel given: the VLAN and
    PBB tags of any frame are stripped, the IPv6 extension headers walked, and
    the fuel of the neighbour-discovery scan never decides its result. *)
Theorem classify_terminates (p : lagopus_packet) (Hp : packet_wf p)
    (Hd : bytes_ok (pk_data p)) :
  let d := pk_data p in
  let '(q, ether_type) := classify_l2_outer (classify_l2_reset p) in
  (exists r, strip_l2 (S (length d)) q ether_type (Z.of_nat (length d)) = Some r) /\
  (forall flags proto next pktlen, pktlen <= Z.of_nat (length d) ->
     exists r, ipv6_walk (S (length d)) d flags proto next pktlen = Some r) /\
  (forall ty nd len extra,
     nd_option (S len + extra) d ty (nd + 24) (nd + len) =
     nd_option (S len) d ty (nd + 24) (nd + len)).
Proof.
  cbv zeta. destruct (classify_l2_outer (classify_l2_reset p)) as [q ty] eqn:Eo.
  assert (l2_inv p q) as (Hq & Hf & _).
  { pose proof (l2_inv_outer p _ (l2_inv_reset p Hp)) as H. by rewrite Eo in H. }
  assert (pk_data q = pk_data p) as Ed by (symmetry; apply Hf).
  destruct (l2_inv_reset p Hp) as (Hr & Hrf & _).
  destruct (classify_l2_outer_bound _ _ _ Hr (classify_l2_reset_L3 p Hp) Eo) as [H14 Htag].
  assert (pk_data (classify_l2_reset p) = pk_data p) as Edr by (symmetry; apply Hrf).
  rewrite Edr in Htag.
  split_and!.
  - apply strip_l2_enough; [done| |]; rewrite ?Ed.
    + lia.
    + intros Ht. auto.
  - intros. apply ipv6_walk_enough; [done|lia].
  - intros. apply nd_option_fuel; [done|lia|lia].
Qed.

Definition sample_frame : bytes :=
  replicate 12 17 ++ [0x81; 0x00; 0x20; 0x0a; 0x81; 0x00; 0x00; 0x0b; 0x08; 0x00]
  ++ [0x45; 0; 0; 40; 0; 0; 0; 0; 64; 6; 0; 0; 192; 168; 1; 1; 10; 0; 0; 7]
  ++ replicate 20 0.

Lemma sample_frame_ok : bytes_ok sample_frame.
Proof.
  unfold bytes_ok, sample_frame. cbn [replicate app].
  repeat (apply Forall_cons; split; [lia|]). by apply Forall_nil.
Qed.

Lemma classify_terminates_witness :
  let '(q, ether_type) := classify_l2_outer (classify_l2_reset (packet_of sample_frame)) in
  exists r, strip_l2 (S (length sample_frame)) q ether_type (Z.of_nat (length sample_frame))
            = Some r.
Proof.
  pose proof (classify_terminates (packet_of sample_frame) eq_refl sample_frame_ok) as H.
  cbv zeta in H. destruct (classify_l2_outer _) as [q ty]. exact (proj1 H).
Defined.


