(* ===== verification/ByteMatch.v ===== *)
(** * Byte-offset matching

    [flow_make_match] and [match_basic] of [flowinfo_basic.c]: a flow's match
    list is compiled into one (bits, bytes, masks) triple per protocol header,
    and a packet is compared with the triples four bytes at a time.

    The lengths of match values are those the OpenFlow parser has accepted, so no
    store leaves the 32-byte arrays. *)
From S2P Require Import Prelude OpenFlow Packet.

(** ** Compiling a match list *)

(** [(uint32_t)BYTEBITS(bytes, off)] *)
Definition BYTEBITS (bytes : Z) (off : nat) : Z :=
  u32 (u64 (Z.shiftl (Z.shiftl 1 bytes - 1) (Z.of_nat off))).

(** [memcpy (dst + off, src, len)] and [memset (dst + off, 0xff, len)]. *)
Definition copy_n (off len : nat) (src dst : bytes) : bytes :=
  memcpy_at off (map (rd8 src) (seq 0 len)) dst.
Definition set_ff (off len : nat) (dst : bytes) : bytes :=
  memcpy_at off (replicate len 255) dst.

Definition bo_or_bits (b : Z) (m : byteoff_match) : byteoff_match :=
  ByteoffMatch (Z.lor (bo_bits m) b) (bo_bytes m) (bo_masks m).
Definition bo_on_bytes (g : bytes -> bytes) (m : byteoff_match) : byteoff_match :=
  ByteoffMatch (bo_bits m) (g (bo_bytes m)) (bo_masks m).
Definition bo_on_masks (g : bytes -> bytes) (m : byteoff_match) : byteoff_match :=
  ByteoffMatch (bo_bits m) (bo_bytes m) (g (bo_masks m)).

(** A store [p[i] = (uint8_t)...] computed from the old value. *)
Definition st8 (i : nat) (g : Z -> Z) (l : bytes) : bytes := <[i := u8 (g (rd8 l i))]> l.

(** [p[i] &= keep; p[i] |= v] *)
Definition keep_or (keep v : Z) (x : Z) : Z := Z.lor (Z.land x keep) v.
Definition or_with (v x : Z) : Z := Z.lor x v.
Definition store (v x : Z) : Z := v.

Definition MAKE_BYTEOFF (m : match_) (off base : nat) (l : list byteoff_match) :=
  alter (fun b =>
    bo_on_masks (set_ff off (Z.to_nat (oxm_length m)))
      (bo_on_bytes (copy_n off (Z.to_nat (oxm_length m)) (oxm_value m))
        (bo_or_bits (BYTEBITS (oxm_length m) off) b))) base l.

Definition MAKE_BYTEOFF_W (m : match_) (off base : nat) (l : list byteoff_match) :=
  let len := Z.shiftr (oxm_length m) 1 in
  alter (fun b =>
    bo_on_masks (copy_n off (Z.to_nat len) (drop (Z.to_nat len) (oxm_value m)))
      (bo_on_bytes (copy_n off (Z.to_nat len) (oxm_value m))
        (bo_or_bits (BYTEBITS len off) b))) base l.

(** The [MAKE_BYTE] lines: the header and the offset of each field that is
    copied whole. *)
Definition make_byte_field (ty : Z) : option (nat * nat) :=
  if ty =? OFPXMT_OFB_IN_PORT then Some (OOB_BASE, 8%nat)
  else if ty =? OFPXMT_OFB_IN_PHY_PORT then Some (OOB_BASE, 12%nat)
  else if ty =? OFPXMT_OFB_METADATA then Some (OOB_BASE, 0%nat)
  else if ty =? OFPXMT_OFB_ETH_DST then Some (ETH_BASE, 0%nat)
  else if ty =? OFPXMT_OFB_ETH_SRC then Some (ETH_BASE, 6%nat)
  else if ty =? OFPXMT_OFB_IP_PROTO then Some (IPPROTO_BASE, 0%nat)
  else if ty =? OFPXMT_OFB_IPV4_SRC then Some (L3_BASE, 12%nat)
  else if ty =? OFPXMT_OFB_IPV4_DST then Some (L3_BASE, 16%nat)
  else if ty =? OFPXMT_OFB_ARP_OP then Some (L3_BASE, 6%nat)
  else if ty =? OFPXMT_OFB_ARP_SHA then Some (L3_BASE, 8%nat)
  else if ty =? OFPXMT_OFB_ARP_SPA then Some (L3_BASE, 14%nat)
  else if ty =? OFPXMT_OFB_ARP_THA then Some (L3_BASE, 18%nat)
  else if ty =? OFPXMT_OFB_ARP_TPA then Some (L3_BASE, 24%nat)
  else if ty =? OFPXMT_OFB_IPV6_SRC then Some (V6SRC_BASE, 0%nat)
  else if ty =? OFPXMT_OFB_IPV6_DST then Some (V6DST_BASE, 0%nat)
  else if ty =? OFPXMT_OFB_TCP_SRC then Some (L4_BASE, 0%nat)
  else if ty =? OFPXMT_OFB_TCP_DST then Some (L4_BASE, 2%nat)
  else if ty =? OFPXMT_OFB_UDP_SRC then Some (L4_BASE, 0%nat)
  else if ty =? OFPXMT_OFB_UDP_DST then Some (L4_BASE, 2%nat)
  else if ty =? OFPXMT_OFB_SCTP_SRC then Some (L4_BASE, 0%nat)
  else if ty =? OFPXMT_OFB_SCTP_DST then Some (L4_BASE, 2%nat)
  else if ty =? OFPXMT_OFB_ICMPV4_TYPE then Some (L4_BASE, 0%nat)
  else if ty =? OFPXMT_OFB_ICMPV4_CODE then Some (L4_BASE, 1%nat)
  else if ty =? OFPXMT_OFB_ICMPV6_TYPE then Some (L4_BASE, 0%nat)
  else if ty =? OFPXMT_OFB_ICMPV6_CODE then Some (L4_BASE, 1%nat)
  else if ty =? OFPXMT_OFB_IPV6_ND_TARGET then Some (L4_BASE, 8%nat)
  else if ty =? OFPXMT_OFB_IPV6_ND_SLL then Some (NDSLL_BASE, 2%nat)
  else if ty =? OFPXMT_OFB_IPV6_ND_TLL then Some (NDTLL_BASE, 2%nat)
  else if ty =? OFPXMT_OFB_PBB_ISID then Some (PBB_BASE, 1%nat)
  else if ty =? OFPXMT_OFB_TUNNEL_ID then Some (OOB2_BASE, 0%nat)
  else if ty =? OFPXMT_OFB_IPV6_EXTHDR then Some (OOB2_BASE, 8%nat)
  else if ty =? OFPXMT_OFB_PACKET_TYPE then Some (OOB_BASE, 16%nat)
  else if ty =? OFPXMT_OFB_VXLAN_FLAGS then Some (L4P_BASE, 0%nat)
  else if ty =? OFPXMT_OFB_GRE_PROTOCOL then Some (L4_BASE, 2%nat)
  else if ty =? OFPXMT_OFB_GRE_KEY then Some (L4_BASE, 4%nat)
  else if ty =? OFPXMT_OFB_GTPU_MSGTYPE then Some (L4P_BASE, 1%nat)
  else if ty =? OFPXMT_OFB_GTPU_TEID then Some (L4P_BASE, 4%nat)
  else None.

(** The fields that also have a [MAKE_BYTE_W] line. *)
Definition make_byte_w_types : list Z :=
  [OFPXMT_OFB_METADATA; OFPXMT_OFB_ETH_DST; OFPXMT_OFB_ETH_SRC; OFPXMT_OFB_IPV4_SRC;
   OFPXMT_OFB_IPV4_DST; OFPXMT_OFB_ARP_SHA; OFPXMT_OFB_ARP_SPA; OFPXMT_OFB_ARP_THA;
   OFPXMT_OFB_ARP_TPA; OFPXMT_OFB_IPV6_SRC; OFPXMT_OFB_IPV6_DST; OFPXMT_OFB_PBB_ISID;
   OFPXMT_OFB_TUNNEL_ID; OFPXMT_OFB_IPV6_EXTHDR; OFPXMT_OFB_VXLAN_FLAGS;
   OFPXMT_OFB_GRE_KEY].

(** The VLAN fields share the two bytes of [oob_data.vlan_tci]. *)
Definition make_match_vlan (m : match_) (l : list byteoff_match) : option (list byteoff_match) :=
  let v := rd8 (oxm_value m) in
  if oxm_field m =? FIELD OFPXMT_OFB_VLAN_VID then
    Some (alter (fun b =>
      bo_on_masks (fun k => st8 23 (store 0xff) (st8 22 (or_with 0x1f) k))
        (bo_on_bytes (fun k => st8 23 (store (v 1%nat)) (st8 22 (keep_or 0xe0 (v 0%nat)) k))
          (bo_or_bits (BYTEBITS 2 22) b))) OOB_BASE l)
  else if oxm_field m =? FIELD_WITH_MASK OFPXMT_OFB_VLAN_VID then
    Some (alter (fun b =>
      bo_on_masks (fun k => st8 23 (store (v 3%nat)) (st8 22 (keep_or 0xe0 (v 2%nat)) k))
        (bo_on_bytes (fun k => st8 23 (store (v 1%nat)) (st8 22 (keep_or 0xe0 (v 0%nat)) k))
          (bo_or_bits (BYTEBITS 2 22) b))) OOB_BASE l)
  else if oxm_field m =? FIELD OFPXMT_OFB_VLAN_PCP then
    Some (alter (fun b =>
      bo_on_masks (st8 22 (or_with 0xe0))
        (bo_on_bytes (st8 22 (keep_or 0x1f (u8 (Z.shiftl (v 0%nat) 5))))
          (bo_or_bits (BYTEBITS 1 22) b))) OOB_BASE l)
  else None.

(** DSCP, ECN and the flow label: bit fields of the network header. *)
Definition make_match_ip (l3_ether_type : Z) (m : match_) (l : list byteoff_match)
    : option (list byteoff_match) :=
  let v := rd8 (oxm_value m) in
  if oxm_field m =? FIELD OFPXMT_OFB_IP_DSCP then
    Some (if l3_ether_type =? ETHERTYPE_IPV6 then
      alter (fun b =>
        bo_on_masks (fun k => st8 1 (or_with 0xc0) (st8 0 (or_with 0x0f) k))
          (bo_on_bytes (fun k => st8 1 (keep_or 0x3f (u8 (Z.shiftl (v 0%nat) 6)))
                                   (st8 0 (keep_or 0xf0 (Z.shiftr (v 0%nat) 2)) k))
            (bo_or_bits (BYTEBITS 2 0) b))) L3_BASE l
    else
      alter (fun b =>
        bo_on_masks (st8 1 (or_with 0xfc))
          (bo_on_bytes (st8 1 (keep_or 0x03 (u8 (Z.shiftl (v 0%nat) 2))))
            (bo_or_bits (BYTEBITS 1 1) b))) L3_BASE l)
  else if oxm_field m =? FIELD OFPXMT_OFB_IP_ECN then
    Some (if l3_ether_type =? ETHERTYPE_IPV6 then
      alter (fun b =>
        bo_on_masks (st8 1 (or_with 0x30))
          (bo_on_bytes (st8 1 (keep_or 0xcf (u8 (Z.shiftl (v 0%nat) 4))))
            (bo_or_bits (BYTEBITS 1 1) b))) L3_BASE l
    else
      alter (fun b =>
        bo_on_masks (st8 1 (or_with 0x03))
          (bo_on_bytes (st8 1 (keep_or 0xfc (v 0%nat)))
            (bo_or_bits (BYTEBITS 1 1) b))) L3_BASE l)
  else if oxm_field m =? FIELD OFPXMT_OFB_IPV6_FLABEL then
    Some (alter (fun b =>
      bo_on_masks (fun k => st8 3 (store 0xff) (st8 2 (store 0xff) (st8 1 (store 0x0f) k)))
        (bo_on_bytes (fun k => st8 3 (store (v 3%nat)) (st8 2 (store (v 2%nat))
                                 (st8 1 (keep_or 0xf0 (v 1%nat)) k)))
          (bo_or_bits (BYTEBITS 3 1) b))) L3_BASE l)
  else if oxm_field m =? FIELD_WITH_MASK OFPXMT_OFB_IPV6_FLABEL then
    Some (alter (fun b =>
      bo_on_masks (fun k => st8 3 (store (v 7%nat)) (st8 2 (store (v 6%nat))
                              (st8 1 (keep_or 0xf0 (v 5%nat)) k)))
        (bo_on_bytes (fun k => st8 3 (store (v 3%nat)) (st8 2 (store (v 2%nat))
                                 (st8 1 (keep_or 0xf0 (v 1%nat)) k)))
          (bo_or_bits (BYTEBITS 3 1) b))) L3_BASE l)
  else None.

Definition make_match_mpls (m : match_) (l : list byteoff_match) : option (list byteoff_match) :=
  let v := rd8 (oxm_value m) in
  if oxm_field m =? FIELD OFPXMT_OFB_MPLS_LABEL then
    let val8 := le_bytes 4 (OS_HTONL (u32 (Z.shiftl (OS_NTOHL (rd32 (oxm_value m) 0)) 12))) in
    Some (alter (fun b =>
      bo_on_masks (fun k => st8 2 (store 0xf0) (st8 1 (store 0xff) (st8 0 (store 0xff) k)))
        (bo_on_bytes (fun k => st8 2 (keep_or 0x0f (rd8 val8 2))
                                 (st8 1 (store (rd8 val8 1)) (st8 0 (store (rd8 val8 0)) k)))
          (bo_or_bits (BYTEBITS 3 0) b))) MPLS_BASE l)
  else if oxm_field m =? FIELD OFPXMT_OFB_MPLS_TC then
    Some (alter (fun b =>
      bo_on_masks (st8 2 (or_with 0x0e))
        (bo_on_bytes (st8 2 (keep_or 0xf1 (u8 (Z.shiftl (v 0%nat) 1))))
          (bo_or_bits (BYTEBITS 1 2) b))) MPLS_BASE l)
  else if oxm_field m =? FIELD OFPXMT_OFB_MPLS_BOS then
    Some (alter (fun b =>
      bo_on_masks (st8 2 (or_with 0x01))
        (bo_on_bytes (st8 2 (keep_or 0xfe (v 0%nat)))
          (bo_or_bits (BYTEBITS 1 2) b))) MPLS_BASE l)
  else None.

(** The tunnel fields; the GTP-U flags and version are stored at byte 1 of the
    header although they set the bit of byte 0. *)
Definition make_match_tunnel (m : match_) (l : list byteoff_match)
    : option (list byteoff_match) :=
  let v := rd8 (oxm_value m) in
  let val := rd16 (oxm_value m) 0 in
  let mask := rd16 (oxm_value m) 2 in
  if oxm_field m =? FIELD OFPXMT_OFB_VXLAN_VNI then
    Some (alter (fun b =>
      bo_on_masks (fun k => st8 6 (store 0xff) (st8 5 (store 0xff) (st8 4 (store 0xff) k)))
        (bo_on_bytes (copy_n 4 3 (oxm_value m)) (bo_or_bits (BYTEBITS 3 4) b))) L4P_BASE l)
  else if oxm_field m =? FIELD OFPXMT_OFB_GRE_FLAGS then
    Some (alter (fun b =>
      bo_on_masks (fun k => st8 1 (or_with 0xf8) (st8 0 (store 0xff) k))
        (bo_on_bytes (fun k => st8 1 (keep_or 0x07 (Z.land (Z.shiftl val 3) 0xff))
                                 (st8 0 (store (Z.shiftr val 5)) k))
          (bo_or_bits (BYTEBITS 2 0) b))) L4_BASE l)
  else if oxm_field m =? FIELD_WITH_MASK OFPXMT_OFB_GRE_FLAGS then
    Some (alter (fun b =>
      bo_on_masks (fun k => st8 1 (or_with (Z.land (Z.shiftl mask 3) 0xff))
                              (st8 0 (or_with (Z.shiftr mask 5)) k))
        (bo_on_bytes (fun k => st8 1 (or_with (Z.land (Z.shiftl val 3) 0xff))
                                 (st8 0 (or_with (Z.shiftr val 5)) k))
          (bo_or_bits (BYTEBITS 2 0) b))) L4_BASE l)
  else if oxm_field m =? FIELD OFPXMT_OFB_GRE_VER then
    Some (alter (fun b =>
      bo_on_masks (st8 1 (or_with 0x07))
        (bo_on_bytes (st8 1 (keep_or 0xf8 (v 0%nat))) (bo_or_bits (BYTEBITS 2 0) b))) L4_BASE l)
  else if oxm_field m =? FIELD OFPXMT_OFB_GTPU_FLAGS then
    Some (alter (fun b =>
      bo_on_masks (st8 1 (or_with 0x1f))
        (bo_on_bytes (st8 1 (keep_or 0xe0 (v 0%nat))) (bo_or_bits (BYTEBITS 1 0) b))) L4P_BASE l)
  else if oxm_field m =? FIELD OFPXMT_OFB_GTPU_VER then
    Some (alter (fun b =>
      bo_on_masks (st8 1 (or_with 0xe0))
        (bo_on_bytes (st8 1 (keep_or 0x1f (Z.shiftl (v 0%nat) 5)))
          (bo_or_bits (BYTEBITS 1 0) b))) L4P_BASE l)
  else None.

(** The [MAKE_BYTE] and [MAKE_BYTE_W] cases of the switch. *)
Definition make_match_bytes (m : match_) (l : list byteoff_match) : option (list byteoff_match) :=
  match make_byte_field (OXM_FIELD_TYPE (oxm_field m)) with
  | None => None
  | Some (base, off) =>
      if negb (OXM_FIELD_HAS_MASK (oxm_field m)) then Some (MAKE_BYTEOFF m off base l)
      else if bool_decide (OXM_FIELD_TYPE (oxm_field m) ∈ make_byte_w_types)
      then Some (MAKE_BYTEOFF_W m off base l)
      else None
  end.

(** One turn of the loop over the match list; the ethertype is remembered for
    the fields whose place depends on it. *)
Definition make_match_1 (s : list byteoff_match * Z) (m : match_) : list byteoff_match * Z :=
  let '(l, l3_ether_type) := s in
  if oxm_field m =? FIELD OFPXMT_OFB_ETH_TYPE then (l, OS_NTOHS (rd16 (oxm_value m) 0))
  else
    match make_match_bytes m l with
    | Some l' => (l', l3_ether_type)
    | None =>
        match make_match_vlan m l with
        | Some l' => (l', l3_ether_type)
        | None =>
            match make_match_ip l3_ether_type m l with
            | Some l' => (l', l3_ether_type)
            | None =>
                match make_match_mpls m l with
                | Some l' => (l', l3_ether_type)
                | None =>
                    match make_match_tunnel m l with
                    | Some l' => (l', l3_ether_type)
                    | None => (l, l3_ether_type)
                    end
                end
            end
        end
    end.

Definition flow_make_match (f : flow) : flow :=
  set_fl_byteoff_match (foldl make_match_1 (fl_byteoff_match f, 0) (fl_match_list f)).1 f.

(** ** Matching a packet *)

(** The loop over the words of one header. *)
Fixpoint match_words (fuel : nat) (base masks bts : bytes) (off : nat) (bits : Z) : bool :=
  match fuel with
  | O => true
  | S fuel' =>
      if negb (Z.land bits 0x0f =? 0)
         && negb (Z.land (rd32 base off) (rd32 masks off) =? rd32 bts off)
      then false
      else
        let bits := Z.shiftr bits 4 in
        if bits =? 0 then true else match_words fuel' base masks bts (off + 4) bits
  end.

(** One header: [bits] is a 32-bit word, so eight turns exhaust it. *)
Definition match_base (pkt : lagopus_packet) (i : nat) (m : byteoff_match) : bool :=
  if bo_bits m =? 0 then true
  else
    match base_ptr pkt i with
    | None => false
    | Some p => match_words 8 (ptr_bytes pkt p) (bo_masks m) (bo_bytes m) 0 (bo_bits m)
    end.

Definition match_max (pkt : lagopus_packet) : nat :=
  if pk_ether_type pkt =? ETHERTYPE_IPV6 then MAX_BASE else S OOB2_BASE.

Definition match_byteoff (pkt : lagopus_packet) (f : flow) : bool :=
  forallb (fun i => match_base pkt i (nth i (fl_byteoff_match f) byteoff_zero))
    (seq 0 (match_max pkt)).

(** The counters of a flow that matched. *)
Definition count_match (pkt : lagopus_packet) (f : flow) : flow :=
  let f := if Z.land (fl_flags f) OFPFF_NO_PKT_COUNTS =? 0
           then set_fl_packet_count (u64 (fl_packet_count f + 1)) f else f in
  if Z.land (fl_flags f) OFPFF_NO_BYT_COUNTS =? 0
  then set_fl_byte_count (u64 (fl_byte_count f + Z.of_nat (length (pk_data pkt)))) f
  else f.

Definition match_basic (pkt : lagopus_packet) (f : flow) : bool * flow :=
  if match_byteoff pkt f then (true, count_match pkt f) else (false, f).

(** ** Words and bytes *)

Lemma testbit_low_high c z n k :
  0 <= n -> 0 <= k -> 0 <= c < 2 ^ n ->
  Z.testbit (c + 2 ^ n * z) k = if k <? n then Z.testbit c k else Z.testbit z (k - n).
Proof.
  intros Hn Hk Hc. destruct (Z.ltb_spec k n).
  - rewrite <- (Z.mod_pow2_bits_low _ n) by lia.
    by rewrite Z.mul_comm, Z_mod_plus_full, Z.mod_small.
  - replace k with ((k - n) + n) at 1 by lia. rewrite <- Z.div_pow2_bits by lia.
    rewrite Z.mul_comm, Z.div_add, Z.div_small by lia. done.
Qed.

Lemma land_bound a b n : 0 <= n -> 0 <= b < 2 ^ n -> 0 <= Z.land a b < 2 ^ n.
Proof.
  intros Hn Hb. rewrite <- (Z.mod_small b (2 ^ n)) by done.
  rewrite <- Z.land_ones, Z.land_assoc, Z.land_ones by done. apply Z.mod_pos_bound. lia.
Qed.

Lemma land_low_high a b x y n :
  0 <= n -> 0 <= a < 2 ^ n -> 0 <= b < 2 ^ n ->
  Z.land (a + 2 ^ n * x) (b + 2 ^ n * y) = Z.land a b + 2 ^ n * Z.land x y.
Proof.
  intros Hn Ha Hb. apply Z.bits_inj'. intros k Hk. rewrite Z.land_spec.
  rewrite !testbit_low_high by (try done; by apply land_bound).
  destruct (k <? n); by rewrite Z.land_spec.
Qed.

Lemma low_high_inj a b x y n :
  0 <= a < 2 ^ n -> 0 <= b < 2 ^ n -> a + 2 ^ n * x = b + 2 ^ n * y -> a = b /\ x = y.
Proof. intros Ha Hb H. assert (x = y) by nia. nia. Qed.

(** A masked word comparison is four masked byte comparisons. *)
Lemma word_eq_bytes p m c off :
  bytes_ok p -> bytes_ok m -> bytes_ok c ->
  Z.land (rd32 p off) (rd32 m off) = rd32 c off <->
  forall k, (off <= k < off + 4)%nat -> Z.land (rd8 p k) (rd8 m k) = rd8 c k.
Proof.
  intros Hp Hm Hc.
  assert (forall l, bytes_ok l -> forall k, 0 <= rd8 l k < 2 ^ 8) as Hr
    by (intros; by apply rd8_range).
  assert (forall l, rd32 l off = rd8 l off + 2 ^ 8 * (rd8 l (off + 1) + 2 ^ 8 *
    (rd8 l (off + 2) + 2 ^ 8 * rd8 l (off + 3)))) as E.
  { intros l. unfold rd32, rd16. replace (off + 2 + 1)%nat with (off + 3)%nat by lia. ring. }
  rewrite !E, !land_low_high by (lia || auto). split.
  - intros H.
    apply low_high_inj in H as [H0 H]; [|apply land_bound; [lia|auto]|auto].
    apply low_high_inj in H as [H1 H]; [|apply land_bound; [lia|auto]|auto].
    apply low_high_inj in H as [H2 H3]; [|apply land_bound; [lia|auto]|auto].
    intros k Hk.
    assert (k = off \/ k = off + 1 \/ k = off + 2 \/ k = off + 3)%nat
      as [-> | [-> | [-> | ->]]] by lia; done.
  - intros H. by rewrite !H by lia.
Qed.

Lemma nibble_zero bits k :
  Z.land bits 15 = 0 -> 0 <= k < 4 -> Z.testbit bits k = false.
Proof.
  intros H Hk. change 15 with (Z.ones 4) in H.
  assert (Z.testbit (Z.land bits (Z.ones 4)) k = false) as E by (by rewrite H, Z.bits_0).
  rewrite Z.land_spec, Z.ones_spec_low, andb_true_r in E by lia. done.
Qed.

(** Bytes outside [bits] are unconstrained: their mask and value are 0. *)
Definition covered (masks bts : bytes) (off : nat) (bits : Z) : Prop :=
  forall k, Z.testbit bits (Z.of_nat k) = false ->
    rd8 masks (off + k) = 0 /\ rd8 bts (off + k) = 0.

Lemma match_words_spec fuel p m c off bits :
  bytes_ok p -> bytes_ok m -> bytes_ok c ->
  0 <= bits < 2 ^ (4 * Z.of_nat fuel) -> covered m c off bits ->
  match_words fuel p m c off bits = true <->
  forall k, (off <= k)%nat -> Z.land (rd8 p k) (rd8 m k) = rd8 c k.
Proof.
  intros Hp Hm Hc. revert off bits.
  assert (forall off, covered m c off 0 ->
    forall k, (off <= k)%nat -> Z.land (rd8 p k) (rd8 m k) = rd8 c k) as Hz.
  { intros off Hcov k Hk. destruct (Hcov (k - off)%nat (Z.bits_0 _)) as [E1 E2].
    replace (off + (k - off))%nat with k in E1, E2 by lia. by rewrite E1, E2, Z.land_0_r. }
  induction fuel as [|fuel IH]; intros off bits Hb Hcov; cbn [match_words].
  { change (2 ^ (4 * Z.of_nat 0)) with 1 in Hb. replace bits with 0 in Hcov by lia.
    split; [|done]. intros _. by apply Hz. }
  assert (covered m c (off + 4) (Z.shiftr bits 4)) as Hcov'.
  { intros k Hk. rewrite Z.shiftr_spec in Hk by lia.
    replace (Z.of_nat k + 4) with (Z.of_nat (k + 4)) in Hk by lia.
    apply Hcov in Hk. by replace (off + 4 + k)%nat with (off + (k + 4))%nat by lia. }
  assert (0 <= Z.shiftr bits 4 < 2 ^ (4 * Z.of_nat fuel)) as Hb'.
  { rewrite Z.shiftr_div_pow2 by lia. split; [apply Z.div_pos; lia|].
    apply Z.div_lt_upper_bound; [lia|]. rewrite <- Z.pow_add_r by lia.
    replace (4 + 4 * Z.of_nat fuel) with (4 * Z.of_nat (S fuel)) by lia. apply Hb. }
  assert ((if Z.shiftr bits 4 =? 0 then true
           else match_words fuel p m c (off + 4) (Z.shiftr bits 4)) = true <->
    forall k, (off + 4 <= k)%nat -> Z.land (rd8 p k) (rd8 m k) = rd8 c k) as Hrest.
  { destruct (Z.eqb_spec (Z.shiftr bits 4) 0) as [E|]; [|by apply IH].
    split; [|done]. intros _. apply Hz. by rewrite <- E. }
  assert (negb (Z.land bits 15 =? 0)
     && negb (Z.land (rd32 p off) (rd32 m off) =? rd32 c off) = false <->
    forall k, (off <= k < off + 4)%nat -> Z.land (rd8 p k) (rd8 m k) = rd8 c k) as Hword.
  { destruct (Z.eqb_spec (Z.land bits 15) 0) as [E|E]; cbn [negb andb].
    - split; [|done]. intros _ k Hk.
      destruct (Hcov (k - off)%nat) as [E1 E2]; [apply nibble_zero; [done|lia]|].
      replace (off + (k - off))%nat with k in E1, E2 by lia. by rewrite E1, E2, Z.land_0_r.
    - rewrite negb_false_iff, Z.eqb_eq. by apply word_eq_bytes. }
  destruct (_ && _) eqn:Ew.
  - split; [done|]. intros H. assert (true = false); [|done].
    apply Hword. intros k Hk. apply H. lia.
  - rewrite Hrest. split; intros H k Hk; [|apply H; lia].
    destruct (decide (k < off + 4)%nat); [apply Hword; [done|lia]|apply H; lia].
Qed.

(** ** The compiled form of whole-byte fields *)

Lemma rd8_lookup l k : rd8 l k = default 0 (l !! k).
Proof. unfold rd8. by rewrite nth_lookup. Qed.

Lemma rd8_memcpy off src dst k :
  (off + length src <= length dst)%nat ->
  rd8 (memcpy_at off src dst) k =
  if decide (off <= k < off + length src)%nat then rd8 src (k - off) else rd8 dst k.
Proof.
  intros Hl. unfold memcpy_at. rewrite !rd8_lookup.
  destruct (decide _).
  - by rewrite list_lookup_inserts by lia.
  - destruct (decide (k < off)%nat).
    + by rewrite list_lookup_inserts_lt by lia.
    + by rewrite list_lookup_inserts_ge by lia.
Qed.

Lemma rd8_map_seq src len k :
  (k < len)%nat -> rd8 (map (rd8 src) (seq 0 len)) k = rd8 src k.
Proof.
  intros Hk. rewrite (rd8_lookup (map _ _)), list_lookup_fmap, lookup_seq_lt by done. done.
Qed.

Lemma rd8_replicate len x k : (k < len)%nat -> rd8 (replicate len x) k = x.
Proof. intros Hk. by rewrite rd8_lookup, lookup_replicate_2. Qed.

Lemma BYTEBITS_range len off : 0 <= BYTEBITS len off < 2 ^ 32.
Proof. apply Z.mod_pos_bound. lia. Qed.

Lemma BYTEBITS_testbit len off k :
  (off + len <= 32)%nat ->
  Z.testbit (BYTEBITS (Z.of_nat len) off) (Z.of_nat k) =
  bool_decide (off <= k < off + len)%nat.
Proof.
  intros Hl. unfold BYTEBITS, u32, u64. rewrite Z.shiftl_1_l.
  replace (2 ^ Z.of_nat len - 1) with (Z.ones (Z.of_nat len))
    by (rewrite Z.ones_equiv; lia).
  destruct (decide (k < 32)%nat).
  - rewrite !Z.mod_pow2_bits_low by lia.
    destruct (bool_decide_reflect (off <= k < off + len)%nat) as [H|H].
    + rewrite Z.shiftl_spec_high, Z.ones_spec_low by lia. done.
    + destruct (decide (k < off)%nat).
      * by rewrite Z.shiftl_spec_low by lia.
      * by rewrite Z.shiftl_spec_high, Z.ones_spec_high by lia.
  - rewrite Z.mod_pow2_bits_high by lia. symmetry. apply bool_decide_eq_false. lia.
Qed.

(** What a whole-byte match constrains: header, offset, mask and value. *)
Definition byte_cell (m : match_) : option (nat * nat * bytes * bytes) :=
  match make_byte_field (OXM_FIELD_TYPE (oxm_field m)) with
  | None => None
  | Some (base, off) =>
      if negb (OXM_FIELD_HAS_MASK (oxm_field m))
      then Some (base, off, replicate (length (oxm_value m)) 255, oxm_value m)
      else if bool_decide (OXM_FIELD_TYPE (oxm_field m) ∈ make_byte_w_types)
      then let h := (length (oxm_value m) / 2)%nat in
           Some (base, off, drop h (oxm_value m), take h (oxm_value m))
      else None
  end.

(** A match as the OpenFlow parser delivers it: the length is the length of the
    value, the value is made of bytes, it lies in the 32 bytes of the header that
    can be compared, and a mask is as long as its value. *)
Definition byte_match_ok (m : match_) : Prop :=
  oxm_length m = Z.of_nat (length (oxm_value m)) /\ bytes_ok (oxm_value m) /\
  match byte_cell m with
  | None => False
  | Some (base, off, mask, val) =>
      (off + length val <= 32)%nat /\ length mask = length val /\ (0 < length val)%nat /\
      (base < MAX_BASE)%nat
  end.

(** The specification of one whole-byte match on a packet. *)
Definition oxm_matches (pkt : lagopus_packet) (m : match_) : Prop :=
  match byte_cell m with
  | None => True
  | Some (base, off, mask, val) =>
      exists p, base_ptr pkt base = Some p /\
      forall k, (k < length val)%nat ->
        Z.land (rd8 (ptr_bytes pkt p) (off + k)) (rd8 mask k) = rd8 val k
  end.

(** Two matches that constrain no common byte. *)
Definition cells_disjoint (m m' : match_) : Prop :=
  match byte_cell m, byte_cell m' with
  | Some (b, o, _, v), Some (b', o', _, v') =>
      b <> b' \/ (o + length v <= o')%nat \/ (o' + length v' <= o)%nat
  | _, _ => True
  end.

(** The constraint of a match on byte [k] of header [b], and of a match list. *)
Definition cell_of (m : match_) (b k : nat) : option (Z * Z) :=
  match byte_cell m with
  | Some (base, off, mask, val) =>
      if decide (b = base /\ (off <= k < off + length val)%nat)
      then Some (rd8 mask (k - off), rd8 val (k - off)) else None
  | None => None
  end.

Definition cells (ms : list match_) (b k : nat) : option (Z * Z) :=
  foldl (fun acc m => match cell_of m b k with Some c => Some c | None => acc end) None ms.

Definition put (off : nat) (mask val : bytes) (e : byteoff_match) : byteoff_match :=
  bo_on_masks (memcpy_at off mask)
    (bo_on_bytes (memcpy_at off val)
      (bo_or_bits (BYTEBITS (Z.of_nat (length val)) off) e)).

Lemma copy_n_take off len src dst :
  (len <= length src)%nat -> copy_n off len src dst = memcpy_at off (take len src) dst.
Proof.
  intros Hl. unfold copy_n. f_equal. apply list_eq. intros k.
  rewrite list_lookup_fmap. destruct (decide (k < len)%nat).
  - rewrite lookup_seq_lt, lookup_take_lt by done. cbn.
    rewrite rd8_lookup. destruct (lookup_lt_is_Some_2 src k) as [x ->]; [lia|done].
  - rewrite lookup_seq_ge, lookup_take_ge by lia. done.
Qed.

Lemma make_match_bytes_cell m l base off mask val :
  byte_match_ok m -> byte_cell m = Some (base, off, mask, val) ->
  make_match_bytes m l = Some (alter (put off mask val) base l).
Proof.
  intros (Hlen & _ & Hok) Hc. rewrite Hc in Hok. destruct Hok as (Ho & Hm & Hpos & _).
  unfold byte_cell in Hc. unfold make_match_bytes.
  destruct (make_byte_field _) as [[b o]|]; [|done].
  destruct (negb (OXM_FIELD_HAS_MASK _)); [|destruct (bool_decide _); [|done]];
    simplify_eq; f_equal.
  - apply list_alter_ext; [|done]. intros e _. unfold put, bo_on_masks, bo_on_bytes.
    cbn [bo_bits bo_bytes bo_masks bo_or_bits].
    by rewrite Hlen, Nat2Z.id, copy_n_take, take_ge by lia.
  - assert (Z.to_nat (Z.shiftr (oxm_length m) 1) = length (oxm_value m) / 2)%nat as Eh.
    { rewrite Hlen, Z.shiftr_div_pow2 by lia. change (2 ^ 1) with (Z.of_nat 2).
      by rewrite <- Nat2Z.inj_div, Nat2Z.id. }
    rewrite length_drop, length_take in Hm. rewrite length_take in Ho, Hpos.
    apply list_alter_ext; [|done]. intros e _. unfold put, bo_on_masks, bo_on_bytes.
    cbn [bo_bits bo_bytes bo_masks bo_or_bits].
    rewrite !Eh, !copy_n_take by (rewrite ?length_drop; lia).
    rewrite (take_ge (drop _ _)) by (rewrite length_drop; lia).
    rewrite length_take. replace (_ `min` _)%nat with (length (oxm_value m) / 2)%nat by lia.
    rewrite <- Eh, Z2Nat.id by (rewrite Z.shiftr_nonneg; lia). done.
Qed.

(** The entry of one header describes a function from byte positions to
    (mask, value) constraints. *)
Definition entry_is (c : nat -> option (Z * Z)) (e : byteoff_match) : Prop :=
  length (bo_bytes e) = 32%nat /\ length (bo_masks e) = 32%nat /\
  bytes_ok (bo_bytes e) /\ bytes_ok (bo_masks e) /\ 0 <= bo_bits e < 2 ^ 32 /\
  forall k, (k < 32)%nat ->
    Z.testbit (bo_bits e) (Z.of_nat k) = bool_decide (is_Some (c k)) /\
    rd8 (bo_masks e) k = default 0 (fst <$> c k) /\
    rd8 (bo_bytes e) k = default 0 (snd <$> c k).

Definition compiled (ms : list match_) (l : list byteoff_match) : Prop :=
  length l = MAX_BASE /\
  forall b, (b < MAX_BASE)%nat -> entry_is (cells ms b) (nth b l byteoff_zero).

Lemma compiled_nil : compiled [] (replicate MAX_BASE byteoff_zero).
Proof.
  split; [done|]. intros b Hb. rewrite nth_lookup, lookup_replicate_2 by done.
  change (default byteoff_zero (Some byteoff_zero)) with byteoff_zero.
  split_and!; try done; try (apply Forall_replicate; lia); try lia.
  intros k Hk. unfold byteoff_zero. cbn [bo_bits bo_bytes bo_masks cells foldl fmap option_fmap option_map default].
  rewrite Z.bits_0, rd8_replicate by done.
  split_and!; [|done|done]. symmetry. apply bool_decide_eq_false. by intros [].
Qed.

Lemma bytes_ok_inserts off src dst :
  bytes_ok src -> bytes_ok dst -> bytes_ok (memcpy_at off src dst).
Proof. intros. by apply Forall_inserts. Qed.

Lemma lor_range a b n : 0 <= n -> 0 <= a < 2 ^ n -> 0 <= b < 2 ^ n -> 0 <= Z.lor a b < 2 ^ n.
Proof.
  intros Hn Ha Hb. rewrite <- (Z.mod_small a (2 ^ n)), <- (Z.mod_small b (2 ^ n)) by done.
  rewrite <- !Z.land_ones, <- Z.land_lor_distr_l, Z.land_ones by done.
  apply Z.mod_pos_bound. lia.
Qed.

Lemma entry_is_put c e off mask val :
  entry_is c e -> bytes_ok mask -> bytes_ok val -> length mask = length val ->
  (off + length val <= 32)%nat ->
  entry_is (fun k => if decide (off <= k < off + length val)%nat
                     then Some (rd8 mask (k - off), rd8 val (k - off)) else c k)
    (put off mask val e).
Proof.
  intros (H1 & H2 & H3 & H4 & H5 & H6) Hm Hv Hl Ho. unfold put, bo_on_masks, bo_on_bytes.
  split_and!; cbn [bo_bits bo_bytes bo_masks bo_or_bits].
  - unfold memcpy_at. by rewrite length_inserts.
  - unfold memcpy_at. by rewrite length_inserts.
  - by apply bytes_ok_inserts.
  - by apply bytes_ok_inserts.
  - apply (lor_range _ _ 32); [lia|done|apply BYTEBITS_range].
  - apply (lor_range _ _ 32); [lia|done|apply BYTEBITS_range].
  - intros k Hk. destruct (H6 k Hk) as (Hb & Hmk & Hvk).
    rewrite Z.lor_spec, BYTEBITS_testbit, !rd8_memcpy by lia. rewrite Hl.
    destruct (decide (off <= k < off + length val)%nat) as [Hin|Hout].
    + rewrite (bool_decide_eq_true_2 _ Hin), orb_true_r.
      split_and!; [|done|done]. symmetry. by apply bool_decide_eq_true.
    + rewrite (bool_decide_eq_false_2 _ Hout), orb_false_r. by split_and!.
Qed.

Lemma cells_snoc ms m b k :
  cells (ms ++ [m]) b k =
  match cell_of m b k with Some c => Some c | None => cells ms b k end.
Proof. unfold cells. by rewrite foldl_app. Qed.

Lemma entry_is_ext c c' e : (forall k, c k = c' k) -> entry_is c e -> entry_is c' e.
Proof. intros Hc (H1 & H2 & H3 & H4 & H5 & H6). split_and!; try done; try apply H5.
  intros k Hk. rewrite <- Hc. auto. Qed.

Lemma byte_cell_bytes m base off mask val :
  bytes_ok (oxm_value m) -> byte_cell m = Some (base, off, mask, val) ->
  bytes_ok mask /\ bytes_ok val.
Proof.
  intros Hb. unfold byte_cell. intros H. repeat case_match; simplify_eq.
  - split; [apply Forall_replicate; lia|done].
  - split; [by apply Forall_drop|by apply Forall_take].
Qed.

Lemma compiled_snoc ms l m :
  compiled ms l -> byte_match_ok m ->
  exists l', make_match_bytes m l = Some l' /\ compiled (ms ++ [m]) l'.
Proof.
  intros [Hlen Hl] Hm. pose proof Hm as (_ & Hv & Hc).
  destruct (byte_cell m) as [[[[base off] mask] val]|] eqn:Ec; [|done].
  destruct Hc as (H1 & H2 & H3 & H4).
  destruct (byte_cell_bytes _ _ _ _ _ Hv Ec) as [Hbm Hbv].
  eexists. split; [by eapply make_match_bytes_cell|]. split; [by rewrite length_alter|].
  intros b Hb. specialize (Hl b Hb). rewrite nth_lookup in Hl |- *.
  destruct (decide (b = base)) as [->|Hne].
  - rewrite list_lookup_alter_eq.
    destruct (lookup_lt_is_Some_2 l base) as [e He]; [by rewrite Hlen|].
    rewrite He in Hl |- *. cbn [fmap option_fmap option_map default] in *.
    eapply entry_is_ext; [|by apply entry_is_put].
    intros k. rewrite cells_snoc. unfold cell_of. rewrite Ec.
    destruct (decide (off <= k < off + length val)%nat).
    + by rewrite decide_True.
    + rewrite decide_False by tauto. done.
  - rewrite list_lookup_alter_ne by done.
    eapply entry_is_ext; [|exact Hl].
    intros k. rewrite cells_snoc. unfold cell_of. rewrite Ec.
    by rewrite decide_False by tauto.
Qed.

(** A match list of whole-byte fields, with the Ethernet types the loop only
    remembers. *)
Definition is_eth_type (m : match_) : bool := oxm_field m =? FIELD OFPXMT_OFB_ETH_TYPE.

Lemma compiled_foldl ms l t :
  Forall (fun m => is_eth_type m = false -> byte_match_ok m) ms ->
  compiled [] l ->
  compiled (filter (fun m => is_eth_type m = false) ms) (foldl make_match_1 (l, t) ms).1.
Proof.
  intros Hms Hl. induction ms as [|m ms IH] using rev_ind; [done|].
  apply Forall_app in Hms as [Hms Hm]. rewrite Forall_singleton in Hm. specialize (IH Hms).
  rewrite foldl_app, filter_app. cbn [foldl].
  destruct (foldl make_match_1 (l, t) ms) as [l' t']. cbn [fst] in IH.
  unfold make_match_1. fold (is_eth_type m). destruct (is_eth_type m) eqn:Ee.
  - rewrite filter_cons_False by congruence. by rewrite filter_nil, app_nil_r.
  - rewrite filter_cons_True, filter_nil by done.
    destruct (compiled_snoc _ _ _ IH (Hm eq_refl)) as (l'' & -> & H). exact H.
Qed.

(** *** The compiled form against the specification *)

Definition pairwise_disjoint (ms : list match_) : Prop :=
  forall i j m m', ms !! i = Some m -> ms !! j = Some m' -> i <> j -> cells_disjoint m m'.

Lemma cell_of_disjoint m m' b k c c' :
  cells_disjoint m m' -> cell_of m b k = Some c -> cell_of m' b k = Some c' -> False.
Proof.
  unfold cells_disjoint, cell_of. intros H H1 H2. repeat case_match; simplify_eq.
  destruct_and!. subst. destruct H as [|[]]; [done|lia|lia].
Qed.

Lemma cells_None ms b k : cells ms b k = None <-> forall m, m ∈ ms -> cell_of m b k = None.
Proof.
  induction ms as [|m ms IH] using rev_ind.
  { split; [|done]. intros _ m Hm. by apply elem_of_nil in Hm. }
  rewrite cells_snoc. setoid_rewrite elem_of_app. setoid_rewrite list_elem_of_singleton.
  split.
  - intros H m' [Hm'| ->]; [apply IH; [|done]|]; by destruct (cell_of m b k).
  - intros H. rewrite (H m) by auto. apply IH. auto.
Qed.

Lemma cells_Some ms b k c :
  cells ms b k = Some c -> exists m, m ∈ ms /\ cell_of m b k = Some c.
Proof.
  induction ms as [|m ms IH] using rev_ind; [done|]. rewrite cells_snoc.
  destruct (cell_of m b k) eqn:E.
  - intros [= ->]. exists m. split; [|done]. apply elem_of_app. right. by left.
  - intros (m' & Hm & Hc)%IH. exists m'. split; [|done]. apply elem_of_app. auto.
Qed.

Lemma cells_elem ms m b k c :
  pairwise_disjoint ms -> m ∈ ms -> cell_of m b k = Some c -> cells ms b k = Some c.
Proof.
  intros Hd [i Hi]%list_elem_of_lookup Hc. destruct (cells ms b k) as [c'|] eqn:E.
  - apply cells_Some in E as (m' & [j Hj]%list_elem_of_lookup & Hc').
    destruct (decide (i = j)) as [->|Hne]; [congruence|].
    destruct (cell_of_disjoint m m' b k c c'); [by eapply Hd|done|done].
  - rewrite (proj1 (cells_None ms b k) E m) in Hc; [done|]. by eapply list_elem_of_lookup_2.
Qed.

Lemma le_bytes_ok w x : bytes_ok (le_bytes w x).
Proof.
  revert x. induction w as [|w IH]; intros x; cbn [le_bytes]; constructor; [|apply IH].
  change 255 with (Z.ones 8). rewrite Z.land_ones by lia. apply Z.mod_pos_bound. lia.
Qed.

Lemma ptr_bytes_ok pkt p : bytes_ok (pk_data pkt) -> bytes_ok (ptr_bytes pkt p).
Proof.
  intros Hd. destruct p; cbn [ptr_bytes].
  - by apply Forall_drop.
  - unfold oob_bytes, bytes_ok. rewrite !Forall_app. split_and!; apply le_bytes_ok.
  - unfold oob2_bytes, bytes_ok. rewrite !Forall_app. split_and!; apply le_bytes_ok.
Qed.

(** A constraint function on the bytes of one header, as [match_base] checks it. *)
Lemma match_base_spec pkt b c e :
  bytes_ok (pk_data pkt) -> entry_is c e ->
  match_base pkt b e = true <->
  forall k m v, (k < 32)%nat -> c k = Some (m, v) ->
    exists p, base_ptr pkt b = Some p /\ Z.land (rd8 (ptr_bytes pkt p) k) m = v.
Proof.
  intros Hd (H1 & H2 & H3 & H4 & H5 & H6). unfold match_base.
  destruct (Z.eqb_spec (bo_bits e) 0) as [E0|E0].
  { split; [|done]. intros _ k m v Hk Hc. destruct (H6 k Hk) as (Hb & _).
    rewrite E0, Z.bits_0, Hc in Hb. symmetry in Hb. apply bool_decide_eq_false in Hb.
    destruct Hb. eauto. }
  destruct (base_ptr pkt b) as [p|]; cycle 1.
  { split; [done|]. intros H.
    assert (exists k, (k < 32)%nat /\ Z.testbit (bo_bits e) (Z.of_nat k) = true)
      as (k & Hk & Hbit).
    { exists (Z.to_nat (Z.log2 (bo_bits e))).
      assert (0 <= Z.log2 (bo_bits e) < 32).
      { split; [apply Z.log2_nonneg|]. apply Z.log2_lt_pow2; lia. }
      split; [lia|]. rewrite Z2Nat.id by lia. apply Z.bit_log2. lia. }
    destruct (H6 k Hk) as (Hb & _). rewrite Hbit in Hb. symmetry in Hb.
    apply bool_decide_eq_true in Hb. destruct (c k) as [[m v]|] eqn:Ec; [|by destruct Hb].
    destruct (H k m v Hk Ec) as (p & ? & _). done. }
  assert (forall l k, length l = 32%nat -> (32 <= k)%nat -> rd8 l k = 0) as Hover.
  { intros l k Hl Hk. unfold rd8. apply nth_overflow. lia. }
  rewrite match_words_spec; try done; try (by apply ptr_bytes_ok).
  - split.
    + intros H k m v Hk Hc. exists p. split; [done|]. destruct (H6 k Hk) as (_ & Hm & Hv).
      rewrite Hc in Hm, Hv. cbn in Hm, Hv. rewrite <- Hm, <- Hv. apply H. lia.
    + intros H k _. destruct (decide (k < 32)%nat) as [Hk|]; cycle 1.
      { rewrite (Hover _ k H2), (Hover _ k H1) by lia.
        apply Z.land_0_r. }
      destruct (H6 k Hk) as (_ & -> & ->).
      destruct (c k) as [[m v]|] eqn:Ec; [|apply Z.land_0_r].
      destruct (H k m v Hk Ec) as (p' & [= <-] & Hp). exact Hp.
  - intros k Hk. rewrite !Nat.add_0_l. destruct (decide (k < 32)%nat) as [Hk'|].
    + destruct (H6 k Hk') as (Hb & -> & ->). rewrite Hk in Hb. symmetry in Hb.
      apply bool_decide_eq_false in Hb. destruct (c k); [by destruct Hb; eauto|done].
    + split; [apply (Hover _ k H2)|apply (Hover _ k H1)]; lia.
Qed.

(** Whether the header a match is about is compared for this packet. *)
Definition match_in_scope (pkt : lagopus_packet) (m : match_) : Prop :=
  match byte_cell m with
  | Some (base, _, _, _) => (base < match_max pkt)%nat
  | None => True
  end.

Lemma eth_type_no_cell m : is_eth_type m = true -> byte_cell m = None.
Proof. unfold is_eth_type. intros E%Z.eqb_eq. unfold byte_cell. by rewrite E. Qed.

Lemma compiled_matches pkt ms f :
  bytes_ok (pk_data pkt) -> Forall byte_match_ok ms -> pairwise_disjoint ms ->
  compiled ms (fl_byteoff_match f) ->
  match_byteoff pkt f = true <->
  forall m, m ∈ ms -> match_in_scope pkt m -> oxm_matches pkt m.
Proof.
  intros Hd Hok Hdj [_ Hc]. unfold match_byteoff. rewrite forallb_forall.
  assert (match_max pkt <= MAX_BASE)%nat as Hmax
    by (unfold match_max, MAX_BASE, OOB2_BASE; destruct (_ =? _); lia).
  setoid_rewrite in_seq. split.
  - intros H m Hm Hs. unfold oxm_matches, match_in_scope in *.
    pose proof (proj1 (List.Forall_forall _ _) Hok m (proj1 (list_elem_of_In _ _) Hm))
      as (_ & _ & Hmok).
    destruct (byte_cell m) as [[[[base off] mask] val]|] eqn:Ec; [|done].
    destruct Hmok as (H1 & H2 & H3 & H4).
    assert (forall k, (k < length val)%nat ->
      exists p, base_ptr pkt base = Some p /\
        Z.land (rd8 (ptr_bytes pkt p) (off + k)) (rd8 mask k) = rd8 val k) as Hk.
    { intros k Hk. eapply (proj1 (match_base_spec pkt base _ _ Hd (Hc base H4))
        (H base ltac:(lia)) (off + k)%nat); [lia|].
      apply (cells_elem ms m); [done|done|]. unfold cell_of. rewrite Ec.
      rewrite decide_True by lia. by replace (off + k - off)%nat with k by lia. }
    destruct (Hk 0%nat H3) as (p & Hp & _). exists p. split; [done|].
    intros k Hlt. destruct (Hk k Hlt) as (p' & Hp' & E). rewrite Hp in Hp'. by simplify_eq.
  - intros H b Hb. apply (match_base_spec pkt b _ _ Hd (Hc b ltac:(lia))).
    intros k mk v Hk (m & Hm & Hcell)%cells_Some.
    specialize (H m Hm). unfold oxm_matches, match_in_scope, cell_of in *.
    destruct (byte_cell m) as [[[[base off] mask] val]|]; [|done].
    destruct (decide _) as [[-> Hin]|]; [|done]. simplify_eq.
    destruct H as (p & Hp & H); [lia|]. exists p. split; [done|].
    rewrite <- H by lia. by replace (off + (k - off))%nat with k by lia.
Qed.

(** ** Properties *)

Lemma flow_make_match_law (pkt : lagopus_packet) (f : flow)
    (Hnew : fl_byteoff_match f = replicate MAX_BASE byteoff_zero)
    (Hok : Forall (fun m => is_eth_type m = false -> byte_match_ok m) (fl_match_list f))
    (Hdj : pairwise_disjoint (filter (fun m => is_eth_type m = false) (fl_match_list f)))
    (Hd : bytes_ok (pk_data pkt)) :
  match_byteoff pkt (flow_make_match f) = true <->
  forall m, m ∈ fl_match_list f -> match_in_scope pkt m -> oxm_matches pkt m.
Proof.
  rewrite (compiled_matches pkt
    (filter (fun m => is_eth_type m = false) (fl_match_list f))); try done.
  - setoid_rewrite list_elem_of_filter. split; [|intros H m [_ Hm]; by apply H].
    intros H m Hm. destruct (is_eth_type m) eqn:E; [|by apply H].
    intros _. unfold oxm_matches. by rewrite eth_type_no_cell.
  - apply Forall_forall. intros m [He Hm]%list_elem_of_filter.
    rewrite Forall_forall in Hok. by apply Hok.
  - apply compiled_foldl; [done|]. rewrite Hnew. apply compiled_nil.
Qed.

(** C27: for a new flow whose match list is made of whole-byte fields (exact or masked) that
    constrain different bytes, the compiled form accepts a packet exactly when every
    match holds on it: the header is there and its masked bytes are the value's.
    The headers compared are those of the packet's protocol, as in the code. *)
Theorem flow_make_match_correct (pkt : lagopus_packet) (f : flow)
    (Hnew : fl_byteoff_match f = replicate MAX_BASE byteoff_zero)
    (Hok : Forall (fun m => is_eth_type m = false -> byte_match_ok m) (fl_match_list f))
    (Hdj : pairwise_disjoint (filter (fun m => is_eth_type m = false) (fl_match_list f)))
    (Hd : bytes_ok (pk_data pkt)) :
  match_byteoff pkt (flow_make_match f) = true <->
  forall m, m ∈ fl_match_list f -> match_in_scope pkt m -> oxm_matches pkt m.
Proof. by apply flow_make_match_law. Qed.

Definition sample_flow : flow :=
  set_fl_match_list
    [Match false OFPXMC_OPENFLOW_BASIC (FIELD OFPXMT_OFB_ETH_TYPE) 2 [8; 0];
     Match false OFPXMC_OPENFLOW_BASIC (FIELD_WITH_MASK OFPXMT_OFB_IPV4_DST) 8
       [10; 0; 0; 0; 255; 0; 0; 0];
     Match false OFPXMC_OPENFLOW_BASIC (FIELD OFPXMT_OFB_TCP_DST) 2 [0; 80]] flow_zero.

Lemma sample_flow_ok :
  Forall (fun m => is_eth_type m = false -> byte_match_ok m) (fl_match_list sample_flow).
Proof.
  assert (forall l, forallb (fun b => (0 <=? b) && (b <? 256)) l = true -> bytes_ok l) as Hb.
  { intros l. rewrite forallb_forall. intros H. apply Forall_forall.
    intros x Hx%list_elem_of_In%H. lia. }
  apply Forall_cons; split; [done|].
  apply Forall_cons; split; [intros _; split; [done|split; [by apply Hb|vm_compute; lia]]|].
  apply Forall_cons; split; [intros _; split; [done|split; [by apply Hb|vm_compute; lia]]|].
  apply Forall_nil, I.
Qed.

Lemma sample_flow_disjoint :
  pairwise_disjoint (filter (fun m => is_eth_type m = false) (fl_match_list sample_flow)).
Proof.
  intros i j m m' Hi Hj Hne.
  destruct i as [|[|]], j as [|[|]]; simplify_eq/=; try done; left; vm_compute; lia.
Qed.

Lemma flow_make_match_correct_witness :
  match_byteoff (lagopus_packet_init (packet_of sample_frame) 1) (flow_make_match sample_flow)
    = true <->
  forall m, m ∈ fl_match_list sample_flow ->
    match_in_scope (lagopus_packet_init (packet_of sample_frame) 1) m ->
    oxm_matches (lagopus_packet_init (packet_of sample_frame) 1) m.
Proof.
  apply flow_make_match_correct.
  - reflexivity.
  - exact sample_flow_ok.
  - exact sample_flow_disjoint.
  - rewrite (proj1 (proj2 (proj2 (packet_init_inv (packet_of sample_frame) 1 eq_refl)))).
    exact sample_frame_ok.
Defined.

(** The same, evaluated: this frame goes to port 0 of host 10.0.0.7. *)
Example sample_flow_match :
  match_byteoff (lagopus_packet_init (packet_of sample_frame) 1) (flow_make_match sample_flow)
  = false.
Proof. vm_compute. reflexivity. Qed.

(** [match_basic] decides by the byte comparison alone; it counts the packet and its
    length, modulo 2^64 and unless the flow's flags say otherwise, on a match, and
    leaves the flow alone on a mismatch; what the lookup structures read of the
    flow never changes. *)
Theorem match_basic_spec (pkt : lagopus_packet) (f : flow) :
  let '(matched, g) := match_basic pkt f in
  matched = match_byteoff pkt f /\ same_key f g /\
  fl_byteoff_match g = fl_byteoff_match f /\
  fl_packet_count g =
    (if matched && (Z.land (fl_flags f) OFPFF_NO_PKT_COUNTS =? 0)
     then u64 (fl_packet_count f + 1) else fl_packet_count f) /\
  fl_byte_count g =
    (if matched && (Z.land (fl_flags f) OFPFF_NO_BYT_COUNTS =? 0)
     then u64 (fl_byte_count f + Z.of_nat (length (pk_data pkt))) else fl_byte_count f).
Proof.
  unfold match_basic, count_match. destruct (match_byteoff pkt f); [|done].
  cbn [andb]. destruct (Z.land (fl_flags f) OFPFF_NO_PKT_COUNTS =? 0); cbn [fl_flags set_fl_packet_count];
    destruct (Z.land (fl_flags f) OFPFF_NO_BYT_COUNTS =? 0); done.
Qed.

Definition flabel_ecn_flow (ecn l1 l2 l3 : Z) : flow :=
  set_fl_match_list
    [Match false OFPXMC_OPENFLOW_BASIC (FIELD OFPXMT_OFB_ETH_TYPE) 2 [0x86; 0xdd];
     Match false OFPXMC_OPENFLOW_BASIC (FIELD OFPXMT_OFB_IP_ECN) 1 [ecn];
     Match false OFPXMC_OPENFLOW_BASIC (FIELD OFPXMT_OFB_IPV6_FLABEL) 4 [0; l1; l2; l3]]
    flow_zero.

Lemma match_words_first fuel p m c off bits :
  match_words (S fuel) p m c off bits = true -> Z.land bits 15 <> 0 ->
  Z.land (rd32 p off) (rd32 m off) = rd32 c off.
Proof.
  cbn [match_words]. intros H Hb%Z.eqb_neq. rewrite Hb in H.
  destruct (Z.eqb_spec (Z.land (rd32 p off) (rd32 m off)) (rd32 c off)); done.
Qed.

Lemma flabel_ecn_entry ecn l1 l2 l3 :
  nth L3_BASE (fl_byteoff_match (flow_make_match (flabel_ecn_flow ecn l1 l2 l3))) byteoff_zero =
  ByteoffMatch 14 ([0; u8 (keep_or 0xf0 l1 (u8 (keep_or 0xcf (u8 (Z.shiftl ecn 4)) 0)));
                    u8 l2; u8 l3] ++ replicate 28 0)
    ([0; 0x0f; 0xff; 0xff] ++ replicate 28 0).
Proof.
  assert (forall l, foldl make_match_1 (l, 0) (fl_match_list (flabel_ecn_flow ecn l1 l2 l3)) =
    (alter (fun b =>
      bo_on_masks (fun k => st8 3 (store 0xff) (st8 2 (store 0xff) (st8 1 (store 0x0f) k)))
        (bo_on_bytes (fun k => st8 3 (store l3) (st8 2 (store l2) (st8 1 (keep_or 0xf0 l1) k)))
          (bo_or_bits (BYTEBITS 3 1) b))) L3_BASE
      (alter (fun b =>
        bo_on_masks (st8 1 (or_with 0x30))
          (bo_on_bytes (st8 1 (keep_or 0xcf (u8 (Z.shiftl ecn 4))))
            (bo_or_bits (BYTEBITS 1 1) b))) L3_BASE l), ETHERTYPE_IPV6)) as E by reflexivity.
  unfold flow_make_match. rewrite E. reflexivity.
Qed.

(** The flow-label case assigns the mask byte it shares with the traffic class
    instead of extending it, so an IPv6 flow that matches a non-zero ECN and then a
    flow label accepts no packet at all. *)
Theorem ipv6_flabel_clobbers_ecn (pkt : lagopus_packet) (ecn l1 l2 l3 : Z)
    (Hecn : 1 <= ecn <= 3) (Hl : 0 <= l1 < 16) (Hl2 : 0 <= l2 < 256) (Hl3 : 0 <= l3 < 256)
    (Hd : bytes_ok (pk_data pkt)) :
  match_byteoff pkt (flow_make_match (flabel_ecn_flow ecn l1 l2 l3)) = false.
Proof.
  apply not_true_iff_false. unfold match_byteoff. rewrite forallb_forall. intros H.
  assert (4 < match_max pkt)%nat as Hmax
    by (unfold match_max, MAX_BASE, OOB2_BASE; destruct (_ =? _); lia).
  assert (L3_BASE ∈ seq 0 (match_max pkt)) as Hin%list_elem_of_In%H
    by (apply elem_of_seq; unfold L3_BASE; lia).
  clear H Hmax. unfold match_base in Hin.
  rewrite flabel_ecn_entry in Hin. cbn [bo_bits bo_masks bo_bytes Z.eqb] in Hin.
  destruct (base_ptr pkt L3_BASE) as [p|]; [|done].
  apply match_words_first in Hin as E; [|done]. clear Hin.
  rewrite word_eq_bytes in E; [|by apply ptr_bytes_ok| |].
  - specialize (E 1%nat ltac:(lia)). change (Z.land (rd8 (ptr_bytes pkt p) 1) 15 =
      u8 (keep_or 0xf0 l1 (u8 (keep_or 0xcf (u8 (Z.shiftl ecn 4)) 0)))) in E.
    assert (Z.testbit (Z.land (rd8 (ptr_bytes pkt p) 1) 15) 4 ||
            Z.testbit (Z.land (rd8 (ptr_bytes pkt p) 1) 15) 5 = true) as Hbit.
    { rewrite E. unfold u8, keep_or. rewrite !Z.mod_pow2_bits_low by lia.
      rewrite !Z.lor_spec.
      assert (ecn = 1 \/ ecn = 2 \/ ecn = 3) as [-> | [-> | ->]] by lia;
        cbn; rewrite ?orb_true_r; done. }
    rewrite !Z.land_spec in Hbit. cbn in Hbit. by rewrite !andb_false_r in Hbit.
  - apply Forall_app. split; [|apply Forall_replicate; lia].
    repeat (apply Forall_cons; split; [lia|]). by apply Forall_nil.
  - apply Forall_app. split; [|apply Forall_replicate; lia].
    repeat (apply Forall_cons; split; [try lia; apply Z.mod_pos_bound; lia|]). by apply Forall_nil.
Qed.

Lemma ipv6_flabel_clobbers_ecn_witness :
  match_byteoff (lagopus_packet_init (packet_of sample_frame) 1)
    (flow_make_match (flabel_ecn_flow 1 0 0 7)) = false.
Proof.
  apply ipv6_flabel_clobbers_ecn; [lia..|].
  rewrite (proj1 (proj2 (proj2 (packet_init_inv (packet_of sample_frame) 1 eq_refl)))).
  exact sample_frame_ok.
Defined.
