(* ===== verification/FlowEntry.v ===== *)
(** * Flow entries: allocation, validation and comparison

    The functions of [src/dataplane/mgr/flowdb.c] that work on one flow entry or on a
    match list: allocation, the mapping of instructions to the execution array,
    the prerequisite and wildcard checks of a FLOW_MOD, and the two comparisons that
    the table operations use. *)
From S2P Require Import Prelude OpenFlow.

(** ** Data *)

(** [struct ofp_flow_mod] *)
Record ofp_flow_mod := OfpFlowMod {
  fm_cookie : Z;
  fm_cookie_mask : Z;
  fm_table_id : Z;
  fm_command : Z;
  fm_idle_timeout : Z;
  fm_hard_timeout : Z;
  fm_priority : Z;
  fm_out_port : Z;
  fm_out_group : Z;
  fm_flags : Z
}.

(** ** Instructions *)

Definition instruction_index (i : instruction) : nat :=
  if ins_type i =? OFPIT_METER then INSTRUCTION_INDEX_METER
  else if ins_type i =? OFPIT_APPLY_ACTIONS then INSTRUCTION_INDEX_APPLY_ACTIONS
  else if ins_type i =? OFPIT_CLEAR_ACTIONS then INSTRUCTION_INDEX_CLEAR_ACTIONS
  else if ins_type i =? OFPIT_WRITE_ACTIONS then INSTRUCTION_INDEX_WRITE_ACTIONS
  else if ins_type i =? OFPIT_WRITE_METADATA then INSTRUCTION_INDEX_WRITE_METADATA
  else if ins_type i =? OFPIT_GOTO_TABLE then INSTRUCTION_INDEX_GOTO_TABLE
  else INSTRUCTION_INDEX_MAX.

(** The loop over the list; [k] is the position of the head in the whole list. *)
Fixpoint map_instructions (dest : list (option nat)) (k : nat) (l : list instruction)
    : list (option nat) * option ofp_error :=
  match l with
  | [] => (dest, None)
  | inst :: l' =>
      let idx := instruction_index inst in
      if (idx =? INSTRUCTION_INDEX_MAX)%nat
      then (dest, Some (OFPET_BAD_INSTRUCTION, OFPBIC_UNKNOWN_INST))
      else
        match mjoin (dest !! idx) with
        | Some _ => (dest, Some (OFPET_FLOW_MOD_FAILED, OFPFMFC_UNKNOWN))
        | None => map_instructions (<[idx := Some k]> dest) (S k) l'
        end
  end.

Definition map_instruction_list_to_array (l : list instruction)
    : list (option nat) * option ofp_error :=
  map_instructions (replicate INSTRUCTION_INDEX_MAX None) 0 l.

(** The instruction an array slot points to. *)
Definition flow_instruction (f : flow) (idx : nat) : option instruction :=
  mjoin (fl_instruction f !! idx) ≫= fun k => fl_instruction_list f !! k.

(** [flow_alloc]: the lists are moved into the flow (TAILQ_CONCAT), so the caller's
    lists are empty afterwards; on an error the flow is freed with them. *)
Definition flow_alloc (flow_mod : ofp_flow_mod) (match_list : list match_)
    (instruction_list : list instruction) (now : timespec) : flow + ofp_error :=
  let '(arr, error) := map_instruction_list_to_array instruction_list in
  match error with
  | Some e => inr e
  | None =>
      inl (Flow (replicate MAX_BASE byteoff_zero) arr 0 0 (fm_flags flow_mod)
             (fm_priority flow_mod) (fm_cookie flow_mod) (fm_idle_timeout flow_mod)
             (fm_hard_timeout flow_mod) match_list instruction_list 0 0 now now None)
  end.

(** ** Validation *)

(** [(uint64_t)1 << T]; the shift takes its count modulo 64 on x86 (for a type
    above 63 the C expression is undefined). *)
Definition FIELD_TYPE_BIT (t : Z) : Z := Z.shiftl 1 (t mod 64).
Definition CHECK_FIELD_BIT (mask t : Z) : bool := negb (Z.land mask (FIELD_TYPE_BIT t) =? 0).

(** The types a match of the given type must come after. *)
Definition prerequisites (t : Z) : list Z :=
  if t =? OFPXMT_OFB_IN_PHY_PORT then [OFPXMT_OFB_IN_PORT]
  else if t =? OFPXMT_OFB_VLAN_PCP then [OFPXMT_OFB_VLAN_VID]
  else if bool_decide (t ∈ [OFPXMT_OFB_IP_DSCP; OFPXMT_OFB_IP_ECN; OFPXMT_OFB_IP_PROTO;
      OFPXMT_OFB_IPV4_SRC; OFPXMT_OFB_IPV4_DST; OFPXMT_OFB_ARP_OP; OFPXMT_OFB_ARP_SPA;
      OFPXMT_OFB_ARP_TPA; OFPXMT_OFB_ARP_SHA; OFPXMT_OFB_ARP_THA; OFPXMT_OFB_IPV6_SRC;
      OFPXMT_OFB_IPV6_DST; OFPXMT_OFB_IPV6_FLABEL; OFPXMT_OFB_IPV6_EXTHDR;
      OFPXMT_OFB_MPLS_LABEL; OFPXMT_OFB_MPLS_TC; OFPXMT_OFB_MPLS_BOS])
  then [OFPXMT_OFB_ETH_TYPE]
  else if bool_decide (t ∈ [OFPXMT_OFB_TCP_SRC; OFPXMT_OFB_TCP_DST; OFPXMT_OFB_UDP_SRC;
      OFPXMT_OFB_UDP_DST; OFPXMT_OFB_SCTP_SRC; OFPXMT_OFB_SCTP_DST;
      OFPXMT_OFB_ICMPV4_TYPE; OFPXMT_OFB_ICMPV4_CODE; OFPXMT_OFB_ICMPV6_TYPE;
      OFPXMT_OFB_ICMPV6_CODE; OFPXMT_OFB_IPV6_ND_TARGET; OFPXMT_OFB_IPV6_ND_SLL;
      OFPXMT_OFB_IPV6_ND_TLL])
  then [OFPXMT_OFB_ETH_TYPE; OFPXMT_OFB_IP_PROTO]
  else [].

(** The loop of [flow_pre_requisite_check]: the bits seen and the error. *)
Fixpoint pre_requisite_loop (field_bits : Z) (ms : list match_) : Z * option ofp_error :=
  match ms with
  | [] => (field_bits, None)
  | m :: ms' =>
      let field_type := OXM_FIELD_TYPE (oxm_field m) in
      if CHECK_FIELD_BIT field_bits field_type
      then (field_bits, Some (OFPET_BAD_MATCH, OFPBMC_DUP_FIELD))
      else
        let field_bits := Z.lor field_bits (FIELD_TYPE_BIT field_type) in
        if forallb (CHECK_FIELD_BIT field_bits) (prerequisites field_type)
        then pre_requisite_loop field_bits ms'
        else (field_bits, Some (OFPET_BAD_MATCH, OFPBMC_BAD_PREREQ))
  end.

Definition flow_pre_requisite_check (f : flow) : flow * option ofp_error :=
  let '(field_bits, error) := pre_requisite_loop 0 (fl_match_list f) in
  (set_fl_field_bits field_bits f, error).

Definition mask_ok (m : match_) : bool :=
  if negb (Z.land (oxm_field m) 1 =? 0) then
    let len := Z.to_nat (Z.shiftr (oxm_length m) 1) in
    forallb (fun i => Z.ldiff (rd8 (oxm_value m) i) (rd8 (oxm_value m) (len + i)) =? 0)
      (seq 0 len)
  else true.

Definition flow_mask_check (ms : list match_) : option ofp_error :=
  if forallb mask_ok ms then None else Some (OFPET_BAD_MATCH, OFPBMC_BAD_WILDCARDS).

(** ** Comparison *)

(** The test both comparisons make on two matches. *)
Definition match_same (m1 m2 : match_) : bool :=
  (oxm_class m1 =? oxm_class m2) && (oxm_field m1 =? oxm_field m2)
  && (oxm_length m1 =? oxm_length m2)
  && memcmp_eq (Z.to_nat (oxm_length m1)) (oxm_value m1) (oxm_value m2).

(** True if [ml1] has all the matches of [ml2]. *)
Definition match_compare (ml1 ml2 : list match_) : bool :=
  forallb (fun m2 => existsb (fun m1 => match_same m1 m2) ml1) ml2.

Fixpoint match_list_same (l1 l2 : list match_) : bool :=
  match l1, l2 with
  | m1 :: l1', m2 :: l2' => match_same m1 m2 && match_list_same l1' l2'
  | [], [] => true
  | _, _ => false
  end.

Definition flow_compare (f1 f2 : flow) : bool :=
  (fl_priority f1 =? fl_priority f2) && (fl_field_bits f1 =? fl_field_bits f2)
  && match_list_same (fl_match_list f1) (fl_match_list f2).

(** ** Lemmas *)

Lemma match_same_spec m1 m2 :
  match_same m1 m2 = true <->
  oxm_class m1 = oxm_class m2 /\ oxm_field m1 = oxm_field m2 /\
  oxm_length m1 = oxm_length m2 /\
  memcmp_eq (Z.to_nat (oxm_length m1)) (oxm_value m1) (oxm_value m2) = true.
Proof. unfold match_same. rewrite !andb_true_iff, !Z.eqb_eq. tauto. Qed.

Lemma match_same_refl m : match_same m m = true.
Proof. apply match_same_spec. auto with lagopus. Qed.

Lemma match_same_sym m1 m2 : match_same m1 m2 = true -> match_same m2 m1 = true.
Proof.
  rewrite !match_same_spec. intros (H1 & H2 & H3 & H4). split_and!; try congruence.
  rewrite <- H3. by apply memcmp_eq_sym.
Qed.

Lemma match_same_trans m1 m2 m3 :
  match_same m1 m2 = true -> match_same m2 m3 = true -> match_same m1 m3 = true.
Proof.
  rewrite !match_same_spec. intros (H1 & H2 & H3 & H4) (G1 & G2 & G3 & G4).
  split_and!; try congruence. eapply memcmp_eq_trans; [done|by rewrite H3].
Qed.
#[export] Hint Resolve match_same_refl match_same_sym match_same_trans : lagopus.

Lemma match_list_same_spec l1 l2 :
  match_list_same l1 l2 = true <-> Forall2 (fun m1 m2 => match_same m1 m2 = true) l1 l2.
Proof.
  revert l2. induction l1 as [|m1 l1 IH]; intros [|m2 l2]; cbn [match_list_same].
  - split; [constructor|done].
  - split; [done|inversion 1].
  - split; [done|inversion 1].
  - rewrite andb_true_iff, IH, Forall2_cons. done.
Qed.

Lemma flow_compare_spec f1 f2 :
  flow_compare f1 f2 = true <->
  fl_priority f1 = fl_priority f2 /\ fl_field_bits f1 = fl_field_bits f2 /\
  Forall2 (fun m1 m2 => match_same m1 m2 = true) (fl_match_list f1) (fl_match_list f2).
Proof.
  unfold flow_compare. rewrite !andb_true_iff, !Z.eqb_eq, match_list_same_spec. tauto.
Qed.

Lemma flow_compare_refl f : flow_compare f f = true.
Proof.
  apply flow_compare_spec. split_and!; [done|done|].
  induction (fl_match_list f); constructor; auto with lagopus.
Qed.

Lemma flow_compare_sym f g : flow_compare f g = true -> flow_compare g f = true.
Proof.
  rewrite !flow_compare_spec. intros (H1 & H2 & H3). split_and!; try done.
  apply Forall2_flip. eapply Forall2_impl; [exact H3|]. auto with lagopus.
Qed.

Lemma flow_compare_trans f g h :
  flow_compare f g = true -> flow_compare g h = true -> flow_compare f h = true.
Proof.
  rewrite !flow_compare_spec. intros (H1 & H2 & H3) (G1 & G2 & G3).
  split_and!; try congruence.
  revert H3 G3. generalize (fl_match_list f) (fl_match_list g) (fl_match_list h).
  intros l1 l2 l3 H. revert l3.
  induction H; inversion 1; subst; constructor; eauto with lagopus.
Qed.
#[export] Hint Resolve flow_compare_refl flow_compare_sym flow_compare_trans : lagopus.

(** *** The bit set of field types *)

Definition field_type (m : match_) : Z := OXM_FIELD_TYPE (oxm_field m).

(** [bits] is the set of the types in [ts]. *)
Definition bits_are (bits : Z) (ts : list Z) : Prop :=
  0 <= bits /\ forall t, 0 <= t < 64 -> Z.testbit bits t = bool_decide (t ∈ ts).

Lemma bits_are_nil : bits_are 0 [].
Proof.
  split; [done|]. intros t Ht. rewrite Z.bits_0. symmetry. apply bool_decide_eq_false.
  apply not_elem_of_nil.
Qed.

Lemma FIELD_TYPE_BIT_testbit t u :
  0 <= t < 64 -> 0 <= u -> Z.testbit (FIELD_TYPE_BIT t) u = (u =? t).
Proof.
  intros Ht Hu. unfold FIELD_TYPE_BIT. rewrite Z.mod_small, Z.shiftl_1_l by done.
  destruct (Z.eqb_spec u t) as [->|]; [by apply Z.pow2_bits_true|by apply Z.pow2_bits_false].
Qed.

Lemma CHECK_FIELD_BIT_spec bits ts t :
  bits_are bits ts -> 0 <= t < 64 -> CHECK_FIELD_BIT bits t = bool_decide (t ∈ ts).
Proof.
  intros [Hnn Hb] Ht. rewrite <- Hb by done. unfold CHECK_FIELD_BIT.
  destruct (Z.testbit bits t) eqn:E.
  - apply negb_true_iff, Z.eqb_neq. intros H0.
    assert (Z.testbit (Z.land bits (FIELD_TYPE_BIT t)) t = true) as H1.
    { rewrite Z.land_spec, FIELD_TYPE_BIT_testbit, E by lia. by rewrite Z.eqb_refl. }
    by rewrite H0, Z.bits_0 in H1.
  - apply negb_false_iff, Z.eqb_eq. apply Z.bits_inj'. intros u Hu.
    rewrite Z.land_spec, FIELD_TYPE_BIT_testbit, Z.bits_0 by done.
    destruct (Z.eqb_spec u t) as [->|]; [by rewrite E|apply andb_false_r].
Qed.

Lemma bits_are_set bits ts t :
  bits_are bits ts -> 0 <= t < 64 -> bits_are (Z.lor bits (FIELD_TYPE_BIT t)) (ts ++ [t]).
Proof.
  intros [Hnn Hb] Ht. split.
  - apply Z.lor_nonneg. split; [done|]. unfold FIELD_TYPE_BIT. apply Z.shiftl_nonneg. lia.
  - intros u Hu. rewrite Z.lor_spec, Hb, FIELD_TYPE_BIT_testbit by lia.
    apply eq_true_iff_eq. rewrite orb_true_iff, !bool_decide_eq_true, Z.eqb_eq, elem_of_app,
      list_elem_of_singleton. done.
Qed.

Definition type_ok (t : Z) : Prop := 0 <= t < 64.

Lemma prerequisites_ok t p : p ∈ prerequisites t -> type_ok p.
Proof.
  unfold prerequisites, type_ok. intros Hp%list_elem_of_In. revert Hp.
  repeat case_match; cbn [In]; intros; destruct_or?; subst; try done;
    vm_compute; split; congruence.
Qed.

(** The reference definition: the first match whose type is repeated or lacks an
    earlier prerequisite decides the error. *)
Fixpoint pre_requisite_ref (seen : list Z) (ts : list Z) : option ofp_error :=
  match ts with
  | [] => None
  | t :: ts' =>
      if bool_decide (t ∈ seen) then Some (OFPET_BAD_MATCH, OFPBMC_DUP_FIELD)
      else if bool_decide (prerequisites t ⊆ seen ++ [t])
      then pre_requisite_ref (seen ++ [t]) ts'
      else Some (OFPET_BAD_MATCH, OFPBMC_BAD_PREREQ)
  end.

Lemma pre_requisite_loop_ref bits seen ms :
  bits_are bits seen -> Forall (fun m => type_ok (field_type m)) ms ->
  let '(bits', error) := pre_requisite_loop bits ms in
  error = pre_requisite_ref seen (field_type <$> ms) /\
  (error = None -> bits_are bits' (seen ++ (field_type <$> ms))).
Proof.
  intros Hb Hok. revert bits seen Hb.
  induction Hok as [|m ms Hm Hms IH]; intros bits seen Hb; rewrite ?fmap_cons; cbn [pre_requisite_loop fmap list_fmap pre_requisite_ref].
  { split; [done|]. intros _. by rewrite app_nil_r. }
  fold (field_type m). rewrite (CHECK_FIELD_BIT_spec bits seen) by done.
  destruct (bool_decide (field_type m ∈ seen)); [done|].
  pose proof (bits_are_set _ _ _ Hb Hm) as Hb'.
  assert (forallb (CHECK_FIELD_BIT (Z.lor bits (FIELD_TYPE_BIT (field_type m))))
            (prerequisites (field_type m)) =
          bool_decide (prerequisites (field_type m) ⊆ seen ++ [field_type m])) as ->.
  { apply eq_true_iff_eq. rewrite forallb_forall, bool_decide_eq_true. split.
    - intros H p Hp. pose proof (H p (proj1 (list_elem_of_In _ _) Hp)) as Hc.
      rewrite (CHECK_FIELD_BIT_spec _ _ _ Hb') in Hc by (by eapply prerequisites_ok).
      by apply bool_decide_eq_true in Hc.
    - intros H p Hp%list_elem_of_In.
      rewrite (CHECK_FIELD_BIT_spec _ _ _ Hb') by (by eapply prerequisites_ok).
      apply bool_decide_eq_true. by apply H. }
  destruct (bool_decide (_ ⊆ _)); [|done].
  specialize (IH _ _ Hb'). destruct (pre_requisite_loop _ ms) as [bits' error].
  destruct IH as [-> H]. split; [done|]. intros Hn%H. by rewrite <- app_assoc in Hn.
Qed.

Lemma prerequisites_not_self t : t ∉ prerequisites t.
Proof.
  intros Hp%list_elem_of_In. unfold prerequisites in Hp.
  repeat case_match; cbn [In] in Hp; destruct_or?; subst; done.
Qed.

Lemma pre_requisite_ref_None seen ts :
  pre_requisite_ref seen ts = None <->
  NoDup ts /\ (forall t, t ∈ ts -> t ∉ seen) /\
  (forall i t, ts !! i = Some t -> prerequisites t ⊆ seen ++ take i ts).
Proof.
  revert seen. induction ts as [|t ts IH]; intros seen; cbn [pre_requisite_ref].
  { split; [|done]. intros _. split_and!; [constructor|set_solver|done]. }
  rewrite NoDup_cons. case_bool_decide as Hin.
  { split; [done|]. intros (_ & H & _). by destruct (H t (list_elem_of_here _ _)). }
  case_bool_decide as Hpre.
  - rewrite IH. split.
    + intros (H1 & H2 & H3). split_and!; [|done| |].
      * intros Ht. apply (H2 t Ht). set_solver.
      * intros u [->|Hu]%elem_of_cons; [done|]. specialize (H2 u Hu). set_solver.
      * intros [|i] u Hu; cbn in Hu |- *.
        -- simplify_eq. intros p Hp. pose proof (prerequisites_not_self u).
           apply Hpre in Hp as Hp'. set_solver.
        -- apply H3 in Hu. by rewrite <- app_assoc in Hu.
    + intros ((H1 & H2) & H3 & H4). split_and!; [done| |].
      * intros u Hu. pose proof (H3 u ltac:(set_solver)). set_solver.
      * intros i u Hu. specialize (H4 (S i) u Hu). by rewrite <- app_assoc.
  - split; [done|]. intros (_ & _ & H). destruct Hpre.
    specialize (H 0%nat t eq_refl). set_solver.
Qed.

Lemma pre_requisite_ref_error seen ts e :
  pre_requisite_ref seen ts = Some e ->
  (e = (OFPET_BAD_MATCH, OFPBMC_DUP_FIELD) /\ ~ (NoDup ts /\ forall t, t ∈ ts -> t ∉ seen)) \/
  (e = (OFPET_BAD_MATCH, OFPBMC_BAD_PREREQ) /\
   exists i t, ts !! i = Some t /\ ~ prerequisites t ⊆ seen ++ take i ts).
Proof.
  revert seen. induction ts as [|t ts IH]; intros seen; cbn [pre_requisite_ref]; [done|].
  case_bool_decide as Hin.
  { intros [= <-]. left. split; [done|]. intros [_ H]. by destruct (H t (list_elem_of_here _ _)). }
  case_bool_decide as Hpre.
  - intros [[-> H]|(-> & i & u & Hu & H)]%IH.
    + left. split; [done|]. intros [[H1 H2]%NoDup_cons H3]. apply H. split; [done|].
      intros u Hu. pose proof (H3 u ltac:(set_solver)). set_solver.
    + right. split; [done|]. exists (S i), u. split; [done|]. cbn. by rewrite <- app_assoc in H.
  - intros [= <-]. right. split; [done|]. exists 0%nat, t. split; [done|]. set_solver.
Qed.

(** *** The instruction array *)

Lemma map_instructions_spec dest k l :
  length dest = INSTRUCTION_INDEX_MAX ->
  let '(arr, error) := map_instructions dest k l in
  length arr = INSTRUCTION_INDEX_MAX /\
  (error = None <->
   NoDup (instruction_index <$> l) /\
   (forall i, i ∈ l -> instruction_index i <> INSTRUCTION_INDEX_MAX /\
                       mjoin (dest !! instruction_index i) = None)) /\
  (error = None -> forall idx j,
     mjoin (arr !! idx) = Some j <->
     mjoin (dest !! idx) = Some j \/
     (k <= j)%nat /\ instruction_index <$> l !! (j - k)%nat = Some idx).
Proof.
  revert dest k. induction l as [|i l IH]; intros dest k Hlen; rewrite ?fmap_cons; cbn [map_instructions].
  { split_and!; [done| |].
    - split; [|done]. intros _. split; [constructor|set_solver].
    - intros _ idx j. rewrite lookup_nil. split; [auto|]. intros [|[_ ?]]; done. }
  destruct (Nat.eqb_spec (instruction_index i) INSTRUCTION_INDEX_MAX) as [E|E].
  { split_and!; [done| |done]. split; [done|]. intros [_ H].
    by destruct (H i (list_elem_of_here _ _)). }
  destruct (mjoin (dest !! instruction_index i)) eqn:Ed.
  { split_and!; [done| |done]. split; [done|]. intros [_ H].
    destruct (H i (list_elem_of_here _ _)). congruence. }
  assert (instruction_index i < INSTRUCTION_INDEX_MAX)%nat as Hlt.
  { revert E. unfold instruction_index, INSTRUCTION_INDEX_MAX. repeat case_match; vm_compute; lia. }
  specialize (IH (<[instruction_index i := Some k]> dest) (S k)
    ltac:(by rewrite length_insert)).
  destruct (map_instructions _ _ l) as [arr error]. destruct IH as (H1 & H2 & H3).
  assert (forall idx, mjoin (<[instruction_index i := Some k]> dest !! idx) =
    if decide (idx = instruction_index i) then Some k else mjoin (dest !! idx)) as Hins.
  { intros idx. destruct (decide _) as [->|].
    - by rewrite list_lookup_insert_eq by lia.
    - by rewrite list_lookup_insert_ne. }
  split_and!; [done| |].
  - rewrite H2, NoDup_cons. split.
    + intros [Hnd Hall]. split; [split; [|done]|].
      * intros (i' & Hi' & Hin)%list_elem_of_fmap.
        destruct (Hall i' Hin) as [_ Hn]. rewrite Hins, <- Hi', decide_True in Hn; done.
      * intros i' [->|Hin]%elem_of_cons; [done|].
        destruct (Hall i' Hin) as [Hm Hn]. rewrite Hins in Hn. split; [done|].
        by destruct (decide _).
    + intros [[Hni Hnd] Hall]. split; [done|]. intros i' Hin.
      destruct (Hall i' ltac:(set_solver)) as [Hm Hn]. split; [done|].
      rewrite Hins. destruct (decide _) as [Heq|]; [|done]. destruct Hni.
      rewrite <- Heq. by apply list_elem_of_fmap_2.
  - intros He idx j. rewrite (H3 He), Hins. split.
    + intros [Hd|[Hj Hl]].
      * destruct (decide _) as [->|]; [|auto]. simplify_eq. right. split; [lia|].
        by rewrite Nat.sub_diag.
      * right. split; [lia|]. replace (j - k)%nat with (S (j - S k)) by lia. done.
    + intros [Hd|[Hj Hl]].
      * left. destruct (decide _) as [->|]; [congruence|done].
      * destruct (decide (j = k)) as [->|].
        -- left. rewrite Nat.sub_diag in Hl. cbn in Hl. simplify_eq. by rewrite decide_True.
        -- right. split; [lia|]. by replace (j - k)%nat with (S (j - S k)) in Hl by lia.
Qed.

(** *** Wildcards *)

Lemma ldiff_zero a b : Z.ldiff a b = 0 <-> Z.land a b = a.
Proof.
  split; intros H.
  - rewrite <- (Z.lor_ldiff_and a b) at 2. by rewrite H.
  - apply Z.bits_inj'. intros k Hk. rewrite Z.ldiff_spec, Z.bits_0.
    rewrite <- H, Z.land_spec. by destruct (Z.testbit a k), (Z.testbit b k).
Qed.

(** *** Comparison and identity *)

(** A match whose value has the length it announces. *)
Definition match_sized (m : match_) : Prop :=
  oxm_length m = Z.of_nat (length (oxm_value m)).

Definition match_id (m : match_) : Z * Z * Z * bytes :=
  (oxm_class m, oxm_field m, oxm_length m, oxm_value m).

Lemma match_same_id m1 m2 :
  match_sized m1 -> match_sized m2 -> match_same m1 m2 = true <-> match_id m1 = match_id m2.
Proof.
  unfold match_sized, match_id. intros S1 S2. rewrite match_same_spec. split.
  - intros (H1 & H2 & H3 & H4). rewrite H1, H2, H3. f_equal.
    rewrite memcmp_eq_spec in H4. rewrite S1, Nat2Z.id in H4.
    assert (length (oxm_value m1) = length (oxm_value m2)) as Hl by lia.
    apply nth_ext with (d := 0) (d' := 0); [done|]. intros n Hn. by apply H4.
  - intros [= H1 H2 H3 H4]. rewrite H4. auto with lagopus.
Qed.

(** [flow_compare] only reads the key of a flow. *)
Lemma match_list_same_key l1 l2 l2' :
  map match_id l2 = map match_id l2' ->
  match_list_same l1 l2 = match_list_same l1 l2'.
Proof.
  revert l2 l2'. induction l1 as [|m l1 IH]; intros [|m2 l2] [|m2' l2'] H; try done.
  cbn in H |- *. injection H as H1 H2 H3 H4 H5. unfold match_same.
  rewrite H1, H2, H3, H4. by rewrite (IH _ _ H5).
Qed.

Lemma flow_compare_key_r f g g' : same_key g g' -> flow_compare f g = flow_compare f g'.
Proof.
  intros (H1 & H2 & H3). unfold flow_compare. rewrite H1, H2.
  by rewrite (match_list_same_key _ _ _ H3).
Qed.

Lemma flow_compare_comm f g : flow_compare f g = flow_compare g f.
Proof. apply eq_true_iff_eq. split; apply flow_compare_sym. Qed.

#[global] Instance flow_compare_proper :
  Proper (same_key ==> same_key ==> eq) flow_compare.
Proof.
  intros f f' Hf g g' Hg. rewrite (flow_compare_key_r _ _ _ Hg).
  rewrite !(flow_compare_comm _ g'). by apply flow_compare_key_r.
Qed.

(** ** Properties *)

(** A FLOW_MOD passes the prerequisite check exactly when no field type occurs twice
    and every match comes after the matches of the types it needs; then the flow's
    [field_bits] is the set of its types.  A failed check reports DUP_FIELD only for
    a repeated type and BAD_PREREQ only for a missing prerequisite.  (Types below 64,
    where the shift that makes the bit is defined.) *)
Theorem flow_pre_requisite_check_correct (f : flow)
    (Hok : Forall (fun m => type_ok (field_type m)) (fl_match_list f)) :
  let ts := field_type <$> fl_match_list f in
  let '(g, error) := flow_pre_requisite_check f in
  g = set_fl_field_bits (fl_field_bits g) f /\
  (error = None <->
   NoDup ts /\ forall i t, ts !! i = Some t -> prerequisites t ⊆ take i ts) /\
  (error = None -> bits_are (fl_field_bits g) ts) /\
  (forall e, error = Some e ->
     (e = (OFPET_BAD_MATCH, OFPBMC_DUP_FIELD) /\ ~ NoDup ts) \/
     (e = (OFPET_BAD_MATCH, OFPBMC_BAD_PREREQ) /\
      exists i t, ts !! i = Some t /\ ~ prerequisites t ⊆ take i ts)).
Proof.
  cbv zeta. unfold flow_pre_requisite_check.
  pose proof (pre_requisite_loop_ref 0 [] _ bits_are_nil Hok) as H.
  destruct (pre_requisite_loop 0 _) as [bits error]. destruct H as [-> Hb].
  split_and!; [done| |exact Hb|].
  - rewrite pre_requisite_ref_None. set_solver.
  - intros e [[-> H]|[-> H]]%pre_requisite_ref_error; [left|by right].
    split; [done|]. intros Hnd. apply H. split; [done|]. set_solver.
Qed.

Definition tcp_matches : list match_ :=
  [Match false OFPXMC_OPENFLOW_BASIC (FIELD OFPXMT_OFB_ETH_TYPE) 2 [8; 0];
   Match false OFPXMC_OPENFLOW_BASIC (FIELD OFPXMT_OFB_IP_PROTO) 1 [6];
   Match false OFPXMC_OPENFLOW_BASIC (FIELD OFPXMT_OFB_TCP_DST) 2 [0; 80]].

Lemma flow_pre_requisite_check_correct_witness :
  (flow_pre_requisite_check (set_fl_match_list tcp_matches flow_zero)).2 = None /\
  bits_are (fl_field_bits (flow_pre_requisite_check (set_fl_match_list tcp_matches flow_zero)).1)
    [OFPXMT_OFB_ETH_TYPE; OFPXMT_OFB_IP_PROTO; OFPXMT_OFB_TCP_DST].
Proof.
  assert (Forall (fun m => type_ok (field_type m)) tcp_matches) as Hok.
  { repeat (apply Forall_cons; split; [vm_compute; split; congruence|]). by apply Forall_nil. }
  pose proof (flow_pre_requisite_check_correct (set_fl_match_list tcp_matches flow_zero) Hok)
    as (_ & _ & H & _).
  split; [reflexivity|]. apply H. reflexivity.
Defined.

(** A type past the 64 bits of [field_bits] shares the bit of another one: a match on
    the input port and the GTP-U tunnel endpoint (types 0 and 64) is refused as a
    duplicate field. *)
Theorem gtpu_teid_collides (m1 m2 : match_) (f : flow)
    (H1 : field_type m1 = OFPXMT_OFB_IN_PORT) (H2 : field_type m2 = OFPXMT_OFB_GTPU_TEID)
    (Hf : fl_match_list f = [m1; m2]) :
  (flow_pre_requisite_check f).2 = Some (OFPET_BAD_MATCH, OFPBMC_DUP_FIELD).
Proof.
  unfold flow_pre_requisite_check. rewrite Hf. cbn [pre_requisite_loop].
  fold (field_type m1) (field_type m2). by rewrite H1, H2.
Qed.

Definition in_port_match :=
  Match false OFPXMC_OPENFLOW_BASIC (FIELD OFPXMT_OFB_IN_PORT) 4 [0; 0; 0; 1].
Definition gtpu_teid_match :=
  Match false OFPXMC_OPENFLOW_BASIC (FIELD OFPXMT_OFB_GTPU_TEID) 4 [0; 0; 0; 9].

Lemma gtpu_teid_collides_witness :
  (flow_pre_requisite_check (set_fl_match_list [in_port_match; gtpu_teid_match] flow_zero)).2
  = Some (OFPET_BAD_MATCH, OFPBMC_DUP_FIELD).
Proof. apply (gtpu_teid_collides in_port_match gtpu_teid_match); reflexivity. Defined.

(** The wildcard check accepts a match list exactly when no masked match has a value
    bit outside its mask. *)
Theorem flow_mask_check_correct (ms : list match_) :
  flow_mask_check ms = None <->
  forall m, m ∈ ms -> Z.land (oxm_field m) 1 <> 0 ->
    let len := Z.to_nat (Z.shiftr (oxm_length m) 1) in
    forall i, (i < len)%nat ->
      Z.land (rd8 (oxm_value m) i) (rd8 (oxm_value m) (len + i)) = rd8 (oxm_value m) i.
Proof.
  unfold flow_mask_check. destruct (forallb mask_ok ms) eqn:E.
  - split; [|done]. intros _ m Hm Hw. rewrite forallb_forall in E.
    specialize (E m (proj1 (list_elem_of_In _ _) Hm)). unfold mask_ok in E.
    apply Z.eqb_neq in Hw. rewrite Hw in E. cbn [negb] in E. cbv zeta in *.
    rewrite forallb_forall in E. intros i Hi. apply ldiff_zero, Z.eqb_eq, E, in_seq. lia.
  - split; [done|]. intros H. exfalso. apply not_true_iff_false in E. apply E.
    apply forallb_forall. intros m Hm%list_elem_of_In. unfold mask_ok.
    destruct (Z.eqb_spec (Z.land (oxm_field m) 1) 0) as [|Hw]; [done|]. cbn [negb]. cbv zeta.
    apply forallb_forall. intros i [_ Hi]%in_seq. apply Z.eqb_eq, ldiff_zero.
    by apply H.
Qed.

(** The execution array of a flow holds every instruction of its list under its index
    exactly when the instructions are of known and distinct types; otherwise the
    FLOW_MOD is refused and no flow is made. *)
Theorem flow_alloc_correct (flow_mod : ofp_flow_mod) (ml : list match_)
    (il : list instruction) (now : timespec) :
  let good := NoDup (instruction_index <$> il) /\
              forall i, i ∈ il -> instruction_index i <> INSTRUCTION_INDEX_MAX in
  match flow_alloc flow_mod ml il now with
  | inl f =>
      good /\ fl_match_list f = ml /\ fl_priority f = fm_priority flow_mod /\
      forall idx i, flow_instruction f idx = Some i <->
        i ∈ il /\ instruction_index i = idx
  | inr e => ~ good
  end.
Proof.
  cbv zeta. unfold flow_alloc, map_instruction_list_to_array.
  pose proof (map_instructions_spec (replicate INSTRUCTION_INDEX_MAX None) 0 il eq_refl) as H.
  destruct (map_instructions _ 0 il) as [arr [e|]]; destruct H as (_ & H1 & H2).
  - intros [Hnd Hk]. assert (Some e = None); [|done]. apply H1. split; [done|].
    intros i Hi. split; [by apply Hk|]. rewrite lookup_replicate_2; [done|].
    specialize (Hk i Hi). revert Hk. unfold instruction_index, INSTRUCTION_INDEX_MAX.
    repeat case_match; vm_compute; lia.
  - destruct (proj1 H1 eq_refl) as [Hnd Hk]. specialize (H2 eq_refl).
    split_and!; [done| |done|done|].
    { intros i Hi. by apply Hk. }
    intros idx i. unfold flow_instruction. cbn [fl_instruction fl_instruction_list].
    rewrite bind_Some. setoid_rewrite H2. split.
    + intros (j & [Hj|[_ Hj]] & Hi).
      { destruct (replicate _ _ !! idx) as [o|] eqn:Eo; [|done].
        apply lookup_replicate in Eo as [-> _]. done. }
      rewrite Nat.sub_0_r, Hi in Hj. cbn in Hj. simplify_eq.
      split; [by eapply list_elem_of_lookup_2|done].
    + intros [[j Hj]%list_elem_of_lookup <-]. exists j. split; [|done]. right.
      split; [lia|]. by rewrite Nat.sub_0_r, Hj.
Qed.

(** [flow_compare] is an equivalence, and on match lists as the parser delivers them
    it holds exactly between flows of the same priority, field set and matches. *)
Theorem flow_compare_identity :
  (forall f, flow_compare f f = true) /\
  (forall f g, flow_compare f g = true -> flow_compare g f = true) /\
  (forall f g h, flow_compare f g = true -> flow_compare g h = true ->
     flow_compare f h = true) /\
  (forall f g, Forall match_sized (fl_match_list f) -> Forall match_sized (fl_match_list g) ->
     flow_compare f g = true <-> same_key f g).
Proof.
  split; [exact flow_compare_refl|]. split; [exact flow_compare_sym|].
  split; [exact flow_compare_trans|].
  intros f g Hf Hg. rewrite flow_compare_spec. unfold same_key.
  enough (Forall2 (fun m1 m2 => match_same m1 m2 = true) (fl_match_list f) (fl_match_list g)
    <-> map match_id (fl_match_list f) = map match_id (fl_match_list g)) as -> by done.
  revert Hf Hg. generalize (fl_match_list f) (fl_match_list g).
  intros l1 l2 H1. revert l2. induction H1 as [|m l1 Hm Hl1 IH]; intros l2 H2.
  - destruct l2; split; intros H; try done; by inversion H.
  - destruct H2 as [|m2 l2 Hm2 Hl2]; [split; [by inversion 1|done]|].
    rewrite Forall2_cons, IH, match_same_id by done. cbn [map]. split.
    + intros [-> ->]. done.
    + intros H. split; congruence.
Qed.

(** [match_compare l1 l2] decides whether every match of [l2] occurs in [l1]; it is
    reflexive and transitive, and a longer list selects no more flows. *)
Theorem match_compare_preorder :
  (forall l1 l2, match_compare l1 l2 = true <->
     forall m2, m2 ∈ l2 -> exists m1, m1 ∈ l1 /\ match_same m1 m2 = true) /\
  (forall l, match_compare l l = true) /\
  (forall l1 l2 l3, match_compare l1 l2 = true -> match_compare l2 l3 = true ->
     match_compare l1 l3 = true) /\
  (forall l l2 l3, l3 ⊆ l2 -> match_compare l l2 = true -> match_compare l l3 = true).
Proof.
  assert (forall l1 l2, match_compare l1 l2 = true <->
     forall m2, m2 ∈ l2 -> exists m1, m1 ∈ l1 /\ match_same m1 m2 = true) as Hspec.
  { intros l1 l2. unfold match_compare. rewrite forallb_forall.
    setoid_rewrite existsb_exists. by setoid_rewrite list_elem_of_In. }
  split; [exact Hspec|]. setoid_rewrite Hspec. split_and!.
  - intros l m Hm. exists m. auto with lagopus.
  - intros l1 l2 l3 H12 H23 m3 (m2 & H2 & E2)%H23.
    destruct (H12 m2 H2) as (m1 & H1 & E1). exists m1. eauto with lagopus.
  - intros l l2 l3 Hsub H m Hm%Hsub. auto.
Qed.
