(* ===== verification/Hashmap.v ===== *)
(** * Hash maps

    [src/lib/hashmap.c]: the map that the flow lookup nodes, the group table and the
    meter table keep their children in.  The chained hash table underneath
    ([src/lib/hash.c]) is a finite map from one-word keys; the record around it counts
    the entries, knows how to free values and can be shut down.  Values are
    non-NULL pointers, as in every use modelled here.  The read-write lock of the
    locking entry points is not modelled: an operation is one atomic step. *)
From S2P Require Import Prelude.

Section Hashmap.
Context {V : Type}.

(** [struct lagopus_hashmap_record]; [m_del_proc] tells whether there is one. *)
Record hashmap := Hashmap {
  m_hashtable : gmap Z V;
  m_n_entries : Z;
  m_is_operational : bool;
  m_del_proc : bool
}.

Definition lagopus_hashmap_create (proc : bool) : hashmap := Hashmap ∅ 0 true proc.

(** The values [s_freeup_all_values] hands to the free procedure. *)
Definition s_freeup_all_values (hm : hashmap) : list V :=
  if m_del_proc hm then (map_to_list (m_hashtable hm)).*2 else [].

Definition s_clean (hm : hashmap) (free_values : bool) : hashmap * list V :=
  (Hashmap ∅ 0 (m_is_operational hm) (m_del_proc hm),
   if free_values then s_freeup_all_values hm else []).

Definition lagopus_hashmap_shutdown (hm : hashmap) (free_values : bool) : hashmap * list V :=
  if m_is_operational hm
  then s_clean (Hashmap (m_hashtable hm) (m_n_entries hm) false (m_del_proc hm)) free_values
  else (hm, []).

Definition s_clear (hm : hashmap) (free_values : bool) : lagopus_result * hashmap * list V :=
  if m_is_operational hm then
    let '(hm', freed) := s_clean hm free_values in (LAGOPUS_RESULT_OK, hm', freed)
  else (LAGOPUS_RESULT_NOT_OPERATIONAL, hm, []).

Definition s_find (hm : hashmap) (key : Z) : lagopus_result * option V :=
  if m_is_operational hm then
    match m_hashtable hm !! key with
    | Some v => (LAGOPUS_RESULT_OK, Some v)
    | None => (LAGOPUS_RESULT_NOT_FOUND, None)
    end
  else (LAGOPUS_RESULT_NOT_OPERATIONAL, None).

(** The last component is what [*valptr] holds afterwards: the value replaced or
    found, NULL when the key was free. *)
Definition s_add (hm : hashmap) (key : Z) (val : V) (allow_overwrite : bool)
    : lagopus_result * hashmap * option V :=
  if m_is_operational hm then
    match m_hashtable hm !! key with
    | Some oldval =>
        if allow_overwrite
        then (LAGOPUS_RESULT_OK,
              Hashmap (<[key := val]> (m_hashtable hm)) (m_n_entries hm)
                (m_is_operational hm) (m_del_proc hm), Some oldval)
        else (LAGOPUS_RESULT_ALREADY_EXISTS, hm, Some oldval)
    | None =>
        (LAGOPUS_RESULT_OK,
         Hashmap (<[key := val]> (m_hashtable hm)) (m_n_entries hm + 1)
           (m_is_operational hm) (m_del_proc hm), None)
    end
  else (LAGOPUS_RESULT_NOT_OPERATIONAL, hm, Some val).

(** The result, the map, [*valptr] and the value freed. *)
Definition s_delete (hm : hashmap) (key : Z) (free_value : bool)
    : lagopus_result * hashmap * option V * list V :=
  if m_is_operational hm then
    match m_hashtable hm !! key with
    | Some val =>
        (LAGOPUS_RESULT_OK,
         Hashmap (delete key (m_hashtable hm)) (m_n_entries hm - 1)
           (m_is_operational hm) (m_del_proc hm), Some val,
         if free_value && m_del_proc hm then [val] else [])
    | None => (LAGOPUS_RESULT_OK, hm, None, [])
    end
  else (LAGOPUS_RESULT_NOT_OPERATIONAL, hm, None, []).

Definition lagopus_hashmap_size (hm : hashmap) : Z + lagopus_result :=
  if m_is_operational hm then inl (m_n_entries hm) else inr LAGOPUS_RESULT_NOT_OPERATIONAL.

(** The entry points check the pointer to the map and take the lock. *)
Definition lagopus_hashmap_find_no_lock (hmptr : option hashmap) (key : Z)
    : lagopus_result * option V :=
  match hmptr with
  | Some hm => s_find hm key
  | None => (LAGOPUS_RESULT_INVALID_ARGS, None)
  end.

Definition lagopus_hashmap_add_no_lock (hmptr : option hashmap) (key : Z) (val : V)
    (allow_overwrite : bool) : lagopus_result * option hashmap * option V :=
  match hmptr with
  | Some hm => let '(ret, hm', old) := s_add hm key val allow_overwrite in (ret, Some hm', old)
  | None => (LAGOPUS_RESULT_INVALID_ARGS, None, Some val)
  end.

Definition lagopus_hashmap_delete_no_lock (hmptr : option hashmap) (key : Z)
    (free_value : bool) : lagopus_result * option hashmap * option V * list V :=
  match hmptr with
  | Some hm =>
      let '(ret, hm', val, freed) := s_delete hm key free_value in (ret, Some hm', val, freed)
  | None => (LAGOPUS_RESULT_INVALID_ARGS, None, None, [])
  end.

(** The entry count is the number of keys. *)
Definition hashmap_wf (hm : hashmap) : Prop :=
  m_n_entries hm = Z.of_nat (size (m_hashtable hm)).

Lemma s_add_wf hm key val ow : hashmap_wf hm -> hashmap_wf (s_add hm key val ow).1.2.
Proof.
  unfold hashmap_wf, s_add. intros H.
  destruct (m_is_operational hm); [|done].
  destruct (m_hashtable hm !! key) eqn:E; [destruct ow|]; cbn; try done.
  - by rewrite map_size_insert_Some.
  - rewrite map_size_insert_None by done. lia.
Qed.

Lemma s_delete_wf hm key fr : hashmap_wf hm -> hashmap_wf (s_delete hm key fr).1.1.2.
Proof.
  unfold hashmap_wf, s_delete. intros H.
  destruct (m_is_operational hm); [|done].
  destruct (m_hashtable hm !! key) eqn:E; cbn; [|done].
  rewrite map_size_delete_Some by done.
  assert (size (m_hashtable hm) <> 0%nat) by (apply map_size_ne_0_lookup; eauto). lia.
Qed.

Lemma s_clear_wf hm fr : hashmap_wf hm -> hashmap_wf (s_clear hm fr).1.2.
Proof. unfold s_clear. intros H. by destruct (m_is_operational hm). Qed.

End Hashmap.
Arguments hashmap : clear implicits.

(** ** Properties *)

(** The count of a hash map is always the number of its keys: every operation keeps
    it so, and the size is therefore the number of keys of an operational map. *)
Theorem hashmap_count {V} (hm : hashmap V) (Hwf : hashmap_wf hm) :
  (forall key val ow, hashmap_wf (s_add hm key val ow).1.2) /\
  (forall key fr, hashmap_wf (s_delete hm key fr).1.1.2) /\
  (forall fr, hashmap_wf (s_clear hm fr).1.2 /\ hashmap_wf (lagopus_hashmap_shutdown hm fr).1) /\
  (m_is_operational hm = true ->
     lagopus_hashmap_size hm = inl (Z.of_nat (size (m_hashtable hm)))).
Proof.
  split_and!.
  - intros. by apply s_add_wf.
  - intros. by apply s_delete_wf.
  - intros fr. split; [by apply s_clear_wf|]. unfold lagopus_hashmap_shutdown.
    by destruct (m_is_operational hm).
  - intros Ho. unfold lagopus_hashmap_size. rewrite Ho. by rewrite Hwf.
Qed.

Lemma hashmap_count_witness :
  lagopus_hashmap_size (s_add (lagopus_hashmap_create true) 5 7%nat false).1.2 = inl 1.
Proof.
  pose proof (hashmap_count (s_add (lagopus_hashmap_create true) 5 7%nat false).1.2
    (s_add_wf _ _ _ _ (eq_refl : hashmap_wf (lagopus_hashmap_create true))))
    as (_ & _ & _ & H).
  rewrite H by reflexivity. reflexivity.
Defined.

(** On an operational map the operations are those of a finite map: an added key is
    found with its value and no other key is touched; adding to a taken key without
    overwriting changes nothing and reports the old value; a deleted key is gone,
    deleting is idempotent and frees the value at most once; a map that was shut down
    refuses everything. *)
Theorem hashmap_operations {V} (hm : hashmap V) (key k : Z) (val : V) :
  (m_is_operational hm = true ->
   let '(rv, hm', old) := s_add hm key val false in
   old = m_hashtable hm !! key /\
   s_find hm' k = (if decide (k = key)
                   then (LAGOPUS_RESULT_OK, Some (default val (m_hashtable hm !! key)))
                   else s_find hm k) /\
   rv = match m_hashtable hm !! key with
        | Some _ => LAGOPUS_RESULT_ALREADY_EXISTS | None => LAGOPUS_RESULT_OK end) /\
  (m_is_operational hm = true ->
   s_find (s_add hm key val true).1.2 k =
   (if decide (k = key) then (LAGOPUS_RESULT_OK, Some val) else s_find hm k)) /\
  (m_is_operational hm = true ->
   let '(rv, hm', old, freed) := s_delete hm key true in
   rv = LAGOPUS_RESULT_OK /\ old = m_hashtable hm !! key /\
   freed = (if m_del_proc hm then option_list old else []) /\
   s_find hm' k = (if decide (k = key) then (LAGOPUS_RESULT_NOT_FOUND, None) else s_find hm k) /\
   s_delete hm' key true = (LAGOPUS_RESULT_OK, hm', None, [])) /\
  (let hm' := (lagopus_hashmap_shutdown hm true).1 in
   s_find hm' k = (LAGOPUS_RESULT_NOT_OPERATIONAL, None) /\
   (s_add hm' key val true).1.1 = LAGOPUS_RESULT_NOT_OPERATIONAL).
Proof.
  split_and!.
  - intros Ho. unfold s_add, s_find. rewrite Ho.
    destruct (m_hashtable hm !! key) eqn:E; cbn; rewrite ?Ho, ?E.
    + split_and!; [done| |done]. destruct (decide (k = key)) as [->|]; [by rewrite E|done].
    + split_and!; [done| |done]. destruct (decide (k = key)) as [->|].
      * by rewrite lookup_insert_eq.
      * by rewrite lookup_insert_ne.
  - intros Ho. unfold s_add, s_find. rewrite Ho.
    destruct (m_hashtable hm !! key) eqn:E; cbn; rewrite ?Ho;
      (destruct (decide (k = key)) as [->|]; [by rewrite lookup_insert_eq|by rewrite lookup_insert_ne]).
  - intros Ho. unfold s_delete, s_find. rewrite Ho.
    destruct (m_hashtable hm !! key) eqn:E; cbn; rewrite ?Ho, ?E.
    + rewrite lookup_delete_eq. split_and!; [done|done|by destruct (m_del_proc hm)| |done].
      destruct (decide (k = key)) as [->|]; [by rewrite lookup_delete_eq|by rewrite lookup_delete_ne].
    + split_and!; [done|done|by destruct (m_del_proc hm)| |done].
      by destruct (decide (k = key)) as [->|]; [rewrite E|].
  - unfold lagopus_hashmap_shutdown. destruct (m_is_operational hm) eqn:Ho; cbn; [done|].
    unfold s_find, s_add. by rewrite Ho.
Qed.

Lemma hashmap_operations_witness :
  s_find (s_add (lagopus_hashmap_create true) 5 7%nat true).1.2 5
  = (LAGOPUS_RESULT_OK, Some 7%nat).
Proof.
  exact (proj1 (proj2 (hashmap_operations (lagopus_hashmap_create true) 5 5 7%nat)) eq_refl).
Defined.
