(* ===== verification/FlowinfoIntf.v ===== *)
(** * The interface of a flow lookup node

    [struct flowinfo] of [src/include/lagopus/flowinfo.h] carries the functions of its
    node ([add_func], [del_func], [match_func], [find_func]) and the tree of a flow table is
    made of such nodes.  Here the functions are the class [FlowinfoOps], and what a
    parent may rely on is the class [FlowinfoSpec]: the flows a node holds, how the
    operations change them, and that a match is a best flow.  Each kind of node is
    proved to meet the interface from its children meeting it ([FlowinfoBasic],
    [FlowinfoNodes]); the tree of [FlowinfoTree] is an instance by composition. *)
From S2P Require Import Prelude OpenFlow Packet FlowEntry ByteMatch.

(** ** Operations *)

(** The heap of flows is passed along: adding a flow compiles its match and marks
    match entries, and matching counts packets.  [fi_match] returns the flow, the
    new value of [*pri] and the heap. *)
Class FlowinfoOps (A : Type) := {
  fi_nflow : A -> Z;
  fi_add : flow_heap -> A -> ref -> lagopus_result * A * flow_heap;
  fi_del : flow_heap -> A -> ref -> lagopus_result * A;
  fi_match : flow_heap -> lagopus_packet -> A -> Z -> option ref * Z * flow_heap;
  fi_find : flow_heap -> A -> ref -> option ref
}.

(** [match->except_flag = true] on the first match of the list that satisfies [p]. *)
Fixpoint set_except_flag (p : match_ -> bool) (ms : list match_) : list match_ :=
  match ms with
  | [] => []
  | m :: ms' =>
      if p m
      then Match true (oxm_class m) (oxm_field m) (oxm_length m) (oxm_value m) :: ms'
      else m :: set_except_flag p ms'
  end.

Definition mark_flow (p : match_ -> bool) (h : flow_heap) (r : ref) : flow_heap :=
  <[r := set_fl_match_list (set_except_flag p (fl_match_list (h !!! r))) (h !!! r)]> h.

(** [flow = alt_flow] if there is one. *)
Definition over (alt flow : option ref) : option ref :=
  match alt with Some _ => alt | None => flow end.

(** [match_func] of a child that may be missing. *)
Definition child_match `{FlowinfoOps A} (h : flow_heap) (pkt : lagopus_packet)
    (c : option A) (pri : Z) : option ref * Z * flow_heap :=
  match c with
  | Some c => fi_match h pkt c pri
  | None => (None, pri, h)
  end.

(** ** What identifies a flow *)

(** Match lists that differ in the [except_flag]s only. *)
Definition ml_eq (ms ms' : list match_) : Prop := map match_id ms = map match_id ms'.

#[global] Instance ml_eq_equiv : Equivalence ml_eq.
Proof. unfold ml_eq. split; [done|by intros ???|by intros ??? -> ->]. Qed.

(** Flows as the parser delivers them: sizes agree and values are bytes. *)
Definition match_list_ok (ms : list match_) : Prop :=
  Forall (fun m => match_sized m /\ bytes_ok (oxm_value m)) ms.

#[global] Instance match_list_ok_proper : Proper (ml_eq ==> iff) match_list_ok.
Proof.
  assert (forall ms ms', ml_eq ms ms' -> match_list_ok ms -> match_list_ok ms') as H.
  { induction ms as [|m ms IH]; intros [|m' ms'] Heq Hok; try done.
    injection Heq as H1 H2 H3 H4 H5. inversion Hok as [|?? [Hs Hb] Hok']; subst.
    constructor; [|by apply IH]. unfold match_sized in *. rewrite <- H4, <- H3. done. }
  intros ms ms' Heq. split; apply H; [done|by symmetry].
Qed.

Lemma set_except_flag_eq p ms : ml_eq (set_except_flag p ms) ms.
Proof.
  unfold ml_eq. induction ms as [|m ms IH]; [done|]. cbn. destruct (p m); cbn; [done|].
  by rewrite IH.
Qed.

(** The matches a search stops at are the same. *)
Lemma find_ml_eq p ms ms' :
  (forall m m', match_id m = match_id m' -> p m = p m') -> ml_eq ms ms' ->
  match_id <$> find p ms = match_id <$> find p ms'.
Proof.
  intros Hp. revert ms'. induction ms as [|m ms IH]; intros [|m' ms'] Heq; try done.
  injection Heq as H1 H2 H3 H4 H5. assert (match_id m = match_id m') as Hid
    by (unfold match_id; congruence).
  cbn. rewrite (Hp m m' Hid). destruct (p m'); [cbn; by rewrite Hid|by apply IH].
Qed.

(** ** Heaps that differ in the counters only *)

Definition uncount (f : flow) : flow := set_fl_packet_count 0 (set_fl_byte_count 0 f).

Definition heap_eqv (h h' : flow_heap) : Prop :=
  forall r, uncount <$> h !! r = uncount <$> h' !! r.

#[global] Instance heap_eqv_equiv : Equivalence heap_eqv.
Proof.
  split; unfold heap_eqv; [done|by intros ????|by intros ??? H1 H2 r; rewrite H1, H2].
Qed.

Lemma heap_eqv_total h h' r : heap_eqv h h' -> uncount (h !!! r) = uncount (h' !!! r).
Proof.
  intros H. specialize (H r). rewrite !lookup_total_alt.
  destruct (h !! r), (h' !! r); cbn in *; congruence.
Qed.

Lemma uncount_same f g :
  uncount f = uncount g ->
  fl_match_list f = fl_match_list g /\ fl_priority f = fl_priority g /\
  fl_field_bits f = fl_field_bits g /\ fl_byteoff_match f = fl_byteoff_match g.
Proof. destruct f, g. cbn. intros [= ]. by subst. Qed.

Lemma uncount_same_key f g : uncount f = uncount g -> same_key f g.
Proof. intros (H1 & H2 & H3 & _)%uncount_same. unfold same_key. by rewrite H1, H2, H3. Qed.

Lemma count_match_uncount pkt f : uncount (count_match pkt f) = uncount f.
Proof.
  unfold count_match. destruct (Z.land (fl_flags f) OFPFF_NO_PKT_COUNTS =? 0);
    cbn [fl_flags set_fl_packet_count];
    by destruct (Z.land (fl_flags f) OFPFF_NO_BYT_COUNTS =? 0).
Qed.

Lemma match_byteoff_uncount pkt f g :
  uncount f = uncount g -> match_byteoff pkt f = match_byteoff pkt g.
Proof. intros (_ & _ & _ & H)%uncount_same. unfold match_byteoff. by rewrite H. Qed.

(** ** What adding does to the flow *)

Definition compile (ms : list match_) (l : list byteoff_match) : list byteoff_match :=
  (foldl make_match_1 (l, 0) ms).1.

Definition added (f f' : flow) : Prop :=
  exists ms, ml_eq ms (fl_match_list f) /\
  f' = set_fl_byteoff_match (compile (fl_match_list f) (fl_byteoff_match f))
         (set_fl_match_list ms f).

Lemma make_match_1_id s m m' : match_id m = match_id m' -> make_match_1 s m = make_match_1 s m'.
Proof.
  intros H. injection H as H1 H2 H3 H4. destruct s as [l t].
  unfold make_match_1, make_match_bytes, make_match_vlan, make_match_ip, make_match_mpls,
    make_match_tunnel, MAKE_BYTEOFF, MAKE_BYTEOFF_W.
  by rewrite H2, H3, H4.
Qed.

Lemma compile_ml_eq ms ms' l : ml_eq ms ms' -> compile ms l = compile ms' l.
Proof.
  intros H. unfold compile. f_equal. generalize (l, 0). revert ms' H.
  induction ms as [|m ms IH]; intros [|m' ms'] H s; try done.
  injection H as H1 H2 H3 H4 H5. cbn [foldl].
  rewrite (make_match_1_id s m m') by (unfold match_id; congruence). by apply IH.
Qed.

Lemma added_same_key f f' : added f f' -> same_key f f'.
Proof. intros (ms & Hms & ->). split_and!; [done|done|]. symmetry. exact Hms. Qed.

Lemma added_make_match f : added f (flow_make_match f).
Proof. exists (fl_match_list f). split; [done|]. by destruct f. Qed.

(** Marking before or after the rest of an addition. *)
Lemma added_mark_before p f f' :
  added (set_fl_match_list (set_except_flag p (fl_match_list f)) f) f' -> added f f'.
Proof.
  intros (ms & Hms & ->). exists ms. cbn in *. split.
  - rewrite Hms. apply set_except_flag_eq.
  - unfold set_fl_byteoff_match, set_fl_match_list; cbn. f_equal.
    apply compile_ml_eq, set_except_flag_eq.
Qed.

Lemma added_mark_after p f f' :
  added f f' -> added f (set_fl_match_list (set_except_flag p (fl_match_list f')) f').
Proof.
  intros (ms & Hms & ->). exists (set_except_flag p ms). cbn. split; [|done].
  by rewrite set_except_flag_eq.
Qed.

(** ** Best flows *)

(** [r] and [pri'] are the outcome of looking for a candidate of priority above
    [pri]: none when there is none, and else one of the highest priority. *)
Definition best (C : ref -> Prop) (prio : ref -> Z) (pri : Z) (r : option ref) (pri' : Z)
    : Prop :=
  match r with
  | None => pri' = pri /\ forall x, C x -> prio x <= pri
  | Some y => C y /\ prio y = pri' /\ pri < pri' /\ forall x, C x -> prio x <= pri'
  end.

Lemma best_none prio pri : best (fun _ => False) prio pri None pri.
Proof. done. Qed.

Lemma best_le C prio pri r pri' : best C prio pri r pri' -> pri <= pri'.
Proof. destruct r; intros H; [destruct H as (_ & _ & ? & _); lia|destruct H as [-> _]; lia]. Qed.

Lemma best_seq C1 C2 prio pri r1 pri1 r2 pri2 :
  best C1 prio pri r1 pri1 -> best C2 prio pri1 r2 pri2 ->
  best (fun x => C1 x \/ C2 x) prio pri (over r2 r1) pri2.
Proof.
  destruct r1 as [x1|], r2 as [x2|]; cbn; intros H1 H2; destruct_and!; subst;
    split_and!; try lia; auto;
    (intros x [Hx|Hx]; [by auto|by auto]) ||
    (intros x [Hx|Hx];
       repeat match goal with H : forall y, ?C y -> _, Hx : ?C _ |- _ => specialize (H _ Hx) end;
       lia).
Qed.

Lemma best_ext C C' prio prio' pri r pri' :
  (forall x, C x <-> C' x) -> (forall x, prio x = prio' x) ->
  best C prio pri r pri' -> best C' prio' pri r pri'.
Proof.
  intros HC Hp. destruct r as [y|]; cbn; rewrite <- ?Hp.
  - intros (H1 & H2 & H3 & H4). split_and!; [by apply HC|done|done|].
    intros x Hx%HC. rewrite <- Hp. auto.
  - intros (H1 & H2). split; [done|]. intros x Hx%HC. rewrite <- Hp. auto.
Qed.

(** ** The specification of a node *)

Definition ml (h : flow_heap) (r : ref) : list match_ := fl_match_list (h !!! r).
Definition prio (h : flow_heap) (r : ref) : Z := fl_priority (h !!! r).

Class FlowinfoSpec (A : Type) `{!FlowinfoOps A} := {
  (** the flows held *)
  fi_flows : A -> list ref;
  (** the invariant, relative to the heap *)
  fi_wf : flow_heap -> A -> Prop;
  (** the flows the node is meant for *)
  fi_accepts : A -> list match_ -> Prop;
  (** the flows a packet can reach through the node, before bytes are compared *)
  fi_admits : lagopus_packet -> list match_ -> Prop;
  (** the flows found only above priority 0 (those under a mask node) *)
  fi_needs_pos : list match_ -> bool;
  fi_accepts_proper :: forall t, Proper (ml_eq ==> iff) (fi_accepts t);
  fi_admits_proper :: forall pkt, Proper (ml_eq ==> iff) (fi_admits pkt);
  fi_needs_pos_proper :: Proper (ml_eq ==> eq) fi_needs_pos;
  fi_wf_ext h h' t :
    (forall r, r ∈ fi_flows t -> same_key (h !!! r) (h' !!! r)) -> fi_wf h t -> fi_wf h' t;
  fi_wf_ok h t r : fi_wf h t -> r ∈ fi_flows t -> match_list_ok (ml h r);
  fi_nflow_law h t : fi_wf h t -> fi_nflow t = Z.of_nat (length (fi_flows t));
  fi_add_law h t r :
    fi_wf h t -> match_list_ok (ml h r) -> fi_accepts t (ml h r) ->
    exists t' f', fi_add h t r = (LAGOPUS_RESULT_OK, t', <[r := f']> h) /\
      added (h !!! r) f' /\ fi_wf (<[r := f']> h) t' /\
      fi_flows t' ≡ₚ r :: fi_flows t /\ fi_accepts t' = fi_accepts t;
  fi_del_law h t r :
    fi_wf h t -> r ∈ fi_flows t ->
    exists t', fi_del h t r = (LAGOPUS_RESULT_OK, t') /\
      fi_wf h t' /\ fi_flows t ≡ₚ r :: fi_flows t' /\ fi_accepts t' = fi_accepts t;
  fi_match_law h pkt t pri :
    fi_wf h t ->
    (0 <= pri \/ forall r, r ∈ fi_flows t -> fi_needs_pos (ml h r) = true -> 0 < prio h r) ->
    let '(r, pri', h') := fi_match h pkt t pri in
    heap_eqv h h' /\
    best (fun x => x ∈ fi_flows t /\ fi_admits pkt (ml h x) /\
                   match_byteoff pkt (h !!! x) = true) (prio h) pri r pri';
  fi_find_law h t r :
    fi_wf h t -> match_list_ok (ml h r) ->
    match fi_find h t r with
    | Some x => x ∈ fi_flows t /\ flow_compare (h !!! r) (h !!! x) = true
    | None => forall x, x ∈ fi_flows t -> flow_compare (h !!! r) (h !!! x) = false
    end
}.

(** A node fresh from its [new] function. *)
Class FlowinfoEmpty {A} `{FlowinfoSpec A} (t : A) : Prop := {
  fe_wf : forall h, fi_wf h t;
  fe_flows : fi_flows t = []
}.

(** *** Consequences shared by the nodes *)

Lemma heap_eqv_ml h h' r : heap_eqv h h' -> ml h r = ml h' r.
Proof. intros H. by destruct (uncount_same _ _ (heap_eqv_total h h' r H)). Qed.

Lemma heap_eqv_prio h h' r : heap_eqv h h' -> prio h r = prio h' r.
Proof. intros H. by destruct (uncount_same _ _ (heap_eqv_total h h' r H)) as (_ & ? & _). Qed.

Lemma heap_eqv_match pkt h h' r :
  heap_eqv h h' -> match_byteoff pkt (h !!! r) = match_byteoff pkt (h' !!! r).
Proof. intros H. by apply match_byteoff_uncount, heap_eqv_total. Qed.

Lemma heap_eqv_key h h' r : heap_eqv h h' -> same_key (h !!! r) (h' !!! r).
Proof. intros H. by apply uncount_same_key, heap_eqv_total. Qed.

(** A match on a heap that was counted on since. *)
Lemma fi_match_eqv `{FlowinfoSpec A} h0 h pkt (t : A) pri :
  heap_eqv h0 h -> fi_wf h0 t ->
  (0 <= pri \/ forall r, r ∈ fi_flows t -> fi_needs_pos (ml h0 r) = true -> 0 < prio h0 r) ->
  let '(r, pri', h') := fi_match h pkt t pri in
  heap_eqv h0 h' /\
  best (fun x => x ∈ fi_flows t /\ fi_admits pkt (ml h0 x) /\
                 match_byteoff pkt (h0 !!! x) = true) (prio h0) pri r pri'.
Proof.
  intros Hh Hwf Hpos.
  assert (fi_wf h t) as Hwf' by (eapply fi_wf_ext; [|exact Hwf]; intros; by apply heap_eqv_key).
  pose proof (fi_match_law h pkt t pri Hwf') as Hm.
  destruct (fi_match h pkt t pri) as [[r pri'] h']. destruct Hm as [Hh' Hb].
  { destruct Hpos as [|Hpos]; [by left|right]. intros y Hy.
    rewrite <- (heap_eqv_ml h0 h), <- (heap_eqv_prio h0 h) by done. auto. }
  split; [by etrans|]. eapply best_ext; [| |exact Hb].
  - intros x. by rewrite (heap_eqv_ml h0 h), (heap_eqv_match pkt h0 h) by done.
  - intros x. symmetry. by apply heap_eqv_prio.
Qed.

(** The heap after an addition, seen by another flow. *)
Lemma added_heap_key (h : flow_heap) r f' x : added (h !!! r) f' -> same_key (h !!! x) (<[r := f']> h !!! x).
Proof.
  intros Ha. destruct (decide (x = r)) as [->|].
  - rewrite lookup_total_insert_eq. by apply added_same_key.
  - by rewrite lookup_total_insert_ne.
Qed.

Lemma same_key_ml f g : same_key f g -> ml_eq (fl_match_list f) (fl_match_list g).
Proof. intros (_ & _ & H). exact H. Qed.

Lemma flow_compare_ml f g :
  match_list_ok (fl_match_list f) -> match_list_ok (fl_match_list g) ->
  flow_compare f g = true -> ml_eq (fl_match_list f) (fl_match_list g).
Proof.
  intros Hf Hg (_ & _ & H)%flow_compare_spec. unfold ml_eq, match_list_ok in *.
  revert Hf Hg. generalize dependent (fl_match_list g).
  induction (fl_match_list f) as [|m l IH]; intros l2 H Hf Hg; inversion H; subst; [done|].
  inversion Hf as [|?? [? _] ?]; inversion Hg as [|?? [? _] ?]; subst. cbn.
  f_equal; [by apply match_same_id|by apply IH].
Qed.
