(* ===== verification/FlowinfoBasic.v ===== *)
(** * The leaf of the lookup tree: a sorted array searched linearly

    [flowinfo_basic.c]: [add_flow_basic] compiles the match of a flow and inserts it
    behind the flows of its priority or a higher one, [match_flow_basic] returns the
    first flow of the array that matches, [find_flow_basic] the flow with the same
    match.  The number of flows ([nflow]) is the length of the array. *)
From S2P Require Import Prelude OpenFlow Packet FlowEntry ByteMatch FlowinfoIntf.

Record basic := Basic { bn_flows : list ref }.

Definition new_flowinfo_basic : basic := Basic [].

Definition add_flow_basic (h : flow_heap) (self : basic) (flow : ref)
    : lagopus_result * basic * flow_heap :=
  let h := <[flow := flow_make_match (h !!! flow)]> h in
  let nflow := length (bn_flows self) in
  let i := bisect nflow
             (ge_at (fun r => fl_priority (h !!! r)) (fl_priority (h !!! flow)) (bn_flows self))
             0 nflow in
  (LAGOPUS_RESULT_OK, Basic (insert_at i flow (bn_flows self)), h).

Definition del_flow_basic (self : basic) (flow : ref) : lagopus_result * basic :=
  match list_find (fun r => r = flow) (bn_flows self) with
  | Some (i, _) => (LAGOPUS_RESULT_OK, Basic (remove_at i (bn_flows self)))
  | None => (LAGOPUS_RESULT_NOT_FOUND, self)
  end.

(** The loop of [match_flow_basic]; [prio] is [*pri] on entry. *)
Fixpoint basic_scan (h : flow_heap) (pkt : lagopus_packet) (pri : Z) (flows : list ref)
    : option ref * Z * flow_heap :=
  match flows with
  | [] => (None, pri, h)
  | flow :: flows' =>
      if fl_priority (h !!! flow) <=? pri then (None, pri, h)
      else
        let '(matched, f) := match_basic pkt (h !!! flow) in
        if matched : bool then (Some flow, fl_priority (h !!! flow), alter (fun _ => f) flow h)
        else basic_scan h pkt pri flows'
  end.

Definition match_flow_basic (h : flow_heap) (pkt : lagopus_packet) (self : basic) (pri : Z)
    : option ref * Z * flow_heap :=
  basic_scan h pkt pri (bn_flows self).

Definition find_flow_basic (h : flow_heap) (self : basic) (flow : ref) : option ref :=
  find (fun r => flow_compare (h !!! flow) (h !!! r)) (bn_flows self).

#[global] Instance basic_ops : FlowinfoOps basic := {
  fi_nflow self := Z.of_nat (length (bn_flows self));
  fi_add := add_flow_basic;
  fi_del _ := del_flow_basic;
  fi_match := match_flow_basic;
  fi_find := find_flow_basic
}.

(** ** The leaf meets the interface *)

Definition basic_wf (h : flow_heap) (self : basic) : Prop :=
  descending (prio h) (bn_flows self) /\
  forall r, r ∈ bn_flows self -> match_list_ok (ml h r).

Lemma basic_wf_ext h h' self :
  (forall r, r ∈ bn_flows self -> same_key (h !!! r) (h' !!! r)) ->
  basic_wf h self -> basic_wf h' self.
Proof.
  intros Hk [Hs Hok]. split.
  - eapply descending_ext; [|exact Hs]. intros r Hr. by destruct (Hk r Hr).
  - intros r Hr. unfold ml. rewrite <- (same_key_ml _ _ (Hk r Hr)). by apply Hok.
Qed.

Lemma add_flow_basic_law h self r :
  basic_wf h self -> match_list_ok (ml h r) ->
  exists self' f', add_flow_basic h self r = (LAGOPUS_RESULT_OK, self', <[r := f']> h) /\
    added (h !!! r) f' /\ basic_wf (<[r := f']> h) self' /\
    bn_flows self' ≡ₚ r :: bn_flows self.
Proof.
  intros Hwf Hr. eexists _, _. split; [reflexivity|]. split; [apply added_make_match|].
  set (h' := <[r := _]> h).
  assert (basic_wf h' self) as [Hs Hok].
  { eapply basic_wf_ext; [|exact Hwf]. intros x _. apply added_heap_key, added_make_match. }
  split; [|apply insert_at_perm]. split.
  - by apply (descending_insert (prio h') r (bn_flows self)).
  - cbn. intros x Hx. rewrite insert_at_perm in Hx. apply elem_of_cons in Hx as [->|Hx]; [|auto].
    unfold ml, h'. rewrite lookup_total_insert_eq. exact Hr.
Qed.

Lemma del_flow_basic_law h self r :
  basic_wf h self -> r ∈ bn_flows self ->
  exists self', del_flow_basic self r = (LAGOPUS_RESULT_OK, self') /\
    basic_wf h self' /\ bn_flows self ≡ₚ r :: bn_flows self'.
Proof.
  intros [Hs Hok] Hr. unfold del_flow_basic.
  destruct (list_find _ (bn_flows self)) as [[i x]|] eqn:E; cycle 1.
  { exfalso. apply list_find_None in E. rewrite Forall_forall in E. by apply (E r). }
  apply list_find_Some in E as (Hi & -> & _). eexists. split; [reflexivity|].
  pose proof (remove_at_perm i r _ Hi) as Hp. split; [split|exact Hp].
  - by apply descending_remove.
  - intros x Hx. apply Hok. rewrite Hp. by right.
Qed.

Lemma basic_scan_law h pkt pri flows :
  descending (prio h) flows ->
  let '(r, pri', h') := basic_scan h pkt pri flows in
  heap_eqv h h' /\
  best (fun x => x ∈ flows /\ match_byteoff pkt (h !!! x) = true) (prio h) pri r pri'.
Proof.
  induction flows as [|x flows IH]; intros Hs; cbn [basic_scan].
  { split; [done|]. split; [done|]. intros y [Hy _]. by apply elem_of_nil in Hy. }
  inversion Hs as [|?? Hs' Hall]; subst. rewrite Forall_forall in Hall.
  fold (prio h x). destruct (Z.leb_spec (prio h x) pri) as [Hle|Hlt].
  { split; [done|]. split; [done|]. intros y [[->|Hy]%elem_of_cons _]; [done|].
    specialize (Hall y Hy). lia. }
  unfold match_basic. destruct (match_byteoff pkt (h !!! x)) eqn:Em.
  - split.
    + intros y. destruct (decide (y = x)) as [->|].
      * rewrite lookup_alter_eq, lookup_total_alt.
        destruct (h !! x) as [f|]; cbn; [by rewrite count_match_uncount|done].
      * by rewrite lookup_alter_ne.
    + split_and!; [by left|done|done|done|]. intros y [[->|Hy]%elem_of_cons _]; [done|]. auto.
  - specialize (IH Hs'). destruct (basic_scan h pkt pri flows) as [[r pri'] h'].
    destruct IH as [He Hb]. split; [done|]. eapply best_ext; [|done|exact Hb].
    intros y. rewrite elem_of_cons. split; [tauto|]. intros [[->|Hy] Hm]; [congruence|done].
Qed.

#[global, refine] Instance basic_spec : FlowinfoSpec basic := {
  fi_flows := bn_flows;
  fi_wf := basic_wf;
  fi_accepts _ _ := True;
  fi_admits _ _ := True;
  fi_needs_pos _ := false
}.
Proof.
  - exact basic_wf_ext.
  - intros h t r [_ H]. apply H.
  - done.
  - intros h t r Hwf Hr _. destruct (add_flow_basic_law h t r Hwf Hr) as (t' & f' & H1 & H2 & H3 & H4).
    exists t', f'. by split_and!.
  - intros h t r Hwf Hr. destruct (del_flow_basic_law h t r Hwf Hr) as (t' & H1 & H2 & H3).
    exists t'. by split_and!.
  - intros h pkt t pri [Hs _] _. pose proof (basic_scan_law h pkt pri (bn_flows t) Hs) as H.
    cbn [fi_match basic_ops]. unfold match_flow_basic.
    destruct (basic_scan h pkt pri (bn_flows t)) as [[r pri'] h'].
    destruct H as [He Hb]. split; [done|]. eapply best_ext; [|done|exact Hb]. intros x. tauto.
  - intros h t r _ _. cbn [fi_find basic_ops]. unfold find_flow_basic.
    destruct (find _ _) as [x|] eqn:E.
    + apply find_some in E as [Hx Hc]. split; [by apply list_elem_of_In|done].
    + intros x Hx%list_elem_of_In. by apply (find_none _ _ E).
Defined.

#[global] Instance basic_empty : FlowinfoEmpty new_flowinfo_basic.
Proof. split; [|done]. intros h. split; [constructor|]. intros r Hr. by apply elem_of_nil in Hr. Qed.

(** ** The order of the array *)

(** [add_flow_basic] keeps the array sorted by descending priority, puts the new flow
    behind every flow of its priority or a higher one and before all others, leaves the
    order of the others as it was, and changes no other flow of the heap. *)
Theorem add_flow_basic_sorted (h : flow_heap) (self : basic) (r : ref)
    (Hs : descending (prio h) (bn_flows self)) :
  exists before after h',
    add_flow_basic h self r = (LAGOPUS_RESULT_OK, Basic (before ++ r :: after), h') /\
    bn_flows self = before ++ after /\
    (forall x, x ∈ before -> prio h r <= prio h x) /\
    (forall x, x ∈ after -> prio h x < prio h r) /\
    descending (prio h') (before ++ r :: after) /\
    (forall x, x <> r -> h' !! x = h !! x) /\ same_key (h !!! r) (h' !!! r).
Proof.
  unfold add_flow_basic. set (h' := <[r := _]> h).
  assert (forall x, prio h' x = prio h x) as Hp.
  { intros x. symmetry. apply (added_heap_key h r (flow_make_match (h !!! r)) x), added_make_match. }
  assert (descending (prio h') (bn_flows self)) as Hs'
    by (eapply descending_ext; [|exact Hs]; intros; by rewrite Hp).
  destruct (descending_insert (prio h') r (bn_flows self) Hs') as (H1 & H2 & H3).
  cbv zeta in *. fold (prio h' r). change (fun r0 => fl_priority (h' !!! r0)) with (prio h').
  set (i := bisect _ _ _ _) in *. exists (take i (bn_flows self)), (drop i (bn_flows self)), h'.
  split_and!; [done|by rewrite take_drop| | |done| |].
  - intros x Hx. rewrite <- !Hp. by apply H2.
  - intros x Hx. rewrite <- !Hp. by apply H3.
  - intros x Hx. unfold h'. by rewrite lookup_insert_ne.
  - apply (added_heap_key h r (flow_make_match (h !!! r)) r), added_make_match.
Qed.

Lemma add_flow_basic_sorted_witness :
  exists before after h',
    add_flow_basic ∅ (Basic []) 7%nat = (LAGOPUS_RESULT_OK, Basic (before ++ 7%nat :: after), h') /\
    bn_flows (Basic []) = before ++ after /\
    (forall x, x ∈ before -> prio ∅ 7%nat <= prio ∅ x) /\
    (forall x, x ∈ after -> prio ∅ x < prio ∅ 7%nat) /\
    descending (prio h') (before ++ 7%nat :: after) /\
    (forall x, x <> 7%nat -> h' !! x = (∅ : flow_heap) !! x) /\
    same_key ((∅ : flow_heap) !!! 7%nat) (h' !!! 7%nat).
Proof. apply add_flow_basic_sorted. constructor. Defined.

(** [match_flow_basic] is the first flow of the array the packet matches, provided its
    priority is above the one already found ([*pri], which then becomes that
    priority); the early exit of the loop loses nothing, and only the counters of
    the flow returned change. *)
Theorem match_flow_basic_first (h : flow_heap) (pkt : lagopus_packet) (self : basic) (pri : Z)
    (Hs : descending (prio h) (bn_flows self)) :
  match_flow_basic h pkt self pri =
  match find (fun r => match_byteoff pkt (h !!! r)) (bn_flows self) with
  | Some r => if prio h r <=? pri then (None, pri, h)
              else (Some r, prio h r, alter (fun _ => count_match pkt (h !!! r)) r h)
  | None => (None, pri, h)
  end.
Proof.
  unfold match_flow_basic. induction (bn_flows self) as [|x l IH]; [done|].
  inversion Hs as [|?? Hs' Hall]; subst. rewrite Forall_forall in Hall. cbn [basic_scan find].
  fold (prio h x). unfold match_basic. destruct (match_byteoff pkt (h !!! x)) eqn:Em; [done|].
  rewrite IH by done. destruct (Z.leb_spec (prio h x) pri); [|done].
  destruct (find _ l) as [y|] eqn:Ef; [|done]. apply find_some in Ef as [Hy%list_elem_of_In _].
  specialize (Hall y Hy). destruct (Z.leb_spec (prio h y) pri); [done|lia].
Qed.

Lemma match_flow_basic_first_witness :
  match_flow_basic ∅ (packet_of sample_frame) (Basic [7%nat]) (-1) =
  match find (fun r => match_byteoff (packet_of sample_frame) ((∅ : flow_heap) !!! r)) [7%nat] with
  | Some r => if prio ∅ r <=? -1 then (None, -1, ∅)
              else (Some r, prio ∅ r,
                    alter (fun _ => count_match (packet_of sample_frame) ((∅ : flow_heap) !!! r)) r ∅)
  | None => (None, -1, ∅)
  end.
Proof. apply match_flow_basic_first. repeat constructor. Defined.
