(* ===== verification/FlowinfoTable.v ===== *)
(** * Tables of child nodes

    What the inner nodes of the lookup tree share: a finite map from a key of the
    match list to child nodes, an invariant that files every flow under its own
    key, and the laws of adding, deleting, matching and finding through one child. *)
From S2P Require Import Prelude OpenFlow Packet FlowEntry ByteMatch FlowinfoIntf.

Section Table.
Context {A : Type} `{FlowinfoSpec A}.
Context (key : list match_ -> option Z) `{!Proper (ml_eq ==> eq) key}.

Definition table_flows (m : gmap Z A) : list ref := concat (fi_flows <$> (map_to_list m).*2).

(** Every child is in order, holds flows of its key only and takes all of them. *)
Definition table_wf (h : flow_heap) (m : gmap Z A) : Prop :=
  forall k c, m !! k = Some c ->
    fi_wf h c /\ (forall r, r ∈ fi_flows c -> key (ml h r) = Some k) /\
    (forall ms, key ms = Some k -> fi_accepts c ms).

Lemma table_flows_empty : table_flows ∅ = [].
Proof. unfold table_flows. by rewrite map_to_list_empty. Qed.

Lemma table_flows_insert m k c :
  table_flows (<[k := c]> m) ≡ₚ fi_flows c ++ table_flows (delete k m).
Proof.
  unfold table_flows. rewrite <- insert_delete_eq.
  rewrite (map_to_list_insert (delete k m) k c) by apply lookup_delete_eq. done.
Qed.

Lemma table_flows_lookup m k c :
  m !! k = Some c -> table_flows m ≡ₚ fi_flows c ++ table_flows (delete k m).
Proof. intros Hk. rewrite <- (insert_id m k c Hk) at 1. apply table_flows_insert. Qed.

Lemma elem_of_table_flows m r :
  r ∈ table_flows m <-> exists k c, m !! k = Some c /\ r ∈ fi_flows c.
Proof.
  unfold table_flows. rewrite list_elem_of_In, in_concat. split.
  - intros (l & Hl%list_elem_of_In & Hr%list_elem_of_In).
    apply list_elem_of_fmap in Hl as (c & -> & Hc).
    apply list_elem_of_fmap in Hc as ([k c'] & -> & Hkc%elem_of_map_to_list). eauto.
  - intros (k & c & Hk & Hr). exists (fi_flows c). rewrite <- !list_elem_of_In. split; [|done].
    apply list_elem_of_fmap. exists c. split; [done|]. apply list_elem_of_fmap.
    exists (k, c). split; [done|]. by apply elem_of_map_to_list.
Qed.

Lemma table_wf_key h m r k :
  table_wf h m -> r ∈ table_flows m -> key (ml h r) = Some k ->
  exists c, m !! k = Some c /\ r ∈ fi_flows c.
Proof.
  intros Hwf (k' & c & Hk & Hr)%elem_of_table_flows Hkey.
  destruct (Hwf k' c Hk) as (_ & H1 & _). rewrite (H1 r Hr) in Hkey. simplify_eq. eauto.
Qed.

Lemma table_wf_is_Some h m r :
  table_wf h m -> r ∈ table_flows m -> exists k, key (ml h r) = Some k.
Proof.
  intros Hwf (k & c & Hk & Hr)%elem_of_table_flows. destruct (Hwf k c Hk) as (_ & H1 & _). eauto.
Qed.

Lemma table_wf_ok h m r : table_wf h m -> r ∈ table_flows m -> match_list_ok (ml h r).
Proof.
  intros Hwf (k & c & Hk & Hr)%elem_of_table_flows.
  destruct (Hwf k c Hk) as (H1 & _ & _). by eapply fi_wf_ok.
Qed.

Lemma key_same_key (h h' : flow_heap) r :
  same_key (h !!! r) (h' !!! r) -> key (ml h r) = key (ml h' r).
Proof. intros Hk%same_key_ml. unfold ml. by rewrite Hk. Qed.

Lemma table_wf_ext h h' m :
  (forall r, r ∈ table_flows m -> same_key (h !!! r) (h' !!! r)) ->
  table_wf h m -> table_wf h' m.
Proof.
  intros Hk Hwf k c Hc. destruct (Hwf k c Hc) as (H1 & H2 & H3).
  assert (forall r, r ∈ fi_flows c -> same_key (h !!! r) (h' !!! r)) as Hk'.
  { intros r Hr. apply Hk, elem_of_table_flows. eauto. }
  split_and!; [by eapply fi_wf_ext| |done].
  intros r Hr. rewrite <- (key_same_key h h') by auto. auto.
Qed.

Lemma table_wf_empty h : table_wf h ∅.
Proof. intros k c Hc. by rewrite lookup_empty in Hc. Qed.

Lemma table_wf_insert h m k c :
  table_wf h m -> fi_wf h c -> (forall r, r ∈ fi_flows c -> key (ml h r) = Some k) ->
  (forall ms, key ms = Some k -> fi_accepts c ms) -> table_wf h (<[k := c]> m).
Proof.
  intros Hwf H1 H2 H3 k' c' Hc. apply lookup_insert_Some in Hc as [[<- <-]|[_ Hc]]; auto.
Qed.

(** A new child changes no contents. *)
Lemma table_new_law h m k c `{!FlowinfoEmpty c} :
  table_wf h m -> m !! k = None -> (forall ms, key ms = Some k -> fi_accepts c ms) ->
  table_wf h (<[k := c]> m) /\ table_flows (<[k := c]> m) ≡ₚ table_flows m.
Proof.
  intros Hwf Hk Hacc. split.
  - apply table_wf_insert; [done|apply fe_wf| |done].
    intros r Hr. rewrite fe_flows in Hr. by apply elem_of_nil in Hr.
  - rewrite table_flows_insert, delete_id, fe_flows by done. done.
Qed.

Lemma table_add_law h m k c r :
  table_wf h m -> m !! k = Some c -> match_list_ok (ml h r) -> key (ml h r) = Some k ->
  exists c' f', fi_add h c r = (LAGOPUS_RESULT_OK, c', <[r := f']> h) /\
    added (h !!! r) f' /\ table_wf (<[r := f']> h) (<[k := c']> m) /\
    table_flows (<[k := c']> m) ≡ₚ r :: table_flows m.
Proof.
  intros Hwf Hk Hok Hkey. destruct (Hwf k c Hk) as (H1 & H2 & H3).
  destruct (fi_add_law h c r H1 Hok (H3 _ Hkey)) as (c' & f' & E & Ha & Hc' & Hp & Hacc).
  exists c', f'. split_and!; [done|done| |].
  - assert (forall x, key (ml (<[r := f']> h) x) = key (ml h x)) as Hkx.
    { intros x. symmetry. apply key_same_key. by apply added_heap_key. }
    apply table_wf_insert; [|done| |by rewrite Hacc].
    + eapply table_wf_ext; [|exact Hwf]. intros x _. by apply added_heap_key.
    + intros x. rewrite Hp. intros [->|Hx]%elem_of_cons; rewrite Hkx; auto.
  - by rewrite table_flows_insert, (table_flows_lookup m k c Hk), Hp.
Qed.

Lemma table_del_law h m k r :
  table_wf h m -> r ∈ table_flows m -> key (ml h r) = Some k ->
  exists c c', m !! k = Some c /\ fi_del h c r = (LAGOPUS_RESULT_OK, c') /\
    table_wf h (<[k := c']> m) /\ table_flows m ≡ₚ r :: table_flows (<[k := c']> m).
Proof.
  intros Hwf Hr Hkey. destruct (table_wf_key h m r k Hwf Hr Hkey) as (c & Hk & Hrc).
  destruct (Hwf k c Hk) as (H1 & H2 & H3).
  destruct (fi_del_law h c r H1 Hrc) as (c' & E & Hc' & Hp & Hacc).
  exists c, c'. split_and!; [done|done| |].
  - apply table_wf_insert; [done|done| |by rewrite Hacc].
    intros x Hx. apply H2. rewrite Hp. by right.
  - by rewrite table_flows_insert, (table_flows_lookup m k c Hk), Hp.
Qed.

(** The flows of key [k] that the packet reaches and that match it. *)
Definition table_cand (h : flow_heap) (pkt : lagopus_packet) (m : gmap Z A) (k : Z) (x : ref)
    : Prop :=
  x ∈ table_flows m /\ key (ml h x) = Some k /\ fi_admits pkt (ml h x) /\
  match_byteoff pkt (h !!! x) = true.

Definition pos_ok (h : flow_heap) (flows : list ref) (needs : list match_ -> bool) (pri : Z)
    : Prop :=
  0 <= pri \/ forall r, r ∈ flows -> needs (ml h r) = true -> 0 < prio h r.

Lemma pos_ok_le h flows needs pri pri' :
  pri <= pri' -> pos_ok h flows needs pri -> pos_ok h flows needs pri'.
Proof. intros Hle [Hp|Hp]; [left; lia|by right]. Qed.

Lemma table_match_law h0 h pkt m k pri :
  heap_eqv h0 h -> table_wf h0 m -> pos_ok h0 (table_flows m) fi_needs_pos pri ->
  let '(r, pri', h') := child_match h pkt (m !! k) pri in
  heap_eqv h0 h' /\ best (table_cand h0 pkt m k) (prio h0) pri r pri'.
Proof.
  intros Hh Hwf Hpos. destruct (m !! k) as [c|] eqn:Hk; cbn [child_match].
  - destruct (Hwf k c Hk) as (H1 & H2 & H3).
    assert (pos_ok h0 (fi_flows c) fi_needs_pos pri) as Hpos'.
    { destruct Hpos as [|Hpos]; [by left|right]. intros r Hr. apply Hpos, elem_of_table_flows. eauto. }
    pose proof (fi_match_eqv h0 h pkt c pri Hh H1 Hpos') as Hm.
    destruct (fi_match h pkt c pri) as [[r pri'] h']. destruct Hm as [He Hb].
    split; [done|]. eapply best_ext; [|done|exact Hb]. intros x. unfold table_cand. split.
    + intros (Hx & Ha & Hmx). split_and!; [|by auto|done|done]. apply elem_of_table_flows. eauto.
    + intros (Hx & Hkx & Ha & Hmx). split_and!; [|done|done].
      destruct (table_wf_key h0 m x k Hwf Hx Hkx) as (c' & Hc' & Hxc). by simplify_eq.
  - split; [done|]. split; [done|]. intros x (Hx & Hkx & _).
    destruct (table_wf_key h0 m x k Hwf Hx Hkx) as (c' & Hc' & _). congruence.
Qed.

Lemma key_compare h r x :
  match_list_ok (ml h r) -> match_list_ok (ml h x) ->
  flow_compare (h !!! r) (h !!! x) = true -> key (ml h r) = key (ml h x).
Proof. intros Hr Hx Hc. unfold ml in *. by rewrite (flow_compare_ml _ _ Hr Hx Hc). Qed.

Lemma table_find_law h m k r :
  table_wf h m -> match_list_ok (ml h r) -> key (ml h r) = Some k ->
  match m !! k ≫= (fun c => fi_find h c r) with
  | Some x => x ∈ table_flows m /\ flow_compare (h !!! r) (h !!! x) = true
  | None => forall x, x ∈ table_flows m -> flow_compare (h !!! r) (h !!! x) = false
  end.
Proof.
  intros Hwf Hok Hkey.
  assert (forall x, x ∈ table_flows m -> flow_compare (h !!! r) (h !!! x) = true ->
    exists c, m !! k = Some c /\ x ∈ fi_flows c) as Hx.
  { intros x Hx Hc. apply (table_wf_key h m x k Hwf Hx). rewrite <- Hkey. symmetry.
    apply key_compare; [done|by eapply table_wf_ok|done]. }
  destruct (m !! k) as [c|] eqn:Hk; cbn.
  - destruct (Hwf k c Hk) as (H1 & H2 & H3). pose proof (fi_find_law h c r H1 Hok) as Hf.
    destruct (fi_find h c r) as [x|].
    + destruct Hf as [Hf Hc]. split; [|done]. apply elem_of_table_flows. eauto.
    + intros x Hin. destruct (flow_compare _ _) eqn:E; [|done].
      destruct (Hx x Hin E) as (c' & Hc' & Hxc). simplify_eq. rewrite <- E. by apply Hf.
  - intros x Hin. destruct (flow_compare _ _) eqn:E; [|done].
    destruct (Hx x Hin E) as (c' & Hc' & _). congruence.
Qed.

Lemma table_find_other h m r :
  table_wf h m -> match_list_ok (ml h r) -> key (ml h r) = None ->
  forall x, x ∈ table_flows m -> flow_compare (h !!! r) (h !!! x) = false.
Proof.
  intros Hwf Hok Hkey x Hx. destruct (flow_compare _ _) eqn:E; [|done].
  apply key_compare in E; [|done|by eapply table_wf_ok].
  destruct (table_wf_is_Some h m x Hwf Hx) as [k Hk]. congruence.
Qed.

End Table.
Arguments table_flows {A _ _} m.

(** ** A table and the node of the flows without a key *)
Section Dispatch.
Context {A B : Type} `{FlowinfoSpec A} `{FlowinfoSpec B}.
Context (key : list match_ -> option Z) `{!Proper (ml_eq ==> eq) key}.

Definition disp_flows (m : gmap Z A) (b : B) : list ref := table_flows m ++ fi_flows b.

Definition disp_wf (h : flow_heap) (m : gmap Z A) (b : B) : Prop :=
  table_wf key h m /\ fi_wf h b /\ (forall r, r ∈ fi_flows b -> key (ml h r) = None) /\
  (forall ms, key ms = None -> fi_accepts b ms).

Definition disp_needs_pos (ms : list match_) : bool :=
  match key ms with Some _ => fi_needs_pos (A := A) ms | None => fi_needs_pos (A := B) ms end.

(** [ks]: the keys of the table that a packet is looked up under. *)
Definition disp_admits (ks : lagopus_packet -> Z -> Prop) (pkt : lagopus_packet)
    (ms : list match_) : Prop :=
  match key ms with
  | Some k => ks pkt k /\ fi_admits (A := A) pkt ms
  | None => fi_admits (A := B) pkt ms
  end.

#[global] Instance disp_needs_pos_proper : Proper (ml_eq ==> eq) disp_needs_pos.
Proof.
  intros ms ms' Heq. unfold disp_needs_pos. by destruct (key ms) eqn:E; rewrite Heq in E; rewrite E, Heq.
Qed.

#[global] Instance disp_admits_proper ks pkt : Proper (ml_eq ==> iff) (disp_admits ks pkt).
Proof.
  intros ms ms' Heq. unfold disp_admits. by destruct (key ms) eqn:E; rewrite Heq in E; rewrite E, Heq.
Qed.

Lemma disp_wf_ext h h' m b :
  (forall r, r ∈ disp_flows m b -> same_key (h !!! r) (h' !!! r)) ->
  disp_wf h m b -> disp_wf h' m b.
Proof.
  intros Hk (H1 & H2 & H3 & H4). unfold disp_flows in Hk. setoid_rewrite elem_of_app in Hk.
  split_and!; [eapply table_wf_ext; eauto|eapply fi_wf_ext; eauto| |done].
  intros r Hr. rewrite <- (key_same_key key h h') by auto. auto.
Qed.

Lemma disp_wf_ok h m b r : disp_wf h m b -> r ∈ disp_flows m b -> match_list_ok (ml h r).
Proof.
  intros (H1 & H2 & _) [Hr|Hr]%elem_of_app; [by apply (table_wf_ok key h m)|by apply (fi_wf_ok h b)].
Qed.

Lemma disp_add_table h m b k c r :
  disp_wf h m b -> m !! k = Some c -> match_list_ok (ml h r) -> key (ml h r) = Some k ->
  exists c' f', fi_add h c r = (LAGOPUS_RESULT_OK, c', <[r := f']> h) /\
    added (h !!! r) f' /\ disp_wf (<[r := f']> h) (<[k := c']> m) b /\
    disp_flows (<[k := c']> m) b ≡ₚ r :: disp_flows m b.
Proof.
  intros (H1 & H2 & H3 & H4) Hk Hok Hkey.
  destruct (table_add_law key h m k c r H1 Hk Hok Hkey) as (c' & f' & E & Ha & Hwf & Hp).
  exists c', f'. split_and!; [done|done| |by unfold disp_flows; rewrite Hp].
  split_and!; [done| | |done].
  - eapply fi_wf_ext; [|exact H2]. intros x _. by apply added_heap_key.
  - intros x Hx. rewrite <- (key_same_key key h) by (by apply added_heap_key). auto.
Qed.

(** The table after making the child of [k] if there was none. *)
Definition table_or_new (m : gmap Z A) (k : Z) (new : A) : gmap Z A :=
  match m !! k with Some _ => m | None => <[k := new]> m end.

Lemma disp_or_new h m b k (new : A) `{!FlowinfoEmpty new} :
  disp_wf h m b -> (forall ms, key ms = Some k -> fi_accepts new ms) ->
  exists c, table_or_new m k new !! k = Some c /\ disp_wf h (table_or_new m k new) b /\
    disp_flows (table_or_new m k new) b ≡ₚ disp_flows m b.
Proof.
  intros Hd Hacc. unfold table_or_new. destruct (m !! k) as [c|] eqn:E; [by eauto|].
  destruct Hd as (H1 & H2). rewrite lookup_insert_eq. eexists. split; [done|].
  destruct (table_new_law key h m k new H1 E Hacc) as [H3 H4].
  split; [done|]. unfold disp_flows. by rewrite H4.
Qed.

(** Two records of what was added at [r] are the same to the invariant. *)
Lemma disp_wf_added h m b r f f1 f2 :
  added f f1 -> added f f2 -> disp_wf (<[r := f1]> h) m b -> disp_wf (<[r := f2]> h) m b.
Proof.
  intros H1 H2. apply disp_wf_ext. intros x _. destruct (decide (x = r)) as [->|].
  - rewrite !lookup_total_insert_eq. rewrite <- (added_same_key _ _ H1).
    by apply added_same_key.
  - by rewrite !lookup_total_insert_ne.
Qed.

Lemma disp_add_misc h m b r :
  disp_wf h m b -> match_list_ok (ml h r) -> key (ml h r) = None ->
  exists b' f', fi_add h b r = (LAGOPUS_RESULT_OK, b', <[r := f']> h) /\
    added (h !!! r) f' /\ disp_wf (<[r := f']> h) m b' /\
    disp_flows m b' ≡ₚ r :: disp_flows m b.
Proof.
  intros (H1 & H2 & H3 & H4) Hok Hkey.
  destruct (fi_add_law h b r H2 Hok (H4 _ Hkey)) as (b' & f' & E & Ha & Hwf & Hp & Hacc).
  exists b', f'. split_and!; [done|done| |].
  - split_and!; [|done| |by rewrite Hacc].
    + eapply table_wf_ext; [done| |exact H1]. intros x _. by apply added_heap_key.
    + intros x. rewrite Hp. rewrite <- (key_same_key key h) by (by apply added_heap_key).
      intros [->|Hx]%elem_of_cons; auto.
  - unfold disp_flows. by rewrite Hp, Permutation_middle.
Qed.

Lemma disp_del_table h m b k r :
  disp_wf h m b -> r ∈ disp_flows m b -> key (ml h r) = Some k ->
  exists c c', m !! k = Some c /\ fi_del h c r = (LAGOPUS_RESULT_OK, c') /\
    disp_wf h (<[k := c']> m) b /\ disp_flows m b ≡ₚ r :: disp_flows (<[k := c']> m) b.
Proof.
  intros (H1 & H2 & H3 & H4) [Hr|Hr]%elem_of_app Hkey; [|rewrite (H3 r Hr) in Hkey; done].
  destruct (table_del_law key h m k r H1 Hr Hkey) as (c & c' & Hk & E & Hwf & Hp).
  exists c, c'. split_and!; [done|done|by split_and!|]. unfold disp_flows. by rewrite Hp.
Qed.

Lemma disp_del_misc h m b r :
  disp_wf h m b -> r ∈ disp_flows m b -> key (ml h r) = None ->
  exists b', fi_del h b r = (LAGOPUS_RESULT_OK, b') /\
    disp_wf h m b' /\ disp_flows m b ≡ₚ r :: disp_flows m b'.
Proof.
  intros (H1 & H2 & H3 & H4) [Hr|Hr]%elem_of_app Hkey.
  { destruct (table_wf_is_Some key h m r H1 Hr) as [k Hk]. congruence. }
  destruct (fi_del_law h b r H2 Hr) as (b' & E & Hwf & Hp & Hacc).
  exists b'. split_and!; [done| |].
  - split_and!; [done|done| |by rewrite Hacc]. intros x Hx. apply H3. rewrite Hp. by right.
  - unfold disp_flows. rewrite Hp at 1. by rewrite Permutation_middle.
Qed.

Definition misc_cand (h : flow_heap) (pkt : lagopus_packet) (b : B) (x : ref) : Prop :=
  x ∈ fi_flows b /\ fi_admits pkt (ml h x) /\ match_byteoff pkt (h !!! x) = true.

Lemma disp_pos_table h m b pri :
  disp_wf h m b -> pos_ok h (disp_flows m b) disp_needs_pos pri ->
  pos_ok h (table_flows m) (fi_needs_pos (A := A)) pri.
Proof.
  intros (H1 & _) [Hp|Hp]; [by left|right]. intros r Hr Hn. apply Hp.
  - apply elem_of_app. by left.
  - unfold disp_needs_pos. by destruct (table_wf_is_Some key h m r H1 Hr) as [k ->].
Qed.

Lemma disp_pos_misc h m b pri :
  disp_wf h m b -> pos_ok h (disp_flows m b) disp_needs_pos pri ->
  pos_ok h (fi_flows b) (fi_needs_pos (A := B)) pri.
Proof.
  intros (_ & _ & H3 & _) [Hp|Hp]; [by left|right]. intros r Hr Hn. apply Hp.
  - apply elem_of_app. by right.
  - unfold disp_needs_pos. by rewrite (H3 r Hr).
Qed.

(** The candidates of the node are those of the keys looked up and those of [misc]. *)
Lemma disp_cand h pkt m b ks x :
  disp_wf h m b ->
  (x ∈ disp_flows m b /\ disp_admits ks pkt (ml h x) /\ match_byteoff pkt (h !!! x) = true) <->
  (exists k, ks pkt k /\ table_cand key h pkt m k x) \/ misc_cand h pkt b x.
Proof.
  intros (H1 & H2 & H3 & H4). unfold disp_flows, disp_admits, table_cand, misc_cand.
  rewrite elem_of_app. split.
  - intros ([Hx|Hx] & Ha & Hm).
    + left. destruct (table_wf_is_Some key h m x H1 Hx) as [k Hk]. rewrite Hk in Ha.
      destruct Ha as [Hin Ha]. by exists k.
    + right. by rewrite (H3 x Hx) in Ha.
  - intros [(k & Hin & Hx & Hk & Ha & Hm)|(Hx & Ha & Hm)].
    + split_and!; [by left| |done]. by rewrite Hk.
    + split_and!; [by right| |done]. by rewrite (H3 x Hx).
Qed.

Lemma disp_find_table h m b k r :
  disp_wf h m b -> match_list_ok (ml h r) -> key (ml h r) = Some k ->
  match m !! k ≫= (fun c => fi_find h c r) with
  | Some x => x ∈ disp_flows m b /\ flow_compare (h !!! r) (h !!! x) = true
  | None => forall x, x ∈ disp_flows m b -> flow_compare (h !!! r) (h !!! x) = false
  end.
Proof.
  intros (H1 & H2 & H3 & H4) Hok Hkey.
  pose proof (table_find_law key h m k r H1 Hok Hkey) as Hf. unfold disp_flows.
  destruct (_ ≫= _) as [x|].
  - destruct Hf as [Hx Hc]. split; [|done]. apply elem_of_app. by left.
  - intros x [Hx|Hx]%elem_of_app; [by apply Hf|].
    destruct (flow_compare _ _) eqn:E; [|done].
    apply (key_compare key) in E; [|done|by eapply fi_wf_ok].
    rewrite (H3 x Hx) in E. congruence.
Qed.

Lemma disp_find_misc h m b r :
  disp_wf h m b -> match_list_ok (ml h r) -> key (ml h r) = None ->
  match fi_find h b r with
  | Some x => x ∈ disp_flows m b /\ flow_compare (h !!! r) (h !!! x) = true
  | None => forall x, x ∈ disp_flows m b -> flow_compare (h !!! r) (h !!! x) = false
  end.
Proof.
  intros (H1 & H2 & H3 & H4) Hok Hkey. pose proof (fi_find_law h b r H2 Hok) as Hf.
  unfold disp_flows. destruct (fi_find h b r) as [x|].
  - destruct Hf as [Hx Hc]. split; [|done]. apply elem_of_app. by right.
  - intros x [Hx|Hx]%elem_of_app; [by apply (table_find_other key h m)|by apply Hf].
Qed.

End Dispatch.
