(* ===== verification/FlowinfoNodes.v ===== *)
(** * The inner nodes of the lookup tree

    Five kinds of node, each parameterised by what its C file specialises:
    - [hash_node]: a hash map from a field value ([flowinfo_vlan.c], [flowinfo_mpls.c],
      [flowinfo_port.c]);
    - [proto_node]: an array over the IP protocol ([flowinfo_ipv4_proto.c], [flowinfo_ipv6.c]);
    - [key_node]: a hash map from a masked field value, without a [misc] node, and
      [mask_node]: one [key_node] per mask ([flowinfo_metadata.c], [flowinfo_ipv4_dst.c],
      [flowinfo_ipv4_src.c]);
    the array over the ethertype ([flowinfo_ether.c]) is in [FlowinfoTree].  Every kind meets the
    interface of [FlowinfoIntf] when its children do. *)
From S2P Require Import Prelude OpenFlow Packet FlowEntry ByteMatch Hashmap FlowinfoIntf FlowinfoTable.

(** [new_flowinfo_*] of a type of node. *)
Class FlowinfoNew (A : Type) := fi_new : A.

(** Find the child of [k], or make one: [lagopus_hashmap_find_no_lock], then
    [lagopus_hashmap_add_no_lock] of a new node. *)
Definition find_or_new {A} `{FlowinfoNew A} (hm : hashmap A) (k : Z)
    : lagopus_result * hashmap A :=
  match s_find hm k with
  | (LAGOPUS_RESULT_OK, _) => (LAGOPUS_RESULT_OK, hm)
  | _ => let '(rv, hm', _) := s_add hm k fi_new false in (rv, hm')
  end.

(** The child behind the pointer of key [k] has changed. *)
Definition hm_store {A} (hm : hashmap A) (k : Z) (c : A) : hashmap A :=
  Hashmap (<[k := c]> (m_hashtable hm)) (m_n_entries hm) (m_is_operational hm) (m_del_proc hm).

(** [if (rv == LAGOPUS_RESULT_OK) self->nflow++] and [--]. *)
Definition inc_ok (rv : lagopus_result) (n : Z) : Z := if is_ok rv then n + 1 else n.
Definition dec_ok (rv : lagopus_result) (n : Z) : Z := if is_ok rv then n - 1 else n.

Lemma find_or_new_law {A} `{FlowinfoNew A} (hm : hashmap A) k :
  m_is_operational hm = true ->
  exists n, find_or_new hm k =
    (LAGOPUS_RESULT_OK,
     Hashmap (table_or_new (m_hashtable hm) k fi_new) n true (m_del_proc hm)).
Proof.
  intros Ho. unfold find_or_new, table_or_new, s_find, s_add. destruct hm as [t n o d]. cbn in *. subst o.
  destruct (t !! k) eqn:E; [by exists n|by exists (n + 1)].
Qed.

(** ** Hash nodes *)

(** What a file defines: the key of a flow (from [get_match_*]), the key of a packet, the
    match whose [except_flag] is set after an addition, if any, and whether [nflow] is kept. *)
Record hash_class := HashClass {
  hc_key : list match_ -> option Z;
  hc_pkt : lagopus_packet -> Z;
  hc_mark : option (match_ -> bool);
  hc_count : bool
}.

Record hash_node (K : hash_class) (A B : Type) := HashNode {
  hn_nflow : Z;
  hn_hashmap : hashmap A;
  hn_misc : B
}.
Arguments HashNode {K A B} _ _ _.
Arguments hn_nflow {K A B} _.
Arguments hn_hashmap {K A B} _.
Arguments hn_misc {K A B} _.

Section HashNode.
Context {K : hash_class} {A B : Type}.
Context `{!FlowinfoOps A, !FlowinfoOps B, !FlowinfoNew A, !FlowinfoNew B}.

Definition new_hash_node : hash_node K A B := HashNode 0 (lagopus_hashmap_create true) fi_new.

Definition hash_inc (rv : lagopus_result) (n : Z) : Z := if hc_count K then inc_ok rv n else n.
Definition hash_dec (rv : lagopus_result) (n : Z) : Z := if hc_count K then dec_ok rv n else n.

Definition hash_add (h : flow_heap) (self : hash_node K A B) (flow : ref)
    : lagopus_result * hash_node K A B * flow_heap :=
  match hc_key K (ml h flow) with
  | Some k =>
      match find_or_new (hn_hashmap self) k with
      | (LAGOPUS_RESULT_OK, hm) =>
          match m_hashtable hm !! k with
          | Some flowinfo =>
              let '(rv, flowinfo, h) := fi_add h flowinfo flow in
              let h := match hc_mark K with Some p => mark_flow p h flow | None => h end in
              (rv, HashNode (hash_inc rv (hn_nflow self)) (hm_store hm k flowinfo)
                     (hn_misc self), h)
          | None => (LAGOPUS_RESULT_ANY_FAILURES, self, h)
          end
      | (rv, hm) => (rv, HashNode (hn_nflow self) hm (hn_misc self), h)
      end
  | None =>
      let '(rv, misc, h) := fi_add h (hn_misc self) flow in
      (rv, HashNode (hash_inc rv (hn_nflow self)) (hn_hashmap self) misc, h)
  end.

Definition hash_del (h : flow_heap) (self : hash_node K A B) (flow : ref)
    : lagopus_result * hash_node K A B :=
  match hc_key K (ml h flow) with
  | Some k =>
      match s_find (hn_hashmap self) k with
      | (LAGOPUS_RESULT_OK, Some flowinfo) =>
          let '(rv, flowinfo) := fi_del h flowinfo flow in
          (rv, HashNode (hash_dec rv (hn_nflow self)) (hm_store (hn_hashmap self) k flowinfo)
                 (hn_misc self))
      | (rv, _) => (rv, self)
      end
  | None =>
      let '(rv, misc) := fi_del h (hn_misc self) flow in
      (rv, HashNode (hash_dec rv (hn_nflow self)) (hn_hashmap self) misc)
  end.

Definition hash_match (h : flow_heap) (pkt : lagopus_packet) (self : hash_node K A B) (pri : Z)
    : option ref * Z * flow_heap :=
  let '(flow, pri, h) := child_match h pkt (s_find (hn_hashmap self) (hc_pkt K pkt)).2 pri in
  let '(alt_flow, pri, h) := fi_match h pkt (hn_misc self) pri in
  (over alt_flow flow, pri, h).

Definition hash_find (h : flow_heap) (self : hash_node K A B) (flow : ref) : option ref :=
  match hc_key K (ml h flow) with
  | Some k => (s_find (hn_hashmap self) k).2 ≫= (fun flowinfo => fi_find h flowinfo flow)
  | None => fi_find h (hn_misc self) flow
  end.

#[global] Instance hash_new : FlowinfoNew (hash_node K A B) := new_hash_node.

#[global] Instance hash_ops : FlowinfoOps (hash_node K A B) := {
  fi_nflow := hn_nflow;
  fi_add := hash_add;
  fi_del := hash_del;
  fi_match := hash_match;
  fi_find := hash_find
}.
End HashNode.

(** The class of a counting node, and what a parent needs of the children it makes. *)
Class HashClassOk (K : hash_class) : Prop := {
  hc_key_proper :: Proper (ml_eq ==> eq) (hc_key K);
  hc_counts : hc_count K = true
}.

Class AcceptsAll (A : Type) `{FlowinfoSpec A} : Prop :=
  accepts_all : forall (t : A) ms, fi_accepts t ms.

Section HashNodeSpec.
Context {K : hash_class} {A B : Type} `{!HashClassOk K}.
Context `{!FlowinfoOps A, !FlowinfoSpec A, !FlowinfoNew A, !FlowinfoEmpty (fi_new : A)}.
Context `{!FlowinfoOps B, !FlowinfoSpec B, !FlowinfoNew B, !FlowinfoEmpty (fi_new : B)}.
Context `{!AcceptsAll A, !AcceptsAll B}.

Definition hash_flows (t : hash_node K A B) : list ref :=
  disp_flows (m_hashtable (hn_hashmap t)) (hn_misc t).

Definition hash_wf (h : flow_heap) (t : hash_node K A B) : Prop :=
  m_is_operational (hn_hashmap t) = true /\
  disp_wf (hc_key K) h (m_hashtable (hn_hashmap t)) (hn_misc t) /\
  hn_nflow t = Z.of_nat (length (hash_flows t)).

Lemma hash_add_law h t r :
  hash_wf h t -> match_list_ok (ml h r) ->
  exists t' f', hash_add h t r = (LAGOPUS_RESULT_OK, t', <[r := f']> h) /\
    added (h !!! r) f' /\ hash_wf (<[r := f']> h) t' /\ hash_flows t' ≡ₚ r :: hash_flows t.
Proof.
  intros (Ho & Hd & Hn) Hok. unfold hash_add. destruct (hc_key K (ml h r)) as [k|] eqn:Hk.
  - destruct (find_or_new_law (hn_hashmap t) k Ho) as [n ->]. cbn [m_hashtable].
    destruct (disp_or_new (hc_key K) h _ _ k fi_new Hd) as (c & Hc & Hwf & Hp);
      [intros; apply accepts_all|].
    rewrite Hc. destruct (disp_add_table (hc_key K) h _ (hn_misc t) k c r Hwf Hc Hok Hk)
      as (c' & f' & -> & Ha & Hwf' & Hp').
    set (f2 := match hc_mark K with
      | Some p => set_fl_match_list (set_except_flag p (fl_match_list f')) f' | None => f' end).
    assert (added (h !!! r) f2) as Ha2
      by (unfold f2; destruct (hc_mark K); [by apply added_mark_after|done]).
    eexists _, f2. split; [|split; [exact Ha2|]].
    { f_equal. unfold f2, mark_flow. destruct (hc_mark K); [|done].
      by rewrite lookup_total_insert_eq, insert_insert_eq. }
    rewrite Hp in Hp'. split; [|exact Hp']. split_and!; [done| |].
    + by eapply (disp_wf_added (hc_key K) h _ _ r _ f' f2).
    + cbn [hn_nflow]. unfold hash_flows at 1. cbn [hn_hashmap hn_misc hm_store m_hashtable].
      rewrite (Permutation_length Hp'). unfold hash_inc, hash_flows in *.
      rewrite hc_counts, Hn. cbn [inc_ok is_ok length]. lia.
  - destruct (disp_add_misc (hc_key K) h _ _ r Hd Hok Hk) as (b' & f' & -> & Ha & Hwf & Hp).
    eexists _, f'. split; [reflexivity|]. split; [done|]. split; [|exact Hp].
    split_and!; [done|exact Hwf|]. unfold hash_flows at 1. cbn [hn_nflow hn_hashmap hn_misc].
    rewrite (Permutation_length Hp). unfold hash_inc, hash_flows in *.
    rewrite hc_counts, Hn. cbn [inc_ok is_ok length]. lia.
Qed.

Lemma hash_del_law h t r :
  hash_wf h t -> r ∈ hash_flows t ->
  exists t', hash_del h t r = (LAGOPUS_RESULT_OK, t') /\ hash_wf h t' /\
    hash_flows t ≡ₚ r :: hash_flows t'.
Proof.
  intros (Ho & Hd & Hn) Hr. unfold hash_del. destruct (hc_key K (ml h r)) as [k|] eqn:Hk.
  - destruct (disp_del_table (hc_key K) h _ _ k r Hd Hr Hk) as (c & c' & Hc & E & Hwf & Hp).
    unfold s_find. rewrite Ho, Hc, E. eexists. split; [reflexivity|]. split; [|exact Hp].
    split_and!; [done|exact Hwf|]. unfold hash_flows in *. cbn [hn_nflow hn_hashmap hn_misc hm_store m_hashtable].
    rewrite (Permutation_length Hp) in Hn. unfold hash_dec. rewrite hc_counts, Hn.
    cbn [dec_ok is_ok length]. lia.
  - destruct (disp_del_misc (hc_key K) h _ _ r Hd Hr Hk) as (b' & E & Hwf & Hp).
    rewrite E. eexists. split; [reflexivity|]. split; [|exact Hp].
    split_and!; [done|exact Hwf|]. unfold hash_flows in *. cbn [hn_nflow hn_hashmap hn_misc].
    rewrite (Permutation_length Hp) in Hn. unfold hash_dec. rewrite hc_counts, Hn.
    cbn [dec_ok is_ok length]. lia.
Qed.

Lemma s_find_snd {V} (hm : hashmap V) k :
  m_is_operational hm = true -> (s_find hm k).2 = m_hashtable hm !! k.
Proof. intros Ho. unfold s_find. rewrite Ho. by destruct (m_hashtable hm !! k). Qed.

Definition hash_keys (pkt : lagopus_packet) (k : Z) : Prop := k = hc_pkt K pkt.

Lemma hash_match_law h pkt t pri :
  hash_wf h t ->
  pos_ok h (hash_flows t) (disp_needs_pos (A := A) (B := B) (hc_key K)) pri ->
  let '(r, pri', h') := hash_match h pkt t pri in
  heap_eqv h h' /\
  best (fun x => x ∈ hash_flows t /\
         disp_admits (A := A) (B := B) (hc_key K) hash_keys pkt (ml h x) /\
         match_byteoff pkt (h !!! x) = true) (prio h) pri r pri'.
Proof.
  intros (Ho & Hd & _) Hpos. unfold hash_match. rewrite s_find_snd by done.
  pose proof (disp_pos_table _ _ _ _ _ Hd Hpos) as Hp1.
  pose proof (disp_pos_misc _ _ _ _ _ Hd Hpos) as Hp2.
  pose proof (table_match_law (hc_key K) h h pkt (m_hashtable (hn_hashmap t)) (hc_pkt K pkt)
    pri ltac:(done) (proj1 Hd) Hp1) as H1.
  destruct (child_match _ _ _ _) as [[r1 pri1] h1]. destruct H1 as [He1 Hb1].
  pose proof (fi_match_eqv h h1 pkt (hn_misc t) pri1 He1 (proj1 (proj2 Hd))
    (pos_ok_le _ _ _ _ _ (best_le _ _ _ _ _ Hb1) Hp2)) as H2.
  destruct (fi_match h1 pkt (hn_misc t) pri1) as [[r2 pri2] h2]. destruct H2 as [He2 Hb2].
  split; [done|]. eapply best_ext; [|done|exact (best_seq _ _ _ _ _ _ _ _ Hb1 Hb2)].
  intros x. unfold hash_flows. rewrite (disp_cand (hc_key K) h pkt _ _ hash_keys) by done.
  unfold misc_cand, hash_keys. naive_solver.
Qed.

Lemma hash_find_law h t r :
  hash_wf h t -> match_list_ok (ml h r) ->
  match hash_find h t r with
  | Some x => x ∈ hash_flows t /\ flow_compare (h !!! r) (h !!! x) = true
  | None => forall x, x ∈ hash_flows t -> flow_compare (h !!! r) (h !!! x) = false
  end.
Proof.
  intros (Ho & Hd & _) Hok. unfold hash_find. destruct (hc_key K (ml h r)) as [k|] eqn:Hk.
  - rewrite s_find_snd by done. by apply (disp_find_table (hc_key K)).
  - by apply (disp_find_misc (hc_key K)).
Qed.

#[global, refine] Instance hash_spec : FlowinfoSpec (hash_node K A B) := {
  fi_flows := hash_flows;
  fi_wf := hash_wf;
  fi_accepts _ _ := True;
  fi_admits := disp_admits (A := A) (B := B) (hc_key K) hash_keys;
  fi_needs_pos := disp_needs_pos (A := A) (B := B) (hc_key K)
}.
Proof.
  - intros h h' t Hk (Ho & Hd & Hn). split_and!; [done| |done]. exact (disp_wf_ext (hc_key K) h h' _ _ Hk Hd).
  - intros h t r (_ & Hd & _) Hr. exact (disp_wf_ok (hc_key K) h _ _ r Hd Hr).
  - intros h t (_ & _ & Hn). exact Hn.
  - intros h t r Hwf Hok _. destruct (hash_add_law h t r Hwf Hok) as (t' & f' & H1 & H2 & H3 & H4).
    exists t', f'. by split_and!.
  - intros h t r Hwf Hr. destruct (hash_del_law h t r Hwf Hr) as (t' & H1 & H2 & H3).
    exists t'. by split_and!.
  - intros h pkt t pri. apply hash_match_law.
  - intros h t r. apply hash_find_law.
Defined.

#[global] Instance hash_empty : FlowinfoEmpty (fi_new : hash_node K A B).
Proof.
  assert (disp_flows (A := A) (∅ : gmap Z A) (fi_new : B) = []) as Hf.
  { unfold disp_flows. by rewrite table_flows_empty, fe_flows. }
  split; [|exact Hf]. intros h. split; [done|]. split.
  - split; [exact (table_wf_empty (hc_key K) h)|]. split; [apply fe_wf|]. split; [|intros; apply accepts_all].
    intros r Hr. change (r ∈ fi_flows (fi_new : B)) in Hr. rewrite fe_flows in Hr.
    by apply elem_of_nil in Hr.
  - change (0 = Z.of_nat (length (disp_flows (∅ : gmap Z A) (fi_new : B)))). by rewrite Hf.
Qed.

#[global] Instance hash_accepts_all : AcceptsAll (hash_node K A B).
Proof. by intros ??. Qed.
End HashNodeSpec.

(** ** Key nodes *)

(** [get_match_*] gives the value and the mask of a field (all ones without a mask);
    [kc_pkt] is the field in the packet.  [kc_check] tells whether deleting looks at the
    result of the child ([del_flow_metadata] does, [del_flow_ipv4_dst] and [_src] do not). *)
Record key_class := KeyClass {
  kc_get : list match_ -> option (Z * Z);
  kc_pkt : lagopus_packet -> Z;
  kc_check : bool
}.

Record key_node (K : key_class) (C : Type) := KeyNode {
  kn_nflow : Z;
  kn_userdata : Z;
  kn_hashmap : hashmap C
}.
Arguments KeyNode {K C} _ _ _.
Arguments kn_nflow {K C} _.
Arguments kn_userdata {K C} _.
Arguments kn_hashmap {K C} _.

Section KeyNode.
Context {K : key_class} {C : Type} `{!FlowinfoOps C, !FlowinfoNew C}.

Definition new_key_node (mask : Z) : key_node K C := KeyNode 0 mask (lagopus_hashmap_create true).

Definition key_add (h : flow_heap) (self : key_node K C) (flow : ref)
    : lagopus_result * key_node K C * flow_heap :=
  match kc_get K (ml h flow) with
  | Some (value, mask) =>
      match find_or_new (kn_hashmap self) value with
      | (LAGOPUS_RESULT_OK, hm) =>
          match m_hashtable hm !! value with
          | Some flowinfo =>
              let '(rv, flowinfo, h) := fi_add h flowinfo flow in
              (rv, KeyNode (inc_ok rv (kn_nflow self)) (kn_userdata self)
                     (hm_store hm value flowinfo), h)
          | None => (LAGOPUS_RESULT_ANY_FAILURES, self, h)
          end
      | (rv, hm) => (rv, KeyNode (kn_nflow self) (kn_userdata self) hm, h)
      end
  | None => (LAGOPUS_RESULT_NOT_FOUND, self, h)
  end.

Definition key_del (h : flow_heap) (self : key_node K C) (flow : ref)
    : lagopus_result * key_node K C :=
  match kc_get K (ml h flow) with
  | Some (value, mask) =>
      match s_find (kn_hashmap self) value with
      | (LAGOPUS_RESULT_OK, Some flowinfo) =>
          let '(child_rv, flowinfo) := fi_del h flowinfo flow in
          let rv := if kc_check K then child_rv else LAGOPUS_RESULT_OK in
          (rv, KeyNode (dec_ok rv (kn_nflow self)) (kn_userdata self)
                 (hm_store (kn_hashmap self) value flowinfo))
      | (rv, _) => (rv, self)
      end
  | None => (LAGOPUS_RESULT_NOT_FOUND, self)
  end.

Definition key_match (h : flow_heap) (pkt : lagopus_packet) (self : key_node K C) (pri : Z)
    : option ref * Z * flow_heap :=
  child_match h pkt
    (s_find (kn_hashmap self) (Z.land (kc_pkt K pkt) (kn_userdata self))).2 pri.

(** The node has no [misc], which a flow without the field would be looked for in. *)
Definition key_find (h : flow_heap) (self : key_node K C) (flow : ref) : option ref :=
  match kc_get K (ml h flow) with
  | Some (value, mask) =>
      (s_find (kn_hashmap self) value).2 ≫= (fun flowinfo => fi_find h flowinfo flow)
  | None => None
  end.

#[global] Instance key_ops : FlowinfoOps (key_node K C) := {
  fi_nflow := kn_nflow;
  fi_add := key_add;
  fi_del := key_del;
  fi_match := key_match;
  fi_find := key_find
}.
End KeyNode.

Class KeyClassOk (K : key_class) : Prop := kc_get_proper :: Proper (ml_eq ==> eq) (kc_get K).

Section KeyNodeSpec.
Context {K : key_class} {C : Type} `{!KeyClassOk K}.
Context `{!FlowinfoOps C, !FlowinfoSpec C, !FlowinfoNew C, !FlowinfoEmpty (fi_new : C)}.
Context `{!AcceptsAll C}.

Definition kc_value (ms : list match_) : option Z := fst <$> kc_get K ms.

#[local] Instance kc_value_proper : Proper (ml_eq ==> eq) kc_value.
Proof. intros ms ms' Heq. unfold kc_value. by rewrite Heq. Qed.

Definition key_flows (t : key_node K C) : list ref := table_flows (m_hashtable (kn_hashmap t)).

Definition key_wf (h : flow_heap) (t : key_node K C) : Prop :=
  m_is_operational (kn_hashmap t) = true /\
  table_wf kc_value h (m_hashtable (kn_hashmap t)) /\
  (forall r, r ∈ key_flows t -> exists v, kc_get K (ml h r) = Some (v, kn_userdata t)) /\
  kn_nflow t = Z.of_nat (length (key_flows t)).

Definition key_admits (pkt : lagopus_packet) (ms : list match_) : Prop :=
  match kc_get K ms with
  | Some (v, mask) => Z.land (kc_pkt K pkt) mask = v /\ fi_admits (A := C) pkt ms
  | None => False
  end.

Lemma kc_value_get ms v mask : kc_get K ms = Some (v, mask) -> kc_value ms = Some v.
Proof. intros E. unfold kc_value. by rewrite E. Qed.

Lemma kc_get_added (h : flow_heap) r f' x :
  added (h !!! r) f' -> kc_get K (ml (<[r := f']> h) x) = kc_get K (ml h x).
Proof.
  intros Ha. pose proof (same_key_ml _ _ (added_heap_key h r f' x Ha)) as E.
  unfold ml. by rewrite E.
Qed.

Lemma key_add_law h t r v :
  key_wf h t -> match_list_ok (ml h r) -> kc_get K (ml h r) = Some (v, kn_userdata t) ->
  exists t' f', key_add h t r = (LAGOPUS_RESULT_OK, t', <[r := f']> h) /\
    added (h !!! r) f' /\ key_wf (<[r := f']> h) t' /\
    key_flows t' ≡ₚ r :: key_flows t /\ kn_userdata t' = kn_userdata t.
Proof.
  intros (Ho & Hd & Hm & Hn) Hok Hk. unfold key_add. rewrite Hk.
  destruct (find_or_new_law (kn_hashmap t) v Ho) as [n ->]. cbn [m_hashtable].
  assert (exists c, table_or_new (m_hashtable (kn_hashmap t)) v fi_new !! v = Some c /\
    table_wf kc_value h (table_or_new (m_hashtable (kn_hashmap t)) v fi_new) /\
    table_flows (table_or_new (m_hashtable (kn_hashmap t)) v fi_new) ≡ₚ key_flows t)
    as (c & Hc & Hwf & Hp).
  { unfold table_or_new. destruct (m_hashtable (kn_hashmap t) !! v) as [c|] eqn:E; [by eauto|].
    rewrite lookup_insert_eq. eexists. split; [done|].
    apply table_new_law; [apply _|apply _|done|done|intros; apply accepts_all]. }
  rewrite Hc.
  destruct (table_add_law kc_value h _ v c r Hwf Hc Hok (kc_value_get _ _ _ Hk))
    as (c' & f' & -> & Ha & Hwf' & Hp').
  rewrite Hp in Hp'. eexists _, f'. split; [reflexivity|]. split; [done|].
  split; [|split; [exact Hp'|done]]. split_and!; [done|exact Hwf'| |].
  - unfold key_flows. cbn [kn_hashmap kn_userdata hm_store m_hashtable]. intros x. rewrite Hp', kc_get_added by done.
    intros [->|Hx]%elem_of_cons; [eauto|by apply Hm].
  - unfold key_flows at 1. cbn [kn_nflow kn_hashmap hm_store m_hashtable].
    rewrite (Permutation_length Hp'), Hn. cbn [inc_ok is_ok length]. lia.
Qed.

Lemma key_del_law h t r :
  key_wf h t -> r ∈ key_flows t ->
  exists t', key_del h t r = (LAGOPUS_RESULT_OK, t') /\ key_wf h t' /\
    key_flows t ≡ₚ r :: key_flows t' /\ kn_userdata t' = kn_userdata t.
Proof.
  intros (Ho & Hd & Hm & Hn) Hr. destruct (Hm r Hr) as [v Hk]. unfold key_del. rewrite Hk.
  destruct (table_del_law kc_value h _ v r Hd Hr (kc_value_get _ _ _ Hk))
    as (c & c' & Hc & E & Hwf & Hp).
  unfold s_find. rewrite Ho, Hc, E.
  replace (if kc_check K then LAGOPUS_RESULT_OK else LAGOPUS_RESULT_OK) with LAGOPUS_RESULT_OK
    by by destruct (kc_check K).
  eexists. split; [reflexivity|]. split; [|split; [exact Hp|done]].
  split_and!; [done|exact Hwf| |]; unfold key_flows in *.
  - cbn [kn_hashmap kn_userdata hm_store m_hashtable]. intros x Hx. apply Hm. rewrite Hp. by right.
  - cbn [kn_nflow kn_hashmap hm_store m_hashtable].
    rewrite (Permutation_length Hp) in Hn. rewrite Hn. cbn [dec_ok is_ok length]. lia.
Qed.

Lemma key_match_law h pkt t pri :
  key_wf h t ->
  (0 <= pri \/ forall r, r ∈ key_flows t -> true = true -> 0 < prio h r) ->
  let '(r, pri', h') := key_match h pkt t pri in
  heap_eqv h h' /\
  best (fun x => x ∈ key_flows t /\ key_admits pkt (ml h x) /\
                 match_byteoff pkt (h !!! x) = true) (prio h) pri r pri'.
Proof.
  intros (Ho & Hd & Hm & _) Hpos. unfold key_match. rewrite s_find_snd by done.
  assert (pos_ok h (key_flows t) (fi_needs_pos (A := C)) pri) as Hp
    by (destruct Hpos as [|Hpos]; [by left|right; auto]).
  pose proof (table_match_law kc_value h h pkt _ (Z.land (kc_pkt K pkt) (kn_userdata t)) pri
    ltac:(done) Hd Hp) as H1.
  destruct (child_match _ _ _ _) as [[r pri'] h']. destruct H1 as [He Hb].
  split; [done|]. eapply best_ext; [|done|exact Hb].
  intros x. unfold table_cand, key_admits. split.
  - intros (Hx & Hk & Ha & Hmx). split_and!; [done| |done].
    destruct (Hm x Hx) as [v Hv]. rewrite Hv. rewrite (kc_value_get _ _ _ Hv) in Hk.
    by simplify_eq.
  - intros (Hx & Ha & Hmx). destruct (Hm x Hx) as [v Hv]. rewrite Hv in Ha.
    destruct Ha as [<- Ha]. split_and!; [done|by eapply kc_value_get|done|done].
Qed.

Lemma key_find_law h t r :
  key_wf h t -> match_list_ok (ml h r) ->
  match key_find h t r with
  | Some x => x ∈ key_flows t /\ flow_compare (h !!! r) (h !!! x) = true
  | None => forall x, x ∈ key_flows t -> flow_compare (h !!! r) (h !!! x) = false
  end.
Proof.
  intros (Ho & Hd & _) Hok. unfold key_find.
  destruct (kc_get K (ml h r)) as [[v mask]|] eqn:Hk.
  - rewrite s_find_snd by done. apply (table_find_law kc_value h _ v r Hd Hok).
    by eapply kc_value_get.
  - apply (table_find_other kc_value h _ r Hd Hok). unfold kc_value. by rewrite Hk.
Qed.

#[global, refine] Instance key_spec : FlowinfoSpec (key_node K C) := {
  fi_flows := key_flows;
  fi_wf := key_wf;
  fi_accepts t ms := exists v, kc_get K ms = Some (v, kn_userdata t);
  fi_admits := key_admits;
  fi_needs_pos _ := true
}.
Proof.
  - intros t ms ms' Heq. by setoid_rewrite Heq.
  - intros pkt ms ms' Heq. unfold key_admits. rewrite <- Heq.
    destruct (kc_get K ms) as [[v mask]|]; [by rewrite Heq|done].
  - intros h h' t Hk (Ho & Hd & Hm & Hn). split_and!; [done| | |done].
    + exact (table_wf_ext kc_value h h' _ Hk Hd).
    + intros r Hr. pose proof (same_key_ml _ _ (Hk r Hr)) as E. destruct (Hm r Hr) as [v Hv].
      exists v. unfold ml in *. by rewrite <- E.
  - intros h t r (_ & Hd & _) Hr. exact (table_wf_ok kc_value h _ r Hd Hr).
  - intros h t (_ & _ & _ & Hn). exact Hn.
  - intros h t r Hwf Hok [v Hv].
    destruct (key_add_law h t r v Hwf Hok Hv) as (t' & f' & H1 & H2 & H3 & H4 & H5).
    exists t', f'. split_and!; [done|done|done|done|]. by rewrite H5.
  - intros h t r Hwf Hr. destruct (key_del_law h t r Hwf Hr) as (t' & H1 & H2 & H3 & H4).
    exists t'. split_and!; [done|done|done|]. by rewrite H4.
  - intros h pkt t pri. apply key_match_law.
  - intros h t r. apply key_find_law.
Defined.

#[global] Instance key_empty mask : FlowinfoEmpty (new_key_node mask : key_node K C).
Proof.
  split; [|apply table_flows_empty]. intros h.
  split; [done|]. split; [exact (table_wf_empty kc_value h)|].
  unfold key_flows. cbn [kn_hashmap new_key_node lagopus_hashmap_create m_hashtable kn_nflow].
  rewrite table_flows_empty. split; [|done]. intros r Hr. by apply elem_of_nil in Hr.
Qed.
End KeyNodeSpec.

(** ** Protocol nodes *)

(** The array of 256 children is a map from the index; all of them exist from the start. *)
Record proto_node (A : Type) := ProtoNode {
  pn_nflow : Z;
  pn_next : gmap Z A;
  pn_misc : A
}.
Arguments ProtoNode {A} _ _ _.
Arguments pn_nflow {A} _.
Arguments pn_next {A} _.
Arguments pn_misc {A} _.

Definition is_ip_proto (m : match_) : bool := OXM_FIELD_TYPE (oxm_field m) =? OFPXMT_OFB_IP_PROTO.

(** [get_match_ip_proto]: the protocol of the first such match. *)
Definition get_match_ip_proto (ms : list match_) : option Z :=
  (fun m => rd8 (oxm_value m) 0) <$> find is_ip_proto ms.

Section ProtoNode.
Context {A : Type} `{!FlowinfoOps A, !FlowinfoNew A}.

Definition new_proto_node : proto_node A :=
  ProtoNode 0 (list_to_map ((fun proto => (proto, fi_new)) <$> seqZ 0 256)) fi_new.

Definition proto_add (h : flow_heap) (self : proto_node A) (flow : ref)
    : lagopus_result * proto_node A * flow_heap :=
  match get_match_ip_proto (ml h flow) with
  | Some proto =>
      let h := mark_flow is_ip_proto h flow in
      match pn_next self !! proto with
      | Some flowinfo =>
          let '(rv, flowinfo, h) := fi_add h flowinfo flow in
          (rv, ProtoNode (inc_ok rv (pn_nflow self)) (<[proto := flowinfo]> (pn_next self))
                 (pn_misc self), h)
      | None => (LAGOPUS_RESULT_ANY_FAILURES, self, h)
      end
  | None =>
      let '(rv, misc, h) := fi_add h (pn_misc self) flow in
      (rv, ProtoNode (inc_ok rv (pn_nflow self)) (pn_next self) misc, h)
  end.

Definition proto_del (h : flow_heap) (self : proto_node A) (flow : ref)
    : lagopus_result * proto_node A :=
  match get_match_ip_proto (ml h flow) with
  | Some proto =>
      match pn_next self !! proto with
      | Some flowinfo =>
          let '(rv, flowinfo) := fi_del h flowinfo flow in
          (rv, ProtoNode (dec_ok rv (pn_nflow self)) (<[proto := flowinfo]> (pn_next self))
                 (pn_misc self))
      | None => (LAGOPUS_RESULT_ANY_FAILURES, self)
      end
  | None =>
      let '(rv, misc) := fi_del h (pn_misc self) flow in
      (rv, ProtoNode (dec_ok rv (pn_nflow self)) (pn_next self) misc)
  end.

(** [*pkt->proto] *)
Definition pkt_proto (pkt : lagopus_packet) : Z := rd8 (base_bytes pkt IPPROTO_BASE) 0.

Definition proto_match (h : flow_heap) (pkt : lagopus_packet) (self : proto_node A) (pri : Z)
    : option ref * Z * flow_heap :=
  let '(flow, pri, h) := child_match h pkt (pn_next self !! pkt_proto pkt) pri in
  let '(alt_flow, pri, h) := fi_match h pkt (pn_misc self) pri in
  (over alt_flow flow, pri, h).

Definition proto_find (h : flow_heap) (self : proto_node A) (flow : ref) : option ref :=
  match get_match_ip_proto (ml h flow) with
  | Some proto => pn_next self !! proto ≫= (fun flowinfo => fi_find h flowinfo flow)
  | None => fi_find h (pn_misc self) flow
  end.

#[global] Instance proto_new : FlowinfoNew (proto_node A) := new_proto_node.

#[global] Instance proto_ops : FlowinfoOps (proto_node A) := {
  fi_nflow := pn_nflow;
  fi_add := proto_add;
  fi_del := proto_del;
  fi_match := proto_match;
  fi_find := proto_find
}.
End ProtoNode.

(** A key read from the first match that satisfies a test on the identity of matches. *)
Lemma find_key_proper {X} (p : match_ -> bool) (g : match_ -> X) :
  (forall m m', match_id m = match_id m' -> p m = p m' /\ g m = g m') ->
  Proper (ml_eq ==> eq) (fun ms => g <$> find p ms).
Proof.
  intros Hp ms ms' Heq.
  pose proof (find_ml_eq p ms ms' (fun m m' E => proj1 (Hp m m' E)) Heq) as E.
  destruct (find p ms) as [m|], (find p ms') as [m'|]; cbn in *; try done.
  f_equal. apply Hp. unfold match_id in *. congruence.
Qed.

#[global] Instance get_match_ip_proto_proper : Proper (ml_eq ==> eq) get_match_ip_proto.
Proof.
  apply find_key_proper. intros m m' E. injection E as H1 H2 H3 H4.
  unfold is_ip_proto. by rewrite H2, H4.
Qed.

Lemma get_match_ip_proto_range ms p :
  match_list_ok ms -> get_match_ip_proto ms = Some p -> 0 <= p < 256.
Proof.
  intros Hok. unfold get_match_ip_proto. destruct (find is_ip_proto ms) as [m|] eqn:E; [|done].
  cbn. intros [= <-]. apply find_some in E as [Hm%list_elem_of_In _].
  unfold match_list_ok in Hok. rewrite Forall_forall in Hok. destruct (Hok m Hm) as [_ Hb].
  by apply rd8_range.
Qed.

Section ProtoNodeSpec.
Context {A : Type}.
Context `{!FlowinfoOps A, !FlowinfoSpec A, !FlowinfoNew A, !FlowinfoEmpty (fi_new : A)}.
Context `{!AcceptsAll A}.

Definition proto_flows (t : proto_node A) : list ref := disp_flows (pn_next t) (pn_misc t).

Definition proto_wf (h : flow_heap) (t : proto_node A) : Prop :=
  disp_wf get_match_ip_proto h (pn_next t) (pn_misc t) /\
  (forall p, 0 <= p < 256 -> is_Some (pn_next t !! p)) /\
  pn_nflow t = Z.of_nat (length (proto_flows t)).

Lemma proto_wf_nflow h n m b m' b' r :
  n = Z.of_nat (length (disp_flows m b)) ->
  disp_wf get_match_ip_proto h m' b' -> (forall p, 0 <= p < 256 -> is_Some (m' !! p)) ->
  disp_flows m' b' ≡ₚ r :: disp_flows (A := A) (B := A) m b ->
  proto_wf h (ProtoNode (inc_ok LAGOPUS_RESULT_OK n) m' b').
Proof.
  intros Hn Hd Hall Hp. split; [exact Hd|]. split; [exact Hall|].
  unfold proto_flows. cbn [pn_nflow pn_next pn_misc]. rewrite (Permutation_length Hp), Hn.
  cbn [inc_ok is_ok length]. lia.
Qed.

Lemma proto_all_insert (m : gmap Z A) k c :
  (forall p, 0 <= p < 256 -> is_Some (m !! p)) ->
  forall p, 0 <= p < 256 -> is_Some (<[k := c]> m !! p).
Proof. intros Hall p Hp. rewrite lookup_insert_is_Some'. right. by apply Hall. Qed.

Lemma proto_add_law h t r :
  proto_wf h t -> match_list_ok (ml h r) ->
  exists t' f', proto_add h t r = (LAGOPUS_RESULT_OK, t', <[r := f']> h) /\
    added (h !!! r) f' /\ proto_wf (<[r := f']> h) t' /\ proto_flows t' ≡ₚ r :: proto_flows t.
Proof.
  intros (Hd & Hall & Hn) Hok. unfold proto_add.
  destruct (get_match_ip_proto (ml h r)) as [p|] eqn:Hk.
  - set (fm := set_fl_match_list (set_except_flag is_ip_proto (fl_match_list (h !!! r))) (h !!! r)).
    change (mark_flow is_ip_proto h r) with (<[r := fm]> h).
    assert (forall x, same_key (h !!! x) (<[r := fm]> h !!! x)) as Hsame.
    { intros x. destruct (decide (x = r)) as [->|]; [|by rewrite lookup_total_insert_ne].
      rewrite lookup_total_insert_eq. split_and!; [done|done|]. symmetry. apply set_except_flag_eq. }
    destruct (Hall p (get_match_ip_proto_range _ _ Hok Hk)) as [c Hc]. rewrite Hc.
    assert (ml_eq (ml h r) (ml (<[r := fm]> h) r)) as Hml by apply same_key_ml, Hsame.
    destruct (disp_add_table get_match_ip_proto (<[r := fm]> h) (pn_next t) (pn_misc t) p c r)
      as (c' & f' & -> & Ha & Hwf & Hp).
    { apply (disp_wf_ext get_match_ip_proto h); auto. }
    { done. }
    { by rewrite <- Hml. }
    { by rewrite <- Hml. }
    rewrite lookup_total_insert_eq in Ha. rewrite insert_insert_eq in Hwf.
    eexists _, f'. split; [by rewrite insert_insert_eq|]. split; [by eapply added_mark_before|].
    split; [|exact Hp]. eapply proto_wf_nflow; [exact Hn|exact Hwf|by apply proto_all_insert|exact Hp].
  - destruct (disp_add_misc get_match_ip_proto h _ _ r Hd Hok Hk) as (b' & f' & -> & Ha & Hwf & Hp).
    eexists _, f'. split; [reflexivity|]. split; [done|]. split; [|exact Hp].
    by eapply proto_wf_nflow.
Qed.

Lemma proto_del_law h t r :
  proto_wf h t -> r ∈ proto_flows t ->
  exists t', proto_del h t r = (LAGOPUS_RESULT_OK, t') /\ proto_wf h t' /\
    proto_flows t ≡ₚ r :: proto_flows t'.
Proof.
  intros (Hd & Hall & Hn) Hr. unfold proto_del.
  assert (forall m b, proto_flows t ≡ₚ r :: disp_flows m b ->
    dec_ok LAGOPUS_RESULT_OK (pn_nflow t) = Z.of_nat (length (disp_flows (A := A) (B := A) m b))) as Hdec.
  { intros m b Hp. rewrite (Permutation_length Hp) in Hn. rewrite Hn. cbn [dec_ok is_ok length]. lia. }
  destruct (get_match_ip_proto (ml h r)) as [p|] eqn:Hk.
  - destruct (disp_del_table get_match_ip_proto h _ _ p r Hd Hr Hk) as (c & c' & Hc & E & Hwf & Hp).
    rewrite Hc, E. eexists. split; [reflexivity|]. split; [|exact Hp].
    split_and!; [exact Hwf|by apply proto_all_insert|by apply Hdec].
  - destruct (disp_del_misc get_match_ip_proto h _ _ r Hd Hr Hk) as (b' & E & Hwf & Hp).
    rewrite E. eexists. split; [reflexivity|]. split; [|exact Hp].
    split_and!; [exact Hwf|exact Hall|by apply Hdec].
Qed.

Definition proto_keys (pkt : lagopus_packet) (k : Z) : Prop := k = pkt_proto pkt.

Lemma proto_match_law h pkt t pri :
  proto_wf h t ->
  pos_ok h (proto_flows t) (disp_needs_pos (A := A) (B := A) get_match_ip_proto) pri ->
  let '(r, pri', h') := proto_match h pkt t pri in
  heap_eqv h h' /\
  best (fun x => x ∈ proto_flows t /\
         disp_admits (A := A) (B := A) get_match_ip_proto proto_keys pkt (ml h x) /\
         match_byteoff pkt (h !!! x) = true) (prio h) pri r pri'.
Proof.
  intros (Hd & _) Hpos. unfold proto_match.
  pose proof (disp_pos_table _ _ _ _ _ Hd Hpos) as Hp1.
  pose proof (disp_pos_misc _ _ _ _ _ Hd Hpos) as Hp2.
  pose proof (table_match_law get_match_ip_proto h h pkt (pn_next t) (pkt_proto pkt) pri
    ltac:(done) (proj1 Hd) Hp1) as H1.
  destruct (child_match _ _ _ _) as [[r1 pri1] h1]. destruct H1 as [He1 Hb1].
  pose proof (fi_match_eqv h h1 pkt (pn_misc t) pri1 He1 (proj1 (proj2 Hd))
    (pos_ok_le _ _ _ _ _ (best_le _ _ _ _ _ Hb1) Hp2)) as H2.
  destruct (fi_match h1 pkt (pn_misc t) pri1) as [[r2 pri2] h2]. destruct H2 as [He2 Hb2].
  split; [done|]. eapply best_ext; [|done|exact (best_seq _ _ _ _ _ _ _ _ Hb1 Hb2)].
  intros x. unfold proto_flows. rewrite (disp_cand get_match_ip_proto h pkt _ _ proto_keys) by done.
  unfold misc_cand, proto_keys. naive_solver.
Qed.

#[global, refine] Instance proto_spec : FlowinfoSpec (proto_node A) := {
  fi_flows := proto_flows;
  fi_wf := proto_wf;
  fi_accepts _ _ := True;
  fi_admits := disp_admits (A := A) (B := A) get_match_ip_proto proto_keys;
  fi_needs_pos := disp_needs_pos (A := A) (B := A) get_match_ip_proto
}.
Proof.
  - intros h h' t Hk (Hd & Ha & Hn). split_and!; [|done|done].
    exact (disp_wf_ext get_match_ip_proto h h' _ _ Hk Hd).
  - intros h t r (Hd & _) Hr. exact (disp_wf_ok get_match_ip_proto h _ _ r Hd Hr).
  - intros h t (_ & _ & Hn). exact Hn.
  - intros h t r Hwf Hok _. destruct (proto_add_law h t r Hwf Hok) as (t' & f' & H1 & H2 & H3 & H4).
    exists t', f'. by split_and!.
  - intros h t r Hwf Hr. destruct (proto_del_law h t r Hwf Hr) as (t' & H1 & H2 & H3).
    exists t'. by split_and!.
  - intros h pkt t pri. apply proto_match_law.
  - intros h t r (Hd & _) Hok. cbn [fi_find proto_ops]. unfold proto_find.
    destruct (get_match_ip_proto (ml h r)) as [p|] eqn:Hk.
    + by apply (disp_find_table get_match_ip_proto).
    + by apply (disp_find_misc get_match_ip_proto).
Defined.

Lemma proto_array_lookup p (c : A) :
  (list_to_map ((fun proto => (proto, fi_new)) <$> seqZ 0 256) : gmap Z A) !! p = Some c ->
  c = fi_new.
Proof.
  intros Hc%elem_of_list_to_map_2. apply list_elem_of_fmap in Hc as (q & Hq & _). by simplify_eq.
Qed.

#[global] Instance proto_empty : FlowinfoEmpty (fi_new : proto_node A).
Proof.
  set (m := list_to_map ((fun proto => (proto, fi_new)) <$> seqZ 0 256) : gmap Z A).
  assert (table_flows m = []) as Hm.
  { destruct (table_flows m) as [|r l] eqn:E; [done|].
    assert (r ∈ table_flows m) as Hr by (rewrite E; by left).
    apply elem_of_table_flows in Hr as (k & c & Hk & Hr).
    rewrite (proto_array_lookup k c Hk), fe_flows in Hr. by apply elem_of_nil in Hr. }
  assert (disp_flows m (fi_new : A) = []) as Hf by (unfold disp_flows; by rewrite Hm, fe_flows).
  split; [|exact Hf]. intros h. split; [|split].
  - split; [|split; [apply fe_wf|split; [|intros; apply accepts_all]]].
    + intros k c Hk%proto_array_lookup. subst c. split; [apply fe_wf|]. split.
      * intros r Hr. rewrite fe_flows in Hr. by apply elem_of_nil in Hr.
      * intros. apply accepts_all.
    + intros r Hr. change (r ∈ fi_flows (fi_new : A)) in Hr. rewrite fe_flows in Hr.
      by apply elem_of_nil in Hr.
  - intros p Hp. change (is_Some (m !! p)). exists fi_new. apply elem_of_list_to_map_1.
    + rewrite <- list_fmap_compose. rewrite (list_fmap_ext _ id), list_fmap_id; [|done].
      apply NoDup_seqZ.
    + apply list_elem_of_fmap. exists p. split; [done|]. apply elem_of_seqZ. lia.
  - change (0 = Z.of_nat (length (disp_flows m (fi_new : A)))). by rewrite Hf.
Qed.

#[global] Instance proto_accepts_all : AcceptsAll (proto_node A).
Proof. by intros ??. Qed.
End ProtoNodeSpec.
