(* ===== verification/FlowinfoMask.v ===== *)
(** * Mask nodes

    [*_mask] of [flowinfo_metadata.c], [flowinfo_ipv4_dst.c] and [flowinfo_ipv4_src.c]: an array
    with one key node per mask, every one of which is asked for a packet, and a
    [misc] node for the flows without the field.  The best flow of the key nodes is
    picked against a stack-allocated "mismatched" flow of priority 0, so a flow of
    priority 0 is never picked; the law of matching asks for positive priorities
    below a mask node unless the search starts from priority 0 or above. *)
From S2P Require Import Prelude OpenFlow Packet FlowEntry ByteMatch Hashmap FlowinfoIntf FlowinfoTable FlowinfoNodes.

Record mask_node (K : key_class) (C B : Type) := MaskNode {
  mn_nflow : Z;
  mn_next : list (key_node K C);
  mn_misc : B
}.
Arguments MaskNode {K C B} _ _ _.
Arguments mn_nflow {K C B} _.
Arguments mn_next {K C B} _.
Arguments mn_misc {K C B} _.

Section MaskNode.
Context {K : key_class} {C B : Type}.
Context `{!FlowinfoOps C, !FlowinfoNew C, !FlowinfoOps B, !FlowinfoNew B}.

Definition new_mask_node : mask_node K C B := MaskNode 0 [] fi_new.

(** The loop that looks for the child of a mask. *)
Definition mask_index (next : list (key_node K C)) (mask : Z) : option nat :=
  fst <$> list_find (fun n => kn_userdata n = mask) next.

Definition mask_add (h : flow_heap) (self : mask_node K C B) (flow : ref)
    : lagopus_result * mask_node K C B * flow_heap :=
  match kc_get K (ml h flow) with
  | Some (value, mask) =>
      let '(i, next) :=
        match mask_index (mn_next self) mask with
        | Some i => (i, mn_next self)
        | None => (length (mn_next self), mn_next self ++ [new_key_node mask])
        end in
      match next !! i with
      | Some flowinfo =>
          let '(rv, flowinfo, h) := fi_add h flowinfo flow in
          (rv, MaskNode (inc_ok rv (mn_nflow self)) (<[i := flowinfo]> next) (mn_misc self), h)
      | None => (LAGOPUS_RESULT_ANY_FAILURES, self, h)
      end
  | None =>
      let '(rv, misc, h) := fi_add h (mn_misc self) flow in
      (rv, MaskNode (inc_ok rv (mn_nflow self)) (mn_next self) misc, h)
  end.

Definition mask_del (h : flow_heap) (self : mask_node K C B) (flow : ref)
    : lagopus_result * mask_node K C B :=
  match kc_get K (ml h flow) with
  | Some (value, mask) =>
      match mask_index (mn_next self) mask with
      | Some i =>
          match mn_next self !! i with
          | Some flowinfo =>
              let '(rv, flowinfo) := fi_del h flowinfo flow in
              let next := if kn_nflow flowinfo =? 0 then remove_at i (mn_next self)
                          else <[i := flowinfo]> (mn_next self) in
              (rv, MaskNode (dec_ok rv (mn_nflow self)) next (mn_misc self))
          | None => (LAGOPUS_RESULT_ANY_FAILURES, self)
          end
      | None => (LAGOPUS_RESULT_NOT_FOUND, self)
      end
  | None =>
      let '(rv, misc) := fi_del h (mn_misc self) flow in
      (rv, MaskNode (dec_ok rv (mn_nflow self)) (mn_next self) misc)
  end.

(** The first loop: [flow[i] = flowinfo->match_func (flowinfo, pkt, pri)]. *)
Fixpoint mask_scan (h : flow_heap) (pkt : lagopus_packet) (next : list (key_node K C)) (pri : Z)
    : list (option ref) * Z * flow_heap :=
  match next with
  | [] => ([], pri, h)
  | flowinfo :: next' =>
      let '(flow, pri, h) := fi_match h pkt flowinfo pri in
      let '(flows, pri, h) := mask_scan h pkt next' pri in
      (flow :: flows, pri, h)
  end.

(** The second loop; [None] stands for the address of [mismatched], whose priority is 0. *)
Definition matched_priority (h : flow_heap) (matched : option ref) : Z :=
  match matched with Some r => prio h r | None => 0 end.

Definition mask_pick (h : flow_heap) (matched : option ref) (flow : option ref) : option ref :=
  match flow with
  | Some r => if matched_priority h matched <? prio h r then Some r else matched
  | None => matched
  end.

Definition mask_match (h : flow_heap) (pkt : lagopus_packet) (self : mask_node K C B) (pri : Z)
    : option ref * Z * flow_heap :=
  let '(flows, pri, h) := mask_scan h pkt (mn_next self) pri in
  let matched := foldl (mask_pick h) None flows in
  let '(alt_flow, pri, h) := fi_match h pkt (mn_misc self) pri in
  (over alt_flow matched, pri, h).

Definition mask_find (h : flow_heap) (self : mask_node K C B) (flow : ref) : option ref :=
  match kc_get K (ml h flow) with
  | Some (value, mask) =>
      match mask_index (mn_next self) mask ≫= (fun i => mn_next self !! i) with
      | Some flowinfo => fi_find h flowinfo flow
      | None => None
      end
  | None => fi_find h (mn_misc self) flow
  end.

#[global] Instance mask_new : FlowinfoNew (mask_node K C B) := new_mask_node.

#[global] Instance mask_ops : FlowinfoOps (mask_node K C B) := {
  fi_nflow := mn_nflow;
  fi_add := mask_add;
  fi_del := mask_del;
  fi_match := mask_match;
  fi_find := mask_find
}.
End MaskNode.

(** ** The array as a table *)
Section MaskTable.
Context {K : key_class} {C : Type}.
Implicit Types (next : list (key_node K C)) (n : key_node K C).

Definition mask_table next : gmap Z (key_node K C) :=
  list_to_map ((fun n => (kn_userdata n, n)) <$> next).

Definition masks_distinct next : Prop := NoDup (kn_userdata <$> next).

Lemma mask_table_lookup next k n :
  masks_distinct next -> mask_table next !! k = Some n <-> n ∈ next /\ kn_userdata n = k.
Proof.
  intros Hd. unfold mask_table. rewrite <- elem_of_list_to_map.
  - rewrite list_elem_of_fmap. split.
    + intros (n' & Hn & Hin). by simplify_eq.
    + intros [Hin <-]. eauto.
  - rewrite <- list_fmap_compose. exact Hd.
Qed.

Lemma masks_distinct_inj next i j n n' :
  masks_distinct next -> next !! i = Some n -> next !! j = Some n' ->
  kn_userdata n = kn_userdata n' -> i = j.
Proof.
  intros Hd Hi Hj Heq. eapply (NoDup_lookup _ i j (kn_userdata n)); [exact Hd| |].
  - by rewrite list_lookup_fmap, Hi.
  - by rewrite list_lookup_fmap, Hj, Heq.
Qed.

Lemma masks_distinct_insert next i n n' :
  masks_distinct next -> next !! i = Some n -> kn_userdata n' = kn_userdata n ->
  masks_distinct (<[i := n']> next).
Proof.
  intros Hd Hi Heq. unfold masks_distinct. rewrite list_fmap_insert, Heq.
  rewrite list_insert_id; [done|]. by rewrite list_lookup_fmap, Hi.
Qed.

Lemma mask_table_insert next i n n' :
  masks_distinct next -> next !! i = Some n -> kn_userdata n' = kn_userdata n ->
  mask_table (<[i := n']> next) = <[kn_userdata n := n']> (mask_table next).
Proof.
  intros Hd Hi Heq. apply map_eq. intros k. apply option_eq. intros x.
  rewrite mask_table_lookup by by eapply masks_distinct_insert.
  rewrite lookup_insert_Some, mask_table_lookup by done. split.
  - intros [[j Hj]%list_elem_of_lookup Hk]. rewrite list_lookup_insert_Some in Hj.
    destruct Hj as [(<- & -> & _)|[Hne Hj]]; [left; by rewrite <- Heq|].
    right. split; [|split; [by eapply list_elem_of_lookup_2|done]].
    intros Hu. apply Hne. eapply masks_distinct_inj; [exact Hd|exact Hi|exact Hj|by rewrite Hk].
  - intros [[<- <-]|(Hne & [j Hj]%list_elem_of_lookup & Hk)].
    + split; [|done]. apply list_elem_of_insert. by eapply lookup_lt_Some.
    + split; [|done]. apply list_elem_of_lookup. exists j.
      rewrite list_lookup_insert_ne; [done|]. intros ->. simplify_eq.
Qed.

Lemma mask_table_snoc next n :
  masks_distinct (next ++ [n]) ->
  mask_table (next ++ [n]) = <[kn_userdata n := n]> (mask_table next).
Proof.
  intros Hd. assert (masks_distinct next) as Hd'.
  { unfold masks_distinct in *. rewrite fmap_app in Hd. by apply NoDup_app in Hd as (? & _). }
  apply map_eq. intros k. apply option_eq. intros x.
  rewrite lookup_insert_Some, !mask_table_lookup by done. rewrite elem_of_app, list_elem_of_singleton.
  split.
  - intros [[Hx| ->] Hk]; [|by left]. right. split; [|done]. intros <-.
    apply list_elem_of_lookup in Hx as [j Hj].
    assert (length next = j) as <-; [|by rewrite lookup_ge_None_2 in Hj by lia].
    eapply (masks_distinct_inj (next ++ [n]) (length next) j n x); [done| | |done].
    + by rewrite lookup_app_r, Nat.sub_diag by lia.
    + by apply lookup_app_l_Some.
  - intros [[<- <-]|(_ & Hx & Hk)]; auto.
Qed.

Lemma masks_distinct_remove next i : masks_distinct next -> masks_distinct (remove_at i next).
Proof.
  unfold masks_distinct, remove_at. intros Hd. rewrite <- (take_drop i next) in Hd.
  rewrite fmap_app in Hd |- *. apply NoDup_app in Hd as (H1 & H2 & H3).
  replace (S i) with (i + 1)%nat by lia. rewrite <- drop_drop, fmap_drop.
  destruct (kn_userdata <$> drop i next) as [|u us]; [by rewrite app_nil_r|].
  apply NoDup_cons in H3 as [_ H3]. apply NoDup_app. split; [done|]. split; [|done].
  intros x Hx Hx'. apply (H2 x Hx). by right.
Qed.

Lemma mask_table_remove next i n :
  masks_distinct next -> next !! i = Some n ->
  mask_table (remove_at i next) = delete (kn_userdata n) (mask_table next).
Proof.
  intros Hd Hi. pose proof (remove_at_perm i n next Hi) as Hp.
  apply map_eq. intros k. apply option_eq. intros x.
  rewrite lookup_delete_Some, !mask_table_lookup by (done || by apply masks_distinct_remove).
  assert (kn_userdata n ∉ kn_userdata <$> remove_at i next) as Hni.
  { unfold masks_distinct in Hd. rewrite Hp in Hd. by apply NoDup_cons in Hd as []. }
  rewrite Hp at 2. rewrite elem_of_cons. split.
  - intros [Hx <-]. split; [|auto]. intros Hu. apply Hni. rewrite Hu. by apply list_elem_of_fmap_2.
  - intros (Hne & [->|Hx] & Hk); [by destruct Hne|done].
Qed.

Lemma mask_index_Some next mask i :
  mask_index next mask = Some i ->
  exists n, next !! i = Some n /\ kn_userdata n = mask.
Proof.
  unfold mask_index. intros ([j n] & Hf & ->)%fmap_Some. cbn [fst].
  apply list_find_Some in Hf as (Hn & Hm & _). eauto.
Qed.

Lemma mask_index_None next mask n :
  mask_index next mask = None -> n ∈ next -> kn_userdata n <> mask.
Proof.
  unfold mask_index. intros Hf%fmap_None Hn. apply list_find_None in Hf.
  rewrite Forall_forall in Hf. by apply Hf.
Qed.
End MaskTable.

(** ** The mask node meets the interface *)
Section MaskNodeSpec.
Context {K : key_class} {C B : Type} `{!KeyClassOk K}.
Context `{!FlowinfoOps C, !FlowinfoSpec C, !FlowinfoNew C, !FlowinfoEmpty (fi_new : C)}.
Context `{!FlowinfoOps B, !FlowinfoSpec B, !FlowinfoNew B, !FlowinfoEmpty (fi_new : B)}.
Context `{!AcceptsAll C, !AcceptsAll B}.

Definition kc_mask (ms : list match_) : option Z := snd <$> kc_get K ms.

#[local] Instance kc_mask_proper : Proper (ml_eq ==> eq) kc_mask.
Proof. intros ms ms' Heq. unfold kc_mask. by rewrite Heq. Qed.

Definition mask_flows (t : mask_node K C B) : list ref :=
  disp_flows (mask_table (mn_next t)) (mn_misc t).

Definition mask_wf (h : flow_heap) (t : mask_node K C B) : Prop :=
  disp_wf kc_mask h (mask_table (mn_next t)) (mn_misc t) /\
  masks_distinct (mn_next t) /\ mn_nflow t = Z.of_nat (length (mask_flows t)).

Definition mask_keys (pkt : lagopus_packet) (k : Z) : Prop := True.

Definition mask_needs_pos (ms : list match_) : bool :=
  disp_needs_pos (A := key_node K C) (B := B) kc_mask ms.

Lemma kc_mask_get ms v mask : kc_get K ms = Some (v, mask) -> kc_mask ms = Some mask.
Proof. intros E. unfold kc_mask. by rewrite E. Qed.

(** The child that an addition goes to, and the array it is found in. *)
Lemma mask_child h t mask :
  mask_wf h t ->
  let '(i, next) :=
    match mask_index (mn_next t) mask with
    | Some i => (i, mn_next t)
    | None => (length (mn_next t), mn_next t ++ [new_key_node mask])
    end in
  exists n, next !! i = Some n /\ kn_userdata n = mask /\ masks_distinct next /\
    disp_wf kc_mask h (mask_table next) (mn_misc t) /\
    disp_flows (mask_table next) (mn_misc t) ≡ₚ mask_flows t.
Proof.
  intros (Hd & Hm & Hn). destruct (mask_index (mn_next t) mask) as [i|] eqn:Ei.
  - apply mask_index_Some in Ei as (n & Hi & Hu). exists n. by split_and!.
  - exists (new_key_node mask).
    assert (mask_table (mn_next t) !! mask = None) as Hnone.
    { apply eq_None_not_Some. intros [n Hk]. apply mask_table_lookup in Hk as [Hin Hu]; [|done].
      by apply (mask_index_None _ _ n Ei Hin). }
    assert (masks_distinct (mn_next t ++ [new_key_node mask])) as Hm'.
    { unfold masks_distinct in *. rewrite fmap_app. apply NoDup_app. split; [done|]. split.
      - intros u Hu Hu'. apply list_elem_of_singleton in Hu'. cbn in Hu'. subst u.
        apply list_elem_of_fmap in Hu as (n & Hu & Hin). by apply (mask_index_None _ _ n Ei Hin).
      - apply NoDup_singleton. }
    destruct (disp_or_new kc_mask h _ _ mask (new_key_node mask) Hd) as (c & _ & Hwf & Hp).
    { intros ms Hk. unfold kc_mask in Hk. apply fmap_Some in Hk as ([v m] & Hg & ->).
      by exists v. }
    unfold table_or_new in Hwf, Hp. rewrite Hnone in Hwf, Hp.
    rewrite mask_table_snoc by done. split_and!; [|done|done|done|done].
    by rewrite lookup_app_r, Nat.sub_diag by lia.
Qed.

Lemma mask_add_law h t r :
  mask_wf h t -> match_list_ok (ml h r) ->
  exists t' f', mask_add h t r = (LAGOPUS_RESULT_OK, t', <[r := f']> h) /\
    added (h !!! r) f' /\ mask_wf (<[r := f']> h) t' /\ mask_flows t' ≡ₚ r :: mask_flows t.
Proof.
  intros Hwf Hok. pose proof Hwf as (Hd & Hm & Hn). unfold mask_add.
  destruct (kc_get K (ml h r)) as [[v mask]|] eqn:Hk.
  - pose proof (mask_child h t mask Hwf) as Hc.
    destruct (match mask_index (mn_next t) mask with Some _ => _ | None => _ end) as [i next].
    destruct Hc as (n & Hi & Hu & Hm' & Hd' & Hp). rewrite Hi.
    assert (mask_table next !! mask = Some n) as Hl.
    { apply mask_table_lookup; [done|]. split; [by eapply list_elem_of_lookup_2|done]. }
    destruct (disp_add_table kc_mask h _ (mn_misc t) mask n r Hd' Hl Hok (kc_mask_get _ _ _ Hk))
      as (n' & f' & E & Ha & Hwf' & Hp').
    rewrite E. eexists _, f'. split; [reflexivity|]. split; [done|].
    assert (kn_userdata n' = kn_userdata n) as Hu'.
    { destruct (proj1 Hwf' mask n') as (_ & _ & Hacc); [apply lookup_insert_eq|].
      destruct (Hacc _ (kc_mask_get _ _ _ Hk)) as [v' Hv']. congruence. }
    rewrite Hp in Hp'. unfold mask_wf, mask_flows. cbn [mn_next mn_misc mn_nflow].
    rewrite (mask_table_insert next i n n'), Hu by done.
    split; [|done]. split; [done|]. split; [by eapply masks_distinct_insert|].
    rewrite (Permutation_length Hp'), Hn. cbn [inc_ok is_ok length]. lia.
  - assert (kc_mask (ml h r) = None) as Hk' by (unfold kc_mask; by rewrite Hk).
    destruct (disp_add_misc kc_mask h _ _ r Hd Hok Hk') as (b' & f' & -> & Ha & Hwf' & Hp).
    eexists _, f'. split; [reflexivity|]. split; [done|]. split; [|exact Hp].
    split; [exact Hwf'|]. split; [done|]. unfold mask_flows at 1. cbn [mn_next mn_misc mn_nflow].
    rewrite (Permutation_length Hp), Hn. unfold mask_flows. cbn [inc_ok is_ok length]. lia.
Qed.

(** Dropping the child of [k] when it holds no flow. *)
Lemma disp_wf_delete h (m : gmap Z (key_node K C)) (b : B) k :
  disp_wf kc_mask h m b -> disp_wf kc_mask h (delete k m) b.
Proof.
  intros (H1 & H2). split; [|done]. intros k' c Hc.
  apply lookup_delete_Some in Hc as [_ Hc]. by apply H1.
Qed.

Lemma mask_del_law h t r :
  mask_wf h t -> r ∈ mask_flows t ->
  exists t', mask_del h t r = (LAGOPUS_RESULT_OK, t') /\ mask_wf h t' /\
    mask_flows t ≡ₚ r :: mask_flows t'.
Proof.
  intros (Hd & Hm & Hn) Hr. unfold mask_del.
  destruct (kc_get K (ml h r)) as [[v mask]|] eqn:Hk.
  - destruct (disp_del_table kc_mask h _ _ mask r Hd Hr (kc_mask_get _ _ _ Hk))
      as (n & n' & Hl & E & Hwf & Hp).
    apply mask_table_lookup in Hl as [Hin Hu]; [|done].
    destruct (mask_index (mn_next t) mask) as [i|] eqn:Ei; cycle 1.
    { by destruct (mask_index_None _ _ n Ei Hin). }
    apply mask_index_Some in Ei as (n2 & Hi & Hu2). rewrite Hi.
    assert (n2 = n) as ->.
    { apply list_elem_of_lookup in Hin as [j Hj].
      assert (i = j) as -> by (eapply masks_distinct_inj; [done|exact Hi|exact Hj|congruence]).
      congruence. }
    rewrite E. eexists. split; [reflexivity|].
    assert (fi_wf h n' /\ kn_userdata n' = mask) as [Hn' Hu'].
    { destruct (proj1 Hwf mask n') as (Hw & _ & Hacc); [apply lookup_insert_eq|].
      destruct (Hacc _ (kc_mask_get _ _ _ Hk)) as [v' Hv']. split; [done|congruence]. }
    set (next := if kn_nflow n' =? 0 then _ else _).
    assert (masks_distinct next /\ disp_wf kc_mask h (mask_table next) (mn_misc t) /\
      mask_flows t ≡ₚ r :: disp_flows (mask_table next) (mn_misc t)) as (G1 & G2 & G3).
    { unfold next. destruct (Z.eqb_spec (kn_nflow n') 0) as [E0|_].
      - rewrite (mask_table_remove _ i n), Hu by done. split; [by apply masks_distinct_remove|].
        split; [by apply disp_wf_delete|]. rewrite Hp at 1. unfold disp_flows.
        pose proof (fi_nflow_law h n' Hn') as Hlen. cbn [fi_nflow key_ops] in Hlen.
        rewrite E0 in Hlen. destruct (fi_flows n') as [|] eqn:Ef; [|cbn in Hlen; lia].
        rewrite table_flows_insert, Ef. done.
      - rewrite (mask_table_insert _ i n n'), Hu by congruence.
        split; [eapply masks_distinct_insert; [done|done|congruence]|]. by split. }
    split; [|exact G3]. split; [exact G2|]. split; [exact G1|].
    unfold mask_flows at 1. cbn [mn_next mn_misc mn_nflow]. rewrite (Permutation_length G3) in Hn.
    rewrite Hn. cbn [dec_ok is_ok length]. lia.
  - assert (kc_mask (ml h r) = None) as Hk' by (unfold kc_mask; by rewrite Hk).
    destruct (disp_del_misc kc_mask h _ _ r Hd Hr Hk') as (b' & E & Hwf & Hp).
    rewrite E. eexists. split; [reflexivity|]. split; [|exact Hp].
    split; [exact Hwf|]. split; [done|]. unfold mask_flows at 1. cbn [mn_next mn_misc mn_nflow].
    unfold mask_flows in Hn. rewrite (Permutation_length Hp) in Hn. rewrite Hn.
    cbn [dec_ok is_ok length]. lia.
Qed.

(** *** Matching *)

(** The flows the children return, in order: each found flow has a priority above
    those found before it. *)
Fixpoint chain (pr : ref -> Z) (pri : Z) (flows : list (option ref)) (pri' : Z) : Prop :=
  match flows with
  | [] => pri' = pri
  | None :: flows' => chain pr pri flows' pri'
  | Some r :: flows' => pri < pr r /\ chain pr (pr r) flows' pri'
  end.

Definition last_found (flows : list (option ref)) : option ref := foldl (fun acc o => over o acc) None flows.

Lemma foldl_over flows acc :
  foldl (fun acc o => over o acc) acc flows = over (last_found flows) acc.
Proof.
  unfold last_found. revert acc. induction flows as [|o flows IH]; intros acc; [done|].
  cbn. rewrite IH, (IH (over o None)). by destruct o, (foldl _ None flows).
Qed.

(** The second loop keeps the last flow found, provided the priorities are positive. *)
Lemma mask_pick_chain h pr pri flows pri' acc :
  (forall r, prio h r = pr r) -> chain pr pri flows pri' ->
  (forall r, Some r ∈ flows -> 0 < pr r) -> matched_priority h acc <= Z.max 0 pri ->
  foldl (mask_pick h) acc flows = over (last_found flows) acc.
Proof.
  intros Hpr. rewrite <- foldl_over. revert pri acc.
  induction flows as [|[r|] flows IH]; intros pri acc Hc Hpos Hacc; cbn in *; [done| |].
  - destruct Hc as [Hlt Hc]. pose proof (Hpos r ltac:(by left)) as Hr.
    rewrite <- Hpr in Hlt, Hr.
    assert ((matched_priority h acc <? prio h r) = true) as -> by lia.
    apply (IH (pr r)); [done| |].
    + intros x Hx. apply Hpos. by right.
    + cbn. rewrite Hpr. lia.
  - apply (IH pri); [done| |done]. intros x Hx. apply Hpos. by right.
Qed.

Definition scan_cand (h : flow_heap) (pkt : lagopus_packet) (next : list (key_node K C)) (x : ref)
    : Prop :=
  exists n, n ∈ next /\ x ∈ fi_flows n /\ fi_admits (A := key_node K C) pkt (ml h x) /\
            match_byteoff pkt (h !!! x) = true.

Lemma mask_scan_law h0 h pkt next pri :
  heap_eqv h0 h -> (forall n, n ∈ next -> fi_wf h0 n) ->
  (0 <= pri \/ forall n r, n ∈ next -> r ∈ fi_flows n -> 0 < prio h0 r) ->
  let '(flows, pri', h') := mask_scan h pkt next pri in
  heap_eqv h0 h' /\ chain (prio h0) pri flows pri' /\
  (forall r, Some r ∈ flows -> 0 < prio h0 r) /\
  best (scan_cand h0 pkt next) (prio h0) pri (last_found flows) pri'.
Proof.
  revert h pri. induction next as [|n next IH]; intros h pri Hh Hwf Hpos; cbn [mask_scan].
  { split_and!; [done|done| |].
    - intros r Hr. by apply elem_of_nil in Hr.
    - split; [done|]. intros x (n & Hn & _). by apply elem_of_nil in Hn. }
  assert (0 <= pri \/ forall r, r ∈ fi_flows n -> fi_needs_pos (A := key_node K C) (ml h0 r) = true ->
    0 < prio h0 r) as Hpos1.
  { destruct Hpos as [|Hpos]; [by left|right]. intros r Hr _. apply (Hpos n); [by left|done]. }
  pose proof (fi_match_eqv h0 h pkt n pri Hh (Hwf n ltac:(by left)) Hpos1) as H1.
  destruct (fi_match h pkt n pri) as [[r1 pri1] h1]. destruct H1 as [He1 Hb1].
  pose proof (best_le _ _ _ _ _ Hb1) as Hle.
  assert (forall n, n ∈ next -> fi_wf h0 n) as Hwf' by (intros; apply Hwf; by right).
  assert (0 <= pri1 \/ forall n r, n ∈ next -> r ∈ fi_flows n -> 0 < prio h0 r) as Hpos'.
  { destruct Hpos as [|Hpos]; [left; lia|right]. intros n' r Hn'. apply Hpos. by right. }
  specialize (IH h1 pri1 He1 Hwf' Hpos'). destruct (mask_scan h1 pkt next pri1) as [[fl pri2] h2].
  destruct IH as (He2 & Hc2 & Hp2 & Hb2). split; [done|]. split; [|split].
  - destruct r1 as [y|]; cbn in Hb1 |- *; destruct Hb1 as (HC & Hy).
    + destruct Hy as (Hy & Hlt & _). split; [by rewrite Hy|]. by rewrite Hy.
    + by rewrite <- HC.
  - intros r [<-|Hr]%elem_of_cons; [|by apply Hp2].
    destruct Hb1 as ((Hin & _) & Hy & Hlt & _). destruct Hpos as [|Hpos]; [lia|].
    apply (Hpos n); [by left|done].
  - replace (last_found (r1 :: fl)) with (over (last_found fl) r1).
    2: { unfold last_found at 2. cbn. rewrite foldl_over. by destruct r1. }
    eapply best_ext; [|done|exact (best_seq _ _ _ _ _ _ _ _ Hb1 Hb2)].
    intros x. unfold scan_cand. split.
    + intros [(Hx & Ha & Hm)|(n' & Hn' & Hx)].
      * exists n. split; [by left|]. by split_and!.
      * exists n'. split; [by right|done].
    + intros (n' & [->|Hn']%elem_of_cons & Hx); [by left|right; by exists n'].
Qed.

Lemma mask_match_law h pkt t pri :
  mask_wf h t -> pos_ok h (mask_flows t) mask_needs_pos pri ->
  let '(r, pri', h') := mask_match h pkt t pri in
  heap_eqv h h' /\
  best (fun x => x ∈ mask_flows t /\
         disp_admits (A := key_node K C) (B := B) kc_mask mask_keys pkt (ml h x) /\
         match_byteoff pkt (h !!! x) = true) (prio h) pri r pri'.
Proof.
  intros (Hd & Hm & _) Hpos. unfold mask_match.
  pose proof (disp_pos_misc _ _ _ _ _ Hd Hpos) as Hp2.
  assert (forall n, n ∈ mn_next t -> mask_table (mn_next t) !! kn_userdata n = Some n) as Hin
    by (intros n Hn; by apply mask_table_lookup).
  pose proof (mask_scan_law h h pkt (mn_next t) pri ltac:(done)) as H1.
  destruct (mask_scan h pkt (mn_next t) pri) as [[flows pri1] h1].
  destruct H1 as (He1 & Hc & Hp & Hb1).
  { intros n Hn. by apply (proj1 Hd (kn_userdata n) n), Hin. }
  { destruct Hpos as [|Hpos]; [by left|right]. intros n r Hn Hr. apply Hpos.
    - apply elem_of_app. left. apply elem_of_table_flows. eauto.
    - unfold mask_needs_pos, disp_needs_pos.
      destruct (proj1 Hd (kn_userdata n) n (Hin n Hn)) as (_ & Hk & _). by rewrite (Hk r Hr). }
  rewrite (mask_pick_chain h1 (prio h) pri flows pri1 None); [|by intros; symmetry; apply heap_eqv_prio|done|done|cbn; lia].
  pose proof (fi_match_eqv h h1 pkt (mn_misc t) pri1 He1 (proj1 (proj2 Hd))
    (pos_ok_le _ _ _ _ _ (best_le _ _ _ _ _ Hb1) Hp2)) as H2.
  destruct (fi_match h1 pkt (mn_misc t) pri1) as [[r2 pri2] h2]. destruct H2 as [He2 Hb2].
  split; [done|]. replace (over (last_found flows) None) with (last_found flows)
    by by destruct (last_found flows).
  eapply best_ext; [|done|exact (best_seq _ _ _ _ _ _ _ _ Hb1 Hb2)].
  intros x. unfold mask_flows. rewrite (disp_cand kc_mask h pkt _ _ mask_keys) by done.
  unfold scan_cand, misc_cand, table_cand, mask_keys. split.
  - intros [(n & Hn & Hx & Ha & Hmx)|Hx]; [left|by right]. exists (kn_userdata n).
    split; [done|]. destruct (proj1 Hd (kn_userdata n) n (Hin n Hn)) as (_ & Hk & _).
    split_and!; [|by apply Hk|done|done]. apply elem_of_table_flows. eauto.
  - intros [(k & _ & Hx & Hk & Ha & Hmx)|Hx]; [left|by right].
    apply elem_of_table_flows in Hx as (k' & n & [Hn _]%mask_table_lookup & Hx); [|done].
    exists n. by split_and!.
Qed.

Lemma mask_find_law h t r :
  mask_wf h t -> match_list_ok (ml h r) ->
  match mask_find h t r with
  | Some x => x ∈ mask_flows t /\ flow_compare (h !!! r) (h !!! x) = true
  | None => forall x, x ∈ mask_flows t -> flow_compare (h !!! r) (h !!! x) = false
  end.
Proof.
  intros (Hd & Hm & _) Hok. unfold mask_find.
  destruct (kc_get K (ml h r)) as [[v mask]|] eqn:Hk.
  - pose proof (disp_find_table kc_mask h _ _ mask r Hd Hok (kc_mask_get _ _ _ Hk)) as Hf.
    assert (mask_index (mn_next t) mask ≫= (fun i => mn_next t !! i) = mask_table (mn_next t) !! mask)
      as ->.
    { apply option_eq. intros n. rewrite mask_table_lookup by done. rewrite bind_Some. split.
      - intros (i & (n' & Hi & Hu)%mask_index_Some & Hi'). simplify_eq.
        split; [by eapply list_elem_of_lookup_2|done].
      - intros [Hin Hu]. destruct (mask_index (mn_next t) mask) as [i|] eqn:Ei; cycle 1.
        { by destruct (mask_index_None _ _ n Ei Hin). }
        exists i. split; [done|]. apply mask_index_Some in Ei as (n' & Hi & Hu').
        apply list_elem_of_lookup in Hin as [j Hj].
        assert (i = j) as -> by (eapply masks_distinct_inj; [done|exact Hi|exact Hj|congruence]).
        congruence. }
    by destruct (mask_table (mn_next t) !! mask).
  - apply (disp_find_misc kc_mask h _ _ r Hd Hok). unfold kc_mask. by rewrite Hk.
Qed.

#[global, refine] Instance mask_spec : FlowinfoSpec (mask_node K C B) := {
  fi_flows := mask_flows;
  fi_wf := mask_wf;
  fi_accepts _ _ := True;
  fi_admits := disp_admits (A := key_node K C) (B := B) kc_mask mask_keys;
  fi_needs_pos := mask_needs_pos
}.
Proof.
  - intros h h' t Hk (Hd & Hm & Hn). split_and!; [|done|done].
    exact (disp_wf_ext kc_mask h h' _ _ Hk Hd).
  - intros h t r (Hd & _) Hr. exact (disp_wf_ok kc_mask h _ _ r Hd Hr).
  - intros h t (_ & _ & Hn). exact Hn.
  - intros h t r Hwf Hok _. destruct (mask_add_law h t r Hwf Hok) as (t' & f' & H1 & H2 & H3 & H4).
    exists t', f'. by split_and!.
  - intros h t r Hwf Hr. destruct (mask_del_law h t r Hwf Hr) as (t' & H1 & H2 & H3).
    exists t'. by split_and!.
  - intros h pkt t pri. apply mask_match_law.
  - intros h t r. apply mask_find_law.
Defined.

(** The packets a mask node leads to a flow. *)
Lemma mask_admits_spec pkt ms :
  fi_admits (A := mask_node K C B) pkt ms <->
  match kc_get K ms with
  | Some (v, mask) => Z.land (kc_pkt K pkt) mask = v /\ fi_admits (A := C) pkt ms
  | None => fi_admits (A := B) pkt ms
  end.
Proof.
  cbn [fi_admits mask_spec]. unfold disp_admits, kc_mask, mask_keys.
  destruct (kc_get K ms) as [[v mask]|] eqn:E; [|done].
  cbn [fi_admits key_spec fmap option_fmap option_map]. unfold key_admits. rewrite E. tauto.
Qed.

#[global] Instance mask_empty : FlowinfoEmpty (fi_new : mask_node K C B).
Proof.
  assert (disp_flows (mask_table ([] : list (key_node K C))) (fi_new : B) = []) as Hf.
  { unfold disp_flows. change (mask_table []) with (∅ : gmap Z (key_node K C)).
    by rewrite table_flows_empty, fe_flows. }
  split; [|exact Hf]. intros h. split.
  - split; [exact (table_wf_empty kc_mask h)|]. split; [apply fe_wf|].
    split; [|intros; apply accepts_all]. intros r Hr. change (r ∈ fi_flows (fi_new : B)) in Hr.
    rewrite fe_flows in Hr. by apply elem_of_nil in Hr.
  - split; [apply NoDup_nil_2|].
    change (0 = Z.of_nat (length (disp_flows (mask_table ([] : list (key_node K C))) (fi_new : B)))).
    by rewrite Hf.
Qed.

#[global] Instance mask_accepts_all : AcceptsAll (mask_node K C B).
Proof. by intros ??. Qed.
End MaskNodeSpec.
