(* ===== verification/FlowinfoTree.v ===== *)
(** * The lookup tree of a flow table

    The concrete nodes of [flowinfo_*.c] as instances of the node kinds, the array over
    the ethertype ([flowinfo_ether.c]), and the root functions of [flowinfo.c] and
    [packet.h] ([add_flow], [del_flow], [find_flow], [lagopus_find_flow]).

    Table 0 is rooted at a VLAN node, every other table at a metadata mask node; below
    them is an ethertype node, whose children are an IPv4-destination mask node, an
    IPv6 protocol node, an MPLS node or a basic node. *)
From S2P Require Import Prelude OpenFlow Packet FlowEntry ByteMatch Hashmap FlowinfoIntf FlowinfoTable FlowinfoBasic.
From S2P Require Import FlowinfoNodes FlowinfoMask.

(** ** The keys of the files *)

Definition is_type (t : Z) (m : match_) : bool := OXM_FIELD_TYPE (oxm_field m) =? t.

Definition is_in_port : match_ -> bool := is_type OFPXMT_OFB_IN_PORT.
Definition is_vlan_vid (m : match_) : bool :=
  is_type OFPXMT_OFB_VLAN_VID m && negb (OXM_FIELD_HAS_MASK (oxm_field m)).
Definition is_ether_type : match_ -> bool := is_type OFPXMT_OFB_ETH_TYPE.
Definition is_mpls_label : match_ -> bool := is_type OFPXMT_OFB_MPLS_LABEL.

(** [get_match_in_port], with the conversion to host order of its callers. *)
Definition get_match_in_port (ms : list match_) : option Z :=
  (fun m => OS_NTOHL (rd32 (oxm_value m) 0)) <$> find is_in_port ms.

Definition get_match_vlan_vid (ms : list match_) : option Z :=
  (fun m => let vid := rd16 (oxm_value m) 0 in
            if vid =? 0 then vid else Z.lor vid (OS_HTONS OFPVID_PRESENT))
  <$> find is_vlan_vid ms.

Definition get_match_eth_type (ms : list match_) : option Z :=
  (fun m => OS_NTOHS (rd16 (oxm_value m) 0)) <$> find is_ether_type ms.

(** [SET_MPLS_LSE (lse, label, 0, 0, 0)] *)
Definition SET_MPLS_LSE (label : Z) : Z := OS_HTONL (u32 (Z.shiftl label 12)).
Definition MPLS_LBL (lse : Z) : Z := Z.shiftr (Z.land (OS_NTOHL lse) 0xfffff000) 12.

Definition get_match_mpls_label (ms : list match_) : option Z :=
  (fun m => SET_MPLS_LSE (OS_NTOHL (rd32 (oxm_value m) 0))) <$> find is_mpls_label ms.

(** [get_match_metadata], [get_match_ipv4_dst] and [get_match_ipv4_src]: value and mask of a
    field of [w] bytes read by [rd]; all ones when the match has no mask. *)
Definition get_match_masked (t : Z) (w : nat) (rd : bytes -> nat -> Z) (ones : Z)
    (ms : list match_) : option (Z * Z) :=
  (fun m => if oxm_field m =? FIELD_WITH_MASK t
            then (rd (oxm_value m) 0%nat, rd (oxm_value m) w)
            else (rd (oxm_value m) 0%nat, ones)) <$> find (is_type t) ms.

Definition get_match_metadata : list match_ -> option (Z * Z) :=
  get_match_masked OFPXMT_OFB_METADATA 8 rd64 0xffffffffffffffff.
Definition get_match_ipv4_dst : list match_ -> option (Z * Z) :=
  get_match_masked OFPXMT_OFB_IPV4_DST 4 rd32 0xffffffff.
Definition get_match_ipv4_src : list match_ -> option (Z * Z) :=
  get_match_masked OFPXMT_OFB_IPV4_SRC 4 rd32 0xffffffff.

Definition pkt_vlan_key (pkt : lagopus_packet) : Z :=
  match pk_vlan pkt with
  | Some off => Z.lor (Z.land (rd16 (pk_data pkt) off) (OS_HTONS 0x0fff)) (OS_HTONS OFPVID_PRESENT)
  | None => 0
  end.

Definition pkt_mpls_key (pkt : lagopus_packet) : Z :=
  SET_MPLS_LSE (MPLS_LBL (rd32 (base_bytes pkt MPLS_BASE) 0)).

Definition in_port_class := HashClass get_match_in_port pk_in_port (Some is_in_port) false.
Definition vlan_class := HashClass get_match_vlan_vid pkt_vlan_key None true.
Definition mpls_class := HashClass get_match_mpls_label pkt_mpls_key (Some is_mpls_label) true.
Definition metadata_class := KeyClass get_match_metadata oob_metadata true.
Definition ipv4_dst_class :=
  KeyClass get_match_ipv4_dst (fun pkt => rd32 (base_bytes pkt L3_BASE) 16) false.
Definition ipv4_src_class :=
  KeyClass get_match_ipv4_src (fun pkt => rd32 (base_bytes pkt L3_BASE) 12) false.

Lemma find_type_key_proper {X} t (g : match_ -> X) :
  (forall m m', match_id m = match_id m' -> g m = g m') ->
  Proper (ml_eq ==> eq) (fun ms => g <$> find (is_type t) ms).
Proof.
  intros Hg. apply find_key_proper. intros m m' E. split; [|by apply Hg].
  injection E as H1 H2 H3 H4. unfold is_type. by rewrite H2.
Qed.

Lemma get_match_masked_proper t w rd ones :
  Proper (ml_eq ==> eq) (get_match_masked t w rd ones).
Proof.
  apply find_type_key_proper. intros m m' E. injection E as H1 H2 H3 H4. by rewrite H2, H4.
Qed.

#[global] Instance get_match_eth_type_proper : Proper (ml_eq ==> eq) get_match_eth_type.
Proof. apply find_type_key_proper. intros m m' E. injection E as H1 H2 H3 H4. by rewrite H4. Qed.

#[global] Instance vlan_class_ok : HashClassOk vlan_class.
Proof.
  split; [|done]. apply find_key_proper. intros m m' E. injection E as H1 H2 H3 H4.
  unfold is_vlan_vid, is_type. by rewrite H2, H4.
Qed.

#[global] Instance mpls_class_ok : HashClassOk mpls_class.
Proof.
  split; [|done]. apply find_type_key_proper. intros m m' E. injection E as H1 H2 H3 H4.
  by rewrite H4.
Qed.

#[global] Instance metadata_class_ok : KeyClassOk metadata_class.
Proof. apply get_match_masked_proper. Qed.
#[global] Instance ipv4_dst_class_ok : KeyClassOk ipv4_dst_class.
Proof. apply get_match_masked_proper. Qed.
#[global] Instance ipv4_src_class_ok : KeyClassOk ipv4_src_class.
Proof. apply get_match_masked_proper. Qed.

(** ** Below the ethertype *)

#[global] Instance basic_new : FlowinfoNew basic := new_flowinfo_basic.
#[global] Instance basic_accepts_all : AcceptsAll basic.
Proof. by intros ??. Qed.
#[global] Instance basic_new_empty : FlowinfoEmpty (fi_new : basic).
Proof. exact basic_empty. Qed.

Abbreviation ipv4 := (proto_node basic).
Abbreviation ipv6 := (proto_node basic).
Abbreviation ipv4_src := (key_node ipv4_src_class ipv4).
Abbreviation ipv4_src_mask := (mask_node ipv4_src_class ipv4 ipv4).
Abbreviation ipv4_dst := (key_node ipv4_dst_class ipv4).
Abbreviation ipv4_dst_mask := (mask_node ipv4_dst_class ipv4 ipv4_src_mask).
Abbreviation mpls := (hash_node mpls_class basic basic).

(** ** The ethertype node *)

(** A child of the array, by the function that makes it. *)
Inductive eth_child :=
  | EthIpv4 (c : ipv4_dst_mask)
  | EthIpv6 (c : ipv6)
  | EthMpls (c : mpls)
  | EthBasic (c : basic).

Inductive eth_kind := KIpv4 | KIpv6 | KMpls | KBasic.

#[global] Instance eth_kind_eq_dec : EqDecision eth_kind.
Proof. solve_decision. Defined.

(** The switch of [add_flow_eth_type]. *)
Definition kind_of (eth_type : Z) : eth_kind :=
  if eth_type =? ETHERTYPE_IP then KIpv4
  else if eth_type =? ETHERTYPE_IPV6 then KIpv6
  else if (eth_type =? ETHERTYPE_MPLS) || (eth_type =? ETHERTYPE_MPLS_MCAST) then KMpls
  else KBasic.

Definition new_eth_child (eth_type : Z) : eth_child :=
  match kind_of eth_type with
  | KIpv4 => EthIpv4 fi_new
  | KIpv6 => EthIpv6 fi_new
  | KMpls => EthMpls fi_new
  | KBasic => EthBasic fi_new
  end.

Definition child_kind (c : eth_child) : eth_kind :=
  match c with EthIpv4 _ => KIpv4 | EthIpv6 _ => KIpv6 | EthMpls _ => KMpls | EthBasic _ => KBasic end.

Definition wrap_add {A} (wrap : A -> eth_child) (x : lagopus_result * A * flow_heap)
    : lagopus_result * eth_child * flow_heap :=
  let '(rv, c, h) := x in (rv, wrap c, h).
Definition wrap_del {A} (wrap : A -> eth_child) (x : lagopus_result * A)
    : lagopus_result * eth_child :=
  let '(rv, c) := x in (rv, wrap c).

(** The calls through the function pointers of the child. *)
#[global] Instance eth_child_ops : FlowinfoOps eth_child := {
  fi_nflow c :=
    match c with
    | EthIpv4 c => fi_nflow c | EthIpv6 c => fi_nflow c
    | EthMpls c => fi_nflow c | EthBasic c => fi_nflow c
    end;
  fi_add h c flow :=
    match c with
    | EthIpv4 c => wrap_add EthIpv4 (fi_add h c flow)
    | EthIpv6 c => wrap_add EthIpv6 (fi_add h c flow)
    | EthMpls c => wrap_add EthMpls (fi_add h c flow)
    | EthBasic c => wrap_add EthBasic (fi_add h c flow)
    end;
  fi_del h c flow :=
    match c with
    | EthIpv4 c => wrap_del EthIpv4 (fi_del h c flow)
    | EthIpv6 c => wrap_del EthIpv6 (fi_del h c flow)
    | EthMpls c => wrap_del EthMpls (fi_del h c flow)
    | EthBasic c => wrap_del EthBasic (fi_del h c flow)
    end;
  fi_match h pkt c pri :=
    match c with
    | EthIpv4 c => fi_match h pkt c pri | EthIpv6 c => fi_match h pkt c pri
    | EthMpls c => fi_match h pkt c pri | EthBasic c => fi_match h pkt c pri
    end;
  fi_find h c flow :=
    match c with
    | EthIpv4 c => fi_find h c flow | EthIpv6 c => fi_find h c flow
    | EthMpls c => fi_find h c flow | EthBasic c => fi_find h c flow
    end
}.

(** The kind a match list belongs to, by its ethertype. *)
Definition ml_kind (ms : list match_) : option eth_kind := kind_of <$> get_match_eth_type ms.

#[global] Instance ml_kind_proper : Proper (ml_eq ==> eq) ml_kind.
Proof. intros ms ms' Heq. unfold ml_kind. by rewrite Heq. Qed.

Definition eth_child_flows (c : eth_child) : list ref :=
  match c with
  | EthIpv4 c => fi_flows c | EthIpv6 c => fi_flows c
  | EthMpls c => fi_flows c | EthBasic c => fi_flows c
  end.

Definition eth_child_wf (h : flow_heap) (c : eth_child) : Prop :=
  match c with
  | EthIpv4 c => fi_wf h c | EthIpv6 c => fi_wf h c
  | EthMpls c => fi_wf h c | EthBasic c => fi_wf h c
  end /\
  forall r, r ∈ eth_child_flows c -> ml_kind (ml h r) = Some (child_kind c).

Definition eth_child_admits (pkt : lagopus_packet) (ms : list match_) : Prop :=
  match ml_kind ms with
  | Some KIpv4 => fi_admits (A := ipv4_dst_mask) pkt ms
  | Some KIpv6 => fi_admits (A := ipv6) pkt ms
  | Some KMpls => fi_admits (A := mpls) pkt ms
  | _ => fi_admits (A := basic) pkt ms
  end.

Definition eth_child_needs_pos (ms : list match_) : bool :=
  match ml_kind ms with
  | Some KIpv4 => fi_needs_pos (A := ipv4_dst_mask) ms
  | Some KIpv6 => fi_needs_pos (A := ipv6) ms
  | Some KMpls => fi_needs_pos (A := mpls) ms
  | _ => fi_needs_pos (A := basic) ms
  end.

Lemma ml_kind_added (h : flow_heap) r f' x :
  added (h !!! r) f' -> ml_kind (ml (<[r := f']> h) x) = ml_kind (ml h x).
Proof.
  intros Ha. pose proof (same_key_ml _ _ (added_heap_key h r f' x Ha)) as E.
  unfold ml. by rewrite E.
Qed.

Section Wrap.
Context {A : Type} `{FlowinfoSpec A} (wrap : A -> eth_child) (k : eth_kind).

Lemma wrap_add_law h c r :
  fi_wf h c -> (forall x, x ∈ fi_flows c -> ml_kind (ml h x) = Some k) ->
  match_list_ok (ml h r) -> fi_accepts c (ml h r) -> ml_kind (ml h r) = Some k ->
  exists c' f', wrap_add wrap (fi_add h c r) = (LAGOPUS_RESULT_OK, wrap c', <[r := f']> h) /\
    added (h !!! r) f' /\ fi_wf (<[r := f']> h) c' /\
    (forall x, x ∈ fi_flows c' -> ml_kind (ml (<[r := f']> h) x) = Some k) /\
    fi_flows c' ≡ₚ r :: fi_flows c.
Proof.
  intros Hwf Hk Hok Hacc Hr.
  destruct (fi_add_law h c r Hwf Hok Hacc) as (c' & f' & E & Ha & Hwf' & Hp & _).
  rewrite E. exists c', f'. split_and!; try done.
  intros x. rewrite Hp, ml_kind_added by done. intros [->|Hx]%elem_of_cons; auto.
Qed.

Lemma wrap_del_law h c r :
  fi_wf h c -> (forall x, x ∈ fi_flows c -> ml_kind (ml h x) = Some k) -> r ∈ fi_flows c ->
  exists c', wrap_del wrap (fi_del h c r) = (LAGOPUS_RESULT_OK, wrap c') /\ fi_wf h c' /\
    (forall x, x ∈ fi_flows c' -> ml_kind (ml h x) = Some k) /\
    fi_flows c ≡ₚ r :: fi_flows c'.
Proof.
  intros Hwf Hk Hr. destruct (fi_del_law h c r Hwf Hr) as (c' & E & Hwf' & Hp & _).
  rewrite E. exists c'. split_and!; try done. intros x Hx. apply Hk. rewrite Hp. by right.
Qed.

End Wrap.

Lemma wrap_match_law {A} `{FlowinfoSpec A} (k : eth_kind) h pkt (c : A) pri
    (admits : list match_ -> Prop) (needs : list match_ -> bool) :
  fi_wf h c -> (forall x, x ∈ fi_flows c -> ml_kind (ml h x) = Some k) ->
  (forall ms, ml_kind ms = Some k -> admits ms <-> fi_admits (A := A) pkt ms) ->
  (forall ms, ml_kind ms = Some k -> needs ms = fi_needs_pos (A := A) ms) ->
  pos_ok h (fi_flows c) needs pri ->
  let '(r, pri', h') := fi_match h pkt c pri in
  heap_eqv h h' /\
  best (fun x => x ∈ fi_flows c /\ admits (ml h x) /\ match_byteoff pkt (h !!! x) = true)
    (prio h) pri r pri'.
Proof.
  intros Hwf Hk Ha Hn Hpos. pose proof (fi_match_law h pkt c pri Hwf) as Hm.
  destruct (fi_match h pkt c pri) as [[r pri'] h']. destruct Hm as [He Hb].
  { destruct Hpos as [|Hpos]; [by left|right]. intros x Hx. rewrite <- Hn by auto. auto. }
  split; [done|]. eapply best_ext; [|done|exact Hb].
  intros x. split; intros (Hx & Had & Hm); split_and!; try done; by apply Ha; auto.
Qed.

#[global, refine] Instance eth_child_spec : FlowinfoSpec eth_child := {
  fi_flows := eth_child_flows;
  fi_wf := eth_child_wf;
  fi_accepts c ms := ml_kind ms = Some (child_kind c);
  fi_admits := eth_child_admits;
  fi_needs_pos := eth_child_needs_pos
}.
Proof.
  - intros c ms ms' Heq. by rewrite Heq.
  - intros pkt ms ms' Heq. unfold eth_child_admits. rewrite <- Heq.
    by destruct (ml_kind ms) as [[]|]; rewrite Heq.
  - intros ms ms' Heq. unfold eth_child_needs_pos. rewrite <- Heq.
    by destruct (ml_kind ms) as [[]|]; rewrite Heq.
  - intros h h' c Hk [Hwf Hkind]. split.
    + destruct c; by eapply fi_wf_ext.
    + intros r Hr. pose proof (same_key_ml _ _ (Hk r Hr)) as E. unfold ml. rewrite <- E. by apply Hkind.
  - intros h c r [Hwf _] Hr. destruct c as [c|c|c|c]; exact (fi_wf_ok h c r Hwf Hr).
  - intros h c [Hwf _]. destruct c as [c|c|c|c]; exact (fi_nflow_law h c Hwf).
  - intros h c r [Hwf Hkind] Hok Hacc.
    destruct c as [c|c|c|c];
      destruct (wrap_add_law EthIpv4 KIpv4 h c r Hwf Hkind Hok I Hacc) as (c' & f' & E & H1 & H2 & H3 & H4) ||
      destruct (wrap_add_law EthIpv6 KIpv6 h c r Hwf Hkind Hok I Hacc) as (c' & f' & E & H1 & H2 & H3 & H4) ||
      destruct (wrap_add_law EthMpls KMpls h c r Hwf Hkind Hok I Hacc) as (c' & f' & E & H1 & H2 & H3 & H4) ||
      destruct (wrap_add_law EthBasic KBasic h c r Hwf Hkind Hok I Hacc) as (c' & f' & E & H1 & H2 & H3 & H4);
      (eexists _, f'; split; [exact E|]; split; [exact H1|]; split; [by split|]; by split).
  - intros h c r [Hwf Hkind] Hr.
    destruct c as [c|c|c|c];
      destruct (wrap_del_law EthIpv4 KIpv4 h c r Hwf Hkind Hr) as (c' & E & H2 & H3 & H4) ||
      destruct (wrap_del_law EthIpv6 KIpv6 h c r Hwf Hkind Hr) as (c' & E & H2 & H3 & H4) ||
      destruct (wrap_del_law EthMpls KMpls h c r Hwf Hkind Hr) as (c' & E & H2 & H3 & H4) ||
      destruct (wrap_del_law EthBasic KBasic h c r Hwf Hkind Hr) as (c' & E & H2 & H3 & H4);
      (eexists; split; [exact E|]; split; [by split|]; by split).
  - intros h pkt c pri [Hwf Hkind] Hpos.
    destruct c as [c|c|c|c];
      refine (wrap_match_law _ h pkt c pri (eth_child_admits pkt) eth_child_needs_pos
                Hwf Hkind _ _ Hpos);
      intros ms E; unfold eth_child_admits, eth_child_needs_pos; by rewrite E.
  - intros h c r [Hwf _] Hok. destruct c as [c|c|c|c]; exact (fi_find_law h c r Hwf Hok).
Defined.

#[global] Instance new_eth_child_empty k : FlowinfoEmpty (new_eth_child k).
Proof.
  assert (fi_flows (new_eth_child k) = []) as Hf.
  { unfold new_eth_child. destruct (kind_of k).
    - exact (fe_flows (t := (fi_new : ipv4_dst_mask))).
    - exact (fe_flows (t := (fi_new : ipv6))).
    - exact (fe_flows (t := (fi_new : mpls))).
    - exact (fe_flows (t := (fi_new : basic))). }
  split; [|exact Hf]. intros h. split.
  - unfold new_eth_child. destruct (kind_of k).
    + exact (fe_wf (t := (fi_new : ipv4_dst_mask)) h).
    + exact (fe_wf (t := (fi_new : ipv6)) h).
    + exact (fe_wf (t := (fi_new : mpls)) h).
    + exact (fe_wf (t := (fi_new : basic)) h).
  - intros r Hr. change (r ∈ fi_flows (new_eth_child k)) in Hr. rewrite Hf in Hr.
    by apply elem_of_nil in Hr.
Qed.

Lemma new_eth_child_kind k : child_kind (new_eth_child k) = kind_of k.
Proof. unfold new_eth_child. by destruct (kind_of k). Qed.

(** The array of 65536 pointers is a map from the index; NULL entries are absent. *)
Record eth_node := EthNode {
  en_nflow : Z;
  en_next : gmap Z eth_child;
  en_misc : basic
}.

Definition new_flowinfo_eth_type : eth_node := EthNode 0 ∅ fi_new.

Definition add_flow_eth_type (h : flow_heap) (self : eth_node) (flow : ref)
    : lagopus_result * eth_node * flow_heap :=
  match get_match_eth_type (ml h flow) with
  | Some eth_type =>
      let next := match en_next self !! eth_type with
                  | None => <[eth_type := new_eth_child eth_type]> (en_next self)
                  | Some _ => en_next self
                  end in
      let h := mark_flow is_ether_type h flow in
      match next !! eth_type with
      | Some flowinfo =>
          let '(ret, flowinfo, h) := fi_add h flowinfo flow in
          (ret, EthNode (inc_ok ret (en_nflow self)) (<[eth_type := flowinfo]> next)
                  (en_misc self), h)
      | None => (LAGOPUS_RESULT_ANY_FAILURES, self, h)
      end
  | None =>
      let '(ret, misc, h) := fi_add h (en_misc self) flow in
      (ret, EthNode (inc_ok ret (en_nflow self)) (en_next self) misc, h)
  end.

Definition del_flow_eth_type (h : flow_heap) (self : eth_node) (flow : ref)
    : lagopus_result * eth_node :=
  match get_match_eth_type (ml h flow) with
  | Some eth_type =>
      match en_next self !! eth_type with
      | Some flowinfo =>
          let '(ret, flowinfo) := fi_del h flowinfo flow in
          (ret, EthNode (dec_ok ret (en_nflow self)) (<[eth_type := flowinfo]> (en_next self))
                  (en_misc self))
      | None => (LAGOPUS_RESULT_NOT_FOUND, self)
      end
  | None =>
      let '(ret, misc) := fi_del h (en_misc self) flow in
      (ret, EthNode (dec_ok ret (en_nflow self)) (en_next self) misc)
  end.

(** The second array index looked up: the ethertype in front of an MPLS header, or that
    of a PBB header. *)
Definition eth_second (pkt : lagopus_packet) : option Z :=
  match base_ptr pkt MPLS_BASE with
  | Some _ => Some (OS_NTOHS (rd16 (pk_data pkt) (base_off pkt MPLS_BASE - 2)))
  | None => match base_ptr pkt PBB_BASE with Some _ => Some ETHERTYPE_PBB | None => None end
  end.

Definition match_flow_eth_type (h : flow_heap) (pkt : lagopus_packet) (self : eth_node) (pri : Z)
    : option ref * Z * flow_heap :=
  let '(flow, pri, h) := child_match h pkt (en_next self !! pk_ether_type pkt) pri in
  let '(flow, pri, h) :=
    match eth_second pkt with
    | Some eth_type =>
        let '(alt_flow, pri, h) := child_match h pkt (en_next self !! eth_type) pri in
        (over alt_flow flow, pri, h)
    | None => (flow, pri, h)
    end in
  let '(alt_flow, pri, h) := fi_match h pkt (en_misc self) pri in
  (over alt_flow flow, pri, h).

Definition find_flow_eth_type (h : flow_heap) (self : eth_node) (flow : ref) : option ref :=
  match get_match_eth_type (ml h flow) with
  | Some eth_type => en_next self !! eth_type ≫= (fun flowinfo => fi_find h flowinfo flow)
  | None => fi_find h (en_misc self) flow
  end.

#[global] Instance eth_node_new : FlowinfoNew eth_node := new_flowinfo_eth_type.

#[global] Instance eth_node_ops : FlowinfoOps eth_node := {
  fi_nflow := en_nflow;
  fi_add := add_flow_eth_type;
  fi_del := del_flow_eth_type;
  fi_match := match_flow_eth_type;
  fi_find := find_flow_eth_type
}.

Abbreviation eth_key := get_match_eth_type.

Definition eth_flows (t : eth_node) : list ref := disp_flows (en_next t) (en_misc t).

Definition eth_wf (h : flow_heap) (t : eth_node) : Prop :=
  disp_wf eth_key h (en_next t) (en_misc t) /\ en_nflow t = Z.of_nat (length (eth_flows t)).

Definition eth_keys (pkt : lagopus_packet) (k : Z) : Prop :=
  k = pk_ether_type pkt \/ eth_second pkt = Some k.

Lemma add_flow_eth_type_law h t r :
  eth_wf h t -> match_list_ok (ml h r) ->
  exists t' f', add_flow_eth_type h t r = (LAGOPUS_RESULT_OK, t', <[r := f']> h) /\
    added (h !!! r) f' /\ eth_wf (<[r := f']> h) t' /\ eth_flows t' ≡ₚ r :: eth_flows t.
Proof.
  intros (Hd & Hn) Hok. unfold add_flow_eth_type.
  destruct (get_match_eth_type (ml h r)) as [k|] eqn:Hk.
  - destruct (disp_or_new eth_key h _ _ k (new_eth_child k) Hd) as (c & Hc & Hwf & Hp).
    { intros ms Hms. cbn [fi_accepts eth_child_spec]. unfold ml_kind.
      by rewrite Hms, new_eth_child_kind. }
    fold (table_or_new (en_next t) k (new_eth_child k)). rewrite Hc.
    set (fm := set_fl_match_list (set_except_flag is_ether_type (fl_match_list (h !!! r))) (h !!! r)).
    change (mark_flow is_ether_type h r) with (<[r := fm]> h).
    assert (forall x, same_key (h !!! x) (<[r := fm]> h !!! x)) as Hsame.
    { intros x. destruct (decide (x = r)) as [->|]; [|by rewrite lookup_total_insert_ne].
      rewrite lookup_total_insert_eq. split_and!; [done|done|]. symmetry. apply set_except_flag_eq. }
    assert (ml_eq (ml h r) (ml (<[r := fm]> h) r)) as Hml by apply same_key_ml, Hsame.
    destruct (disp_add_table eth_key (<[r := fm]> h) _ (en_misc t) k c r
      (disp_wf_ext eth_key h _ _ _ (fun x _ => Hsame x) Hwf) Hc) as (c' & f' & -> & Ha & Hwf' & Hp').
    { by rewrite <- Hml. }
    { by rewrite <- Hml. }
    rewrite lookup_total_insert_eq in Ha. rewrite insert_insert_eq in Hwf'. rewrite Hp in Hp'.
    eexists _, f'. split; [by rewrite insert_insert_eq|]. split; [by eapply added_mark_before|].
    split; [|exact Hp']. split; [exact Hwf'|]. unfold eth_flows in *. cbn [en_nflow en_next en_misc].
    rewrite (Permutation_length Hp'), Hn. cbn [inc_ok is_ok length]. lia.
  - destruct (disp_add_misc eth_key h _ _ r Hd Hok Hk) as (b' & f' & -> & Ha & Hwf & Hp).
    eexists _, f'. split; [reflexivity|]. split; [done|]. split; [|exact Hp].
    split; [exact Hwf|]. unfold eth_flows in *. cbn [en_nflow en_next en_misc].
    rewrite (Permutation_length Hp), Hn. cbn [inc_ok is_ok length]. lia.
Qed.

Lemma del_flow_eth_type_law h t r :
  eth_wf h t -> r ∈ eth_flows t ->
  exists t', del_flow_eth_type h t r = (LAGOPUS_RESULT_OK, t') /\ eth_wf h t' /\
    eth_flows t ≡ₚ r :: eth_flows t'.
Proof.
  intros (Hd & Hn) Hr. unfold del_flow_eth_type.
  destruct (get_match_eth_type (ml h r)) as [k|] eqn:Hk.
  - destruct (disp_del_table eth_key h _ _ k r Hd Hr Hk) as (c & c' & Hc & E & Hwf & Hp).
    rewrite Hc, E. eexists. split; [reflexivity|]. split; [|exact Hp].
    split; [exact Hwf|]. unfold eth_flows in *. cbn [en_nflow en_next en_misc].
    rewrite (Permutation_length Hp) in Hn. rewrite Hn. cbn [dec_ok is_ok length]. lia.
  - destruct (disp_del_misc eth_key h _ _ r Hd Hr Hk) as (b' & E & Hwf & Hp).
    rewrite E. eexists. split; [reflexivity|]. split; [|exact Hp].
    split; [exact Hwf|]. unfold eth_flows in *. cbn [en_nflow en_next en_misc].
    rewrite (Permutation_length Hp) in Hn. rewrite Hn. cbn [dec_ok is_ok length]. lia.
Qed.

Lemma match_flow_eth_type_law h pkt t pri :
  eth_wf h t -> pos_ok h (eth_flows t) (disp_needs_pos (A := eth_child) (B := basic) eth_key) pri ->
  let '(r, pri', h') := match_flow_eth_type h pkt t pri in
  heap_eqv h h' /\
  best (fun x => x ∈ eth_flows t /\
         disp_admits (A := eth_child) (B := basic) eth_key eth_keys pkt (ml h x) /\
         match_byteoff pkt (h !!! x) = true) (prio h) pri r pri'.
Proof.
  intros (Hd & _) Hpos. unfold match_flow_eth_type.
  pose proof (disp_pos_table _ _ _ _ _ Hd Hpos) as Hp1.
  pose proof (disp_pos_misc _ _ _ _ _ Hd Hpos) as Hp2.
  pose proof (table_match_law eth_key h h pkt (en_next t) (pk_ether_type pkt) pri
    ltac:(done) (proj1 Hd) Hp1) as H1.
  destruct (child_match h pkt _ pri) as [[r1 pri1] h1]. destruct H1 as [He1 Hb1].
  assert (pos_ok h (table_flows (en_next t)) (fi_needs_pos (A := eth_child)) pri1) as Hp1'
    by (eapply pos_ok_le; [by eapply best_le|done]).
  set (step2 := match eth_second pkt with Some _ => _ | None => _ end).
  assert (let '(r2, pri2, h2) := step2 in heap_eqv h h2 /\
    best (fun x => exists k, eth_keys pkt k /\ table_cand eth_key h pkt (en_next t) k x)
      (prio h) pri r2 pri2) as H2.
  { unfold step2, eth_keys. destruct (eth_second pkt) as [k2|].
    - pose proof (table_match_law eth_key h h1 pkt (en_next t) k2 pri1 He1 (proj1 Hd) Hp1') as H2.
      destruct (child_match h1 pkt _ pri1) as [[r2 pri2] h2]. destruct H2 as [He2 Hb2].
      split; [done|]. eapply best_ext; [|done|exact (best_seq _ _ _ _ _ _ _ _ Hb1 Hb2)].
      intros x. naive_solver.
    - split; [done|]. eapply best_ext; [|done|exact Hb1]. intros x. naive_solver. }
  destruct step2 as [[r2 pri2] h2]. destruct H2 as [He2 Hb2].
  pose proof (fi_match_eqv h h2 pkt (en_misc t) pri2 He2 (proj1 (proj2 Hd))
    (pos_ok_le _ _ _ _ _ (best_le _ _ _ _ _ Hb2) Hp2)) as H3.
  destruct (fi_match h2 pkt (en_misc t) pri2) as [[r3 pri3] h3]. destruct H3 as [He3 Hb3].
  split; [done|]. eapply best_ext; [|done|exact (best_seq _ _ _ _ _ _ _ _ Hb2 Hb3)].
  intros x. unfold eth_flows. rewrite (disp_cand eth_key h pkt _ _ eth_keys) by done. done.
Qed.

#[global, refine] Instance eth_node_spec : FlowinfoSpec eth_node := {
  fi_flows := eth_flows;
  fi_wf := eth_wf;
  fi_accepts _ _ := True;
  fi_admits := disp_admits (A := eth_child) (B := basic) eth_key eth_keys;
  fi_needs_pos := disp_needs_pos (A := eth_child) (B := basic) eth_key
}.
Proof.
  - intros h h' t Hk (Hd & Hn). split; [|done]. exact (disp_wf_ext eth_key h h' _ _ Hk Hd).
  - intros h t r (Hd & _) Hr. exact (disp_wf_ok eth_key h _ _ r Hd Hr).
  - intros h t (_ & Hn). exact Hn.
  - intros h t r Hwf Hok _.
    destruct (add_flow_eth_type_law h t r Hwf Hok) as (t' & f' & H1 & H2 & H3 & H4).
    exists t', f'. by split_and!.
  - intros h t r Hwf Hr. destruct (del_flow_eth_type_law h t r Hwf Hr) as (t' & H1 & H2 & H3).
    exists t'. by split_and!.
  - intros h pkt t pri. apply match_flow_eth_type_law.
  - intros h t r (Hd & _) Hok. cbn [fi_find eth_node_ops]. unfold find_flow_eth_type.
    destruct (get_match_eth_type (ml h r)) as [k|] eqn:Hk.
    + by apply (disp_find_table eth_key).
    + by apply (disp_find_misc eth_key).
Defined.

#[global] Instance eth_node_empty : FlowinfoEmpty (fi_new : eth_node).
Proof.
  assert (eth_flows new_flowinfo_eth_type = []) as Hf by reflexivity.
  split; [|exact Hf]. intros h. split; [|done].
  split; [exact (table_wf_empty eth_key h)|]. split; [exact (fe_wf (t := (fi_new : basic)) h)|].
  split; [|intros; apply accepts_all]. intros r Hr. by apply elem_of_nil in Hr.
Qed.

#[global] Instance eth_node_accepts_all : AcceptsAll eth_node.
Proof. by intros ??. Qed.

(** ** The roots *)

Abbreviation vlan_vid := (hash_node vlan_class eth_node eth_node).
Abbreviation in_port := (hash_node in_port_class vlan_vid vlan_vid).
Abbreviation metadata := (key_node metadata_class eth_node).
Abbreviation metadata_mask := (mask_node metadata_class eth_node eth_node).

(** *** The functions of each file, by name *)

Definition new_flowinfo_in_port : in_port := fi_new.
Definition add_flow_in_port (h : flow_heap) (self : in_port) flow := hash_add h self flow.
Definition del_flow_in_port (h : flow_heap) (self : in_port) flow := hash_del h self flow.
Definition match_flow_in_port h pkt (self : in_port) pri := hash_match h pkt self pri.
Definition find_flow_in_port h (self : in_port) flow := hash_find h self flow.

Definition new_flowinfo_vlan_vid : vlan_vid := fi_new.
Definition add_flow_vlan_vid (h : flow_heap) (self : vlan_vid) flow := hash_add h self flow.
Definition del_flow_vlan_vid (h : flow_heap) (self : vlan_vid) flow := hash_del h self flow.
Definition match_flow_vlan_vid h pkt (self : vlan_vid) pri := hash_match h pkt self pri.
Definition find_flow_vlan_vid h (self : vlan_vid) flow := hash_find h self flow.

Definition new_flowinfo_mpls : mpls := fi_new.
Definition add_flow_mpls (h : flow_heap) (self : mpls) flow := hash_add h self flow.
Definition del_flow_mpls (h : flow_heap) (self : mpls) flow := hash_del h self flow.
Definition match_flow_mpls h pkt (self : mpls) pri := hash_match h pkt self pri.
Definition find_flow_mpls h (self : mpls) flow := hash_find h self flow.

Definition new_flowinfo_ipv4 : ipv4 := fi_new.
Definition add_flow_ipv4 (h : flow_heap) (self : ipv4) flow := proto_add h self flow.
Definition del_flow_ipv4 (h : flow_heap) (self : ipv4) flow := proto_del h self flow.
Definition match_flow_ipv4 h pkt (self : ipv4) pri := proto_match h pkt self pri.
Definition find_flow_ipv4 h (self : ipv4) flow := proto_find h self flow.

Definition new_flowinfo_ipv6 : ipv6 := fi_new.
Definition add_flow_ipv6 (h : flow_heap) (self : ipv6) flow := proto_add h self flow.
Definition del_flow_ipv6 (h : flow_heap) (self : ipv6) flow := proto_del h self flow.
Definition match_flow_ipv6 h pkt (self : ipv6) pri := proto_match h pkt self pri.
Definition find_flow_ipv6 h (self : ipv6) flow := proto_find h self flow.

Definition new_flowinfo_ipv4_dst_mask : ipv4_dst_mask := fi_new.
Definition add_flow_ipv4_dst_mask (h : flow_heap) (self : ipv4_dst_mask) flow := mask_add h self flow.
Definition del_flow_ipv4_dst_mask (h : flow_heap) (self : ipv4_dst_mask) flow := mask_del h self flow.
Definition match_flow_ipv4_dst_mask h pkt (self : ipv4_dst_mask) pri := mask_match h pkt self pri.
Definition find_flow_ipv4_dst_mask h (self : ipv4_dst_mask) flow := mask_find h self flow.
Definition new_flowinfo_ipv4_dst (mask : Z) : ipv4_dst := new_key_node mask.
Definition add_flow_ipv4_dst (h : flow_heap) (self : ipv4_dst) flow := key_add h self flow.
Definition del_flow_ipv4_dst (h : flow_heap) (self : ipv4_dst) flow := key_del h self flow.
Definition match_flow_ipv4_dst h pkt (self : ipv4_dst) pri := key_match h pkt self pri.
Definition find_flow_ipv4_dst h (self : ipv4_dst) flow := key_find h self flow.

Definition new_flowinfo_ipv4_src_mask : ipv4_src_mask := fi_new.
Definition add_flow_ipv4_src_mask (h : flow_heap) (self : ipv4_src_mask) flow := mask_add h self flow.
Definition del_flow_ipv4_src_mask (h : flow_heap) (self : ipv4_src_mask) flow := mask_del h self flow.
Definition match_flow_ipv4_src_mask h pkt (self : ipv4_src_mask) pri := mask_match h pkt self pri.
Definition find_flow_ipv4_src_mask h (self : ipv4_src_mask) flow := mask_find h self flow.
Definition new_flowinfo_ipv4_src (mask : Z) : ipv4_src := new_key_node mask.
Definition add_flow_ipv4_src (h : flow_heap) (self : ipv4_src) flow := key_add h self flow.
Definition del_flow_ipv4_src (h : flow_heap) (self : ipv4_src) flow := key_del h self flow.
Definition match_flow_ipv4_src h pkt (self : ipv4_src) pri := key_match h pkt self pri.
Definition find_flow_ipv4_src h (self : ipv4_src) flow := key_find h self flow.

Definition new_flowinfo_metadata_mask : metadata_mask := fi_new.
Definition add_flow_metadata_mask (h : flow_heap) (self : metadata_mask) flow := mask_add h self flow.
Definition del_flow_metadata_mask (h : flow_heap) (self : metadata_mask) flow := mask_del h self flow.
Definition match_flow_metadata_mask h pkt (self : metadata_mask) pri := mask_match h pkt self pri.
Definition find_flow_metadata_mask h (self : metadata_mask) flow := mask_find h self flow.
Definition new_flowinfo_metadata (mask : Z) : metadata := new_key_node mask.
Definition add_flow_metadata (h : flow_heap) (self : metadata) flow := key_add h self flow.
Definition del_flow_metadata (h : flow_heap) (self : metadata) flow := key_del h self flow.
Definition match_flow_metadata h pkt (self : metadata) pri := key_match h pkt self pri.
Definition find_flow_metadata h (self : metadata) flow := key_find h self flow.

(** *** [flowinfo.c]: the hooks of the flow database *)

(** [table->userdata], when it is not NULL. *)
Inductive flowinfo_root :=
  | RootVlan (t : vlan_vid)
  | RootMetadata (t : metadata_mask).

Definition add_flow (h : flow_heap) (table_id : Z) (userdata : option flowinfo_root) (flow : ref)
    : option flowinfo_root * flow_heap :=
  let root := match userdata with
              | Some root => root
              | None => if table_id =? 0 then RootVlan new_flowinfo_vlan_vid
                        else RootMetadata new_flowinfo_metadata_mask
              end in
  match root with
  | RootVlan t => let '(_, t, h) := add_flow_vlan_vid h t flow in (Some (RootVlan t), h)
  | RootMetadata t => let '(_, t, h) := add_flow_metadata_mask h t flow in (Some (RootMetadata t), h)
  end.

Definition del_flow (h : flow_heap) (userdata : option flowinfo_root) (flow : ref)
    : option flowinfo_root :=
  match userdata with
  | None => None
  | Some (RootVlan t) => Some (RootVlan (del_flow_vlan_vid h t flow).2)
  | Some (RootMetadata t) => Some (RootMetadata (del_flow_metadata_mask h t flow).2)
  end.

Definition find_flow (h : flow_heap) (userdata : option flowinfo_root) (flow : ref) : option ref :=
  match userdata with
  | None => None
  | Some (RootVlan t) => find_flow_vlan_vid h t flow
  | Some (RootMetadata t) => find_flow_metadata_mask h t flow
  end.

(** [lagopus_find_flow] of [packet.h]. *)
Definition lagopus_find_flow (h : flow_heap) (pkt : lagopus_packet)
    (userdata : option flowinfo_root) : option ref * flow_heap :=
  match userdata with
  | None => (None, h)
  | Some (RootVlan t) => let '(flow, _, h) := match_flow_vlan_vid h pkt t (-1) in (flow, h)
  | Some (RootMetadata t) =>
      let '(flow, _, h) := match_flow_metadata_mask h pkt t (-1) in (flow, h)
  end.

(** ** What the tree means *)

(** The fields the path to a flow stands for, compared with the packet. *)
Definition proto_agrees (pkt : lagopus_packet) (ms : list match_) : bool :=
  match get_match_ip_proto ms with Some p => p =? pkt_proto pkt | None => true end.

Definition masked_agrees (field : Z) (vm : option (Z * Z)) : bool :=
  match vm with Some (v, mask) => Z.land field mask =? v | None => true end.

(** Below an IPv4 node the source address selects the path only for flows without a
    destination address. *)
Definition ipv4_agrees (pkt : lagopus_packet) (ms : list match_) : bool :=
  match get_match_ipv4_dst ms with
  | Some vm => masked_agrees (rd32 (base_bytes pkt L3_BASE) 16) (Some vm)
  | None => masked_agrees (rd32 (base_bytes pkt L3_BASE) 12) (get_match_ipv4_src ms)
  end && proto_agrees pkt ms.

Definition mpls_agrees (pkt : lagopus_packet) (ms : list match_) : bool :=
  match get_match_mpls_label ms with Some k => k =? pkt_mpls_key pkt | None => true end.

Definition eth_agrees (pkt : lagopus_packet) (ms : list match_) : bool :=
  match get_match_eth_type ms with
  | None => true
  | Some e =>
      ((e =? pk_ether_type pkt) || bool_decide (eth_second pkt = Some e)) &&
      match kind_of e with
      | KIpv4 => ipv4_agrees pkt ms
      | KIpv6 => proto_agrees pkt ms
      | KMpls => mpls_agrees pkt ms
      | KBasic => true
      end
  end.

Definition path_agrees (table_id : Z) (pkt : lagopus_packet) (ms : list match_) : bool :=
  (if table_id =? 0
   then match get_match_vlan_vid ms with Some v => v =? pkt_vlan_key pkt | None => true end
   else masked_agrees (oob_metadata pkt) (get_match_metadata ms))
  && eth_agrees pkt ms.

(** The flows that lie below a mask node. *)
Definition ipv4_masked (ms : list match_) : bool :=
  match get_match_eth_type ms with
  | Some e => bool_decide (kind_of e = KIpv4) &&
      match get_match_ipv4_dst ms, get_match_ipv4_src ms with None, None => false | _, _ => true end
  | None => false
  end.

Definition below_mask (table_id : Z) (ms : list match_) : bool :=
  (if table_id =? 0 then false
   else match get_match_metadata ms with Some _ => true | None => false end)
  || ipv4_masked ms.

Lemma proto_agrees_spec pkt ms :
  fi_admits (A := proto_node basic) pkt ms <-> proto_agrees pkt ms = true.
Proof.
  cbn [fi_admits proto_spec]. unfold disp_admits, proto_agrees, proto_keys. cbn.
  destruct (get_match_ip_proto ms); rewrite ?Z.eqb_eq; tauto.
Qed.

Lemma ipv4_agrees_spec pkt ms : fi_admits (A := ipv4_dst_mask) pkt ms <-> ipv4_agrees pkt ms = true.
Proof.
  unfold ipv4_agrees, masked_agrees. rewrite andb_true_iff, <- proto_agrees_spec.
  rewrite mask_admits_spec. cbn [kc_get kc_pkt ipv4_dst_class].
  destruct (get_match_ipv4_dst ms) as [[v mask]|]; [by rewrite Z.eqb_eq|].
  rewrite mask_admits_spec. cbn [kc_get kc_pkt ipv4_src_class].
  destruct (get_match_ipv4_src ms) as [[v mask]|]; [by rewrite Z.eqb_eq|tauto].
Qed.

Lemma mpls_agrees_spec pkt ms : fi_admits (A := mpls) pkt ms <-> mpls_agrees pkt ms = true.
Proof.
  cbn [fi_admits hash_spec]. unfold disp_admits, mpls_agrees, hash_keys. cbn.
  destruct (get_match_mpls_label ms); rewrite ?Z.eqb_eq; tauto.
Qed.

Lemma eth_agrees_spec pkt ms : fi_admits (A := eth_node) pkt ms <-> eth_agrees pkt ms = true.
Proof.
  cbn [fi_admits eth_node_spec]. unfold disp_admits at 1, eth_agrees, eth_keys.
  destruct (get_match_eth_type ms) as [e|] eqn:Ee; [|cbn; tauto].
  rewrite andb_true_iff, orb_true_iff, Z.eqb_eq, bool_decide_eq_true.
  cbn [fi_admits eth_child_spec]. unfold eth_child_admits, ml_kind. rewrite Ee.
  cbn [fmap option_fmap option_map]. destruct (kind_of e).
  - by rewrite ipv4_agrees_spec.
  - by rewrite proto_agrees_spec.
  - by rewrite mpls_agrees_spec.
  - cbn. tauto.
Qed.

(** ** The invariant of [table->userdata] *)

Definition root_flows (userdata : option flowinfo_root) : list ref :=
  match userdata with
  | None => []
  | Some (RootVlan t) => fi_flows t
  | Some (RootMetadata t) => fi_flows t
  end.

Definition root_wf (h : flow_heap) (table_id : Z) (userdata : option flowinfo_root) : Prop :=
  match userdata with
  | None => True
  | Some (RootVlan t) => table_id = 0 /\ fi_wf h t
  | Some (RootMetadata t) => table_id <> 0 /\ fi_wf h t
  end.

Lemma root_wf_ext h h' tid u :
  (forall r, r ∈ root_flows u -> same_key (h !!! r) (h' !!! r)) ->
  root_wf h tid u -> root_wf h' tid u.
Proof.
  destruct u as [[t|t]|]; [| |done]; intros Hk [Ht Hwf]; (split; [done|]; by eapply fi_wf_ext).
Qed.

Lemma root_wf_ok h tid u r : root_wf h tid u -> r ∈ root_flows u -> match_list_ok (ml h r).
Proof.
  destruct u as [[t|t]|]; intros Hwf Hr.
  - by apply (fi_wf_ok h t r (proj2 Hwf)).
  - by apply (fi_wf_ok h t r (proj2 Hwf)).
  - by apply elem_of_nil in Hr.
Qed.

Lemma add_flow_law h tid u r :
  root_wf h tid u -> match_list_ok (ml h r) ->
  exists u' f', add_flow h tid u r = (u', <[r := f']> h) /\ added (h !!! r) f' /\
    root_wf (<[r := f']> h) tid u' /\ root_flows u' ≡ₚ r :: root_flows u.
Proof.
  intros Hwf Hok. unfold add_flow.
  set (root := match u with Some root => root | None => _ end).
  assert (root_wf h tid (Some root) /\ root_flows (Some root) = root_flows u) as [Hwf' <-].
  { unfold root. destruct u as [root'|]; [done|]. destruct (Z.eqb_spec tid 0).
    - split; [split; [done|exact (fe_wf (t := (fi_new : vlan_vid)) h)]|].
      exact (fe_flows (t := (fi_new : vlan_vid))).
    - split; [split; [done|exact (fe_wf (t := (fi_new : metadata_mask)) h)]|].
      exact (fe_flows (t := (fi_new : metadata_mask))). }
  clearbody root. destruct root as [t|t]; destruct Hwf' as [Ht Hwf'];
    destruct (fi_add_law h t r Hwf' Hok I) as (t' & f' & E & Ha & H1 & H2 & _);
    cbn [fi_add hash_ops mask_ops] in E; unfold add_flow_vlan_vid, add_flow_metadata_mask;
    rewrite E; eexists _, f'; by split_and!.
Qed.

Lemma del_flow_law h tid u r :
  root_wf h tid u -> r ∈ root_flows u ->
  root_wf h tid (del_flow h u r) /\ root_flows u ≡ₚ r :: root_flows (del_flow h u r).
Proof.
  destruct u as [[t|t]|]; intros Hwf Hr; [| |by apply elem_of_nil in Hr]; destruct Hwf as [Ht Hwf];
    destruct (fi_del_law h t r Hwf Hr) as (t' & E & H1 & H2 & _); cbn [fi_del hash_ops mask_ops] in E;
    cbn [del_flow]; unfold del_flow_vlan_vid, del_flow_metadata_mask; rewrite E; by split.
Qed.

Lemma find_flow_law h tid u r :
  root_wf h tid u -> match_list_ok (ml h r) ->
  match find_flow h u r with
  | Some x => x ∈ root_flows u /\ flow_compare (h !!! r) (h !!! x) = true
  | None => forall x, x ∈ root_flows u -> flow_compare (h !!! r) (h !!! x) = false
  end.
Proof.
  destruct u as [[t|t]|]; intros Hwf Hok; cbn [find_flow root_flows].
  - exact (fi_find_law h t r (proj2 Hwf) Hok).
  - exact (fi_find_law h t r (proj2 Hwf) Hok).
  - intros x Hx. by apply elem_of_nil in Hx.
Qed.

(** *** What a packet can reach, and the flows found above priority 0 only *)

Lemma hash_admits_spec pkt ms :
  fi_admits (A := vlan_vid) pkt ms <->
  match get_match_vlan_vid ms with Some v => v = pkt_vlan_key pkt | None => True end /\
  fi_admits (A := eth_node) pkt ms.
Proof.
  cbn [fi_admits hash_spec]. unfold disp_admits at 1, hash_keys. cbn [hc_key hc_pkt vlan_class].
  destruct (get_match_vlan_vid ms); tauto.
Qed.

Lemma root_vlan_agrees pkt ms : fi_admits (A := vlan_vid) pkt ms <-> path_agrees 0 pkt ms = true.
Proof.
  rewrite hash_admits_spec, eth_agrees_spec. unfold path_agrees. cbn [Z.eqb].
  rewrite andb_true_iff. destruct (get_match_vlan_vid ms); rewrite ?Z.eqb_eq; tauto.
Qed.

Lemma root_metadata_agrees tid pkt ms :
  tid <> 0 -> fi_admits (A := metadata_mask) pkt ms <-> path_agrees tid pkt ms = true.
Proof.
  intros Ht. rewrite mask_admits_spec. unfold path_agrees, masked_agrees.
  destruct (Z.eqb_spec tid 0); [done|].
  rewrite andb_true_iff, <- eth_agrees_spec. cbn [kc_get kc_pkt metadata_class].
  destruct (get_match_metadata ms) as [[v mask]|]; rewrite ?Z.eqb_eq; tauto.
Qed.

Lemma mask_needs_pos_spec {K C B} `{KeyClassOk K}
    `{!FlowinfoOps C, !FlowinfoSpec C, !FlowinfoNew C, !FlowinfoEmpty (fi_new : C), !AcceptsAll C}
    `{!FlowinfoOps B, !FlowinfoSpec B, !FlowinfoNew B, !FlowinfoEmpty (fi_new : B), !AcceptsAll B} ms :
  fi_needs_pos (A := mask_node K C B) ms =
  match kc_get K ms with Some _ => true | None => fi_needs_pos (A := B) ms end.
Proof.
  cbn [fi_needs_pos mask_spec]. unfold mask_needs_pos, disp_needs_pos, kc_mask.
  by destruct (kc_get K ms) as [[v mask]|].
Qed.

Lemma eth_needs_pos_spec ms : fi_needs_pos (A := eth_node) ms = ipv4_masked ms.
Proof.
  cbn [fi_needs_pos eth_node_spec]. unfold disp_needs_pos at 1, ipv4_masked.
  assert (fi_needs_pos (A := proto_node basic) ms = false) as Hp.
  { cbn [fi_needs_pos proto_spec]. unfold disp_needs_pos. by destruct (get_match_ip_proto ms). }
  destruct (get_match_eth_type ms) as [e|] eqn:Ee; [|done].
  cbn [fi_needs_pos eth_child_spec]. unfold eth_child_needs_pos, ml_kind. rewrite Ee.
  cbn [fmap option_fmap option_map]. destruct (kind_of e).
  - rewrite mask_needs_pos_spec. cbn [kc_get ipv4_dst_class].
    destruct (get_match_ipv4_dst ms); [done|]. rewrite mask_needs_pos_spec. cbn [kc_get ipv4_src_class].
    destruct (get_match_ipv4_src ms); [done|]. by rewrite Hp.
  - by rewrite Hp.
  - cbn [fi_needs_pos hash_spec]. unfold disp_needs_pos. by destruct (hc_key mpls_class ms).
  - done.
Qed.

Lemma root_needs_pos tid u r :
  match u with RootVlan _ => tid = 0 | RootMetadata _ => tid <> 0 end ->
  match u with
  | RootVlan _ => fi_needs_pos (A := vlan_vid) r
  | RootMetadata _ => fi_needs_pos (A := metadata_mask) r
  end = below_mask tid r.
Proof.
  unfold below_mask. rewrite <- eth_needs_pos_spec. destruct u as [t|t].
  - intros ->. cbn [Z.eqb orb]. cbn [fi_needs_pos hash_spec]. unfold disp_needs_pos at 1.
    by destruct (hc_key vlan_class r).
  - intros Ht. destruct (Z.eqb_spec tid 0); [done|]. rewrite mask_needs_pos_spec.
    cbn [kc_get metadata_class]. by destruct (get_match_metadata r).
Qed.

(** ** Lookup *)

(** A flow of the table the packet matches. *)
Definition candidate (h : flow_heap) (tid : Z) (pkt : lagopus_packet) (u : option flowinfo_root)
    (x : ref) : Prop :=
  x ∈ root_flows u /\ path_agrees tid pkt (ml h x) = true /\ match_byteoff pkt (h !!! x) = true.

Definition masked_flows_positive (h : flow_heap) (tid : Z) (rs : list ref) : Prop :=
  forall x, x ∈ rs -> 0 <= prio h x /\ (below_mask tid (ml h x) = true -> 0 < prio h x).

Lemma lagopus_find_flow_law h tid pkt u :
  root_wf h tid u -> masked_flows_positive h tid (root_flows u) ->
  let '(r, h') := lagopus_find_flow h pkt u in
  heap_eqv h h' /\ exists pri, best (candidate h tid pkt u) (prio h) (-1) r pri.
Proof.
  intros Hwf Hpos. destruct u as [[t|t]|]; cbn [lagopus_find_flow]; cycle 2.
  { split; [done|]. exists (-1). split; [done|]. intros x [Hx _]. by apply elem_of_nil in Hx. }
  - destruct Hwf as [-> Hwf]. pose proof (fi_match_law h pkt t (-1) Hwf) as Hm.
    change (match_flow_vlan_vid h pkt t (-1)) with (fi_match h pkt t (-1)).
    destruct (fi_match h pkt t (-1)) as [[r pri] h']. destruct Hm as [He Hb].
    { right. intros x Hx Hn. apply (Hpos x Hx). rewrite <- (root_needs_pos 0 (RootVlan t)); done. }
    split; [done|]. exists pri. eapply best_ext; [|done|exact Hb].
    intros x. unfold candidate. by rewrite root_vlan_agrees.
  - destruct Hwf as [Ht Hwf]. pose proof (fi_match_law h pkt t (-1) Hwf) as Hm.
    change (match_flow_metadata_mask h pkt t (-1)) with (fi_match h pkt t (-1)).
    destruct (fi_match h pkt t (-1)) as [[r pri] h']. destruct Hm as [He Hb].
    { right. intros x Hx Hn. apply (Hpos x Hx). rewrite <- (root_needs_pos tid (RootMetadata t)); done. }
    split; [done|]. exists pri. eapply best_ext; [|done|exact Hb].
    intros x. unfold candidate. by rewrite root_metadata_agrees.
Qed.
