(* ===== verification/FlowTable.v ===== *)
(** * The lookup tree against its specification: a list of flows

    A flow table as a sequence of additions, deletions and lookups sees it.  The
    specification keeps the list of the flows that are installed and looks at the flows
    as they were handed over; the tree refines it: whatever the history, a lookup
    returns an installed flow of the highest priority among those that agree with the
    packet. *)
From S2P Require Import Prelude OpenFlow Packet FlowEntry ByteMatch Hashmap FlowinfoIntf FlowinfoTable FlowinfoBasic.
From S2P Require Import FlowinfoNodes FlowinfoMask FlowinfoTree.

(** ** Histories *)

Inductive tree_op :=
  | OpAdd (r : ref)
  | OpDel (r : ref)
  | OpLookup (pkt : lagopus_packet).

(** The flows and [table->userdata]. *)
Record tree := Tree { tr_heap : flow_heap; tr_root : option flowinfo_root }.

Definition tree_step (tid : Z) (s : tree) (op : tree_op) : tree :=
  match op with
  | OpAdd r => let '(u, h) := add_flow (tr_heap s) tid (tr_root s) r in Tree h u
  | OpDel r => Tree (tr_heap s) (del_flow (tr_heap s) (tr_root s) r)
  | OpLookup pkt => Tree (lagopus_find_flow (tr_heap s) pkt (tr_root s)).2 (tr_root s)
  end.

Definition tree_run (tid : Z) (h : flow_heap) (ops : list tree_op) : tree :=
  foldl (tree_step tid) (Tree h None) ops.

(** The specification: the installed flows. *)
Definition live_step (live : list ref) (op : tree_op) : list ref :=
  match op with
  | OpAdd r => r :: live
  | OpDel r => filter (fun x => x <> r) live
  | OpLookup _ => live
  end.

Definition live_flows (ops : list tree_op) : list ref := foldl live_step [] ops.

(** What the flow database guarantees of a history: a flow is added once, with a match
    list as parsed; only an installed flow is deleted; priorities are unsigned, and
    positive for the flows a mask node will hold. *)
Definition flow_ok (h : flow_heap) (tid : Z) (r : ref) : Prop :=
  match_list_ok (ml h r) /\ 0 <= prio h r /\ (below_mask tid (ml h r) = true -> 0 < prio h r).

Fixpoint history_ok (h : flow_heap) (tid : Z) (seen live : list ref) (ops : list tree_op) : Prop :=
  match ops with
  | [] => True
  | op :: ops' =>
      (match op with
       | OpAdd r => ~ (r ∈ seen) /\ flow_ok h tid r
       | OpDel r => r ∈ live
       | OpLookup _ => True
       end) /\
      history_ok h tid (match op with OpAdd r => r :: seen | _ => seen end) (live_step live op) ops'
  end.

(** A flow handed over as [x] agrees with the packet: by the fields of its path, and by
    the bytes its match compiles to. *)
Definition flow_agrees (h : flow_heap) (tid : Z) (pkt : lagopus_packet) (x : ref) : bool :=
  path_agrees tid pkt (ml h x) && match_byteoff pkt (flow_make_match (h !!! x)).

(** ** The invariant *)

Lemma added_uncount f g f' :
  uncount f = uncount g -> added f f' -> exists g', added g g' /\ uncount f' = uncount g'.
Proof.
  intros E (ms & Hms & ->). destruct (uncount_same _ _ E) as (H1 & H2 & H3 & H4).
  exists (set_fl_byteoff_match (compile (fl_match_list g) (fl_byteoff_match g))
            (set_fl_match_list ms g)).
  split; [exists ms; by rewrite <- H1|]. destruct f, g. cbn in *. by injection E as ->; subst.
Qed.

Lemma added_byteoff f f' : added f f' -> fl_byteoff_match f' = fl_byteoff_match (flow_make_match f).
Proof. intros (ms & _ & ->). by destruct f. Qed.

#[global] Instance path_agrees_proper tid pkt : Proper (ml_eq ==> eq) (path_agrees tid pkt).
Proof.
  intros ms ms' E. apply eq_true_iff_eq. destruct (decide (tid = 0)) as [->|Ht].
  - by rewrite <- !root_vlan_agrees, E.
  - by rewrite <- !(root_metadata_agrees tid), E.
Qed.

#[global] Instance below_mask_proper tid : Proper (ml_eq ==> eq) (below_mask tid).
Proof.
  intros ms ms' E. destruct (decide (tid = 0)) as [->|Ht].
  - rewrite <- !(root_needs_pos 0 (RootVlan new_flowinfo_vlan_vid)) by done. by rewrite E.
  - rewrite <- !(root_needs_pos tid (RootMetadata new_flowinfo_metadata_mask)) by done. by rewrite E.
Qed.

(** A flow of the heap is the one handed over, compiled once it was added, up to
    counters. *)
Definition entry_of (h0 h : flow_heap) (seen : list ref) (x : ref) : Prop :=
  exists f, (if decide (x ∈ seen) then added (h0 !!! x) f else f = h0 !!! x) /\
            uncount (h !!! x) = uncount f.

Record tree_inv (h0 : flow_heap) (tid : Z) (seen live : list ref) (s : tree) : Prop := {
  ti_wf : root_wf (tr_heap s) tid (tr_root s);
  ti_flows : root_flows (tr_root s) ≡ₚ live;
  ti_nodup : NoDup live;
  ti_seen : forall x, x ∈ live -> x ∈ seen;
  ti_ok : forall x, x ∈ seen -> flow_ok h0 tid x;
  ti_entry : forall x, entry_of h0 (tr_heap s) seen x
}.

Lemma entry_key h0 h seen x : entry_of h0 h seen x -> same_key (h0 !!! x) (h !!! x).
Proof.
  intros (f & Hf & E). rewrite (uncount_same_key _ _ E).
  destruct (decide (x ∈ seen)); [by apply added_same_key|by subst].
Qed.

Lemma tree_inv_empty h tid : tree_inv h tid [] [] (Tree h None).
Proof.
  split; cbn; try done.
  - apply NoDup_nil_2.
  - intros x Hx. by apply elem_of_nil in Hx.
  - intros x. exists (h !!! x). by destruct (decide (x ∈ [])) as [Hx%elem_of_nil|].
Qed.

Lemma tree_inv_add h0 tid seen live s r :
  tree_inv h0 tid seen live s -> r ∉ seen -> flow_ok h0 tid r ->
  tree_inv h0 tid (r :: seen) (r :: live) (tree_step tid s (OpAdd r)).
Proof.
  intros [Hwf Hf Hnd Hseen Hok He] Hr Hrok. cbn [tree_step].
  pose proof (entry_key _ _ _ _ (He r)) as Hk.
  destruct (add_flow_law (tr_heap s) tid (tr_root s) r Hwf) as (u' & f' & -> & Ha & Hwf' & Hp).
  { unfold ml. rewrite <- (same_key_ml _ _ Hk). apply Hrok. }
  split; cbn [tr_heap tr_root].
  - done.
  - by rewrite Hp, Hf.
  - constructor; [|done]. intros Hin. by apply Hr, Hseen.
  - intros x [->|Hx]%elem_of_cons; [by left|right; by apply Hseen].
  - intros x [->|Hx]%elem_of_cons; [done|by apply Hok].
  - intros x. destruct (decide (x = r)) as [->|Hne].
    + destruct (He r) as (f & Hf' & E). destruct (decide (r ∈ seen)); [done|]. subst f.
      destruct (added_uncount _ _ _ E Ha) as (g' & Hg & Eg). exists g'.
      rewrite lookup_total_insert_eq. destruct (decide (r ∈ r :: seen)) as [|Hn]; [done|].
      exfalso. apply Hn. by left.
    + destruct (He x) as (f & Hf' & E). exists f. rewrite lookup_total_insert_ne by done.
      split; [|done]. destruct (decide (x ∈ seen)), (decide (x ∈ r :: seen)); set_solver.
Qed.

Lemma tree_inv_del h0 tid seen live s r :
  tree_inv h0 tid seen live s -> r ∈ live ->
  tree_inv h0 tid seen (filter (fun x => x <> r) live) (tree_step tid s (OpDel r)).
Proof.
  intros [Hwf Hf Hnd Hseen Hok He] Hr. cbn [tree_step].
  destruct (del_flow_law (tr_heap s) tid (tr_root s) r Hwf) as [Hwf' Hp]; [by rewrite Hf|].
  split; cbn [tr_heap tr_root]; try done.
  - rewrite Hf in Hp. rewrite Hp in Hnd. rewrite Hp. rewrite filter_cons_False by naive_solver.
    symmetry. apply NoDup_cons in Hnd as [Hn Hnd].
    assert (forall l : list ref, r ∉ l -> filter (fun x => x <> r) l = l) as Hid; [|by rewrite Hid].
    induction l as [|y l IH]; intros Hl; [done|]. rewrite filter_cons_True by set_solver.
    f_equal. apply IH. set_solver.
  - by apply NoDup_filter.
  - intros x [_ Hx]%list_elem_of_filter. by apply Hseen.
Qed.

Lemma tree_inv_positive h0 tid seen live s :
  tree_inv h0 tid seen live s ->
  masked_flows_positive (tr_heap s) tid (root_flows (tr_root s)).
Proof.
  intros [Hwf Hf Hnd Hseen Hok He] x Hx. rewrite Hf in Hx.
  destruct (Hok x (Hseen x Hx)) as (_ & H1 & H2).
  pose proof (entry_key _ _ _ _ (He x)) as Hk. unfold prio, ml in *.
  destruct Hk as (Hp & Hb & Hm). rewrite <- Hp. split; [done|]. intros Hmask. apply H2.
  assert (ml_eq (fl_match_list (h0 !!! x)) (fl_match_list (tr_heap s !!! x))) as E by done.
  by rewrite E.
Qed.

Lemma tree_inv_heap h0 tid seen live s h' :
  tree_inv h0 tid seen live s -> heap_eqv (tr_heap s) h' ->
  tree_inv h0 tid seen live (Tree h' (tr_root s)).
Proof.
  intros [Hwf Hf Hnd Hseen Hok He] Hh. split; cbn [tr_heap tr_root]; try done.
  - eapply root_wf_ext; [|exact Hwf]. intros x _. by apply heap_eqv_key.
  - intros x. destruct (He x) as (f & Hf' & E). exists f. split; [done|].
    by rewrite <- (heap_eqv_total _ _ _ Hh).
Qed.

Lemma tree_inv_lookup h0 tid seen live s pkt :
  tree_inv h0 tid seen live s -> tree_inv h0 tid seen live (tree_step tid s (OpLookup pkt)).
Proof.
  intros Hi. cbn [tree_step].
  pose proof (lagopus_find_flow_law (tr_heap s) tid pkt (tr_root s) (ti_wf _ _ _ _ _ Hi)
                (tree_inv_positive _ _ _ _ _ Hi)) as Hl.
  destruct (lagopus_find_flow _ _ _) as [r h']. destruct Hl as [Hh _].
  by eapply tree_inv_heap.
Qed.

Lemma tree_inv_run h0 tid seen live s ops :
  tree_inv h0 tid seen live s -> history_ok h0 tid seen live ops ->
  exists seen', tree_inv h0 tid seen' (foldl live_step live ops) (foldl (tree_step tid) s ops).
Proof.
  revert seen live s. induction ops as [|op ops IH]; intros seen live s Hi Hok; [by exists seen|].
  cbn [foldl]. destruct Hok as [Hop Hok]. eapply IH; [|exact Hok]. destruct op as [r|r|pkt]; cbn [live_step].
  - destruct Hop. by apply tree_inv_add.
  - by apply tree_inv_del.
  - by apply tree_inv_lookup.
Qed.

Lemma tree_inv_agrees h0 tid seen live s pkt x :
  tree_inv h0 tid seen live s -> x ∈ live ->
  (path_agrees tid pkt (ml (tr_heap s) x) && match_byteoff pkt (tr_heap s !!! x)) =
  flow_agrees h0 tid pkt x.
Proof.
  intros [Hwf Hf Hnd Hseen Hok He] Hx. unfold flow_agrees, ml.
  rewrite <- (same_key_ml _ _ (entry_key _ _ _ _ (He x))). f_equal.
  destruct (He x) as (f & Hf' & E). rewrite (match_byteoff_uncount pkt _ _ E).
  destruct (decide (x ∈ seen)) as [_|Hn]; [|by destruct Hn; apply Hseen].
  unfold match_byteoff. by rewrite (added_byteoff _ _ Hf').
Qed.

(** ** Lookups refine the specification *)


(** Two flows of table 0 and one of table 1, for the witnesses. *)
Definition sample_tcp (prio_ : Z) : flow :=
  Flow (replicate MAX_BASE byteoff_zero) (replicate INSTRUCTION_INDEX_MAX None) 0 0 0 prio_ 0 0 0
    [Match false OFPXMC_OPENFLOW_BASIC (FIELD OFPXMT_OFB_ETH_TYPE) 2 [8; 0];
     Match false OFPXMC_OPENFLOW_BASIC (FIELD_WITH_MASK OFPXMT_OFB_IPV4_DST) 8
       [10; 0; 0; 0; 255; 0; 0; 0]] [] 0 0 (0, 0) (0, 0) None.
Definition sample_metadata (prio_ : Z) : flow :=
  Flow (replicate MAX_BASE byteoff_zero) (replicate INSTRUCTION_INDEX_MAX None) 0 0 0 prio_ 0 0 0
    [Match false OFPXMC_OPENFLOW_BASIC (FIELD OFPXMT_OFB_METADATA) 8 (replicate 8 0)]
    [] 0 1 (0, 0) (0, 0) None.

Definition sample_heap : flow_heap :=
  <[1%nat := sample_tcp 10]> (<[2%nat := sample_tcp 20]> (<[3%nat := sample_metadata 0]> ∅)).

Definition sample_packet : lagopus_packet := lagopus_packet_init (packet_of sample_frame) 1.

Definition sample_history : list tree_op :=
  [OpAdd 1%nat; OpAdd 2%nat; OpLookup sample_packet; OpDel 2%nat].

Lemma sample_ml_ok r : r ∈ [1; 2; 3]%nat -> match_list_ok (ml sample_heap r).
Proof.
  assert (forall l, forallb (fun b => (0 <=? b) && (b <? 256)) l = true -> bytes_ok l) as Hb.
  { intros l. rewrite forallb_forall. intros H. apply Forall_forall.
    intros x Hx%list_elem_of_In%H. lia. }
  assert (forall m, Z.of_nat (length (oxm_value m)) = oxm_length m ->
            forallb (fun b => (0 <=? b) && (b <? 256)) (oxm_value m) = true ->
            match_sized m /\ bytes_ok (oxm_value m)) as Hm by (intros m H1 H2; split; [done|auto]).
  intros Hr. repeat (apply elem_of_cons in Hr as [->|Hr]); [..|by apply elem_of_nil in Hr];
    unfold match_list_ok; repeat (apply Forall_cons; split; [apply Hm; vm_compute; reflexivity|]);
    apply Forall_nil, I.
Qed.

Lemma sample_history_ok : history_ok sample_heap 0 [] [] sample_history.
Proof.
  assert (forall r, r ∈ [1; 2]%nat -> flow_ok sample_heap 0 r) as Hf.
  { intros r Hr. split; [apply sample_ml_ok; set_solver|].
    repeat (apply elem_of_cons in Hr as [->|Hr]); [..|by apply elem_of_nil in Hr];
      (split; [vm_compute; discriminate|intros _; vm_compute; reflexivity]). }
  cbn [sample_history history_ok live_step]. split_and!; try done; try (apply Hf); set_solver.
Qed.


(** Evaluated: with both flows the one of priority 20 is found, then the other one. *)
Example sample_lookup :
  let before := tree_run 0 sample_heap (take 2 sample_history) in
  let after := tree_run 0 sample_heap sample_history in
  ((lagopus_find_flow (tr_heap before) sample_packet (tr_root before)).1,
   (lagopus_find_flow (tr_heap after) sample_packet (tr_root after)).1) =
  (Some 2%nat, Some 1%nat).
Proof. vm_compute. reflexivity. Qed.

(** After any history the tree holds exactly the installed flows, each once, and the
    [nflow] counter of its root, which the deletion code relies on, is their number. *)
Theorem tree_contents (h : flow_heap) (tid : Z) (ops : list tree_op)
    (Hok : history_ok h tid [] [] ops) :
  let u := tr_root (tree_run tid h ops) in
  root_flows u ≡ₚ live_flows ops /\ NoDup (root_flows u) /\
  match u with
  | None => live_flows ops = []
  | Some (RootVlan t) => tid = 0 /\ fi_nflow t = Z.of_nat (length (live_flows ops))
  | Some (RootMetadata t) => tid <> 0 /\ fi_nflow t = Z.of_nat (length (live_flows ops))
  end.
Proof.
  destruct (tree_inv_run h tid [] [] (Tree h None) ops (tree_inv_empty h tid) Hok) as [seen Hi].
  fold (tree_run tid h ops) (live_flows ops) in Hi. cbv zeta.
  destruct Hi as [Hwf Hf Hnd _ _ _]. split; [done|]. split; [by rewrite Hf|].
  destruct (tr_root _) as [[t|t]|].
  - split; [apply Hwf|]. rewrite <- (Permutation_length Hf). by apply (fi_nflow_law _ t (proj2 Hwf)).
  - split; [apply Hwf|]. rewrite <- (Permutation_length Hf). by apply (fi_nflow_law _ t (proj2 Hwf)).
  - by apply Permutation_nil.
Qed.

Lemma tree_contents_witness :
  let u := tr_root (tree_run 0 sample_heap sample_history) in
  root_flows u ≡ₚ live_flows sample_history /\ NoDup (root_flows u) /\
  match u with
  | None => live_flows sample_history = []
  | Some (RootVlan t) => 0 = 0 /\ fi_nflow t = Z.of_nat (length (live_flows sample_history))
  | Some (RootMetadata t) => 0 <> 0 /\ fi_nflow t = Z.of_nat (length (live_flows sample_history))
  end.
Proof. apply (tree_contents sample_heap 0 sample_history). exact sample_history_ok. Defined.

(** [find_flow] after any history decides whether an installed flow is identical
    to a given one (same priority, same fields, same values): it returns such a flow, or
    NULL when there is none. *)
Theorem tree_find_refines (h : flow_heap) (tid : Z) (ops : list tree_op) (r : ref)
    (Hok : history_ok h tid [] [] ops) (Hr : match_list_ok (ml h r)) :
  let s := tree_run tid h ops in
  match find_flow (tr_heap s) (tr_root s) r with
  | Some x => x ∈ live_flows ops /\ flow_compare (h !!! r) (h !!! x) = true
  | None => forall x, x ∈ live_flows ops -> flow_compare (h !!! r) (h !!! x) = false
  end.
Proof.
  destruct (tree_inv_run h tid [] [] (Tree h None) ops (tree_inv_empty h tid) Hok) as [seen Hi].
  fold (tree_run tid h ops) (live_flows ops) in Hi. cbv zeta. set (s := tree_run tid h ops) in *.
  assert (forall x y, flow_compare (h !!! x) (h !!! y) =
                      flow_compare (tr_heap s !!! x) (tr_heap s !!! y)) as Hc.
  { intros x y. apply flow_compare_proper; exact (entry_key _ _ _ _ (ti_entry _ _ _ _ _ Hi _)). }
  assert (match_list_ok (ml (tr_heap s) r)) as Hr'.
  { unfold ml. rewrite <- (same_key_ml _ _ (entry_key _ _ _ _ (ti_entry _ _ _ _ _ Hi r))). exact Hr. }
  pose proof (find_flow_law _ _ _ r (ti_wf _ _ _ _ _ Hi) Hr') as Hf.
  destruct (find_flow _ _ r) as [x|].
  - rewrite Hc, <- (ti_flows _ _ _ _ _ Hi). exact Hf.
  - intros x. rewrite Hc, <- (ti_flows _ _ _ _ _ Hi). apply Hf.
Qed.

Lemma tree_find_refines_witness :
  let s := tree_run 0 sample_heap sample_history in
  match find_flow (tr_heap s) (tr_root s) 2%nat with
  | Some x => x ∈ live_flows sample_history /\
      flow_compare (sample_heap !!! 2%nat) (sample_heap !!! x) = true
  | None => forall x, x ∈ live_flows sample_history ->
      flow_compare (sample_heap !!! 2%nat) (sample_heap !!! x) = false
  end.
Proof.
  apply tree_find_refines; [exact sample_history_ok|]. apply sample_ml_ok. set_solver.
Defined.

(** Below a mask node a flow of priority 0 is never found: the search starts
    with priority 0 there and asks for a higher one.  Flow 3 matches the metadata of
    every packet fresh from the port, is the only flow of table 1, and is missed. *)
Theorem masked_priority_zero_lost :
  let s := tree_run 1 sample_heap [OpAdd 3%nat] in
  live_flows [OpAdd 3%nat] = [3%nat] /\
  flow_agrees sample_heap 1 sample_packet 3%nat = true /\
  (lagopus_find_flow (tr_heap s) sample_packet (tr_root s)).1 = None.
Proof. split; [reflexivity|]. split; vm_compute; reflexivity. Qed.
