(* ===== verification/Endian.v ===== *)
(** * Byte order

    The bits of [OS_NTOHS], [OS_NTOHL] and [OS_NTOHLL]: each swaps the bytes of its word,
    so each is an involution and commutes with the bitwise operations.  The hash
    tables of groups and meters use byte-swapped keys, and the metadata register of a
    packet is kept in network byte order. *)
From S2P Require Import Prelude.

Lemma testbit_mask n m i : 0 <= n -> m = Z.ones n -> Z.testbit m i = ((0 <=? i) && (i <? n)).
Proof.
  intros Hn ->. destruct (Z.leb_spec 0 i); [|by rewrite Z.testbit_neg_r by lia].
  rewrite Z.testbit_ones by lia. destruct (Z.leb_spec 0 i); [|lia]. done.
Qed.

(** Decide a comparison of the goal and go on with [tac]. *)
Ltac cases_leb tac :=
  repeat match goal with
  | |- context [?a <=? ?b] => destruct (Z.leb_spec a b)
  | |- context [?a <? ?b] => destruct (Z.ltb_spec a b)
  end; rewrite ?andb_false_r, ?andb_true_r, ?orb_false_r, ?orb_false_l; try lia; tac.

Lemma OS_NTOHS_testbit x i :
  0 <= i -> Z.testbit (OS_NTOHS x) i =
    if i <? 8 then Z.testbit x (i + 8) else if i <? 16 then Z.testbit x (i - 8) else false.
Proof.
  intros Hi. unfold OS_NTOHS. rewrite Z.lor_spec, Z.shiftl_spec, !Z.land_spec, Z.shiftr_spec by lia.
  rewrite !(testbit_mask 8 255) by done. cases_leb ltac:(try done).
Qed.

Lemma OS_NTOHL_testbit x i :
  0 <= i -> Z.testbit (OS_NTOHL x) i =
    if i <? 16 then Z.testbit (OS_NTOHS (Z.shiftr x 16)) i
    else Z.testbit (OS_NTOHS (Z.land x 65535)) (i - 16).
Proof.
  intros Hi. unfold OS_NTOHL. rewrite Z.lor_spec, Z.shiftl_spec by lia.
  destruct (Z.ltb_spec i 16) as [H|H].
  - rewrite (Z.testbit_neg_r _ (i - 16)) by lia. by rewrite orb_false_r.
  - rewrite OS_NTOHS_testbit by lia. cases_leb ltac:(done).
Qed.

(** The position a bit of a [w]-byte word comes from. *)
Definition swapped (w i : Z) : Z := 8 * (w - 1 - i / 8) + i mod 8.

Lemma OS_NTOHL_swap x i :
  0 <= i -> Z.testbit (OS_NTOHL x) i = if i <? 32 then Z.testbit x (swapped 4 i) else false.
Proof.
  intros Hi. rewrite OS_NTOHL_testbit by done. unfold swapped.
  pose proof (Z.div_mod i 8 ltac:(lia)). pose proof (Z.mod_pos_bound i 8 ltac:(lia)).
  destruct (Z.ltb_spec i 32) as [Hlt|Hge]; cycle 1.
  { destruct (Z.ltb_spec i 16); [lia|]. rewrite OS_NTOHS_testbit by lia. cases_leb ltac:(done). }
  destruct (Z.ltb_spec i 16); rewrite OS_NTOHS_testbit by lia;
    rewrite ?Z.shiftr_spec, ?Z.land_spec, ?(testbit_mask 16 65535) by (lia || done);
    cases_leb ltac:(rewrite ?Z.shiftr_spec by lia; f_equal; lia).
Qed.

Lemma OS_NTOHLL_swap x i :
  0 <= i -> Z.testbit (OS_NTOHLL x) i = if i <? 64 then Z.testbit x (swapped 8 i) else false.
Proof.
  intros Hi. unfold OS_NTOHLL, swapped. rewrite Z.lor_spec, Z.shiftl_spec by lia.
  pose proof (Z.div_mod i 8 ltac:(lia)). pose proof (Z.mod_pos_bound i 8 ltac:(lia)).
  assert ((i - 32) / 8 = i / 8 - 4 /\ (i - 32) mod 8 = i mod 8) as [Hd Hm].
  { replace (i - 32) with (i + (-4) * 8) by lia. rewrite Z.div_add, Z.mod_add by lia. lia. }
  rewrite OS_NTOHL_swap by lia. unfold swapped.
  destruct (Z.ltb_spec i 32) as [H1|H1].
  - rewrite (Z.testbit_neg_r _ (i - 32)), orb_false_r by lia. rewrite Z.shiftr_spec by lia.
    cases_leb ltac:(f_equal; lia).
  - cbn [orb]. rewrite OS_NTOHL_swap by lia. unfold swapped. rewrite Hd, Hm.
    destruct (Z.ltb_spec (i - 32) 32), (Z.ltb_spec i 64); try lia.
    rewrite Z.land_spec, (testbit_mask 32 4294967295) by (lia || done).
    cases_leb ltac:(f_equal; lia).
Qed.

Lemma swapped_swapped w i : 0 <= i < 8 * w -> swapped w (swapped w i) = i.
Proof.
  intros Hi. unfold swapped.
  pose proof (Z.div_mod i 8 ltac:(lia)). pose proof (Z.mod_pos_bound i 8 ltac:(lia)).
  replace (8 * (w - 1 - i / 8) + i mod 8) with (i mod 8 + (w - 1 - i / 8) * 8) by lia.
  rewrite Z.div_add, Z.mod_add, Z.mod_mod, (Z.div_small (i mod 8) 8) by lia. lia.
Qed.

Lemma swapped_range w i : 0 <= i < 8 * w -> 0 <= swapped w i < 8 * w.
Proof.
  intros Hi. unfold swapped.
  pose proof (Z.div_mod i 8 ltac:(lia)). pose proof (Z.mod_pos_bound i 8 ltac:(lia)). lia.
Qed.

Lemma OS_NTOHL_involutive x : 0 <= x < 2 ^ 32 -> OS_NTOHL (OS_NTOHL x) = x.
Proof.
  intros Hx. apply Z.bits_inj'. intros i Hi. rewrite OS_NTOHL_swap by done.
  destruct (Z.ltb_spec i 32) as [Hlt|Hge].
  - pose proof (swapped_range 4 i ltac:(lia)). rewrite OS_NTOHL_swap by lia.
    destruct (Z.ltb_spec (swapped 4 i) 32); [|lia]. by rewrite swapped_swapped by lia.
  - symmetry. destruct (decide (x = 0)) as [->|]; [by rewrite Z.testbit_0_l|].
    apply Z.bits_above_log2; [lia|]. assert (Z.log2 x < 32); [|lia].
    apply Z.log2_lt_pow2; lia.
Qed.

(** The keys of the group and meter tables are as good as the identifiers. *)
Lemma OS_NTOHL_inj x y : 0 <= x < 2 ^ 32 -> 0 <= y < 2 ^ 32 -> OS_NTOHL x = OS_NTOHL y -> x = y.
Proof.
  intros Hx Hy E. by rewrite <- (OS_NTOHL_involutive x), E, OS_NTOHL_involutive by done.
Qed.

(** ** Arithmetic forms *)

Lemma OS_NTOHS_arith x : OS_NTOHS x = (x / 256) mod 256 + 256 * (x mod 256).
Proof.
  unfold OS_NTOHS. change 255 with (Z.ones 8). rewrite !Z.land_ones by lia.
  rewrite Z.shiftr_div_pow2, Z.shiftl_mul_pow2 by lia. change (2 ^ 8) with 256.
  rewrite <- Z.add_lor_land, (Z.mul_comm (x mod 256)).
  assert (Z.land ((x / 256) mod 256) (256 * (x mod 256)) = 0) as ->; [|lia].
  apply Z.bits_inj'. intros i Hi. rewrite Z.land_spec, Z.bits_0.
  change 256 with (2 ^ 8). rewrite (Z.mul_comm (2 ^ 8)), <- Z.shiftl_mul_pow2, Z.shiftl_spec by lia.
  destruct (Z.ltb_spec i 8).
  - by rewrite (Z.testbit_neg_r _ (i - 8)), andb_false_r by lia.
  - by rewrite Z.mod_pow2_bits_high by lia.
Qed.

Lemma OS_NTOHS_range x : 0 <= OS_NTOHS x < 65536.
Proof.
  rewrite OS_NTOHS_arith. pose proof (Z.mod_pos_bound (x / 256) 256). pose proof (Z.mod_pos_bound x 256). lia.
Qed.

Lemma OS_NTOHS_involutive x : 0 <= x < 65536 -> OS_NTOHS (OS_NTOHS x) = x.
Proof.
  intros Hx. rewrite (OS_NTOHS_arith (OS_NTOHS x)), (OS_NTOHS_arith x).
  pose proof (Z.div_mod x 256 ltac:(lia)). pose proof (Z.mod_pos_bound x 256 ltac:(lia)).
  assert (0 <= x / 256 < 256) by (split; [apply Z.div_pos; lia|apply Z.div_lt_upper_bound; lia]).
  rewrite (Z.mod_small (x / 256)) by lia.
  rewrite (Z.mul_comm 256 (x mod 256)), Z.div_add, Z_mod_plus_full by lia.
  rewrite (Z.div_small (x / 256)), !(Z.mod_small (x / 256)) by lia. rewrite Z.mod_small by lia. lia.
Qed.
