(* ===== verification/ActionSet.v ===== *)
(** * Action sets, metadata and bucket selection

    The parts of [src/dataplane/ofproto/datapath.c] that an action set is made with:
    [merge_action_set], the table [action_prop] of priorities, [lagopus_set_action_function] and
    [lagopus_set_instruction_function] (as the tag of the handler installed), [write_metadata],
    and [group_select_bucket]. *)
From S2P Require Import Prelude OpenFlow Packet Endian.

(** ** Action sets *)

(** [action_prop[type].priority] *)
Definition action_prop : list Z :=
  [11; 0; 0; 0; 0; 0; 0; 0; 0; 0; 0; 6; 1; 0; 0; 8; 7; 5; 2; 3; 2; 9; 10; 1; 1; 8; 4; 2].

(** The guard [type > sizeof (action_prop) / sizeof (action_prop[0])] admits the type one past
    the array (OFPAT_ENCAP); the model reads a reserved entry there. *)
Definition action_priority (type : Z) : Z :=
  if Z.of_nat (length action_prop) <? type then 0 else nth (Z.to_nat type) action_prop 0.

Definition LAGOPUS_ACTION_SET_ORDER_MAX := 11%nat.
Definition LAGOPUS_ACTION_SET_ORDER_OUTPUT := 10%nat.

(** [GET_OXM_FIELD]: the field of a SET_FIELD action, from its OXM header. *)
Definition GET_OXM_FIELD (a : action) : Z :=
  match act_ofpat a with
  | ofp_action_set_field field => Z.land (Z.shiftr (rd8 field 2) 1) 0x7f
  | _ => 0
  end.

Definition action_type (a : action) : Z := ofpat_type (act_ofpat a).

(** The test of the inner loop: [ac] gives way to [a]. *)
Definition same_action (a ac : action) : bool :=
  (action_type ac =? action_type a) &&
  (if action_type ac =? OFPAT_SET_FIELD then GET_OXM_FIELD ac =? GET_OXM_FIELD a else true).

(** TAILQ_REMOVE of the first element that satisfies the test. *)
Fixpoint remove_first {A} (p : A -> bool) (l : list A) : list A :=
  match l with
  | [] => []
  | x :: l' => if p x then l' else x :: remove_first p l'
  end.

(** One round of [merge_action_set]. *)
Definition merge_action (actions : list (list action)) (a : action) : list (list action) :=
  let priority := action_priority (action_type a) in
  if priority =? 0 then actions
  else alter (fun l => remove_first (same_action a) l ++ [a]) (Z.to_nat (priority - 1)) actions.

Definition merge_action_set (actions : list (list action)) (action_list : list action)
    : list (list action) :=
  foldl merge_action actions action_list.

Definition init_action_set : list (list action) := replicate LAGOPUS_ACTION_SET_ORDER_MAX [].

(** The actions in the order [execute_action_set] runs them. *)
Definition execution_order (actions : list (list action)) : list action := concat actions.

(** ** Handlers, as the type they belong to *)

(** The cases of the switch. *)
Definition known_action (type : Z) : bool :=
  bool_decide (type ∈ [OFPAT_OUTPUT; OFPAT_COPY_TTL_OUT; OFPAT_COPY_TTL_IN; OFPAT_SET_MPLS_TTL;
    OFPAT_DEC_MPLS_TTL; OFPAT_PUSH_VLAN; OFPAT_POP_VLAN; OFPAT_PUSH_MPLS; OFPAT_POP_MPLS;
    OFPAT_SET_QUEUE; OFPAT_GROUP; OFPAT_SET_NW_TTL; OFPAT_DEC_NW_TTL; OFPAT_SET_FIELD;
    OFPAT_PUSH_PBB; OFPAT_POP_PBB; OFPAT_ENCAP; OFPAT_DECAP; OFPAT_EXPERIMENTER]).

(** [lagopus_set_action_function]: [None] stands for [execute_action_none]. *)
Definition lagopus_set_action_function (a : action) : action :=
  Action (if known_action (action_type a) then Some (action_type a) else None)
    (act_cookie a) (act_flags a) (act_ofpat a).

(** [lagopus_set_instruction_function]: [None] stands for [execute_instruction_none]. *)
Definition lagopus_set_instruction_function (i : instruction) : instruction :=
  Instruction (ins_type i) (ins_table_id i) (ins_metadata i) (ins_metadata_mask i)
    (ins_meter_id i) (ins_action_list i)
    (if bool_decide (ins_type i ∈ [OFPIT_GOTO_TABLE; OFPIT_WRITE_METADATA; OFPIT_WRITE_ACTIONS;
                       OFPIT_APPLY_ACTIONS; OFPIT_CLEAR_ACTIONS; OFPIT_METER; OFPIT_EXPERIMENTER])
     then Some (ins_type i) else None).

(** ** Metadata *)

(** The register is kept in network byte order. *)
Definition write_metadata (pkt : lagopus_packet) (metadata metadata_mask : Z) : lagopus_packet :=
  let m := Z.ldiff (oob_metadata pkt) (OS_HTONLL metadata_mask) in
  set_oob_metadata (Z.lor m (OS_HTONLL (Z.land metadata metadata_mask))) pkt.

(** ** Bucket selection *)

(** [struct bucket]: the OpenFlow bucket, its counter, and the actions as given and as
    the merged action set. *)
Record bucket := Bucket {
  bk_weight : Z;
  bk_watch_port : Z;
  bk_watch_group : Z;
  bk_packet_count : Z;
  bk_byte_count : Z;
  bk_action_list : list action;
  bk_actions : list (list action)
}.

(** [B] is the type of buckets, or of buckets with their position in the list. *)
Section Select.
Context {B : Type}.

(** The last loop: the first bucket at which the running sum reaches [sel]. *)
Fixpoint pick_bucket (weigh : B -> Z) (sel weight : Z) (l : list B) : option B :=
  match l with
  | [] => None
  | b :: l' =>
      let weight := u64 (weight + weigh b) in
      if sel <=? weight then Some b else pick_bucket weigh sel weight l'
  end.

Definition total_weight (weigh : B -> Z) (l : list B) : Z :=
  foldl (fun total b => u64 (total + weigh b)) 0 l.

Definition select_bucket (weigh : B -> Z) (hash64 : Z) (l : list B) : option B :=
  let total := total_weight weigh l in
  if total =? 0 then
    let total := total_weight (fun _ => 1) l in
    if total =? 0 then None
    else pick_bucket (fun _ => 1) (hash64 mod total + 1) 0 l
  else pick_bucket weigh (hash64 mod total + 1) 0 l.

End Select.

(** [hash64] is the hash of the packet ([pkt->hash64], computed when it is 0). *)
Definition group_select_bucket : Z -> list bucket -> option bucket := select_bucket bk_weight.

(** ** Lemmas on action sets *)

(** At most one action of each kind may stand in a set: a kind is the action type,
    and the field for SET_FIELD. *)
Definition kind_of_action (a : action) : Z * Z :=
  (action_type a, if action_type a =? OFPAT_SET_FIELD then GET_OXM_FIELD a else 0).

Lemma same_action_spec a ac : same_action a ac = true <-> kind_of_action ac = kind_of_action a.
Proof.
  unfold same_action, kind_of_action. rewrite andb_true_iff, Z.eqb_eq.
  destruct (decide (action_type ac = action_type a)) as [E|Hne].
  - rewrite E. destruct (action_type a =? OFPAT_SET_FIELD); [rewrite Z.eqb_eq|];
      (split; [intros [_ H]; congruence|intros H; split; [done|congruence]]).
  - split; [tauto|]. by intros [= E _].
Qed.

Definition set_wf (actions : list (list action)) : Prop :=
  length actions = LAGOPUS_ACTION_SET_ORDER_MAX /\
  forall i l, actions !! i = Some l ->
    NoDup (kind_of_action <$> l) /\
    forall a, a ∈ l -> action_priority (action_type a) = Z.of_nat i + 1.

(** The action of a kind in a set, and the last one of a kind in a list. *)
Definition set_lookup (actions : list (list action)) (k : Z * Z) : option action :=
  find (fun a => bool_decide (kind_of_action a = k)) (execution_order actions).
Definition last_of_kind (l : list action) (k : Z * Z) : option action :=
  last (filter (fun a => kind_of_action a = k) l).

Lemma action_priority_range type : 0 <= action_priority type <= 11.
Proof.
  unfold action_priority. destruct (_ <? _); [lia|].
  destruct (nth_in_or_default (Z.to_nat type) action_prop 0) as [H| ->]; [|lia].
  assert (Forall (fun p => 0 <= p <= 11) action_prop) as Hall by (repeat constructor; lia).
  rewrite Forall_forall in Hall. by apply Hall, list_elem_of_In.
Qed.

Lemma find_concat {A} (p : A -> bool) (ls : list (list A)) i l :
  ls !! i = Some l -> (forall j k x, ls !! j = Some k -> j <> i -> x ∈ k -> p x = false) ->
  find p (concat ls) = find p l.
Proof.
  revert i. induction ls as [|k ls IH]; intros [|i] Hi Hn; simplify_eq/=; rewrite find_app.
  - destruct (find p l); [done|]. apply find_all_false. intros x Hx.
    apply list_elem_of_In, in_concat in Hx as (k & Hk%list_elem_of_In & Hx%list_elem_of_In).
    apply list_elem_of_lookup in Hk as [j Hj]. by apply (Hn (S j) k).
  - rewrite (find_all_false p k); [|intros x Hx; by apply (Hn 0%nat k)].
    apply (IH i Hi). intros j k' x Hj Hne. apply (Hn (S j)); [done|lia].
Qed.

Definition is_kind (k : Z * Z) (a : action) : bool := bool_decide (kind_of_action a = k).

Lemma set_lookup_slot actions k i l :
  set_wf actions -> actions !! i = Some l -> action_priority k.1 = Z.of_nat i + 1 ->
  set_lookup actions k = find (is_kind k) l.
Proof.
  intros [_ Hwf] Hi Hp. apply (find_concat _ _ i); [done|]. intros j k' x Hj Hne Hx.
  apply bool_decide_eq_false. intros <-. destruct (Hwf j k' Hj) as [_ Hpr].
  specialize (Hpr x Hx). cbn in Hp. lia.
Qed.

Lemma set_lookup_reserved actions k :
  set_wf actions -> action_priority k.1 = 0 -> set_lookup actions k = None.
Proof.
  intros [_ Hwf] Hp. apply find_all_false. intros x Hx.
  apply list_elem_of_In, in_concat in Hx as (l & Hl%list_elem_of_In & Hx%list_elem_of_In).
  apply list_elem_of_lookup in Hl as [j Hj]. apply bool_decide_eq_false. intros <-.
  destruct (Hwf j l Hj) as [_ Hpr]. specialize (Hpr x Hx). cbn in Hp. lia.
Qed.

Lemma remove_first_sublist {A} (p : A -> bool) (l : list A) : sublist (remove_first p l) l.
Proof.
  induction l as [|x l IH]; cbn; [constructor|]. destruct (p x); [by constructor|by constructor].
Qed.

(** Removing the first action of a kind leaves none of that kind and all others. *)
Lemma remove_first_kind a l :
  NoDup (kind_of_action <$> l) ->
  NoDup (kind_of_action <$> remove_first (same_action a) l) /\
  ~ (kind_of_action a ∈ kind_of_action <$> remove_first (same_action a) l) /\
  forall k, k <> kind_of_action a ->
    find (is_kind k) (remove_first (same_action a) l) = find (is_kind k) l.
Proof.
  induction l as [|x l IH]; cbn [remove_first].
  { intros _. split_and!; [constructor|by apply not_elem_of_nil|done]. }
  rewrite fmap_cons. intros [Hn Hd]%NoDup_cons. destruct (IH Hd) as (H1 & H2 & H3).
  destruct (same_action a x) eqn:Es.
  - apply same_action_spec in Es. split_and!; [done|by rewrite <- Es|].
    intros k Hk. cbn. unfold is_kind at 2. rewrite bool_decide_eq_false_2; [done|congruence].
  - assert (kind_of_action x <> kind_of_action a) as Hne.
    { intros E%same_action_spec. congruence. }
    rewrite fmap_cons. split_and!.
    + constructor; [|done]. intros Hin. apply Hn. eapply elem_of_submseteq; [exact Hin|].
      apply sublist_submseteq, fmap_sublist, remove_first_sublist.
    + intros [E|Hin]%elem_of_cons; [by apply Hne|done].
    + intros k Hk. cbn. destruct (is_kind k x); [done|by apply H3].
Qed.

Lemma merge_action_wf actions a : set_wf actions -> set_wf (merge_action actions a).
Proof.
  intros [Hlen Hwf]. unfold merge_action. destruct (Z.eqb_spec (action_priority (action_type a)) 0); [done|].
  pose proof (action_priority_range (action_type a)) as Hr.
  split; [by rewrite length_alter|]. intros i l Hi.
  destruct (decide (i = Z.to_nat (action_priority (action_type a) - 1))) as [->|Hne]; cycle 1.
  { rewrite list_lookup_alter_ne in Hi by done. by apply Hwf. }
  rewrite list_lookup_alter_eq in Hi. apply fmap_Some in Hi as (l' & Hl' & ->).
  destruct (Hwf _ _ Hl') as [Hnd Hp]. destruct (remove_first_kind a l' Hnd) as (H1 & H2 & _).
  split.
  - rewrite fmap_app. apply NoDup_app. split_and!; [done| |apply NoDup_singleton].
    intros k Hk ->%list_elem_of_singleton. by apply H2.
  - intros b [Hb| ->%list_elem_of_singleton]%elem_of_app; [|lia].
    apply Hp. eapply elem_of_submseteq; [exact Hb|]. apply sublist_submseteq, remove_first_sublist.
Qed.

(** One merge: the action takes the place of the one of its kind. *)
Lemma merge_action_lookup actions a k :
  set_wf actions ->
  set_lookup (merge_action actions a) k =
  if bool_decide (kind_of_action a = k) && negb (action_priority (action_type a) =? 0)
  then Some a else set_lookup actions k.
Proof.
  intros Hwf. pose proof (merge_action_wf actions a Hwf) as Hwf'. unfold merge_action in *.
  destruct (Z.eqb_spec (action_priority (action_type a)) 0) as [|Hne]; [by rewrite andb_false_r|].
  rewrite andb_true_r. pose proof (action_priority_range (action_type a)) as Hr.
  set (i := Z.to_nat (action_priority (action_type a) - 1)) in *.
  assert (exists l, actions !! i = Some l) as [l Hl].
  { apply lookup_lt_is_Some. rewrite (proj1 Hwf). unfold LAGOPUS_ACTION_SET_ORDER_MAX. lia. }
  assert (alter (fun l => remove_first (same_action a) l ++ [a]) i actions !! i =
          Some (remove_first (same_action a) l ++ [a])) as Hl' by by rewrite list_lookup_alter_eq, Hl.
  destruct (remove_first_kind a l (proj1 (proj2 Hwf i l Hl))) as (_ & H2 & H3).
  destruct (decide (action_priority k.1 = Z.of_nat i + 1)) as [Hk|Hk].
  - rewrite !(set_lookup_slot _ k i _) by done. rewrite find_app. cbn [find]. unfold is_kind at 2.
    case_bool_decide as E.
    + subst k. rewrite find_all_false; [done|]. intros x Hx. apply bool_decide_eq_false. intros E.
      apply H2. rewrite <- E. by apply list_elem_of_fmap_2.
    + rewrite H3 by congruence. by destruct (find (is_kind k) l).
  - rewrite bool_decide_eq_false_2; [|intros <-; cbn in Hk; lia].
    destruct (decide (action_priority k.1 = 0)) as [H0|H0];
      [by rewrite !set_lookup_reserved by done|].
    pose proof (action_priority_range k.1) as Hrk. set (j := Z.to_nat (action_priority k.1 - 1)).
    assert (exists l, actions !! j = Some l) as [l2 Hj].
    { apply lookup_lt_is_Some. rewrite (proj1 Hwf). unfold LAGOPUS_ACTION_SET_ORDER_MAX. lia. }
    rewrite !(set_lookup_slot _ k j l2); [done|done|done|lia|done| |lia].
    rewrite list_lookup_alter_ne by lia. done.
Qed.

(** ** Properties *)


Definition sample_actions : list action :=
  [Action None 0 0 (ofp_action_output 1 0); Action None 0 0 (ofp_action_other OFPAT_POP_VLAN);
   Action None 0 0 (ofp_action_output 2 0)].

Lemma init_action_set_wf : set_wf init_action_set.
Proof.
  split; [done|]. intros i l Hi. apply lookup_replicate in Hi as [-> _].
  split; [constructor|]. intros a Ha. by apply elem_of_nil in Ha.
Qed.


Lemma testbit_above x i : 0 <= x < 2 ^ 64 -> 64 <= i -> Z.testbit x i = false.
Proof.
  intros Hx Hi. destruct (decide (x = 0)) as [->|]; [by rewrite Z.testbit_0_l|].
  apply Z.bits_above_log2; [lia|]. assert (Z.log2 x < 64); [|lia]. apply Z.log2_lt_pow2; lia.
Qed.

(** [write_metadata] replaces exactly the masked bits of the metadata register, read in
    host order, by those of the instruction: new = old & ~mask | value & mask. *)
Theorem write_metadata_correct (pkt : lagopus_packet) (metadata mask : Z)
    (Hv : 0 <= metadata < 2 ^ 64) (Hm : 0 <= mask < 2 ^ 64) :
  OS_NTOHLL (oob_metadata (write_metadata pkt metadata mask)) =
  Z.lor (Z.ldiff (OS_NTOHLL (oob_metadata pkt)) mask) (Z.land metadata mask).
Proof.
  apply Z.bits_inj'. intros i Hi. unfold write_metadata. cbn [oob_metadata set_oob_metadata].
  rewrite Z.lor_spec, Z.ldiff_spec, Z.land_spec, !OS_NTOHLL_swap by done.
  destruct (Z.ltb_spec i 64) as [Hlt|Hge].
  - pose proof (swapped_range 8 i ltac:(lia)).
    rewrite Z.lor_spec, Z.ldiff_spec, !OS_NTOHLL_swap, Z.land_spec by lia.
    destruct (Z.ltb_spec (swapped 8 i) 64); [|lia]. by rewrite swapped_swapped by lia.
  - by rewrite (testbit_above metadata), (testbit_above mask) by done.
Qed.

Lemma write_metadata_correct_witness :
  OS_NTOHLL (oob_metadata (write_metadata (packet_of sample_frame) 0x1234 0xff)) =
  Z.lor (Z.ldiff (OS_NTOHLL (oob_metadata (packet_of sample_frame))) 0xff) (Z.land 0x1234 0xff).
Proof. apply write_metadata_correct; lia. Defined.

(** The sum of the weights of a list of buckets. *)
Definition sum_weights {B} (weigh : B -> Z) (l : list B) : Z := foldr (fun b n => weigh b + n) 0 l.

Lemma sum_weights_nonneg {B} (weigh : B -> Z) l : (forall b, b ∈ l -> 0 <= weigh b) -> 0 <= sum_weights weigh l.
Proof.
  induction l as [|b l IH]; intros Hw; cbn; [done|].
  pose proof (Hw b ltac:(by left)). assert (0 <= sum_weights weigh l) by (apply IH; intros; apply Hw; by right).
  unfold sum_weights in *. lia.
Qed.

Lemma total_weight_sum {B} (weigh : B -> Z) l n :
  (forall b, b ∈ l -> 0 <= weigh b) -> 0 <= n -> n + sum_weights weigh l < 2 ^ 64 ->
  foldl (fun total b => u64 (total + weigh b)) n l = n + sum_weights weigh l.
Proof.
  revert n. induction l as [|b l IH]; intros n Hw Hn Hs; cbn; [lia|].
  pose proof (Hw b ltac:(by left)). assert (forall b, b ∈ l -> 0 <= weigh b) as Hw' by (intros; apply Hw; by right).
  pose proof (sum_weights_nonneg weigh l Hw'). cbn in Hs. fold (sum_weights weigh l) in Hs |- *.
  rewrite u64_small, IH by (done || lia). lia.
Qed.

(** The picked bucket is the one whose interval of the running sum holds [sel]. *)
Lemma pick_bucket_spec {B} (weigh : B -> Z) sel n l :
  (forall b, b ∈ l -> 0 <= weigh b) -> 0 <= n < sel -> sel <= n + sum_weights weigh l ->
  n + sum_weights weigh l < 2 ^ 64 ->
  exists before b after, l = before ++ b :: after /\ pick_bucket weigh sel n l = Some b /\
    n + sum_weights weigh before < sel <= n + sum_weights weigh before + weigh b.
Proof.
  revert n. induction l as [|b l IH]; intros n Hw Hn Hs Hb; cbn in *; [lia|].
  fold (sum_weights weigh l) in *.
  pose proof (Hw b ltac:(by left)). assert (forall b, b ∈ l -> 0 <= weigh b) as Hw' by (intros; apply Hw; by right).
  pose proof (sum_weights_nonneg weigh l Hw'). rewrite u64_small by lia.
  destruct (Z.leb_spec sel (n + weigh b)).
  - exists [], b, l. split_and!; [done|done|cbn; lia|cbn; lia].
  - destruct (IH (n + weigh b)) as (before & c & after & -> & Hp & H3); [done|lia|lia|lia|].
    exists (b :: before), c, after. split_and!; [done|done| |]; cbn; fold (sum_weights weigh before); lia.
Qed.

(** [group_select_bucket] divides the hash values among the buckets in proportion to
    their weights: with [s] the hash modulo the total weight, it selects the bucket in
    whose interval of the running sum [s] falls, so a bucket of weight 0 is never
    taken; when all weights are 0 every bucket counts as 1; and it returns none only
    for an empty list. *)
Theorem group_select_bucket_correct (hash64 : Z) (l : list bucket)
    (Hw : forall b, b ∈ l -> 0 <= bk_weight b < 2 ^ 16) (Hlen : Z.of_nat (length l) < 2 ^ 47) :
  let weigh := if sum_weights bk_weight l =? 0 then fun _ => 1 else bk_weight in
  match group_select_bucket hash64 l with
  | None => l = []
  | Some b => exists before after, l = before ++ b :: after /\
      sum_weights weigh before <= hash64 mod sum_weights weigh l < sum_weights weigh before + weigh b
  end.
Proof.
  assert (0 <= sum_weights bk_weight l <= Z.of_nat (length l) * 2 ^ 16) as Hs.
  { clear Hlen. induction l as [|b l IH]; cbn; [lia|]. pose proof (Hw b ltac:(by left)).
    assert (0 <= sum_weights bk_weight l <= Z.of_nat (length l) * 2 ^ 16) by (apply IH; intros; apply Hw; by right).
    unfold sum_weights in *. lia. }
  assert (sum_weights (fun _ => 1) l = Z.of_nat (length l)) as Hones.
  { clear. induction l as [|b l IH]; cbn; [done|]. unfold sum_weights in IH. lia. }
  assert (forall b, b ∈ l -> 0 <= bk_weight b) as Hw0 by (intros b Hb; by apply Hw in Hb as [? _]).
  unfold group_select_bucket, select_bucket, total_weight. cbv zeta.
  rewrite (total_weight_sum bk_weight), (total_weight_sum (fun _ => 1)) by (done || lia).
  rewrite !Z.add_0_l. destruct (Z.eqb_spec (sum_weights bk_weight l) 0) as [H0|H0].
  - destruct (Z.eqb_spec (sum_weights (fun _ => 1) l) 0) as [H1|H1].
    { destruct l; [done|]. rewrite Hones in H1. cbn in H1. lia. }
    pose proof (Z.mod_pos_bound hash64 (sum_weights (fun _ => 1) l) ltac:(lia)).
    destruct (pick_bucket_spec (fun _ => 1) (hash64 mod sum_weights (fun _ => 1) l + 1) 0 l)
      as (before & b & after & E & -> & H2); [done|lia|lia|lia|].
    exists before, after. split; [done|lia].
  - pose proof (Z.mod_pos_bound hash64 (sum_weights bk_weight l) ltac:(lia)).
    destruct (pick_bucket_spec bk_weight (hash64 mod sum_weights bk_weight l + 1) 0 l)
      as (before & b & after & E & -> & H2); [done|lia|lia|lia|].
    exists before, after. split; [done|lia].
Qed.

Definition sample_bucket (w : Z) : bucket := Bucket w 0 0 0 0 [] init_action_set.

Lemma group_select_bucket_correct_witness :
  group_select_bucket 5 [sample_bucket 2; sample_bucket 0; sample_bucket 1] = Some (sample_bucket 1) /\
  exists before after, [sample_bucket 2; sample_bucket 0; sample_bucket 1] = before ++ sample_bucket 1 :: after /\
    sum_weights bk_weight before <= 5 mod 3 < sum_weights bk_weight before + 1.
Proof.
  split; [vm_compute; reflexivity|].
  refine (group_select_bucket_correct 5 [sample_bucket 2; sample_bucket 0; sample_bucket 1] _ _); [|done].
  intros b Hb. repeat (apply elem_of_cons in Hb as [->|Hb]); [cbn; lia..|by apply elem_of_nil in Hb].
Defined.

(** The guard of [merge_action_set] compares the type with the number of entries of
    [action_prop] by [>], so the type just past the array, which is OFPAT_ENCAP, passes it and
    is used as an index. *)
Theorem encap_passes_guard :
  (Z.of_nat (length action_prop) <? OFPAT_ENCAP) = false /\
  action_prop !! Z.to_nat OFPAT_ENCAP = None /\
  known_action OFPAT_ENCAP = true.
Proof. by vm_compute. Qed.
