(* ===== verification/PacketEdit.v ===== *)
(** * Packet buffers: memory accesses, headroom and the monad of the data plane

    The buffer that holds a packet ([OS_MBUF]): the frame, the headroom in front of it, and the
    packet structure with its header pointers.  [OS_M_PREPEND] and [OS_M_ADJ] move the start of
    the frame; the pointers into the frame keep pointing at the same bytes, so their offsets
    shift.  Handlers of the data plane are in the monad of [Monad]: [Undefined] stands for
    dereferencing NULL, touching bytes outside the frame and asking for headroom that is not
    there. *)
From S2P Require Import Prelude Monad OpenFlow Packet ByteMatch Endian.

(** ** Buffers *)

(** [mb_room]: the headroom, whose last byte is next to the frame; [mb_has_port]:
    [pkt->in_port != NULL]. *)
Record mbuf := Mbuf {
  mb_room : bytes;
  mb_pkt : lagopus_packet;
  mb_has_port : bool;
  mb_queue_id : Z
}.

Abbreviation edit := (M mbuf).

Definition set_mb_pkt (v : lagopus_packet) (m : mbuf) : mbuf :=
  Mbuf (mb_room m) v (mb_has_port m) (mb_queue_id m).
Definition set_mb_has_port (v : bool) (m : mbuf) : mbuf :=
  Mbuf (mb_room m) (mb_pkt m) v (mb_queue_id m).
Definition set_mb_queue_id (v : Z) (m : mbuf) : mbuf :=
  Mbuf (mb_room m) (mb_pkt m) (mb_has_port m) v.

Definition frame (m : mbuf) : bytes := pk_data (mb_pkt m).

Definition upd_pkt (f : lagopus_packet -> lagopus_packet) : edit unit :=
  modify (fun m => set_mb_pkt (f (mb_pkt m)) m).
Definition get_pkt {A} (f : lagopus_packet -> A) : edit A := gets (fun m => f (mb_pkt m)).
Definition set_data (d : bytes) : edit unit := upd_pkt (set_pk_data d).

(** [OS_M_PKTLEN] *)
Definition pktlen : edit Z := gets (fun m => Z.of_nat (length (frame m))).

(** *** Header pointers *)

(** The pointer moved with the start of the frame by [n] bytes.  One that is left outside
    the frame reads as absent: the handlers give it a new value before they use it. *)
Definition up (n off : nat) : nat := (off + n)%nat.
Definition down (n off : nat) : option nat := if (n <=? off)%nat then Some (off - n)%nat else None.

Definition move_ptr (f : nat -> option nat) (x : option ptr) : option ptr :=
  match x with Some (PData off) => PData <$> f off | _ => x end.

Definition move_ptrs (f : nat -> option nat) (p : lagopus_packet) : lagopus_packet :=
  set_pk_base (map (move_ptr f) (pk_base p)) (set_pk_vlan (pk_vlan p ≫= f) p).

Definition OS_M_PREPEND (n : nat) : edit unit := fun m =>
  let k := (length (mb_room m) - n)%nat in
  if (n <=? length (mb_room m))%nat then
    Done (tt, Mbuf (take k (mb_room m))
                (set_pk_data (drop k (mb_room m) ++ frame m) (move_ptrs (fun off => Some (up n off)) (mb_pkt m)))
                (mb_has_port m) (mb_queue_id m))
  else Undefined.

Definition OS_M_ADJ (n : nat) : edit unit := fun m =>
  if (n <=? length (frame m))%nat then
    Done (tt, Mbuf (mb_room m ++ take n (frame m))
                (set_pk_data (drop n (frame m)) (move_ptrs (down n) (mb_pkt m)))
                (mb_has_port m) (mb_queue_id m))
  else Undefined.

(** The header [b] of the packet: [None] for NULL; dereferencing it. *)
Definition header (b : nat) : edit (option nat) := fun m =>
  match base_ptr (mb_pkt m) b with
  | Some (PData off) => Done (Some off, m)
  | None => Done (None, m)
  | _ => Undefined
  end.
Definition deref (b : nat) : edit nat := fun m =>
  match base_ptr (mb_pkt m) b with Some (PData off) => Done (off, m) | _ => Undefined end.

Definition set_header (b : nat) (off : option nat) : edit unit := upd_pkt (set_base b (PData <$> off)).

(** *** Loads and stores inside the frame *)

Definition in_frame (off n : nat) : edit unit := fun m =>
  if (off + n <=? length (frame m))%nat then Done (tt, m) else Undefined.

Definition load8 (off : nat) : edit Z :=
  in_frame off 1 ;; gets (fun m => rd8 (frame m) off).
Definition load16 (off : nat) : edit Z :=
  in_frame off 2 ;; gets (fun m => rd16 (frame m) off).
Definition load32 (off : nat) : edit Z :=
  in_frame off 4 ;; gets (fun m => rd32 (frame m) off).

(** [OS_MEMCPY] of a block into the frame, and words. *)
Definition store (off : nat) (v : bytes) : edit unit :=
  in_frame off (length v) ;; upd_pkt (fun p => set_pk_data (memcpy_at off v (pk_data p)) p).
Definition store8 (off : nat) (v : Z) : edit unit := store off (le_bytes 1 v).
Definition store16 (off : nat) (v : Z) : edit unit := store off (le_bytes 2 v).
Definition store32 (off : nat) (v : Z) : edit unit := store off (le_bytes 4 v).

(** [memmove (dst, src, n)] *)
Definition memmove (dst src n : nat) : edit unit :=
  in_frame src n ;;
  bs ← gets (fun m => take n (drop src (frame m)));
  store dst bs.

(** ** Lemmas on memory *)

Lemma rd8_drop k u i : rd8 (drop k u) i = rd8 u (k + i).
Proof. by rewrite !rd8_lookup, lookup_drop. Qed.

Lemma rd16_drop k u i : rd16 (drop k u) i = rd16 u (k + i).
Proof. unfold rd16. rewrite !rd8_drop. do 3 f_equal. lia. Qed.

Lemma rd32_drop k u i : rd32 (drop k u) i = rd32 u (k + i).
Proof. unfold rd32. rewrite !rd16_drop. do 3 f_equal. lia. Qed.

Lemma length_le_bytes w x : length (le_bytes w x) = w.
Proof. revert x. induction w as [|w IH]; intros x; cbn; [done|by rewrite IH]. Qed.

Lemma le_bytes_byte x : le_bytes 1 x = [x mod 256].
Proof. cbn [le_bytes]. change 255 with (Z.ones 8). by rewrite Z.land_ones. Qed.

(** A word stored is the word loaded. *)
Lemma le_bytes_rd w x k : (k < w)%nat -> rd8 (le_bytes w x) k = Z.shiftr x (8 * Z.of_nat k) mod 256.
Proof.
  revert x k. induction w as [|w IH]; intros x [|k] Hk; [lia|lia| |].
  - change (rd8 (le_bytes (S w) x) 0) with (Z.land x 255). change 255 with (Z.ones 8).
    by rewrite Z.land_ones, Z.shiftr_0_r.
  - cbn [le_bytes]. change (rd8 (_ :: le_bytes w (Z.shiftr x 8)) (S k)) with (rd8 (le_bytes w (Z.shiftr x 8)) k).
    rewrite IH by lia. rewrite Z.shiftr_shiftr by lia. do 2 f_equal. lia.
Qed.

Lemma rd16_le_bytes x : rd16 (le_bytes 2 x) 0 = x mod 2 ^ 16.
Proof.
  unfold rd16. rewrite !le_bytes_rd by lia. rewrite !Z.shiftr_div_pow2 by lia. cbn [Z.of_nat Nat.add].
  change (2 ^ (8 * 0)) with 1. change (2 ^ (8 * Z.of_nat 1)) with (2 ^ 8).
  rewrite Z.div_1_r. change (2 ^ 16) with (2 ^ 8 * 2 ^ 8). rewrite Z.rem_mul_r by lia. done.
Qed.

Lemma rd32_le_bytes x : rd32 (le_bytes 4 x) 0 = x mod 2 ^ 32.
Proof.
  unfold rd32, rd16. rewrite !le_bytes_rd by lia. rewrite !Z.shiftr_div_pow2 by lia. cbn [Z.of_nat Nat.add].
  change (2 ^ (8 * 0)) with 1. change (2 ^ (8 * Z.of_nat 1)) with (2 ^ 8).
  change (2 ^ (8 * Z.of_nat 2)) with (2 ^ 8 * 2 ^ 8).
  change (2 ^ (8 * Z.of_nat 3)) with (2 ^ 8 * 2 ^ 8 * 2 ^ 8).
  rewrite Z.div_1_r. change (2 ^ 32) with (2 ^ 8 * (2 ^ 8 * (2 ^ 8 * 2 ^ 8))).
  rewrite !Z.rem_mul_r by lia. rewrite !Z.div_div by lia. change 256 with (2 ^ 8). ring.
Qed.

(** Reading back a store, and past it. *)
Lemma rd8_memcpy_in off v d k :
  (off + length v <= length d)%nat -> (k < length v)%nat -> rd8 (memcpy_at off v d) (off + k) = rd8 v k.
Proof. intros Hl Hk. rewrite rd8_memcpy, decide_True by lia. f_equal. lia. Qed.

Lemma rd8_memcpy_out off v d k :
  ~ (off <= k < off + length v)%nat -> rd8 (memcpy_at off v d) k = rd8 d k.
Proof.
  intros Hk. rewrite !rd8_lookup. unfold memcpy_at.
  destruct (decide (k < off)%nat); [by rewrite list_lookup_inserts_lt|by rewrite list_lookup_inserts_ge by lia].
Qed.

Lemma rd16_store off v d :
  (off + 2 <= length d)%nat -> rd16 (memcpy_at off (le_bytes 2 v) d) off = v mod 2 ^ 16.
Proof.
  intros Hl. rewrite <- rd16_le_bytes. unfold rd16. rewrite <- (Nat.add_0_r off) at 2.
  rewrite !rd8_memcpy_in by (rewrite length_le_bytes; lia). done.
Qed.

Lemma rd32_store off v d :
  (off + 4 <= length d)%nat -> rd32 (memcpy_at off (le_bytes 4 v) d) off = v mod 2 ^ 32.
Proof.
  intros Hl. rewrite <- rd32_le_bytes. unfold rd32, rd16. rewrite <- (Nat.add_0_r off) at 2.
  rewrite <- !Nat.add_assoc. rewrite !rd8_memcpy_in by (rewrite length_le_bytes; lia). done.
Qed.

(** Storing what was loaded. *)
Lemma le_bytes_rd16 d o :
  bytes_ok d -> (o + 2 <= length d)%nat -> le_bytes 2 (rd16 d o) = take 2 (drop o d).
Proof.
  intros Hd Ho. apply list_eq. intros k.
  destruct (decide (k < 2)%nat) as [Hk|]; cycle 1.
  { rewrite !lookup_ge_None_2; [done|rewrite length_take; lia|rewrite length_le_bytes; lia]. }
  rewrite lookup_take_lt, lookup_drop by done.
  destruct (lookup_lt_is_Some_2 d (o + k) ltac:(lia)) as [x Ex].
  destruct (lookup_lt_is_Some_2 (le_bytes 2 (rd16 d o)) k ltac:(by rewrite length_le_bytes)) as [y Ey].
  rewrite Ex, Ey. f_equal. transitivity (rd8 (le_bytes 2 (rd16 d o)) k); [by rewrite rd8_lookup, Ey|].
  transitivity (rd8 d (o + k)); [|by rewrite rd8_lookup, Ex]. rewrite le_bytes_rd by done.
  pose proof (rd8_range d o Hd). pose proof (rd8_range d (o + 1) Hd).
  unfold rd16. rewrite Z.shiftr_div_pow2 by lia. destruct k as [|[|]]; [| |lia].
  - rewrite Nat.add_0_r. change (2 ^ (8 * Z.of_nat 0)) with 1. rewrite Z.div_1_r, Z.mul_comm.
    change (2 ^ 8) with 256. rewrite Z_mod_plus_full. by apply Z.mod_small.
  - change (2 ^ (8 * Z.of_nat 1)) with 256. rewrite Z.mul_comm, Z.div_add, Z.div_small, Z.add_0_l by lia.
    by apply Z.mod_small.
Qed.

(** ** Lemmas on buffers *)

(** The buffer with another frame. *)
Definition put_frame (d : bytes) (m : mbuf) : mbuf := set_mb_pkt (set_pk_data d (mb_pkt m)) m.

Lemma put_frame_twice d d' m : put_frame d (put_frame d' m) = put_frame d m.
Proof. by destruct m as [? [] ? ?]. Qed.

Lemma in_frame_Done off n m : (off + n <= length (frame m))%nat -> in_frame off n m = Done (tt, m).
Proof. intros H. unfold in_frame. by rewrite (proj2 (Nat.leb_le _ _) H). Qed.

Lemma deref_Done b off m : base_ptr (mb_pkt m) b = Some (PData off) -> deref b m = Done (off, m).
Proof. intros E. unfold deref. by rewrite E. Qed.

Lemma header_Done b x m : base_ptr (mb_pkt m) b = PData <$> x -> header b m = Done (x, m).
Proof. intros E. unfold header. rewrite E. by destruct x. Qed.

Lemma load8_Done off m : (off + 1 <= length (frame m))%nat -> load8 off m = Done (rd8 (frame m) off, m).
Proof. intros H. unfold load8. by rewrite (bind_Done _ _ _ _ _ (in_frame_Done _ _ _ H)). Qed.

Lemma load16_Done off m : (off + 2 <= length (frame m))%nat -> load16 off m = Done (rd16 (frame m) off, m).
Proof. intros H. unfold load16. by rewrite (bind_Done _ _ _ _ _ (in_frame_Done _ _ _ H)). Qed.

Lemma load32_Done off m : (off + 4 <= length (frame m))%nat -> load32 off m = Done (rd32 (frame m) off, m).
Proof. intros H. unfold load32. by rewrite (bind_Done _ _ _ _ _ (in_frame_Done _ _ _ H)). Qed.

Lemma store_Done off v m :
  (off + length v <= length (frame m))%nat ->
  store off v m = Done (tt, put_frame (memcpy_at off v (frame m)) m).
Proof. intros H. unfold store. by rewrite (bind_Done _ _ _ _ _ (in_frame_Done _ _ _ H)). Qed.

Lemma memmove_Done dst src n m :
  (dst + n <= length (frame m))%nat -> (src + n <= length (frame m))%nat ->
  memmove dst src n m = Done (tt, put_frame (memcpy_at dst (take n (drop src (frame m))) (frame m)) m).
Proof.
  intros Hd Hs. unfold memmove. rewrite (bind_Done _ _ _ _ _ (in_frame_Done _ _ _ Hs)).
  unfold gets. rewrite (bind_Done _ _ _ (take n (drop src (frame m))) m) by done.
  apply store_Done. rewrite length_take, length_drop. lia.
Qed.

Lemma bytes_ok_memcpy off v d : bytes_ok v -> bytes_ok d -> bytes_ok (memcpy_at off v d).
Proof. intros Hv Hd. by apply Forall_inserts. Qed.

Lemma length_memcpy off v d : length (memcpy_at off v d) = length d.
Proof. apply length_inserts. Qed.

(** *** Where a byte of a rewritten frame comes from *)

Lemma lookup_memcpy off v d i :
  (off + length v <= length d)%nat ->
  memcpy_at off v d !! i = if decide (off <= i < off + length v)%nat then v !! (i - off)%nat else d !! i.
Proof.
  intros Hl. unfold memcpy_at. destruct (decide _); [by rewrite list_lookup_inserts by lia|].
  destruct (decide (i < off)%nat); [by rewrite list_lookup_inserts_lt|by rewrite list_lookup_inserts_ge by lia].
Qed.

Lemma lookup_take_if {A} n (l : list A) i : take n l !! i = if decide (i < n)%nat then l !! i else None.
Proof. destruct (decide _); [by apply lookup_take_lt|by apply lookup_take_ge; lia]. Qed.

Lemma lookup_app_if {A} (l k : list A) i :
  (l ++ k) !! i = if decide (i < length l)%nat then l !! i else k !! (i - length l)%nat.
Proof. destruct (decide _); [by apply lookup_app_l|by apply lookup_app_r; lia]. Qed.

Ltac lookup_length :=
  repeat match goal with
         | H : context [length ?l] |- _ =>
             progress (repeat first [rewrite length_app in H | rewrite length_drop in H | rewrite length_take in H
               | rewrite length_memcpy in H | rewrite length_le_bytes in H | rewrite length_replicate in H])
         end;
  repeat first [rewrite length_app | rewrite length_drop | rewrite length_take
               | rewrite length_memcpy | rewrite length_le_bytes | rewrite length_replicate];
  cbn [length] in *; lia.

(** Trace the byte at an index through stores, cuts and concatenations. *)
Ltac lookup_trace :=
  repeat first
  [ rewrite lookup_drop
  | rewrite lookup_take_if; destruct (decide _); [|try lookup_length]
  | rewrite lookup_memcpy by lookup_length; destruct (decide _); [try lookup_length|try lookup_length]
  | rewrite lookup_app_if; destruct (decide _); [try lookup_length|try lookup_length] ].

(** *** Moving the start of the frame *)

Lemma base_ptr_move f p b : base_ptr (move_ptrs f p) b = move_ptr f (base_ptr p b).
Proof.
  unfold base_ptr, move_ptrs. cbn. rewrite list_lookup_fmap. by destruct (pk_base p !! b) as [[]|].
Qed.

Lemma prepend_Done n m :
  (n <= length (mb_room m))%nat ->
  exists g, length g = n /\
    OS_M_PREPEND n m =
    Done (tt, Mbuf (take (length (mb_room m) - n) (mb_room m))
                (set_pk_data (g ++ frame m) (move_ptrs (fun off => Some (up n off)) (mb_pkt m)))
                (mb_has_port m) (mb_queue_id m)).
Proof.
  intros Hn. exists (drop (length (mb_room m) - n) (mb_room m)). split; [rewrite length_drop; lia|].
  unfold OS_M_PREPEND. by rewrite (proj2 (Nat.leb_le _ _) Hn).
Qed.

Lemma adj_Done n m :
  (n <= length (frame m))%nat ->
  OS_M_ADJ n m =
  Done (tt, Mbuf (mb_room m ++ take n (frame m))
              (set_pk_data (drop n (frame m)) (move_ptrs (down n) (mb_pkt m)))
              (mb_has_port m) (mb_queue_id m)).
Proof. intros Hn. unfold OS_M_ADJ. by rewrite (proj2 (Nat.leb_le _ _) Hn). Qed.

(** Cutting what was prepended gives every pointer its offset back. *)
Lemma move_back n x : move_ptr (down n) (move_ptr (fun off => Some (up n off)) x) = x.
Proof.
  destruct x as [[off| |]|]; [|done..]. cbn. unfold up, down.
  rewrite (proj2 (Nat.leb_le n (off + n)) ltac:(lia)). cbn. do 2 f_equal. lia.
Qed.

Lemma frame_put d m : frame (put_frame d m) = d.
Proof. done. Qed.

(** Updates of the packet structure that leave the frame alone. *)
Lemma frame_upd_pkt f m :
  pk_data (f (mb_pkt m)) = pk_data (mb_pkt m) -> frame (set_mb_pkt (f (mb_pkt m)) m) = frame m.
Proof. done. Qed.

Lemma base_ptr_put d m b : base_ptr (mb_pkt (put_frame d m)) b = base_ptr (mb_pkt m) b.
Proof. done. Qed.

(** The frame of a state, through the updates made to it. *)
Ltac simpl_frame := repeat first [rewrite frame_put | rewrite frame_upd_pkt by reflexivity].

(** One step of a handler: [tac] shows that the access is inside the frame. *)
Tactic Notation "mstep" "by" tactic(tac) :=
  rewrite ?bind_bind;
  first
  [ erewrite bind_Done; cycle 1; [apply deref_Done; first [eassumption|tac]|]
  | erewrite bind_Done; cycle 1; [apply header_Done; first [eassumption|tac]|]
  | erewrite bind_Done; cycle 1; [apply store_Done; simpl_frame; rewrite ?length_le_bytes; tac|]
  | erewrite bind_Done; cycle 1; [apply memmove_Done; simpl_frame; tac|]
  | erewrite bind_Done; cycle 1; [apply load8_Done; simpl_frame; tac|]
  | erewrite bind_Done; cycle 1; [apply load16_Done; simpl_frame; tac|]
  | erewrite bind_Done; cycle 1; [apply load32_Done; simpl_frame; tac|]
  | erewrite bind_Done; cycle 1; [apply in_frame_Done; simpl_frame; tac|]
  | erewrite bind_Done; cycle 1; [reflexivity|] ];
  cbv beta iota.

(** *** States in a canonical form: the frame apart from the packet structure *)

Definition st (r d : bytes) (p : lagopus_packet) (h : bool) (q : Z) : mbuf := Mbuf r (set_pk_data d p) h q.

Lemma st_eta m : m = st (mb_room m) (frame m) (mb_pkt m) (mb_has_port m) (mb_queue_id m).
Proof. by destruct m as [? [] ? ?]. Qed.

Section St.
Context (r d : bytes) (p : lagopus_packet) (h : bool) (q : Z).

Lemma st_deref b off : base_ptr p b = Some (PData off) -> deref b (st r d p h q) = Done (off, st r d p h q).
Proof. intros E. by apply deref_Done. Qed.

Lemma st_deref_null b : base_ptr p b = None -> deref b (st r d p h q) = Undefined.
Proof. intros E. unfold deref. change (base_ptr (mb_pkt (st r d p h q)) b) with (base_ptr p b). by rewrite E. Qed.

Lemma st_header b x : base_ptr p b = PData <$> x -> header b (st r d p h q) = Done (x, st r d p h q).
Proof. intros E. by apply header_Done. Qed.

Lemma st_header_some b off :
  base_ptr p b = Some (PData off) -> header b (st r d p h q) = Done (Some off, st r d p h q).
Proof. intros E. by apply st_header. Qed.

Lemma st_header_null b : base_ptr p b = None -> header b (st r d p h q) = Done (None, st r d p h q).
Proof. intros E. by apply st_header. Qed.

Lemma st_upd f :
  f (set_pk_data d p) = set_pk_data d (f p) -> upd_pkt f (st r d p h q) = Done (tt, st r d (f p) h q).
Proof. intros E. unfold upd_pkt, modify, st, set_mb_pkt. cbn [mb_pkt mb_room mb_has_port mb_queue_id]. by rewrite E. Qed.

Lemma st_set_header b x :
  set_header b x (st r d p h q) = Done (tt, st r d (set_base b (PData <$> x) p) h q).
Proof. by apply st_upd. Qed.

Lemma st_or_data (A : Type) (f : lagopus_packet -> A) :
  f (set_pk_data d p) = f p -> get_pkt f (st r d p h q) = Done (f p, st r d p h q).
Proof. intros E. unfold get_pkt, gets. cbn [mb_pkt st]. by rewrite E. Qed.

Lemma st_store off v :
  (off + length v <= length d)%nat -> store off v (st r d p h q) = Done (tt, st r (memcpy_at off v d) p h q).
Proof. intros H. by rewrite store_Done. Qed.

Lemma st_memmove dst src n :
  (dst + n <= length d)%nat -> (src + n <= length d)%nat ->
  memmove dst src n (st r d p h q) = Done (tt, st r (memcpy_at dst (take n (drop src d)) d) p h q).
Proof. intros H1 H2. by rewrite memmove_Done. Qed.

Lemma st_load8 off : (off + 1 <= length d)%nat -> load8 off (st r d p h q) = Done (rd8 d off, st r d p h q).
Proof. intros H. by rewrite load8_Done. Qed.

Lemma st_load16 off : (off + 2 <= length d)%nat -> load16 off (st r d p h q) = Done (rd16 d off, st r d p h q).
Proof. intros H. by rewrite load16_Done. Qed.

Lemma st_load32 off : (off + 4 <= length d)%nat -> load32 off (st r d p h q) = Done (rd32 d off, st r d p h q).
Proof. intros H. by rewrite load32_Done. Qed.

Lemma st_prepend n :
  (n <= length r)%nat ->
  OS_M_PREPEND n (st r d p h q) =
  Done (tt, st (take (length r - n) r) (drop (length r - n) r ++ d)
              (move_ptrs (fun off => Some (up n off)) p) h q).
Proof. intros Hn. unfold OS_M_PREPEND. cbn [mb_room st]. by rewrite (proj2 (Nat.leb_le _ _) Hn). Qed.

Lemma st_adj n :
  (n <= length d)%nat ->
  OS_M_ADJ n (st r d p h q) = Done (tt, st (r ++ take n d) (drop n d) (move_ptrs (down n) p) h q).
Proof. intros Hn. by rewrite adj_Done. Qed.

Lemma st_assert b : b = true -> assert b (st r d p h q) = Done (tt, st r d p h q).
Proof. by intros ->. Qed.

End St.

(** One step of a handler from a canonical state: [tac] shows that pointers are what they
    are and accesses inside the frame. *)
Tactic Notation "sstep" "by" tactic3(tac) :=
  rewrite ?bind_bind;
  first
  [ rewrite bind_ret
  | erewrite bind_Done; cycle 1; [apply st_deref; eassumption|]
  | erewrite bind_Done; cycle 1; [apply st_header_some; eassumption|]
  | erewrite bind_Done; cycle 1; [apply st_header_null; eassumption|]
  | erewrite bind_Done; cycle 1; [apply st_set_header|]
  | erewrite bind_Done; cycle 1; [apply st_store; rewrite ?length_le_bytes; tac|]
  | erewrite bind_Done; cycle 1; [apply st_memmove; tac|]
  | erewrite bind_Done; cycle 1; [apply st_load8; tac|]
  | erewrite bind_Done; cycle 1; [apply st_load16; tac|]
  | erewrite bind_Done; cycle 1; [apply st_load32; tac|]
  | erewrite bind_Done; cycle 1; [apply st_prepend; tac|]
  | erewrite bind_Done; cycle 1; [apply st_adj; tac|]
  | erewrite bind_Done; cycle 1; [apply st_assert; tac|]
  | erewrite bind_Done; cycle 1; [apply st_or_data; reflexivity|]
  | erewrite bind_Done; cycle 1; [apply st_upd; reflexivity|]
  | erewrite bind_Done; cycle 1; [reflexivity|] ];
  cbv beta iota.

Lemma offset_back n (x : option nat) : ((x ≫= fun off => Some (up n off)) ≫= down n) = x.
Proof.
  destruct x as [off|]; [|done]. cbn. unfold up, down.
  rewrite (proj2 (Nat.leb_le n (off + n)) ltac:(lia)). f_equal. lia.
Qed.

Lemma move_ptrs_wf f p : packet_wf p -> packet_wf (move_ptrs f p).
Proof. unfold packet_wf, move_ptrs. cbn. by rewrite length_map. Qed.
#[export] Hint Resolve move_ptrs_wf : lagopus.

(** Packets with the same frame, pointers and tag that agree otherwise are equal. *)
Lemma packet_eq p q :
  set_pk_data [] (set_pk_base [] (set_pk_vlan None (set_oob_vlan_tci 0 p))) =
  set_pk_data [] (set_pk_base [] (set_pk_vlan None (set_oob_vlan_tci 0 q))) ->
  pk_data p = pk_data q -> packet_wf p -> packet_wf q -> (forall b, base_ptr p b = base_ptr q b) ->
  pk_vlan p = pk_vlan q -> oob_vlan_tci p = oob_vlan_tci q ->
  p = q.
Proof.
  intros He Hd Hp Hq Hb Hv Ht. assert (pk_base p = pk_base q) as E.
  { apply list_eq. intros b. specialize (Hb b). unfold base_ptr, packet_wf in *.
    destruct (decide (b < MAX_BASE)%nat) as [Hlt|].
    - destruct (lookup_lt_is_Some_2 (pk_base p) b ltac:(lia)) as [x Ex].
      destruct (lookup_lt_is_Some_2 (pk_base q) b ltac:(lia)) as [y Ey].
      rewrite Ex, Ey in *. cbn in Hb. by subst.
    - by rewrite !lookup_ge_None_2 by lia. }
  clear Hb Hp Hq. destruct p, q. cbn in *. by injection He as ? ?; subst.
Qed.
