(* ===== verification/Checksum.v ===== *)
(** * Checksums of rewritten packets

    [src/dataplane/ofproto/csum.h]: the 16-bit one's complement sum with its unrolled loop, the
    IPv4 header checksum, the pseudo headers, and the functions that refresh the checksums of
    a packet whose fields an action has changed.  The CRC of [crc32.c], which SCTP uses, is a
    parameter; none of the hardware offloads is enabled. *)
From S2P Require Import Prelude Monad OpenFlow Packet ByteMatch Endian PacketEdit.

(** ** The sum *)

(** The loop over four words at a time; a turn consumes eight bytes, so the length is fuel
    enough. *)
Fixpoint sum_quads (fuel : nat) (u : bytes) (len sum : Z) : bytes * Z * Z :=
  match fuel with
  | O => (u, len, sum)
  | S fuel' =>
      if 8 <=? len then
        let sum := u32 (sum + rd16 u 0) in
        let sum := u32 (sum + rd16 u 2) in
        let sum := u32 (sum + rd16 u 4) in
        let sum := u32 (sum + rd16 u 6) in
        sum_quads fuel' (drop 8 u) (len - 8) sum
      else (u, len, sum)
  end.

(** The loop over the words that are left. *)
Fixpoint sum_words (fuel : nat) (u : bytes) (len sum : Z) : bytes * Z * Z :=
  match fuel with
  | O => (u, len, sum)
  | S fuel' =>
      if 1 <? len then sum_words fuel' (drop 2 u) (len - 2) (u32 (sum + rd16 u 0))
      else (u, len, sum)
  end.

(** [((sum & 0xffff0000) >> 16) + (sum & 0xffff)] *)
Definition fold_sum (sum : Z) : Z :=
  u32 (Z.shiftr (Z.land sum 0xffff0000) 16 + Z.land sum 0xffff).

Definition get_16b_sum (u : bytes) (len sum : Z) : Z :=
  let '(u, len, sum) := sum_quads (Z.to_nat len) u len sum in
  let '(u, len, sum) := sum_words (Z.to_nat len) u len sum in
  let sum := if len =? 1 then u32 (sum + rd8 u 0) else sum in
  u16 (fold_sum (fold_sum sum)).

(** [~x] on 16 bits *)
Definition not16 (x : Z) : Z := u16 (Z.lnot x).

Definition IPV4_HDR_size := 20%nat.

Definition get_ipv4_cksum (ipv4_hdr : bytes) : Z :=
  let cksum := get_16b_sum ipv4_hdr (Z.of_nat IPV4_HDR_size) 0 in
  if cksum =? 0xffff then cksum else not16 cksum.

(** ** Header fields, relative to the start of the header *)
Definition IPV4_HLEN (h : bytes) : Z := Z.land (rd8 h 0) 0x0f.
Definition IPV4_TLEN (h : bytes) : Z := OS_NTOHS (rd16 h 2).
Definition IPV4_PROTO (h : bytes) : Z := rd8 h 9.
Definition IPV4_SRC (h : bytes) : Z := rd32 h 12.
Definition IPV4_DST (h : bytes) : Z := rd32 h 16.
Definition IPV6_PLEN (h : bytes) : Z := OS_NTOHS (rd16 h 4).
Definition IPV6_PROTO (h : bytes) : Z := rd8 h 6.

(** ** Pseudo headers *)

Definition ipv4_psd_header (ip_hdr : bytes) : bytes :=
  le_bytes 4 (IPV4_SRC ip_hdr) ++ le_bytes 4 (IPV4_DST ip_hdr) ++ [0; IPV4_PROTO ip_hdr] ++
  le_bytes 2 (OS_HTONS (u16 (IPV4_TLEN ip_hdr - Z.shiftl (IPV4_HLEN ip_hdr) 2))).
Definition get_ipv4_psd_sum (ip_hdr : bytes) : Z :=
  get_16b_sum (ipv4_psd_header ip_hdr) 12 0.

Definition ipv6_psd_header (ip_hdr : bytes) : bytes :=
  take 32 (drop 8 ip_hdr) ++ le_bytes 4 (OS_HTONL (IPV6_PLEN ip_hdr)) ++
  le_bytes 4 (OS_HTONL (IPV6_PROTO ip_hdr)).
Definition get_ipv6_psd_sum (ip_hdr : bytes) : Z :=
  get_16b_sum (ipv6_psd_header ip_hdr) 40 0.

(** ** Checksums of the transport header *)

(** [l4_len] is an unsigned 32-bit number. *)
Definition ipv4_l4_len (ipv4_hdr : bytes) : Z :=
  u32 (IPV4_TLEN ipv4_hdr - Z.shiftl (IPV4_HLEN ipv4_hdr) 2).

Definition no_zero (cksum : Z) : Z := if cksum =? 0 then 0xffff else cksum.

Definition get_ipv4_l4_checksum (ipv4_hdr l4_hdr : bytes) (cksum : Z) : Z :=
  let cksum := u32 (cksum + get_16b_sum l4_hdr (ipv4_l4_len ipv4_hdr) 0) in
  let cksum := fold_sum cksum in
  no_zero (Z.land (Z.lnot cksum) 0xffff).

Definition get_ipv6_l4_checksum (ipv6_hdr l4_hdr : bytes) (cksum : Z) : Z :=
  let cksum := get_16b_sum l4_hdr (IPV6_PLEN ipv6_hdr) cksum in
  no_zero (Z.land (Z.lnot cksum) 0xffff).

(** ** Refreshing the checksums of a packet *)

Definition is_ipv4 (m : mbuf) : bool := pk_ether_type (mb_pkt m) =? ETHERTYPE_IP.
Definition is_ipv6 (m : mbuf) : bool := pk_ether_type (mb_pkt m) =? ETHERTYPE_IPV6.

(** The bytes from an offset on, at least [n] of which must be in the frame. *)
Definition block (off n : nat) : edit bytes :=
  in_frame off n ;; gets (fun m => drop off (frame m)).

Definition lagopus_update_iphdr_checksum : edit unit :=
  l3 ← deref L3_BASE;
  store16 (l3 + 10) 0 ;;
  h ← block l3 IPV4_HDR_size;
  store16 (l3 + 10) (get_ipv4_cksum h).

(** The checksum at offset [off] of the transport header: cleared, then computed over as many
    bytes as the IP header says; [psd] is the pseudo header's sum. *)
Definition update_ipv4_l4 (off : nat) (psd : bytes -> Z) : edit unit :=
  l4 ← deref L4_BASE;
  l3 ← deref L3_BASE;
  store16 (l4 + off) 0 ;;
  h ← block l3 IPV4_HDR_size;
  d ← block l4 (Z.to_nat (ipv4_l4_len h));
  store16 (l4 + off) (get_ipv4_l4_checksum h d (psd h)).

Definition update_ipv6_l4 (off : nat) : edit unit :=
  l4 ← deref L4_BASE;
  l3 ← deref L3_BASE;
  store16 (l4 + off) 0 ;;
  h ← block l3 IPV6_HDR_size;
  d ← block l4 (Z.to_nat (IPV6_PLEN h));
  store16 (l4 + off) (get_ipv6_l4_checksum h d (get_ipv6_psd_sum h)).

(** The dispatch on the ethertype that the functions for TCP, UDP and SCTP repeat. *)
Definition by_ether_type (ipv4 ipv6 : edit unit) : edit unit :=
  v4 ← gets is_ipv4;
  if v4 : bool then ipv4
  else v6 ← gets is_ipv6; if v6 : bool then ipv6 else mret tt.

Definition lagopus_update_tcp_checksum : edit unit :=
  by_ether_type (update_ipv4_l4 16 get_ipv4_psd_sum) (update_ipv6_l4 16).
Definition lagopus_update_udp_checksum : edit unit :=
  by_ether_type (update_ipv4_l4 6 get_ipv4_psd_sum) (update_ipv6_l4 6).
Definition lagopus_update_icmp_checksum : edit unit := update_ipv4_l4 2 (fun _ => 0).
Definition lagopus_update_icmpv6_checksum : edit unit := update_ipv6_l4 2.

Section Crc.
Context (calculate_crc32c : Z -> bytes -> Z -> Z).

Definition update_sctp (l4_len : nat -> nat -> bytes -> Z) (hdr : nat) : edit unit :=
  l4 ← deref L4_BASE;
  l3 ← deref L3_BASE;
  h ← block l3 hdr;
  store32 (l4 + 8) 0 ;;
  d ← block l4 (Z.to_nat (l4_len l3 l4 h));
  store32 (l4 + 8) (Z.lnot (calculate_crc32c 0xffffffff d (l4_len l3 l4 h))).

Definition lagopus_update_sctp_checksum : edit unit :=
  by_ether_type
    (update_sctp (fun l3 l4 h => u32 (IPV4_TLEN h - (Z.of_nat l4 - Z.of_nat l3))) IPV4_HDR_size)
    (update_sctp (fun _ _ h => IPV6_PLEN h) IPV6_HDR_size).

Definition lagopus_update_ipv4_checksum : edit unit :=
  lagopus_update_iphdr_checksum ;;
  l3 ← deref L3_BASE;
  proto ← load8 (l3 + 9);
  if proto =? IPPROTO_TCP then lagopus_update_tcp_checksum
  else if proto =? IPPROTO_UDP then lagopus_update_udp_checksum
  else if proto =? IPPROTO_SCTP then lagopus_update_sctp_checksum
  else if proto =? IPPROTO_ICMP then lagopus_update_icmp_checksum
  else mret tt.

Definition lagopus_update_ipv6_checksum : edit unit :=
  p ← header IPPROTO_BASE;
  match p with
  | None => mret tt
  | Some off =>
      proto ← load8 off;
      if proto =? IPPROTO_TCP then lagopus_update_tcp_checksum
      else if proto =? IPPROTO_UDP then lagopus_update_udp_checksum
      else if proto =? IPPROTO_SCTP then lagopus_update_sctp_checksum
      else if proto =? IPPROTO_ICMPV6 then lagopus_update_icmpv6_checksum
      else mret tt
  end.

End Crc.

(** ** The sum is the one's complement sum *)

(** The sum of the words of a block, an odd last byte as a word of its own. *)
Fixpoint word_sum (l : bytes) : Z :=
  match l with
  | [] => 0
  | [a] => a
  | a :: b :: l' => a + 2 ^ 8 * b + word_sum l'
  end.

(** The representative of a sum in one's complement: 0 stands for itself only. *)
Definition ones (s : Z) : Z := if s =? 0 then 0 else (s - 1) mod 65535 + 1.

Lemma word_sum_take2 n u :
  word_sum (take (S (S n)) u) = rd16 u 0 + word_sum (take n (drop 2 u)).
Proof.
  destruct u as [|a [|b u]]; unfold rd16, rd8; cbn -[Z.mul Z.pow Z.add]; rewrite ?take_nil, ?drop_0; cbn -[Z.mul Z.pow Z.add]; lia.
Qed.

Lemma word_sum_take8 n u :
  word_sum (take (8 + n) u) =
  rd16 u 0 + (rd16 u 2 + (rd16 u 4 + (rd16 u 6 + word_sum (take n (drop 8 u))))).
Proof.
  change (8 + n)%nat with (S (S (6 + n))). rewrite word_sum_take2.
  change (6 + n)%nat with (S (S (4 + n))). rewrite word_sum_take2.
  change (4 + n)%nat with (S (S (2 + n))). rewrite word_sum_take2.
  change (2 + n)%nat with (S (S n)). rewrite word_sum_take2.
  by rewrite !rd16_drop, !drop_drop.
Qed.

Lemma word_sum_app l k : Nat.Even (length l) -> word_sum (l ++ k) = word_sum l + word_sum k.
Proof.
  intros [n Hn]. revert l Hn. induction n as [|n IH]; intros l Hn.
  { by destruct l. }
  destruct l as [|a [|b l]]; cbn in Hn; try lia. cbn [app word_sum]. rewrite IH by lia. lia.
Qed.

Lemma word_sum_range l :
  bytes_ok l -> 0 <= word_sum l <= 65535 * Z.of_nat (length l).
Proof.
  assert (forall n l, (length l <= n)%nat -> bytes_ok l ->
    0 <= word_sum l <= 65535 * Z.of_nat (length l)) as H; [|by eauto].
  clear l. intros n. induction n as [|n IH]; intros l Hl Hb.
  { by destruct l; cbn in *; lia. }
  destruct l as [|a [|b l]]; cbn [word_sum length]; [lia| |].
  - apply Forall_cons in Hb as [Ha _]. lia.
  - cbn in Hl. apply Forall_cons in Hb as [Ha [Hb Hb']%Forall_cons].
    specialize (IH l ltac:(lia) Hb'). lia.
Qed.

Lemma rd16_range u i : bytes_ok u -> 0 <= rd16 u i < 2 ^ 16.
Proof. intros Hu. unfold rd16. pose proof (rd8_range u i Hu). pose proof (rd8_range u (i + 1) Hu). lia. Qed.

(** What is still to be added when [len] bytes of the block are left. *)
Definition rest_sum (u : bytes) (len sum : Z) : Z := sum + word_sum (take (Z.to_nat len) u).

Lemma word_sum_nonneg l : bytes_ok l -> 0 <= word_sum l.
Proof. intros Hl. by apply word_sum_range. Qed.

Lemma sum_quads_spec fuel u len sum :
  (Z.to_nat len <= fuel)%nat -> 0 <= len -> bytes_ok u -> 0 <= sum -> rest_sum u len sum < 2 ^ 32 ->
  let '(u', len', sum') := sum_quads fuel u len sum in
  0 <= len' < 8 /\ bytes_ok u' /\ 0 <= sum' /\ rest_sum u' len' sum' = rest_sum u len sum.
Proof.
  revert u len sum. induction fuel as [|fuel IH]; intros u len sum Hf Hl Hu Hs Hr; cbn [sum_quads].
  { split_and!; [lia|lia|done|done|done]. }
  destruct (Z.leb_spec 8 len) as [Hge|Hlt]; [|split_and!; [lia|lia|done|done|done]].
  assert (rest_sum (drop 8 u) (len - 8) (sum + rd16 u 0 + rd16 u 2 + rd16 u 4 + rd16 u 6) =
          rest_sum u len sum) as E.
  { unfold rest_sum. replace (Z.to_nat len) with (8 + Z.to_nat (len - 8))%nat by lia.
    rewrite word_sum_take8. lia. }
  assert (bytes_ok (drop 8 u)) as Hu' by by apply Forall_drop.
  pose proof (word_sum_nonneg (take (Z.to_nat (len - 8)) (drop 8 u)) (Forall_take _ _ _ Hu')).
  pose proof (rd16_range u 0 Hu). pose proof (rd16_range u 2 Hu).
  pose proof (rd16_range u 4 Hu). pose proof (rd16_range u 6 Hu).
  unfold rest_sum in E at 1. rewrite <- E in Hr |- *.
  assert (forall x, 0 <= x <= sum + rd16 u 0 + rd16 u 2 + rd16 u 4 + rd16 u 6 -> u32 x = x) as Hx.
  { intros x Hx. apply Z.mod_small. lia. }
  rewrite (Hx (sum + rd16 u 0)), (Hx (sum + rd16 u 0 + rd16 u 2)),
    (Hx (sum + rd16 u 0 + rd16 u 2 + rd16 u 4)), (Hx (sum + rd16 u 0 + rd16 u 2 + rd16 u 4 + rd16 u 6)) by lia.
  apply IH; [lia|lia|done|lia|done].
Qed.

Lemma sum_words_spec fuel u len sum :
  (Z.to_nat len <= fuel)%nat -> 0 <= len -> bytes_ok u -> 0 <= sum -> rest_sum u len sum < 2 ^ 32 ->
  let '(u', len', sum') := sum_words fuel u len sum in
  0 <= len' <= 1 /\ bytes_ok u' /\ 0 <= sum' /\ rest_sum u' len' sum' = rest_sum u len sum.
Proof.
  revert u len sum. induction fuel as [|fuel IH]; intros u len sum Hf Hl Hu Hs Hr; cbn [sum_words].
  { split_and!; [lia|lia|done|done|done]. }
  destruct (Z.ltb_spec 1 len) as [Hge|Hlt]; [|split_and!; [lia|lia|done|done|done]].
  assert (rest_sum (drop 2 u) (len - 2) (sum + rd16 u 0) = rest_sum u len sum) as E.
  { unfold rest_sum. replace (Z.to_nat len) with (S (S (Z.to_nat (len - 2)))) by lia.
    rewrite word_sum_take2. lia. }
  assert (bytes_ok (drop 2 u)) as Hu' by by apply Forall_drop.
  pose proof (word_sum_nonneg (take (Z.to_nat (len - 2)) (drop 2 u)) (Forall_take _ _ _ Hu')).
  pose proof (rd16_range u 0 Hu).
  unfold rest_sum in E at 1. rewrite <- E in Hr |- *.
  assert (u32 (sum + rd16 u 0) = sum + rd16 u 0) as -> by (apply Z.mod_small; lia).
  apply IH; [lia|lia|done|lia|done].
Qed.

Lemma fold_sum_spec s : 0 <= s < 2 ^ 32 -> fold_sum s = s / 65536 + s mod 65536.
Proof.
  intros Hs. unfold fold_sum. change 0xffff with (Z.ones 16). rewrite Z.land_ones by lia.
  assert (Z.shiftr (Z.land s 0xffff0000) 16 = s / 65536) as ->.
  { rewrite Z.shiftr_land. change (Z.shiftr 0xffff0000 16) with (Z.ones 16).
    rewrite Z.land_ones, Z.shiftr_div_pow2 by lia. change (2 ^ 16) with 65536.
    apply Z.mod_small. split; [apply Z.div_pos; lia|apply Z.div_lt_upper_bound; lia]. }
  change (2 ^ 16) with 65536. apply Z.mod_small.
  pose proof (Z.mod_pos_bound s 65536). pose proof (Z.div_lt_upper_bound s 65536 65536).
  pose proof (Z.div_pos s 65536). lia.
Qed.

Lemma ones_unique s x :
  0 <= s -> 0 <= x <= 65535 -> x mod 65535 = s mod 65535 -> (x = 0 <-> s = 0) -> x = ones s.
Proof.
  intros Hs Hx E Hz. unfold ones. destruct (Z.eqb_spec s 0) as [|Hne]; [tauto|].
  assert (x <> 0) by tauto.
  pose proof (Z.div_mod s 65535 ltac:(lia)) as D. pose proof (Z.mod_pos_bound s 65535 ltac:(lia)).
  destruct (decide (s mod 65535 = 0)) as [E0|E0].
  - assert (x = 65535) as ->.
    { rewrite E0 in E. apply Z.mod_divide in E as [k ->]; [|lia]. lia. }
    rewrite <- (Z.mod_unique (s - 1) 65535 (s / 65535 - 1) 65534) by lia. lia.
  - rewrite <- (Z.mod_unique (s - 1) 65535 (s / 65535) (s mod 65535 - 1)) by lia.
    destruct (decide (x = 65535)) as [->|]; [by rewrite Z_mod_same_full in E; lia|].
    rewrite <- E, Z.mod_small by lia. lia.
Qed.

Lemma fold_sum_mod s :
  0 <= s < 2 ^ 32 ->
  0 <= fold_sum s <= s /\ fold_sum s <= 131070 /\ fold_sum s mod 65535 = s mod 65535 /\
  (fold_sum s = 0 <-> s = 0) /\ (s <= 131070 -> fold_sum s <= 65535).
Proof.
  intros Hs. rewrite fold_sum_spec by done.
  pose proof (Z.div_mod s 65536 ltac:(lia)) as D. pose proof (Z.mod_pos_bound s 65536 ltac:(lia)).
  assert (0 <= s / 65536 < 65536) by lia. split_and!; try lia.
  rewrite D at 3. replace (65536 * (s / 65536) + s mod 65536)
    with (s / 65536 + s mod 65536 + s / 65536 * 65535) by lia.
  by rewrite Z_mod_plus_full.
Qed.

Lemma fold_twice s : 0 <= s < 2 ^ 32 -> u16 (fold_sum (fold_sum s)) = ones s.
Proof.
  intros Hs. destruct (fold_sum_mod s Hs) as (H1 & H2 & H3 & H4 & _).
  destruct (fold_sum_mod (fold_sum s)) as (H5 & _ & H6 & H7 & H8); [lia|]. specialize (H8 H2).
  unfold u16. rewrite Z.mod_small by lia. apply ones_unique; [lia|lia|congruence|tauto].
Qed.

(** The optimised sum is the one's complement sum of the block, whatever the parity of its
    length; the 32-bit accumulator does not overflow below 2^16 words. *)
Lemma get_16b_sum_law u len sum :
  bytes_ok u -> 0 <= len <= 65536 -> 0 <= sum <= 65535 ->
  get_16b_sum u len sum = ones (sum + word_sum (take (Z.to_nat len) u)).
Proof.
  intros Hu Hl Hs.
  assert (rest_sum u len sum < 2 ^ 32) as Hr.
  { unfold rest_sum. pose proof (word_sum_range (take (Z.to_nat len) u) (Forall_take _ _ _ Hu)) as H.
    rewrite length_take in H. lia. }
  change (sum + _) with (rest_sum u len sum).
  unfold get_16b_sum. pose proof (sum_quads_spec (Z.to_nat len) u len sum) as Hq.
  destruct (sum_quads _ u len sum) as [[u1 len1] sum1].
  destruct Hq as (Q1 & Q2 & Q3 & Q4); [lia|lia|done|lia|done|]. rewrite <- Q4 in Hr |- *.
  pose proof (sum_words_spec (Z.to_nat len1) u1 len1 sum1) as Hw.
  destruct (sum_words _ u1 len1 sum1) as [[u2 len2] sum2].
  destruct Hw as (W1 & W2 & W3 & W4); [lia|lia|done|lia|done|]. rewrite <- W4 in Hr |- *.
  rewrite <- fold_twice.
  2: { split; [|done]. unfold rest_sum.
       pose proof (word_sum_nonneg (take (Z.to_nat len2) u2) (Forall_take _ _ _ W2)). lia. }
  do 3 f_equal. unfold rest_sum in *. pose proof (rd8_range u2 0 W2).
  destruct (Z.eqb_spec len2 1) as [->|].
  - change (Z.to_nat 1) with 1%nat in *.
    assert (word_sum (take 1 u2) = rd8 u2 0) as E1 by by destruct u2.
    rewrite E1 in Hr |- *. apply Z.mod_small. lia.
  - assert (len2 = 0) as -> by lia. change (Z.to_nat 0) with 0%nat. rewrite take_0. cbn [word_sum]. lia.
Qed.

(** ** Replacing the checksum word *)

Lemma word_sum_set k a b l :
  (2 * k + 2 <= length l)%nat ->
  word_sum (memcpy_at (2 * k) [a; b] l) = word_sum l - rd16 l (2 * k) + (a + 2 ^ 8 * b).
Proof.
  unfold memcpy_at, rd16, rd8. revert l. induction k as [|k IH]; intros l Hl.
  - destruct l as [|x [|y l]]; cbn in Hl; try lia. cbn -[Z.mul Z.pow Z.add]. lia.
  - replace (2 * S k)%nat with (S (S (2 * k))) in * by lia.
    destruct l as [|x [|y l]]; cbn [length] in Hl; try lia.
    specialize (IH l ltac:(lia)).
    change (list_inserts (S (S (2 * k))) [a; b] (x :: y :: l)) with (x :: y :: list_inserts (2 * k) [a; b] l).
    cbn [word_sum]. rewrite IH. change (S (S (2 * k)) + 1)%nat with (S (S (2 * k + 1))). cbn [nth]. lia.
Qed.

Lemma word_sum_set_low k a l :
  (2 * k < length l)%nat -> word_sum (memcpy_at (2 * k) [a] l) = word_sum l - rd8 l (2 * k) + a.
Proof.
  unfold memcpy_at, rd8. revert l. induction k as [|k IH]; intros l Hl.
  - destruct l as [|x [|y l]]; cbn in Hl; try lia; cbn -[Z.mul Z.pow Z.add]; lia.
  - replace (2 * S k)%nat with (S (S (2 * k))) in * by lia.
    destruct l as [|x [|y l]]; cbn [length] in Hl; try lia.
    specialize (IH l ltac:(lia)).
    change (list_inserts (S (S (2 * k))) [a] (x :: y :: l)) with (x :: y :: list_inserts (2 * k) [a] l).
    cbn [word_sum]. rewrite IH. cbn [nth]. lia.
Qed.

Lemma le_bytes_2 x : le_bytes 2 x = [x mod 256; (x / 256) mod 256].
Proof.
  cbn [le_bytes]. change 255 with (Z.ones 8). rewrite !Z.land_ones, Z.shiftr_div_pow2 by lia. done.
Qed.

Lemma word_sum_store k v l :
  0 <= v < 2 ^ 16 -> (2 * k + 2 <= length l)%nat ->
  word_sum (memcpy_at (2 * k) (le_bytes 2 v) l) = word_sum l - rd16 l (2 * k) + v.
Proof.
  intros Hv Hl. rewrite le_bytes_2, word_sum_set by done.
  rewrite (Z.mod_small (v / 256)). 2: { split; [apply Z.div_pos; lia|apply Z.div_lt_upper_bound; lia]. }
  pose proof (Z.div_mod v 256 ltac:(lia)). lia.
Qed.

(** The block [n] bytes long at [o], after a store inside it. *)
Lemma block_memcpy o n off v d :
  (off + length v <= n)%nat -> (o + n <= length d)%nat ->
  take n (drop o (memcpy_at (o + off) v d)) = memcpy_at off v (take n (drop o d)).
Proof.
  intros Hn Hd. apply list_eq. intros i. unfold memcpy_at.
  destruct (decide (i < n)%nat) as [Hi|Hi]; cycle 1.
  { rewrite !lookup_ge_None_2; [done|rewrite length_inserts, length_take; lia|rewrite length_take; lia]. }
  rewrite lookup_take_lt, lookup_drop by done.
  destruct (decide (i < off)%nat); [|destruct (decide (off + length v <= i)%nat)].
  - rewrite !list_lookup_inserts_lt by lia. by rewrite lookup_take_lt, lookup_drop by done.
  - rewrite !list_lookup_inserts_ge by lia. by rewrite lookup_take_lt, lookup_drop by done.
  - rewrite !list_lookup_inserts by (rewrite ?length_take, ?length_drop; lia). f_equal. lia.
Qed.

(** A block the store does not touch. *)
Lemma block_memcpy_disjoint o n off v d :
  (o + n <= off)%nat -> take n (drop o (memcpy_at off v d)) = take n (drop o d).
Proof.
  intros Hn. apply list_eq. intros i. destruct (decide (i < n)%nat) as [Hi|Hi].
  - rewrite !lookup_take_lt, !lookup_drop by done. unfold memcpy_at. by rewrite list_lookup_inserts_lt by lia.
  - by rewrite !lookup_take_ge by lia.
Qed.

Lemma ones_valid s : 0 < s -> s mod 65535 = 0 -> ones s = 65535.
Proof. intros Hs E. symmetry. apply ones_unique; [lia|lia|by rewrite E|lia]. Qed.

Lemma ones_spec s : 0 <= s -> 0 <= ones s <= 65535 /\ ones s mod 65535 = s mod 65535 /\ (ones s = 0 <-> s = 0).
Proof.
  intros Hs. unfold ones. destruct (Z.eqb_spec s 0) as [->|]; [split_and!; first [lia|done|tauto]|].
  pose proof (Z.mod_pos_bound (s - 1) 65535 ltac:(lia)). split_and!; [lia|lia| |lia].
  rewrite Zplus_mod_idemp_l. f_equal. lia.
Qed.

(** The complement of a sum, 0 written as 65535, makes the total valid. *)
Definition complement (s : Z) : Z := if ones s =? 65535 then 65535 else 65535 - ones s.

Lemma complement_range s : 0 <= s -> 0 < complement s <= 65535.
Proof.
  intros Hs. unfold complement. destruct (ones_spec s Hs) as (H & _).
  destruct (Z.eqb_spec (ones s) 65535); lia.
Qed.

Lemma ones_complement s : 0 <= s -> ones (s + complement s) = 65535.
Proof.
  intros Hs. pose proof (complement_range s Hs). apply ones_valid; [lia|].
  destruct (ones_spec s Hs) as (H1 & H2 & H3). rewrite Z.add_mod, <- H2, <- Z.add_mod by lia.
  unfold complement. destruct (Z.eqb_spec (ones s) 65535) as [->|]; [done|].
  replace (ones s + (65535 - ones s)) with 65535 by lia. done.
Qed.

Lemma ones_add_l a b : 0 <= a -> 0 <= b -> ones (ones a + b) = ones (a + b).
Proof.
  intros Ha Hb. destruct (ones_spec a Ha) as (H1 & H2 & H3). destruct (ones_spec (ones a + b)) as (H4 & H5 & H6); [lia|].
  apply ones_unique; [lia|lia| |lia]. by rewrite H5, Z.add_mod, H2, <- Z.add_mod by lia.
Qed.

Lemma ones_add_r a b : 0 <= a -> 0 <= b -> ones (a + ones b) = ones (a + b).
Proof. intros Ha Hb. rewrite Z.add_comm, ones_add_l, Z.add_comm; done. Qed.

Lemma not16_sub x : 0 <= x <= 65535 -> not16 x = 65535 - x.
Proof. intros Hx. unfold not16, u16, Z.lnot. symmetry. apply (Z.mod_unique _ _ (-1)); lia. Qed.

Lemma no_zero_not x : 0 <= x <= 65535 -> no_zero (Z.land (Z.lnot x) 0xffff) = if x =? 65535 then 65535 else 65535 - x.
Proof.
  intros Hx. change (Z.land (Z.lnot x) 0xffff) with (Z.land (Z.lnot x) (Z.ones 16)). rewrite Z.land_ones by lia.
  change (Z.lnot x mod 2 ^ 16) with (not16 x). rewrite not16_sub by done. unfold no_zero.
  destruct (Z.eqb_spec x 65535) as [->|]; [done|]. destruct (Z.eqb_spec (65535 - x) 0); [lia|done].
Qed.

(** ** The checksums computed *)

Lemma get_ipv4_cksum_law h :
  bytes_ok h -> get_ipv4_cksum h = complement (word_sum (take IPV4_HDR_size h)).
Proof.
  intros Hh. unfold get_ipv4_cksum. rewrite get_16b_sum_law by (done || cbn; lia).
  rewrite Z.add_0_l. change (Z.to_nat (Z.of_nat IPV4_HDR_size)) with IPV4_HDR_size.
  pose proof (word_sum_nonneg _ (Forall_take _ IPV4_HDR_size _ Hh)) as H0.
  destruct (ones_spec _ H0) as (H1 & _). unfold complement.
  destruct (Z.eqb_spec (ones (word_sum (take IPV4_HDR_size h))) 0xffff) as [->|]; [done|by apply not16_sub].
Qed.

Lemma get_ipv4_l4_checksum_law h d psd :
  bytes_ok d -> ipv4_l4_len h <= 65536 -> 0 <= psd ->
  get_ipv4_l4_checksum h d (ones psd) = complement (psd + word_sum (take (Z.to_nat (ipv4_l4_len h)) d)).
Proof.
  intros Hd Hl Hp. unfold get_ipv4_l4_checksum.
  assert (0 <= ipv4_l4_len h) by (apply Z.mod_pos_bound; lia).
  rewrite get_16b_sum_law, Z.add_0_l by (done || lia).
  set (w := word_sum _). assert (0 <= w) by by apply word_sum_nonneg, Forall_take.
  destruct (ones_spec psd Hp) as (P1 & P2 & P3). destruct (ones_spec w) as (W1 & W2 & W3); [done|].
  assert (u32 (ones psd + ones w) = ones psd + ones w) as -> by (apply Z.mod_small; lia).
  destruct (fold_sum_mod (ones psd + ones w)) as (F1 & F2 & F3 & F4 & F5); [lia|].
  specialize (F5 ltac:(lia)).
  assert (fold_sum (ones psd + ones w) = ones (psd + w)) as E.
  { rewrite <- ones_add_l, <- ones_add_r by lia. apply ones_unique; [lia|lia|done|tauto]. }
  rewrite no_zero_not, E by lia. done.
Qed.

Lemma get_ipv6_l4_checksum_law h d psd :
  bytes_ok d -> bytes_ok h -> 0 <= psd ->
  get_ipv6_l4_checksum h d (ones psd) = complement (psd + word_sum (take (Z.to_nat (IPV6_PLEN h)) d)).
Proof.
  intros Hd Hh Hp. unfold get_ipv6_l4_checksum.
  destruct (ones_spec psd Hp) as (P1 & _). set (n := IPV6_PLEN h).
  assert (0 <= n < 65536) as Hn.
  { unfold n, IPV6_PLEN. apply OS_NTOHS_range. }
  rewrite get_16b_sum_law by (done || lia).
  assert (0 <= word_sum (take (Z.to_nat n) d)) by by apply word_sum_nonneg, Forall_take.
  rewrite ones_add_l by done. destruct (ones_spec (psd + word_sum (take (Z.to_nat n) d))) as (W1 & _); [lia|].
  by rewrite no_zero_not.
Qed.

Lemma block_Done off n m : (off + n <= length (frame m))%nat -> block off n m = Done (drop off (frame m), m).
Proof. intros H. unfold block. by rewrite (bind_Done _ _ _ _ _ (in_frame_Done _ _ _ H)). Qed.

(** Clearing the checksum of a block and storing the complement of the sum: the word sum
    of the result is the sum without the checksum plus the complement. *)
Lemma refresh_sum o n k c d :
  bytes_ok d -> (2 * k + 2 <= n)%nat -> (o + n <= length d)%nat -> 0 <= c < 2 ^ 16 ->
  let d0 := memcpy_at (o + 2 * k) (le_bytes 2 0) d in
  word_sum (take n (drop o (memcpy_at (o + 2 * k) (le_bytes 2 c) d0))) = word_sum (take n (drop o d0)) + c.
Proof.
  intros Hd Hk Hn Hc. cbv zeta.
  rewrite block_memcpy by (rewrite ?length_memcpy, ?length_le_bytes; lia).
  rewrite word_sum_store by (rewrite ?length_take, ?length_drop, ?length_memcpy; lia).
  rewrite block_memcpy by (rewrite ?length_le_bytes; lia).
  assert (rd16 (memcpy_at (2 * k) (le_bytes 2 0) (take n (drop o d))) (2 * k) = 0) as ->; [|lia].
  unfold rd16. rewrite !rd8_memcpy by (rewrite length_le_bytes, length_take, length_drop; lia).
  rewrite !decide_True by (rewrite length_le_bytes; lia). by rewrite Nat.sub_diag, Nat.add_sub_swap, Nat.sub_diag.
Qed.

(** A block is valid when its one's complement sum, with what [psd] adds, has all bits set. *)
Definition sum_valid (psd : Z) (d : bytes) : Prop := ones (psd + word_sum d) = 65535.

(** Only the two bytes at [off] differ. *)
Definition same_but (off n : nat) (d d' : bytes) : Prop :=
  length d' = length d /\ forall i, ~ (off <= i < off + n)%nat -> d' !! i = d !! i.

Lemma same_but_memcpy off v d : same_but off (length v) d (memcpy_at off v d).
Proof.
  split; [apply length_memcpy|]. intros i Hi. unfold memcpy_at.
  destruct (decide (i < off)%nat); [by rewrite list_lookup_inserts_lt|by rewrite list_lookup_inserts_ge by lia].
Qed.

Lemma same_but_trans off n d1 d2 d3 : same_but off n d1 d2 -> same_but off n d2 d3 -> same_but off n d1 d3.
Proof. intros [L1 H1] [L2 H2]. split; [congruence|]. intros i Hi. by rewrite H2, H1. Qed.

(** Refreshing the checksum of an IPv4 header without options makes the header valid,
    and changes nothing in the frame but the checksum. *)
Theorem iphdr_checksum_correct (m : mbuf) (l3 : nat)
    (Hd : bytes_ok (frame m)) (Hl3 : base_ptr (mb_pkt m) L3_BASE = Some (PData l3))
    (Hin : (l3 + IPV4_HDR_size <= length (frame m))%nat) :
  exists d, lagopus_update_iphdr_checksum m = Done (tt, put_frame d m) /\
    sum_valid 0 (take IPV4_HDR_size (drop l3 d)) /\ same_but (l3 + 10) 2 (frame m) d.
Proof.
  unfold lagopus_update_iphdr_checksum, store16, IPV4_HDR_size in *.
  mstep by idtac. mstep by lia.
  set (d0 := memcpy_at (l3 + 10) (le_bytes 2 0) (frame m)).
  assert (bytes_ok d0) as H0 by (apply bytes_ok_memcpy; [apply le_bytes_ok|done]).
  assert (length d0 = length (frame m)) as E0 by apply length_memcpy.
  rewrite (bind_Done _ _ _ (drop l3 d0) (put_frame d0 m)).
  2: { apply block_Done. change (frame (put_frame d0 m)) with d0. unfold IPV4_HDR_size. lia. }
  rewrite store_Done. 2: { change (frame (put_frame d0 m)) with d0. rewrite length_le_bytes. lia. }
  eexists. split; [by rewrite put_frame_twice|]. change (frame (put_frame d0 m)) with d0.
  rewrite get_ipv4_cksum_law by by apply Forall_drop. unfold IPV4_HDR_size.
  pose proof (word_sum_nonneg (take 20 (drop l3 d0)) (Forall_take _ _ _ (Forall_drop _ _ _ H0))) as Hw.
  pose proof (complement_range _ Hw). split.
  - unfold sum_valid. rewrite Z.add_0_l.
    pose proof (refresh_sum l3 20 5 (complement (word_sum (take 20 (drop l3 d0)))) (frame m)) as R.
    change (2 * 5)%nat with 10%nat in R. cbv zeta in R. fold d0 in R. rewrite R by (done || lia).
    by apply ones_complement.
  - eapply same_but_trans; [apply (same_but_memcpy (l3 + 10) (le_bytes 2 0))|].
    apply (same_but_memcpy (l3 + 10) (le_bytes 2 _)).
Qed.

(** *** The transport checksum *)

Lemma ipv4_psd_sum h : bytes_ok h -> get_ipv4_psd_sum h = ones (word_sum (ipv4_psd_header h)) /\ bytes_ok (ipv4_psd_header h).
Proof.
  intros Hh. assert (bytes_ok (ipv4_psd_header h)) as Ho.
  { unfold ipv4_psd_header, bytes_ok. rewrite !Forall_app. split_and!; try apply le_bytes_ok.
    repeat constructor; try lia; by apply rd8_range. }
  split; [|done]. unfold get_ipv4_psd_sum. rewrite get_16b_sum_law, Z.add_0_l by (done || lia).
  by rewrite firstn_all2 by done.
Qed.

Lemma ipv6_psd_sum h :
  bytes_ok h -> get_ipv6_psd_sum h = ones (word_sum (ipv6_psd_header h)) /\ bytes_ok (ipv6_psd_header h).
Proof.
  intros Hh. assert (bytes_ok (ipv6_psd_header h)) as Ho.
  { unfold ipv6_psd_header, bytes_ok. rewrite !Forall_app. split_and!; try apply le_bytes_ok.
    by apply Forall_take, Forall_drop. }
  split; [|done]. unfold get_ipv6_psd_sum. rewrite get_16b_sum_law, Z.add_0_l by (done || lia).
  rewrite firstn_all2; [done|]. unfold ipv6_psd_header.
  rewrite !length_app, !length_le_bytes, length_take. lia.
Qed.

(** Refreshing the checksum at the even offset [2 * k] of a transport header behind the IP
    header: the segment is valid together with the pseudo header. *)
Lemma update_ipv4_l4_law k psd sum m l3 l4 :
  bytes_ok (frame m) -> base_ptr (mb_pkt m) L3_BASE = Some (PData l3) ->
  base_ptr (mb_pkt m) L4_BASE = Some (PData l4) ->
  (l3 + IPV4_HDR_size <= l4)%nat ->
  (forall h, bytes_ok h -> psd h = ones (sum h) /\ 0 <= sum h) ->
  let len := Z.to_nat (ipv4_l4_len (drop l3 (frame m))) in
  (forall h h', take IPV4_HDR_size h = take IPV4_HDR_size h' -> sum h = sum h' /\ ipv4_l4_len h = ipv4_l4_len h') ->
  (2 * k + 2 <= len)%nat -> Z.of_nat len <= 65536 -> (l4 + len <= length (frame m))%nat ->
  exists d, update_ipv4_l4 (2 * k) psd m = Done (tt, put_frame d m) /\
    sum_valid (sum (drop l3 d)) (take len (drop l4 d)) /\ rd16 d (l4 + 2 * k) <> 0 /\
    same_but (l4 + 2 * k) 2 (frame m) d.
Proof.
  intros Hd H3 H4 Hl Hpsd. cbv zeta. intros Hsum Hk Hlen Hin.
  set (len := Z.to_nat _) in *. unfold update_ipv4_l4, store16.
  mstep by idtac. mstep by idtac. mstep by lia.
  set (d0 := memcpy_at _ (le_bytes 2 0) (frame m)).
  assert (bytes_ok d0) as H0 by (apply bytes_ok_memcpy; [apply le_bytes_ok|done]).
  assert (length d0 = length (frame m)) as E0 by apply length_memcpy.
  assert (forall v, take IPV4_HDR_size (drop l3 (memcpy_at (l4 + 2 * k) v d0)) = take IPV4_HDR_size (drop l3 (frame m))) as Eh.
  { intros v. unfold d0. by rewrite !block_memcpy_disjoint by lia. }
  assert (take IPV4_HDR_size (drop l3 d0) = take IPV4_HDR_size (drop l3 (frame m))) as Eh0.
  { unfold d0. by rewrite block_memcpy_disjoint by lia. }
  destruct (Hsum _ _ Eh0) as [Es0 El0].
  erewrite bind_Done; cycle 1. { apply block_Done. rewrite frame_put. lia. }
  cbv beta. rewrite frame_put. erewrite bind_Done; cycle 1.
  { apply block_Done. rewrite frame_put, El0. fold len. lia. }
  cbv beta. rewrite store_Done by (rewrite ?frame_put, length_le_bytes; lia).
  eexists. split; [by rewrite put_frame_twice|]. rewrite frame_put.
  destruct (Hpsd (drop l3 d0)) as [-> Hnn]; [by apply Forall_drop|].
  rewrite get_ipv4_l4_checksum_law; [|by apply Forall_drop|unfold len in *; rewrite El0; lia|done].
  rewrite El0. fold len. set (c := complement _).
  assert (bytes_ok (take len (drop l4 d0))) as Hseg by by apply Forall_take, Forall_drop.
  pose proof (word_sum_nonneg _ Hseg). pose proof (complement_range (sum (drop l3 d0) + word_sum (take len (drop l4 d0)))) as Hc.
  split_and!.
  - unfold sum_valid. destruct (Hsum _ _ (Eh (le_bytes 2 c))) as [-> _]. rewrite <- Es0.
    pose proof (refresh_sum l4 len k c (frame m) Hd) as R. cbv zeta in R. fold d0 in R.
    rewrite R by lia. rewrite Z.add_assoc. apply ones_complement. lia.
  - rewrite rd16_store by lia. rewrite Z.mod_small by lia. lia.
  - eapply same_but_trans; [apply (same_but_memcpy (l4 + 2 * k) (le_bytes 2 0))|].
    apply (same_but_memcpy (l4 + 2 * k) (le_bytes 2 _)).
Qed.

Lemma rd8_take n l k : (k < n)%nat -> rd8 (take n l) k = rd8 l k.
Proof. intros Hk. by rewrite !rd8_lookup, lookup_take_lt. Qed.

Lemma take_rd8 n h h' : take n h = take n h' -> forall k, (k < n)%nat -> rd8 h k = rd8 h' k.
Proof. intros E k Hk. by rewrite <- (rd8_take n h), <- (rd8_take n h'), E. Qed.

Lemma ipv4_header_ext h h' :
  take IPV4_HDR_size h = take IPV4_HDR_size h' ->
  ipv4_psd_header h = ipv4_psd_header h' /\ ipv4_l4_len h = ipv4_l4_len h'.
Proof.
  intros E. pose proof (take_rd8 _ _ _ E) as R. unfold IPV4_HDR_size in R.
  unfold ipv4_psd_header, ipv4_l4_len, IPV4_SRC, IPV4_DST, IPV4_PROTO, IPV4_TLEN, IPV4_HLEN, rd32, rd16.
  cbn [Nat.add]. rewrite !R by lia. done.
Qed.

Lemma by_ipv4 a b m : pk_ether_type (mb_pkt m) = ETHERTYPE_IP -> by_ether_type a b m = a m.
Proof. intros E. unfold by_ether_type. mstep by idtac. unfold is_ipv4. by rewrite E. Qed.

Definition lagopus_transport : list (nat * edit unit) :=
  [(16%nat, lagopus_update_tcp_checksum); (6%nat, lagopus_update_udp_checksum)].

(** C35: refreshing the checksum of a TCP or UDP segment over IPv4, with whatever options the
    IP header has and whatever parity the length has, makes the segment valid together with
    its pseudo header (the value 0, which would mean "no checksum" for UDP, is never
    stored), and changes nothing in the frame but the checksum. *)
Theorem l4_checksum_correct (m : mbuf) (l3 l4 off : nat) (update : edit unit)
    (Hd : bytes_ok (frame m)) (Ht : (off, update) ∈ lagopus_transport)
    (Hip : pk_ether_type (mb_pkt m) = ETHERTYPE_IP)
    (H3 : base_ptr (mb_pkt m) L3_BASE = Some (PData l3)) (H4 : base_ptr (mb_pkt m) L4_BASE = Some (PData l4))
    (Hl : (l3 + IPV4_HDR_size <= l4)%nat)
    (len := ipv4_l4_len (drop l3 (frame m)))
    (Hoff : Z.of_nat off + 2 <= len) (Hlen : len <= 65536)
    (Hin : Z.of_nat l4 + len <= Z.of_nat (length (frame m))) :
  exists d, update m = Done (tt, put_frame d m) /\
    sum_valid (word_sum (ipv4_psd_header (drop l3 d))) (take (Z.to_nat len) (drop l4 d)) /\
    rd16 d (l4 + off) <> 0 /\ same_but (l4 + off) 2 (frame m) d.
Proof.
  assert (exists k, off = (2 * k)%nat /\ update m = update_ipv4_l4 (2 * k) get_ipv4_psd_sum m) as (k & -> & ->).
  { unfold lagopus_transport in Ht. rewrite !elem_of_cons in Ht. destruct Ht as [[= -> ->]|[[= -> ->]|[]%elem_of_nil]].
    - exists 8%nat. split; [done|]. by apply by_ipv4.
    - exists 3%nat. split; [done|]. by apply by_ipv4. }
  apply (update_ipv4_l4_law _ _ (fun h => word_sum (ipv4_psd_header h)) m l3 l4); try done; try (unfold len in *; lia).
  - intros h Hh. destruct (ipv4_psd_sum h Hh) as [-> Ho]. split; [done|by apply word_sum_nonneg].
  - intros h h' E. destruct (ipv4_header_ext h h' E) as [-> ->]. done.
Qed.

(** The unrolled 16-bit sum of a block is the one's complement sum of its words (an odd
    last byte counting as a word), for every length and every alignment of the unrolling;
    no intermediate 32-bit sum wraps for blocks up to 64 KiB. *)
Theorem get_16b_sum_correct (u : bytes) (len sum : Z)
    (Hu : bytes_ok u) (Hlen : 0 <= len <= 65536) (Hsum : 0 <= sum <= 65535) :
  get_16b_sum u len sum = ones (sum + word_sum (take (Z.to_nat len) u)).
Proof. by apply get_16b_sum_law. Qed.

Lemma get_16b_sum_correct_witness :
  get_16b_sum [1; 2; 3; 4; 5; 6; 7; 8; 9; 10; 11] 11 65535 = ones (65535 + word_sum [1; 2; 3; 4; 5; 6; 7; 8; 9; 10; 11]).
Proof. apply (get_16b_sum_correct [1; 2; 3; 4; 5; 6; 7; 8; 9; 10; 11] 11 65535); [repeat constructor; lia|lia|lia]. Defined.

(** ** Concrete packets *)

(** An Ethernet header and an IPv4 header of [ihl] words with the protocol [proto] in front of
    [rest], the checksum still 0. *)
Definition ipv4_frame (ihl proto ttl tlen : Z) (rest : bytes) : bytes :=
  [0; 1; 2; 3; 4; 5; 6; 7; 8; 9; 10; 11; 8; 0;
   Z.lor 0x40 ihl; 0; 0; tlen; 0; 1; 0; 0; ttl; proto; 0; 0; 192; 168; 0; 1; 10; 0; 0; 1] ++ rest.

Definition mbuf_of (room data : bytes) : mbuf :=
  Mbuf room (lagopus_packet_init (packet_of data) 1) true 0.

Definition udp_mbuf : mbuf :=
  mbuf_of (replicate 32 0xee) (ipv4_frame 5 17 64 31 [0; 53; 16; 0; 0; 11; 0; 0; 1; 2; 3]).

Lemma bytes_ok_dec d : forallb (fun b => (0 <=? b) && (b <? 256)) d = true -> bytes_ok d.
Proof.
  intros H. apply Forall_forall. intros x Hx. rewrite forallb_forall in H.
  specialize (H x). rewrite list_elem_of_In in Hx. specialize (H Hx). lia.
Qed.

Lemma iphdr_checksum_correct_witness :
  exists d, lagopus_update_iphdr_checksum udp_mbuf = Done (tt, put_frame d udp_mbuf) /\
    sum_valid 0 (take IPV4_HDR_size (drop 14 d)) /\ same_but (14 + 10) 2 (frame udp_mbuf) d.
Proof.
  apply (iphdr_checksum_correct udp_mbuf 14); [by apply bytes_ok_dec|by vm_compute|vm_compute; lia].
Defined.

Lemma l4_checksum_correct_witness :
  exists d, lagopus_update_udp_checksum udp_mbuf = Done (tt, put_frame d udp_mbuf) /\
    sum_valid (word_sum (ipv4_psd_header (drop 14 d))) (take 11 (drop 34 d)) /\
    rd16 d (34 + 6) <> 0 /\ same_but (34 + 6) 2 (frame udp_mbuf) d.
Proof.
  apply (l4_checksum_correct udp_mbuf 14 34 6 lagopus_update_udp_checksum);
    [by apply bytes_ok_dec|right; left|by vm_compute|by vm_compute|by vm_compute|vm_compute; lia|by vm_compute|
     by vm_compute|by vm_compute].
Defined.

(** The header checksum covers the 20 bytes of the fixed header only: for a header with a
    word of options the refreshed checksum is wrong. *)
Theorem iphdr_checksum_ignores_options :
  let m := mbuf_of [] (ipv4_frame 6 17 64 35 [1; 1; 1; 0; 0; 53; 16; 0; 0; 11; 0; 0; 1; 2; 3]) in
  exists d, lagopus_update_iphdr_checksum m = Done (tt, put_frame d m) /\
    ~ sum_valid 0 (take 24 (drop 14 d)).
Proof. eexists. split; [by vm_compute|]. by vm_compute. Qed.
