(* ===== verification/PacketActions.v ===== *)
(** * The actions that rewrite a packet

    The handlers of [src/dataplane/ofproto/datapath.c] for the TTL, push, pop and queue actions,
    with the label stack macros of [packet.h].  A handler returns [LAGOPUS_RESULT_STOP] for a
    TTL that ran out; the packet-in it sends then is added in [Pipeline]. *)
From S2P Require Import Prelude Monad OpenFlow Packet ByteMatch Endian ActionSet PacketEdit Checksum.

(** ** Flags *)

Definition PKT_FLAG_HAS_ACTION := 1.
Definition PKT_FLAG_CACHED_FLOW := 2.
Definition PKT_FLAG_RECALC_IPV4_CKSUM := 4.
Definition PKT_FLAG_RECALC_TCP_CKSUM := 8.
Definition PKT_FLAG_RECALC_UDP_CKSUM := 16.
Definition PKT_FLAG_RECALC_SCTP_CKSUM := 32.
Definition PKT_FLAG_RECALC_ICMP_CKSUM := 64.
Definition PKT_FLAG_RECALC_IPV6_CKSUM := 128.
Definition PKT_FLAG_RECALC_ICMPV6_CKSUM := 256.
Definition PKT_FLAG_RECALC_L4_CKSUM :=
  Z.lor (Z.lor (Z.lor (Z.lor PKT_FLAG_RECALC_TCP_CKSUM PKT_FLAG_RECALC_UDP_CKSUM)
    PKT_FLAG_RECALC_SCTP_CKSUM) PKT_FLAG_RECALC_ICMP_CKSUM) PKT_FLAG_RECALC_ICMPV6_CKSUM.
Definition PKT_FLAG_RECALC_CKSUM_MASK :=
  Z.lor (Z.lor PKT_FLAG_RECALC_IPV4_CKSUM PKT_FLAG_RECALC_IPV6_CKSUM) PKT_FLAG_RECALC_L4_CKSUM.

(** [pkt->flags |= f] *)
Definition or_flags (f : Z) : edit unit := upd_pkt (fun p => set_pk_flags (Z.lor (pk_flags p) f) p).

Definition SET_FIELD_ETH := Z.lor SET_FIELD_ETH_DST SET_FIELD_ETH_SRC.
Definition NEED_COPY_ETH_ADDR (flags : Z) : bool := negb (Z.land flags SET_FIELD_ETH =? SET_FIELD_ETH).

(** ** Label stack entries *)

Definition MPLS_LBL_MASK := 0xfffff000.
Definition MPLS_EXP_MASK := 0x00000e00.
Definition MPLS_BOS_MASK := 0x00000100.
Definition MPLS_TTL_MASK := 0x000000ff.

Definition MPLS_LBL (lse : Z) : Z := Z.shiftr (Z.land (OS_NTOHL lse) MPLS_LBL_MASK) 12.
Definition MPLS_EXP (lse : Z) : Z := Z.shiftr (Z.land (OS_NTOHL lse) MPLS_EXP_MASK) 9.
Definition MPLS_BOS (lse : Z) : Z := Z.shiftr (Z.land (OS_NTOHL lse) MPLS_BOS_MASK) 8.
Definition MPLS_TTL (lse : Z) : Z := u8 (Z.land (OS_NTOHL lse) MPLS_TTL_MASK).

(** [~mask] of an unsigned 32-bit mask. *)
Definition not32 (x : Z) : Z := u32 (Z.lnot x).

Definition SET_MPLS_LSE (label exp bos ttl : Z) : Z :=
  OS_HTONL (u32 (Z.lor (Z.lor (Z.lor (Z.shiftl label 12) (Z.shiftl exp 9)) (Z.shiftl bos 8)) ttl)).
Definition SET_MPLS_LBL (lse val : Z) : Z :=
  Z.lor (Z.land lse (OS_HTONL (not32 MPLS_LBL_MASK))) (OS_HTONL (u32 (Z.shiftl (OS_NTOHL val) 12))).
Definition SET_MPLS_EXP (lse val : Z) : Z :=
  Z.lor (Z.land lse (OS_HTONL (not32 MPLS_EXP_MASK))) (OS_HTONL (u32 (Z.shiftl val 9))).
Definition SET_MPLS_BOS (lse val : Z) : Z :=
  if val =? 0 then Z.land lse (OS_HTONL (not32 MPLS_BOS_MASK))
  else Z.lor lse (OS_HTONL (Z.shiftl 1 8)).
Definition SET_MPLS_TTL (lse val : Z) : Z :=
  Z.lor (Z.land lse (OS_HTONL (not32 MPLS_TTL_MASK))) (OS_HTONL val).

(** ** TTL *)

Definition sizeof_mpls_hdr := 4%nat.

(** The version nibble, the TTL and the hop limit of the header at [l3]. *)
Definition IPV4_VER (l3 : nat) : edit Z := b ← load8 l3; mret (Z.shiftr b 4).
Definition IPV6_VER (l3 : nat) : edit Z :=
  w ← load32 l3; mret (Z.shiftr (Z.land (OS_NTOHL w) 0xf0000000) 28).
Definition IPV4_TTL_off := 8%nat.
Definition IPV6_HLIM_off := 7%nat.

Definition execute_action_copy_ttl_out : edit lagopus_result :=
  x ← header MPLS_BASE;
  match x with
  | Some mpls =>
      lse ← load32 mpls;
      if negb (MPLS_BOS lse =? 0) then
        l3 ← deref L3_BASE;
        v4 ← IPV4_VER l3;
        if v4 =? 4 then
          ttl ← load8 (l3 + IPV4_TTL_off);
          store32 mpls (SET_MPLS_TTL lse ttl) ;; mret LAGOPUS_RESULT_OK
        else
          v6 ← IPV6_VER l3;
          if v6 =? 6 then
            hlim ← load8 (l3 + IPV6_HLIM_off);
            store32 mpls (SET_MPLS_TTL lse hlim) ;; mret LAGOPUS_RESULT_OK
          else mret LAGOPUS_RESULT_OK
      else
        lse' ← load32 (ETHER_HDR_size + sizeof_mpls_hdr);
        store32 mpls (SET_MPLS_TTL lse (MPLS_TTL lse')) ;; mret LAGOPUS_RESULT_OK
  | None => mret LAGOPUS_RESULT_OK
  end.

Definition execute_action_copy_ttl_in : edit lagopus_result :=
  x ← header MPLS_BASE;
  match x with
  | Some mpls =>
      lse ← load32 mpls;
      if negb (MPLS_BOS lse =? 0) then
        l3 ← deref L3_BASE;
        v4 ← IPV4_VER l3;
        if v4 =? 4 then
          store8 (l3 + IPV4_TTL_off) (MPLS_TTL lse) ;;
          or_flags PKT_FLAG_RECALC_IPV4_CKSUM ;; mret LAGOPUS_RESULT_OK
        else
          v6 ← IPV6_VER l3;
          if v6 =? 6 then store8 (l3 + IPV6_HLIM_off) (MPLS_TTL lse) ;; mret LAGOPUS_RESULT_OK
          else mret LAGOPUS_RESULT_OK
      else
        lse' ← load32 (ETHER_HDR_size + sizeof_mpls_hdr);
        store32 (ETHER_HDR_size + sizeof_mpls_hdr) (SET_MPLS_TTL lse' (MPLS_TTL lse)) ;;
        mret LAGOPUS_RESULT_OK
  | None => mret LAGOPUS_RESULT_OK
  end.

(** The payload of an action, as the handler's cast reads it. *)
Definition mpls_ttl_of (a : action) : Z := match act_ofpat a with ofp_action_mpls_ttl ttl => ttl | _ => 0 end.
Definition nw_ttl_of (a : action) : Z := match act_ofpat a with ofp_action_nw_ttl ttl => ttl | _ => 0 end.
Definition ethertype_of (a : action) : Z :=
  match act_ofpat a with ofp_action_push _ t | ofp_action_pop_mpls t => t | _ => 0 end.
Definition queue_id_of (a : action) : Z := match act_ofpat a with ofp_action_set_queue q => q | _ => 0 end.

Definition execute_action_set_mpls_ttl (a : action) : edit lagopus_result :=
  mpls ← deref MPLS_BASE;
  lse ← load32 mpls;
  store32 mpls (SET_MPLS_TTL lse (mpls_ttl_of a)) ;; mret LAGOPUS_RESULT_OK.

Definition dec_mpls_ttl : edit lagopus_result :=
  mpls ← deref MPLS_BASE;
  lse ← load32 mpls;
  (if 0 <? MPLS_TTL lse then store32 mpls (SET_MPLS_TTL lse (MPLS_TTL lse - 1)) else mret tt) ;;
  lse ← load32 mpls;
  if MPLS_TTL lse =? 0 then mret LAGOPUS_RESULT_STOP else mret LAGOPUS_RESULT_OK.

Definition execute_action_set_nw_ttl (a : action) : edit lagopus_result :=
  v4 ← gets is_ipv4; v6 ← gets is_ipv6;
  if v4 : bool then
    l3 ← deref L3_BASE;
    store8 (l3 + IPV4_TTL_off) (nw_ttl_of a) ;;
    or_flags PKT_FLAG_RECALC_IPV4_CKSUM ;; mret LAGOPUS_RESULT_OK
  else if v6 : bool then
    l3 ← deref L3_BASE;
    store8 (l3 + IPV6_HLIM_off) (nw_ttl_of a) ;; mret LAGOPUS_RESULT_OK
  else mret LAGOPUS_RESULT_OK.

Definition dec_nw_ttl : edit lagopus_result :=
  v4 ← gets is_ipv4; v6 ← gets is_ipv6;
  if v4 : bool then
    l3 ← deref L3_BASE;
    ttl ← load8 (l3 + IPV4_TTL_off);
    (if 0 <? ttl then
       store8 (l3 + IPV4_TTL_off) (ttl - 1) ;;
       csum ← load16 (l3 + 10);
       if csum =? 0xffff then or_flags PKT_FLAG_RECALC_IPV4_CKSUM else store16 (l3 + 10) (csum + 1)
     else mret tt) ;;
    ttl ← load8 (l3 + IPV4_TTL_off);
    if ttl =? 0 then mret LAGOPUS_RESULT_STOP else mret LAGOPUS_RESULT_OK
  else if v6 : bool then
    l3 ← deref L3_BASE;
    hlim ← load8 (l3 + IPV6_HLIM_off);
    (if 0 <? hlim then store8 (l3 + IPV6_HLIM_off) (hlim - 1) else mret tt) ;;
    hlim ← load8 (l3 + IPV6_HLIM_off);
    if hlim =? 0 then mret LAGOPUS_RESULT_STOP else mret LAGOPUS_RESULT_OK
  else mret LAGOPUS_RESULT_OK.

(** ** Tags *)

Definition ETHER_ADDR_LEN := 6%nat.
Definition ETHER_TYPE_off := 12%nat.

Definition execute_action_push_vlan (a : action) : edit lagopus_result :=
  OS_M_PREPEND VLAN_HDR_size ;;
  eth ← header ETH_BASE;
  match eth with
  | Some eth =>
      (if NEED_COPY_ETH_ADDR (act_flags a) then memmove 0 eth (ETHER_ADDR_LEN * 2) else mret tt) ;;
      set_header ETH_BASE (Some 0%nat)
  | None => mret tt
  end ;;
  store16 ETHER_TYPE_off (OS_HTONS (ethertype_of a)) ;;
  vlan ← get_pkt pk_vlan;
  match vlan with
  | Some vlan => tci ← load16 vlan; store16 ETHER_HDR_size tci
  | None => store16 ETHER_HDR_size 0
  end ;;
  upd_pkt (set_pk_vlan (Some ETHER_HDR_size)) ;;
  tci ← load16 ETHER_HDR_size;
  upd_pkt (set_oob_vlan_tci (Z.lor tci (OS_HTONS OFPVID_PRESENT))) ;;
  mret LAGOPUS_RESULT_OK.

Definition execute_action_pop_vlan (a : action) : edit lagopus_result :=
  (if NEED_COPY_ETH_ADDR (act_flags a) then
     eth ← deref ETH_BASE; memmove VLAN_HDR_size eth (ETHER_ADDR_LEN * 2)
   else mret tt) ;;
  OS_M_ADJ VLAN_HDR_size ;;
  set_header ETH_BASE (Some 0%nat) ;;
  upd_pkt (set_pk_vlan None) ;;
  upd_pkt (set_oob_vlan_tci 0) ;;
  mret LAGOPUS_RESULT_OK.

(** What a pushed label inherits: label, traffic class, bottom of stack, TTL; and the number
    of bytes in front of the label. *)
Definition push_mpls_inherit : edit (Z * Z * Z * Z * nat) :=
  x ← header MPLS_BASE;
  eth ← deref ETH_BASE;
  match x with
  | Some mpls =>
      lse ← load32 mpls;
      assert (eth <=? mpls)%nat ;;
      mret (MPLS_LBL lse, MPLS_EXP lse, 0, MPLS_TTL lse, (mpls - eth)%nat)
  | None =>
      v4 ← gets is_ipv4; v6 ← gets is_ipv6;
      l3 ← deref L3_BASE;
      ttl ← (if v4 : bool then load8 (l3 + IPV4_TTL_off)
             else if v6 : bool then load8 (l3 + IPV6_HLIM_off) else mret 0);
      assert (eth <=? l3)%nat ;;
      mret (0, 0, 1, ttl, (l3 - eth)%nat)
  end.

Definition execute_action_push_mpls (a : action) : edit lagopus_result :=
  v ← push_mpls_inherit;
  let '(label, tc, bos, ttl, copy_size) := v in
  OS_M_PREPEND sizeof_mpls_hdr ;;
  eth ← deref ETH_BASE;
  (if NEED_COPY_ETH_ADDR (act_flags a) then memmove 0 eth copy_size
   else if (ETHER_HDR_size <? copy_size)%nat
   then memmove ETHER_TYPE_off (eth + ETHER_TYPE_off) (copy_size - ETHER_HDR_size)
   else mret tt) ;;
  x ← header MPLS_BASE;
  hdr ← match x with Some mpls => mret mpls | None => deref L3_BASE end;
  assert (sizeof_mpls_hdr + 2 <=? hdr)%nat ;;
  let mpls_hdr := (hdr - sizeof_mpls_hdr)%nat in
  store16 (mpls_hdr - 2) (OS_HTONS (ethertype_of a)) ;;
  store32 mpls_hdr (SET_MPLS_LSE label tc bos ttl) ;;
  set_header ETH_BASE (Some 0%nat) ;;
  set_header MPLS_BASE (Some mpls_hdr) ;;
  mret LAGOPUS_RESULT_OK.

Definition execute_action_pop_mpls (a : action) : edit lagopus_result :=
  eth ← deref ETH_BASE;
  mpls ← deref MPLS_BASE;
  assert (eth + 2 <=? mpls)%nat ;;
  memmove sizeof_mpls_hdr eth (mpls - eth - 2) ;;
  upd_pkt (set_pk_ether_type (ethertype_of a)) ;;
  store16 (mpls + sizeof_mpls_hdr - 2) (OS_HTONS (ethertype_of a)) ;;
  OS_M_ADJ sizeof_mpls_hdr ;;
  set_header MPLS_BASE None ;;
  (if negb (ethertype_of a =? ETHERTYPE_IP) && negb (ethertype_of a =? ETHERTYPE_IPV6)
   then upd_pkt re_classify_packet
   else set_header ETH_BASE (Some 0%nat)) ;;
  mret LAGOPUS_RESULT_OK.

(** [struct pbb_hdr]: the flags, the service identifier, the inner addresses, the inner
    ethertype. *)
Definition pbb_i_sid := 1%nat.
Definition pbb_c_dhost := 4%nat.
Definition pbb_c_shost := 10%nat.
Definition pbb_c_ethtype := 16%nat.
Definition sizeof_i_sid := 3%nat.

Definition VLAN_PCP (tci : Z) : Z := Z.shiftr (Z.land (OS_NTOHS tci) 0xe000) 13.

Definition execute_action_push_pbb (a : action) : edit lagopus_result :=
  OS_M_PREPEND PBB_HDR_size ;;
  (if NEED_COPY_ETH_ADDR (act_flags a) then
     eth ← deref ETH_BASE; memmove 0 eth (ETHER_ADDR_LEN * 2)
   else mret tt) ;;
  store16 ETHER_TYPE_off (OS_HTONS (ethertype_of a)) ;;
  let pbb_hdr := ETHER_HDR_size in
  c_ethtype ← load16 (pbb_hdr + pbb_c_ethtype);
  (if OS_NTOHS c_ethtype =? ETHERTYPE_VLAN then
     tci ← load16 (pbb_hdr + PBB_HDR_size);
     store8 pbb_hdr (Z.shiftl (VLAN_PCP tci) 5) ;;
     store (pbb_hdr + pbb_i_sid) (replicate sizeof_i_sid 0)
   else if OS_NTOHS c_ethtype =? ETHERTYPE_PBB then
     store8 pbb_hdr 0 ;;
     memmove (pbb_hdr + pbb_i_sid) (pbb_hdr + PBB_HDR_size + pbb_i_sid) sizeof_i_sid
   else
     store8 pbb_hdr 0 ;;
     store (pbb_hdr + pbb_i_sid) (replicate sizeof_i_sid 0)) ;;
  upd_pkt re_classify_packet ;;
  mret LAGOPUS_RESULT_OK.

Definition execute_action_pop_pbb : edit lagopus_result :=
  eth ← deref ETH_BASE;
  pbb ← deref PBB_BASE;
  memmove eth (pbb + pbb_c_dhost) ETHER_ADDR_LEN ;;
  memmove (eth + ETHER_ADDR_LEN) (pbb + pbb_c_shost) ETHER_ADDR_LEN ;;
  assert (eth + 2 <=? pbb)%nat ;;
  memmove (eth + PBB_HDR_size) eth (pbb - eth - 2) ;;
  OS_M_ADJ PBB_HDR_size ;;
  upd_pkt re_classify_packet ;;
  mret LAGOPUS_RESULT_OK.

Definition execute_action_set_queue (a : action) : edit lagopus_result :=
  modify (set_mb_queue_id (queue_id_of a)) ;; mret LAGOPUS_RESULT_OK.

Definition execute_action_experimenter : edit lagopus_result := mret LAGOPUS_RESULT_OK.
Definition execute_action_none : edit lagopus_result := mret LAGOPUS_RESULT_OK.

(** Arithmetic on offsets: the sizes of the headers are numerals. *)
Ltac sizes :=
  unfold ETHER_ADDR_LEN, ETHER_TYPE_off, ETHER_HDR_size, VLAN_HDR_size, PBB_HDR_size, sizeof_mpls_hdr,
    pbb_i_sid, pbb_c_dhost, pbb_c_shost, pbb_c_ethtype, sizeof_i_sid, IPV4_TTL_off, IPV6_HLIM_off,
    IPV4_HDR_size, IPV6_HDR_size in *.
Ltac size_lia := sizes; rewrite ?length_memcpy, ?length_app, ?length_drop, ?length_take, ?length_le_bytes; cbn [length]; lia.

(** ** Pushing and popping a VLAN tag *)

(** A packet as classification leaves it: the Ethernet header starts the frame, and there is
    a whole one. *)
Definition starts_with_eth (m : mbuf) : Prop :=
  packet_wf (mb_pkt m) /\ base_ptr (mb_pkt m) ETH_BASE = Some (PData 0) /\
  (ETHER_HDR_size <= length (frame m))%nat.

Lemma eth_slot : (ETH_BASE < MAX_BASE)%nat.
Proof. unfold ETH_BASE, MAX_BASE. lia. Qed.
Lemma mpls_slot : (MPLS_BASE < MAX_BASE)%nat.
Proof. unfold MPLS_BASE, MAX_BASE. lia. Qed.
#[local] Hint Resolve eth_slot mpls_slot set_base_wf move_ptrs_wf : core.

Ltac wf_tac :=
  unfold packet_wf in *; cbn;
  repeat first [rewrite length_insert | rewrite length_map]; assumption.

Lemma push_vlan_law m a :
  starts_with_eth m -> (VLAN_HDR_size <= length (mb_room m))%nat -> NEED_COPY_ETH_ADDR (act_flags a) = true ->
  pk_vlan (mb_pkt m) = None ->
  exists m1, execute_action_push_vlan a m = Done (LAGOPUS_RESULT_OK, m1) /\
    frame m1 = take 12 (frame m) ++ le_bytes 2 (OS_HTONS (ethertype_of a)) ++ [0; 0] ++ drop 12 (frame m) /\
    mb_room m1 = take (length (mb_room m) - 4) (mb_room m) /\
    mb_pkt m1 = set_oob_vlan_tci (OS_HTONS OFPVID_PRESENT) (set_pk_vlan (Some 14%nat)
      (set_base ETH_BASE (Some (PData 0)) (set_pk_data (frame m1)
        (move_ptrs (fun off => Some (up 4 off)) (mb_pkt m))))).
Proof.
  intros (Hwf & He & Hlen) Hr Hc Hv. sizes.
  unfold execute_action_push_vlan, store16. rewrite (st_eta m).
  sstep by size_lia.
  set (g := drop _ _). set (p0 := move_ptrs _ _).
  assert (base_ptr p0 ETH_BASE = Some (PData 4)) as Eb.
  { unfold p0. by rewrite base_ptr_move, He. }
  sstep by idtac. rewrite Hc.
  assert (length g = 4)%nat as Hg by (unfold g; size_lia).
  sstep by size_lia. sstep by size_lia. sstep by size_lia. sstep by idtac.
  assert (pk_vlan (set_base ETH_BASE (PData <$> Some 0%nat) p0) = None) as -> by (cbn; by rewrite Hv).
  sstep by size_lia. sstep by idtac. sstep by size_lia. sstep by idtac.
  rewrite rd16_store by size_lia. change (0 mod 2 ^ 16) with 0. rewrite Z.lor_0_l.
  eexists. split; [reflexivity|]. split_and!; [|done|done].
  change (frame (st ?r ?d ?p ?h ?q)) with d.
  change (le_bytes 2 0) with [0; 0]. set (e := le_bytes 2 _).
  assert (length e = 2)%nat as He2 by apply length_le_bytes. clearbody e g.
  apply list_eq. intros i. sizes. lookup_trace; try (f_equal; lookup_length).
Qed.

(** The handlers [h1] and [h2] in turn, when both succeed. *)
Definition then_action (h1 h2 : edit lagopus_result) : edit lagopus_result :=
  rv ← h1; if is_ok rv then h2 else mret rv.

(** Pushing a VLAN tag on an untagged packet and popping it again gives the packet back: the
    frame byte for byte, every header pointer, the out-of-band tag and all the rest; the room
    in front of the frame is as large as before. *)
Theorem push_pop_vlan (m : mbuf) (a1 a2 : action)
    (He : starts_with_eth m) (Hr : (VLAN_HDR_size <= length (mb_room m))%nat)
    (Hv : pk_vlan (mb_pkt m) = None) (Ht : oob_vlan_tci (mb_pkt m) = 0)
    (H1 : NEED_COPY_ETH_ADDR (act_flags a1) = true) (H2 : NEED_COPY_ETH_ADDR (act_flags a2) = true) :
  exists m', then_action (execute_action_push_vlan a1) (execute_action_pop_vlan a2) m =
      Done (LAGOPUS_RESULT_OK, m') /\
    mb_pkt m' = mb_pkt m /\ length (mb_room m') = length (mb_room m).
Proof.
  destruct (push_vlan_law m a1 He Hr H1 Hv) as (m1 & E1 & Ef & Er & Ep).
  unfold then_action. erewrite bind_Done by exact E1. cbn [is_ok]. clear E1.
  destruct He as (Hwf & He & Hlen). sizes.
  assert (length (frame m1) = length (frame m) + 4)%nat as El by (rewrite Ef; lookup_length).
  assert (base_ptr (mb_pkt m1) ETH_BASE = Some (PData 0)) as Eb.
  { rewrite Ep. change (base_ptr (set_base ETH_BASE (Some (PData 0)) (move_ptrs (fun off => Some (up 4 off)) (mb_pkt m))) ETH_BASE = Some (PData 0)).
    rewrite base_ptr_set by auto. by rewrite decide_True. }
  unfold execute_action_pop_vlan. rewrite H2, (st_eta m1).
  sstep by idtac. sstep by size_lia. sstep by size_lia. sstep by idtac. sstep by idtac. sstep by idtac.
  eexists. split; [reflexivity|]. cbn [mb_pkt mb_room st].
  split; [|rewrite Er; sizes; lookup_length].
  assert (drop VLAN_HDR_size (memcpy_at VLAN_HDR_size (take (ETHER_ADDR_LEN * 2) (drop 0 (frame m1))) (frame m1)) = frame m) as ->.
  { sizes. rewrite Ef. apply list_eq. intros i. lookup_trace; try (f_equal; lookup_length). }
  rewrite Ep. apply packet_eq; [done|done|wf_tac|done| |done|done].
  intros b. change (base_ptr (set_base ETH_BASE (Some (PData 0)) (move_ptrs (down 4) (set_base ETH_BASE (Some (PData 0))
    (move_ptrs (fun off => Some (up 4 off)) (mb_pkt m))))) b = base_ptr (mb_pkt m) b).
  rewrite base_ptr_set by auto. destruct (decide (b = ETH_BASE)) as [->|Hne]; [done|].
  by rewrite base_ptr_move, base_ptr_set, decide_False, base_ptr_move, move_back by auto.
Qed.

(** ** Pushing and popping a label *)

(** An IP packet under an Ethernet header, possibly with VLAN tags, and no label. *)
Record ip_packet (m : mbuf) (l3 : nat) : Prop := {
  ip_eth : starts_with_eth m;
  ip_mpls : base_ptr (mb_pkt m) MPLS_BASE = None;
  ip_l3 : base_ptr (mb_pkt m) L3_BASE = Some (PData l3);
  ip_type : pk_ether_type (mb_pkt m) = ETHERTYPE_IP \/ pk_ether_type (mb_pkt m) = ETHERTYPE_IPV6;
  ip_room : (ETHER_HDR_size <= l3)%nat /\ (l3 + 9 <= length (frame m))%nat
}.

(** The TTL or hop limit that the label inherits. *)
Definition ip_ttl (m : mbuf) (l3 : nat) : Z :=
  if is_ipv4 m then rd8 (frame m) (l3 + IPV4_TTL_off) else rd8 (frame m) (l3 + IPV6_HLIM_off).

Lemma push_mpls_law m a l3 :
  ip_packet m l3 -> (sizeof_mpls_hdr <= length (mb_room m))%nat -> NEED_COPY_ETH_ADDR (act_flags a) = true ->
  exists m1, execute_action_push_mpls a m = Done (LAGOPUS_RESULT_OK, m1) /\
    frame m1 = take (l3 - 2) (frame m) ++ le_bytes 2 (OS_HTONS (ethertype_of a)) ++
               le_bytes 4 (SET_MPLS_LSE 0 0 1 (ip_ttl m l3)) ++ drop l3 (frame m) /\
    mb_room m1 = take (length (mb_room m) - 4) (mb_room m) /\
    mb_pkt m1 = set_base MPLS_BASE (Some (PData l3)) (set_base ETH_BASE (Some (PData 0))
        (set_pk_data (frame m1) (move_ptrs (fun off => Some (up 4 off)) (mb_pkt m)))) /\
    mb_has_port m1 = mb_has_port m /\ mb_queue_id m1 = mb_queue_id m.
Proof.
  intros [(Hwf & He & Hlen) Hm H3 Hty (Hl & Hin)] Hr Hc. sizes.
  assert (push_mpls_inherit m = Done (0, 0, 1, ip_ttl m l3, l3, m)) as Ei.
  { unfold push_mpls_inherit. rewrite (st_eta m). sstep by idtac. sstep by idtac. sstep by idtac.
    sstep by idtac. sstep by idtac. unfold ip_ttl. rewrite <- (st_eta m).
    unfold is_ipv4, is_ipv6. destruct Hty as [-> | ->]; cbn [Z.eqb Pos.eqb]; rewrite (st_eta m).
    - change (ETHERTYPE_IP =? ETHERTYPE_IP) with true. cbv iota. sstep by size_lia. sstep by done.
      by rewrite Nat.sub_0_r.
    - change (ETHERTYPE_IPV6 =? ETHERTYPE_IP) with false. change (ETHERTYPE_IPV6 =? ETHERTYPE_IPV6) with true.
      cbv iota. sstep by size_lia. sstep by done. by rewrite Nat.sub_0_r. }
  unfold execute_action_push_mpls. erewrite bind_Done by exact Ei. cbv beta iota.
  rewrite (st_eta m). sstep by size_lia. rewrite Hc.
  set (g := drop _ _). set (p0 := move_ptrs _ _).
  assert (length g = 4)%nat as Hg by (unfold g; size_lia).
  assert (base_ptr p0 ETH_BASE = Some (PData 4)) as Eb by (unfold p0; by rewrite base_ptr_move, He).
  assert (base_ptr p0 MPLS_BASE = None) as Em by (unfold p0; by rewrite base_ptr_move, Hm).
  assert (base_ptr p0 L3_BASE = Some (PData (l3 + 4))) as E3 by (unfold p0; by rewrite base_ptr_move, H3).
  sstep by idtac. sstep by size_lia. sstep by idtac. sstep by idtac.
  sstep by (apply Nat.leb_le; size_lia). unfold store16, store32. sstep by size_lia. sstep by size_lia.
  sstep by idtac. sstep by idtac.
  rewrite <- (st_eta m). eexists. split; [reflexivity|].
  assert (l3 + 4 - sizeof_mpls_hdr = l3)%nat as -> by size_lia. split_and!; [|done..].
  change (frame (st ?r ?d ?p ?h ?q)) with d. set (e := le_bytes 2 _). set (w := le_bytes 4 _).
  assert (length e = 2)%nat as He2 by apply length_le_bytes.
  assert (length w = 4)%nat as He4 by apply length_le_bytes. clearbody e w g.
  apply list_eq. intros i. sizes. lookup_trace; try (f_equal; lookup_length).
Qed.

(** Pushing a label on an IP packet and popping it again with the ethertype it had gives
    the packet back, whatever VLAN tags are in front: frame, header pointers and all. *)
Theorem push_pop_mpls (m : mbuf) (l3 : nat) (a1 a2 : action)
    (Hip : ip_packet m l3) (Hd : bytes_ok (frame m)) (Hr : (sizeof_mpls_hdr <= length (mb_room m))%nat)
    (H1 : NEED_COPY_ETH_ADDR (act_flags a1) = true)
    (H2 : ethertype_of a2 = pk_ether_type (mb_pkt m))
    (Ht : rd16 (frame m) (l3 - 2) = OS_HTONS (ethertype_of a2)) :
  exists m', then_action (execute_action_push_mpls a1) (execute_action_pop_mpls a2) m =
      Done (LAGOPUS_RESULT_OK, m') /\
    mb_pkt m' = mb_pkt m /\ length (mb_room m') = length (mb_room m).
Proof.
  destruct (push_mpls_law m a1 l3 Hip Hr H1) as (m1 & E1 & Ef & Er & Ep & _).
  unfold then_action. erewrite bind_Done by exact E1. cbn [is_ok]. clear E1.
  destruct Hip as [(Hwf & He & Hlen) Hm H3 Hty (Hl & Hin)]. sizes.
  assert (length (frame m1) = length (frame m) + 4)%nat as El by (rewrite Ef; lookup_length).
  set (p0 := move_ptrs _ _) in *. assert (packet_wf p0) as Hp0 by by apply move_ptrs_wf.
  assert (forall b, base_ptr (mb_pkt m1) b = if decide (b = MPLS_BASE) then Some (PData l3)
    else if decide (b = ETH_BASE) then Some (PData 0) else base_ptr p0 b) as Eb.
  { intros b. rewrite Ep. rewrite base_ptr_set by auto. destruct (decide (b = MPLS_BASE)); [done|].
    rewrite base_ptr_set by auto. done. }
  assert (base_ptr (mb_pkt m1) ETH_BASE = Some (PData 0)) as E1 by by rewrite Eb.
  assert (base_ptr (mb_pkt m1) MPLS_BASE = Some (PData l3)) as E2 by by rewrite Eb.
  unfold execute_action_pop_mpls, store16. rewrite (st_eta m1).
  sstep by idtac. sstep by idtac. sstep by (apply Nat.leb_le; size_lia). sstep by size_lia. sstep by idtac.
  sstep by size_lia. sstep by size_lia. sstep by idtac.
  assert (negb (ethertype_of a2 =? ETHERTYPE_IP) && negb (ethertype_of a2 =? ETHERTYPE_IPV6) = false) as ->.
  { rewrite H2. by destruct Hty as [-> | ->]. }
  sstep by idtac. rewrite <- Ht, le_bytes_rd16 by (done || lia).
  eexists. split; [reflexivity|]. cbn [mb_pkt mb_room st].
  split; [|rewrite Er; sizes; lookup_length]. sizes.
  match goal with |- set_pk_data ?d _ = _ => assert (d = frame m) as -> end.
  { rewrite Ef. set (e := le_bytes 2 _). set (w := le_bytes 4 _).
    assert (length e = 2)%nat as He2 by apply length_le_bytes.
    assert (length w = 4)%nat as He4 by apply length_le_bytes. clearbody e w.
    apply list_eq. intros i. lookup_trace; try (f_equal; lookup_length). }
  rewrite H2. apply packet_eq; [|done| |done| | |by rewrite Ep].
  - rewrite Ep. unfold p0. by destruct (mb_pkt m).
  - rewrite Ep. unfold p0. wf_tac.
  - intros b. change (base_ptr (set_base ETH_BASE (Some (PData 0)) (set_base MPLS_BASE None
      (move_ptrs (down 4) (mb_pkt m1)))) b = base_ptr (mb_pkt m) b).
    assert (packet_wf (mb_pkt m1)) as Hw1 by (rewrite Ep; unfold p0; wf_tac).
    rewrite base_ptr_set by auto. destruct (decide (b = ETH_BASE)) as [->|Hne]; [done|].
    rewrite base_ptr_set by auto. destruct (decide (b = MPLS_BASE)) as [->|Hne']; [done|].
    rewrite base_ptr_move, Eb, !decide_False by done. unfold p0. by rewrite base_ptr_move, move_back.
  - rewrite Ep. apply offset_back.
Qed.

(** ** Decrementing the TTL *)

Definition same_except (l : list nat) (d d' : bytes) : Prop :=
  length d' = length d /\ forall i, ~ (i ∈ l) -> d' !! i = d !! i.

Lemma same_except_refl l d : same_except l d d.
Proof. done. Qed.

Lemma same_except_memcpy l off v d d' :
  same_except l d d' -> (forall i, (off <= i < off + length v)%nat -> i ∈ l) ->
  same_except l d (memcpy_at off v d').
Proof.
  intros [Hl He] Hv. destruct (same_but_memcpy off v d') as [Hl' He']. split; [congruence|].
  intros i Hi. rewrite He', He; [done|done|]. intros H. by apply Hi, Hv.
Qed.

Lemma dec_nw_ttl_law r d p h q l3 :
  bytes_ok d -> pk_ether_type p = ETHERTYPE_IP -> base_ptr p L3_BASE = Some (PData l3) ->
  (l3 + IPV4_HDR_size <= length d)%nat ->
  let ttl := rd8 d (l3 + 8) in
  exists d' flags, dec_nw_ttl (st r d p h q) =
      Done (if ttl <=? 1 then LAGOPUS_RESULT_STOP else LAGOPUS_RESULT_OK, st r d' (set_pk_flags flags p) h q) /\
    bytes_ok d' /\ rd8 d' (l3 + 8) = Z.max 0 (ttl - 1) /\
    same_except [l3 + 8; l3 + 10; l3 + 11]%nat d d' /\
    (flags = Z.lor (pk_flags p) PKT_FLAG_RECALC_IPV4_CKSUM \/
     flags = pk_flags p /\
     forall n, (IPV4_HDR_size <= n)%nat -> (l3 + n <= length d)%nat ->
       word_sum (take n (drop l3 d')) = word_sum (take n (drop l3 d))).
Proof.
  intros Hd Hip H3 Hin. cbv zeta. set (ttl := rd8 d (l3 + 8)).
  assert (0 <= ttl < 256) as Httl by by apply rd8_range.
  unfold dec_nw_ttl, store8, store16. sizes.
  assert (is_ipv4 (st r d p h q) = true) as Ev by (unfold is_ipv4; cbn; by rewrite Hip).
  sstep by idtac. sstep by idtac. rewrite Ev. sstep by idtac. sstep by size_lia. fold ttl.
  destruct (Z.ltb_spec 0 ttl) as [Hpos|Hz]; cycle 1.
  { sstep by idtac. sstep by size_lia. fold ttl. assert (ttl = 0) as E0 by lia. rewrite E0.
    exists d, (pk_flags p). split_and!; [by destruct p|done|fold ttl; lia|done|]. right. by split. }
  sstep by size_lia. sstep by size_lia.
  set (d1 := memcpy_at (l3 + 8) (le_bytes 1 (ttl - 1)) d).
  assert (rd16 d1 (l3 + 10) = rd16 d (l3 + 10)) as Ec.
  { unfold d1, rd16. by rewrite !rd8_memcpy_out by (rewrite length_le_bytes; lia). }
  assert (length d1 = length d) as L1 by apply length_memcpy.
  assert (bytes_ok d1) as Hd1 by (apply bytes_ok_memcpy; [apply le_bytes_ok|done]).
  assert (rd8 d1 (l3 + 8) = ttl - 1) as E1.
  { unfold d1. rewrite <- (Nat.add_0_r (l3 + 8)) at 2. rewrite rd8_memcpy_in by (rewrite length_le_bytes; lia).
    rewrite le_bytes_byte. apply (Z.mod_small _ 256). lia. }
  assert (same_except [l3 + 8; l3 + 10; l3 + 11]%nat d d1) as S1.
  { apply same_except_memcpy; [done|]. rewrite length_le_bytes. intros i Hi. assert (i = l3 + 8)%nat as -> by lia. left. }
  assert ((ttl - 1 =? 0) = (ttl <=? 1)) as Ez by (destruct (Z.eqb_spec (ttl - 1) 0), (Z.leb_spec ttl 1); lia || done).
  rewrite Ec. destruct (Z.eqb_spec (rd16 d (l3 + 10)) 0xffff) as [Hf|Hnf].
  - sstep by idtac. sstep by size_lia. rewrite E1, Ez. exists d1, (Z.lor (pk_flags p) PKT_FLAG_RECALC_IPV4_CKSUM).
    split_and!; [by destruct (ttl <=? 1)|done|lia|done|by left].
  - pose proof (rd16_range d (l3 + 10) Hd) as Hc. sstep by size_lia.
    set (d2 := memcpy_at (l3 + 10) (le_bytes 2 (rd16 d (l3 + 10) + 1)) d1).
    assert (rd8 d2 (l3 + 8) = ttl - 1) as E2.
    { unfold d2. by rewrite rd8_memcpy_out by (rewrite length_le_bytes; lia). }
    assert (length d2 = length d) as L2 by (unfold d2; by rewrite length_memcpy).
    sstep by size_lia. rewrite E2, Ez. exists d2, (pk_flags p). split_and!.
    + destruct p. by destruct (ttl <=? 1).
    + apply bytes_ok_memcpy; [apply le_bytes_ok|done].
    + lia.
    + apply same_except_memcpy; [done|]. rewrite length_le_bytes. intros i Hi.
      assert (i = l3 + 10 \/ i = l3 + 11)%nat as [-> | ->] by lia; set_solver.
    + right. split; [done|]. intros n Hn Hl. unfold d2, d1.
      rewrite block_memcpy by (rewrite ?length_le_bytes, ?length_memcpy; lia).
      rewrite block_memcpy by (rewrite ?length_le_bytes; lia).
      set (hd := take n (drop l3 d)). assert (length hd = n) as Lh by (unfold hd; lookup_length).
      rewrite (word_sum_store 5) by (rewrite ?length_memcpy; lia).
      assert (le_bytes 1 (ttl - 1) = [ttl - 1]) as -> by (rewrite le_bytes_byte; f_equal; apply Z.mod_small; lia).
      rewrite (word_sum_set_low 4) by lia. change (2 * 5)%nat with 10%nat. change (2 * 4)%nat with 8%nat.
      assert (rd16 (memcpy_at 8 [ttl - 1] hd) 10 = rd16 d (l3 + 10)) as ->.
      { unfold rd16. rewrite !rd8_memcpy_out by (cbn; lia). unfold hd. rewrite !rd8_take, !rd8_drop by lia. do 3 f_equal. lia. }
      assert (rd8 hd 8 = ttl) as -> by (unfold hd; by rewrite rd8_take, rd8_drop by lia). lia.
Qed.

(** C39: decrementing the TTL of an IPv4 packet is what RFC 1812 asks for and never wraps: the
    TTL goes down by one and stays at 0; the packet goes on exactly if the TTL left is
    positive; the checksum is adjusted so that the sum of the header words, options
    included, stays what it was, or the flag that has it computed anew is set; no other
    byte of the frame changes. *)
Theorem dec_nw_ttl_ipv4 (m : mbuf) (l3 : nat)
    (Hd : bytes_ok (frame m)) (Hip : pk_ether_type (mb_pkt m) = ETHERTYPE_IP)
    (H3 : base_ptr (mb_pkt m) L3_BASE = Some (PData l3)) (Hin : (l3 + IPV4_HDR_size <= length (frame m))%nat)
    (ttl := rd8 (frame m) (l3 + 8)) :
  exists d flags, dec_nw_ttl m =
      Done (if ttl <=? 1 then LAGOPUS_RESULT_STOP else LAGOPUS_RESULT_OK,
            put_frame d (set_mb_pkt (set_pk_flags flags (mb_pkt m)) m)) /\
    bytes_ok d /\ rd8 d (l3 + 8) = Z.max 0 (ttl - 1) /\
    same_except [l3 + 8; l3 + 10; l3 + 11]%nat (frame m) d /\
    (flags = Z.lor (pk_flags (mb_pkt m)) PKT_FLAG_RECALC_IPV4_CKSUM \/
     flags = pk_flags (mb_pkt m) /\
     forall n, (IPV4_HDR_size <= n)%nat -> (l3 + n <= length (frame m))%nat ->
       word_sum (take n (drop l3 d)) = word_sum (take n (drop l3 (frame m)))).
Proof.
  rewrite (st_eta m) in *. cbn [mb_pkt st] in *.
  by apply (dec_nw_ttl_law (mb_room m) (frame m) (mb_pkt m)).
Qed.

(** ** The theorems at a UDP packet *)

Definition tag_action : action := Action None 0 0 (ofp_action_push 0 ETHERTYPE_VLAN).
Definition label_action : action := Action None 0 0 (ofp_action_push 0 ETHERTYPE_MPLS).
Definition unlabel_action : action := Action None 0 0 (ofp_action_pop_mpls ETHERTYPE_IP).

Lemma udp_bytes_ok : bytes_ok (frame udp_mbuf).
Proof. by apply bytes_ok_dec. Qed.

Lemma udp_starts_with_eth : starts_with_eth udp_mbuf.
Proof. split_and!; [by vm_compute|by vm_compute|vm_compute; lia]. Qed.

Lemma udp_ip_packet : ip_packet udp_mbuf 14.
Proof.
  split; [apply udp_starts_with_eth|by vm_compute|by vm_compute|left; by vm_compute|].
  split; vm_compute; lia.
Qed.

Lemma push_pop_vlan_witness :
  exists m', then_action (execute_action_push_vlan tag_action) (execute_action_pop_vlan tag_action) udp_mbuf =
      Done (LAGOPUS_RESULT_OK, m') /\
    mb_pkt m' = mb_pkt udp_mbuf /\ length (mb_room m') = length (mb_room udp_mbuf).
Proof.
  apply (push_pop_vlan udp_mbuf tag_action tag_action);
    [apply udp_starts_with_eth|vm_compute; lia|by vm_compute|by vm_compute|by vm_compute|by vm_compute].
Defined.

Lemma push_pop_mpls_witness :
  exists m', then_action (execute_action_push_mpls label_action) (execute_action_pop_mpls unlabel_action) udp_mbuf =
      Done (LAGOPUS_RESULT_OK, m') /\
    mb_pkt m' = mb_pkt udp_mbuf /\ length (mb_room m') = length (mb_room udp_mbuf).
Proof.
  apply (push_pop_mpls udp_mbuf 14 label_action unlabel_action);
    [apply udp_ip_packet|apply udp_bytes_ok|vm_compute; lia|by vm_compute|by vm_compute|by vm_compute].
Defined.

Lemma dec_nw_ttl_ipv4_witness :
  exists d flags, dec_nw_ttl udp_mbuf =
      Done (LAGOPUS_RESULT_OK, put_frame d (set_mb_pkt (set_pk_flags flags (mb_pkt udp_mbuf)) udp_mbuf)) /\
    rd8 d (14 + 8) = 63.
Proof.
  destruct (dec_nw_ttl_ipv4 udp_mbuf 14) as (d & flags & E & _ & Ht & _);
    [apply udp_bytes_ok|by vm_compute|by vm_compute|vm_compute; lia|].
  exists d, flags. split; [exact E|exact Ht].
Defined.
