(* ===== verification/SetField.v ===== *)
(** * SET_FIELD

    [execute_action_set_field] of [src/dataplane/ofproto/datapath.c], split into the groups of its
    switch.  A group is [None] on a field of another group; a field of none is ignored.
    Values are in network byte order, as the frame holds them. *)
From S2P Require Import Prelude Monad OpenFlow Packet ByteMatch Endian ActionSet PacketEdit Checksum PacketActions.

(** ** The TLV *)

Definition oxm_of (a : action) : bytes :=
  match act_ofpat a with ofp_action_set_field field => field | _ => [] end.

(** [oxm[2] >> 1], [&oxm[4]] and the mask bit of the header. *)
Definition set_field_type (oxm : bytes) : Z := Z.shiftr (rd8 oxm 2) 1.
Definition set_field_value (oxm : bytes) : bytes := drop 4 oxm.
Definition set_field_hasmask (oxm : bytes) : bool :=
  negb (Z.land (OS_NTOHL (rd32 oxm 0)) 0x00000100 =? 0).

(** [OS_MEMCPY (p + off, oxm_value, n)] for the header [b]. *)
Definition copy_field (b off n : nat) (v : bytes) : edit unit :=
  base ← deref b; store (base + off) (take n v).

(** The read-modify-write of a word of the header [b]. *)
Definition update8 (b off : nat) (f : Z -> Z) : edit unit :=
  base ← deref b; x ← load8 (base + off); store8 (base + off) (f x).
Definition update16 (b off : nat) (f : Z -> Z) : edit unit :=
  base ← deref b; x ← load16 (base + off); store16 (base + off) (f x).
Definition update32 (b off : nat) (f : Z -> Z) : edit unit :=
  base ← deref b; x ← load32 (base + off); store32 (base + off) (f x).

(** ** Metadata, ports and Layer 2 *)

Section Ports.
(** The ports of the bridge. *)
Context (ports : gset Z).

Definition set_field_in_port (v : bytes) : edit unit :=
  let port := OS_NTOHL (rd32 v 0) in
  (if bool_decide (port ∈ ports)
   then upd_pkt (set_pk_in_port port) ;; modify (set_mb_has_port true)
   else modify (set_mb_has_port false)) ;;
  upd_pkt (set_oob_in_port (rd32 v 0)).

(** The tag of [pkt->vlan], after a change [f] of its TCI. *)
Definition update_vlan (f : Z -> Z) : edit unit :=
  vlan ← get_pkt pk_vlan;
  match vlan with
  | Some vlan =>
      tci ← load16 vlan;
      store16 vlan (f tci) ;;
      tci ← load16 vlan;
      upd_pkt (set_oob_vlan_tci (Z.lor tci (OS_HTONS OFPVID_PRESENT)))
  | None => mret tt
  end.

Definition set_vid (val16 tci : Z) : Z :=
  Z.lor (Z.land tci (OS_HTONS 0xf000)) (Z.land val16 (OS_HTONS 0x0fff)).
Definition set_pcp (v tci : Z) : Z :=
  Z.lor (Z.land tci (OS_HTONS 0x01fff)) (OS_HTONS (u16 (Z.shiftl v 13))).

Definition set_field_l2 (field : Z) (v : bytes) : option (edit unit) :=
  if field =? OFPXMT_OFB_IN_PORT then Some (set_field_in_port v)
  else if field =? OFPXMT_OFB_METADATA then Some (upd_pkt (set_oob_metadata (rd64 v 0)))
  else if field =? OFPXMT_OFB_ETH_DST then Some (copy_field ETH_BASE 0 ETHER_ADDR_LEN v)
  else if field =? OFPXMT_OFB_ETH_SRC then Some (copy_field ETH_BASE 6 ETHER_ADDR_LEN v)
  else if field =? OFPXMT_OFB_ETH_TYPE then Some (
    vlan ← get_pkt pk_vlan;
    match vlan with
    | Some vlan => store16 (vlan + 2) (rd16 v 0)
    | None => eth ← deref ETH_BASE; store16 (eth + ETHER_TYPE_off) (rd16 v 0)
    end ;;
    upd_pkt re_classify_packet)
  else if field =? OFPXMT_OFB_VLAN_VID then Some (update_vlan (set_vid (rd16 v 0)))
  else if field =? OFPXMT_OFB_VLAN_PCP then Some (update_vlan (set_pcp (rd8 v 0)))
  else None.

(** ** IP *)

(** The branches on the ethertype of the fields DSCP and ECN. *)
Definition by_ip (ipv4 ipv6 : edit unit) : edit unit :=
  v4 ← gets is_ipv4; v6 ← gets is_ipv6;
  if v4 : bool then ipv4 ;; or_flags PKT_FLAG_RECALC_IPV4_CKSUM
  else if v6 : bool then ipv6 else mret tt.

Definition set_dscp4 (v tos : Z) : Z := Z.lor (Z.land tos 0x03) (u8 (Z.shiftl v 2)).
Definition set_ecn4 (v tos : Z) : Z := Z.lor (Z.land tos 0xfc) v.
Definition set_dscp6 (v w : Z) : Z := Z.lor (Z.land w (OS_HTONL 0xf03fffff)) (OS_HTONL (u32 (Z.shiftl v 22))).
Definition set_ecn6 (v w : Z) : Z := Z.lor (Z.land w (OS_HTONL 0xffcfffff)) (OS_HTONL (u32 (Z.shiftl v 20))).

Definition set_field_ip (field : Z) (v : bytes) : option (edit unit) :=
  if field =? OFPXMT_OFB_IP_DSCP then
    Some (by_ip (update8 L3_BASE 1 (set_dscp4 (rd8 v 0))) (update32 L3_BASE 0 (set_dscp6 (rd8 v 0))))
  else if field =? OFPXMT_OFB_IP_ECN then
    Some (by_ip (update8 L3_BASE 1 (set_ecn4 (rd8 v 0))) (update32 L3_BASE 0 (set_ecn6 (rd8 v 0))))
  else if field =? OFPXMT_OFB_IP_PROTO then Some (
    copy_field IPPROTO_BASE 0 1 v ;;
    v4 ← gets is_ipv4;
    if v4 : bool then
      or_flags PKT_FLAG_RECALC_IPV4_CKSUM ;; upd_pkt (fun p => classify_packet_l4 (classify_packet_ipv4 p))
    else upd_pkt (fun p => classify_packet_l4 (classify_packet_ipv6 p)))
  else if field =? OFPXMT_OFB_IPV4_SRC then Some (
    copy_field L3_BASE 12 4 v ;; or_flags (Z.lor PKT_FLAG_RECALC_IPV4_CKSUM PKT_FLAG_RECALC_L4_CKSUM))
  else if field =? OFPXMT_OFB_IPV4_DST then Some (
    copy_field L3_BASE 16 4 v ;; or_flags (Z.lor PKT_FLAG_RECALC_IPV4_CKSUM PKT_FLAG_RECALC_L4_CKSUM))
  else None.

(** ** Transport, ICMP and ARP *)

(** A field of the transport header, and the checksum it takes part in. *)
Definition l4_field (off n : nat) (flag : Z) (v : bytes) : edit unit :=
  copy_field L4_BASE off n v ;; or_flags flag.

Definition set_field_l4 (field : Z) (v : bytes) : option (edit unit) :=
  if field =? OFPXMT_OFB_TCP_SRC then Some (l4_field 0 2 PKT_FLAG_RECALC_TCP_CKSUM v)
  else if field =? OFPXMT_OFB_TCP_DST then Some (l4_field 2 2 PKT_FLAG_RECALC_TCP_CKSUM v)
  else if field =? OFPXMT_OFB_UDP_SRC then Some (l4_field 0 2 PKT_FLAG_RECALC_UDP_CKSUM v)
  else if field =? OFPXMT_OFB_UDP_DST then Some (l4_field 2 2 PKT_FLAG_RECALC_UDP_CKSUM v)
  else if field =? OFPXMT_OFB_SCTP_SRC then Some (l4_field 0 2 PKT_FLAG_RECALC_SCTP_CKSUM v)
  else if field =? OFPXMT_OFB_SCTP_DST then Some (l4_field 2 2 PKT_FLAG_RECALC_SCTP_CKSUM v)
  else if field =? OFPXMT_OFB_ICMPV4_TYPE then Some (l4_field 0 1 PKT_FLAG_RECALC_ICMP_CKSUM v)
  else if field =? OFPXMT_OFB_ICMPV4_CODE then Some (l4_field 1 1 PKT_FLAG_RECALC_ICMP_CKSUM v)
  else if field =? OFPXMT_OFB_ICMPV6_TYPE then Some (l4_field 0 1 PKT_FLAG_RECALC_ICMPV6_CKSUM v)
  else if field =? OFPXMT_OFB_ICMPV6_CODE then Some (l4_field 1 1 PKT_FLAG_RECALC_ICMPV6_CKSUM v)
  else None.

(** The fields of [struct ether_arp], which [pkt->l3_hdr] points at. *)
Definition set_field_arp (field : Z) (v : bytes) : option (edit unit) :=
  if field =? OFPXMT_OFB_ARP_OP then Some (copy_field L3_BASE 6 2 v)
  else if field =? OFPXMT_OFB_ARP_SPA then Some (copy_field L3_BASE 14 4 v)
  else if field =? OFPXMT_OFB_ARP_TPA then Some (copy_field L3_BASE 24 4 v)
  else if field =? OFPXMT_OFB_ARP_SHA then Some (copy_field L3_BASE 8 6 v)
  else if field =? OFPXMT_OFB_ARP_THA then Some (copy_field L3_BASE 18 6 v)
  else None.

(** ** IPv6 *)

(** The address of a neighbour-discovery option, when there is one. *)
Definition nd_field (b : nat) (v : bytes) : edit unit :=
  x ← header b;
  match x with
  | Some off => store (off + 2) (take ETHER_ADDR_LEN v) ;; or_flags PKT_FLAG_RECALC_ICMPV6_CKSUM
  | None => mret tt
  end.

Definition set_flabel (val32 w : Z) : Z := Z.lor (Z.land w (OS_HTONL (not32 0x000fffff))) val32.

Definition set_field_ipv6 (field : Z) (v : bytes) : option (edit unit) :=
  if field =? OFPXMT_OFB_IPV6_SRC then Some (
    copy_field L3_BASE 8 16 v ;; or_flags (Z.lor PKT_FLAG_RECALC_IPV6_CKSUM PKT_FLAG_RECALC_L4_CKSUM))
  else if field =? OFPXMT_OFB_IPV6_DST then Some (
    copy_field L3_BASE 24 16 v ;; or_flags (Z.lor PKT_FLAG_RECALC_IPV6_CKSUM PKT_FLAG_RECALC_L4_CKSUM))
  else if field =? OFPXMT_OFB_IPV6_FLABEL then Some (update32 L3_BASE 0 (set_flabel (rd32 v 0)))
  else if field =? OFPXMT_OFB_IPV6_ND_TARGET then Some (l4_field 8 16 PKT_FLAG_RECALC_ICMPV6_CKSUM v)
  else if field =? OFPXMT_OFB_IPV6_ND_SLL then Some (nd_field NDSLL_BASE v)
  else if field =? OFPXMT_OFB_IPV6_ND_TLL then Some (nd_field NDTLL_BASE v)
  else None.

(** ** Labels and service instances *)

Definition update_lse (f : Z -> Z) : edit unit := update32 MPLS_BASE 0 f.

Definition set_field_mpls (field : Z) (v : bytes) : option (edit unit) :=
  if field =? OFPXMT_OFB_MPLS_LABEL then Some (update_lse (fun lse => SET_MPLS_LBL lse (rd32 v 0)))
  else if field =? OFPXMT_OFB_MPLS_TC then Some (update_lse (fun lse => SET_MPLS_EXP lse (rd8 v 0)))
  else if field =? OFPXMT_OFB_MPLS_BOS then Some (update_lse (fun lse => SET_MPLS_BOS lse (rd8 v 0)))
  else if field =? OFPXMT_OFB_PBB_ISID then Some (copy_field PBB_BASE pbb_i_sid sizeof_i_sid v)
  else None.

(** ** Tunnels *)

Definition set_gre_flags (val16 flags : Z) : Z :=
  Z.lor (Z.land flags (OS_HTONS 7)) (OS_HTONS (Z.shiftl (OS_NTOHS val16) 3)).
Definition set_gre_ver (v flags : Z) : Z := Z.lor (Z.land flags (OS_HTONS 0xfff8)) (OS_HTONS v).
Definition set_gre_key (hasmask : bool) (v : bytes) (key : Z) : Z :=
  if hasmask then Z.lor (Z.land key (not32 (rd32 v 4))) (rd32 v 0) else rd32 v 0.

Definition set_field_tunnel (field : Z) (hasmask : bool) (v : bytes) : option (edit unit) :=
  if field =? OFPXMT_OFB_TUNNEL_ID then Some (upd_pkt (set_oob2_tunnel_id (rd64 v 0)))
  else if field =? OFPXMT_OFB_PACKET_TYPE then Some (upd_pkt (set_oob_packet_type (OS_NTOHL (rd32 v 0))))
  else if field =? OFPXMT_OFB_GRE_FLAGS then Some (update16 L4_BASE 0 (set_gre_flags (rd16 v 0)))
  else if field =? OFPXMT_OFB_GRE_VER then Some (update16 L4_BASE 0 (set_gre_ver (rd8 v 0)))
  else if field =? OFPXMT_OFB_GRE_PROTOCOL then Some (copy_field L4_BASE 2 2 v)
  else if field =? OFPXMT_OFB_GRE_KEY then Some (update32 L4_BASE 4 (set_gre_key hasmask v))
  else if field =? OFPXMT_OFB_VXLAN_FLAGS then Some (copy_field L4P_BASE 0 1 v)
  else if field =? OFPXMT_OFB_VXLAN_VNI then Some (copy_field L4P_BASE 4 3 v)
  else if field =? OFPXMT_OFB_GTPU_FLAGS then
    Some (update8 L4P_BASE 0 (fun x => Z.lor (Z.land x 0xe0) (rd8 v 0)))
  else if field =? OFPXMT_OFB_GTPU_VER then
    Some (update8 L4P_BASE 0 (fun x => Z.lor (Z.land x 0x1f) (Z.shiftl (rd8 v 0) 5)))
  else if field =? OFPXMT_OFB_GTPU_MSGTYPE then Some (copy_field L4P_BASE 1 1 v)
  else if field =? OFPXMT_OFB_GTPU_TEID then Some (copy_field L4P_BASE 4 4 v)
  else None.

(** ** The switch *)

Definition set_field_case (field : Z) (hasmask : bool) (v : bytes) : option (edit unit) :=
  union (set_field_l2 field v) (union (set_field_ip field v) (union (set_field_l4 field v)
    (union (set_field_arp field v) (union (set_field_ipv6 field v) (union (set_field_mpls field v)
      (set_field_tunnel field hasmask v)))))).

Definition execute_action_set_field (a : action) : edit lagopus_result :=
  let oxm := oxm_of a in
  match set_field_case (set_field_type oxm) (set_field_hasmask oxm) (set_field_value oxm) with
  | Some body => body ;; mret LAGOPUS_RESULT_OK
  | None => mret LAGOPUS_RESULT_OK
  end.

End Ports.

(** ** Setting a field makes the packet match it *)

(** The fields whose value is copied whole into a header of the frame, with their lengths. *)
Definition plain_fields : list (Z * nat) :=
  [(OFPXMT_OFB_ETH_DST, 6%nat); (OFPXMT_OFB_ETH_SRC, 6%nat); (OFPXMT_OFB_IPV4_SRC, 4%nat);
   (OFPXMT_OFB_IPV4_DST, 4%nat); (OFPXMT_OFB_TCP_SRC, 2%nat); (OFPXMT_OFB_TCP_DST, 2%nat);
   (OFPXMT_OFB_UDP_SRC, 2%nat); (OFPXMT_OFB_UDP_DST, 2%nat); (OFPXMT_OFB_SCTP_SRC, 2%nat);
   (OFPXMT_OFB_SCTP_DST, 2%nat); (OFPXMT_OFB_ICMPV4_TYPE, 1%nat); (OFPXMT_OFB_ICMPV4_CODE, 1%nat);
   (OFPXMT_OFB_ARP_OP, 2%nat); (OFPXMT_OFB_ARP_SPA, 4%nat); (OFPXMT_OFB_ARP_TPA, 4%nat);
   (OFPXMT_OFB_ARP_SHA, 6%nat); (OFPXMT_OFB_ARP_THA, 6%nat); (OFPXMT_OFB_ICMPV6_TYPE, 1%nat);
   (OFPXMT_OFB_ICMPV6_CODE, 1%nat); (OFPXMT_OFB_IPV6_ND_TARGET, 16%nat); (OFPXMT_OFB_PBB_ISID, 3%nat);
   (OFPXMT_OFB_GRE_PROTOCOL, 2%nat); (OFPXMT_OFB_VXLAN_FLAGS, 1%nat); (OFPXMT_OFB_GTPU_MSGTYPE, 1%nat);
   (OFPXMT_OFB_GTPU_TEID, 4%nat)].

(** The TLV of an exact value, and the match with the same content. *)
Definition exact_tlv (ty : Z) (v : bytes) : bytes := [0x80; 0; FIELD ty; Z.of_nat (length v)] ++ v.
Definition exact_match (ty : Z) (v : bytes) : match_ :=
  Match false OFPXMC_OPENFLOW_BASIC (FIELD ty) (Z.of_nat (length v)) v.

Definition set_field_action (ty : Z) (v : bytes) : action := Action None 0 0 (ofp_action_set_field (exact_tlv ty v)).

Lemma copy_field_st r d p h q b off n v o :
  base_ptr p b = Some (PData o) -> length v = n -> (o + off + n <= length d)%nat ->
  copy_field b off n v (st r d p h q) = Done (tt, st r (memcpy_at (o + off) v d) p h q).
Proof.
  intros Hb Hv Hl. unfold copy_field. sstep by idtac. rewrite take_ge by lia.
  apply st_store. lia.
Qed.

(** The case of the switch for such a field: where it writes, and what it flags. *)
Definition copies (b off n : nat) (v : bytes) (body : edit unit) : Prop :=
  body = copy_field b off n v \/ exists flag, body = (copy_field b off n v ;; or_flags flag).

Lemma plain_field_case ports ty n hasmask v :
  (ty, n) ∈ plain_fields ->
  exists b off body, make_byte_field ty = Some (b, off) /\ set_field_case ports ty hasmask v = Some body /\
    copies b off n v body /\ (off + n <= 32)%nat /\ (b < MAX_BASE)%nat /\ (0 < n)%nat /\ 0 <= ty < 64 + 1.
Proof.
  intros H. unfold plain_fields in H.
  repeat (apply elem_of_cons in H as [[= -> ->]|H];
    [eexists _, _, _; split; [reflexivity|]; split; [reflexivity|];
     split; [first [left; reflexivity|right; eexists; reflexivity]|];
     unfold L4P_BASE, L4_BASE, L3_BASE, ETH_BASE, PBB_BASE, MAX_BASE; split_and!; lia || done|]).
  by apply elem_of_nil in H.
Qed.

Lemma copies_st r d p h q b off n v body o :
  copies b off n v body -> base_ptr p b = Some (PData o) -> length v = n -> (o + off + n <= length d)%nat ->
  exists flags, body (st r d p h q) = Done (tt, st r (memcpy_at (o + off) v d) (set_pk_flags flags p) h q).
Proof.
  intros [-> | [flag ->]] Hb Hv Hl.
  - exists (pk_flags p). rewrite (copy_field_st _ _ _ _ _ _ _ _ _ o) by done. by destruct p.
  - exists (Z.lor (pk_flags p) flag). erewrite bind_Done by by apply (copy_field_st _ _ _ _ _ _ _ _ _ o).
    unfold or_flags. by rewrite st_upd by reflexivity.
Qed.

(** C34: setting a field that is copied whole writes its value, and nothing else of the frame,
    at the place where a match on the field looks: afterwards every flow that matches exactly
    on the value accepts the packet (if the packet has the header at all). *)
Theorem set_field_matches (ports : gset Z) (m : mbuf) (ty : Z) (n : nat) (v : bytes) (b off o : nat) (f : flow)
    (Hty : (ty, n) ∈ plain_fields) (Hv : length v = n) (Hvb : bytes_ok v) (Hd : bytes_ok (frame m))
    (Hplace : make_byte_field ty = Some (b, off))
    (Hb : base_ptr (mb_pkt m) b = Some (PData o)) (Hin : (o + off + n <= length (frame m))%nat)
    (Hnew : fl_byteoff_match f = replicate MAX_BASE byteoff_zero) (Hf : fl_match_list f = [exact_match ty v]) :
  exists flags m', execute_action_set_field ports (set_field_action ty v) m = Done (LAGOPUS_RESULT_OK, m') /\
    m' = put_frame (memcpy_at (o + off) v (frame m)) (set_mb_pkt (set_pk_flags flags (mb_pkt m)) m) /\
    match_byteoff (mb_pkt m') (flow_make_match f) = true.
Proof.
  destruct (plain_field_case ports ty n (set_field_hasmask (exact_tlv ty v)) v Hty)
    as (b' & off' & body & Hp & Hc & Hcp & H32 & Hmax & Hpos & Hty').
  rewrite Hplace in Hp. injection Hp as <- <-.
  assert (set_field_type (exact_tlv ty v) = ty) as Et.
  { unfold set_field_type, exact_tlv, FIELD. change (rd8 _ 2) with (Z.shiftl ty 1). by rewrite Z.shiftr_shiftl_l. }
  unfold execute_action_set_field. cbn [oxm_of set_field_action act_ofpat]. rewrite Et.
  change (set_field_value (exact_tlv ty v)) with v. rewrite Hc.
  destruct (copies_st (mb_room m) (frame m) (mb_pkt m) (mb_has_port m) (mb_queue_id m) b off n v body o Hcp Hb Hv Hin)
    as (flags & E).
  rewrite <- st_eta in E. erewrite bind_Done by exact E. eexists flags, _. split; [reflexivity|]. split; [done|].
  assert (byte_cell (exact_match ty v) = Some (b, off, replicate n 255, v)) as Ec.
  { unfold byte_cell, exact_match, OXM_FIELD_TYPE, OXM_FIELD_HAS_MASK, FIELD. cbn [oxm_field oxm_value].
    rewrite Z.shiftr_shiftl_l by lia. change (Z.shiftl ty (1 - 1)) with ty. rewrite Hplace.
    assert (Z.land (Z.shiftl ty 1) 1 = 0) as ->.
    { change (Z.land (Z.shiftl ty 1) (Z.ones 1) = 0). rewrite Z.land_ones, Z.shiftl_mul_pow2 by lia.
      change (2 ^ 1) with 2. by apply Z.mod_mul. }
    cbn. by rewrite Hv. }
  assert (is_eth_type (exact_match ty v) = false) as Hne.
  { apply not_true_iff_false. intros E'%eth_type_no_cell. by rewrite E' in Ec. }
  apply flow_make_match_law; [done| | | |]; rewrite ?Hf.
  - apply Forall_singleton. intros _. unfold byte_match_ok. split; [done|]. split; [done|].
    rewrite Ec, length_replicate. split_and!; lia.
  - intros i j m1 m2 Hi Hj Hij. rewrite filter_cons_True in Hi, Hj by done.
    destruct i as [|i], j as [|j]; simplify_eq/=.
  - apply bytes_ok_memcpy; done.
  - intros m' ->%list_elem_of_singleton _. unfold oxm_matches. rewrite Ec. exists (PData o). split; [exact Hb|].
    intros k Hk. cbn [ptr_bytes mb_pkt]. change (pk_data _) with (memcpy_at (o + off) v (frame m)).
    rewrite rd8_drop, Nat.add_assoc, rd8_memcpy_in, rd8_replicate by lia.
    change 255 with (Z.ones 8). rewrite Z.land_ones by lia. apply Z.mod_small. by apply rd8_range.
Qed.

Definition port_flow : flow := set_fl_match_list [exact_match OFPXMT_OFB_UDP_DST [0; 80]] flow_zero.

Lemma set_field_matches_witness :
  exists flags m', execute_action_set_field ∅ (set_field_action OFPXMT_OFB_UDP_DST [0; 80]) udp_mbuf =
      Done (LAGOPUS_RESULT_OK, m') /\
    m' = put_frame (memcpy_at 36 [0; 80] (frame udp_mbuf)) (set_mb_pkt (set_pk_flags flags (mb_pkt udp_mbuf)) udp_mbuf) /\
    match_byteoff (mb_pkt m') (flow_make_match port_flow) = true.
Proof.
  apply (set_field_matches ∅ udp_mbuf OFPXMT_OFB_UDP_DST 2 [0; 80] L4_BASE 2 34 port_flow);
    [|by vm_compute|by apply bytes_ok_dec|apply udp_bytes_ok|by vm_compute|by vm_compute|vm_compute; lia|by vm_compute|by vm_compute].
  repeat first [left; reflexivity|right].
Defined.

(** ** A label under a VLAN tag *)

(** [execute_action_push_mpls] moves the tag but not [pkt->vlan], which afterwards points at the
    label: setting the VLAN identifier then leaves the tag alone and writes the label. *)
Theorem vlan_stale_after_push_mpls :
  let run := then_action (execute_action_push_vlan tag_action)
    (then_action (execute_action_push_mpls label_action)
      (execute_action_set_field ∅ (set_field_action OFPXMT_OFB_VLAN_VID [0x0f; 0xff]))) in
  exists m', run udp_mbuf = Done (LAGOPUS_RESULT_OK, m') /\
    rd16 (frame m') 14 = 0 /\ MPLS_LBL (rd32 (frame m') 18) = 0xfff0.
Proof. eexists. split; [by vm_compute|]. by vm_compute. Qed.
