(* ===== verification/Tunnel.v ===== *)
(** * ENCAP and DECAP

    The actions of the general tunnel support in [src/dataplane/ofproto/datapath.c]: putting one
    header in front of the packet, taking one off.  The packet type in the out-of-band data
    says what the frame starts with.  A header put in front lies in the headroom and keeps the
    bytes the action does not write.  [CityHash64WithSeed] is a parameter. *)
From S2P Require Import Prelude Monad OpenFlow Packet ByteMatch Endian ActionSet PacketEdit Checksum PacketActions.

(** ** Packet types *)

Definition OFPHTN_ONF := 0.
Definition OFPHTN_ETHERTYPE := 1.
Definition OFPHTN_IP_PROTO := 2.
Definition OFPHTN_UDP_TCP_PORT := 3.
Definition OFPHTO_ETHERNET := 0.
Definition OFPHTO_USE_NEXT_PROTO := 0xfffe.

Definition IPPROTO_GRE := 47.
Definition VXLAN_PORT := 4789.
Definition GTPU_PORT := 2152.

(** [(ns << 16) | type] and the name space of a packet type. *)
Definition packet_type (ns type : Z) : Z := Z.lor (Z.shiftl ns 16) type.
Definition type_ns (t : Z) : Z := Z.shiftr t 16.

Definition sizeof_gre_hdr := 8%nat.
Definition sizeof_vxlanhdr := 8%nat.
Definition sizeof_gtpu_hdr := 8%nat.
Definition sizeof_udp_hdr := 8%nat.

Definition encap_type_of (a : action) : Z := match act_ofpat a with ofp_action_encap t => t | _ => 0 end.
Definition decap_types_of (a : action) : Z * Z :=
  match act_ofpat a with ofp_action_decap cur new => (cur, new) | _ => (0, 0) end.

(** ** ENCAP *)

Section Hash.
Context (CityHash64WithSeed : bytes -> Z -> Z).

Definition encap_mpls : edit lagopus_result :=
  OS_M_PREPEND sizeof_mpls_hdr ;; set_header MPLS_BASE (Some 0%nat) ;; mret LAGOPUS_RESULT_OK.

Definition encap_gre : edit lagopus_result :=
  OS_M_PREPEND sizeof_gre_hdr ;;
  store16 0 (OS_HTONS 0x2000) ;;
  ty ← get_pkt oob_packet_type;
  (if ty =? packet_type OFPHTN_ONF OFPHTO_ETHERNET then store16 2 (OS_HTONS 0x6558)
   else if type_ns ty =? OFPHTN_ETHERTYPE then store16 2 (OS_HTONS (Z.land ty 0xffff))
   else mret tt) ;;
  len ← pktlen;
  store32 4 (OS_HTONL (u32 (Z.shiftl (len - Z.of_nat sizeof_gre_hdr) 16))) ;;
  set_header L4_BASE (Some 0%nat) ;; mret LAGOPUS_RESULT_OK.

Definition encap_vxlan : edit lagopus_result :=
  OS_M_PREPEND sizeof_vxlanhdr ;;
  store8 0 0x08 ;; store8 1 0 ;; store8 2 0 ;; store8 3 0 ;;
  store32 4 0 ;;
  set_header L4P_BASE (Some 0%nat) ;; mret LAGOPUS_RESULT_OK.

Definition encap_gtpu : edit lagopus_result :=
  OS_M_PREPEND sizeof_gtpu_hdr ;;
  store8 0 0x30 ;; store8 1 255 ;;
  len ← pktlen;
  store16 2 (OS_HTONS (u16 (len - Z.of_nat sizeof_gtpu_hdr))) ;;
  store32 4 0 ;;
  set_header L4P_BASE (Some 0%nat) ;; mret LAGOPUS_RESULT_OK.

Definition encap_udp : edit lagopus_result :=
  OS_M_PREPEND sizeof_udp_hdr ;;
  ty ← get_pkt oob_packet_type;
  (if type_ns ty =? OFPHTN_UDP_TCP_PORT then
     payload ← deref L4P_BASE;
     in_frame payload ETHER_HDR_size ;;
     d ← gets frame;
     let sport := u16 (CityHash64WithSeed (take ETHER_HDR_size (drop payload d)) 0) in
     store16 0 (OS_HTONS (Z.lor sport 0xc000)) ;;
     store16 2 (OS_HTONS (Z.land ty 0xffff))
   else mret tt) ;;
  len ← pktlen;
  store16 4 (OS_HTONS (u16 len)) ;;
  store16 6 0 ;;
  or_flags PKT_FLAG_RECALC_L4_CKSUM ;;
  set_header L4_BASE (Some 0%nat) ;; mret LAGOPUS_RESULT_OK.

Definition encap_ip : edit lagopus_result :=
  OS_M_PREPEND IPV4_HDR_size ;;
  b ← load8 0; store8 0 (Z.lor (Z.land b 0x0f) (Z.shiftl 4 4)) ;;
  b ← load8 0; store8 0 (Z.lor (Z.land b 0xf0) (Z.shiftr (Z.of_nat IPV4_HDR_size) 2)) ;;
  ty ← get_pkt oob_packet_type;
  (if type_ns ty =? OFPHTN_IP_PROTO then store8 9 (Z.land ty 0xff) else mret tt) ;;
  store8 IPV4_TTL_off 64 ;;
  len ← pktlen;
  store16 2 (OS_HTONS (u16 len)) ;;
  or_flags PKT_FLAG_RECALC_IPV4_CKSUM ;;
  set_header L3_BASE (Some 0%nat) ;;
  set_header IPPROTO_BASE (Some 9%nat) ;;
  upd_pkt (set_pk_ether_type ETHERTYPE_IP) ;; mret LAGOPUS_RESULT_OK.

Definition encap_ethernet : edit lagopus_result :=
  OS_M_PREPEND ETHER_HDR_size ;;
  ty ← get_pkt oob_packet_type;
  store16 ETHER_TYPE_off (OS_HTONS (Z.land ty 0xffff)) ;;
  set_header ETH_BASE (Some 0%nat) ;; mret LAGOPUS_RESULT_OK.

Definition encap_case (t : Z) : option (edit lagopus_result) :=
  if t =? packet_type OFPHTN_ETHERTYPE ETHERTYPE_MPLS then Some encap_mpls
  else if t =? packet_type OFPHTN_ETHERTYPE ETHERTYPE_MPLS_MCAST then Some encap_mpls
  else if t =? packet_type OFPHTN_IP_PROTO IPPROTO_GRE then Some encap_gre
  else if t =? packet_type OFPHTN_UDP_TCP_PORT VXLAN_PORT then Some encap_vxlan
  else if t =? packet_type OFPHTN_UDP_TCP_PORT GTPU_PORT then Some encap_gtpu
  else if t =? packet_type OFPHTN_IP_PROTO IPPROTO_UDP then Some encap_udp
  else if t =? packet_type OFPHTN_ETHERTYPE ETHERTYPE_IP then Some encap_ip
  else if t =? packet_type OFPHTN_ONF OFPHTO_ETHERNET then Some encap_ethernet
  else None.

Definition execute_action_encap (a : action) : edit lagopus_result :=
  match encap_case (encap_type_of a) with
  | Some body => body ;; upd_pkt (set_oob_packet_type (encap_type_of a)) ;; mret LAGOPUS_RESULT_OK
  | None => mret LAGOPUS_RESULT_INVALID_ARGS
  end.

End Hash.

(** ** DECAP *)

(** The cases of the switch: each gives the type of what follows, in the byte order in which
    the code reads it, and takes the header off. *)
Definition decap_ethernet : edit Z :=
  eth ← deref ETH_BASE;
  t ← load16 (eth + ETHER_TYPE_off);
  OS_M_ADJ ETHER_HDR_size ;;
  set_header ETH_BASE None ;; mret (packet_type OFPHTN_ETHERTYPE t).

Definition decap_mpls (cur : Z) : edit Z :=
  mpls ← deref MPLS_BASE;
  lse ← load32 mpls;
  OS_M_ADJ sizeof_mpls_hdr ;;
  set_header L3_BASE None ;;
  mret (if negb (MPLS_BOS lse =? 0) then packet_type OFPHTN_ONF OFPHTO_ETHERNET else cur).

Definition decap_ip : edit Z :=
  proto ← deref IPPROTO_BASE;
  t ← load8 proto;
  OS_M_ADJ IPV4_HDR_size ;;
  set_header L3_BASE None ;; set_header IPPROTO_BASE None ;;
  mret (packet_type OFPHTN_IP_PROTO t).

Definition decap_udp : edit Z :=
  udp ← deref L4_BASE;
  t ← load16 (udp + 2);
  OS_M_ADJ sizeof_udp_hdr ;;
  set_header L4_BASE None ;; mret (packet_type OFPHTN_UDP_TCP_PORT t).

Definition decap_gre : edit Z :=
  gre ← deref L4_BASE;
  ptype ← load16 (gre + 2);
  OS_M_ADJ sizeof_gre_hdr ;;
  set_header L4_BASE None ;;
  mret (if (OS_NTOHS ptype =? 0x6558) || (OS_NTOHS ptype =? 0x880b)
        then packet_type OFPHTN_ONF OFPHTO_ETHERNET
        else packet_type OFPHTN_ETHERTYPE (OS_NTOHS ptype)).

Definition decap_vxlan : edit Z :=
  OS_M_ADJ sizeof_vxlanhdr ;;
  set_header L4P_BASE None ;; mret (packet_type OFPHTN_ONF OFPHTO_ETHERNET).

Definition decap_gtpu (new : Z) : edit Z :=
  OS_M_ADJ sizeof_gtpu_hdr ;;
  v4 ← IPV4_VER 0;
  t ← (if v4 =? 4 then mret (packet_type OFPHTN_ETHERTYPE ETHERTYPE_IP)
       else v6 ← IPV6_VER 0;
            if v6 =? 6 then mret (packet_type OFPHTN_ETHERTYPE ETHERTYPE_IPV6) else mret new);
  set_header L4P_BASE None ;; mret t.

Definition decap_case (cur new : Z) : option (edit Z) :=
  if cur =? packet_type OFPHTN_ONF OFPHTO_ETHERNET then Some decap_ethernet
  else if cur =? packet_type OFPHTN_ETHERTYPE ETHERTYPE_MPLS then Some (decap_mpls cur)
  else if cur =? packet_type OFPHTN_ETHERTYPE ETHERTYPE_MPLS_MCAST then Some (decap_mpls cur)
  else if cur =? packet_type OFPHTN_ETHERTYPE ETHERTYPE_IP then Some decap_ip
  else if cur =? packet_type OFPHTN_IP_PROTO IPPROTO_UDP then Some decap_udp
  else if cur =? packet_type OFPHTN_IP_PROTO IPPROTO_GRE then Some decap_gre
  else if cur =? packet_type OFPHTN_UDP_TCP_PORT VXLAN_PORT then Some decap_vxlan
  else if cur =? packet_type OFPHTN_UDP_TCP_PORT GTPU_PORT then Some (decap_gtpu new)
  else None.

(** Classification reads the protocol byte through [pkt->proto]. *)
Definition classify_l4_checked : edit unit :=
  deref IPPROTO_BASE ;; upd_pkt classify_packet_l4.

(** The part behind the switch: locate the headers of what is left. *)
Definition decap_classify (new_type : Z) : edit unit :=
  upd_pkt (set_oob_packet_type new_type) ;;
  if new_type =? packet_type OFPHTN_ONF OFPHTO_ETHERNET then upd_pkt re_classify_packet
  else if type_ns new_type =? OFPHTN_ETHERTYPE then
    set_header L3_BASE (Some 0%nat) ;;
    if Z.land new_type 0xffff =? ETHERTYPE_IP then upd_pkt classify_packet_ipv4 ;; classify_l4_checked
    else if Z.land new_type 0xffff =? ETHERTYPE_IPV6 then upd_pkt classify_packet_ipv6 ;; classify_l4_checked
    else mret tt
  else if type_ns new_type =? OFPHTN_IP_PROTO then
    set_header L4_BASE (Some 0%nat) ;; classify_l4_checked
  else mret tt.

Definition execute_action_decap (a : action) : edit lagopus_result :=
  let '(cur, new) := decap_types_of a in
  match decap_case cur new with
  | None => mret OFPBAC_BAD_HEADER_TYPE
  | Some body =>
      new_type ← body;
      (if new =? packet_type OFPHTN_ONF OFPHTO_USE_NEXT_PROTO then decap_classify new_type
       else upd_pkt (set_oob_packet_type new)) ;;
      mret LAGOPUS_RESULT_OK
  end.

(** ** Encapsulating and decapsulating *)

(** The types of [execute_action_encap] with the size of their header, and a pointer that is
    set into it. *)
Definition tunnel_headers : list (Z * (nat * (nat * nat))) :=
  [(packet_type OFPHTN_ETHERTYPE ETHERTYPE_MPLS, (sizeof_mpls_hdr, (MPLS_BASE, 0%nat)));
   (packet_type OFPHTN_ETHERTYPE ETHERTYPE_MPLS_MCAST, (sizeof_mpls_hdr, (MPLS_BASE, 0%nat)));
   (packet_type OFPHTN_IP_PROTO IPPROTO_GRE, (sizeof_gre_hdr, (L4_BASE, 0%nat)));
   (packet_type OFPHTN_UDP_TCP_PORT VXLAN_PORT, (sizeof_vxlanhdr, (L4P_BASE, 0%nat)));
   (packet_type OFPHTN_UDP_TCP_PORT GTPU_PORT, (sizeof_gtpu_hdr, (L4P_BASE, 0%nat)));
   (packet_type OFPHTN_IP_PROTO IPPROTO_UDP, (sizeof_udp_hdr, (L4_BASE, 0%nat)));
   (packet_type OFPHTN_ETHERTYPE ETHERTYPE_IP, (IPV4_HDR_size, (IPPROTO_BASE, 9%nat)));
   (packet_type OFPHTN_ONF OFPHTO_ETHERNET, (ETHER_HDR_size, (ETH_BASE, 0%nat)))].

Lemma drop_memcpy n off v d :
  (off + length v <= n)%nat -> (n <= length d)%nat -> drop n (memcpy_at off v d) = drop n d.
Proof.
  intros H1 H2. apply list_eq. intros i. rewrite !lookup_drop, lookup_memcpy by lia.
  by rewrite decide_False by lia.
Qed.

(** A frame that grew by a header of [n] bytes. *)
Definition grown (n : nat) (d d' : bytes) : Prop := drop n d' = d /\ length d' = (n + length d)%nat.

Lemma grown_app n x d : length x = n -> grown n d (x ++ d).
Proof. intros <-. split; [by rewrite drop_app_length|by rewrite length_app]. Qed.

Lemma grown_memcpy n off v d d' :
  grown n d d' -> (off + length v <= n)%nat -> grown n d (memcpy_at off v d').
Proof.
  intros [H1 H2] Hv. split; [|by rewrite length_memcpy].
  rewrite drop_memcpy by lia. done.
Qed.

#[local] Hint Resolve eth_slot mpls_slot set_base_wf move_ptrs_wf : core.

Ltac tunnel_lia :=
  unfold sizeof_gre_hdr, sizeof_vxlanhdr, sizeof_gtpu_hdr, sizeof_udp_hdr in *; size_lia.
Ltac grown_tac := repeat first [apply grown_memcpy; [|tunnel_lia]|apply grown_app]; tunnel_lia.

Section Roundtrip.
Context (city : bytes -> Z -> Z) (r d : bytes) (p : lagopus_packet) (h : bool) (q : Z).
Hypothesis p_wf : packet_wf p.

(** The last steps of every case: what has been built is a header in front of the frame. *)
Ltac shape_done :=
  eexists _, _; split; [reflexivity|]; split; [grown_tac|]; split; [wf_tac|];
  try match goal with |- base_ptr (set_pk_ether_type _ ?p) ?b = _ => change (base_ptr p b = Some (PData 9)) end;
  rewrite ?base_ptr_set by (wf_tac || (unfold MAX_BASE, MPLS_BASE, L4_BASE, L4P_BASE, L3_BASE, IPPROTO_BASE, ETH_BASE; lia)); done.

Lemma encap_shape t n b o body :
  (t, (n, (b, o))) ∈ tunnel_headers -> encap_case city t = Some body -> (n <= length r)%nat ->
  (t = packet_type OFPHTN_IP_PROTO IPPROTO_UDP -> type_ns (oob_packet_type p) = OFPHTN_UDP_TCP_PORT ->
   exists o, base_ptr p L4P_BASE = Some (PData o) /\ (o + ETHER_HDR_size <= length d)%nat) ->
  exists d' p', body (st r d p h q) = Done (LAGOPUS_RESULT_OK, st (take (length r - n) r) d' p' h q) /\
    grown n d d' /\ packet_wf p' /\ base_ptr p' b = Some (PData o).
Proof.
  intros Ht Hb Hn Hudp. unfold tunnel_headers in Ht.
  repeat (apply elem_of_cons in Ht as [[= -> -> -> ->]|Ht]); [..|by apply elem_of_nil in Ht]; injection Hb as <-.
  - unfold encap_mpls. repeat sstep by tunnel_lia. shape_done.
  - unfold encap_mpls. repeat sstep by tunnel_lia. shape_done.
  - unfold encap_gre, store16, store32. do 3 sstep by tunnel_lia.
    destruct (_ =? _); [|destruct (_ =? _)]; repeat sstep by tunnel_lia; shape_done.
  - unfold encap_vxlan, store8, store32. repeat sstep by tunnel_lia. shape_done.
  - unfold encap_gtpu, store8, store16, store32. repeat sstep by tunnel_lia. shape_done.
  - unfold encap_udp, store16, or_flags. do 2 sstep by tunnel_lia.
    change (oob_packet_type (move_ptrs _ p)) with (oob_packet_type p).
    destruct (Z.eqb_spec (type_ns (oob_packet_type p)) OFPHTN_UDP_TCP_PORT) as [E|_]; [|repeat sstep by tunnel_lia; shape_done].
    destruct (Hudp eq_refl E) as (o & Eo & Ho). clear Hudp.
    assert (base_ptr (move_ptrs (fun off => Some (up sizeof_udp_hdr off)) p) L4P_BASE = Some (PData (up sizeof_udp_hdr o))) as Eo'
      by by rewrite base_ptr_move, Eo.
    sstep by idtac. rewrite ?bind_bind. erewrite bind_Done; cycle 1; [apply in_frame_Done; unfold up; match goal with |- context [frame (st _ ?d _ _ _)] => change (frame (st _ d _ _ _)) with d end; tunnel_lia|].
    cbv beta iota. repeat sstep by tunnel_lia. shape_done.
  - unfold encap_ip, store8, store16, or_flags. do 6 sstep by tunnel_lia.
    destruct (_ =? _); repeat sstep by tunnel_lia; shape_done.
  - unfold encap_ethernet, store16. repeat sstep by tunnel_lia. shape_done.
Qed.

(** Taking off a header of [n] bytes whose pointer is set. *)
Lemma decap_shape t n b o new body :
  (t, (n, (b, o))) ∈ tunnel_headers -> decap_case t new = Some body -> base_ptr p b = Some (PData o) ->
  (n + 4 <= length d)%nat ->
  exists ty p', body (st r d p h q) = Done (ty, st (r ++ take n d) (drop n d) p' h q).
Proof.
  intros Ht Hb Hp Hn. unfold tunnel_headers in Ht.
  repeat (apply elem_of_cons in Ht as [[= -> -> -> ->]|Ht]); [..|by apply elem_of_nil in Ht]; injection Hb as <-.
  - unfold decap_mpls. repeat sstep by tunnel_lia. by eexists _, _.
  - unfold decap_mpls. repeat sstep by tunnel_lia. by eexists _, _.
  - unfold decap_gre. repeat sstep by tunnel_lia. by eexists _, _.
  - unfold decap_vxlan. repeat sstep by tunnel_lia. by eexists _, _.
  - unfold decap_gtpu, IPV4_VER, IPV6_VER. do 3 sstep by tunnel_lia.
    destruct (_ =? _); [repeat sstep by tunnel_lia; by eexists _, _|].
    do 2 sstep by tunnel_lia. destruct (_ =? _); repeat sstep by tunnel_lia; by eexists _, _.
  - unfold decap_udp. repeat sstep by tunnel_lia. by eexists _, _.
  - unfold decap_ip. repeat sstep by tunnel_lia. by eexists _, _.
  - unfold decap_ethernet. repeat sstep by tunnel_lia. by eexists _, _.
Qed.

End Roundtrip.

Lemma tunnel_case city t n b o :
  (t, (n, (b, o))) ∈ tunnel_headers ->
  (exists body, encap_case city t = Some body) /\ (forall new, exists body, decap_case t new = Some body).
Proof.
  intros Ht. unfold tunnel_headers in Ht.
  repeat (apply elem_of_cons in Ht as [[= -> -> -> ->]|Ht]; [split; [|intros new]; eexists; reflexivity|]).
  by apply elem_of_nil in Ht.
Qed.

(** The two actions that put on and take off a header of type [t]; what is left has type [new]. *)
Definition encap_action (t : Z) : action := Action None 0 0 (ofp_action_encap t).
Definition decap_action (t new : Z) : action := Action None 0 0 (ofp_action_decap t new).



(** ** What the actions get wrong *)

(** A new IPv4 header keeps the bytes of the headroom in the fields the action does not set:
    the fragment word among them. *)
Theorem encap_ip_keeps_headroom :
  exists m', execute_action_encap (fun _ seed => seed) (encap_action (packet_type OFPHTN_ETHERTYPE ETHERTYPE_IP)) udp_mbuf =
      Done (LAGOPUS_RESULT_OK, m') /\ rd16 (frame m') 6 = 0xeeee.
Proof. eexists. split; by vm_compute. Qed.

Definition next_proto (cur : Z) : action := decap_action cur (packet_type OFPHTN_ONF OFPHTO_USE_NEXT_PROTO).

(** Decapsulating Ethernet reports the ethertype of the payload in network byte order, so the
    payload is not classified. *)
Theorem decap_ethernet_type_swapped :
  exists m', execute_action_decap (next_proto (packet_type OFPHTN_ONF OFPHTO_ETHERNET)) udp_mbuf =
      Done (LAGOPUS_RESULT_OK, m') /\
    oob_packet_type (mb_pkt m') = packet_type OFPHTN_ETHERTYPE 0x0008.
Proof. eexists. split; by vm_compute. Qed.

Lemma type_ns_packet_type ns x : 0 <= x < 2 ^ 16 -> type_ns (packet_type ns x) = ns.
Proof.
  intros Hx. unfold type_ns, packet_type. rewrite Z.shiftr_lor, Z.shiftr_shiftl_l, Z.shiftl_0_r by lia.
  rewrite (Z.shiftr_div_pow2 x), Z.div_small by lia. apply Z.lor_0_r.
Qed.

(** Decapsulating IPv4 with the type of the payload left to the switch dereferences
    [pkt->proto] after setting it to NULL. *)
Theorem decap_ip_crashes (m : mbuf) (proto : nat) :
  packet_wf (mb_pkt m) -> base_ptr (mb_pkt m) IPPROTO_BASE = Some (PData proto) ->
  (proto < length (frame m))%nat -> (IPV4_HDR_size <= length (frame m))%nat -> bytes_ok (frame m) ->
  execute_action_decap (next_proto (packet_type OFPHTN_ETHERTYPE ETHERTYPE_IP)) m = Undefined.
Proof.
  intros Hwf Hp Hl Hd Hb. rewrite (st_eta m). set (d := frame m) in *.
  unfold execute_action_decap, next_proto, decap_types_of, decap_action, act_ofpat.
  change (decap_case _ _) with (Some decap_ip). cbv iota. unfold decap_ip. rewrite !bind_bind.
  do 5 sstep by size_lia. cbv beta.
  change (packet_type OFPHTN_ONF OFPHTO_USE_NEXT_PROTO =? _) with true. cbv iota.
  assert (0 <= rd8 d proto < 256) as Hr by by apply rd8_range.
  unfold decap_classify. sstep by idtac. rewrite type_ns_packet_type by lia.
  destruct (Z.eqb_spec (packet_type OFPHTN_IP_PROTO (rd8 d proto)) (packet_type OFPHTN_ONF OFPHTO_ETHERNET)) as [E|_].
  { apply (f_equal type_ns) in E. by rewrite type_ns_packet_type in E by lia. }
  change (OFPHTN_IP_PROTO =? OFPHTN_ETHERTYPE) with false. change (OFPHTN_IP_PROTO =? OFPHTN_IP_PROTO) with true. cbv iota.
  unfold classify_l4_checked. do 2 sstep by idtac. rewrite ?bind_bind. apply bind_Undefined.
  apply st_deref_null. rewrite base_ptr_set by (wf_tac || (unfold MAX_BASE, L4_BASE; lia)).
  rewrite decide_False by done.
  match goal with |- base_ptr (set_oob_packet_type _ ?p) ?b = _ => change (base_ptr p b = None) end.
  rewrite base_ptr_set by (wf_tac || (unfold MAX_BASE, IPPROTO_BASE; lia)). by rewrite decide_True.
Qed.

Lemma decap_ip_crashes_witness :
  execute_action_decap (next_proto (packet_type OFPHTN_ETHERTYPE ETHERTYPE_IP)) udp_mbuf = Undefined.
Proof.
  apply (decap_ip_crashes udp_mbuf 23); [by vm_compute|by vm_compute|vm_compute; lia|vm_compute; lia|apply udp_bytes_ok].
Defined.
