(* ===== verification/PacketHash.v ===== *)
(** * The hash of a packet

    [calc_packet_hash] of [src/dataplane/ofproto/datapath.c] and the functions it calls: the hash
    that keys the flow cache and selects the bucket of a SELECT group.  The hash function
    itself ([CityHash64WithSeed], the choice without DPDK) is a parameter. *)
From S2P Require Import Prelude Monad OpenFlow Packet ByteMatch Endian FlowEntry PacketEdit Checksum PacketActions.

Section Hash.
Context (calc_hash : bytes -> Z -> Z).

(** [calc_hash (&header[off], n, hash64)] *)
Definition hash_at (off n : nat) (hash64 : Z) : edit Z :=
  in_frame off n ;; gets (fun m => calc_hash (take n (drop off (frame m))) hash64).

Definition calc_l2_hash (seed : Z) : edit Z :=
  l2 ← deref ETH_BASE; l3 ← deref L3_BASE; hash_at l2 (l3 - l2) seed.

Definition calc_l4_hash (hash64 : Z) : edit Z :=
  proto ← deref IPPROTO_BASE; proto ← load8 proto;
  if proto =? IPPROTO_ICMP then l4 ← deref L4_BASE; hash_at l4 2 hash64
  else if (proto =? IPPROTO_TCP) || (proto =? IPPROTO_UDP) || (proto =? IPPROTO_SCTP) then
    l4 ← deref L4_BASE; hash_at l4 4 hash64
  else if proto =? IPPROTO_ICMPV6 then
    l4 ← deref L4_BASE; hash64 ← hash_at l4 2 hash64;
    sll ← header NDSLL_BASE;
    match sll with
    | Some sll => hash_at (sll + 2) ETHER_ADDR_LEN hash64
    | None =>
        tll ← header NDTLL_BASE;
        match tll with
        | Some tll => hash_at (tll + 2) ETHER_ADDR_LEN hash64
        | None => mret hash64
        end
    end
  else mret hash64.

Definition calc_ipv4_hash (hash64 : Z) : edit Z :=
  l3 ← deref L3_BASE;
  hash64 ← hash_at (l3 + 1) 1 hash64;
  hash64 ← hash_at (l3 + 12) 8 hash64;
  hash_at (l3 + 9) 1 hash64.

Definition calc_ipv6_hash (hash64 : Z) : edit Z :=
  l3 ← deref L3_BASE;
  hash64 ← hash_at l3 4 hash64;
  proto ← deref IPPROTO_BASE;
  hash64 ← hash_at proto 1 hash64;
  hash_at (l3 + 8) 32 hash64.

(** The addresses of the ARP packet: from [arp_sha] to the end. *)
Definition calc_arp_hash (hash64 : Z) : edit Z :=
  l3 ← deref L3_BASE; hash_at (l3 + 8) (ETHER_ADDR_LEN * 2 + 4 + 4) hash64.

(** The seed is the interface index of the ingress port. *)
Definition calc_packet_hash (ifindex : Z) : edit unit :=
  hash64 ← calc_l2_hash ifindex;
  ty ← get_pkt pk_ether_type;
  hash64 ←
    (if ty =? ETHERTYPE_IP then hash64 ← calc_ipv4_hash hash64; calc_l4_hash hash64
     else if ty =? ETHERTYPE_IPV6 then hash64 ← calc_ipv6_hash hash64; calc_l4_hash hash64
     else if ty =? ETHERTYPE_ARP then calc_arp_hash hash64
     else mret hash64);
  upd_pkt (set_pk_hash64 hash64).

End Hash.

(** ** What the hash leaves out *)

(** An ARP request and the reply with the same addresses in it. *)
Definition arp_frame (op : Z) : bytes :=
  [255; 255; 255; 255; 255; 255; 2; 0; 0; 0; 0; 1; 8; 6;
   0; 1; 8; 0; 6; 4; 0; op; 2; 0; 0; 0; 0; 1; 10; 0; 0; 1; 0; 0; 0; 0; 0; 0; 10; 0; 0; 1].

Definition arp_op_flow : flow :=
  flow_make_match (set_fl_match_list
    [Match false OFPXMC_OPENFLOW_BASIC (FIELD OFPXMT_OFB_ARP_OP) 2 [0; 1]] flow_zero).

(** The hash does not cover the opcode of ARP: whatever the hash function, a request and a
    reply with the same addresses have the same hash although a flow can match one and not
    the other, so the flow cache hands the flows of the first to the second. *)
Theorem hash_ignores_arp_op (calc_hash : bytes -> Z -> Z) (ifindex : Z) :
  exists h m1 m2,
    calc_packet_hash calc_hash ifindex (mbuf_of [] (arp_frame 1)) = Done (tt, m1) /\
    calc_packet_hash calc_hash ifindex (mbuf_of [] (arp_frame 2)) = Done (tt, m2) /\
    pk_hash64 (mb_pkt m1) = h /\ pk_hash64 (mb_pkt m2) = h /\
    match_byteoff (mb_pkt m1) arp_op_flow = true /\ match_byteoff (mb_pkt m2) arp_op_flow = false.
Proof. eexists _, _, _. split; [by vm_compute|]. split; [by vm_compute|]. by vm_compute. Qed.
