(* ===== verification/FlowCache.v ===== *)
(** * The flow cache

    [src/dataplane/ofproto/ofcache.c]: for each worker thread, a map from the hash of a packet's
    header fields to the flows that the packet matched in the tables it went through.  The map
    is kept in two banks: when the first is half full it becomes the second, and the former
    second one is freed.  The keys are the hash's low 32 bits, the entries of a key a list that
    the other 32 bits select from.  The stores of DPDK ([FLOWCACHE_RTE_HASH]) are not
    modelled; the two stores over [lagopus_hashmap] differ in the lock only. *)
From S2P Require Import Prelude OpenFlow Hashmap.

(** ** Data *)

(** [struct cache_entry]; [nmatched] is the length of the list.  On a little-endian machine
    [hash32_h] names the low half of the union. *)
Record cache_entry := CacheEntry {
  ce_hash64 : Z;
  ce_flow : list ref
}.

Definition hash32_h (hash64 : Z) : Z := u32 hash64.
Definition hash32_l (hash64 : Z) : Z := u32 (Z.shiftr hash64 32).

(** [struct cache_list] *)
Record cache_list := CacheList {
  cl_nentries : Z;
  cl_entries : list cache_entry
}.

Record flowcache_bank := FlowcacheBank {
  fb_kvs_type : Z;
  fb_hashmap : hashmap cache_list;
  fb_nentries : Z;
  fb_hit : Z;
  fb_miss : Z;
  fb_bank : Z
}.

Record flowcache := Flowcache {
  fc_max_entries : Z;
  fc_bank0 : flowcache_bank;
  fc_bank1 : flowcache_bank
}.

Definition CACHE_NODE_MAX_ENTRIES := 256.
Definition FLOWCACHE_MAX_ENTRIES := 100000.

(** ** The list of a key *)

Definition init_cache_list : cache_list := CacheList 0 [].
Definition add_cache_list (l : cache_list) (e : cache_entry) : cache_list :=
  CacheList (cl_nentries l + 1) (cl_entries l ++ [e]).

(** [remove_cache_list] of the first entry. *)
Definition remove_cache_list (l : cache_list) : cache_list :=
  CacheList (cl_nentries l - 1) (tail (cl_entries l)).

(** ** A bank *)

Definition init_flowcache_bank (kvs_type bank : Z) : flowcache_bank :=
  FlowcacheBank kvs_type (lagopus_hashmap_create true) 0 0 0 bank.

Definition set_fb_hashmap (v : hashmap cache_list) (b : flowcache_bank) : flowcache_bank :=
  FlowcacheBank (fb_kvs_type b) v (fb_nentries b) (fb_hit b) (fb_miss b) (fb_bank b).
Definition set_fb_nentries (v : Z) (b : flowcache_bank) : flowcache_bank :=
  FlowcacheBank (fb_kvs_type b) (fb_hashmap b) v (fb_hit b) (fb_miss b) (fb_bank b).
Definition set_fb_stats (hit miss : Z) (b : flowcache_bank) : flowcache_bank :=
  FlowcacheBank (fb_kvs_type b) (fb_hashmap b) (fb_nentries b) hit miss (fb_bank b).

(** A write through the pointer to the list of a key. *)
Definition upd_list (f : cache_list -> cache_list) (key : Z) (b : flowcache_bank) : flowcache_bank :=
  let hm := fb_hashmap b in
  set_fb_hashmap (Hashmap (alter f key (m_hashtable hm)) (m_n_entries hm) (m_is_operational hm) (m_del_proc hm)) b.

Definition register_cache_bank (cache : flowcache_bank) (hash64 : Z) (flow : list ref) : flowcache_bank :=
  let key := hash32_h hash64 in
  let cache :=
    match (lagopus_hashmap_find_no_lock (Some (fb_hashmap cache)) key).2 with
    | Some list =>
        if cl_nentries list =? CACHE_NODE_MAX_ENTRIES
        then set_fb_nentries (u64 (fb_nentries cache - 1)) (upd_list remove_cache_list key cache)
        else cache
    | None =>
        let '(_, hm, _) := lagopus_hashmap_add_no_lock (Some (fb_hashmap cache)) key init_cache_list false in
        set_fb_hashmap (from_option id (fb_hashmap cache) hm) cache
    end in
  let cache := upd_list (fun list => add_cache_list list (CacheEntry hash64 flow)) key cache in
  set_fb_nentries (u64 (fb_nentries cache + 1)) cache.

Definition clear_all_cache_bank (cache : flowcache_bank) : flowcache_bank :=
  if fb_nentries cache =? 0 then cache
  else set_fb_stats 0 0 (set_fb_nentries 0 (set_fb_hashmap (s_clear (fb_hashmap cache) true).1.2 cache)).

Definition cache_lookup_bank (cache : flowcache_bank) (hash64 : Z) : option cache_entry * flowcache_bank :=
  let found :=
    match (lagopus_hashmap_find_no_lock (Some (fb_hashmap cache)) (hash32_h hash64)).2 with
    | Some list => find (fun e => hash32_l hash64 =? hash32_l (ce_hash64 e)) (cl_entries list)
    | None => None
    end in
  match found with
  | Some e => (Some e, set_fb_stats (u64 (fb_hit cache + 1)) (fb_miss cache) cache)
  | None => (None, set_fb_stats (fb_hit cache) (u64 (fb_miss cache + 1)) cache)
  end.

(** ** The cache *)

Definition init_flowcache (kvs_type : Z) : flowcache :=
  Flowcache FLOWCACHE_MAX_ENTRIES (init_flowcache_bank kvs_type 0) (init_flowcache_bank kvs_type 1).

(** Freeing the former second bank has no effect on what is kept. *)
Definition register_cache (cache : flowcache) (hash64 : Z) (flow : list ref) : flowcache :=
  let bank := register_cache_bank (fc_bank0 cache) hash64 flow in
  if Z.quot (fc_max_entries cache) 2 <=? fb_nentries bank then
    let alt_bank := init_flowcache_bank (fb_kvs_type bank) (fb_bank (fc_bank1 cache) + 1) in
    let alt_bank := set_fb_stats (fb_hit (fc_bank1 cache)) (fb_miss (fc_bank1 cache)) alt_bank in
    Flowcache (fc_max_entries cache) alt_bank bank
  else Flowcache (fc_max_entries cache) bank (fc_bank1 cache).

Definition clear_all_cache (cache : flowcache) : flowcache :=
  Flowcache (fc_max_entries cache) (clear_all_cache_bank (fc_bank0 cache)) (clear_all_cache_bank (fc_bank1 cache)).

Definition cache_lookup (cache : flowcache) (hash64 : Z) : option cache_entry * flowcache :=
  let '(rv, bank0) := cache_lookup_bank (fc_bank0 cache) hash64 in
  match rv with
  | Some e => (Some e, Flowcache (fc_max_entries cache) bank0 (fc_bank1 cache))
  | None =>
      let '(rv, bank1) := cache_lookup_bank (fc_bank1 cache) hash64 in
      (rv, Flowcache (fc_max_entries cache) bank0 bank1)
  end.

(** [struct ofcachestat]: entries, hits, misses. *)
Definition get_flowcache_statistics (cache : flowcache) : Z * Z * Z :=
  (u64 (fb_nentries (fc_bank0 cache) + fb_nentries (fc_bank1 cache)),
   u64 (fb_hit (fc_bank0 cache) + fb_hit (fc_bank1 cache)),
   u64 (fb_miss (fc_bank0 cache) + fb_miss (fc_bank1 cache))).

(** ** Invariant *)

(** The number of entries over all keys. *)
Definition bank_entries (t : gmap Z cache_list) : Z :=
  map_fold (fun _ l n => Z.of_nat (length (cl_entries l)) + n) 0 t.

Definition list_wf (key : Z) (l : cache_list) : Prop :=
  cl_nentries l = Z.of_nat (length (cl_entries l)) /\ cl_nentries l <= CACHE_NODE_MAX_ENTRIES /\
  Forall (fun e => hash32_h (ce_hash64 e) = key) (cl_entries l).

Record bank_wf (b : flowcache_bank) : Prop := {
  bw_operational : m_is_operational (fb_hashmap b) = true;
  bw_lists : map_Forall list_wf (m_hashtable (fb_hashmap b));
  bw_count : fb_nentries b = bank_entries (m_hashtable (fb_hashmap b))
}.

Record cache_wf (c : flowcache) : Prop := {
  cw_max : fc_max_entries c = FLOWCACHE_MAX_ENTRIES;
  cw_bank0 : bank_wf (fc_bank0 c);
  cw_bank1 : bank_wf (fc_bank1 c);
  cw_half0 : fb_nentries (fc_bank0 c) < FLOWCACHE_MAX_ENTRIES / 2;
  cw_half1 : fb_nentries (fc_bank1 c) <= FLOWCACHE_MAX_ENTRIES / 2
}.

Definition entries_of (b : flowcache_bank) (key : Z) : list cache_entry :=
  from_option cl_entries [] (m_hashtable (fb_hashmap b) !! key).

Lemma bank_entries_nonneg t : 0 <= bank_entries t.
Proof.
  unfold bank_entries. induction t as [|k l t Hk Hf IH] using map_first_key_ind; [by rewrite map_fold_empty|].
  rewrite map_fold_insert_first_key by done. lia.
Qed.

Lemma bank_entries_insert_new t k l :
  t !! k = None -> bank_entries (<[k := l]> t) = Z.of_nat (length (cl_entries l)) + bank_entries t.
Proof. intros Hk. unfold bank_entries. rewrite map_fold_insert_L; [done|intros; lia|done]. Qed.

Lemma bank_entries_insert t k l :
  bank_entries (<[k := l]> t) =
  bank_entries t + Z.of_nat (length (cl_entries l)) - Z.of_nat (length (from_option cl_entries [] (t !! k))).
Proof.
  rewrite <- insert_delete_eq, bank_entries_insert_new by apply lookup_delete_eq.
  destruct (t !! k) as [l'|] eqn:E; cbn.
  - rewrite <- (insert_delete_id t k l') at 2 by done. rewrite bank_entries_insert_new by apply lookup_delete_eq. lia.
  - rewrite delete_id by done. lia.
Qed.

(** ** Registering in a bank *)

Definition evict (l : cache_list) : cache_list :=
  if cl_nentries l =? CACHE_NODE_MAX_ENTRIES then remove_cache_list l else l.

Lemma register_bank_shape b h fl :
  bank_wf b -> fb_nentries b < 2 ^ 63 ->
  let t := m_hashtable (fb_hashmap b) in
  let l := default init_cache_list (t !! hash32_h h) in
  let b' := register_cache_bank b h fl in
  m_hashtable (fb_hashmap b') = <[hash32_h h := add_cache_list (evict l) (CacheEntry h fl)]> t /\
  m_is_operational (fb_hashmap b') = true /\
  fb_nentries b' = fb_nentries b + 1 - (if cl_nentries l =? CACHE_NODE_MAX_ENTRIES then 1 else 0).
Proof.
  intros [Hop Hl Hn] Hlt. cbv zeta. set (t := m_hashtable (fb_hashmap b)) in *.
  pose proof (bank_entries_nonneg t) as Hpos.
  unfold register_cache_bank. cbn [lagopus_hashmap_find_no_lock lagopus_hashmap_add_no_lock]. unfold s_find, s_add.
  rewrite Hop. fold t. destruct (t !! hash32_h h) as [l|] eqn:E; cbn [snd from_option id].
  - destruct (Hl _ _ E) as (Hln & Hle & _). unfold evict. destruct (Z.eqb_spec (cl_nentries l) CACHE_NODE_MAX_ENTRIES) as [Hf|Hf];
      cbn [fb_hashmap set_fb_nentries upd_list set_fb_hashmap m_hashtable m_is_operational fb_nentries]; fold t.
    + split_and!; [|done|].
      * apply map_eq. intros k. destruct (decide (k = hash32_h h)) as [->|Hne].
        { by rewrite !lookup_alter_eq, E, lookup_insert_eq. }
        by rewrite !lookup_alter_ne, lookup_insert_ne by done.
      * assert (1 <= fb_nentries b).
        { rewrite Hn. rewrite <- (insert_delete_id t _ _ E), bank_entries_insert_new by apply lookup_delete_eq.
          pose proof (bank_entries_nonneg (delete (hash32_h h) t)). unfold CACHE_NODE_MAX_ENTRIES in *. lia. }
        rewrite (u64_small (fb_nentries b - 1)), u64_small by lia. lia.
    + split_and!; [|done|rewrite u64_small by lia; lia].
      apply map_eq. intros k. destruct (decide (k = hash32_h h)) as [->|Hne].
      { by rewrite lookup_alter_eq, E, lookup_insert_eq. }
      by rewrite lookup_alter_ne, lookup_insert_ne by done.
  - cbn. fold t. split_and!; [|done|rewrite u64_small by lia; lia].
    apply map_eq. intros k. destruct (decide (k = hash32_h h)) as [->|Hne].
    { by rewrite lookup_alter_eq, !lookup_insert_eq. }
    by rewrite lookup_alter_ne, !lookup_insert_ne by done.
Qed.

Lemma list_wf_init k : list_wf k init_cache_list.
Proof. split_and!; [done|done|constructor]. Qed.

Lemma list_wf_register l h fl :
  list_wf (hash32_h h) l -> list_wf (hash32_h h) (add_cache_list (evict l) (CacheEntry h fl)).
Proof.
  intros (Hn & Hle & Hk). unfold evict. destruct (Z.eqb_spec (cl_nentries l) CACHE_NODE_MAX_ENTRIES) as [Hf|Hf].
  - unfold CACHE_NODE_MAX_ENTRIES in *. destruct (cl_entries l) as [|x xs] eqn:E; [cbn in Hn; lia|].
    cbn in Hn. apply Forall_cons in Hk as [_ Hk]. split_and!; cbn; rewrite ?E; cbn.
    + rewrite length_app. cbn. lia.
    + unfold CACHE_NODE_MAX_ENTRIES. lia.
    + by apply Forall_app_2; [|constructor].
  - split_and!; cbn; [rewrite length_app; cbn; lia|unfold CACHE_NODE_MAX_ENTRIES in *; lia|].
    by apply Forall_app_2; [|constructor].
Qed.

Lemma register_bank_wf b h fl :
  bank_wf b -> fb_nentries b < 2 ^ 63 ->
  bank_wf (register_cache_bank b h fl) /\ fb_nentries (register_cache_bank b h fl) <= fb_nentries b + 1.
Proof.
  intros Hb Hlt. destruct (register_bank_shape b h fl Hb Hlt) as (Ht & Hop' & Hn').
  destruct Hb as [Hop Hl Hn]. set (t := m_hashtable (fb_hashmap b)) in *.
  assert (list_wf (hash32_h h) (default init_cache_list (t !! hash32_h h))) as Hwf.
  { destruct (t !! hash32_h h) as [l|] eqn:E; [by apply Hl|apply list_wf_init]. }
  split; [|rewrite Hn'; destruct (_ =? _); lia].
  constructor; [done| |].
  - rewrite Ht. apply map_Forall_insert_2; [by apply list_wf_register|done].
  - rewrite Hn', Ht, bank_entries_insert, Hn.
    assert (from_option cl_entries [] (t !! hash32_h h) = cl_entries (default init_cache_list (t !! hash32_h h))) as ->
      by by destruct (_ !! _).
    destruct (list_wf_register _ h fl Hwf) as (Hln' & _). destruct Hwf as (Hln & _).
    rewrite <- Hln', <- Hln. unfold evict. destruct (_ =? _); cbn; lia.
Qed.

(** ** The cache as a whole *)

Lemma init_bank_wf kvs_type bank hit miss : bank_wf (set_fb_stats hit miss (init_flowcache_bank kvs_type bank)).
Proof. constructor; [done|apply map_Forall_empty|done]. Qed.

Lemma init_flowcache_wf kvs_type : cache_wf (init_flowcache kvs_type).
Proof. constructor; [done|apply (init_bank_wf _ _ 0 0)|apply (init_bank_wf _ _ 0 0)|done|done]. Qed.

Lemma set_stats_wf hit miss b : bank_wf b -> bank_wf (set_fb_stats hit miss b).
Proof. by intros []; constructor. Qed.

Lemma clear_bank_wf b : bank_wf b -> bank_wf (clear_all_cache_bank b) /\ fb_nentries (clear_all_cache_bank b) = 0.
Proof.
  intros [Hop Hl Hn]. unfold clear_all_cache_bank. destruct (Z.eqb_spec (fb_nentries b) 0) as [E|_]; [done|].
  split; [|done]. unfold s_clear, s_clean. rewrite Hop. constructor; [done|apply map_Forall_empty|done].
Qed.

Lemma lookup_bank_wf b h :
  bank_wf b -> bank_wf (cache_lookup_bank b h).2 /\ fb_nentries (cache_lookup_bank b h).2 = fb_nentries b /\
  fb_hashmap (cache_lookup_bank b h).2 = fb_hashmap b.
Proof.
  intros Hb. unfold cache_lookup_bank. destruct (match _ with Some _ => _ | None => None end);
    by split; [apply set_stats_wf|].
Qed.

Lemma register_cache_wf c h fl : cache_wf c -> cache_wf (register_cache c h fl).
Proof.
  intros [Hm H0 H1 Hh0 Hh1]. change (FLOWCACHE_MAX_ENTRIES / 2) with 50000 in *.
  destruct (register_bank_wf _ h fl H0) as [Hb Hn]; [lia|].
  unfold register_cache. rewrite Hm. change (Z.quot FLOWCACHE_MAX_ENTRIES 2) with 50000.
  destruct (Z.leb_spec 50000 (fb_nentries (register_cache_bank (fc_bank0 c) h fl))); constructor; try done.
  change (FLOWCACHE_MAX_ENTRIES / 2) with 50000. cbn [fc_bank1]. lia.
Qed.

Lemma lookup_cache_wf c h : cache_wf c -> cache_wf (cache_lookup c h).2.
Proof.
  intros [Hm H0 H1 Hh0 Hh1]. unfold cache_lookup.
  pose proof (lookup_bank_wf _ h H0) as (W0 & N0 & _). pose proof (lookup_bank_wf _ h H1) as (W1 & N1 & _).
  destruct (cache_lookup_bank (fc_bank0 c) h) as [[e|] b0]; [|destruct (cache_lookup_bank (fc_bank1 c) h) as [rv b1]];
    cbn [fst snd] in *; constructor; cbn [fc_max_entries fc_bank0 fc_bank1]; rewrite ?N0, ?N1; done.
Qed.

Lemma clear_cache_wf c : cache_wf c -> cache_wf (clear_all_cache c).
Proof.
  intros [Hm H0 H1 Hh0 Hh1]. destruct (clear_bank_wf _ H0) as [W0 N0], (clear_bank_wf _ H1) as [W1 N1].
  constructor; cbn [fc_max_entries fc_bank0 fc_bank1 clear_all_cache]; rewrite ?N0, ?N1; done.
Qed.

(** *** What a bank holds *)

Definition holds (b : flowcache_bank) (e : cache_entry) : Prop := exists key, e ∈ entries_of b key.

Lemma register_holds b h fl e :
  bank_wf b -> fb_nentries b < 2 ^ 63 -> holds (register_cache_bank b h fl) e ->
  e = CacheEntry h fl \/ holds b e.
Proof.
  intros Hb Hlt [key He]. destruct (register_bank_shape b h fl Hb Hlt) as (Ht & _).
  unfold entries_of in He. rewrite Ht in He.
  destruct (decide (key = hash32_h h)) as [->|Hne]; [|rewrite lookup_insert_ne in He by done; right; by exists key].
  rewrite lookup_insert_eq in He. cbn in He. apply elem_of_app in He as [He|He%list_elem_of_singleton]; [|by left].
  right. exists (hash32_h h). unfold entries_of. destruct (_ !! hash32_h h) as [l|]; cbn in *.
  - unfold evict in He. destruct (_ =? _) in He; [|done]. cbn in He. by destruct (cl_entries l); [|right].
  - by apply elem_of_nil in He.
Qed.

Lemma lookup_bank_find b h :
  m_is_operational (fb_hashmap b) = true ->
  (cache_lookup_bank b h).1 = find (fun e => hash32_l h =? hash32_l (ce_hash64 e)) (entries_of b (hash32_h h)).
Proof.
  intros Hop. unfold cache_lookup_bank, entries_of. cbn [lagopus_hashmap_find_no_lock]. unfold s_find. rewrite Hop.
  destruct (m_hashtable (fb_hashmap b) !! hash32_h h) as [l|]; cbn; [|done]. by destruct (find _ _).
Qed.

Lemma cache_lookup_find c h :
  cache_wf c -> (cache_lookup c h).1 =
    match (cache_lookup_bank (fc_bank0 c) h).1 with
    | Some e => Some e
    | None => (cache_lookup_bank (fc_bank1 c) h).1
    end.
Proof.
  intros _. unfold cache_lookup. destruct (cache_lookup_bank (fc_bank0 c) h) as [[e|] b0]; [done|].
  by destruct (cache_lookup_bank (fc_bank1 c) h).
Qed.

Lemma lookup_bank_holds b h e : bank_wf b -> (cache_lookup_bank b h).1 = Some e ->
  holds b e /\ hash32_l h = hash32_l (ce_hash64 e) /\ hash32_h (ce_hash64 e) = hash32_h h.
Proof.
  intros Hb. rewrite lookup_bank_find by apply Hb. intros H. apply find_some in H as [Hi Hl].
  apply list_elem_of_In in Hi. split; [by eexists|]. split; [lia|].
  unfold entries_of in Hi. destruct (_ !! hash32_h h) as [l|] eqn:E; [|by apply elem_of_nil in Hi].
  destruct (bw_lists _ Hb _ _ E) as (_ & _ & Hk). rewrite Forall_forall in Hk. by apply Hk.
Qed.

Lemma hash64_halves x y :
  0 <= x < 2 ^ 64 -> 0 <= y < 2 ^ 64 -> hash32_h x = hash32_h y -> hash32_l x = hash32_l y -> x = y.
Proof.
  unfold hash32_h, hash32_l, u32. rewrite !Z.shiftr_div_pow2 by lia. intros Hx Hy.
  rewrite !(Z.mod_small (_ / _)) by (split; [apply Z.div_pos; lia|apply Z.div_lt_upper_bound; lia]).
  intros H1 H2. rewrite (Z.div_mod x (2 ^ 32)), (Z.div_mod y (2 ^ 32)) by lia. congruence.
Qed.

(** ** Properties *)

Inductive cache_op :=
  | cache_register (hash64 : Z) (flow : list ref)
  | cache_find (hash64 : Z)
  | cache_clear.

Definition cache_step (c : flowcache) (op : cache_op) : flowcache :=
  match op with
  | cache_register h fl => register_cache c h fl
  | cache_find h => (cache_lookup c h).2
  | cache_clear => clear_all_cache c
  end.

(** What has been registered since the cache was last cleared. *)
Definition live_step (live : list cache_entry) (op : cache_op) : list cache_entry :=
  match op with
  | cache_register h fl => live ++ [CacheEntry h fl]
  | cache_find _ => live
  | cache_clear => []
  end.

Definition hash_ok (op : cache_op) : Prop :=
  match op with cache_register h _ => 0 <= h < 2 ^ 64 | _ => True end.

Definition live_ok (live : list cache_entry) (c : flowcache) : Prop :=
  cache_wf c /\ (forall e, holds (fc_bank0 c) e \/ holds (fc_bank1 c) e -> e ∈ live).

Lemma holds_hashmap b b' e : fb_hashmap b' = fb_hashmap b -> holds b' e -> holds b e.
Proof. unfold holds, entries_of. by intros ->. Qed.

Lemma holds_empty b e : m_hashtable (fb_hashmap b) = ∅ -> ~ holds b e.
Proof. unfold holds, entries_of. intros -> [key H]. rewrite lookup_empty in H. by apply elem_of_nil in H. Qed.

Lemma clear_bank_empty b e : bank_wf b -> ~ holds (clear_all_cache_bank b) e.
Proof.
  intros [Hop Hl Hn]. unfold clear_all_cache_bank. destruct (Z.eqb_spec (fb_nentries b) 0) as [E|_].
  - rewrite Hn in E. intros [key He]. unfold entries_of in He.
    destruct (_ !! key) as [l|] eqn:El; [|by apply elem_of_nil in He].
    rewrite <- (insert_delete_id _ _ _ El), bank_entries_insert_new in E by apply lookup_delete_eq.
    pose proof (bank_entries_nonneg (delete key (m_hashtable (fb_hashmap b)))). cbn in He.
    destruct (cl_entries l); [by apply elem_of_nil in He|]. cbn in E. lia.
  - apply holds_empty. unfold s_clear, s_clean. by rewrite Hop.
Qed.

Lemma cache_step_ok live c op : live_ok live c -> live_ok (live_step live op) (cache_step c op).
Proof.
  intros [Hwf Hl]. destruct op as [h fl|h|].
  - split; [by apply register_cache_wf|]. destruct Hwf as [Hm H0 H1 Hh0 Hh1].
    change (FLOWCACHE_MAX_ENTRIES / 2) with 50000 in *. cbn [live_step cache_step].
    assert (forall e, holds (register_cache_bank (fc_bank0 c) h fl) e -> e ∈ live ++ [CacheEntry h fl]) as Hr.
    { intros e He. apply elem_of_app. apply register_holds in He as [->|He]; [set_solver|left; apply Hl; by left|done|lia]. }
    intros e. unfold register_cache. destruct (_ <=? _); cbn [fc_bank0 fc_bank1]; intros [He|He].
    + by apply holds_empty in He.
    + by apply Hr.
    + by apply Hr.
    + apply elem_of_app. left. apply Hl. by right.
  - split; [by apply lookup_cache_wf|]. intros e. cbn [live_step cache_step]. unfold cache_lookup.
    pose proof (lookup_bank_wf _ h (cw_bank0 _ Hwf)) as (_ & _ & E0).
    pose proof (lookup_bank_wf _ h (cw_bank1 _ Hwf)) as (_ & _ & E1).
    destruct (cache_lookup_bank (fc_bank0 c) h) as [[e0|] b0]; [|destruct (cache_lookup_bank (fc_bank1 c) h) as [rv b1]];
      cbn [fst snd fc_bank0 fc_bank1] in *; intros [He|He]; apply Hl; eauto using holds_hashmap.
  - split; [by apply clear_cache_wf|]. intros e [He|He]; exfalso; (eapply clear_bank_empty; [|exact He]); apply Hwf.
Qed.

Lemma cache_run_ok kvs_type ops :
  live_ok (foldl live_step [] ops) (foldl cache_step (init_flowcache kvs_type) ops).
Proof.
  rewrite <- (rev_involutive ops). induction (rev ops) as [|op l IH].
  - split; [apply init_flowcache_wf|]. intros e [H|H]; by apply holds_empty in H.
  - cbn [rev]. rewrite !foldl_app. by apply cache_step_ok.
Qed.

(** C33: through any sequence of registrations, lookups and clears, the cache answers only with
    what was registered for exactly this 64-bit hash since the last clear (so no flow list
    outlives a change of the flow tables that clears the cache), and it never holds more
    than its maximum of entries. *)
Theorem flowcache_sound (kvs_type : Z) (ops : list cache_op) (h : Z)
    (Hops : Forall hash_ok ops) (Hh : 0 <= h < 2 ^ 64)
    (c := foldl cache_step (init_flowcache kvs_type) ops) :
  (forall e, (cache_lookup c h).1 = Some e -> ce_hash64 e = h /\ e ∈ foldl live_step [] ops) /\
  0 <= (get_flowcache_statistics c).1.1 <= FLOWCACHE_MAX_ENTRIES.
Proof.
  destruct (cache_run_ok kvs_type ops) as [Hwf Hl]. fold c in Hwf, Hl.
  assert (forall e, e ∈ foldl live_step [] ops -> 0 <= ce_hash64 e < 2 ^ 64) as Hlive.
  { clear -Hops. assert (forall l, Forall hash_ok ops -> (forall e, e ∈ l -> 0 <= ce_hash64 e < 2 ^ 64) ->
      forall e, e ∈ foldl live_step l ops -> 0 <= ce_hash64 e < 2 ^ 64) as H.
    { clear Hops. induction ops as [|op ops' IH]; intros l Ho Hl e; [apply Hl|]. apply Forall_cons in Ho as [Hop Ho].
      apply IH; [done|]. intros e'. destruct op; cbn; [|apply Hl|by intros ?%elem_of_nil].
      intros [?|He%list_elem_of_singleton]%elem_of_app; [by apply Hl|by subst]. }
    apply H; [done|]. by intros e' ?%elem_of_nil. }
  split.
  - intros e He. rewrite cache_lookup_find in He by done.
    assert ((holds (fc_bank0 c) e \/ holds (fc_bank1 c) e) /\ hash32_l h = hash32_l (ce_hash64 e) /\
            hash32_h (ce_hash64 e) = hash32_h h) as (Hh' & E1 & E2).
    { destruct ((cache_lookup_bank (fc_bank0 c) h).1) eqn:E.
      - injection He as ->. apply lookup_bank_holds in E as (? & ? & ?); [split_and!; auto|apply Hwf].
      - apply lookup_bank_holds in He as (? & ? & ?); [split_and!; auto|apply Hwf]. }
    split; [|by apply Hl]. apply hash64_halves; [by apply Hlive, Hl|done|done|done].
  - cbn. destruct Hwf as [_ W0 W1 Hh0 Hh1]. change (FLOWCACHE_MAX_ENTRIES / 2) with 50000 in *.
    pose proof (bank_entries_nonneg (m_hashtable (fb_hashmap (fc_bank0 c)))) as P0.
    pose proof (bank_entries_nonneg (m_hashtable (fb_hashmap (fc_bank1 c)))) as P1.
    rewrite <- (bw_count _ W0) in P0. rewrite <- (bw_count _ W1) in P1.
    rewrite u64_small by lia. unfold FLOWCACHE_MAX_ENTRIES. lia.
Qed.

Lemma flowcache_sound_witness :
  let ops := [cache_register 7 [1; 2]; cache_clear; cache_register (2 ^ 32 + 7) [3]; cache_register 7 [4]]%nat in
  let c := foldl cache_step (init_flowcache 0) ops in
  (cache_lookup c 7).1 = Some (CacheEntry 7 [4%nat]) /\
  (forall e, (cache_lookup c 7).1 = Some e -> ce_hash64 e = 7 /\ e ∈ foldl live_step [] ops) /\
  0 <= (get_flowcache_statistics c).1.1 <= FLOWCACHE_MAX_ENTRIES.
Proof.
  split; [by vm_compute|].
  apply (flowcache_sound 0 [cache_register 7 [1; 2]; cache_clear; cache_register (2 ^ 32 + 7) [3]; cache_register 7 [4]]%nat 7);
    [repeat constructor; cbn; lia|lia].
Defined.

(** Registering puts the entry behind the others of its key. *)
Lemma find_app_none {A} (f : A -> bool) l x : find f l = None -> f x = true -> find f (l ++ [x]) = Some x.
Proof. induction l as [|y l IH]; cbn; [by intros _ ->|]. by destruct (f y). Qed.

Lemma find_evict f l : find f (cl_entries l) = None -> find f (cl_entries (evict l)) = None.
Proof.
  unfold evict. destruct (_ =? _); [|done]. cbn. destruct (cl_entries l) as [|x xs]; [done|]. cbn. by destruct (f x).
Qed.

Lemma register_bank_hit b h fl :
  bank_wf b -> fb_nentries b < 2 ^ 63 -> (cache_lookup_bank b h).1 = None ->
  (cache_lookup_bank (register_cache_bank b h fl) h).1 = Some (CacheEntry h fl).
Proof.
  intros Hb Hlt. destruct (register_bank_shape b h fl Hb Hlt) as (Ht & Hop & _).
  rewrite !lookup_bank_find by (done || apply Hb). unfold entries_of. rewrite Ht, lookup_insert_eq. cbn [from_option cl_entries add_cache_list].
  intros Hn. apply find_app_none; [|cbn; apply Z.eqb_refl]. apply find_evict. by destruct (_ !! hash32_h h).
Qed.

(** A hash that misses is found right after it has been registered, with exactly the flows
    registered, even when the registration evicts an old entry of the same key or turns the
    banks round. *)
Theorem register_then_hit (c : flowcache) (h : Z) (fl : list ref)
    (Hwf : cache_wf c) (Hmiss : (cache_lookup c h).1 = None) :
  (cache_lookup (register_cache c h fl) h).1 = Some (CacheEntry h fl).
Proof.
  rewrite cache_lookup_find in * by auto using register_cache_wf.
  destruct Hwf as [Hm H0 H1 Hh0 Hh1]. change (FLOWCACHE_MAX_ENTRIES / 2) with 50000 in *.
  destruct ((cache_lookup_bank (fc_bank0 c) h).1) eqn:E; [done|].
  assert ((cache_lookup_bank (register_cache_bank (fc_bank0 c) h fl) h).1 = Some (CacheEntry h fl)) as Hr
    by (apply register_bank_hit; [done|lia|done]).
  unfold register_cache. destruct (_ <=? _); cbn [fc_bank0 fc_bank1]; by rewrite Hr.
Qed.

Lemma register_then_hit_witness :
  (cache_lookup (register_cache (init_flowcache 0) 5 [1%nat; 2%nat]) 5).1 = Some (CacheEntry 5 [1%nat; 2%nat]).
Proof. apply (register_then_hit (init_flowcache 0) 5); [apply init_flowcache_wf|by vm_compute]. Defined.

(** The field named [hash32_h] (the higher half, says its comment) holds the lower half. *)
Example hash32_h_is_low : hash32_h 0x0000000100000002 = 2.
Proof. reflexivity. Qed.
