(* ===== verification/Shared.v ===== *)
(** * What the flow, group and meter modules share

    Tables keyed by a 32-bit identifier in network byte order ([key = htonl (id)]) over
    the hash maps of [hashmap.c], and the duration that the statistics and the flow
    removed message report. *)
From S2P Require Import Prelude OpenFlow Hashmap Endian.

(** ** Tables of identified objects *)

Definition id_ok (id : Z) : Prop := 0 <= id < 2 ^ 32.

Definition id_lookup {V} (hm : hashmap V) (id : Z) : option V :=
  (lagopus_hashmap_find_no_lock (Some hm) (OS_HTONL id)).2.

(** An operation changes the object of one identifier only. *)
Definition id_same_except {V} (id : Z) (hm hm' : hashmap V) : Prop :=
  forall id', id_ok id' -> id' <> id -> id_lookup hm' id' = id_lookup hm id'.

Section IdTable.
Context {V : Type}.
Implicit Types hm : hashmap V.

Lemma id_lookup_hashtable hm id :
  m_is_operational hm = true -> id_lookup hm id = m_hashtable hm !! OS_HTONL id.
Proof. intros H. unfold id_lookup. cbn. unfold s_find. rewrite H. by destruct (_ !! _). Qed.

Lemma id_find_result hm id :
  m_is_operational hm = true ->
  lagopus_hashmap_find_no_lock (Some hm) (OS_HTONL id) =
  match id_lookup hm id with
  | Some v => (LAGOPUS_RESULT_OK, Some v)
  | None => (LAGOPUS_RESULT_NOT_FOUND, None)
  end.
Proof.
  intros H. unfold id_lookup. cbn [lagopus_hashmap_find_no_lock]. unfold s_find. rewrite H.
  by destruct (_ !! _).
Qed.

Lemma htonl_ne id id' : id_ok id -> id_ok id' -> id' <> id -> OS_HTONL id' <> OS_HTONL id.
Proof. intros H1 H2 Hne E. by apply Hne, OS_NTOHL_inj. Qed.

(** Adding an object whose identifier is free. *)
Lemma id_add hm id v :
  m_is_operational hm = true -> id_ok id -> id_lookup hm id = None ->
  exists hm', lagopus_hashmap_add_no_lock (Some hm) (OS_HTONL id) v false =
      (LAGOPUS_RESULT_OK, Some hm', None) /\
    m_is_operational hm' = true /\ id_lookup hm' id = Some v /\ id_same_except id hm hm'.
Proof.
  intros Hop Hid Hn. rewrite id_lookup_hashtable in Hn by done.
  cbn [lagopus_hashmap_add_no_lock]. unfold s_add. rewrite Hop, Hn.
  eexists. split; [reflexivity|]. split_and!; [done| |].
  - rewrite id_lookup_hashtable by done. cbn. by rewrite lookup_insert_eq.
  - intros id' Hid' Hne. rewrite !id_lookup_hashtable by done. cbn.
    rewrite lookup_insert_ne; [done|]. by apply not_eq_sym, htonl_ne.
Qed.

(** Deleting, whether or not there is an object. *)
Lemma id_delete hm id fr :
  m_is_operational hm = true -> id_ok id ->
  exists hm', lagopus_hashmap_delete_no_lock (Some hm) (OS_HTONL id) fr =
      (LAGOPUS_RESULT_OK, Some hm', id_lookup hm id,
       match id_lookup hm id with Some v => if fr && m_del_proc hm then [v] else [] | None => [] end) /\
    m_is_operational hm' = true /\ id_lookup hm' id = None /\ id_same_except id hm hm'.
Proof.
  intros Hop Hid. rewrite id_lookup_hashtable by done.
  cbn [lagopus_hashmap_delete_no_lock]. unfold s_delete. rewrite Hop.
  destruct (m_hashtable hm !! OS_HTONL id) as [v|] eqn:E.
  - eexists. split; [reflexivity|]. split_and!; [done| |].
    + rewrite id_lookup_hashtable by done. cbn. by rewrite lookup_delete_eq.
    + intros id' Hid' Hne. rewrite !id_lookup_hashtable by done. cbn.
      rewrite lookup_delete_ne; [done|]. by apply not_eq_sym, htonl_ne.
  - exists hm. split_and!; [done|done|by rewrite id_lookup_hashtable|done].
Qed.

(** Changing an object in place, through the pointer a lookup returned. *)
Definition id_update (f : V -> V) (id : Z) (hm : hashmap V) : hashmap V :=
  Hashmap (alter f (OS_HTONL id) (m_hashtable hm)) (m_n_entries hm) (m_is_operational hm)
    (m_del_proc hm).

Lemma id_update_law hm id f :
  m_is_operational hm = true -> id_ok id ->
  m_is_operational (id_update f id hm) = true /\
  id_lookup (id_update f id hm) id = f <$> id_lookup hm id /\
  id_same_except id hm (id_update f id hm).
Proof.
  intros Hop Hid. split_and!; [done| |].
  - rewrite !id_lookup_hashtable by done. cbn. by rewrite lookup_alter_eq.
  - intros id' Hid' Hne. rewrite !id_lookup_hashtable by done. cbn.
    rewrite lookup_alter_ne; [done|]. by apply not_eq_sym, htonl_ne.
Qed.

Lemma id_lookup_clear hm fr id :
  m_is_operational hm = true -> id_lookup (s_clear hm fr).1.2 id = None.
Proof. intros Hop. unfold s_clear. rewrite Hop. cbn. unfold s_find. cbn. rewrite Hop. done. Qed.

End IdTable.

(** ** Durations *)

(** The block that [set_meter_stats], [set_group_stats], [table_flow_stats] and
    [send_flow_removed] repeat: 32-bit seconds and nanoseconds between the creation time
    and [ts]. *)
Definition duration (ts create_time : timespec) : Z * Z :=
  let sec := u32 (ts.1 - create_time.1) in
  let '(sec, nsec) := if ts.2 <? create_time.2 then (u32 (sec - 1), 1000 * 1000 * 1000)
                      else (sec, 0) in
  let nsec := u32 (nsec + u32 ts.2) in
  (sec, u32 (nsec - u32 create_time.2)).

Definition timespec_ok (ts : timespec) : Prop := 0 <= ts.2 < 1000000000.
Definition nanoseconds (ts : timespec) : Z := ts.1 * 1000000000 + ts.2.

(** The duration reported is exact: for times of the clock, not decreasing and less
    than 2^32 seconds apart, seconds and nanoseconds add up to the time elapsed and
    the nanoseconds are below 10^9; no intermediate 32-bit value wraps. *)
Theorem duration_correct (ts create_time : timespec)
    (Hts : timespec_ok ts) (Hct : timespec_ok create_time)
    (Hle : nanoseconds create_time <= nanoseconds ts) (Hlt : ts.1 - create_time.1 < 2 ^ 32) :
  let '(sec, nsec) := duration ts create_time in
  0 <= sec < 2 ^ 32 /\ 0 <= nsec < 1000000000 /\
  sec * 1000000000 + nsec = nanoseconds ts - nanoseconds create_time.
Proof.
  unfold duration, timespec_ok, nanoseconds, u32 in *. destruct ts as [s n], create_time as [s' n'].
  cbn [fst snd] in *. rewrite (Z.mod_small n), (Z.mod_small n') by lia.
  destruct (Z.ltb_spec n n'); rewrite !(Z.mod_small) by (rewrite ?Z.mod_small by lia; lia); lia.
Qed.

Lemma duration_correct_witness :
  let '(sec, nsec) := duration (12, 100) (10, 900) in
  0 <= sec < 2 ^ 32 /\ 0 <= nsec < 1000000000 /\
  sec * 1000000000 + nsec = nanoseconds (12, 100) - nanoseconds (10, 900).
Proof. apply duration_correct; unfold timespec_ok, nanoseconds; cbn; lia. Defined.
