(* ===== verification/Meter.v ===== *)
(** * The meter table

    [src/dataplane/mgr/meter.c]: meters and their bands, the table keyed by the meter
    identifier, METER_MOD, and the replies to the statistics and configuration requests.
    The hooks [lagopus_register_meter] and [lagopus_unregister_meter] belong to the driver
    (they are NULL unless the switch is built with DPDK) and change nothing of what is
    modelled here. *)
From S2P Require Import Prelude OpenFlow Hashmap Endian Shared.

(** ** Data *)

(** [struct meter_band]; the counters are [stats]. *)
Record meter_band := MeterBand {
  mb_type : Z;
  mb_len : Z;
  mb_rate : Z;
  mb_burst_size : Z;
  mb_prec_level : Z;
  mb_experimenter : Z;
  mb_stats : Z * Z
}.

(** [struct meter] *)
Record meter := Meter {
  mt_meter_id : Z;
  mt_flags : Z;
  mt_band_list : list meter_band;
  mt_flow_count : Z;
  mt_input_packet_count : Z;
  mt_input_byte_count : Z;
  mt_create_time : timespec
}.

Definition set_mt_flow_count (v : Z) (m : meter) : meter :=
  Meter (mt_meter_id m) (mt_flags m) (mt_band_list m) v (mt_input_packet_count m)
    (mt_input_byte_count m) (mt_create_time m).

Abbreviation meter_table := (hashmap meter).

(** [struct ofp_meter_mod] *)
Record ofp_meter_mod := OfpMeterMod { mm_meter_id : Z; mm_flags : Z }.

Definition OFPM_MAX := 0xffff0000.
Definition OFPM_ALL := 0xffffffff.
Definition OFPMBT_DROP := 1.
Definition OFPMBT_DSCP_REMARK := 2.
Definition OFPMBT_EXPERIMENTER := 0xffff.

(** ** Bands *)

(** The union [meter_band_union]: which of the last two fields exists depends on the type. *)
Record meter_band_union := MeterBandUnion {
  bu_type : Z;
  bu_len : Z;
  bu_rate : Z;
  bu_burst_size : Z;
  bu_prec_level : Z;
  bu_experimenter : Z
}.

Definition meter_band_alloc (b : meter_band_union) : option meter_band :=
  if bu_type b =? OFPMBT_DROP
  then Some (MeterBand (bu_type b) (bu_len b) (bu_rate b) (bu_burst_size b) 0 0 (0, 0))
  else if bu_type b =? OFPMBT_DSCP_REMARK
  then Some (MeterBand (bu_type b) (bu_len b) (bu_rate b) (bu_burst_size b) (bu_prec_level b) 0 (0, 0))
  else if bu_type b =? OFPMBT_EXPERIMENTER
  then Some (MeterBand (bu_type b) (bu_len b) (bu_rate b) (bu_burst_size b) 0 (bu_experimenter b) (0, 0))
  else None.

(** ** Meters *)

Definition meter_alloc (meter_id flags : Z) (band_list : list meter_band) (now : timespec) : meter :=
  Meter meter_id flags band_list 0 0 0 now.

Definition meter_modify (flags : Z) (band_list : list meter_band) (m : meter) : meter :=
  Meter (mt_meter_id m) flags band_list (mt_flow_count m) (mt_input_packet_count m)
    (mt_input_byte_count m) (mt_create_time m).

(** ** The table *)

Definition meter_table_alloc : meter_table := lagopus_hashmap_create true.

Definition meter_table_lookup (meter_table : meter_table) (meter_id : Z) : option meter :=
  id_lookup meter_table meter_id.

(** A hash map operation through the address of the table's map. *)
Definition or_same {V} (hm : hashmap V) (hmptr : option (hashmap V)) : hashmap V :=
  match hmptr with Some hm' => hm' | None => hm end.

Definition meter_table_meter_add (meter_table : meter_table) (mod_ : ofp_meter_mod)
    (band_list : list meter_band) (now : timespec)
    : lagopus_result * hashmap meter * option ofp_error :=
  let key := OS_HTONL (mm_meter_id mod_) in
  match lagopus_hashmap_find_no_lock (Some meter_table) key with
  | (LAGOPUS_RESULT_OK, _) =>
      (LAGOPUS_RESULT_OFP_ERROR, meter_table, Some (OFPET_METER_MOD_FAILED, OFPMMFC_METER_EXISTS))
  | _ =>
      let meter := meter_alloc (mm_meter_id mod_) (mm_flags mod_) band_list now in
      let '(rv, hm, _) := lagopus_hashmap_add_no_lock (Some meter_table) key meter false in
      (rv, or_same meter_table hm, None)
  end.

Definition meter_table_meter_modify (meter_table : meter_table) (mod_ : ofp_meter_mod)
    (band_list : list meter_band) : lagopus_result * hashmap meter * option ofp_error :=
  let key := OS_HTONL (mm_meter_id mod_) in
  match lagopus_hashmap_find_no_lock (Some meter_table) key with
  | (LAGOPUS_RESULT_OK, _) =>
      (LAGOPUS_RESULT_OK,
       id_update (meter_modify (mm_flags mod_) band_list) (mm_meter_id mod_) meter_table, None)
  | _ =>
      (LAGOPUS_RESULT_OFP_ERROR, meter_table, Some (OFPET_METER_MOD_FAILED, OFPMMFC_UNKNOWN_METER))
  end.

Definition meter_table_meter_delete (meter_table : meter_table) (mod_ : ofp_meter_mod)
    : lagopus_result * hashmap meter :=
  if mm_meter_id mod_ =? OFPM_ALL then
    let '(ret, hm, _) := s_clear meter_table true in (LAGOPUS_RESULT_OK, hm)
  else
    let '(ret, hm, _, _) :=
      lagopus_hashmap_delete_no_lock (Some meter_table) (OS_HTONL (mm_meter_id mod_)) true in
    (ret, or_same meter_table hm).

(** ** Replies *)

(** [struct meter_stats] *)
Record meter_stats := MeterStats {
  ms_meter_id : Z;
  ms_flow_count : Z;
  ms_packet_in_count : Z;
  ms_byte_in_count : Z;
  ms_duration : Z * Z;
  ms_band_stats : list (Z * Z)
}.

Definition set_meter_stats (ts : timespec) (m : meter) : meter_stats :=
  MeterStats (mt_meter_id m) (mt_flow_count m) (mt_input_packet_count m) (mt_input_byte_count m)
    (duration ts (mt_create_time m)) (map mb_stats (mt_band_list m)).

(** [struct meter_config] *)
Record meter_config := MeterConfig { mc_meter_id : Z; mc_flags : Z; mc_band_list : list meter_band }.

Definition set_meter_config (m : meter) : meter_config :=
  MeterConfig (mt_meter_id m) (mt_flags m) (mt_band_list m).

(** [get_meter_stats] and [get_meter_config]: all meters in the order of the hash table, or the
    one asked for if it exists. *)
Definition get_meters {R} (report : meter -> R) (meter_table : meter_table) (meter_id : Z) : list R :=
  if meter_id =? OFPM_ALL then map report ((map_to_list (m_hashtable meter_table)).*2)
  else match meter_table_lookup meter_table meter_id with Some m => [report m] | None => [] end.

Definition get_meter_stats (ts : timespec) := get_meters (set_meter_stats ts).
Definition get_meter_config := get_meters set_meter_config.

(** ** Properties *)

(** A table in use; the identifier a meter is found under is its own. *)
Definition meters_wf (t : meter_table) : Prop :=
  m_is_operational t = true /\
  forall id m, id_ok id -> meter_table_lookup t id = Some m -> mt_meter_id m = id.

Lemma meter_add_law t mod_ bands now :
  m_is_operational t = true -> id_ok (mm_meter_id mod_) ->
  let '(rv, t', e) := meter_table_meter_add t mod_ bands now in
  m_is_operational t' = true /\ id_same_except (mm_meter_id mod_) t t' /\
  match meter_table_lookup t (mm_meter_id mod_) with
  | Some _ => rv = LAGOPUS_RESULT_OFP_ERROR /\ t' = t /\
      e = Some (OFPET_METER_MOD_FAILED, OFPMMFC_METER_EXISTS)
  | None => rv = LAGOPUS_RESULT_OK /\ e = None /\
      meter_table_lookup t' (mm_meter_id mod_) =
        Some (meter_alloc (mm_meter_id mod_) (mm_flags mod_) bands now)
  end.
Proof.
  intros Hop Hid. unfold meter_table_meter_add. rewrite id_find_result by done.
  fold (meter_table_lookup t (mm_meter_id mod_)).
  destruct (meter_table_lookup t (mm_meter_id mod_)) as [m|] eqn:E; [done|].
  destruct (id_add t (mm_meter_id mod_) (meter_alloc (mm_meter_id mod_) (mm_flags mod_) bands now) Hop Hid E)
    as (hm & -> & H1 & H2 & H3). done.
Qed.

Lemma meter_modify_law t mod_ bands :
  m_is_operational t = true -> id_ok (mm_meter_id mod_) ->
  let '(rv, t', e) := meter_table_meter_modify t mod_ bands in
  m_is_operational t' = true /\ id_same_except (mm_meter_id mod_) t t' /\
  match meter_table_lookup t (mm_meter_id mod_) with
  | None => rv = LAGOPUS_RESULT_OFP_ERROR /\ t' = t /\
      e = Some (OFPET_METER_MOD_FAILED, OFPMMFC_UNKNOWN_METER)
  | Some m => rv = LAGOPUS_RESULT_OK /\ e = None /\
      meter_table_lookup t' (mm_meter_id mod_) = Some (meter_modify (mm_flags mod_) bands m)
  end.
Proof.
  intros Hop Hid. unfold meter_table_meter_modify. rewrite id_find_result by done.
  fold (meter_table_lookup t (mm_meter_id mod_)).
  destruct (meter_table_lookup t (mm_meter_id mod_)) as [m|] eqn:E; [|done].
  destruct (id_update_law t (mm_meter_id mod_) (meter_modify (mm_flags mod_) bands) Hop Hid)
    as (H1 & H2 & H3). split_and!; try done. unfold meter_table_lookup in *. by rewrite H2, E.
Qed.

Lemma meter_delete_law t mod_ :
  m_is_operational t = true -> id_ok (mm_meter_id mod_) ->
  let '(rv, t') := meter_table_meter_delete t mod_ in
  m_is_operational t' = true /\ rv = LAGOPUS_RESULT_OK /\
  forall id, id_ok id -> meter_table_lookup t' id =
    if (mm_meter_id mod_ =? OFPM_ALL) || (mm_meter_id mod_ =? id) then None else meter_table_lookup t id.
Proof.
  intros Hop Hid. unfold meter_table_meter_delete. destruct (mm_meter_id mod_ =? OFPM_ALL).
  - destruct (s_clear t true) as [[ret hm] freed] eqn:E.
    assert (hm = (s_clear t true).1.2) as -> by by rewrite E. split_and!.
    + unfold s_clear. by rewrite Hop.
    + done.
    + intros id _. by apply id_lookup_clear.
  - destruct (id_delete t (mm_meter_id mod_) true Hop Hid) as (hm & -> & H1 & H2 & H3).
    split_and!; [done|done|]. intros id Hid'. cbn [orb or_same].
    destruct (Z.eqb_spec (mm_meter_id mod_) id) as [<-|Hne]; [done|].
    apply H3; [done|congruence].
Qed.

(** METER_MOD.  Adding fails with METER_EXISTS and changes nothing when the identifier is in
    use, and else creates a meter with the flags and bands given and zero counters;
    modifying fails with UNKNOWN_METER when it is not in use, and else replaces flags
    and bands and keeps flow count, packet counters and creation time; deleting
    always succeeds and removes the meter, or with OFPM_ALL every meter.  No operation
    touches a meter of another identifier, and each meter stays filed under its own. *)
Theorem meter_mod_correct (t : meter_table) (mod_ : ofp_meter_mod) (bands : list meter_band)
    (now : timespec) (Hwf : meters_wf t) (Hid : id_ok (mm_meter_id mod_)) :
  let id := mm_meter_id mod_ in
  (let '(rv, t', e) := meter_table_meter_add t mod_ bands now in
   meters_wf t' /\ id_same_except id t t' /\
   match meter_table_lookup t id with
   | Some _ => rv = LAGOPUS_RESULT_OFP_ERROR /\ t' = t /\
       e = Some (OFPET_METER_MOD_FAILED, OFPMMFC_METER_EXISTS)
   | None => rv = LAGOPUS_RESULT_OK /\ e = None /\
       meter_table_lookup t' id = Some (Meter id (mm_flags mod_) bands 0 0 0 now)
   end) /\
  (let '(rv, t', e) := meter_table_meter_modify t mod_ bands in
   meters_wf t' /\ id_same_except id t t' /\
   match meter_table_lookup t id with
   | None => rv = LAGOPUS_RESULT_OFP_ERROR /\ t' = t /\
       e = Some (OFPET_METER_MOD_FAILED, OFPMMFC_UNKNOWN_METER)
   | Some m => rv = LAGOPUS_RESULT_OK /\ e = None /\
       meter_table_lookup t' id =
         Some (Meter id (mm_flags mod_) bands (mt_flow_count m) (mt_input_packet_count m)
                 (mt_input_byte_count m) (mt_create_time m))
   end) /\
  (let '(rv, t') := meter_table_meter_delete t mod_ in
   meters_wf t' /\ rv = LAGOPUS_RESULT_OK /\
   forall id', id_ok id' -> meter_table_lookup t' id' =
     if (id =? OFPM_ALL) || (id =? id') then None else meter_table_lookup t id').
Proof.
  destruct Hwf as [Hop Hfiled]. cbv zeta.
  assert (forall t', m_is_operational t' = true -> id_same_except (mm_meter_id mod_) t t' ->
    (forall m, meter_table_lookup t' (mm_meter_id mod_) = Some m -> mt_meter_id m = mm_meter_id mod_) ->
    meters_wf t') as Hkeep.
  { intros t' Hop' Hsame Hm. split; [done|]. intros id m Hid' Hl.
    destruct (decide (id = mm_meter_id mod_)) as [->|Hne]; [by apply Hm|].
    apply Hfiled; [done|]. unfold meter_table_lookup in *. by rewrite <- Hsame. }
  split_and!.
  - pose proof (meter_add_law t mod_ bands now Hop Hid) as H.
    destruct (meter_table_meter_add t mod_ bands now) as [[rv t'] e]. destruct H as (H1 & H2 & H3).
    split; [|by split]. apply Hkeep; [done|done|]. intros m Hl.
    destruct (meter_table_lookup t (mm_meter_id mod_)) as [m0|] eqn:E.
    + destruct H3 as (_ & -> & _). by apply Hfiled.
    + destruct H3 as (_ & _ & H3). rewrite H3 in Hl. by injection Hl as <-.
  - pose proof (meter_modify_law t mod_ bands Hop Hid) as H.
    destruct (meter_table_meter_modify t mod_ bands) as [[rv t'] e]. destruct H as (H1 & H2 & H3).
    destruct (meter_table_lookup t (mm_meter_id mod_)) as [m0|] eqn:E.
    + destruct H3 as (-> & -> & H3). pose proof (Hfiled _ _ Hid E) as Hm0.
      split; [|split; [done|]; split; [done|]; split; [done|rewrite H3; unfold meter_modify; by rewrite Hm0]].
      apply Hkeep; [done|done|]. intros m Hl. rewrite H3 in Hl. injection Hl as <-. exact Hm0.
    + destruct H3 as (H3 & -> & H4). split_and!; try done.
  - pose proof (meter_delete_law t mod_ Hop Hid) as H.
    destruct (meter_table_meter_delete t mod_) as [rv t']. destruct H as (H1 & H2 & H3).
    split_and!; [|done|done]. split; [done|]. intros id m Hid' Hl. rewrite H3 in Hl by done.
    destruct (_ || _); [done|]. by apply Hfiled.
Qed.

Definition sample_meters : meter_table :=
  (meter_table_meter_add meter_table_alloc (OfpMeterMod 7 1) [] (5, 0)).1.2.

Lemma meters_wf_alloc : meters_wf meter_table_alloc.
Proof. split; [done|]. intros id m _ Hl. unfold meter_table_lookup, id_lookup in Hl. done. Qed.

Lemma meter_mod_correct_witness :
  meter_table_lookup sample_meters 7 = Some (Meter 7 1 [] 0 0 0 (5, 0)) /\
  (meter_table_meter_add sample_meters (OfpMeterMod 7 2) [] (6, 0)).1.1 = LAGOPUS_RESULT_OFP_ERROR /\
  meters_wf sample_meters.
Proof.
  split; [vm_compute; reflexivity|]. split; [vm_compute; reflexivity|].
  assert (id_ok (mm_meter_id (OfpMeterMod 7 1))) as Hid by (unfold id_ok; cbn; lia).
  exact (proj1 (proj1 (meter_mod_correct meter_table_alloc (OfpMeterMod 7 1) [] (5, 0) meters_wf_alloc Hid))).
Defined.
