(* ===== verification/Group.v ===== *)
(** * The group table

    [src/dataplane/mgr/group.c]: groups and their buckets, the table keyed by the group
    identifier, the detection of loops among groups that refer to each other, and
    GROUP_MOD.  Deleting a group also deletes the flows that refer to it; that part
    needs the flow tables and is in [FlowDB]. *)
From S2P Require Import Prelude OpenFlow Hashmap Endian Shared Packet ActionSet.

(** ** Data *)

(** [struct group]; [gr_flows] is the map of the flows that refer to the group, keyed by
    their addresses. *)
Record group := Group {
  gr_id : Z;
  gr_type : Z;
  gr_bucket_list : list bucket;
  gr_packet_count : Z;
  gr_byte_count : Z;
  gr_create_time : timespec;
  gr_flows : gset ref
}.

Abbreviation group_table := (hashmap group).

(** [struct ofp_group_mod] *)
Record ofp_group_mod := OfpGroupMod { gm_group_id : Z; gm_type : Z }.

Definition OFPG_MAX := 0xffffff00.

Definition set_gr_flows (v : gset ref) (g : group) : group :=
  Group (gr_id g) (gr_type g) (gr_bucket_list g) (gr_packet_count g) (gr_byte_count g)
    (gr_create_time g) v.
Definition set_gr_bucket_list (v : list bucket) (g : group) : group :=
  Group (gr_id g) (gr_type g) v (gr_packet_count g) (gr_byte_count g) (gr_create_time g) (gr_flows g).

(** ** Making and changing a group *)

(** [copy_action_list] of [flowdb.c]: handler, cookie and contents, not the flags. *)
Definition copy_action (a : action) : action := Action (act_exec a) (act_cookie a) 0 (act_ofpat a).
Definition copy_action_list (l : list action) : list action := map copy_action l.

(** [copy_bucket_list]: the counters of the copy start at 0, its action sets are not
    made yet. *)
Definition copy_bucket (b : bucket) : bucket :=
  Bucket (bk_weight b) (bk_watch_port b) (bk_watch_group b) 0 0 (copy_action_list (bk_action_list b)) [].
Definition copy_bucket_list (l : list bucket) : list bucket := map copy_bucket l.

(** The loop that installs the handlers and makes the action set of each bucket. *)
Definition register_bucket (b : bucket) : bucket :=
  let action_list := map lagopus_set_action_function (bk_action_list b) in
  Bucket (bk_weight b) (bk_watch_port b) (bk_watch_group b) (bk_packet_count b) (bk_byte_count b)
    action_list (merge_action_set init_action_set action_list).

Definition group_alloc (group_mod : ofp_group_mod) (bucket_list : list bucket) (now : timespec) : group :=
  Group (gm_group_id group_mod) (gm_type group_mod)
    (map register_bucket (copy_bucket_list bucket_list)) 0 0 now ∅.

Definition group_modify (group_mod : ofp_group_mod) (bucket_list : list bucket) (g : group) : group :=
  Group (gr_id g) (gm_type group_mod) (map register_bucket (copy_bucket_list bucket_list))
    (gr_packet_count g) (gr_byte_count g) (gr_create_time g) (gr_flows g).

Definition group_add_ref_flow (flow : ref) (g : group) : group := set_gr_flows ({[flow]} ∪ gr_flows g) g.
Definition group_remove_ref_flow (flow : ref) (g : group) : group := set_gr_flows (gr_flows g ∖ {[flow]}) g.

(** ** The table *)

Definition group_table_alloc : group_table := lagopus_hashmap_create true.

Definition group_table_lookup (group_table : group_table) (id : Z) : option group :=
  id_lookup group_table id.

(** The groups a list of actions, and a group, refer to, in the order of the loops. *)
Definition group_action (a : action) : option Z :=
  match act_ofpat a with ofp_action_group group_id => Some group_id | _ => None end.
Definition group_refs (g : group) : list Z :=
  flat_map (fun b => omap group_action (bk_action_list b)) (gr_bucket_list g).

(** The two loops of [group_loop_detect] over the GROUP actions; [rec] is the recursive
    call.  (The statement on [watch_group] at the end of the loop body, [true;], does
    nothing.) *)
Fixpoint scan_refs (rec : group -> option bool) (group_table : group_table) (id : Z) (l : list Z)
    : option bool :=
  match l with
  | [] => Some false
  | group_id :: l' =>
      if group_id =? id then Some true
      else match group_table_lookup group_table group_id with
           | None => scan_refs rec group_table id l'
           | Some a_group =>
               match rec a_group with
               | Some true => Some true
               | Some false => scan_refs rec group_table id l'
               | None => None
               end
           end
  end.

(** [None]: the recursion is deeper than [fuel]. *)
Fixpoint group_loop_detect (fuel : nat) (group_table : group_table) (group : group) (id : Z)
    : option bool :=
  match fuel with
  | O => None
  | S fuel' =>
      scan_refs (fun a_group => group_loop_detect fuel' group_table a_group id) group_table id
        (group_refs group)
  end.

Definition group_table_add (fuel : nat) (t : group_table) (group : group)
    : option (lagopus_result * group_table * option ofp_error) :=
  match group_loop_detect fuel t group (gr_id group) with
  | None => None
  | Some true =>
      Some (LAGOPUS_RESULT_OFP_ERROR, t, Some (OFPET_GROUP_MOD_FAILED, OFPGMFC_LOOP))
  | Some false =>
      let '(rv, hm, _) := lagopus_hashmap_add_no_lock (Some t) (OS_HTONL (gr_id group)) group false in
      Some (rv, match hm with Some t' => t' | None => t end, None)
  end.

Definition ofp_group_mod_add (fuel : nat) (t : group_table) (group_mod : ofp_group_mod)
    (bucket_list : list bucket) (now : timespec)
    : option (lagopus_result * group_table * option ofp_error) :=
  match group_table_lookup t (gm_group_id group_mod) with
  | Some _ => Some (LAGOPUS_RESULT_OFP_ERROR, t, Some (OFPET_GROUP_MOD_FAILED, OFPGMFC_GROUP_EXISTS))
  | None => group_table_add fuel t (group_alloc group_mod bucket_list now)
  end.

Definition ofp_group_mod_modify (t : group_table) (group_mod : ofp_group_mod)
    (bucket_list : list bucket) : lagopus_result * group_table * option ofp_error :=
  match group_table_lookup t (gm_group_id group_mod) with
  | None => (LAGOPUS_RESULT_OFP_ERROR, t, Some (OFPET_GROUP_MOD_FAILED, OFPGMFC_UNKNOWN_GROUP))
  | Some _ =>
      (LAGOPUS_RESULT_OK, id_update (group_modify group_mod bucket_list) (gm_group_id group_mod) t, None)
  end.

(** ** Replies *)

(** [struct group_stats]: the duration and the counters of the buckets. *)
Record group_stats := GroupStats {
  gs_group_id : Z;
  gs_ref_count : Z;
  gs_packet_count : Z;
  gs_byte_count : Z;
  gs_duration : Z * Z;
  gs_bucket_counters : list (Z * Z)
}.

Definition set_group_stats (ts : timespec) (g : group) : group_stats :=
  GroupStats (gr_id g) (u32 (Z.of_nat (size (gr_flows g)))) (gr_packet_count g) (gr_byte_count g)
    (duration ts (gr_create_time g))
    (map (fun b => (bk_packet_count b, bk_byte_count b)) (gr_bucket_list g)).

Definition get_group_stats (ts : timespec) (t : group_table) (group_id : Z) : list group_stats :=
  if group_id =? OFPG_ALL then map (set_group_stats ts) ((map_to_list (m_hashtable t)).*2)
  else match group_table_lookup t group_id with Some g => [set_group_stats ts g] | None => [] end.

(** ** Loops among groups *)

(** [c] is referred to by the group [p] of the table. *)
Definition child (t : group_table) (c p : Z) : Prop :=
  id_ok p /\ exists g, group_table_lookup t p = Some g /\ c ∈ group_refs g.

(** No chain of references is endless: packets cannot run in circles, and the detection
    terminates. *)
Definition acyclic (t : group_table) : Prop := forall id, Acc (child t) id.

(** Following references from [g] one gets to [id]. *)
Inductive reaches (t : group_table) (id : Z) : group -> Prop :=
  | reaches_here g : id ∈ group_refs g -> reaches t id g
  | reaches_there g c a :
      c ∈ group_refs g -> group_table_lookup t c = Some a -> reaches t id a -> reaches t id g.

Definition group_ok (g : group) : Prop := id_ok (gr_id g) /\ forall c, c ∈ group_refs g -> id_ok c.

Definition groups_wf (t : group_table) : Prop :=
  m_is_operational t = true /\
  forall id g, id_ok id -> group_table_lookup t id = Some g -> gr_id g = id /\ group_ok g.

(** A recursive call that is decided and correct for enough fuel. *)
Definition decided (t : group_table) (id : Z) (a : group) : Prop :=
  exists n b, (b = true <-> reaches t id a) /\
    forall fuel, (n <= fuel)%nat -> group_loop_detect fuel t a id = Some b.

Lemma scan_refs_decided t id l :
  (forall c a, c ∈ l -> group_table_lookup t c = Some a -> decided t id a) ->
  exists n b, (b = true <-> id ∈ l \/ exists c a, c ∈ l /\ group_table_lookup t c = Some a /\ reaches t id a) /\
    forall fuel, (n <= fuel)%nat ->
      scan_refs (fun a => group_loop_detect fuel t a id) t id l = Some b.
Proof.
  induction l as [|c l IH]; intros Hl.
  { exists 0%nat, false. split; [|done]. split; [done|].
    intros [H|(c & a & H & _)]; by apply elem_of_nil in H. }
  destruct IH as (n & b & Hb & Hn); [intros; eapply Hl; [by right|done]|].
  destruct (Z.eqb_spec c id) as [->|Hne].
  { exists 0%nat, true. split; [|intros fuel _; cbn; by rewrite Z.eqb_refl].
    split; [intros _; left; by left|done]. }
  destruct (group_table_lookup t c) as [a|] eqn:Ea.
  - destruct (Hl c a ltac:(by left) Ea) as (n' & b' & Hb' & Hn').
    exists (n `max` n')%nat, (b' || b). split.
    + rewrite orb_true_iff, Hb, Hb'. setoid_rewrite elem_of_cons. naive_solver.
    + intros fuel Hf. cbn [scan_refs]. destruct (Z.eqb_spec c id); [done|].
      rewrite Ea, (Hn' fuel), (Hn fuel) by lia. by destruct b'.
  - exists n, b. split.
    + rewrite Hb. setoid_rewrite elem_of_cons. naive_solver.
    + intros fuel Hf. cbn [scan_refs]. destruct (Z.eqb_spec c id); [done|]. by rewrite Ea, Hn.
Qed.

Lemma reaches_refs t id g :
  reaches t id g <-> id ∈ group_refs g \/
    exists c a, c ∈ group_refs g /\ group_table_lookup t c = Some a /\ reaches t id a.
Proof.
  split; [intros H; destruct H; eauto 10|]. intros [H|(c & a & H1 & H2 & H3)].
  - by constructor.
  - by eapply reaches_there.
Qed.

(** The detection is decided for a group whose references all lead to an end. *)
Lemma detect_decided t id g :
  (forall c, c ∈ group_refs g -> Acc (child t) c) -> groups_wf t ->
  (forall c, c ∈ group_refs g -> id_ok c) -> decided t id g.
Proof.
  intros Hacc Hwf Hok.
  assert (forall c, Acc (child t) c -> id_ok c -> forall a, group_table_lookup t c = Some a -> decided t id a) as H.
  { intros c Hc. induction Hc as [c _ IH]. intros Hc a Ha.
    destruct (proj2 Hwf c a Hc Ha) as [_ [_ Hrefs]].
    destruct (scan_refs_decided t id (group_refs a)) as (n & b & Hb & Hn).
    { intros d e Hd He. apply (IH d); [split; [done|by exists a]|by apply Hrefs|done]. }
    exists (S n), b. split; [by rewrite reaches_refs|].
    intros [|fuel] Hf; [lia|]. apply Hn. lia. }
  destruct (scan_refs_decided t id (group_refs g)) as (n & b & Hb & Hn).
  { intros c a Hc Ha. apply (H c); [by apply Hacc|by apply Hok|done]. }
  exists (S n), b. split; [by rewrite reaches_refs|]. intros [|fuel] Hf; [lia|]. apply Hn. lia.
Qed.

Lemma acyclic_add t t' g :
  acyclic t -> id_same_except (gr_id g) t t' -> group_table_lookup t' (gr_id g) = Some g ->
  ~ reaches t (gr_id g) g -> acyclic t'.
Proof.
  intros Hac Hsame Hg Hn. set (X := gr_id g) in *.
  assert (forall c, Acc (child t) c -> c <> X ->
    (forall a, group_table_lookup t c = Some a -> ~ reaches t X a) -> Acc (child t') c) as Hclean.
  { intros c Hc. induction Hc as [c _ IH]. intros HcX Ha. constructor.
    intros d [Hc' (h & Hh & Hd)]. unfold group_table_lookup in Hh. rewrite Hsame in Hh by done.
    assert (d <> X) as HdX by (intros ->; by apply (Ha h Hh), reaches_here).
    apply (IH d); [split; [done|by exists h]|done|]. intros a Hla Hr. apply (Ha h Hh).
    by eapply reaches_there. }
  assert (Acc (child t') X) as HX.
  { constructor. intros d [_ (h & Hh & Hd)]. rewrite Hg in Hh. injection Hh as <-.
    apply Hclean; [apply Hac| |].
    - intros ->. by apply Hn, reaches_here.
    - intros a Ha Hr. apply Hn. by eapply reaches_there. }
  intros c. induction (Hac c) as [c _ IH]. destruct (decide (c = X)) as [->|HcX]; [done|].
  constructor. intros d [Hc (h & Hh & Hd)]. apply IH. split; [done|]. exists h. split; [|done].
  unfold group_table_lookup in *. by rewrite <- Hsame.
Qed.

Lemma group_alloc_ok group_mod buckets now :
  id_ok (gm_group_id group_mod) ->
  (forall b a gid, b ∈ buckets -> a ∈ bk_action_list b -> group_action a = Some gid -> id_ok gid) ->
  group_ok (group_alloc group_mod buckets now).
Proof.
  intros Hid Hb. split; [done|]. intros c Hc. unfold group_refs, group_alloc in Hc. cbn [gr_bucket_list] in Hc.
  apply list_elem_of_In, in_flat_map in Hc as (b & Hin & Hc%list_elem_of_In).
  apply in_map_iff in Hin as (b1 & <- & Hin). unfold copy_bucket_list in Hin.
  apply in_map_iff in Hin as (b2 & <- & Hin%list_elem_of_In).
  cbn [register_bucket bk_action_list copy_bucket] in Hc. unfold copy_action_list in Hc.
  apply list_elem_of_omap in Hc as (a & Ha & Hg).
  apply list_elem_of_In, in_map_iff in Ha as (a1 & <- & Ha). apply in_map_iff in Ha as (a2 & <- & Ha%list_elem_of_In).
  by apply (Hb b2 a2).
Qed.

(** C30: adding a group.  With the references among the groups of the table leading to no
    circle, the detection terminates (some depth of recursion is enough, and more
    changes nothing), and it is exact: the group is refused with the error LOOP, the
    table unchanged, exactly when following the references of its buckets leads back
    to it; else it is added, no other group changes, and the table is again free of
    circles.  A group whose identifier is in use is refused with GROUP_EXISTS. *)
Theorem group_add_acyclic (t : group_table) (group_mod : ofp_group_mod) (buckets : list bucket)
    (now : timespec) (Hwf : groups_wf t) (Hac : acyclic t) (Hid : id_ok (gm_group_id group_mod))
    (Hb : forall b a gid, b ∈ buckets -> a ∈ bk_action_list b -> group_action a = Some gid -> id_ok gid) :
  let g := group_alloc group_mod buckets now in
  exists n rv t' e,
    (forall fuel, (n <= fuel)%nat -> ofp_group_mod_add fuel t group_mod buckets now = Some (rv, t', e)) /\
    groups_wf t' /\ acyclic t' /\ id_same_except (gm_group_id group_mod) t t' /\
    match group_table_lookup t (gm_group_id group_mod) with
    | Some _ => rv = LAGOPUS_RESULT_OFP_ERROR /\ e = Some (OFPET_GROUP_MOD_FAILED, OFPGMFC_GROUP_EXISTS) /\ t' = t
    | None =>
        (reaches t (gr_id g) g /\ rv = LAGOPUS_RESULT_OFP_ERROR /\
           e = Some (OFPET_GROUP_MOD_FAILED, OFPGMFC_LOOP) /\ t' = t) \/
        (~ reaches t (gr_id g) g /\ rv = LAGOPUS_RESULT_OK /\ e = None /\
           group_table_lookup t' (gr_id g) = Some g)
    end.
Proof.
  cbv zeta. unfold ofp_group_mod_add, group_table_add.
  destruct (group_table_lookup t (gm_group_id group_mod)) as [g0|] eqn:E0.
  { by exists 0%nat, LAGOPUS_RESULT_OFP_ERROR, t, (Some (OFPET_GROUP_MOD_FAILED, OFPGMFC_GROUP_EXISTS)). }
  pose proof (group_alloc_ok group_mod buckets now Hid Hb) as Hok.
  set (g := group_alloc group_mod buckets now) in *.
  destruct (detect_decided t (gr_id g) g (fun c _ => Hac c) Hwf (proj2 Hok)) as (n & b & Hr & Hn).
  destruct b.
  - exists n, LAGOPUS_RESULT_OFP_ERROR, t, (Some (OFPET_GROUP_MOD_FAILED, OFPGMFC_LOOP)).
    split; [intros fuel Hf; by rewrite Hn|]. split_and!; try done. left. by rewrite <- Hr.
  - assert (~ reaches t (gr_id g) g) as Hnr by (rewrite <- Hr; done).
    destruct (id_add t (gr_id g) g (proj1 Hwf) (proj1 Hok) E0) as (t' & Ea & Hop & Hl & Hsame).
    exists n, LAGOPUS_RESULT_OK, t', None. split; [intros fuel Hf; by rewrite Hn, Ea|].
    split; [|split; [by eapply acyclic_add|split; [done|right; by split_and!]]].
    split; [done|]. intros id h Hid' Hh. destruct (decide (id = gr_id g)) as [->|Hne].
    + unfold group_table_lookup in Hh. rewrite Hl in Hh. by injection Hh as <-.
    + unfold group_table_lookup in Hh. rewrite Hsame in Hh by done. by apply (proj2 Hwf).
Qed.

(** Group 1 with a bucket for group 2. *)
Definition sample_group_bucket (gid : Z) : bucket :=
  Bucket 1 0 OFPG_ANY 0 0 [Action None 0 0 (ofp_action_group gid)] [].

Lemma groups_wf_alloc : groups_wf group_table_alloc.
Proof. split; [done|]. intros id g _ Hl. unfold group_table_lookup, id_lookup in Hl. done. Qed.

Lemma acyclic_alloc : acyclic group_table_alloc.
Proof. intros c. constructor. intros d [_ (g & Hg & _)]. unfold group_table_lookup, id_lookup in Hg. done. Qed.

Lemma group_add_acyclic_witness :
  exists n rv t' e,
    (forall fuel, (n <= fuel)%nat ->
       ofp_group_mod_add fuel group_table_alloc (OfpGroupMod 1 0) [sample_group_bucket 2] (0, 0) = Some (rv, t', e)) /\
    groups_wf t' /\ acyclic t'.
Proof.
  destruct (group_add_acyclic group_table_alloc (OfpGroupMod 1 0) [sample_group_bucket 2] (0, 0)
    groups_wf_alloc acyclic_alloc) as (n & rv & t' & e & H1 & H2 & H3 & _).
  - unfold id_ok. cbn. lia.
  - intros b a gid ->%list_elem_of_singleton Ha Hg. cbn in Ha.
    apply list_elem_of_singleton in Ha as ->. injection Hg as <-. unfold id_ok. lia.
  - by exists n, rv, t', e.
Defined.

(** Evaluated: 1 refers to 2, adding 2 with a bucket for 1 closes the circle. *)
Example sample_group_loop :
  match ofp_group_mod_add 5 group_table_alloc (OfpGroupMod 1 0) [sample_group_bucket 2] (0, 0) with
  | Some (_, t, _) =>
      (fun r => r.1.1) <$> ofp_group_mod_add 5 t (OfpGroupMod 2 0) [sample_group_bucket 1] (0, 0)
  | None => None
  end = Some LAGOPUS_RESULT_OFP_ERROR.
Proof. vm_compute. reflexivity. Qed.

(** ** Modifying a group is not checked for loops *)

Definition self_loop_table : group_table :=
  match ofp_group_mod_add 5 group_table_alloc (OfpGroupMod 1 0) [] (0, 0) with
  | Some (_, t, _) => (ofp_group_mod_modify t (OfpGroupMod 1 0) [sample_group_bucket 1]).1.2
  | None => group_table_alloc
  end.

Lemma self_loop_diverges fuel g :
  group_refs g = [1] -> group_loop_detect fuel self_loop_table g 2 = None.
Proof.
  revert g. induction fuel as [|fuel IH]; intros g Hg; [done|]. cbn [group_loop_detect]. rewrite Hg.
  cbn [scan_refs Z.eqb Pos.eqb].
  destruct (group_table_lookup self_loop_table 1) as [a|] eqn:E; [|by vm_compute in E].
  rewrite IH; [done|]. vm_compute in E. injection E as <-. reflexivity.
Qed.

(** GROUP_MOD MODIFY accepts buckets that refer back to the group itself, and from
    then on adding a group that refers to it never ends: the detection only stops at
    the identifier being added, so no depth of recursion is enough. *)
Theorem group_modify_allows_loop :
  (exists t, ofp_group_mod_add 5 group_table_alloc (OfpGroupMod 1 0) [] (0, 0) =
       Some (LAGOPUS_RESULT_OK, t, None) /\
     ofp_group_mod_modify t (OfpGroupMod 1 0) [sample_group_bucket 1] =
       (LAGOPUS_RESULT_OK, self_loop_table, None)) /\
  ~ acyclic self_loop_table /\
  forall fuel, ofp_group_mod_add fuel self_loop_table (OfpGroupMod 2 0) [sample_group_bucket 1] (0, 0) = None.
Proof.
  split; [eexists; split; vm_compute; reflexivity|]. split.
  - intros Hac. assert (child self_loop_table 1 1) as Hc.
    { split; [unfold id_ok; lia|]. eexists. split; [vm_compute; reflexivity|]. vm_compute. by left. }
    specialize (Hac 1). remember 1 as x eqn:Ex. induction Hac as [c _ IH]. subst c. by apply (IH 1).
  - intros fuel. unfold ofp_group_mod_add.
    destruct (group_table_lookup self_loop_table _) eqn:E; [by vm_compute in E|].
    unfold group_table_add. by rewrite self_loop_diverges.
Qed.
