(* ===== verification/DpTimer.v ===== *)
(** * Timers of the data plane

    [src/dataplane/mgr/dp_timer.c]: a list of timers, each holding up to
    [MAX_TIMEOUT_ENTRIES] objects that expire together.  A timer stores the time from the
    timer in front of it; the deadline of an object is the sum of these differences up to
    its timer.  The slot an object was put in is remembered by the object
    ([flow->flow_timer]), which clears it when it goes away. *)
From S2P Require Import Prelude OpenFlow.

Definition FLOW_TIMER := 0.
Definition MBTREE_TIMER := 1.
Definition UPDATER_TIMER := 2.
Definition LINK_TIMER := 3.
Definition THTABLE_TIMER := 4.

Definition MAX_TIMEOUT_ENTRIES := 256%nat.

(** [struct dp_timer]; [tm_id] stands for its address, the expiry function is that of its
    type. *)
Record dp_timer := DpTimer {
  tm_id : nat;
  tm_type : Z;
  tm_timeout : Z;
  tm_nentries : nat;
  tm_entry : list (option ref)
}.

(** [dp_timer_list]; addresses from [dt_fresh] on are unused. *)
Record dp_timers := DpTimers { dt_list : list dp_timer; dt_fresh : nat }.

Definition init_dp_timer : dp_timers := DpTimers [] 0.

Definition set_timeout (v : Z) (t : dp_timer) : dp_timer :=
  DpTimer (tm_id t) (tm_type t) v (tm_nentries t) (tm_entry t).
Definition set_entry (n : nat) (v : list (option ref)) (t : dp_timer) : dp_timer :=
  DpTimer (tm_id t) (tm_type t) (tm_timeout t) n v.

(** The loop of [find_dp_timer]; [k] is the index of the head of [l].  Results: the timer
    found, [*prev] and [*prev_timep]. *)
Fixpoint find_loop (timeout type : Z) (k : nat) (prev : option nat) (prev_time : Z)
    (l : list dp_timer) : option nat * option nat * Z :=
  match l with
  | [] => (None, prev, prev_time)
  | t :: l' =>
      if timeout <? prev_time + tm_timeout t then (None, prev, prev_time)
      else if (prev_time + tm_timeout t =? timeout) && (tm_type t =? type) &&
              (tm_nentries t <? MAX_TIMEOUT_ENTRIES)%nat
      then (Some k, prev, prev_time)
      else find_loop timeout type (S k) (Some k) (prev_time + tm_timeout t) l'
  end.

Definition find_dp_timer (timeout type : Z) (l : list dp_timer) : option nat * option nat * Z :=
  find_loop timeout type 0 None 0 l.

(** The first NULL slot. *)
Definition free_slot (entry : list (option ref)) : nat :=
  match list_find (fun e => e = None) entry with Some (i, _) => i | None => length entry end.

Definition add_entry (arg : ref) (t : dp_timer) : dp_timer :=
  let i := free_slot (tm_entry t) in
  set_entry (if (i =? tm_nentries t)%nat then S (tm_nentries t) else tm_nentries t)
    (<[i := Some arg]> (tm_entry t)) t.

(** "re-calculation timeout of entries after inserted entry" *)
Definition shift_next (timeout : Z) (l : list dp_timer) : list dp_timer :=
  match l with
  | [] => []
  | t :: l' => set_timeout (tm_timeout t - timeout) t :: l'
  end.

Definition add_dp_timer (type timeout : Z) (arg : ref) (s : dp_timers) : timer_ref * dp_timers :=
  let '(found, prev, prev_time) := find_dp_timer timeout type (dt_list s) in
  match found with
  | Some k =>
      match dt_list s !! k with
      | Some t => ((tm_id t, free_slot (tm_entry t)),
                   DpTimers (<[k := add_entry arg t]> (dt_list s)) (dt_fresh s))
      | None => ((dt_fresh s, 0%nat), s)
      end
  | None =>
      let timeout := match prev with None => timeout | Some _ => timeout - prev_time end in
      let t := DpTimer (dt_fresh s) type timeout 1
                 (Some arg :: replicate (MAX_TIMEOUT_ENTRIES - 1) None) in
      let p := match prev with None => 0%nat | Some k => S k end in
      ((dt_fresh s, 0%nat),
       DpTimers (take p (dt_list s) ++ t :: shift_next timeout (drop p (dt_list s)))
         (S (dt_fresh s)))
  end.

(** [*slot = NULL], through the address kept by the object. *)
Definition clear_slot (slot : timer_ref) (s : dp_timers) : dp_timers :=
  DpTimers (map (fun t => if decide (tm_id t = slot.1)
                          then set_entry (tm_nentries t) (<[slot.2 := None]> (tm_entry t)) t
                          else t) (dt_list s)) (dt_fresh s).

(** One second of a timer ([dp_timer->timeout--]) and its removal once it has expired. *)
Definition tick (id : nat) (s : dp_timers) : dp_timers :=
  DpTimers (map (fun t => if decide (tm_id t = id) then set_timeout (tm_timeout t - 1) t else t) (dt_list s)) (dt_fresh s).
Definition remove_timer (id : nat) (s : dp_timers) : dp_timers :=
  DpTimers (filter (fun t => tm_id t <> id) (dt_list s)) (dt_fresh s).

Definition find_timer (id : nat) (s : dp_timers) : option dp_timer :=
  find (fun t => bool_decide (tm_id t = id)) (dt_list s).

(** What [dp_timer_thread_loop] does next; [cur] is its variable [dp_timer], which keeps
    its value while the thread sleeps. *)
Inductive timer_event :=
  | TakeFirst
  | Second (id : nat)
  | Expire (id : nat).

Definition next_event (cur : option nat) (s : dp_timers) : timer_event :=
  match cur with
  | None => TakeFirst
  | Some id =>
      match find_timer id s with
      | Some t => if 0 <? tm_timeout t then Second id else Expire id
      | None => TakeFirst
      end
  end.

Definition first_timer (s : dp_timers) : option nat := tm_id <$> head (dt_list s).

(** ** Deadlines *)

Definition entries_of (t : dp_timer) : list ref := omap id (tm_entry t).

(** Every object with its deadline and the type of its timer. *)
Fixpoint pending_from (base : Z) (l : list dp_timer) : list (Z * Z * ref) :=
  match l with
  | [] => []
  | t :: l' =>
      let deadline := base + tm_timeout t in
      map (fun a => (deadline, tm_type t, a)) (entries_of t) ++ pending_from deadline l'
  end.
Definition pending (s : dp_timers) : list (Z * Z * ref) := pending_from 0 (dt_list s).

Definition timer_wf (t : dp_timer) : Prop :=
  length (tm_entry t) = MAX_TIMEOUT_ENTRIES /\ (tm_nentries t <= MAX_TIMEOUT_ENTRIES)%nat /\
  (forall i a, tm_entry t !! i = Some (Some a) -> (i < tm_nentries t)%nat) /\ 0 <= tm_timeout t.

Record timers_wf (s : dp_timers) : Prop := {
  tw_timers : Forall timer_wf (dt_list s);
  tw_nodup : NoDup (tm_id <$> dt_list s);
  tw_fresh : forall t, t ∈ dt_list s -> (tm_id t < dt_fresh s)%nat
}.

Definition span (l : list dp_timer) : Z := foldr (fun t n => tm_timeout t + n) 0 l.

Lemma pending_from_app base l k :
  pending_from base (l ++ k) = pending_from base l ++ pending_from (base + span l) k.
Proof.
  revert base. induction l as [|t l IH]; intros base; cbn; [by rewrite Z.add_0_r|].
  rewrite IH, <- app_assoc. fold (span l). do 3 f_equal. lia.
Qed.

Lemma find_loop_spec timeout type k prev pt l :
  pt <= timeout ->
  match find_loop timeout type k prev pt l with
  | (Some j, _, _) => exists b t a, l = b ++ t :: a /\ j = (k + length b)%nat /\
      pt + span b + tm_timeout t = timeout /\ tm_type t = type /\
      (tm_nentries t < MAX_TIMEOUT_ENTRIES)%nat
  | (None, pv, pt') => exists b a, l = b ++ a /\ pt' = pt + span b /\ pt' <= timeout /\
      (match a with [] => True | t :: _ => timeout < pt' + tm_timeout t end) /\
      pv = match b with [] => prev | _ => Some (k + length b - 1)%nat end
  end.
Proof.
  revert k prev pt. induction l as [|t l IH]; intros k prev pt Hpt; cbn [find_loop].
  { exists [], []. cbn. split_and!; [done|lia|done|done|done]. }
  destruct (Z.ltb_spec timeout (pt + tm_timeout t)) as [Hlt|Hge].
  { exists [], (t :: l). cbn. split_and!; [done|lia|done|lia|done]. }
  destruct (_ && _ && _) eqn:E.
  { rewrite !andb_true_iff, !Z.eqb_eq, Nat.ltb_lt in E. destruct E as [[E1 E2] E3].
    exists [], t, l. cbn. split_and!; [done|lia|lia|done|done]. }
  specialize (IH (S k) (Some k) (pt + tm_timeout t) Hge).
  destruct (find_loop _ _ _ _ _ l) as [[[j|] pv] pt'].
  - destruct IH as (b & u & a & -> & -> & H1 & H2 & H3). exists (t :: b), u, a.
    split_and!; [done|cbn; lia|cbn; fold (span b); lia|done|done].
  - destruct IH as (b & a & -> & -> & H1 & H2 & ->). exists (t :: b), a.
    assert (span (t :: b) = tm_timeout t + span b) as Hs by done. rewrite Hs.
    split_and!; [done|lia|lia| |].
    + destruct a; [done|lia].
    + destruct b; cbn; f_equal; lia.
Qed.

Lemma pending_shift base delta l :
  pending_from (base + delta) (shift_next delta l) = pending_from base l.
Proof.
  destruct l as [|t l]; [done|]. cbn [shift_next pending_from set_timeout tm_timeout tm_type].
  by replace (base + delta + (tm_timeout t - delta)) with (base + tm_timeout t) by lia.
Qed.

Lemma free_slot_spec t :
  timer_wf t -> (tm_nentries t < MAX_TIMEOUT_ENTRIES)%nat ->
  tm_entry t !! free_slot (tm_entry t) = Some None /\ (free_slot (tm_entry t) <= tm_nentries t)%nat.
Proof.
  intros (Hlen & Hn & He & _) Hlt. unfold free_slot.
  destruct (list_find (fun e => e = None) (tm_entry t)) as [[i e]|] eqn:E.
  - apply list_find_Some in E as (Hi & -> & Hmin). split; [done|].
    destruct (decide (i <= tm_nentries t)%nat); [done|]. exfalso.
    destruct (lookup_lt_is_Some_2 (tm_entry t) (tm_nentries t)) as [x Hx]; [lia|].
    apply (Hmin _ _ Hx); [lia|]. destruct x as [a|]; [|done]. specialize (He _ _ Hx). lia.
  - exfalso. apply list_find_None in E. rewrite Forall_forall in E.
    destruct (lookup_lt_is_Some_2 (tm_entry t) (tm_nentries t)) as [x Hx]; [lia|].
    destruct x as [a|]; [specialize (He _ _ Hx); lia|].
    apply (E None); [|done]. by eapply list_elem_of_lookup_2.
Qed.

Lemma omap_insert_None {A} (l : list (option A)) i a :
  l !! i = Some None -> omap id (<[i := Some a]> l) ≡ₚ a :: omap id l.
Proof.
  revert i. induction l as [|x l IH]; intros [|i] Hi; simplify_eq/=; [done|].
  destruct x as [x|]; cbn; rewrite (IH i Hi); [apply Permutation_swap|done].
Qed.

Lemma add_entry_law arg t :
  timer_wf t -> (tm_nentries t < MAX_TIMEOUT_ENTRIES)%nat ->
  timer_wf (add_entry arg t) /\ entries_of (add_entry arg t) ≡ₚ arg :: entries_of t.
Proof.
  intros Hwf Hlt. destruct (free_slot_spec t Hwf Hlt) as [Hs Hle].
  split; [|by apply omap_insert_None]. destruct Hwf as (Hlen & Hn & He & Ht).
  unfold timer_wf, add_entry. cbn [tm_entry tm_nentries tm_timeout set_entry].
  split_and!; [by rewrite length_insert| |  |done].
  - destruct (Nat.eqb_spec (free_slot (tm_entry t)) (tm_nentries t)); lia.
  - intros i a Hi. destruct (decide (i = free_slot (tm_entry t))) as [->|Hne].
    + destruct (Nat.eqb_spec (free_slot (tm_entry t)) (tm_nentries t)); lia.
    + rewrite list_lookup_insert_ne in Hi by done. specialize (He _ _ Hi).
      destruct (_ =? _)%nat; lia.
Qed.

(** ** Adding *)

Lemma timers_wf_found s b t a arg :
  timers_wf s -> dt_list s = b ++ t :: a -> (tm_nentries t < MAX_TIMEOUT_ENTRIES)%nat ->
  timers_wf (DpTimers (b ++ add_entry arg t :: a) (dt_fresh s)).
Proof.
  intros [H1 H2 H3] E Hlt. rewrite E in *.
  apply Forall_app in H1 as [Hb Ha]. apply Forall_cons in Ha as [Ht Ha]. split; cbn [dt_list dt_fresh].
  - apply Forall_app. split; [done|]. constructor; [|done]. by apply add_entry_law.
  - by rewrite fmap_app, fmap_cons in H2 |- *.
  - intros u Hu. rewrite elem_of_app, elem_of_cons in Hu. destruct Hu as [Hu|[->|Hu]].
    + apply H3. set_solver.
    + apply (H3 t). set_solver.
    + apply H3. set_solver.
Qed.

Lemma timers_wf_new s b a type timeout arg :
  timers_wf s -> dt_list s = b ++ a -> 0 <= timeout ->
  match a with [] => True | t :: _ => timeout <= tm_timeout t end ->
  timers_wf (DpTimers (b ++ DpTimer (dt_fresh s) type timeout 1
      (Some arg :: replicate (MAX_TIMEOUT_ENTRIES - 1) None) :: shift_next timeout a) (S (dt_fresh s))).
Proof.
  intros [H1 H2 H3] E Ht Ha. rewrite E in *.
  assert (tm_id <$> shift_next timeout a = tm_id <$> a) as Hids by by destruct a.
  split; cbn [dt_list dt_fresh].
  - apply Forall_app in H1 as [Hb Hwa]. apply Forall_app. split; [done|]. constructor.
    + unfold timer_wf, MAX_TIMEOUT_ENTRIES. cbn [tm_entry tm_nentries tm_timeout].
      split_and!; [done|lia| |done]. intros [|i] x Hx; [lia|].
      cbn [lookup list_lookup] in Hx. apply lookup_replicate in Hx as [Hx _]. done.
    + destruct a as [|t a]; [done|]. apply Forall_cons in Hwa as [(W1 & W2 & W3 & W4) Hwa].
      constructor; [|done]. unfold timer_wf. cbn [tm_entry tm_nentries tm_timeout set_timeout].
      split_and!; [done|done|done|lia].
  - rewrite fmap_app, fmap_cons, Hids. cbn [tm_id]. rewrite fmap_app in H2.
    apply NoDup_app in H2 as (N1 & N2 & N3).
    assert (forall t, t ∈ b ++ a -> tm_id t <> dt_fresh s) as Hnew by (intros t Hin; specialize (H3 t Hin); lia).
    apply NoDup_app. split_and!; [done| |].
    + intros x Hx [->|Hx']%elem_of_cons; [|by eapply N2].
      apply list_elem_of_fmap in Hx as (t & E' & Hin). apply (Hnew t); [set_solver|done].
    + constructor; [|done]. intros Hx. apply list_elem_of_fmap in Hx as (t & E' & Hin).
      apply (Hnew t); [set_solver|done].
  - intros t Hin. rewrite elem_of_app, elem_of_cons in Hin. destruct Hin as [Hin|[->|Hin]].
    + specialize (H3 t ltac:(set_solver)). lia.
    + cbn. lia.
    + assert (tm_id t ∈ tm_id <$> a) as Hid by (rewrite <- Hids; by apply list_elem_of_fmap_2).
      apply list_elem_of_fmap in Hid as (u & -> & Hu). specialize (H3 u ltac:(set_solver)). lia.
Qed.

(** ** Slots *)

(** What [*slot] holds. *)
Definition slot_of (s : dp_timers) (slot : timer_ref) : option ref :=
  match find (fun t => bool_decide (tm_id t = slot.1)) (dt_list s) with
  | Some t => mjoin (tm_entry t !! slot.2)
  | None => None
  end.

Lemma find_middle {A} (p : A -> bool) (b a : list A) x :
  (forall y, y ∈ b -> p y = false) ->
  find p (b ++ x :: a) = if p x then Some x else find p a.
Proof. intros H. by rewrite find_app, find_all_false. Qed.

Lemma find_timer_unique s b t a :
  timers_wf s -> dt_list s = b ++ t :: a ->
  (forall u, u ∈ b -> bool_decide (tm_id u = tm_id t) = false) /\
  (forall u, u ∈ a -> bool_decide (tm_id u = tm_id t) = false).
Proof.
  intros [_ H2 _] E. rewrite E, fmap_app, fmap_cons in H2.
  apply NoDup_app in H2 as (_ & N2 & N3). apply NoDup_cons in N3 as [N3 _].
  split; intros u Hu; apply bool_decide_eq_false; intros Hid.
  - apply (N2 (tm_id u)); [by apply list_elem_of_fmap_2|]. rewrite Hid. by left.
  - apply N3. rewrite <- Hid. by apply list_elem_of_fmap_2.
Qed.

(** Replacing a timer of the list by one of the same address. *)
Lemma slot_of_replace s b t t' a slot :
  timers_wf s -> dt_list s = b ++ t :: a -> tm_id t' = tm_id t ->
  slot_of (DpTimers (b ++ t' :: a) (dt_fresh s)) slot =
  if decide (slot.1 = tm_id t) then mjoin (tm_entry t' !! slot.2) else slot_of s slot.
Proof.
  intros Hwf E Hid. destruct (find_timer_unique s b t a Hwf E) as [Hb Ha].
  unfold slot_of. rewrite E. cbn [dt_list]. destruct (decide (slot.1 = tm_id t)) as [->|Hne].
  - rewrite find_middle by done. by rewrite bool_decide_eq_true_2 by done.
  - rewrite !find_app. cbn [find]. rewrite !bool_decide_eq_false_2 by congruence. done.
Qed.

Lemma slot_of_new s b a t slot :
  timers_wf s -> dt_list s = b ++ a -> tm_id t = dt_fresh s -> forall timeout,
  slot_of (DpTimers (b ++ t :: shift_next timeout a) (S (dt_fresh s))) slot =
  if decide (slot.1 = dt_fresh s) then mjoin (tm_entry t !! slot.2) else slot_of s slot.
Proof.
  intros [_ _ H3] E Hid timeout. unfold slot_of. rewrite E. cbn [dt_list].
  destruct (decide (slot.1 = dt_fresh s)) as [Es|Hne].
  - rewrite find_middle; [by rewrite bool_decide_eq_true_2 by congruence|].
    intros u Hu. apply bool_decide_eq_false. assert (u ∈ dt_list s) as Hin by (rewrite E; set_solver). specialize (H3 u Hin). lia.
  - rewrite !find_app. cbn [find]. rewrite bool_decide_eq_false_2 by congruence.
    destruct (find _ b); [done|]. destruct a as [|u a]; [done|]. cbn [shift_next find set_timeout tm_id].
    by case_bool_decide.
Qed.

Lemma slot_of_fresh s i : timers_wf s -> slot_of s (dt_fresh s, i) = None.
Proof.
  intros [_ _ H3]. unfold slot_of. rewrite find_all_false; [done|].
  intros u Hu. apply bool_decide_eq_false. specialize (H3 u Hu). cbn. lia.
Qed.

Lemma add_dp_timer_law s type timeout arg :
  timers_wf s -> 0 <= timeout ->
  let '(slot, s') := add_dp_timer type timeout arg s in
  timers_wf s' /\ pending s' ≡ₚ (timeout, type, arg) :: pending s /\
  slot_of s' slot = Some arg /\ forall slot', slot' <> slot -> slot_of s' slot' = slot_of s slot'.
Proof.
  intros Hwf Ht.  unfold add_dp_timer, find_dp_timer.
  pose proof (find_loop_spec timeout type 0 None 0 (dt_list s) Ht) as Hf.
  destruct (find_loop timeout type 0 None 0 (dt_list s)) as [[[k|] prev] pt].
  - destruct Hf as (b & t & a & E & -> & Hsum & Hty & Hlt). cbn [Nat.add]. rewrite E.
    rewrite list_lookup_middle by done. rewrite insert_app_r_alt, Nat.sub_diag by lia. cbn [list_insert insert].
    assert (timer_wf t) as Hwt.
    { destruct Hwf as [H1 _ _]. rewrite E in H1. apply Forall_app in H1 as [_ H1]. by inversion H1. }
    destruct (add_entry_law arg t Hwt Hlt) as [_ Hp]. destruct (free_slot_spec t Hwt Hlt) as [Hfree _].
    split; [by apply timers_wf_found|]. split; [|split].
    + unfold pending. rewrite E. cbn [dt_list]. rewrite !pending_from_app. cbn [pending_from].
      change (tm_timeout (add_entry arg t)) with (tm_timeout t).
      change (tm_type (add_entry arg t)) with (tm_type t). rewrite Hp. cbn [map].
      rewrite Z.add_0_l in Hsum |- *. rewrite Hsum, Hty. cbn [app]. by rewrite <- Permutation_middle.
    + rewrite (slot_of_replace s b t _ a) by done. cbn [fst snd]. rewrite decide_True by done.
      cbn [add_entry set_entry tm_entry]. rewrite list_lookup_insert_eq; [done|].
      by eapply lookup_lt_Some.
    + intros [i j] Hne. rewrite (slot_of_replace s b t _ a) by done. cbn [fst snd].
      destruct (decide (i = tm_id t)) as [->|]; [|done].
      cbn [add_entry set_entry tm_entry]. rewrite list_lookup_insert_ne by congruence.
      unfold slot_of. rewrite E, find_middle by apply (find_timer_unique s b t a Hwf E).
      cbn [fst snd]. by rewrite bool_decide_eq_true_2 by done.
  - destruct Hf as (b & a & E & Hpt & Hle & Hhead & Hprev).
    set (delta := match prev with None => timeout | Some _ => timeout - pt end).
    set (p := match prev with None => 0%nat | Some k => S k end).
    assert (p = length b /\ delta = timeout - span b) as [-> ->].
    { subst p delta. rewrite Hprev. destruct b; cbn [span foldr length] in *; [lia|]. split; lia. }
    rewrite E, take_app_length, drop_app_length.
    assert (0 <= timeout - span b) by lia.
    split; [|split; [|split]].
    + apply timers_wf_new; [done|done|lia|]. destruct a; [done|lia].
    + unfold pending. rewrite E. cbn [dt_list]. rewrite !pending_from_app. cbn [pending_from tm_timeout].
      rewrite pending_shift. cbn [entries_of tm_entry tm_type omap list_omap id].
      assert (omap id (replicate (MAX_TIMEOUT_ENTRIES - 1) (None : option ref)) = []) as -> by done.
      cbn [map app]. rewrite Z.add_0_l. replace (span b + (timeout - span b)) with timeout by lia.
      by rewrite <- Permutation_middle.
    + rewrite (slot_of_new s b a) by done. cbn [fst snd]. by rewrite decide_True by done.
    + intros [i j] Hne. rewrite (slot_of_new s b a) by done. cbn [fst snd].
      destruct (decide (i = dt_fresh s)) as [->|]; [|done]. rewrite slot_of_fresh by done.
      destruct j as [|j]; [done|]. cbn [tm_entry lookup list_lookup].
      destruct (replicate _ None !! j) as [x|] eqn:Ex; [|done]. by apply lookup_replicate in Ex as [-> _].
Qed.

(** [add_dp_timer] schedules an object without disturbing the others: its deadline is
    the timeout asked for, every other object keeps its deadline although the stored
    differences change, the slot whose address is returned holds the object and every
    other slot what it held; timers stay well formed (differences not negative, slots
    within the array, addresses distinct). *)
Theorem add_dp_timer_correct (s : dp_timers) (type timeout : Z) (arg : ref)
    (Hwf : timers_wf s) (Ht : 0 <= timeout) :
  let '(slot, s') := add_dp_timer type timeout arg s in
  timers_wf s' /\ pending s' ≡ₚ (timeout, type, arg) :: pending s /\
  slot_of s' slot = Some arg /\ forall slot', slot' <> slot -> slot_of s' slot' = slot_of s slot'.
Proof. by apply add_dp_timer_law. Qed.

Definition sample_timers : dp_timers :=
  (add_dp_timer FLOW_TIMER 30 2%nat (add_dp_timer FLOW_TIMER 10 1%nat init_dp_timer).2).2.

Lemma timers_wf_init : timers_wf init_dp_timer.
Proof. split; [constructor|constructor|]. intros t Ht. by apply elem_of_nil in Ht. Qed.

(** Between 10 and 30 seconds: the stored differences become 10, 5, 15. *)
Lemma add_dp_timer_correct_witness :
  let '(slot, s') := add_dp_timer FLOW_TIMER 10 1%nat init_dp_timer in
  timers_wf s' /\ pending s' ≡ₚ (10, FLOW_TIMER, 1%nat) :: pending init_dp_timer /\
  slot_of s' slot = Some 1%nat /\ forall slot', slot' <> slot -> slot_of s' slot' = slot_of init_dp_timer slot'.
Proof. exact (add_dp_timer_correct init_dp_timer FLOW_TIMER 10 1%nat timers_wf_init ltac:(lia)). Defined.

(** ** Clearing, counting down, removing *)

Lemma clear_slot_wf s slot : timers_wf s -> timers_wf (clear_slot slot s).
Proof.
  intros [H1 H2 H3].
  assert (forall l, tm_id <$> map (fun t => if decide (tm_id t = slot.1)
            then set_entry (tm_nentries t) (<[slot.2 := None]> (tm_entry t)) t else t) l = tm_id <$> l) as Hids.
  { induction l as [|t l IH]; [done|]. cbn [map]. rewrite !fmap_cons, IH. by destruct (decide _). }
  split; unfold clear_slot; cbn [dt_list dt_fresh].
  - rewrite Forall_forall in H1 |- *. intros t' Hin.
    apply list_elem_of_In, in_map_iff in Hin as (t & <- & Ht%list_elem_of_In).
    destruct (H1 t Ht) as (W1 & W2 & W3 & W4). destruct (decide _); [|done].
    unfold timer_wf. cbn [tm_entry tm_nentries tm_timeout set_entry].
    split_and!; [by rewrite length_insert|done| |done]. intros i a Hi.
    destruct (decide (i = slot.2)) as [->|Hne]; [|rewrite list_lookup_insert_ne in Hi by done; by eapply W3].
    destruct (decide (slot.2 < length (tm_entry t))%nat) as [Hlt|Hge].
    + by rewrite list_lookup_insert_eq in Hi by done.
    + apply lookup_lt_Some in Hi. rewrite length_insert in Hi. lia.
  - by rewrite Hids.
  - intros t Hin. assert (tm_id t ∈ tm_id <$> dt_list s) as Hid
      by (rewrite <- Hids; by apply list_elem_of_fmap_2).
    apply list_elem_of_fmap in Hid as (u & -> & Hu). by apply H3.
Qed.

Lemma slot_of_clear s slot slot' :
  timers_wf s -> slot_of (clear_slot slot s) slot' = if decide (slot' = slot) then None else slot_of s slot'.
Proof.
  intros _. unfold slot_of, clear_slot. cbn [dt_list].
  assert (forall l, find (fun t => bool_decide (tm_id t = slot'.1))
      (map (fun t => if decide (tm_id t = slot.1)
            then set_entry (tm_nentries t) (<[slot.2 := None]> (tm_entry t)) t else t) l) =
    (fun t => if decide (tm_id t = slot.1)
            then set_entry (tm_nentries t) (<[slot.2 := None]> (tm_entry t)) t else t) <$>
      find (fun t => bool_decide (tm_id t = slot'.1)) l) as ->.
  { induction l as [|t l IH]; [done|]. cbn [map find].
    assert (tm_id (if decide (tm_id t = slot.1)
            then set_entry (tm_nentries t) (<[slot.2 := None]> (tm_entry t)) t else t) = tm_id t) as ->
      by by destruct (decide _).
    case_bool_decide; [done|apply IH]. }
  destruct (find _ (dt_list s)) as [t|] eqn:E; cbn [fmap option_fmap option_map]; [|by destruct (decide _)].
  apply find_some in E as [_ E%bool_decide_eq_true].
  destruct slot as [i j], slot' as [i' j']. cbn [fst snd] in *. subst i'.
  destruct (decide (tm_id t = i)) as [->|Hne]; [|by rewrite decide_False by congruence].
  cbn [tm_entry set_entry]. destruct (decide (j' = j)) as [->|Hj].
  - rewrite decide_True by done. destruct (decide (j < length (tm_entry t))%nat).
    + by rewrite list_lookup_insert_eq.
    + rewrite lookup_ge_None_2; [done|]. rewrite length_insert. lia.
  - rewrite decide_False by congruence. by rewrite list_lookup_insert_ne.
Qed.

Lemma pending_from_shift base d l :
  pending_from (base + d) l = map (fun '(t, ty, a) => (t + d, ty, a)) (pending_from base l).
Proof.
  revert base. induction l as [|t l IH]; intros base; [done|]. cbn [pending_from].
  rewrite map_app, map_map. f_equal.
  - apply map_ext. intros a. do 2 f_equal. lia.
  - replace (base + d + tm_timeout t) with (base + tm_timeout t + d) by lia. apply IH.
Qed.

Lemma tick_first s t l :
  timers_wf s -> dt_list s = t :: l -> tick (tm_id t) s = DpTimers (set_timeout (tm_timeout t - 1) t :: l) (dt_fresh s).
Proof.
  intros Hwf Hs. destruct (find_timer_unique s [] t l Hwf Hs) as [_ Hl]. unfold tick. rewrite Hs. cbn [map].
  rewrite decide_True by done. do 2 f_equal. transitivity (map id l); [|apply map_id]. apply map_ext_in.
  intros u Hu%list_elem_of_In%Hl%bool_decide_eq_false. by rewrite decide_False.
Qed.

Lemma timer_countdown_law s t l :
  timers_wf s -> dt_list s = t :: l ->
  (0 < tm_timeout t ->
     timers_wf (tick (tm_id t) s) /\
     pending (tick (tm_id t) s) = map (fun '(d, ty, a) => (d - 1, ty, a)) (pending s)) /\
  (tm_timeout t = 0 ->
     pending s = map (fun a => (0, tm_type t, a)) (entries_of t) ++ pending (remove_timer (tm_id t) s) /\
     timers_wf (remove_timer (tm_id t) s)) /\
  (forall d ty a, (d, ty, a) ∈ pending s -> tm_timeout t <= d).
Proof.
  intros Hwf Hs.  destruct (find_timer_unique s [] t l Hwf Hs) as [_ Hl].
  assert (filter (fun u => tm_id u <> tm_id t) (t :: l) = l) as Hfil.
  { rewrite filter_cons_False by naive_solver. clear Hs. induction l as [|u l IH]; [done|].
    rewrite filter_cons_True.
    - f_equal. apply IH. intros v Hv. apply Hl. by right.
    - specialize (Hl u ltac:(by left)). by apply bool_decide_eq_false in Hl. }
  pose proof Hwf as Hwf0. destruct Hwf as [H1 H2 H3]. rewrite Hs in H1, H2, H3.
  apply Forall_cons in H1 as [(W1 & W2 & W3 & W4) H1]. split; [|split].
  - intros Hpos. rewrite (tick_first s t l Hwf0 Hs). unfold pending. rewrite Hs. split.
    + split; cbn [dt_list dt_fresh]; [|done|].
      * constructor; [|done]. unfold timer_wf. cbn [set_timeout tm_entry tm_nentries tm_timeout].
        split_and!; [done|done|done|lia].
      * intros u [->|Hu]%elem_of_cons; [by apply (H3 t); left|by apply H3; right].
    + transitivity (pending_from (0 + -1) (t :: l)); [|exact (pending_from_shift 0 (-1) (t :: l))].
      cbn [dt_list pending_from set_timeout tm_timeout].
      replace (0 + (tm_timeout t - 1)) with (0 + -1 + tm_timeout t) by lia. done.
  - intros H0. unfold remove_timer, pending. rewrite Hs, Hfil. cbn [dt_list pending_from].
    rewrite H0, Z.add_0_l. split; [done|]. split; cbn [dt_list dt_fresh]; [done| |].
    + by inversion H2.
    + intros u Hu. apply H3. by right.
  - assert (forall base k d ty a, Forall timer_wf k -> (d, ty, a) ∈ pending_from base k -> base <= d) as Hge.
    { clear. intros base k. revert base. induction k as [|u k IH]; intros base d ty a Hk Hin.
      { by apply elem_of_nil in Hin. }
      apply Forall_cons in Hk as [(_ & _ & _ & Hu) Hk]. cbn [pending_from] in Hin.
      apply elem_of_app in Hin as [Hin|Hin].
      - apply list_elem_of_In, in_map_iff in Hin as (x & [= <- <- <-] & _). lia.
      - apply IH in Hin; [lia|done]. }
    intros d ty a Hin. unfold pending in Hin. rewrite Hs in Hin. cbn [pending_from] in Hin.
    apply elem_of_app in Hin as [Hin|Hin].
    + apply list_elem_of_In, in_map_iff in Hin as (x & [= <- <- <-] & _). lia.
    + apply Hge in Hin; [lia|done].
Qed.

(** ** The thread *)

(** The thread with nothing else running, for [n] rounds of its loops; [now] seconds have
    passed.  Result: the objects handed to the expiry functions, each with the second it happened in. *)
Fixpoint thread_run (n : nat) (now : Z) (cur : option nat) (s : dp_timers) : list (Z * ref) * option nat * dp_timers :=
  match n with
  | O => ([], cur, s)
  | S n =>
      match next_event cur s with
      | TakeFirst => thread_run n now (first_timer s) s
      | Second id => thread_run n (now + 1) cur (tick id s)
      | Expire id =>
          let fired := match find_timer id s with Some t => entries_of t | None => [] end in
          let s := remove_timer id s in
          let '(out, cur, s) := thread_run n now (first_timer s) s in
          (map (fun a => (now, a)) fired ++ out, cur, s)
      end
  end.

Definition due (now : Z) (s : dp_timers) : list (Z * ref) := map (fun '(d, _, a) => (now + d, a)) (pending s).

Lemma find_first s t l : dt_list s = t :: l -> find_timer (tm_id t) s = Some t.
Proof. intros Hs. unfold find_timer. rewrite Hs. cbn [find]. by rewrite bool_decide_eq_true_2. Qed.

Lemma timer_timeout_nonneg s t l : timers_wf s -> dt_list s = t :: l -> 0 <= tm_timeout t.
Proof. intros [H1 _ _] Hs. rewrite Hs in H1. by apply Forall_cons in H1 as [(_ & _ & _ & ?) _]. Qed.

(** The thread counts the head down to 0. *)
Lemma thread_countdown k : forall t l now s,
  timers_wf s -> dt_list s = t :: l -> tm_timeout t = Z.of_nat k ->
  exists s', timers_wf s' /\ dt_list s' = set_timeout 0 t :: l /\ due (now + Z.of_nat k) s' = due now s /\
    forall n, thread_run (k + n) now (Some (tm_id t)) s = thread_run n (now + Z.of_nat k) (Some (tm_id t)) s'.
Proof.
  induction k as [|k IH]; intros t l now s Hwf Hs Hk; destruct (timer_countdown_law s t l Hwf Hs) as (C1 & _ & _).
  - exists s. rewrite Z.add_0_r. split_and!; [done| |done|done]. rewrite Hs. f_equal. rewrite <- (Hk : _ = 0). by destruct t.
  - destruct (C1 ltac:(lia)) as [Hw Hp]. pose proof (tick_first s t l Hwf Hs) as Ht.
    destruct (IH (set_timeout (tm_timeout t - 1) t) l (now + 1) (tick (tm_id t) s) Hw) as (s' & W & L & D & R);
      [by rewrite Ht|cbn; lia|].
    exists s'. replace (now + Z.of_nat (S k)) with (now + 1 + Z.of_nat k) by lia. split_and!; [done|done| |].
    + rewrite D. unfold due. rewrite Hp, map_map. apply map_ext. intros [[d ty] a]. f_equal. lia.
    + intros n. cbn [Nat.add thread_run next_event]. rewrite (find_first s t l Hs).
      rewrite (proj2 (Z.ltb_lt 0 (tm_timeout t))) by lia. apply R.
Qed.

Lemma remove_first s t l : timers_wf s -> dt_list s = t :: l -> dt_list (remove_timer (tm_id t) s) = l.
Proof.
  intros Hwf Hs. unfold remove_timer. rewrite Hs. cbn [dt_list]. rewrite filter_cons_False by naive_solver.
  destruct (find_timer_unique s [] t l Hwf Hs) as [_ Hl]. clear -Hl.
  induction l as [|v l IH]; [done|]. rewrite filter_cons_True.
  - f_equal. apply IH. intros w Hw. apply Hl. by right.
  - specialize (Hl v ltac:(by left)). by apply bool_decide_eq_false in Hl.
Qed.

Lemma thread_fires l : forall t now s,
  timers_wf s -> dt_list s = t :: l ->
  exists n s', thread_run n now (Some (tm_id t)) s = (due now s, None, s') /\ dt_list s' = [].
Proof.
  induction l as [|u l IH]; intros t now s Hwf Hs; pose proof (timer_timeout_nonneg s t _ Hwf Hs) as Hge.
  all: destruct (thread_countdown (Z.to_nat (tm_timeout t)) t _ now s Hwf Hs) as (s0 & W & L & D & R); [lia|];
    destruct (timer_countdown_law s0 (set_timeout 0 t) _ W L) as (_ & C2 & _);
    destruct (C2 eq_refl) as [Hp Hw]; pose proof (remove_first s0 (set_timeout 0 t) _ W L) as Hr;
    cbn [tm_id set_timeout] in Hp, Hw, Hr; set (s1 := remove_timer (tm_id t) s0) in *.
  all: set (now' := now + Z.of_nat (Z.to_nat (tm_timeout t))) in *.
  all: assert (due now' s0 = map (fun a => (now', a)) (entries_of t) ++ due now' s1) as Hd
    by (unfold due; rewrite Hp, map_app, map_map; f_equal; apply map_ext; intros a; by rewrite Z.add_0_r).
  all: assert (forall n, thread_run (S n) now' (Some (tm_id t)) s0 =
      let '(out, cur, s) := thread_run n now' (first_timer s1) s1 in
      (map (fun a => (now', a)) (entries_of t) ++ out, cur, s)) as Hstep
    by (intros n; cbn [thread_run next_event]; pose proof (find_first s0 (set_timeout 0 t) _ L) as Hf;
        cbn [tm_id set_timeout] in Hf; rewrite Hf;
        change (0 <? tm_timeout (set_timeout 0 t)) with false; cbv iota; rewrite Hf; reflexivity).
  - exists (Z.to_nat (tm_timeout t) + 1)%nat, s1. split; [|done]. rewrite R, Hstep, <- D, Hd.
    unfold first_timer, due, pending. by rewrite Hr.
  - destruct (IH u now' s1 Hw Hr) as (n & s' & Hn & Hs').
    exists (Z.to_nat (tm_timeout t) + S n)%nat, s'. split; [|done]. rewrite R, Hstep, <- D, Hd.
    assert (first_timer s1 = Some (tm_id u)) as -> by (unfold first_timer; by rewrite Hr). by rewrite Hn.
Qed.

Lemma sample_timers_wf : timers_wf sample_timers.
Proof.
  pose proof (add_dp_timer_law init_dp_timer FLOW_TIMER 10 1%nat timers_wf_init ltac:(lia)) as [H _].
  exact (proj1 (add_dp_timer_law _ FLOW_TIMER 30 2%nat H ltac:(lia))).
Qed.

(** While the timer the thread waits for is the first of the list, one second of counting down brings every deadline one
    second closer and keeps the timers well formed; when it has no time left, no object of any
    timer is overdue, the objects of the head are due, and removing the head leaves
    all other deadlines as they are. *)
Theorem timer_countdown_correct (s : dp_timers) (t : dp_timer) (l : list dp_timer)
    (Hwf : timers_wf s) (Hs : dt_list s = t :: l) :
  (0 < tm_timeout t ->
     timers_wf (tick (tm_id t) s) /\
     pending (tick (tm_id t) s) = map (fun '(d, ty, a) => (d - 1, ty, a)) (pending s)) /\
  (tm_timeout t = 0 ->
     pending s = map (fun a => (0, tm_type t, a)) (entries_of t) ++ pending (remove_timer (tm_id t) s) /\
     timers_wf (remove_timer (tm_id t) s)) /\
  (forall d ty a, (d, ty, a) ∈ pending s -> tm_timeout t <= d).
Proof. exact (timer_countdown_law s t l Hwf Hs). Qed.

Lemma timer_countdown_correct_witness :
  exists t l, dt_list sample_timers = t :: l /\ 0 < tm_timeout t /\
    pending (tick (tm_id t) sample_timers) = map (fun '(d, ty, a) => (d - 1, ty, a)) (pending sample_timers).
Proof.
  eexists _, _. split; [reflexivity|]. split; [reflexivity|].
  exact (proj2 (proj1 (timer_countdown_correct sample_timers _ _ sample_timers_wf eq_refl) eq_refl)).
Defined.



(** A timer put in front of the one the thread waits for is overlooked: with object 1 due in 10 seconds and the
    thread waiting for it, object 2 is added to be due in 4; the thread counts the 6 seconds left to the old head, hands over
    object 1 four seconds early, and object 2 six seconds late. *)
Theorem timer_in_front_overlooked :
  let s1 := (add_dp_timer FLOW_TIMER 10 1%nat init_dp_timer).2 in
  let s2 := (add_dp_timer FLOW_TIMER 4 2%nat s1).2 in
  due 0 s2 = [(4, 2%nat); (10, 1%nat)] /\
  (thread_run 20 0 (first_timer s1) s2).1.1 = [(6, 1%nat); (10, 2%nat)].
Proof. split; vm_compute; reflexivity. Qed.
