(* ===== verification/Bridge.v ===== *)
(** * A bridge and the steps on it that the flow commands share

    The state of [struct bridge] as the flow database changes it: the flows and tables, the
    group and meter tables, the ports, the timers, and the events sent to the
    controller; and the functions of [src/dataplane/mgr/flowdb.c] that work on the references
    between them: [flow_free], [flow_action_check], [flow_del_from_meter], [flow_del_from_group],
    [flow_instruction_examination], [send_flow_removed], and [add_flow_timer] of
    [flow_timer.c].  The locks are not modelled: every command runs as one step under the
    write lock of the flow database.  The call that hands an event to the agent is
    modelled as an unbounded queue that always accepts. *)
From S2P Require Import Prelude OpenFlow Hashmap Endian Shared Packet ActionSet Meter Group DpTimer FlowEntry.
From S2P Require Import FlowinfoTree.

(** ** State *)

(** [struct table] and its [flow_list] *)
Record table := Table {
  tb_table_id : Z;
  tb_flows : list ref;
  tb_userdata : option flowinfo_root;
  tb_lookup_count : Z;
  tb_matched_count : Z
}.

Definition table_alloc (table_id : Z) : table := Table table_id [] None 0 0.

Definition set_tb_flows (v : list ref) (t : table) : table :=
  Table (tb_table_id t) v (tb_userdata t) (tb_lookup_count t) (tb_matched_count t).
Definition set_tb_userdata (v : option flowinfo_root) (t : table) : table :=
  Table (tb_table_id t) (tb_flows t) v (tb_lookup_count t) (tb_matched_count t).

(** [struct flow_removed] *)
Record flow_removed := FlowRemoved {
  rm_cookie : Z;
  rm_priority : Z;
  rm_reason : Z;
  rm_table_id : Z;
  rm_duration : Z * Z;
  rm_idle_timeout : Z;
  rm_hard_timeout : Z;
  rm_packet_count : Z;
  rm_byte_count : Z;
  rm_match_list : list match_
}.

Record bridge := Bridge {
  br_flows : flow_heap;
  br_fresh : ref;
  br_tables : gmap Z table;
  br_groups : group_table;
  br_meters : meter_table;
  br_ports : gset Z;
  br_timers : dp_timers;
  br_events : list flow_removed;
  br_now : timespec
}.

Definition set_br_flows (v : flow_heap) (br : bridge) : bridge :=
  Bridge v (br_fresh br) (br_tables br) (br_groups br) (br_meters br) (br_ports br)
    (br_timers br) (br_events br) (br_now br).
Definition set_br_fresh (v : ref) (br : bridge) : bridge :=
  Bridge (br_flows br) v (br_tables br) (br_groups br) (br_meters br) (br_ports br)
    (br_timers br) (br_events br) (br_now br).
Definition set_br_tables (v : gmap Z table) (br : bridge) : bridge :=
  Bridge (br_flows br) (br_fresh br) v (br_groups br) (br_meters br) (br_ports br)
    (br_timers br) (br_events br) (br_now br).
Definition set_br_groups (v : group_table) (br : bridge) : bridge :=
  Bridge (br_flows br) (br_fresh br) (br_tables br) v (br_meters br) (br_ports br)
    (br_timers br) (br_events br) (br_now br).
Definition set_br_meters (v : meter_table) (br : bridge) : bridge :=
  Bridge (br_flows br) (br_fresh br) (br_tables br) (br_groups br) v (br_ports br)
    (br_timers br) (br_events br) (br_now br).
Definition set_br_timers (v : dp_timers) (br : bridge) : bridge :=
  Bridge (br_flows br) (br_fresh br) (br_tables br) (br_groups br) (br_meters br) (br_ports br)
    v (br_events br) (br_now br).
Definition set_br_events (v : list flow_removed) (br : bridge) : bridge :=
  Bridge (br_flows br) (br_fresh br) (br_tables br) (br_groups br) (br_meters br) (br_ports br)
    (br_timers br) v (br_now br).

(** A write through a flow pointer. *)
Definition upd_flow (r : ref) (g : flow -> flow) (br : bridge) : bridge :=
  set_br_flows (alter g r (br_flows br)) br.

Definition the_flow (br : bridge) (r : ref) : flow := br_flows br !!! r.

(** [flowdb_get_table] *)
Definition flowdb_get_table (table_id : Z) (br : bridge) : table * bridge :=
  match br_tables br !! table_id with
  | Some t => (t, br)
  | None => (table_alloc table_id, set_br_tables (<[table_id := table_alloc table_id]> (br_tables br)) br)
  end.

Definition flow_free (r : ref) (br : bridge) : bridge :=
  let br := match fl_flow_timer (the_flow br r) with
            | Some slot => set_br_timers (clear_slot slot (br_timers br)) br
            | None => br
            end in
  set_br_flows (delete r (br_flows br)) br.

(** ** References to meters and groups *)

(** The instructions in the order of the execution array. *)
Definition instruction_array (f : flow) : list instruction :=
  omap (flow_instruction f) (seq 0 INSTRUCTION_INDEX_MAX).

Definition reserved_port (port : Z) : bool :=
  bool_decide (port ∈ [OFPP_IN_PORT; OFPP_TABLE; OFPP_NORMAL; OFPP_FLOOD; OFPP_ALL;
                       OFPP_CONTROLLER; OFPP_LOCAL]).

(** The loop over an action list in [flow_action_check]. *)
Fixpoint check_actions (r : ref) (l : list action) (br : bridge) : option ofp_error * bridge :=
  match l with
  | [] => (None, br)
  | a :: l' =>
      match act_ofpat a with
      | ofp_action_output port _ =>
          if reserved_port port || bool_decide (port ∈ br_ports br) then check_actions r l' br
          else (Some (OFPET_BAD_ACTION, OFPBAC_BAD_OUT_PORT), br)
      | ofp_action_group group_id =>
          match group_table_lookup (br_groups br) group_id with
          | None => (Some (OFPET_BAD_ACTION, OFPBAC_BAD_OUT_GROUP), br)
          | Some _ =>
              check_actions r l'
                (set_br_groups (id_update (group_add_ref_flow r) group_id (br_groups br)) br)
          end
      | _ => check_actions r l' br
      end
  end.

Definition meter_inc (m : meter) : meter := set_mt_flow_count (u32 (mt_flow_count m + 1)) m.
Definition meter_dec (m : meter) : meter := set_mt_flow_count (u32 (mt_flow_count m - 1)) m.

Definition has_actions (i : instruction) : bool :=
  (ins_type i =? OFPIT_WRITE_ACTIONS) || (ins_type i =? OFPIT_APPLY_ACTIONS).

Definition check_instruction (r : ref) (i : instruction) (br : bridge) : option ofp_error * bridge :=
  if ins_type i =? OFPIT_METER then
    match meter_table_lookup (br_meters br) (ins_meter_id i) with
    | Some _ => (None, set_br_meters (id_update meter_inc (ins_meter_id i) (br_meters br)) br)
    | None => (Some (OFPET_METER_MOD_FAILED, OFPMMFC_UNKNOWN_METER), br)
    end
  else if ins_type i =? OFPIT_GOTO_TABLE then
    if OFPTT_MAX <? ins_table_id i then (Some (OFPET_BAD_INSTRUCTION, OFPBIC_BAD_TABLE_ID), br)
    else (None, br)
  else if has_actions i then check_actions r (ins_action_list i) br
  else (None, br).

Fixpoint check_instructions (r : ref) (l : list instruction) (br : bridge) : option ofp_error * bridge :=
  match l with
  | [] => (None, br)
  | i :: l' =>
      let '(error, br) := check_instruction r i br in
      match error with Some _ => (error, br) | None => check_instructions r l' br end
  end.

Definition flow_action_check (r : ref) (br : bridge) : option ofp_error * bridge :=
  check_instructions r (instruction_array (the_flow br r)) br.

Definition flow_del_from_meter (r : ref) (br : bridge) : bridge :=
  match flow_instruction (the_flow br r) INSTRUCTION_INDEX_METER with
  | Some i => set_br_meters (id_update meter_dec (ins_meter_id i) (br_meters br)) br
  | None => br
  end.

(** Only the first GROUP action of an instruction is looked at: the loop breaks. *)
Definition del_group_ref (r : ref) (i : instruction) (br : bridge) : bridge :=
  if has_actions i then
    match omap group_action (ins_action_list i) with
    | group_id :: _ => set_br_groups (id_update (group_remove_ref_flow r) group_id (br_groups br)) br
    | [] => br
    end
  else br.

Definition flow_del_from_group (r : ref) (br : bridge) : bridge :=
  foldl (fun br i => del_group_ref r i br) br (instruction_array (the_flow br r)).

(** ** Preparing the instructions of a flow for the data plane *)

Definition set_act_flags (v : Z) (a : action) : action := Action (act_exec a) (act_cookie a) v (act_ofpat a).
Definition set_act_cookie (v : Z) (a : action) : action := Action (act_exec a) v (act_flags a) (act_ofpat a).

Definition push_or_pop (type : Z) : bool :=
  bool_decide (type ∈ [OFPAT_PUSH_VLAN; OFPAT_PUSH_MPLS; OFPAT_PUSH_PBB; OFPAT_POP_VLAN;
                       OFPAT_POP_MPLS; OFPAT_POP_PBB]).

(** The variables of [flow_action_examination]: the actions, [action_output] and
    [action_push] as indices, [flags], and the groups. *)
Record examination := Examination {
  ex_actions : list action;
  ex_output : option nat;
  ex_push : option nat;
  ex_flags : Z;
  ex_groups : group_table
}.

(** [if (p != NULL) p->flags = v] *)
Definition mark_action (p : option nat) (v : Z) (l : list action) : list action :=
  match p with Some i => alter (set_act_flags v) i l | None => l end.

Definition cookie_output_actions (cookie : Z) (g : group) : group :=
  set_gr_bucket_list
    (map (fun b => Bucket (bk_weight b) (bk_watch_port b) (bk_watch_group b) (bk_packet_count b)
                     (bk_byte_count b) (bk_action_list b)
                     (alter (map (set_act_cookie cookie)) LAGOPUS_ACTION_SET_ORDER_OUTPUT (bk_actions b)))
       (gr_bucket_list g)) g.

Definition examine_action (cookie : Z) (st : examination) (i : nat) : examination :=
  match ex_actions st !! i with
  | None => st
  | Some a =>
      let copied := mark_action (ex_output st) OUTPUT_COPIED_PACKET (ex_actions st) in
      if push_or_pop (action_type a) then
        Examination copied (ex_output st) (Some i) 0 (ex_groups st)
      else if action_type a =? OFPAT_SET_FIELD then
        match ex_push st with
        | Some _ =>
            let flags := if GET_OXM_FIELD a =? OFPXMT_OFB_ETH_DST then Z.lor (ex_flags st) SET_FIELD_ETH_DST
                         else if GET_OXM_FIELD a =? OFPXMT_OFB_ETH_SRC then Z.lor (ex_flags st) SET_FIELD_ETH_SRC
                         else ex_flags st in
            Examination (mark_action (ex_push st) flags copied) (ex_output st) (ex_push st) flags (ex_groups st)
        | None => Examination copied (ex_output st) None (ex_flags st) (ex_groups st)
        end
      else
        match act_ofpat a with
        | ofp_action_output _ _ =>
            Examination (alter (set_act_cookie cookie) i copied) (Some i) (ex_push st) (ex_flags st) (ex_groups st)
        | ofp_action_group group_id =>
            Examination (ex_actions st) (ex_output st) (ex_push st) (ex_flags st)
              (id_update (cookie_output_actions cookie) group_id (ex_groups st))
        | _ => st
        end
  end.

Definition flow_action_examination (cookie : Z) (l : list action) (groups : group_table) : examination :=
  foldl (examine_action cookie) (Examination l None None 0 groups) (seq 0 (length l)).

Definition set_ins_actions (l : list action) (i : instruction) : instruction :=
  Instruction (ins_type i) (ins_table_id i) (ins_metadata i) (ins_metadata_mask i) (ins_meter_id i) l (ins_exec i).

(** One round of [flow_instruction_examination]: the instructions, where the last output
    action of the apply list is (instruction and action), and the groups. *)
Definition examine_instruction (f : flow)
    (st : list instruction * option (nat * nat) * group_table) (idx : nat)
    : list instruction * option (nat * nat) * group_table :=
  let '(l, output, groups) := st in
  match mjoin (fl_instruction f !! idx) with
  | None => st
  | Some k =>
      let l := if (INSTRUCTION_INDEX_APPLY_ACTIONS <? idx)%nat then
                 match output with
                 | Some (k', j) =>
                     alter (fun i => set_ins_actions (alter (set_act_flags OUTPUT_COPIED_PACKET) j (ins_action_list i)) i) k' l
                 | None => l
                 end
               else l in
      let l := alter lagopus_set_instruction_function k l in
      let l := alter (fun i => if has_actions i
                               then set_ins_actions (map lagopus_set_action_function (ins_action_list i)) i
                               else i) k l in
      match l !! k with
      | Some i =>
          if ins_type i =? OFPIT_APPLY_ACTIONS then
            let ex := flow_action_examination (fl_cookie f) (ins_action_list i) groups in
            (<[k := set_ins_actions (ex_actions ex) i]> l, (fun j => (k, j)) <$> ex_output ex, ex_groups ex)
          else (l, output, groups)
      | None => (l, output, groups)
      end
  end.

Definition flow_instruction_examination (r : ref) (br : bridge) : bridge :=
  let f := the_flow br r in
  let '(l, _, groups) :=
    foldl (examine_instruction f) (fl_instruction_list f, None, br_groups br) (seq 0 INSTRUCTION_INDEX_MAX) in
  set_br_groups groups (upd_flow r (set_fl_instruction_list l) br).

(** ** Messages and timers *)

Definition removed_count (flags bit count : Z) : Z :=
  if Z.land flags bit =? 0 then count else 0xffffffffffffffff.

Definition flow_removed_message (now : timespec) (f : flow) (reason : Z) : flow_removed :=
  FlowRemoved (fl_cookie f) (u16 (fl_priority f)) reason (fl_table_id f)
    (duration now (fl_create_time f)) (fl_idle_timeout f) (fl_hard_timeout f)
    (removed_count (fl_flags f) OFPFF_NO_PKT_COUNTS (fl_packet_count f))
    (removed_count (fl_flags f) OFPFF_NO_BYT_COUNTS (fl_byte_count f))
    (fl_match_list f).

(** [send_flow_removed]: the match list moves from the flow into the message. *)
Definition send_flow_removed (r : ref) (reason : Z) (br : bridge) : bridge :=
  let msg := flow_removed_message (br_now br) (the_flow br r) reason in
  set_br_events (br_events br ++ [msg]) (upd_flow r (set_fl_match_list []) br).

(** [add_flow_timer] of [flow_timer.c]; [now_ts] is the clock. *)
Definition flow_timeout (now : timespec) (f : flow) : Z :=
  let idle_elapsed := fl_idle_timeout f - (now.1 - (fl_update_time f).1) in
  let hard_elapsed := fl_hard_timeout f - (now.1 - (fl_create_time f).1) in
  if (0 <? fl_idle_timeout f) && (0 <? fl_hard_timeout f) then Z.min idle_elapsed hard_elapsed
  else if 0 <? fl_idle_timeout f then idle_elapsed
  else hard_elapsed.

Definition add_flow_timer (r : ref) (br : bridge) : bridge :=
  let '(slot, timers) := add_dp_timer FLOW_TIMER (flow_timeout (br_now br) (the_flow br r)) r (br_timers br) in
  upd_flow r (set_fl_flow_timer (Some slot)) (set_br_timers timers br).
