(* ===== verification/FlowDB.v ===== *)
(** * The flow database: commands on the flow tables

    The entry points of [src/dataplane/mgr/flowdb.c]: FLOW_MOD ([flowdb_flow_add],
    [flowdb_flow_modify], [flowdb_flow_delete]), the removal of one flow
    ([flow_remove_with_reason_nolock]), the flow, aggregate and table statistics; the
    deletion of groups ([ofp_group_mod_delete] of [group.c]), which removes the flows that refer
    to them; and the expiry of flow timers ([flow_timer.c]).  The lookup tree of a table
    is updated through [add_flow], [del_flow] and [find_flow] of [flowinfo.c], as the hooks
    installed by [flowinfo_init] do. *)
From S2P Require Import Prelude OpenFlow Hashmap Endian Shared Packet ActionSet Meter Group DpTimer FlowEntry.
From S2P Require Import FlowinfoIntf FlowinfoTree Bridge.

(** ** The list of a table *)

(** [flow_add_sub] *)
Definition flow_add_sub (h : flow_heap) (flow : ref) (flows : list ref) : list ref :=
  let nflow := length flows in
  let i := bisect nflow (ge_at (fun r => fl_priority (h !!! r)) (fl_priority (h !!! flow)) flows) 0 nflow in
  insert_at i flow flows.

Definition upd_table (table_id : Z) (g : table -> table) (br : bridge) : bridge :=
  set_br_tables (alter g table_id (br_tables br)) br.

(** [lagopus_find_flow_hook (flow, table)] *)
Definition find_flow_hook (table_id : Z) (flow : ref) (br : bridge) : option ref :=
  match br_tables br !! table_id with
  | Some t => find_flow (br_flows br) (tb_userdata t) flow
  | None => None
  end.

(** [lagopus_add_flow_hook (flow, table)] *)
Definition add_flow_hook (table_id : Z) (flow : ref) (br : bridge) : bridge :=
  match br_tables br !! table_id with
  | Some t =>
      let '(userdata, h) := add_flow (br_flows br) (tb_table_id t) (tb_userdata t) flow in
      upd_table table_id (set_tb_userdata userdata) (set_br_flows h br)
  | None => br
  end.

(** [lagopus_del_flow_hook (flow, table)] *)
Definition del_flow_hook (table_id : Z) (flow : ref) (br : bridge) : bridge :=
  match br_tables br !! table_id with
  | Some t => upd_table table_id (set_tb_userdata (del_flow (br_flows br) (tb_userdata t) flow)) br
  | None => br
  end.

(** ** Adding *)

(** A flow of the command at a fresh address. *)
Definition new_flow (f : flow) (br : bridge) : ref * bridge :=
  let r := br_fresh br in
  (r, set_br_fresh (S r) (set_br_flows (<[r := f]> (br_flows br)) br)).

(** [flow->packet_count = 0; flow->byte_count = 0] when the command asks for it. *)
Definition reset_counts (flags : Z) (f : flow) : flow :=
  if Z.land flags OFPFF_RESET_COUNTS =? 0 then f
  else set_fl_packet_count 0 (set_fl_byte_count 0 f).

(** The instruction array made again from the list. *)
Definition remap_instructions (r : ref) (br : bridge) : option ofp_error * bridge :=
  let '(arr, error) := map_instruction_list_to_array (fl_instruction_list (the_flow br r)) in
  (error, upd_flow r (set_fl_instruction arr) br).

(** "overriden": the identical flow takes the match and the instructions of the new one,
    which is freed. *)
Definition override_steps (flow_mod : ofp_flow_mod) (flow identical_flow : ref) (br : bridge) : bridge :=
  let br := flow_instruction_examination flow br in
  let br := flow_del_from_meter identical_flow br in
  let br := flow_del_from_group identical_flow br in
  let br := upd_flow identical_flow (reset_counts (fm_flags flow_mod)) br in
  let f := the_flow br flow in
  let br := upd_flow identical_flow
              (fun g => set_fl_instruction_list (fl_instruction_list f)
                          (set_fl_match_list (fl_match_list f) g)) br in
  flow_free flow (upd_flow flow (fun g => set_fl_instruction_list [] (set_fl_match_list [] g)) br).

Definition override_flow (flow_mod : ofp_flow_mod) (flow identical_flow : ref) (br : bridge)
    : lagopus_result * option ofp_error * bridge :=
  let '(error, br) := remap_instructions flow br in
  match error with
  | Some _ => (LAGOPUS_RESULT_OFP_ERROR, error, flow_free flow br)
  | None =>
      let br := override_steps flow_mod flow identical_flow br in
      let '(error, br) := remap_instructions identical_flow br in
      match error with
      | Some _ => (LAGOPUS_RESULT_OFP_ERROR, error, br)
      | None =>
          let '(error, br) := flow_action_check identical_flow br in
          match error with
          | Some _ => (LAGOPUS_RESULT_OFP_ERROR, error, br)
          | None => (LAGOPUS_RESULT_OK, None, br)
          end
      end
  end.

(** The branch without an identical flow. *)
Definition install_flow (table_id : Z) (flow : ref) (br : bridge)
    : lagopus_result * option ofp_error * bridge :=
  let '(error, br) := flow_action_check flow br in
  match error with
  | Some _ => (LAGOPUS_RESULT_OFP_ERROR, error, br)
  | None =>
      let br := flow_instruction_examination flow br in
      let br := upd_table table_id (fun t => set_tb_flows (flow_add_sub (br_flows br) flow (tb_flows t)) t) br in
      let br := add_flow_hook table_id flow br in
      let br := if (0 <? fl_idle_timeout (the_flow br flow)) || (0 <? fl_hard_timeout (the_flow br flow))
                then add_flow_timer flow br else br in
      (LAGOPUS_RESULT_OK, None, br)
  end.

Definition flowdb_flow_add (flow_mod : ofp_flow_mod) (match_list : list match_)
    (instruction_list : list instruction) (br : bridge) : lagopus_result * option ofp_error * bridge :=
  if fm_table_id flow_mod =? OFPTT_ALL then
    (LAGOPUS_RESULT_OFP_ERROR, Some (OFPET_FLOW_MOD_FAILED, OFPFMFC_BAD_TABLE_ID), br)
  else
    let '(_, br) := flowdb_get_table (fm_table_id flow_mod) br in
    match flow_alloc flow_mod match_list instruction_list (br_now br) with
    | inr e => (LAGOPUS_RESULT_OFP_ERROR, Some e, br)
    | inl f =>
        let f := set_fl_table_id (fm_table_id flow_mod) f in
        let '(f, error) := flow_pre_requisite_check f in
        let '(flow, br) := new_flow f br in
        match error with
        | Some _ => (LAGOPUS_RESULT_OFP_ERROR, error, flow_free flow br)
        | None =>
            match flow_mask_check (fl_match_list f) with
            | Some e => (LAGOPUS_RESULT_OFP_ERROR, Some e, flow_free flow br)
            | None =>
                match find_flow_hook (fm_table_id flow_mod) flow br with
                | Some identical_flow =>
                    if negb (Z.land (fm_flags flow_mod) OFPFF_CHECK_OVERLAP =? 0) then
                      (LAGOPUS_RESULT_OFP_ERROR, Some (OFPET_FLOW_MOD_FAILED, OFPFMFC_OVERLAP),
                       flow_free flow br)
                    else override_flow flow_mod flow identical_flow br
                | None => install_flow (fm_table_id flow_mod) flow br
                end
            end
        end
    end.

(** ** Modifying *)

(** [copy_instruction_list] *)
Definition copy_instruction_list (l : list instruction) : list instruction :=
  map (fun i => set_ins_actions (copy_action_list (ins_action_list i)) i) l.

(** The cookie filter of the commands and of the statistics. *)
Definition cookie_matches (cookie cookie_mask : Z) (f : flow) : bool :=
  (cookie_mask =? 0) || (Z.land (fl_cookie f) cookie_mask =? Z.land cookie cookie_mask).

(** Give a flow new instructions, once the references of the old ones are dropped. *)
Definition replace_instructions (flow_mod : ofp_flow_mod) (l : list instruction) (r : ref) (br : bridge)
    : option ofp_error * bridge :=
  let br := flow_del_from_meter r br in
  let br := flow_del_from_group r br in
  let br := upd_flow r (reset_counts (fm_flags flow_mod)) br in
  let br := upd_flow r (set_fl_instruction_list (copy_instruction_list l)) br in
  remap_instructions r br.

(** The loop of the non-strict [flow_modify_sub]; it stops at the first error. *)
Fixpoint modify_loop (flow_mod : ofp_flow_mod) (match_list : list match_) (instruction_list : list instruction)
    (flows : list ref) (br : bridge) : option ofp_error * bridge :=
  match flows with
  | [] => (None, br)
  | r :: flows' =>
      if cookie_matches (fm_cookie flow_mod) (fm_cookie_mask flow_mod) (the_flow br r) &&
         match_compare (fl_match_list (the_flow br r)) match_list
      then
        let '(error, br) := replace_instructions flow_mod instruction_list r br in
        match error with
        | Some _ => (error, br)
        | None =>
            let '(error, br) := flow_action_check r br in
            match error with
            | Some _ => (error, br)
            | None => modify_loop flow_mod match_list instruction_list flows' (flow_instruction_examination r br)
            end
        end
      else modify_loop flow_mod match_list instruction_list flows' br
  end.

(** The strict [flow_modify_sub], for the first identical flow: the references and the
    flags of the actions go to the temporary flow [flow]. *)
Definition modify_strict (flow_mod : ofp_flow_mod) (flow : ref) (flows : list ref) (br : bridge)
    : option ofp_error * bridge :=
  match find (fun r => flow_compare (the_flow br flow) (the_flow br r)) flows with
  | Some r =>
      let '(_, br) := replace_instructions flow_mod (fl_instruction_list (the_flow br flow)) r br in
      let '(error, br) := flow_action_check flow br in
      match error with
      | Some _ => (error, br)
      | None => (None, flow_free flow (flow_instruction_examination flow br))
      end
  | None => (None, flow_free flow br)
  end.

(** [flow_modify_sub]; the result is that of [ret] at the end, which [table_flow_modify] drops. *)
Definition flow_modify_sub (flow_mod : ofp_flow_mod) (flows : list ref) (match_list : list match_)
    (instruction_list : list instruction) (strict : bool) (br : bridge) : option ofp_error * bridge :=
  match flow_alloc flow_mod match_list instruction_list (br_now br) with
  | inr e => (Some e, br)
  | inl f =>
      let f := set_fl_table_id (fm_table_id flow_mod) f in
      let '(f, error) := flow_pre_requisite_check f in
      let '(flow, br) := new_flow f br in
      match error with
      | Some _ => (error, flow_free flow br)
      | None =>
          let '(error, br) := remap_instructions flow br in
          match error with
          | Some _ => (error, flow_free flow br)
          | None =>
              let br := flow_instruction_examination flow br in
              if strict then modify_strict flow_mod flow flows br
              else
                let match_list := fl_match_list (the_flow br flow) in
                let instruction_list := fl_instruction_list (the_flow br flow) in
                modify_loop flow_mod match_list instruction_list flows (flow_free flow br)
          end
      end
  end.

Definition flowdb_flow_modify (flow_mod : ofp_flow_mod) (match_list : list match_)
    (instruction_list : list instruction) (br : bridge) : lagopus_result * option ofp_error * bridge :=
  match (flow_pre_requisite_check (set_fl_match_list match_list flow_zero)).2 with
  | Some e => (LAGOPUS_RESULT_OFP_ERROR, Some e, br)
  | None =>
      let strict := fm_command flow_mod =? OFPFC_MODIFY_STRICT in
      if fm_table_id flow_mod =? OFPTT_ALL then
        (LAGOPUS_RESULT_OFP_ERROR, Some (OFPET_FLOW_MOD_FAILED, OFPFMFC_BAD_TABLE_ID), br)
      else
        let '(t, br) := flowdb_get_table (fm_table_id flow_mod) br in
        let '(error, br) := flow_modify_sub flow_mod (tb_flows t) match_list instruction_list strict br in
        (LAGOPUS_RESULT_OK, error, br)
  end.

(** ** Deleting *)

Definition find_action_output (f : flow) (out_port : Z) : bool :=
  existsb (fun i => has_actions i &&
     existsb (fun a => match act_ofpat a with ofp_action_output port _ => port =? out_port | _ => false end)
       (ins_action_list i)) (instruction_array f).

Definition find_action_group (f : flow) (out_group : Z) : bool :=
  existsb (fun i => has_actions i &&
     existsb (fun a => match act_ofpat a with ofp_action_group gid => out_group =? gid | _ => false end)
       (ins_action_list i)) (instruction_array f).

(** The tests of the non-strict [flow_del_sub]. *)
Definition delete_matches (flow_mod : ofp_flow_mod) (match_list : list match_) (f : flow) : bool :=
  cookie_matches (fm_cookie flow_mod) (fm_cookie_mask flow_mod) f &&
  ((fm_out_port flow_mod =? OFPP_ANY) || find_action_output f (fm_out_port flow_mod)) &&
  ((fm_out_group flow_mod =? OFPG_ANY) || find_action_group f (fm_out_group flow_mod)) &&
  match_compare (fl_match_list f) match_list.

(** Take a flow out of the tree, the groups and the meters. *)
Definition unlink_flow (table_id : Z) (r : ref) (br : bridge) : bridge :=
  flow_del_from_meter r (flow_del_from_group r (del_flow_hook table_id r br)).

Definition notify_removed (owner r : ref) (reason : Z) (br : bridge) : bridge :=
  if Z.land (fl_flags (the_flow br owner)) OFPFF_SEND_FLOW_REM =? 0 then br
  else send_flow_removed r reason br.

(** The loop of the non-strict [flow_del_sub]; a deleted flow leaves NULL in its slot. *)
Fixpoint delete_loop (table_id : Z) (flow_mod : ofp_flow_mod) (match_list : list match_)
    (flows : list ref) (br : bridge) : list (option ref) * bridge :=
  match flows with
  | [] => ([], br)
  | r :: flows' =>
      if delete_matches flow_mod match_list (the_flow br r) then
        let br := flow_free r (notify_removed r r OFPRR_DELETE (unlink_flow table_id r br)) in
        let '(slots, br) := delete_loop table_id flow_mod match_list flows' br in
        (None :: slots, br)
      else
        let '(slots, br) := delete_loop table_id flow_mod match_list flows' br in
        (Some r :: slots, br)
  end.

(** "compaction": [i] goes over the slots; from the first NULL on the rest moves down. *)
Fixpoint compaction (fuel : nat) (i : nat) (slots : list (option ref)) : list (option ref) :=
  match fuel with
  | O => slots
  | S fuel' =>
      match slots !! i with
      | None => slots
      | Some (Some _) => compaction fuel' (S i) slots
      | Some None =>
          match list_find (fun e => e <> None) (drop i slots) with
          | None => take i slots
          | Some (d, _) => compaction fuel' (S i) (take i slots ++ drop (i + d) slots)
          end
      end
  end.

Definition flows_of_slots (slots : list (option ref)) : list ref := omap id slots.

(** [flow_del_sub]: what is left of the caller's match list, and the bridge.  The strict
    branch moves the list into the temporary flow. *)
Definition flow_del_sub (table_id : Z) (flow_mod : ofp_flow_mod) (match_list : list match_) (strict : bool)
    (br : bridge) : list match_ * bridge :=
  match br_tables br !! table_id with
  | None => (match_list, br)
  | Some t =>
      if strict then
        match flow_alloc flow_mod match_list [] (br_now br) with
        | inr _ => ([], br)
        | inl f =>
            let '(f, error) := flow_pre_requisite_check f in
            let '(flow, br) := new_flow f br in
            match error with
            | Some _ => ([], br)
            | None =>
                match list_find (fun r => flow_compare (the_flow br flow) (the_flow br r) = true) (tb_flows t) with
                | Some (i, r) =>
                    let br := notify_removed r flow OFPRR_DELETE (unlink_flow table_id r br) in
                    let br := flow_free r br in
                    let br := upd_table table_id (fun t => set_tb_flows (remove_at i (tb_flows t)) t) br in
                    ([], flow_free flow br)
                | None => ([], flow_free flow br)
                end
            end
        end
      else
        let '(slots, br) := delete_loop table_id flow_mod match_list (tb_flows t) br in
        let slots := compaction (length slots) 0 slots in
        (match_list, upd_table table_id (set_tb_flows (flows_of_slots slots)) br)
  end.

Definition FLOWDB_TABLE_SIZE_MAX : Z := 255.

(** The tables of the database in the order of the loops over them. *)
Definition table_ids (n : Z) (br : bridge) : list Z :=
  filter (fun i => is_Some (br_tables br !! i)) (seqZ 0 n).

Definition flowdb_flow_delete (flow_mod : ofp_flow_mod) (match_list : list match_) (br : bridge)
    : lagopus_result * option ofp_error * bridge :=
  match (flow_pre_requisite_check (set_fl_match_list match_list flow_zero)).2 with
  | Some e => (LAGOPUS_RESULT_OFP_ERROR, Some e, br)
  | None =>
      let strict := fm_command flow_mod =? OFPFC_DELETE_STRICT in
      if fm_table_id flow_mod =? OFPTT_ALL then
        let '(_, br) :=
          foldl (fun '(ml, br) table_id => flow_del_sub table_id flow_mod ml strict br)
            (match_list, br) (table_ids FLOWDB_TABLE_SIZE_MAX br) in
        (LAGOPUS_RESULT_OK, None, br)
      else
        let '(_, br) := flowdb_get_table (fm_table_id flow_mod) br in
        let '(_, br) := flow_del_sub (fm_table_id flow_mod) flow_mod match_list strict br in
        (LAGOPUS_RESULT_OK, None, br)
  end.

(** [flow_remove_with_reason_nolock] *)
Definition flow_remove_with_reason (r : ref) (reason : Z) (br : bridge) : bridge :=
  let table_id := fl_table_id (the_flow br r) in
  let '(t, br) := flowdb_get_table table_id br in
  match list_find (fun x => x = r) (tb_flows t) with
  | Some (i, _) =>
      let br := flow_free r (notify_removed r r reason (unlink_flow table_id r br)) in
      upd_table table_id (fun t => set_tb_flows (remove_at i (tb_flows t)) t) br
  | None => br
  end.

(** ** Deleting groups *)

(** [group_free]: every flow of the group's map is removed.  The iteration fetches the next
    entry before it calls back, so it goes over the map as it was. *)
Definition group_free (g : group) (br : bridge) : bridge :=
  foldl (fun br r => flow_remove_with_reason r OFPRR_GROUP_DELETE br) br (elements (gr_flows g)).

(** [group_table_delete]: the free procedure runs while the group is still in the table. *)
Definition ofp_group_mod_delete (group_id : Z) (br : bridge) : bridge :=
  if group_id =? OFPG_ALL then
    let br := foldl (fun br key => match m_hashtable (br_groups br) !! key with
                                   | Some g => group_free g br
                                   | None => br
                                   end) br ((map_to_list (m_hashtable (br_groups br))).*1) in
    set_br_groups (s_clear (br_groups br) true).1.2 br
  else
    match group_table_lookup (br_groups br) group_id with
    | Some g =>
        let br := group_free g br in
        let '(_, hm, _, _) := lagopus_hashmap_delete_no_lock (Some (br_groups br)) (OS_HTONL group_id) true in
        set_br_groups (or_same (br_groups br) hm) br
    | None => br
    end.

(** ** Timers *)

(** What [flow_timer_expire] decides about a flow. *)
Definition expire_reason (now : timespec) (f : flow) : option Z :=
  if negb (fl_idle_timeout f =? 0) && (fl_idle_timeout f <=? now.1 - (fl_update_time f).1)
  then Some OFPRR_IDLE_TIMEOUT
  else if negb (fl_hard_timeout f =? 0) && (fl_hard_timeout f <=? now.1 - (fl_create_time f).1)
  then Some OFPRR_HARD_TIMEOUT
  else None.

Definition expire_flow (r : ref) (br : bridge) : bridge :=
  match expire_reason (br_now br) (the_flow br r) with
  | Some reason => flow_remove_with_reason r reason (upd_flow r (set_fl_flow_timer None) br)
  | None => add_flow_timer r br
  end.

(** [flow_timer_expire]: the loop over the slots of the timer [id] from the slot [i] on. *)
Fixpoint expire_loop (fuel : nat) (id i : nat) (br : bridge) : bridge :=
  match fuel with
  | O => br
  | S fuel' =>
      match find (fun t => bool_decide (tm_id t = id)) (dt_list (br_timers br)) with
      | Some t =>
          if (i <? tm_nentries t)%nat then
            expire_loop fuel' id (S i)
              (match mjoin (tm_entry t !! i) with Some r => expire_flow r br | None => br end)
          else br
      | None => br
      end
  end.

Definition flow_timer_expire (id : nat) (br : bridge) : bridge :=
  expire_loop MAX_TIMEOUT_ENTRIES id 0 br.

Definition set_br_now (v : timespec) (br : bridge) : bridge :=
  Bridge (br_flows br) (br_fresh br) (br_tables br) (br_groups br) (br_meters br) (br_ports br)
    (br_timers br) (br_events br) v.

(** One round of [dp_timer_thread_loop] on a list of flow timers; [cur] is its variable. *)
Definition dp_timer_step (cur : option nat) (br : bridge) : option nat * bridge :=
  match next_event cur (br_timers br) with
  | TakeFirst => (first_timer (br_timers br), br)
  | Second id => (cur, set_br_timers (tick id (br_timers br)) (set_br_now ((br_now br).1 + 1, (br_now br).2) br))
  | Expire id =>
      let br := flow_timer_expire id br in
      let timers := remove_timer id (br_timers br) in
      (first_timer timers, set_br_timers timers br)
  end.

(** ** Statistics *)

Record ofp_flow_stats_request := OfpFlowStatsRequest {
  fr_table_id : Z;
  fr_cookie : Z;
  fr_cookie_mask : Z
}.

(** [struct flow_stats] *)
Record flow_stats := FlowStats {
  fs_table_id : Z;
  fs_duration : Z * Z;
  fs_priority : Z;
  fs_idle_timeout : Z;
  fs_hard_timeout : Z;
  fs_flags : Z;
  fs_cookie : Z;
  fs_packet_count : Z;
  fs_byte_count : Z;
  fs_match_list : list match_;
  fs_instruction_list : list instruction
}.

Definition stats_matches (request : ofp_flow_stats_request) (match_list : list match_) (f : flow) : bool :=
  cookie_matches (fr_cookie request) (fr_cookie_mask request) f &&
  match_compare (fl_match_list f) match_list.

Definition flow_stats_of (now : timespec) (table_id : Z) (f : flow) : flow_stats :=
  FlowStats (u8 table_id) (duration now (fl_create_time f)) (u16 (fl_priority f))
    (fl_idle_timeout f) (fl_hard_timeout f) (fl_flags f) (fl_cookie f)
    (removed_count (fl_flags f) OFPFF_NO_PKT_COUNTS (fl_packet_count f))
    (removed_count (fl_flags f) OFPFF_NO_BYT_COUNTS (fl_byte_count f))
    (fl_match_list f) (copy_instruction_list (fl_instruction_list f)).

Definition table_flow_stats (br : bridge) (t : table) (table_id : Z) (request : ofp_flow_stats_request)
    (match_list : list match_) : list flow_stats :=
  map (fun r => flow_stats_of (br_now br) table_id (the_flow br r))
    (filter (fun r => stats_matches request match_list (the_flow br r) = true) (tb_flows t)).

Definition flowdb_flow_stats (request : ofp_flow_stats_request) (match_list : list match_) (br : bridge)
    : list flow_stats * bridge :=
  if fr_table_id request =? OFPTT_ALL then
    (flat_map (fun i => match br_tables br !! i with
                        | Some t => table_flow_stats br t i request match_list
                        | None => []
                        end) (table_ids FLOWDB_TABLE_SIZE_MAX br), br)
  else
    let '(t, br) := flowdb_get_table (fr_table_id request) br in
    (table_flow_stats br t (fr_table_id request) request match_list, br).

(** [struct ofp_aggregate_stats_reply]: packets, bytes and flows. *)
Record ofp_aggregate_stats_reply := AggregateReply { ag_packet_count : Z; ag_byte_count : Z; ag_flow_count : Z }.

Definition count_flow (reply : ofp_aggregate_stats_reply) (f : flow) : ofp_aggregate_stats_reply :=
  AggregateReply
    (if Z.land (fl_flags f) OFPFF_NO_PKT_COUNTS =? 0 then u64 (ag_packet_count reply + fl_packet_count f)
     else ag_packet_count reply)
    (if Z.land (fl_flags f) OFPFF_NO_BYT_COUNTS =? 0 then u64 (ag_byte_count reply + fl_byte_count f)
     else ag_byte_count reply)
    (u32 (ag_flow_count reply + 1)).

Definition table_flow_counts (br : bridge) (request : ofp_flow_stats_request) (match_list : list match_)
    (reply : ofp_aggregate_stats_reply) (t : table) : ofp_aggregate_stats_reply :=
  foldl (fun reply r => if stats_matches request match_list (the_flow br r)
                        then count_flow reply (the_flow br r) else reply) reply (tb_flows t).

Definition flowdb_aggregate_stats (request : ofp_flow_stats_request) (match_list : list match_) (br : bridge)
    : ofp_aggregate_stats_reply * bridge :=
  let reply := AggregateReply 0 0 0 in
  if fr_table_id request =? OFPTT_ALL then
    (foldl (fun reply i => match br_tables br !! i with
                           | Some t => table_flow_counts br request match_list reply t
                           | None => reply
                           end) reply (table_ids FLOWDB_TABLE_SIZE_MAX br), br)
  else
    let '(t, br) := flowdb_get_table (fr_table_id request) br in
    (table_flow_counts br request match_list reply t, br).

Record table_stats := TableStats {
  ts_table_id : Z;
  ts_active_count : Z;
  ts_lookup_count : Z;
  ts_matched_count : Z
}.

Definition flowdb_table_stats (br : bridge) : list table_stats :=
  omap (fun i => (fun t => TableStats (u8 i) (u32 (Z.of_nat (length (tb_flows t)))) (tb_lookup_count t)
                             (tb_matched_count t)) <$> br_tables br !! i) (seqZ 0 256).
