(* ===== verification/FlowDBInv.v ===== *)
(** * The invariant of the flow database

    What the commands of [FlowDB] keep true of a bridge: each table's list is sorted by
    descending priority and free of duplicates and of identical flows, its lookup tree
    holds exactly the flows of the list, and each of them is allocated, belongs to the
    table and carries the compiled form of its match.  The lemmas here state which parts
    of a bridge each step leaves alone; the theorems about the commands are in
    [FlowDBSpec]. *)
From S2P Require Import Prelude OpenFlow Hashmap Endian Shared Packet ActionSet Meter Group DpTimer FlowEntry.
From S2P Require Import ByteMatch FlowinfoIntf FlowinfoTree Bridge FlowDB.

(** ** The invariant *)

Definition zero_byteoff : list byteoff_match := replicate MAX_BASE byteoff_zero.

(** A flow of the table [tid]. *)
Record entry_ok (h : flow_heap) (tid : Z) (r : ref) : Prop := {
  eo_alloc : is_Some (h !! r);
  eo_table : fl_table_id (h !!! r) = tid;
  eo_match : match_list_ok (ml h r);
  eo_prio : 0 <= prio h r;
  eo_bytes : fl_byteoff_match (h !!! r) = compile (ml h r) zero_byteoff
}.

Record table_inv (h : flow_heap) (tid : Z) (t : table) : Prop := {
  tv_id : tb_table_id t = tid;
  tv_sorted : descending (prio h) (tb_flows t);
  tv_nodup : NoDup (tb_flows t);
  tv_entry : forall r, r ∈ tb_flows t -> entry_ok h tid r;
  tv_wf : root_wf h tid (tb_userdata t);
  tv_tree : root_flows (tb_userdata t) ≡ₚ tb_flows t;
  tv_distinct : forall r s, r ∈ tb_flows t -> s ∈ tb_flows t ->
    flow_compare (h !!! r) (h !!! s) = true -> r = s
}.

Record bridge_inv (br : bridge) : Prop := {
  bi_table : forall tid t, br_tables br !! tid = Some t -> table_inv (br_flows br) tid t;
  bi_fresh : forall r, is_Some (br_flows br !! r) -> (r < br_fresh br)%nat
}.

(** The flows that some table lists. *)
Definition installed (br : bridge) (r : ref) : Prop :=
  exists tid t, br_tables br !! tid = Some t /\ r ∈ tb_flows t.

(** ** Heaps that agree on a flow *)

Definition same_entry (f g : flow) : Prop :=
  same_key f g /\ fl_byteoff_match f = fl_byteoff_match g /\ fl_table_id f = fl_table_id g.

#[global] Instance same_entry_equiv : Equivalence same_entry.
Proof.
  split; unfold same_entry.
  - done.
  - intros f g (H1 & H2 & H3). split_and!; [by symmetry|done|done].
  - intros f g k (H1 & H2 & H3) (H4 & H5 & H6). split_and!; [by etrans|congruence|congruence].
Qed.

Definition kept (h h' : flow_heap) (r : ref) : Prop :=
  exists f g, h !! r = Some f /\ h' !! r = Some g /\ same_entry f g.

Lemma kept_eq h h' r : is_Some (h !! r) -> h' !! r = h !! r -> kept h h' r.
Proof. intros [f Hf] E. exists f, f. by rewrite E, Hf. Qed.

Lemma kept_trans h1 h2 h3 r : kept h1 h2 r -> kept h2 h3 r -> kept h1 h3 r.
Proof.
  intros (f & g & E1 & E2 & H1) (f' & k & E3 & E4 & H2). simplify_eq.
  exists f, k. split_and!; [done|done|by etrans].
Qed.

Lemma kept_total h h' r : kept h h' r -> same_entry (h !!! r) (h' !!! r).
Proof.
  intros (f & g & E1 & E2 & H). by rewrite !lookup_total_alt, E1, E2.
Qed.

Lemma kept_key h h' r : kept h h' r -> same_key (h !!! r) (h' !!! r).
Proof. intros H. apply (kept_total _ _ _ H). Qed.

Lemma entry_ok_kept h h' tid r : kept h h' r -> entry_ok h tid r -> entry_ok h' tid r.
Proof.
  intros Hk [H1 H2 H3 H4 H5]. destruct (kept_total _ _ _ Hk) as (Ek & Eb & Et).
  pose proof (same_key_ml _ _ Ek) as Em. split.
  - destruct Hk as (f & g & _ & E & _). by exists g.
  - congruence.
  - unfold ml. by rewrite <- Em.
  - unfold prio. by rewrite <- (proj1 Ek).
  - rewrite <- Eb, H5. unfold ml. by apply compile_ml_eq.
Qed.

Lemma table_inv_kept h h' tid t :
  (forall r, r ∈ tb_flows t -> kept h h' r) -> table_inv h tid t -> table_inv h' tid t.
Proof.
  intros Hk [H1 H2 H3 H4 H5 H6 H7]. split; try done.
  - eapply descending_ext; [|exact H2]. intros r Hr. apply (kept_key _ _ _ (Hk r Hr)).
  - intros r Hr. eapply entry_ok_kept; [by apply Hk|by apply H4].
  - eapply root_wf_ext; [|exact H5]. intros r Hr. apply kept_key, Hk. by rewrite <- H6.
  - intros r s Hr Hs E. apply H7; [done|done|].
    rewrite (flow_compare_proper (h !!! r) (h' !!! r) (kept_key _ _ _ (Hk r Hr))
              (h !!! s) (h' !!! s) (kept_key _ _ _ (Hk s Hs))). exact E.
Qed.

(** ** Steps that leave the tables alone *)

(** From [br] to [br'] the tables are the same and every flow outside [rs] keeps what the
    tables know of it. *)
Record frame (rs : list ref) (br br' : bridge) : Prop := {
  fr_tables : br_tables br' = br_tables br;
  fr_fresh : (br_fresh br <= br_fresh br')%nat;
  fr_bound : (forall r, is_Some (br_flows br !! r) -> (r < br_fresh br)%nat) ->
             forall r, is_Some (br_flows br' !! r) -> (r < br_fresh br')%nat;
  fr_kept : forall r, is_Some (br_flows br !! r) -> ~ (r ∈ rs) -> kept (br_flows br) (br_flows br') r
}.

Lemma frame_refl rs br : frame rs br br.
Proof. split; [done|done|done|]. intros r Hr _. by apply kept_eq. Qed.

Lemma frame_trans rs br1 br2 br3 : frame rs br1 br2 -> frame rs br2 br3 -> frame rs br1 br3.
Proof.
  intros [H1 H2 H3 H4] [H5 H6 H7 H8]. split; [congruence|lia|auto|].
  intros r Hr Hn. pose proof (H4 r Hr Hn) as Hk. eapply kept_trans; [exact Hk|].
  apply H8; [|done]. destruct Hk as (f & g & _ & E & _). by exists g.
Qed.

Lemma frame_inv rs br br' :
  frame rs br br' -> (forall r, r ∈ rs -> ~ installed br r) -> bridge_inv br -> bridge_inv br'.
Proof.
  intros [H1 H2 H3 H4] Hrs [B1 B2]. split; [|auto]. intros tid t Ht. rewrite H1 in Ht.
  pose proof (B1 tid t Ht) as Hi. eapply table_inv_kept; [|exact Hi]. intros r Hr.
  apply H4; [by apply (tv_entry _ _ _ Hi)|]. intros Hin. apply (Hrs r Hin). by exists tid, t.
Qed.

Lemma frame_core rs br br' :
  br_tables br' = br_tables br -> br_fresh br' = br_fresh br -> br_flows br' = br_flows br -> frame rs br br'.
Proof.
  intros H1 H2 H3. split; [done|lia|by rewrite H2, H3|]. intros r Hr _. rewrite H3. by apply kept_eq.
Qed.

Lemma frame_upd rs r g br :
  (r ∈ rs \/ forall f, br_flows br !! r = Some f -> same_entry f (g f)) -> frame rs br (upd_flow r g br).
Proof.
  intros Hg. split; cbn; [done|lia| |].
  - intros Hb x Hx. apply Hb. destruct (decide (x = r)) as [->|Hne].
    + rewrite lookup_alter_eq in Hx. by apply fmap_is_Some in Hx.
    + by rewrite lookup_alter_ne in Hx.
  - intros x [f Hf] Hn. destruct (decide (x = r)) as [->|Hne].
    + destruct Hg as [Hg|Hg]; [done|]. exists f, (g f). rewrite lookup_alter_eq, Hf. split_and!; auto.
    + apply kept_eq; [by exists f|]. by rewrite lookup_alter_ne.
Qed.

Lemma frame_free rs r br : r ∈ rs -> frame rs br (flow_free r br).
Proof.
  intros Hr. unfold flow_free. set (br0 := match fl_flow_timer _ with Some _ => _ | None => _ end).
  assert (br_flows br0 = br_flows br /\ br_tables br0 = br_tables br /\ br_fresh br0 = br_fresh br)
    as (E1 & E2 & E3) by (subst br0; by destruct (fl_flow_timer _)).
  split; cbn; [done|lia| |].
  - rewrite E1, E3. intros Hb x Hx. apply Hb. apply lookup_delete_is_Some in Hx as [_ ?]. done.
  - rewrite E1. intros x Hx Hn. apply kept_eq; [done|]. rewrite lookup_delete_ne; [done|].
    intros ->. done.
Qed.

Lemma frame_new rs f br :
  let '(r, br') := new_flow f br in r ∈ rs -> frame rs br br'.
Proof.
  unfold new_flow. intros Hr. split; cbn; [done|lia| |].
  - intros Hb x Hx. destruct (decide (x = br_fresh br)) as [->|Hne]; [lia|].
    rewrite lookup_insert_ne in Hx by done. specialize (Hb x Hx). lia.
  - intros x Hx Hn. apply kept_eq; [done|]. rewrite lookup_insert_ne; [done|]. intros <-. done.
Qed.

Lemma frame_check_actions rs r l br : frame rs br (check_actions r l br).2.
Proof.
  revert br. induction l as [|a l IH]; intros br; cbn [check_actions]; [apply frame_refl|].
  destruct (act_ofpat a); try apply IH.
  - destruct (_ || _); [apply IH|apply frame_refl].
  - destruct (group_table_lookup _ _); [|apply frame_refl].
    eapply frame_trans; [|apply IH]. by apply frame_core.
Qed.

Lemma frame_check_instructions rs r l br : frame rs br (check_instructions r l br).2.
Proof.
  revert br. induction l as [|i l IH]; intros br; cbn [check_instructions]; [apply frame_refl|].
  assert (frame rs br (check_instruction r i br).2) as Hi.
  { unfold check_instruction. case_tests; cbn; try apply frame_refl; try by apply frame_core.
    apply frame_check_actions. }
  destruct (check_instruction r i br) as [[e|] br']; [done|]. eapply frame_trans; [exact Hi|apply IH].
Qed.

Lemma frame_action_check rs r br : frame rs br (flow_action_check r br).2.
Proof. apply frame_check_instructions. Qed.

Lemma frame_del_meter rs r br : frame rs br (flow_del_from_meter r br).
Proof. unfold flow_del_from_meter. destruct (flow_instruction _ _); [by apply frame_core|apply frame_refl]. Qed.

Lemma frame_del_group rs r br : frame rs br (flow_del_from_group r br).
Proof.
  unfold flow_del_from_group. generalize (instruction_array (the_flow br r)). intros l. revert br.
  induction l as [|i l IH]; intros br; cbn [foldl]; [apply frame_refl|].
  eapply frame_trans; [|apply IH]. unfold del_group_ref.
  destruct (has_actions i); [|apply frame_refl].
  destruct (omap group_action (ins_action_list i)); [apply frame_refl|by apply frame_core].
Qed.

Lemma frame_examination rs r br : frame rs br (flow_instruction_examination r br).
Proof.
  unfold flow_instruction_examination. destruct (foldl _ _ _) as [[l o] groups].
  apply (frame_trans _ _ (upd_flow r (set_fl_instruction_list l) br)); [|by apply frame_core].
  apply frame_upd. right. by intros f _.
Qed.

Lemma frame_remap rs r br : frame rs br (remap_instructions r br).2.
Proof.
  unfold remap_instructions. destruct (map_instruction_list_to_array _) as [arr e]. cbn [snd].
  apply frame_upd. right. by intros f _.
Qed.

Lemma frame_reset rs r flags br : frame rs br (upd_flow r (reset_counts flags) br).
Proof. apply frame_upd. right. intros f _. unfold reset_counts. by destruct (_ =? _). Qed.

Lemma frame_timer rs r br : frame rs br (add_flow_timer r br).
Proof.
  unfold add_flow_timer. destruct (add_dp_timer _ _ _ _) as [slot ts].
  eapply frame_trans; [by apply (frame_core _ br (set_br_timers ts br))|].
  apply frame_upd. right. by intros f _.
Qed.

Lemma frame_notify rs owner r reason br : r ∈ rs -> frame rs br (notify_removed owner r reason br).
Proof.
  intros Hr. unfold notify_removed. destruct (_ =? _); [apply frame_refl|].
  unfold send_flow_removed. eapply frame_trans; [by apply (frame_upd rs r (set_fl_match_list [])); left|].
  by apply frame_core.
Qed.

Lemma frame_replace rs flow_mod l r br : frame rs br (replace_instructions flow_mod l r br).2.
Proof.
  unfold replace_instructions. eapply frame_trans; [apply (frame_del_meter rs r)|].
  eapply frame_trans; [apply (frame_del_group rs r)|].
  eapply frame_trans; [apply (frame_reset rs r (fm_flags flow_mod))|].
  eapply frame_trans; [|apply frame_remap]. apply frame_upd. right. by intros f _.
Qed.

(** ** Steps that change groups and meters only *)

Definition refs_only (br br' : bridge) : Prop :=
  exists groups meters, br' = set_br_meters meters (set_br_groups groups br).

#[global] Instance refs_only_preorder : PreOrder refs_only.
Proof.
  split.
  - intros br. exists (br_groups br), (br_meters br). by destruct br.
  - intros br1 br2 br3 (g & m & ->) (g' & m' & ->). by exists g', m'.
Qed.

Lemma refs_only_groups g br : refs_only br (set_br_groups g br).
Proof. exists g, (br_meters br). by destruct br. Qed.
Lemma refs_only_meters m br : refs_only br (set_br_meters m br).
Proof. exists (br_groups br), m. by destruct br. Qed.

Lemma refs_only_fields br br' :
  refs_only br br' -> br_flows br' = br_flows br /\ br_tables br' = br_tables br /\
  br_fresh br' = br_fresh br /\ br_timers br' = br_timers br /\ br_events br' = br_events br /\
  br_now br' = br_now br /\ br_ports br' = br_ports br.
Proof. by intros (g & m & ->). Qed.

Lemma refs_check_actions r l br : refs_only br (check_actions r l br).2.
Proof.
  revert br. induction l as [|a l IH]; intros br; cbn [check_actions]; [done|].
  destruct (act_ofpat a); try apply IH.
  - destruct (_ || _); [apply IH|done].
  - destruct (group_table_lookup _ _); [|done]. etrans; [apply refs_only_groups|apply IH].
Qed.

Lemma refs_action_check r br : refs_only br (flow_action_check r br).2.
Proof.
  unfold flow_action_check. generalize (instruction_array (the_flow br r)). intros l. revert br.
  induction l as [|i l IH]; intros br; cbn [check_instructions]; [done|].
  assert (refs_only br (check_instruction r i br).2) as Hi.
  { unfold check_instruction. case_tests; cbn; try done; try apply refs_only_meters.
    apply refs_check_actions. }
  destruct (check_instruction r i br) as [[e|] br']; [done|]. etrans; [exact Hi|apply IH].
Qed.

Lemma refs_del_meter r br : refs_only br (flow_del_from_meter r br).
Proof. unfold flow_del_from_meter. destruct (flow_instruction _ _); [apply refs_only_meters|done]. Qed.

Lemma refs_del_group r br : refs_only br (flow_del_from_group r br).
Proof.
  unfold flow_del_from_group. generalize (instruction_array (the_flow br r)). intros l. revert br.
  induction l as [|i l IH]; intros br; cbn [foldl]; [done|]. etrans; [|apply IH].
  unfold del_group_ref. destruct (has_actions i); [|done].
  destruct (omap group_action (ins_action_list i)); [done|apply refs_only_groups].
Qed.

(** ** Linking a flow into a table *)

(** A flow as [flow_alloc] made it, not yet in a table. *)
Record new_entry (h : flow_heap) (tid : Z) (r : ref) : Prop := {
  ne_alloc : is_Some (h !! r);
  ne_table : fl_table_id (h !!! r) = tid;
  ne_match : match_list_ok (ml h r);
  ne_prio : 0 <= prio h r;
  ne_bytes : fl_byteoff_match (h !!! r) = zero_byteoff
}.

Lemma added_entry_ok h tid r f' :
  new_entry h tid r -> added (h !!! r) f' -> entry_ok (<[r := f']> h) tid r.
Proof.
  intros [H1 H2 H3 H4 H5] (ms & Hms & ->). unfold ml, prio in *.
  split; unfold ml, prio; rewrite ?lookup_total_insert_eq.
  - rewrite lookup_insert_eq. by eexists.
  - exact H2.
  - cbn [fl_match_list set_fl_byteoff_match set_fl_match_list]. by rewrite Hms.
  - exact H4.
  - cbn [fl_byteoff_match fl_match_list set_fl_byteoff_match set_fl_match_list]. rewrite H5.
    by apply compile_ml_eq.
Qed.

Lemma table_inv_link h tid t r u f' :
  table_inv h tid t -> new_entry h tid r -> ~ (r ∈ tb_flows t) ->
  (forall s, s ∈ tb_flows t -> flow_compare (h !!! r) (h !!! s) = false) ->
  added (h !!! r) f' -> root_wf (<[r := f']> h) tid u -> root_flows u ≡ₚ r :: root_flows (tb_userdata t) ->
  table_inv (<[r := f']> h) tid
    (set_tb_userdata u (set_tb_flows (flow_add_sub h r (tb_flows t)) t)).
Proof.
  intros [H1 H2 H3 H4 H5 H6 H7] Hne Hnin Hcmp Ha Hwf Hu.
  pose proof (fun x => added_heap_key h r f' x Ha) as Hk.
  assert (flow_add_sub h r (tb_flows t) ≡ₚ r :: tb_flows t) as Hp by apply insert_at_perm.
  split; cbn [tb_table_id tb_flows tb_userdata set_tb_userdata set_tb_flows].
  - done.
  - eapply descending_ext; [|exact (proj1 (descending_insert (prio h) r (tb_flows t) H2))].
    intros x _. apply (Hk x).
  - rewrite Hp. by constructor.
  - intros x Hx. rewrite Hp in Hx. apply elem_of_cons in Hx as [->|Hx]; [by apply added_entry_ok|].
    assert (x <> r) as Hxr by (intros ->; done).
    eapply entry_ok_kept; [|by apply H4]. apply kept_eq; [by apply H4|]. by rewrite lookup_insert_ne.
  - done.
  - by rewrite Hu, H6, Hp.
  - intros x y Hx Hy. rewrite Hp in Hx, Hy.
    rewrite <- (flow_compare_proper _ _ (Hk x) _ _ (Hk y)).
    apply elem_of_cons in Hx as [->|Hx], Hy as [->|Hy]; [done| | |by apply H7].
    + rewrite Hcmp by done. done.
    + rewrite flow_compare_comm, Hcmp by done. done.
Qed.

(** [flow_add_sub] and the hook together. *)
Definition link_flow (tid : Z) (r : ref) (br : bridge) : bridge :=
  add_flow_hook tid r (upd_table tid (fun t => set_tb_flows (flow_add_sub (br_flows br) r (tb_flows t)) t) br).

Lemma link_flow_law br tid t r :
  bridge_inv br -> br_tables br !! tid = Some t -> new_entry (br_flows br) tid r -> ~ installed br r ->
  (forall s, s ∈ tb_flows t -> flow_compare (the_flow br r) (the_flow br s) = false) ->
  exists f' t', added (the_flow br r) f' /\
    link_flow tid r br = set_br_tables (<[tid := t']> (br_tables br)) (set_br_flows (<[r := f']> (br_flows br)) br) /\
    tb_flows t' = flow_add_sub (br_flows br) r (tb_flows t) /\ bridge_inv (link_flow tid r br).
Proof.
  intros [B1 B2] Ht Hne Hnin Hcmp. pose proof (B1 tid t Ht) as Hi.
  assert (~ (r ∈ tb_flows t)) as Hnt by (intros Hr; apply Hnin; by exists tid, t).
  unfold link_flow, add_flow_hook, upd_table. cbn [br_tables set_br_tables br_flows]. rewrite lookup_alter_eq, Ht.
  cbn [fmap option_fmap option_map tb_table_id tb_userdata set_tb_flows]. rewrite (tv_id _ _ _ Hi).
  destruct (add_flow_law (br_flows br) tid (tb_userdata t) r (tv_wf _ _ _ Hi) (ne_match _ _ _ Hne))
    as (u & f' & -> & Ha & Hwf & Hp).
  pose proof (table_inv_link _ tid t r u f' Hi Hne Hnt Hcmp Ha Hwf Hp) as Hi'.
  exists f', (set_tb_userdata u (set_tb_flows (flow_add_sub (br_flows br) r (tb_flows t)) t)).
  assert (forall s : table, alter (set_tb_userdata u) tid
     (alter (fun t => set_tb_flows (flow_add_sub (br_flows br) r (tb_flows t)) t) tid (br_tables br)) =
     <[tid := set_tb_userdata u (set_tb_flows (flow_add_sub (br_flows br) r (tb_flows t)) t)]> (br_tables br)) as E.
  { intros _. apply map_eq. intros i. destruct (decide (i = tid)) as [->|Hi0].
    - by rewrite !lookup_alter_eq, Ht, lookup_insert_eq.
    - by rewrite !lookup_alter_ne, lookup_insert_ne. }
  split; [done|]. cbn [br_tables set_br_flows set_br_tables]. rewrite (E t).
  split; [by destruct br|]. split; [done|].
  split; cbn [br_tables br_flows br_fresh set_br_tables set_br_flows].
  - intros tid' t' Ht'. destruct (decide (tid' = tid)) as [->|Hne'].
    + rewrite lookup_insert_eq in Ht'. injection Ht' as <-. exact Hi'.
    + rewrite lookup_insert_ne in Ht' by done. eapply table_inv_kept; [|by apply B1].
      intros x Hx. assert (x <> r) as Hxr by (intros ->; apply Hnin; by exists tid', t').
      apply kept_eq; [by apply (tv_entry _ _ _ (B1 _ _ Ht'))|]. by rewrite lookup_insert_ne.
  - intros x Hx. apply B2. destruct (decide (x = r)) as [->|]; [by apply (ne_alloc _ _ _ Hne)|].
    by rewrite lookup_insert_ne in Hx.
Qed.

(** ** Taking a flow out of a table *)

Lemma descending_sublist {A} (key : A -> Z) l l' : sublist l' l -> descending key l -> descending key l'.
Proof.
  unfold descending. induction 1 as [|x l1 l2 Hs IH|x l1 l2 Hs IH]; intros Hd; [constructor| |].
  - inversion Hd as [|?? Hd' Hall]; subst. constructor; [by apply IH|].
    rewrite Forall_forall in Hall |- *. intros y Hy. apply Hall.
    eapply elem_of_submseteq; [exact Hy|]. by apply sublist_submseteq.
  - inversion Hd; subst. by apply IH.
Qed.

Lemma table_inv_unlink h h' tid t r l :
  table_inv h tid t -> sublist l (tb_flows t) -> tb_flows t ≡ₚ r :: l ->
  (forall x, x ∈ l -> kept h h' x) ->
  table_inv h' tid (set_tb_userdata (del_flow h (tb_userdata t) r) (set_tb_flows l t)).
Proof.
  intros [H1 H2 H3 H4 H5 H6 H7] Hs Hp Hk.
  destruct (del_flow_law h tid (tb_userdata t) r H5) as [Hwf Hdel].
  { rewrite H6, Hp. by left. }
  assert (root_flows (del_flow h (tb_userdata t) r) ≡ₚ l) as Htree.
  { rewrite H6, Hp in Hdel. apply Permutation_cons_inv in Hdel. by symmetry. }
  assert (forall x, x ∈ l -> x ∈ tb_flows t) as Hin by (intros x Hx; rewrite Hp; by right).
  apply (table_inv_kept h); [done|]. split; cbn [tb_table_id tb_flows tb_userdata set_tb_userdata set_tb_flows].
  - done.
  - by eapply descending_sublist.
  - rewrite Hp in H3. by apply NoDup_cons in H3 as [_ ?].
  - intros x Hx. apply H4. by apply Hin.
  - done.
  - done.
  - intros x y Hx Hy. apply H7; by apply Hin.
Qed.

(** The steps every removal takes, in order; [msg] is the flow the message is made of. *)
Definition remove_flow (tid : Z) (r msg : ref) (reason : Z) (br : bridge) : bridge :=
  flow_free r (notify_removed r msg reason (unlink_flow tid r br)).

Definition with_flows (tid : Z) (l : list ref) (br : bridge) : bridge := upd_table tid (set_tb_flows l) br.

Lemma remove_flow_fields tid t r msg reason br :
  br_tables br !! tid = Some t ->
  let br' := remove_flow tid r msg reason br in
  br_tables br' = <[tid := set_tb_userdata (del_flow (br_flows br) (tb_userdata t) r) t]> (br_tables br) /\
  br_fresh br' = br_fresh br /\ br_now br' = br_now br /\
  (forall x, x <> r -> x <> msg -> br_flows br' !! x = br_flows br !! x) /\
  br_flows br' !! r = None /\
  (forall x, is_Some (br_flows br' !! x) -> is_Some (br_flows br !! x)).
Proof.
  intros Ht. cbv zeta. unfold remove_flow, unlink_flow, del_flow_hook. rewrite Ht.
  set (br1 := upd_table tid _ br).
  destruct (refs_only_fields _ _ (refs_del_group r br1)) as (F1 & T1 & N1 & _ & _ & W1 & _).
  destruct (refs_only_fields _ _ (refs_del_meter r (flow_del_from_group r br1))) as (F2 & T2 & N2 & _ & _ & W2 & _).
  set (br2 := flow_del_from_meter r (flow_del_from_group r br1)) in *.
  set (br3 := notify_removed r msg reason br2).
  assert (br_tables br3 = br_tables br2 /\ br_fresh br3 = br_fresh br2 /\ br_now br3 = br_now br2 /\
    (forall x, x <> msg -> br_flows br3 !! x = br_flows br2 !! x) /\
    (forall x, is_Some (br_flows br3 !! x) -> is_Some (br_flows br2 !! x))) as (T3 & N3 & W3 & F3 & I3).
  { subst br3. unfold notify_removed. destruct (_ =? _); [done|]. cbn. split_and!; try done.
    - intros x Hx. by rewrite lookup_alter_ne.
    - intros x Hx. destruct (decide (x = msg)) as [->|]; [|by rewrite lookup_alter_ne in Hx].
      rewrite lookup_alter_eq in Hx. by apply fmap_is_Some in Hx. }
  set (br4 := match fl_flow_timer (the_flow br3 r) with
              | Some slot => set_br_timers (clear_slot slot (br_timers br3)) br3 | None => br3 end).
  assert (flow_free r br3 = set_br_flows (delete r (br_flows br4)) br4) as -> by done.
  assert (br_tables br4 = br_tables br3 /\ br_fresh br4 = br_fresh br3 /\ br_now br4 = br_now br3 /\
    br_flows br4 = br_flows br3) as (T4 & N4 & W4 & F4)
    by (subst br4; by destruct (fl_flow_timer _)).
  cbn [br_tables br_fresh br_now br_flows set_br_flows]. rewrite T4, T3, T2, T1, N4, N3, N2, N1, W4, W3, W2, W1, F4.
  split_and!; [|done|done| | |].
  - unfold br1, upd_table. cbn [br_tables set_br_tables]. apply map_eq. intros i.
    destruct (decide (i = tid)) as [->|]; [by rewrite lookup_alter_eq, Ht, lookup_insert_eq|].
    by rewrite lookup_alter_ne, lookup_insert_ne.
  - intros x Hr Hm. rewrite lookup_delete_ne, F3, F2, F1; done.
  - apply lookup_delete_eq.
  - intros x [_ Hx]%lookup_delete_is_Some. apply I3 in Hx. by rewrite F2, F1 in Hx.
Qed.

(** One removal: the invariant, with the list of the table as it will be. *)
Lemma remove_flow_law tid t r msg reason l l' br :
  br_tables br !! tid = Some t -> bridge_inv (with_flows tid l br) ->
  sublist l' l -> l ≡ₚ r :: l' -> (msg = r \/ ~ installed (with_flows tid l br) msg) ->
  bridge_inv (with_flows tid l' (remove_flow tid r msg reason br)).
Proof.
  intros Ht [B1 B2] Hs Hp Hmsg.
  destruct (remove_flow_fields tid t r msg reason br Ht) as (T & N & W & F & Fr & I0).
  set (br' := remove_flow tid r msg reason br) in *.
  assert (br_tables (with_flows tid l br) !! tid = Some (set_tb_flows l t)) as Htl
    by (cbn; by rewrite lookup_alter_eq, Ht).
  pose proof (B1 tid _ Htl) as Hi.
  assert (forall tid' s x, br_tables (with_flows tid l br) !! tid' = Some s -> x ∈ tb_flows s -> x <> r ->
            kept (br_flows br) (br_flows br') x) as Hkept.
  { intros tid' s x Hs' Hx Hxr. pose proof (tv_entry _ _ _ (B1 tid' s Hs') x Hx) as He.
    apply kept_eq; [apply (eo_alloc _ _ _ He)|]. apply F; [done|]. intros ->.
    destruct Hmsg as [->|Hmsg]; [done|]. apply Hmsg. by exists tid', s. }
  split; cbn [with_flows upd_table br_tables br_flows br_fresh set_br_tables].
  - intros tid' t' Ht'. rewrite T in Ht'. destruct (decide (tid' = tid)) as [->|Hne].
    + rewrite lookup_alter_eq, lookup_insert_eq in Ht'. injection Ht' as <-.
      refine (table_inv_unlink _ _ tid (set_tb_flows l t) r l' Hi Hs Hp _).
      intros x Hx. eapply Hkept; [exact Htl| |]; cbn [tb_flows set_tb_flows].
      * rewrite Hp. by right.
      * intros ->. pose proof (tv_nodup _ _ _ Hi) as Hnd. cbn in Hnd. rewrite Hp in Hnd.
        by apply NoDup_cons in Hnd as [? _].
    + rewrite lookup_alter_ne, lookup_insert_ne in Ht' by done.
      assert (br_tables (with_flows tid l br) !! tid' = Some t') as Ht'' by (cbn; by rewrite lookup_alter_ne).
      pose proof (B1 tid' t' Ht'') as Hi'. eapply table_inv_kept; [|exact Hi']. intros x Hx.
      eapply Hkept; [exact Ht''|done|]. intros ->.
      pose proof (eo_table _ _ _ (tv_entry _ _ _ Hi' r Hx)) as E1.
      assert (r ∈ tb_flows (set_tb_flows l t)) as Hr by (cbn; rewrite Hp; by left).
      pose proof (eo_table _ _ _ (tv_entry _ _ _ Hi r Hr)) as E2. congruence.
  - intros x Hx. rewrite N. apply (B2 x). cbn. by apply I0.
Qed.
