(* ===== verification/FlowDBSpec.v ===== *)
(** * The commands of the flow database

    The theorems about [FlowDB]: every command keeps the invariant of [FlowDBInv], a FLOW_MOD
    has the effect the protocol asks for on the flows it concerns and none on others, and
    a lookup in a table of the bridge is a lookup in its list of flows. *)
From Stdlib Require Import FunctionalExtensionality.
From S2P Require Import Prelude OpenFlow Hashmap Endian Shared Packet ActionSet Meter Group DpTimer FlowEntry.
From S2P Require Import ByteMatch FlowinfoIntf FlowinfoTree Bridge FlowDB FlowDBInv.

Definition flows_of (br : bridge) (tid : Z) : list ref :=
  match br_tables br !! tid with Some t => tb_flows t | None => [] end.

(** What an instruction says, without the fields the switch fills in. *)
Definition ins_core (i : instruction) : Z * Z * Z * Z * Z * list ofp_action :=
  (ins_type i, ins_table_id i, ins_metadata i, ins_metadata_mask i, ins_meter_id i,
   map act_ofpat (ins_action_list i)).

(** ** Effects on flows *)

Lemma map_alter_same {A B} (f : A -> B) (g : A -> A) k l :
  (forall x, f (g x) = f x) -> map f (alter g k l) = map f l.
Proof.
  intros H. revert k. induction l as [|x l IH]; intros [|k]; cbn; try done; by rewrite ?H, ?IH.
Qed.

Lemma map_insert_same {A B} (f : A -> B) k x y l :
  l !! k = Some x -> f y = f x -> map f (<[k:=y]> l) = map f l.
Proof.
  revert k. induction l as [|z l IH]; intros [|k] Hk Hc; simplify_eq/=; [by rewrite Hc|].
  f_equal. by apply IH.
Qed.

Lemma map_mark_action p v l : map act_ofpat (mark_action p v l) = map act_ofpat l.
Proof. destruct p; [|done]. cbn. by apply map_alter_same. Qed.

Lemma examination_ofpat cookie l groups :
  map act_ofpat (ex_actions (flow_action_examination cookie l groups)) = map act_ofpat l.
Proof.
  unfold flow_action_examination. change l with (ex_actions (Examination l None None 0 groups)) at 3.
  generalize (Examination l None None 0 groups) as st. generalize (seq 0 (length l)) as ks.
  induction ks as [|i ks IH]; intros st; cbn [foldl]; [done|]. rewrite IH. unfold examine_action.
  destruct (ex_actions st !! i) as [a|]; [|done].
  destruct (push_or_pop _); [cbn; apply map_mark_action|].
  destruct (_ =? OFPAT_SET_FIELD); [destruct (ex_push st); cbn; by rewrite ?map_alter_same, ?map_mark_action|].
  destruct (act_ofpat a); cbn; try done. by rewrite map_alter_same, map_mark_action.
Qed.

Lemma set_ins_actions_core l i : map act_ofpat l = map act_ofpat (ins_action_list i) -> ins_core (set_ins_actions l i) = ins_core i.
Proof. intros E. unfold ins_core. cbn. by rewrite E. Qed.

Lemma examine_instruction_core f st idx :
  map ins_core (examine_instruction f st idx).1.1 = map ins_core st.1.1.
Proof.
  destruct st as [[l output] groups]. unfold examine_instruction.
  destruct (mjoin (fl_instruction f !! idx)) as [k|]; [|done].
  set (l1 := if (_ <? idx)%nat then _ else l).
  set (l3 := alter _ k (alter _ k l1)).
  assert (map ins_core l3 = map ins_core l) as E.
  { subst l3 l1. rewrite map_alter_same, map_alter_same; [|done|].
    - destruct (_ <? idx)%nat; [|done]. destruct output as [[k' j]|]; [|done].
      apply map_alter_same. intros i. apply set_ins_actions_core. by apply map_alter_same.
    - intros i. destruct (has_actions i); [|done]. apply set_ins_actions_core. rewrite map_map. by apply map_ext. }
  destruct (l3 !! k) as [i|] eqn:Ei; [|done]. destruct (_ =? OFPIT_APPLY_ACTIONS); [|done]. cbn [fst].
  rewrite <- E. apply (map_insert_same _ _ i); [done|]. apply set_ins_actions_core, examination_ofpat.
Qed.

Lemma exam_law r br :
  exists l', map ins_core l' = map ins_core (fl_instruction_list (the_flow br r)) /\
    br_flows (flow_instruction_examination r br) = alter (set_fl_instruction_list l') r (br_flows br) /\
    br_tables (flow_instruction_examination r br) = br_tables br /\
    br_fresh (flow_instruction_examination r br) = br_fresh br.
Proof.
  unfold flow_instruction_examination. set (f := the_flow br r).
  assert (forall ks st, map ins_core (foldl (examine_instruction f) st ks).1.1 = map ins_core st.1.1) as H.
  { induction ks as [|i ks IH]; intros st; cbn [foldl]; [done|]. by rewrite IH, examine_instruction_core. }
  specialize (H (seq 0 INSTRUCTION_INDEX_MAX) (fl_instruction_list f, None, br_groups br)).
  destruct (foldl _ _ _) as [[l o] groups]. by exists l.
Qed.

(** ** Getting a table *)

Lemma get_table_law tid br :
  bridge_inv br ->
  let '(t, br') := flowdb_get_table tid br in
  bridge_inv br' /\ br_tables br' !! tid = Some t /\ tb_flows t = flows_of br tid /\
  (forall tid', tid' <> tid -> br_tables br' !! tid' = br_tables br !! tid') /\
  br_flows br' = br_flows br /\ br_fresh br' = br_fresh br /\ br_now br' = br_now br /\
  forall r, installed br' r <-> installed br r.
Proof.
  intros [B1 B2]. unfold flowdb_get_table, flows_of. destruct (br_tables br !! tid) as [t|] eqn:Et; [done|].
  cbn. split_and!; try done.
  - split; cbn; [|done]. intros tid' t'. destruct (decide (tid' = tid)) as [->|Hne].
    + rewrite lookup_insert_eq. intros [= <-]. split; cbn; try done.
      * constructor.
      * constructor.
      * intros r Hr. by apply elem_of_nil in Hr.
      * intros r s Hr. by apply elem_of_nil in Hr.
    + rewrite lookup_insert_ne by done. apply B1.
  - by rewrite lookup_insert_eq.
  - intros tid' Hne. by rewrite lookup_insert_ne.
  - intros r. unfold installed. cbn. split; intros (tid' & t' & H & Hr).
    + destruct (decide (tid' = tid)) as [->|Hne].
      * rewrite lookup_insert_eq in H. injection H as <-. by apply elem_of_nil in Hr.
      * rewrite lookup_insert_ne in H by done. by exists tid', t'.
    + exists tid', t'. split; [|done]. destruct (decide (tid' = tid)) as [->|Hne]; [congruence|].
      by rewrite lookup_insert_ne.
Qed.

(** A flow at a fresh address. *)
Lemma new_flow_law f br :
  bridge_inv br ->
  let '(r, br') := new_flow f br in
  frame [r] br br' /\ ~ installed br r /\ bridge_inv br' /\ br_flows br' = <[r := f]> (br_flows br) /\
  br_tables br' = br_tables br /\ the_flow br' r = f /\ ~ installed br' r.
Proof.
  intros Hi. pose proof (frame_new [br_fresh br] f br) as Hf. unfold new_flow in *.
  specialize (Hf ltac:(by left)). set (br' := set_br_fresh _ _) in *.
  assert (~ installed br (br_fresh br)) as Hn.
  { intros (tid & t & Ht & Hr). pose proof (eo_alloc _ _ _ (tv_entry _ _ _ (bi_table _ Hi tid t Ht) _ Hr)) as Ha.
    apply (bi_fresh _ Hi) in Ha. lia. }
  split_and!; [done|done| |done|done| |].
  - eapply frame_inv; [exact Hf| |done]. by intros r ->%list_elem_of_singleton.
  - unfold the_flow, br'. cbn. apply lookup_total_insert_eq.
  - intros (tid & t & Ht & Hr). apply Hn. by exists tid, t.
Qed.

Lemma frame_installed rs br br' r : frame rs br br' -> installed br' r <-> installed br r.
Proof. intros H. unfold installed. by rewrite (fr_tables _ _ _ H). Qed.

(** ** The branch that overrides an identical flow *)

Lemma the_flow_alter_eq r g h br : br_flows br = alter g r h -> is_Some (h !! r) -> the_flow br r = g (h !!! r).
Proof. intros E [f Hf]. unfold the_flow. by rewrite E, !lookup_total_alt, lookup_alter_eq, Hf. Qed.

Lemma remap_flows r br :
  br_flows (remap_instructions r br).2 =
    alter (set_fl_instruction (map_instruction_list_to_array (fl_instruction_list (the_flow br r))).1) r (br_flows br) /\
  (remap_instructions r br).1 = (map_instruction_list_to_array (fl_instruction_list (the_flow br r))).2.
Proof. unfold remap_instructions. by destruct (map_instruction_list_to_array _) as [arr e]. Qed.

Lemma free_flows r br : br_flows (flow_free r br) = delete r (br_flows br).
Proof. unfold flow_free. by destruct (fl_flow_timer _). Qed.

Lemma same_entry_override f g l :
  flow_compare f g = true -> match_list_ok (fl_match_list f) -> match_list_ok (fl_match_list g) ->
  same_entry g (set_fl_instruction_list l (set_fl_match_list (fl_match_list f) g)).
Proof.
  intros Hc Hf Hg. pose proof (flow_compare_ml _ _ Hf Hg Hc) as Hml.
  split; [|done]. split; [done|]. split; [done|]. symmetry. exact Hml.
Qed.

Lemma reset_counts_entry flags f : same_entry f (reset_counts flags f).
Proof. unfold reset_counts. by destruct (_ =? _). Qed.

Lemma override_steps_law flow_mod r x br :
  is_Some (br_flows br !! r) -> is_Some (br_flows br !! x) -> x <> r ->
  flow_compare (the_flow br r) (the_flow br x) = true ->
  match_list_ok (ml (br_flows br) r) -> match_list_ok (ml (br_flows br) x) ->
  let br' := override_steps flow_mod r x br in
  frame [r] br br' /\
  (forall y, y <> x -> y <> r -> br_flows br' !! y = br_flows br !! y) /\ br_flows br' !! r = None /\
  exists il, map ins_core il = map ins_core (fl_instruction_list (the_flow br r)) /\
    br_flows br' !! x = Some (set_fl_instruction_list il (set_fl_match_list (fl_match_list (the_flow br r))
                                 (reset_counts (fm_flags flow_mod) (the_flow br x)))).
Proof.
  intros Hr Hx Hne Hc Hmr Hmx. cbv zeta. unfold override_steps.
  destruct (exam_law r br) as (il & Hil & F2 & _). pose proof (frame_examination [r] r br) as G2.
  set (b2 := flow_instruction_examination r br) in *.
  destruct (refs_only_fields _ _ (refs_del_meter x b2)) as (F3 & _). pose proof (frame_del_meter [r] x b2) as G3.
  set (b3 := flow_del_from_meter x b2) in *.
  destruct (refs_only_fields _ _ (refs_del_group x b3)) as (F4 & _). pose proof (frame_del_group [r] x b3) as G4.
  set (b4 := flow_del_from_group x b3) in *.
  pose proof (frame_reset [r] x (fm_flags flow_mod) b4) as G5.
  set (b5 := upd_flow x (reset_counts (fm_flags flow_mod)) b4) in *.
  assert (br_flows b5 = alter (reset_counts (fm_flags flow_mod)) x (alter (set_fl_instruction_list il) r (br_flows br)))
    as F5 by (unfold b5, upd_flow; cbn [br_flows set_br_flows]; by rewrite F4, F3, F2).
  destruct Hr as [f Hf], Hx as [g Hg].
  assert (the_flow br r = f) as Ef by (unfold the_flow; by rewrite lookup_total_alt, Hf).
  assert (the_flow br x = g) as Eg by (unfold the_flow; by rewrite lookup_total_alt, Hg).
  assert (the_flow b5 r = set_fl_instruction_list il f) as E5.
  { unfold the_flow. by rewrite F5, lookup_total_alt, lookup_alter_ne, lookup_alter_eq, Hf by done. }
  assert (br_flows b5 !! x = Some (reset_counts (fm_flags flow_mod) g)) as Ex5.
  { by rewrite F5, lookup_alter_eq, lookup_alter_ne, Hg by done. }
  rewrite E5. cbn [fl_instruction_list fl_match_list set_fl_instruction_list].
  set (k := fun g => set_fl_instruction_list il (set_fl_match_list (fl_match_list f) g)). set (b6 := upd_flow x k b5).
  assert (frame [r] b5 b6) as G6.
  { apply frame_upd. right. intros g' Hg'. rewrite Ex5 in Hg'. injection Hg' as <-. unfold k.
    apply same_entry_override; rewrite ?Ef, ?Eg in *.
    - rewrite <- Hc. apply flow_compare_proper; [reflexivity|]. symmetry.
      exact (proj1 (reset_counts_entry (fm_flags flow_mod) g)).
    - unfold ml in Hmr. by rewrite lookup_total_alt, Hf in Hmr.
    - unfold ml in Hmx. rewrite lookup_total_alt, Hg in Hmx. cbn in Hmx.
      pose proof (reset_counts_entry (fm_flags flow_mod) g) as (Hk & _). by rewrite <- (same_key_ml _ _ Hk). }
  split; [|split; [|split]].
  - do 5 (eapply frame_trans; [eassumption|]).
    eapply frame_trans; [apply (frame_upd [r] r); left; by left|]. apply frame_free. by left.
  - intros y Hyx Hyr. rewrite free_flows. unfold b6, upd_flow. cbn [br_flows set_br_flows].
    rewrite lookup_delete_ne, !lookup_alter_ne, F5 by done.
    by rewrite !lookup_alter_ne by done.
  - rewrite free_flows. apply lookup_delete_eq.
  - exists il. split; [done|]. rewrite free_flows. unfold b6, upd_flow. cbn [br_flows set_br_flows].
    rewrite lookup_delete_ne, lookup_alter_ne, lookup_alter_eq, Ex5 by done. by rewrite Ef, Eg.
Qed.

(** The end of [override_flow]: the instruction array of the flow that stays, and its checks. *)
Definition override_tail (x : ref) (br : bridge) : lagopus_result * option ofp_error * bridge :=
  let '(error, br) := remap_instructions x br in
  match error with
  | Some _ => (LAGOPUS_RESULT_OFP_ERROR, error, br)
  | None =>
      let '(error, br) := flow_action_check x br in
      match error with
      | Some _ => (LAGOPUS_RESULT_OFP_ERROR, error, br)
      | None => (LAGOPUS_RESULT_OK, None, br)
      end
  end.

Lemma override_tail_law x g br :
  br_flows br !! x = Some g ->
  let '(rv, e, br') := override_tail x br in
  (forall rs, frame rs br br') /\ (forall y, y <> x -> br_flows br' !! y = br_flows br !! y) /\
  match e with
  | Some _ => rv = LAGOPUS_RESULT_OFP_ERROR
  | None => rv = LAGOPUS_RESULT_OK /\
      the_flow br' x = set_fl_instruction (map_instruction_list_to_array (fl_instruction_list g)).1 g
  end.
Proof.
  intros Hg. unfold override_tail.
  pose proof (fun rs => frame_remap rs x br) as G1. destruct (remap_flows x br) as [F1 _].
  destruct (remap_instructions x br) as [e1 b1]. cbn [snd] in G1, F1.
  assert (the_flow br x = g) as Eg by (unfold the_flow; by rewrite lookup_total_alt, Hg).
  rewrite Eg in F1.
  assert (forall y, y <> x -> br_flows b1 !! y = br_flows br !! y) as K1
    by (intros y Hy; by rewrite F1, lookup_alter_ne).
  destruct e1 as [e1|]; [by split_and!|].
  pose proof (fun rs => frame_action_check rs x b1) as G2.
  destruct (refs_only_fields _ _ (refs_action_check x b1)) as (F2 & _).
  destruct (flow_action_check x b1) as [e2 b2]. cbn [snd] in G2, F2.
  assert (forall rs, frame rs br b2) as G by (intros rs; eapply frame_trans; [apply G1|apply G2]).
  assert (forall y, y <> x -> br_flows b2 !! y = br_flows br !! y) as K2 by (intros y Hy; rewrite F2; by apply K1).
  destruct e2 as [e2|]; (split; [done|split; [done|]]); [done|].
  split; [done|]. unfold the_flow. by rewrite F2, F1, lookup_total_alt, lookup_alter_eq, Hg.
Qed.

Lemma override_flow_tail flow_mod r x br :
  override_flow flow_mod r x br =
    match (remap_instructions r br).1 with
    | Some e => (LAGOPUS_RESULT_OFP_ERROR, Some e, flow_free r (remap_instructions r br).2)
    | None => override_tail x (override_steps flow_mod r x (remap_instructions r br).2)
    end.
Proof.
  unfold override_flow, override_tail. destruct (remap_instructions r br) as [e b]. cbn [fst snd].
  destruct e as [e|]; reflexivity.
Qed.

Lemma override_law flow_mod r x br :
  is_Some (br_flows br !! r) -> is_Some (br_flows br !! x) -> x <> r ->
  flow_compare (the_flow br r) (the_flow br x) = true ->
  match_list_ok (ml (br_flows br) r) -> match_list_ok (ml (br_flows br) x) ->
  let '(rv, e, br') := override_flow flow_mod r x br in
  frame [r] br br' /\
  (forall y, y <> x -> y <> r -> br_flows br' !! y = br_flows br !! y) /\
  match e with
  | Some _ => rv = LAGOPUS_RESULT_OFP_ERROR
  | None => rv = LAGOPUS_RESULT_OK /\
      exists il, map ins_core il = map ins_core (fl_instruction_list (the_flow br r)) /\
        the_flow br' x = set_fl_instruction (map_instruction_list_to_array il).1
          (set_fl_instruction_list il (set_fl_match_list (fl_match_list (the_flow br r))
             (reset_counts (fm_flags flow_mod) (the_flow br x))))
  end.
Proof.
  intros Hr Hx Hne Hc Hmr Hmx. rewrite override_flow_tail.
  pose proof (frame_remap [r] r br) as G1. destruct (remap_flows r br) as [F1 E1].
  set (b1 := (remap_instructions r br).2) in *. clearbody b1. clear E1.
  set (arr := (map_instruction_list_to_array _).1) in F1. clearbody arr.
  assert (forall y, y <> r -> br_flows b1 !! y = br_flows br !! y) as F1' by (intros y Hy; by rewrite F1, lookup_alter_ne).
  destruct (remap_instructions r br).1 as [e1|].
  { split; [eapply frame_trans; [exact G1|apply frame_free; by left]|]. split; [|done].
    intros y _ Hy. rewrite free_flows, lookup_delete_ne by done. by apply F1'. }
  assert (the_flow b1 x = the_flow br x) as Ex by (unfold the_flow; by rewrite !lookup_total_alt, F1' by done).
  assert (the_flow b1 r = set_fl_instruction arr (the_flow br r)) as Er by by apply the_flow_alter_eq.
  destruct (override_steps_law flow_mod r x b1) as (G2 & F2 & Fr & il & Hil & Hx2).
  { rewrite F1, lookup_alter_eq. by apply fmap_is_Some. }
  { by rewrite F1'. }
  { done. }
  { rewrite Ex, Er. exact Hc. }
  { unfold ml. fold (the_flow b1 r). rewrite Er. exact Hmr. }
  { unfold ml. fold (the_flow b1 x). rewrite Ex. exact Hmx. }
  set (b2 := override_steps flow_mod r x b1) in *. clearbody b2.
  pose proof (override_tail_law x _ b2 Hx2) as H3. destruct (override_tail x b2) as [[rv e] b3].
  destruct H3 as (G3 & F3 & He).
  split; [do 2 (eapply frame_trans; [eassumption|]); apply G3|].
  split; [intros y Hy Hy'; rewrite F3, F2 by done; by apply F1'|].
  destruct e; [done|]. destruct He as [-> He]. split; [done|]. exists il.
  rewrite Er in Hil, He. rewrite Ex in He. split; [exact Hil|exact He].
Qed.

(** ** The branch that installs a new flow *)

Lemma flow_add_sub_ext h h' r l : (forall x, prio h x = prio h' x) -> flow_add_sub h r l = flow_add_sub h' r l.
Proof.
  intros H. unfold flow_add_sub.
  assert ((fun r => fl_priority (h !!! r)) = (fun r => fl_priority (h' !!! r))) as ->
    by (apply functional_extensionality; exact H).
  by rewrite (H r : fl_priority (h !!! r) = fl_priority (h' !!! r)).
Qed.

Lemma prio_alter h r g x : (forall f, fl_priority (g f) = fl_priority f) -> prio (alter g r h) x = prio h x.
Proof.
  intros Hg. unfold prio. rewrite !lookup_total_alt. destruct (decide (x = r)) as [->|].
  - rewrite lookup_alter_eq. destruct (h !! r); cbn; [apply Hg|done].
  - by rewrite lookup_alter_ne.
Qed.

Lemma prio_added h r f' x : added (h !!! r) f' -> prio (<[r := f']> h) x = prio h x.
Proof. intros Ha. symmetry. apply (added_heap_key h r f' x Ha). Qed.

Lemma add_flow_timer_fields r br :
  exists slot, br_flows (add_flow_timer r br) = alter (set_fl_flow_timer (Some slot)) r (br_flows br) /\
    br_tables (add_flow_timer r br) = br_tables br.
Proof. unfold add_flow_timer. destruct (add_dp_timer _ _ _ _) as [slot ts]. by exists slot. Qed.

(** The optional timer at the end. *)
Lemma set_timer_law (b : bool) r br :
  let br' := if b then add_flow_timer r br else br in
  (forall rs, frame rs br br') /\ br_tables br' = br_tables br /\
  (forall y, y <> r -> br_flows br' !! y = br_flows br !! y) /\
  (forall y, prio (br_flows br') y = prio (br_flows br) y) /\
  (is_Some (br_flows br !! r) -> exists timer, the_flow br' r = set_fl_flow_timer timer (the_flow br r)).
Proof.
  destruct b; cbv zeta.
  - destruct (add_flow_timer_fields r br) as (slot & F & T).
    split; [intros rs; apply frame_timer|]. rewrite F, T. split_and!; [done| | |].
    + intros y Hy. by rewrite lookup_alter_ne.
    + intros y. by apply prio_alter.
    + intros Hr. exists (Some slot). by apply the_flow_alter_eq.
  - split_and!; try done; [intros rs; apply frame_refl|]. intros _. exists (fl_flow_timer (the_flow br r)).
    by destruct (the_flow br r).
Qed.

(** What an installed flow says: the key, the match and the instructions of [g]. *)
Definition same_entry_as (f g : flow) : Prop :=
  fl_priority f = fl_priority g /\ ml_eq (fl_match_list f) (fl_match_list g) /\
  map ins_core (fl_instruction_list f) = map ins_core (fl_instruction_list g).

Lemma examined_entry r br :
  new_entry (br_flows br) (fl_table_id (the_flow br r)) r ->
  let br' := flow_instruction_examination r br in
  new_entry (br_flows br') (fl_table_id (the_flow br r)) r /\ same_key (the_flow br r) (the_flow br' r) /\
  same_entry_as (the_flow br' r) (the_flow br r) /\
  (forall y, prio (br_flows br') y = prio (br_flows br) y) /\
  (forall y, y <> r -> br_flows br' !! y = br_flows br !! y) /\ br_tables br' = br_tables br.
Proof.
  intros [H1 H2 H3 H4 H5]. cbv zeta. destruct (exam_law r br) as (il & Hil & F & T & N).
  pose proof (the_flow_alter_eq r _ _ _ F H1) as E. fold (the_flow br r) in E.
  assert (forall y, prio (br_flows (flow_instruction_examination r br)) y = prio (br_flows br) y) as Hp
    by (intros y; rewrite F; by apply prio_alter).
  split; [split|]; unfold ml in *; rewrite ?Hp; unfold the_flow in E; try rewrite E; try done.
  - rewrite F, lookup_alter_eq. by apply fmap_is_Some.
  - split; [unfold the_flow; by rewrite E|]. split; [|split; [done|split; [|done]]].
    + split_and!; unfold the_flow; rewrite E; done.
    + intros y Hy. by rewrite F, lookup_alter_ne.
Qed.

Lemma install_flow_link tid r br :
  install_flow tid r br =
    let '(error, br) := flow_action_check r br in
    match error with
    | Some _ => (LAGOPUS_RESULT_OFP_ERROR, error, br)
    | None =>
        let br := link_flow tid r (flow_instruction_examination r br) in
        (LAGOPUS_RESULT_OK, None,
         if (0 <? fl_idle_timeout (the_flow br r)) || (0 <? fl_hard_timeout (the_flow br r))
         then add_flow_timer r br else br)
    end.
Proof. reflexivity. Qed.

(** The outcome of [install_flow]. *)
Lemma install_flow_law br tid t r :
  bridge_inv br -> br_tables br !! tid = Some t -> new_entry (br_flows br) tid r -> ~ installed br r ->
  (forall s, s ∈ tb_flows t -> flow_compare (the_flow br r) (the_flow br s) = false) ->
  let '(rv, e, br') := install_flow tid r br in
  bridge_inv br' /\
  (forall y, y <> r -> br_flows br' !! y = br_flows br !! y) /\
  (forall tid', tid' <> tid -> br_tables br' !! tid' = br_tables br !! tid') /\
  match e with
  | Some _ => rv = LAGOPUS_RESULT_OFP_ERROR /\ br_tables br' = br_tables br
  | None => rv = LAGOPUS_RESULT_OK /\ same_entry_as (the_flow br' r) (the_flow br r) /\
      flows_of br' tid = flow_add_sub (br_flows br') r (tb_flows t)
  end.
Proof.
  intros Hi Ht Hne Hnin Hcmp. rewrite install_flow_link.
  pose proof (frame_action_check [] r br) as G1.
  destruct (refs_only_fields _ _ (refs_action_check r br)) as (F1 & T1 & _).
  destruct (flow_action_check r br) as [e b1]. cbn [snd] in G1, F1, T1.
  assert (bridge_inv b1) as Hi1 by (eapply frame_inv; [exact G1| |done]; by intros ? ?%elem_of_nil).
  destruct e as [e|]; [split_and!; [done| | |done|done]; intros; by rewrite ?F1, ?T1|].
  assert (the_flow b1 = the_flow br) as E1 by (unfold the_flow; by rewrite F1).
  pose proof (ne_table _ _ _ Hne) as Htab. fold (the_flow br r) in Htab.
  destruct (examined_entry r b1) as (Hne2 & Hk2 & Hs2 & Hp2 & F2 & T2).
  { by rewrite F1, E1, Htab. }
  rewrite E1 in Hne2, Hk2, Hs2. rewrite Htab in Hne2.
  assert (bridge_inv (flow_instruction_examination r b1)) as Hi2.
  { eapply frame_inv; [apply (frame_examination []) | |exact Hi1]. by intros ? ?%elem_of_nil. }
  set (b2 := flow_instruction_examination r b1) in *. clearbody b2.
  assert (br_tables b2 !! tid = Some t) as Ht2 by (by rewrite T2, T1).
  destruct (link_flow_law b2 tid t r Hi2 Ht2 Hne2) as (f' & t' & Ha & E3 & Hl & Hi3).
  { unfold installed. rewrite T2, T1. exact Hnin. }
  { intros s Hs. rewrite <- (Hcmp s Hs). symmetry.
    assert (s <> r) as Hsr by (intros ->; apply Hnin; by exists tid, t).
    apply flow_compare_proper; [exact Hk2|]. unfold the_flow. by rewrite !lookup_total_alt, F2, F1 by done. }
  set (b3 := link_flow tid r b2) in *. clearbody b3.
  assert (the_flow b3 r = f') as Ef' by (rewrite E3; apply lookup_total_insert_eq).
  cbv zeta. set (c := (0 <? fl_idle_timeout (the_flow b3 r)) || _). clearbody c.
  destruct (set_timer_law c r b3) as (G4 & T4 & F4 & P4 & Hr4). specialize (G4 []).
  set (b4 := if c then add_flow_timer r b3 else b3) in *. clearbody b4.
  split; [eapply frame_inv; [exact G4| |exact Hi3]; by intros ? ?%elem_of_nil|].
  split.
  { intros y Hy. rewrite F4, E3 by done. cbn. rewrite lookup_insert_ne, F2, F1 by done. done. }
  split; [intros tid' Ht'; rewrite T4, E3; cbn; by rewrite lookup_insert_ne, T2, T1 by done|].
  split; [done|]. destruct Hr4 as [timer Hr4]; [rewrite E3; cbn; rewrite lookup_insert_eq; by eexists|].
  destruct Ha as (ms & Hms & Ef). rewrite Ef' in Hr4. split.
  - destruct Hs2 as (S1 & S2 & S3). rewrite Hr4, Ef. split_and!; cbn; [done| |done].
    unfold the_flow in S2. unfold ml_eq in *. by rewrite Hms.
  - unfold flows_of. rewrite T4, E3. cbn [br_tables set_br_tables]. rewrite lookup_insert_eq, Hl.
    apply flow_add_sub_ext. intros x. rewrite P4, E3. cbn [br_flows set_br_tables set_br_flows]. symmetry.
    apply prio_added. exists ms. by rewrite Ef.
Qed.

(** ** FLOW_MOD: ADD *)

Lemma pre_requisite_check_fields f :
  exists bits, (flow_pre_requisite_check f).1 = set_fl_field_bits bits f.
Proof. unfold flow_pre_requisite_check. destruct (pre_requisite_loop _ _) as [bits e]. by exists bits. Qed.

(** The flow a command makes. *)
Definition made_flow (flow_mod : ofp_flow_mod) (ms : list match_) (il : list instruction) (f : flow) : Prop :=
  fl_priority f = fm_priority flow_mod /\ fl_match_list f = ms /\ fl_instruction_list f = il /\
  fl_byteoff_match f = zero_byteoff.

Lemma flow_alloc_made flow_mod ms il now f bits tid :
  flow_alloc flow_mod ms il now = inl f -> made_flow flow_mod ms il (set_fl_field_bits bits (set_fl_table_id tid f)).
Proof.
  unfold flow_alloc. destruct (map_instruction_list_to_array il) as [arr [e|]]; [done|].
  intros [= <-]. done.
Qed.

Lemma find_hook_law br tid t r :
  bridge_inv br -> br_tables br !! tid = Some t -> match_list_ok (ml (br_flows br) r) ->
  match find_flow_hook tid r br with
  | Some x => x ∈ tb_flows t /\ flow_compare (the_flow br r) (the_flow br x) = true
  | None => forall s, s ∈ tb_flows t -> flow_compare (the_flow br r) (the_flow br s) = false
  end.
Proof.
  intros [B1 _] Ht Hok. pose proof (B1 tid t Ht) as Hi. unfold find_flow_hook. rewrite Ht.
  pose proof (find_flow_law _ tid _ r (tv_wf _ _ _ Hi) Hok) as H.
  destruct (find_flow _ _ _) as [x|].
  - rewrite <- (tv_tree _ _ _ Hi). exact H.
  - intros s Hs. apply H. by rewrite (tv_tree _ _ _ Hi).
Qed.

(** What the caller of [flowdb_flow_add] sees of a bridge afterwards. *)
Definition add_outcome (flow_mod : ofp_flow_mod) (ms : list match_) (il : list instruction)
    (br br' : bridge) (rv : lagopus_result) (e : option ofp_error) : Prop :=
  let tid := fm_table_id flow_mod in
  match e with
  | Some _ => rv = LAGOPUS_RESULT_OFP_ERROR /\ flows_of br' tid = flows_of br tid /\
      forall y, installed br y -> same_entry (the_flow br y) (the_flow br' y)
  | None =>
      rv = LAGOPUS_RESULT_OK /\
      exists x, fl_priority (the_flow br' x) = fm_priority flow_mod /\
        ml_eq (fl_match_list (the_flow br' x)) ms /\
        map ins_core (fl_instruction_list (the_flow br' x)) = map ins_core il /\
        (forall y, installed br y -> y <> x -> the_flow br' y = the_flow br y) /\
        (x ∈ flows_of br tid /\ flows_of br' tid = flows_of br tid /\
           fl_priority (the_flow br x) = fm_priority flow_mod /\ ml_eq (fl_match_list (the_flow br x)) ms \/
         ~ installed br x /\ exists l1 l2, flows_of br tid = l1 ++ l2 /\ flows_of br' tid = l1 ++ x :: l2 /\
           (forall y, y ∈ l1 -> fm_priority flow_mod <= fl_priority (the_flow br y)) /\
           (forall y, y ∈ l2 -> fl_priority (the_flow br y) < fm_priority flow_mod))
  end.

(** The flow [r] was made by the command at a fresh address of [br], giving [br2]. *)
Record made_at (flow_mod : ofp_flow_mod) (ms : list match_) (il : list instruction) (br : bridge) (r : ref)
    (br2 : bridge) : Prop := {
  ma_frame : frame [r] br br2;
  ma_inv : bridge_inv br;
  ma_inv' : bridge_inv br2;
  ma_fresh : ~ installed br r;
  ma_tables : br_tables br2 = br_tables br;
  ma_new : new_entry (br_flows br2) (fm_table_id flow_mod) r;
  ma_made : made_flow flow_mod ms il (the_flow br2 r);
  ma_others : forall y, y <> r -> br_flows br2 !! y = br_flows br !! y
}.

Lemma frame_error flow_mod ms il r br br' :
  frame [r] br br' -> bridge_inv br -> ~ installed br r ->
  bridge_inv br' /\ (forall tid', tid' <> fm_table_id flow_mod -> br_tables br' !! tid' = br_tables br !! tid') /\
  forall e, add_outcome flow_mod ms il br br' LAGOPUS_RESULT_OFP_ERROR (Some e).
Proof.
  intros Hf Hi Hn. split; [eapply frame_inv; [exact Hf| |done]; by intros x ->%list_elem_of_singleton|].
  rewrite (fr_tables _ _ _ Hf). split; [done|]. intros e. unfold add_outcome, flows_of.
  rewrite (fr_tables _ _ _ Hf). split_and!; try done. intros y Hy. apply kept_total, (fr_kept _ _ _ Hf).
  - destruct Hy as (tid & t & Ht & Hy). apply (eo_alloc _ _ _ (tv_entry _ _ _ (bi_table _ Hi tid t Ht) _ Hy)).
  - intros ->%list_elem_of_singleton. done.
Qed.

Lemma override_outcome flow_mod ms il br r br2 x :
  made_at flow_mod ms il br r br2 -> x ∈ flows_of br2 (fm_table_id flow_mod) ->
  flow_compare (the_flow br2 r) (the_flow br2 x) = true ->
  let '(rv, e, br') := override_flow flow_mod r x br2 in
  bridge_inv br' /\ (forall tid', tid' <> fm_table_id flow_mod -> br_tables br' !! tid' = br_tables br !! tid') /\
  add_outcome flow_mod ms il br br' rv e.
Proof.
  intros [M1 M2 M3 M4 M5 M6 M7 M8] Hx Hc. pose proof Hx as Hx'. unfold flows_of in Hx.
  destruct (br_tables br2 !! fm_table_id flow_mod) as [t|] eqn:Et; [|by apply elem_of_nil in Hx].
  assert (x <> r) as Hxr by (intros ->; apply M4; exists (fm_table_id flow_mod), t; by rewrite <- M5).
  pose proof (tv_entry _ _ _ (bi_table _ M3 _ t Et) x Hx) as He.
  pose proof (override_law flow_mod r x br2 (ne_alloc _ _ _ M6) (eo_alloc _ _ _ He) Hxr Hc
                (ne_match _ _ _ M6) (eo_match _ _ _ He)) as H.
  destruct (override_flow flow_mod r x br2) as [[rv e] br']. destruct H as (G & F & H).
  assert (frame [r] br br') as G' by (eapply frame_trans; eassumption).
  destruct (frame_error flow_mod ms il r br br' G' M2 M4) as (R1 & R2 & R3).
  split; [done|]. split; [done|]. destruct e as [e|]; [subst rv; apply R3|].
  destruct H as (-> & il' & Hil & Ex). destruct M7 as (P1 & P2 & P3 & P4).
  split; [done|]. exists x. rewrite Ex. apply flow_compare_spec in Hc as Hc'. destruct Hc' as (C1 & _ & _).
  assert (the_flow br2 x = the_flow br x) as E2 by (unfold the_flow; by rewrite !lookup_total_alt, M8 by done).
  pose proof (reset_counts_entry (fm_flags flow_mod) (the_flow br2 x)) as ((Rk & _) & _).
  assert (fl_priority (the_flow br2 x) = fm_priority flow_mod) as Hp by (rewrite <- C1; exact P1).
  split_and!; cbn [fl_priority fl_match_list fl_instruction_list set_fl_instruction set_fl_instruction_list set_fl_match_list].
  - rewrite <- Rk. exact Hp.
  - by rewrite P2.
  - by rewrite Hil, P3.
  - intros y Hy Hyx. assert (y <> r) as Hyr by (intros ->; done).
    unfold the_flow. by rewrite !lookup_total_alt, F, M8 by done.
  - left. assert (forall b, br_tables b = br_tables br -> flows_of b (fm_table_id flow_mod) = flows_of br (fm_table_id flow_mod))
      as Hfl by (intros b Hb; unfold flows_of; by rewrite Hb).
    rewrite <- (Hfl br2 M5), (Hfl br' (fr_tables _ _ _ G')), <- (Hfl br2 M5), <- E2.
    split_and!; [exact Hx'|done|exact Hp|]. rewrite <- P2. symmetry.
    exact (flow_compare_ml _ _ (ne_match _ _ _ M6) (eo_match _ _ _ He) Hc).
Qed.

Lemma install_outcome flow_mod ms il br r br2 t :
  made_at flow_mod ms il br r br2 -> br_tables br2 !! fm_table_id flow_mod = Some t ->
  (forall s, s ∈ tb_flows t -> flow_compare (the_flow br2 r) (the_flow br2 s) = false) ->
  let '(rv, e, br') := install_flow (fm_table_id flow_mod) r br2 in
  bridge_inv br' /\ (forall tid', tid' <> fm_table_id flow_mod -> br_tables br' !! tid' = br_tables br !! tid') /\
  add_outcome flow_mod ms il br br' rv e.
Proof.
  intros [M1 M2 M3 M4 M5 M6 M7 M8] Et Hcmp.
  assert (~ installed br2 r) as M4' by (unfold installed; by rewrite M5).
  pose proof (install_flow_law br2 _ t r M3 Et M6 M4' Hcmp) as H.
  destruct (install_flow _ r br2) as [[rv e] br']. destruct H as (I1 & I2 & I3 & H).
  split; [done|]. split; [intros tid' Hne; by rewrite I3, M5|].
  assert (forall y, y <> r -> the_flow br' y = the_flow br y) as F
    by (intros y Hy; unfold the_flow; by rewrite !lookup_total_alt, I2, M8 by done).
  assert (forall y, installed br y -> y <> r) as Hr by (intros y Hy ->; done).
  assert (flows_of br (fm_table_id flow_mod) = tb_flows t) as Efl by (unfold flows_of; by rewrite <- M5, Et).
  destruct e as [e|].
  { destruct H as [-> H]. split; [done|]. split; [unfold flows_of; by rewrite H, M5|].
    intros y Hy. rewrite F by auto. done. }
  destruct H as (-> & (S1 & S2 & S3) & Hl). destruct M7 as (P1 & P2 & P3 & P4). split; [done|]. exists r.
  split_and!; [by rewrite S1|by rewrite <- P2|by rewrite S3, P3|intros; by apply F|].
  right. split; [done|]. rewrite Efl, Hl.
  assert (descending (prio (br_flows br')) (tb_flows t)) as Hd.
  { eapply descending_ext; [|exact (tv_sorted _ _ _ (bi_table _ M2 _ t (eq_trans (eq_sym (f_equal _ M5)) Et)))].
    intros y Hy. assert (y <> r) by (apply Hr; by exists (fm_table_id flow_mod), t; rewrite <- M5).
    unfold prio. fold (the_flow br' y) (the_flow br y). by rewrite F. }
  destruct (descending_insert (prio (br_flows br')) r (tb_flows t) Hd) as (_ & D2 & D3).
  unfold flow_add_sub. set (i := bisect _ _ _ _) in *. clearbody i.
  exists (take i (tb_flows t)), (drop i (tb_flows t)).
  assert (forall y, y ∈ tb_flows t -> y <> r) as Hr' by (intros y Hy; apply Hr; exists (fm_table_id flow_mod), t; by rewrite <- M5).
  assert (prio (br_flows br') r = fm_priority flow_mod) as Hpr by (rewrite <- P1, <- S1; done).
  split_and!; [by rewrite take_drop|done| |]; intros y Hy.
  - rewrite <- F by (apply Hr'; rewrite <- (take_drop i); set_solver). rewrite <- Hpr. by apply D2.
  - rewrite <- F by (apply Hr'; rewrite <- (take_drop i); set_solver). rewrite <- Hpr. by apply D3.
Qed.

Lemma add_outcome_start flow_mod ms il br br1 br' rv e :
  flows_of br1 (fm_table_id flow_mod) = flows_of br (fm_table_id flow_mod) -> br_flows br1 = br_flows br ->
  (forall r, installed br1 r <-> installed br r) ->
  add_outcome flow_mod ms il br1 br' rv e -> add_outcome flow_mod ms il br br' rv e.
Proof.
  intros E1 E2 E3. assert (the_flow br1 = the_flow br) as E4 by (unfold the_flow; by rewrite E2).
  unfold add_outcome. rewrite E1, E4. destruct e as [e|].
  - intros (? & ? & H). split_and!; [done|done|]. intros y Hy. apply H. by apply E3.
  - intros (? & x & H1 & H2 & H3 & H4 & H5). split; [done|]. exists x. rewrite <- E3.
    split_and!; [done|done|done| |done]. intros y Hy. apply H4. by apply E3.
Qed.

Lemma made_at_new flow_mod ms il br tid f bits :
  bridge_inv br -> match_list_ok ms -> 0 <= fm_priority flow_mod -> tid = fm_table_id flow_mod ->
  flow_alloc flow_mod ms il (br_now br) = inl f ->
  let '(r, br2) := new_flow (set_fl_field_bits bits (set_fl_table_id tid f)) br in
  made_at flow_mod ms il br r br2.
Proof.
  intros Hi Hms Hp -> Ha. set (f' := set_fl_field_bits bits _).
  pose proof (new_flow_law f' br Hi) as H. destruct (new_flow f' br) as [r br2].
  destruct H as (H1 & H2 & H3 & H4 & H5 & H6 & H7).
  pose proof (flow_alloc_made flow_mod ms il (br_now br) f bits (fm_table_id flow_mod) Ha) as Hm. fold f' in Hm.
  split; try done.
  - destruct Hm as (P1 & P2 & P3 & P4).
    split; unfold ml, prio; fold (the_flow br2 r); rewrite ?H6, ?P1, ?P2; try done.
    rewrite H4, lookup_insert_eq. by eexists.
  - by rewrite H6.
  - intros y Hy. by rewrite H4, lookup_insert_ne.
Qed.

Lemma flow_add_outcome flow_mod ms il br br2 r t :
  made_at flow_mod ms il br r br2 -> br_tables br2 !! fm_table_id flow_mod = Some t ->
  let '(rv, e, br') :=
    match find_flow_hook (fm_table_id flow_mod) r br2 with
    | Some identical_flow =>
        if negb (Z.land (fm_flags flow_mod) OFPFF_CHECK_OVERLAP =? 0) then
          (LAGOPUS_RESULT_OFP_ERROR, Some (OFPET_FLOW_MOD_FAILED, OFPFMFC_OVERLAP), flow_free r br2)
        else override_flow flow_mod r identical_flow br2
    | None => install_flow (fm_table_id flow_mod) r br2
    end in
  bridge_inv br' /\ (forall tid', tid' <> fm_table_id flow_mod -> br_tables br' !! tid' = br_tables br !! tid') /\
  add_outcome flow_mod ms il br br' rv e.
Proof.
  intros M Et. pose proof (find_hook_law br2 _ t r (ma_inv' _ _ _ _ _ _ M) Et (ne_match _ _ _ (ma_new _ _ _ _ _ _ M))) as H.
  destruct (find_flow_hook _ r br2) as [x|].
  - destruct H as [Hx Hc]. destruct (negb _).
    + destruct (frame_error flow_mod ms il r br (flow_free r br2)) as (R1 & R2 & R3); [|apply M|apply M|done].
      eapply frame_trans; [apply M|apply frame_free; by left].
    + apply override_outcome; [done| |done]. unfold flows_of. by rewrite Et.
  - by apply (install_outcome flow_mod ms il br r br2 t).
Qed.

Lemma flowdb_flow_add_law flow_mod ms il br :
  bridge_inv br -> match_list_ok ms -> 0 <= fm_priority flow_mod ->
  let '(rv, e, br') := flowdb_flow_add flow_mod ms il br in
  bridge_inv br' /\
  (forall tid, tid <> fm_table_id flow_mod -> br_tables br' !! tid = br_tables br !! tid) /\
  add_outcome flow_mod ms il br br' rv e.
Proof.
  intros Hi Hms Hp.  unfold flowdb_flow_add. destruct (_ =? OFPTT_ALL); [by split_and!|].
  pose proof (get_table_law (fm_table_id flow_mod) br Hi) as H. destruct (flowdb_get_table _ br) as [t br1].
  destruct H as (H1 & H2 & H3 & H4 & H5 & _ & _ & H8).
  assert (flows_of br1 (fm_table_id flow_mod) = flows_of br (fm_table_id flow_mod)) as Hfl
    by (unfold flows_of at 1; by rewrite H2).
  assert (forall rv e br', bridge_inv br' /\
            (forall tid, tid <> fm_table_id flow_mod -> br_tables br' !! tid = br_tables br1 !! tid) /\
            add_outcome flow_mod ms il br1 br' rv e ->
          bridge_inv br' /\
            (forall tid, tid <> fm_table_id flow_mod -> br_tables br' !! tid = br_tables br !! tid) /\
            add_outcome flow_mod ms il br br' rv e) as Hstart.
  { intros rv e br' (I1 & I2 & I3). split_and!; [done| |by apply (add_outcome_start _ _ _ _ br1)].
    intros tid Hne. by rewrite I2, H4. }
  destruct (flow_alloc flow_mod ms il (br_now br1)) as [f|e] eqn:Ea; [|by apply Hstart].
  destruct (pre_requisite_check_fields (set_fl_table_id (fm_table_id flow_mod) f)) as [bits Hbits].
  destruct (flow_pre_requisite_check _) as [f' e]. cbn [fst] in Hbits. subst f'.
  pose proof (made_at_new flow_mod ms il br1 _ f bits H1 Hms Hp eq_refl Ea) as M.
  destruct (new_flow _ br1) as [r br2].
  assert (frame [r] br1 (flow_free r br2)) as Hfree
    by (eapply frame_trans; [apply M|apply frame_free; by left]).
  destruct (frame_error flow_mod ms il r br1 _ Hfree H1 (ma_fresh _ _ _ _ _ _ M)) as (R1 & R2 & R3).
  destruct e as [e|]; [by apply Hstart|]. destruct (flow_mask_check _) as [e|]; [by apply Hstart|].
  pose proof (flow_add_outcome flow_mod ms il br1 br2 r t M) as H.
  rewrite (ma_tables _ _ _ _ _ _ M) in H. specialize (H H2).
  destruct (match find_flow_hook _ _ _ with Some _ => _ | None => _ end) as [[rv e] br']. by apply Hstart.
Qed.

(** ** A small bridge *)

Definition empty_bridge : bridge :=
  Bridge ∅ 0%nat ∅ group_table_alloc meter_table_alloc {[1; 2]} init_dp_timer [] (100, 0).

Lemma empty_bridge_inv : bridge_inv empty_bridge.
Proof. split; cbn; [done|]. intros r [f Hf]. done. Qed.

Definition sample_flow_mod (command prio_ : Z) : ofp_flow_mod :=
  OfpFlowMod 7 0 0 command 0 0 prio_ OFPP_ANY OFPG_ANY OFPFF_SEND_FLOW_REM.

Definition sample_output (port : Z) : instruction :=
  Instruction OFPIT_APPLY_ACTIONS 0 0 0 0 [Action None 0 0 (ofp_action_output port 0)] None.

(** Two flows of table 0: the second is placed before the first. *)
Definition sample_bridge1 : bridge :=
  (flowdb_flow_add (sample_flow_mod OFPFC_ADD 10) [in_port_match] [sample_output 1] empty_bridge).2.
Definition sample_bridge : bridge :=
  (flowdb_flow_add (sample_flow_mod OFPFC_ADD 20) tcp_matches [sample_output 2] sample_bridge1).2.

Lemma match_list_ok_dec ms :
  forallb (fun m => (Z.of_nat (length (oxm_value m)) =? oxm_length m) &&
                    forallb (fun b => (0 <=? b) && (b <? 256)) (oxm_value m)) ms = true -> match_list_ok ms.
Proof.
  rewrite forallb_forall. intros H. apply Forall_forall. intros m Hm%list_elem_of_In%H.
  apply andb_true_iff in Hm as [H1 H2]. apply Z.eqb_eq in H1. split; [unfold match_sized; lia|].
  rewrite forallb_forall in H2. apply Forall_forall. intros x Hx%list_elem_of_In%H2. lia.
Qed.

Lemma flowdb_flow_add_inv flow_mod ms il br :
  bridge_inv br -> match_list_ok ms -> 0 <= fm_priority flow_mod -> bridge_inv (flowdb_flow_add flow_mod ms il br).2.
Proof.
  intros Hi Hms Hp. pose proof (flowdb_flow_add_law flow_mod ms il br Hi Hms Hp) as H.
  destruct (flowdb_flow_add flow_mod ms il br) as [[rv e] br']. apply H.
Qed.

Lemma sample_bridge1_inv : bridge_inv sample_bridge1.
Proof. apply flowdb_flow_add_inv; [exact empty_bridge_inv|by apply match_list_ok_dec|done]. Qed.

Lemma sample_bridge_inv : bridge_inv sample_bridge.
Proof. apply flowdb_flow_add_inv; [exact sample_bridge1_inv|by apply match_list_ok_dec|done]. Qed.

Example sample_bridge_flows : flows_of sample_bridge 0 = [1; 0]%nat.
Proof. vm_compute. reflexivity. Qed.

(** ** Properties *)

(** C4: FLOW_MOD ADD ([flowdb_flow_add]) on a bridge whose tables are consistent leaves
    them consistent (sorted lists without duplicates or identical flows, the lookup tree with the same
    flows), whatever the outcome, and changes no other table.  On an error the table's list
    is the same.  On success exactly one flow of the table has the priority, the match and the
    instructions of the command: an identical flow that was there, or a new one placed
    after the flows of its priority or higher; every other flow is untouched. *)
Theorem flowdb_flow_add_correct (flow_mod : ofp_flow_mod) (ms : list match_) (il : list instruction) (br : bridge)
    (Hi : bridge_inv br) (Hms : match_list_ok ms) (Hp : 0 <= fm_priority flow_mod) :
  let '(rv, e, br') := flowdb_flow_add flow_mod ms il br in
  bridge_inv br' /\
  (forall tid, tid <> fm_table_id flow_mod -> br_tables br' !! tid = br_tables br !! tid) /\
  add_outcome flow_mod ms il br br' rv e.
Proof. by apply flowdb_flow_add_law. Qed.

Lemma flowdb_flow_add_correct_witness :
  let '(rv, e, br') := flowdb_flow_add (sample_flow_mod OFPFC_ADD 20) tcp_matches [sample_output 2] sample_bridge1 in
  bridge_inv br' /\
  (forall tid, tid <> 0 -> br_tables br' !! tid = br_tables sample_bridge1 !! tid) /\
  add_outcome (sample_flow_mod OFPFC_ADD 20) tcp_matches [sample_output 2] sample_bridge1 br' rv e.
Proof.
  apply (flowdb_flow_add_correct (sample_flow_mod OFPFC_ADD 20) tcp_matches [sample_output 2] sample_bridge1);
    [exact sample_bridge1_inv|apply match_list_ok_dec; reflexivity|vm_compute; discriminate].
Defined.
