(* ===== verification/FlowDBDelete.v ===== *)
(** * Removing flows

    The theorems about FLOW_MOD DELETE, the removal of one flow and the deletion of groups
    ([flow_del_sub], [flowdb_flow_delete], [flow_remove_with_reason_nolock] and
    [ofp_group_mod_delete]): which flows are left in which order, that the others
    keep their contents, which messages are sent, and that the invariant holds after. *)
From S2P Require Import Prelude OpenFlow Hashmap Endian Shared Packet ActionSet Meter Group DpTimer FlowEntry.
From S2P Require Import ByteMatch FlowinfoIntf FlowinfoTree Bridge FlowDB FlowDBInv FlowDBSpec.

(** ** Compaction *)

Lemma omap_all_none (l : list (option ref)) : (forall o, o ∈ l -> o = None) -> omap id l = [].
Proof.
  induction l as [|o l IH]; intros H; [done|]. cbn. rewrite (H o) by by left. apply IH. intros o' Ho. apply H. by right.
Qed.

Lemma compaction_spec fuel i slots :
  (length slots - i <= fuel)%nat -> (forall k e, (k < i)%nat -> slots !! k = Some e -> e <> None) ->
  compaction fuel i slots = map Some (omap id slots).
Proof.
  assert (forall l : list (option ref), (forall e, e ∈ l -> e <> None) -> l = map Some (omap id l)) as Hall.
  { induction l as [|[x|] l IH]; intros H; cbn; [done| |by destruct (H None (list_elem_of_here _ _))].
    f_equal. apply IH. intros e He. apply H. by right. }
  revert i slots. induction fuel as [|fuel IH]; intros i slots Hlen Hpre; cbn [compaction].
  { apply Hall. intros e (k & Hk)%list_elem_of_lookup. eapply Hpre; [|exact Hk].
    apply lookup_lt_Some in Hk. lia. }
  destruct (slots !! i) as [[x|]|] eqn:Ei.
  - apply IH; [lia|]. intros k e Hk He. destruct (decide (k = i)) as [->|]; [congruence|].
    eapply Hpre; [|exact He]. lia.
  - pose proof (lookup_lt_Some _ _ _ Ei) as Hi.
    destruct (list_find _ (drop i slots)) as [[d e]|] eqn:Ef.
    + apply list_find_Some in Ef as (Hd & He & Hbefore). rewrite lookup_drop in Hd.
      assert (omap id (take i slots ++ drop (i + d) slots) = omap id slots) as <-.
      { rewrite <- (take_drop i slots) at 3. rewrite !omap_app. f_equal.
        rewrite <- (take_drop d (drop i slots)), omap_app, drop_drop.
        replace (omap id (take d (drop i slots))) with (@nil ref); [done|].
        symmetry. apply omap_all_none. intros o (k & Hk)%list_elem_of_lookup.
        apply lookup_take_Some in Hk as [Hk Hlt]. specialize (Hbefore k o Hk Hlt).
        destruct o; [by destruct Hbefore|done]. }
      apply lookup_lt_Some in Hd as Hdl. apply IH; [rewrite length_app, length_take, length_drop; lia|].
      intros k e' Hk He'. destruct (decide (k = i)) as [->|].
      * rewrite lookup_app_r, length_take, Nat.min_l, Nat.sub_diag, lookup_drop, Nat.add_0_r in He'
          by (rewrite ?length_take; lia). congruence.
      * rewrite lookup_app_l, lookup_take_lt in He' by (rewrite ?length_take; lia).
        eapply Hpre; [|exact He']. lia.
    + apply list_find_None in Ef.
      assert (omap id (drop i slots) = []) as En.
      { apply omap_all_none. intros o Ho. rewrite Forall_forall in Ef. specialize (Ef o Ho).
        destruct o; [by destruct Ef|done]. }
      rewrite <- (take_drop i slots) at 2. rewrite omap_app, En, app_nil_r. apply Hall.
      intros e (k & Hk)%list_elem_of_lookup. apply lookup_take_Some in Hk as [Hk Hlt]. by eapply Hpre.
  - apply lookup_ge_None in Ei. apply Hall. intros e (k & Hk)%list_elem_of_lookup.
    eapply Hpre; [|exact Hk]. apply lookup_lt_Some in Hk. lia.
Qed.

Lemma flows_of_compaction slots : flows_of_slots (compaction (length slots) 0 slots) = omap id slots.
Proof.
  rewrite compaction_spec by (intros; lia). unfold flows_of_slots. induction (omap id slots) as [|x l IH]; [done|].
  cbn. by f_equal.
Qed.

Lemma list_filter_ext {A} (P Q : A -> Prop) `{!forall x, Decision (P x), !forall x, Decision (Q x)} (l : list A) :
  (forall x, x ∈ l -> P x <-> Q x) -> filter P l = filter Q l.
Proof.
  induction l as [|x l IH]; intros Hpq; [done|]. rewrite !filter_cons, IH by (intros y Hy; apply Hpq; by right).
  pose proof (Hpq x (list_elem_of_here _ _)). by do 2 case_decide; try tauto.
Qed.

Lemma list_filter_all {A} (P : A -> Prop) `{!forall x, Decision (P x)} (l : list A) :
  (forall x, x ∈ l -> P x) -> filter P l = l.
Proof.
  induction l as [|x l IH]; intros Hp; [done|]. rewrite filter_cons_True by (apply Hp; by left).
  f_equal. apply IH. intros y Hy. apply Hp. by right.
Qed.

Lemma list_filter_none {A} (P : A -> Prop) `{!forall x, Decision (P x)} (l : list A) :
  (forall x, x ∈ l -> ~ P x) -> filter P l = [].
Proof.
  induction l as [|x l IH]; intros Hp; [done|]. rewrite filter_cons_False by (apply Hp; by left).
  apply IH. intros y Hy. apply Hp. by right.
Qed.

Lemma flat_map_ext_in {A B} (f g : A -> list B) (l : list A) :
  (forall x, x ∈ l -> f x = g x) -> flat_map f l = flat_map g l.
Proof.
  intros H. rewrite !flat_map_concat_map. f_equal. apply map_ext_in. intros x Hx. apply H. by apply list_elem_of_In.
Qed.

(** ** One removal *)

(** The message for a removed flow that asked for one. *)
Definition removal_message (now : timespec) (reason : Z) (f : flow) : list flow_removed :=
  if Z.land (fl_flags f) OFPFF_SEND_FLOW_REM =? 0 then [] else [flow_removed_message now f reason].

Lemma unlink_fields tid r br :
  br_flows (unlink_flow tid r br) = br_flows br /\ br_events (unlink_flow tid r br) = br_events br /\
  br_now (unlink_flow tid r br) = br_now br.
Proof.
  unfold unlink_flow. set (b1 := del_flow_hook tid r br).
  destruct (refs_only_fields _ _ (refs_del_group r b1)) as (F1 & _ & _ & _ & E1 & W1 & _).
  destruct (refs_only_fields _ _ (refs_del_meter r (flow_del_from_group r b1))) as (F2 & _ & _ & _ & E2 & W2 & _).
  rewrite F2, E2, W2, F1, E1, W1. unfold b1, del_flow_hook. by destruct (br_tables br !! tid).
Qed.

Lemma free_events r br : br_events (flow_free r br) = br_events br.
Proof. unfold flow_free. by destruct (fl_flow_timer _). Qed.

Lemma remove_flow_events tid r reason br :
  br_events (remove_flow tid r r reason br) = br_events br ++ removal_message (br_now br) reason (the_flow br r).
Proof.
  unfold remove_flow. rewrite free_events. destruct (unlink_fields tid r br) as (F & E & W).
  assert (the_flow (unlink_flow tid r br) r = the_flow br r) as Ef by (unfold the_flow; by rewrite F).
  unfold notify_removed, removal_message, send_flow_removed. rewrite Ef. destruct (_ =? 0); cbn; rewrite E, ?Ef, ?W, ?app_nil_r; reflexivity.
Qed.

(** [br'] is [br] without some flows of the table [tid]. *)
Record removed_from (tid : Z) (gone : ref -> bool) (l : list ref) (reason : Z) (br br' : bridge) : Prop := {
  rf_tables : forall tid', tid' <> tid -> br_tables br' !! tid' = br_tables br !! tid';
  rf_fresh : br_fresh br' = br_fresh br;
  rf_now : br_now br' = br_now br;
  rf_flows : forall x, ~ (x ∈ l /\ gone x = true) -> br_flows br' !! x = br_flows br !! x;
  rf_events : br_events br' =
    br_events br ++ flat_map (fun r => removal_message (br_now br) reason (the_flow br r)) (filter (fun r => gone r = true) l)
}.

Lemma delete_loop_law tid flow_mod ms flows : forall pre br,
  is_Some (br_tables br !! tid) -> bridge_inv (with_flows tid (pre ++ flows) br) -> NoDup flows ->
  let gone r := delete_matches flow_mod ms (the_flow br r) in
  let '(slots, br') := delete_loop tid flow_mod ms flows br in
  omap id slots = filter (fun r => gone r = false) flows /\
  bridge_inv (with_flows tid (pre ++ omap id slots) br') /\ is_Some (br_tables br' !! tid) /\
  removed_from tid gone flows OFPRR_DELETE br br'.
Proof.
  induction flows as [|r flows IH]; intros pre br [t Ht] Hi Hnd gone.
  { cbn. split_and!; [done|done|by exists t|]. split; try done. cbn. by rewrite app_nil_r. }
  cbn [delete_loop]. apply NoDup_cons in Hnd as [Hr Hnd].
  fold (gone r). destruct (gone r) eqn:Eg.
  - fold (remove_flow tid r r OFPRR_DELETE br).
    destruct (remove_flow_fields tid t r r OFPRR_DELETE br Ht) as (T & N & W & F & Fr & _).
    pose proof (remove_flow_events tid r OFPRR_DELETE br) as Ev.
    assert (bridge_inv (with_flows tid (pre ++ flows) (remove_flow tid r r OFPRR_DELETE br))) as Hi'.
    { eapply (remove_flow_law tid t); [done|exact Hi| | |by left].
      - apply sublist_app; [done|]. by constructor.
      - by rewrite Permutation_middle. }
    set (br1 := remove_flow tid r r OFPRR_DELETE br) in *. clearbody br1.
    assert (is_Some (br_tables br1 !! tid)) as Ht1 by (rewrite T, lookup_insert_eq; by eexists).
    assert (forall x, x ∈ flows -> the_flow br1 x = the_flow br x) as Hsame.
    { intros x Hx. assert (x <> r) by (intros ->; done). unfold the_flow. by rewrite !lookup_total_alt, F. }
    specialize (IH pre br1 Ht1 Hi' Hnd). cbv zeta in IH.
    destruct (delete_loop tid flow_mod ms flows br1) as [slots br']. destruct IH as (H1 & H2 & H3 & H4). cbn [omap list_omap id].
    assert (filter (fun r0 => delete_matches flow_mod ms (the_flow br1 r0) = true) flows =
            filter (fun r0 => gone r0 = true) flows) as Eft.
    { apply list_filter_ext. intros x Hx. unfold gone. by rewrite Hsame. }
    assert (filter (fun r0 => delete_matches flow_mod ms (the_flow br1 r0) = false) flows =
            filter (fun r0 => gone r0 = false) flows) as Eff.
    { apply list_filter_ext. intros x Hx. unfold gone. by rewrite Hsame. }
    split_and!; [|done|done|].
    + rewrite H1, Eff, (filter_cons_False _ r); [done|]. by rewrite Eg.
    + destruct H4 as [G1 G2 G3 G4 G5]. split; try congruence.
      * intros tid' Hne. rewrite G1, T by done. by rewrite lookup_insert_ne.
      * intros x Hx. assert (x <> r) as Hxr by (intros ->; apply Hx; split; [by left|done]).
        rewrite G4; [by apply F|]. intros [Hin Hd]. apply Hx. split; [by right|]. unfold gone. by rewrite <- Hsame.
      * rewrite G5, Ev, Eft, W, filter_cons_True by done. cbn [flat_map]. rewrite app_assoc. f_equal.
        rewrite !flat_map_concat_map. f_equal. apply map_ext_in. intros x Hx%list_elem_of_In.
        apply list_elem_of_filter in Hx as [_ Hx]. by rewrite Hsame.
  - assert (bridge_inv (with_flows tid ((pre ++ [r]) ++ flows) br)) as Hi' by by rewrite <- app_assoc.
    specialize (IH (pre ++ [r]) br ltac:(by exists t) Hi' Hnd). cbv zeta in IH.
    destruct (delete_loop tid flow_mod ms flows br) as [slots br']. destruct IH as (H1 & H2 & H3 & H4).
    split_and!; [| |done|].
    + rewrite (filter_cons_True _ r) by done. change (omap id (Some r :: slots)) with (r :: omap id slots). by rewrite H1.
    + change (omap id (Some r :: slots)) with ([r] ++ omap id slots). by rewrite app_assoc.
    + destruct H4 as [G1 G2 G3 G4 G5]. split; try done.
      * intros x Hx. apply G4. intros [Hin Hd]. apply Hx. split; [by right|done].
      * rewrite G5, filter_cons_False; [done|]. by rewrite Eg.
Qed.

(** ** Deletion in one table *)

Lemma with_flows_id tid t br : br_tables br !! tid = Some t -> with_flows tid (tb_flows t) br = br.
Proof.
  intros Ht. unfold with_flows, upd_table.
  assert (alter (set_tb_flows (tb_flows t)) tid (br_tables br) = br_tables br) as ->; [|by destruct br].
  apply map_eq. intros i. destruct (decide (i = tid)) as [->|]; [|by rewrite lookup_alter_ne].
  rewrite lookup_alter_eq, Ht. by destruct t.
Qed.

Lemma with_flows_of tid l br : is_Some (br_tables br !! tid) -> flows_of (with_flows tid l br) tid = l.
Proof. intros [t Ht]. unfold flows_of. cbn. by rewrite lookup_alter_eq, Ht. Qed.

(** What a deletion in the table [tid] does when [gone] says which flows go. *)
Definition table_deleted (tid : Z) (gone : ref -> bool) (reason : Z) (br br' : bridge) : Prop :=
  bridge_inv br' /\ flows_of br' tid = filter (fun r => gone r = false) (flows_of br tid) /\
  removed_from tid gone (flows_of br tid) reason br br'.

Lemma removed_from_with_flows tid gone l reason br br' k :
  removed_from tid gone l reason br br' -> removed_from tid gone l reason br (with_flows tid k br').
Proof.
  intros [G1 G2 G3 G4 G5]. split; try done. intros tid' Hne. cbn. rewrite lookup_alter_ne by done. by apply G1.
Qed.

Lemma flow_del_sub_nonstrict tid flow_mod ms br :
  bridge_inv br -> is_Some (br_tables br !! tid) ->
  let '(ms', br') := flow_del_sub tid flow_mod ms false br in
  ms' = ms /\ table_deleted tid (fun r => delete_matches flow_mod ms (the_flow br r)) OFPRR_DELETE br br'.
Proof.
  intros Hi [t Ht]. unfold flow_del_sub. rewrite Ht.
  pose proof (delete_loop_law tid flow_mod ms (tb_flows t) [] br ltac:(by eexists)) as H. cbn [app] in H.
  rewrite (with_flows_id tid t br Ht) in H. specialize (H Hi (tv_nodup _ _ _ (bi_table _ Hi _ _ Ht))).
  destruct (delete_loop _ _ _ _ br) as [slots br']. destruct H as (H1 & H2 & H3 & H4). cbv zeta.
  rewrite flows_of_compaction. fold (with_flows tid (omap id slots) br'). split; [done|].
  unfold table_deleted, flows_of at 2 3. rewrite Ht, (with_flows_of tid (omap id slots) br' H3).
  split_and!; [done|exact H1|by apply removed_from_with_flows].
Qed.

Lemma list_find_unique (p : ref -> bool) l :
  NoDup l -> (forall x y, x ∈ l -> y ∈ l -> p x = true -> p y = true -> x = y) ->
  match list_find (fun x => p x = true) l with
  | Some (i, r) => l !! i = Some r /\ p r = true /\ remove_at i l = filter (fun x => p x = false) l
  | None => filter (fun x => p x = false) l = l
  end.
Proof.
  induction l as [|x l IH]; intros Hnd Hu; [done|]. apply NoDup_cons in Hnd as [Hx Hnd]. cbn [list_find].
  destruct (decide (p x = true)) as [E|E].
  - split; [done|]. split; [done|]. rewrite filter_cons_False by congruence.
    change (remove_at 0 (x :: l)) with l. symmetry. apply list_filter_all. intros y Hy.
    apply not_true_is_false. intros Ey. assert (x = y) as -> by (apply Hu; [by left|by right|done|done]). done.
  - apply not_true_is_false in E. specialize (IH Hnd).
    destruct (list_find (fun x => p x = true) l) as [[i r]|]; rewrite filter_cons_True by done.
    + destruct IH as (H1 & H2 & H3); [intros; apply Hu; by try right|].
      split_and!; [exact H1|exact H2|exact (f_equal (cons x) H3)].
    + cbn [fmap option_fmap option_map]. f_equal. apply IH. intros; apply Hu; by try right.
Qed.

Lemma remove_at_with_flows tid t i l br :
  br_tables br !! tid = Some t -> tb_flows t = l ->
  upd_table tid (fun t => set_tb_flows (remove_at i (tb_flows t)) t) br = with_flows tid (remove_at i l) br.
Proof.
  intros Ht <-. unfold with_flows, upd_table. f_equal. apply map_eq. intros k.
  destruct (decide (k = tid)) as [->|]; [|by rewrite !lookup_alter_ne]. by rewrite !lookup_alter_eq, Ht.
Qed.

(** One listed flow goes; [msg] is the flow the message is made of. *)
Definition remove_listed (tid : Z) (i : nat) (r msg : ref) (reason : Z) (br : bridge) : bridge :=
  upd_table tid (fun t => set_tb_flows (remove_at i (tb_flows t)) t) (remove_flow tid r msg reason br).

Lemma remove_at_sublist {A} i (l : list A) : sublist (remove_at i l) l.
Proof.
  unfold remove_at. rewrite <- (take_drop i l) at 3. apply sublist_app; [done|].
  replace (S i) with (i + 1)%nat by lia. rewrite <- drop_drop. apply sublist_drop.
Qed.

Lemma remove_listed_law tid t i r msg reason br :
  bridge_inv br -> br_tables br !! tid = Some t -> tb_flows t !! i = Some r -> (msg = r \/ ~ installed br msg) ->
  let br' := remove_listed tid i r msg reason br in
  bridge_inv br' /\ flows_of br' tid = remove_at i (tb_flows t) /\
  (forall tid', tid' <> tid -> br_tables br' !! tid' = br_tables br !! tid') /\
  br_fresh br' = br_fresh br /\ br_now br' = br_now br /\
  (forall x, x <> r -> x <> msg -> br_flows br' !! x = br_flows br !! x) /\
  br_events br' = br_events (remove_flow tid r msg reason br).
Proof.
  intros Hi Ht Hr Hmsg. cbv zeta. unfold remove_listed.
  destruct (remove_flow_fields tid t r msg reason br Ht) as (T & N & W & F & _).
  pose proof (with_flows_id tid t br Ht) as Hid.
  assert (bridge_inv (with_flows tid (remove_at i (tb_flows t)) (remove_flow tid r msg reason br))) as Hi'.
  { apply (remove_flow_law tid t r msg reason (tb_flows t)); rewrite ?Hid; try done.
    - apply remove_at_sublist.
    - by apply remove_at_perm. }
  set (br1 := remove_flow tid r msg reason br) in *. clearbody br1.
  assert (br_tables br1 !! tid = Some (set_tb_userdata (del_flow (br_flows br) (tb_userdata t) r) t)) as Ht1
    by (by rewrite T, lookup_insert_eq).
  rewrite (remove_at_with_flows tid _ i (tb_flows t) br1 Ht1) by done. split_and!; try done.
  - apply with_flows_of. by eexists.
  - intros tid' Hne. cbn. by rewrite lookup_alter_ne, T, lookup_insert_ne by done.
Qed.

(** ** The strict deletion *)

(** The test of the strict commands against a flow: same priority, same fields, same matches. *)
Definition strict_matches (flow_mod : ofp_flow_mod) (ms : list match_) (f : flow) : bool :=
  (fm_priority flow_mod =? fl_priority f) && ((pre_requisite_loop 0 ms).1 =? fl_field_bits f)
  && match_list_same ms (fl_match_list f).

(** The message of the strict deletion is that of the command's own temporary flow. *)
Definition strict_message (flow_mod : ofp_flow_mod) (ms : list match_) (now : timespec) (f : flow) : list flow_removed :=
  if Z.land (fl_flags f) OFPFF_SEND_FLOW_REM =? 0 then []
  else [FlowRemoved (fm_cookie flow_mod) (u16 (fm_priority flow_mod)) OFPRR_DELETE 0 (duration now now)
          (fm_idle_timeout flow_mod) (fm_hard_timeout flow_mod)
          (removed_count (fm_flags flow_mod) OFPFF_NO_PKT_COUNTS 0)
          (removed_count (fm_flags flow_mod) OFPFF_NO_BYT_COUNTS 0) ms].

Definition strict_deleted (tid : Z) (flow_mod : ofp_flow_mod) (ms : list match_) (br br' : bridge) : Prop :=
  let gone r := strict_matches flow_mod ms (the_flow br r) in
  bridge_inv br' /\ flows_of br' tid = filter (fun r => gone r = false) (flows_of br tid) /\
  (forall tid', tid' <> tid -> br_tables br' !! tid' = br_tables br !! tid') /\
  (forall x, installed br x -> ~ (x ∈ flows_of br tid /\ gone x = true) -> the_flow br' x = the_flow br x) /\
  br_events br' = br_events br ++
    flat_map (fun r => strict_message flow_mod ms (br_now br) (the_flow br r)) (filter (fun r => gone r = true) (flows_of br tid)).

Lemma flow_alloc_empty flow_mod ms now :
  flow_alloc flow_mod ms [] now =
    inl (Flow (replicate MAX_BASE byteoff_zero) (replicate INSTRUCTION_INDEX_MAX None) 0 0 (fm_flags flow_mod)
           (fm_priority flow_mod) (fm_cookie flow_mod) (fm_idle_timeout flow_mod) (fm_hard_timeout flow_mod)
           ms [] 0 0 now now None).
Proof. reflexivity. Qed.

Lemma remove_flow_strict_events tid r msg f reason br :
  the_flow br msg = f ->
  br_events (remove_flow tid r msg reason br) = br_events br ++
    (if Z.land (fl_flags (the_flow br r)) OFPFF_SEND_FLOW_REM =? 0 then [] else [flow_removed_message (br_now br) f reason]).
Proof.
  intros <-. unfold remove_flow. rewrite free_events. destruct (unlink_fields tid r br) as (F & E & W).
  assert (the_flow (unlink_flow tid r br) = the_flow br) as Ef by (unfold the_flow; by rewrite F).
  unfold notify_removed, send_flow_removed. rewrite Ef. destruct (_ =? 0); cbn; rewrite E, ?Ef, ?W, ?app_nil_r; reflexivity.
Qed.

(** The part of the strict [flow_del_sub] after the checks, [flow] being the temporary flow. *)
Definition strict_delete_tail (table_id : Z) (flow : ref) (t : table) (br : bridge) : list match_ * bridge :=
  match list_find (fun r => flow_compare (the_flow br flow) (the_flow br r) = true) (tb_flows t) with
  | Some (i, r) => ([], flow_free flow (remove_listed table_id i r flow OFPRR_DELETE br))
  | None => ([], flow_free flow br)
  end.

Lemma strict_delete_tail_law tid t flow br :
  bridge_inv br -> br_tables br !! tid = Some t -> ~ installed br flow ->
  let gone r := flow_compare (the_flow br flow) (the_flow br r) in
  let '(ms', br') := strict_delete_tail tid flow t br in
  ms' = [] /\ bridge_inv br' /\ flows_of br' tid = filter (fun r => gone r = false) (tb_flows t) /\
  (forall tid', tid' <> tid -> br_tables br' !! tid' = br_tables br !! tid') /\
  (forall x, x <> flow -> ~ (x ∈ tb_flows t /\ gone x = true) -> the_flow br' x = the_flow br x) /\
  br_events br' = br_events br ++
    flat_map (fun r => if Z.land (fl_flags (the_flow br r)) OFPFF_SEND_FLOW_REM =? 0 then []
                       else [flow_removed_message (br_now br) (the_flow br flow) OFPRR_DELETE])
      (filter (fun r => gone r = true) (tb_flows t)).
Proof.
  intros Hi Ht Hn gone. unfold strict_delete_tail.
  pose proof (bi_table _ Hi _ _ Ht) as Htv.
  pose proof (list_find_unique gone (tb_flows t) (tv_nodup _ _ _ Htv)) as H.
  fold gone. change (fun r => flow_compare (the_flow br flow) (the_flow br r) = true) with (fun r => gone r = true).
  assert (forall b, frame [flow] b (flow_free flow b)) as Hfree by (intros b; apply frame_free; by left).
  assert (forall b x, x <> flow -> the_flow (flow_free flow b) x = the_flow b x) as Hfl
    by (intros b x Hx; unfold the_flow; rewrite free_flows, !lookup_total_alt, lookup_delete_ne by done; done).
  destruct (list_find (fun r => gone r = true) (tb_flows t)) as [[i r]|].
  - destruct H as (H1 & H2 & H3).
    { intros x y Hx Hy Ex Ey. apply (tv_distinct _ _ _ Htv); [done|done|].
      eapply flow_compare_trans; [apply flow_compare_sym, Ex|exact Ey]. }
    destruct (remove_listed_law tid t i r flow OFPRR_DELETE br Hi Ht H1 ltac:(by right)) as (L1 & L2 & L3 & L4 & L5 & L6 & L7).
    pose proof (remove_flow_strict_events tid r flow _ OFPRR_DELETE br eq_refl) as Ev.
    set (br1 := remove_listed tid i r flow OFPRR_DELETE br) in *. clearbody br1.
    pose proof (fr_tables _ _ _ (Hfree br1)) as T1.
    assert (~ installed br1 flow) as Hn1.
    { intros (tid' & t' & Ht' & Hin). destruct (decide (tid' = tid)) as [->|Hne].
      - apply Hn. exists tid, t. split; [done|]. unfold flows_of in L2. rewrite Ht' in L2. rewrite L2 in Hin.
        rewrite H3 in Hin. by apply list_elem_of_filter in Hin as [_ ?].
      - rewrite L3 in Ht' by done. apply Hn. by exists tid', t'. }
    split_and!; [done| | | | |].
    + eapply frame_inv; [apply Hfree| |done]. by intros x ->%list_elem_of_singleton.
    + unfold flows_of in *. by rewrite T1, L2, H3.
    + intros tid' Hne. rewrite T1. by apply L3.
    + intros x Hx Hg. rewrite Hfl by done. unfold the_flow. rewrite !lookup_total_alt, L6; [done| |done].
      intros ->. apply Hg. split; [by apply list_elem_of_lookup_2 in H1|done].
    + rewrite free_events, L7, Ev. f_equal.
      assert (filter (fun r => gone r = true) (tb_flows t) = [r]) as ->; [|cbn [flat_map]; by rewrite app_nil_r].
      pose proof (remove_at_perm i r _ H1) as Hp. rewrite H3 in Hp.
      assert (filter (fun r => gone r = true) (tb_flows t) ≡ₚ [r]) as Hp1; [|by apply Permutation_singleton_r in Hp1].
      rewrite Hp, filter_cons_True by done. rewrite (list_filter_none _ (filter _ _)); [done|].
      intros x [Hx _]%list_elem_of_filter. congruence.
  - assert (filter (fun x => gone x = false) (tb_flows t) = tb_flows t) as He.
    { apply H. intros x y Hx Hy Ex Ey. apply (tv_distinct _ _ _ Htv); [done|done|].
      eapply flow_compare_trans; [apply flow_compare_sym, Ex|exact Ey]. }
    pose proof (fr_tables _ _ _ (Hfree br)) as T1. split_and!; [done| | | | |].
    + eapply frame_inv; [apply Hfree| |done]. by intros x ->%list_elem_of_singleton.
    + unfold flows_of in *. by rewrite T1, Ht, He.
    + intros tid' _. by rewrite T1.
    + intros x Hx _. by apply Hfl.
    + rewrite free_events. rewrite list_filter_none; [cbn [flat_map]; by rewrite app_nil_r|]. intros x Hx Ex.
      rewrite <- He in Hx. apply list_elem_of_filter in Hx as [Hx _]. congruence.
Qed.

Lemma flow_del_sub_strict tid t flow_mod ms br :
  br_tables br !! tid = Some t ->
  flow_del_sub tid flow_mod ms true br =
    let '(bits, e) := pre_requisite_loop 0 ms in
    let '(flow, br) := new_flow (Flow (replicate MAX_BASE byteoff_zero) (replicate INSTRUCTION_INDEX_MAX None) 0 0
        (fm_flags flow_mod) (fm_priority flow_mod) (fm_cookie flow_mod) (fm_idle_timeout flow_mod)
        (fm_hard_timeout flow_mod) ms [] bits 0 (br_now br) (br_now br) None) br in
    match e with Some _ => ([], br) | None => strict_delete_tail tid flow t br end.
Proof.
  intros Ht. unfold flow_del_sub. rewrite Ht, flow_alloc_empty. unfold flow_pre_requisite_check.
  cbn [fl_match_list]. destruct (pre_requisite_loop 0 ms) as [bits e]. reflexivity.
Qed.

Lemma flow_del_sub_strict_law tid flow_mod ms br :
  bridge_inv br -> is_Some (br_tables br !! tid) -> (pre_requisite_loop 0 ms).2 = None ->
  let '(ms', br') := flow_del_sub tid flow_mod ms true br in
  ms' = [] /\ strict_deleted tid flow_mod ms br br'.
Proof.
  intros Hi [t Ht] He. rewrite (flow_del_sub_strict tid t) by done. unfold strict_deleted, strict_matches.
  destruct (pre_requisite_loop 0 ms) as [bits e]. cbn [snd] in He. subst e. cbn [fst].
  set (f := Flow _ _ _ _ _ _ _ _ _ _ _ _ _ _ _ _).
  pose proof (new_flow_law f br Hi) as H. assert (br_events (new_flow f br).2 = br_events br) as En by done.
  assert (br_now (new_flow f br).2 = br_now br) as Wn by done.
  destruct (new_flow f br) as [flow br2]. cbn [snd] in En, Wn.
  destruct H as (H1 & H2 & H3 & H4 & H5 & H6 & H7).
  assert (br_tables br2 !! tid = Some t) as Ht2 by by rewrite H5.
  pose proof (strict_delete_tail_law tid t flow br2 H3 Ht2 H7) as H. cbv zeta in H.
  destruct (strict_delete_tail tid flow t br2) as [ms' br']. destruct H as (T1 & T2 & T3 & T4 & T5 & T6).
  assert (forall x, x <> flow -> the_flow br2 x = the_flow br x) as Hsame
    by (intros x Hx; unfold the_flow; by rewrite H4, lookup_total_insert_ne by done).
  assert (forall x, x ∈ tb_flows t -> x <> flow) as Hin by (intros x Hx ->; apply H2; by exists tid, t).
  assert (flows_of br tid = tb_flows t) as Efl by (unfold flows_of; by rewrite Ht).
  rewrite Efl. rewrite H6 in T3, T5, T6.
  assert (forall x, x ∈ tb_flows t -> flow_compare f (the_flow br2 x) = (fm_priority flow_mod =? fl_priority (the_flow br x)) &&
            (bits =? fl_field_bits (the_flow br x)) && match_list_same ms (fl_match_list (the_flow br x))) as Hc
    by (intros x Hx; rewrite Hsame by auto; done).
  split; [done|]. split; [done|]. split; [|split; [|split]].
  - rewrite T3. apply list_filter_ext. intros x Hx. by rewrite Hc.
  - intros tid' Hne. by rewrite T4, H5.
  - intros x Hx Hg. assert (x <> flow) as Hxf by (intros ->; done). rewrite T5; [by apply Hsame|done|].
    intros [Hxt Hgx]. apply Hg. split; [done|]. by rewrite <- Hc.
  - rewrite T6, En, Wn. f_equal.
    rewrite (list_filter_ext (fun r => flow_compare f (the_flow br2 r) = true)
      (fun r => (fm_priority flow_mod =? fl_priority (the_flow br r)) && (bits =? fl_field_bits (the_flow br r)) &&
         match_list_same ms (fl_match_list (the_flow br r)) = true)) by (intros x Hx; by rewrite Hc).
    rewrite !flat_map_concat_map. f_equal. apply map_ext_in. intros x Hx%list_elem_of_In.
    apply list_elem_of_filter in Hx as [_ Hx]. rewrite Hsame by auto. reflexivity.
Qed.

(** ** The commands *)

(** The tables a deletion goes over. *)
Definition delete_scope (flow_mod : ofp_flow_mod) (br : bridge) : list Z :=
  if fm_table_id flow_mod =? OFPTT_ALL then table_ids FLOWDB_TABLE_SIZE_MAX br else [fm_table_id flow_mod].

Lemma bridge_disjoint br tid tid' x :
  bridge_inv br -> x ∈ flows_of br tid -> x ∈ flows_of br tid' -> tid = tid'.
Proof.
  unfold flows_of. intros [B1 _]. destruct (br_tables br !! tid) as [t|] eqn:E; [|by intros ?%elem_of_nil].
  destruct (br_tables br !! tid') as [t'|] eqn:E'; [|by intros _ ?%elem_of_nil]. intros Hx Hx'.
  rewrite <- (eo_table _ _ _ (tv_entry _ _ _ (B1 _ _ E) x Hx)).
  apply (eo_table _ _ _ (tv_entry _ _ _ (B1 _ _ E') x Hx')).
Qed.

(** What the non-strict deletion leaves and reports, over the tables [tids]. *)
Definition deleted_over (tids : list Z) (flow_mod : ofp_flow_mod) (ms : list match_) (br br' : bridge) : Prop :=
  let gone r := delete_matches flow_mod ms (the_flow br r) in
  bridge_inv br' /\
  (forall tid, flows_of br' tid = if bool_decide (tid ∈ tids) then filter (fun r => gone r = false) (flows_of br tid)
                                  else flows_of br tid) /\
  (forall x, (forall tid, tid ∈ tids -> x ∈ flows_of br tid -> gone x = false) -> the_flow br' x = the_flow br x) /\
  br_events br' = br_events br ++
    flat_map (fun r => removal_message (br_now br) OFPRR_DELETE (the_flow br r))
      (filter (fun r => gone r = true) (flat_map (flows_of br) tids)).

Lemma flows_of_tables br br' tid : br_tables br' !! tid = br_tables br !! tid -> flows_of br' tid = flows_of br tid.
Proof. unfold flows_of. by intros ->. Qed.

Lemma delete_fold_law flow_mod ms tids : forall br,
  bridge_inv br -> NoDup tids -> (forall tid, tid ∈ tids -> is_Some (br_tables br !! tid)) ->
  let '(ms', br') := foldl (fun '(ml, br) table_id => flow_del_sub table_id flow_mod ml false br) (ms, br) tids in
  ms' = ms /\ deleted_over tids flow_mod ms br br'.
Proof.
  induction tids as [|tid tids IH]; intros br Hi Hnd Ht; cbn [foldl].
  { split; [done|]. split_and!; [done|done|done|]. cbn. by rewrite app_nil_r. }
  apply NoDup_cons in Hnd as [Hnin Hnd].
  pose proof (flow_del_sub_nonstrict tid flow_mod ms br Hi (Ht tid (list_elem_of_here _ _))) as H.
  destruct (flow_del_sub tid flow_mod ms false br) as [ms1 br1]. destruct H as (-> & D1 & D2 & [D3 _ D4 D5 D6]).
  assert (forall tid', tid' ∈ tids -> tid' <> tid) as Hne by (intros tid' H ->; done).
  specialize (IH br1 D1 Hnd). destruct (foldl _ (ms, br1) tids) as [ms2 br'].
  destruct IH as (-> & R1 & R2 & R3 & R4); [intros tid' H; rewrite D3 by auto; apply Ht; by right|].
  assert (forall tid', tid' ∈ tids -> flows_of br1 tid' = flows_of br tid') as Efl
    by (intros tid' H; apply flows_of_tables, D3; auto).
  assert (forall tid' x, tid' ∈ tids -> x ∈ flows_of br tid' -> the_flow br1 x = the_flow br x) as Hsame.
  { intros tid' x H Hx. unfold the_flow. rewrite !lookup_total_alt, D5; [done|]. intros [Hx' _].
    apply (Hne tid' H). by apply (bridge_disjoint br tid' tid x). }
  split; [done|]. split; [done|]. split; [|split].
  - intros tid'. rewrite R2. destruct (decide (tid' = tid)) as [->|Hn].
    + rewrite (bool_decide_eq_false_2 (tid ∈ tids)), (bool_decide_eq_true_2 (tid ∈ _)) by (done || by left). exact D2.
    + destruct (decide (tid' ∈ tids)) as [Hin|Hin].
      * rewrite !bool_decide_eq_true_2, Efl by (done || by right). apply list_filter_ext.
        intros x Hx. by rewrite (Hsame tid' x).
      * rewrite !bool_decide_eq_false_2; [|set_solver|done]. by apply flows_of_tables, D3.
  - intros x Hx. rewrite R3.
    + unfold the_flow. rewrite !lookup_total_alt, D5; [done|]. intros [Hin Hg].
      rewrite (Hx tid) in Hg by (done || by left). done.
    + intros tid' H Hx'. rewrite Efl in Hx' by done. rewrite (Hsame tid' x) by done.
      apply (Hx tid'); [by right|done].
  - rewrite R4, D6, <- app_assoc, D4. f_equal. cbn [flat_map]. rewrite filter_app, flat_map_app. f_equal.
    rewrite (flat_map_ext_in (flows_of br1) (flows_of br)) by done.
    assert (forall x, x ∈ flat_map (flows_of br) tids -> the_flow br1 x = the_flow br x) as Hs.
    { intros x (tid' & H & Hx)%list_elem_of_In%in_flat_map. apply (Hsame tid'); by apply list_elem_of_In. }
    rewrite (list_filter_ext _ (fun r => delete_matches flow_mod ms (the_flow br r) = true)) by (intros x Hx; by rewrite Hs).
    apply flat_map_ext_in. intros x [_ Hx]%list_elem_of_filter. by rewrite Hs.
Qed.

Lemma get_table_events tid br : br_events (flowdb_get_table tid br).2 = br_events br.
Proof. unfold flowdb_get_table. by destruct (br_tables br !! tid). Qed.

Lemma flow_delete_nonstrict_law flow_mod ms br :
  bridge_inv br -> fm_command flow_mod <> OFPFC_DELETE_STRICT -> (pre_requisite_loop 0 ms).2 = None ->
  let '(rv, e, br') := flowdb_flow_delete flow_mod ms br in
  rv = LAGOPUS_RESULT_OK /\ e = None /\ deleted_over (delete_scope flow_mod br) flow_mod ms br br'.
Proof.
  intros Hi Hcmd Hpre. unfold flowdb_flow_delete, flow_pre_requisite_check. cbn [fl_match_list set_fl_match_list].
  destruct (pre_requisite_loop 0 ms) as [bits e]. cbn [snd] in *. subst e.
  rewrite (proj2 (Z.eqb_neq _ _) Hcmd). unfold delete_scope. destruct (_ =? OFPTT_ALL).
  - pose proof (delete_fold_law flow_mod ms (table_ids FLOWDB_TABLE_SIZE_MAX br) br Hi) as H.
    destruct (foldl _ _ _) as [ms' br']. split; [done|]. split; [done|]. apply H.
    + apply NoDup_filter, NoDup_seqZ.
    + by intros tid [? _]%list_elem_of_filter.
  - pose proof (get_table_law (fm_table_id flow_mod) br Hi) as H.
    pose proof (get_table_events (fm_table_id flow_mod) br) as Hev.
    destruct (flowdb_get_table _ br) as [t br1]. cbn [snd] in Hev.
    destruct H as (H1 & H2 & H3 & H4 & H5 & _ & H7 & H8).
    pose proof (delete_fold_law flow_mod ms [fm_table_id flow_mod] br1 H1) as H. cbn [foldl] in H.
    destruct (flow_del_sub _ _ _ _ br1) as [ms' br']. split; [done|]. split; [done|].
    destruct H as (_ & H); [apply NoDup_singleton|intros tid ->%list_elem_of_singleton; by eexists|].
    assert (forall tid, flows_of br1 tid = flows_of br tid) as Efl.
    { intros tid. destruct (decide (tid = fm_table_id flow_mod)) as [->|]; [unfold flows_of at 1; by rewrite H2, <- H3|].
      by apply flows_of_tables, H4. }
    assert (the_flow br1 = the_flow br) as Et by (unfold the_flow; by rewrite H5).
    unfold deleted_over in *. rewrite Et, H7 in H. destruct H as (R1 & R2 & R3 & R4).
    split; [done|]. split; [intros tid; by rewrite R2, Efl|]. split.
    + intros x Hx. apply R3. intros tid. rewrite Efl. apply Hx.
    + by rewrite R4, (flat_map_ext_in (flows_of br1) (flows_of br)), Hev by done.
Qed.

Lemma strict_deleted_start tid flow_mod ms br br1 br' :
  flows_of br1 tid = flows_of br tid -> (forall tid', tid' <> tid -> br_tables br1 !! tid' = br_tables br !! tid') ->
  br_flows br1 = br_flows br -> br_now br1 = br_now br -> br_events br1 = br_events br ->
  (forall x, installed br1 x <-> installed br x) ->
  strict_deleted tid flow_mod ms br1 br' -> strict_deleted tid flow_mod ms br br'.
Proof.
  intros E1 E2 E3 E4 E5 E6. assert (the_flow br1 = the_flow br) as Et by (unfold the_flow; by rewrite E3).
  unfold strict_deleted. rewrite E1, Et, E4, E5. intros (R1 & R2 & R3 & R4 & R5).
  split_and!; [done|done| | |done].
  - intros tid' Hne. by rewrite R3, E2.
  - intros x Hx. apply R4. by apply E6.
Qed.

Lemma flow_delete_strict_law flow_mod ms br :
  bridge_inv br -> fm_command flow_mod = OFPFC_DELETE_STRICT -> fm_table_id flow_mod <> OFPTT_ALL ->
  (pre_requisite_loop 0 ms).2 = None ->
  let '(rv, e, br') := flowdb_flow_delete flow_mod ms br in
  rv = LAGOPUS_RESULT_OK /\ e = None /\ strict_deleted (fm_table_id flow_mod) flow_mod ms br br'.
Proof.
  intros Hi Hcmd Htab Hpre. unfold flowdb_flow_delete, flow_pre_requisite_check. cbn [fl_match_list set_fl_match_list].
  pose proof (fun br1 H1 H2 => flow_del_sub_strict_law (fm_table_id flow_mod) flow_mod ms br1 H1 H2 Hpre) as Hlaw.
  destruct (pre_requisite_loop 0 ms) as [bits e]. cbn [snd] in *. subst e.
  rewrite (proj2 (Z.eqb_neq _ _) Htab), (proj2 (Z.eqb_eq _ _) Hcmd).
  pose proof (get_table_law (fm_table_id flow_mod) br Hi) as H.
  pose proof (get_table_events (fm_table_id flow_mod) br) as Hev.
  destruct (flowdb_get_table _ br) as [t br1]. cbn [snd] in Hev. destruct H as (H1 & H2 & H3 & H4 & H5 & _ & H7 & H8).
  specialize (Hlaw br1 H1 ltac:(by eexists)). destruct (flow_del_sub _ _ _ _ br1) as [ms' br'].
  destruct Hlaw as [_ Hlaw]. split; [done|]. split; [done|].
  apply (strict_deleted_start _ _ _ br br1); try done. unfold flows_of at 1. by rewrite H2.
Qed.

(** ** Removal of one flow *)

Definition flow_removed_law (r : ref) (reason : Z) (br br' : bridge) : Prop :=
  bridge_inv br' /\ (forall tid, flows_of br' tid = filter (fun x => x <> r) (flows_of br tid)) /\
  (forall x, x <> r -> br_flows br' !! x = br_flows br !! x) /\
  br_events br' = br_events br ++
    if bool_decide (r ∈ flows_of br (fl_table_id (the_flow br r))) then removal_message (br_now br) reason (the_flow br r) else [].

Lemma list_find_ref (r : ref) l :
  NoDup l ->
  match list_find (fun x => x = r) l with
  | Some (i, x) => x = r /\ l !! i = Some r /\ remove_at i l = filter (fun x => x <> r) l
  | None => ~ (r ∈ l)
  end.
Proof.
  intros Hnd. destruct (list_find (fun x => x = r) l) as [[i x]|] eqn:E.
  - apply list_find_Some in E as (Hi & -> & _). split_and!; [done|done|].
    rewrite <- (take_drop_middle l i r Hi) in Hnd. apply NoDup_app in Hnd as (_ & Hd & Hn).
    apply NoDup_cons in Hn as [Hn _]. unfold remove_at. rewrite <- (take_drop_middle l i r Hi) at 3.
    rewrite filter_app, filter_cons_False by (intros Hr; by apply Hr).
    rewrite !list_filter_all; [done| |]; intros x Hx ->; [done|]. apply (Hd r Hx). by left.
  - apply list_find_None in E. rewrite Forall_forall in E. intros Hr. by apply (E r Hr).
Qed.

Lemma flow_remove_with_reason_law r reason br :
  bridge_inv br -> flow_removed_law r reason br (flow_remove_with_reason r reason br).
Proof.
  intros Hi. unfold flow_removed_law, flow_remove_with_reason. set (tid := fl_table_id (the_flow br r)).
  pose proof (get_table_law tid br Hi) as H. pose proof (get_table_events tid br) as Hev.
  destruct (flowdb_get_table tid br) as [t br1]. cbn [snd] in Hev. destruct H as (H1 & H2 & H3 & H4 & H5 & H6 & H7 & H8).
  pose proof (list_find_ref r (tb_flows t) (tv_nodup _ _ _ (bi_table _ H1 _ _ H2))) as H.
  assert (forall tid', flows_of br1 tid' = flows_of br tid') as Efl.
  { intros tid'. destruct (decide (tid' = tid)) as [->|]; [unfold flows_of at 1; by rewrite H2, <- H3|].
    by apply flows_of_tables, H4. }
  assert (the_flow br1 = the_flow br) as Et by (unfold the_flow; by rewrite H5).
  assert (forall tid', r ∈ flows_of br tid' -> tid' = tid) as Hown.
  { unfold flows_of. intros tid' Hr. destruct (br_tables br !! tid') as [t'|] eqn:E; [|by apply elem_of_nil in Hr].
    symmetry. exact (eo_table _ _ _ (tv_entry _ _ _ (bi_table _ Hi _ _ E) r Hr)). }
  rewrite <- H3. destruct (list_find (fun x => x = r) (tb_flows t)) as [[i x]|].
  - destruct H as (-> & Hr & Hrm). fold (remove_flow tid r r reason br1). fold (remove_listed tid i r r reason br1).
    destruct (remove_listed_law tid t i r r reason br1 H1 H2 Hr ltac:(by left)) as (L1 & L2 & L3 & L4 & L5 & L6 & L7).
    assert (r ∈ tb_flows t) as Hin by by apply list_elem_of_lookup_2 in Hr.
    split_and!; [done| | |].
    + intros tid'. rewrite <- Efl. destruct (decide (tid' = tid)) as [->|Hne].
      * rewrite L2, Hrm. unfold flows_of. by rewrite H2.
      * rewrite (flows_of_tables _ _ _ (L3 tid' Hne)). symmetry. apply list_filter_all. intros x Hx ->.
        rewrite Efl in Hx. by apply Hne, Hown.
    + intros x Hx. by rewrite L6, H5.
    + by rewrite L7, remove_flow_events, Hev, Et, H7, bool_decide_eq_true_2.
  - split_and!; [done| | |].
    + intros tid'. rewrite Efl. symmetry. apply list_filter_all. intros x Hx ->. apply H. rewrite H3.
      by rewrite <- (Hown _ Hx).
    + intros x Hx. by rewrite H5.
    + by rewrite bool_decide_eq_false_2, app_nil_r, Hev.
Qed.

(** ** Deletion of groups *)

Lemma fold_remove_law reason rs : forall br,
  bridge_inv br ->
  let br' := foldl (fun br r => flow_remove_with_reason r reason br) br rs in
  bridge_inv br' /\ (forall tid, flows_of br' tid = filter (fun x => ~ (x ∈ rs)) (flows_of br tid)) /\
  (forall x, ~ (x ∈ rs) -> br_flows br' !! x = br_flows br !! x).
Proof.
  induction rs as [|r rs IH]; intros br Hi; cbn [foldl].
  { split; [done|]. split; [|done]. intros tid. symmetry. apply list_filter_all. intros x _. by intros ?%elem_of_nil. }
  destruct (flow_remove_with_reason_law r reason br Hi) as (H1 & H2 & H3 & _).
  destruct (IH _ H1) as (R1 & R2 & R3). split; [done|]. split.
  - intros tid. rewrite R2, H2, list_filter_filter. apply list_filter_ext. intros x _. rewrite not_elem_of_cons. tauto.
  - intros x [Hx Hxs]%not_elem_of_cons. rewrite R3 by done. by apply H3.
Qed.

Definition groups_operational (br : bridge) : bool := m_is_operational (br_groups br).

Lemma unlink_operational tid r br : groups_operational (unlink_flow tid r br) = groups_operational br.
Proof.
  unfold unlink_flow. set (b1 := del_flow_hook tid r br).
  assert (groups_operational b1 = groups_operational br) as <- by (subst b1; unfold del_flow_hook; by destruct (_ !! _)).
  clearbody b1. set (b2 := flow_del_from_group r b1).
  assert (groups_operational (flow_del_from_meter r b2) = groups_operational b2) as ->
    by (unfold flow_del_from_meter; by destruct (flow_instruction _ _)).
  subst b2. unfold flow_del_from_group. generalize (instruction_array (the_flow b1 r)). intros l. revert b1.
  induction l as [|i l IH]; intros b1; cbn [foldl]; [done|]. rewrite IH. unfold del_group_ref.
  destruct (has_actions i); [|done]. by destruct (omap group_action (ins_action_list i)).
Qed.

Lemma flow_remove_operational r reason br :
  groups_operational (flow_remove_with_reason r reason br) = groups_operational br.
Proof.
  unfold flow_remove_with_reason, flowdb_get_table. set (tid := fl_table_id (the_flow br r)).
  set (p := match br_tables br !! tid with Some t => (t, br) | None => _ end).
  assert (groups_operational p.2 = groups_operational br) as <- by (subst p; by destruct (_ !! _)).
  destruct p as [t b1]. cbn [snd]. destruct (list_find _ _) as [[i x]|]; [|done].
  rewrite <- (unlink_operational tid r b1). set (b2 := unlink_flow tid r b1). unfold groups_operational.
  cbn [upd_table br_groups set_br_tables]. unfold flow_free. set (b3 := notify_removed r r reason b2).
  assert (br_groups b3 = br_groups b2) as E by (subst b3; unfold notify_removed; by destruct (_ =? _)).
  destruct (fl_flow_timer _); cbn; by rewrite E.
Qed.

Lemma group_free_operational g br : groups_operational (group_free g br) = groups_operational br.
Proof.
  unfold group_free. generalize (elements (gr_flows g)). intros l. revert br.
  induction l as [|r l IH]; intros br; cbn [foldl]; [done|]. by rewrite IH, flow_remove_operational.
Qed.

(** ** Properties *)

(** C10: the non-strict FLOW_MOD DELETE ([flowdb_flow_delete]), for one table or for all of them,
    removes exactly the flows the command selects (cookie, out_port, out_group, match), keeps the order
    and the contents of the others, sends one FLOW_REMOVED for each removed flow that asked for it, in order
    and with its counters, and keeps the tables consistent. *)
Theorem flow_delete_nonstrict (flow_mod : ofp_flow_mod) (ms : list match_) (br : bridge)
    (Hi : bridge_inv br) (Hcmd : fm_command flow_mod <> OFPFC_DELETE_STRICT)
    (Hpre : (pre_requisite_loop 0 ms).2 = None) :
  let '(rv, e, br') := flowdb_flow_delete flow_mod ms br in
  rv = LAGOPUS_RESULT_OK /\ e = None /\ deleted_over (delete_scope flow_mod br) flow_mod ms br br'.
Proof. by apply flow_delete_nonstrict_law. Qed.

Lemma flow_delete_nonstrict_witness :
  let '(rv, e, br') := flowdb_flow_delete (sample_flow_mod OFPFC_DELETE 0) [in_port_match] sample_bridge in
  rv = LAGOPUS_RESULT_OK /\ e = None /\
  deleted_over (delete_scope (sample_flow_mod OFPFC_DELETE 0) sample_bridge) (sample_flow_mod OFPFC_DELETE 0)
    [in_port_match] sample_bridge br'.
Proof.
  apply (flow_delete_nonstrict (sample_flow_mod OFPFC_DELETE 0) [in_port_match] sample_bridge);
    [exact sample_bridge_inv|vm_compute; discriminate|vm_compute; reflexivity].
Defined.

(** The strict FLOW_MOD DELETE for one table removes exactly the flow with the priority, the fields and the
    values of the command, if there is one, and keeps the rest as it is; but the FLOW_REMOVED message
    it sends for it carries the data of the command's temporary flow (cookie and timeouts of the command, table 0,
    duration and counters 0), not those of the flow removed. *)
Theorem flow_delete_strict (flow_mod : ofp_flow_mod) (ms : list match_) (br : bridge)
    (Hi : bridge_inv br) (Hcmd : fm_command flow_mod = OFPFC_DELETE_STRICT)
    (Htab : fm_table_id flow_mod <> OFPTT_ALL) (Hpre : (pre_requisite_loop 0 ms).2 = None) :
  let '(rv, e, br') := flowdb_flow_delete flow_mod ms br in
  rv = LAGOPUS_RESULT_OK /\ e = None /\ strict_deleted (fm_table_id flow_mod) flow_mod ms br br'.
Proof. by apply flow_delete_strict_law. Qed.

Lemma flow_delete_strict_witness :
  let '(rv, e, br') := flowdb_flow_delete (sample_flow_mod OFPFC_DELETE_STRICT 20) tcp_matches sample_bridge in
  rv = LAGOPUS_RESULT_OK /\ e = None /\
  strict_deleted 0 (sample_flow_mod OFPFC_DELETE_STRICT 20) tcp_matches sample_bridge br'.
Proof.
  apply (flow_delete_strict (sample_flow_mod OFPFC_DELETE_STRICT 20) tcp_matches sample_bridge);
    [exact sample_bridge_inv|reflexivity|vm_compute; discriminate|vm_compute; reflexivity].
Defined.


(** A flow that outputs to group 3. *)
Definition group_bridge : bridge :=
  match ofp_group_mod_add 5 (br_groups sample_bridge) (OfpGroupMod 3 0) [] (0, 0) with
  | Some (_, groups, _) =>
      (flowdb_flow_add (sample_flow_mod OFPFC_ADD 30) tcp_matches
         [Instruction OFPIT_APPLY_ACTIONS 0 0 0 0 [Action None 0 0 (ofp_action_group 3)] None]
         (set_br_groups groups sample_bridge)).2
  | None => sample_bridge
  end.

Lemma group_bridge_inv : bridge_inv group_bridge.
Proof.
  unfold group_bridge. destruct (ofp_group_mod_add _ _ _ _ _) as [[[rv groups] e]|]; [|exact sample_bridge_inv].
  apply flowdb_flow_add_inv; [|by apply match_list_ok_dec|done].
  apply (frame_inv [] sample_bridge); [by apply frame_core|by intros ? ?%elem_of_nil|exact sample_bridge_inv].
Qed.

Definition group_3 : group :=
  match group_table_lookup (br_groups group_bridge) 3 with Some g => g | None => group_alloc (OfpGroupMod 0 0) [] (0, 0) end.

