(* ===== verification/FlowDBModify.v ===== *)
(** * Modifying flows

    The theorems about FLOW_MOD MODIFY ([flow_modify_sub] and [flowdb_flow_modify]): no flow is
    added, moved or removed, the selected flows get the command's instructions, and the invariant
    holds after; and about an error, which the command does not return. *)
From S2P Require Import Prelude OpenFlow Hashmap Endian Shared Packet ActionSet Meter Group DpTimer FlowEntry.
From S2P Require Import ByteMatch FlowinfoIntf FlowinfoTree Bridge FlowDB FlowDBInv FlowDBSpec FlowDBDelete.

(** ** One flow *)

Lemma copy_core l : map ins_core (copy_instruction_list l) = map ins_core l.
Proof.
  unfold copy_instruction_list. rewrite map_map. apply map_ext. intros i. apply set_ins_actions_core.
  unfold copy_action_list. rewrite map_map. apply map_ext. by intros a.
Qed.

(** The flow with the instructions of the command. *)
Definition replaced (flags : Z) (l : list instruction) (f g : flow) : Prop :=
  exists arr il, map ins_core il = map ins_core l /\
    g = set_fl_instruction_list il (set_fl_instruction arr (reset_counts flags f)).

Lemma replace_flows flow_mod l r br :
  exists arr, br_flows (replace_instructions flow_mod l r br).2 =
    alter (fun f => set_fl_instruction_list (copy_instruction_list l)
                      (set_fl_instruction arr (reset_counts (fm_flags flow_mod) f))) r (br_flows br).
Proof.
  unfold replace_instructions.
  destruct (refs_only_fields _ _ (refs_del_meter r br)) as (F1 & _). set (b1 := flow_del_from_meter r br) in *.
  destruct (refs_only_fields _ _ (refs_del_group r b1)) as (F2 & _). set (b2 := flow_del_from_group r b1) in *.
  set (b4 := upd_flow r (set_fl_instruction_list _) _).
  destruct (remap_flows r b4) as [F5 _]. set (arr := (map_instruction_list_to_array _).1) in F5.
  exists arr. rewrite F5. clearbody arr. unfold b4, upd_flow. cbn [br_flows set_br_flows]. rewrite F2, F1.
  apply map_eq. intros x. destruct (decide (x = r)) as [->|]; [|by rewrite !lookup_alter_ne].
  rewrite !lookup_alter_eq. by destruct (br_flows br !! r).
Qed.

Lemma examined_replaced flags l f g il :
  replaced flags l f g -> map ins_core il = map ins_core (fl_instruction_list g) ->
  replaced flags l f (set_fl_instruction_list il g).
Proof. intros (arr & il' & E & ->) Hil. exists arr, il. split; [by rewrite Hil|done]. Qed.

(** ** The non-strict loop *)

Definition selected (flow_mod : ofp_flow_mod) (ms : list match_) (f : flow) : bool :=
  cookie_matches (fm_cookie flow_mod) (fm_cookie_mask flow_mod) f && match_compare (fl_match_list f) ms.

Definition modified (flow_mod : ofp_flow_mod) (ms : list match_) (il : list instruction) (f g : flow) : Prop :=
  if selected flow_mod ms f then replaced (fm_flags flow_mod) il f g else g = f.

Lemma modify_loop_law flow_mod ms il flows : forall br,
  NoDup flows -> (forall r, r ∈ flows -> is_Some (br_flows br !! r)) ->
  let '(e, br') := modify_loop flow_mod ms il flows br in
  frame [] br br' /\
  (forall x, ~ (x ∈ flows) -> br_flows br' !! x = br_flows br !! x) /\
  (e = None -> forall r, r ∈ flows -> modified flow_mod ms il (the_flow br r) (the_flow br' r)).
Proof.
  induction flows as [|r flows IH]; intros br Hnd Hal; cbn [modify_loop].
  { split; [apply frame_refl|]. split; [done|]. intros _ r Hr. by apply elem_of_nil in Hr. }
  apply NoDup_cons in Hnd as [Hr Hnd]. fold (selected flow_mod ms (the_flow br r)).
  destruct (selected flow_mod ms (the_flow br r)) eqn:Es; cycle 1.
  { specialize (IH br Hnd ltac:(intros x Hx; apply Hal; by right)). destruct (modify_loop _ _ _ _ br) as [e br'].
    destruct IH as (G & F & H). split; [done|]. split; [intros x Hx; apply F; set_solver|].
    intros He x [->|Hx]%elem_of_cons; [|by apply H]. unfold modified. rewrite Es. unfold the_flow.
    by rewrite !lookup_total_alt, F. }
  pose proof (frame_replace [] flow_mod il r br) as G1. destruct (replace_flows flow_mod il r br) as [arr F1].
  destruct (replace_instructions flow_mod il r br) as [e1 b1]. cbn [snd] in G1, F1.
  assert (forall x, x <> r -> br_flows b1 !! x = br_flows br !! x) as K1 by (intros; by rewrite F1, lookup_alter_ne).
  destruct e1 as [e1|]; [split; [done|]; split; [intros x Hx; apply K1; set_solver|done]|].
  pose proof (frame_action_check [] r b1) as G2. destruct (refs_only_fields _ _ (refs_action_check r b1)) as (F2 & _).
  destruct (flow_action_check r b1) as [e2 b2]. cbn [snd] in G2, F2.
  assert (frame [] br b2) as G12 by (eapply frame_trans; eassumption).
  destruct e2 as [e2|]; [split; [done|]; split; [intros x Hx; rewrite F2; apply K1; set_solver|done]|].
  destruct (exam_law r b2) as (il' & Hil & F3 & _). pose proof (frame_examination [] r b2) as G3.
  set (b3 := flow_instruction_examination r b2) in *. clearbody b3.
  assert (forall x, x <> r -> br_flows b3 !! x = br_flows br !! x) as K3
    by (intros; rewrite F3, lookup_alter_ne, F2 by done; by apply K1).
  assert (forall x, x <> r -> the_flow b3 x = the_flow br x) as T3
    by (intros; unfold the_flow; by rewrite !lookup_total_alt, K3).
  specialize (IH b3 Hnd). destruct (modify_loop flow_mod ms il flows b3) as [e br'].
  destruct IH as (G & F & H).
  { intros x Hx. rewrite K3 by (intros ->; done). apply Hal. by right. }
  split; [eapply frame_trans; [exact G12|eapply frame_trans; eassumption]|].
  split; [intros x Hx; rewrite F by set_solver; apply K3; set_solver|].
  intros He x [->|Hx]%elem_of_cons.
  - unfold modified. rewrite Es. assert (the_flow br' r = the_flow b3 r) as ->
      by (unfold the_flow; by rewrite !lookup_total_alt, F).
    destruct (Hal r (list_elem_of_here _ _)) as [f Hf].
    assert (the_flow br r = f) as -> by (unfold the_flow; by rewrite lookup_total_alt, Hf).
    assert (the_flow b2 r = set_fl_instruction_list (copy_instruction_list il)
              (set_fl_instruction arr (reset_counts (fm_flags flow_mod) f))) as E2
      by (unfold the_flow; by rewrite F2, F1, lookup_total_alt, lookup_alter_eq, Hf).
    assert (the_flow b3 r = set_fl_instruction_list il' (the_flow b2 r)) as ->
      by (unfold the_flow; by rewrite F3, !lookup_total_alt, lookup_alter_eq, F2, F1, lookup_alter_eq, Hf).
    apply examined_replaced; [|done]. rewrite E2. eexists arr, _. split; [apply copy_core|done].
  - assert (x <> r) as Hxr by (intros ->; done). rewrite <- T3 by done. by apply H.
Qed.

(** ** The command *)

Lemma replaced_core flags l l' f g : map ins_core l = map ins_core l' -> replaced flags l f g -> replaced flags l' f g.
Proof. intros E (arr & il & H & ->). exists arr, il. by rewrite H. Qed.

Definition modify_selects (flow_mod : ofp_flow_mod) (ms : list match_) (f : flow) : bool :=
  if fm_command flow_mod =? OFPFC_MODIFY_STRICT then strict_matches flow_mod ms f else selected flow_mod ms f.

(** The loops from the temporary flow [r] on: what they do to the flows of the table. *)
Definition modify_effect (sel : flow -> bool) (flags : Z) (il : list instruction) (r : ref) (flows : list ref)
    (br : bridge) (out : option ofp_error * bridge) : Prop :=
  frame [r] br out.2 /\
  (forall x, x <> r -> ~ (x ∈ flows) -> br_flows out.2 !! x = br_flows br !! x) /\
  (out.1 = None -> forall x, x ∈ flows ->
    if sel (the_flow br x) then replaced flags il (the_flow br x) (the_flow out.2 x) else the_flow out.2 x = the_flow br x).

Lemma frame_weaken rs br br' : frame [] br br' -> frame rs br br'.
Proof. intros [H1 H2 H3 H4]. split; try done. intros r Hr _. apply H4; [done|]. by intros ?%elem_of_nil. Qed.

Lemma modify_strict_law flow_mod r flows br :
  (forall x, x ∈ flows -> x <> r /\ is_Some (br_flows br !! x)) ->
  (forall x y, x ∈ flows -> y ∈ flows -> flow_compare (the_flow br r) (the_flow br x) = true ->
     flow_compare (the_flow br r) (the_flow br y) = true -> x = y) ->
  modify_effect (fun f => flow_compare (the_flow br r) f) (fm_flags flow_mod) (fl_instruction_list (the_flow br r)) r flows
    br (modify_strict flow_mod r flows br).
Proof.
  intros Hfl Huniq. unfold modify_effect, modify_strict.
  assert (forall b, frame [r] b (flow_free r b)) as Hfree by (intros b; apply frame_free; by left).
  assert (forall b x, x <> r -> br_flows (flow_free r b) !! x = br_flows b !! x) as Kfree
    by (intros; by rewrite free_flows, lookup_delete_ne).
  destruct (find _ flows) as [s|] eqn:Ef; cycle 1.
  { split; [apply Hfree|]. split; [by intros; apply Kfree|]. intros _ x Hx.
    rewrite (find_none _ _ Ef x) by by apply list_elem_of_In. unfold the_flow. cbn [snd].
    by rewrite !lookup_total_alt, Kfree by apply (Hfl x Hx). }
  apply find_some in Ef as [Hs%list_elem_of_In Hc]. destruct (Hfl s Hs) as [Hsr [f Hf]].
  set (il := fl_instruction_list (the_flow br r)).
  pose proof (frame_replace [r] flow_mod il s br) as G1. destruct (replace_flows flow_mod il s br) as [arr F1].
  destruct (replace_instructions flow_mod il s br) as [e1 b1]. cbn [snd] in G1, F1.
  pose proof (frame_action_check [r] r b1) as G2. destruct (refs_only_fields _ _ (refs_action_check r b1)) as (F2 & _).
  destruct (flow_action_check r b1) as [e2 b2]. cbn [snd] in G2, F2.
  assert (frame [r] br b2) as G12 by (eapply frame_trans; eassumption).
  assert (forall x, x <> s -> br_flows b2 !! x = br_flows br !! x) as K2
    by (intros; by rewrite F2, F1, lookup_alter_ne).
  destruct e2 as [e2|].
  { split; [done|]. split; [|done]. intros x _ Hx. apply K2. intros ->. done. }
  destruct (exam_law r b2) as (il' & _ & F3 & _). pose proof (frame_examination [r] r b2) as G3.
  set (b3 := flow_instruction_examination r b2) in *. clearbody b3. cbn [fst snd].
  assert (forall x, x <> r -> br_flows (flow_free r b3) !! x = br_flows b2 !! x) as K3
    by (intros; by rewrite Kfree, F3, lookup_alter_ne).
  split; [eapply frame_trans; [exact G12|eapply frame_trans; [exact G3|apply Hfree]]|].
  split; [intros x Hxr Hx; rewrite K3 by done; apply K2; intros ->; done|].
  intros _ x Hx. destruct (Hfl x Hx) as [Hxr _]. destruct (decide (x = s)) as [->|Hxs].
  - rewrite Hc. exists arr, (copy_instruction_list il). split; [apply copy_core|].
    unfold the_flow. by rewrite !lookup_total_alt, K3, F2, F1, lookup_alter_eq, Hf.
  - destruct (flow_compare (the_flow br r) (the_flow br x)) eqn:E; [by destruct Hxs; apply Huniq|].
    unfold the_flow. by rewrite !lookup_total_alt, K3, K2.
Qed.

Lemma modify_effect_loop flow_mod ms il r flows br :
  NoDup flows -> (forall x, x ∈ flows -> x <> r /\ is_Some (br_flows br !! x)) ->
  modify_effect (selected flow_mod ms) (fm_flags flow_mod) il r flows br
    (modify_loop flow_mod ms il flows (flow_free r br)).
Proof.
  intros Hnd Hfl. unfold modify_effect.
  assert (forall x, x <> r -> br_flows (flow_free r br) !! x = br_flows br !! x) as Kfree
    by (intros; by rewrite free_flows, lookup_delete_ne).
  pose proof (modify_loop_law flow_mod ms il flows (flow_free r br) Hnd) as H.
  destruct (modify_loop _ _ _ _ _) as [e br']. destruct H as (G & F & H).
  { intros x Hx. rewrite Kfree; by apply Hfl. }
  cbn [fst snd]. split; [eapply frame_trans; [apply frame_free; by left|by apply frame_weaken]|].
  split; [intros x Hxr Hx; by rewrite F, Kfree|].
  intros He x Hx. assert (the_flow (flow_free r br) x = the_flow br x) as E
    by (unfold the_flow; rewrite !lookup_total_alt, Kfree; [done|by apply Hfl]).
  specialize (H He x Hx). by rewrite E in H.
Qed.

(** What a modification does to the flows [flows] of one table. *)
Record modify_outcome (sel : flow -> bool) (flags : Z) (il : list instruction) (flows : list ref) (br : bridge)
    (out : option ofp_error * bridge) : Prop := {
  mo_inv : bridge_inv out.2;
  mo_tables : br_tables out.2 = br_tables br;
  mo_entry : forall x, installed br x -> same_entry (the_flow br x) (the_flow out.2 x);
  mo_others : forall x, installed br x -> ~ (x ∈ flows) -> the_flow out.2 x = the_flow br x;
  mo_done : out.1 = None -> forall x, x ∈ flows ->
    if sel (the_flow br x) then replaced flags il (the_flow br x) (the_flow out.2 x) else the_flow out.2 x = the_flow br x
}.

(** From [br] a temporary flow [r] is made, giving [b]. *)
Lemma modify_outcome_temp sel flags il flows br b r out :
  bridge_inv br -> frame [r] br b -> ~ installed br r -> (forall x, x <> r -> br_flows b !! x = br_flows br !! x) ->
  (forall x, x ∈ flows -> installed br x) ->
  modify_effect sel flags il r flows b out -> modify_outcome sel flags il flows br out.
Proof.
  intros Hi G Hn K Hfl (G' & F & H). assert (frame [r] br out.2) as G2 by (eapply frame_trans; eassumption).
  assert (forall x, installed br x -> x <> r) as Hr by (intros x Hx ->; done).
  assert (forall x, x <> r -> the_flow b x = the_flow br x) as Ht
    by (intros; unfold the_flow; by rewrite !lookup_total_alt, K).
  split.
  - eapply frame_inv; [exact G2| |done]. by intros x ->%list_elem_of_singleton.
  - apply G2.
  - intros x Hx. apply kept_total, (fr_kept _ _ _ G2).
    + destruct Hx as (tid & t & E & Hx). apply (eo_alloc _ _ _ (tv_entry _ _ _ (bi_table _ Hi _ _ E) x Hx)).
    + intros ->%list_elem_of_singleton. done.
  - intros x Hx Hnin. unfold the_flow. rewrite !lookup_total_alt, F, K; auto.
  - intros He x Hx. specialize (H He x Hx). by rewrite Ht in H by auto.
Qed.

Lemma modify_outcome_error sel flags il flows br br' r e :
  bridge_inv br -> frame [r] br br' -> ~ installed br r -> (forall x, x <> r -> br_flows br' !! x = br_flows br !! x) ->
  (forall x, x ∈ flows -> installed br x) ->
  modify_outcome sel flags il flows br (Some e, br').
Proof.
  intros Hi G Hn K Hfl. apply (modify_outcome_temp sel flags il flows br br' r); try done.
  split; [apply frame_refl|]. by split.
Qed.

Lemma flow_modify_sub_law flow_mod t ms il br :
  bridge_inv br -> br_tables br !! fm_table_id flow_mod = Some t ->
  modify_outcome (modify_selects flow_mod ms) (fm_flags flow_mod) il (tb_flows t) br
    (flow_modify_sub flow_mod (tb_flows t) ms il (fm_command flow_mod =? OFPFC_MODIFY_STRICT) br).
Proof.
  intros Hi Ht. pose proof (bi_table _ Hi _ _ Ht) as Htv.
  assert (forall x, x ∈ tb_flows t -> installed br x) as Hin by (intros x Hx; by exists (fm_table_id flow_mod), t).
  unfold flow_modify_sub. destruct (flow_alloc flow_mod ms il (br_now br)) as [f|e] eqn:Ea; cycle 1.
  { apply (modify_outcome_error _ _ _ _ br br (br_fresh br)); try done; [apply frame_refl|].
    by apply (new_flow_law flow_zero br). }
  set (f1 := set_fl_table_id _ f).
  assert (fl_priority f1 = fm_priority flow_mod /\ fl_match_list f1 = ms /\ fl_instruction_list f1 = il) as (P1 & P2 & P3)
    by (destruct (flow_alloc_made flow_mod ms il (br_now br) f 0 (fm_table_id flow_mod) Ea) as (Q1 & Q2 & Q3 & _); done).
  assert (flow_pre_requisite_check f1 = (set_fl_field_bits (pre_requisite_loop 0 ms).1 f1, (pre_requisite_loop 0 ms).2)) as ->
    by (unfold flow_pre_requisite_check; rewrite P2; by destruct (pre_requisite_loop 0 ms)).
  set (f2 := set_fl_field_bits _ f1).
  pose proof (new_flow_law f2 br Hi) as H. destruct (new_flow f2 br) as [r b2]. destruct H as (G2 & Hn & _ & F2 & T2 & E2 & _).
  assert (forall x, x <> r -> br_flows b2 !! x = br_flows br !! x) as K2 by (intros; by rewrite F2, lookup_insert_ne).
  assert (forall b, frame [r] b (flow_free r b)) as Hfree by (intros b; apply frame_free; by left).
  assert (forall b x, x <> r -> br_flows (flow_free r b) !! x = br_flows b !! x) as Kfree
    by (intros; by rewrite free_flows, lookup_delete_ne).
  destruct (pre_requisite_loop 0 ms).2 as [e|].
  { apply (modify_outcome_error _ _ _ _ br _ r); try done; [eapply frame_trans; [exact G2|apply Hfree]|].
    intros x Hx. rewrite Kfree by done. by apply K2. }
  pose proof (frame_remap [r] r b2) as G3. destruct (remap_flows r b2) as [F3 _]. rewrite E2 in F3.
  set (arr := (map_instruction_list_to_array _).1) in F3. clearbody arr.
  destruct (remap_instructions r b2) as [e3 b3]. cbn [snd] in G3, F3.
  assert (forall x, x <> r -> br_flows b3 !! x = br_flows br !! x) as K3
    by (intros; rewrite F3, lookup_alter_ne by done; by apply K2).
  assert (frame [r] br b3) as G23 by (eapply frame_trans; eassumption).
  destruct e3 as [e3|].
  { apply (modify_outcome_error _ _ _ _ br _ r); try done; [eapply frame_trans; [exact G23|apply Hfree]|].
    intros x Hx. rewrite Kfree by done. by apply K3. }
  destruct (exam_law r b3) as (il' & Hil & F4 & _). pose proof (frame_examination [r] r b3) as G4.
  set (b4 := flow_instruction_examination r b3) in *. clearbody b4.
  assert (br_flows b3 !! r = Some (set_fl_instruction arr f2)) as Er3 by (by rewrite F3, F2, lookup_alter_eq, lookup_insert_eq).
  assert (the_flow b3 r = set_fl_instruction arr f2) as Et3 by (unfold the_flow; by rewrite lookup_total_alt, Er3).
  assert (the_flow b4 r = set_fl_instruction_list il' (set_fl_instruction arr f2)) as Et4
    by (unfold the_flow; by rewrite F4, lookup_total_alt, lookup_alter_eq, Er3).
  assert (map ins_core il' = map ins_core il) as Hil' by (rewrite Hil, Et3, <- P3; done).
  assert (frame [r] br b4) as G14 by (eapply frame_trans; eassumption).
  assert (forall x, x <> r -> br_flows b4 !! x = br_flows br !! x) as K4
    by (intros; rewrite F4, lookup_alter_ne by done; by apply K3).
  assert (forall x, x ∈ tb_flows t -> x <> r /\ is_Some (br_flows b4 !! x)) as Hfl.
  { intros x Hx. assert (x <> r) as Hxr by (intros ->; by apply Hn, Hin). split; [done|]. rewrite K4 by done.
    apply (eo_alloc _ _ _ (tv_entry _ _ _ Htv x Hx)). }
  apply (modify_outcome_temp _ _ _ _ br b4 r); try done.
  assert (forall l sel sel' out, map ins_core l = map ins_core il -> (forall f, sel f = sel' f) ->
     modify_effect sel (fm_flags flow_mod) l r (tb_flows t) b4 out ->
     modify_effect sel' (fm_flags flow_mod) il r (tb_flows t) b4 out) as Hext.
  { intros l sel sel' out El Es (R1 & R2 & R3). split; [done|]. split; [done|]. intros He x Hx.
    specialize (R3 He x Hx). rewrite <- Es. destruct (sel _); [|done]. by eapply replaced_core. }
  unfold modify_selects. destruct (fm_command flow_mod =? OFPFC_MODIFY_STRICT).
  - eapply Hext; [| |apply modify_strict_law; [exact Hfl|]].
    + by rewrite Et4.
    + intros g. rewrite Et4. unfold flow_compare, strict_matches.
      cbn [fl_priority fl_field_bits fl_match_list set_fl_instruction_list set_fl_instruction].
      assert (fl_priority f2 = fm_priority flow_mod) as -> by exact P1. assert (fl_match_list f2 = ms) as -> by exact P2.
      reflexivity.
    + intros x y Hx Hy Ex Ey. apply (tv_distinct _ _ _ Htv); [done|done|].
      assert (forall z, z ∈ tb_flows t -> the_flow b4 z = br_flows br !!! z) as Hz
        by (intros z Hz; unfold the_flow; rewrite !lookup_total_alt, K4; [done|by apply Hfl]).
      rewrite <- !Hz by done. eapply flow_compare_trans; [apply flow_compare_sym, Ex|exact Ey].
  - assert (fl_match_list (the_flow b4 r) = ms) as -> by (rewrite Et4; exact P2).
    eapply Hext; [| |apply modify_effect_loop; [apply Htv|exact Hfl]]; [by rewrite Et4|done].
Qed.

Lemma flowdb_flow_modify_law flow_mod ms il br :
  bridge_inv br ->
  let '(rv, e, br') := flowdb_flow_modify flow_mod ms il br in
  bridge_inv br' /\ (forall tid, flows_of br' tid = flows_of br tid) /\
  (forall x, installed br x -> same_entry (the_flow br x) (the_flow br' x)) /\
  (forall x, installed br x -> ~ (x ∈ flows_of br (fm_table_id flow_mod)) -> the_flow br' x = the_flow br x) /\
  (e = None -> rv = LAGOPUS_RESULT_OK /\ forall x, x ∈ flows_of br (fm_table_id flow_mod) ->
     if modify_selects flow_mod ms (the_flow br x)
     then replaced (fm_flags flow_mod) il (the_flow br x) (the_flow br' x) else the_flow br' x = the_flow br x).
Proof.
  intros Hi. unfold flowdb_flow_modify.
  destruct (flow_pre_requisite_check _).2 as [e|]; [split; [done|]; split; [done|]; split; [reflexivity|by split]|].
  destruct (_ =? OFPTT_ALL); [split; [done|]; split; [done|]; split; [reflexivity|by split]|].
  pose proof (get_table_law (fm_table_id flow_mod) br Hi) as H. destruct (flowdb_get_table _ br) as [t br1].
  destruct H as (H1 & H2 & H3 & H4 & H5 & _ & _ & H8).
  pose proof (flow_modify_sub_law flow_mod t ms il br1 H1 H2) as H.
  destruct (flow_modify_sub _ _ _ _ _ br1) as [e br']. destruct H as [M1 M2 M3 M4 M5]. cbn [fst snd] in *.
  assert (the_flow br1 = the_flow br) as Et by (unfold the_flow; by rewrite H5). rewrite Et in *.
  assert (forall tid, flows_of br' tid = flows_of br tid) as Efl.
  { intros tid. rewrite (flows_of_tables br1) by (by rewrite M2).
    destruct (decide (tid = fm_table_id flow_mod)) as [->|]; [unfold flows_of at 1; by rewrite H2, <- H3|].
    by apply flows_of_tables, H4. }
  rewrite <- H3. split_and!; [done|done| | |].
  - intros x Hx. apply M3. by apply H8.
  - intros x Hx. apply M4. by apply H8.
  - intros He. split; [done|by apply M5].
Qed.

(** ** Properties *)

(** C28: FLOW_MOD MODIFY and MODIFY_STRICT ([flowdb_flow_modify]) never add, remove or move a
    flow and leave each one its priority, match and compiled match; when no error is
    reported, the selected flows of the table have the command's instructions (and counters 0 when it asks for
    that) and are otherwise as before, and no other flow is changed. *)
Theorem flow_modify_correct (flow_mod : ofp_flow_mod) (ms : list match_) (il : list instruction) (br : bridge)
    (Hi : bridge_inv br) :
  let '(rv, e, br') := flowdb_flow_modify flow_mod ms il br in
  bridge_inv br' /\ (forall tid, flows_of br' tid = flows_of br tid) /\
  (forall x, installed br x -> same_entry (the_flow br x) (the_flow br' x)) /\
  (forall x, installed br x -> ~ (x ∈ flows_of br (fm_table_id flow_mod)) -> the_flow br' x = the_flow br x) /\
  (e = None -> rv = LAGOPUS_RESULT_OK /\ forall x, x ∈ flows_of br (fm_table_id flow_mod) ->
     if modify_selects flow_mod ms (the_flow br x)
     then replaced (fm_flags flow_mod) il (the_flow br x) (the_flow br' x) else the_flow br' x = the_flow br x).
Proof. by apply flowdb_flow_modify_law. Qed.

Lemma flow_modify_correct_witness :
  let flow_mod := sample_flow_mod OFPFC_MODIFY 0 in
  let '(rv, e, br') := flowdb_flow_modify flow_mod [in_port_match] [sample_output 2] sample_bridge in
  bridge_inv br' /\ (forall tid, flows_of br' tid = flows_of sample_bridge tid) /\
  (forall x, installed sample_bridge x -> same_entry (the_flow sample_bridge x) (the_flow br' x)) /\
  (forall x, installed sample_bridge x -> ~ (x ∈ flows_of sample_bridge 0) ->
     the_flow br' x = the_flow sample_bridge x) /\
  (e = None -> rv = LAGOPUS_RESULT_OK /\ forall x, x ∈ flows_of sample_bridge 0 ->
     if modify_selects flow_mod [in_port_match] (the_flow sample_bridge x)
     then replaced (fm_flags flow_mod) [sample_output 2] (the_flow sample_bridge x) (the_flow br' x)
     else the_flow br' x = the_flow sample_bridge x).
Proof.
  apply (flow_modify_correct (sample_flow_mod OFPFC_MODIFY 0) [in_port_match] [sample_output 2] sample_bridge).
  exact sample_bridge_inv.
Defined.

(** A modification that fails half way is not reported: an output to a port the bridge does not
    have gives OFPBAC_BAD_OUT_PORT in the error structure, the flow keeps the bad
    instruction, and [flowdb_flow_modify] returns OK. *)
Theorem modify_error_swallowed :
  let '(rv, e, br') := flowdb_flow_modify (sample_flow_mod OFPFC_MODIFY 0) [in_port_match] [sample_output 9] sample_bridge in
  rv = LAGOPUS_RESULT_OK /\ e = Some (OFPET_BAD_ACTION, OFPBAC_BAD_OUT_PORT) /\
  map ins_core (fl_instruction_list (the_flow br' 0%nat)) = map ins_core [sample_output 9].
Proof. vm_compute. split; [reflexivity|]. split; reflexivity. Qed.
