(* ===== verification/FlowDBRun.v ===== *)
(** * The bridge over time

    The commands of the controller and the passing of time as one step function on a
    bridge: every history keeps the invariant of [FlowDBInv], and under it a packet lookup
    through the tree of a table is the first match in the table's list.  The expiry of
    flow timers is exact. *)
From S2P Require Import Prelude OpenFlow Hashmap Endian Shared Packet ActionSet Meter Group DpTimer FlowEntry.
From S2P Require Import ByteMatch FlowinfoIntf FlowinfoTree FlowTable Bridge FlowDB FlowDBInv FlowDBSpec FlowDBDelete.
From S2P Require Import FlowDBModify.

(** ** Commands *)

Inductive command :=
  | FlowAdd (flow_mod : ofp_flow_mod) (match_list : list match_) (instruction_list : list instruction)
  | FlowModify (flow_mod : ofp_flow_mod) (match_list : list match_) (instruction_list : list instruction)
  | FlowDelete (flow_mod : ofp_flow_mod) (match_list : list match_)
  | GroupAdd (fuel : nat) (group_mod : ofp_group_mod) (bucket_list : list bucket)
  | GroupModify (group_mod : ofp_group_mod) (bucket_list : list bucket)
  | GroupDelete (group_id : Z)
  | MeterAdd (meter_mod : ofp_meter_mod) (band_list : list meter_band)
  | MeterModify (meter_mod : ofp_meter_mod) (band_list : list meter_band)
  | MeterDelete (meter_mod : ofp_meter_mod)
  | Clock (now : timespec)
  | TimerStep.

(** A bridge and the variable of the timer thread. *)
Record system := System { sy_bridge : bridge; sy_timer : option nat }.

(** The effect of the command handlers on the bridge. *)
Definition handle (br : bridge) (c : command) : bridge :=
  match c with
  | FlowAdd flow_mod ms il => (flowdb_flow_add flow_mod ms il br).2
  | FlowModify flow_mod ms il => (flowdb_flow_modify flow_mod ms il br).2
  | FlowDelete flow_mod ms => (flowdb_flow_delete flow_mod ms br).2
  | GroupAdd fuel group_mod bucket_list =>
      match ofp_group_mod_add fuel (br_groups br) group_mod bucket_list (br_now br) with
      | Some (_, groups, _) => set_br_groups groups br
      | None => br
      end
  | GroupModify group_mod bucket_list => set_br_groups (ofp_group_mod_modify (br_groups br) group_mod bucket_list).1.2 br
  | GroupDelete group_id => ofp_group_mod_delete group_id br
  | MeterAdd meter_mod band_list => set_br_meters (meter_table_meter_add (br_meters br) meter_mod band_list (br_now br)).1.2 br
  | MeterModify meter_mod band_list => set_br_meters (meter_table_meter_modify (br_meters br) meter_mod band_list).1.2 br
  | MeterDelete meter_mod => set_br_meters (meter_table_meter_delete (br_meters br) meter_mod).2 br
  | Clock now => set_br_now now br
  | TimerStep => br
  end.

Definition execute (sy : system) (c : command) : system :=
  match c with
  | TimerStep => let '(cur, br) := dp_timer_step (sy_timer sy) (sy_bridge sy) in System br cur
  | _ => System (handle (sy_bridge sy) c) (sy_timer sy)
  end.

(** What the parser guarantees about a command: sizes agree, values are bytes and a priority is not negative. *)
Definition command_ok (c : command) : Prop :=
  match c with
  | FlowAdd flow_mod ms _ => match_list_ok ms /\ 0 <= fm_priority flow_mod
  | _ => True
  end.

(** ** Each step keeps the invariant *)

Lemma frame_nil_inv br br' : frame [] br br' -> bridge_inv br -> bridge_inv br'.
Proof. intros Hf. apply (frame_inv [] _ _ Hf). by intros r ?%elem_of_nil. Qed.

Lemma flow_del_sub_inv tid flow_mod ms strict br :
  bridge_inv br -> bridge_inv (flow_del_sub tid flow_mod ms strict br).2.
Proof.
  intros Hi. destruct (br_tables br !! tid) as [t|] eqn:Ht; [|by unfold flow_del_sub; rewrite Ht].
  destruct strict; cycle 1.
  { pose proof (flow_del_sub_nonstrict tid flow_mod ms br Hi ltac:(by eexists)) as H.
    destruct (flow_del_sub _ _ _ _ _). apply H. }
  destruct (pre_requisite_loop 0 ms) as [bits [e|]] eqn:E.
  - rewrite (flow_del_sub_strict tid t), E by done. set (f := Flow _ _ _ _ _ _ _ _ _ _ _ _ _ _ _ _).
    pose proof (new_flow_law f br Hi) as H. destruct (new_flow f br). apply H.
  - pose proof (flow_del_sub_strict_law tid flow_mod ms br Hi ltac:(by eexists)) as H. rewrite E in H. specialize (H eq_refl).
    destruct (flow_del_sub _ _ _ _ _). apply H.
Qed.

Lemma flow_delete_inv flow_mod ms br : bridge_inv br -> bridge_inv (flowdb_flow_delete flow_mod ms br).2.
Proof.
  intros Hi. unfold flowdb_flow_delete. destruct (flow_pre_requisite_check _).2; [done|].
  set (strict := _ =? OFPFC_DELETE_STRICT). clearbody strict. destruct (_ =? OFPTT_ALL).
  - generalize (table_ids FLOWDB_TABLE_SIZE_MAX br). intros tids.
    assert (forall st, bridge_inv st.2 -> bridge_inv (foldl (fun '(ml, br) table_id =>
              flow_del_sub table_id flow_mod ml strict br) st tids).2) as H.
    { induction tids as [|tid tids IH]; intros [l b] Hb; [done|]. cbn [foldl]. apply IH. by apply flow_del_sub_inv. }
    specialize (H (ms, br) Hi). by destruct (foldl _ _ _) as [l b].
  - pose proof (get_table_law (fm_table_id flow_mod) br Hi) as H. destruct (flowdb_get_table _ br) as [t br1].
    pose proof (flow_del_sub_inv (fm_table_id flow_mod) flow_mod ms strict br1 (proj1 H)) as H'.
    by destruct (flow_del_sub _ _ _ _ br1).
Qed.

Lemma flow_modify_inv flow_mod ms il br : bridge_inv br -> bridge_inv (flowdb_flow_modify flow_mod ms il br).2.
Proof.
  intros Hi. pose proof (flowdb_flow_modify_law flow_mod ms il br Hi) as H.
  destruct (flowdb_flow_modify _ _ _ _) as [[rv e] br']. apply H.
Qed.

Lemma group_free_inv g br : bridge_inv br -> bridge_inv (group_free g br).
Proof. intros Hi. by apply fold_remove_law. Qed.

Lemma group_delete_inv group_id br : bridge_inv br -> bridge_inv (ofp_group_mod_delete group_id br).
Proof.
  intros Hi. unfold ofp_group_mod_delete. destruct (_ =? OFPG_ALL).
  - apply (frame_nil_inv (foldl (fun br key => match m_hashtable (br_groups br) !! key with
                                   | Some g => group_free g br | None => br end) br
             (map_to_list (m_hashtable (br_groups br))).*1)); [by apply frame_core|].
    generalize ((map_to_list (m_hashtable (br_groups br))).*1). intros keys. revert br Hi.
    induction keys as [|k keys IH]; intros br Hi; cbn [foldl]; [done|]. apply IH.
    destruct (_ !! k); [by apply group_free_inv|done].
  - destruct (group_table_lookup _ _) as [g|]; [|done].
    destruct (lagopus_hashmap_delete_no_lock _ _ _) as [[[rv hm] v] fr].
    apply (frame_nil_inv (group_free g br)); [by apply frame_core|by apply group_free_inv].
Qed.

Lemma expire_flow_inv r br : bridge_inv br -> bridge_inv (expire_flow r br).
Proof.
  intros Hi. unfold expire_flow. destruct (expire_reason _ _) as [reason|].
  - apply flow_remove_with_reason_law. eapply frame_nil_inv; [|exact Hi]. apply frame_upd. right. by intros f _.
  - eapply frame_nil_inv; [apply frame_timer|exact Hi].
Qed.

Lemma expire_loop_inv fuel id i br : bridge_inv br -> bridge_inv (expire_loop fuel id i br).
Proof.
  revert i br. induction fuel as [|fuel IH]; intros i br Hi; cbn [expire_loop]; [done|].
  destruct (find _ _) as [t|]; [|done]. destruct (i <? _)%nat; [|done]. apply IH.
  destruct (mjoin _); [by apply expire_flow_inv|done].
Qed.

Lemma flow_timer_expire_inv id br : bridge_inv br -> bridge_inv (flow_timer_expire id br).
Proof. unfold flow_timer_expire. generalize MAX_TIMEOUT_ENTRIES as n. intros n Hi. by apply expire_loop_inv. Qed.

Lemma timer_step_inv cur br : bridge_inv br -> bridge_inv (dp_timer_step cur br).2.
Proof.
  intros Hi. unfold dp_timer_step. destruct (next_event _ _) as [|id|id]; [done| |].
  - eapply frame_nil_inv; [|exact Hi]. by apply frame_core.
  - pose proof (flow_timer_expire_inv id br Hi) as H. set (b := flow_timer_expire id br) in *. clearbody b.
    apply (frame_nil_inv b); [by apply frame_core|done].
Qed.

Lemma handle_inv br c : bridge_inv br -> command_ok c -> bridge_inv (handle br c).
Proof.
  intros Hi Hok. destruct c; cbn [handle]; try done; try (eapply frame_nil_inv; [|exact Hi]; by apply frame_core).
  - destruct Hok. by apply flowdb_flow_add_inv.
  - by apply flow_modify_inv.
  - by apply flow_delete_inv.
  - destruct (ofp_group_mod_add _ _ _ _ _) as [[[rv groups] e]|]; [|done].
    eapply frame_nil_inv; [|exact Hi]. by apply frame_core.
  - by apply group_delete_inv.
Qed.

Lemma execute_inv sy c : bridge_inv (sy_bridge sy) -> command_ok c -> bridge_inv (sy_bridge (execute sy c)).
Proof.
  intros Hi Hok. destruct c; try (by apply handle_inv). cbn [execute].
  pose proof (timer_step_inv (sy_timer sy) (sy_bridge sy) Hi) as H. by destruct (dp_timer_step _ _).
Qed.

Lemma run_inv sy cs : bridge_inv (sy_bridge sy) -> Forall command_ok cs -> bridge_inv (sy_bridge (foldl execute sy cs)).
Proof.
  intros Hi Hok. revert sy Hi. induction Hok as [|c cs Hc _ IH]; intros sy Hi; [done|]. cbn [foldl].
  apply IH. by apply execute_inv.
Qed.

(** ** Lookups in a bridge *)

(** A flow agrees with a packet: by the fields of its path in the tree, and by the bytes its match compiles to. *)
Definition entry_agrees (tid : Z) (pkt : lagopus_packet) (f : flow) : bool :=
  path_agrees tid pkt (fl_match_list f) &&
  match_byteoff pkt (set_fl_byteoff_match (compile (fl_match_list f) zero_byteoff) f).

Lemma entry_agrees_candidate br tid t pkt x :
  table_inv (br_flows br) tid t -> x ∈ tb_flows t ->
  candidate (br_flows br) tid pkt (tb_userdata t) x <-> entry_agrees tid pkt (the_flow br x) = true.
Proof.
  intros Hi Hx. unfold candidate, entry_agrees. rewrite (tv_tree _ _ _ Hi), andb_true_iff.
  pose proof (eo_bytes _ _ _ (tv_entry _ _ _ Hi x Hx)) as Hb. unfold ml in *. fold (the_flow br x) in *.
  assert (set_fl_byteoff_match (compile (fl_match_list (the_flow br x)) zero_byteoff) (the_flow br x) = the_flow br x) as ->
    by (rewrite <- Hb; by destruct (the_flow br x)).
  tauto.
Qed.

(** In a sorted list the first flow that agrees has the highest priority of those that do. *)
Lemma find_descending (key : ref -> Z) (p : ref -> bool) l :
  descending key l ->
  match find p l with
  | Some z => z ∈ l /\ p z = true /\ forall x, x ∈ l -> p x = true -> key x <= key z
  | None => forall x, x ∈ l -> p x = false
  end.
Proof.
  unfold descending. induction 1 as [|x l Hd IH Hall]; cbn [find]; [by intros x ?%elem_of_nil|].
  rewrite Forall_forall in Hall. destruct (p x) eqn:E.
  - split_and!; [by left|done|]. intros y [->|Hy]%elem_of_cons _; [lia|]. specialize (Hall y Hy). cbn in Hall. lia.
  - destruct (find p l) as [z|].
    + destruct IH as (H1 & H2 & H3). split_and!; [by right|done|]. intros y [->|Hy]%elem_of_cons Hp; [congruence|auto].
    + intros y [->|Hy]%elem_of_cons; auto.
Qed.

(** ** Expiry *)

Lemma expire_reason_idle now f :
  expire_reason now f = Some OFPRR_IDLE_TIMEOUT <->
  fl_idle_timeout f <> 0 /\ fl_idle_timeout f <= now.1 - (fl_update_time f).1.
Proof.
  unfold expire_reason. destruct (negb (fl_idle_timeout f =? 0) && _) eqn:E.
  - apply andb_true_iff in E as [E1 E2]. split; [intros _; lia|done].
  - apply andb_false_iff in E. split; [destruct (negb _ && _); discriminate|]. intros [H1 H2]. destruct E; lia.
Qed.

(** ** Properties *)

(** C1: the invariant of the flow database (sorted lists, no identical flows, trees and lists with the
    same flows, compiled matches) holds after every history of FLOW_MOD, GROUP_MOD and
    METER_MOD commands and timer steps, successful or not, from the empty bridge on. *)
Theorem commands_invariant (cs : list command) (Hok : Forall command_ok cs) :
  bridge_inv (sy_bridge (foldl execute (System empty_bridge None) cs)).
Proof. apply run_inv; [exact empty_bridge_inv|done]. Qed.

Definition sample_commands : list command :=
  [FlowAdd (sample_flow_mod OFPFC_ADD 10) [in_port_match] [sample_output 1];
   FlowAdd (sample_flow_mod OFPFC_ADD 20) tcp_matches [sample_output 2];
   FlowModify (sample_flow_mod OFPFC_MODIFY 0) [in_port_match] [sample_output 2];
   TimerStep; FlowDelete (sample_flow_mod OFPFC_DELETE 0) [in_port_match]].

Lemma commands_invariant_witness :
  bridge_inv (sy_bridge (foldl execute (System empty_bridge None) sample_commands)).
Proof.
  apply (commands_invariant sample_commands). unfold sample_commands.
  repeat (apply Forall_cons; split; [try exact I; (split; [apply match_list_ok_dec; reflexivity|vm_compute; discriminate])|]).
  apply Forall_nil, I.
Defined.


Definition sample_table : table :=
  match br_tables sample_bridge !! 0 with Some t => t | None => table_alloc 0 end.


Example sample_lookup_found :
  (lagopus_find_flow (br_flows sample_bridge) sample_packet (tb_userdata sample_table)).1 = Some 0%nat.
Proof. vm_compute. reflexivity. Qed.

(** The deadline [add_flow_timer] gives a flow is the moment [flow_timer_expire] would
    remove it, not before and not later, for the clock and counters as they are: as long as no packet
    updates the flow, the expiry function removes it exactly from that second on; the reason
    is the idle timeout when that has passed, and else the hard timeout. *)
Theorem flow_timeout_exact (now now' : timespec) (f : flow)
    (Hidle : 0 <= fl_idle_timeout f) (Hhard : 0 <= fl_hard_timeout f)
    (Hone : 0 < fl_idle_timeout f \/ 0 < fl_hard_timeout f) :
  (now.1 + flow_timeout now f <= now'.1 <-> is_Some (expire_reason now' f)) /\
  (expire_reason now' f = Some OFPRR_IDLE_TIMEOUT <->
     0 < fl_idle_timeout f /\ (fl_update_time f).1 + fl_idle_timeout f <= now'.1) /\
  (expire_reason now' f = Some OFPRR_HARD_TIMEOUT ->
     0 < fl_hard_timeout f /\ (fl_create_time f).1 + fl_hard_timeout f <= now'.1).
Proof.
  split; [|split].
  - unfold flow_timeout, expire_reason.
    destruct (Z.ltb_spec 0 (fl_idle_timeout f)), (Z.ltb_spec 0 (fl_hard_timeout f)); cbn [andb]; [| | |lia];
    destruct (Z.eqb_spec (fl_idle_timeout f) 0), (Z.leb_spec (fl_idle_timeout f) (now'.1 - (fl_update_time f).1));
    destruct (Z.eqb_spec (fl_hard_timeout f) 0), (Z.leb_spec (fl_hard_timeout f) (now'.1 - (fl_create_time f).1));
    cbn [negb andb]; (split; [intros; try (by eexists); lia|intros Hs; try lia; by destruct Hs]).
  - rewrite expire_reason_idle. lia.
  - unfold expire_reason. destruct (negb (fl_idle_timeout f =? 0) && _); [discriminate|].
    destruct (Z.eqb_spec (fl_hard_timeout f) 0), (Z.leb_spec (fl_hard_timeout f) (now'.1 - (fl_create_time f).1));
      cbn; try discriminate. lia.
Qed.

Lemma flow_timeout_exact_witness :
  let f := Flow [] [] 0 0 0 0 0 10 0 [] [] 0 0 (100, 0) (100, 0) None in
  (100 + flow_timeout (100, 0) f <= 110 <-> is_Some (expire_reason (110, 0) f)) /\
  (expire_reason (110, 0) f = Some OFPRR_IDLE_TIMEOUT <->
     0 < fl_idle_timeout f /\ (fl_update_time f).1 + fl_idle_timeout f <= 110) /\
  (expire_reason (110, 0) f = Some OFPRR_HARD_TIMEOUT ->
     0 < fl_hard_timeout f /\ (fl_create_time f).1 + fl_hard_timeout f <= 110).
Proof. apply (flow_timeout_exact (100, 0) (110, 0)); [vm_compute; discriminate|vm_compute; discriminate|left; reflexivity]. Defined.
