(* ===== verification/Pipeline.v ===== *)
(** * The pipeline: from a received packet to packets sent

    The part of [src/dataplane/ofproto/datapath.c] that drives a packet through the flow tables:
    matching, the instructions ([dataplane.h]), the actions that need more than the packet
    (OUTPUT, GROUP, the TTL actions that report to the controller), the action set, the groups
    with [group_live_bucket] of [group.c] and [port_liveness] of [port.c], meters, the flow cache,
    sending to ports ([sock_io.c]) and to the controller, and PACKET_OUT ([comm.c]).

    The state is the packet being processed and the world around it.  The switch is the one
    built by default: raw sockets, neither DPDK nor the hybrid mode.  A packet buffer counts
    its references; freeing one that has none left is [Undefined], and [wo_lost] counts the
    buffers abandoned with references left.  [wo_touched] counts the accesses to a packet
    after its last reference is gone; the model lets them see the last contents. *)
From S2P Require Import Prelude Monad OpenFlow Hashmap Endian Shared Packet ByteMatch ActionSet Meter Group FlowEntry.
From S2P Require Import FlowinfoTree Bridge PacketEdit Checksum PacketActions SetField Tunnel PacketHash FlowCache.

(** ** State *)

(** [enum datastore_interface_type] *)
Inductive interface_type :=
  | ETHERNET_DPDK_PHY
  | ETHERNET_DPDK_VDEV
  | ETHERNET_RAWSOCK
  | GRE
  | NVGRE
  | VXLAN
  | VHOST_USER
  | UNKNOWN.

Record interface := Interface { if_type : interface_type; if_fd : Z }.

(** [struct port] with [ofp_port.config] and [ofp_port.state] *)
Record port := Port {
  po_ifindex : Z;
  po_config : Z;
  po_state : Z;
  po_interface : option interface
}.

Definition OFPPC_PORT_DOWN := 1.
Definition OFPPC_NO_FWD := 32.
Definition OFPPC_NO_PACKET_IN := 64.
Definition OFPPS_LINK_DOWN := 1.

Definition flag_set (x flag : Z) : bool := negb (Z.land x flag =? 0).

(** What leaves the data plane: a frame written to a socket; a PACKET_IN, as
    (reason, table, miss_send_len, cookie), the data and the match list. *)
Inductive event :=
  | ev_write (fd : Z) (data : bytes)
  | ev_packet_in (head : Z * Z * Z * Z) (data : bytes) (match_list : list match_).

Record world := World {
  wo_bridge : bridge;
  wo_ports : gmap Z port;
  wo_controller_config : Z;
  wo_miss_send_len : Z;
  wo_cache : flowcache;
  wo_events : list event;
  wo_lost : nat;
  wo_touched : nat
}.

(** The packet: its buffer, the references to it, and whether [pkt->cache] is set. *)
Record pipe := Pipe {
  pi_world : world;
  pi_mbuf : mbuf;
  pi_refs : nat;
  pi_use_cache : bool
}.

Definition set_wo_bridge (v : bridge) (w : world) : world :=
  World v (wo_ports w) (wo_controller_config w) (wo_miss_send_len w) (wo_cache w) (wo_events w) (wo_lost w) (wo_touched w).
Definition set_wo_cache (v : flowcache) (w : world) : world :=
  World (wo_bridge w) (wo_ports w) (wo_controller_config w) (wo_miss_send_len w) v (wo_events w) (wo_lost w) (wo_touched w).
Definition set_wo_events (v : list event) (w : world) : world :=
  World (wo_bridge w) (wo_ports w) (wo_controller_config w) (wo_miss_send_len w) (wo_cache w) v (wo_lost w) (wo_touched w).
Definition set_wo_lost (v : nat) (w : world) : world :=
  World (wo_bridge w) (wo_ports w) (wo_controller_config w) (wo_miss_send_len w) (wo_cache w) (wo_events w) v (wo_touched w).
Definition set_wo_touched (v : nat) (w : world) : world :=
  World (wo_bridge w) (wo_ports w) (wo_controller_config w) (wo_miss_send_len w) (wo_cache w) (wo_events w) (wo_lost w) v.

Definition set_pi_world (v : world) (s : pipe) : pipe := Pipe v (pi_mbuf s) (pi_refs s) (pi_use_cache s).
Definition set_pi_mbuf (v : mbuf) (s : pipe) : pipe := Pipe (pi_world s) v (pi_refs s) (pi_use_cache s).
Definition set_pi_refs (v : nat) (s : pipe) : pipe := Pipe (pi_world s) (pi_mbuf s) v (pi_use_cache s).

Abbreviation proc := (M pipe).

(** A handler that works on the packet alone. *)
Definition lift {A} (c : edit A) : proc A := fun s =>
  match c (pi_mbuf s) with
  | Done (a, m) => Done (a, set_pi_mbuf m s)
  | Undefined => Undefined
  | OutOfFuel => OutOfFuel
  end.

Definition of_outcome {A} (o : outcome A) : proc A := fun s =>
  match o with Done a => Done (a, s) | Undefined => Undefined | OutOfFuel => OutOfFuel end.

Definition get_world {A} (f : world -> A) : proc A := gets (fun s => f (pi_world s)).
Definition upd_world (f : world -> world) : proc unit := modify (fun s => set_pi_world (f (pi_world s)) s).
Definition get_bridge {A} (f : bridge -> A) : proc A := get_world (fun w => f (wo_bridge w)).
Definition upd_bridge (f : bridge -> bridge) : proc unit := upd_world (fun w => set_wo_bridge (f (wo_bridge w)) w).
Definition emit (e : event) : proc unit := upd_world (fun w => set_wo_events (wo_events w ++ [e]) w).
Definition pkt_get {A} (f : lagopus_packet -> A) : proc A := lift (get_pkt f).
Definition pkt_upd (f : lagopus_packet -> lagopus_packet) : proc unit := lift (upd_pkt f).

(** [pkt->in_port->ofp_port.port_no]; the port of a PACKET_OUT without one has the interface
    index 0xff. *)
Definition in_port_no : proc Z :=
  has ← gets (fun s => mb_has_port (pi_mbuf s)); assert has ;; pkt_get pk_in_port.
Definition in_port_ifindex : proc Z :=
  n ← in_port_no; p ← get_world (fun w => wo_ports w !! n); mret (from_option po_ifindex 0xff p).

(** [lagopus_packet_free] ([sock_m_free]) and [OS_M_ADDREF] *)
Definition lagopus_packet_free : proc unit := fun s =>
  match pi_refs s with O => Undefined | S n => Done (tt, set_pi_refs n s) end.
Definition OS_M_ADDREF : proc unit := modify (fun s => set_pi_refs (S (pi_refs s)) s).

(** An access to the packet that may be freed already. *)
Definition touch : proc unit := modify (fun s =>
  match pi_refs s with
  | O => set_pi_world (set_wo_touched (S (wo_touched (pi_world s))) (pi_world s)) s
  | S _ => s
  end).

(** Work on another packet, a new one, and forget it. *)
Definition on_packet {A} (m : mbuf) (c : proc A) : proc A := fun s =>
  match c (Pipe (pi_world s) m 1 false) with
  | Done (a, s') =>
      let w := pi_world s' in
      Done (a, set_pi_world (set_wo_lost (wo_lost w + min 1 (pi_refs s')) w) s)
  | Undefined => Undefined
  | OutOfFuel => OutOfFuel
  end.

(** [copy_packet]: the new structure is zero but for the members assigned. *)
Definition copy_packet (m : mbuf) : mbuf :=
  let p := mb_pkt m in
  Mbuf (replicate 128 0)
    (Packet (pk_data p) 0 0 [] 0 None (pk_in_port p) (pk_ether_type p) 0 0 0 0 0 0 0 0 None
       (<[L3_BASE := base_ptr p L3_BASE]> (<[L4_BASE := base_ptr p L4_BASE]> (replicate MAX_BASE None)))
       [] (Z.lor (pk_flags p) PKT_FLAG_CACHED_FLOW))
    (mb_has_port m) 0.

Definition copy_packet_with_metadata (m : mbuf) : mbuf :=
  let p := mb_pkt m in
  let q := mb_pkt (copy_packet m) in
  set_mb_pkt (Packet (pk_data q) (pk_hash64 q) (pk_nmatched q) (pk_matched_flow q) (pk_table_id p) (pk_flow p) (pk_in_port q)
      (pk_ether_type q) (oob_metadata p) (oob_in_port p) (oob_in_phy_port p) (oob_packet_type p) (oob_ether_type p)
      (oob_vlan_tci p) (oob2_tunnel_id q) (oob2_ipv6_exthdr q) (pk_vlan q) (pk_base q) (pk_actions q) (pk_flags q))
    (copy_packet m).

(** What is not part of the repository or belongs to a driver: the hash and checksum functions,
    and the metering of [lagopus_meter_packet] (a band type and a precedence level). *)
Record driver := Driver {
  dr_hash : bytes -> Z -> Z;
  dr_crc32c : Z -> bytes -> Z -> Z;
  dr_meter_packet : mbuf -> meter -> Z * Z
}.

(** [lagopus_meter_packet] of [sock.c] does nothing. *)
Definition sock_meter_packet (m : mbuf) (mt : meter) : Z * Z := (0, 0).

Section Pipeline.
Context (env : driver).

Definition packet_hash : proc unit :=
  ifindex ← in_port_ifindex; lift (calc_packet_hash (dr_hash env) ifindex).

(** ** Sending *)

(** The checksums that the actions left to be computed. *)
Definition recalc_checksums : edit unit :=
  flags ← get_pkt pk_flags;
  if Z.land flags PKT_FLAG_RECALC_CKSUM_MASK =? 0 then mret tt
  else
    v4 ← gets is_ipv4; v6 ← gets is_ipv6;
    if v4 : bool then lagopus_update_ipv4_checksum (dr_crc32c env)
    else if v6 : bool then lagopus_update_ipv6_checksum (dr_crc32c env)
    else mret tt.

(** Frames are padded to 60 bytes, in place. *)
Definition pad_frame : edit unit :=
  plen ← pktlen;
  if plen <? 60 then upd_pkt (fun p => set_pk_data (pk_data p ++ replicate (Z.to_nat (60 - plen)) 0) p)
  else mret tt.

Definition rawsock_send_packet_physical (ifp : interface) : proc lagopus_result :=
  (if if_fd ifp =? 0 then mret tt
   else
     lift pad_frame ;; lift recalc_checksums ;;
     data ← lift (gets frame); emit (ev_write (if_fd ifp) data)) ;;
  lagopus_packet_free ;; mret LAGOPUS_RESULT_OK.

Definition lagopus_send_packet_physical (ifp : option interface) : proc lagopus_result :=
  match ifp with
  | None => mret LAGOPUS_RESULT_OK
  | Some ifp =>
      match if_type ifp with
      | ETHERNET_DPDK_PHY | ETHERNET_DPDK_VDEV => mret LAGOPUS_RESULT_INVALID_ARGS
      | ETHERNET_RAWSOCK => rawsock_send_packet_physical ifp
      | GRE | NVGRE | VXLAN | VHOST_USER | UNKNOWN => lagopus_packet_free ;; mret LAGOPUS_RESULT_OK
      end
  end.

Definition OFPR_NO_MATCH := 0.
Definition OFPR_ACTION := 1.
Definition OFPR_INVALID_TTL := 2.
Definition OFPCML_NO_BUFFER := 0xffff.

Definition packet_in_match_list (port_no metadata : Z) : list match_ :=
  Match false OFPXMC_OPENFLOW_BASIC (FIELD OFPXMT_OFB_IN_PORT) 4 (le_bytes 4 (OS_HTONL port_no)) ::
  (if metadata =? 0 then []
   else [Match false OFPXMC_OPENFLOW_BASIC (FIELD OFPXMT_OFB_METADATA) 8 (le_bytes 8 metadata)]).

Definition send_packet_in (reason miss_send_len cookie : Z) : proc lagopus_result :=
  size ← lift pktlen;
  lift recalc_checksums ;;
  data ← lift (gets frame);
  table_id ← pkt_get pk_table_id; metadata ← pkt_get oob_metadata;
  port_no ← in_port_no;
  emit (ev_packet_in (reason, table_id, miss_send_len, cookie) (take (Z.to_nat size) data)
          (packet_in_match_list port_no metadata)) ;;
  mret LAGOPUS_RESULT_OK.

(** The body of the iteration over the ports. *)
Definition lagopus_do_send_iterate (in_port : Z) (np : Z * port) : proc unit :=
  let '(n, port) := np in
  if negb (flag_set (po_config port) OFPPC_PORT_DOWN) && bool_decide (is_Some (po_interface port)) &&
     negb (n =? in_port) && negb (flag_set (po_config port) OFPPC_NO_FWD)
  then OS_M_ADDREF ;; lagopus_send_packet_physical (po_interface port) ;; mret tt
  else mret tt.

Fixpoint for_each {A} (l : list A) (f : A -> proc unit) : proc unit :=
  match l with [] => mret tt | x :: l' => f x ;; for_each l' f end.

Definition send_to_port (out_port : Z) : proc unit :=
  port ← get_world (fun w => wo_ports w !! out_port);
  match port with
  | Some port =>
      if flag_set (po_config port) OFPPC_NO_FWD then lagopus_packet_free
      else lagopus_send_packet_physical (po_interface port) ;; mret tt
  | None => lagopus_packet_free
  end.

Definition flood (in_port : Z) : proc unit :=
  ports ← get_world (fun w => map_to_list (wo_ports w));
  for_each ports (lagopus_do_send_iterate in_port) ;;
  lagopus_packet_free.

(** A packet of the table-miss flow is reported as such. *)
Definition to_controller (cookie : Z) : proc unit :=
  config ← get_world wo_controller_config;
  (if flag_set config OFPPC_NO_PACKET_IN then mret tt
   else
     flow ← pkt_get pk_flow;
     prio ← get_bridge (fun br => from_option (fun r => fl_priority (the_flow br r)) 1 flow);
     let reason := if prio =? 0 then OFPR_NO_MATCH else OFPR_ACTION in
     send_packet_in reason OFPCML_NO_BUFFER cookie ;; mret tt) ;;
  lagopus_packet_free.

(** [table] is the call of [lagopus_match_and_action] for OFPP_TABLE. *)
Definition dp_interface_tx_packet (table : proc lagopus_result) (out_port cookie : Z) : proc unit :=
  in_port ← in_port_no;
  if out_port =? in_port then lagopus_packet_free
  else if out_port =? OFPP_TABLE then pkt_upd (set_pk_table_id 0) ;; table ;; mret tt
  else if out_port =? OFPP_NORMAL then lagopus_packet_free
  else if (out_port =? OFPP_FLOOD) || (out_port =? OFPP_ALL) then flood in_port
  else if out_port =? OFPP_CONTROLLER then to_controller cookie
  else if out_port =? OFPP_LOCAL then lagopus_packet_free
  else send_to_port (if out_port =? OFPP_IN_PORT then in_port else out_port).

(** ** Actions *)

(** The flows matched go to the cache, once they are known. *)
Definition cache_matched_flows : proc unit :=
  flags ← pkt_get pk_flags; use_cache ← gets pi_use_cache; hash64 ← pkt_get pk_hash64;
  if negb (flag_set flags PKT_FLAG_CACHED_FLOW) && use_cache && negb (hash64 =? 0) then
    flows ← pkt_get (fun p => take (pk_nmatched p) (pk_matched_flow p));
    upd_world (fun w => set_wo_cache (register_cache (wo_cache w) hash64 flows) w)
  else mret tt.

Definition output_port_of (a : action) : Z := match act_ofpat a with ofp_action_output port _ => port | _ => 0 end.

Definition execute_action_output (table : proc lagopus_result) (a : action) : proc lagopus_result :=
  let port := output_port_of a in
  if act_flags a =? OUTPUT_COPIED_PACKET then
    m ← gets pi_mbuf;
    on_packet (if port =? OFPP_CONTROLLER then copy_packet_with_metadata m else copy_packet m)
      (dp_interface_tx_packet table port (act_cookie a)) ;;
    mret LAGOPUS_RESULT_OK
  else
    cache_matched_flows ;;
    dp_interface_tx_packet table port (act_cookie a) ;;
    mret LAGOPUS_RESULT_NO_MORE_ACTION.

(** The TTL handlers report a TTL that ran out. *)
Definition report_invalid_ttl (a : action) (c : edit lagopus_result) : proc lagopus_result :=
  rv ← lift c;
  if bool_decide (rv = LAGOPUS_RESULT_STOP) then
    miss_send_len ← get_world wo_miss_send_len;
    send_packet_in OFPR_INVALID_TTL miss_send_len (act_cookie a) ;; mret rv
  else mret rv.
Definition execute_action_dec_mpls_ttl (a : action) : proc lagopus_result := report_invalid_ttl a dec_mpls_ttl.
Definition execute_action_dec_nw_ttl (a : action) : proc lagopus_result := report_invalid_ttl a dec_nw_ttl.

Definition group_id_of (a : action) : Z := match act_ofpat a with ofp_action_group id => id | _ => 0 end.

(** [action->exec (pkt, action)]; [group] is [execute_group_action]. *)
Definition exec_action (table : proc lagopus_result) (group : Z -> proc lagopus_result) (a : action) : proc lagopus_result :=
  match act_exec a with
  | None => lift execute_action_none
  | Some ty =>
      if ty =? OFPAT_OUTPUT then execute_action_output table a
      else if ty =? OFPAT_COPY_TTL_OUT then lift execute_action_copy_ttl_out
      else if ty =? OFPAT_COPY_TTL_IN then lift execute_action_copy_ttl_in
      else if ty =? OFPAT_SET_MPLS_TTL then lift (execute_action_set_mpls_ttl a)
      else if ty =? OFPAT_DEC_MPLS_TTL then execute_action_dec_mpls_ttl a
      else if ty =? OFPAT_PUSH_VLAN then lift (execute_action_push_vlan a)
      else if ty =? OFPAT_POP_VLAN then lift (execute_action_pop_vlan a)
      else if ty =? OFPAT_PUSH_MPLS then lift (execute_action_push_mpls a)
      else if ty =? OFPAT_POP_MPLS then lift (execute_action_pop_mpls a)
      else if ty =? OFPAT_SET_QUEUE then lift (execute_action_set_queue a)
      else if ty =? OFPAT_GROUP then group (group_id_of a)
      else if ty =? OFPAT_SET_NW_TTL then lift (execute_action_set_nw_ttl a)
      else if ty =? OFPAT_DEC_NW_TTL then execute_action_dec_nw_ttl a
      else if ty =? OFPAT_SET_FIELD then
        ports ← get_world (fun w => dom (wo_ports w)); lift (execute_action_set_field ports a)
      else if ty =? OFPAT_PUSH_PBB then lift (execute_action_push_pbb a)
      else if ty =? OFPAT_POP_PBB then lift execute_action_pop_pbb
      else if ty =? OFPAT_ENCAP then lift (execute_action_encap (dr_hash env) a)
      else if ty =? OFPAT_DECAP then lift (execute_action_decap a)
      else if ty =? OFPAT_EXPERIMENTER then lift execute_action_experimenter
      else lift execute_action_none
  end.

(** [execute_action]; [next] stands for reading the link of an action after its handler: it
    fails when the handler has freed the list. *)
Fixpoint execute_action (exec : action -> proc lagopus_result) (next : proc unit) (l : list action) : proc lagopus_result :=
  match l with
  | [] => mret LAGOPUS_RESULT_OK
  | a :: l' =>
      rv ← exec a;
      if is_ok rv then next ;; execute_action exec next l' else mret rv
  end.

(** The lists of a flow or a bucket are not freed while they are executed. *)
Definition stays : proc unit := mret tt.

(** The lists of the packet's own action set are freed by [clear_action_set]. *)
Definition has_action : proc bool := flags ← pkt_get pk_flags; mret (flag_set flags PKT_FLAG_HAS_ACTION).
Definition own_list_stays : proc unit := has ← has_action; assert has.

Definition clear_has_action : proc unit :=
  touch ;; pkt_upd (fun p => set_pk_flags (Z.land (pk_flags p) (not32 PKT_FLAG_HAS_ACTION)) p).

Definition clear_action_set : proc unit :=
  touch ;; has ← has_action;
  if has : bool then pkt_upd (fun p => set_pk_actions (map (fun _ => []) (pk_actions p)) p) else mret tt.

Fixpoint execute_lists (exec : action -> proc lagopus_result) (next : proc unit) (ls : list (list action)) : proc lagopus_result :=
  match ls with
  | [] => mret LAGOPUS_RESULT_OK
  | l :: ls' => rv ← execute_action exec next l; if is_ok rv then execute_lists exec next ls' else mret rv
  end.

Definition execute_action_set (exec : action -> proc lagopus_result) (next : proc unit) (actions : list (list action))
    : proc lagopus_result :=
  rv ← execute_lists exec next actions;
  clear_action_set ;; clear_has_action ;; mret rv.

(** ** Groups *)

Definition port_liveness (ports : gmap Z port) (port_no : Z) : bool :=
  if port_no =? OFPP_ANY then false
  else match ports !! port_no with
       | None => false
       | Some p => negb (flag_set (po_state p) OFPPS_LINK_DOWN || flag_set (po_config p) OFPPC_PORT_DOWN)
       end.

(** The loop of [group_live_bucket]: the position of the first live bucket; [rec] is the
    recursive call on a watched group. *)
Fixpoint scan_live (rec : group -> outcome (option nat)) (ports : gmap Z port) (groups : group_table)
    (i : nat) (l : list bucket) : outcome (option nat) :=
  match l with
  | [] => Done None
  | b :: l' =>
      if port_liveness ports (bk_watch_port b) then Done (Some i)
      else if bk_watch_group b =? OFPG_ANY then scan_live rec ports groups (S i) l'
      else match group_table_lookup groups (bk_watch_group b) with
           | None => scan_live rec ports groups (S i) l'
           | Some a_group =>
               match rec a_group with
               | Done (Some _) => Done (Some i)
               | Done None => scan_live rec ports groups (S i) l'
               | Undefined => Undefined
               | OutOfFuel => OutOfFuel
               end
           end
  end.

Fixpoint group_live_bucket (fuel : nat) (ports : gmap Z port) (groups : group_table) (g : group) : outcome (option nat) :=
  match fuel with
  | O => OutOfFuel
  | S fuel' => scan_live (group_live_bucket fuel' ports groups) ports groups 0 (gr_bucket_list g)
  end.

(** The counters of a group, and of its bucket [i]. *)
Definition count_group (len : Z) (g : group) : group :=
  Group (gr_id g) (gr_type g) (gr_bucket_list g) (u64 (gr_packet_count g + 1)) (u64 (gr_byte_count g + len))
    (gr_create_time g) (gr_flows g).
Definition count_bucket (len : Z) (b : bucket) : bucket :=
  Bucket (bk_weight b) (bk_watch_port b) (bk_watch_group b) (u64 (bk_packet_count b + 1)) (u64 (bk_byte_count b + len))
    (bk_action_list b) (bk_actions b).

Definition upd_group (group_id : Z) (f : group -> group) : proc unit :=
  upd_bridge (fun br => set_br_groups (id_update f group_id (br_groups br)) br).

Definition bucket_hit (group_id : Z) (i : nat) : proc unit :=
  len ← lift pktlen;
  upd_group group_id (fun g => set_gr_bucket_list (alter (count_bucket len) i (gr_bucket_list g)) g).

Section GroupAction.
(** [exec]: the execution of one action. *)
Context (fuel : nat) (exec : action -> proc lagopus_result).

(** One turn of the loop of an ALL group: the bucket works on a copy of its own. *)
Definition bucket_on_copy (group_id : Z) (ib : nat * bucket) : proc unit :=
  bucket_hit group_id ib.1 ;;
  m ← gets pi_mbuf;
  on_packet (copy_packet m)
    (pkt_upd re_classify_packet ;;
     rv ← execute_action_set exec stays (bk_actions ib.2);
     if bool_decide (rv = LAGOPUS_RESULT_NO_MORE_ACTION) then mret tt else lagopus_packet_free).

Definition run_bucket (group_id : Z) (ib : nat * bucket) : proc lagopus_result :=
  bucket_hit group_id ib.1 ;; execute_action_set exec stays (bk_actions ib.2).

Definition run_selected (group_id : Z) (b : option (nat * bucket)) : proc lagopus_result :=
  match b with Some ib => run_bucket group_id ib | None => mret LAGOPUS_RESULT_OK end.

(** The hash is computed when a bucket is to be selected and it is still 0. *)
Definition hash_for_select (l : list bucket) : proc Z :=
  (if bool_decide (l = []) then mret tt
   else hash64 ← pkt_get pk_hash64; if hash64 =? 0 then packet_hash else mret tt) ;;
  pkt_get pk_hash64.

Definition execute_group_action (group_id : Z) : proc lagopus_result :=
  g ← get_bridge (fun br => group_table_lookup (br_groups br) group_id);
  match g with
  | None => mret LAGOPUS_RESULT_NOT_FOUND
  | Some g =>
      len ← lift pktlen;
      upd_group group_id (count_group len) ;;
      let buckets := imap pair (gr_bucket_list g) in
      if gr_type g =? OFPGT_ALL then
        for_each buckets (bucket_on_copy group_id) ;;
        cache_matched_flows ;;
        lagopus_packet_free ;; mret LAGOPUS_RESULT_NO_MORE_ACTION
      else if gr_type g =? OFPGT_SELECT then
        hash64 ← hash_for_select (gr_bucket_list g);
        run_selected group_id (select_bucket (fun ib => bk_weight ib.2) hash64 buckets)
      else if gr_type g =? OFPGT_INDIRECT then run_selected group_id (head buckets)
      else if gr_type g =? OFPGT_FF then
        ports ← get_world wo_ports; groups ← get_bridge br_groups;
        live ← of_outcome (group_live_bucket fuel ports groups g);
        run_selected group_id (live ≫= fun i => buckets !! i)
      else mret LAGOPUS_RESULT_OK
  end.

End GroupAction.

(** The handlers call each other through groups; [fuel] bounds the depth. *)
Fixpoint run_group (fuel : nat) (table : proc lagopus_result) (group_id : Z) : proc lagopus_result :=
  match fuel with
  | O => out_of_fuel
  | S fuel' => execute_group_action fuel (exec_action table (run_group fuel' table)) group_id
  end.

(** ** Meters *)

(** The new DSCP of a packet remarked by [prec_level]. *)
Definition remark_dscp (dscp prec_level : Z) : Z :=
  if Z.land dscp 7 =? 0 then
    if Z.shiftl prec_level 3 <=? dscp then dscp - u8 (Z.shiftl prec_level 3) else dscp
  else if (Z.land dscp 7 =? 2) || (Z.land dscp 7 =? 4) then
    if Z.land dscp 7 + Z.shiftl prec_level 1 <=? 7 then dscp + u8 (Z.shiftl prec_level 1) else dscp
  else dscp.

Definition dscp_remark (prec_level : Z) : edit unit :=
  v4 ← gets is_ipv4; v6 ← gets is_ipv6;
  if v4 : bool then
    l3 ← deref L3_BASE; tos ← load8 (l3 + 1);
    store8 (l3 + 1) (Z.lor (Z.land tos 0x03) (u8 (Z.shiftl (remark_dscp (Z.shiftr tos 2) prec_level) 2))) ;;
    or_flags PKT_FLAG_RECALC_IPV4_CKSUM
  else if v6 : bool then
    l3 ← deref L3_BASE; w ← load32 l3;
    let dscp := Z.land (Z.shiftr (OS_NTOHL w) 22) 0x3f in
    store32 l3 (Z.lor (Z.land w (OS_HTONL 0xf03fffff)) (OS_HTONL (u32 (Z.shiftl (remark_dscp dscp prec_level) 22))))
  else mret tt.

(** [true]: the packet is to be dropped. *)
Definition apply_meter (meter_id : Z) : proc bool :=
  mt ← get_bridge (fun br => meter_table_lookup (br_meters br) meter_id);
  match mt with
  | None => mret false
  | Some mt =>
      m ← gets pi_mbuf;
      let '(band, prec_level) := dr_meter_packet env m mt in
      if band =? OFPMBT_DROP then mret true
      else if band =? OFPMBT_DSCP_REMARK then lift (dscp_remark prec_level) ;; mret false
      else mret false
  end.

(** ** Instructions *)

Section Instructions.
Context (exec : action -> proc lagopus_result).

Definition execute_instruction_meter (i : instruction) : proc lagopus_result :=
  dropped ← apply_meter (ins_meter_id i);
  if dropped : bool then clear_action_set ;; mret LAGOPUS_RESULT_STOP else mret LAGOPUS_RESULT_OK.

Definition execute_instruction_apply_actions (i : instruction) : proc lagopus_result :=
  execute_action exec stays (ins_action_list i).

Definition execute_instruction_clear_actions (_ : instruction) : proc lagopus_result :=
  clear_action_set ;; clear_has_action ;; mret LAGOPUS_RESULT_OK.

(** Inserting into a list that was never initialised (the copies of packets) fails. *)
Definition execute_instruction_write_actions (i : instruction) : proc lagopus_result :=
  has ← has_action;
  (if has : bool then mret tt else pkt_upd (set_pk_actions init_action_set)) ;;
  actions ← pkt_get pk_actions;
  assert (bool_decide (actions <> []) || forallb (fun a => action_priority (action_type a) =? 0) (ins_action_list i)) ;;
  pkt_upd (set_pk_actions (merge_action_set actions (ins_action_list i))) ;;
  lift (or_flags PKT_FLAG_HAS_ACTION) ;; mret LAGOPUS_RESULT_OK.

Definition execute_instruction_write_metadata (i : instruction) : proc lagopus_result :=
  pkt_upd (fun p => write_metadata p (ins_metadata i) (ins_metadata_mask i)) ;; mret LAGOPUS_RESULT_OK.

Definition execute_instruction_goto_table (i : instruction) : proc lagopus_result :=
  use_cache ← gets pi_use_cache; flags ← pkt_get pk_flags;
  if use_cache && flag_set flags PKT_FLAG_CACHED_FLOW then mret LAGOPUS_RESULT_OK
  else pkt_upd (set_pk_table_id (ins_table_id i)) ;; mret LAGOPUS_RESULT_CONTINUE.

Definition instruction_handlers : list (instruction -> proc lagopus_result) :=
  [execute_instruction_meter; execute_instruction_apply_actions; execute_instruction_clear_actions;
   execute_instruction_write_actions; execute_instruction_write_metadata; execute_instruction_goto_table].

(** [execute_instruction]: the slots of the array in order, as long as the result is OK. *)
Fixpoint execute_slots (slots : list (option instruction)) (handlers : list (instruction -> proc lagopus_result))
    : proc lagopus_result :=
  match slots, handlers with
  | i :: slots', h :: handlers' =>
      rv ← match i with Some i => h i | None => mret LAGOPUS_RESULT_OK end;
      if is_ok rv then execute_slots slots' handlers' else mret rv
  | _, _ => mret LAGOPUS_RESULT_OK
  end.

Definition execute_instruction (f : flow) : proc lagopus_result :=
  execute_slots (map (flow_instruction f) (seq 0 INSTRUCTION_INDEX_MAX)) instruction_handlers.

(** ** Matching *)

Definition LAGOPUS_DP_PIPELINE_MAX := 254%nat.

Definition count_lookup (t : table) : table :=
  Table (tb_table_id t) (tb_flows t) (tb_userdata t) (u64 (tb_lookup_count t + 1)) (tb_matched_count t).
Definition count_matched (t : table) : table :=
  Table (tb_table_id t) (tb_flows t) (tb_userdata t) (tb_lookup_count t) (u64 (tb_matched_count t + 1)).
Definition upd_table (table_id : Z) (f : table -> table) : proc unit :=
  upd_bridge (fun br => set_br_tables (alter f table_id (br_tables br)) br).

Definition dp_openflow_match : proc lagopus_result :=
  table_id ← pkt_get pk_table_id;
  table ← get_bridge (fun br => br_tables br !! table_id);
  match table with
  | None => mret LAGOPUS_RESULT_STOP
  | Some table =>
      upd_table table_id count_lookup ;;
      pkt ← pkt_get (fun p => p);
      found ← get_bridge (fun br => lagopus_find_flow (br_flows br) pkt (tb_userdata table));
      upd_bridge (set_br_flows found.2) ;;
      nmatched ← pkt_get pk_nmatched;
      match found.1 with
      | Some flow =>
          if (nmatched <? LAGOPUS_DP_PIPELINE_MAX)%nat then
            pkt_upd (set_pk_flow (Some flow)) ;;
            pkt_upd (fun p => set_pk_matched_flow (take nmatched (pk_matched_flow p) ++ [flow]) p) ;;
            pkt_upd (set_pk_nmatched (S nmatched)) ;;
            mret LAGOPUS_RESULT_OK
          else mret LAGOPUS_RESULT_STOP
      | None => mret LAGOPUS_RESULT_STOP
      end
  end.

Definition dp_openflow_do_action : proc lagopus_result :=
  r ← pkt_get pk_flow;
  match r with
  | Some r =>
      f ← get_bridge (fun br => br_flows br !! r);
      match f with Some f => execute_instruction f | None => undefined end
  | None => undefined
  end.

(** One flow of a cache entry. *)
Definition do_cached_flow (r : ref) : proc lagopus_result :=
  len ← lift pktlen;
  f ← get_bridge (fun br => br_flows br !! r);
  match f with
  | None => undefined
  | Some f =>
      upd_bridge (upd_flow r (fun f => set_fl_byte_count (u64 (fl_byte_count f + len))
        (set_fl_packet_count (u64 (fl_packet_count f + 1)) f))) ;;
      now ← get_bridge br_now;
      (if negb (fl_idle_timeout f =? 0) || negb (fl_hard_timeout f =? 0)
       then upd_bridge (upd_flow r (set_fl_update_time now)) else mret tt) ;;
      pkt_upd (set_pk_flow (Some r)) ;;
      pkt_upd (set_pk_table_id (fl_table_id f)) ;;
      known ← get_bridge (fun br => bool_decide (is_Some (br_tables br !! fl_table_id f)));
      assert known ;;
      upd_table (fl_table_id f) count_lookup ;;
      (if 0 <? fl_priority f then upd_table (fl_table_id f) count_matched else mret tt) ;;
      execute_instruction f
  end.

Fixpoint do_cached_flows (l : list ref) : proc lagopus_result :=
  match l with
  | [] => mret LAGOPUS_RESULT_OK
  | r :: l' => rv ← do_cached_flow r; if is_ok rv then do_cached_flows l' else mret rv
  end.

Definition lookup_cache : proc (option cache_entry) :=
  use_cache ← gets pi_use_cache; hash64 ← pkt_get pk_hash64;
  if use_cache : bool then
    r ← get_world (fun w => cache_lookup (wo_cache w) hash64);
    upd_world (set_wo_cache r.2) ;; mret r.1
  else mret None.

Definition dp_openflow_do_cached_action : proc lagopus_result :=
  packet_hash ;;
  e ← lookup_cache;
  match e with
  | Some e => lift (or_flags PKT_FLAG_CACHED_FLOW) ;; do_cached_flows (ce_flow e)
  | None => mret LAGOPUS_RESULT_NOT_FOUND
  end.

Definition dp_openflow_do_action_set : proc lagopus_result :=
  has ← has_action;
  if has : bool then
    actions ← pkt_get pk_actions;
    rv ← execute_action_set exec own_list_stays actions;
    clear_has_action ;; mret rv
  else mret LAGOPUS_RESULT_OK.

(** [rv > LAGOPUS_RESULT_OK]: the results above 0. *)
Definition goes_on (rv : lagopus_result) : bool :=
  bool_decide (rv = LAGOPUS_RESULT_CONTINUE) || bool_decide (rv = OFPBAC_BAD_HEADER_TYPE).

(** The loop over the tables. *)
Fixpoint match_loop (fuel : nat) : proc lagopus_result :=
  match fuel with
  | O => out_of_fuel
  | S fuel' =>
      rv ← dp_openflow_match;
      if is_ok rv then
        rv ← dp_openflow_do_action;
        if goes_on rv then match_loop fuel' else mret rv
      else mret rv
  end.

Definition match_and_action_body : proc lagopus_result :=
  rv ← dp_openflow_do_cached_action;
  rv ← (if bool_decide (rv = LAGOPUS_RESULT_NOT_FOUND) then match_loop (S LAGOPUS_DP_PIPELINE_MAX) else mret rv);
  rv ← (if is_ok rv then dp_openflow_do_action_set else mret rv);
  (if bool_decide (rv = LAGOPUS_RESULT_NO_MORE_ACTION) then mret tt else lagopus_packet_free) ;;
  mret rv.

End Instructions.

(** [fuel] bounds the nesting of OFPP_TABLE outputs and of groups. *)
Fixpoint lagopus_match_and_action (fuel : nat) : proc lagopus_result :=
  let table := match fuel with O => out_of_fuel | S fuel' => lagopus_match_and_action fuel' end in
  match_and_action_body (exec_action table (run_group fuel table)).

(** ** Packets in and out *)

Definition new_mbuf (data : bytes) (in_port : Z) : mbuf :=
  Mbuf (replicate 128 0) (lagopus_packet_init (packet_of data) in_port) true 0.

(** The body of [dp_rawsock_thread_loop] of [sock_io.c] for a frame read from a port;
    [use_cache]: the thread has a flow cache. *)
Definition receive (fuel : nat) (use_cache standalone : bool) (in_port : Z) (data : bytes) (w : world) : outcome world :=
  match (if standalone
         then dp_interface_tx_packet (lagopus_match_and_action fuel) OFPP_NORMAL 0
         else lagopus_match_and_action fuel ;; mret tt) (Pipe w (new_mbuf data in_port) 1 use_cache) with
  | Done (_, s) => Done (set_wo_lost (wo_lost (pi_world s) + min 1 (pi_refs s)) (pi_world s))
  | Undefined => Undefined
  | OutOfFuel => OutOfFuel
  end.

(** PACKET_OUT in [dp_process_event_data] of [comm.c]: the extra reference keeps the packet alive
    through its actions. *)
Definition packet_out (fuel : nat) (in_port : Z) (actions : list action) (data : bytes) (w : world) : outcome world :=
  let table := lagopus_match_and_action fuel in
  match (OS_M_ADDREF ;;
         execute_action (exec_action table (run_group fuel table)) stays (map lagopus_set_action_function actions) ;;
         lagopus_packet_free) (Pipe w (new_mbuf data in_port) 1 false) with
  | Done (_, s) => Done (set_wo_lost (wo_lost (pi_world s) + min 1 (pi_refs s)) (pi_world s))
  | Undefined => Undefined
  | OutOfFuel => OutOfFuel
  end.

End Pipeline.
