(* ===== verification/PipelineLogic.v ===== *)
(** * Reasoning about the pipeline

    A weakest precondition for the monad of [Monad], over the outcomes: an undefined
    outcome satisfies everything, running out of fuel what a parameter says, so that the same
    rules prove partial statements and termination.  The handlers that work on the packet
    alone are [plain]: they never run out of fuel, leave the pipeline's own fields of the
    packet alone and never claim to have given the packet away. *)
From S2P Require Import Prelude Monad OpenFlow Hashmap Packet ByteMatch ActionSet PacketEdit Checksum PacketActions SetField.
From S2P Require Import Tunnel PacketHash FlowCache Pipeline.

(** ** Handlers *)

(** The fields of the packet that belong to the pipeline. *)
Definition meta (p : lagopus_packet) : nat * list ref * Z * option ref * list (list action) :=
  (pk_nmatched p, pk_matched_flow p, pk_table_id p, pk_flow p, pk_actions p).

Definition plain {A} (R : A -> Prop) (c : edit A) : Prop := forall m,
  match c m with
  | Done (a, m') => R a /\ meta (mb_pkt m') = meta (mb_pkt m)
  | Undefined => True
  | OutOfFuel => False
  end.

Section Plain.

Lemma plain_ret {A} (R : A -> Prop) a : R a -> plain R (mret a).
Proof. by intros H m. Qed.

Lemma plain_bind {A B} (R : B -> Prop) (c : edit A) (k : A -> edit B) :
  plain (fun _ => True) c -> (forall a, plain R (k a)) -> plain R (c ≫= k).
Proof.
  intros Hc Hk m. specialize (Hc m). unfold mbind, M_bind. destruct (c m) as [[a m']| |]; [|done|done].
  destruct Hc as [_ Hm]. specialize (Hk a m'). destruct (k a m') as [[b m'']| |]; [|done|done].
  destruct Hk as [Hr Hm']. split; [done|congruence].
Qed.

Lemma plain_true {A} (R : A -> Prop) (c : edit A) : (forall a, R a) -> plain (fun _ => True) c -> plain R c.
Proof. intros HR H m. specialize (H m). by destruct (c m) as [[a m']| |]; [destruct H|..]. Qed.

Lemma plain_gets {A} (f : mbuf -> A) : plain (fun _ => True) (gets f).
Proof. by intros m. Qed.

Lemma plain_get_pkt {A} (f : lagopus_packet -> A) : plain (fun _ => True) (get_pkt f).
Proof. by intros m. Qed.

Lemma plain_upd_pkt f : (forall p, meta (f p) = meta p) -> plain (fun _ => True) (upd_pkt f).
Proof. intros H m. split; [done|apply H]. Qed.

Lemma plain_modify f : (forall m, meta (mb_pkt (f m)) = meta (mb_pkt m)) -> plain (fun _ => True) (modify f).
Proof. intros H m. split; [done|apply H]. Qed.

Lemma plain_assert b : plain (fun _ => True) (assert b).
Proof. by destruct b; intros m. Qed.

Lemma plain_header b : plain (fun _ => True) (header b).
Proof. intros m. unfold header. by destruct (base_ptr _ _) as [[]|]. Qed.

Lemma plain_deref b : plain (fun _ => True) (deref b).
Proof. intros m. unfold deref. by destruct (base_ptr _ _) as [[]|]. Qed.

Lemma plain_in_frame off n : plain (fun _ => True) (in_frame off n).
Proof. intros m. unfold in_frame. by destruct (_ <=? _)%nat. Qed.

Lemma plain_prepend n : plain (fun _ => True) (OS_M_PREPEND n).
Proof. intros m. unfold OS_M_PREPEND. by destruct (_ <=? _)%nat. Qed.

Lemma plain_adj n : plain (fun _ => True) (OS_M_ADJ n).
Proof. intros m. unfold OS_M_ADJ. by destruct (_ <=? _)%nat. Qed.

End Plain.

(** *** Classification leaves the fields alone *)

Definition kept (p : lagopus_packet) := (meta p, pk_data p, pk_in_port p, pk_flags p).

Lemma kept_meta f p : kept (f p) = kept p -> meta (f p) = meta p.
Proof. intros H. exact (f_equal (fun x => x.1.1.1) H). Qed.


Lemma kept_set_base b x p : kept (set_base b x p) = kept p.
Proof. done. Qed.

Lemma kept_outer p : kept (classify_l2_outer p).1 = kept p.
Proof. unfold classify_l2_outer. by repeat case_match. Qed.

Lemma kept_strip fuel p ty len q ty' len' b :
  strip_l2 fuel p ty len = Some (q, ty', len', b) -> kept q = kept p.
Proof.
  revert p ty len. induction fuel as [|fuel IH]; intros p ty len; cbn [strip_l2]; [repeat case_match; by intros; simplify_eq|].
  destruct (_ || _); [|by intros [= <- _ _ _]]. destruct (ty =? ETHERTYPE_PBB).
  - intros H%IH. rewrite H. by destruct (base_ptr p PBB_BASE).
  - destruct (_ <? 0); [by intros [= <- _ _ _]|]. intros H%IH. rewrite H. by destruct (pk_vlan p).
Qed.

Lemma kept_inner p ty len : kept (classify_l2_inner p ty len) = kept p.
Proof. unfold classify_l2_inner. by repeat case_match. Qed.

Lemma kept_classify_l2 p : kept (classify_packet_l2 p) = kept p.
Proof.
  unfold classify_packet_l2. pose proof (kept_outer (classify_l2_reset p)) as Ho.
  destruct (classify_l2_outer (classify_l2_reset p)) as [q ty]. cbn [fst] in Ho.
  change (kept (classify_l2_reset p)) with (kept p) in Ho.
  destruct (strip_l2 _ q ty _) as [[[[r ty'] len'] []]|] eqn:E; [| |done].
  - rewrite kept_inner. apply kept_strip in E. etrans; [exact E|done].
  - apply kept_strip in E. by etrans.
Qed.

Lemma kept_classify_ipv4 p : kept (classify_packet_ipv4 p) = kept p.
Proof. done. Qed.

Lemma kept_classify_ipv6 p : kept (classify_packet_ipv6 p) = kept p.
Proof. unfold classify_packet_ipv6. by destruct (ipv6_walk _ _ _ _ _ _) as [[[]]|]. Qed.

Lemma kept_classify_l4 p : kept (classify_packet_l4 p) = kept p.
Proof. unfold classify_packet_l4. cbv zeta. repeat (destruct (_ =? _); try done); by destruct (nd_option _ _ _ _ _). Qed.

Lemma kept_re_classify p : kept (re_classify_packet p) = kept p.
Proof.
  unfold re_classify_packet, classify_l3l4.
  destruct (_ =? _); [|destruct (_ =? _)]; rewrite ?kept_classify_l4, ?kept_classify_ipv4, ?kept_classify_ipv6; apply kept_classify_l2.
Qed.

Lemma kept_packet_type v p : kept (set_oob_packet_type v p) = kept p.
Proof. done. Qed.

Lemma kept_classify_l3l4 p : kept (classify_l3l4 p) = kept p.
Proof.
  unfold classify_l3l4. repeat (destruct (_ =? _)); by rewrite ?kept_classify_l4, ?kept_classify_ipv4, ?kept_classify_ipv6.
Qed.

(** What a new packet is like. *)
Lemma kept_init p port_no :
  kept (lagopus_packet_init p port_no) = (0%nat, pk_matched_flow p, 0, pk_flow p, pk_actions p, pk_data p, port_no, 0).
Proof.
  unfold lagopus_packet_init, classify_ether_packet. rewrite kept_classify_l3l4, kept_packet_type, kept_classify_l2. by destruct p.
Qed.

Lemma meta_re_classify p : meta (re_classify_packet p) = meta p.
Proof. apply kept_meta, kept_re_classify. Qed.
Lemma meta_classify_l2 p : meta (classify_packet_l2 p) = meta p.
Proof. apply kept_meta, kept_classify_l2. Qed.
Lemma meta_classify_ipv4 p : meta (classify_packet_ipv4 p) = meta p.
Proof. done. Qed.
Lemma meta_classify_ipv6 p : meta (classify_packet_ipv6 p) = meta p.
Proof. apply kept_meta, kept_classify_ipv6. Qed.
Lemma meta_classify_l4 p : meta (classify_packet_l4 p) = meta p.
Proof. apply kept_meta, kept_classify_l4. Qed.

(** *** Proof search *)

Create HintDb plain.
#[export] Hint Resolve plain_gets plain_get_pkt plain_assert plain_header plain_deref plain_in_frame plain_prepend plain_adj
  meta_re_classify meta_classify_l2 meta_classify_ipv4 meta_classify_ipv6 meta_classify_l4 : plain.

Ltac plain_meta := intros; rewrite ?meta_classify_l4, ?meta_classify_ipv6; auto with plain.
Ltac plain_step :=
  match goal with
  | |- plain _ (_ ≫= _) => apply plain_bind; [|intros ?]
  | |- plain _ (mret _) => apply plain_ret; done
  | |- plain _ (upd_pkt _) => apply plain_upd_pkt; plain_meta
  | |- plain _ (modify _) => apply plain_modify; plain_meta
  | |- plain _ (if ?b then _ else _) => destruct b
  | |- plain _ (match ?x with _ => _ end) => destruct x
  | |- plain _ (let '(_, _) := ?x in _) => destruct x
  | |- plain _ _ => solve [auto with plain]
  | |- plain ?R ?c => progress (try (apply (plain_true R c); [intros; done|])); solve [auto with plain]
  end.
Ltac plain_tac := cbv zeta; repeat plain_step.

Lemma plain_pktlen : plain (fun _ => True) pktlen.
Proof. apply plain_gets. Qed.
Lemma plain_set_header b x : plain (fun _ => True) (set_header b x).
Proof. by apply plain_upd_pkt. Qed.
Lemma plain_or_flags f : plain (fun _ => True) (or_flags f).
Proof. by apply plain_upd_pkt. Qed.
Lemma plain_load8 off : plain (fun _ => True) (load8 off).
Proof. unfold load8. plain_tac. Qed.
Lemma plain_load16 off : plain (fun _ => True) (load16 off).
Proof. unfold load16. plain_tac. Qed.
Lemma plain_load32 off : plain (fun _ => True) (load32 off).
Proof. unfold load32. plain_tac. Qed.
Lemma plain_store off v : plain (fun _ => True) (store off v).
Proof. unfold store. plain_tac. Qed.
#[export] Hint Resolve plain_pktlen plain_set_header plain_or_flags plain_load8 plain_load16 plain_load32 plain_store : plain.
Lemma plain_store8 off v : plain (fun _ => True) (store8 off v).
Proof. unfold store8. plain_tac. Qed.
Lemma plain_store16 off v : plain (fun _ => True) (store16 off v).
Proof. unfold store16. plain_tac. Qed.
Lemma plain_store32 off v : plain (fun _ => True) (store32 off v).
Proof. unfold store32. plain_tac. Qed.
Lemma plain_memmove dst src n : plain (fun _ => True) (memmove dst src n).
Proof. unfold memmove. plain_tac. Qed.
#[export] Hint Resolve plain_store8 plain_store16 plain_store32 plain_memmove : plain.

(** *** The handlers *)

Abbreviation returns := (fun rv => rv <> LAGOPUS_RESULT_NO_MORE_ACTION).

Lemma plain_IPV4_VER l3 : plain (fun _ => True) (IPV4_VER l3).
Proof. unfold IPV4_VER. plain_tac. Qed.
Lemma plain_IPV6_VER l3 : plain (fun _ => True) (IPV6_VER l3).
Proof. unfold IPV6_VER. plain_tac. Qed.
#[export] Hint Resolve plain_IPV4_VER plain_IPV6_VER : plain.

Lemma plain_copy_ttl_out : plain returns execute_action_copy_ttl_out.
Proof. unfold execute_action_copy_ttl_out. plain_tac. Qed.
Lemma plain_copy_ttl_in : plain returns execute_action_copy_ttl_in.
Proof. unfold execute_action_copy_ttl_in. plain_tac. Qed.
Lemma plain_set_mpls_ttl a : plain returns (execute_action_set_mpls_ttl a).
Proof. unfold execute_action_set_mpls_ttl. plain_tac. Qed.
Lemma plain_dec_mpls_ttl : plain returns dec_mpls_ttl.
Proof. unfold dec_mpls_ttl. plain_tac. Qed.
Lemma plain_set_nw_ttl a : plain returns (execute_action_set_nw_ttl a).
Proof. unfold execute_action_set_nw_ttl. plain_tac. Qed.
Lemma plain_dec_nw_ttl : plain returns dec_nw_ttl.
Proof. unfold dec_nw_ttl. plain_tac. Qed.
Lemma plain_push_vlan a : plain returns (execute_action_push_vlan a).
Proof. unfold execute_action_push_vlan. plain_tac. Qed.
Lemma plain_pop_vlan a : plain returns (execute_action_pop_vlan a).
Proof. unfold execute_action_pop_vlan. plain_tac. Qed.
Lemma plain_push_mpls_inherit : plain (fun _ => True) push_mpls_inherit.
Proof. unfold push_mpls_inherit. plain_tac. Qed.
#[export] Hint Resolve plain_push_mpls_inherit : plain.
Lemma plain_push_mpls a : plain returns (execute_action_push_mpls a).
Proof. unfold execute_action_push_mpls. plain_tac. Qed.
Lemma plain_pop_mpls a : plain returns (execute_action_pop_mpls a).
Proof. unfold execute_action_pop_mpls. plain_tac. Qed.
Lemma plain_push_pbb a : plain returns (execute_action_push_pbb a).
Proof. unfold execute_action_push_pbb. plain_tac. Qed.
Lemma plain_pop_pbb : plain returns execute_action_pop_pbb.
Proof. unfold execute_action_pop_pbb. plain_tac. Qed.
Lemma plain_set_queue a : plain returns (execute_action_set_queue a).
Proof. unfold execute_action_set_queue. plain_tac. Qed.
Lemma plain_experimenter : plain returns execute_action_experimenter.
Proof. unfold execute_action_experimenter. plain_tac. Qed.
Lemma plain_none : plain returns execute_action_none.
Proof. unfold execute_action_none. plain_tac. Qed.

(** Set-field: every case of the switch. *)
Lemma plain_copy_field b off n v : plain (fun _ => True) (copy_field b off n v).
Proof. unfold copy_field. plain_tac. Qed.
Lemma plain_update8 b off f : plain (fun _ => True) (update8 b off f).
Proof. unfold update8. plain_tac. Qed.
Lemma plain_update16 b off f : plain (fun _ => True) (update16 b off f).
Proof. unfold update16. plain_tac. Qed.
Lemma plain_update32 b off f : plain (fun _ => True) (update32 b off f).
Proof. unfold update32. plain_tac. Qed.
#[export] Hint Resolve plain_copy_field plain_update8 plain_update16 plain_update32 : plain.

Definition plain_case (c : option (edit unit)) : Prop := forall body, c = Some body -> plain (fun _ => True) body.

Lemma plain_case_union c d : plain_case c -> plain_case d -> plain_case (union c d).
Proof. intros Hc Hd body. destruct c as [c|], d as [d|]; cbn; intros H; [apply Hc|apply Hc|apply Hd|]; done. Qed.

Ltac plain_switch := intros body; repeat (destruct (_ =? _); [intros [= <-]; plain_tac|]); done.

Lemma plain_set_field ports a : plain returns (execute_action_set_field ports a).
Proof.
  unfold execute_action_set_field. cbv zeta.
  destruct (set_field_case _ _ _ _) as [body|] eqn:E; [|apply plain_ret; done].
  apply plain_bind; [|intros ?; apply plain_ret; done]. revert body E.
  change (plain_case (set_field_case ports (set_field_type (oxm_of a)) (set_field_hasmask (oxm_of a)) (set_field_value (oxm_of a)))).
  unfold set_field_case. repeat apply plain_case_union.
  - unfold set_field_l2, set_field_in_port, update_vlan. plain_switch.
  - unfold set_field_ip, by_ip. plain_switch.
  - unfold set_field_l4, l4_field. plain_switch.
  - unfold set_field_arp. plain_switch.
  - unfold set_field_ipv6, nd_field, l4_field. plain_switch.
  - unfold set_field_mpls, update_lse. plain_switch.
  - unfold set_field_tunnel. plain_switch.
Qed.

Lemma plain_encap city a : plain returns (execute_action_encap city a).
Proof.
  unfold execute_action_encap, encap_case, encap_mpls, encap_gre, encap_vxlan, encap_gtpu, encap_udp, encap_ip, encap_ethernet.
  repeat (destruct (_ =? _); [plain_tac|]). plain_tac.
Qed.

Lemma plain_classify_l4_checked : plain (fun _ => True) classify_l4_checked.
Proof. unfold classify_l4_checked. plain_tac. Qed.
#[export] Hint Resolve plain_classify_l4_checked : plain.
Lemma plain_decap_classify t : plain (fun _ => True) (decap_classify t).
Proof. unfold decap_classify. plain_tac. Qed.
#[export] Hint Resolve plain_decap_classify : plain.

Lemma plain_decap a : plain returns (execute_action_decap a).
Proof.
  unfold execute_action_decap, decap_case, decap_ethernet, decap_mpls, decap_ip, decap_udp, decap_gre, decap_vxlan, decap_gtpu.
  destruct (decap_types_of a) as [cur new]. repeat (destruct (cur =? _); [plain_tac|]). plain_tac.
Qed.

(** The hash and the checksums. *)
Lemma plain_hash_at calc_hash off n h : plain (fun _ => True) (hash_at calc_hash off n h).
Proof. unfold hash_at. plain_tac. Qed.
#[export] Hint Resolve plain_hash_at : plain.
Lemma plain_calc_packet_hash calc_hash ifindex : plain (fun _ => True) (calc_packet_hash calc_hash ifindex).
Proof.
  unfold calc_packet_hash, calc_l2_hash, calc_ipv4_hash, calc_ipv6_hash, calc_arp_hash, calc_l4_hash. plain_tac.
Qed.

Lemma plain_block off n : plain (fun _ => True) (block off n).
Proof. unfold block. plain_tac. Qed.
#[export] Hint Resolve plain_block : plain.
Lemma plain_sum a b : plain (fun _ => True) a -> plain (fun _ => True) b -> plain (fun _ => True) (by_ether_type a b).
Proof. intros Ha Hb. unfold by_ether_type. plain_tac. Qed.
Lemma plain_update_ipv4_l4 off psd : plain (fun _ => True) (update_ipv4_l4 off psd).
Proof. unfold update_ipv4_l4. plain_tac. Qed.
Lemma plain_update_ipv6_l4 off : plain (fun _ => True) (update_ipv6_l4 off).
Proof. unfold update_ipv6_l4. plain_tac. Qed.
Lemma plain_update_sctp crc l4_len hdr : plain (fun _ => True) (update_sctp crc l4_len hdr).
Proof. unfold update_sctp. plain_tac. Qed.
#[export] Hint Resolve plain_sum plain_update_ipv4_l4 plain_update_ipv6_l4 plain_update_sctp : plain.
Lemma plain_ipv4_checksum crc : plain (fun _ => True) (lagopus_update_ipv4_checksum crc).
Proof.
  unfold lagopus_update_ipv4_checksum, lagopus_update_iphdr_checksum, lagopus_update_tcp_checksum, lagopus_update_udp_checksum,
    lagopus_update_sctp_checksum, lagopus_update_icmp_checksum. plain_tac.
Qed.
Lemma plain_ipv6_checksum crc : plain (fun _ => True) (lagopus_update_ipv6_checksum crc).
Proof.
  unfold lagopus_update_ipv6_checksum, lagopus_update_tcp_checksum, lagopus_update_udp_checksum,
    lagopus_update_sctp_checksum, lagopus_update_icmpv6_checksum. plain_tac.
Qed.
#[export] Hint Resolve plain_ipv4_checksum plain_ipv6_checksum : plain.

Lemma plain_recalc env : plain (fun _ => True) (recalc_checksums env).
Proof. unfold recalc_checksums. plain_tac. Qed.
Lemma plain_pad : plain (fun _ => True) pad_frame.
Proof. unfold pad_frame. plain_tac. Qed.
Lemma plain_dscp_remark prec_level : plain (fun _ => True) (dscp_remark prec_level).
Proof. unfold dscp_remark. plain_tac. Qed.

#[export] Hint Resolve plain_copy_ttl_out plain_copy_ttl_in plain_set_mpls_ttl plain_dec_mpls_ttl plain_set_nw_ttl plain_dec_nw_ttl
  plain_push_vlan plain_pop_vlan plain_push_mpls plain_pop_mpls plain_push_pbb plain_pop_pbb plain_set_queue
  plain_experimenter plain_none plain_set_field plain_encap plain_decap plain_calc_packet_hash plain_recalc plain_pad
  plain_dscp_remark : plain.

(** ** Weakest preconditions *)

Section Wp.
(** What running out of fuel is taken for. *)
Context (F : Prop).

Definition wp {A} (c : proc A) (Q : A -> pipe -> Prop) (s : pipe) : Prop :=
  match c s with
  | Done (a, s') => Q a s'
  | Undefined => True
  | OutOfFuel => F
  end.

Lemma wp_ret {A} (a : A) Q s : Q a s -> wp (mret a) Q s.
Proof. done. Qed.

Lemma wp_mono {A} (c : proc A) (P Q : A -> pipe -> Prop) s : wp c P s -> (forall a s', P a s' -> Q a s') -> wp c Q s.
Proof. unfold wp. intros H HPQ. destruct (c s) as [[a s']| |]; auto. Qed.

Lemma wp_bind {A B} (c : proc A) (k : A -> proc B) Q s : wp c (fun a s' => wp (k a) Q s') s -> wp (c ≫= k) Q s.
Proof. unfold wp, mbind, M_bind. intros H. by destruct (c s) as [[a s']| |]. Qed.

Lemma wp_gets {A} (f : pipe -> A) Q s : Q (f s) s -> wp (gets f) Q s.
Proof. done. Qed.

Lemma wp_get_world {A} (f : world -> A) Q s : Q (f (pi_world s)) s -> wp (get_world f) Q s.
Proof. done. Qed.

Lemma wp_modify f Q s : Q tt (f s) -> wp (modify f) Q s.
Proof. done. Qed.

Lemma wp_upd_world f Q s : Q tt (set_pi_world (f (pi_world s)) s) -> wp (upd_world f) Q s.
Proof. done. Qed.

Lemma wp_assert b Q s : (b = true -> Q tt s) -> wp (assert b) Q s.
Proof. destruct b; intros H; [by apply H|done]. Qed.

Lemma wp_undefined {A} (Q : A -> pipe -> Prop) s : wp undefined Q s.
Proof. done. Qed.

Lemma wp_lift {A} (R : A -> Prop) (c : edit A) Q s :
  plain R c ->
  (forall a m, R a -> meta (mb_pkt m) = meta (mb_pkt (pi_mbuf s)) -> Q a (set_pi_mbuf m s)) -> wp (lift c) Q s.
Proof.
  intros Hc HQ. unfold wp, lift. specialize (Hc (pi_mbuf s)). destruct (c (pi_mbuf s)) as [[a m]| |]; [|done|done].
  destruct Hc. by apply HQ.
Qed.

Lemma wp_pkt_get {A} (f : lagopus_packet -> A) Q s : Q (f (mb_pkt (pi_mbuf s))) s -> wp (pkt_get f) Q s.
Proof. unfold wp, pkt_get, lift. cbn. by destruct s. Qed.

Lemma wp_pkt_upd f Q s : Q tt (set_pi_mbuf (set_mb_pkt (f (mb_pkt (pi_mbuf s))) (pi_mbuf s)) s) -> wp (pkt_upd f) Q s.
Proof. done. Qed.

Lemma wp_free Q s : (forall n, pi_refs s = S n -> Q tt (set_pi_refs n s)) -> wp lagopus_packet_free Q s.
Proof. unfold wp, lagopus_packet_free. intros H. destruct (pi_refs s); [done|]. by apply H. Qed.

Lemma wp_on_packet {A} m (c : proc A) Q s :
  wp c (fun a s' => Q a (set_pi_world (set_wo_lost (wo_lost (pi_world s') + min 1 (pi_refs s')) (pi_world s')) s))
    (Pipe (pi_world s) m 1 false) ->
  wp (on_packet m c) Q s.
Proof. unfold wp, on_packet. by destruct (c _) as [[a s']| |]. Qed.

End Wp.
