(* ===== verification/PipelineOwn.v ===== *)
(** * Who frees the packet

    Every path through the pipeline gives each packet buffer away exactly once: the packet
    received, and every copy made for an output or for a bucket.  The result
    [LAGOPUS_RESULT_NO_MORE_ACTION] means that it is gone already.  The ports are assumed to
    have interfaces the switch can send to: without one the buffer is lost, which the last
    theorem shows. *)
From S2P Require Import Prelude Monad OpenFlow Hashmap Endian Shared Packet ByteMatch ActionSet Meter Group DpTimer.
From S2P Require Import FlowEntry FlowinfoTree Bridge FlowDB FlowDBInv FlowDBSpec PacketEdit Checksum PacketActions.
From S2P Require Import SetField Tunnel PacketHash FlowCache Pipeline PipelineLogic.

(** ** Accounting *)

Definition can_send (p : port) : Prop :=
  match po_interface p with
  | Some ifp => if_type ifp <> ETHERNET_DPDK_PHY /\ if_type ifp <> ETHERNET_DPDK_VDEV
  | None => False
  end.
Definition sendable (ports : gmap Z port) : Prop := map_Forall (fun _ p => can_send p) ports.

(** The references that a result stands for. *)
Definition cost (rv : lagopus_result) : Z := if bool_decide (rv = LAGOPUS_RESULT_NO_MORE_ACTION) then 1 else 0.

Definition spent (n : Z) (s s' : pipe) : Prop :=
  wo_ports (pi_world s') = wo_ports (pi_world s) /\ wo_lost (pi_world s') = wo_lost (pi_world s) /\
  Z.of_nat (pi_refs s) = n + Z.of_nat (pi_refs s').

(** [c] gives [g a] references away when it returns [a]. *)
Definition spends_at {A} (g : A -> Z) (c : proc A) (s : pipe) : Prop :=
  sendable (wo_ports (pi_world s)) -> wp True c (fun a s' => spent (g a) s s') s.
Definition spends {A} (g : A -> Z) (c : proc A) : Prop := forall s, spends_at g c s.

Lemma spends_ext {A} (f g : A -> Z) c : (forall a, f a = g a) -> spends f c -> spends g c.
Proof. intros E H s Hs. eapply wp_mono; [by apply H|]. intros a s' Ha. cbn in Ha. by rewrite E in Ha. Qed.

Lemma spends_ret {A} (g : A -> Z) a : g a = 0 -> spends g (mret a).
Proof. intros Hg s Hs. apply wp_ret. unfold spent; split_and!; [done|done|lia]. Qed.

Lemma spends_bind {A B} (f : A -> Z) (g : B -> Z) (c : proc A) (k : A -> proc B) :
  spends f c -> (forall a, spends (fun b => g b - f a) (k a)) -> spends g (c ≫= k).
Proof.
  intros Hc Hk s Hs. apply wp_bind. eapply wp_mono; [by apply Hc|]. intros a s1 (P1 & L1 & R1).
  eapply wp_mono; [apply Hk; by rewrite P1|]. intros b s2 (P2 & L2 & R2). unfold spent; split_and!; [congruence|congruence|lia].
Qed.

(** Reading the state: what is read is known afterwards. *)
Lemma spends_get_world {A B} (f : world -> A) (g : B -> Z) (k : A -> proc B) :
  (forall s, spends_at g (k (f (pi_world s))) s) -> spends g (get_world f ≫= k).
Proof. intros H s. exact (H s). Qed.

Lemma spends_lift {A} (R : A -> Prop) (g : A -> Z) (c : edit A) : plain R c -> (forall a, R a -> g a = 0) -> spends g (lift c).
Proof. intros Hc Hg s Hs. eapply wp_lift; [exact Hc|]. intros a m Ha _. rewrite Hg by done. by (unfold spent; split_and!). Qed.

Lemma spends_gets {A} (f : pipe -> A) : spends (fun _ => 0) (gets f).
Proof. by intros s Hs. Qed.
Lemma spends_world {A} (f : world -> A) : spends (fun _ => 0) (get_world f).
Proof. by intros s Hs. Qed.
Lemma spends_pkt_get {A} (f : lagopus_packet -> A) : spends (fun _ => 0) (pkt_get f).
Proof. intros s Hs. apply wp_pkt_get. by (unfold spent; split_and!). Qed.
Lemma spends_pkt_upd f : spends (fun _ => 0) (pkt_upd f).
Proof. intros s Hs. apply wp_pkt_upd. by (unfold spent; split_and!). Qed.
Lemma spends_assert b : spends (fun _ => 0) (assert b).
Proof. intros s Hs. apply wp_assert. intros _. by (unfold spent; split_and!). Qed.
Lemma spends_upd_world f :
  (forall w, wo_ports (f w) = wo_ports w) -> (forall w, wo_lost (f w) = wo_lost w) -> spends (fun _ => 0) (upd_world f).
Proof. intros Hp Hl s Hs. apply wp_upd_world. unfold spent; split_and!; [apply Hp|apply Hl|done]. Qed.
Lemma spends_undefined {A} (g : A -> Z) : spends g undefined.
Proof. by intros s Hs. Qed.
Lemma spends_out_of_fuel {A} (g : A -> Z) : spends g out_of_fuel.
Proof. by intros s Hs. Qed.
Lemma spends_outcome {A} (o : outcome A) : spends (fun _ => 0) (of_outcome o).
Proof. intros s Hs. unfold wp, of_outcome. by destruct o. Qed.
Lemma spends_free : spends (fun _ => 1) lagopus_packet_free.
Proof. intros s Hs. apply wp_free. intros n E. unfold spent; split_and!; [done|done|]. cbn. lia. Qed.
Lemma spends_addref : spends (fun _ => -1) OS_M_ADDREF.
Proof. intros s Hs. apply wp_modify. unfold spent; split_and!; [done|done|]. cbn. lia. Qed.
Lemma spends_touch : spends (fun _ => 0) touch.
Proof. intros s Hs. apply wp_modify. destruct (pi_refs s) eqn:E; unfold spent; split_and!; cbn; rewrite ?E; done. Qed.

(** A new packet that is given away is not lost. *)
Lemma spends_on_packet {A} m (c : proc A) : spends (fun _ => 1) c -> spends (fun _ => 0) (on_packet m c).
Proof.
  intros Hc s Hs. apply wp_on_packet. eapply wp_mono; [by apply Hc|]. intros a s' (P1 & L1 & R1). cbn in *.
  assert (pi_refs s' = 0%nat) as -> by lia. unfold spent; split_and!; cbn; [done|lia|done].
Qed.

Create HintDb spends.
#[export] Hint Resolve spends_gets spends_world spends_pkt_get spends_pkt_upd spends_assert spends_undefined spends_out_of_fuel
  spends_outcome spends_free spends_addref spends_touch : spends.
#[export] Hint Extern 1 (spends _ (upd_world _)) => (apply spends_upd_world; done) : spends.
#[export] Hint Extern 1 (spends _ (lift _)) => (eapply spends_lift; [auto with plain|done]) : spends.

(** One step of an accounting: the cost of the first command is found in the data base. *)
Ltac spend_leaf := first [solve [eauto with spends]|eapply spends_ext; [|solve [eauto with spends]]; intros; cbn; lia].
Ltac spend_step :=
  match goal with
  | |- spends _ (mret _) => apply spends_ret; cbn; try done; try lia
  | |- spends _ (_ ≫= _) => eapply spends_bind; [spend_leaf|intros ?; cbn beta]
  | |- spends _ (if ?b then _ else _) => destruct b
  | |- spends _ (match ?x with _ => _ end) => destruct x
  | |- spends _ (let '(_, _) := ?x in _) => destruct x
  | |- spends _ _ => spend_leaf
  end.
Ltac spend := cbv zeta; rewrite ?bind_bind; repeat spend_step.

Section Own.
Context (env : driver).

(** ** Sending *)

Lemma spends_emit e : spends (fun _ => 0) (emit e).
Proof. unfold emit. auto with spends. Qed.
Lemma spends_bridge {A} (f : bridge -> A) : spends (fun _ => 0) (get_bridge f).
Proof. unfold get_bridge. auto with spends. Qed.
Lemma spends_upd_bridge f : spends (fun _ => 0) (upd_bridge f).
Proof. unfold upd_bridge. auto with spends. Qed.
Lemma spends_in_port : spends (fun _ => 0) in_port_no.
Proof. unfold in_port_no. spend. Qed.
#[local] Hint Resolve spends_emit spends_bridge spends_upd_bridge spends_in_port : spends.
Lemma spends_ifindex : spends (fun _ => 0) in_port_ifindex.
Proof. unfold in_port_ifindex. spend. Qed.
#[local] Hint Resolve spends_ifindex : spends.

Lemma spends_packet_hash : spends (fun _ => 0) (packet_hash env).
Proof. unfold packet_hash. spend. Qed.

Lemma spends_rawsock ifp : spends (fun _ => 1) (rawsock_send_packet_physical env ifp).
Proof. unfold rawsock_send_packet_physical. eapply (spends_bind (fun _ => 0)); [|intros ?; cbn beta]; spend. Qed.
#[local] Hint Resolve spends_packet_hash spends_rawsock : spends.

Lemma spends_send p : can_send p -> spends (fun _ => 1) (lagopus_send_packet_physical env (po_interface p)).
Proof.
  unfold can_send, lagopus_send_packet_physical. destruct (po_interface p) as [ifp|]; [|done].
  intros [H1 H2]. destruct (if_type ifp); try done; spend.
Qed.

Lemma spends_packet_in reason miss_send_len cookie : spends (fun _ => 0) (send_packet_in env reason miss_send_len cookie).
Proof. unfold send_packet_in. spend. Qed.
#[local] Hint Resolve spends_packet_in : spends.

Lemma spends_for_each {A} (l : list A) f : (forall x, x ∈ l -> spends (fun _ => 0) (f x)) -> spends (fun _ => 0) (for_each l f).
Proof.
  induction l as [|x l IH]; intros H; cbn; [spend|]. eapply spends_bind; [apply H; by left|intros ?; cbn beta].
  eapply spends_ext; [|apply IH; intros; apply H; by right]. intros; lia.
Qed.

Lemma spends_iterate in_port np : can_send np.2 -> spends (fun _ => 0) (lagopus_do_send_iterate env in_port np).
Proof.
  destruct np as [n p]. intros Hp. unfold lagopus_do_send_iterate. destruct (_ && _ && _ && _); [|spend].
  eapply spends_bind; [apply spends_addref|intros ?; cbn beta]. eapply spends_bind; [by apply spends_send|intros ?; cbn beta]. spend.
Qed.

Lemma spends_flood in_port : spends (fun _ => 1) (flood env in_port).
Proof.
  apply spends_get_world. intros s Hs. revert s Hs.
  enough (forall l, (forall np, np ∈ l -> can_send np.2) ->
    spends (fun _ => 1) (for_each l (lagopus_do_send_iterate env in_port) ;; lagopus_packet_free)) as H.
  { intros s Hs. apply H; [|done]. intros [n p] Hnp%elem_of_map_to_list. by apply (Hs n). }
  intros l Hl. eapply spends_bind; [apply spends_for_each; intros; by apply spends_iterate, Hl|intros ?; cbn beta]. spend.
Qed.

Lemma spends_to_port n : spends (fun _ => 1) (send_to_port env n).
Proof.
  apply spends_get_world. intros s Hs. destruct (wo_ports (pi_world s) !! n) as [p|] eqn:E; [|by apply spends_free].
  destruct (flag_set _ _); [by apply spends_free|]. revert s Hs E.
  enough (can_send p -> spends (fun _ => 1) (lagopus_send_packet_physical env (po_interface p) ;; mret tt)) as H.
  { intros s Hs E. apply H; [by apply (Hs n)|done]. }
  intros Hp. eapply spends_bind; [by apply spends_send|intros ?; cbn beta]. spend.
Qed.

Lemma spends_to_controller cookie : spends (fun _ => 1) (to_controller env cookie).
Proof. unfold to_controller. eapply spends_bind; [apply spends_world|intros c; cbn beta]. eapply (spends_bind (fun _ => 0)); [|intros ?; cbn beta]; spend. Qed.
#[local] Hint Resolve spends_flood spends_to_port spends_to_controller : spends.

(** ** Actions *)

Section Table.
Context (table : proc lagopus_result).
Hypothesis table_spends : spends (fun _ => 1) table.
#[local] Hint Resolve table_spends : spends.

Lemma spends_tx port cookie : spends (fun _ => 1) (dp_interface_tx_packet env table port cookie).
Proof. unfold dp_interface_tx_packet. spend. Qed.
#[local] Hint Resolve spends_tx : spends.

Lemma spends_cache_flows : spends (fun _ => 0) cache_matched_flows.
Proof. unfold cache_matched_flows. spend. Qed.
#[local] Hint Resolve spends_cache_flows : spends.

Lemma spends_output a : spends cost (execute_action_output env table a).
Proof.
  unfold execute_action_output. cbv zeta. destruct (_ =? _); [|spend].
  eapply spends_bind; [apply spends_gets|intros m; cbn beta]. eapply spends_bind; [apply spends_on_packet, spends_tx|intros ?; cbn beta]. spend.
Qed.

Lemma cost_ok rv : is_ok rv = true -> cost rv = 0.
Proof. by destruct rv. Qed.

Lemma spends_handler c : plain returns c -> spends cost (lift c).
Proof. intros H. eapply spends_lift; [exact H|]. intros rv Hrv. unfold cost. by rewrite bool_decide_false. Qed.

Lemma spends_report a c : plain returns c -> spends cost (report_invalid_ttl env a c).
Proof.
  intros H. unfold report_invalid_ttl. eapply spends_bind; [by apply spends_handler|intros rv; cbn beta].
  destruct (bool_decide_reflect (rv = LAGOPUS_RESULT_STOP)) as [->|_]; spend.
Qed.

Lemma spends_exec group a :
  (forall id, spends cost (group id)) -> spends cost (exec_action env table group a).
Proof.
  intros Hg. unfold exec_action. destruct (act_exec a) as [ty|]; [|apply spends_handler; auto with plain].
  repeat (destruct (_ =? _);
    [first [apply spends_output | apply Hg | apply spends_report; auto with plain | apply spends_handler; auto with plain
           | eapply spends_bind; [apply spends_world|intros ports; eapply spends_ext; [|apply spends_handler; auto with plain]; intros; lia]]|]).
  apply spends_handler; auto with plain.
Qed.

End Table.

Lemma spends_list exec next l :
  (forall a, a ∈ l -> spends cost (exec a)) -> spends (fun _ => 0) next -> spends cost (execute_action exec next l).
Proof.
  intros Ha Hn. induction l as [|a l IH]; cbn [execute_action]; [by apply spends_ret|].
  eapply spends_bind; [apply Ha; by left|intros rv; cbn beta]. destruct (is_ok rv) eqn:E; [|apply spends_ret; lia].
  rewrite (cost_ok rv E). eapply spends_bind; [exact Hn|intros ?; cbn beta].
  eapply spends_ext; [|apply IH; intros; apply Ha; by right]. intros; lia.
Qed.

Lemma spends_lists exec next ls :
  (forall a, spends cost (exec a)) -> spends (fun _ => 0) next -> spends cost (execute_lists exec next ls).
Proof.
  intros Ha Hn. induction ls as [|l ls IH]; cbn [execute_lists]; [by apply spends_ret|].
  eapply spends_bind; [by apply spends_list|intros rv; cbn beta]. destruct (is_ok rv) eqn:E; [|apply spends_ret; lia].
  rewrite (cost_ok rv E). eapply spends_ext; [|exact IH]. intros; lia.
Qed.

Lemma spends_has : spends (fun _ => 0) has_action.
Proof. unfold has_action. spend. Qed.
#[local] Hint Resolve spends_has : spends.
Lemma spends_clear_set : spends (fun _ => 0) clear_action_set.
Proof. unfold clear_action_set. spend. Qed.
Lemma spends_clear_has : spends (fun _ => 0) clear_has_action.
Proof. unfold clear_has_action. spend. Qed.
#[local] Hint Resolve spends_clear_set spends_clear_has : spends.

Lemma spends_set exec next ls :
  (forall a, spends cost (exec a)) -> spends (fun _ => 0) next -> spends cost (execute_action_set exec next ls).
Proof.
  intros Ha Hn. unfold execute_action_set. eapply spends_bind; [by apply spends_lists|intros rv; cbn beta]. spend.
Qed.

(** ** Groups, meters and instructions *)

Lemma spends_bucket_hit id i : spends (fun _ => 0) (bucket_hit id i).
Proof. unfold bucket_hit, upd_group. spend. Qed.
#[local] Hint Resolve spends_bucket_hit : spends.

Lemma spends_stays : spends (fun _ => 0) stays.
Proof. by apply spends_ret. Qed.
#[local] Hint Resolve spends_stays : spends.

Lemma spends_hash_select l : spends (fun _ => 0) (hash_for_select env l).
Proof. unfold hash_for_select. eapply (spends_bind (fun _ => 0)); [|intros ?; cbn beta]; spend. Qed.

Lemma spends_group_action fuel exec id :
  (forall a, spends cost (exec a)) -> spends cost (execute_group_action env fuel exec id).
Proof.
  intros Ha. unfold execute_group_action, upd_group. eapply spends_bind; [apply spends_bridge|intros g; cbn beta].
  destruct g as [g|]; [|spend]. cbv zeta.
  assert (forall b, spends cost (run_selected exec id b)) as Hs.
  { intros [ib|]; [|by apply spends_ret]. cbn [run_selected]. unfold run_bucket.
    eapply spends_bind; [auto with spends|intros ?; cbn beta]. eapply spends_ext; [|apply spends_set; auto with spends]. intros; lia. }
  eapply spends_bind; [auto with spends plain|intros len; cbn beta].
  eapply spends_bind; [auto with spends|intros ?; cbn beta].
  destruct (_ =? _).
  { eapply spends_bind; [apply spends_for_each|intros ?; cbn beta].
    - intros ib _. unfold bucket_on_copy. eapply spends_bind; [auto with spends|intros ?; cbn beta].
      eapply spends_bind; [apply spends_gets|intros m; cbn beta]. eapply spends_ext; [|apply spends_on_packet]; [intros; lia|].
      eapply spends_bind; [apply spends_pkt_upd|intros ?; cbn beta].
      eapply spends_bind; [apply spends_set; auto with spends|intros rv; cbn beta]. unfold cost.
      destruct (bool_decide_reflect (rv = LAGOPUS_RESULT_NO_MORE_ACTION)); spend.
    - eapply spends_bind; [apply spends_cache_flows|intros ?; cbn beta]. spend. }
  destruct (_ =? _).
  { eapply spends_bind; [apply spends_hash_select|intros h; cbn beta].
    eapply spends_ext; [|apply Hs]. intros; lia. }
  destruct (_ =? _); [eapply spends_ext; [|apply Hs]; intros; lia|].
  destruct (_ =? _); [|spend].
  do 3 (eapply spends_bind; [auto with spends|intros ?; cbn beta]). eapply spends_ext; [|apply Hs]. intros; lia.
Qed.

Lemma spends_run_group table fuel id : spends (fun _ => 1) table -> spends cost (run_group env fuel table id).
Proof.
  intros Ht. revert id. induction fuel as [|fuel IH]; intros id; cbn [run_group]; [apply spends_out_of_fuel|].
  apply spends_group_action. intros a. by apply spends_exec.
Qed.

Section Exec.
Context (exec : action -> proc lagopus_result).
Hypothesis exec_spends : forall a, spends cost (exec a).

Lemma spends_meter id : spends (fun _ => 0) (apply_meter env id).
Proof. unfold apply_meter. spend. Qed.
#[local] Hint Resolve spends_meter : spends.

Lemma spends_handlers h i : h ∈ instruction_handlers env exec -> spends cost (h i).
Proof.
  unfold instruction_handlers. intros H.
  repeat (apply elem_of_cons in H as [->|H]; [|]); [..|by apply elem_of_nil in H].
  - unfold execute_instruction_meter. spend.
  - apply spends_list; auto with spends.
  - unfold execute_instruction_clear_actions. spend.
  - unfold execute_instruction_write_actions. eapply spends_bind; [apply spends_has|intros has; cbn beta].
    eapply (spends_bind (fun _ => 0)); [destruct has; [by apply spends_ret|apply spends_pkt_upd]|intros ?; cbn beta]. spend.
  - unfold execute_instruction_write_metadata. spend.
  - unfold execute_instruction_goto_table. spend.
Qed.

Lemma spends_slots slots handlers :
  (forall h i, h ∈ handlers -> spends cost (h i)) -> spends cost (execute_slots slots handlers).
Proof.
  revert handlers. induction slots as [|i slots IH]; intros [|h handlers] Hh; cbn [execute_slots]; try by apply spends_ret.
  eapply (spends_bind cost); [destruct i; [apply Hh; by left|by apply spends_ret]|intros rv; cbn beta].
  destruct (is_ok rv) eqn:E; [|apply spends_ret; lia]. rewrite (cost_ok rv E).
  eapply spends_ext; [|apply IH; intros; apply Hh; by right]. intros; lia.
Qed.

Lemma spends_instruction f : spends cost (execute_instruction env exec f).
Proof. apply spends_slots. intros. by apply spends_handlers. Qed.

Lemma spends_match : spends cost dp_openflow_match.
Proof. unfold dp_openflow_match, upd_table. spend. Qed.

Lemma spends_do_action : spends cost (dp_openflow_do_action env exec).
Proof.
  unfold dp_openflow_do_action. eapply spends_bind; [apply spends_pkt_get|intros r; cbn beta].
  destruct r; [|apply spends_undefined]. eapply spends_bind; [apply spends_bridge|intros f; cbn beta].
  destruct f; [|apply spends_undefined]. eapply spends_ext; [|apply spends_instruction]. intros; lia.
Qed.

Lemma spends_cached_flow r : spends cost (do_cached_flow env exec r).
Proof.
  unfold do_cached_flow, upd_table. eapply spends_bind; [auto with spends plain|intros len; cbn beta].
  eapply spends_bind; [apply spends_bridge|intros f; cbn beta]. destruct f as [f|]; [|apply spends_undefined].
  do 2 (eapply spends_bind; [auto with spends|intros ?; cbn beta]).
  eapply (spends_bind (fun _ => 0)); [spend|intros ?; cbn beta].
  do 5 (eapply spends_bind; [auto with spends|intros ?; cbn beta]).
  eapply (spends_bind (fun _ => 0)); [spend|intros ?; cbn beta].
  eapply spends_ext; [|apply spends_instruction]. intros; lia.
Qed.

Lemma spends_cached_flows l : spends cost (do_cached_flows env exec l).
Proof.
  induction l as [|r l IH]; cbn [do_cached_flows]; [by apply spends_ret|].
  eapply spends_bind; [apply spends_cached_flow|intros rv; cbn beta].
  destruct (is_ok rv) eqn:E; [|apply spends_ret; lia]. rewrite (cost_ok rv E). eapply spends_ext; [|exact IH]. intros; lia.
Qed.

Lemma spends_lookup_cache : spends (fun _ => 0) lookup_cache.
Proof. unfold lookup_cache. spend. Qed.

Lemma spends_cached : spends cost (dp_openflow_do_cached_action env exec).
Proof.
  unfold dp_openflow_do_cached_action. eapply spends_bind; [apply spends_packet_hash|intros ?; cbn beta].
  eapply spends_bind; [apply spends_lookup_cache|intros e; cbn beta]. destruct e; [|spend].
  eapply spends_bind; [auto with spends plain|intros ?; cbn beta]. eapply spends_ext; [|apply spends_cached_flows]. intros; lia.
Qed.

Lemma spends_own_list : spends (fun _ => 0) own_list_stays.
Proof. unfold own_list_stays. spend. Qed.

Lemma spends_do_set : spends cost (dp_openflow_do_action_set exec).
Proof.
  unfold dp_openflow_do_action_set. eapply spends_bind; [apply spends_has|intros has; cbn beta]. destruct has; [|spend].
  eapply spends_bind; [apply spends_pkt_get|intros l; cbn beta].
  eapply spends_bind; [apply spends_set; auto using spends_own_list|intros rv; cbn beta]. spend.
Qed.

Lemma spends_loop fuel : spends cost (match_loop env exec fuel).
Proof.
  induction fuel as [|fuel IH]; cbn [match_loop]; [apply spends_out_of_fuel|].
  eapply spends_bind; [apply spends_match|intros rv; cbn beta]. destruct (is_ok rv) eqn:E; [|apply spends_ret; lia].
  rewrite (cost_ok rv E). eapply spends_bind; [apply spends_do_action|intros rv'; cbn beta].
  destruct (goes_on rv') eqn:E'; [|apply spends_ret; lia].
  assert (cost rv' = 0) as -> by (unfold cost; rewrite bool_decide_false; [done|by intros ->]).
  eapply spends_ext; [|exact IH]. intros; lia.
Qed.

Lemma spends_body : spends (fun _ => 1) (match_and_action_body env exec).
Proof.
  unfold match_and_action_body. eapply spends_bind; [apply spends_cached|intros rv; cbn beta].
  eapply (spends_bind (fun rv' => cost rv' - cost rv)); [|intros rv1; cbn beta].
  { destruct (bool_decide_reflect (rv = LAGOPUS_RESULT_NOT_FOUND)) as [->|_]; [|apply spends_ret; lia].
    eapply spends_ext; [|apply spends_loop]. intros; change (cost LAGOPUS_RESULT_NOT_FOUND) with 0; lia. }
  eapply (spends_bind (fun rv' => cost rv' - cost rv1)); [|intros rv2; cbn beta].
  { destruct (is_ok rv1) eqn:E; [|apply spends_ret; lia]. rewrite (cost_ok rv1 E). eapply spends_ext; [|apply spends_do_set]. intros; lia. }
  unfold cost. destruct (bool_decide_reflect (rv2 = LAGOPUS_RESULT_NO_MORE_ACTION)).
  - eapply spends_bind; [by apply (spends_ret (fun _ => 0))|intros ?; cbn beta]. apply spends_ret. destruct (bool_decide _), (bool_decide _); lia.
  - eapply spends_bind; [apply spends_free|intros ?; cbn beta]. apply spends_ret. destruct (bool_decide _), (bool_decide _); lia.
Qed.

End Exec.

Lemma spends_match_and_action fuel : spends (fun _ => 1) (lagopus_match_and_action env fuel).
Proof.
  induction fuel as [|fuel IH]; cbn [lagopus_match_and_action]; apply spends_body; intros a; apply spends_exec.
  - apply spends_out_of_fuel.
  - intros id. apply spends_run_group, spends_out_of_fuel.
  - exact IH.
  - intros id. by apply spends_run_group.
Qed.

End Own.

(** ** A switch with three ports *)

Definition sample_driver : driver := Driver (fun _ seed => seed + 1) (fun seed _ _ => seed) sock_meter_packet.
Definition raw_port (n : Z) : port := Port n 0 0 (Some (Interface ETHERNET_RAWSOCK (n + 10))).
Definition sample_ports : gmap Z port := {[ 1 := raw_port 1; 2 := raw_port 2; 3 := raw_port 3 ]}.

Definition switch_bridge : bridge :=
  Bridge ∅ 0%nat ∅ group_table_alloc meter_table_alloc (dom sample_ports) (br_timers empty_bridge) [] (0, 0).
Definition new_action (o : ofp_action) : action := Action None 0 0 o.
Definition new_instruction (type : Z) (l : list action) : instruction := Instruction type 0 0 0 0 l None.

(** FLOW_MOD ADD of a flow of table 0 that matches every packet. *)
Definition with_flow (prio : Z) (l : list instruction) (br : bridge) : bridge :=
  (flowdb_flow_add (OfpFlowMod 0 0 0 OFPFC_ADD 0 0 prio 0 0 0) [] l br).2.

Definition switch (ports : gmap Z port) (br : bridge) : world :=
  World br ports 0 128 (init_flowcache 0) [] 0 0.

Definition apply_outputs (l : list Z) : instruction :=
  new_instruction OFPIT_APPLY_ACTIONS (map (fun p => new_action (ofp_action_output p 0)) l).
Definition write_outputs (l : list Z) : instruction :=
  new_instruction OFPIT_WRITE_ACTIONS (map (fun p => new_action (ofp_action_output p 0)) l).

(** The frames that have been sent, by socket, and a run of the switch. *)
Definition sent (w : world) : list (Z * bytes) :=
  omap (fun e => match e with ev_write fd data => Some (fd, data) | _ => None end) (wo_events w).
Definition run_switch (ports : gmap Z port) (br : bridge) : outcome world :=
  receive sample_driver 3 true false 1 (frame udp_mbuf) (switch ports br).

Lemma sample_sendable : sendable sample_ports.
Proof. by repeat (apply map_Forall_insert_2; [done|]). Qed.

(** ** Properties *)



(** A port without an interface takes the packet and does not free it. *)
Theorem interface_missing_leaks :
  exists w', run_switch (<[2 := Port 2 0 0 None]> sample_ports) (with_flow 1 [apply_outputs [2]] switch_bridge) = Done w' /\
    sent w' = [] /\ wo_lost w' = 1%nat.
Proof. eexists. split; by vm_compute. Qed.

(** A PACKET_OUT whose actions do not send the packet leaks its buffer: the extra reference
    is taken for the output that would give the packet away, and only one is dropped. *)
Theorem packet_out_leaks (env : driver) (fuel : nat) (in_port : Z) (data : bytes) (w : world) :
  exists w', packet_out env fuel in_port [] data w = Done w' /\ wo_lost w' = S (wo_lost w) /\ wo_events w' = wo_events w.
Proof. eexists. split; [reflexivity|]. cbn. split; [lia|done]. Qed.

(** [execute_action_set] clears the set of the packet and its flag after the last output has
    given the packet away. *)
Theorem action_set_touches_freed :
  exists w', run_switch sample_ports (with_flow 1 [write_outputs [2]] switch_bridge) = Done w' /\
    length (sent w') = 1%nat /\ (0 < wo_touched w')%nat.
Proof. eexists. split; [by vm_compute|]. vm_compute. split; [done|lia]. Qed.
