(* ===== verification/PipelineTerm.v ===== *)
(** * The pipeline comes to an end

    Running out of fuel in the model stands for a recursion of the program that does not end.
    When groups refer to each other without a circle, through their actions as well as
    through the groups they watch, and nothing is output to OFPP_TABLE, some depth is enough for
    every packet.  A group that watches itself is accepted all the same and loops, as the last
    theorem shows. *)
From S2P Require Import Prelude Monad OpenFlow Hashmap Endian Shared Packet ByteMatch ActionSet Meter Group DpTimer.
From S2P Require Import FlowEntry FlowinfoIntf FlowinfoTree FlowTable Bridge FlowDB FlowDBInv FlowDBSpec PacketEdit.
From S2P Require Import Checksum PacketActions SetField Tunnel PacketHash FlowCache Pipeline PipelineLogic PipelineOwn.

(** ** What stays the same while packets are processed *)

Definition group_shape (g : group) : Z * list (Z * Z * Z * list (list action)) :=
  (gr_type g, map (fun b => (bk_weight b, bk_watch_port b, bk_watch_group b, bk_actions b)) (gr_bucket_list g)).
Definition table_shape (t : group_table) : bool * gmap Z (Z * list (Z * Z * Z * list (list action))) :=
  (m_is_operational t, group_shape <$> m_hashtable t).

Definition lookups_ok (br : bridge) : Prop := forall tid t, br_tables br !! tid = Some t ->
  root_wf (br_flows br) tid (tb_userdata t) /\ masked_flows_positive (br_flows br) tid (root_flows (tb_userdata t)).

Record same_program (br0 br : bridge) : Prop := {
  sp_groups : table_shape (br_groups br) = table_shape (br_groups br0);
  sp_flows : forall r f, br_flows br !! r = Some f ->
    exists f0, br_flows br0 !! r = Some f0 /\ fl_instruction_list f = fl_instruction_list f0;
  sp_lookups : lookups_ok br
}.

Lemma lookup_shape t t0 id g :
  table_shape t = table_shape t0 -> group_table_lookup t id = Some g ->
  exists g0, group_table_lookup t0 id = Some g0 /\ group_shape g = group_shape g0.
Proof.
  unfold group_table_lookup, id_lookup. cbn. unfold s_find. intros [= Ho Hs].
  rewrite <- Ho. destruct (m_is_operational t); [|done]. apply (f_equal (fun m => m !! OS_HTONL id)) in Hs.
  rewrite !lookup_fmap in Hs. destruct (m_hashtable t !! OS_HTONL id) as [g'|]; [|done]. cbn. intros [= ->].
  destruct (m_hashtable t0 !! OS_HTONL id) as [g0|]; [|done]. cbn in *. exists g0. split; [done|congruence].
Qed.

Lemma table_shape_update t id f : (forall g, group_shape (f g) = group_shape g) -> table_shape (id_update f id t) = table_shape t.
Proof.
  intros Hf. unfold table_shape, id_update. cbn. f_equal. apply map_eq. intros k. rewrite !lookup_fmap.
  destruct (decide (k = OS_HTONL id)) as [->|Hne]; [|by rewrite lookup_alter_ne].
  rewrite lookup_alter_eq. destruct (m_hashtable t !! OS_HTONL id); cbn; [by rewrite Hf|done].
Qed.

Lemma shape_count_group len g : group_shape (count_group len g) = group_shape g.
Proof. done. Qed.
Lemma shape_bucket_hit len i g :
  group_shape (set_gr_bucket_list (alter (count_bucket len) i (gr_bucket_list g)) g) = group_shape g.
Proof.
  unfold group_shape. cbn. f_equal. apply list_eq. intros j. rewrite !list_lookup_fmap.
  destruct (decide (i = j)) as [->|Hne]; [|by rewrite list_lookup_alter_ne].
  rewrite list_lookup_alter_eq. by destruct (gr_bucket_list g !! j).
Qed.

Section Same.
Context (br0 : bridge).

Lemma same_refl : lookups_ok br0 -> same_program br0 br0.
Proof. intros H. split; [done|eauto|done]. Qed.

Lemma same_groups br f id :
  (forall g, group_shape (f g) = group_shape g) -> same_program br0 br ->
  same_program br0 (set_br_groups (id_update f id (br_groups br)) br).
Proof. intros Hf [H1 H2 H3]. split; [cbn; by rewrite table_shape_update|exact H2|exact H3]. Qed.

Lemma same_tables br f tid :
  (forall t, tb_userdata (f t) = tb_userdata t) -> same_program br0 br ->
  same_program br0 (set_br_tables (alter f tid (br_tables br)) br).
Proof.
  intros Hf [H1 H2 H3]. split; [exact H1|exact H2|]. intros tid' t. cbn.
  destruct (decide (tid' = tid)) as [->|Hne]; [|rewrite lookup_alter_ne by done; apply H3].
  rewrite lookup_alter_eq. destruct (br_tables br !! tid) as [t'|] eqn:E; [|done]. cbn. intros [= <-].
  rewrite Hf. by apply H3.
Qed.

(** Heaps whose flows agree but for counters and times. *)
Definition same_program_flow (f g : flow) : Prop := same_key f g /\ fl_instruction_list f = fl_instruction_list g.
Definition same_flows (h h' : flow_heap) : Prop := forall r, option_Forall2 same_program_flow (h !! r) (h' !! r).

Lemma same_flows_eqv h h' : heap_eqv h h' -> same_flows h h'.
Proof.
  intros H r. specialize (H r). destruct (h !! r) as [f|], (h' !! r) as [g|]; cbn in H; try done; constructor.
  apply (inj Some) in H. split; [by apply uncount_same_key|]. exact (f_equal fl_instruction_list H).
Qed.

Lemma same_flows_upd br r g :
  (forall f, same_program_flow f (g f)) -> same_flows (br_flows br) (br_flows (upd_flow r g br)).
Proof.
  intros Hg x. cbn. destruct (decide (x = r)) as [->|Hne].
  - rewrite lookup_alter_eq. destruct (br_flows br !! r); constructor. apply Hg.
  - rewrite lookup_alter_ne by done. destruct (br_flows br !! x); constructor. by split.
Qed.

Lemma same_flows_total h h' r : same_flows h h' -> same_key (h !!! r) (h' !!! r).
Proof. intros H. specialize (H r). rewrite !lookup_total_alt. by destruct H as [f g [Hk _]|]. Qed.

Lemma same_set_flows br h' : same_flows (br_flows br) h' -> same_program br0 br -> same_program br0 (set_br_flows h' br).
Proof.
  intros Hh [H1 H2 H3]. split; [exact H1| |].
  - intros r f Hf. cbn in Hf. pose proof (Hh r) as Hr. rewrite Hf in Hr. inversion Hr as [f1 g [_ Ei] E|]; subst.
    destruct (H2 r f1 (eq_sym E)) as (f0 & E0 & Ei0). exists f0. split; [done|]. by rewrite <- Ei.
  - intros tid t Ht. destruct (H3 tid t Ht) as [Hwf Hpos]. cbn. split.
    + eapply root_wf_ext; [|exact Hwf]. intros r _. by apply same_flows_total.
    + intros x Hx. destruct (Hpos x Hx) as [P1 P2]. pose proof (same_flows_total _ _ x Hh) as Hk.
      pose proof (same_key_ml _ _ Hk) as Em. unfold prio, ml in *. rewrite <- (proj1 Hk). split; [done|].
      assert (below_mask tid (fl_match_list (br_flows br !!! x)) = below_mask tid (fl_match_list (h' !!! x))) as E
        by (by apply below_mask_proper). by rewrite <- E.
Qed.

End Same.

(** ** How deep actions and groups go *)

(** An action ends at once, or with the group it names. *)
Definition action_ends (ends : Z -> bool) (a : action) : bool :=
  match act_exec a with
  | None => true
  | Some ty =>
      if ty =? OFPAT_OUTPUT then negb (output_port_of a =? OFPP_TABLE)
      else if ty =? OFPAT_GROUP then ends (group_id_of a)
      else true
  end.

(** The watched groups end within [n] steps. *)
Fixpoint watch_ends (n : nat) (t : group_table) (g : group) : bool :=
  match n with
  | O => false
  | S n' => forallb (fun b => (bk_watch_group b =? OFPG_ANY) ||
              from_option (watch_ends n' t) true (group_table_lookup t (bk_watch_group b))) (gr_bucket_list g)
  end.

(** The group ends within [n] steps: its watched groups and its actions do. *)
Fixpoint group_ends (n : nat) (t : group_table) (id : Z) : bool :=
  match n with
  | O => false
  | S n' =>
      match group_table_lookup t id with
      | None => true
      | Some g => watch_ends n t g && forallb (fun b => forallb (forallb (action_ends (group_ends n' t))) (bk_actions b)) (gr_bucket_list g)
      end
  end.

Definition flow_ends (n : nat) (t : group_table) (f : flow) : bool :=
  forallb (fun i => forallb (action_ends (group_ends n t)) (ins_action_list i)) (fl_instruction_list f).
Definition program_ends (n : nat) (br : bridge) : Prop := map_Forall (fun _ f => flow_ends n (br_groups br) f = true) (br_flows br).

(** The search for a live bucket only reads the shape of the table. *)
Definition live_spec (n : nat) (t0 t : group_table) : Prop := forall fuel ports g g0,
  (n <= fuel)%nat -> group_shape g = group_shape g0 -> watch_ends n t0 g0 = true ->
  group_live_bucket fuel ports t g <> OutOfFuel.

Lemma shape_buckets g g0 : group_shape g = group_shape g0 ->
  Forall2 (fun b b0 => bk_watch_group b = bk_watch_group b0 /\ bk_actions b = bk_actions b0) (gr_bucket_list g) (gr_bucket_list g0).
Proof.
  unfold group_shape. intros [= _ H]. revert H. generalize (gr_bucket_list g0).
  induction (gr_bucket_list g) as [|b l IH]; intros [|b0 l0]; cbn; intros [= ]; constructor; auto.
Qed.

Lemma live_ends n t0 t : table_shape t = table_shape t0 -> live_spec n t0 t.
Proof.
  intros Ht. induction n as [|n IH]; intros [|fuel] ports g g0 Hf Hg He; [done|done|lia|]. cbn in He |- *.
  pose proof (shape_buckets g g0 Hg) as Hb. revert He. generalize 0%nat. induction Hb as [|b b0 l l0 [Ew _] _ IHl]; intros i He; [done|].
  cbn in He |- *. apply andb_true_iff in He as [H1 H2]. destruct (port_liveness _ _); [done|]. rewrite Ew.
  destruct (_ =? _); [by apply IHl|]. cbn in H1. destruct (group_table_lookup t _) as [a|] eqn:E; [|by apply IHl].
  destruct (lookup_shape t t0 _ _ Ht E) as (a0 & E0 & Ha). rewrite E0 in H1. cbn in H1.
  specialize (IH fuel ports a a0 ltac:(lia) Ha H1). destruct (group_live_bucket fuel ports t a) as [[]| |]; [done|by apply IHl|done|done].
Qed.

(** ** Commands that come to an end *)

Section Term.
Context (env : driver) (br0 : bridge) (N : nat).

Definition ends_at (n : nat) : action -> bool := action_ends (group_ends n (br_groups br0)).

(** The state in which [k] tables have matched. *)
Definition running (k : nat) (s : pipe) : Prop :=
  same_program br0 (wo_bridge (pi_world s)) /\ pk_nmatched (mb_pkt (pi_mbuf s)) = k /\
  Forall (Forall (ends_at N)) (pk_actions (mb_pkt (pi_mbuf s))).

Definition keeps {A} (c : proc A) : Prop := forall k s, running k s -> wp False c (fun _ => running k) s.

Lemma keeps_ret {A} (a : A) : keeps (mret a).
Proof. by intros k s Hs. Qed.
Lemma keeps_bind {A B} (c : proc A) (f : A -> proc B) : keeps c -> (forall a, keeps (f a)) -> keeps (c ≫= f).
Proof. intros Hc Hf k s Hs. apply wp_bind. eapply wp_mono; [by apply Hc|]. intros a s' Hs'. by apply Hf. Qed.
Lemma keeps_gets {A} (f : pipe -> A) : keeps (gets f).
Proof. by intros k s Hs. Qed.
Lemma keeps_world {A} (f : world -> A) : keeps (get_world f).
Proof. by intros k s Hs. Qed.
Lemma keeps_assert b : keeps (assert b).
Proof. intros k s Hs. by apply wp_assert. Qed.
Lemma keeps_undefined {A} : keeps (@undefined pipe A).
Proof. done. Qed.
Lemma keeps_lift {A} (R : A -> Prop) (c : edit A) : plain R c -> keeps (lift c).
Proof.
  intros Hc k s (H1 & H2 & H3). eapply wp_lift; [exact Hc|]. intros a m _ Hm. unfold running. cbn.
  injection Hm as Hn _ _ _ Ha. split; [exact H1|]. rewrite Hn, Ha. by split.
Qed.
Lemma keeps_pkt_get {A} (f : lagopus_packet -> A) : keeps (pkt_get f).
Proof. intros k s Hs. by apply wp_pkt_get. Qed.
Lemma keeps_pkt_upd f :
  (forall p, pk_nmatched (f p) = pk_nmatched p) ->
  (forall p, Forall (Forall (ends_at N)) (pk_actions p) -> Forall (Forall (ends_at N)) (pk_actions (f p))) ->
  keeps (pkt_upd f).
Proof. intros Hn Ha k s (H1 & H2 & H3). apply wp_pkt_upd. split; [exact H1|]. cbn. rewrite Hn. split; [done|by apply Ha]. Qed.
Lemma keeps_pkt_upd_plain f : (forall p, meta (f p) = meta p) -> keeps (pkt_upd f).
Proof. intros H. apply keeps_pkt_upd; intros p; specialize (H p); injection H; congruence. Qed.
Lemma keeps_upd_world f : (forall w, wo_bridge (f w) = wo_bridge w) -> keeps (upd_world f).
Proof. intros H k s (H1 & H2 & H3). apply wp_upd_world. split; [cbn; by rewrite H|by split]. Qed.
Lemma keeps_upd_bridge f : (forall br, same_program br0 br -> same_program br0 (f br)) -> keeps (upd_bridge f).
Proof. intros H k s (H1 & H2 & H3). apply wp_upd_world. split; [by apply H|by split]. Qed.
Lemma keeps_free : keeps lagopus_packet_free.
Proof. intros k s Hs. by apply wp_free. Qed.
Lemma keeps_addref : keeps OS_M_ADDREF.
Proof. by intros k s Hs. Qed.
Lemma keeps_touch : keeps touch.
Proof. intros k s Hs. apply wp_modify. by destruct (pi_refs s). Qed.

(** What is read from the switch is known. *)
Lemma keeps_read_bridge {A B} (f : bridge -> A) (P : A -> Prop) (c : A -> proc B) :
  (forall br, same_program br0 br -> P (f br)) -> (forall a, P a -> keeps (c a)) -> keeps (get_bridge f ≫= c).
Proof. intros HP Hc k s Hs. apply wp_bind, wp_get_world. apply (Hc (f (wo_bridge (pi_world s)))); [apply HP, Hs|done]. Qed.
Lemma keeps_read_pkt {A B} (f : lagopus_packet -> A) (P : A -> Prop) (c : A -> proc B) :
  (forall p, Forall (Forall (ends_at N)) (pk_actions p) -> P (f p)) -> (forall a, P a -> keeps (c a)) -> keeps (pkt_get f ≫= c).
Proof. intros HP Hc k s Hs. apply wp_bind, wp_pkt_get. apply Hc; [apply HP, Hs|done]. Qed.

(** Another packet starts afresh. *)
Definition fresh (m : mbuf) : Prop := pk_nmatched (mb_pkt m) = 0%nat /\ pk_actions (mb_pkt m) = [].

Lemma wp_on_fresh {A} (c : proc A) m k s :
  fresh m -> keeps c -> running k s -> wp False (on_packet m c) (fun _ => running k) s.
Proof.
  intros [Hn Ha] Hc (H1 & H2 & H3). apply wp_on_packet. eapply wp_mono; [apply (Hc 0%nat)|].
  - split; [exact H1|]. cbn. by rewrite Hn, Ha.
  - intros a s' (P1 & _). by split.
Qed.

Lemma keeps_on_packet {A} (c : proc A) (f : mbuf -> mbuf) :
  (forall m, fresh (f m)) -> keeps c -> keeps (m ← gets pi_mbuf; on_packet (f m) c).
Proof. intros Hf Hc k s Hs. apply wp_bind, wp_gets. by apply wp_on_fresh. Qed.

Lemma keeps_on_packet_then {A B} (c : proc A) (f : mbuf -> mbuf) (d : A -> proc B) :
  (forall m, fresh (f m)) -> keeps c -> (forall a, keeps (d a)) -> keeps (m ← gets pi_mbuf; a ← on_packet (f m) c; d a).
Proof.
  intros Hf Hc Hd k s Hs. apply wp_bind, wp_gets, wp_bind. eapply wp_mono; [by apply wp_on_fresh|]. intros a s'. apply Hd.
Qed.

Lemma keeps_for_each {A} (l : list A) f : (forall x, x ∈ l -> keeps (f x)) -> keeps (for_each l f).
Proof.
  induction l as [|x l IH]; intros H; cbn; [apply keeps_ret|].
  apply keeps_bind; [apply H; by left|intros _]. apply IH. intros y Hy. apply H. by right.
Qed.

Create HintDb keeps.
#[local] Hint Resolve keeps_ret keeps_gets keeps_world keeps_assert keeps_undefined keeps_pkt_get keeps_free keeps_addref keeps_touch : keeps.
#[local] Hint Extern 1 (keeps (upd_world _)) => (apply keeps_upd_world; done) : keeps.
#[local] Hint Extern 1 (keeps (lift _)) => (eapply keeps_lift; auto with plain) : keeps.
#[local] Hint Extern 1 (keeps (pkt_upd _)) => (apply keeps_pkt_upd_plain; done) : keeps.
Ltac keep_step :=
  match goal with
  | |- keeps (_ ≫= _) => apply keeps_bind; [|intros ?]
  | |- keeps (if ?b then _ else _) => destruct b
  | |- keeps (match ?x with _ => _ end) => destruct x
  | |- keeps _ => solve [eauto with keeps]
  end.
Ltac keep := cbv zeta; repeat keep_step.

(** *** Sending *)

Lemma keeps_emit e : keeps (emit e).
Proof. unfold emit. keep. Qed.
Lemma keeps_bridge {A} (f : bridge -> A) : keeps (get_bridge f).
Proof. unfold get_bridge. keep. Qed.
#[local] Hint Resolve keeps_emit keeps_bridge : keeps.
Lemma keeps_in_port : keeps in_port_no.
Proof. unfold in_port_no. keep. Qed.
#[local] Hint Resolve keeps_in_port : keeps.
Lemma keeps_packet_hash : keeps (packet_hash env).
Proof. unfold packet_hash, in_port_ifindex. keep. Qed.
Lemma keeps_send ifp : keeps (lagopus_send_packet_physical env ifp).
Proof. unfold lagopus_send_packet_physical, rawsock_send_packet_physical. keep. Qed.
Lemma keeps_packet_in reason miss_send_len cookie : keeps (send_packet_in env reason miss_send_len cookie).
Proof. unfold send_packet_in. keep. Qed.
#[local] Hint Resolve keeps_packet_hash keeps_send keeps_packet_in : keeps.
Lemma keeps_flood in_port : keeps (flood env in_port).
Proof. unfold flood. keep. apply keeps_for_each. intros [n p] _. unfold lagopus_do_send_iterate. keep. Qed.
Lemma keeps_to_port n : keeps (send_to_port env n).
Proof. unfold send_to_port. keep. Qed.
Lemma keeps_to_controller cookie : keeps (to_controller env cookie).
Proof. unfold to_controller. keep. Qed.
#[local] Hint Resolve keeps_flood keeps_to_port keeps_to_controller : keeps.

Lemma keeps_tx table port cookie : (port =? OFPP_TABLE) = false -> keeps (dp_interface_tx_packet env table port cookie).
Proof. intros H. unfold dp_interface_tx_packet. rewrite H. keep. Qed.

Lemma keeps_cache_flows : keeps cache_matched_flows.
Proof. unfold cache_matched_flows. keep. Qed.
#[local] Hint Resolve keeps_cache_flows : keeps.

(** *** Actions *)

Lemma keeps_output table a : (output_port_of a =? OFPP_TABLE) = false -> keeps (execute_action_output env table a).
Proof.
  intros H. unfold execute_action_output. cbv zeta. destruct (act_flags a =? _).
  - apply (keeps_on_packet_then _ (fun m => if output_port_of a =? OFPP_CONTROLLER then copy_packet_with_metadata m else copy_packet m)).
    + intros m. by destruct (output_port_of a =? OFPP_CONTROLLER).
    + by apply keeps_tx.
    + intros _. apply keeps_ret.
  - keep. by apply keeps_tx.
Qed.

Lemma keeps_exec table group p a :
  action_ends p a = true -> (forall id, p id = true -> keeps (group id)) -> keeps (exec_action env table group a).
Proof.
  unfold action_ends, exec_action. intros Ha Hg. destruct (act_exec a) as [ty|]; [|keep]. revert Ha.
  destruct (ty =? OFPAT_OUTPUT).
  { intros Ha%negb_true_iff. by apply keeps_output. }
  destruct (ty =? OFPAT_GROUP) eqn:E.
  { apply Z.eqb_eq in E as ->. intros Ha. by apply Hg. }
  intros _. unfold execute_action_dec_mpls_ttl, execute_action_dec_nw_ttl, report_invalid_ttl. keep.
Qed.

Lemma keeps_list exec next l : (forall a, a ∈ l -> keeps (exec a)) -> keeps next -> keeps (execute_action exec next l).
Proof.
  intros Ha Hn. induction l as [|a l IH]; cbn [execute_action]; [apply keeps_ret|].
  apply keeps_bind; [apply Ha; by left|intros rv]. destruct (is_ok rv); [|apply keeps_ret].
  apply keeps_bind; [done|intros _]. apply IH. intros b Hb. apply Ha. by right.
Qed.

Lemma keeps_lists n exec next ls :
  (forall a, ends_at n a = true -> keeps (exec a)) -> keeps next -> Forall (Forall (ends_at n)) ls ->
  keeps (execute_lists exec next ls).
Proof.
  intros Ha Hn. induction 1 as [|l ls Hl _ IH]; cbn [execute_lists]; [apply keeps_ret|].
  apply keeps_bind; [|intros rv; by destruct (is_ok rv); [|apply keeps_ret]].
  apply keeps_list; [|done]. intros a Hin. apply Ha. rewrite Forall_forall in Hl. by apply Is_true_true, Hl.
Qed.

Lemma keeps_has : keeps has_action.
Proof. unfold has_action. keep. Qed.
Lemma keeps_clear_has : keeps clear_has_action.
Proof. unfold clear_has_action. keep. Qed.
#[local] Hint Resolve keeps_has keeps_clear_has : keeps.
Lemma keeps_clear_set : keeps clear_action_set.
Proof.
  unfold clear_action_set. keep. apply keeps_pkt_upd; [done|]. intros p H. cbn. apply Forall_map.
  eapply Forall_impl; [exact H|]. by constructor.
Qed.
#[local] Hint Resolve keeps_clear_set : keeps.

Lemma keeps_set n exec next ls :
  (forall a, ends_at n a = true -> keeps (exec a)) -> keeps next -> Forall (Forall (ends_at n)) ls ->
  keeps (execute_action_set exec next ls).
Proof. intros Ha Hn Hl. unfold execute_action_set. apply keeps_bind; [by eapply keeps_lists|]. intros rv. keep. Qed.

(** *** Groups *)

Lemma keeps_upd_group id f : (forall g, group_shape (f g) = group_shape g) -> keeps (upd_group id f).
Proof. intros Hf. apply keeps_upd_bridge. intros br. by apply same_groups. Qed.

Definition buckets_end (n : nat) (g : group) : Prop := Forall (fun b => Forall (Forall (ends_at n)) (bk_actions b)) (gr_bucket_list g).

Lemma group_ends_buckets n id g0 g :
  group_ends (S n) (br_groups br0) id = true -> group_table_lookup (br_groups br0) id = Some g0 -> group_shape g = group_shape g0 ->
  watch_ends (S n) (br_groups br0) g0 = true /\ buckets_end n g.
Proof.
  cbn [group_ends]. intros He E Hg. rewrite E in He. apply andb_true_iff in He as [Hw Hb]. split; [done|].
  pose proof (shape_buckets g g0 Hg) as Hs. unfold buckets_end. clear E Hg Hw. induction Hs as [|b b0 l l0 [_ Ea] _ IH]; [done|].
  cbn in Hb. apply andb_true_iff in Hb as [H1 H2]. constructor; [|by apply IH]. rewrite Ea.
  apply Forall_forall. intros k Hk. apply Forall_forall. intros a Hin.
  apply (proj1 (forallb_forall _ _)) with (x := k) in H1; [|by apply list_elem_of_In].
  apply (proj1 (forallb_forall _ _)) with (x := a) in H1; [|by apply list_elem_of_In]. by apply Is_true_true.
Qed.

Section Group.
Context (fuel n : nat) (exec : action -> proc lagopus_result) (id : Z).
Hypothesis exec_keeps : forall a, ends_at n a = true -> keeps (exec a).

Lemma keeps_bucket_hit i : keeps (bucket_hit id i).
Proof. unfold bucket_hit. keep. apply keeps_upd_group. intros g. apply shape_bucket_hit. Qed.
#[local] Hint Resolve keeps_bucket_hit : keeps.

Lemma keeps_on_copy ib : Forall (Forall (ends_at n)) (bk_actions ib.2) -> keeps (bucket_on_copy exec id ib).
Proof.
  intros Hb. unfold bucket_on_copy. apply keeps_bind; [apply keeps_bucket_hit|intros _].
  apply keeps_on_packet; [done|]. apply keeps_bind; [apply keeps_pkt_upd_plain; auto with plain|intros _].
  apply keeps_bind; [eapply keeps_set; [done|apply keeps_ret|done]|intros rv]. keep.
Qed.

Lemma keeps_selected b :
  (forall ib, b = Some ib -> Forall (Forall (ends_at n)) (bk_actions ib.2)) -> keeps (run_selected exec id b).
Proof.
  intros Hb. destruct b as [ib|]; [|apply keeps_ret]. cbn. unfold run_bucket.
  apply keeps_bind; [apply keeps_bucket_hit|intros _]. eapply keeps_set; [done|apply keeps_ret|by apply Hb].
Qed.

Lemma pick_bucket_in {B} weigh sel weight (l : list B) b : pick_bucket weigh sel weight l = Some b -> b ∈ l.
Proof.
  revert weight. induction l as [|x l IH]; intros weight; cbn; [done|].
  destruct (_ <=? _); [intros [= ->]; by left|]. intros H%IH. by right.
Qed.
Lemma select_bucket_in {B} weigh hash64 (l : list B) b : select_bucket weigh hash64 l = Some b -> b ∈ l.
Proof.
  unfold select_bucket. cbv zeta. repeat (destruct (_ =? 0)); [done|apply pick_bucket_in|apply pick_bucket_in].
Qed.

Lemma keeps_hash_select l : keeps (hash_for_select env l).
Proof. unfold hash_for_select. keep. Qed.

Lemma keeps_group_action :
  (S n <= fuel)%nat -> group_ends (S n) (br_groups br0) id = true -> keeps (execute_group_action env fuel exec id).
Proof.
  intros Hf He. unfold execute_group_action.
  apply (keeps_read_bridge _ (fun o => forall g, o = Some g -> exists g0,
    group_table_lookup (br_groups br0) id = Some g0 /\ group_shape g = group_shape g0)).
  { intros br [Ht _ _] g. by apply lookup_shape. }
  intros [g|] Hg; [|apply keeps_ret]. destruct (Hg g eq_refl) as (g0 & E0 & Hs).
  destruct (group_ends_buckets n id g0 g He E0 Hs) as [Hw Hb].
  assert (forall ib, ib ∈ imap pair (gr_bucket_list g) -> Forall (Forall (ends_at n)) (bk_actions ib.2)) as Hin.
  { intros ib (i & b & -> & Hi)%elem_of_lookup_imap_1. cbn. eapply Forall_lookup_1 in Hb; [exact Hb|exact Hi]. }
  apply keeps_bind; [keep|intros len]. apply keeps_bind; [by apply keeps_upd_group|intros _]. cbv zeta.
  destruct (_ =? _).
  { apply keeps_bind; [apply keeps_for_each; intros ib Hi; by apply keeps_on_copy, Hin|intros _]. keep. }
  destruct (_ =? _).
  { apply keeps_bind; [apply keeps_hash_select|intros h]. apply keeps_selected. intros ib Hi%select_bucket_in. by apply Hin. }
  destruct (_ =? _).
  { apply keeps_selected. intros ib Hi%head_Some_elem_of. by apply Hin. }
  destruct (_ =? _); [|apply keeps_ret].
  apply keeps_bind; [keep|intros ports].
  apply (keeps_read_bridge _ (fun t => table_shape t = table_shape (br_groups br0))); [by intros br []|intros groups Ht].
  apply keeps_bind.
  - pose proof (live_ends (S n) _ _ Ht fuel ports g g0 Hf Hs Hw) as Hl. intros k s Hr. unfold wp, of_outcome.
    by destruct (group_live_bucket _ _ _ _).
  - intros live. apply keeps_selected. intros ib Hi. apply Hin. destruct live as [i|]; [|done]. by eapply list_elem_of_lookup_2.
Qed.

End Group.

Lemma keeps_run_group table fuel n id :
  (n <= fuel)%nat -> group_ends n (br_groups br0) id = true -> keeps (run_group env fuel table id).
Proof.
  revert n id. induction fuel as [|fuel IH]; intros [|n] id Hf He; [done|lia|done|]. cbn [run_group].
  apply (keeps_group_action (S fuel) n); [|done|done]. intros a Ha. eapply keeps_exec; [exact Ha|]. intros id'. apply IH. lia.
Qed.

(** *** Instructions *)

Section Exec.
Context (exec : action -> proc lagopus_result).
Hypothesis exec_keeps : forall a, ends_at N a = true -> keeps (exec a).

Lemma merge_action_ends actions a :
  Forall (Forall (ends_at N)) actions -> ends_at N a = true -> Forall (Forall (ends_at N)) (merge_action actions a).
Proof.
  intros H Ha. unfold merge_action. cbv zeta. destruct (_ =? 0); [done|]. apply Forall_alter; [done|].
  intros l _ Hl. apply Forall_app. split; [|constructor; [by rewrite Ha|constructor]].
  induction Hl as [|x l Hx Hl IH]; cbn; [constructor|]. destruct (same_action a x); [done|by constructor].
Qed.

Lemma merge_ends actions l :
  Forall (Forall (ends_at N)) actions -> forallb (ends_at N) l = true -> Forall (Forall (ends_at N)) (merge_action_set actions l).
Proof.
  unfold merge_action_set. revert actions. induction l as [|a l IH]; intros actions H Hl; [done|]. cbn in *.
  apply andb_true_iff in Hl as [Ha Hl]. apply IH; [by apply merge_action_ends|done].
Qed.

Lemma keeps_meter id : keeps (apply_meter env id).
Proof. unfold apply_meter. keep. Qed.
#[local] Hint Resolve keeps_meter : keeps.

Lemma keeps_handlers h i : forallb (ends_at N) (ins_action_list i) = true -> h ∈ instruction_handlers env exec -> keeps (h i).
Proof.
  unfold instruction_handlers. intros Hi H.
  repeat (apply elem_of_cons in H as [->|H]; [|]); [..|by apply elem_of_nil in H].
  - unfold execute_instruction_meter. keep.
  - apply keeps_list; [|apply keeps_ret]. intros a Ha. apply exec_keeps.
    apply (proj1 (forallb_forall _ _) Hi). by apply list_elem_of_In.
  - unfold execute_instruction_clear_actions. keep.
  - unfold execute_instruction_write_actions. apply keeps_bind; [apply keeps_has|intros has].
    apply keeps_bind; [destruct has; [apply keeps_ret|apply keeps_pkt_upd; [done|]]|intros _].
    { intros p _. by repeat constructor. }
    apply (keeps_read_pkt _ (Forall (Forall (ends_at N)))); [done|]. intros actions Ha.
    apply keeps_bind; [apply keeps_assert|intros _]. apply keeps_bind; [|intros _; keep].
    apply keeps_pkt_upd; [done|]. intros p _. by apply merge_ends.
  - unfold execute_instruction_write_metadata. keep.
  - unfold execute_instruction_goto_table. keep.
Qed.

Lemma keeps_slots slots handlers :
  (forall i, Some i ∈ slots -> forallb (ends_at N) (ins_action_list i) = true) ->
  (forall h i, forallb (ends_at N) (ins_action_list i) = true -> h ∈ handlers -> keeps (h i)) ->
  keeps (execute_slots slots handlers).
Proof.
  revert handlers. induction slots as [|i slots IH]; intros [|h handlers] Hi Hh; cbn [execute_slots]; try apply keeps_ret.
  apply keeps_bind; [destruct i; [apply Hh; [apply Hi|]; by left|apply keeps_ret]|intros rv].
  destruct (is_ok rv); [|apply keeps_ret]. apply IH.
  - intros j Hj. apply Hi. by right.
  - intros h' j Hj Hin. apply Hh; [done|by right].
Qed.

Lemma keeps_instruction f : flow_ends N (br_groups br0) f = true -> keeps (execute_instruction env exec f).
Proof.
  intros Hf. apply keeps_slots; [|apply keeps_handlers]. intros i (x & Hx & _)%list_elem_of_fmap.
  unfold flow_instruction in Hx. destruct (mjoin _) as [j|]; [|done]. cbn in Hx. symmetry in Hx. apply list_elem_of_lookup_2 in Hx.
  apply (proj1 (forallb_forall _ _) Hf i). by apply list_elem_of_In.
Qed.

(** *** Tables *)

Hypothesis flows_end : program_ends N br0.

Lemma same_program_ends br r f : same_program br0 br -> br_flows br !! r = Some f -> flow_ends N (br_groups br0) f = true.
Proof.
  intros [_ Hf _] Hr. destruct (Hf r f Hr) as (f0 & E0 & Ei). specialize (flows_end r f0 E0). cbn in flows_end.
  unfold flow_ends in *. by rewrite Ei.
Qed.

Lemma keeps_do_action : keeps (dp_openflow_do_action env exec).
Proof.
  unfold dp_openflow_do_action. apply keeps_bind; [apply keeps_pkt_get|intros [r|]]; [|apply keeps_undefined].
  apply (keeps_read_bridge _ (fun o => forall f, o = Some f -> flow_ends N (br_groups br0) f = true)).
  - intros br Hbr f. by apply same_program_ends.
  - intros [f|] Hf; [by apply keeps_instruction, Hf|apply keeps_undefined].
Qed.

(** A table matched, or none. *)
Lemma match_ends k s : running k s ->
  wp False dp_openflow_match (fun rv s' =>
    if is_ok rv then (k < LAGOPUS_DP_PIPELINE_MAX)%nat /\ running (S k) s' else exists k', running k' s') s.
Proof.
  intros (H1 & H2 & H3). unfold dp_openflow_match. apply wp_bind, wp_pkt_get, wp_bind, wp_get_world.
  destruct (br_tables _ !! _) as [t|] eqn:Et; [|by exists k].
  destruct (sp_lookups _ _ H1 _ t Et) as [Hwf Hpos].
  apply wp_bind, wp_upd_world, wp_bind, wp_pkt_get, wp_bind, wp_get_world.
  match goal with |- context [lagopus_find_flow ?h ?p ?u] => set (found := lagopus_find_flow h p u) end.
  assert (heap_eqv (br_flows (wo_bridge (pi_world s))) found.2) as He.
  { pose proof (lagopus_find_flow_law _ _ (mb_pkt (pi_mbuf s)) _ Hwf Hpos) as Hl. subst found.
    cbn. by destruct (lagopus_find_flow _ _ _) as [r h]; destruct Hl. }
  apply wp_bind, wp_upd_world, wp_bind, wp_pkt_get. cbn [pi_mbuf set_pi_world].
  match goal with |- wp _ _ _ ?s' => assert (running k s') as Hs' end.
  { split; [|by split]. cbn. apply same_set_flows; [by apply same_flows_eqv|]. by apply same_tables. }
  destruct found.1 as [r|]; [|by exists k]. rewrite H2. destruct (Nat.ltb_spec k LAGOPUS_DP_PIPELINE_MAX); [|by exists k].
  do 3 apply wp_bind, wp_pkt_upd. apply wp_ret. cbn. split; [done|]. destruct Hs' as (P1 & _). split; [exact P1|by split].
Qed.

Lemma loop_ends fuel k s : running k s -> (k <= LAGOPUS_DP_PIPELINE_MAX < fuel + k)%nat ->
  wp False (match_loop env exec fuel) (fun _ s' => exists k', running k' s') s.
Proof.
  revert k s. induction fuel as [|fuel IH]; intros k s Hs Hk; cbn [match_loop]; [lia|].
  apply wp_bind. eapply wp_mono; [by apply match_ends|]. intros rv s1 H1. cbn beta in H1.
  destruct (is_ok rv); [|done]. destruct H1 as [Hlt H1].
  apply wp_bind. eapply wp_mono; [by apply keeps_do_action|]. intros rv' s2 H2. cbn beta in H2.
  destruct (goes_on rv'); [|by exists (S k)]. apply (IH (S k)); [done|lia].
Qed.

Lemma keeps_cached_flow r : keeps (do_cached_flow env exec r).
Proof.
  unfold do_cached_flow. apply keeps_bind; [keep|intros len].
  apply (keeps_read_bridge _ (fun o => forall f, o = Some f -> flow_ends N (br_groups br0) f = true)).
  { intros br Hbr f. by apply same_program_ends. }
  intros [f|] Hf; [|apply keeps_undefined]. specialize (Hf f eq_refl).
  assert (forall r' g, (forall f, same_program_flow f (g f)) -> keeps (upd_bridge (upd_flow r' g))) as Hupd.
  { intros r' g Hg. apply keeps_upd_bridge. intros br Hbr. apply (same_set_flows br0 br (br_flows (upd_flow r' g br))); [|done].
    by apply same_flows_upd. }
  assert (forall tid g, (forall t, tb_userdata (g t) = tb_userdata t) -> keeps (upd_table tid g)) as Htab.
  { intros tid g Hg. apply keeps_upd_bridge. intros br. by apply same_tables. }
  apply keeps_bind; [by apply Hupd|intros _]. apply keeps_bind; [keep|intros now].
  apply keeps_bind; [destruct (_ || _); [by apply Hupd|keep]|intros _].
  do 4 (apply keeps_bind; [keep|intros ?]). apply keeps_bind; [by apply Htab|intros _].
  apply keeps_bind; [destruct (_ <? _); [by apply Htab|keep]|intros _]. by apply keeps_instruction.
Qed.

Lemma keeps_cached : keeps (dp_openflow_do_cached_action env exec).
Proof.
  unfold dp_openflow_do_cached_action, lookup_cache. keep.
  match goal with |- keeps (do_cached_flows _ _ ?l) => generalize l end.
  intros l. induction l as [|r l IH]; cbn [do_cached_flows]; [apply keeps_ret|].
  apply keeps_bind; [apply keeps_cached_flow|intros rv]. destruct (is_ok rv); [exact IH|apply keeps_ret].
Qed.

Lemma keeps_do_set : keeps (dp_openflow_do_action_set exec).
Proof.
  unfold dp_openflow_do_action_set. apply keeps_bind; [apply keeps_has|intros [|]]; [|apply keeps_ret].
  apply (keeps_read_pkt _ (Forall (Forall (ends_at N)))); [done|]. intros actions Ha.
  apply keeps_bind; [eapply keeps_set; [done|unfold own_list_stays; keep|done]|intros rv]. keep.
Qed.

Lemma body_ends s : running 0 s -> wp False (match_and_action_body env exec) (fun _ s' => exists k', running k' s') s.
Proof.
  intros Hs. unfold match_and_action_body. apply wp_bind. eapply wp_mono; [by apply keeps_cached|]. intros rv s1 H1. cbn beta in H1.
  apply wp_bind. eapply (wp_mono _ _ (fun _ s' => exists k', running k' s')).
  { destruct (bool_decide _); [apply (loop_ends _ 0); [done|lia]|by exists 0%nat]. }
  intros rv1 s2 [k2 H2]. match goal with |- wp _ ?c _ _ => assert (keeps c) as Hc end.
  { apply keeps_bind; [destruct (is_ok rv1); [apply keeps_do_set|apply keeps_ret]|intros rv2]. keep. }
  eapply wp_mono; [by apply Hc|]. intros rv' s' H'. by exists k2.
Qed.

End Exec.

Lemma match_and_action_ends fuel s :
  program_ends N br0 -> (N <= fuel)%nat -> running 0 s ->
  wp False (lagopus_match_and_action env fuel) (fun _ s' => exists k', running k' s') s.
Proof.
  intros Hp Hf Hs. destruct fuel as [|fuel]; cbn [lagopus_match_and_action]; (apply body_ends; [|done|done]);
    intros a Ha; (eapply keeps_exec; [exact Ha|]); intros id; by apply keeps_run_group.
Qed.

End Term.

(** ** Programs without circles *)

(** From some depth on. *)
Definition eventually (P : nat -> bool) : Prop := exists n, forall m, (n <= m)%nat -> P m = true.

Lemma eventually_step (P Q : nat -> bool) : (forall n, P n = true -> Q (S n) = true) -> eventually P -> eventually Q.
Proof. intros H [n Hn]. exists (S n). intros [|m] Hm; [lia|]. apply H, Hn. lia. Qed.

Lemma eventually_and P Q : eventually P -> eventually Q -> eventually (fun n => P n && Q n).
Proof. intros [n Hn] [m Hm]. exists (n `max` m)%nat. intros k Hk. rewrite Hn, Hm by lia. done. Qed.

Lemma eventually_forallb {A} (P : nat -> A -> bool) l :
  (forall x, x ∈ l -> eventually (fun n => P n x)) -> eventually (fun n => forallb (P n) l).
Proof.
  induction l as [|x l IH]; intros H; cbn; [by exists 0%nat|].
  apply eventually_and; [apply H; by left|apply IH; intros; apply H; by right].
Qed.

(** [c] is watched by a bucket of [p]. *)
Definition watched (t : group_table) (c p : group) : Prop :=
  exists b, b ∈ gr_bucket_list p /\ bk_watch_group b <> OFPG_ANY /\ group_table_lookup t (bk_watch_group b) = Some c.

(** An action as a controller may install it: not back to the first table, and to groups with an
    identifier of 32 bits. *)
Definition action_safe (a : action) : Prop :=
  (act_exec a = Some OFPAT_OUTPUT -> output_port_of a <> OFPP_TABLE) /\
  (act_exec a = Some OFPAT_GROUP -> id_ok (group_id_of a)).

Record loop_free (br : bridge) : Prop := {
  lf_groups : groups_wf (br_groups br);
  lf_acyclic : acyclic (br_groups br);
  lf_watch : forall g, Acc (watched (br_groups br)) g;
  lf_buckets : forall id g b l a, group_table_lookup (br_groups br) id = Some g ->
    b ∈ gr_bucket_list g -> l ∈ bk_actions b -> a ∈ l ->
    action_safe a /\ (act_exec a = Some OFPAT_GROUP -> group_id_of a ∈ group_refs g);
  lf_flows : forall r f i a, br_flows br !! r = Some f -> i ∈ fl_instruction_list f -> a ∈ ins_action_list i -> action_safe a
}.

Lemma action_eventually (ends : nat -> Z -> bool) a :
  action_safe a -> (act_exec a = Some OFPAT_GROUP -> eventually (fun n => ends n (group_id_of a))) ->
  eventually (fun n => action_ends (ends n) a).
Proof.
  intros [Ho _] Hg. unfold action_ends. destruct (act_exec a) as [ty|]; [|by exists 0%nat].
  destruct (ty =? OFPAT_OUTPUT) eqn:E1.
  { apply Z.eqb_eq in E1 as ->. exists 0%nat. intros m _. apply negb_true_iff, Z.eqb_neq. by apply Ho. }
  destruct (ty =? OFPAT_GROUP) eqn:E2; [|by exists 0%nat]. apply Z.eqb_eq in E2 as ->. by apply Hg.
Qed.

Lemma watch_eventually t g : Acc (watched t) g -> eventually (fun n => watch_ends n t g).
Proof.
  induction 1 as [g _ IH]. apply (eventually_step (fun n => forallb (fun b => (bk_watch_group b =? OFPG_ANY) ||
    from_option (watch_ends n t) true (group_table_lookup t (bk_watch_group b))) (gr_bucket_list g))); [done|].
  apply eventually_forallb. intros b Hb. destruct (Z.eqb_spec (bk_watch_group b) OFPG_ANY) as [|Hne]; [by exists 0%nat|].
  destruct (group_table_lookup t (bk_watch_group b)) as [c|] eqn:E; cbn; [|by exists 0%nat]. apply IH. by exists b.
Qed.

Section LoopFree.
Context (br : bridge) (Hlf : loop_free br).

Lemma group_eventually id : id_ok id -> eventually (fun n => group_ends n (br_groups br) id).
Proof.
  intros Hid. pose proof (lf_acyclic _ Hlf id) as Hacc. induction Hacc as [id _ IH].
  destruct (group_table_lookup (br_groups br) id) as [g|] eqn:E.
  2:{ exists 1%nat. intros [|m] Hm; [lia|]. cbn. by rewrite E. }
  apply (eventually_step (fun n => watch_ends (S n) (br_groups br) g &&
    forallb (fun b => forallb (forallb (action_ends (group_ends n (br_groups br)))) (bk_actions b)) (gr_bucket_list g))).
  { intros n H. cbn [group_ends]. by rewrite E. }
  apply eventually_and.
  { destruct (watch_eventually _ _ (lf_watch _ Hlf g)) as [n Hn]. exists n. intros m Hm. apply Hn. lia. }
  apply eventually_forallb. intros b Hb. apply eventually_forallb. intros l Hl. apply eventually_forallb. intros a Ha.
  destruct (lf_buckets _ Hlf id g b l a E Hb Hl Ha) as [Hs Hr]. apply action_eventually; [done|].
  intros Hg. apply IH; [|by apply Hs]. split; [done|]. exists g. split; [done|by apply Hr].
Qed.

Lemma flow_eventually r f : br_flows br !! r = Some f -> eventually (fun n => flow_ends n (br_groups br) f).
Proof.
  intros Hr. apply eventually_forallb. intros i Hi. apply eventually_forallb. intros a Ha.
  pose proof (lf_flows _ Hlf r f i a Hr Hi Ha) as Hs. apply action_eventually; [done|].
  intros Hg. apply group_eventually. by apply Hs.
Qed.

Lemma loop_free_law : exists n, forall m, (n <= m)%nat -> program_ends m br.
Proof.
  destruct (eventually_forallb (fun n f => flow_ends n (br_groups br) f) (map_to_list (br_flows br)).*2) as [n Hn].
  { intros f ([r f'] & -> & Hr%elem_of_map_to_list)%list_elem_of_fmap. by eapply flow_eventually. }
  exists n. intros m Hm r f Hr. apply (proj1 (forallb_forall _ _) (Hn m Hm)). apply list_elem_of_In, list_elem_of_fmap.
  exists (r, f). split; [done|]. by apply elem_of_map_to_list.
Qed.

End LoopFree.

(** ** Properties *)

Definition masked_positive (br : bridge) : Prop :=
  forall tid t, br_tables br !! tid = Some t -> masked_flows_positive (br_flows br) tid (tb_flows t).

Lemma bridge_lookups br : bridge_inv br -> masked_positive br -> lookups_ok br.
Proof.
  intros Hi Hp tid t Ht. pose proof (bi_table _ Hi _ _ Ht) as Htv. split; [apply (tv_wf _ _ _ Htv)|].
  intros x Hx. apply (Hp tid t Ht). by rewrite <- (tv_tree _ _ _ Htv).
Qed.

Lemma init_fresh p port_no :
  pk_nmatched (lagopus_packet_init p port_no) = 0%nat /\ pk_actions (lagopus_packet_init p port_no) = pk_actions p.
Proof. pose proof (kept_init p port_no) as H. unfold kept, meta in H. by simplify_eq. Qed.

Lemma running_new br0 n w m use_cache :
  same_program br0 (wo_bridge w) -> pk_nmatched (mb_pkt m) = 0%nat -> pk_actions (mb_pkt m) = replicate 11 [] ->
  running br0 n 0 (Pipe w m 1 use_cache).
Proof. intros Hs Hn Ha. split; [exact Hs|]. cbn [pi_mbuf]. rewrite Hn, Ha. by repeat constructor. Qed.

Definition receive_body env fuel (standalone : bool) : proc unit :=
  if standalone then dp_interface_tx_packet env (lagopus_match_and_action env fuel) OFPP_NORMAL 0
  else lagopus_match_and_action env fuel ;; mret tt.

Lemma receive_body_ends env fuel n standalone br0 s :
  program_ends n br0 -> (n <= fuel)%nat -> running br0 n 0 s -> receive_body env fuel standalone s <> OutOfFuel.
Proof.
  intros Hp Hf Hs. enough (wp False (receive_body env fuel standalone) (fun _ _ => True) s) as H.
  { unfold wp in H. by destruct (receive_body _ _ _ s). }
  unfold receive_body. destruct standalone.
  - eapply wp_mono; [by eapply (keeps_tx env br0 n)|done].
  - apply wp_bind. eapply wp_mono; [by eapply match_and_action_ends|]. intros rv s' _. by apply wp_ret.
Qed.

Lemma receive_law env fuel n use_cache standalone in_port data w :
  bridge_inv (wo_bridge w) -> masked_positive (wo_bridge w) -> program_ends n (wo_bridge w) -> (n <= fuel)%nat ->
  receive env fuel use_cache standalone in_port data w <> OutOfFuel.
Proof.
  intros Hi Hm Hp Hf. destruct (init_fresh (packet_of data) in_port) as [En Ea].
  assert (running (wo_bridge w) n 0 (Pipe w (new_mbuf data in_port) 1 use_cache)) as Hs.
  { apply running_new; [by apply same_refl, bridge_lookups|exact En|exact Ea]. }
  pose proof (receive_body_ends env fuel n standalone _ _ Hp Hf Hs) as H. revert H. unfold receive, receive_body.
  generalize (Pipe w (new_mbuf data in_port) 1 use_cache). intros s.
  set (c := if standalone then _ else _). by destruct (c s) as [[[] s']| |].
Qed.

(** C6: the processing of a packet ends.  When the tables are consistent, when no flow or bucket
    outputs to OFPP_TABLE, and when groups refer to each other and watch each other at most
    [n] deep, then recursion [n] deep suffices for every packet, whatever the ports,
    meters and caches: the walk through the tables ends by itself, since at most 254 flows
    match a packet, even when GOTO_TABLE goes back. *)
Theorem receive_terminates (env : driver) (fuel n : nat) (use_cache standalone : bool) (in_port : Z) (data : bytes) (w : world)
    (Hi : bridge_inv (wo_bridge w)) (Hm : masked_positive (wo_bridge w))
    (Hp : program_ends n (wo_bridge w)) (Hf : (n <= fuel)%nat) :
  receive env fuel use_cache standalone in_port data w <> OutOfFuel.
Proof. by eapply receive_law. Qed.

(** What keeps groups free of circles is enough for packets to end: with a group table that
    [group_loop_detect] has kept [acyclic], watched groups that do not run in circles
    either, and no output to OFPP_TABLE, there is a depth that suffices for every
    packet that may arrive. *)
Theorem loop_free_terminates (w : world)
    (Hi : bridge_inv (wo_bridge w)) (Hm : masked_positive (wo_bridge w)) (Hlf : loop_free (wo_bridge w)) :
  exists n, forall env fuel use_cache standalone in_port data, (n <= fuel)%nat ->
    receive env fuel use_cache standalone in_port data w <> OutOfFuel.
Proof.
  destruct (loop_free_law _ Hlf) as [n Hn]. exists n. intros. eapply receive_law; [done|done|by apply (Hn n)|done].
Qed.

(** ** A switch with groups *)

(** GROUP_MOD ADD. *)
Definition with_group (id type : Z) (buckets : list bucket) (br : bridge) : bridge :=
  match ofp_group_mod_add 9 (br_groups br) (OfpGroupMod id type) buckets (0, 0) with
  | Some (_, t, _) => set_br_groups t br
  | None => br
  end.

Definition new_bucket (watch_port watch_group : Z) (l : list ofp_action) : bucket :=
  Bucket 1 watch_port watch_group 0 0 (map new_action l) [].
Definition apply_group (id : Z) : instruction := new_instruction OFPIT_APPLY_ACTIONS [new_action (ofp_action_group id)].

(** Group 1 passes packets on to group 2, which prefers port 2 as long as group 3 has it up. *)
Definition group_switch : bridge :=
  with_flow 1 [apply_group 1]
    (with_group 1 OFPGT_INDIRECT [new_bucket OFPP_ANY OFPG_ANY [ofp_action_group 2]]
       (with_group 2 OFPGT_FF [new_bucket OFPP_ANY 3 [ofp_action_output 2 0]; new_bucket 3 OFPG_ANY [ofp_action_output 3 0]]
          (with_group 3 OFPGT_FF [new_bucket 2 OFPG_ANY []] switch_bridge))).
Example group_switch_sends :
  match run_switch sample_ports group_switch with Done w => map fst (sent w) | _ => [] end = [12].
Proof. vm_compute. reflexivity. Qed.

(** One group, for outputs. *)
Definition one_group_switch : bridge :=
  with_flow 1 [apply_group 1]
    (with_group 1 OFPGT_INDIRECT [new_bucket OFPP_ANY OFPG_ANY [ofp_action_output 2 0]] switch_bridge).

Lemma switch_bridge_inv : bridge_inv switch_bridge.
Proof. split; cbn; [done|]. intros r [f Hf]. done. Qed.

Lemma with_group_inv id type buckets br : bridge_inv br -> bridge_inv (with_group id type buckets br).
Proof.
  intros Hi. unfold with_group. destruct (ofp_group_mod_add _ _ _ _ _) as [[[rv t] e]|]; [|done].
  apply (frame_inv [] br); [by apply frame_core|intros r Hr; by apply elem_of_nil in Hr|done].
Qed.

Lemma with_flow_inv prio il br : 0 <= prio -> bridge_inv br -> bridge_inv (with_flow prio il br).
Proof. intros Hp Hi. by apply flowdb_flow_add_inv; [|by apply match_list_ok_dec|]. Qed.

Lemma masked_positive_dec br :
  forallb (fun '(tid, t) => forallb (fun x => (0 <=? prio (br_flows br) x) &&
    (negb (below_mask tid (ml (br_flows br) x)) || (0 <? prio (br_flows br) x))) (tb_flows t)) (map_to_list (br_tables br)) = true ->
  masked_positive br.
Proof.
  rewrite forallb_forall. intros H tid t Ht x Hx. apply elem_of_map_to_list, list_elem_of_In, H in Ht.
  cbn in Ht. rewrite forallb_forall in Ht. apply list_elem_of_In, Ht in Hx. apply andb_true_iff in Hx as [H1 H2].
  split; [lia|]. intros E. rewrite E in H2. cbn in H2. lia.
Qed.

Lemma program_ends_dec n br :
  forallb (fun rf => flow_ends n (br_groups br) rf.2) (map_to_list (br_flows br)) = true -> program_ends n br.
Proof. rewrite forallb_forall. intros H r f Hr. by apply elem_of_map_to_list, list_elem_of_In, H in Hr. Qed.

Lemma receive_terminates_witness :
  receive sample_driver 3 true false 1 (frame udp_mbuf) (switch sample_ports group_switch) <> OutOfFuel.
Proof.
  apply (receive_terminates sample_driver 3 3 true false 1 (frame udp_mbuf) (switch sample_ports group_switch)).
  - apply with_flow_inv; [done|]. repeat apply with_group_inv. exact switch_bridge_inv.
  - apply masked_positive_dec. vm_compute. reflexivity.
  - apply program_ends_dec. vm_compute. reflexivity.
  - lia.
Defined.

Lemma group_in_table t id g : group_table_lookup t id = Some g -> (OS_HTONL id, g) ∈ map_to_list (m_hashtable t).
Proof.
  unfold group_table_lookup, id_lookup. cbn. unfold s_find. destruct (m_is_operational t); [|done]. cbn.
  intros H. apply elem_of_map_to_list. by destruct (_ !! _).
Qed.

Lemma refs_in_table t id g : group_table_lookup t id = Some g -> group_refs g ∈ map group_refs (map_to_list (m_hashtable t)).*2.
Proof. intros H%group_in_table. apply list_elem_of_fmap. exists g. split; [done|]. apply list_elem_of_fmap. by exists (OS_HTONL id, g). Qed.

(** The group of [one_group_switch]. *)
Definition one_group : group :=
  default (group_alloc (OfpGroupMod 0 0) [] (0, 0)) (group_table_lookup (br_groups one_group_switch) 1).

Lemma one_group_only id g :
  group_table_lookup (br_groups one_group_switch) id = Some g -> OS_HTONL id = OS_HTONL 1 /\ g = one_group.
Proof.
  intros H%group_in_table. assert (map_to_list (m_hashtable (br_groups one_group_switch)) = [(OS_HTONL 1, one_group)]) as E
    by (vm_compute; reflexivity). rewrite E in H. apply list_elem_of_singleton in H. by apply pair_equal_spec in H.
Qed.

Lemma one_group_loop_free : loop_free one_group_switch.
Proof.
  assert (group_refs one_group = []) as Hr by (vm_compute; reflexivity).
  assert (forallb (fun b => bk_watch_group b =? OFPG_ANY) (gr_bucket_list one_group) = true) as Hw by (vm_compute; reflexivity).
  assert (forallb (fun b => forallb (forallb (fun a => bool_decide (act_exec a = Some OFPAT_OUTPUT) && (output_port_of a =? 2)))
    (bk_actions b)) (gr_bucket_list one_group) = true) as Ha by (vm_compute; reflexivity).
  split.
  - split; [vm_compute; reflexivity|]. intros id g Hid [E ->]%one_group_only.
    assert (gr_id one_group = 1) as -> by (vm_compute; reflexivity). unfold group_ok. rewrite Hr.
    assert (id = 1) as -> by (apply OS_NTOHL_inj; [exact Hid|unfold id_ok; lia|exact E]).
    split; [done|]. split; [vm_compute; by split|]. intros c Hc. by apply elem_of_nil in Hc.
  - intros c. constructor. intros d [_ (g & [_ ->]%one_group_only & Hd)]. rewrite Hr in Hd. by apply elem_of_nil in Hd.
  - assert (Acc (watched (br_groups one_group_switch)) one_group) as H1.
    { constructor. intros c (b & Hb & Hne & _). rewrite forallb_forall in Hw. apply list_elem_of_In, Hw, Z.eqb_eq in Hb. done. }
    intros g. constructor. intros c (b & _ & _ & [_ ->]%one_group_only). exact H1.
  - intros id g b l a [_ ->]%one_group_only Hb Hl Hin. rewrite forallb_forall in Ha. apply list_elem_of_In, Ha in Hb.
    rewrite forallb_forall in Hb. apply list_elem_of_In, Hb in Hl. rewrite forallb_forall in Hl. apply list_elem_of_In, Hl in Hin.
    apply andb_true_iff in Hin as [E1%bool_decide_eq_true E2]. unfold action_safe. rewrite E1. split; [|done].
    split; [|done]. intros _ E. rewrite E in E2. done.
  - intros r f i a Hf Hi Hin. apply elem_of_map_to_list in Hf.
    assert (forallb (fun rf => forallb (fun i => forallb (fun a => bool_decide (act_exec a = Some OFPAT_GROUP) && (group_id_of a =? 1))
      (ins_action_list i)) (fl_instruction_list rf.2)) (map_to_list (br_flows one_group_switch)) = true) as H by (vm_compute; reflexivity).
    rewrite forallb_forall in H. apply list_elem_of_In, H in Hf. cbn in Hf. rewrite forallb_forall in Hf.
    apply list_elem_of_In, Hf in Hi. rewrite forallb_forall in Hi. apply list_elem_of_In, Hi in Hin.
    apply andb_true_iff in Hin as [E1%bool_decide_eq_true E2%Z.eqb_eq]. unfold action_safe. rewrite E1, E2.
    split; [done|]. intros _. unfold id_ok. lia.
Qed.

Lemma loop_free_terminates_witness :
  exists n, forall env fuel use_cache standalone in_port data, (n <= fuel)%nat ->
    receive env fuel use_cache standalone in_port data (switch sample_ports one_group_switch) <> OutOfFuel.
Proof.
  apply (loop_free_terminates (switch sample_ports one_group_switch)).
  - apply with_flow_inv; [done|]. apply with_group_inv. exact switch_bridge_inv.
  - apply masked_positive_dec. vm_compute. reflexivity.
  - exact one_group_loop_free.
Defined.

(** ** A group that watches itself *)

Definition self_watching : group_table :=
  match ofp_group_mod_add 9 group_table_alloc (OfpGroupMod 1 OFPGT_FF) [new_bucket OFPP_ANY 1 [ofp_action_output 2 0]] (0, 0) with
  | Some (_, t, _) => t
  | None => group_table_alloc
  end.

Definition self_group : group := default one_group (group_table_lookup self_watching 1).
Lemma self_group_found : group_table_lookup self_watching 1 = Some self_group.
Proof. vm_compute. reflexivity. Qed.
Lemma self_group_watches :
  gr_type self_group = OFPGT_FF /\ bk_watch_group <$> gr_bucket_list self_group = [1] /\
  bk_watch_port <$> gr_bucket_list self_group = [OFPP_ANY].
Proof. vm_compute. done. Qed.

Lemma watch_loop_diverges fuel ports t g g' :
  bk_watch_group <$> gr_bucket_list g = [1] -> bk_watch_port <$> gr_bucket_list g = [OFPP_ANY] ->
  group_table_lookup t 1 = Some g' -> bk_watch_group <$> gr_bucket_list g' = [1] -> bk_watch_port <$> gr_bucket_list g' = [OFPP_ANY] ->
  group_live_bucket fuel ports t g = OutOfFuel.
Proof.
  revert g. induction fuel as [|fuel IH]; intros g Hg Hp Hl Hg' Hp'; [done|]. cbn [group_live_bucket].
  destruct (gr_bucket_list g) as [|b [|]]; [done| |done]. injection Hg as Eg. injection Hp as Ep. cbn. rewrite Ep, Eg. cbn.
  by rewrite Hl, (IH g').
Qed.

(** The loop detection of GROUP_MOD ADD looks at actions only: a fast-failover group
    with a bucket that watches no port but the group itself is accepted, the references of the
    table remain free of circles, and yet the first packet sent to the group makes
    [group_live_bucket] recurse without end. *)
Theorem watch_group_loops (env : driver) (fuel : nat) (table : proc lagopus_result) (s : pipe) (br : bridge) :
  (exists e, ofp_group_mod_add 9 group_table_alloc (OfpGroupMod 1 OFPGT_FF) [new_bucket OFPP_ANY 1 [ofp_action_output 2 0]] (0, 0) =
     Some (LAGOPUS_RESULT_OK, self_watching, e)) /\
  acyclic self_watching /\
  run_group env fuel table 1 (set_pi_world (set_wo_bridge (set_br_groups self_watching br) (pi_world s)) s) = OutOfFuel.
Proof.
  split; [eexists; vm_compute; reflexivity|]. split.
  - intros c. constructor. intros d [_ (g & Hg & Hd)]. apply refs_in_table in Hg.
    assert (map group_refs (map_to_list (m_hashtable self_watching)).*2 = [[]]) as E by (vm_compute; reflexivity).
    rewrite E in Hg. apply list_elem_of_singleton in Hg. rewrite Hg in Hd. destruct (proj1 (elem_of_nil d) Hd).
  - destruct fuel as [|fuel]; [done|]. cbn [run_group]. destruct self_group_watches as (Et & Eg & Ep).
    unfold execute_group_action, get_bridge, get_world, upd_group, upd_bridge, upd_world, lift, pktlen, gets, modify, of_outcome, mbind, M_bind.
    cbn [pi_world set_pi_world wo_bridge set_wo_bridge br_groups set_br_groups set_pi_mbuf pi_mbuf]. rewrite self_group_found, Et.
    cbn [Z.eqb OFPGT_FF OFPGT_ALL OFPGT_SELECT OFPGT_INDIRECT Pos.eqb].
    cbn [pi_world set_pi_world wo_bridge set_wo_bridge br_groups set_br_groups set_pi_mbuf pi_mbuf].
    match goal with |- context [id_update ?f 1 self_watching] => set (count := f) end.
    rewrite (watch_loop_diverges _ _ _ self_group (count self_group)); [done|done|done| |done|done].
    pose proof self_group_found as El. revert El. unfold group_table_lookup. generalize self_watching.
    intros t. unfold id_lookup, id_update. cbn. unfold s_find. cbn. destruct (m_is_operational t); [|done]. cbn.
    rewrite lookup_alter_eq. destruct (m_hashtable t !! OS_NTOHL 1); cbn; congruence.
Qed.
