(* ===== verification/PipelineRun.v ===== *)
(** * What the switch does with a packet

    The walk of [lagopus_match_and_action] end to end, without a flow cache: a packet that no flow
    of table 0 matches is dropped, one that matches a flow with a list of outputs leaves by those
    ports, in their order, each time as it came in.  Then, evaluated on small switches,
    what happens in corners of the pipeline that go wrong. *)
From S2P Require Import Prelude Monad OpenFlow Hashmap Endian Shared Packet ByteMatch ActionSet Meter Group DpTimer.
From S2P Require Import FlowEntry FlowinfoTree Bridge FlowDB FlowDBSpec PacketEdit Checksum PacketActions SetField.
From S2P Require Import Tunnel PacketHash FlowCache Pipeline PipelineLogic PipelineOwn PipelineTerm.

(** A frame as it is written: at least 60 bytes. *)
Definition padded (data : bytes) : bytes := data ++ replicate (60 - length data) 0.

(** The port [n] writes to the socket [fd]. *)
Definition writes_to (ports : gmap Z port) (in_port n fd : Z) : Prop :=
  n <> in_port /\ 0 < n < OFPP_IN_PORT /\ fd <> 0 /\
  exists q, ports !! n = Some q /\ flag_set (po_config q) OFPPC_NO_FWD = false /\
    po_interface q = Some (Interface ETHERNET_RAWSOCK fd).

(** Output actions as the examination of a flow leaves them: all but the last one send a
    copy.  The destinations are given with their sockets. *)
Inductive outputs : list action -> list (Z * Z) -> Prop :=
  | outputs_last a n fd :
      act_exec a = Some OFPAT_OUTPUT -> output_port_of a = n -> act_flags a <> OUTPUT_COPIED_PACKET -> outputs [a] [(n, fd)]
  | outputs_more a n fd l dests :
      act_exec a = Some OFPAT_OUTPUT -> output_port_of a = n -> act_flags a = OUTPUT_COPIED_PACKET ->
      outputs l dests -> outputs (a :: l) ((n, fd) :: dests).

Definition write_frames (data : bytes) (dests : list (Z * Z)) : list event := map (fun d => ev_write d.2 (padded data)) dests.

Definition add_events (l : list event) (w : world) : world := set_wo_events (wo_events w ++ l) w.

(** A packet nothing has changed yet. *)
Definition untouched (in_port : Z) (data : bytes) (m : mbuf) : Prop :=
  mb_has_port m = true /\ pk_in_port (mb_pkt m) = in_port /\ pk_data (mb_pkt m) = data /\
  Z.land (pk_flags (mb_pkt m)) PKT_FLAG_RECALC_CKSUM_MASK = 0.

Section Run.
Context (env : driver) (in_port : Z) (data : bytes).

Lemma untouched_copy m : untouched in_port data m -> untouched in_port data (copy_packet m).
Proof.
  intros (H1 & H2 & H3 & H4). split_and!; [done|done|done|]. cbn. by rewrite Z.land_lor_distr_l, H4.
Qed.

Lemma pad_frame_spec m : untouched in_port data m ->
  exists m', pad_frame m = Done (tt, m') /\ untouched in_port (padded data) m' /\ frame m' = padded data.
Proof.
  intros (H1 & H2 & H3 & H4). unfold pad_frame, pktlen, gets, upd_pkt, modify, mbind, M_bind, frame, padded. rewrite H3.
  destruct (Z.ltb_spec (Z.of_nat (length data)) 60) as [Hlt|Hge].
  - eexists. split; [reflexivity|].
    assert (Z.to_nat (60 - Z.of_nat (length data)) = (60 - length data)%nat) as E by lia. cbn. rewrite H3, E.
    split; [|done]. by split_and!.
  - exists m. assert (60 - length data = 0)%nat as -> by lia. cbn. rewrite app_nil_r. by split_and!.
Qed.

Lemma rawsock_spec fd w m n uc :
  fd <> 0 -> untouched in_port data m ->
  exists m', rawsock_send_packet_physical env (Interface ETHERNET_RAWSOCK fd) (Pipe w m (S n) uc) =
    Done (LAGOPUS_RESULT_OK, Pipe (add_events [ev_write fd (padded data)] w) m' n uc).
Proof.
  intros Hfd Hm. destruct (pad_frame_spec m Hm) as (m' & E & (H1 & H2 & H3 & H4) & Ef). exists m'.
  unfold rawsock_send_packet_physical, recalc_checksums, lagopus_packet_free, emit, upd_world, lift, gets, modify, get_pkt, mbind, M_bind.
  cbn [if_fd pi_mbuf set_pi_mbuf pi_world]. destruct (Z.eqb_spec fd 0); [done|].
  cbn [pi_mbuf set_pi_mbuf pi_world]. rewrite E. cbn. unfold gets. rewrite H4. cbn. by rewrite Ef.
Qed.

Lemma tx_spec table c dest fd w m n uc :
  writes_to (wo_ports w) in_port dest fd -> untouched in_port data m ->
  exists m', dp_interface_tx_packet env table dest c (Pipe w m (S n) uc) =
    Done (tt, Pipe (add_events [ev_write fd (padded data)] w) m' n uc).
Proof.
  intros (Hne & Hr & Hfd & q & Hq & Hf & Hi) Hm. destruct (rawsock_spec fd w m n uc Hfd Hm) as [m' E]. exists m'.
  destruct Hm as (H1 & H2 & _). unfold dp_interface_tx_packet, in_port_no, pkt_get, get_pkt, lift, gets, assert, mbind, M_bind.
  cbn [pi_mbuf]. rewrite H1. cbn. rewrite H2.
  unfold OFPP_IN_PORT, OFPP_TABLE, OFPP_NORMAL, OFPP_FLOOD, OFPP_ALL, OFPP_CONTROLLER, OFPP_LOCAL in *.
  repeat match goal with |- context [dest =? ?k] => destruct (Z.eqb_spec dest k); [lia|] end. cbn.
  unfold send_to_port, get_world, gets, mbind, M_bind. cbn. rewrite Hq. rewrite Hf, Hi. cbn. unfold set_pi_mbuf. cbn. by rewrite E.
Qed.

Lemma exec_output table group a :
  act_exec a = Some OFPAT_OUTPUT -> exec_action env table group a = execute_action_output env table a.
Proof. unfold exec_action. by intros ->. Qed.

Lemma lost_nothing w : set_wo_lost (wo_lost w + 1 `min` 0) w = w.
Proof. destruct w. unfold set_wo_lost. cbn. by rewrite Nat.add_0_r. Qed.
Lemma add_events_twice l l' w : add_events l' (add_events l w) = add_events (l ++ l') w.
Proof. unfold add_events, set_wo_events. cbn. by rewrite app_assoc. Qed.

(** The list of outputs sends the packet once for each. *)
Lemma outputs_spec table group l dests : outputs l dests ->
  forall w m n, Forall (fun d => writes_to (wo_ports w) in_port d.1 d.2) dests -> untouched in_port data m ->
  exists m', execute_action (exec_action env table group) stays l (Pipe w m (S n) false) =
    Done (LAGOPUS_RESULT_NO_MORE_ACTION, Pipe (add_events (write_frames data dests) w) m' n false).
Proof.
  induction 1 as [a d fd He Hp Hf|a d fd l dests He Hp Hf Hl IH]; intros w m n Hw Hm.
  - destruct (tx_spec table (act_cookie a) d fd w m n false ltac:(by inversion Hw) Hm) as [m' E]. exists m'.
    cbn [execute_action]. rewrite (exec_output _ _ _ He). unfold execute_action_output. rewrite Hp.
    destruct (Z.eqb_spec (act_flags a) OUTPUT_COPIED_PACKET); [done|].
    unfold cache_matched_flows, pkt_get, get_pkt, lift, gets, mbind, M_bind. cbn [pi_use_cache set_pi_mbuf].
    rewrite andb_false_r. cbn. unfold set_pi_mbuf. cbn. by rewrite E.
  - inversion Hw as [|? ? Hd Hds]; subst. cbn [fst snd] in Hd.
    set (m1 := if output_port_of a =? OFPP_CONTROLLER then copy_packet_with_metadata m else copy_packet m).
    assert (m1 = copy_packet m) as Em.
    { unfold m1. destruct Hd as (_ & Hr & _). unfold OFPP_CONTROLLER, OFPP_IN_PORT in *.
      destruct (Z.eqb_spec (output_port_of a) 4294967293); [lia|done]. }
    destruct (tx_spec table (act_cookie a) _ fd w (copy_packet m) 0 false Hd (untouched_copy m Hm)) as [m' E].
    destruct (IH (add_events [ev_write fd (padded data)] w) m n Hds Hm) as [m2 E2]. exists m2.
    cbn [execute_action]. rewrite (exec_output _ _ _ He). unfold execute_action_output.
    destruct (Z.eqb_spec (act_flags a) OUTPUT_COPIED_PACKET); [|done].
    unfold on_packet, gets, mbind, M_bind. cbn [pi_mbuf pi_world]. fold m1. rewrite Em, E.
    cbn [pi_world pi_refs]. rewrite lost_nothing. cbn. unfold set_pi_world. cbn. rewrite E2. by rewrite add_events_twice.
Qed.

(** *** The tables *)

(** The flow found is all instructions but APPLY_ACTIONS without. *)
Definition applies (f : flow) (l : list action) : Prop :=
  exists i, ins_action_list i = l /\
    map (flow_instruction f) (seq 0 INSTRUCTION_INDEX_MAX) = [None; Some i; None; None; None; None].

Lemma instruction_spec table group f l dests :
  applies f l -> outputs l dests ->
  forall w m n, Forall (fun d => writes_to (wo_ports w) in_port d.1 d.2) dests -> untouched in_port data m ->
  exists m', execute_instruction env (exec_action env table group) f (Pipe w m (S n) false) =
    Done (LAGOPUS_RESULT_NO_MORE_ACTION, Pipe (add_events (write_frames data dests) w) m' n false).
Proof.
  intros (i & Hi & Hf) Hl w m n Hw Hm. destruct (outputs_spec table group l dests Hl w m n Hw Hm) as [m' E]. exists m'.
  unfold execute_instruction. rewrite Hf. cbn -[execute_action]. unfold execute_instruction_apply_actions. rewrite Hi.
  unfold mbind, M_bind. cbn -[execute_action]. by rewrite E.
Qed.

(** The world after a lookup in the table [tid] with the flows' counters in [h]. *)
Definition looked_up (tid : Z) (h : flow_heap) (w : world) : world :=
  let br := wo_bridge w in set_wo_bridge (set_br_flows h (set_br_tables (alter count_lookup tid (br_tables br)) br)) w.

Lemma match_spec w m n t :
  pk_nmatched (mb_pkt m) = 0%nat -> br_tables (wo_bridge w) !! pk_table_id (mb_pkt m) = Some t ->
  let found := lagopus_find_flow (br_flows (wo_bridge w)) (mb_pkt m) (tb_userdata t) in
  let w' := looked_up (pk_table_id (mb_pkt m)) found.2 w in
  match found.1 with
  | Some r => exists m', dp_openflow_match (Pipe w m n false) = Done (LAGOPUS_RESULT_OK, Pipe w' m' n false) /\
      pk_flow (mb_pkt m') = Some r /\ forall p d, untouched p d m -> untouched p d m'
  | None => dp_openflow_match (Pipe w m n false) = Done (LAGOPUS_RESULT_STOP, Pipe w' m n false)
  end.
Proof.
  intros Hn Ht. cbv zeta. unfold dp_openflow_match, pkt_get, get_pkt, get_bridge, get_world, upd_table, upd_bridge, upd_world, lift,
    gets, modify, mbind, M_bind. cbn. rewrite Ht. cbn.
  destruct (lagopus_find_flow _ _ _) as [r h]. cbn. unfold gets. cbn. rewrite Hn. destruct r as [r|]; cbn; [|by destruct m].
  eexists. split; [reflexivity|]. split; [done|]. intros p d (H1 & H2 & H3 & H4). by split_and!.
Qed.

Section Body.
Context (fuel : nat) (w : world) (m0 m : mbuf) (t : table).
Hypothesis hashed : packet_hash env (Pipe w m0 1 false) = Done (tt, Pipe w m 1 false).
Hypothesis new_packet : pk_nmatched (mb_pkt m) = 0%nat.
Hypothesis has_table : br_tables (wo_bridge w) !! pk_table_id (mb_pkt m) = Some t.

Let found := lagopus_find_flow (br_flows (wo_bridge w)) (mb_pkt m) (tb_userdata t).
Let w' := looked_up (pk_table_id (mb_pkt m)) found.2 w.

Lemma cached_spec exec : dp_openflow_do_cached_action env exec (Pipe w m0 1 false) = Done (LAGOPUS_RESULT_NOT_FOUND, Pipe w m 1 false).
Proof.
  unfold dp_openflow_do_cached_action, lookup_cache, pkt_get, get_pkt, lift, gets, mbind, M_bind. by rewrite hashed.
Qed.

Lemma loop_miss exec : found.1 = None ->
  match_and_action_body env exec (Pipe w m0 1 false) = Done (LAGOPUS_RESULT_STOP, Pipe w' m 0 false).
Proof.
  intros Hf. pose proof (match_spec w m 1 t new_packet has_table) as Hm. cbv zeta in Hm. fold found in Hm. rewrite Hf in Hm.
  unfold match_and_action_body, mbind, M_bind. rewrite cached_spec. rewrite bool_decide_true by done. cbn [match_loop].
  unfold mbind, M_bind. rewrite Hm. reflexivity.
Qed.

Lemma loop_hit table group r f l dests :
  found.1 = Some r -> found.2 !! r = Some f -> applies f l -> outputs l dests ->
  Forall (fun d => writes_to (wo_ports w) in_port d.1 d.2) dests -> untouched in_port data m ->
  exists m', match_and_action_body env (exec_action env table group) (Pipe w m0 1 false) =
    Done (LAGOPUS_RESULT_NO_MORE_ACTION, Pipe (add_events (write_frames data dests) w') m' 0 false).
Proof.
  intros Hf Hr Ha Ho Hw Hu. pose proof (match_spec w m 1 t new_packet has_table) as Hm. cbv zeta in Hm. fold found in Hm.
  rewrite Hf in Hm. destruct Hm as (m1 & Em & Ef & Hu1). specialize (Hu1 _ _ Hu).
  destruct (instruction_spec table group f l dests Ha Ho w' m1 0 Hw Hu1) as [m2 Ei]. exists m2.
  unfold match_and_action_body, mbind, M_bind. rewrite cached_spec. rewrite bool_decide_true by done. cbn [match_loop].
  unfold mbind, M_bind. rewrite Em. cbn [is_ok]. fold w'.
  assert (dp_openflow_do_action env (exec_action env table group) (Pipe w' m1 1 false) =
    execute_instruction env (exec_action env table group) f (Pipe w' m1 1 false)) as ->.
  { unfold dp_openflow_do_action, pkt_get, get_pkt, get_bridge, get_world, lift, gets, mbind, M_bind. cbn. rewrite Ef. cbn. by rewrite Hr. }
  rewrite Ei. reflexivity.
Qed.

End Body.

Lemma match_and_action_unfold fuel : exists table group, lagopus_match_and_action env fuel = match_and_action_body env (exec_action env table group).
Proof.
  destruct fuel as [|n].
  - by exists out_of_fuel, (run_group env 0 out_of_fuel).
  - by exists (lagopus_match_and_action env n), (run_group env (S n) (lagopus_match_and_action env n)).
Qed.

End Run.

(** ** Properties *)

(** The packet when it reaches the tables: classified, with its hash. *)
Definition arrived (data : bytes) (in_port hash64 : Z) : mbuf :=
  set_mb_pkt (set_pk_hash64 hash64 (mb_pkt (new_mbuf data in_port))) (new_mbuf data in_port).

Lemma arrived_packet data in_port h :
  pk_nmatched (mb_pkt (arrived data in_port h)) = 0%nat /\ pk_table_id (mb_pkt (arrived data in_port h)) = 0 /\
  untouched in_port data (arrived data in_port h).
Proof.
  pose proof (kept_init (packet_of data) in_port) as H. unfold arrived, new_mbuf, untouched. cbn [mb_pkt set_mb_pkt mb_has_port].
  revert H. generalize (lagopus_packet_init (packet_of data) in_port). intros p H. unfold kept, meta in H. cbn in H.
  injection H as H1 _ H2 _ _ H3 H4 H5. cbn. rewrite H5. by split_and!.
Qed.

Definition hash_of (env : driver) (data : bytes) (in_port hash64 : Z) (w : world) : Prop :=
  packet_hash env (Pipe w (new_mbuf data in_port) 1 false) = Done (tt, Pipe w (arrived data in_port hash64) 1 false).

Lemma receive_done env fuel in_port data w rv w' m :
  lagopus_match_and_action env fuel (Pipe w (new_mbuf data in_port) 1 false) = Done (rv, Pipe w' m 0 false) ->
  receive env fuel false false in_port data w = Done w'.
Proof.
  unfold receive. generalize (Pipe w (new_mbuf data in_port) 1 false). intros s E. unfold mbind, M_bind. rewrite E.
  cbn [pi_world pi_refs mret M_ret]. f_equal. apply lost_nothing.
Qed.

(** C11: forwarding.  A frame received on a port, without a flow cache, for which the lookup in
    table 0 finds a flow that applies a list of outputs to other ports with raw sockets,
    is written to the sockets of exactly these ports, in the order of the list, each time
    byte for byte as it was received (padded to 60 bytes), whatever the depth of recursion
    allowed; apart from that only the flow's and the table's counters change. *)
Theorem outputs_forwarded (env : driver) (fuel : nat) (in_port hash64 : Z) (data : bytes) (w : world) (t : table)
    (r : ref) (f : flow) (l : list action) (dests : list (Z * Z)) :
  let found := lagopus_find_flow (br_flows (wo_bridge w)) (mb_pkt (arrived data in_port hash64)) (tb_userdata t) in
  forall (Hhash : hash_of env data in_port hash64 w) (Ht : br_tables (wo_bridge w) !! 0 = Some t)
    (Hfound : found.1 = Some r) (Hflow : found.2 !! r = Some f) (Hl : applies f l) (Ho : outputs l dests)
    (Hports : Forall (fun d => writes_to (wo_ports w) in_port d.1 d.2) dests),
  receive env fuel false false in_port data w = Done (add_events (write_frames data dests) (looked_up 0 found.2 w)).
Proof.
  cbv zeta. intros. destruct (arrived_packet data in_port hash64) as (Hn & Hid & Hu).
  destruct (match_and_action_unfold env fuel) as (table & group & E).
  destruct (loop_hit env in_port data w _ _ t Hhash Hn ltac:(by rewrite Hid) table group r f l dests Hfound Hflow Hl Ho Hports Hu) as [m' Em].
  rewrite Hid in Em. eapply receive_done. rewrite E. exact Em.
Qed.

Definition two_outputs : world := switch sample_ports (with_flow 1 [apply_outputs [2; 3]] switch_bridge).
Definition two_found : option ref * flow_heap :=
  lagopus_find_flow (br_flows (wo_bridge two_outputs)) (mb_pkt (arrived (frame udp_mbuf) 1 6))
    (tb_userdata (default (table_alloc 0) (br_tables (wo_bridge two_outputs) !! 0))).
Definition two_flow : flow := two_found.2 !!! 0%nat.
Definition two_actions : list action := concat (map ins_action_list (fl_instruction_list two_flow)).

Lemma sample_writes n : n = 2 \/ n = 3 -> writes_to sample_ports 1 n (n + 10).
Proof.
  unfold writes_to, OFPP_IN_PORT. intros [->| ->]; (split_and!; [lia|lia|lia|lia|]); eexists; by split_and!.
Qed.

Lemma outputs_forwarded_witness :
  receive sample_driver 0 false false 1 (frame udp_mbuf) two_outputs =
  Done (add_events (write_frames (frame udp_mbuf) [(2, 12); (3, 13)]) (looked_up 0 two_found.2 two_outputs)).
Proof.
  apply (outputs_forwarded sample_driver 0 1 6 (frame udp_mbuf) two_outputs
    (default (table_alloc 0) (br_tables (wo_bridge two_outputs) !! 0)) 0%nat two_flow two_actions [(2, 12); (3, 13)]).
  - vm_compute. reflexivity.
  - vm_compute. reflexivity.
  - vm_compute. reflexivity.
  - vm_compute. reflexivity.
  - eexists. split; [|vm_compute; reflexivity]. vm_compute. reflexivity.
  - vm_compute. constructor; [reflexivity|reflexivity|reflexivity|]. constructor; [reflexivity|reflexivity|discriminate].
  - constructor; [apply (sample_writes 2); by left|constructor; [apply (sample_writes 3); by right|constructor]].
Defined.

(** A table miss.  A frame that no flow of table 0 matches is dropped: nothing is sent, neither
    to a port nor to the controller, and nothing but counters of table 0 and its flows changes. *)
Theorem miss_dropped (env : driver) (fuel : nat) (in_port hash64 : Z) (data : bytes) (w : world) (t : table) :
  let found := lagopus_find_flow (br_flows (wo_bridge w)) (mb_pkt (arrived data in_port hash64)) (tb_userdata t) in
  forall (Hhash : hash_of env data in_port hash64 w) (Ht : br_tables (wo_bridge w) !! 0 = Some t) (Hfound : found.1 = None),
  receive env fuel false false in_port data w = Done (looked_up 0 found.2 w).
Proof.
  cbv zeta. intros. destruct (arrived_packet data in_port hash64) as (Hn & Hid & _).
  destruct (match_and_action_unfold env fuel) as (table & group & E).
  pose proof (loop_miss env w _ _ t Hhash Hn ltac:(by rewrite Hid) (exec_action env table group) Hfound) as Em.
  rewrite Hid in Em. eapply receive_done. rewrite E. exact Em.
Qed.

Definition no_flow : world := switch sample_ports (flowdb_get_table 0 switch_bridge).2.
Definition no_flow_table : table := default (table_alloc 0) (br_tables (wo_bridge no_flow) !! 0).

Lemma miss_dropped_witness :
  receive sample_driver 0 false false 1 (frame udp_mbuf) no_flow =
  Done (looked_up 0 (lagopus_find_flow (br_flows (wo_bridge no_flow)) (mb_pkt (arrived (frame udp_mbuf) 1 6)) (tb_userdata no_flow_table)).2 no_flow).
Proof.
  apply (miss_dropped sample_driver 0 1 6 (frame udp_mbuf) no_flow no_flow_table); vm_compute; reflexivity.
Defined.

(** ** Corners *)

(** PACKET_OUT with the outputs 2 and 3. *)
Definition packet_out_ports : outcome world :=
  packet_out sample_driver 2 1 (map (fun p => new_action (ofp_action_output p 0)) [2; 3]) (frame udp_mbuf) (switch sample_ports switch_bridge).

(** Actions of a PACKET_OUT are not examined: the first output takes the packet, the others are not
    executed. *)
Theorem packet_out_first_only : exists w', packet_out_ports = Done w' /\ map fst (sent w') = [12].
Proof. eexists. split; vm_compute; reflexivity. Qed.

Definition group_to_3 : bridge := with_group 1 OFPGT_INDIRECT [new_bucket OFPP_ANY OFPG_ANY [ofp_action_output 3 0]] switch_bridge.

(** The examination of a flow marks an output to be sent as a copy when another output follows,
    and not when a GROUP action does: port 3 of the group gets nothing. *)
Theorem output_before_group_last :
  exists w', run_switch sample_ports (with_flow 1 [new_instruction OFPIT_APPLY_ACTIONS
      [new_action (ofp_action_output 2 0); new_action (ofp_action_group 1)]] group_to_3) = Done w' /\ map fst (sent w') = [12].
Proof. eexists. split; vm_compute; reflexivity. Qed.

(** A group in the action set of the packet runs a bucket without an output: clearing the
    bucket's set clears that of the packet, while its list is being executed. *)
Theorem group_frees_action_set :
  run_switch sample_ports (with_flow 1 [new_instruction OFPIT_WRITE_ACTIONS [new_action (ofp_action_group 1)]]
    (with_group 1 OFPGT_INDIRECT [new_bucket OFPP_ANY OFPG_ANY []] switch_bridge)) = Undefined.
Proof. vm_compute. reflexivity. Qed.

(** Output to OFPP_TABLE: without a flow cache the packet stops after 254 matches; with
    one it hits the entry it has made itself and still recurses at that depth. *)
Definition table_output (use_cache : bool) : outcome world :=
  receive sample_driver 256 use_cache false 1 (frame udp_mbuf)
    (switch sample_ports (with_flow 1 [apply_outputs [OFPP_TABLE]] switch_bridge)).
Example table_output_cached : table_output true = OutOfFuel /\ exists w', table_output false = Done w' /\ sent w' = [].
Proof. split; [vm_compute; reflexivity|]. eexists. split; vm_compute; reflexivity. Qed.
