(* ===== verification/Pbuf.v ===== *)
(** * Message buffers of the agent ([src/lib/pbuf.c], [src/include/lagopus/pbuf.h])

    A [pbuf] is a block of [size] bytes with a position to put bytes at, a position to get them
    from, and [plen], the bytes that may still be put or got.  Pointers into the block are
    offsets from [data]; an access outside the block is [Undefined].  Pointer arguments are not
    NULL, and memory allocation succeeds. *)
From S2P Require Import Prelude Monad.

(** ** The buffer *)

(** [struct pbuf] *)
Record pbuf := Pbuf {
  pb_refs : Z;
  pb_putp : Z;
  pb_getp : Z;
  pb_plen : Z;
  pb_size : Z;
  pb_data : bytes
}.

Definition set_pb_refs (v : Z) (b : pbuf) : pbuf :=
  Pbuf v (pb_putp b) (pb_getp b) (pb_plen b) (pb_size b) (pb_data b).
Definition set_pb_putp (v : Z) (b : pbuf) : pbuf :=
  Pbuf (pb_refs b) v (pb_getp b) (pb_plen b) (pb_size b) (pb_data b).
Definition set_pb_getp (v : Z) (b : pbuf) : pbuf :=
  Pbuf (pb_refs b) (pb_putp b) v (pb_plen b) (pb_size b) (pb_data b).
Definition set_pb_plen (v : Z) (b : pbuf) : pbuf :=
  Pbuf (pb_refs b) (pb_putp b) (pb_getp b) v (pb_size b) (pb_data b).
Definition set_pb_data (v : bytes) (b : pbuf) : pbuf :=
  Pbuf (pb_refs b) (pb_putp b) (pb_getp b) (pb_plen b) (pb_size b) v.

Definition PBUF_MIN_SIZE : Z := 1024.
Definition PBUF_TRY_COUNT : Z := 5.
Definition OFP_PACKET_MAX_SIZE : Z := 64 * 1024 - 1.

Abbreviation pm := (M pbuf).

(** *** Memory accesses: [n] bytes at the position [p] of the block *)
Definition in_block (p : Z) (n : nat) (b : pbuf) : bool :=
  (0 <=? p) && (p + Z.of_nat n <=? Z.of_nat (length (pb_data b))).

Definition peek (p : Z) (n : nat) : pm bytes := fun b =>
  if in_block p n b then Done (take n (drop (Z.to_nat p) (pb_data b)), b) else Undefined.

Definition poke (p : Z) (v : bytes) : pm unit := fun b =>
  if in_block p (length v) b then Done (tt, set_pb_data (memcpy_at (Z.to_nat p) v (pb_data b)) b)
  else Undefined.

(** ** Allocation and reference counts *)
Definition pbuf_reset (b : pbuf) : pbuf := set_pb_plen 0 (set_pb_putp 0 (set_pb_getp 0 b)).

Definition pbuf_alloc (size : Z) : pbuf :=
  let size := if size <? PBUF_MIN_SIZE then PBUF_MIN_SIZE else size in
  pbuf_reset (Pbuf 1 0 0 0 size (replicate (Z.to_nat size) 0)).

Definition pbuf_get (b : pbuf) : pbuf := set_pb_refs (u32 (pb_refs b + 1)) b.

Definition pbuf_put : pm unit :=
  refs ← gets pb_refs;
  assert (negb (refs =? 0)) ;;
  modify (set_pb_refs (refs - 1)).

(** [pbuf_free] of a buffer: what is left of it, [None] when the block is given back. *)
Definition pbuf_free (b : pbuf) : outcome (option pbuf) :=
  if pb_refs b =? 0 then Undefined
  else
    let b := set_pb_refs (pb_refs b - 1) b in
    Done (if pb_refs b =? 0 then None else Some b).

(** ** Sizes and positions *)
Definition pbuf_readable_size (b : pbuf) : Z := u64 (pb_putp b - pb_getp b).
Definition pbuf_writable_size (b : pbuf) : Z := u64 (pb_size b - pb_putp b).

Definition pbuf_plen_reset (b : pbuf) : pbuf := set_pb_plen 0 b.

Definition pbuf_plen_check (len : Z) (b : pbuf) : lagopus_result :=
  if pb_plen b <? len then LAGOPUS_RESULT_OUT_OF_RANGE else LAGOPUS_RESULT_OK.

Definition pbuf_plen_equal_check (len : Z) (b : pbuf) : lagopus_result :=
  if negb (pb_plen b =? len) then LAGOPUS_RESULT_OUT_OF_RANGE else LAGOPUS_RESULT_OK.

Definition pbuf_getp_get (b : pbuf) : Z := pb_getp b.
Definition pbuf_getp_set (p : Z) (b : pbuf) : pbuf := set_pb_getp p b.
Definition pbuf_putp_get (b : pbuf) : Z := pb_putp b.
Definition pbuf_putp_set (p : Z) (b : pbuf) : pbuf := set_pb_putp p b.
Definition pbuf_plen_get (b : pbuf) : Z := pb_plen b.
Definition pbuf_plen_set (len : Z) (b : pbuf) : pbuf := set_pb_plen len b.
Definition pbuf_size_get (b : pbuf) : Z := pb_size b.

(** The length that fits 16 bits, or none. *)
Definition pbuf_length_get (b : pbuf) : lagopus_result * option Z :=
  if pb_getp b <=? pb_putp b then
    let length := u16 (pb_putp b - pb_getp b) in
    if pb_getp b + length =? pb_putp b then (LAGOPUS_RESULT_OK, Some length)
    else (LAGOPUS_RESULT_OUT_OF_RANGE, None)
  else (LAGOPUS_RESULT_OUT_OF_RANGE, None).

(** [pbuf_info_t]: putp, getp and plen. *)
Definition pbuf_info_store (b : pbuf) : Z * Z * Z := (pb_putp b, pb_getp b, pb_plen b).
Definition pbuf_info_load (b : pbuf) (info : Z * Z * Z) : pbuf :=
  let '(putp, getp, plen) := info in set_pb_plen plen (set_pb_getp getp (set_pb_putp putp b)).

(** ** Moving bytes *)

(** [sock_read] stands for the system call: the bytes it delivers for a size, [None] for an error. *)
Definition pbuf_read_size (sock_read : Z -> option bytes) (read_size : Z) : pm Z :=
  putp ← gets pb_putp;
  match sock_read read_size with
  | None => mret (-1)
  | Some chunk =>
      poke putp chunk ;;
      modify (set_pb_putp (putp + Z.of_nat (length chunk))) ;;
      mret (Z.of_nat (length chunk))
  end.

Definition pbuf_read (sock_read : Z -> option bytes) : pm Z :=
  size ← gets pb_size;
  putp ← gets pb_putp;
  pbuf_read_size sock_read (u64 (size - putp)).

Definition pbuf_trim_readed : pm unit :=
  getp ← gets pb_getp;
  putp ← gets pb_putp;
  let head_gap := u64 getp in
  let tail_gap := u64 (putp - getp) in
  (if negb (tail_gap =? 0) then
     unread ← peek getp (Z.to_nat tail_gap);
     poke 0 unread
   else mret tt) ;;
  modify (fun b => set_pb_putp (putp - head_gap) (set_pb_getp (getp - head_gap) b)).

Definition pbuf_forward (size : Z) : pm lagopus_result := fun b =>
  match pbuf_plen_check size b with
  | LAGOPUS_RESULT_OK =>
      Done (LAGOPUS_RESULT_OK, set_pb_plen (u64 (pb_plen b - size)) (set_pb_getp (pb_getp b + size) b))
  | ret => Done (ret, b)
  end.

(** [copy]: from [src->getp + off] behind [dst->putp]; the state is [dst]. *)
Definition copy (src : pbuf) (length off : Z) : pm Z :=
  let tail_gap := u64 (length - off) in
  putp ← gets pb_putp;
  (if negb (tail_gap =? 0) then
     match peek (pb_getp src + off) (Z.to_nat tail_gap) src with
     | Done (chunk, _) => poke putp chunk
     | _ => undefined
     end
   else mret tt) ;;
  modify (set_pb_putp (putp + tail_gap)) ;;
  size ← gets pb_size;
  assert (putp + tail_gap <=? size) ;;
  mret tail_gap.

Definition pbuf_copy_internal (src : pbuf) (length off : Z) : pm Z :=
  tail_gap ← copy src length off;
  modify (fun dst => set_pb_plen (u64 (pb_plen dst + tail_gap)) dst) ;;
  mret tail_gap.

Definition pbuf_append_internal (src : pbuf) (length : Z) : pm Z :=
  tail_gap ← copy src length 0;
  modify (fun dst => set_pb_plen (u64 (pb_plen dst - tail_gap)) dst) ;;
  mret tail_gap.

(** The source afterwards is the result. *)
Definition pbuf_copy_unread_data (src : pbuf) (off : Z) : pm pbuf :=
  tail_gap ← pbuf_copy_internal src (u64 (pb_putp src - pb_getp src)) off;
  mret (set_pb_putp (pb_putp src - tail_gap) src).

Definition pbuf_copy (src : pbuf) : pm lagopus_result :=
  let length := u64 (pb_putp src - pb_getp src) in
  size ← gets pb_size;
  if (pb_getp src <=? pb_putp src) && (pb_getp src + length =? pb_putp src) && (length <=? size) then
    _ ← pbuf_copy_internal src length 0; mret LAGOPUS_RESULT_OK
  else mret LAGOPUS_RESULT_OUT_OF_RANGE.

Definition pbuf_copy_with_length (src : pbuf) (length : Z) : pm lagopus_result :=
  let pbuf_length := u64 (pb_putp src - pb_getp src) in
  let length := if pbuf_length <? length then pbuf_length else length in
  size ← gets pb_size;
  if (pb_getp src <=? pb_putp src) && (pb_getp src + pbuf_length =? pb_putp src) && (length <=? size) then
    _ ← pbuf_copy_internal src length 0; mret LAGOPUS_RESULT_OK
  else mret LAGOPUS_RESULT_OUT_OF_RANGE.

Definition pbuf_append (src : pbuf) : pm lagopus_result :=
  let length := u64 (pb_putp src - pb_getp src) in
  plen ← gets pb_plen;
  if (pb_getp src <=? pb_putp src) && (pb_getp src + length =? pb_putp src) && (length <=? plen) then
    _ ← pbuf_append_internal src length; mret LAGOPUS_RESULT_OK
  else mret LAGOPUS_RESULT_OUT_OF_RANGE.

(** ** The macros of pbuf.h *)

(** [ENCODE_PUT] of [length v] bytes; [DECODE_GET] of [n] bytes. *)
Definition ENCODE_PUT (v : bytes) : pm unit :=
  putp ← gets pb_putp;
  poke putp v ;;
  let len := Z.of_nat (length v) in
  modify (fun b => set_pb_plen (u64 (pb_plen b - len)) (set_pb_putp (putp + len) b)).

Definition DECODE_GET (n : nat) : pm bytes :=
  getp ← gets pb_getp;
  v ← peek getp n;
  let len := Z.of_nat n in
  modify (fun b => set_pb_plen (u64 (pb_plen b - len)) (set_pb_getp (getp + len) b)) ;;
  mret v.

Definition byte_at (v s : Z) : Z := u8 (Z.land (Z.shiftr v s) 0xFF).

Definition ENCODE_PUTC (v : Z) : pm unit := ENCODE_PUT [u8 (Z.land v 0xFF)].
Definition ENCODE_PUTW (v : Z) : pm unit := ENCODE_PUT [byte_at v 8; u8 (Z.land v 0xFF)].
Definition ENCODE_PUTL (v : Z) : pm unit :=
  ENCODE_PUT [byte_at v 24; byte_at v 16; byte_at v 8; u8 (Z.land v 0xFF)].
Definition ENCODE_PUTLL (v : Z) : pm unit :=
  ENCODE_PUT [byte_at v 56; byte_at v 48; byte_at v 40; byte_at v 32;
              byte_at v 24; byte_at v 16; byte_at v 8; u8 (Z.land v 0xFF)].

Definition DECODE_GETC : pm Z := v ← DECODE_GET 1; mret (rd8 v 0).
Definition DECODE_GETW : pm Z :=
  v ← DECODE_GET 2; mret (u16 (Z.shiftl (rd8 v 0) 8 + rd8 v 1)).
Definition DECODE_GETL : pm Z :=
  v ← DECODE_GET 4;
  mret (u32 (Z.shiftl (rd8 v 0) 24 + Z.shiftl (rd8 v 1) 16 + Z.shiftl (rd8 v 2) 8 + rd8 v 3)).
Definition DECODE_GETLL : pm Z :=
  v ← DECODE_GET 8;
  mret (u64 (Z.shiftl (rd8 v 0) 56 + Z.shiftl (rd8 v 1) 48 + Z.shiftl (rd8 v 2) 40 +
             Z.shiftl (rd8 v 3) 32 + Z.shiftl (rd8 v 4) 24 + Z.shiftl (rd8 v 5) 16 +
             Z.shiftl (rd8 v 6) 8 + rd8 v 7)).
Definition DECODE_REWIND (len : Z) : pm unit :=
  modify (fun b => set_pb_plen (u64 (pb_plen b + len)) (set_pb_getp (pb_getp b - len) b)).

Definition pbuf_encode (v : bytes) : pm lagopus_result := fun b =>
  match pbuf_plen_check (Z.of_nat (length v)) b with
  | LAGOPUS_RESULT_OK => (ENCODE_PUT v ;; mret LAGOPUS_RESULT_OK) b
  | ret => Done (ret, b)
  end.

(** ** Lists of buffers *)

(** [struct pbuf_list]: the buffers in use and those kept for later. *)
Record pbuf_list := PbufList {
  pl_contents_size : Z;
  pl_tailq : list pbuf;
  pl_unused : list pbuf
}.

Definition pbuf_list_alloc : pbuf_list := PbufList 0 [] [].

(** The position of the first unused buffer that is big enough, among the first ones. *)
Fixpoint pbuf_list_try (try_count size : Z) (unused : list pbuf) : option nat :=
  match unused with
  | [] => None
  | b :: unused' =>
      if PBUF_TRY_COUNT <? try_count then None
      else if size <=? pb_size b then Some 0%nat
      else S <$> pbuf_list_try (try_count + 1) size unused'
  end.

Definition pbuf_list_get (size : Z) (l : pbuf_list) : pbuf * pbuf_list :=
  match pbuf_list_try 0 size (pl_unused l) with
  | Some i =>
      match pl_unused l !! i with
      | Some b => (pbuf_reset b, PbufList (pl_contents_size l) (pl_tailq l) (remove_at i (pl_unused l)))
      | None => (pbuf_alloc size, l)
      end
  | None => (pbuf_alloc size, l)
  end.

Definition pbuf_list_unget (b : pbuf) (l : pbuf_list) : pbuf_list :=
  PbufList (pl_contents_size l) (pl_tailq l) (b :: pl_unused l).
Definition pbuf_list_first (l : pbuf_list) : option pbuf := head (pl_tailq l).
Definition pbuf_list_add (b : pbuf) (l : pbuf_list) : pbuf_list :=
  PbufList (pl_contents_size l) (pl_tailq l ++ [b]) (pl_unused l).
Definition pbuf_list_last_get (l : pbuf_list) : pbuf * pbuf_list :=
  match last (pl_tailq l) with
  | Some b => (b, l)
  | None => let b := pbuf_alloc OFP_PACKET_MAX_SIZE in (b, pbuf_list_add b l)
  end.
Definition pbuf_list_reset (l : pbuf_list) : pbuf_list :=
  PbufList 0 [] (pl_unused l ++ pl_tailq l).

(** [sock_write] stands for the system call: how many of the bytes it takes, [None] for an error.
    A buffer that is written out moves to the unused ones. *)
Definition pbuf_list_write (sock_write : bytes -> option Z) (l : pbuf_list) : outcome (Z * pbuf_list) :=
  match pl_tailq l with
  | [] => Done (0, l)
  | b :: tailq =>
      match peek (pb_getp b) (Z.to_nat (pbuf_readable_size b)) b with
      | Done (chunk, _) =>
          let nbytes := default (-1) (sock_write chunk) in
          let b := if 0 <? nbytes then set_pb_getp (pb_getp b + nbytes) b else b in
          Done (nbytes,
                if pb_getp b =? pb_putp b then PbufList (pl_contents_size l) tailq (b :: pl_unused l)
                else PbufList (pl_contents_size l) (b :: tailq) (pl_unused l))
      | _ => Undefined
      end
  end.

(** ** Big-endian words *)

Fixpoint be_bytes (w : nat) (v : Z) : bytes :=
  match w with
  | O => []
  | S w' => (v / 256 ^ Z.of_nat w') mod 256 :: be_bytes w' v
  end.

Fixpoint be_val (l : bytes) : Z :=
  match l with
  | [] => 0
  | b :: l' => b * 256 ^ Z.of_nat (length l') + be_val l'
  end.

Lemma length_be_bytes w v : length (be_bytes w v) = w.
Proof. induction w as [|w IH]; cbn; [done|by rewrite IH]. Qed.

Lemma be_bytes_range w v : bytes_ok (be_bytes w v).
Proof. induction w as [|w IH]; cbn; constructor; [apply Z.mod_pos_bound; lia|done]. Qed.

Lemma be_val_bytes w v : be_val (be_bytes w v) = v mod 256 ^ Z.of_nat w.
Proof.
  induction w as [|w IH]; [by rewrite Z.mod_1_r|].
  cbn [be_bytes be_val]. rewrite length_be_bytes, IH, Nat2Z.inj_succ, Z.pow_succ_r by lia.
  rewrite (Z.mul_comm 256 (256 ^ _)), Z.rem_mul_r by lia. lia.
Qed.

Lemma be_val_range l : bytes_ok l -> 0 <= be_val l < 256 ^ Z.of_nat (length l).
Proof.
  induction 1 as [|b l Hb _ IH]; [cbn; lia|].
  cbn [be_val length]. rewrite Nat2Z.inj_succ, Z.pow_succ_r by lia. nia.
Qed.

Lemma be_bytes_mod w v : be_bytes w (v mod 256 ^ Z.of_nat w) = be_bytes w v.
Proof.
  enough (forall k, (k <= w)%nat -> be_bytes k (v mod 256 ^ Z.of_nat w) = be_bytes k v) by auto.
  induction k as [|k IH]; intros Hk; [done|]. cbn [be_bytes]. rewrite IH by lia. f_equal.
  replace (Z.of_nat w) with (Z.of_nat k + Z.of_nat (w - k)) by lia.
  rewrite Z.pow_add_r, Z.rem_mul_r, Z.mul_comm, Z.div_add, Z.div_small, Z.add_0_l by
    (try apply Z.mod_pos_bound; lia).
  destruct (w - k)%nat as [|d] eqn:E; [lia|].
  rewrite Nat2Z.inj_succ, Z.pow_succ_r by lia.
  rewrite Z.rem_mul_r by lia. rewrite Z.mul_comm, Z.mod_add by lia. apply Z.mod_mod. lia.
Qed.

Lemma be_bytes_val l : bytes_ok l -> be_bytes (length l) (be_val l) = l.
Proof.
  induction 1 as [|b l Hb Hl IH]; [done|]. cbn [be_bytes be_val length].
  pose proof (be_val_range l Hl). f_equal.
  - rewrite Z.add_comm, Z.div_add, Z.div_small, Z.add_0_l by lia. by apply Z.mod_small.
  - rewrite <- be_bytes_mod, Z.add_comm, Z.mod_add, Z.mod_small by lia. done.
Qed.

Lemma byte_at_div v s : 0 <= s -> byte_at v s = (v / 2 ^ s) mod 256.
Proof.
  intros. unfold byte_at, u8. change 255 with (Z.ones 8).
  rewrite Z.land_ones, Z.shiftr_div_pow2, Z.mod_mod by lia. done.
Qed.

Lemma byte_0_div v : u8 (Z.land v 0xFF) = (v / 1) mod 256.
Proof. change 1 with (2 ^ 0). rewrite <- byte_at_div by lia. unfold byte_at. by rewrite Z.shiftr_0_r. Qed.

(** The macros put and get big-endian words. *)
Lemma ENCODE_PUTC_be v : ENCODE_PUTC v = ENCODE_PUT (be_bytes 1 v).
Proof. unfold ENCODE_PUTC. by rewrite byte_0_div. Qed.
Lemma ENCODE_PUTW_be v : ENCODE_PUTW v = ENCODE_PUT (be_bytes 2 v).
Proof. unfold ENCODE_PUTW. by rewrite byte_0_div, byte_at_div by lia. Qed.
Lemma ENCODE_PUTL_be v : ENCODE_PUTL v = ENCODE_PUT (be_bytes 4 v).
Proof. unfold ENCODE_PUTL. by rewrite byte_0_div, !byte_at_div by lia. Qed.
Lemma ENCODE_PUTLL_be v : ENCODE_PUTLL v = ENCODE_PUT (be_bytes 8 v).
Proof. unfold ENCODE_PUTLL. by rewrite byte_0_div, !byte_at_div by lia. Qed.

Ltac be_word :=
  match goal with
  | |- _ mod ?m = be_val ?l =>
      rewrite ?Z.shiftl_mul_pow2 by lia;
      rewrite <- (Z.mod_small (be_val l) m) by (by apply (be_val_range l)); f_equal;
      cbn [be_val length rd8 nth]; lia
  end.

Lemma word16_be b0 b1 :
  bytes_ok [b0; b1] -> u16 (Z.shiftl b0 8 + b1) = be_val [b0; b1].
Proof. intros. unfold u16. be_word. Qed.
Lemma word32_be b0 b1 b2 b3 :
  bytes_ok [b0; b1; b2; b3] ->
  u32 (Z.shiftl b0 24 + Z.shiftl b1 16 + Z.shiftl b2 8 + b3) = be_val [b0; b1; b2; b3].
Proof. intros. unfold u32. be_word. Qed.
Lemma word64_be b0 b1 b2 b3 b4 b5 b6 b7 :
  bytes_ok [b0; b1; b2; b3; b4; b5; b6; b7] ->
  u64 (Z.shiftl b0 56 + Z.shiftl b1 48 + Z.shiftl b2 40 + Z.shiftl b3 32 + Z.shiftl b4 24 +
       Z.shiftl b5 16 + Z.shiftl b6 8 + b7) = be_val [b0; b1; b2; b3; b4; b5; b6; b7].
Proof. intros. unfold u64. be_word. Qed.

(** ** Writing and reading streams *)

(** The bytes at the position to put at are free, [plen] counts them. *)
Definition writable (b : pbuf) : Prop :=
  0 <= pb_putp b /\ 0 <= pb_plen b < 2 ^ 64 /\ pb_putp b + pb_plen b <= Z.of_nat (length (pb_data b)).

(** [b] after [v] was put. *)
Definition put (v : bytes) (b : pbuf) : pbuf :=
  Pbuf (pb_refs b) (pb_putp b + Z.of_nat (length v)) (pb_getp b) (pb_plen b - Z.of_nat (length v))
    (pb_size b) (memcpy_at (Z.to_nat (pb_putp b)) v (pb_data b)).

Definition fits (n : nat) (b : pbuf) : Prop := writable b /\ Z.of_nat n <= pb_plen b.

(** The bytes still to be got. *)
Definition unread (b : pbuf) (l : bytes) : Prop :=
  0 <= pb_getp b /\ pb_plen b = Z.of_nat (length l) /\ pb_plen b < 2 ^ 64 /\
  pb_getp b + pb_plen b <= Z.of_nat (length (pb_data b)) /\
  take (length l) (drop (Z.to_nat (pb_getp b)) (pb_data b)) = l.

(** [b] after [n] bytes were got. *)
Definition adv (n : nat) (b : pbuf) : pbuf :=
  set_pb_plen (pb_plen b - Z.of_nat n) (set_pb_getp (pb_getp b + Z.of_nat n) b).

Lemma length_memcpy_at off v l : length (memcpy_at off v l) = length l.
Proof. apply length_inserts. Qed.

Lemma fits_weaken n m b : fits n b -> (m <= n)%nat -> fits m b.
Proof. unfold fits. intros [? ?] ?. split; [done|lia]. Qed.

Lemma put_fits v n b : fits (length v + n) b -> fits n (put v b).
Proof.
  unfold fits, writable, put. cbn. rewrite length_memcpy_at. intros [(? & ? & ?) ?]. lia.
Qed.

Lemma put_nil b : put [] b = b.
Proof. destruct b. unfold put. cbn. by rewrite Z.add_0_r, Z.sub_0_r. Qed.



Lemma memcpy_at_split off v l :
  (off + length v <= length l)%nat -> memcpy_at off v l = take off l ++ v ++ drop (off + length v) l.
Proof.
  intros H. unfold memcpy_at. rewrite <- (take_drop off l) at 1.
  replace off with (length (take off l) + 0)%nat at 1 by (rewrite length_take; lia).
  rewrite list_inserts_app_r. f_equal.
  rewrite <- (take_drop (length v) (drop off l)) at 1. rewrite drop_drop.
  apply list_inserts_0_r. rewrite length_take, length_drop. lia.
Qed.

Lemma put_app v w b : 0 <= pb_putp b -> put (v ++ w) b = put w (put v b).
Proof.
  intros H. unfold put, memcpy_at. cbn [pb_refs pb_putp pb_getp pb_plen pb_size pb_data].
  rewrite list_inserts_app_l, length_app. f_equal; [lia|lia|]. f_equal. lia.
Qed.

(** A store into bytes that were put. *)
Lemma poke_put k w v b :
  writable b -> (k + length w <= length v)%nat -> Z.of_nat (length v) <= pb_plen b ->
  poke (pb_putp b + Z.of_nat k) w (put v b) = Done (tt, put (memcpy_at k w v) b).
Proof.
  intros (H1 & H2 & H3) Hk Hv. unfold poke, in_block. cbn [put pb_data].
  rewrite length_memcpy_at. rewrite (proj2 (andb_true_iff _ _)) by (split; apply Z.leb_le; lia).
  do 2 f_equal. unfold put. cbn. rewrite length_memcpy_at. f_equal.
  set (i := Z.to_nat (pb_putp b)). replace (Z.to_nat (pb_putp b + Z.of_nat k)) with (i + k)%nat by lia.
  assert (i + length v <= length (pb_data b))%nat as Hi by lia.
  rewrite (memcpy_at_split i v), (memcpy_at_split i (memcpy_at k w v)), length_memcpy_at
    by (rewrite ?length_memcpy_at; lia).
  unfold memcpy_at. rewrite <- (length_take_le (pb_data b) i) at 1 by lia.
  rewrite list_inserts_app_r. f_equal.
  fold (memcpy_at k w (v ++ drop (i + length v) (pb_data b))). fold (memcpy_at k w v).
  rewrite !memcpy_at_split by (rewrite ?length_app; lia).
  rewrite take_app_le, drop_app_le, <- !app_assoc by lia. done.
Qed.

Lemma ENCODE_PUT_put v b : fits (length v) b -> ENCODE_PUT v b = Done (tt, put v b).
Proof.
  intros [(H1 & H2 & H3) Hv]. unfold ENCODE_PUT, gets.
  rewrite (bind_Done _ _ _ (pb_putp b) b) by done. unfold poke, in_block.
  erewrite bind_Done; cycle 1.
  { rewrite (proj2 (andb_true_iff _ _)) by (split; apply Z.leb_le; lia). done. }
  unfold modify, put. cbn. by rewrite u64_small by lia.
Qed.

Lemma unread_split b l1 l2 :
  unread b (l1 ++ l2) -> take (length l1) (drop (Z.to_nat (pb_getp b)) (pb_data b)) = l1.
Proof.
  intros (_ & _ & _ & _ & H). apply (f_equal (take (length l1))) in H.
  rewrite take_take, take_app_length, length_app in H. by rewrite Nat.min_l in H by lia.
Qed.

Lemma unread_adv b l1 l2 : unread b (l1 ++ l2) -> unread (adv (length l1) b) l2.
Proof.
  intros (H1 & H2 & H3 & H4 & H5). rewrite length_app in H2. unfold unread, adv. cbn.
  split_and!; [lia|lia|lia|lia|].
  apply (f_equal (drop (length l1))) in H5. rewrite length_app, drop_app_length in H5.
  rewrite <- take_drop_commute, drop_drop in H5.
  by replace (Z.to_nat (pb_getp b + Z.of_nat (length l1))) with (Z.to_nat (pb_getp b) + length l1)%nat by lia.
Qed.

Lemma DECODE_GET_adv b l1 l2 :
  unread b (l1 ++ l2) -> DECODE_GET (length l1) b = Done (l1, adv (length l1) b).
Proof.
  intros H. pose proof (unread_split _ _ _ H) as Hs. destruct H as (H1 & H2 & H3 & H4 & _).
  rewrite length_app in H2. unfold DECODE_GET, gets, peek, in_block, modify.
  rewrite (bind_Done _ _ _ (pb_getp b) b) by done.
  erewrite bind_Done; cycle 1.
  { rewrite (proj2 (andb_true_iff _ _)) by (split; apply Z.leb_le; lia). by rewrite Hs. }
  unfold mbind, M_bind, adv. cbn [pb_plen pb_getp]. by rewrite u64_small by lia.
Qed.

Lemma adv_add n m b : adv m (adv n b) = adv (n + m) b.
Proof. unfold adv, set_pb_plen, set_pb_getp. cbn. f_equal; lia. Qed.

Lemma adv_0 b : adv 0 b = b.
Proof. destruct b. unfold adv, set_pb_plen, set_pb_getp. cbn. f_equal; lia. Qed.

Lemma rewind_adv n l b : unread b l -> (n <= length l)%nat -> DECODE_REWIND (Z.of_nat n) (adv n b) = Done (tt, b).
Proof.
  intros (H1 & H2 & H3 & _) Hn. unfold DECODE_REWIND, modify, adv, set_pb_plen, set_pb_getp. cbn.
  destruct b. cbn in *. rewrite u64_small by lia. do 3 f_equal; lia.
Qed.

Lemma forward_adv b l1 l2 n :
  unread b (l1 ++ l2) -> n = Z.of_nat (length l1) ->
  pbuf_forward n b = Done (LAGOPUS_RESULT_OK, adv (length l1) b).
Proof.
  intros (H1 & H2 & H3 & _) ->. rewrite length_app in H2. unfold pbuf_forward, pbuf_plen_check.
  rewrite (proj2 (Z.ltb_ge _ _)) by lia. rewrite u64_small by lia. unfold adv. done.
Qed.

Lemma peek_unread b l k n :
  unread b l -> (k + n <= length l)%nat -> peek (pb_getp b + Z.of_nat k) n b = Done (take n (drop k l), b).
Proof.
  intros (H1 & H2 & H3 & H4 & H5) Hk. unfold peek, in_block.
  rewrite (proj2 (andb_true_iff _ _)) by (split; apply Z.leb_le; lia). do 2 f_equal.
  rewrite <- H5 at 1. replace (length l) with (k + (length l - k))%nat by lia.
  rewrite <- take_drop_commute, take_take, drop_drop. f_equal; [lia|f_equal; lia].
Qed.

(** ** Copies *)

(** [b] after [v] was copied behind what it holds. *)
Definition appended (v : bytes) (b : pbuf) : pbuf :=
  Pbuf (pb_refs b) (pb_putp b + Z.of_nat (length v)) (pb_getp b) (u64 (pb_plen b + Z.of_nat (length v)))
    (pb_size b) (memcpy_at (Z.to_nat (pb_putp b)) v (pb_data b)).

Lemma poke_fits p v b :
  0 <= p -> p + Z.of_nat (length v) <= Z.of_nat (length (pb_data b)) ->
  poke p v b = Done (tt, set_pb_data (memcpy_at (Z.to_nat p) v (pb_data b)) b).
Proof. intros H1 H2. unfold poke, in_block. by rewrite (proj2 (andb_true_iff _ _)) by (split; apply Z.leb_le; lia). Qed.

Lemma copy_internal_appended src len off v dst :
  peek (pb_getp src + off) (length v) src = Done (v, src) -> u64 (len - off) = Z.of_nat (length v) ->
  0 <= pb_putp dst -> pb_putp dst + Z.of_nat (length v) <= Z.of_nat (length (pb_data dst)) ->
  pb_putp dst + Z.of_nat (length v) <= pb_size dst ->
  pbuf_copy_internal src len off dst = Done (Z.of_nat (length v), appended v dst).
Proof.
  intros Hpeek Hlen H0 Hdata Hsize. unfold pbuf_copy_internal, copy. rewrite Hlen, Nat2Z.id, Hpeek.
  unfold gets, mbind, M_bind.
  assert ((if negb (Z.of_nat (length v) =? 0) then poke (pb_putp dst) v else mret tt) dst =
    Done (tt, set_pb_data (memcpy_at (Z.to_nat (pb_putp dst)) v (pb_data dst)) dst)) as E.
  { destruct (Z.eqb_spec (Z.of_nat (length v)) 0) as [Hz|Hz]; cbn [negb]; [|by apply poke_fits].
    destruct v; [|done]. destruct dst. done. }
  rewrite E. unfold modify, assert, set_pb_putp, set_pb_data, set_pb_plen. cbn.
  rewrite (proj2 (Z.leb_le _ _)) by done. done.
Qed.

Lemma peek_slice p n b v :
  take n (drop (Z.to_nat p) (pb_data b)) = v -> 0 <= p -> p + Z.of_nat n <= Z.of_nat (length (pb_data b)) ->
  peek p n b = Done (v, b).
Proof.
  intros <- H1 H2. unfold peek, in_block. by rewrite (proj2 (andb_true_iff _ _)) by (split; apply Z.leb_le; lia).
Qed.

(** The first bytes of a message, copied into an empty buffer. *)
Lemma copy_with_length_prefix src l n dst :
  unread src l -> pb_putp src = pb_getp src + Z.of_nat (length l) ->
  pb_putp dst = 0 -> pb_size dst = Z.of_nat (length (pb_data dst)) -> 0 <= n <= pb_size dst ->
  pbuf_copy_with_length src n dst = Done (LAGOPUS_RESULT_OK, appended (take (Z.to_nat n) l) dst).
Proof.
  intros Hu Hp H0 Hsize Hn. pose proof Hu as (H1 & H2 & H3 & H4 & _). unfold pbuf_copy_with_length.
  replace (u64 (pb_putp src - pb_getp src)) with (Z.of_nat (length l)) by (rewrite u64_small; lia).
  set (m := if Z.of_nat (length l) <? n then Z.of_nat (length l) else n).
  assert (m = Z.of_nat (length (take (Z.to_nat n) l)) /\ m <= n) as [Hm Hmn].
  { subst m. rewrite length_take. destruct (Z.ltb_spec (Z.of_nat (length l)) n); lia. }
  unfold gets, mbind, M_bind. rewrite !(proj2 (Z.leb_le _ _)), (proj2 (Z.eqb_eq _ _)) by lia. cbn [andb].
  rewrite (copy_internal_appended src m 0 (take (Z.to_nat n) l) dst); [done| | | | |].
  - pose proof (peek_unread src l 0 (length (take (Z.to_nat n) l)) Hu) as E. rewrite Z.add_0_r in *.
    rewrite E by (rewrite length_take; lia). do 2 f_equal. rewrite drop_0.
    rewrite length_take. destruct (decide (Z.to_nat n <= length l)%nat); [by rewrite Nat.min_l|].
    rewrite Nat.min_r by lia. by rewrite firstn_all, take_ge by lia.
  - rewrite Z.sub_0_r, u64_small; [done|]. rewrite length_take in Hm. lia.
  - lia.
  - lia.
  - lia.
Qed.
