(* ===== verification/Generator.v ===== *)
(** * The generator of encoders and decoders ([src/agent/generator.c])

    The functions [ofp_*_encode], [ofp_*_decode] and [ofp_*_decode_sneak] are generated when the
    agent is built, from the declarations of [openflow13.h].  Here are the generator, as a
    translation of a declaration into the lines of the functions, and the meaning of these
    lines, with the macros of [pbuf.h].  A structure is a map from the names of its fields
    (those of a nested structure after the name of the member and a point) to their elements. *)
From S2P Require Import Prelude Monad Pbuf.
From stdpp Require Import strings.
#[local] Open Scope Z_scope.

(** ** Declarations *)

Inductive decl_type :=
  | DECL_TYPE_UNKNOWN
  | DECL_TYPE_CHAR
  | DECL_TYPE_UCHAR
  | DECL_TYPE_WORD
  | DECL_TYPE_LONG
  | DECL_TYPE_LLONG.

(** [struct exp] of the kinds a structure consists of. *)
Inductive exp :=
  | EXP_TYPE_DECLARATION (type name : string)
  | EXP_TYPE_ARRAY_DECLARATION (type name : string) (array_size : nat)
  | EXP_TYPE_STRUCT_DECLARATION (type name : string)
  | EXP_TYPE_ARRAY_STRUCT_DECLARATION (type name : string) (array_size : nat).

(** [struct exp_list] *)
Record exp_list := ExpList {
  el_name : string;
  el_tailq : list exp
}.

Definition decl_type_lookup (type_str : string) : decl_type :=
  if String.eqb type_str "char" then DECL_TYPE_CHAR
  else if String.eqb type_str "uint8_t" then DECL_TYPE_UCHAR
  else if String.eqb type_str "uint16_t" then DECL_TYPE_WORD
  else if String.eqb type_str "uint32_t" then DECL_TYPE_LONG
  else if String.eqb type_str "uint64_t" then DECL_TYPE_LLONG
  else DECL_TYPE_UNKNOWN.

(** ** The generated lines *)

(** The suffix of the macro: [PUTC] and [GETC], [PUTW] and [GETW], and so on. *)
Inductive macro := mac_C | mac_W | mac_L | mac_LL.

Inductive line :=
  | line_field (m : macro) (name : string)
  | line_loop (m : macro) (name : string) (n : nat)
  | line_block (name : string) (n : nat)
  | line_call (type name : string).

(** The lines for one declaration, [None] where the generator gives up (an unknown type);
    [calls] tells for which types of nested structures a call is generated. *)
Definition exp_generate_lines (calls : string -> bool) (e : exp) : option (list line) :=
  match e with
  | EXP_TYPE_DECLARATION type name =>
      match decl_type_lookup type with
      | DECL_TYPE_CHAR | DECL_TYPE_UCHAR => Some [line_field mac_C name]
      | DECL_TYPE_WORD => Some [line_field mac_W name]
      | DECL_TYPE_LONG => Some [line_field mac_L name]
      | DECL_TYPE_LLONG => Some [line_field mac_LL name]
      | DECL_TYPE_UNKNOWN => None
      end
  | EXP_TYPE_STRUCT_DECLARATION type name =>
      if calls type then Some [line_call type name] else Some []
  | EXP_TYPE_ARRAY_STRUCT_DECLARATION _ _ _ => Some []
  | EXP_TYPE_ARRAY_DECLARATION type name n =>
      match decl_type_lookup type with
      | DECL_TYPE_WORD => Some [line_loop mac_W name n]
      | DECL_TYPE_LONG => Some [line_loop mac_L name n]
      | DECL_TYPE_LLONG => Some [line_loop mac_LL name n]
      | _ => Some [line_block name n]
      end
  end.

Definition exp_generate (calls : string -> bool) (elist : exp_list) : option (list line) :=
  @concat _ <$> mapM (exp_generate_lines calls) (el_tailq elist).

(** The bodies between the size check and the return. *)
Definition encoder_calls (type : string) : bool := true.
Definition decoder_calls (type : string) : bool := String.eqb type "ofp_header".
Definition exp_generate_encoder : exp_list -> option (list line) := exp_generate encoder_calls.
Definition exp_generate_decoder : exp_list -> option (list line) := exp_generate decoder_calls.

(** ** The layout of structures by the compiler: size and alignment *)

Definition align_up (off a : Z) : Z := (off + a - 1) / a * a.

Definition type_size (type : string) : Z :=
  match decl_type_lookup type with
  | DECL_TYPE_WORD => 2
  | DECL_TYPE_LONG => 4
  | DECL_TYPE_LLONG => 8
  | _ => 1
  end.

Definition member_layout (layout : string -> Z * Z) (e : exp) : Z * Z :=
  match e with
  | EXP_TYPE_DECLARATION type _ => (type_size type, type_size type)
  | EXP_TYPE_ARRAY_DECLARATION type _ n => (Z.of_nat n * type_size type, type_size type)
  | EXP_TYPE_STRUCT_DECLARATION type _ => layout type
  | EXP_TYPE_ARRAY_STRUCT_DECLARATION type _ n => (Z.of_nat n * (layout type).1, (layout type).2)
  end.

Definition struct_layout (layout : string -> Z * Z) (es : list exp) : Z * Z :=
  let '(off, align) :=
    foldl (fun '(off, align) e =>
             let '(size, a) := member_layout layout e in (align_up off a + size, Z.max align a))
      (0, 1) es in
  (align_up off align, align).

(** [env]: the structures declared so far, the last one first. *)
Fixpoint layout (env : list exp_list) (name : string) : Z * Z :=
  match env with
  | [] => (0, 1)
  | el :: env' =>
      if String.eqb (el_name el) name then struct_layout (layout env') (el_tailq el)
      else layout env' name
  end.

Definition sizeof (env : list exp_list) (name : string) : Z := (layout env name).1.

(** ** The generated functions *)

Abbreviation packet := (gmap string (list Z)).

Definition pkt_get (name : string) (i : nat) (pk : packet) : Z := nth i (default [] (pk !! name)) 0.

(** The lines of a function, one after the other, until one returns. *)
Fixpoint run_lines {S} (run_line : line -> M S (option lagopus_result)) (ls : list line) : M S lagopus_result :=
  match ls with
  | [] => mret LAGOPUS_RESULT_OK
  | l :: ls' =>
      r ← run_line l;
      match r with
      | Some ret => mret ret
      | None => run_lines run_line ls'
      end
  end.

(** *** Encoders *)

Definition ENCODE (m : macro) (v : Z) : pm unit :=
  match m with mac_C => ENCODE_PUTC v | mac_W => ENCODE_PUTW v | mac_L => ENCODE_PUTL v | mac_LL => ENCODE_PUTLL v end.

Fixpoint encode_loop (m : macro) (name : string) (i n : nat) (pk : packet) : pm unit :=
  match n with
  | O => mret tt
  | S n' => ENCODE m (pkt_get name i pk) ;; encode_loop m name (S i) n' pk
  end.

Definition encode_line (call : string -> string -> pm lagopus_result) (pfx : string) (pk : packet)
    (l : line) : pm (option lagopus_result) :=
  match l with
  | line_field m name => ENCODE m (pkt_get (pfx +:+ name) 0 pk) ;; mret None
  | line_loop m name n => encode_loop m (pfx +:+ name) 0 n pk ;; mret None
  | line_block name n => ENCODE_PUT (map (fun i => u8 (pkt_get (pfx +:+ name) i pk)) (seq 0 n)) ;; mret None
  | line_call type name =>
      ret ← call type (pfx +:+ name +:+ ".");
      mret (if is_ok ret then None else Some LAGOPUS_RESULT_OUT_OF_RANGE)
  end.

(** [<name>_encode (pbuf, packet)], with [packet] the structure at [pfx]. *)
Fixpoint encode (env : list exp_list) (name pfx : string) (pk : packet) {struct env} : pm lagopus_result :=
  match env with
  | [] => undefined
  | el :: env' =>
      if String.eqb (el_name el) name then
        plen ← gets pb_plen;
        if plen <? sizeof (el :: env') name then mret LAGOPUS_RESULT_OUT_OF_RANGE
        else
          match exp_generate_encoder el with
          | Some ls => run_lines (encode_line (fun type pfx' => encode env' type pfx' pk) pfx pk) ls
          | None => undefined
          end
      else encode env' name pfx pk
  end.

(** *** Decoders: the state is the buffer and the structure filled in *)

Abbreviation dm := (M (pbuf * packet)).

Definition on_pbuf {A} (m : pm A) : dm A := fun s =>
  match m s.1 with
  | Done (a, b) => Done (a, (b, s.2))
  | Undefined => Undefined
  | OutOfFuel => OutOfFuel
  end.
Definition set_field (name : string) (v : list Z) : dm unit := modify (fun s => (s.1, <[name := v]> s.2)).

Definition DECODE (m : macro) : pm Z :=
  match m with mac_C => DECODE_GETC | mac_W => DECODE_GETW | mac_L => DECODE_GETL | mac_LL => DECODE_GETLL end.

Fixpoint decode_loop (m : macro) (n : nat) : pm (list Z) :=
  match n with
  | O => mret []
  | S n' => v ← DECODE m; vs ← decode_loop m n'; mret (v :: vs)
  end.

Definition decode_line (call : string -> string -> dm lagopus_result) (pfx : string) (l : line)
    : dm (option lagopus_result) :=
  match l with
  | line_field m name => v ← on_pbuf (DECODE m); set_field (pfx +:+ name) [v] ;; mret None
  | line_loop m name n => vs ← on_pbuf (decode_loop m n); set_field (pfx +:+ name) vs ;; mret None
  | line_block name n => vs ← on_pbuf (DECODE_GET n); set_field (pfx +:+ name) vs ;; mret None
  | line_call type name =>
      ret ← call type (pfx +:+ name +:+ ".");
      mret (if is_ok ret then None else Some LAGOPUS_RESULT_OUT_OF_RANGE)
  end.

(** [<name>_decode (pbuf, packet)] *)
Fixpoint decode (env : list exp_list) (name pfx : string) {struct env} : dm lagopus_result :=
  match env with
  | [] => undefined
  | el :: env' =>
      if String.eqb (el_name el) name then
        plen ← gets (fun s => pb_plen s.1);
        if plen <? sizeof (el :: env') name then mret LAGOPUS_RESULT_OUT_OF_RANGE
        else
          match exp_generate_decoder el with
          | Some ls => run_lines (decode_line (decode env') pfx) ls
          | None => undefined
          end
      else decode env' name pfx
  end.

(** [<name>_decode_sneak (pbuf, packet)] *)
Fixpoint decode_sneak (env : list exp_list) (name pfx : string) {struct env} : dm lagopus_result :=
  match env with
  | [] => undefined
  | el :: env' =>
      if String.eqb (el_name el) name then
        plen ← gets (fun s => pb_plen s.1);
        if plen <? sizeof (el :: env') name then mret LAGOPUS_RESULT_OUT_OF_RANGE
        else
          match exp_generate_decoder el with
          | Some ls =>
              ret ← run_lines (decode_line (decode env') pfx) ls;
              if is_ok ret then on_pbuf (DECODE_REWIND (sizeof (el :: env') name)) ;; mret ret
              else mret ret
          | None => undefined
          end
      else decode_sneak env' name pfx
  end.

(** ** The format: fields one after the other, in network byte order *)

Definition macro_width (m : macro) : nat :=
  match m with mac_C => 1 | mac_W => 2 | mac_L => 4 | mac_LL => 8 end.

(** A field on the wire: its name, the width of an element, the number of elements. *)
Definition leaf : Type := string * nat * nat.
Definition leaf_size (lf : leaf) : nat := lf.1.2 * lf.2.
Definition leaves_size (lfs : list leaf) : nat := sum_list_with leaf_size lfs.

Definition line_leaves (sub : string -> string -> list leaf) (pfx : string) (l : line) : list leaf :=
  match l with
  | line_field m name => [(pfx +:+ name, macro_width m, 1%nat)]
  | line_loop m name n => [(pfx +:+ name, macro_width m, n)]
  | line_block name n => [(pfx +:+ name, 1%nat, n)]
  | line_call type name => sub type (pfx +:+ name +:+ ".")
  end.

(** The fields that the generated code for [calls] handles, in order. *)
Fixpoint leaves (calls : string -> bool) (env : list exp_list) (name pfx : string) : list leaf :=
  match env with
  | [] => []
  | el :: env' =>
      if String.eqb (el_name el) name then
        flat_map (line_leaves (leaves calls env') pfx) (default [] (exp_generate calls el))
      else leaves calls env' name pfx
  end.

(** What the compiler's layout must satisfy: no structure is smaller than its fields on the
    wire, and a nested structure has no gaps. *)
Definition line_packed (calls : string -> bool) (env : list exp_list) (l : line) : bool :=
  match l with
  | line_call type name =>
      existsb (fun el => String.eqb (el_name el) type) env &&
      (sizeof env type =? Z.of_nat (leaves_size (leaves calls env type "")))
  | _ => true
  end.

Fixpoint packed (calls : string -> bool) (env : list exp_list) : bool :=
  match env with
  | [] => true
  | el :: env' =>
      match exp_generate calls el with
      | Some ls => forallb (line_packed calls env') ls
      | None => false
      end &&
      (Z.of_nat (leaves_size (leaves calls (el :: env') (el_name el) "")) <=? sizeof (el :: env') (el_name el)) &&
      packed calls env'
  end.

Definition declared (env : list exp_list) (name : string) : bool :=
  existsb (fun el => String.eqb (el_name el) name) env.

(** The bytes of a structure. *)
Definition wire_leaf (pk : packet) (lf : leaf) : bytes :=
  flat_map (fun i => be_bytes lf.1.2 (pkt_get lf.1.1 i pk)) (seq 0 lf.2).
Definition wire (pk : packet) (lfs : list leaf) : bytes := flat_map (wire_leaf pk) lfs.

(** The fields read from bytes. *)
Definition read_leaf (lf : leaf) (v : bytes) : list Z :=
  map (fun i => be_val (take lf.1.2 (drop (i * lf.1.2) v))) (seq 0 lf.2).
Fixpoint absorb (lfs : list leaf) (v : bytes) (pk : packet) : packet :=
  match lfs with
  | [] => pk
  | lf :: lfs' => absorb lfs' (drop (leaf_size lf) v) (<[lf.1.1 := read_leaf lf v]> pk)
  end.

(** *** Sizes *)

Lemma length_flat_map_const {A B} (f : A -> list B) (n : nat) l :
  (forall x, x ∈ l -> length (f x) = n) -> length (flat_map f l) = (n * length l)%nat.
Proof.
  induction l as [|x l IH]; intros H; cbn; [lia|].
  rewrite length_app, IH, H by (try (intros; apply H); set_solver). lia.
Qed.

Lemma length_wire_leaf pk lf : length (wire_leaf pk lf) = leaf_size lf.
Proof.
  unfold wire_leaf, leaf_size. rewrite (length_flat_map_const _ lf.1.2).
  - by rewrite length_seq.
  - intros i _. apply length_be_bytes.
Qed.

Lemma length_wire pk lfs : length (wire pk lfs) = leaves_size lfs.
Proof.
  induction lfs as [|lf lfs IH]; [done|]. unfold wire, leaves_size in *. cbn.
  by rewrite length_app, length_wire_leaf, IH.
Qed.

Lemma wire_app pk l1 l2 : wire pk (l1 ++ l2) = wire pk l1 ++ wire pk l2.
Proof. apply flat_map_app. Qed.

Lemma leaves_size_app l1 l2 : leaves_size (l1 ++ l2) = (leaves_size l1 + leaves_size l2)%nat.
Proof. apply sum_list_with_app. Qed.

Lemma leaves_size_1 p w k : leaves_size [(p, w, k)] = (w * k)%nat.
Proof. unfold leaves_size, leaf_size. cbn. lia. Qed.

(** The names of the fields do not change their sizes. *)
Lemma leaves_size_pfx calls env name pfx pfx' :
  leaves_size (leaves calls env name pfx) = leaves_size (leaves calls env name pfx').
Proof.
  revert name pfx pfx'. induction env as [|el env IH]; intros name pfx pfx'; [done|]. cbn [leaves].
  destruct (String.eqb _ _); [|apply IH].
  induction (default [] _) as [|l ls IHl]; [done|]. cbn [flat_map].
  rewrite !leaves_size_app, IHl. f_equal. destruct l; cbn [line_leaves]; [done|done|done|apply IH].
Qed.

(** *** Encoding *)

Lemma ENCODE_put m v b :
  fits (macro_width m) b -> ENCODE m v b = Done (tt, put (be_bytes (macro_width m) v) b).
Proof.
  intros H. destruct m; unfold ENCODE;
    rewrite ?ENCODE_PUTC_be, ?ENCODE_PUTW_be, ?ENCODE_PUTL_be, ?ENCODE_PUTLL_be;
    apply ENCODE_PUT_put; by rewrite length_be_bytes.
Qed.

Lemma fits_putp n b : fits n b -> 0 <= pb_putp b.
Proof. by intros [(? & _) _]. Qed.

Lemma encode_loop_put m name i n pk b :
  fits (macro_width m * n) b ->
  encode_loop m name i n pk b =
  Done (tt, put (flat_map (fun i => be_bytes (macro_width m) (pkt_get name i pk)) (seq i n)) b).
Proof.
  revert i b. induction n as [|n IH]; intros i b H; cbn [encode_loop seq flat_map].
  { by rewrite put_nil. }
  rewrite Nat.mul_succ_r in H.
  erewrite bind_Done; cycle 1.
  { apply ENCODE_put. eapply fits_weaken; [exact H|lia]. }
  rewrite IH.
  - rewrite put_app; [done|by eapply fits_putp].
  - apply put_fits. rewrite length_be_bytes. eapply fits_weaken; [exact H|lia].
Qed.

Lemma u8_be_bytes v : [u8 v] = be_bytes 1 v.
Proof. unfold u8. cbn. by rewrite Z.div_1_r. Qed.

Lemma encode_line_put call sub pfx pk l b :
  (forall type name, l = line_call type name ->
     call type (pfx +:+ name +:+ ".") b =
     Done (LAGOPUS_RESULT_OK, put (wire pk (sub type (pfx +:+ name +:+ "."))) b)) ->
  fits (leaves_size (line_leaves sub pfx l)) b ->
  encode_line call pfx pk l b = Done (None, put (wire pk (line_leaves sub pfx l)) b).
Proof.
  intros Hcall Hf. destruct l as [m name|m name n|name n|type name]; cbn [encode_line line_leaves] in *.
  - rewrite leaves_size_1 in Hf. rewrite Nat.mul_1_r in Hf. rewrite (bind_Done _ _ _ _ _ (ENCODE_put m _ b Hf)).
    unfold wire, wire_leaf. cbn. by rewrite !app_nil_r.
  - rewrite leaves_size_1 in Hf.
    rewrite (bind_Done _ _ _ _ _ (encode_loop_put m _ 0 n pk b Hf)).
    unfold wire, wire_leaf. cbn. by rewrite app_nil_r.
  - rewrite leaves_size_1 in Hf.
    erewrite bind_Done; cycle 1.
    { apply ENCODE_PUT_put. rewrite length_map, length_seq. eapply fits_weaken; [exact Hf|lia]. }
    unfold wire, wire_leaf, mret, M_ret. cbn [flat_map fst snd]. rewrite app_nil_r. do 2 f_equal.
    f_equal. induction (seq 0 n) as [|i l IH]; [done|]. cbn [map flat_map]. by rewrite IH, <- u8_be_bytes.
  - by rewrite (bind_Done _ _ _ _ _ (Hcall _ _ eq_refl)).
Qed.

Lemma run_encode_lines call sub pfx pk ls b :
  (forall type name b, line_call type name ∈ ls ->
     fits (leaves_size (sub type (pfx +:+ name +:+ "."))) b ->
     call type (pfx +:+ name +:+ ".") b =
     Done (LAGOPUS_RESULT_OK, put (wire pk (sub type (pfx +:+ name +:+ "."))) b)) ->
  fits (leaves_size (flat_map (line_leaves sub pfx) ls)) b ->
  run_lines (encode_line call pfx pk) ls b =
  Done (LAGOPUS_RESULT_OK, put (wire pk (flat_map (line_leaves sub pfx) ls)) b).
Proof.
  revert b. induction ls as [|l ls IH]; intros b Hcall Hf; cbn [run_lines flat_map].
  { by rewrite put_nil. }
  cbn [flat_map] in Hf. rewrite leaves_size_app in Hf.
  rewrite (bind_Done _ _ _ None (put (wire pk (line_leaves sub pfx l)) b)); cycle 1.
  { apply encode_line_put; [|eapply fits_weaken; [exact Hf|lia]].
    intros type name ->. apply Hcall; [by left|]. eapply fits_weaken; [exact Hf|cbn [line_leaves]; lia]. }
  rewrite IH.
  - by rewrite wire_app, put_app by (by eapply fits_putp).
  - intros type name b' Hl. apply Hcall. by right.
  - apply put_fits. by rewrite length_wire.
Qed.

(** What the packed structures give for one of them. *)
Lemma packed_size calls env name :
  packed calls env = true -> declared env name = true ->
  Z.of_nat (leaves_size (leaves calls env name "")) <= sizeof env name.
Proof.
  induction env as [|el env IH]; [done|]. cbn [packed declared existsb]. rewrite !andb_true_iff.
  intros [[_ Hs] Hp] Hd. destruct (String.eqb (el_name el) name) eqn:E.
  - apply String.eqb_eq in E as <-. by apply Z.leb_le.
  - unfold sizeof in *. cbn. rewrite E. by apply IH.
Qed.

Lemma encode_put env name pfx pk b :
  packed encoder_calls env = true -> declared env name = true ->
  writable b -> sizeof env name <= pb_plen b ->
  encode env name pfx pk b = Done (LAGOPUS_RESULT_OK, put (wire pk (leaves encoder_calls env name pfx)) b).
Proof.
  revert name pfx b. induction env as [|el env IH]; intros name pfx b Hp Hd Hw Hs; [done|].
  pose proof (packed_size _ _ _ Hp Hd) as Hsize.
  cbn [encode leaves]. cbn [packed declared existsb] in Hp, Hd.
  assert (forall el' name', String.eqb (el_name el') name' = false ->
    sizeof (el' :: env) name' = sizeof env name') as Hother.
  { intros el' name' E. unfold sizeof. cbn. by rewrite E. }
  destruct (String.eqb (el_name el) name) eqn:E; cycle 1.
  { rewrite Hother in Hs by done. apply andb_prop in Hp as [_ Hp]. by apply IH. }
  rewrite (bind_Done _ _ _ (pb_plen b) b) by done.
  rewrite (proj2 (Z.ltb_ge _ _)) by done.
  unfold exp_generate_encoder. cbn [leaves] in Hsize. rewrite E in Hsize.
  destruct (exp_generate encoder_calls el) as [ls|] eqn:Els; [|done]. cbn [default] in Hsize |- *.
  rewrite !andb_true_iff in Hp. destruct Hp as [[Hl _] Hp]. rewrite forallb_forall in Hl.
  assert (leaves_size (flat_map (line_leaves (leaves encoder_calls env) pfx) ls) =
          leaves_size (flat_map (line_leaves (leaves encoder_calls env) "") ls)) as Hpfx.
  { pose proof (leaves_size_pfx encoder_calls (el :: env) name pfx "") as H. cbn [leaves] in H.
    by rewrite E, Els in H. }
  apply run_encode_lines.
  - intros type name' b' Hin Hf. apply list_elem_of_In, Hl in Hin. cbn in Hin.
    apply andb_prop in Hin as [Hdecl Hsz%Z.eqb_eq]. destruct Hf as [Hw' Hf].
    rewrite (leaves_size_pfx _ _ _ _ "") in Hf. apply IH; try done. lia.
  - unfold id in *. rewrite Hpfx. split; [done|lia].
Qed.

(** *** Decoding *)

Lemma bytes_ok_app l1 l2 : bytes_ok (l1 ++ l2) <-> bytes_ok l1 /\ bytes_ok l2.
Proof. apply Forall_app. Qed.

Lemma be_val_1 x : be_val [x] = x.
Proof. cbn. lia. Qed.

Lemma DECODE_adv m b v l :
  unread b (v ++ l) -> length v = macro_width m -> bytes_ok v -> DECODE m b = Done (be_val v, adv (macro_width m) b).
Proof.
  intros Hu Hlen Hok. rewrite <- Hlen.
  destruct m; cbn [macro_width] in Hlen; unfold DECODE, DECODE_GETC, DECODE_GETW, DECODE_GETL, DECODE_GETLL;
    rewrite <- Hlen, (bind_Done _ _ _ _ _ (DECODE_GET_adv _ _ _ Hu)); unfold mret, M_ret; do 2 f_equal;
    repeat (destruct v as [|? v]; [discriminate Hlen|]; apply (f_equal pred) in Hlen; cbn [length pred] in Hlen);
    (destruct v; [|discriminate Hlen]); unfold rd8; cbn [nth];
    [by rewrite be_val_1|by apply word16_be|by apply word32_be|by apply word64_be].
Qed.

Definition chunks (w n : nat) (v : bytes) : list Z := map (fun i => be_val (take w (drop (i * w) v))) (seq 0 n).

Lemma chunks_S w n v : chunks w (S n) v = be_val (take w v) :: chunks w n (drop w v).
Proof.
  unfold chunks. cbn [seq map]. rewrite Nat.mul_0_l, drop_0. f_equal.
  rewrite <- seq_shift, map_map. apply map_ext. intros i. by rewrite drop_drop.
Qed.

Lemma decode_loop_adv m n b v l :
  unread b (v ++ l) -> length v = (macro_width m * n)%nat -> bytes_ok v ->
  decode_loop m n b = Done (chunks (macro_width m) n v, adv (macro_width m * n) b).
Proof.
  revert b v. induction n as [|n IH]; intros b v Hu Hlen Hok; cbn [decode_loop].
  { by rewrite Nat.mul_0_r, adv_0. }
  rewrite Nat.mul_succ_r in Hlen |- *.
  assert (length (take (macro_width m) v) = macro_width m) as Ht by (rewrite length_take; lia).
  rewrite <- (take_drop (macro_width m) v) in Hu, Hok. rewrite <- app_assoc in Hu.
  apply bytes_ok_app in Hok as [Hok1 Hok2].
  rewrite (bind_Done _ _ _ _ _ (DECODE_adv _ _ _ _ Hu Ht Hok1)).
  apply unread_adv in Hu. rewrite Ht in Hu.
  rewrite (bind_Done _ _ _ _ _ (IH _ _ Hu ltac:(rewrite length_drop; lia) Hok2)).
  rewrite chunks_S, adv_add. unfold mret, M_ret. do 3 f_equal. lia.
Qed.

Lemma on_pbuf_Done {A} (m : pm A) (a : A) b b' pk : m b = Done (a, b') -> on_pbuf m (b, pk) = Done (a, (b', pk)).
Proof. intros H. unfold on_pbuf. cbn. by rewrite H. Qed.

Lemma set_field_Done name v b pk : set_field name v (b, pk) = Done (tt, (b, <[name := v]> pk)).
Proof. done. Qed.

Lemma chunks_1 n v : length v = n -> chunks 1 n v = v.
Proof.
  intros <-. induction v as [|x v IH]; [done|]. cbn [length]. rewrite chunks_S.
  cbn [take drop]. by rewrite be_val_1, drop_0, IH.
Qed.

Lemma decode_line_adv call sub pfx l b pk v rest :
  (forall type name, l = line_call type name ->
     call type (pfx +:+ name +:+ ".") (b, pk) =
     Done (LAGOPUS_RESULT_OK, (adv (length v) b, absorb (sub type (pfx +:+ name +:+ ".")) v pk))) ->
  unread b (v ++ rest) -> length v = leaves_size (line_leaves sub pfx l) -> bytes_ok v ->
  decode_line call pfx l (b, pk) = Done (None, (adv (length v) b, absorb (line_leaves sub pfx l) v pk)).
Proof.
  intros Hcall Hu Hlen Hok. destruct l as [m name|m name n|name n|type name]; cbn [decode_line line_leaves] in *.
  - rewrite leaves_size_1, Nat.mul_1_r in Hlen. rewrite Hlen.
    rewrite (bind_Done _ _ _ _ _ (on_pbuf_Done _ _ _ _ _ (DECODE_adv _ _ _ _ Hu Hlen Hok))).
    cbn [absorb]. unfold read_leaf. cbn. by rewrite <- Hlen, firstn_all.
  - rewrite leaves_size_1 in Hlen. rewrite Hlen.
    by rewrite (bind_Done _ _ _ _ _ (on_pbuf_Done _ _ _ _ _ (decode_loop_adv _ _ _ _ _ Hu Hlen Hok))).
  - rewrite leaves_size_1, Nat.mul_1_l in Hlen. rewrite <- Hlen at 1.
    rewrite (bind_Done _ _ _ _ _ (on_pbuf_Done _ _ _ _ _ (DECODE_GET_adv _ _ _ Hu))).
    cbn [absorb]. unfold read_leaf. cbn [fst snd]. fold (chunks 1 n v). by rewrite chunks_1.
  - by rewrite (bind_Done _ _ _ _ _ (Hcall _ _ eq_refl)).
Qed.

Lemma absorb_app l1 l2 v pk :
  absorb (l1 ++ l2) v pk = absorb l2 (drop (leaves_size l1) v) (absorb l1 v pk).
Proof.
  revert v pk. induction l1 as [|lf l1 IH]; intros v pk; [done|].
  cbn [absorb app]. rewrite IH, drop_drop. done.
Qed.

Lemma read_leaf_app lf v w : (leaf_size lf <= length v)%nat -> read_leaf lf (v ++ w) = read_leaf lf v.
Proof.
  destruct lf as [[p n] k]. unfold read_leaf, leaf_size. cbn. intros H. apply map_ext_in.
  intros i Hi%in_seq. f_equal. rewrite drop_app_le, take_app_le by (rewrite ?length_drop; nia). done.
Qed.

(** Only the bytes of the fields matter. *)
Lemma absorb_prefix lfs v w pk : (leaves_size lfs <= length v)%nat -> absorb lfs (v ++ w) pk = absorb lfs v pk.
Proof.
  revert v pk. induction lfs as [|lf lfs IH]; intros v pk H; [done|].
  unfold leaves_size in H. cbn in H. fold (leaves_size lfs) in H. cbn [absorb].
  rewrite read_leaf_app, drop_app_le, IH by (rewrite ?length_drop; lia). done.
Qed.

Lemma run_decode_lines call sub pfx ls b pk v rest :
  (forall type name b pk v rest, line_call type name ∈ ls -> unread b (v ++ rest) ->
     length v = leaves_size (sub type (pfx +:+ name +:+ ".")) -> bytes_ok v ->
     call type (pfx +:+ name +:+ ".") (b, pk) =
     Done (LAGOPUS_RESULT_OK, (adv (length v) b, absorb (sub type (pfx +:+ name +:+ ".")) v pk))) ->
  unread b (v ++ rest) -> length v = leaves_size (flat_map (line_leaves sub pfx) ls) -> bytes_ok v ->
  run_lines (decode_line call pfx) ls (b, pk) =
  Done (LAGOPUS_RESULT_OK, (adv (length v) b, absorb (flat_map (line_leaves sub pfx) ls) v pk)).
Proof.
  revert b pk v. induction ls as [|l ls IH]; intros b pk v Hcall Hu Hlen Hok; cbn [run_lines flat_map] in *.
  { destruct v; [|done]. by rewrite adv_0. }
  rewrite leaves_size_app in Hlen. set (n := leaves_size (line_leaves sub pfx l)) in *.
  assert (length (take n v) = n) as Ht by (rewrite length_take; lia).
  rewrite <- (take_drop n v) in Hu, Hok. rewrite <- app_assoc in Hu.
  apply bytes_ok_app in Hok as [Hok1 Hok2].
  erewrite bind_Done; cycle 1.
  { eapply decode_line_adv; [|exact Hu|exact Ht|exact Hok1].
    intros type name ->. eapply Hcall; [by left|exact Hu|exact Ht|exact Hok1]. }
  apply unread_adv in Hu.
  rewrite (IH _ _ (drop n v)); [|by intros; eapply Hcall; eauto; right|done|rewrite length_drop; lia|done].
  rewrite adv_add, <- length_app, take_drop, absorb_app. fold n. do 4 f_equal.
  rewrite <- (take_drop n v) at 2. symmetry. apply absorb_prefix. lia.
Qed.

Lemma decode_adv env name pfx b pk v rest :
  packed decoder_calls env = true -> declared env name = true ->
  unread b (v ++ rest) -> sizeof env name <= pb_plen b ->
  length v = leaves_size (leaves decoder_calls env name pfx) -> bytes_ok v ->
  decode env name pfx (b, pk) =
  Done (LAGOPUS_RESULT_OK, (adv (length v) b, absorb (leaves decoder_calls env name pfx) v pk)).
Proof.
  revert name pfx b pk v rest. induction env as [|el env IH]; intros name pfx b pk v rest Hp Hd Hu Hs Hlen Hok; [done|].
  cbn [decode leaves] in *. cbn [packed declared existsb] in Hp, Hd.
  assert (forall el' name', String.eqb (el_name el') name' = false ->
    sizeof (el' :: env) name' = sizeof env name') as Hother.
  { intros el' name' E. unfold sizeof. cbn. by rewrite E. }
  destruct (String.eqb (el_name el) name) eqn:E; cycle 1.
  { rewrite Hother in Hs by done. apply andb_prop in Hp as [_ Hp]. by eapply IH. }
  rewrite (bind_Done _ _ _ (pb_plen b) (b, pk)) by done.
  rewrite (proj2 (Z.ltb_ge _ _)) by done. unfold exp_generate_decoder.
  destruct (exp_generate decoder_calls el) as [ls|] eqn:Els; [|done]. cbn [default] in *.
  rewrite !andb_true_iff in Hp. destruct Hp as [[Hl _] Hp]. rewrite forallb_forall in Hl.
  eapply run_decode_lines; [|done|done|done].
  intros type name' b' pk' v' rest' Hin Hu' Hlen' Hok'. apply list_elem_of_In, Hl in Hin. cbn in Hin.
  apply andb_prop in Hin as [Hdecl Hsz%Z.eqb_eq]. eapply IH; try done.
  destruct Hu' as (_ & -> & _). rewrite (leaves_size_pfx _ _ _ _ "") in Hlen'. rewrite Hsz, length_app. lia.
Qed.

Lemma decode_sneak_peek env name pfx b pk v rest :
  packed decoder_calls env = true -> declared env name = true ->
  unread b (v ++ rest) -> sizeof env name = Z.of_nat (length v) ->
  length v = leaves_size (leaves decoder_calls env name pfx) -> bytes_ok v ->
  decode_sneak env name pfx (b, pk) =
  Done (LAGOPUS_RESULT_OK, (b, absorb (leaves decoder_calls env name pfx) v pk)).
Proof.
  intros Hp Hd Hu Hs Hlen Hok.
  assert (sizeof env name <= pb_plen b) as Hle.
  { destruct Hu as (_ & -> & _). rewrite length_app. lia. }
  pose proof (decode_adv env name pfx b pk v rest Hp Hd Hu Hle Hlen Hok) as H. clear Hp Hlen.
  revert H. induction env as [|el env IH]; [done|]. intros H.
  cbn [decode_sneak decode leaves] in *. unfold declared in Hd. cbn [existsb] in Hd.
  destruct (String.eqb (el_name el) name) eqn:E; cycle 1.
  { apply IH; [done| | |done]; unfold sizeof in *; cbn in *; by rewrite E in *. }
  rewrite (bind_Done _ _ _ (pb_plen b) (b, pk)) in H by done.
  rewrite (bind_Done _ _ _ (pb_plen b) (b, pk)) by done.
  rewrite (proj2 (Z.ltb_ge _ _)) in H by done. rewrite (proj2 (Z.ltb_ge _ _)) by done.
  destruct (exp_generate_decoder el) as [ls|]; [|done].
  rewrite (bind_Done _ _ _ _ _ H). cbn [is_ok].
  erewrite bind_Done; cycle 1.
  { apply on_pbuf_Done. rewrite Hs. eapply rewind_adv; [exact Hu|]. rewrite length_app. lia. }
  done.
Qed.

(** A message that is too short for the structure is refused, and nothing is touched. *)
Lemma decode_short env name pfx b pk :
  declared env name = true -> pb_plen b < sizeof env name ->
  decode env name pfx (b, pk) = Done (LAGOPUS_RESULT_OUT_OF_RANGE, (b, pk)) /\
  decode_sneak env name pfx (b, pk) = Done (LAGOPUS_RESULT_OUT_OF_RANGE, (b, pk)).
Proof.
  intros Hd Hs. induction env as [|el env IH]; [done|]. unfold declared in Hd.
  cbn [decode decode_sneak existsb] in *. destruct (String.eqb (el_name el) name) eqn:E.
  - rewrite !(bind_Done _ _ _ (pb_plen b) (b, pk)) by done. by rewrite (proj2 (Z.ltb_lt _ _)).
  - apply IH; [done|]. unfold sizeof in *. cbn in Hs. by rewrite E in Hs.
Qed.

Lemma encode_short env name pfx pk b :
  declared env name = true -> pb_plen b < sizeof env name ->
  encode env name pfx pk b = Done (LAGOPUS_RESULT_OUT_OF_RANGE, b).
Proof.
  intros Hd Hs. induction env as [|el env IH]; [done|]. unfold declared in Hd.
  cbn [encode existsb] in *. destruct (String.eqb (el_name el) name) eqn:E.
  - rewrite (bind_Done _ _ _ (pb_plen b) b) by done. by rewrite (proj2 (Z.ltb_lt _ _)).
  - apply IH; [done|]. unfold sizeof in *. cbn in Hs. by rewrite E in Hs.
Qed.

(** *** The two directions together *)

(** The elements of a field as they come out of the wire. *)
Definition leaf_elements (pk : packet) (lf : leaf) : list Z :=
  map (fun i => pkt_get lf.1.1 i pk mod 256 ^ Z.of_nat lf.1.2) (seq 0 lf.2).

Lemma drop_flat_map_const {A} (f : A -> bytes) (n : nat) l i x :
  (forall x, x ∈ l -> length (f x) = n) -> l !! i = Some x ->
  take n (drop (i * n) (flat_map f l)) = f x.
Proof.
  revert i. induction l as [|y l IH]; intros i Hf Hi; [done|]. cbn [flat_map].
  assert (length (f y) = n) as Hy by (apply Hf; set_solver).
  destruct i as [|i]; cbn in Hi.
  - injection Hi as <-. rewrite Nat.mul_0_l, drop_0, take_app_le by lia. apply firstn_all2. lia.
  - rewrite drop_app_ge by lia. replace (S i * n - length (f y))%nat with (i * n)%nat by lia.
    apply IH; [|done]. intros z Hz. apply Hf. set_solver.
Qed.

Lemma read_wire_leaf pk lf : read_leaf lf (wire_leaf pk lf) = leaf_elements pk lf.
Proof.
  unfold read_leaf, wire_leaf, leaf_elements. apply map_ext_in. intros i Hi%in_seq.
  rewrite (drop_flat_map_const _ _ _ _ i), be_val_bytes; [done| |].
  - intros. apply length_be_bytes.
  - rewrite lookup_seq. split; lia.
Qed.

Lemma absorb_wire lfs pk pk0 name :
  NoDup (map (fun lf => lf.1.1) lfs) ->
  absorb lfs (wire pk lfs) pk0 !! name =
  match find (fun lf => String.eqb lf.1.1 name) lfs with
  | Some lf => Some (leaf_elements pk lf)
  | None => pk0 !! name
  end.
Proof.
  revert pk0. induction lfs as [|lf lfs IH]; intros pk0 Hnd; [done|].
  cbn [map] in Hnd. apply NoDup_cons in Hnd as [Hni Hnd]. cbn [absorb find].
  change (wire pk (lf :: lfs)) with (wire_leaf pk lf ++ wire pk lfs).
  rewrite <- (length_wire_leaf pk lf) at 1. rewrite drop_app_length, IH by done.
  rewrite read_leaf_app, read_wire_leaf by (rewrite length_wire_leaf; lia).
  destruct (String.eqb_spec lf.1.1 name) as [<-|Hne].
  - destruct (find _ lfs) as [lf'|] eqn:Ef.
    + apply find_some in Ef as [Hin Heq%String.eqb_eq]. destruct Hni.
      apply list_elem_of_fmap. exists lf'. split; [done|by apply list_elem_of_In].
    + by rewrite lookup_insert_eq.
  - destruct (find _ lfs); [done|]. by rewrite lookup_insert_ne.
Qed.

Lemma be_bytes_chunk w v : bytes_ok v -> length v = w -> be_bytes w (be_val v) = v.
Proof. intros Hok <-. by apply be_bytes_val. Qed.

Lemma wire_read_leaf lf v pk :
  pk !! lf.1.1 = Some (read_leaf lf v) -> length v = leaf_size lf -> bytes_ok v -> wire_leaf pk lf = v.
Proof.
  destruct lf as [[name w] n]. unfold wire_leaf, leaf_size, read_leaf, pkt_get. cbn [fst snd].
  intros Hl Hlen Hok. rewrite Hl. cbn [default id]. fold (chunks w n v). clear Hl.
  revert v Hlen Hok. induction n as [|n IH]; intros v Hlen Hok.
  { rewrite Nat.mul_0_r in Hlen. by destruct v. }
  rewrite Nat.mul_succ_r in Hlen. rewrite chunks_S. cbn [seq flat_map nth].
  assert (length (take w v) = w) as Ht by (rewrite length_take; lia).
  rewrite <- (take_drop w v) in Hok. apply bytes_ok_app in Hok as [Hok1 Hok2].
  rewrite be_bytes_chunk by done. rewrite <- seq_shift.
  rewrite flat_map_concat_map, map_map, <- flat_map_concat_map. cbn [nth].
  rewrite IH by (rewrite ?length_drop; first [lia|done]). apply take_drop.
Qed.

Lemma absorb_other lfs v pk name : name ∉ map (fun lf => lf.1.1) lfs -> absorb lfs v pk !! name = pk !! name.
Proof.
  revert v pk. induction lfs as [|lf lfs IH]; intros v pk H; [done|]. cbn [absorb map] in *.
  apply not_elem_of_cons in H as [Hne H]. rewrite IH by done. by rewrite lookup_insert_ne.
Qed.

Lemma wire_absorb lfs v pk :
  NoDup (map (fun lf => lf.1.1) lfs) -> length v = leaves_size lfs -> bytes_ok v -> wire (absorb lfs v pk) lfs = v.
Proof.
  revert v pk. induction lfs as [|lf lfs IH]; intros v pk Hnd Hlen Hok; cbn [absorb].
  { by destruct v. }
  cbn [map] in Hnd. apply NoDup_cons in Hnd as [Hni Hnd].
  change (leaves_size (lf :: lfs)) with (leaf_size lf + leaves_size lfs)%nat in Hlen.
  set (n := leaf_size lf) in *. rewrite <- (take_drop n v) in Hok. apply bytes_ok_app in Hok as [Hok1 Hok2].
  unfold wire. cbn [flat_map]. fold (wire (absorb lfs (drop n v) (<[lf.1.1:=read_leaf lf v]> pk)) lfs).
  rewrite IH by (rewrite ?length_drop; first [done|lia]).
  rewrite (wire_read_leaf lf (take n v)); [apply take_drop| |rewrite length_take; lia|done].
  rewrite absorb_other by done. rewrite lookup_insert_eq. f_equal.
  rewrite <- (take_drop n v) at 1. apply read_leaf_app. rewrite length_take. lia.
Qed.

Lemma bytes_ok_wire pk lfs : bytes_ok (wire pk lfs).
Proof.
  induction lfs as [|lf lfs IH]; [constructor|]. apply bytes_ok_app. split; [|done].
  unfold wire_leaf. induction (seq 0 lf.2) as [|i l IHl]; [constructor|]. apply bytes_ok_app.
  split; [apply be_bytes_range|done].
Qed.

Lemma find_leaf (lfs : list leaf) (lf : leaf) :
  NoDup (map (fun lf => lf.1.1) lfs) -> lf ∈ lfs ->
  find (fun lf' => String.eqb lf'.1.1 lf.1.1) lfs = Some lf.
Proof.
  induction lfs as [|lf' lfs IH]; intros Hnd Hin; [by apply elem_of_nil in Hin|].
  cbn [map find] in *. apply NoDup_cons in Hnd as [Hni Hnd].
  apply elem_of_cons in Hin as [->|Hin]; [by rewrite String.eqb_refl|].
  destruct (String.eqb_spec lf'.1.1 lf.1.1) as [Heq|_]; [|by apply IH].
  destruct Hni. rewrite Heq. by apply (list_elem_of_fmap_2 (fun lf : leaf => lf.1.1)).
Qed.

(** The fields of a structure with elements in the range of their types. *)
Definition field_ok (pk : packet) (lf : leaf) : Prop :=
  exists l, pk !! lf.1.1 = Some l /\ length l = lf.2 /\ Forall (fun v => 0 <= v < 256 ^ Z.of_nat lf.1.2) l.

Lemma field_ok_elements pk lf : field_ok pk lf -> Some (leaf_elements pk lf) = pk !! lf.1.1.
Proof.
  intros (l & Hl & Hlen & Hr). rewrite Hl. f_equal. unfold leaf_elements, pkt_get. rewrite Hl. cbn [default id].
  rewrite <- Hlen. clear Hl Hlen. induction Hr as [|v l Hv _ IH]; [done|]. cbn [length seq map nth].
  rewrite Z.mod_small by done. f_equal. rewrite <- seq_shift, map_map. exact IH.
Qed.

(** A structure without gaps that the decoder handles whole. *)
Lemma codec_law env name pk b b' pk0 rest (lfs := leaves encoder_calls env name "") :
  packed encoder_calls env = true -> packed decoder_calls env = true ->
  declared env name = true -> leaves decoder_calls env name "" = lfs ->
  NoDup (map (fun lf => lf.1.1) lfs) -> sizeof env name = Z.of_nat (leaves_size lfs) ->
  writable b -> sizeof env name <= pb_plen b -> Forall (field_ok pk) lfs ->
  exists v, Z.of_nat (length v) = sizeof env name /\ v = wire pk lfs /\
    encode env name "" pk b = Done (LAGOPUS_RESULT_OK, put v b) /\
    (unread b' (v ++ rest) ->
     exists q, decode env name "" (b', pk0) = Done (LAGOPUS_RESULT_OK, (adv (length v) b', q)) /\
       unread (adv (length v) b') rest /\
       (forall lf, lf ∈ lfs -> q !! lf.1.1 = pk !! lf.1.1) /\
       wire q lfs = v).
Proof.
  intros Henc Hpd Hd Hdec Hnd Hsz Hw Hs Hok.
  pose proof (length_wire pk lfs) as Hlen. pose proof (bytes_ok_wire pk lfs) as Hb.
  exists (wire pk lfs). split_and!; [lia|done|by apply encode_put|].
  intros Hu. exists (absorb lfs (wire pk lfs) pk0). split_and!.
  - pose proof (decode_adv env name "" b' pk0 (wire pk lfs) rest) as H. rewrite Hdec in H.
    apply H; try done. destruct Hu as (_ & -> & _). rewrite length_app. lia.
  - by apply unread_adv.
  - intros lf Hin. rewrite absorb_wire by done. rewrite Forall_forall in Hok.
    rewrite <- (field_ok_elements pk lf) by (by apply Hok). by rewrite (find_leaf lfs lf).
  - by apply wire_absorb.
Qed.
