(* ===== verification/OpenFlowH.v ===== *)
(** * The structures of the protocol ([src/include/openflow13.h])

    The declarations the generator reads, and the encoders and decoders it makes of them. *)
From S2P Require Import Prelude Monad Pbuf Generator.
From stdpp Require Import strings.

#[local] Open Scope string_scope.

(** The identifiers of array sizes the generator knows. *)
Definition OFP_ETH_ALEN : nat := 6.
Definition OFP_MAX_PORT_NAME_LEN : nat := 16.
Definition OFPMT_STANDARD_LENGTH : nat := 88.
Definition DESC_STR_LEN : nat := 256.
Definition SERIAL_NUM_LEN : nat := 32.
Definition OFP_MAX_TABLE_NAME_LEN : nat := 32.

Definition struct_ofp_header : exp_list := ExpList "ofp_header"
  [EXP_TYPE_DECLARATION "uint8_t" "version";
   EXP_TYPE_DECLARATION "uint8_t" "type";
   EXP_TYPE_DECLARATION "uint16_t" "length";
   EXP_TYPE_DECLARATION "uint32_t" "xid"].
Definition struct_ofp_hello_elem_header : exp_list := ExpList "ofp_hello_elem_header"
  [EXP_TYPE_DECLARATION "uint16_t" "type";
   EXP_TYPE_DECLARATION "uint16_t" "length"].
Definition struct_ofp_hello_elem_versionbitmap : exp_list := ExpList "ofp_hello_elem_versionbitmap"
  [EXP_TYPE_DECLARATION "uint16_t" "type";
   EXP_TYPE_DECLARATION "uint16_t" "length";
   EXP_TYPE_ARRAY_DECLARATION "uint32_t" "bitmaps" 0].
Definition struct_ofp_ed_prop_portname : exp_list := ExpList "ofp_ed_prop_portname"
  [EXP_TYPE_DECLARATION "uint16_t" "type";
   EXP_TYPE_DECLARATION "uint16_t" "len";
   EXP_TYPE_DECLARATION "uint16_t" "port_flags";
   EXP_TYPE_ARRAY_DECLARATION "uint8_t" "pad" 2;
   EXP_TYPE_ARRAY_DECLARATION "uint8_t" "name" OFP_MAX_PORT_NAME_LEN].
Definition struct_ofp_action_sequence : exp_list := ExpList "ofp_action_sequence"
  [EXP_TYPE_DECLARATION "uint16_t" "type";
   EXP_TYPE_DECLARATION "uint16_t" "len";
   EXP_TYPE_DECLARATION "uint32_t" "field"].
Definition struct_ofp_port : exp_list := ExpList "ofp_port"
  [EXP_TYPE_DECLARATION "uint32_t" "port_no";
   EXP_TYPE_ARRAY_DECLARATION "uint8_t" "pad" 4;
   EXP_TYPE_ARRAY_DECLARATION "uint8_t" "hw_addr" OFP_ETH_ALEN;
   EXP_TYPE_ARRAY_DECLARATION "uint8_t" "pad2" 2;
   EXP_TYPE_ARRAY_DECLARATION "char" "name" OFP_MAX_PORT_NAME_LEN;
   EXP_TYPE_DECLARATION "uint32_t" "config";
   EXP_TYPE_DECLARATION "uint32_t" "state";
   EXP_TYPE_DECLARATION "uint32_t" "curr";
   EXP_TYPE_DECLARATION "uint32_t" "advertised";
   EXP_TYPE_DECLARATION "uint32_t" "supported";
   EXP_TYPE_DECLARATION "uint32_t" "peer";
   EXP_TYPE_DECLARATION "uint32_t" "curr_speed";
   EXP_TYPE_DECLARATION "uint32_t" "max_speed"].
Definition struct_ofp_queue_prop_header : exp_list := ExpList "ofp_queue_prop_header"
  [EXP_TYPE_DECLARATION "uint16_t" "property";
   EXP_TYPE_DECLARATION "uint16_t" "len";
   EXP_TYPE_ARRAY_DECLARATION "uint8_t" "pad" 4].
Definition struct_ofp_packet_queue : exp_list := ExpList "ofp_packet_queue"
  [EXP_TYPE_DECLARATION "uint32_t" "queue_id";
   EXP_TYPE_DECLARATION "uint32_t" "port";
   EXP_TYPE_DECLARATION "uint16_t" "len";
   EXP_TYPE_ARRAY_DECLARATION "uint8_t" "pad" 6;
   EXP_TYPE_ARRAY_STRUCT_DECLARATION "ofp_queue_prop_header" "properties" 0].
Definition struct_ofp_queue_prop_min_rate : exp_list := ExpList "ofp_queue_prop_min_rate"
  [EXP_TYPE_STRUCT_DECLARATION "ofp_queue_prop_header" "prop_header";
   EXP_TYPE_DECLARATION "uint16_t" "rate";
   EXP_TYPE_ARRAY_DECLARATION "uint8_t" "pad" 6].
Definition struct_ofp_queue_prop_max_rate : exp_list := ExpList "ofp_queue_prop_max_rate"
  [EXP_TYPE_STRUCT_DECLARATION "ofp_queue_prop_header" "prop_header";
   EXP_TYPE_DECLARATION "uint16_t" "rate";
   EXP_TYPE_ARRAY_DECLARATION "uint8_t" "pad" 6].
Definition struct_ofp_queue_prop_experimenter : exp_list := ExpList "ofp_queue_prop_experimenter"
  [EXP_TYPE_STRUCT_DECLARATION "ofp_queue_prop_header" "prop_header";
   EXP_TYPE_DECLARATION "uint32_t" "experimenter";
   EXP_TYPE_ARRAY_DECLARATION "uint8_t" "pad" 4;
   EXP_TYPE_ARRAY_DECLARATION "uint8_t" "data" 0].
Definition struct_ofp_match : exp_list := ExpList "ofp_match"
  [EXP_TYPE_DECLARATION "uint16_t" "type";
   EXP_TYPE_DECLARATION "uint16_t" "length";
   EXP_TYPE_ARRAY_DECLARATION "uint8_t" "oxm_fields" 0;
   EXP_TYPE_ARRAY_DECLARATION "uint8_t" "pad" 4].
Definition struct_ofp_oxm_experimenter_header : exp_list := ExpList "ofp_oxm_experimenter_header"
  [EXP_TYPE_DECLARATION "uint32_t" "oxm_header";
   EXP_TYPE_DECLARATION "uint32_t" "experimenter"].
Definition struct_ofp_instruction : exp_list := ExpList "ofp_instruction"
  [EXP_TYPE_DECLARATION "uint16_t" "type";
   EXP_TYPE_DECLARATION "uint16_t" "len"].
Definition struct_ofp_instruction_goto_table : exp_list := ExpList "ofp_instruction_goto_table"
  [EXP_TYPE_DECLARATION "uint16_t" "type";
   EXP_TYPE_DECLARATION "uint16_t" "len";
   EXP_TYPE_DECLARATION "uint8_t" "table_id";
   EXP_TYPE_ARRAY_DECLARATION "uint8_t" "pad" 3].
Definition struct_ofp_instruction_write_metadata : exp_list := ExpList "ofp_instruction_write_metadata"
  [EXP_TYPE_DECLARATION "uint16_t" "type";
   EXP_TYPE_DECLARATION "uint16_t" "len";
   EXP_TYPE_ARRAY_DECLARATION "uint8_t" "pad" 4;
   EXP_TYPE_DECLARATION "uint64_t" "metadata";
   EXP_TYPE_DECLARATION "uint64_t" "metadata_mask"].
Definition struct_ofp_action_header : exp_list := ExpList "ofp_action_header"
  [EXP_TYPE_DECLARATION "uint16_t" "type";
   EXP_TYPE_DECLARATION "uint16_t" "len";
   EXP_TYPE_ARRAY_DECLARATION "uint8_t" "pad" 4].
Definition struct_ofp_instruction_actions : exp_list := ExpList "ofp_instruction_actions"
  [EXP_TYPE_DECLARATION "uint16_t" "type";
   EXP_TYPE_DECLARATION "uint16_t" "len";
   EXP_TYPE_ARRAY_DECLARATION "uint8_t" "pad" 4;
   EXP_TYPE_ARRAY_STRUCT_DECLARATION "ofp_action_header" "actions" 0].
Definition struct_ofp_instruction_meter : exp_list := ExpList "ofp_instruction_meter"
  [EXP_TYPE_DECLARATION "uint16_t" "type";
   EXP_TYPE_DECLARATION "uint16_t" "len";
   EXP_TYPE_DECLARATION "uint32_t" "meter_id"].
Definition struct_ofp_instruction_experimenter : exp_list := ExpList "ofp_instruction_experimenter"
  [EXP_TYPE_DECLARATION "uint16_t" "type";
   EXP_TYPE_DECLARATION "uint16_t" "len";
   EXP_TYPE_DECLARATION "uint32_t" "experimenter"].
Definition struct_ofp_action_output : exp_list := ExpList "ofp_action_output"
  [EXP_TYPE_DECLARATION "uint16_t" "type";
   EXP_TYPE_DECLARATION "uint16_t" "len";
   EXP_TYPE_DECLARATION "uint32_t" "port";
   EXP_TYPE_DECLARATION "uint16_t" "max_len";
   EXP_TYPE_ARRAY_DECLARATION "uint8_t" "pad" 6].
Definition struct_ofp_action_group : exp_list := ExpList "ofp_action_group"
  [EXP_TYPE_DECLARATION "uint16_t" "type";
   EXP_TYPE_DECLARATION "uint16_t" "len";
   EXP_TYPE_DECLARATION "uint32_t" "group_id"].
Definition struct_ofp_action_set_queue : exp_list := ExpList "ofp_action_set_queue"
  [EXP_TYPE_DECLARATION "uint16_t" "type";
   EXP_TYPE_DECLARATION "uint16_t" "len";
   EXP_TYPE_DECLARATION "uint32_t" "queue_id"].
Definition struct_ofp_action_mpls_ttl : exp_list := ExpList "ofp_action_mpls_ttl"
  [EXP_TYPE_DECLARATION "uint16_t" "type";
   EXP_TYPE_DECLARATION "uint16_t" "len";
   EXP_TYPE_DECLARATION "uint8_t" "mpls_ttl";
   EXP_TYPE_ARRAY_DECLARATION "uint8_t" "pad" 3].
Definition struct_ofp_action_generic : exp_list := ExpList "ofp_action_generic"
  [EXP_TYPE_DECLARATION "uint16_t" "type";
   EXP_TYPE_DECLARATION "uint16_t" "len";
   EXP_TYPE_ARRAY_DECLARATION "uint8_t" "pad" 4].
Definition struct_ofp_action_nw_ttl : exp_list := ExpList "ofp_action_nw_ttl"
  [EXP_TYPE_DECLARATION "uint16_t" "type";
   EXP_TYPE_DECLARATION "uint16_t" "len";
   EXP_TYPE_DECLARATION "uint8_t" "nw_ttl";
   EXP_TYPE_ARRAY_DECLARATION "uint8_t" "pad" 3].
Definition struct_ofp_action_push : exp_list := ExpList "ofp_action_push"
  [EXP_TYPE_DECLARATION "uint16_t" "type";
   EXP_TYPE_DECLARATION "uint16_t" "len";
   EXP_TYPE_DECLARATION "uint16_t" "ethertype";
   EXP_TYPE_ARRAY_DECLARATION "uint8_t" "pad" 2].
Definition struct_ofp_action_pop_mpls : exp_list := ExpList "ofp_action_pop_mpls"
  [EXP_TYPE_DECLARATION "uint16_t" "type";
   EXP_TYPE_DECLARATION "uint16_t" "len";
   EXP_TYPE_DECLARATION "uint16_t" "ethertype";
   EXP_TYPE_ARRAY_DECLARATION "uint8_t" "pad" 2].
Definition struct_ofp_action_set_field : exp_list := ExpList "ofp_action_set_field"
  [EXP_TYPE_DECLARATION "uint16_t" "type";
   EXP_TYPE_DECLARATION "uint16_t" "len";
   EXP_TYPE_ARRAY_DECLARATION "uint8_t" "field" 4].
Definition struct_ofp_ed_prop_header : exp_list := ExpList "ofp_ed_prop_header"
  [EXP_TYPE_DECLARATION "uint16_t" "type";
   EXP_TYPE_DECLARATION "uint16_t" "len"].
Definition struct_ofp_action_encap : exp_list := ExpList "ofp_action_encap"
  [EXP_TYPE_DECLARATION "uint16_t" "type";
   EXP_TYPE_DECLARATION "uint16_t" "len";
   EXP_TYPE_DECLARATION "uint32_t" "packet_type";
   EXP_TYPE_ARRAY_STRUCT_DECLARATION "ofp_ed_prop_header" "props" 0].
Definition struct_ofp_action_decap : exp_list := ExpList "ofp_action_decap"
  [EXP_TYPE_DECLARATION "uint16_t" "type";
   EXP_TYPE_DECLARATION "uint16_t" "len";
   EXP_TYPE_DECLARATION "uint32_t" "cur_pkt_type";
   EXP_TYPE_DECLARATION "uint32_t" "new_pkt_type";
   EXP_TYPE_ARRAY_DECLARATION "uint8_t" "pad" 4;
   EXP_TYPE_ARRAY_STRUCT_DECLARATION "ofp_ed_prop_header" "props" 0].
Definition struct_ofp_action_experimenter_header : exp_list := ExpList "ofp_action_experimenter_header"
  [EXP_TYPE_DECLARATION "uint16_t" "type";
   EXP_TYPE_DECLARATION "uint16_t" "len";
   EXP_TYPE_DECLARATION "uint32_t" "experimenter"].
Definition struct_ofp_hello : exp_list := ExpList "ofp_hello"
  [EXP_TYPE_STRUCT_DECLARATION "ofp_header" "header";
   EXP_TYPE_ARRAY_STRUCT_DECLARATION "ofp_hello_elem_header" "elements" 0].
Definition struct_ofp_switch_features : exp_list := ExpList "ofp_switch_features"
  [EXP_TYPE_STRUCT_DECLARATION "ofp_header" "header";
   EXP_TYPE_DECLARATION "uint64_t" "datapath_id";
   EXP_TYPE_DECLARATION "uint32_t" "n_buffers";
   EXP_TYPE_DECLARATION "uint8_t" "n_tables";
   EXP_TYPE_DECLARATION "uint8_t" "auxiliary_id";
   EXP_TYPE_ARRAY_DECLARATION "uint8_t" "pad" 2;
   EXP_TYPE_DECLARATION "uint32_t" "capabilities";
   EXP_TYPE_DECLARATION "uint32_t" "reserved"].
Definition struct_ofp_switch_config : exp_list := ExpList "ofp_switch_config"
  [EXP_TYPE_STRUCT_DECLARATION "ofp_header" "header";
   EXP_TYPE_DECLARATION "uint16_t" "flags";
   EXP_TYPE_DECLARATION "uint16_t" "miss_send_len"].
Definition struct_ofp_table_mod : exp_list := ExpList "ofp_table_mod"
  [EXP_TYPE_STRUCT_DECLARATION "ofp_header" "header";
   EXP_TYPE_DECLARATION "uint8_t" "table_id";
   EXP_TYPE_ARRAY_DECLARATION "uint8_t" "pad" 3;
   EXP_TYPE_DECLARATION "uint32_t" "config"].
Definition struct_ofp_flow_mod : exp_list := ExpList "ofp_flow_mod"
  [EXP_TYPE_STRUCT_DECLARATION "ofp_header" "header";
   EXP_TYPE_DECLARATION "uint64_t" "cookie";
   EXP_TYPE_DECLARATION "uint64_t" "cookie_mask";
   EXP_TYPE_DECLARATION "uint8_t" "table_id";
   EXP_TYPE_DECLARATION "uint8_t" "command";
   EXP_TYPE_DECLARATION "uint16_t" "idle_timeout";
   EXP_TYPE_DECLARATION "uint16_t" "hard_timeout";
   EXP_TYPE_DECLARATION "uint16_t" "priority";
   EXP_TYPE_DECLARATION "uint32_t" "buffer_id";
   EXP_TYPE_DECLARATION "uint32_t" "out_port";
   EXP_TYPE_DECLARATION "uint32_t" "out_group";
   EXP_TYPE_DECLARATION "uint16_t" "flags";
   EXP_TYPE_ARRAY_DECLARATION "uint8_t" "pad" 2;
   EXP_TYPE_STRUCT_DECLARATION "ofp_match" "match"].
Definition struct_ofp_bucket : exp_list := ExpList "ofp_bucket"
  [EXP_TYPE_DECLARATION "uint16_t" "len";
   EXP_TYPE_DECLARATION "uint16_t" "weight";
   EXP_TYPE_DECLARATION "uint32_t" "watch_port";
   EXP_TYPE_DECLARATION "uint32_t" "watch_group";
   EXP_TYPE_ARRAY_DECLARATION "uint8_t" "pad" 4;
   EXP_TYPE_ARRAY_STRUCT_DECLARATION "ofp_action_header" "actions" 0].
Definition struct_ofp_group_mod : exp_list := ExpList "ofp_group_mod"
  [EXP_TYPE_STRUCT_DECLARATION "ofp_header" "header";
   EXP_TYPE_DECLARATION "uint16_t" "command";
   EXP_TYPE_DECLARATION "uint8_t" "type";
   EXP_TYPE_DECLARATION "uint8_t" "pad";
   EXP_TYPE_DECLARATION "uint32_t" "group_id";
   EXP_TYPE_ARRAY_STRUCT_DECLARATION "ofp_bucket" "buckets" 0].
Definition struct_ofp_port_mod : exp_list := ExpList "ofp_port_mod"
  [EXP_TYPE_STRUCT_DECLARATION "ofp_header" "header";
   EXP_TYPE_DECLARATION "uint32_t" "port_no";
   EXP_TYPE_ARRAY_DECLARATION "uint8_t" "pad" 4;
   EXP_TYPE_ARRAY_DECLARATION "uint8_t" "hw_addr" OFP_ETH_ALEN;
   EXP_TYPE_ARRAY_DECLARATION "uint8_t" "pad2" 2;
   EXP_TYPE_DECLARATION "uint32_t" "config";
   EXP_TYPE_DECLARATION "uint32_t" "mask";
   EXP_TYPE_DECLARATION "uint32_t" "advertise";
   EXP_TYPE_ARRAY_DECLARATION "uint8_t" "pad3" 4].
Definition struct_ofp_header_type : exp_list := ExpList "ofp_header_type"
  [EXP_TYPE_DECLARATION "uint16_t" "namespace";
   EXP_TYPE_DECLARATION "uint16_t" "ns_type"].
Definition struct_ofp_multipart_request : exp_list := ExpList "ofp_multipart_request"
  [EXP_TYPE_STRUCT_DECLARATION "ofp_header" "header";
   EXP_TYPE_DECLARATION "uint16_t" "type";
   EXP_TYPE_DECLARATION "uint16_t" "flags";
   EXP_TYPE_ARRAY_DECLARATION "uint8_t" "pad" 4;
   EXP_TYPE_ARRAY_DECLARATION "uint8_t" "body" 0].
Definition struct_ofp_multipart_reply : exp_list := ExpList "ofp_multipart_reply"
  [EXP_TYPE_STRUCT_DECLARATION "ofp_header" "header";
   EXP_TYPE_DECLARATION "uint16_t" "type";
   EXP_TYPE_DECLARATION "uint16_t" "flags";
   EXP_TYPE_ARRAY_DECLARATION "uint8_t" "pad" 4;
   EXP_TYPE_ARRAY_DECLARATION "uint8_t" "body" 0].
Definition struct_ofp_desc : exp_list := ExpList "ofp_desc"
  [EXP_TYPE_ARRAY_DECLARATION "char" "mfr_desc" DESC_STR_LEN;
   EXP_TYPE_ARRAY_DECLARATION "char" "hw_desc" DESC_STR_LEN;
   EXP_TYPE_ARRAY_DECLARATION "char" "sw_desc" DESC_STR_LEN;
   EXP_TYPE_ARRAY_DECLARATION "char" "serial_num" SERIAL_NUM_LEN;
   EXP_TYPE_ARRAY_DECLARATION "char" "dp_desc" DESC_STR_LEN].
Definition struct_ofp_flow_stats_request : exp_list := ExpList "ofp_flow_stats_request"
  [EXP_TYPE_DECLARATION "uint8_t" "table_id";
   EXP_TYPE_ARRAY_DECLARATION "uint8_t" "pad" 3;
   EXP_TYPE_DECLARATION "uint32_t" "out_port";
   EXP_TYPE_DECLARATION "uint32_t" "out_group";
   EXP_TYPE_ARRAY_DECLARATION "uint8_t" "pad2" 4;
   EXP_TYPE_DECLARATION "uint64_t" "cookie";
   EXP_TYPE_DECLARATION "uint64_t" "cookie_mask";
   EXP_TYPE_STRUCT_DECLARATION "ofp_match" "match"].
Definition struct_ofp_flow_stats : exp_list := ExpList "ofp_flow_stats"
  [EXP_TYPE_DECLARATION "uint16_t" "length";
   EXP_TYPE_DECLARATION "uint8_t" "table_id";
   EXP_TYPE_DECLARATION "uint8_t" "pad";
   EXP_TYPE_DECLARATION "uint32_t" "duration_sec";
   EXP_TYPE_DECLARATION "uint32_t" "duration_nsec";
   EXP_TYPE_DECLARATION "uint16_t" "priority";
   EXP_TYPE_DECLARATION "uint16_t" "idle_timeout";
   EXP_TYPE_DECLARATION "uint16_t" "hard_timeout";
   EXP_TYPE_DECLARATION "uint16_t" "flags";
   EXP_TYPE_ARRAY_DECLARATION "uint8_t" "pad2" 4;
   EXP_TYPE_DECLARATION "uint64_t" "cookie";
   EXP_TYPE_DECLARATION "uint64_t" "packet_count";
   EXP_TYPE_DECLARATION "uint64_t" "byte_count"].
Definition struct_ofp_aggregate_stats_request : exp_list := ExpList "ofp_aggregate_stats_request"
  [EXP_TYPE_DECLARATION "uint8_t" "table_id";
   EXP_TYPE_ARRAY_DECLARATION "uint8_t" "pad" 3;
   EXP_TYPE_DECLARATION "uint32_t" "out_port";
   EXP_TYPE_DECLARATION "uint32_t" "out_group";
   EXP_TYPE_ARRAY_DECLARATION "uint8_t" "pad2" 4;
   EXP_TYPE_DECLARATION "uint64_t" "cookie";
   EXP_TYPE_DECLARATION "uint64_t" "cookie_mask";
   EXP_TYPE_STRUCT_DECLARATION "ofp_match" "match"].
Definition struct_ofp_aggregate_stats_reply : exp_list := ExpList "ofp_aggregate_stats_reply"
  [EXP_TYPE_DECLARATION "uint64_t" "packet_count";
   EXP_TYPE_DECLARATION "uint64_t" "byte_count";
   EXP_TYPE_DECLARATION "uint32_t" "flow_count";
   EXP_TYPE_ARRAY_DECLARATION "uint8_t" "pad" 4].
Definition struct_ofp_table_stats : exp_list := ExpList "ofp_table_stats"
  [EXP_TYPE_DECLARATION "uint8_t" "table_id";
   EXP_TYPE_ARRAY_DECLARATION "uint8_t" "pad" 3;
   EXP_TYPE_DECLARATION "uint32_t" "active_count";
   EXP_TYPE_DECLARATION "uint64_t" "lookup_count";
   EXP_TYPE_DECLARATION "uint64_t" "matched_count"].
Definition struct_ofp_port_stats_request : exp_list := ExpList "ofp_port_stats_request"
  [EXP_TYPE_DECLARATION "uint32_t" "port_no";
   EXP_TYPE_ARRAY_DECLARATION "uint8_t" "pad" 4].
Definition struct_ofp_port_stats : exp_list := ExpList "ofp_port_stats"
  [EXP_TYPE_DECLARATION "uint32_t" "port_no";
   EXP_TYPE_ARRAY_DECLARATION "uint8_t" "pad" 4;
   EXP_TYPE_DECLARATION "uint64_t" "rx_packets";
   EXP_TYPE_DECLARATION "uint64_t" "tx_packets";
   EXP_TYPE_DECLARATION "uint64_t" "rx_bytes";
   EXP_TYPE_DECLARATION "uint64_t" "tx_bytes";
   EXP_TYPE_DECLARATION "uint64_t" "rx_dropped";
   EXP_TYPE_DECLARATION "uint64_t" "tx_dropped";
   EXP_TYPE_DECLARATION "uint64_t" "rx_errors";
   EXP_TYPE_DECLARATION "uint64_t" "tx_errors";
   EXP_TYPE_DECLARATION "uint64_t" "rx_frame_err";
   EXP_TYPE_DECLARATION "uint64_t" "rx_over_err";
   EXP_TYPE_DECLARATION "uint64_t" "rx_crc_err";
   EXP_TYPE_DECLARATION "uint64_t" "collisions";
   EXP_TYPE_DECLARATION "uint32_t" "duration_sec";
   EXP_TYPE_DECLARATION "uint32_t" "duration_nsec"].
Definition struct_ofp_queue_stats_request : exp_list := ExpList "ofp_queue_stats_request"
  [EXP_TYPE_DECLARATION "uint32_t" "port_no";
   EXP_TYPE_DECLARATION "uint32_t" "queue_id"].
Definition struct_ofp_queue_stats : exp_list := ExpList "ofp_queue_stats"
  [EXP_TYPE_DECLARATION "uint32_t" "port_no";
   EXP_TYPE_DECLARATION "uint32_t" "queue_id";
   EXP_TYPE_DECLARATION "uint64_t" "tx_bytes";
   EXP_TYPE_DECLARATION "uint64_t" "tx_packets";
   EXP_TYPE_DECLARATION "uint64_t" "tx_errors";
   EXP_TYPE_DECLARATION "uint32_t" "duration_sec";
   EXP_TYPE_DECLARATION "uint32_t" "duration_nsec"].
Definition struct_ofp_group_stats_request : exp_list := ExpList "ofp_group_stats_request"
  [EXP_TYPE_DECLARATION "uint32_t" "group_id";
   EXP_TYPE_ARRAY_DECLARATION "uint8_t" "pad" 4].
Definition struct_ofp_bucket_counter : exp_list := ExpList "ofp_bucket_counter"
  [EXP_TYPE_DECLARATION "uint64_t" "packet_count";
   EXP_TYPE_DECLARATION "uint64_t" "byte_count"].
Definition struct_ofp_group_stats : exp_list := ExpList "ofp_group_stats"
  [EXP_TYPE_DECLARATION "uint16_t" "length";
   EXP_TYPE_ARRAY_DECLARATION "uint8_t" "pad" 2;
   EXP_TYPE_DECLARATION "uint32_t" "group_id";
   EXP_TYPE_DECLARATION "uint32_t" "ref_count";
   EXP_TYPE_ARRAY_DECLARATION "uint8_t" "pad2" 4;
   EXP_TYPE_DECLARATION "uint64_t" "packet_count";
   EXP_TYPE_DECLARATION "uint64_t" "byte_count";
   EXP_TYPE_DECLARATION "uint32_t" "duration_sec";
   EXP_TYPE_DECLARATION "uint32_t" "duration_nsec";
   EXP_TYPE_ARRAY_STRUCT_DECLARATION "ofp_bucket_counter" "bucket_stats" 0].
Definition struct_ofp_group_desc : exp_list := ExpList "ofp_group_desc"
  [EXP_TYPE_DECLARATION "uint16_t" "length";
   EXP_TYPE_DECLARATION "uint8_t" "type";
   EXP_TYPE_DECLARATION "uint8_t" "pad";
   EXP_TYPE_DECLARATION "uint32_t" "group_id";
   EXP_TYPE_ARRAY_STRUCT_DECLARATION "ofp_bucket" "buckets" 0].
Definition struct_ofp_group_features : exp_list := ExpList "ofp_group_features"
  [EXP_TYPE_DECLARATION "uint32_t" "types";
   EXP_TYPE_DECLARATION "uint32_t" "capabilities";
   EXP_TYPE_ARRAY_DECLARATION "uint32_t" "max_groups" 4;
   EXP_TYPE_ARRAY_DECLARATION "uint32_t" "actions" 4].
Definition struct_ofp_experimenter_stats_header : exp_list := ExpList "ofp_experimenter_stats_header"
  [EXP_TYPE_DECLARATION "uint32_t" "experimenter";
   EXP_TYPE_DECLARATION "uint32_t" "exp_type"].
Definition struct_ofp_queue_get_config_request : exp_list := ExpList "ofp_queue_get_config_request"
  [EXP_TYPE_STRUCT_DECLARATION "ofp_header" "header";
   EXP_TYPE_DECLARATION "uint32_t" "port";
   EXP_TYPE_ARRAY_DECLARATION "uint8_t" "pad" 4].
Definition struct_ofp_queue_get_config_reply : exp_list := ExpList "ofp_queue_get_config_reply"
  [EXP_TYPE_STRUCT_DECLARATION "ofp_header" "header";
   EXP_TYPE_DECLARATION "uint32_t" "port";
   EXP_TYPE_ARRAY_DECLARATION "uint8_t" "pad" 4;
   EXP_TYPE_ARRAY_STRUCT_DECLARATION "ofp_packet_queue" "queues" 0].
Definition struct_ofp_packet_out : exp_list := ExpList "ofp_packet_out"
  [EXP_TYPE_STRUCT_DECLARATION "ofp_header" "header";
   EXP_TYPE_DECLARATION "uint32_t" "buffer_id";
   EXP_TYPE_DECLARATION "uint32_t" "in_port";
   EXP_TYPE_DECLARATION "uint16_t" "actions_len";
   EXP_TYPE_ARRAY_DECLARATION "uint8_t" "pad" 6;
   EXP_TYPE_ARRAY_STRUCT_DECLARATION "ofp_action_header" "actions" 0].
Definition struct_ofp_role_request : exp_list := ExpList "ofp_role_request"
  [EXP_TYPE_STRUCT_DECLARATION "ofp_header" "header";
   EXP_TYPE_DECLARATION "uint32_t" "role";
   EXP_TYPE_ARRAY_DECLARATION "uint8_t" "pad" 4;
   EXP_TYPE_DECLARATION "uint64_t" "generation_id"].
Definition struct_ofp_async_config : exp_list := ExpList "ofp_async_config"
  [EXP_TYPE_STRUCT_DECLARATION "ofp_header" "header";
   EXP_TYPE_ARRAY_DECLARATION "uint32_t" "packet_in_mask" 2;
   EXP_TYPE_ARRAY_DECLARATION "uint32_t" "port_status_mask" 2;
   EXP_TYPE_ARRAY_DECLARATION "uint32_t" "flow_removed_mask" 2].
Definition struct_ofp_packet_in : exp_list := ExpList "ofp_packet_in"
  [EXP_TYPE_STRUCT_DECLARATION "ofp_header" "header";
   EXP_TYPE_DECLARATION "uint32_t" "buffer_id";
   EXP_TYPE_DECLARATION "uint16_t" "total_len";
   EXP_TYPE_DECLARATION "uint8_t" "reason";
   EXP_TYPE_DECLARATION "uint8_t" "table_id";
   EXP_TYPE_DECLARATION "uint64_t" "cookie"].
Definition struct_ofp_flow_removed : exp_list := ExpList "ofp_flow_removed"
  [EXP_TYPE_STRUCT_DECLARATION "ofp_header" "header";
   EXP_TYPE_DECLARATION "uint64_t" "cookie";
   EXP_TYPE_DECLARATION "uint16_t" "priority";
   EXP_TYPE_DECLARATION "uint8_t" "reason";
   EXP_TYPE_DECLARATION "uint8_t" "table_id";
   EXP_TYPE_DECLARATION "uint32_t" "duration_sec";
   EXP_TYPE_DECLARATION "uint32_t" "duration_nsec";
   EXP_TYPE_DECLARATION "uint16_t" "idle_timeout";
   EXP_TYPE_DECLARATION "uint16_t" "hard_timeout";
   EXP_TYPE_DECLARATION "uint64_t" "packet_count";
   EXP_TYPE_DECLARATION "uint64_t" "byte_count"].
Definition struct_ofp_port_status : exp_list := ExpList "ofp_port_status"
  [EXP_TYPE_STRUCT_DECLARATION "ofp_header" "header";
   EXP_TYPE_DECLARATION "uint8_t" "reason";
   EXP_TYPE_ARRAY_DECLARATION "uint8_t" "pad" 7;
   EXP_TYPE_STRUCT_DECLARATION "ofp_port" "desc"].
Definition struct_ofp_error_msg : exp_list := ExpList "ofp_error_msg"
  [EXP_TYPE_STRUCT_DECLARATION "ofp_header" "header";
   EXP_TYPE_DECLARATION "uint16_t" "type";
   EXP_TYPE_DECLARATION "uint16_t" "code";
   EXP_TYPE_ARRAY_DECLARATION "uint8_t" "data" 0].
Definition struct_ofp_error_experimenter_msg : exp_list := ExpList "ofp_error_experimenter_msg"
  [EXP_TYPE_STRUCT_DECLARATION "ofp_header" "header";
   EXP_TYPE_DECLARATION "uint16_t" "type";
   EXP_TYPE_DECLARATION "uint16_t" "exp_type";
   EXP_TYPE_DECLARATION "uint32_t" "experimenter";
   EXP_TYPE_ARRAY_DECLARATION "uint8_t" "data" 0].
Definition struct_ofp_experimenter_header : exp_list := ExpList "ofp_experimenter_header"
  [EXP_TYPE_STRUCT_DECLARATION "ofp_header" "header";
   EXP_TYPE_DECLARATION "uint32_t" "experimenter";
   EXP_TYPE_DECLARATION "uint32_t" "exp_type"].
Definition struct_ofp_meter_band_header : exp_list := ExpList "ofp_meter_band_header"
  [EXP_TYPE_DECLARATION "uint16_t" "type";
   EXP_TYPE_DECLARATION "uint16_t" "len";
   EXP_TYPE_DECLARATION "uint32_t" "rate";
   EXP_TYPE_DECLARATION "uint32_t" "burst_size"].
Definition struct_ofp_meter_mod : exp_list := ExpList "ofp_meter_mod"
  [EXP_TYPE_STRUCT_DECLARATION "ofp_header" "header";
   EXP_TYPE_DECLARATION "uint16_t" "command";
   EXP_TYPE_DECLARATION "uint16_t" "flags";
   EXP_TYPE_DECLARATION "uint32_t" "meter_id";
   EXP_TYPE_ARRAY_STRUCT_DECLARATION "ofp_meter_band_header" "bands" 0].
Definition struct_ofp_meter_band_drop : exp_list := ExpList "ofp_meter_band_drop"
  [EXP_TYPE_DECLARATION "uint16_t" "type";
   EXP_TYPE_DECLARATION "uint16_t" "len";
   EXP_TYPE_DECLARATION "uint32_t" "rate";
   EXP_TYPE_DECLARATION "uint32_t" "burst_size";
   EXP_TYPE_ARRAY_DECLARATION "uint8_t" "pad" 4].
Definition struct_ofp_meter_band_dscp_remark : exp_list := ExpList "ofp_meter_band_dscp_remark"
  [EXP_TYPE_DECLARATION "uint16_t" "type";
   EXP_TYPE_DECLARATION "uint16_t" "len";
   EXP_TYPE_DECLARATION "uint32_t" "rate";
   EXP_TYPE_DECLARATION "uint32_t" "burst_size";
   EXP_TYPE_DECLARATION "uint8_t" "prec_level";
   EXP_TYPE_ARRAY_DECLARATION "uint8_t" "pad" 3].
Definition struct_ofp_meter_band_experimenter : exp_list := ExpList "ofp_meter_band_experimenter"
  [EXP_TYPE_DECLARATION "uint16_t" "type";
   EXP_TYPE_DECLARATION "uint16_t" "len";
   EXP_TYPE_DECLARATION "uint32_t" "rate";
   EXP_TYPE_DECLARATION "uint32_t" "burst_size";
   EXP_TYPE_DECLARATION "uint32_t" "experimenter"].
Definition struct_ofp_table_feature_prop_header : exp_list := ExpList "ofp_table_feature_prop_header"
  [EXP_TYPE_DECLARATION "uint16_t" "type";
   EXP_TYPE_DECLARATION "uint16_t" "length"].
Definition struct_ofp_table_features : exp_list := ExpList "ofp_table_features"
  [EXP_TYPE_DECLARATION "uint16_t" "length";
   EXP_TYPE_DECLARATION "uint8_t" "table_id";
   EXP_TYPE_ARRAY_DECLARATION "uint8_t" "pad" 5;
   EXP_TYPE_ARRAY_DECLARATION "char" "name" OFP_MAX_TABLE_NAME_LEN;
   EXP_TYPE_DECLARATION "uint64_t" "metadata_match";
   EXP_TYPE_DECLARATION "uint64_t" "metadata_write";
   EXP_TYPE_DECLARATION "uint32_t" "config";
   EXP_TYPE_DECLARATION "uint32_t" "max_entries";
   EXP_TYPE_ARRAY_STRUCT_DECLARATION "ofp_table_feature_prop_header" "properties" 0].
Definition struct_ofp_table_feature_prop_instructions : exp_list := ExpList "ofp_table_feature_prop_instructions"
  [EXP_TYPE_DECLARATION "uint16_t" "type";
   EXP_TYPE_DECLARATION "uint16_t" "length";
   EXP_TYPE_ARRAY_STRUCT_DECLARATION "ofp_instruction" "instruction_ids" 0].
Definition struct_ofp_table_feature_prop_next_tables : exp_list := ExpList "ofp_table_feature_prop_next_tables"
  [EXP_TYPE_DECLARATION "uint16_t" "type";
   EXP_TYPE_DECLARATION "uint16_t" "length";
   EXP_TYPE_ARRAY_DECLARATION "uint8_t" "next_table_ids" 0].
Definition struct_ofp_table_feature_prop_actions : exp_list := ExpList "ofp_table_feature_prop_actions"
  [EXP_TYPE_DECLARATION "uint16_t" "type";
   EXP_TYPE_DECLARATION "uint16_t" "length";
   EXP_TYPE_ARRAY_STRUCT_DECLARATION "ofp_action_header" "action_ids" 0].
Definition struct_ofp_table_feature_prop_oxm : exp_list := ExpList "ofp_table_feature_prop_oxm"
  [EXP_TYPE_DECLARATION "uint16_t" "type";
   EXP_TYPE_DECLARATION "uint16_t" "length";
   EXP_TYPE_ARRAY_DECLARATION "uint32_t" "oxm_ids" 0].
Definition struct_ofp_table_feature_prop_oxm_values : exp_list := ExpList "ofp_table_feature_prop_oxm_values"
  [EXP_TYPE_DECLARATION "uint16_t" "type";
   EXP_TYPE_DECLARATION "uint16_t" "length";
   EXP_TYPE_ARRAY_DECLARATION "uint32_t" "oxm_values" 0].
Definition struct_ofp_table_feature_prop_experimenter : exp_list := ExpList "ofp_table_feature_prop_experimenter"
  [EXP_TYPE_DECLARATION "uint16_t" "type";
   EXP_TYPE_DECLARATION "uint16_t" "length";
   EXP_TYPE_DECLARATION "uint32_t" "experimenter";
   EXP_TYPE_DECLARATION "uint32_t" "exp_type";
   EXP_TYPE_ARRAY_DECLARATION "uint32_t" "experimenter_data" 0].
Definition struct_ofp_meter_multipart_request : exp_list := ExpList "ofp_meter_multipart_request"
  [EXP_TYPE_DECLARATION "uint32_t" "meter_id";
   EXP_TYPE_ARRAY_DECLARATION "uint8_t" "pad" 4].
Definition struct_ofp_meter_band_stats : exp_list := ExpList "ofp_meter_band_stats"
  [EXP_TYPE_DECLARATION "uint64_t" "packet_band_count";
   EXP_TYPE_DECLARATION "uint64_t" "byte_band_count"].
Definition struct_ofp_meter_stats : exp_list := ExpList "ofp_meter_stats"
  [EXP_TYPE_DECLARATION "uint32_t" "meter_id";
   EXP_TYPE_DECLARATION "uint16_t" "len";
   EXP_TYPE_ARRAY_DECLARATION "uint8_t" "pad" 6;
   EXP_TYPE_DECLARATION "uint32_t" "flow_count";
   EXP_TYPE_DECLARATION "uint64_t" "packet_in_count";
   EXP_TYPE_DECLARATION "uint64_t" "byte_in_count";
   EXP_TYPE_DECLARATION "uint32_t" "duration_sec";
   EXP_TYPE_DECLARATION "uint32_t" "duration_nsec";
   EXP_TYPE_ARRAY_STRUCT_DECLARATION "ofp_meter_band_stats" "band_stats" 0].
Definition struct_ofp_meter_config : exp_list := ExpList "ofp_meter_config"
  [EXP_TYPE_DECLARATION "uint16_t" "length";
   EXP_TYPE_DECLARATION "uint16_t" "flags";
   EXP_TYPE_DECLARATION "uint32_t" "meter_id";
   EXP_TYPE_ARRAY_STRUCT_DECLARATION "ofp_meter_band_header" "bands" 0].
Definition struct_ofp_meter_features : exp_list := ExpList "ofp_meter_features"
  [EXP_TYPE_DECLARATION "uint32_t" "max_meter";
   EXP_TYPE_DECLARATION "uint32_t" "band_types";
   EXP_TYPE_DECLARATION "uint32_t" "capabilities";
   EXP_TYPE_DECLARATION "uint8_t" "max_bands";
   EXP_TYPE_DECLARATION "uint8_t" "max_color";
   EXP_TYPE_ARRAY_DECLARATION "uint8_t" "pad" 2].
Definition struct_ofp_oxm : exp_list := ExpList "ofp_oxm"
  [EXP_TYPE_DECLARATION "uint16_t" "oxm_class";
   EXP_TYPE_DECLARATION "uint8_t" "oxm_field";
   EXP_TYPE_DECLARATION "uint8_t" "oxm_length";
   EXP_TYPE_ARRAY_DECLARATION "uint8_t" "oxm_value" 0].
Definition struct_ofp_tlv : exp_list := ExpList "ofp_tlv"
  [EXP_TYPE_DECLARATION "uint16_t" "type";
   EXP_TYPE_DECLARATION "uint16_t" "length"].
Definition struct_ofp_experimenter_multipart_header : exp_list := ExpList "ofp_experimenter_multipart_header"
  [EXP_TYPE_DECLARATION "uint32_t" "experimenter";
   EXP_TYPE_DECLARATION "uint32_t" "exp_type"].
Definition struct_ofp_experimenter_data : exp_list := ExpList "ofp_experimenter_data"
  [EXP_TYPE_DECLARATION "uint32_t" "data"].
Definition struct_ofp_oxm_id : exp_list := ExpList "ofp_oxm_id"
  [EXP_TYPE_DECLARATION "uint32_t" "id"].
Definition struct_ofp_next_table_id : exp_list := ExpList "ofp_next_table_id"
  [EXP_TYPE_DECLARATION "uint8_t" "id"].

(** The structures in the order the header declares them. *)
Definition openflow13_h : list exp_list :=
  [struct_ofp_header;
   struct_ofp_hello_elem_header;
   struct_ofp_hello_elem_versionbitmap;
   struct_ofp_ed_prop_portname;
   struct_ofp_action_sequence;
   struct_ofp_port;
   struct_ofp_queue_prop_header;
   struct_ofp_packet_queue;
   struct_ofp_queue_prop_min_rate;
   struct_ofp_queue_prop_max_rate;
   struct_ofp_queue_prop_experimenter;
   struct_ofp_match;
   struct_ofp_oxm_experimenter_header;
   struct_ofp_instruction;
   struct_ofp_instruction_goto_table;
   struct_ofp_instruction_write_metadata;
   struct_ofp_action_header;
   struct_ofp_instruction_actions;
   struct_ofp_instruction_meter;
   struct_ofp_instruction_experimenter;
   struct_ofp_action_output;
   struct_ofp_action_group;
   struct_ofp_action_set_queue;
   struct_ofp_action_mpls_ttl;
   struct_ofp_action_generic;
   struct_ofp_action_nw_ttl;
   struct_ofp_action_push;
   struct_ofp_action_pop_mpls;
   struct_ofp_action_set_field;
   struct_ofp_ed_prop_header;
   struct_ofp_action_encap;
   struct_ofp_action_decap;
   struct_ofp_action_experimenter_header;
   struct_ofp_hello;
   struct_ofp_switch_features;
   struct_ofp_switch_config;
   struct_ofp_table_mod;
   struct_ofp_flow_mod;
   struct_ofp_bucket;
   struct_ofp_group_mod;
   struct_ofp_port_mod;
   struct_ofp_header_type;
   struct_ofp_multipart_request;
   struct_ofp_multipart_reply;
   struct_ofp_desc;
   struct_ofp_flow_stats_request;
   struct_ofp_flow_stats;
   struct_ofp_aggregate_stats_request;
   struct_ofp_aggregate_stats_reply;
   struct_ofp_table_stats;
   struct_ofp_port_stats_request;
   struct_ofp_port_stats;
   struct_ofp_queue_stats_request;
   struct_ofp_queue_stats;
   struct_ofp_group_stats_request;
   struct_ofp_bucket_counter;
   struct_ofp_group_stats;
   struct_ofp_group_desc;
   struct_ofp_group_features;
   struct_ofp_experimenter_stats_header;
   struct_ofp_queue_get_config_request;
   struct_ofp_queue_get_config_reply;
   struct_ofp_packet_out;
   struct_ofp_role_request;
   struct_ofp_async_config;
   struct_ofp_packet_in;
   struct_ofp_flow_removed;
   struct_ofp_port_status;
   struct_ofp_error_msg;
   struct_ofp_error_experimenter_msg;
   struct_ofp_experimenter_header;
   struct_ofp_meter_band_header;
   struct_ofp_meter_mod;
   struct_ofp_meter_band_drop;
   struct_ofp_meter_band_dscp_remark;
   struct_ofp_meter_band_experimenter;
   struct_ofp_table_feature_prop_header;
   struct_ofp_table_features;
   struct_ofp_table_feature_prop_instructions;
   struct_ofp_table_feature_prop_next_tables;
   struct_ofp_table_feature_prop_actions;
   struct_ofp_table_feature_prop_oxm;
   struct_ofp_table_feature_prop_oxm_values;
   struct_ofp_table_feature_prop_experimenter;
   struct_ofp_meter_multipart_request;
   struct_ofp_meter_band_stats;
   struct_ofp_meter_stats;
   struct_ofp_meter_config;
   struct_ofp_meter_features;
   struct_ofp_oxm;
   struct_ofp_tlv;
   struct_ofp_experimenter_multipart_header;
   struct_ofp_experimenter_data;
   struct_ofp_oxm_id;
   struct_ofp_next_table_id].

Definition openflow13 : list exp_list := rev openflow13_h.
Close Scope string_scope.
#[local] Open Scope Z_scope.

(** ** The layout of the structures *)

Lemma openflow13_encoders : packed encoder_calls openflow13 = true.
Proof. vm_compute. reflexivity. Qed.
Lemma openflow13_decoders : packed decoder_calls openflow13 = true.
Proof. vm_compute. reflexivity. Qed.

Abbreviation fields := (leaves encoder_calls openflow13).
Abbreviation decoded_fields := (leaves decoder_calls openflow13).

Definition field_names (lfs : list leaf) : list string := map (fun lf => lf.1.1) lfs.

(** No structure has two fields of the same name, and none has gaps: it is as big as its fields. *)
Definition regular (name : string) : bool :=
  bool_decide (NoDup (field_names (fields name ""))) &&
  (sizeof openflow13 name =? Z.of_nat (leaves_size (fields name ""))).

Lemma openflow13_regular name : declared openflow13 name = true -> regular name = true.
Proof.
  assert (forallb (fun el => regular (el_name el)) openflow13 = true) as H by (vm_compute; reflexivity).
  unfold declared. rewrite existsb_exists. intros (el & Hin & <-%String.eqb_eq).
  rewrite forallb_forall in H. by apply H.
Qed.

(** The structures that are decoded whole: the generated decoders handle no nested structure but
    the message header.  The other ones end with a nested structure, which other code parses,
    or are properties of queues, which the switch only sends. *)
Definition decodable (name : string) : bool :=
  bool_decide (decoded_fields name "" = fields name "").

Lemma nested_not_decoded :
  map el_name (List.filter (fun el => negb (decodable (el_name el))) openflow13_h) =
  ["ofp_queue_prop_min_rate"; "ofp_queue_prop_max_rate"; "ofp_queue_prop_experimenter"; "ofp_flow_mod";
   "ofp_flow_stats_request"; "ofp_aggregate_stats_request"; "ofp_port_status"]%string.
Proof. vm_compute. reflexivity. Qed.

#[global] Opaque openflow13.

(** ** The codec *)


(** The same for the structures the modelled code uses, with a buffer that has room. *)
Lemma struct_encode name pk b :
  declared openflow13 name = true -> fits (leaves_size (fields name "")) b ->
  encode openflow13 name "" pk b = Done (LAGOPUS_RESULT_OK, put (wire pk (fields name "")) b).
Proof.
  intros Hd [Hw Hf]. pose proof (openflow13_regular _ Hd) as Hr.
  apply andb_prop in Hr as [_ Hsz%Z.eqb_eq].
  apply encode_put; [apply openflow13_encoders|done|done|lia].
Qed.

Lemma struct_decode name b pk v rest :
  declared openflow13 name = true -> decodable name = true ->
  unread b (v ++ rest) -> length v = leaves_size (fields name "") -> bytes_ok v ->
  decode openflow13 name "" (b, pk) = Done (LAGOPUS_RESULT_OK, (adv (length v) b, absorb (fields name "") v pk)) /\
  decode_sneak openflow13 name "" (b, pk) = Done (LAGOPUS_RESULT_OK, (b, absorb (fields name "") v pk)).
Proof.
  intros Hd Hdec Hu Hlen Hok. pose proof (openflow13_regular _ Hd) as Hr.
  apply andb_prop in Hr as [_ Hsz%Z.eqb_eq]. apply bool_decide_eq_true_1 in Hdec.
  assert (sizeof openflow13 name <= pb_plen b) as Hs.
  { destruct Hu as (_ & -> & _). rewrite length_app. lia. }
  split.
  - pose proof (decode_adv openflow13 name "" b pk v rest openflow13_decoders Hd Hu Hs) as H.
    rewrite Hdec in H. by apply H.
  - pose proof (decode_sneak_peek openflow13 name "" b pk v rest openflow13_decoders Hd Hu) as H.
    rewrite Hdec in H. apply H; [lia|done|done].
Qed.

(** Decoding what was encoded. *)
Lemma struct_decode_wire name b pk0 pk rest (v := wire pk (fields name "")) :
  declared openflow13 name = true -> decodable name = true -> unread b (v ++ rest) ->
  exists q, decode openflow13 name "" (b, pk0) = Done (LAGOPUS_RESULT_OK, (adv (length v) b, q)) /\
    decode_sneak openflow13 name "" (b, pk0) = Done (LAGOPUS_RESULT_OK, (b, q)) /\
    (forall lf, lf ∈ fields name "" -> q !! lf.1.1 = Some (leaf_elements pk lf)) /\
    (forall f, f ∉ field_names (fields name "") -> q !! f = pk0 !! f).
Proof.
  intros Hd Hdec Hu. pose proof (openflow13_regular _ Hd) as Hr.
  apply andb_prop in Hr as [Hnd%bool_decide_eq_true_1 _].
  destruct (struct_decode name b pk0 v rest Hd Hdec Hu) as [H1 H2].
  { apply length_wire. }
  { apply bytes_ok_wire. }
  eexists. split_and!; [exact H1|exact H2| |].
  - intros lf Hin. unfold v. rewrite absorb_wire by done.
    by rewrite (find_leaf (fields name "") lf).
  - intros f Hf. by apply absorb_other.
Qed.

Lemma pkt_get_leaf q pk name w n i :
  q !! name = Some (leaf_elements pk (name, w, n)) -> (i < n)%nat ->
  pkt_get name i q = pkt_get name i pk mod 256 ^ Z.of_nat w.
Proof.
  intros Hq Hi. unfold pkt_get at 1. rewrite Hq. cbn [default id]. unfold leaf_elements. cbn [fst snd].
  rewrite (nth_indep _ 0 ((fun i => pkt_get name i pk mod 256 ^ Z.of_nat w) 0%nat)) by (by rewrite length_map, length_seq).
  rewrite (map_nth (fun i => pkt_get name i pk mod 256 ^ Z.of_nat w)). by rewrite seq_nth.
Qed.

(** ** Structures that have exactly their fields *)
Definition exact (name : string) (pk : packet) : Prop :=
  Forall (field_ok pk) (fields name "") /\ forall f, f ∉ field_names (fields name "") -> pk !! f = None.

(** Decoding such a structure from its bytes gives the same structure. *)
Lemma exact_decode name b pk rest (v := wire pk (fields name "")) :
  declared openflow13 name = true -> decodable name = true -> exact name pk -> unread b (v ++ rest) ->
  decode openflow13 name "" (b, ∅) = Done (LAGOPUS_RESULT_OK, (adv (length v) b, pk)).
Proof.
  intros Hd Hdec [Hok Hex] Hu.
  destruct (struct_decode_wire name b ∅ pk rest Hd Hdec Hu) as (q & Hq & _ & Hin & Hout).
  enough (q = pk) as <- by exact Hq. apply map_eq. intros f.
  destruct (decide (f ∈ field_names (fields name ""))) as [Hf|Hf]; [|by rewrite Hout, Hex].
  apply list_elem_of_fmap in Hf as (lf & -> & Hlf). rewrite Hin by done.
  apply field_ok_elements. rewrite Forall_forall in Hok. by apply Hok.
Qed.

(** *** Structures are checked by computation *)

Definition field_okb (pk : packet) (lf : leaf) : bool :=
  match pk !! lf.1.1 with
  | Some l => Nat.eqb (length l) lf.2 && forallb (fun v => (0 <=? v) && (v <? 256 ^ Z.of_nat lf.1.2)) l
  | None => false
  end.

Definition exactb (name : string) (pk : packet) : bool :=
  forallb (field_okb pk) (fields name "") &&
  forallb (fun '(f, _) => bool_decide (f ∈ field_names (fields name ""))) (map_to_list pk).

Lemma field_okb_spec pk lf : field_okb pk lf = true <-> field_ok pk lf.
Proof.
  unfold field_okb, field_ok. destruct (pk !! lf.1.1) as [l|]; [|by split; [done|intros (l & [=] & _)]].
  rewrite andb_true_iff, Nat.eqb_eq.
  assert (forallb (fun v => (0 <=? v) && (v <? 256 ^ Z.of_nat lf.1.2)) l = true <->
          Forall (fun v => 0 <= v < 256 ^ Z.of_nat lf.1.2) l) as ->.
  { rewrite forallb_forall, Forall_forall. setoid_rewrite list_elem_of_In. split; intros H v Hv; specialize (H v Hv); lia. }
  split; [intros [Hl Hr]; by exists l|by intros (l' & [= <-] & Hl & Hr)].
Qed.

Lemma fields_okb_spec pk lfs : forallb (field_okb pk) lfs = true <-> Forall (field_ok pk) lfs.
Proof.
  rewrite forallb_forall, Forall_forall. setoid_rewrite list_elem_of_In. split; intros H lf Hlf; by apply field_okb_spec, H.
Qed.

Lemma exactb_spec name pk : exactb name pk = true <-> exact name pk.
Proof.
  unfold exactb, exact. rewrite andb_true_iff, fields_okb_spec, forallb_forall. apply and_iff_compat_l. split.
  - intros H f Hf. destruct (pk !! f) as [v|] eqn:E; [|done]. destruct Hf.
    apply elem_of_map_to_list, list_elem_of_In in E. by apply H in E as E'%bool_decide_eq_true_1.
  - intros H [f v] Hin%list_elem_of_In%elem_of_map_to_list. apply bool_decide_eq_true_2.
    destruct (decide (f ∈ field_names (fields name ""))) as [|Hn]; [done|]. by rewrite H in Hin.
Qed.

#[global] Instance field_ok_dec pk lf : Decision (field_ok pk lf).
Proof. destruct (field_okb pk lf) eqn:E; [left|right]; [by apply field_okb_spec|by rewrite <- field_okb_spec, E]. Defined.

#[global] Instance exact_dec name pk : Decision (exact name pk).
Proof. destruct (exactb name pk) eqn:E; [left|right]; [by apply exactb_spec|by rewrite <- exactb_spec, E]. Defined.

(** The structure with these values of its fields, in order. *)
Definition struct (name : string) (vs : list (list Z)) : packet := list_to_map (zip (field_names (fields name "")) vs).

(** A buffer that holds a message. *)
Definition holding (v : bytes) : pbuf :=
  Pbuf 1 (Z.of_nat (length v)) 0 (Z.of_nat (length v)) (Z.of_nat (length v)) v.

Lemma unread_holding v : Z.of_nat (length v) < 2 ^ 64 -> unread (holding v) v.
Proof. intros H. unfold unread, holding. cbn. split_and!; [lia|done|lia|lia|]. by rewrite firstn_all. Qed.

Lemma fits_alloc n : (n <= 1024)%nat -> fits n (pbuf_plen_set (Z.of_nat n) (pbuf_alloc (Z.of_nat n))).
Proof.
  intros H. unfold pbuf_alloc, PBUF_MIN_SIZE. destruct (Z.ltb_spec (Z.of_nat n) 1024);
    unfold fits, writable; cbn [pb_putp pb_plen pb_data pbuf_plen_set set_pb_plen pbuf_reset set_pb_putp set_pb_getp];
    rewrite length_replicate; lia.
Qed.


(** Decides a proposition by computation. *)
Ltac decided := refine (bool_decide_eq_true_1 _ _); vm_compute; reflexivity.
