(* ===== verification/Tlv.v ===== *)
(** * Type-length-value elements, padding and OXM types
    ([src/agent/ofp_tlv.c], [ofp_padding.c], [ofp_oxm.c]) *)
From S2P Require Import Prelude Monad OpenFlow Pbuf Generator OpenFlowH.
From stdpp Require Import strings.
#[local] Open Scope Z_scope.

(** What a parser returns: the result, and the error it has filled in for the controller. *)
Abbreviation ofp_status := (lagopus_result * option ofp_error)%type.
Definition status_ok : ofp_status := (LAGOPUS_RESULT_OK, None).
Definition ofp_fail (type code : Z) : ofp_status := (LAGOPUS_RESULT_OFP_ERROR, Some (type, code)).

(** A decoder on a structure of its own. *)
Definition on_fresh {A} (m : dm A) : pm (A * packet) := fun b =>
  match m (b, ∅) with
  | Done (a, (b', pk)) => Done ((a, pk), b')
  | Undefined => Undefined
  | OutOfFuel => OutOfFuel
  end.

(** ** [struct ofp_tlv] *)
Definition ofp_tlv_encode (type length : Z) : pm lagopus_result :=
  encode openflow13 "ofp_tlv" "" (<["type" := [type]]> (<["length" := [length]]> ∅)).

(** The result, the type and the length. *)
Definition ofp_tlv_decode_sneak : pm (lagopus_result * Z * Z) :=
  '(ret, tlv) ← on_fresh (decode_sneak openflow13 "ofp_tlv" "");
  mret (ret, pkt_get "type" 0 tlv, pkt_get "length" 0 tlv).

Definition SIZEOF_OFP_TLV : Z := 4.

Definition ofp_tlv_length_set (tlv_head length : Z) : pm lagopus_result :=
  poke (tlv_head + 2) [u8 (Z.land (Z.shiftr length 8) 0xFF); u8 (Z.land length 0xFF)] ;;
  mret LAGOPUS_RESULT_OK.

(** The new total and the result. *)
Definition ofp_tlv_length_sum (total_length length : Z) : Z * lagopus_result :=
  let total_length := u16 (total_length + length) in
  (total_length, if total_length <? length then LAGOPUS_RESULT_OUT_OF_RANGE else LAGOPUS_RESULT_OK).

(** ** Padding *)
Definition GET_64BIT_PADDING_LENGTH (length : Z) : Z := u16 ((length + 7) / 8 * 8 - length).

(** The padding comes from one 64-bit word. *)
Definition padding_encode (length : Z) : pm lagopus_result := fun b =>
  match pbuf_plen_check length b with
  | LAGOPUS_RESULT_OK =>
      (assert (length <=? 8) ;; ENCODE_PUT (replicate (Z.to_nat length) 0) ;; mret LAGOPUS_RESULT_OK) b
  | ret => Done (ret, b)
  end.

(** The result and the length with the padding. *)
Definition ofp_padding_encode (length : Z) : pm (lagopus_result * Z) :=
  let pad_length := GET_64BIT_PADDING_LENGTH length in
  ret ← padding_encode pad_length;
  match ret with
  | LAGOPUS_RESULT_OK => let '(length, ret) := ofp_tlv_length_sum length pad_length in mret (ret, length)
  | _ => mret (ret, length)
  end.

Definition ofp_padding_add (pad_length : Z) : pm lagopus_result := padding_encode pad_length.

(** ** OXM types *)

(** The cases of [ofp_oxm_field_check], which are all [OFPXMT_OFB_*]: 0 (IN_PORT) to
    39 (IPV6_EXTHDR) and 41 (PBB_UCA) to 67 (GTPU_EXTN_SCI). *)
Definition oxm_field_types : list Z := seqZ 0 40 ++ seqZ 41 27.

Definition ofp_oxm_field_check (oxm_field : Z) : lagopus_result :=
  if bool_decide (OXM_FIELD_TYPE oxm_field ∈ oxm_field_types) then LAGOPUS_RESULT_OK
  else LAGOPUS_RESULT_OXM_ERROR.

(** ** Lemmas *)

Lemma tlv_fields : fields "ofp_tlv" "" = [("type", 2%nat, 1%nat); ("length", 2%nat, 1%nat)].
Proof. vm_compute. reflexivity. Qed.

Lemma on_fresh_Done {A} (m : dm A) a b b' pk : m (b, ∅) = Done (a, (b', pk)) -> on_fresh m b = Done ((a, pk), b').
Proof. intros H. unfold on_fresh. by rewrite H. Qed.

(** The element as a structure. *)
Definition tlv_packet (type length : Z) : packet := <["type" := [type]]> (<["length" := [length]]> ∅).

Lemma tlv_wire t l : wire (tlv_packet t l) (fields "ofp_tlv" "") = be_bytes 2 t ++ be_bytes 2 l.
Proof. by rewrite tlv_fields. Qed.

Lemma ofp_tlv_encode_put type length b :
  fits 4 b -> ofp_tlv_encode type length b = Done (LAGOPUS_RESULT_OK, put (be_bytes 2 type ++ be_bytes 2 length) b).
Proof.
  intros H. unfold ofp_tlv_encode. fold (tlv_packet type length).
  rewrite struct_encode; [by rewrite tlv_wire|by vm_compute|by rewrite tlv_fields].
Qed.

Lemma ofp_tlv_decode_sneak_peek b t l rest :
  unread b (be_bytes 2 t ++ be_bytes 2 l ++ rest) ->
  ofp_tlv_decode_sneak b = Done ((LAGOPUS_RESULT_OK, u16 t, u16 l), b).
Proof.
  intros Hu. rewrite app_assoc, <- tlv_wire in Hu. unfold ofp_tlv_decode_sneak.
  destruct (struct_decode_wire "ofp_tlv" b ∅ (tlv_packet t l) rest) as (q & _ & H & Hq & _);
    [by vm_compute|by vm_compute|done|].
  rewrite (bind_Done _ _ _ _ _ (on_fresh_Done _ _ _ _ _ H)). unfold mret, M_ret. rewrite tlv_fields in Hq.
  rewrite (pkt_get_leaf q (tlv_packet t l) "type" 2 1 0) by (try lia; apply (Hq ("type", 2%nat, 1%nat)); set_solver).
  rewrite (pkt_get_leaf q (tlv_packet t l) "length" 2 1 0) by (try lia; apply (Hq ("length", 2%nat, 1%nat)); set_solver).
  done.
Qed.

Lemma ofp_tlv_decode_sneak_short b :
  pb_plen b < 4 -> ofp_tlv_decode_sneak b = Done ((LAGOPUS_RESULT_OUT_OF_RANGE, 0, 0), b).
Proof.
  intros H. unfold ofp_tlv_decode_sneak.
  assert (sizeof openflow13 "ofp_tlv" = 4) as Hs by (vm_compute; reflexivity).
  destruct (decode_short openflow13 "ofp_tlv" "" b ∅) as [_ Hd]; [by vm_compute|lia|].
  by rewrite (bind_Done _ _ _ _ _ (on_fresh_Done _ _ _ _ _ Hd)).
Qed.

Lemma ofp_tlv_length_sum_ok total length :
  0 <= total -> 0 <= length -> total + length < 65536 ->
  ofp_tlv_length_sum total length = (total + length, LAGOPUS_RESULT_OK).
Proof.
  intros. unfold ofp_tlv_length_sum, u16. rewrite Z.mod_small by lia.
  by rewrite (proj2 (Z.ltb_ge _ _)) by lia.
Qed.

(** The sum wraps around exactly when this is reported. *)
Lemma ofp_tlv_length_sum_overflow total length :
  0 <= total < 65536 -> 0 <= length < 65536 -> 65536 <= total + length ->
  (ofp_tlv_length_sum total length).2 = LAGOPUS_RESULT_OUT_OF_RANGE.
Proof.
  intros. unfold ofp_tlv_length_sum, u16. cbn.
  rewrite <- (Z.mod_add (total + length) (-1)), Z.mod_small by lia.
  by rewrite (proj2 (Z.ltb_lt _ _)) by lia.
Qed.

(** Writing a 16-bit length over one among bytes that were put. *)
Lemma poke_length_put l0 l w k b v :
  writable b -> Z.of_nat (length v) <= pb_plen b -> v = w ++ be_bytes 2 l0 ++ k ->
  (poke (pb_putp b + Z.of_nat (length w)) [u8 (Z.land (Z.shiftr l 8) 0xFF); u8 (Z.land l 0xFF)] ;;
   mret LAGOPUS_RESULT_OK) (put v b) =
  Done (LAGOPUS_RESULT_OK, put (w ++ be_bytes 2 l ++ k) b).
Proof.
  intros Hw Hl ->. set (v := w ++ _) in *.
  assert (length v = length w + 2 + length k)%nat as Hv.
  { unfold v. rewrite !length_app, !length_be_bytes. lia. }
  fold (byte_at l 8). rewrite byte_at_div, byte_0_div by lia.
  change [(l / 2 ^ 8) mod 256; (l / 1) mod 256] with (be_bytes 2 l).
  rewrite (bind_Done _ _ _ tt (put (memcpy_at (length w) (be_bytes 2 l) v) b)); cycle 1.
  { apply poke_put; [done|rewrite length_be_bytes; lia|done]. }
  unfold mret, M_ret. do 3 f_equal.
  rewrite memcpy_at_split by (rewrite length_be_bytes; lia). rewrite length_be_bytes.
  unfold v. rewrite take_app_length'; [|done]. do 2 f_equal.
  rewrite (app_assoc w). by rewrite drop_app_length' by (rewrite !length_app, !length_be_bytes; lia).
Qed.

(** Setting the length of an element among bytes that were put. *)
Lemma ofp_tlv_length_set_put t l0 l w k b v :
  writable b -> Z.of_nat (length v) <= pb_plen b -> v = w ++ be_bytes 2 t ++ be_bytes 2 l0 ++ k ->
  ofp_tlv_length_set (pb_putp b + Z.of_nat (length w)) l (put v b) =
  Done (LAGOPUS_RESULT_OK, put (w ++ be_bytes 2 t ++ be_bytes 2 l ++ k) b).
Proof.
  intros Hw Hl Hv. rewrite app_assoc in Hv. rewrite (app_assoc w (be_bytes 2 t)).
  rewrite <- (poke_length_put l0 l _ k b v Hw Hl Hv). unfold ofp_tlv_length_set.
  rewrite length_app, length_be_bytes. do 2 f_equal. lia.
Qed.

Lemma GET_64BIT_PADDING_LENGTH_spec length :
  0 <= length < 65536 ->
  0 <= GET_64BIT_PADDING_LENGTH length < 8 /\ (length + GET_64BIT_PADDING_LENGTH length) mod 8 = 0.
Proof.
  intros H. unfold GET_64BIT_PADDING_LENGTH, u16.
  pose proof (Z.div_mod (length + 7) 8 ltac:(lia)). pose proof (Z.mod_pos_bound (length + 7) 8 ltac:(lia)).
  rewrite Z.mod_small by lia. split; [lia|].
  replace (length + _) with ((length + 7) / 8 * 8) by lia. by rewrite Z.mod_mul.
Qed.

Definition zeros (n : Z) : bytes := replicate (Z.to_nat n) 0.

Lemma ofp_padding_encode_put length b :
  0 <= length -> length + GET_64BIT_PADDING_LENGTH length < 65536 ->
  fits (Z.to_nat (GET_64BIT_PADDING_LENGTH length)) b ->
  ofp_padding_encode length b =
  Done ((LAGOPUS_RESULT_OK, length + GET_64BIT_PADDING_LENGTH length),
        put (zeros (GET_64BIT_PADDING_LENGTH length)) b).
Proof.
  intros H1 H2 Hf.
  assert (0 <= GET_64BIT_PADDING_LENGTH length) as H0 by (apply Z.mod_pos_bound; lia).
  destruct (GET_64BIT_PADDING_LENGTH_spec length ltac:(lia)) as [Hp _].
  unfold ofp_padding_encode. set (pad := GET_64BIT_PADDING_LENGTH length) in *.
  rewrite (bind_Done _ _ _ LAGOPUS_RESULT_OK (put (zeros pad) b)); cycle 1.
  { unfold padding_encode, pbuf_plen_check, assert. rewrite (proj2 (Z.ltb_ge _ _)) by (destruct Hf; lia).
    rewrite (proj2 (Z.leb_le _ _)), bind_ret by lia.
    rewrite (bind_Done _ _ _ tt (put (zeros pad) b)); [done|]. apply ENCODE_PUT_put.
    unfold zeros. by rewrite length_replicate. }
  by rewrite ofp_tlv_length_sum_ok by lia.
Qed.

(** Four bytes are the type and length of an element. *)
Lemma tlv_of_bytes l :
  bytes_ok l -> (4 <= length l)%nat ->
  exists t n rest, l = be_bytes 2 t ++ be_bytes 2 n ++ rest /\ 0 <= t < 65536 /\ 0 <= n < 65536.
Proof.
  intros Hok Hlen. destruct l as [|a [|b [|c [|d rest]]]]; cbn in Hlen; try lia.
  change (a :: b :: c :: d :: rest) with ([a; b] ++ [c; d] ++ rest) in *.
  apply bytes_ok_app in Hok as [H1 Hok]. apply bytes_ok_app in Hok as [H2 _].
  exists (be_val [a; b]), (be_val [c; d]), rest.
  rewrite (be_bytes_val [a; b] H1 : be_bytes 2 _ = _), (be_bytes_val [c; d] H2 : be_bytes 2 _ = _).
  split; [done|]. split; [apply (be_val_range [a; b] H1)|apply (be_val_range [c; d] H2)].
Qed.

Lemma unread_bytes_ok b l : unread b l -> bytes_ok (pb_data b) -> bytes_ok l.
Proof. intros (_ & _ & _ & _ & <-) H. by apply Forall_take, Forall_drop. Qed.
