(* ===== verification/MatchCodec.v ===== *)
(** * Parsing and encoding of matches ([src/agent/ofp_match.c])

    [ofp_match_parse] walks over the bytes of a match with pointers of its own; the loop has
    one turn for every four bytes of the length at most.  The channel is its protocol version,
    and memory allocation succeeds. *)
From S2P Require Import Prelude Monad OpenFlow Pbuf Generator OpenFlowH Tlv.
From stdpp Require Import strings.
#[local] Open Scope Z_scope.

(** ** The parser *)

Definition ofp_oxm_check (oxm_class oxm_field : Z) : ofp_status :=
  if oxm_class =? OFPXMC_OPENFLOW_BASIC then
    match ofp_oxm_field_check oxm_field with
    | LAGOPUS_RESULT_OK => status_ok
    | _ => ofp_fail OFPET_BAD_MATCH OFPBMC_BAD_FIELD
    end
  else ofp_fail OFPET_BAD_MATCH OFPBMC_BAD_TYPE.

(** The list is kept in the order of the field types, equal types in the order they come. *)
Fixpoint match_insert (m : match_) (match_list : list match_) : list match_ :=
  match match_list with
  | [] => [m]
  | mp :: match_list' =>
      if OXM_FIELD_TYPE (oxm_field m) <? OXM_FIELD_TYPE (oxm_field mp) then m :: match_list
      else mp :: match_insert m match_list'
  end.

(** The loop over the OXM elements from [oxm] to [match_end]: the status, where it stopped,
    and the list. *)
Fixpoint ofp_match_parse_loop (fuel : nat) (oxm match_end : Z) (match_list : list match_)
    : pm (ofp_status * Z * list match_) :=
  match fuel with
  | O => out_of_fuel
  | S fuel' =>
      if oxm <? match_end then
        hdr ← peek oxm 4;
        let oxm_class := u16 (Z.shiftl (rd8 hdr 0) 8 + rd8 hdr 1) in
        let oxm_field := rd8 hdr 2 in
        let oxm_length := rd8 hdr 3 in
        match ofp_oxm_check oxm_class oxm_field with
        | (LAGOPUS_RESULT_OK, _) =>
            oxm_value ← peek (oxm + 4) (Z.to_nat oxm_length);
            ofp_match_parse_loop fuel' (oxm + 4 + oxm_length) match_end
              (match_insert (Match false oxm_class oxm_field oxm_length oxm_value) match_list)
        | status => mret (status, oxm + 4, match_list)
        end
      else mret (status_ok, oxm, match_list)
  end.

Definition ofp_match_forward (total_length : Z) : pm ofp_status :=
  ret ← pbuf_forward total_length;
  mret (match ret with
        | LAGOPUS_RESULT_OUT_OF_RANGE => ofp_fail OFPET_BAD_MATCH OFPBMC_BAD_LEN
        | _ => (ret, None)
        end).

(** The body, before the list is freed on errors. *)
Definition ofp_match_parse_body (version : Z) (match_list : list match_) : pm (ofp_status * list match_) :=
  '(ret, type, length) ← ofp_tlv_decode_sneak;
  if negb (is_ok ret) then mret (ofp_fail OFPET_BAD_MATCH OFPBMC_BAD_LEN, match_list)
  else if (OPENFLOW_VERSION_1_3 <=? version) && negb (type =? OFPMT_OXM) then
    mret (ofp_fail OFPET_BAD_MATCH OFPBMC_BAD_TYPE, match_list)
  else
    let total_length := (length + 7) / 8 * 8 in
    ret ← gets (pbuf_plen_check total_length);
    if negb (is_ok ret) then
      mret (match ret with
            | LAGOPUS_RESULT_OUT_OF_RANGE => ofp_fail OFPET_BAD_MATCH OFPBMC_BAD_LEN
            | _ => (ret, None)
            end, match_list)
    else if length =? 4 then
      status ← ofp_match_forward total_length;
      mret (status, match_list)
    else
      ofp_match ← gets pbuf_getp_get;
      let match_end := ofp_match + length in
      '(status, oxm, match_list) ← ofp_match_parse_loop (S (Z.to_nat length)) (ofp_match + 4) match_end match_list;
      if negb (is_ok status.1) then mret (status, match_list)
      else if match_end =? oxm then
        status ← ofp_match_forward total_length;
        mret (status, match_list)
      else mret (ofp_fail OFPET_BAD_MATCH OFPBMC_BAD_LEN, match_list).

Definition ofp_match_parse (version : Z) (match_list : list match_) : pm (ofp_status * list match_) :=
  '(status, match_list) ← ofp_match_parse_body version match_list;
  mret (status, if is_ok status.1 then match_list else []).

(** ** The encoder *)

(** [ofp_oxm_encode] of the generated code, and the value behind it. *)
Definition oxm_packet (m : match_) : packet :=
  <["oxm_class" := [oxm_class m]]> (<["oxm_field" := [oxm_field m]]> (<["oxm_length" := [oxm_length m]]> ∅)).

Fixpoint ofp_match_list_encode_loop (match_list : list match_) (total_length : Z) : pm (lagopus_result * Z) :=
  match match_list with
  | [] => mret (LAGOPUS_RESULT_OK, total_length)
  | m :: match_list' =>
      ret ← encode openflow13 "ofp_oxm" "" (oxm_packet m);
      if negb (is_ok ret) then mret (ret, total_length)
      else
        ret ← gets (pbuf_plen_check (oxm_length m));
        if negb (is_ok ret) then mret (ret, total_length)
        else
          ret ← pbuf_encode (take (Z.to_nat (oxm_length m)) (oxm_value m));
          if negb (is_ok ret) then mret (ret, total_length)
          else
            let '(total_length, ret) := ofp_tlv_length_sum total_length 4 in
            if negb (is_ok ret) then mret (ret, total_length)
            else
              let '(total_length, ret) := ofp_tlv_length_sum total_length (oxm_length m) in
              if negb (is_ok ret) then mret (ret, total_length)
              else ofp_match_list_encode_loop match_list' total_length
  end.

(** The result and the total length. *)
Definition ofp_match_list_encode (match_list : list match_) : pm (lagopus_result * Z) :=
  ret ← ofp_tlv_encode OFPMT_OXM 0;
  if negb (is_ok ret) then mret (ret, 0)
  else
    putp ← gets pbuf_putp_get;
    let match_head := putp - SIZEOF_OFP_TLV in
    '(ret, total_length) ← ofp_match_list_encode_loop match_list SIZEOF_OFP_TLV;
    if negb (is_ok ret) then mret (ret, total_length)
    else
      ret ← ofp_tlv_length_set match_head total_length;
      if negb (is_ok ret) then mret (ret, total_length)
      else ofp_padding_encode total_length.

(** ** What is encoded *)

(** A match the switch can hold: of the basic class, with a known field, and a value of the
    length it says. *)
Definition match_ok (m : match_) : Prop :=
  except_flag m = false /\ oxm_class m = OFPXMC_OPENFLOW_BASIC /\ 0 <= oxm_field m < 256 /\
  OXM_FIELD_TYPE (oxm_field m) ∈ oxm_field_types /\
  oxm_length m = Z.of_nat (length (oxm_value m)) /\ oxm_length m < 256 /\ bytes_ok (oxm_value m).

Definition oxm_bytes (m : match_) : bytes :=
  be_bytes 2 (oxm_class m) ++ be_bytes 1 (oxm_field m) ++ be_bytes 1 (oxm_length m) ++ oxm_value m.
Definition oxms_bytes (match_list : list match_) : bytes := flat_map oxm_bytes match_list.

(** The length of the list, without padding. *)
Definition match_length (match_list : list match_) : Z :=
  4 + Z.of_nat (length (oxms_bytes match_list)).

Definition match_bytes (match_list : list match_) : bytes :=
  be_bytes 2 OFPMT_OXM ++ be_bytes 2 (match_length match_list) ++ oxms_bytes match_list ++
  zeros (GET_64BIT_PADDING_LENGTH (match_length match_list)).

(** The order of the parser. *)
Definition by_type (m m' : match_) : Prop := OXM_FIELD_TYPE (oxm_field m) <= OXM_FIELD_TYPE (oxm_field m').
Definition parsed_list (match_list acc : list match_) : list match_ :=
  foldl (fun acc m => match_insert m acc) acc match_list.

Lemma oxm_fields :
  fields "ofp_oxm" "" = [("oxm_class", 2%nat, 1%nat); ("oxm_field", 1%nat, 1%nat);
                         ("oxm_length", 1%nat, 1%nat); ("oxm_value", 1%nat, 0%nat)].
Proof. vm_compute. reflexivity. Qed.

Lemma length_oxm_bytes m : match_ok m -> Z.of_nat (length (oxm_bytes m)) = 4 + oxm_length m.
Proof.
  intros (_ & _ & _ & _ & -> & _). unfold oxm_bytes. rewrite !length_app, !length_be_bytes. lia.
Qed.

(** *** Order *)

Lemma match_insert_perm m l : match_insert m l ≡ₚ m :: l.
Proof.
  induction l as [|mp l IH]; [done|]. cbn [match_insert].
  destruct (_ <? _); [done|]. rewrite IH. constructor.
Qed.

Lemma match_insert_sorted m l : StronglySorted by_type l -> StronglySorted by_type (match_insert m l).
Proof.
  induction 1 as [|mp l Hs IH Hall]; cbn [match_insert]; [by repeat constructor|].
  destruct (Z.ltb_spec (OXM_FIELD_TYPE (oxm_field m)) (OXM_FIELD_TYPE (oxm_field mp))).
  - constructor; [by constructor|]. constructor; [unfold by_type; lia|].
    rewrite Forall_forall in Hall |- *. intros m' Hm'. specialize (Hall m' Hm'). unfold by_type in *. lia.
  - constructor; [done|]. rewrite match_insert_perm. constructor; [unfold by_type; lia|done].
Qed.

Lemma match_insert_last m l : Forall (fun m' => by_type m' m) l -> match_insert m l = l ++ [m].
Proof.
  induction 1 as [|mp l H _ IH]; [done|]. cbn [match_insert app].
  unfold by_type in H. by rewrite (proj2 (Z.ltb_ge _ _)), IH.
Qed.

Lemma parsed_list_spec l acc :
  StronglySorted by_type acc ->
  parsed_list l acc ≡ₚ acc ++ l /\ StronglySorted by_type (parsed_list l acc).
Proof.
  unfold parsed_list. revert acc. induction l as [|m l IH]; intros acc Hs; cbn [foldl].
  { by rewrite app_nil_r. }
  destruct (IH (match_insert m acc)) as [H1 H2]; [by apply match_insert_sorted|].
  split; [|done]. rewrite H1, match_insert_perm. apply (Permutation_middle acc l m).
Qed.

Lemma parsed_list_sorted l acc : StronglySorted by_type (acc ++ l) -> parsed_list l acc = acc ++ l.
Proof.
  unfold parsed_list. revert acc. induction l as [|m l IH]; intros acc Hs; cbn [foldl].
  { by rewrite app_nil_r. }
  rewrite match_insert_last; [rewrite IH|].
  - by rewrite <- app_assoc.
  - by rewrite <- app_assoc.
  - apply StronglySorted_app in Hs as (Hs & _). apply Forall_forall. intros m' Hm'. apply Hs; set_solver.
Qed.

(** *** Encoding *)

Lemma ofp_oxm_encode_put m b :
  fits 4 b ->
  encode openflow13 "ofp_oxm" "" (oxm_packet m) b =
  Done (LAGOPUS_RESULT_OK, put (be_bytes 2 (oxm_class m) ++ be_bytes 1 (oxm_field m) ++ be_bytes 1 (oxm_length m)) b).
Proof.
  intros H. rewrite struct_encode; [|by vm_compute|by rewrite oxm_fields]. by rewrite oxm_fields.
Qed.

Lemma plen_check_ok n b : Z.of_nat n <= pb_plen b -> pbuf_plen_check (Z.of_nat n) b = LAGOPUS_RESULT_OK.
Proof. intros. unfold pbuf_plen_check. by rewrite (proj2 (Z.ltb_ge _ _)). Qed.

Lemma pbuf_encode_put v b : fits (length v) b -> pbuf_encode v b = Done (LAGOPUS_RESULT_OK, put v b).
Proof.
  intros H. unfold pbuf_encode. rewrite plen_check_ok by apply H.
  by rewrite (bind_Done _ _ _ _ _ (ENCODE_PUT_put _ _ H)).
Qed.

Lemma match_list_encode_loop_put l total b :
  Forall match_ok l -> 0 <= total -> total + Z.of_nat (length (oxms_bytes l)) < 65536 ->
  fits (length (oxms_bytes l)) b ->
  ofp_match_list_encode_loop l total b =
  Done ((LAGOPUS_RESULT_OK, total + Z.of_nat (length (oxms_bytes l))), put (oxms_bytes l) b).
Proof.
  intros Hok. revert total b. induction Hok as [|m l Hm Hok IH]; intros total b H0 Ht Hf.
  { cbn. by rewrite Z.add_0_r, put_nil. }
  cbn [oxms_bytes flat_map] in *. fold (oxms_bytes l) in *. rewrite length_app in *.
  pose proof (length_oxm_bytes m Hm) as Hlen. destruct (Hm) as (_ & _ & _ & _ & Hl & Hr & _).
  set (hdr := be_bytes 2 (oxm_class m) ++ be_bytes 1 (oxm_field m) ++ be_bytes 1 (oxm_length m)).
  assert (oxm_bytes m = hdr ++ oxm_value m) as Hsplit by (unfold hdr, oxm_bytes; by rewrite <- !app_assoc).
  assert (length hdr = 4%nat) as Hhdr by (unfold hdr; by rewrite !length_app, !length_be_bytes).
  assert (fits (length (oxm_value m) + length (oxms_bytes l)) (put hdr b)) as Hf1.
  { apply put_fits. eapply fits_weaken; [exact Hf|]. rewrite Hsplit, length_app. lia. }
  assert (fits (length (oxms_bytes l)) (put (oxm_value m) (put hdr b))) as Hf2 by by apply put_fits.
  cbn [ofp_match_list_encode_loop].
  rewrite (bind_Done _ _ _ _ _ (ofp_oxm_encode_put m b (fits_weaken _ 4 _ Hf ltac:(lia)))). cbn [is_ok negb].
  fold hdr. erewrite bind_Done; cycle 1.
  { unfold gets. rewrite Hl, plen_check_ok; [done|]. destruct Hf1. lia. }
  cbn [is_ok negb]. rewrite Hl, Nat2Z.id, firstn_all.
  erewrite bind_Done; cycle 1.
  { apply pbuf_encode_put. eapply fits_weaken; [exact Hf1|lia]. }
  cbn [is_ok negb]. rewrite ofp_tlv_length_sum_ok by lia. cbn [is_ok negb].
  rewrite ofp_tlv_length_sum_ok by lia. cbn [is_ok negb].
  rewrite IH by (try done; lia). rewrite Hsplit, !put_app by (try eapply fits_putp; eassumption || (cbn; destruct Hf as [[? _] _]; lia)).
  do 3 f_equal. rewrite length_app. lia.
Qed.

Lemma match_encode_law l b :
  Forall match_ok l -> Z.of_nat (length (match_bytes l)) < 65536 -> fits (length (match_bytes l)) b ->
  ofp_match_list_encode l b =
  Done ((LAGOPUS_RESULT_OK, Z.of_nat (length (match_bytes l))), put (match_bytes l) b).
Proof.
  intros Hok Hlt Hf. set (pad := GET_64BIT_PADDING_LENGTH (match_length l)) in *.
  assert (0 <= pad) as Hpad0 by (apply Z.mod_pos_bound; lia).
  assert (Z.of_nat (length (match_bytes l)) = match_length l + pad) as Hlen.
  { unfold match_bytes, zeros. fold pad.
    rewrite !length_app, !length_be_bytes, length_replicate. unfold match_length. lia. }
  assert (4 <= match_length l) as Hml by (unfold match_length; lia).
  assert (length (oxms_bytes l) + 4 = Z.to_nat (match_length l))%nat as Hox by (unfold match_length; lia).
  destruct Hf as [Hw Hf]. unfold ofp_match_list_encode.
  assert (0 <= pb_putp b) as Hp by apply Hw.
  assert (fits 4 b) as Hf4 by (split; [done|lia]).
  rewrite (bind_Done _ _ _ _ _ (ofp_tlv_encode_put OFPMT_OXM 0 b Hf4)). cbn [is_ok negb].
  set (b1 := put _ b). assert (fits (length (oxms_bytes l) + Z.to_nat pad) b1) as Hf1.
  { apply put_fits. rewrite length_app, !length_be_bytes. split; [done|lia]. }
  rewrite (bind_Done _ _ _ (pb_putp b1) b1) by done.
  rewrite (bind_Done _ _ _ (LAGOPUS_RESULT_OK, match_length l) (put (oxms_bytes l) b1)); cycle 1.
  { apply match_list_encode_loop_put; [done|unfold SIZEOF_OFP_TLV; lia|unfold SIZEOF_OFP_TLV; lia|].
    eapply fits_weaken; [exact Hf1|lia]. }
  cbn [is_ok negb]. unfold b1. rewrite <- put_app by done.
  set (v0 := (be_bytes 2 OFPMT_OXM ++ be_bytes 2 0) ++ oxms_bytes l).
  set (v1 := (be_bytes 2 OFPMT_OXM ++ be_bytes 2 (match_length l)) ++ oxms_bytes l).
  assert (length v1 = Z.to_nat (match_length l)) as Hv1.
  { unfold v1. rewrite !length_app, !length_be_bytes. lia. }
  rewrite (bind_Done _ _ _ LAGOPUS_RESULT_OK (put v1 b)); cycle 1.
  { replace (pb_putp _ - SIZEOF_OFP_TLV) with (pb_putp b + Z.of_nat (length ([] : bytes)))
      by (unfold put, SIZEOF_OFP_TLV; cbn [pb_putp length]; rewrite length_app, !length_be_bytes; lia).
    unfold v1. rewrite <- app_assoc.
    apply (ofp_tlv_length_set_put OFPMT_OXM 0 (match_length l) [] (oxms_bytes l)); [done| |by unfold v0; rewrite <- app_assoc].
    unfold v0. rewrite !length_app, !length_be_bytes. lia. }
  cbn [is_ok negb]. rewrite ofp_padding_encode_put; fold pad; [|lia|lia|].
  - rewrite <- put_app, Hlen by done. unfold v1, match_bytes. fold pad. by rewrite <- !app_assoc.
  - apply put_fits. split; [done|]. rewrite Hv1. lia.
Qed.

(** *** Parsing *)

Lemma be_bytes_1 x : 0 <= x < 256 -> be_bytes 1 x = [x].
Proof. intros. cbn [be_bytes]. rewrite Z.pow_0_r, Z.div_1_r, Z.mod_small by done. done. Qed.

Lemma ofp_oxm_check_ok m : match_ok m -> ofp_oxm_check (oxm_class m) (oxm_field m) = status_ok.
Proof.
  intros (_ & -> & _ & Ht & _). unfold ofp_oxm_check, ofp_oxm_field_check. rewrite Z.eqb_refl.
  by rewrite bool_decide_eq_true_2.
Qed.

Lemma match_eta m : except_flag m = false -> Match false (oxm_class m) (oxm_field m) (oxm_length m) (oxm_value m) = m.
Proof. destruct m; cbn. by intros ->. Qed.

(** The header of an element as the parser reads it. *)
Lemma oxm_header_read m l :
  match_ok m ->
  let hdr := take 4 (oxm_bytes m ++ l) in
  u16 (Z.shiftl (rd8 hdr 0) 8 + rd8 hdr 1) = oxm_class m /\ rd8 hdr 2 = oxm_field m /\ rd8 hdr 3 = oxm_length m.
Proof.
  intros (_ & Hc & Hf & _ & Hl & Hr & _). cbv zeta. unfold oxm_bytes. rewrite Hc, !be_bytes_1 by lia.
  change (be_bytes 2 OFPXMC_OPENFLOW_BASIC) with [128; 0]. by cbn [app take rd8 nth].
Qed.

Lemma match_parse_loop_law l pre rest acc b fuel :
  Forall match_ok l -> unread b (pre ++ oxms_bytes l ++ rest) -> (length l < fuel)%nat ->
  let oxm := pb_getp b + Z.of_nat (length pre) in
  let match_end := oxm + Z.of_nat (length (oxms_bytes l)) in
  ofp_match_parse_loop fuel oxm match_end acc b = Done ((status_ok, match_end, parsed_list l acc), b).
Proof.
  intros Hok. revert pre acc fuel. induction Hok as [|m l Hm Hok IH]; intros pre acc fuel Hu Hfuel; cbv zeta.
  { destruct fuel; [lia|]. cbn. by rewrite Z.add_0_r, Z.ltb_irrefl. }
  cbn [oxms_bytes flat_map] in *. fold (oxms_bytes l) in *.
  pose proof (length_oxm_bytes m Hm) as Hlen. destruct (Hm) as (He & Hc & _ & _ & Hl & _).
  destruct fuel as [|fuel]; [cbn in Hfuel; lia|]. cbn [ofp_match_parse_loop].
  rewrite length_app. rewrite (proj2 (Z.ltb_lt _ _)) by lia.
  pose proof (peek_unread _ _ (length pre) 4 Hu) as Hp.
  rewrite drop_app_length in Hp.
  assert (length (oxm_bytes m) = 4 + length (oxm_value m))%nat as Hlen' by lia.
  rewrite (bind_Done _ _ _ _ _ (Hp ltac:(rewrite !length_app, Hlen'; lia))).
  rewrite <- app_assoc. destruct (oxm_header_read m (oxms_bytes l ++ rest) Hm) as (-> & -> & ->).
  rewrite ofp_oxm_check_ok by done. unfold status_ok at 1.
  pose proof (peek_unread _ _ (length pre + 4) (length (oxm_value m)) Hu) as Hv.
  rewrite Hl, Nat2Z.id.
  replace (pb_getp b + Z.of_nat (length pre) + 4) with (pb_getp b + Z.of_nat (length pre + 4)) by lia.
  rewrite (bind_Done _ _ _ _ _ (Hv ltac:(rewrite !length_app, Hlen'; lia))).
  rewrite <- drop_drop, drop_app_length.
  replace (take _ (drop 4 _)) with (oxm_value m); cycle 1.
  { unfold oxm_bytes. rewrite <- !app_assoc. cbn [be_bytes app skipn]. by rewrite drop_0, take_app_length. }
  rewrite <- Hl, match_eta by done.
  specialize (IH (pre ++ oxm_bytes m) (match_insert m acc) fuel).
  rewrite length_app in IH. cbv zeta in IH. rewrite <- !app_assoc in IH.
  replace (pb_getp b + Z.of_nat (length pre + 4) + oxm_length m)
    with (pb_getp b + Z.of_nat (length pre + length (oxm_bytes m))) by lia.
  replace (pb_getp b + Z.of_nat (length pre) + Z.of_nat (length (oxm_bytes m) + length (oxms_bytes l)))
    with (pb_getp b + Z.of_nat (length pre + length (oxm_bytes m)) + Z.of_nat (length (oxms_bytes l))) by lia.
  apply IH; [|cbn in Hfuel; lia]. by rewrite <- app_assoc in Hu.
Qed.

Lemma length_match_bytes l :
  Z.of_nat (length (match_bytes l)) = match_length l + GET_64BIT_PADDING_LENGTH (match_length l).
Proof.
  unfold match_bytes, zeros. rewrite !length_app, !length_be_bytes, length_replicate.
  assert (0 <= GET_64BIT_PADDING_LENGTH (match_length l)) by (apply Z.mod_pos_bound; lia).
  unfold match_length in *. lia.
Qed.

Lemma match_length_ge l : 4 <= match_length l.
Proof. unfold match_length. lia. Qed.

Lemma match_bytes_aligned l : Z.of_nat (length (match_bytes l)) < 65536 -> Z.of_nat (length (match_bytes l)) mod 8 = 0.
Proof.
  rewrite length_match_bytes. intros H. pose proof (match_length_ge l).
  assert (0 <= GET_64BIT_PADDING_LENGTH (match_length l)) by (apply Z.mod_pos_bound; lia).
  apply GET_64BIT_PADDING_LENGTH_spec. lia.
Qed.

(** Rounding up is adding the padding. *)
Lemma round_up_padding n : 0 <= n < 65536 -> (n + 7) / 8 * 8 = n + GET_64BIT_PADDING_LENGTH n.
Proof.
  intros. unfold GET_64BIT_PADDING_LENGTH, u16. pose proof (Z.div_mod (n + 7) 8 ltac:(lia)).
  pose proof (Z.mod_pos_bound (n + 7) 8 ltac:(lia)). rewrite Z.mod_small; lia.
Qed.

(** The parser on a message that is long enough. *)
Lemma ofp_match_forward_adv b v rest n :
  unread b (v ++ rest) -> n = Z.of_nat (length v) -> ofp_match_forward n b = Done (status_ok, adv (length v) b).
Proof. intros Hu ->. unfold ofp_match_forward. by rewrite (bind_Done _ _ _ _ _ (forward_adv _ _ _ _ Hu eq_refl)). Qed.

Lemma match_parse_law l version acc b rest :
  Forall match_ok l -> Z.of_nat (length (match_bytes l)) < 65536 -> unread b (match_bytes l ++ rest) ->
  ofp_match_parse version acc b = Done ((status_ok, parsed_list l acc), adv (length (match_bytes l)) b).
Proof.
  intros Hok Hlt Hu. pose proof (length_match_bytes l) as Hlen. pose proof (match_length_ge l) as Hge.
  assert (0 <= GET_64BIT_PADDING_LENGTH (match_length l)) as Hpad by (apply Z.mod_pos_bound; lia).
  assert (Z.of_nat (length (match_bytes l)) <= pb_plen b) as Hle.
  { destruct Hu as (_ & -> & _). rewrite length_app. lia. }
  pose proof Hu as Hu'. unfold match_bytes in Hu'. rewrite <- !app_assoc in Hu'.
  unfold ofp_match_parse.
  rewrite (bind_Done _ _ _ (status_ok, parsed_list l acc) (adv (length (match_bytes l)) b)); [done|].
  unfold ofp_match_parse_body.
  rewrite (bind_Done _ _ _ _ _ (ofp_tlv_decode_sneak_peek _ _ _ _ Hu')).
  unfold u16. rewrite !Z.mod_small by (unfold OFPMT_OXM; lia). cbn [is_ok negb].
  rewrite Z.eqb_refl, andb_false_r.
  rewrite round_up_padding, <- Hlen by lia.
  rewrite (bind_Done _ _ _ LAGOPUS_RESULT_OK b) by (unfold gets; by rewrite plen_check_ok).
  cbn [is_ok negb]. destruct (Z.eqb_spec (match_length l) 4) as [H4|H4].
  - rewrite (bind_Done _ _ _ _ _ (ofp_match_forward_adv _ _ _ _ Hu eq_refl)). destruct l as [|m l]; [done|].
    apply Forall_inv in Hok. pose proof (length_oxm_bytes m Hok). destruct Hok as (_ & _ & _ & _ & ? & _).
    unfold match_length in H4. cbn [oxms_bytes flat_map] in H4. rewrite length_app in H4. lia.
  - rewrite (bind_Done _ _ _ (pb_getp b) b) by done.
    assert (length l < S (Z.to_nat (match_length l)))%nat as Hfuel.
    { unfold match_length. clear -Hok. assert (length l <= length (oxms_bytes l))%nat; [|lia].
      induction Hok as [|m l Hm _ IH]; [done|]. cbn [oxms_bytes flat_map length]. rewrite length_app.
      pose proof (length_oxm_bytes m Hm). destruct Hm as (_ & _ & _ & _ & ? & _). fold (oxms_bytes l). lia. }
    rewrite app_assoc in Hu'.
    pose proof (match_parse_loop_law l _ _ acc b _ Hok Hu' Hfuel) as Hloop. cbv zeta in Hloop.
    rewrite length_app, !length_be_bytes in Hloop. change (Z.of_nat (2 + 2)) with 4 in Hloop.
    replace (pb_getp b + 4 + Z.of_nat (length (oxms_bytes l))) with (pb_getp b + match_length l) in Hloop
      by (unfold match_length; lia).
    rewrite (bind_Done _ _ _ _ _ Hloop). cbn [is_ok negb fst status_ok]. rewrite Z.eqb_refl.
    by rewrite (bind_Done _ _ _ _ _ (ofp_match_forward_adv _ _ _ _ Hu eq_refl)).
Qed.

(** ** What the parser accepts *)

(** The bytes at a position of the block. *)
Definition slice (p : Z) (n : nat) (b : pbuf) : bytes := take n (drop (Z.to_nat p) (pb_data b)).

Definition match_error (status : ofp_status) : Prop :=
  exists code, status = ofp_fail OFPET_BAD_MATCH code /\
    (code = OFPBMC_BAD_TYPE \/ code = OFPBMC_BAD_LEN \/ code = OFPBMC_BAD_FIELD).

Lemma ofp_oxm_check_cases c f :
  (ofp_oxm_check c f = status_ok /\ c = OFPXMC_OPENFLOW_BASIC /\ OXM_FIELD_TYPE f ∈ oxm_field_types) \/
  (match_error (ofp_oxm_check c f) /\ is_ok (ofp_oxm_check c f).1 = false).
Proof.
  unfold ofp_oxm_check, ofp_oxm_field_check. destruct (Z.eqb_spec c OFPXMC_OPENFLOW_BASIC) as [->|].
  - destruct (bool_decide _) eqn:E.
    + left. by apply bool_decide_eq_true_1 in E.
    + right. split; [|done]. eexists. split; [done|]. auto.
  - right. split; [|done]. eexists. split; [done|]. auto.
Qed.

Lemma slice_ok p n b : bytes_ok (pb_data b) -> bytes_ok (slice p n b).
Proof. intros H. by apply Forall_take, Forall_drop. Qed.

Lemma slice_app p n m b :
  0 <= p -> slice p (n + m) b = slice p n b ++ slice (p + Z.of_nat n) m b.
Proof.
  intros. unfold slice. replace (Z.to_nat (p + Z.of_nat n)) with (Z.to_nat p + n)%nat by lia.
  rewrite <- drop_drop. rewrite <- (take_drop n (take (n + m) _)). rewrite take_take, Nat.min_l by lia.
  f_equal. symmetry. apply take_drop_commute.
Qed.

Lemma length_slice p n b :
  0 <= p -> p + Z.of_nat n <= Z.of_nat (length (pb_data b)) -> length (slice p n b) = n.
Proof. intros. unfold slice. rewrite length_take, length_drop. lia. Qed.

Lemma peek_as_slice p n b :
  0 <= p -> p + Z.of_nat n <= Z.of_nat (length (pb_data b)) -> peek p n b = Done (slice p n b, b).
Proof. by apply peek_slice. Qed.

(** Four bytes and a value are the element with the fields read from them. *)
Lemma oxm_header_bytes b0 b1 f len v :
  bytes_ok [b0; b1; f; len] -> length v = Z.to_nat len ->
  oxm_bytes (Match false (u16 (Z.shiftl b0 8 + b1)) f len v) = [b0; b1; f; len] ++ v.
Proof.
  intros Hok Hv. change [b0; b1; f; len] with ([b0; b1] ++ [f; len]) in Hok.
  apply bytes_ok_app in Hok as [Hok1 Hok2]. unfold bytes_ok in Hok2. rewrite !Forall_cons in Hok2.
  unfold oxm_bytes. cbn [oxm_class oxm_field oxm_length oxm_value].
  rewrite word16_be by done. rewrite (be_bytes_val [b0; b1] Hok1 : be_bytes 2 _ = _).
  by rewrite !be_bytes_1 by apply Hok2.
Qed.

Lemma match_parse_loop_sound fuel oxm match_end acc b :
  bytes_ok (pb_data b) -> 0 <= oxm -> match_end - oxm < Z.of_nat fuel ->
  match_end + 258 <= Z.of_nat (length (pb_data b)) -> 0 < Z.of_nat fuel ->
  exists status oxm' l, ofp_match_parse_loop fuel oxm match_end acc b = Done ((status, oxm', l), b) /\
    (match_error status /\ is_ok status.1 = false \/
     status = status_ok /\ match_end <= oxm' /\
     exists ml, Forall match_ok ml /\ l = parsed_list ml acc /\
       oxm' = oxm + Z.of_nat (length (oxms_bytes ml)) /\ slice oxm (length (oxms_bytes ml)) b = oxms_bytes ml).
Proof.
  intros Hok. revert oxm acc. induction fuel as [|fuel IH]; intros oxm acc H0 Hfuel Hend Hpos; [lia|].
  cbn [ofp_match_parse_loop]. destruct (Z.ltb_spec oxm match_end) as [Hlt|Hge]; cycle 1.
  { do 3 eexists. split; [done|]. right. split_and!; [done|lia|]. exists [].
    split_and!; [done|done|cbn; lia|done]. }
  rewrite (bind_Done _ _ _ _ _ (peek_as_slice oxm 4 b H0 ltac:(lia))).
  pose proof (length_slice oxm 4 b H0 ltac:(lia)) as Hlen. pose proof (slice_ok oxm 4 b Hok) as Hb.
  destruct (slice oxm 4 b) as [|b0 [|b1 [|f [|len [|]]]]] eqn:Eh; try discriminate Hlen.
  unfold rd8. cbn [nth]. assert (0 <= len < 256 /\ 0 <= f < 256) as [Hlr Hfr].
  { unfold bytes_ok in Hb. rewrite !Forall_cons in Hb. tauto. }
  destruct (ofp_oxm_check_cases (u16 (Z.shiftl b0 8 + b1)) f) as [(Hc & Hcl & Hty)|[Herr Hnok]]; cycle 1.
  { destruct (ofp_oxm_check _ f) as [[] e] eqn:Ec; try discriminate Hnok;
      (do 3 eexists; split; [reflexivity|]; by left). }
  rewrite Hc. unfold status_ok at 1.
  assert (0 <= oxm + 4) as H4 by lia.
  rewrite (bind_Done _ _ _ _ _ (peek_as_slice (oxm + 4) (Z.to_nat len) b H4 ltac:(lia))).
  set (v := slice (oxm + 4) (Z.to_nat len) b).
  set (m := Match false (u16 (Z.shiftl b0 8 + b1)) f len v).
  assert (length v = Z.to_nat len) as Hv by (apply length_slice; lia).
  assert (match_ok m) as Hm.
  { unfold m, match_ok. cbn. split_and!; try done; try lia. by apply slice_ok. }
  assert (oxm_bytes m = slice oxm (4 + Z.to_nat len) b) as Hmb.
  { unfold m. rewrite oxm_header_bytes by done. rewrite slice_app by done. by rewrite Eh. }
  destruct (IH (oxm + 4 + len) (match_insert m acc)) as (status & oxm' & l & E & Hres); [lia|lia|lia|lia|].
  exists status, oxm', l. split; [exact E|]. destruct Hres as [?|(-> & Hle & ml & Hml & -> & -> & Hs)]; [by left|].
  right. pose proof (length_oxm_bytes m Hm) as Hlm. cbn [oxm_length m] in Hlm.
  split_and!; [done|done|]. exists (m :: ml).
  cbn [oxms_bytes flat_map]. fold (oxms_bytes ml). rewrite length_app.
  split_and!; [by constructor|done|lia|]. rewrite slice_app by done.
  replace (oxm + Z.of_nat (length (oxm_bytes m))) with (oxm + 4 + len) by lia. rewrite Hs.
  rewrite Hmb. f_equal. f_equal. rewrite length_slice by lia. lia.
Qed.

(** C26: What the switch encodes it parses again: for a list of matches the switch can hold that
    fits the 16-bit length, [ofp_match_list_encode] puts a multiple of eight bytes and returns
    their number; [ofp_match_parse] takes exactly these bytes from any buffer and returns the
    matches in the order of their types, the very list if it was in this order. *)
Theorem match_roundtrip l b version b' rest :
  Forall match_ok l -> Z.of_nat (length (match_bytes l)) < 65536 -> fits (length (match_bytes l)) b ->
  let v := match_bytes l in
  ofp_match_list_encode l b = Done ((LAGOPUS_RESULT_OK, Z.of_nat (length v)), put v b) /\
  Z.of_nat (length v) mod 8 = 0 /\
  (unread b' (v ++ rest) ->
   exists l', ofp_match_parse version [] b' = Done ((status_ok, l'), adv (length v) b') /\
     unread (adv (length v) b') rest /\
     l' ≡ₚ l /\ StronglySorted by_type l' /\ (StronglySorted by_type l -> l' = l)).
Proof.
  intros Hok Hlt Hf v. split_and!; [by apply match_encode_law|by apply match_bytes_aligned|].
  intros Hu. exists (parsed_list l []). destruct (parsed_list_spec l []) as [H1 H2]; [constructor|].
  split_and!; [by eapply match_parse_law|by apply unread_adv|by rewrite H1|done|by apply (parsed_list_sorted l [])].
Qed.

(** What the padding of an accepted message is. *)
Lemma forward_match_sound b t n k rest pad ml acc version :
  let v := be_bytes 2 t ++ be_bytes 2 n ++ k in
  unread b (v ++ pad ++ rest) -> 0 <= n < 65536 -> Forall match_ok ml -> k = oxms_bytes ml ->
  n = match_length ml -> Z.of_nat (length pad) = GET_64BIT_PADDING_LENGTH n ->
  (OPENFLOW_VERSION_1_3 <= version -> t = OFPMT_OXM) ->
  exists b', ofp_match_forward ((n + 7) / 8 * 8) b = Done (status_ok, b') /\
    exists t' ml' pad' rest',
        Forall match_ok ml' /\ parsed_list ml acc = parsed_list ml' acc /\
        (OPENFLOW_VERSION_1_3 <= version -> t' = OFPMT_OXM) /\
        v ++ pad ++ rest = be_bytes 2 t' ++ be_bytes 2 (match_length ml') ++ oxms_bytes ml' ++ pad' ++ rest' /\
        Z.of_nat (length pad') = GET_64BIT_PADDING_LENGTH (match_length ml') /\
        unread b' rest'.
Proof.
  intros v Hu Hn Hml -> Hlen Hpad Ht. rewrite app_assoc in Hu.
  exists (adv (length (v ++ pad)) b). split.
  - eapply ofp_match_forward_adv; [exact Hu|]. rewrite round_up_padding, <- Hpad by done.
    unfold v. rewrite !length_app, !length_be_bytes. unfold match_length in Hlen. lia.
  - exists t, ml, pad, rest. split_and!; [done|done|done| |by rewrite <- Hlen|by apply unread_adv].
    unfold v. by rewrite <- !app_assoc, <- Hlen.
Qed.

Lemma match_parse_body_sound version acc b l :
  bytes_ok (pb_data b) -> unread b l ->
  pb_getp b + Z.of_nat (length l) + 258 <= Z.of_nat (length (pb_data b)) ->
  exists status l' b', ofp_match_parse_body version acc b = Done ((status, l'), b') /\
    ((match_error status /\ is_ok status.1 = false /\ b' = b) \/
     (status = status_ok /\ exists t ml pad rest,
        Forall match_ok ml /\ l' = parsed_list ml acc /\
        (OPENFLOW_VERSION_1_3 <= version -> t = OFPMT_OXM) /\
        l = be_bytes 2 t ++ be_bytes 2 (match_length ml) ++ oxms_bytes ml ++ pad ++ rest /\
        Z.of_nat (length pad) = GET_64BIT_PADDING_LENGTH (match_length ml) /\
        unread b' rest)).
Proof.
  intros Hok Hu Hend. assert (forall code, code = OFPBMC_BAD_TYPE \/ code = OFPBMC_BAD_LEN \/ code = OFPBMC_BAD_FIELD ->
    match_error (ofp_fail OFPET_BAD_MATCH code)) as Hbad by (intros code ?; by exists code).
  pose proof (unread_bytes_ok _ _ Hu Hok) as Hlok. pose proof Hu as (Hg & Hplen & _ & _ & Hslice).
  unfold ofp_match_parse_body. destruct (decide (4 <= length l)%nat) as [H4|H4]; cycle 1.
  { rewrite (bind_Done _ _ _ _ _ (ofp_tlv_decode_sneak_short b ltac:(lia))).
    do 3 eexists. split; [done|]. left. split_and!; [apply Hbad; auto|done|done]. }
  destruct (tlv_of_bytes l Hlok H4) as (t & n & rest & -> & Ht & Hn).
  rewrite (bind_Done _ _ _ _ _ (ofp_tlv_decode_sneak_peek _ _ _ _ Hu)).
  unfold u16. rewrite !Z.mod_small by lia. cbn [is_ok negb].
  destruct (_ && _) eqn:Ever.
  { do 3 eexists. split; [done|]. left. split_and!; [apply Hbad; auto|done|done]. }
  assert (OPENFLOW_VERSION_1_3 <= version -> t = OFPMT_OXM) as Hver.
  { intros Hv%Z.leb_le. rewrite Hv in Ever. destruct (Z.eqb_spec t OFPMT_OXM); done. }
  unfold gets at 1, pbuf_plen_check at 1. erewrite bind_Done; [|reflexivity].
  rewrite !length_app, !length_be_bytes in Hplen, Hend.
  pose proof (Z.mod_pos_bound (n + 7) 8 ltac:(lia)) as Hmod. pose proof (Z.div_mod (n + 7) 8 ltac:(lia)) as Hdiv.
  destruct (Z.ltb_spec (pb_plen b) ((n + 7) / 8 * 8)) as [Hs|Hs]; cbn [is_ok negb].
  { do 3 eexists. split; [done|]. left. split_and!; [apply Hbad; auto|done|done]. }
  pose proof (round_up_padding n Hn) as Hround.
  assert (0 <= GET_64BIT_PADDING_LENGTH n) as Hpad0 by (apply Z.mod_pos_bound; lia).
  destruct (Z.eqb_spec n 4) as [->|Hn4].
  { destruct (forward_match_sound b t 4 [] (drop 4 rest) (take 4 rest) [] acc version) as (b' & E & H);
      [|lia|done|done|done| |done|].
    - cbn [app]. by rewrite <- app_assoc, take_drop.
    - rewrite length_take. change (GET_64BIT_PADDING_LENGTH 4) with 4 in *. lia.
    - rewrite (bind_Done _ _ _ _ _ E). do 3 eexists. split; [done|]. right. split; [done|].
      destruct H as (t' & ml' & pad & rest' & ? & ? & ? & Hl & ? & ?). exists t', ml', pad, rest'.
      split_and!; try done. rewrite <- !app_assoc, take_drop in Hl. exact Hl. }
  rewrite (bind_Done _ _ _ (pb_getp b) b) by done.
  destruct (match_parse_loop_sound (S (Z.to_nat n)) (pb_getp b + 4) (pb_getp b + n) acc b)
    as (status & oxm' & l' & E & H); [done|lia|lia|lia|lia|].
  rewrite (bind_Done _ _ _ _ _ E). destruct H as [[Herr Hnok]|(-> & Hle & ml & Hml & -> & -> & Hs')].
  { rewrite Hnok. cbn [negb]. do 3 eexists. split; [done|]. by left. }
  cbn [is_ok negb fst status_ok]. destruct (Z.eqb_spec (pb_getp b + n) (pb_getp b + 4 + Z.of_nat (length (oxms_bytes ml))))
    as [Heq|Hne]; cycle 1.
  { do 3 eexists. split; [done|]. left. split_and!; [apply Hbad; auto|done|done]. }
  assert (n = match_length ml) as Hlen by (unfold match_length; lia).
  set (k := length (oxms_bytes ml)) in *. set (p := Z.to_nat (GET_64BIT_PADDING_LENGTH n)).
  assert (take k rest = oxms_bytes ml) as Hk.
  { rewrite <- Hs'. unfold slice.
    pose proof (peek_unread b _ 4 k Hu ltac:(rewrite !length_app, !length_be_bytes; lia)) as Hp.
    rewrite peek_as_slice in Hp by lia. unfold slice in Hp. change (Z.of_nat 4) with 4 in Hp.
    assert (forall (x y : bytes) (s : pbuf), Done (x, s) = Done (y, s) -> x = y) as Hinj by (intros ??? [=]; done).
    rewrite (Hinj _ _ _ Hp). rewrite app_assoc. by rewrite drop_app_length' by (by rewrite length_app, !length_be_bytes). }
  rewrite <- (take_drop k rest), Hk in Hu |- *. rewrite <- (take_drop p (drop k rest)) in Hu |- *.
  destruct (forward_match_sound b t n (oxms_bytes ml) (drop p (drop k rest)) (take p (drop k rest)) ml acc version)
    as (b' & E' & H'); [by rewrite <- !app_assoc|done|done|done|done| |done|].
  { rewrite length_take, length_drop. unfold p. lia. }
  rewrite (bind_Done _ _ _ _ _ E'). do 3 eexists. split; [done|]. right. split; [done|].
  destruct H' as (t' & ml' & pad & rest' & ? & ? & ? & Hl & ? & ?). exists t', ml', pad, rest'.
  split_and!; try done; rewrite <- !app_assoc in Hl; exact Hl.
Qed.

(** C25: The parser accepts matches only.  On arbitrary bytes, with a margin in the buffer, parsing
    ends, and either the message is refused with a BAD_MATCH error, nothing of it consumed and no
    match kept, or the bytes consumed are the encoding of a list of matches the switch can hold
    (up to the type of old versions and what the padding holds), and these are added to the list
    in the order of their types. *)
Theorem match_parse_sound version acc b l :
  bytes_ok (pb_data b) -> unread b l ->
  pb_getp b + Z.of_nat (length l) + 258 <= Z.of_nat (length (pb_data b)) ->
  exists status l' b', ofp_match_parse version acc b = Done ((status, l'), b') /\
    ((match_error status /\ l' = [] /\ b' = b) \/
     (status = status_ok /\ exists t ml pad rest,
        Forall match_ok ml /\ l' = parsed_list ml acc /\
        (OPENFLOW_VERSION_1_3 <= version -> t = OFPMT_OXM) /\
        l = be_bytes 2 t ++ be_bytes 2 (match_length ml) ++ oxms_bytes ml ++ pad ++ rest /\
        Z.of_nat (length pad) = GET_64BIT_PADDING_LENGTH (match_length ml) /\
        unread b' rest)).
Proof.
  intros Hok Hu Hend. unfold ofp_match_parse.
  destruct (match_parse_body_sound version acc b l Hok Hu Hend) as (status & l' & b' & E & H).
  rewrite (bind_Done _ _ _ _ _ E). destruct H as [(Herr & Hnok & ->)|[-> H]].
  - do 3 eexists. split; [unfold mret, M_ret; by rewrite Hnok|]. by left.
  - do 3 eexists. split; [done|]. by right.
Qed.

(** *** Reading past the end

    The loop only tests that an element starts inside the match: the parser reads the header and
    the value of the last one wherever they end, up to 258 bytes behind the message.  Here the
    match of five bytes ends after the first byte of an element; the parser copies 255 bytes of
    value that are not in the buffer. *)
Definition overread_message : bytes := [0; 1; 0; 5; 0x80; 0; 0; 255].

Theorem match_parse_overread :
  let b := Pbuf 1 8 0 8 8 overread_message in
  unread b overread_message /\ ofp_match_parse OPENFLOW_VERSION_1_3 [] b = Undefined.
Proof. split; [by vm_compute|]. vm_compute. reflexivity. Qed.

(** ** Examples *)

#[global] Instance match_ok_dec m : Decision (match_ok m).
Proof. unfold match_ok, bytes_ok. apply _. Defined.

Definition two_matches : list match_ :=
  [Match false OFPXMC_OPENFLOW_BASIC 10 2 [8; 0]; Match false OFPXMC_OPENFLOW_BASIC 0 4 [0; 0; 0; 1]].

Lemma two_matches_ok : Forall match_ok two_matches.
Proof. decided. Qed.

Theorem match_roundtrip_witness :
  let v := match_bytes two_matches in
  let b := pbuf_plen_set 24 (pbuf_alloc 24) in
  let b' := holding (v ++ [7]) in
  unread b' (v ++ [7]) /\
  ofp_match_list_encode two_matches b = Done ((LAGOPUS_RESULT_OK, Z.of_nat (length v)), put v b) /\
  Z.of_nat (length v) mod 8 = 0 /\
  (unread b' (v ++ [7]) ->
   exists l', ofp_match_parse 4 [] b' = Done ((status_ok, l'), adv (length v) b') /\
     unread (adv (length v) b') [7] /\
     l' ≡ₚ two_matches /\ StronglySorted by_type l' /\ (StronglySorted by_type two_matches -> l' = two_matches)).
Proof.
  intros v b b'. split; [apply unread_holding; vm_compute; reflexivity|].
  apply match_roundtrip; [apply two_matches_ok|vm_compute; reflexivity|].
  apply (fits_alloc 24). lia.
Defined.

Theorem match_parse_sound_witness :
  let l := match_bytes two_matches ++ replicate 258 0 in
  let b := set_pb_plen 24 (holding l) in
  unread b (match_bytes two_matches) /\
  exists status l' b', ofp_match_parse 4 [] b = Done ((status, l'), b') /\
    ((match_error status /\ l' = [] /\ b' = b) \/
     (status = status_ok /\ exists t ml pad rest,
        Forall match_ok ml /\ l' = parsed_list ml [] /\
        (OPENFLOW_VERSION_1_3 <= 4 -> t = OFPMT_OXM) /\
        match_bytes two_matches = be_bytes 2 t ++ be_bytes 2 (match_length ml) ++ oxms_bytes ml ++ pad ++ rest /\
        Z.of_nat (length pad) = GET_64BIT_PADDING_LENGTH (match_length ml) /\
        unread b' rest)).
Proof.
  intros l b.
  assert (unread b (match_bytes two_matches)) as Hu by (vm_compute; repeat split; discriminate).
  split; [done|]. apply match_parse_sound; [|done|].
  - unfold bytes_ok. decided.
  - vm_compute. discriminate.
Defined.
