(* ===== verification/ActionCodec.v ===== *)
(** * Parsing and encoding of actions ([src/agent/ofp_action.c])

    An action in memory is the structure [ofpat], overlaid by the structures of the actions, the
    bytes allocated behind it (the value of a set-field action) and the list of properties of
    ENCAP and DECAP.  Memory allocation succeeds; an action is allocated for the length its
    element states, and storing a structure beyond that is [Undefined]. *)
From S2P Require Import Prelude Monad OpenFlow Pbuf Generator OpenFlowH Tlv MatchCodec.
From stdpp Require Import strings.
#[local] Open Scope Z_scope.

(** ** The data *)

(** [struct action]; [ca_tail]: the bytes behind [struct ofp_action_set_field]. *)
Record caction := CAction {
  ca_ofpat : packet;
  ca_tail : bytes;
  ca_ed_prop_list : list packet
}.

Definition ca_type (a : caction) : Z := pkt_get "type" 0 (ca_ofpat a).
Definition ca_len (a : caction) : Z := pkt_get "len" 0 (ca_ofpat a).
Definition set_ca_len (len : Z) (a : caction) : caction :=
  CAction (<["len" := [len]]> (ca_ofpat a)) (ca_tail a) (ca_ed_prop_list a).

Definition OXM_LENGTH_INDEX : nat := 3.
Definition OXM_VALUE_INDEX : nat := 4.

(** [action_alloc (size)] has room for [ofpat] and [size] more bytes. *)
Definition action_room (size : Z) : Z := 8 + size.

(** ** Parsing one action *)

(** A generated decoder that fills in [ofpat]. *)
Definition ofpat_decode (name : string) (room : Z) : pm (lagopus_result * packet) :=
  '(ret, pk) ← on_fresh (decode openflow13 name "");
  if is_ok ret then assert (sizeof openflow13 name <=? room) ;; mret (ret, pk)
  else mret (ret, pk).

(** What the functions for actions without variable part have in common. *)
Definition fixed_parse (name : string) (room : Z) : pm (ofp_status * caction) :=
  '(ret, pk) ← ofpat_decode name room;
  mret (if is_ok ret then status_ok else ofp_fail OFPET_BAD_ACTION OFPBAC_BAD_LEN, CAction pk [] []).

Definition ofp_action_header_parse_internal := fixed_parse "ofp_action_header".
Definition ofp_action_output_parse := fixed_parse "ofp_action_output".
Definition ofp_action_push_parse := fixed_parse "ofp_action_push".
Definition ofp_action_pop_mpls_parse := fixed_parse "ofp_action_pop_mpls".
Definition ofp_action_mpls_ttl_parse := fixed_parse "ofp_action_mpls_ttl".
Definition ofp_action_set_queue_parse := fixed_parse "ofp_action_set_queue".
Definition ofp_action_group_parse := fixed_parse "ofp_action_group".
Definition ofp_action_nw_ttl_parse := fixed_parse "ofp_action_nw_ttl".

(** *** SET_FIELD *)

(** The class is read from the bytes of the field. *)
Definition set_field_oxm_check (pk : packet) : bool :=
  let oxm_class := u16 (Z.shiftl (pkt_get "field" 0 pk) 8 + pkt_get "field" 1 pk) in
  match ofp_oxm_field_check (pkt_get "field" 2 pk) with
  | LAGOPUS_RESULT_OK => oxm_class =? OFPXMC_OPENFLOW_BASIC
  | _ => false
  end.

(** [action_set_field->len - sizeof (struct ofp_action_set_field)], a [size_t]. *)
Definition set_field_payload (pk : packet) : Z := u64 (pkt_get "len" 0 pk - 8).

Definition ofp_action_set_field_check (pk : packet) (b : pbuf) : ofp_status :=
  let oxm_length := pkt_get "field" OXM_LENGTH_INDEX pk in
  let pad_length := GET_64BIT_PADDING_LENGTH oxm_length in
  if oxm_length + pad_length =? set_field_payload pk then
    match pbuf_plen_check oxm_length b with
    | LAGOPUS_RESULT_OK =>
        if set_field_oxm_check pk then status_ok
        else ofp_fail OFPET_BAD_ACTION OFPBAC_BAD_SET_TYPE
    | _ => ofp_fail OFPET_BAD_ACTION OFPBAC_BAD_SET_LEN
    end
  else ofp_fail OFPET_BAD_ACTION OFPBAC_BAD_SET_LEN.

Definition ofp_action_set_field_parse (room : Z) : pm (ofp_status * caction) :=
  '(ret, pk) ← ofpat_decode "ofp_action_set_field" room;
  if is_ok ret then
    status ← gets (ofp_action_set_field_check pk);
    if is_ok status.1 then
      ret ← gets (pbuf_plen_check (set_field_payload pk));
      match ret with
      | LAGOPUS_RESULT_OK =>
          assert (8 + set_field_payload pk <=? room) ;;
          oxm_value ← DECODE_GET (Z.to_nat (set_field_payload pk));
          mret (status_ok, CAction pk oxm_value [])
      | _ => mret (ofp_fail OFPET_BAD_ACTION OFPBAC_BAD_SET_LEN, CAction pk [] [])
      end
    else mret (status, CAction pk [] [])
  else mret (ofp_fail OFPET_BAD_ACTION OFPBAC_BAD_LEN, CAction pk [] []).

(** *** ENCAP and DECAP *)

(** One property; on errors the list is emptied.  A property that is too short for its structure
    fails without an error for the controller. *)
Definition ofp_action_ed_prop_parse (ed_prop_list : list packet) : pm (ofp_status * list packet) :=
  '(ret, type, length) ← ofp_tlv_decode_sneak;
  if is_ok ret then
    ret ← gets (pbuf_plen_check length);
    if is_ok ret then
      if type =? OFPPPT_PROP_PORT_NAME then
        '(ret, ed_prop) ← on_fresh (decode openflow13 "ofp_ed_prop_portname" "");
        mret ((ret, None), if is_ok ret then ed_prop_list ++ [ed_prop] else [])
      else mret (ofp_fail OFPET_BAD_ACTION OFPBAC_BAD_TYPE, [])
    else mret (ofp_fail OFPET_BAD_ACTION OFPBAC_BAD_LEN, [])
  else mret (ofp_fail OFPET_BAD_ACTION OFPBAC_BAD_LEN, []).

(** The properties up to the position [ed_prop_end]. *)
Fixpoint ed_props_parse (fuel : nat) (ed_prop_end : Z) (ed_prop_list : list packet)
    : pm (ofp_status * list packet) :=
  match fuel with
  | O => out_of_fuel
  | S fuel' =>
      getp ← gets pbuf_getp_get;
      if getp <? ed_prop_end then
        '(status, ed_prop_list) ← ofp_action_ed_prop_parse ed_prop_list;
        if is_ok status.1 then ed_props_parse fuel' ed_prop_end ed_prop_list
        else mret (status, ed_prop_list)
      else mret (status_ok, ed_prop_list)
  end.

(** [ofp_action_encap_parse] and [ofp_action_decap_parse] differ in the structure. *)
Definition ed_action_parse (name : string) (room : Z) : pm (ofp_status * caction) :=
  '(ret, pk) ← ofpat_decode name room;
  if is_ok ret then
    ed_prop ← gets pbuf_getp_get;
    let ed_prop_end := ed_prop + pkt_get "len" 0 pk - sizeof openflow13 name in
    plen ← gets pb_plen;
    '(status, ed_prop_list) ← ed_props_parse (S (Z.to_nat plen)) ed_prop_end [];
    if is_ok status.1 then
      getp ← gets pbuf_getp_get;
      mret (if negb (ed_prop_end =? getp) then ofp_fail OFPET_BAD_ACTION OFPBAC_BAD_LEN else status,
            CAction pk [] ed_prop_list)
    else mret (status, CAction pk [] ed_prop_list)
  else mret (ofp_fail OFPET_BAD_ACTION OFPBAC_BAD_LEN, CAction pk [] []).

Definition ofp_action_encap_parse := ed_action_parse "ofp_action_encap".
Definition ofp_action_decap_parse := ed_action_parse "ofp_action_decap".

(** ** Parsing a list of actions *)

Definition action_dispatch (type room : Z) : pm (ofp_status * caction) :=
  if type =? OFPAT_OUTPUT then ofp_action_output_parse room
  else if type =? OFPAT_COPY_TTL_OUT then ofp_action_header_parse_internal room
  else if type =? OFPAT_COPY_TTL_IN then ofp_action_header_parse_internal room
  else if type =? OFPAT_SET_MPLS_TTL then ofp_action_mpls_ttl_parse room
  else if type =? OFPAT_DEC_MPLS_TTL then ofp_action_header_parse_internal room
  else if type =? OFPAT_PUSH_VLAN then ofp_action_push_parse room
  else if type =? OFPAT_POP_VLAN then ofp_action_header_parse_internal room
  else if type =? OFPAT_PUSH_MPLS then ofp_action_push_parse room
  else if type =? OFPAT_POP_MPLS then ofp_action_pop_mpls_parse room
  else if type =? OFPAT_SET_QUEUE then ofp_action_set_queue_parse room
  else if type =? OFPAT_GROUP then ofp_action_group_parse room
  else if type =? OFPAT_SET_NW_TTL then ofp_action_nw_ttl_parse room
  else if type =? OFPAT_DEC_NW_TTL then ofp_action_header_parse_internal room
  else if type =? OFPAT_SET_FIELD then ofp_action_set_field_parse room
  else if type =? OFPAT_PUSH_PBB then ofp_action_push_parse room
  else if type =? OFPAT_POP_PBB then ofp_action_header_parse_internal room
  else if type =? OFPAT_ENCAP then ofp_action_encap_parse room
  else if type =? OFPAT_DECAP then ofp_action_decap_parse room
  else if type =? OFPAT_EXPERIMENTER then mret (ofp_fail OFPET_BAD_REQUEST OFPBRC_BAD_EXPERIMENTER, CAction ∅ [] [])
  else mret (ofp_fail OFPET_BAD_ACTION OFPBAC_BAD_TYPE, CAction ∅ [] []).

Fixpoint ofp_action_parse_loop (fuel : nat) (ofpat ofpat_end : Z) (action_list : list caction)
    : pm (ofp_status * list caction) :=
  match fuel with
  | O => out_of_fuel
  | S fuel' =>
      if ofpat <? ofpat_end then
        '(ret, type, length) ← ofp_tlv_decode_sneak;
        if is_ok ret then
          ret ← gets (pbuf_plen_check length);
          if is_ok ret then
            getp ← gets pbuf_getp_get;
            let action_end := getp + length in
            '(status, action) ← action_dispatch type (action_room length);
            let action_list := action_list ++ [action] in
            if is_ok status.1 then
              getp ← gets pbuf_getp_get;
              if action_end =? getp then ofp_action_parse_loop fuel' (ofpat + length) ofpat_end action_list
              else mret (ofp_fail OFPET_BAD_ACTION OFPBAC_BAD_LEN, action_list)
            else mret (status, action_list)
          else mret (ofp_fail OFPET_BAD_ACTION OFPBAC_BAD_LEN, action_list)
        else mret (ofp_fail OFPET_BAD_ACTION OFPBAC_BAD_LEN, action_list)
      else mret (status_ok, action_list)
  end.

(** Each turn takes at least four bytes from the buffer.  [action_length] is a [size_t]; added to a
    pointer, a length that has wrapped around below zero moves it back. *)
Definition ofp_action_parse (action_length : Z) (action_list : list caction) : pm (ofp_status * list caction) :=
  ofpat ← gets pbuf_getp_get;
  plen ← gets pb_plen;
  '(status, action_list) ← ofp_action_parse_loop (S (Z.to_nat plen)) ofpat (ofpat + s64 action_length) action_list;
  mret (status, if is_ok status.1 then action_list else []).

(** ** Encoding *)

Definition ofp_set_field_encode (val : bytes) : pm lagopus_result := fun b =>
  match pbuf_plen_check (Z.of_nat (length val)) b with
  | LAGOPUS_RESULT_OK => (ENCODE_PUT val ;; mret LAGOPUS_RESULT_OK) b
  | ret => Done (ret, b)
  end.

(** [n] bytes from the value on; more than are there is [Undefined]. *)
Definition value_bytes (n : Z) (a : caction) : pm bytes :=
  assert (n <=? Z.of_nat (length (ca_tail a))) ;; mret (take (Z.to_nat n) (ca_tail a)).

(** The encoders return the action with the length they have given it. *)
Definition ofp_action_list_set_field_encode (a : caction) : pm (lagopus_result * caction) :=
  let oxm_len := pkt_get "field" OXM_LENGTH_INDEX (ca_ofpat a) in
  let a := set_ca_len (u16 (8 + oxm_len)) a in
  ret ← encode openflow13 "ofp_action_set_field" "" (ca_ofpat a);
  if is_ok ret then
    putp ← gets pbuf_putp_get;
    let set_field_head := putp - 8 in
    val ← value_bytes (u16 (ca_len a - 8)) a;
    ret ← ofp_set_field_encode val;
    if is_ok ret then
      '(ret, len) ← ofp_padding_encode (ca_len a);
      let a := set_ca_len len a in
      if is_ok ret then
        ret ← ofp_tlv_length_set set_field_head len;
        mret (ret, a)
      else mret (ret, a)
    else mret (ret, a)
  else mret (ret, a).

(** The result and the total length. *)
Definition ofp_action_list_action_ed_prop_encode (ed_prop : packet) (total_length : Z) : pm (lagopus_result * Z) :=
  if pkt_get "type" 0 ed_prop =? OFPPPT_PROP_PORT_NAME then
    ret ← encode openflow13 "ofp_ed_prop_portname" "" ed_prop;
    if is_ok ret then
      putp ← gets pbuf_putp_get;
      let length := sizeof openflow13 "ofp_ed_prop_portname" in
      let prop_head := putp - length in
      let '(total_length, ret) := ofp_tlv_length_sum total_length length in
      if is_ok ret then ret ← ofp_tlv_length_set prop_head length; mret (ret, total_length)
      else mret (ret, total_length)
    else mret (ret, total_length)
  else mret (LAGOPUS_RESULT_OUT_OF_RANGE, total_length).

Fixpoint ed_props_encode (ed_prop_list : list packet) (total_length : Z) : pm (lagopus_result * Z) :=
  match ed_prop_list with
  | [] => mret (LAGOPUS_RESULT_OK, total_length)
  | ed_prop :: ed_prop_list' =>
      '(ret, total_length) ← ofp_action_list_action_ed_prop_encode ed_prop total_length;
      if is_ok ret then ed_props_encode ed_prop_list' total_length else mret (ret, total_length)
  end.

(** [ofp_action_list_action_encap_encode] and [..._decap_encode] differ in the structure; the
    length of the action starts at what the caller has set, 0. *)
Definition ed_action_encode (name : string) (a : caction) : pm (lagopus_result * caction) :=
  ret ← encode openflow13 name "" (ca_ofpat a);
  if is_ok ret then
    putp ← gets pbuf_putp_get;
    let head := putp - sizeof openflow13 name in
    '(ret, ed_prop_length) ← ed_props_encode (ca_ed_prop_list a) 0;
    if is_ok ret then
      let '(len, ret) := ofp_tlv_length_sum (ca_len a) (u16 (sizeof openflow13 name + ed_prop_length)) in
      let a := set_ca_len len a in
      if is_ok ret then ret ← ofp_tlv_length_set head len; mret (ret, a)
      else mret (ret, a)
    else mret (ret, a)
  else mret (ret, a).

Definition ofp_action_list_action_encap_encode := ed_action_encode "ofp_action_encap".
Definition ofp_action_list_action_decap_encode := ed_action_encode "ofp_action_decap".

(** The structures of the actions without variable part. *)
Definition fixed_struct (type : Z) : option string :=
  if type =? OFPAT_OUTPUT then Some "ofp_action_output"
  else if bool_decide (type ∈ [OFPAT_COPY_TTL_OUT; OFPAT_COPY_TTL_IN; OFPAT_DEC_MPLS_TTL; OFPAT_POP_VLAN;
                               OFPAT_DEC_NW_TTL; OFPAT_POP_PBB]) then Some "ofp_action_header"
  else if type =? OFPAT_SET_MPLS_TTL then Some "ofp_action_mpls_ttl"
  else if bool_decide (type ∈ [OFPAT_PUSH_VLAN; OFPAT_PUSH_MPLS; OFPAT_PUSH_PBB]) then Some "ofp_action_push"
  else if type =? OFPAT_POP_MPLS then Some "ofp_action_pop_mpls"
  else if type =? OFPAT_SET_QUEUE then Some "ofp_action_set_queue"
  else if type =? OFPAT_GROUP then Some "ofp_action_group"
  else if type =? OFPAT_SET_NW_TTL then Some "ofp_action_nw_ttl"
  else None.

(** One turn of the loop of [ofp_action_list_encode], up to the sum; [res] is the result of the
    turn before, which an experimenter action keeps. *)
Definition action_encode (res : lagopus_result) (a : caction) : pm (lagopus_result * caction) :=
  match fixed_struct (ca_type a) with
  | Some name =>
      let a := set_ca_len (sizeof openflow13 name) a in
      res ← encode openflow13 name "" (ca_ofpat a);
      mret (res, a)
  | None =>
      if ca_type a =? OFPAT_SET_FIELD then ofp_action_list_set_field_encode a
      else if ca_type a =? OFPAT_ENCAP then ofp_action_list_action_encap_encode (set_ca_len 0 a)
      else if ca_type a =? OFPAT_DECAP then ofp_action_list_action_decap_encode (set_ca_len 0 a)
      else if ca_type a =? OFPAT_EXPERIMENTER then mret (res, a)
      else mret (LAGOPUS_RESULT_OUT_OF_RANGE, a)
  end.

Fixpoint ofp_action_list_encode_loop (action_list : list caction) (res : lagopus_result) (total_length : Z)
    : pm (lagopus_result * Z * list caction) :=
  match action_list with
  | [] => mret (res, total_length, [])
  | a :: action_list' =>
      '(res, a) ← action_encode res a;
      if is_ok res then
        let '(total_length, res) := ofp_tlv_length_sum total_length (ca_len a) in
        if is_ok res then
          '(res, total_length, action_list') ← ofp_action_list_encode_loop action_list' res total_length;
          mret (res, total_length, a :: action_list')
        else mret (res, total_length, a :: action_list')
      else mret (res, total_length, a :: action_list')
  end.

Definition ofp_action_list_encode (action_list : list caction) : pm (lagopus_result * Z * list caction) :=
  match action_list with
  | [] => mret (LAGOPUS_RESULT_OK, 0, [])
  | _ => ofp_action_list_encode_loop action_list LAGOPUS_RESULT_ANY_FAILURES 0
  end.

(** ** Action headers, of the table features *)

Definition header_types : list Z :=
  [OFPAT_OUTPUT; OFPAT_COPY_TTL_OUT; OFPAT_COPY_TTL_IN; OFPAT_SET_MPLS_TTL; OFPAT_DEC_MPLS_TTL;
   OFPAT_PUSH_VLAN; OFPAT_POP_VLAN; OFPAT_PUSH_MPLS; OFPAT_POP_MPLS; OFPAT_SET_QUEUE; OFPAT_GROUP;
   OFPAT_SET_NW_TTL; OFPAT_DEC_NW_TTL; OFPAT_SET_FIELD; OFPAT_PUSH_PBB; OFPAT_POP_PBB; OFPAT_ENCAP; OFPAT_DECAP].

Fixpoint ofp_action_header_parse_loop (fuel : nat) (ofpat ofpat_end : Z) (action_list : list caction)
    : pm (ofp_status * list caction) :=
  match fuel with
  | O => out_of_fuel
  | S fuel' =>
      if ofpat <? ofpat_end then
        '(ret, type, length) ← ofp_tlv_decode_sneak;
        if is_ok ret then
          ret ← gets (pbuf_plen_check length);
          if is_ok ret then
            '(status, action) ←
              (if bool_decide (type ∈ header_types) then ofp_action_header_parse_internal (action_room length)
               else if type =? OFPAT_EXPERIMENTER then
                 mret (ofp_fail OFPET_BAD_REQUEST OFPBRC_BAD_EXPERIMENTER, CAction ∅ [] [])
               else mret (ofp_fail OFPET_BAD_ACTION OFPBAC_BAD_TYPE, CAction ∅ [] []));
            let action_list := action_list ++ [action] in
            if is_ok status.1 then ofp_action_header_parse_loop fuel' (ofpat + length) ofpat_end action_list
            else mret (status, action_list)
          else mret (ofp_fail OFPET_BAD_ACTION OFPBAC_BAD_LEN, action_list)
        else mret (ofp_fail OFPET_BAD_ACTION OFPBAC_BAD_LEN, action_list)
      else mret (status_ok, action_list)
  end.

(** Each turn takes eight bytes from the buffer. *)
Definition ofp_action_header_parse (action_length : Z) (action_list : list caction) : pm (ofp_status * list caction) :=
  ofpat ← gets pbuf_getp_get;
  plen ← gets pb_plen;
  '(status, action_list) ← ofp_action_header_parse_loop (S (Z.to_nat plen)) ofpat (ofpat + s64 action_length) action_list;
  mret (status, if is_ok status.1 then action_list else []).

Fixpoint ofp_action_header_list_encode_loop (action_list : list caction) (res : lagopus_result) (total_length : Z)
    : pm (lagopus_result * Z * list caction) :=
  match action_list with
  | [] => mret (res, total_length, [])
  | a :: action_list' =>
      '(res, a) ←
        (if bool_decide (ca_type a ∈ header_types) then
           let a := set_ca_len 8 a in
           res ← encode openflow13 "ofp_action_header" "" (ca_ofpat a); mret (res, a)
         else if ca_type a =? OFPAT_EXPERIMENTER then mret (res, a)
         else mret (LAGOPUS_RESULT_OUT_OF_RANGE, a));
      if is_ok res then
        let '(total_length, res) := ofp_tlv_length_sum total_length (ca_len a) in
        if is_ok res then
          '(res, total_length, action_list') ← ofp_action_header_list_encode_loop action_list' res total_length;
          mret (res, total_length, a :: action_list')
        else mret (res, total_length, a :: action_list')
      else mret (res, total_length, a :: action_list')
  end.

Definition ofp_action_header_list_encode (action_list : list caction) : pm (lagopus_result * Z * list caction) :=
  match action_list with
  | [] => mret (LAGOPUS_RESULT_OK, 0, [])
  | _ => ofp_action_header_list_encode_loop action_list LAGOPUS_RESULT_ANY_FAILURES 0
  end.

(** ** The encoding of an action *)

Definition struct_of (type : Z) : option string :=
  match fixed_struct type with
  | Some name => Some name
  | None =>
      if type =? OFPAT_SET_FIELD then Some "ofp_action_set_field"
      else if type =? OFPAT_ENCAP then Some "ofp_action_encap"
      else if type =? OFPAT_DECAP then Some "ofp_action_decap"
      else None
  end.

(** A property as it is written, with its length. *)
Definition ed_prop_final (ed_prop : packet) : packet := <["len" := [24]]> ed_prop.
Definition ed_prop_bytes (ed_prop : packet) : bytes :=
  wire (ed_prop_final ed_prop) (fields "ofp_ed_prop_portname" "").

(** The action with the length the encoder gives it. *)
Definition action_final (name : string) (a : caction) : caction :=
  let a' := set_ca_len (sizeof openflow13 name + Z.of_nat (length (ca_tail a)) +
                        24 * Z.of_nat (length (ca_ed_prop_list a))) a in
  CAction (ca_ofpat a') (ca_tail a') (map ed_prop_final (ca_ed_prop_list a')).

Definition action_bytes (name : string) (a : caction) : bytes :=
  wire (ca_ofpat (action_final name a)) (fields name "") ++ ca_tail a ++ flat_map ed_prop_bytes (ca_ed_prop_list a).

Definition ed_prop_ok (ed_prop : packet) : Prop :=
  exact "ofp_ed_prop_portname" (ed_prop_final ed_prop) /\ pkt_get "type" 0 ed_prop = OFPPPT_PROP_PORT_NAME.

(** The value of a set-field action is as long as its header says, and padded. *)
Definition set_field_ok (a : caction) : Prop :=
  let oxm_len := pkt_get "field" OXM_LENGTH_INDEX (ca_ofpat a) in
  (exists v, Z.of_nat (length v) = oxm_len /\ bytes_ok v /\ ca_tail a = v ++ zeros (GET_64BIT_PADDING_LENGTH oxm_len)) /\
  set_field_oxm_check (ca_ofpat a) = true.

(** The actions the switch can hold, and the structure of each. *)
Definition action_ok (name : string) (a : caction) : Prop :=
  struct_of (ca_type a) = Some name /\ exact name (ca_ofpat (action_final name a)) /\
  (if ca_type a =? OFPAT_SET_FIELD then set_field_ok a else ca_tail a = []) /\
  (if bool_decide (ca_type a ∈ [OFPAT_ENCAP; OFPAT_DECAP]) then Forall ed_prop_ok (ca_ed_prop_list a)
   else ca_ed_prop_list a = []).

(** *** The structures *)

Definition action_structs : list string :=
  ["ofp_action_output"; "ofp_action_header"; "ofp_action_mpls_ttl"; "ofp_action_push"; "ofp_action_pop_mpls";
   "ofp_action_set_queue"; "ofp_action_group"; "ofp_action_nw_ttl"; "ofp_action_set_field"; "ofp_action_encap";
   "ofp_action_decap"].

Definition header_fields : list leaf := [("type", 2%nat, 1%nat); ("len", 2%nat, 1%nat)].

(** The structures start with type and length, and decode whole. *)
Definition element_struct (name : string) : bool :=
  declared openflow13 name && decodable name &&
  bool_decide (take 2 (fields name "") = header_fields) &&
  bool_decide (sizeof openflow13 name = Z.of_nat (leaves_size (fields name ""))) &&
  (8 <=? sizeof openflow13 name) && (sizeof openflow13 name <=? 24).

Lemma action_structs_elements : Forall (fun name => element_struct name = true) ("ofp_ed_prop_portname" :: action_structs).
Proof. repeat constructor. Qed.

Definition fixed_types : list Z :=
  [OFPAT_OUTPUT; OFPAT_COPY_TTL_OUT; OFPAT_COPY_TTL_IN; OFPAT_DEC_MPLS_TTL; OFPAT_POP_VLAN; OFPAT_DEC_NW_TTL;
   OFPAT_POP_PBB; OFPAT_SET_MPLS_TTL; OFPAT_PUSH_VLAN; OFPAT_PUSH_MPLS; OFPAT_PUSH_PBB; OFPAT_POP_MPLS;
   OFPAT_SET_QUEUE; OFPAT_GROUP; OFPAT_SET_NW_TTL].

Lemma fixed_struct_type type name : fixed_struct type = Some name -> type ∈ fixed_types.
Proof.
  unfold fixed_struct, fixed_types. intros H.
  repeat first [case_bool_decide; [set_solver|]
               |destruct (_ =? _) eqn:E in H; [apply Z.eqb_eq in E as ->; set_solver|clear E]].
  done.
Qed.

Ltac each_type H := repeat (apply elem_of_cons in H as [->|H]); [..|by apply elem_of_nil in H].

Lemma fixed_dispatch type name room : fixed_struct type = Some name -> action_dispatch type room = fixed_parse name room.
Proof.
  intros H. pose proof (fixed_struct_type _ _ H) as Ht. unfold fixed_types in Ht.
  each_type Ht; injection H as <-; reflexivity.
Qed.

Lemma struct_of_element type name : struct_of type = Some name -> element_struct name = true.
Proof.
  intros H. pose proof action_structs_elements as Hall. rewrite Forall_forall in Hall. apply Hall.
  unfold struct_of in H. destruct (fixed_struct type) eqn:E.
  - injection H as ->. pose proof (fixed_struct_type _ _ E) as Ht. unfold fixed_types in Ht.
    each_type Ht; injection E as <-; set_solver.
  - repeat destruct (_ =? _); simplify_eq; set_solver.
Qed.

Lemma element_facts name :
  element_struct name = true ->
  declared openflow13 name = true /\ decodable name = true /\
  (exists lfs, fields name "" = header_fields ++ lfs) /\
  sizeof openflow13 name = Z.of_nat (leaves_size (fields name "")) /\ 8 <= sizeof openflow13 name <= 24.
Proof.
  unfold element_struct. rewrite !andb_true_iff, !bool_decide_eq_true, !Z.leb_le.
  intros (((((H1 & H2) & H3) & H4) & H5) & H6). split_and!; try done.
  exists (drop 2 (fields name "")). by rewrite <- H3, take_drop.
Qed.

(** The bytes of an element begin with type and length. *)
Lemma wire_element name pk :
  element_struct name = true ->
  exists body, Z.of_nat (length body) = sizeof openflow13 name - 4 /\
    forall pk', (forall f, f <> "len" -> pk' !! f = pk !! f) ->
      wire pk' (fields name "") = be_bytes 2 (pkt_get "type" 0 pk) ++ be_bytes 2 (pkt_get "len" 0 pk') ++ body.
Proof.
  intros H. pose proof (openflow13_regular name ltac:(by apply element_facts in H as (? & _))) as Hreg.
  apply andb_prop in Hreg as [Hnd%bool_decide_eq_true_1 _].
  destruct (element_facts _ H) as (Hd & _ & (lfs & Hf) & Hs & _). rewrite Hf in *.
  exists (wire pk lfs). rewrite Hs, length_wire. split.
  - rewrite leaves_size_app. change (leaves_size header_fields) with 4%nat. lia.
  - intros pk' Hpk'. rewrite wire_app. unfold header_fields at 1. unfold wire at 1. cbn [flat_map wire_leaf fst snd seq].
    rewrite !app_nil_r, <- app_assoc. unfold pkt_get at 1. rewrite Hpk' by done. f_equal. f_equal.
    unfold field_names in Hnd. rewrite map_app in Hnd. apply NoDup_app in Hnd as (_ & Hdis & _).
    clear -Hpk' Hdis. induction lfs as [|lf lfs IH]; [done|]. unfold wire in *. cbn [flat_map].
    rewrite IH by (intros f Hf Hf'; apply (Hdis f Hf); cbn; set_solver). f_equal.
    unfold wire_leaf. apply flat_map_ext. intros i. unfold pkt_get. rewrite Hpk'; [done|]. intros Hl.
    apply (Hdis "len"); [cbn; set_solver|]. cbn. rewrite Hl. set_solver.
Qed.

Lemma wire_element_len name pk : element_struct name = true -> Z.of_nat (length (wire pk (fields name ""))) = sizeof openflow13 name.
Proof. intros H. destruct (element_facts _ H) as (_ & _ & _ & -> & _). by rewrite length_wire. Qed.

Lemma element_encode name pk b :
  element_struct name = true -> fits (length (wire pk (fields name ""))) b ->
  encode openflow13 name "" pk b = Done (LAGOPUS_RESULT_OK, put (wire pk (fields name "")) b).
Proof.
  intros H Hf. destruct (element_facts _ H) as (Hd & _). apply struct_encode; [done|].
  by rewrite length_wire in Hf.
Qed.

Lemma ofpat_decode_law name pk b rest room :
  element_struct name = true -> exact name pk -> sizeof openflow13 name <= room ->
  unread b (wire pk (fields name "") ++ rest) ->
  ofpat_decode name room b = Done ((LAGOPUS_RESULT_OK, pk), adv (length (wire pk (fields name ""))) b).
Proof.
  intros H Hex Hroom Hu. destruct (element_facts _ H) as (Hd & Hdec & _).
  unfold ofpat_decode.
  rewrite (bind_Done _ _ _ _ _ (on_fresh_Done _ _ _ _ _ (exact_decode name b pk rest Hd Hdec Hex Hu))).
  cbn [is_ok]. unfold assert. by rewrite (proj2 (Z.leb_le _ _)).
Qed.

Lemma fixed_parse_law name pk b rest room :
  element_struct name = true -> exact name pk -> sizeof openflow13 name <= room ->
  unread b (wire pk (fields name "") ++ rest) ->
  fixed_parse name room b = Done ((status_ok, CAction pk [] []), adv (length (wire pk (fields name ""))) b).
Proof.
  intros H Hex Hroom Hu. unfold fixed_parse. by rewrite (bind_Done _ _ _ _ _ (ofpat_decode_law _ _ _ _ _ H Hex Hroom Hu)).
Qed.

(** *** SET_FIELD *)

Lemma set_field_element : element_struct "ofp_action_set_field" = true.
Proof. reflexivity. Qed.

Lemma set_field_size : sizeof openflow13 "ofp_action_set_field" = 8.
Proof. vm_compute. reflexivity. Qed.

Lemma pkt_get_range pk name w n i :
  field_ok pk (name, w, n) -> (i < n)%nat -> 0 <= pkt_get name i pk < 256 ^ Z.of_nat w.
Proof.
  intros (l & Hl & Hlen & Hr) Hi. cbn [fst snd] in *. unfold pkt_get. rewrite Hl. cbn [default id].
  rewrite Forall_forall in Hr. apply Hr. apply list_elem_of_In, nth_In. lia.
Qed.

Lemma set_field_fields : fields "ofp_action_set_field" "" = header_fields ++ [("field", 1%nat, 4%nat)].
Proof. vm_compute. reflexivity. Qed.

Lemma oxm_len_range pk :
  exact "ofp_action_set_field" pk -> 0 <= pkt_get "field" OXM_LENGTH_INDEX pk < 256.
Proof.
  intros [Hok _]. rewrite set_field_fields in Hok. apply Forall_app in Hok as [_ Hok].
  apply Forall_inv in Hok. apply (pkt_get_range pk "field" 1 4 3 Hok). lia.
Qed.

Lemma length_zeros n : length (zeros n) = Z.to_nat n.
Proof. apply length_replicate. Qed.

Lemma gets_Done {S A} (f : S -> A) (s : S) : gets f s = Done (f s, s).
Proof. done. Qed.

Lemma set_field_parse_law pk v b rest :
  let oxm_len := pkt_get "field" OXM_LENGTH_INDEX pk in
  let tail := v ++ zeros (GET_64BIT_PADDING_LENGTH oxm_len) in
  exact "ofp_action_set_field" pk -> Z.of_nat (length v) = oxm_len ->
  set_field_oxm_check pk = true -> pkt_get "len" 0 pk = 8 + Z.of_nat (length tail) ->
  unread b (wire pk (fields "ofp_action_set_field" "") ++ tail ++ rest) ->
  ofp_action_set_field_parse (action_room (pkt_get "len" 0 pk)) b =
  Done ((status_ok, CAction pk tail []), adv (length (wire pk (fields "ofp_action_set_field" "")) + length tail) b).
Proof.
  intros oxm_len tail Hex Hv Hchk Hlen Hu. pose proof (oxm_len_range _ Hex) as Hr. fold oxm_len in Hr.
  destruct (GET_64BIT_PADDING_LENGTH_spec oxm_len ltac:(lia)) as [Hpad _].
  assert (Z.of_nat (length tail) = oxm_len + GET_64BIT_PADDING_LENGTH oxm_len) as Ht.
  { unfold tail. rewrite length_app, length_zeros. lia. }
  assert (set_field_payload pk = Z.of_nat (length tail)) as Hpay.
  { unfold set_field_payload. rewrite Hlen, u64_small; lia. }
  assert (sizeof openflow13 "ofp_action_set_field" <= action_room (pkt_get "len" 0 pk)) as Hroom
    by (rewrite set_field_size; unfold action_room; lia).
  unfold ofp_action_set_field_parse.
  rewrite (bind_Done _ _ _ _ _ (ofpat_decode_law _ _ _ _ _ set_field_element Hex Hroom Hu)). cbn [is_ok].
  apply unread_adv in Hu. set (b1 := adv _ b) in *.
  assert (Z.of_nat (length tail) <= pb_plen b1) as Hpl.
  { destruct Hu as (_ & -> & _). rewrite length_app. lia. }
  rewrite (bind_Done _ _ _ status_ok b1); cycle 1.
  { rewrite gets_Done. unfold ofp_action_set_field_check. fold oxm_len.
    rewrite Hpay, Ht, Z.eqb_refl. unfold pbuf_plen_check. rewrite (proj2 (Z.ltb_ge _ _)) by lia. by rewrite Hchk. }
  cbn [is_ok fst status_ok]. rewrite (bind_Done _ _ _ LAGOPUS_RESULT_OK b1); cycle 1.
  { rewrite gets_Done, Hpay. unfold pbuf_plen_check. by rewrite (proj2 (Z.ltb_ge _ _)) by lia. }
  unfold assert. rewrite Hpay, (proj2 (Z.leb_le _ _)), bind_ret by (unfold action_room; lia).
  rewrite Nat2Z.id, (bind_Done _ _ _ _ _ (DECODE_GET_adv _ _ _ Hu)).
  unfold b1. by rewrite adv_add.
Qed.

Lemma set_field_encode_val v b :
  fits (length v) b -> ofp_set_field_encode v b = Done (LAGOPUS_RESULT_OK, put v b).
Proof.
  intros H. unfold ofp_set_field_encode. rewrite plen_check_ok by apply H.
  by rewrite (bind_Done _ _ _ _ _ (ENCODE_PUT_put _ _ H)).
Qed.

Lemma pkt_get_insert name v i pk : pkt_get name i (<[name := v]> pk) = nth i v 0.
Proof. unfold pkt_get. by rewrite lookup_insert_eq. Qed.
Lemma pkt_get_insert_ne name name' v i pk : name <> name' -> pkt_get name i (<[name' := v]> pk) = pkt_get name i pk.
Proof. intros. unfold pkt_get. by rewrite lookup_insert_ne. Qed.

Lemma fits_writable n b : fits n b -> writable b.
Proof. by intros [? _]. Qed.

Lemma set_field_encode_law pk v b :
  let oxm_len := pkt_get "field" OXM_LENGTH_INDEX pk in
  let tail := v ++ zeros (GET_64BIT_PADDING_LENGTH oxm_len) in
  let pk' := <["len" := [8 + Z.of_nat (length tail)]]> pk in
  exact "ofp_action_set_field" pk' -> Z.of_nat (length v) = oxm_len ->
  fits (length (wire pk' (fields "ofp_action_set_field" "") ++ tail)) b ->
  ofp_action_list_set_field_encode (CAction pk tail []) b =
  Done ((LAGOPUS_RESULT_OK, CAction pk' tail []), put (wire pk' (fields "ofp_action_set_field" "") ++ tail) b).
Proof.
  intros oxm_len tail pk' Hex Hv Hf.
  pose proof (oxm_len_range _ Hex) as Hr. unfold pk' in Hr. rewrite pkt_get_insert_ne in Hr by done. fold oxm_len in Hr.
  destruct (GET_64BIT_PADDING_LENGTH_spec oxm_len ltac:(lia)) as [Hpad _]. set (pad := GET_64BIT_PADDING_LENGTH oxm_len) in *.
  assert (GET_64BIT_PADDING_LENGTH (8 + oxm_len) = pad) as Hpad8.
  { unfold pad, GET_64BIT_PADDING_LENGTH. f_equal. replace (8 + oxm_len + 7) with (oxm_len + 7 + 1 * 8) by lia.
    rewrite Z.div_add by lia. lia. }
  destruct (wire_element _ pk set_field_element) as (body & Hbody & Hwire). rewrite set_field_size in Hbody.
  pose proof (wire_element_len "ofp_action_set_field" pk' set_field_element) as Hlen'. rewrite set_field_size in Hlen'.
  rewrite length_app in Hf. pose proof (fits_writable _ _ Hf) as Hw. assert (0 <= pb_putp b) as Hp by apply Hw.
  assert (length tail = length v + Z.to_nat pad)%nat as Ht by (unfold tail; rewrite length_app, length_zeros; lia).
  unfold ofp_action_list_set_field_encode, set_ca_len. cbn [ca_ofpat ca_tail ca_ed_prop_list ca_len].
  fold oxm_len. unfold u16. rewrite (Z.mod_small (8 + oxm_len)) by lia.
  set (pk0 := <["len" := [8 + oxm_len]]> pk).
  pose proof (wire_element_len "ofp_action_set_field" pk0 set_field_element) as Hlen0. rewrite set_field_size in Hlen0.
  rewrite (bind_Done _ _ _ _ _ (element_encode "ofp_action_set_field" pk0 b set_field_element
    ltac:(eapply fits_weaken; [exact Hf|lia]))). cbn [is_ok].
  set (w0 := wire pk0 _) in *. rewrite (bind_Done _ _ _ (pb_putp (put w0 b)) (put w0 b)) by done.
  assert (pkt_get "len" 0 pk0 = 8 + oxm_len) as Hl0 by (unfold pk0; by rewrite pkt_get_insert).
  unfold ca_len. cbn [ca_ofpat]. rewrite !Hl0.
  rewrite Z.mod_small by lia. replace (8 + oxm_len - 8) with (Z.of_nat (length v)) by lia.
  rewrite (bind_Done _ _ _ v (put w0 b)); cycle 1.
  { unfold value_bytes, assert. cbn [ca_tail]. rewrite (proj2 (Z.leb_le _ _)), bind_ret by lia.
    unfold mret, M_ret. rewrite Nat2Z.id. unfold tail. by rewrite take_app_length. }
  assert (fits (length v + Z.to_nat pad) (put w0 b)) as Hf0 by (apply put_fits; eapply fits_weaken; [exact Hf|lia]).
  assert (fits (length v) (put w0 b)) as Hf1 by (eapply fits_weaken; [exact Hf0|lia]).
  rewrite (bind_Done _ _ _ _ _ (set_field_encode_val v _ Hf1)). cbn [is_ok].
  pose proof (ofp_padding_encode_put (8 + oxm_len) (put v (put w0 b))) as Hpe. rewrite Hpad8 in Hpe.
  rewrite (bind_Done _ _ _ _ _ (Hpe ltac:(lia) ltac:(lia) (put_fits _ _ _ Hf0))). cbn [is_ok].
  replace (put (zeros pad) (put v (put w0 b))) with (put (w0 ++ tail) b); cycle 1.
  { unfold tail. rewrite !put_app by (first [done|cbn; lia]). done. }
  rewrite (bind_Done _ _ _ LAGOPUS_RESULT_OK (put (wire pk' (fields "ofp_action_set_field" "") ++ tail) b)); cycle 1.
  { replace (pb_putp (put w0 b) - 8) with (pb_putp b + Z.of_nat (length ([] : bytes)))
      by (unfold put; cbn [pb_putp length]; lia).
    rewrite (Hwire pk') by (intros f Hne; unfold pk'; by rewrite lookup_insert_ne).
    unfold pk' at 1. rewrite pkt_get_insert. cbn [nth]. rewrite <- !app_assoc.
    replace (8 + oxm_len + pad) with (8 + Z.of_nat (length tail)) by lia.
    apply (ofp_tlv_length_set_put (pkt_get "type" 0 pk) (8 + oxm_len) _ [] (body ++ tail)); [done| |].
    - rewrite length_app. destruct Hf. lia.
    - unfold w0. rewrite (Hwire pk0) by (intros f Hne; unfold pk0; by rewrite lookup_insert_ne).
      rewrite Hl0. cbn [app]. by rewrite <- !app_assoc. }
  unfold mret, M_ret, pk0. rewrite insert_insert_eq.
  by replace (8 + oxm_len + pad) with (8 + Z.of_nat (length tail)) by lia.
Qed.

(** *** ENCAP and DECAP *)

Lemma portname_element : element_struct "ofp_ed_prop_portname" = true.
Proof. reflexivity. Qed.
Lemma portname_size : sizeof openflow13 "ofp_ed_prop_portname" = 24.
Proof. vm_compute. reflexivity. Qed.

Lemma length_ed_prop_bytes p : length (ed_prop_bytes p) = 24%nat.
Proof.
  pose proof (wire_element_len _ (ed_prop_final p) portname_element) as H.
  rewrite portname_size in H. unfold ed_prop_bytes. lia.
Qed.

Lemma length_ed_props_bytes l : length (flat_map ed_prop_bytes l) = (24 * length l)%nat.
Proof. apply length_flat_map_const. intros. apply length_ed_prop_bytes. Qed.

Lemma ed_prop_bytes_split p :
  exists body, length body = 20%nat /\
    wire p (fields "ofp_ed_prop_portname" "") = be_bytes 2 (pkt_get "type" 0 p) ++ be_bytes 2 (pkt_get "len" 0 p) ++ body /\
    ed_prop_bytes p = be_bytes 2 (pkt_get "type" 0 p) ++ be_bytes 2 24 ++ body.
Proof.
  destruct (wire_element _ p portname_element) as (body & Hb & Hw). rewrite portname_size in Hb.
  exists body. split_and!; [lia|by apply Hw|].
  unfold ed_prop_bytes. rewrite Hw by (intros f Hf; unfold ed_prop_final; by rewrite lookup_insert_ne).
  unfold ed_prop_final at 1. by rewrite pkt_get_insert.
Qed.

Lemma ed_prop_parse_law p acc b rest :
  ed_prop_ok p -> unread b (ed_prop_bytes p ++ rest) ->
  ofp_action_ed_prop_parse acc b = Done ((status_ok, acc ++ [ed_prop_final p]), adv (length (ed_prop_bytes p)) b).
Proof.
  intros [Hex Ht] Hu. destruct (ed_prop_bytes_split p) as (body & Hb & _ & Hw). rewrite Ht in Hw.
  unfold ofp_action_ed_prop_parse. pose proof Hu as Hu'. rewrite Hw, <- !app_assoc in Hu'.
  rewrite (bind_Done _ _ _ _ _ (ofp_tlv_decode_sneak_peek _ _ _ _ Hu')). cbn [is_ok].
  change (u16 24) with (Z.of_nat 24). change (u16 OFPPPT_PROP_PORT_NAME) with OFPPPT_PROP_PORT_NAME.
  rewrite (bind_Done _ _ _ LAGOPUS_RESULT_OK b); cycle 1.
  { rewrite gets_Done, plen_check_ok; [done|]. destruct Hu as (_ & -> & _).
    rewrite length_app, length_ed_prop_bytes. lia. }
  cbn [is_ok]. rewrite Z.eqb_refl. destruct (element_facts _ portname_element) as (Hd & Hdec & _).
  by rewrite (bind_Done _ _ _ _ _ (on_fresh_Done _ _ _ _ _ (exact_decode _ b _ rest Hd Hdec Hex Hu))).
Qed.

Lemma ed_props_parse_law l acc b rest fuel :
  Forall ed_prop_ok l -> unread b (flat_map ed_prop_bytes l ++ rest) -> (length l < fuel)%nat ->
  ed_props_parse fuel (pb_getp b + Z.of_nat (length (flat_map ed_prop_bytes l))) acc b =
  Done ((status_ok, acc ++ map ed_prop_final l), adv (length (flat_map ed_prop_bytes l)) b).
Proof.
  intros Hok. revert acc b fuel. induction Hok as [|p l Hp Hok IH]; intros acc b fuel Hu Hfuel;
    (destruct fuel as [|fuel]; [cbn in Hfuel; lia|]); cbn [ed_props_parse];
    rewrite (bind_Done _ _ _ (pb_getp b) b) by done.
  { cbn [flat_map length map]. rewrite Z.add_0_r, Z.ltb_irrefl, app_nil_r, adv_0. done. }
  cbn [flat_map map] in *. rewrite length_app, length_ed_prop_bytes in *.
  rewrite (proj2 (Z.ltb_lt _ _)) by lia. rewrite <- app_assoc in Hu.
  rewrite (bind_Done _ _ _ _ _ (ed_prop_parse_law p acc b _ Hp Hu)). cbn [is_ok fst status_ok].
  apply unread_adv in Hu. rewrite length_ed_prop_bytes in *.
  specialize (IH (acc ++ [ed_prop_final p]) _ fuel Hu ltac:(cbn in Hfuel; lia)).
  change (pb_getp (adv 24 b)) with (pb_getp b + Z.of_nat 24) in IH.
  replace (pb_getp b + Z.of_nat (24 + length (flat_map ed_prop_bytes l)))
    with (pb_getp b + Z.of_nat 24 + Z.of_nat (length (flat_map ed_prop_bytes l))) by lia.
  rewrite IH, adv_add, <- app_assoc. done.
Qed.

Lemma ed_action_parse_law name pk l b rest room :
  element_struct name = true -> exact name pk -> Forall ed_prop_ok l -> sizeof openflow13 name <= room ->
  pkt_get "len" 0 pk = sizeof openflow13 name + 24 * Z.of_nat (length l) ->
  unread b (wire pk (fields name "") ++ flat_map ed_prop_bytes l ++ rest) ->
  ed_action_parse name room b =
  Done ((status_ok, CAction pk [] (map ed_prop_final l)),
        adv (length (wire pk (fields name "")) + length (flat_map ed_prop_bytes l)) b).
Proof.
  intros H Hex Hok Hroom Hlen Hu. unfold ed_action_parse.
  rewrite (bind_Done _ _ _ _ _ (ofpat_decode_law _ _ _ _ _ H Hex Hroom Hu)). cbn [is_ok].
  apply unread_adv in Hu. set (b1 := adv _ b) in *.
  rewrite (bind_Done _ _ _ (pb_getp b1) b1), (bind_Done _ _ _ (pb_plen b1) b1) by done.
  pose proof (length_ed_props_bytes l) as Hl.
  assert (length l < S (Z.to_nat (pb_plen b1)))%nat as Hfuel.
  { destruct Hu as (_ & -> & _). rewrite length_app. lia. }
  pose proof (ed_props_parse_law l [] b1 rest _ Hok Hu Hfuel) as Hp.
  replace (pb_getp b1 + pkt_get "len" 0 pk - sizeof openflow13 name)
    with (pb_getp b1 + Z.of_nat (length (flat_map ed_prop_bytes l))) by lia.
  rewrite (bind_Done _ _ _ _ _ Hp). cbn [is_ok fst status_ok app].
  rewrite (bind_Done _ _ _ (pb_getp (adv (length (flat_map ed_prop_bytes l)) b1))
    (adv (length (flat_map ed_prop_bytes l)) b1)) by done.
  change (pb_getp (adv (length (flat_map ed_prop_bytes l)) b1))
    with (pb_getp b1 + Z.of_nat (length (flat_map ed_prop_bytes l))).
  rewrite Z.eqb_refl. unfold b1. by rewrite adv_add.
Qed.

Lemma ed_prop_encode_law p total b :
  pkt_get "type" 0 p = OFPPPT_PROP_PORT_NAME -> 0 <= total -> total + 24 < 65536 -> fits 24 b ->
  ofp_action_list_action_ed_prop_encode p total b =
  Done ((LAGOPUS_RESULT_OK, total + 24), put (ed_prop_bytes p) b).
Proof.
  intros Ht H0 Hlt Hf. destruct (ed_prop_bytes_split p) as (body & Hb & Hw & Hw').
  pose proof (wire_element_len _ p portname_element) as Hlen. rewrite portname_size in Hlen.
  unfold ofp_action_list_action_ed_prop_encode. rewrite Ht, Z.eqb_refl.
  rewrite (bind_Done _ _ _ _ _ (element_encode _ p b portname_element ltac:(eapply fits_weaken; [exact Hf|lia]))).
  cbn [is_ok]. rewrite (bind_Done _ _ _ (pb_putp (put (wire p (fields "ofp_ed_prop_portname" "")) b)) _) by done.
  rewrite portname_size, ofp_tlv_length_sum_ok by lia. cbn [is_ok].
  replace (pb_putp (put (wire p (fields "ofp_ed_prop_portname" "")) b) - 24)
    with (pb_putp b + Z.of_nat (length ([] : bytes))) by (unfold put; cbn [pb_putp length]; lia).
  rewrite (bind_Done _ _ _ LAGOPUS_RESULT_OK (put (ed_prop_bytes p) b)); [done|].
  rewrite Hw'. apply (ofp_tlv_length_set_put _ (pkt_get "len" 0 p) 24 [] body); [by eapply fits_writable| |exact Hw].
  destruct Hf. lia.
Qed.

Lemma ed_props_encode_law l total b :
  Forall ed_prop_ok l -> 0 <= total -> total + 24 * Z.of_nat (length l) < 65536 ->
  fits (length (flat_map ed_prop_bytes l)) b ->
  ed_props_encode l total b =
  Done ((LAGOPUS_RESULT_OK, total + 24 * Z.of_nat (length l)), put (flat_map ed_prop_bytes l) b).
Proof.
  intros Hok. revert total b. induction Hok as [|p l [_ Ht] Hok IH]; intros total b H0 Hlt Hf; cbn [ed_props_encode].
  { cbn [flat_map length]. rewrite put_nil. by rewrite Z.add_0_r. }
  cbn [flat_map length] in *. rewrite length_app, length_ed_prop_bytes in Hf.
  rewrite (bind_Done _ _ _ _ _ (ed_prop_encode_law p total b Ht H0 ltac:(lia) (fits_weaken _ 24 _ Hf ltac:(lia)))).
  cbn [is_ok]. rewrite IH; [|lia|lia|apply put_fits; by rewrite length_ed_prop_bytes].
  rewrite put_app by (by eapply fits_putp). do 3 f_equal. lia.
Qed.

Lemma ed_action_encode_law name pk l b :
  let pk' := <["len" := [sizeof openflow13 name + 24 * Z.of_nat (length l)]]> pk in
  element_struct name = true -> Forall ed_prop_ok l -> pkt_get "len" 0 pk = 0 ->
  sizeof openflow13 name + 24 * Z.of_nat (length l) < 65536 ->
  fits (length (wire pk' (fields name "") ++ flat_map ed_prop_bytes l)) b ->
  ed_action_encode name (CAction pk [] l) b =
  Done ((LAGOPUS_RESULT_OK, CAction pk' [] l), put (wire pk' (fields name "") ++ flat_map ed_prop_bytes l) b).
Proof.
  intros pk' H Hok Hl0 Hlt Hf. destruct (element_facts _ H) as (_ & _ & _ & _ & Hsz).
  destruct (wire_element _ pk H) as (body & Hbody & Hwire).
  pose proof (wire_element_len name pk' H) as Hlen'. pose proof (wire_element_len name pk H) as Hlen.
  pose proof (length_ed_props_bytes l) as Hll. rewrite length_app in Hf.
  pose proof (fits_writable _ _ Hf) as Hw. assert (0 <= pb_putp b) as Hp by apply Hw.
  unfold ed_action_encode. cbn [ca_ofpat ca_ed_prop_list ca_tail].
  rewrite (bind_Done _ _ _ _ _ (element_encode _ pk b H ltac:(eapply fits_weaken; [exact Hf|lia]))). cbn [is_ok].
  set (w0 := wire pk _) in *. rewrite (bind_Done _ _ _ (pb_putp (put w0 b)) (put w0 b)) by done.
  assert (fits (length (flat_map ed_prop_bytes l)) (put w0 b)) as Hf0 by (apply put_fits; eapply fits_weaken; [exact Hf|lia]).
  rewrite (bind_Done _ _ _ _ _ (ed_props_encode_law l 0 _ Hok ltac:(lia) ltac:(lia) Hf0)). cbn [is_ok].
  unfold ca_len, u16. cbn [ca_ofpat]. rewrite Hl0, Z.mod_small, ofp_tlv_length_sum_ok by lia. cbn [is_ok].
  rewrite !Z.add_0_l, <- put_app by done.
  rewrite (bind_Done _ _ _ LAGOPUS_RESULT_OK (put (wire pk' (fields name "") ++ flat_map ed_prop_bytes l) b)); [done|].
  replace (pb_putp (put w0 b) - sizeof openflow13 name) with (pb_putp b + Z.of_nat (length ([] : bytes)))
    by (unfold put; cbn [pb_putp length]; lia).
  rewrite (Hwire pk') by (intros f Hne; unfold pk'; by rewrite lookup_insert_ne).
  unfold pk' at 1. rewrite pkt_get_insert. cbn [nth]. rewrite <- !app_assoc.
  apply (ofp_tlv_length_set_put (pkt_get "type" 0 pk) 0 _ [] (body ++ flat_map ed_prop_bytes l)); [done| |].
  - rewrite length_app. destruct Hf. lia.
  - unfold w0. rewrite (Hwire pk) by done. rewrite Hl0. cbn [app]. by rewrite <- !app_assoc.
Qed.

(** *** One action *)

Definition action_size (name : string) (a : caction) : Z :=
  sizeof openflow13 name + Z.of_nat (length (ca_tail a)) + 24 * Z.of_nat (length (ca_ed_prop_list a)).

(** What the encoder leaves in memory: the length is set. *)
Definition action_encoded (name : string) (a : caction) : caction := set_ca_len (action_size name a) a.

Lemma action_final_eq name a :
  action_final name a =
  CAction (ca_ofpat (action_encoded name a)) (ca_tail a) (map ed_prop_final (ca_ed_prop_list a)).
Proof. done. Qed.

Lemma ca_type_set_len n a : ca_type (set_ca_len n a) = ca_type a.
Proof. unfold ca_type, set_ca_len. cbn [ca_ofpat]. by apply pkt_get_insert_ne. Qed.

Lemma ca_len_set_len n a : ca_len (set_ca_len n a) = n.
Proof. unfold ca_len, set_ca_len. cbn [ca_ofpat]. by rewrite pkt_get_insert. Qed.

Lemma length_action_bytes name a :
  element_struct name = true -> Z.of_nat (length (action_bytes name a)) = action_size name a.
Proof.
  intros H. pose proof (wire_element_len name (ca_ofpat (action_final name a)) H).
  unfold action_bytes, action_size. rewrite !length_app, length_ed_props_bytes. lia.
Qed.

Lemma action_bytes_split name a :
  element_struct name = true ->
  exists body, action_bytes name a = be_bytes 2 (ca_type a) ++ be_bytes 2 (action_size name a) ++ body.
Proof.
  intros H. destruct (wire_element _ (ca_ofpat a) H) as (body & _ & Hw). unfold action_bytes.
  rewrite Hw by (intros f Hf; cbn; by rewrite lookup_insert_ne). cbn [ca_ofpat action_final set_ca_len].
  rewrite pkt_get_insert. cbn [nth]. eexists. by rewrite <- !app_assoc.
Qed.

Lemma action_kinds name a :
  struct_of (ca_type a) = Some name ->
  (fixed_struct (ca_type a) = Some name /\ ca_type a <> OFPAT_SET_FIELD /\ ca_type a ∉ [OFPAT_ENCAP; OFPAT_DECAP]) \/
  (fixed_struct (ca_type a) = None /\ ca_type a = OFPAT_SET_FIELD /\ name = "ofp_action_set_field") \/
  (fixed_struct (ca_type a) = None /\ ca_type a = OFPAT_ENCAP /\ name = "ofp_action_encap") \/
  (fixed_struct (ca_type a) = None /\ ca_type a = OFPAT_DECAP /\ name = "ofp_action_decap").
Proof.
  unfold struct_of. intros H. destruct (fixed_struct (ca_type a)) as [n|] eqn:E.
  - injection H as ->. left. pose proof (fixed_struct_type _ _ E) as Ht. unfold fixed_types in Ht.
    split; [done|]. revert E. generalize (ca_type a) Ht. intros t Ht' _.
    each_type Ht'; (split; [done|set_solver by done]).
  - destruct (ca_type a =? OFPAT_SET_FIELD) eqn:E1.
    { apply Z.eqb_eq in E1. right; left. split_and!; congruence. }
    destruct (ca_type a =? OFPAT_ENCAP) eqn:E2.
    { apply Z.eqb_eq in E2. right; right; left. split_and!; congruence. }
    destruct (ca_type a =? OFPAT_DECAP) eqn:E3; [|discriminate H].
    apply Z.eqb_eq in E3. right; right; right. split_and!; congruence.
Qed.

Lemma action_parse_one name a b rest :
  action_ok name a -> unread b (action_bytes name a ++ rest) ->
  action_dispatch (ca_type a) (action_room (action_size name a)) b =
  Done ((status_ok, action_final name a), adv (length (action_bytes name a)) b).
Proof.
  intros (Hst & Hex & Htail & Hprops) Hu. pose proof (struct_of_element _ _ Hst) as Hel.
  destruct (element_facts _ Hel) as (_ & _ & _ & _ & Hsz).
  assert (sizeof openflow13 name <= action_room (action_size name a)) as Hroom by (unfold action_room, action_size; lia).
  unfold action_bytes in *. rewrite <- !app_assoc in Hu. rewrite !length_app.
  destruct (action_kinds _ _ Hst) as [(Hfix & Hsf & Hed)|[(_ & Ht & ->)|[(_ & Ht & ->)|(_ & Ht & ->)]]].
  - rewrite (fixed_dispatch _ _ _ Hfix). rewrite (proj2 (Z.eqb_neq _ _)) in Htail by done.
    rewrite bool_decide_eq_false_2 in Hprops by done. rewrite Htail, Hprops in *.
    cbn [app flat_map length]. rewrite !Nat.add_0_r. rewrite (fixed_parse_law _ _ _ _ _ Hel Hex Hroom Hu).
    rewrite action_final_eq, Htail, Hprops. done.
  - rewrite Ht in *. rewrite Z.eqb_refl in Htail. destruct Htail as [(v & Hv & _ & Htl) Hchk].
    change (bool_decide _) with false in Hprops. rewrite Hprops in *. cbn [flat_map app length] in *. rewrite Nat.add_0_r.
    change (action_dispatch OFPAT_SET_FIELD) with ofp_action_set_field_parse.
    set (pk := ca_ofpat (action_final "ofp_action_set_field" a)) in *.
    assert (forall i, pkt_get "field" i (ca_ofpat a) = pkt_get "field" i pk) as Hpk.
    { intros i. unfold pk. cbn [ca_ofpat action_final set_ca_len]. by rewrite pkt_get_insert_ne. }
    assert (pkt_get "len" 0 pk = action_size "ofp_action_set_field" a) as Hlen.
    { unfold pk. cbn [ca_ofpat action_final set_ca_len]. by rewrite pkt_get_insert. }
    assert (action_size "ofp_action_set_field" a = 8 + Z.of_nat (length (ca_tail a))) as Hsize.
    { unfold action_size. rewrite set_field_size, Hprops. cbn [length]. lia. }
    rewrite <- Hlen. rewrite Hpk in Htl, Hv. rewrite Htl in Hu, Hsize |- *.
    rewrite (set_field_parse_law pk v b rest Hex Hv); [..|by rewrite Hlen|done].
    + rewrite action_final_eq, Hprops, Htl. done.
    + rewrite <- Hchk. unfold set_field_oxm_check. by rewrite !Hpk.
  - rewrite Ht in *. change (bool_decide _) with true in Hprops. change (_ =? _) with false in Htail.
    rewrite Htail in *. cbn [app length] in *. rewrite Nat.add_0_l.
    change (action_dispatch OFPAT_ENCAP) with (ed_action_parse "ofp_action_encap").
    rewrite (ed_action_parse_law _ _ _ b rest _ Hel Hex Hprops Hroom); [|..|done].
    + by rewrite action_final_eq, Htail.
    + cbn [ca_ofpat action_final set_ca_len]. rewrite pkt_get_insert, Htail. cbn [nth length]. lia.
  - rewrite Ht in *. change (bool_decide _) with true in Hprops. change (_ =? _) with false in Htail.
    rewrite Htail in *. cbn [app length] in *. rewrite Nat.add_0_l.
    change (action_dispatch OFPAT_DECAP) with (ed_action_parse "ofp_action_decap").
    rewrite (ed_action_parse_law _ _ _ b rest _ Hel Hex Hprops Hroom); [|..|done].
    + by rewrite action_final_eq, Htail.
    + cbn [ca_ofpat action_final set_ca_len]. rewrite pkt_get_insert, Htail. cbn [nth length]. lia.
Qed.

Lemma set_ca_len_twice m n a : set_ca_len m (set_ca_len n a) = set_ca_len m a.
Proof. unfold set_ca_len. cbn. by rewrite insert_insert_eq. Qed.

Lemma action_encode_one name a res b :
  action_ok name a -> action_size name a < 65536 -> fits (length (action_bytes name a)) b ->
  action_encode res a b = Done ((LAGOPUS_RESULT_OK, action_encoded name a), put (action_bytes name a) b).
Proof.
  intros (Hst & Hex & Htail & Hprops) Hlt Hf. pose proof (struct_of_element _ _ Hst) as Hel.
  unfold action_bytes in *. unfold action_encode. cbn [ca_ofpat action_final set_ca_len] in Hex, Hf |- *.
  fold (action_size name a) in *.
  destruct (action_kinds _ _ Hst) as [(Hfix & Hsf & Hed)|[(Hfix & Ht & ->)|[(Hfix & Ht & ->)|(Hfix & Ht & ->)]]];
    rewrite Hfix.
  - rewrite (proj2 (Z.eqb_neq _ _)) in Htail by done. rewrite bool_decide_eq_false_2 in Hprops by done.
    assert (action_size name a = sizeof openflow13 name) as Hsize.
    { unfold action_size. rewrite Htail, Hprops. cbn [length]. lia. }
    rewrite Htail, Hprops, Hsize in *. cbn [app flat_map] in *. rewrite app_nil_r in *.
    unfold set_ca_len at 1. cbn [ca_ofpat]. rewrite (bind_Done _ _ _ _ _ (element_encode _ _ _ Hel Hf)).
    unfold action_encoded. by rewrite Hsize.
  - rewrite Ht in *. rewrite Z.eqb_refl in *. destruct Htail as [(v & Hv & _ & Htl) _].
    change (bool_decide _) with false in Hprops. rewrite Hprops in *. cbn [flat_map] in *. rewrite app_nil_r in *.
    assert (action_size "ofp_action_set_field" a = 8 + Z.of_nat (length (ca_tail a))) as Hsize.
    { unfold action_size. rewrite set_field_size, Hprops. cbn [length]. lia. }
    rewrite Hsize, Htl in *. pose proof (set_field_encode_law (ca_ofpat a) v b Hex Hv Hf) as He. cbv zeta in He.
    destruct a as [pk tail props]. cbn [ca_ofpat ca_tail ca_ed_prop_list] in *. subst tail props.
    unfold action_encoded, set_ca_len. cbn [ca_ofpat ca_tail ca_ed_prop_list]. by rewrite Hsize.
  - rewrite Ht in *. change (bool_decide _) with true in Hprops. change (_ =? OFPAT_SET_FIELD) with false in *.
    change (OFPAT_ENCAP =? OFPAT_ENCAP) with true. destruct a as [pk tail props].
    cbn [ca_ofpat ca_tail ca_ed_prop_list] in *. subst tail. cbn [app] in *.
    assert (action_size "ofp_action_encap" (CAction pk [] props) = sizeof openflow13 "ofp_action_encap" + 24 * Z.of_nat (length props)) as Hsize.
    { unfold action_size. cbn [ca_tail ca_ed_prop_list length]. lia. }
    unfold action_encoded, ofp_action_list_action_encap_encode, set_ca_len. cbn [ca_ofpat ca_tail ca_ed_prop_list].
    rewrite Hsize in *.
    pose proof (ed_action_encode_law "ofp_action_encap" (<["len":=[0]]> pk) props b) as He.
    cbv zeta in He. rewrite insert_insert_eq, pkt_get_insert in He. by apply He.
  - rewrite Ht in *. change (bool_decide _) with true in Hprops. change (_ =? OFPAT_SET_FIELD) with false in *.
    change (OFPAT_DECAP =? OFPAT_ENCAP) with false. change (OFPAT_DECAP =? OFPAT_DECAP) with true.
    destruct a as [pk tail props].
    cbn [ca_ofpat ca_tail ca_ed_prop_list] in *. subst tail. cbn [app] in *.
    assert (action_size "ofp_action_decap" (CAction pk [] props) = sizeof openflow13 "ofp_action_decap" + 24 * Z.of_nat (length props)) as Hsize.
    { unfold action_size. cbn [ca_tail ca_ed_prop_list length]. lia. }
    unfold action_encoded, ofp_action_list_action_decap_encode, set_ca_len. cbn [ca_ofpat ca_tail ca_ed_prop_list].
    rewrite Hsize in *.
    pose proof (ed_action_encode_law "ofp_action_decap" (<["len":=[0]]> pk) props b) as He.
    cbv zeta in He. rewrite insert_insert_eq, pkt_get_insert in He. by apply He.
Qed.

(** *** Lists of actions *)

(** A list of actions with the structures of each. *)
Definition actions_ok : list (string * caction) -> Prop := Forall (fun '(name, a) => action_ok name a).
Definition actions_bytes (l : list (string * caction)) : bytes := flat_map (fun '(name, a) => action_bytes name a) l.

Lemma action_bytes_ge name a : action_ok name a -> (8 <= length (action_bytes name a))%nat.
Proof.
  intros (Hst & _). pose proof (struct_of_element _ _ Hst) as Hel. pose proof (length_action_bytes name a Hel).
  destruct (element_facts _ Hel) as (_ & _ & _ & _ & Hsz). unfold action_size in *. lia.
Qed.

Lemma actions_encode_loop_law l res total b :
  actions_ok l -> 0 <= total -> total + Z.of_nat (length (actions_bytes l)) < 65536 ->
  fits (length (actions_bytes l)) b -> l <> [] \/ res = LAGOPUS_RESULT_OK ->
  ofp_action_list_encode_loop (map snd l) res total b =
  Done ((LAGOPUS_RESULT_OK, total + Z.of_nat (length (actions_bytes l)),
         map (fun '(name, a) => action_encoded name a) l), put (actions_bytes l) b).
Proof.
  intros Hok. revert res total b. induction Hok as [|[name a] l Ha Hok IH]; intros res total b H0 Hlt Hf Hres.
  { destruct Hres as [?| ->]; [done|]. cbn. by rewrite Z.add_0_r, put_nil. }
  cbn [actions_bytes flat_map map snd ofp_action_list_encode_loop] in *. fold (actions_bytes l) in *.
  rewrite length_app in *. pose proof (length_action_bytes name a (struct_of_element _ _ (proj1 Ha))) as Hlen.
  rewrite (bind_Done _ _ _ _ _ (action_encode_one name a res b Ha ltac:(lia) ltac:(eapply fits_weaken; [exact Hf|lia]))).
  cbn [is_ok]. unfold action_encoded at 1. rewrite ca_len_set_len, ofp_tlv_length_sum_ok by lia. cbn [is_ok].
  specialize (IH LAGOPUS_RESULT_OK (total + action_size name a) (put (action_bytes name a) b)
    ltac:(unfold action_size in *; lia) ltac:(lia) (put_fits _ _ _ Hf) (or_intror eq_refl)).
  rewrite (bind_Done _ _ _ _ _ IH).
  rewrite put_app by (by eapply fits_putp). unfold mret, M_ret.
  by replace (total + action_size name a + _)
    with (total + Z.of_nat (length (action_bytes name a) + length (actions_bytes l))) by lia.
Qed.

Lemma actions_parse_loop_law l ofpat acc b rest fuel :
  actions_ok l -> unread b (actions_bytes l ++ rest) -> (length (actions_bytes l) < fuel)%nat ->
  Z.of_nat (length (actions_bytes l)) < 65536 ->
  ofp_action_parse_loop fuel ofpat (ofpat + Z.of_nat (length (actions_bytes l))) acc b =
  Done ((status_ok, acc ++ map (fun '(name, a) => action_final name a) l), adv (length (actions_bytes l)) b).
Proof.
  intros Hok. revert ofpat acc b fuel. induction Hok as [|[name a] l Ha Hok IH]; intros ofpat acc b fuel Hu Hfuel Hlt;
    (destruct fuel as [|fuel]; [lia|]); cbn [ofp_action_parse_loop].
  { cbn. by rewrite Z.add_0_r, Z.ltb_irrefl, app_nil_r, adv_0. }
  cbn [actions_bytes flat_map map] in *. fold (actions_bytes l) in *. rewrite length_app in *.
  pose proof (action_bytes_ge name a Ha) as Hge. pose proof (struct_of_element _ _ (proj1 Ha)) as Hel.
  pose proof (length_action_bytes name a Hel) as Hlen.
  rewrite (proj2 (Z.ltb_lt _ _)) by lia. rewrite <- app_assoc in Hu.
  destruct (action_bytes_split name a Hel) as (body & Hsplit). pose proof Hu as Hu'.
  rewrite Hsplit, <- !app_assoc in Hu'. rewrite (bind_Done _ _ _ _ _ (ofp_tlv_decode_sneak_peek _ _ _ _ Hu')).
  assert (0 <= ca_type a < 65536) as Htr.
  { destruct Ha as (Hst & _). destruct (action_kinds _ _ Hst) as [(Hfix & _)|[(_ & -> & _)|[(_ & -> & _)|(_ & -> & _)]]]; [|done..].
    apply fixed_struct_type in Hfix. revert Hfix. generalize (ca_type a). intros t Ht. unfold fixed_types in Ht. by each_type Ht. }
  unfold u16. rewrite !Z.mod_small by lia. cbn [is_ok].
  assert (action_size name a <= pb_plen b) as Hpl.
  { destruct Hu as (_ & -> & _). rewrite length_app. lia. }
  rewrite (bind_Done _ _ _ LAGOPUS_RESULT_OK b); cycle 1.
  { rewrite gets_Done. unfold pbuf_plen_check. by rewrite (proj2 (Z.ltb_ge _ _)). }
  cbn [is_ok]. rewrite (bind_Done _ _ _ (pb_getp b) b) by done.
  rewrite (bind_Done _ _ _ _ _ (action_parse_one name a b _ Ha Hu)). cbn [is_ok fst status_ok].
  set (b1 := adv _ b). rewrite (bind_Done _ _ _ (pb_getp b1) b1) by done.
  replace (pb_getp b + action_size name a) with (pb_getp b1) by (unfold b1; cbn; lia). rewrite Z.eqb_refl.
  replace (ofpat + Z.of_nat (length (action_bytes name a) + length (actions_bytes l)))
    with (ofpat + action_size name a + Z.of_nat (length (actions_bytes l))) by lia.
  rewrite IH; [|by apply unread_adv|lia|lia]. unfold b1. by rewrite adv_add, <- app_assoc.
Qed.

Lemma s64_small x : 0 <= x < 2 ^ 63 -> s64 x = x.
Proof. intros. unfold s64. rewrite Z.mod_small by lia. lia. Qed.

Lemma actions_encode_law l b :
  actions_ok l -> Z.of_nat (length (actions_bytes l)) < 65536 -> fits (length (actions_bytes l)) b ->
  ofp_action_list_encode (map snd l) b =
  Done ((LAGOPUS_RESULT_OK, Z.of_nat (length (actions_bytes l)), map (fun '(name, a) => action_encoded name a) l),
        put (actions_bytes l) b).
Proof.
  intros Hok Hlt Hf. destruct l as [|[name a] l]; [cbn; by rewrite put_nil|].
  change (ofp_action_list_encode (map snd ((name, a) :: l)))
    with (ofp_action_list_encode_loop (map snd ((name, a) :: l)) LAGOPUS_RESULT_ANY_FAILURES 0).
  rewrite actions_encode_loop_law by (try done; try lia; by left). done.
Qed.

Lemma actions_parse_law l acc b rest :
  actions_ok l -> Z.of_nat (length (actions_bytes l)) < 65536 -> unread b (actions_bytes l ++ rest) ->
  ofp_action_parse (Z.of_nat (length (actions_bytes l))) acc b =
  Done ((status_ok, acc ++ map (fun '(name, a) => action_final name a) l), adv (length (actions_bytes l)) b).
Proof.
  intros Hok Hlt Hu. unfold ofp_action_parse.
  rewrite (bind_Done _ _ _ (pb_getp b) b), (bind_Done _ _ _ (pb_plen b) b) by done. rewrite s64_small by lia.
  assert (length (actions_bytes l) < S (Z.to_nat (pb_plen b)))%nat as Hfuel.
  { destruct Hu as (_ & -> & _). rewrite length_app. lia. }
  by rewrite (bind_Done _ _ _ _ _ (actions_parse_loop_law l (pbuf_getp_get b) acc b rest _ Hok Hu Hfuel Hlt)).
Qed.

(** What the switch encodes it parses again: for a list of actions the switch can hold whose
    encoding fits the 16-bit length, [ofp_action_list_encode] puts the elements one after the
    other, returns the number of bytes and leaves each action with its length set;
    [ofp_action_parse] takes exactly these bytes from any buffer and appends the actions, with all
    lengths set, in the same order. *)
Theorem actions_roundtrip l acc b b' rest :
  actions_ok l -> Z.of_nat (length (actions_bytes l)) < 65536 -> fits (length (actions_bytes l)) b ->
  let v := actions_bytes l in
  ofp_action_list_encode (map snd l) b =
    Done ((LAGOPUS_RESULT_OK, Z.of_nat (length v), map (fun '(name, a) => action_encoded name a) l), put v b) /\
  (unread b' (v ++ rest) ->
   ofp_action_parse (Z.of_nat (length v)) acc b' =
     Done ((status_ok, acc ++ map (fun '(name, a) => action_final name a) l), adv (length v) b') /\
   unread (adv (length v) b') rest).
Proof.
  intros Hok Hlt Hf v. split; [by apply actions_encode_law|].
  intros Hu. split; [by eapply actions_parse_law|by apply unread_adv].
Qed.

(** *** Where the lengths are trusted *)

(** The action is allocated for the length its element states, which nobody compares with the
    structure: an output action of length 4 has twelve bytes of memory for the sixteen that the
    decoder stores. *)
Definition short_output : bytes := [0; 0; 0; 4; 0; 0; 0; 1; 0; 0; 0; 0; 0; 0; 0; 0].

Theorem action_parse_overflow :
  let b := Pbuf 1 16 0 16 16 short_output in
  unread b short_output /\ ofp_action_parse 16 [] b = Undefined.
Proof. split; by vm_compute. Qed.

(** A property of an ENCAP action that ends before its structure: the parser fails without
    filling in the error for the controller. *)
Definition short_ed_prop : bytes :=
  [0; 28; 0; 12; 0; 0; 0; 0; 0; 1; 0; 4].

Theorem ed_prop_without_error :
  let b := Pbuf 1 12 0 12 12 short_ed_prop in
  unread b short_ed_prop /\
  exists b', ofp_action_parse 12 [] b = Done ((LAGOPUS_RESULT_OUT_OF_RANGE, None, []), b').
Proof. split; [by vm_compute|]. eexists. vm_compute. reflexivity. Qed.

(** An experimenter action is not encoded, but its length is added: after another action the
    total exceeds the bytes that were put. *)
Definition experimenter_after : list caction :=
  [CAction (list_to_map [("type", [OFPAT_POP_VLAN]); ("len", [8])]) [] [];
   CAction (list_to_map [("type", [OFPAT_EXPERIMENTER]); ("len", [16])]) [] []].

Theorem experimenter_length_without_bytes :
  exists acts b', ofp_action_list_encode experimenter_after (Pbuf 1 0 0 64 64 (zeros 64)) =
    Done ((LAGOPUS_RESULT_OK, 24, acts), b') /\ pb_putp b' = 8.
Proof. do 2 eexists. vm_compute. split; reflexivity. Qed.

(** The parser of action headers takes eight bytes from the buffer for each and counts the stated
    length, whatever it is: of headers of four bytes it skips every second and reads as many bytes
    again behind the list. *)
Definition short_headers : bytes := [0; 18; 0; 4; 0; 17; 0; 4; 0; 20; 0; 4; 0; 0; 0; 0].

Theorem header_parse_skips :
  exists a1 a2 b', ofp_action_header_parse 8 [] (Pbuf 1 16 0 16 16 short_headers) =
    Done ((status_ok, [a1; a2]), b') /\ pb_getp b' = 16 /\ ca_type a1 = 18 /\ ca_type a2 = 20.
Proof. do 3 eexists. vm_compute. split_and!; reflexivity. Qed.

(** ** Examples *)

Definition set_field_okb (a : caction) : bool :=
  let oxm_len := pkt_get "field" OXM_LENGTH_INDEX (ca_ofpat a) in
  let v := take (Z.to_nat oxm_len) (ca_tail a) in
  bool_decide (Z.of_nat (length v) = oxm_len /\ Forall (fun x => 0 <= x < 256) v /\
               ca_tail a = v ++ zeros (GET_64BIT_PADDING_LENGTH oxm_len)) &&
  set_field_oxm_check (ca_ofpat a).

Definition action_okb (name : string) (a : caction) : bool :=
  bool_decide (struct_of (ca_type a) = Some name) && exactb name (ca_ofpat (action_final name a)) &&
  (if ca_type a =? OFPAT_SET_FIELD then set_field_okb a else bool_decide (ca_tail a = [])) &&
  (if bool_decide (ca_type a ∈ [OFPAT_ENCAP; OFPAT_DECAP]) then
     forallb (fun p => exactb "ofp_ed_prop_portname" (ed_prop_final p) && (pkt_get "type" 0 p =? OFPPPT_PROP_PORT_NAME))
       (ca_ed_prop_list a)
   else bool_decide (ca_ed_prop_list a = [])).

Lemma action_okb_ok name a : action_okb name a = true -> action_ok name a.
Proof.
  unfold action_okb, action_ok. rewrite !andb_true_iff. intros [[[H1 H2] H3] H4].
  split; [by apply bool_decide_eq_true_1 in H1|]. split; [by apply exactb_spec|]. split.
  - destruct (ca_type a =? OFPAT_SET_FIELD); [|by apply bool_decide_eq_true_1 in H3].
    unfold set_field_okb in H3. apply andb_prop in H3 as [(Hl & Hr & Ht)%bool_decide_eq_true_1 Hc]. split; [by eexists|done].
  - case_bool_decide; [|by apply bool_decide_eq_true_1 in H4].
    rewrite forallb_forall in H4. rewrite Forall_forall. intros p Hp%list_elem_of_In.
    apply H4, andb_prop in Hp as [He%exactb_spec Ht%Z.eqb_eq]. by split.
Qed.

Lemma actions_okb_ok l : forallb (fun '(name, a) => action_okb name a) l = true -> actions_ok l.
Proof.
  rewrite forallb_forall. unfold actions_ok. rewrite Forall_forall. intros H [name a] Hin%list_elem_of_In.
  by apply action_okb_ok, (H (name, a)).
Qed.

(** Setting the Ethernet type, and an output to port 2. *)
Definition two_actions : list (string * caction) :=
  [("ofp_action_set_field"%string,
    CAction (struct "ofp_action_set_field" [[OFPAT_SET_FIELD]; [0]; [128; 0; 10; 2]]) [8; 0; 0; 0; 0; 0; 0; 0] []);
   ("ofp_action_output"%string,
    CAction (struct "ofp_action_output" [[OFPAT_OUTPUT]; [0]; [2]; [65535]; [0; 0; 0; 0; 0; 0]]) [] [])].

Lemma two_actions_ok : actions_ok two_actions.
Proof. apply actions_okb_ok. vm_compute. reflexivity. Qed.

Theorem actions_roundtrip_witness :
  let v := actions_bytes two_actions in
  let b := pbuf_plen_set 32 (pbuf_alloc 32) in
  let b' := holding (v ++ [1; 2]) in
  unread b' (v ++ [1; 2]) /\
  ofp_action_list_encode (map snd two_actions) b =
    Done ((LAGOPUS_RESULT_OK, Z.of_nat (length v), map (fun '(name, a) => action_encoded name a) two_actions), put v b) /\
  (unread b' (v ++ [1; 2]) ->
   ofp_action_parse (Z.of_nat (length v)) [] b' =
     Done ((status_ok, [] ++ map (fun '(name, a) => action_final name a) two_actions), adv (length v) b') /\
   unread (adv (length v) b') [1; 2]).
Proof.
  intros v b b'. split; [apply unread_holding; vm_compute; reflexivity|].
  apply actions_roundtrip; [apply two_actions_ok|vm_compute; reflexivity|].
  replace (length (actions_bytes two_actions)) with 32%nat by (vm_compute; reflexivity). apply (fits_alloc 32). lia.
Defined.
