(* ===== verification/InstructionCodec.v ===== *)
(** * Parsing and encoding of instructions ([src/agent/ofp_instruction.c])

    An instruction in memory is one of the structures of the union [ofpit] and a list of actions.
    Memory allocation succeeds. *)
From S2P Require Import Prelude Monad OpenFlow Pbuf Generator OpenFlowH Tlv MatchCodec ActionCodec.
From stdpp Require Import strings.
#[local] Open Scope Z_scope.

(** ** The data *)

Record cinstruction := CInstruction {
  ci_ofpit : packet;
  ci_action_list : list caction
}.

Definition ci_type (i : cinstruction) : Z := pkt_get "type" 0 (ci_ofpit i).
Definition ci_len (i : cinstruction) : Z := pkt_get "len" 0 (ci_ofpit i).
Definition set_ci_len (len : Z) (i : cinstruction) : cinstruction :=
  CInstruction (<["len" := [len]]> (ci_ofpit i)) (ci_action_list i).

Definition instruction_with_actions (type : Z) : bool :=
  (type =? OFPIT_WRITE_ACTIONS) || (type =? OFPIT_APPLY_ACTIONS) || (type =? OFPIT_CLEAR_ACTIONS).

(** ** Parsing *)

(** The cases without actions. *)
Definition plain_instruction_parse (name : string) : pm (ofp_status * cinstruction) :=
  '(ret, pk) ← on_fresh (decode openflow13 name "");
  mret (if is_ok ret then status_ok else ofp_fail OFPET_BAD_REQUEST OFPBRC_BAD_LEN, CInstruction pk []).

(** The cases with actions. *)
Definition actions_instruction_parse (type : Z) : pm (ofp_status * cinstruction) :=
  '(ret, pk) ← on_fresh (decode openflow13 "ofp_instruction_actions" "");
  if is_ok ret then
    let action_length := u64 (pkt_get "len" 0 pk - sizeof openflow13 "ofp_instruction_actions") in
    '(status, action_list) ← ofp_action_parse action_length [];
    let status :=
      if is_ok status.1 then
        if (type =? OFPIT_CLEAR_ACTIONS) && negb (bool_decide (action_list = []))
        then ofp_fail OFPET_BAD_INSTRUCTION OFPBIC_BAD_LEN else status
      else status in
    mret (status, CInstruction pk action_list)
  else mret (ofp_fail OFPET_BAD_REQUEST OFPBRC_BAD_LEN, CInstruction pk []).

Definition instruction_dispatch (type : Z) : pm (ofp_status * cinstruction) :=
  if type =? OFPIT_GOTO_TABLE then plain_instruction_parse "ofp_instruction_goto_table"
  else if type =? OFPIT_WRITE_METADATA then plain_instruction_parse "ofp_instruction_write_metadata"
  else if instruction_with_actions type then actions_instruction_parse type
  else if type =? OFPIT_METER then plain_instruction_parse "ofp_instruction_meter"
  else if type =? OFPIT_EXPERIMENTER then
    mret (ofp_fail OFPET_BAD_INSTRUCTION OFPBIC_UNSUP_INST, CInstruction ∅ [])
  else mret (ofp_fail OFPET_BAD_INSTRUCTION OFPBIC_UNKNOWN_INST, CInstruction ∅ []).

(** On errors [instruction_list_entry_free] empties the list. *)
Definition ofp_instruction_parse (instruction_list : list cinstruction) : pm (ofp_status * list cinstruction) :=
  '(ret, type, length) ← ofp_tlv_decode_sneak;
  if is_ok ret then
    ret ← gets (pbuf_plen_check length);
    if is_ok ret then
      '(status, instruction) ← instruction_dispatch type;
      mret (status, if is_ok status.1 then instruction_list ++ [instruction] else [])
    else mret (ofp_fail OFPET_BAD_INSTRUCTION OFPBIC_BAD_LEN, [])
  else mret (ofp_fail OFPET_BAD_REQUEST OFPBRC_BAD_LEN, []).

(** The headers of the table features. *)
Definition ofp_instruction_header_parse (instruction_list : list cinstruction)
    : pm (ofp_status * list cinstruction) :=
  '(ret, type, length) ← ofp_tlv_decode_sneak;
  if is_ok ret then
    ret ← gets (pbuf_plen_check length);
    if is_ok ret then
      '(status, instruction) ←
        (if bool_decide (type ∈ [OFPIT_GOTO_TABLE; OFPIT_WRITE_METADATA; OFPIT_WRITE_ACTIONS; OFPIT_APPLY_ACTIONS;
                                 OFPIT_CLEAR_ACTIONS; OFPIT_METER]) then plain_instruction_parse "ofp_instruction"
         else if type =? OFPIT_EXPERIMENTER then
           mret (ofp_fail OFPET_BAD_INSTRUCTION OFPBIC_UNSUP_INST, CInstruction ∅ [])
         else mret (ofp_fail OFPET_BAD_INSTRUCTION OFPBIC_UNKNOWN_INST, CInstruction ∅ []));
      mret (status, if is_ok status.1 then instruction_list ++ [instruction] else [])
    else mret (ofp_fail OFPET_BAD_INSTRUCTION OFPBIC_BAD_LEN, [])
  else mret (ofp_fail OFPET_BAD_INSTRUCTION OFPBIC_BAD_LEN, []).

(** ** Encoding *)

(** The structure of an instruction. *)
Definition instruction_struct (type : Z) : option string :=
  if type =? OFPIT_GOTO_TABLE then Some "ofp_instruction_goto_table"
  else if type =? OFPIT_WRITE_METADATA then Some "ofp_instruction_write_metadata"
  else if instruction_with_actions type then Some "ofp_instruction_actions"
  else if type =? OFPIT_METER then Some "ofp_instruction_meter"
  else if type =? OFPIT_EXPERIMENTER then Some "ofp_instruction_experimenter"
  else None.

(** One turn of the loop: the result, the sum of the lengths and the instruction, with the length
    of its structure; the length with the actions is only written to the buffer. *)
Definition instruction_encode (i : cinstruction) (total_length : Z) : pm (lagopus_result * Z * cinstruction) :=
  instruction_head ← gets pbuf_putp_get;
  match instruction_struct (ci_type i) with
  | None => mret (LAGOPUS_RESULT_OUT_OF_RANGE, total_length, i)
  | Some name =>
      let i := set_ci_len (u16 (sizeof openflow13 name)) i in
      res ← encode openflow13 name "" (ci_ofpit i);
      if is_ok res then
        '(res, action_total_len, action_list) ← ofp_action_list_encode (ci_action_list i);
        let i := CInstruction (ci_ofpit i) action_list in
        if is_ok res then
          let '(instruction_len, res) := ofp_tlv_length_sum (ci_len i) action_total_len in
          if is_ok res then
            res ← ofp_tlv_length_set instruction_head instruction_len;
            if is_ok res then
              let '(total_length, res) := ofp_tlv_length_sum total_length instruction_len in
              mret (res, total_length, i)
            else mret (res, total_length, i)
          else mret (res, total_length, i)
        else mret (res, total_length, i)
      else mret (res, total_length, i)
  end.

Fixpoint instruction_list_encode_loop (instruction_list : list cinstruction) (total_length : Z)
    : pm (lagopus_result * Z * list cinstruction) :=
  match instruction_list with
  | [] => mret (LAGOPUS_RESULT_OK, total_length, [])
  | i :: instruction_list' =>
      '(res, total_length, i) ← instruction_encode i total_length;
      if is_ok res then
        '(res, total_length, instruction_list') ← instruction_list_encode_loop instruction_list' total_length;
        mret (res, total_length, i :: instruction_list')
      else mret (res, total_length, i :: instruction_list')
  end.

Definition ofp_instruction_list_encode (instruction_list : list cinstruction)
    : pm (lagopus_result * Z * list cinstruction) :=
  instruction_list_encode_loop instruction_list 0.

Fixpoint instruction_header_list_encode_loop (instruction_list : list cinstruction) (total_length : Z)
    : pm (lagopus_result * Z * list cinstruction) :=
  match instruction_list with
  | [] => mret (LAGOPUS_RESULT_OK, total_length, [])
  | i :: instruction_list' =>
      if bool_decide (is_Some (instruction_struct (ci_type i))) then
        let i := set_ci_len (u16 (sizeof openflow13 "ofp_instruction")) i in
        res ← encode openflow13 "ofp_instruction" "" (ci_ofpit i);
        if is_ok res then
          let '(total_length, res) := ofp_tlv_length_sum total_length (ci_len i) in
          if is_ok res then
            '(res, total_length, instruction_list') ← instruction_header_list_encode_loop instruction_list' total_length;
            mret (res, total_length, i :: instruction_list')
          else mret (res, total_length, i :: instruction_list')
        else mret (res, total_length, i :: instruction_list')
      else mret (LAGOPUS_RESULT_OUT_OF_RANGE, total_length, i :: instruction_list')
  end.

Definition ofp_instruction_header_list_encode (instruction_list : list cinstruction)
    : pm (lagopus_result * Z * list cinstruction) :=
  instruction_header_list_encode_loop instruction_list 0.

(** ** The instructions up to the end of a message

    The loop of [ofp_flow_mod_handle]; each turn takes bytes from the buffer. *)
Fixpoint instructions_parse_loop (fuel : nat) (instruction_list : list cinstruction)
    : pm (ofp_status * list cinstruction) :=
  match fuel with
  | O => out_of_fuel
  | S fuel' =>
      plen ← gets pbuf_plen_get;
      if 0 <? plen then
        '(status, instruction_list) ← ofp_instruction_parse instruction_list;
        if is_ok status.1 then instructions_parse_loop fuel' instruction_list
        else mret (status, instruction_list)
      else mret (status_ok, instruction_list)
  end.

Definition instructions_parse : pm (ofp_status * list cinstruction) :=
  plen ← gets pb_plen; instructions_parse_loop (S (Z.to_nat plen)) [].

(** ** The encoding of an instruction

    An instruction with the structures of its actions. *)
Record described := Described {
  d_struct : string;
  d_ofpit : packet;
  d_actions : list (string * caction)
}.

Definition d_type (d : described) : Z := pkt_get "type" 0 (d_ofpit d).
Definition d_size (d : described) : Z := sizeof openflow13 (d_struct d) + Z.of_nat (length (actions_bytes (d_actions d))).

(** As the caller of the encoder holds it, as the encoder leaves it, and as the parser returns it. *)
Definition d_instruction (d : described) : cinstruction := CInstruction (d_ofpit d) (map snd (d_actions d)).
Definition d_encoded (d : described) : cinstruction :=
  CInstruction (<["len" := [sizeof openflow13 (d_struct d)]]> (d_ofpit d))
    (map (fun '(name, a) => action_encoded name a) (d_actions d)).
Definition d_final (d : described) : cinstruction :=
  CInstruction (<["len" := [d_size d]]> (d_ofpit d)) (map (fun '(name, a) => action_final name a) (d_actions d)).

Definition instruction_bytes (d : described) : bytes :=
  wire (ci_ofpit (d_final d)) (fields (d_struct d) "") ++ actions_bytes (d_actions d).
Definition instructions_bytes (l : list described) : bytes := flat_map instruction_bytes l.

(** The instructions the switch can hold. *)
Definition instruction_ok (d : described) : Prop :=
  instruction_struct (d_type d) = Some (d_struct d) /\ d_type d <> OFPIT_EXPERIMENTER /\
  exact (d_struct d) (ci_ofpit (d_final d)) /\ actions_ok (d_actions d) /\
  (instruction_with_actions (d_type d) = false \/ d_type d = OFPIT_CLEAR_ACTIONS -> d_actions d = []).

Lemma instruction_structs_elements type name : instruction_struct type = Some name -> element_struct name = true.
Proof.
  assert (Forall (fun name => element_struct name = true)
    ["ofp_instruction_goto_table"; "ofp_instruction_write_metadata"; "ofp_instruction_actions";
     "ofp_instruction_meter"; "ofp_instruction_experimenter"]) as Hall by (repeat constructor).
  rewrite Forall_forall in Hall. intros H. apply Hall. unfold instruction_struct in H.
  destruct (type =? OFPIT_GOTO_TABLE); [injection H as <-; set_solver|].
  destruct (type =? OFPIT_WRITE_METADATA); [injection H as <-; set_solver|].
  destruct (instruction_with_actions type); [injection H as <-; set_solver|].
  destruct (type =? OFPIT_METER); [injection H as <-; set_solver|].
  destruct (type =? OFPIT_EXPERIMENTER); [injection H as <-; set_solver|discriminate H].
Qed.

Lemma instruction_kinds d :
  instruction_ok d ->
  (instruction_dispatch (d_type d) = plain_instruction_parse (d_struct d) /\ d_actions d = []) \/
  (instruction_dispatch (d_type d) = actions_instruction_parse (d_type d) /\ d_struct d = "ofp_instruction_actions").
Proof.
  intros (Hs & Hne & _ & _ & Ha). unfold instruction_struct in Hs. unfold instruction_dispatch.
  unfold instruction_with_actions in *.
  destruct (d_type d =? OFPIT_GOTO_TABLE) eqn:E1.
  { apply Z.eqb_eq in E1. rewrite E1 in Ha. left. split; [congruence|auto]. }
  destruct (d_type d =? OFPIT_WRITE_METADATA) eqn:E2.
  { apply Z.eqb_eq in E2. rewrite E2 in Ha. left. split; [congruence|auto]. }
  destruct (_ || _ || _) eqn:E3; [right; split; congruence|].
  destruct (d_type d =? OFPIT_METER) eqn:E4; [left; split; [congruence|auto]|].
  destruct (d_type d =? OFPIT_EXPERIMENTER) eqn:E5; [by apply Z.eqb_eq in E5|discriminate Hs].
Qed.

Lemma instruction_type_range d : instruction_ok d -> 0 <= d_type d < 65536.
Proof.
  intros (Hs & _). unfold instruction_struct, instruction_with_actions in Hs.
  repeat match type of Hs with context [?x =? ?y] => destruct (Z.eqb_spec x y) as [->|]; [done|] end.
  discriminate Hs.
Qed.

Lemma length_instruction_bytes d : instruction_ok d -> Z.of_nat (length (instruction_bytes d)) = d_size d.
Proof.
  intros (Hs & _). pose proof (wire_element_len _ (ci_ofpit (d_final d)) (instruction_structs_elements _ _ Hs)).
  unfold instruction_bytes, d_size. rewrite length_app. lia.
Qed.

Lemma instruction_bytes_split d pk :
  instruction_ok d -> (forall f, f <> "len" -> pk !! f = d_ofpit d !! f) ->
  exists body, Z.of_nat (length body) = sizeof openflow13 (d_struct d) - 4 /\
    wire pk (fields (d_struct d) "") = be_bytes 2 (d_type d) ++ be_bytes 2 (pkt_get "len" 0 pk) ++ body /\
    instruction_bytes d = be_bytes 2 (d_type d) ++ be_bytes 2 (d_size d) ++ body ++ actions_bytes (d_actions d).
Proof.
  intros (Hs & _) Hpk. pose proof (instruction_structs_elements _ _ Hs) as Hel.
  destruct (wire_element _ (d_ofpit d) Hel) as (body & Hb & Hw). exists body. split; [done|]. split.
  - by apply Hw.
  - unfold instruction_bytes. rewrite Hw by (intros f Hf; cbn; by rewrite lookup_insert_ne).
    cbn [ci_ofpit d_final]. rewrite pkt_get_insert. cbn [nth]. by rewrite <- !app_assoc.
Qed.

Lemma instruction_size_ge d : instruction_ok d -> 8 <= d_size d.
Proof.
  intros (Hs & _). destruct (element_facts _ (instruction_structs_elements _ _ Hs)) as (_ & _ & _ & _ & ?).
  unfold d_size. lia.
Qed.

Lemma actions_instruction_size : sizeof openflow13 "ofp_instruction_actions" = 8.
Proof. vm_compute. reflexivity. Qed.

Lemma instruction_dispatch_law d b rest :
  instruction_ok d -> d_size d < 65536 -> unread b (instruction_bytes d ++ rest) ->
  instruction_dispatch (d_type d) b = Done ((status_ok, d_final d), adv (length (instruction_bytes d)) b).
Proof.
  intros Hok Hlt Hu. pose proof Hok as (Hs & _ & Hex & Hacts & Ha).
  pose proof (instruction_structs_elements _ _ Hs) as Hel. destruct (element_facts _ Hel) as (Hd & Hdec & _ & _ & Hsz).
  unfold instruction_bytes in *. rewrite <- app_assoc in Hu. rewrite length_app.
  pose proof (on_fresh_Done _ _ _ _ _ (exact_decode _ b _ _ Hd Hdec Hex Hu)) as Hdecode.
  destruct (instruction_kinds d Hok) as [[-> Hnil]|[-> Hname]].
  - unfold plain_instruction_parse. rewrite (bind_Done _ _ _ _ _ Hdecode). cbn [is_ok].
    unfold d_final. rewrite Hnil. cbn. by rewrite Nat.add_0_r.
  - assert (d_size d = 8 + Z.of_nat (length (actions_bytes (d_actions d)))) as Hsize.
    { unfold d_size. by rewrite Hname, actions_instruction_size. }
    unfold actions_instruction_parse. rewrite Hname in *. rewrite (bind_Done _ _ _ _ _ Hdecode). cbn [is_ok].
    apply unread_adv in Hu. cbn [ci_ofpit d_final]. rewrite pkt_get_insert. cbn [nth].
    assert (u64 (d_size d - sizeof openflow13 "ofp_instruction_actions") = Z.of_nat (length (actions_bytes (d_actions d)))) as ->.
    { rewrite actions_instruction_size, Hsize. unfold u64. rewrite Z.mod_small by lia. lia. }
    assert (Z.of_nat (length (actions_bytes (d_actions d))) < 65536) as Hl by lia.
    rewrite (bind_Done _ _ _ _ _ (actions_parse_law _ [] _ rest Hacts Hl Hu)).
    cbn [is_ok fst status_ok app].
    destruct (Z.eqb_spec (d_type d) OFPIT_CLEAR_ACTIONS) as [E|E].
    + unfold d_final. rewrite (Ha (or_intror E)), adv_add. done.
    + cbn [andb]. by rewrite adv_add.
Qed.

Lemma instruction_parse_law d acc b rest :
  instruction_ok d -> d_size d < 65536 -> unread b (instruction_bytes d ++ rest) ->
  ofp_instruction_parse acc b = Done ((status_ok, acc ++ [d_final d]), adv (length (instruction_bytes d)) b).
Proof.
  intros Hok Hlt Hu. destruct (instruction_bytes_split d (d_ofpit d) Hok ltac:(done)) as (body & _ & _ & Hsplit).
  pose proof (instruction_size_ge d Hok) as Hge. pose proof (instruction_type_range d Hok) as Ht.
  pose proof Hu as Hu'. rewrite Hsplit, <- !app_assoc in Hu'. unfold ofp_instruction_parse.
  rewrite (bind_Done _ _ _ _ _ (ofp_tlv_decode_sneak_peek _ _ _ _ Hu')). cbn [is_ok].
  unfold u16. rewrite !Z.mod_small by lia.
  rewrite (bind_Done _ _ _ LAGOPUS_RESULT_OK b); cycle 1.
  { rewrite gets_Done. rewrite <- (length_instruction_bytes d Hok). rewrite plen_check_ok; [done|].
    destruct Hu as (_ & -> & _). rewrite length_app. lia. }
  cbn [is_ok]. by rewrite (bind_Done _ _ _ _ _ (instruction_dispatch_law d b rest Hok Hlt Hu)).
Qed.

Definition instructions_ok : list described -> Prop := Forall instruction_ok.

Lemma instructions_parse_loop_law l acc b fuel :
  instructions_ok l -> Z.of_nat (length (instructions_bytes l)) < 65536 ->
  unread b (instructions_bytes l) -> (length (instructions_bytes l) < fuel)%nat ->
  instructions_parse_loop fuel acc b =
  Done ((status_ok, acc ++ map d_final l), adv (length (instructions_bytes l)) b).
Proof.
  intros Hok. revert acc b fuel. induction Hok as [|d l Hd Hok IH]; intros acc b fuel Hlt Hu Hfuel;
    (destruct fuel as [|fuel]; [lia|]); cbn [instructions_parse_loop];
    rewrite (bind_Done _ _ _ (pb_plen b) b) by done.
  { destruct Hu as (_ & -> & _). cbn. by rewrite app_nil_r, adv_0. }
  cbn [instructions_bytes flat_map map] in *. fold (instructions_bytes l) in *. rewrite length_app in *.
  pose proof (length_instruction_bytes d Hd) as Hlen. pose proof (instruction_size_ge d Hd) as Hge.
  assert (pb_plen b = Z.of_nat (length (instruction_bytes d) + length (instructions_bytes l))) as ->.
  { destruct Hu as (_ & -> & _). by rewrite length_app. }
  rewrite (proj2 (Z.ltb_lt _ _)) by lia.
  assert (d_size d < 65536) as Hsz by lia.
  rewrite (bind_Done _ _ _ _ _ (instruction_parse_law d acc b _ Hd Hsz Hu)). cbn [is_ok fst status_ok].
  apply unread_adv in Hu. rewrite IH by (done || lia). by rewrite adv_add, <- app_assoc.
Qed.

Lemma instructions_parse_law l b :
  instructions_ok l -> Z.of_nat (length (instructions_bytes l)) < 65536 -> unread b (instructions_bytes l) ->
  instructions_parse b = Done ((status_ok, map d_final l), adv (length (instructions_bytes l)) b).
Proof.
  intros Hok Hlt Hu. unfold instructions_parse. rewrite (bind_Done _ _ _ (pb_plen b) b) by done.
  rewrite (instructions_parse_loop_law l [] b _ Hok Hlt Hu); [done|].
  destruct Hu as (_ & -> & _). lia.
Qed.

Lemma instruction_encode_law d total b :
  instruction_ok d -> 0 <= total -> total + d_size d < 65536 -> fits (length (instruction_bytes d)) b ->
  instruction_encode (d_instruction d) total b =
  Done ((LAGOPUS_RESULT_OK, total + d_size d, d_encoded d), put (instruction_bytes d) b).
Proof.
  intros Hok H0 Hlt Hf. pose proof Hok as (Hs & _ & _ & Hacts & _).
  pose proof (instruction_structs_elements _ _ Hs) as Hel. destruct (element_facts _ Hel) as (_ & _ & _ & _ & Hsz).
  set (pk := <["len" := [sizeof openflow13 (d_struct d)]]> (d_ofpit d)).
  destruct (instruction_bytes_split d pk Hok) as (body & Hbody & Hw & Hfinal).
  { intros f Hne. unfold pk. by rewrite lookup_insert_ne. }
  pose proof (wire_element_len _ pk Hel) as Hlen. set (w := wire pk _) in *.
  pose proof (length_instruction_bytes d Hok) as Hlen'. unfold d_size in *.
  assert (fits (length w + length (actions_bytes (d_actions d))) b) as Hf0 by (eapply fits_weaken; [exact Hf|lia]).
  unfold instruction_encode. rewrite (bind_Done _ _ _ (pb_putp b) b) by done.
  change (ci_type (d_instruction d)) with (d_type d). rewrite Hs.
  unfold set_ci_len, u16. cbn [ci_ofpit ci_action_list d_instruction]. rewrite Z.mod_small by lia. fold pk.
  rewrite (bind_Done _ _ _ _ _ (element_encode _ pk b Hel (fits_weaken _ (length w) _ Hf0 ltac:(lia)))). cbn [is_ok].
  fold w. assert (Z.of_nat (length (actions_bytes (d_actions d))) < 65536) as Hla by lia.
  rewrite (bind_Done _ _ _ _ _ (actions_encode_law _ (put w b) Hacts Hla (put_fits _ _ _ Hf0))). cbn [is_ok].
  assert (ci_len (CInstruction pk (map (fun '(name, a) => action_encoded name a) (d_actions d))) = sizeof openflow13 (d_struct d)) as ->.
  { unfold ci_len, pk. cbn [ci_ofpit]. by rewrite pkt_get_insert. }
  rewrite ofp_tlv_length_sum_ok by lia. cbn [is_ok]. rewrite <- put_app by (by eapply fits_putp).
  pose proof (ofp_tlv_length_set_put (d_type d) (pkt_get "len" 0 pk)
    (sizeof openflow13 (d_struct d) + Z.of_nat (length (actions_bytes (d_actions d)))) []
    (body ++ actions_bytes (d_actions d)) b (w ++ actions_bytes (d_actions d))) as Hset.
  cbn [length app] in Hset. rewrite Z.add_0_r in Hset.
  rewrite (bind_Done _ _ _ _ _ (Hset ltac:(by eapply fits_writable)
    ltac:(rewrite length_app; destruct Hf0; lia) ltac:(rewrite Hw, <- !app_assoc; done))).
  cbn [is_ok]. rewrite ofp_tlv_length_sum_ok by lia. rewrite Hfinal. done.
Qed.

Lemma instructions_encode_loop_law l total b :
  instructions_ok l -> 0 <= total -> total + Z.of_nat (length (instructions_bytes l)) < 65536 ->
  fits (length (instructions_bytes l)) b ->
  instruction_list_encode_loop (map d_instruction l) total b =
  Done ((LAGOPUS_RESULT_OK, total + Z.of_nat (length (instructions_bytes l)), map d_encoded l),
        put (instructions_bytes l) b).
Proof.
  intros Hok. revert total b. induction Hok as [|d l Hd Hok IH]; intros total b H0 Hlt Hf;
    cbn [instructions_bytes flat_map map instruction_list_encode_loop] in *.
  { rewrite put_nil. by rewrite Z.add_0_r. }
  fold (instructions_bytes l) in *. rewrite length_app in *.
  pose proof (length_instruction_bytes d Hd) as Hlen. pose proof (instruction_size_ge d Hd) as Hge.
  assert (fits (length (instruction_bytes d)) b) as Hf0 by (eapply fits_weaken; [exact Hf|lia]).
  rewrite (bind_Done _ _ _ _ _ (instruction_encode_law d total b Hd H0 ltac:(lia) Hf0)). cbn [is_ok].
  specialize (IH (total + d_size d) (put (instruction_bytes d) b) ltac:(lia) ltac:(lia) (put_fits _ _ _ Hf)).
  rewrite (bind_Done _ _ _ _ _ IH). rewrite put_app by (by eapply fits_putp). unfold mret, M_ret.
  by replace (total + d_size d + _)
    with (total + Z.of_nat (length (instruction_bytes d) + length (instructions_bytes l))) by lia.
Qed.

(** C24: What the switch encodes it parses again: for a list of instructions the switch can hold,
    with their actions, whose encoding fits the 16-bit length, [ofp_instruction_list_encode] puts
    the elements one after the other, each with its length over its actions, and returns the
    number of bytes; the parsing loop of a message that ends with these bytes consumes them all
    and returns the instructions in the same order, with all lengths set. *)
Theorem instructions_roundtrip l b b' :
  instructions_ok l -> Z.of_nat (length (instructions_bytes l)) < 65536 -> fits (length (instructions_bytes l)) b ->
  let v := instructions_bytes l in
  ofp_instruction_list_encode (map d_instruction l) b =
    Done ((LAGOPUS_RESULT_OK, Z.of_nat (length v), map d_encoded l), put v b) /\
  (unread b' v ->
   instructions_parse b' = Done ((status_ok, map d_final l), adv (length v) b') /\ pb_plen (adv (length v) b') = 0).
Proof.
  intros Hok Hlt Hf v. split; [by apply (instructions_encode_loop_law l 0 b)|].
  intros Hu. split; [by apply instructions_parse_law|]. destruct Hu as (_ & Hp & _). cbn. lia.
Qed.

(** ** Examples *)

(** Writing two actions, then going to table 1. *)
Definition two_instructions : list described :=
  [Described "ofp_instruction_actions" (struct "ofp_instruction_actions" [[OFPIT_WRITE_ACTIONS]; [0]; [0; 0; 0; 0]]) two_actions;
   Described "ofp_instruction_goto_table" (struct "ofp_instruction_goto_table" [[OFPIT_GOTO_TABLE]; [0]; [1]; [0; 0; 0]]) []].

Lemma two_instructions_ok : instructions_ok two_instructions.
Proof.
  unfold instructions_ok, two_instructions. apply Forall_cons; split; [|apply Forall_cons; split; [|constructor]]; split_and!.
  1, 6: vm_compute; reflexivity.
  1, 5: vm_compute; discriminate.
  1, 4: apply exactb_spec; vm_compute; reflexivity.
  - apply two_actions_ok.
  - intros [H|H]; vm_compute in H; discriminate.
  - constructor.
  - done.
Qed.

Theorem instructions_roundtrip_witness :
  let l := two_instructions in
  let v := instructions_bytes l in
  let b := pbuf_plen_set 48 (pbuf_alloc 48) in
  let b' := holding v in
  unread b' v /\
  ofp_instruction_list_encode (map d_instruction l) b =
    Done ((LAGOPUS_RESULT_OK, Z.of_nat (length v), map d_encoded l), put v b) /\
  (unread b' v ->
   instructions_parse b' = Done ((status_ok, map d_final l), adv (length v) b') /\ pb_plen (adv (length v) b') = 0).
Proof.
  intros l v b b'. split; [apply unread_holding; vm_compute; reflexivity|].
  apply instructions_roundtrip; [apply two_instructions_ok|vm_compute; reflexivity|].
  replace (length (instructions_bytes l)) with 48%nat by (vm_compute; reflexivity). apply (fits_alloc 48). lia.
Defined.
