(* ===== verification/CodecSound.v ===== *)
(** * What the parsers of actions and instructions accept

    Parsing arbitrary bytes: a small program logic for the parsers, and with it that they end,
    that they take no byte outside the message, and that a message they accept is, byte for byte,
    the wire form of what they return. *)
From S2P Require Import Prelude Monad OpenFlow Pbuf Generator OpenFlowH Tlv MatchCodec ActionCodec InstructionCodec.
From stdpp Require Import strings.
#[local] Open Scope Z_scope.

(** ** The logic *)

(** The buffer holds the message [l]. *)
Definition msg (b : pbuf) (l : bytes) : Prop := unread b l /\ bytes_ok l.

(** Run on the message [l], [m] ends, takes [k] of its bytes and satisfies [P]; it is only
    undefined if [U]. *)
Definition parses (U : Prop) {A} (m : pm A) (b : pbuf) (l : bytes) (P : A -> nat -> Prop) : Prop :=
  match m b with
  | Done (a, b') => exists k, (k <= length l)%nat /\ b' = adv k b /\ P a k
  | Undefined => U
  | OutOfFuel => False
  end.

Lemma msg_adv b l k : msg b l -> (k <= length l)%nat -> msg (adv k b) (drop k l).
Proof.
  intros [Hu Hok] Hk. split; [|by apply Forall_drop].
  rewrite <- (take_drop k l) in Hu. apply unread_adv in Hu. by rewrite length_take, Nat.min_l in Hu by done.
Qed.

Lemma msg_plen b l : msg b l -> pb_plen b = Z.of_nat (length l).
Proof. by intros [(_ & ? & _) _]. Qed.

Section Logic.
Context (U : Prop).

Lemma parses_mono {A} (m : pm A) b l P Q :
  (forall a k, (k <= length l)%nat -> P a k -> Q a k) -> parses U m b l P -> parses U m b l Q.
Proof. unfold parses. intros H. destruct (m b) as [[a b']| |]; [|done..]. intros (k & ? & ? & ?). eauto. Qed.

Lemma parses_bind {A B} (m : pm A) (f : A -> pm B) b l (P : A -> nat -> Prop) (Q : B -> nat -> Prop) :
  msg b l -> parses U m b l P ->
  (forall a k, (k <= length l)%nat -> P a k -> msg (adv k b) (drop k l) ->
     parses U (f a) (adv k b) (drop k l) (fun c k' => Q c (k + k')%nat)) ->
  parses U (m ≫= f) b l Q.
Proof.
  unfold parses, mbind, M_bind. intros Hm Hp Hf. destruct (m b) as [[a b']| |]; [|done..].
  destruct Hp as (k & Hk & -> & HP). specialize (Hf a k Hk HP (msg_adv _ _ _ Hm Hk)).
  destruct (f a (adv k b)) as [[c b'']| |]; [|done..].
  destruct Hf as (k' & Hk' & -> & HQ). rewrite length_drop in Hk'. exists (k + k')%nat.
  rewrite adv_add. split_and!; [lia|done|done].
Qed.

Lemma parses_ret {A} (a : A) b l (P : A -> nat -> Prop) : P a 0%nat -> parses U (mret a) b l P.
Proof. intros H. unfold parses. cbn. exists 0%nat. rewrite adv_0. split_and!; [lia|done|done]. Qed.

Lemma parses_gets {A B} (g : pbuf -> A) (f : A -> pm B) b l Q :
  parses U (f (g b)) b l Q -> parses U (gets g ≫= f) b l Q.
Proof. done. Qed.

Lemma parses_plen_check {B} (n : Z) (f : lagopus_result -> pm B) b l Q :
  msg b l ->
  (n <= Z.of_nat (length l) -> parses U (f LAGOPUS_RESULT_OK) b l Q) ->
  parses U (f LAGOPUS_RESULT_OUT_OF_RANGE) b l Q ->
  parses U (ret ← gets (pbuf_plen_check n); f ret) b l Q.
Proof.
  intros Hm H1 H2. apply parses_gets. unfold pbuf_plen_check. rewrite (msg_plen b l Hm).
  destruct (Z.ltb_spec (Z.of_nat (length l)) n); [done|]. apply H1. lia.
Qed.

Lemma parses_get {B} n (f : bytes -> pm B) b l (Q : B -> nat -> Prop) :
  msg b l -> (n <= length l)%nat ->
  parses U (f (take n l)) (adv n b) (drop n l) (fun c k => Q c (n + k)%nat) ->
  parses U (DECODE_GET n ≫= f) b l Q.
Proof.
  intros Hm Hn Hf. apply (parses_bind _ _ _ _ (fun v k => v = take n l /\ k = n)); [done| |].
  - unfold parses. pose proof (DECODE_GET_adv b (take n l) (drop n l)) as H.
    rewrite take_drop, length_take, Nat.min_l in H by done. rewrite H by apply Hm.
    exists n. by split_and!.
  - by intros v k _ [-> ->] _.
Qed.

(** *** The generated decoders *)

Lemma leaf_elements_ok pk pk' lf : pk' !! lf.1.1 = Some (leaf_elements pk lf) -> field_ok pk' lf.
Proof.
  intros H. exists (leaf_elements pk lf). unfold leaf_elements. split_and!; [done|by rewrite length_map, length_seq|].
  apply Forall_forall. intros v (i & -> & _)%list_elem_of_fmap. apply Z.mod_pos_bound. lia.
Qed.

(** A structure is read from the first bytes of the message, or the message is too short. *)
Definition decoded (name : string) (l : bytes) (r : lagopus_result * packet) (k : nat) : Prop :=
  (exists pk, r = (LAGOPUS_RESULT_OK, pk) /\ Z.of_nat k = sizeof openflow13 name /\ (k <= length l)%nat /\
     exact name pk /\ wire pk (fields name "") = take k l) \/
  (exists pk, r = (LAGOPUS_RESULT_OUT_OF_RANGE, pk) /\ k = 0%nat).

Lemma parses_decode name b l :
  declared openflow13 name = true -> decodable name = true -> msg b l ->
  parses U (on_fresh (decode openflow13 name "")) b l (decoded name l).
Proof.
  intros Hd Hdec [Hu Hok]. pose proof (openflow13_regular _ Hd) as Hr.
  apply andb_prop in Hr as [Hnd%bool_decide_eq_true_1 Hsz%Z.eqb_eq].
  set (n := leaves_size (fields name "")) in *. unfold parses.
  destruct (decide (n <= length l)%nat) as [Hn|Hn].
  - set (v := take n l). assert (length v = n) as Hv by (unfold v; rewrite length_take; lia).
    assert (bytes_ok v) as Hvok by (by apply Forall_take).
    rewrite <- (take_drop n l) in Hu. fold v in Hu.
    pose proof (wire_absorb (fields name "") v ∅ Hnd Hv Hvok) as Hw.
    set (pk := absorb (fields name "") v ∅) in *. rewrite <- Hw in Hu.
    destruct (struct_decode_wire name b ∅ pk (drop n l) Hd Hdec Hu) as (q & Hq & _ & Hin & Hout).
    rewrite (on_fresh_Done _ _ _ _ _ Hq). rewrite Hw, Hv in *. exists n. split_and!; [lia|done|].
    left. exists q. split_and!; [done|done|done| |].
    + split; [|intros f Hf; rewrite Hout by done; apply lookup_empty]. apply Forall_forall. intros lf Hlf.
      apply (leaf_elements_ok pk), (Hin _ Hlf).
    + fold v. rewrite <- Hw. unfold wire. clear -Hin. revert Hin. generalize (fields name ""). intros lfs.
      induction lfs as [|lf lfs IH]; intros Hin; [done|]. cbn [flat_map].
      rewrite IH by (intros; apply Hin; set_solver). f_equal. unfold wire_leaf.
      specialize (Hin lf ltac:(set_solver)). destruct lf as [[f w] m]. cbn [fst snd] in *.
      assert (forall i, i ∈ seq 0 m -> be_bytes w (pkt_get f i q) = be_bytes w (pkt_get f i pk)) as H.
      { intros i Hi%elem_of_seq. rewrite (pkt_get_leaf q pk f w m i Hin) by lia. apply be_bytes_mod. }
      revert H. generalize (seq 0 m). intros s Hs. induction s as [|i s IHs]; [done|]. cbn [flat_map].
      rewrite Hs, IHs by set_solver. done.
  - assert (pb_plen b < sizeof openflow13 name) as Hs by (destruct Hu as (_ & -> & _); lia).
    destruct (decode_short openflow13 name "" b ∅ Hd Hs) as [H _].
    rewrite (on_fresh_Done _ _ _ _ _ H). exists 0%nat. rewrite adv_0. split_and!; [lia|done|]. right. eauto.
Qed.

(** Type and length of the next element; nothing is taken. *)
Lemma parses_tlv {B} (f : lagopus_result * Z * Z -> pm B) b l Q :
  msg b l ->
  (forall t n rest, l = be_bytes 2 t ++ be_bytes 2 n ++ rest -> 0 <= t < 65536 -> 0 <= n < 65536 ->
     parses U (f (LAGOPUS_RESULT_OK, t, n)) b l Q) ->
  parses U (f (LAGOPUS_RESULT_OUT_OF_RANGE, 0, 0)) b l Q ->
  parses U (ofp_tlv_decode_sneak ≫= f) b l Q.
Proof.
  intros [Hu Hok] H1 H2. destruct (decide (4 <= length l)%nat) as [H4|H4].
  - destruct (tlv_of_bytes l Hok H4) as (t & n & rest & -> & Ht & Hn).
    specialize (H1 t n rest eq_refl Ht Hn). unfold parses.
    rewrite (bind_Done _ _ _ _ _ (ofp_tlv_decode_sneak_peek _ _ _ _ Hu)). unfold u16.
    by rewrite !Z.mod_small by done.
  - unfold parses. rewrite (bind_Done _ _ _ _ _ (ofp_tlv_decode_sneak_short b ltac:(destruct Hu as (_ & -> & _); lia))).
    exact H2.
Qed.

End Logic.

(** ** Actions *)

Abbreviation ed_prop_wire := (fun p => wire p (fields "ofp_ed_prop_portname" "")).

(** The bytes of an action as it stands in memory. *)
Definition action_wire (name : string) (a : caction) : bytes :=
  wire (ca_ofpat a) (fields name "") ++ ca_tail a ++ flat_map ed_prop_wire (ca_ed_prop_list a).

(** The actions the parser builds: of a known type, with the fields of its structure, and for
    SET_FIELD a supported field whose value is as long as its header says, padded; *)
Definition action_shape (name : string) (a : caction) : Prop :=
  struct_of (ca_type a) = Some name /\ exact name (ca_ofpat a) /\
  (if ca_type a =? OFPAT_SET_FIELD then
     let oxm_len := pkt_get "field" OXM_LENGTH_INDEX (ca_ofpat a) in
     Z.of_nat (length (ca_tail a)) = oxm_len + GET_64BIT_PADDING_LENGTH oxm_len /\ bytes_ok (ca_tail a) /\
     set_field_oxm_check (ca_ofpat a) = true
   else ca_tail a = []) /\
  (if bool_decide (ca_type a ∈ [OFPAT_ENCAP; OFPAT_DECAP])
   then Forall (fun p => exact "ofp_ed_prop_portname" p /\ pkt_get "type" 0 p = OFPPPT_PROP_PORT_NAME) (ca_ed_prop_list a)
   else ca_ed_prop_list a = []).

(** and, in a list that was accepted, a length that is the true one. *)
Definition action_parsed (name : string) (a : caction) : Prop :=
  action_shape name a /\ ca_len a = Z.of_nat (length (action_wire name a)).

Definition actions_wire (al : list (string * caction)) : bytes := flat_map (fun '(name, a) => action_wire name a) al.

(** Behind some well-formed actions, [l] goes on with the header of an action of a known type that
    states a length below eight. *)
Definition short_action (l : bytes) : Prop :=
  exists al t n rest, Forall (fun '(name, a) => action_parsed name a) al /\
    l = actions_wire al ++ be_bytes 2 t ++ be_bytes 2 n ++ rest /\ is_Some (struct_of t) /\ 0 <= n < 8.

Lemma short_action_cons name a l : action_parsed name a -> short_action l -> short_action (action_wire name a ++ l).
Proof.
  intros Ha (al & t & n & rest & Hal & -> & H). exists ((name, a) :: al), t, n, rest.
  split_and!; [by constructor| |by apply H|by apply H|by apply H]. unfold actions_wire. cbn [flat_map]. by rewrite <- app_assoc.
Qed.

(** A parser that fails reports an error for the controller, a property of ENCAP or DECAP that is
    too short for its structure apart. *)
Definition failed (status : ofp_status) : Prop :=
  status = (LAGOPUS_RESULT_OUT_OF_RANGE, None) \/ exists type code, status = ofp_fail type code.

Lemma failed_fail type code : failed (ofp_fail type code).
Proof. right. eauto. Qed.

Lemma failed_not_ok status : failed status -> is_ok status.1 = false.
Proof. by intros [->|(? & ? & ->)]. Qed.

Lemma header_of_wire name pk l t n rest k :
  element_struct name = true -> exact name pk -> Z.of_nat k = sizeof openflow13 name ->
  wire pk (fields name "") = take k l -> l = be_bytes 2 t ++ be_bytes 2 n ++ rest ->
  0 <= t < 65536 -> 0 <= n < 65536 -> pkt_get "type" 0 pk = t /\ pkt_get "len" 0 pk = n.
Proof.
  intros H [Hok _] Hk Hw -> Ht Hn. destruct (element_facts _ H) as (_ & _ & (lfs & Hf) & _ & Hsz).
  destruct (wire_element _ pk H) as (body & _ & Hw'). rewrite Hw' in Hw by done. clear Hw'.
  rewrite Hf in Hok. apply Forall_app in Hok as [Hok _].
  pose proof (Forall_inv Hok) as Htype. pose proof (Forall_inv (Forall_inv_tail Hok)) as Hlen.
  apply (pkt_get_range pk "type" 2 1 0) in Htype; [|lia]. apply (pkt_get_range pk "len" 2 1 0) in Hlen; [|lia].
  rewrite (take_app_ge (be_bytes 2 t)), (take_app_ge (be_bytes 2 n)) in Hw by (rewrite ?length_be_bytes; lia).
  apply app_inj_1 in Hw as [H1 Hw]; [|by rewrite !length_be_bytes]. apply app_inj_1 in Hw as [H2 _]; [|by rewrite !length_be_bytes].
  apply (f_equal be_val) in H1, H2. rewrite !be_val_bytes in H1, H2.
  change (256 ^ Z.of_nat 2) with 65536 in *. rewrite !Z.mod_small in H1, H2 by done. done.
Qed.

Lemma action_structs_small type name : struct_of type = Some name -> sizeof openflow13 name <= 16.
Proof.
  assert (forallb (fun name => sizeof openflow13 name <=? 16) action_structs = true) as Hall by (vm_compute; reflexivity).
  rewrite forallb_forall in Hall. intros H. apply Z.leb_le, Hall. apply list_elem_of_In. unfold struct_of in H.
  destruct (fixed_struct type) eqn:E.
  - injection H as ->. pose proof (fixed_struct_type _ _ E) as Ht. unfold fixed_types in Ht.
    each_type Ht; injection E as <-; set_solver.
  - repeat destruct (_ =? _); simplify_eq; set_solver.
Qed.

(** What a decoder of an action's structure leaves, on a message whose first element has type [t]
    and length [n]. *)
Definition ofpat_decoded (name : string) (l : bytes) (t n : Z) (r : lagopus_result * packet) (k : nat) : Prop :=
  (exists pk, r = (LAGOPUS_RESULT_OK, pk) /\ Z.of_nat k = sizeof openflow13 name /\ (k <= length l)%nat /\
     exact name pk /\ wire pk (fields name "") = take k l /\
     pkt_get "type" 0 pk = t /\ pkt_get "len" 0 pk = n) \/
  (exists pk, r = (LAGOPUS_RESULT_OUT_OF_RANGE, pk) /\ k = 0%nat).

Definition ed_prop_parsed (p : packet) : Prop :=
  exact "ofp_ed_prop_portname" p /\ pkt_get "type" 0 p = OFPPPT_PROP_PORT_NAME.

(** The properties are read from the first [k] bytes. *)
Definition ed_props_parsed (acc : list packet) (l : bytes) (r : ofp_status * list packet) (k : nat) : Prop :=
  (exists ps, r = (status_ok, acc ++ ps) /\ Forall ed_prop_parsed ps /\ (k <= length l)%nat /\
     take k l = flat_map ed_prop_wire ps) \/
  failed r.1.

Lemma parses_ed_prop U acc b l :
  msg b l ->
  parses U (ofp_action_ed_prop_parse acc) b l (fun r k => ed_props_parsed acc l r k /\ (r.1 = status_ok -> (0 < k)%nat)).
Proof.
  intros Hm. unfold ofp_action_ed_prop_parse.
  apply parses_tlv; [done| |by apply parses_ret; split; [right; apply failed_fail|]].
  intros t n rest Hl Ht Hn. cbn [is_ok].
  apply parses_plen_check; [done|intros _|by apply parses_ret; split; [right; apply failed_fail|]]. cbn [is_ok].
  destruct (Z.eqb_spec t OFPPPT_PROP_PORT_NAME) as [Et|Et]; [|by apply parses_ret; split; [right; apply failed_fail|]].
  destruct (element_facts _ portname_element) as (Hd & Hdec & _).
  apply (parses_bind _ _ _ _ _ _ _ Hm (parses_decode U _ b l Hd Hdec Hm)).
  intros r k Hk [(pk & -> & Hkn & _ & Hex & Hw)|(pk & -> & ->)] Hm'; cbn [is_ok]; apply parses_ret.
  - rewrite Nat.add_0_r. rewrite portname_size in Hkn. split; [|lia]. left. exists [pk].
    destruct (header_of_wire _ pk l t n rest k portname_element Hex ltac:(by rewrite portname_size) Hw Hl Ht Hn) as [Htype _].
    split_and!; [done|apply Forall_singleton; split; [done|congruence]|done|]. cbn [flat_map]. by rewrite app_nil_r.
  - split; [right; by left|done].
Qed.

Lemma parses_ed_props U e fuel acc b l :
  msg b l -> (length l < fuel)%nat -> parses U (ed_props_parse fuel e acc) b l (ed_props_parsed acc l).
Proof.
  revert acc b l. induction fuel as [|fuel IH]; intros acc b l Hm Hf; [lia|]. cbn [ed_props_parse].
  apply parses_gets. destruct (_ <? _); cycle 1.
  { apply parses_ret. left. exists []. rewrite app_nil_r. split_and!; [done|constructor|lia|done]. }
  apply (parses_bind _ _ _ _ _ _ _ Hm (parses_ed_prop U acc b l Hm)).
  intros [status acc'] k Hk [[(ps & [= -> ->] & Hps & _ & Hw)|Hfail] Hpos] Hm'.
  - cbn [is_ok fst status_ok]. specialize (Hpos eq_refl).
    eapply parses_mono; [|apply IH; [done|rewrite length_drop; lia]].
    intros r k' Hk' [(ps' & -> & Hps' & _ & Hw')|Hfail]; [left|by right].
    rewrite length_drop in Hk'. exists (ps ++ ps').
    split_and!; [by rewrite app_assoc|by apply Forall_app|lia|]. by rewrite flat_map_app, <- Hw, <- Hw', take_take_drop.
  - rewrite (failed_not_ok status Hfail). apply parses_ret. by right.
Qed.

Lemma action_dispatch_cases t :
  (exists name, fixed_struct t = Some name /\ action_dispatch t = fixed_parse name) \/
  (t = OFPAT_SET_FIELD /\ action_dispatch t = ofp_action_set_field_parse) \/
  (t = OFPAT_ENCAP /\ action_dispatch t = ofp_action_encap_parse) \/
  (t = OFPAT_DECAP /\ action_dispatch t = ofp_action_decap_parse) \/
  (exists type code, action_dispatch t = fun _ => mret (ofp_fail type code, CAction ∅ [] [])).
Proof.
  destruct (decide (t ∈ fixed_types ++ [OFPAT_SET_FIELD; OFPAT_ENCAP; OFPAT_DECAP; OFPAT_EXPERIMENTER])) as [Hin|Hnin].
  - unfold fixed_types in Hin. cbn [app] in Hin.
    each_type Hin; first [left; eexists; split; reflexivity|right; left; split; reflexivity
      |right; right; left; split; reflexivity|right; right; right; left; split; reflexivity
      |right; right; right; right; do 2 eexists; reflexivity].
  - right; right; right; right. exists OFPET_BAD_ACTION, OFPBAC_BAD_TYPE. unfold action_dispatch.
    unfold fixed_types in Hnin. cbn [app] in Hnin. rewrite !not_elem_of_cons in Hnin.
    repeat (rewrite (proj2 (Z.eqb_neq _ _)) by tauto). done.
Qed.

Section Element.
Context (U : Prop) (b : pbuf) (l : bytes) (t n : Z) (rest : bytes).
Context (Hm : msg b l) (HU : short_action l -> U) (Hl : l = be_bytes 2 t ++ be_bytes 2 n ++ rest).
Context (Ht : 0 <= t < 65536) (Hn : 0 <= n < 65536).

Lemma short_here name : struct_of t = Some name -> n < 8 -> U.
Proof using HU Hl Hn. intros Hs H. apply HU. exists [], t, n, rest. split_and!; [constructor|done|by eexists|lia|done]. Qed.

Lemma parses_ofpat name :
  struct_of t = Some name -> parses U (ofpat_decode name (action_room n)) b l (ofpat_decoded name l t n).
Proof using Hm HU Hl Ht Hn.
  intros Hs. pose proof (struct_of_element _ _ Hs) as Hel. pose proof (action_structs_small _ _ Hs) as Hsmall.
  destruct (element_facts _ Hel) as (Hd & Hdec & _). unfold ofpat_decode.
  apply (parses_bind _ _ _ _ _ (decoded name l)); [done|by apply parses_decode|].
  intros r k Hk [(pk & -> & Hkn & _ & Hex & Hw)|(pk & -> & ->)] Hm'; cbn [is_ok].
  - destruct (Z.leb_spec (sizeof openflow13 name) (action_room n)) as [Hroom|Hroom].
    + change (assert true) with (mret tt : pm unit).
      apply (parses_ret _ (LAGOPUS_RESULT_OK, pk)). rewrite Nat.add_0_r. left. exists pk.
      by destruct (header_of_wire name pk l t n rest k) as [? ?].
    + unfold parses. cbn. apply (short_here _ Hs). unfold action_room in Hroom. lia.
  - apply parses_ret. right. eauto.
Qed.

(** The result on the element. *)
Definition element_parsed (r : ofp_status * caction) (k : nat) : Prop :=
  (exists name, r.1 = status_ok /\ ca_type r.2 = t /\ ca_len r.2 = n /\ action_shape name r.2 /\
     (8 <= k <= length l)%nat /\ take k l = action_wire name r.2) \/
  failed r.1.

Lemma parses_fixed name :
  fixed_struct t = Some name -> parses U (fixed_parse name (action_room n)) b l element_parsed.
Proof using Hm HU Hl Ht Hn.
  intros Hf. assert (struct_of t = Some name) as Hs by (unfold struct_of; by rewrite Hf). unfold fixed_parse.
  destruct (element_facts _ (struct_of_element _ _ Hs)) as (_ & _ & _ & _ & Hsz).
  apply (parses_bind _ _ _ _ _ _ _ Hm (parses_ofpat name Hs)).
  intros r k Hk [(pk & -> & Hkn & _ & Hex & Hw & Htype & Hlen)|(pk & -> & ->)] Hm'; cbn [is_ok]; apply parses_ret.
  - rewrite Nat.add_0_r. left. exists name. unfold action_shape, action_wire, ca_type, ca_len. cbn [fst snd ca_ofpat ca_tail ca_ed_prop_list flat_map].
    destruct (action_kinds name (CAction pk [] [])) as [(_ & Hnsf & Hned)|[(Hbad & _)|[(Hbad & _)|(Hbad & _)]]];
      unfold ca_type in *; cbn [ca_ofpat] in *; rewrite Htype in *; try congruence.
    rewrite (proj2 (Z.eqb_neq _ _)), bool_decide_eq_false_2, !app_nil_r by done. split_and!; try done; lia.
  - right. apply failed_fail.
Qed.

Lemma set_field_check_cases pk b' :
  (ofp_action_set_field_check pk b' = status_ok /\ set_field_oxm_check pk = true /\
   pkt_get "field" OXM_LENGTH_INDEX pk + GET_64BIT_PADDING_LENGTH (pkt_get "field" OXM_LENGTH_INDEX pk) = set_field_payload pk) \/
  (exists code, ofp_action_set_field_check pk b' = ofp_fail OFPET_BAD_ACTION code).
Proof using.
  unfold ofp_action_set_field_check. destruct (Z.eqb_spec (pkt_get "field" OXM_LENGTH_INDEX pk +
    GET_64BIT_PADDING_LENGTH (pkt_get "field" OXM_LENGTH_INDEX pk)) (set_field_payload pk)); [|eauto].
  destruct (pbuf_plen_check _ _); [|eauto..]. destruct (set_field_oxm_check pk) eqn:E; [by left|eauto].
Qed.

Lemma parses_set_field :
  t = OFPAT_SET_FIELD -> parses U (ofp_action_set_field_parse (action_room n)) b l element_parsed.
Proof using Hm HU Hl Ht Hn.
  intros Et. unfold ofp_action_set_field_parse.
  assert (struct_of t = Some "ofp_action_set_field") as Hs by (by rewrite Et).
  apply (parses_bind _ _ _ _ _ _ _ Hm (parses_ofpat _ Hs)).
  intros r k Hk [(pk & -> & Hkn & _ & Hex & Hw & Htype & Hlen)|(pk & -> & ->)] Hm'; cbn [is_ok]; cycle 1.
  { apply parses_ret. right. apply failed_fail. }
  rewrite set_field_size in *. apply parses_gets.
  destruct (set_field_check_cases pk (adv k b)) as [(-> & Hox & Hpay)|(code & ->)]; cbn [fst is_ok ofp_fail status_ok]; cycle 1.
  { apply parses_ret. right. apply failed_fail. }
  unfold set_field_payload in *. rewrite Hlen in *.
  apply parses_plen_check; [done| |]; [intros Hp|by apply parses_ret; right; apply failed_fail].
  destruct (Z.ltb_spec n 8) as [Hlt|Hge].
  { unfold parses, assert, mbind, M_bind. destruct (_ <=? _); cbn; [|by apply (short_here _ Hs)].
    exfalso. unfold u64 in Hp. destruct Hm as [(_ & Hp' & Hp64 & _) _]. rewrite length_drop in Hp.
    rewrite <- (Z.mod_unique (n - 8) (2 ^ 64) (-1) (n - 8 + 2 ^ 64)) in Hp by lia. lia. }
  assert (u64 (n - 8) = n - 8) as Hu by (unfold u64; rewrite Z.mod_small by lia; lia). rewrite Hu in *.
  unfold action_room. rewrite (proj2 (Z.leb_le _ _)) by lia. change (assert true) with (mret tt : pm unit).
  change (assert true ≫= ?f) with (f tt). cbn beta.
  apply parses_get; [done|rewrite length_drop in *; lia|].
  apply parses_ret. left. exists "ofp_action_set_field". rewrite length_drop in Hp.
  unfold action_shape, action_wire, ca_type, ca_len. cbn [fst snd ca_ofpat ca_tail ca_ed_prop_list flat_map].
  rewrite Htype, Et, Z.eqb_refl, app_nil_r, length_take, length_drop, Hw. change (bool_decide _) with false.
  split_and!; try done; try lia.
  - apply Forall_take, Forall_drop, Hm.
  - by rewrite Nat.add_0_r, take_take_drop.
Qed.

Lemma parses_ed_action name :
  struct_of t = Some name -> t ∈ [OFPAT_ENCAP; OFPAT_DECAP] -> parses U (ed_action_parse name (action_room n)) b l element_parsed.
Proof using Hm HU Hl Ht Hn.
  intros Hs Het. unfold ed_action_parse. destruct (element_facts _ (struct_of_element _ _ Hs)) as (_ & _ & _ & _ & Hsz).
  apply (parses_bind _ _ _ _ _ _ _ Hm (parses_ofpat name Hs)).
  intros r k Hk [(pk & -> & Hkn & _ & Hex & Hw & Htype & Hlen)|(pk & -> & ->)] Hm'; cbn [is_ok]; cycle 1.
  { apply parses_ret. right. apply failed_fail. }
  apply parses_gets, parses_gets.
  eapply parses_bind; [done|apply parses_ed_props; [done|rewrite (msg_plen _ _ Hm'); lia]|].
  intros [status ps] k' Hk' [(ps' & [= -> ->] & Hps & _ & Hw')|Hfail] Hm''; cbn [is_ok fst status_ok] in *.
  - apply parses_gets. apply parses_ret. destruct (negb _); [right; apply failed_fail|]. left. exists name.
    rewrite length_drop in Hk'. rewrite Nat.add_0_r.
    unfold action_shape, action_wire, ca_type, ca_len. cbn [fst snd ca_ofpat ca_tail ca_ed_prop_list app].
    rewrite Htype, Hlen, (bool_decide_eq_true_2 _ Het), Hw, <- Hw', take_take_drop.
    assert ((t =? OFPAT_SET_FIELD) = false) as -> by (apply Z.eqb_neq; intros ->; set_solver).
    split_and!; try done; lia.
  - rewrite (failed_not_ok status Hfail). apply parses_ret. by right.
Qed.

Lemma parses_action : parses U (action_dispatch t (action_room n)) b l element_parsed.
Proof using Hm HU Hl Ht Hn.
  destruct (action_dispatch_cases t) as [(name & Hf & ->)|[(Et & ->)|[(Et & ->)|[(Et & ->)|(type & code & ->)]]]].
  - by apply parses_fixed.
  - by apply parses_set_field.
  - apply parses_ed_action; [by rewrite Et|rewrite Et; set_solver].
  - apply parses_ed_action; [by rewrite Et|rewrite Et; set_solver].
  - apply parses_ret. right. apply failed_fail.
Qed.
End Element.

(** *** Lists of actions *)

(** Accepted actions and the bytes they were read from. *)
Definition actions_parsed (l : bytes) (acc : list caction) (r : ofp_status * list caction) (k : nat) : Prop :=
  (exists al, r = (status_ok, acc ++ map snd al) /\ Forall (fun '(name, a) => action_parsed name a) al /\
     (k <= length l)%nat /\ take k l = actions_wire al) \/
  failed r.1.

Lemma parses_actions_loop U fuel ofpat ofpat_end acc b l :
  msg b l -> (short_action l -> U) -> (length l < fuel)%nat ->
  parses U (ofp_action_parse_loop fuel ofpat ofpat_end acc) b l (actions_parsed l acc).
Proof.
  revert ofpat acc b l. induction fuel as [|fuel IH]; intros ofpat acc b l Hm HU Hf; [lia|]. cbn [ofp_action_parse_loop].
  destruct (ofpat <? ofpat_end); cycle 1.
  { apply parses_ret. left. exists []. rewrite app_nil_r. split_and!; [done|constructor|lia|done]. }
  apply parses_tlv; [done| |apply parses_ret; right; apply failed_fail].
  intros t n rest Hl Ht Hn. cbn [is_ok].
  apply parses_plen_check; [done|intros _|apply parses_ret; right; apply failed_fail]. cbn [is_ok].
  apply parses_gets. apply (parses_bind _ _ _ _ _ _ _ Hm (parses_action U b l t n rest Hm HU Hl Ht Hn)).
  intros [status a] k Hk [(name & E & Htype & Hlen & Hshape & Hk8 & Hw)|Hfail] Hm'; cbn [fst snd] in *; cycle 1.
  { rewrite (failed_not_ok status Hfail). apply parses_ret. by right. }
  subst status. cbn [is_ok fst status_ok]. apply parses_gets.
  destruct (Z.eqb_spec (pbuf_getp_get b + n) (pbuf_getp_get (adv k b))) as [Hend|_]; [|apply parses_ret; right; apply failed_fail].
  change (pbuf_getp_get (adv k b)) with (pbuf_getp_get b + Z.of_nat k) in Hend.
  assert (action_parsed name a) as Ha by (split; [done|]; rewrite Hlen, <- Hw, length_take; lia).
  eapply parses_mono; [|apply IH; [done| |rewrite length_drop; lia]]; cycle 1.
  { intros Hs. apply HU. rewrite <- (take_drop k l), Hw. by apply short_action_cons. }
  intros r k' Hk' [(al & -> & Hal & _ & Hw')|Hfail]; [left|by right]. rewrite length_drop in Hk'.
  exists ((name, a) :: al). unfold actions_wire in *. cbn [map snd flat_map].
  split_and!; [by rewrite <- app_assoc|by constructor|lia|by rewrite <- Hw, <- Hw', take_take_drop].
Qed.

Lemma parses_actions U action_length acc b l :
  msg b l -> (short_action l -> U) ->
  parses U (ofp_action_parse action_length acc) b l
    (fun r k => actions_parsed l acc r k /\ (failed r.1 -> r.2 = [])).
Proof.
  intros Hm HU. unfold ofp_action_parse. apply parses_gets, parses_gets.
  eapply parses_bind; [done|apply parses_actions_loop; [done|done|rewrite (msg_plen _ _ Hm); lia]|].
  intros [status al] k Hk [(al' & [= -> ->] & H)|Hfail] Hm'; apply parses_ret; rewrite Nat.add_0_r; cbn [fst snd] in *.
  - split; [left; by exists al'|]. intros Hf. by apply failed_not_ok in Hf.
  - split; [by right|]. intros _. by rewrite (failed_not_ok status Hfail).
Qed.

(** ** Instructions *)

(** The bytes of an instruction as it stands in memory. *)
Definition instruction_wire (d : described) : bytes :=
  wire (d_ofpit d) (fields (d_struct d) "") ++ actions_wire (d_actions d).

(** The instructions the parser builds.  Their lengths are not among it: the parser compares them
    with nothing. *)
Definition instruction_parsed (d : described) : Prop :=
  instruction_struct (d_type d) = Some (d_struct d) /\ d_type d <> OFPIT_EXPERIMENTER /\
  exact (d_struct d) (d_ofpit d) /\ Forall (fun '(name, a) => action_parsed name a) (d_actions d) /\
  (instruction_with_actions (d_type d) = false \/ d_type d = OFPIT_CLEAR_ACTIONS -> d_actions d = []).

(** Behind some well-formed instructions, [l] goes on with an instruction with actions among which
    one is too short. *)
Definition short_in_instructions (l : bytes) : Prop :=
  exists ds pk l', Forall instruction_parsed ds /\ exact "ofp_instruction_actions" pk /\
    instruction_with_actions (pkt_get "type" 0 pk) = true /\
    l = flat_map instruction_wire ds ++ wire pk (fields "ofp_instruction_actions" "") ++ l' /\ short_action l'.

Lemma short_in_instructions_app ds l :
  Forall instruction_parsed ds -> short_in_instructions l -> short_in_instructions (flat_map instruction_wire ds ++ l).
Proof.
  intros Hds (ds' & pk & l' & Hds' & Hex & Ht & -> & H). exists (ds ++ ds'), pk, l'.
  split_and!; [by apply Forall_app|done|done| |done]. by rewrite flat_map_app, <- app_assoc.
Qed.

Definition instruction_result (l : bytes) (r : ofp_status * cinstruction) (k : nat) : Prop :=
  (exists d, r = (status_ok, d_instruction d) /\ instruction_parsed d /\ (0 < k <= length l)%nat /\
     take k l = instruction_wire d) \/
  failed r.1.

Section Instruction.
Context (U : Prop) (b : pbuf) (l : bytes) (t n : Z) (rest : bytes).
Context (Hm : msg b l) (HU : short_in_instructions l -> U) (Hl : l = be_bytes 2 t ++ be_bytes 2 n ++ rest).
Context (Ht : 0 <= t < 65536) (Hn : 0 <= n < 65536).

Lemma parses_plain_instruction name :
  instruction_struct t = Some name -> t <> OFPIT_EXPERIMENTER ->
  parses U (plain_instruction_parse name) b l (instruction_result l).
Proof using Hm HU Hl Ht Hn.
  intros Hs Hne. pose proof (instruction_structs_elements _ _ Hs) as Hel.
  destruct (element_facts _ Hel) as (Hd & Hdec & _ & _ & Hsz). unfold plain_instruction_parse.
  apply (parses_bind _ _ _ _ _ _ _ Hm (parses_decode U _ b l Hd Hdec Hm)).
  intros r k Hk [(pk & -> & Hkn & _ & Hex & Hw)|(pk & -> & ->)] Hm'; cbn [is_ok]; apply parses_ret;
    [|right; apply failed_fail].
  destruct (header_of_wire _ pk l t n rest k Hel Hex Hkn Hw Hl Ht Hn) as [Htype _].
  rewrite Nat.add_0_r. left. exists (Described name pk []). unfold instruction_parsed, instruction_wire, d_type.
  cbn [d_ofpit d_struct d_actions]. rewrite Htype. cbn [actions_wire flat_map]. rewrite app_nil_r.
  split_and!; try done. lia.
Qed.

Lemma parses_actions_instruction :
  instruction_with_actions t = true -> parses U (actions_instruction_parse t) b l (instruction_result l).
Proof using Hm HU Hl Ht Hn.
  intros Hwa. set (name := "ofp_instruction_actions").
  assert (instruction_struct t = Some name /\ t <> OFPIT_EXPERIMENTER) as [Hs Hne].
  { clear -Hwa. unfold instruction_struct. rewrite Hwa. unfold instruction_with_actions in Hwa.
    rewrite !orb_true_iff, !Z.eqb_eq in Hwa. by destruct Hwa as [[-> | ->]| ->]. }
  pose proof (instruction_structs_elements _ _ Hs) as Hel.
  destruct (element_facts _ Hel) as (Hd & Hdec & _ & _ & Hsz). unfold actions_instruction_parse.
  apply (parses_bind _ _ _ _ _ _ _ Hm (parses_decode U _ b l Hd Hdec Hm)).
  intros r k Hk [(pk & -> & Hkn & _ & Hex & Hw)|(pk & -> & ->)] Hm'; cbn [is_ok]; cycle 1.
  { apply parses_ret. right. apply failed_fail. }
  destruct (header_of_wire _ pk l t n rest k Hel Hex Hkn Hw Hl Ht Hn) as [Htype _].
  eapply parses_bind; [done|apply parses_actions; [done|]|].
  { intros H. apply HU. exists [], pk, (drop k l). rewrite Htype. split_and!; [constructor|done|done| |done].
    cbn [flat_map app]. fold name. by rewrite Hw, take_drop. }
  intros [status al] k' Hk' [Hal _] Hm''. rewrite length_drop in Hk'.
  destruct Hal as [(al' & [= -> ->] & Hal & _ & Hw')|Hfail]; cbn [fst snd is_ok status_ok] in *; cycle 1.
  { rewrite (failed_not_ok status Hfail). apply parses_ret. by right. }
  apply parses_ret. destruct (_ && _) eqn:Eclear; [right; apply failed_fail|]. left.
  exists (Described name pk al'). unfold instruction_parsed, instruction_wire, d_type.
  cbn [d_ofpit d_struct d_actions]. rewrite Htype, Hw, <- Hw', take_take_drop, Nat.add_0_r.
  split_and!; try done; try lia.
  intros [Hbad| ->]; [congruence|]. change (OFPIT_CLEAR_ACTIONS =? OFPIT_CLEAR_ACTIONS) with true in Eclear.
  cbn [andb app] in Eclear. apply negb_false_iff, bool_decide_eq_true_1 in Eclear. by destruct al'.
Qed.

Lemma parses_instruction_dispatch : parses U (instruction_dispatch t) b l (instruction_result l).
Proof using Hm HU Hl Ht Hn.
  unfold instruction_dispatch.
  destruct (Z.eqb_spec t OFPIT_GOTO_TABLE) as [E|E1]; [apply parses_plain_instruction; by rewrite E|].
  destruct (Z.eqb_spec t OFPIT_WRITE_METADATA) as [E|E2]; [apply parses_plain_instruction; by rewrite E|].
  destruct (instruction_with_actions t) eqn:E3; [by apply parses_actions_instruction|].
  destruct (Z.eqb_spec t OFPIT_METER) as [E|E4]; [apply parses_plain_instruction; by rewrite E|].
  destruct (t =? OFPIT_EXPERIMENTER); apply parses_ret; right; apply failed_fail.
Qed.
End Instruction.

(** *** The instructions of a message *)

Definition instructions_result (l : bytes) (acc : list cinstruction) (r : ofp_status * list cinstruction) (k : nat) : Prop :=
  (exists ds, r = (status_ok, acc ++ map d_instruction ds) /\ Forall instruction_parsed ds /\ (k <= length l)%nat /\
     take k l = flat_map instruction_wire ds) \/
  (failed r.1 /\ r.2 = []).

Lemma parses_instruction U acc b l :
  msg b l -> (short_in_instructions l -> U) ->
  parses U (ofp_instruction_parse acc) b l
    (fun r k => instructions_result l acc r k /\ (r.1 = status_ok -> (0 < k)%nat)).
Proof.
  intros Hm HU. unfold ofp_instruction_parse.
  assert (forall type code, parses U (mret (ofp_fail type code, [])) b l
    (fun r k => instructions_result l acc r k /\ (r.1 = status_ok -> (0 < k)%nat))) as Hfail.
  { intros type code. apply parses_ret. split; [|done]. right. split; [apply failed_fail|done]. }
  apply parses_tlv; [done| |apply Hfail]. intros t n rest Hl Ht Hn. cbn [is_ok].
  apply parses_plen_check; [done|intros _|apply Hfail]. cbn [is_ok].
  apply (parses_bind _ _ _ _ _ _ _ Hm (parses_instruction_dispatch U b l t n rest Hm HU Hl Ht Hn)).
  intros [status i] k Hk [(d & [= -> ->] & Hd & Hpos & Hw)|Hf] Hm'; apply parses_ret; rewrite Nat.add_0_r; cbn [fst snd] in *.
  - split; [|lia]. left. exists [d]. cbn [flat_map map]. rewrite app_nil_r.
    split_and!; [done|by apply Forall_singleton|lia|done].
  - rewrite (failed_not_ok _ Hf). split; [by right|]. intros ->. by apply failed_not_ok in Hf.
Qed.

Lemma parses_instructions_loop U fuel acc b l :
  msg b l -> (short_in_instructions l -> U) -> (length l < fuel)%nat ->
  parses U (instructions_parse_loop fuel acc) b l
    (fun r k => instructions_result l acc r k /\ (r.1 = status_ok -> k = length l)).
Proof.
  revert acc b l. induction fuel as [|fuel IH]; intros acc b l Hm HU Hf; [lia|]. cbn [instructions_parse_loop].
  apply parses_gets. unfold pbuf_plen_get. rewrite (msg_plen b l Hm). destruct (Z.ltb_spec 0 (Z.of_nat (length l))); cycle 1.
  { apply parses_ret. assert (length l = 0%nat) as -> by lia. split; [|done]. left. exists []. rewrite app_nil_r.
    split_and!; [done|constructor|lia|done]. }
  apply (parses_bind _ _ _ _ _ _ _ Hm (parses_instruction U acc b l Hm HU)).
  intros [status il] k Hk [Hr Hpos] Hm'. destruct Hr as [(ds & [= -> ->] & Hds & _ & Hw)|[Hfail Hnil]]; cbn [fst snd] in *.
  - cbn [is_ok fst status_ok]. specialize (Hpos eq_refl).
    eapply parses_mono; [|apply IH; [done| |rewrite length_drop; lia]]; cycle 1.
    { intros Hs. apply HU. rewrite <- (take_drop k l), Hw. by apply short_in_instructions_app. }
    intros r k' Hk' [Hr Hend]. rewrite length_drop in *. split; [|intros Hok; specialize (Hend Hok); lia].
    destruct Hr as [(ds' & -> & Hds' & _ & Hw')|Hfail]; [left|by right]. exists (ds ++ ds').
    split_and!; [by rewrite map_app, app_assoc|by apply Forall_app|lia|].
    by rewrite flat_map_app, <- Hw, <- Hw', take_take_drop.
  - rewrite (failed_not_ok _ Hfail). apply parses_ret. split; [by right|]. cbn [fst]. intros ->. by apply failed_not_ok in Hfail.
Qed.

(** C9: Parsing instructions is safe and loses nothing.  On an arbitrary message the parser ends
    and takes bytes of the message only; it is undefined only where, behind well-formed ones, an
    action of a known type states a length below eight (it is stored beyond its allocation).  If it accepts, the message is
    consumed and is, byte for byte, the wire form of the instructions and actions returned, each
    of a known type with the fields of its structure and, for actions, its true length; if it
    refuses, no instruction is kept and there is an error for the controller (a too short property
    of ENCAP or DECAP apart). *)
Theorem instructions_parse_sound b l :
  unread b l -> bytes_ok l ->
  parses (short_in_instructions l) instructions_parse b l (fun '(status, il) k =>
    (status = status_ok /\ k = length l /\ exists ds, il = map d_instruction ds /\
       Forall instruction_parsed ds /\ l = flat_map instruction_wire ds) \/
    (failed status /\ il = [])).
Proof.
  intros Hu Hok. assert (msg b l) as Hm by done. unfold instructions_parse. apply parses_gets.
  eapply parses_mono; [|apply parses_instructions_loop; [done|done|rewrite (msg_plen _ _ Hm); lia]].
  intros [status il] k Hk [[(ds & [= -> ->] & Hds & _ & Hw)|Hfail] Hend]; [left|by right].
  specialize (Hend eq_refl). subst k. rewrite firstn_all in Hw. eauto 10.
Qed.

(** *** Lengths that are not compared

    A goto-table instruction of length 16 is taken as eight bytes, and what follows inside it as
    another instruction; and the actions of an instruction may end behind it: here the
    apply-actions instruction of 16 bytes holds an action of 24. *)
Definition long_goto : bytes := [0; 1; 0; 16; 7; 0; 0; 0; 0; 6; 0; 8; 0; 0; 0; 9].
Definition overrunning_actions : bytes :=
  [0; 4; 0; 16; 0; 0; 0; 0; 0; 25; 0; 24; 0x80; 0; 0x36; 16; 1; 2; 3; 4; 5; 6; 7; 8; 9; 10; 11; 12; 13; 14; 15; 16].

Theorem instruction_lengths_ignored :
  (exists i1 i2 b', instructions_parse (Pbuf 1 16 0 16 16 long_goto) = Done ((status_ok, [i1; i2]), b') /\
     ci_type i1 = OFPIT_GOTO_TABLE /\ ci_len i1 = 16 /\ ci_type i2 = OFPIT_METER) /\
  (exists i a b', instructions_parse (Pbuf 1 32 0 32 32 overrunning_actions) = Done ((status_ok, [i]), b') /\
     ci_len i = 16 /\ ci_action_list i = [a] /\ ca_len a = 24).
Proof. split; do 3 eexists; vm_compute; split_and!; reflexivity. Qed.

Theorem instructions_parse_sound_witness :
  let l := instructions_bytes two_instructions in
  let b := holding l in
  unread b l /\
  parses (short_in_instructions l) instructions_parse b l (fun '(status, il) k =>
    (status = status_ok /\ k = length l /\ exists ds, il = map d_instruction ds /\
       Forall instruction_parsed ds /\ l = flat_map instruction_wire ds) \/
    (failed status /\ il = [])).
Proof.
  intros l b. assert (unread b l) as Hu by (apply unread_holding; vm_compute; reflexivity).
  split; [done|]. apply instructions_parse_sound; [done|]. unfold bytes_ok. decided.
Defined.
