(* ===== verification/Datapath.v ===== *)
(** * From messages to the data path

    What the agent's handlers hand over: the structures of the codec as the flow database, the
    group table and the meter table read them, and the entry points of the data path, which
    find the bridge by its datapath identifier ([dp_bridge_lookup_by_dpid] of [dp_apis.c];
    [ofp_flow_mod_*] of [flowdb.c], [ofp_group_mod_*] of [group.c], [ofp_meter_mod_*] of
    [meter.c]). *)
From S2P Require Import Prelude Monad OpenFlow Hashmap Shared ActionSet Group Meter FlowEntry Bridge FlowDB FlowDBInv FlowDBSpec FlowDBRun.
From S2P Require Import FlowinfoIntf Pbuf Generator OpenFlowH Tlv MatchCodec ActionCodec InstructionCodec.
From stdpp Require Import strings.
#[local] Open Scope Z_scope.

(** ** Views

    The data path reads the overlaid structures by the type of the element. *)

Definition ofpat_view (a : caction) : ofp_action :=
  let pk := ca_ofpat a in
  let type := ca_type a in
  if type =? OFPAT_OUTPUT then ofp_action_output (pkt_get "port" 0 pk) (pkt_get "max_len" 0 pk)
  else if type =? OFPAT_GROUP then ofp_action_group (pkt_get "group_id" 0 pk)
  else if type =? OFPAT_SET_FIELD then
    ofp_action_set_field (map (fun i => pkt_get "field" i pk) (seq 0 4) ++ ca_tail a)
  else if (type =? OFPAT_PUSH_VLAN) || (type =? OFPAT_PUSH_MPLS) || (type =? OFPAT_PUSH_PBB) then
    ofp_action_push type (pkt_get "ethertype" 0 pk)
  else if type =? OFPAT_POP_MPLS then ofp_action_pop_mpls (pkt_get "ethertype" 0 pk)
  else if type =? OFPAT_SET_MPLS_TTL then ofp_action_mpls_ttl (pkt_get "mpls_ttl" 0 pk)
  else if type =? OFPAT_SET_NW_TTL then ofp_action_nw_ttl (pkt_get "nw_ttl" 0 pk)
  else if type =? OFPAT_SET_QUEUE then ofp_action_set_queue (pkt_get "queue_id" 0 pk)
  else if type =? OFPAT_ENCAP then ofp_action_encap (pkt_get "packet_type" 0 pk)
  else if type =? OFPAT_DECAP then ofp_action_decap (pkt_get "cur_pkt_type" 0 pk) (pkt_get "new_pkt_type" 0 pk)
  else ofp_action_other type.

(** Fresh from [calloc]: no handler, cookie or flags. *)
Definition action_view (a : caction) : action := Action None 0 0 (ofpat_view a).

(** Of the union the fields of the other types hold bytes that are not read. *)
Definition instruction_view (i : cinstruction) : instruction :=
  let pk := ci_ofpit i in
  Instruction (ci_type i) (pkt_get "table_id" 0 pk) (pkt_get "metadata" 0 pk) (pkt_get "metadata_mask" 0 pk)
    (pkt_get "meter_id" 0 pk) (map action_view (ci_action_list i)) None.

Definition flow_mod_view (pk : packet) : ofp_flow_mod :=
  OfpFlowMod (pkt_get "cookie" 0 pk) (pkt_get "cookie_mask" 0 pk) (pkt_get "table_id" 0 pk)
    (pkt_get "command" 0 pk) (pkt_get "idle_timeout" 0 pk) (pkt_get "hard_timeout" 0 pk)
    (pkt_get "priority" 0 pk) (pkt_get "out_port" 0 pk) (pkt_get "out_group" 0 pk) (pkt_get "flags" 0 pk).

(** ** The bridges *)

Abbreviation bridges := (hashmap bridge).

Definition dp_bridge_lookup_by_dpid (dpid_hashmap : bridges) (dpid : Z) : option bridge :=
  match lagopus_hashmap_find_no_lock (Some dpid_hashmap) dpid with
  | (LAGOPUS_RESULT_OK, br) => br
  | _ => None
  end.

(** A change of the bridge the pointer leads to. *)
Definition set_bridge (dpid : Z) (br : bridge) (m : bridges) : bridges :=
  Hashmap (<[dpid := br]> (m_hashtable m)) (m_n_entries m) (m_is_operational m) (m_del_proc m).

(** The common part of the entry points. *)
Definition on_bridge (dpid : Z) (f : bridge -> lagopus_result * option ofp_error * bridge) (m : bridges)
    : ofp_status * bridges :=
  match dp_bridge_lookup_by_dpid m dpid with
  | None => ((LAGOPUS_RESULT_NOT_FOUND, None), m)
  | Some br => let '(status, br) := f br in (status, set_bridge dpid br m)
  end.

Definition ofp_flow_mod_check_add (dpid : Z) (flow_mod : ofp_flow_mod) (match_list : list match_)
    (instruction_list : list instruction) : bridges -> ofp_status * bridges :=
  on_bridge dpid (flowdb_flow_add flow_mod match_list instruction_list).

Definition ofp_flow_mod_modify (dpid : Z) (flow_mod : ofp_flow_mod) (match_list : list match_)
    (instruction_list : list instruction) : bridges -> ofp_status * bridges :=
  on_bridge dpid (fun br =>
    if (fm_command flow_mod =? OFPFC_MODIFY) || (fm_command flow_mod =? OFPFC_MODIFY_STRICT)
    then flowdb_flow_modify flow_mod match_list instruction_list br
    else (ofp_fail OFPET_FLOW_MOD_FAILED OFPFMFC_BAD_COMMAND, br)).

Definition ofp_flow_mod_delete (dpid : Z) (flow_mod : ofp_flow_mod) (match_list : list match_)
    : bridges -> ofp_status * bridges :=
  on_bridge dpid (fun br =>
    if (fm_command flow_mod =? OFPFC_DELETE) || (fm_command flow_mod =? OFPFC_DELETE_STRICT)
    then flowdb_flow_delete flow_mod match_list br
    else (ofp_fail OFPET_FLOW_MOD_FAILED OFPFMFC_BAD_COMMAND, br)).

(** [None]: the search for loops in [ofp_group_mod_add] is deeper than [fuel]. *)
Definition dp_group_mod_add (fuel : nat) (dpid : Z) (group_mod : ofp_group_mod) (bucket_list : list bucket)
    (m : bridges) : option (ofp_status * bridges) :=
  match dp_bridge_lookup_by_dpid m dpid with
  | None => Some ((LAGOPUS_RESULT_NOT_FOUND, None), m)
  | Some br =>
      match ofp_group_mod_add fuel (br_groups br) group_mod bucket_list (br_now br) with
      | None => None
      | Some (rv, groups, error) => Some ((rv, error), set_bridge dpid (set_br_groups groups br) m)
      end
  end.

Definition dp_group_mod_modify (dpid : Z) (group_mod : ofp_group_mod) (bucket_list : list bucket)
    : bridges -> ofp_status * bridges :=
  on_bridge dpid (fun br =>
    let '(rv, groups, error) := ofp_group_mod_modify (br_groups br) group_mod bucket_list in
    (rv, error, set_br_groups groups br)).

Definition dp_group_mod_delete (dpid : Z) (group_mod : ofp_group_mod) : bridges -> ofp_status * bridges :=
  on_bridge dpid (fun br => (LAGOPUS_RESULT_OK, None, ofp_group_mod_delete (gm_group_id group_mod) br)).

Definition ofp_meter_mod_add (dpid : Z) (meter_mod : ofp_meter_mod) (band_list : list meter_band)
    : bridges -> ofp_status * bridges :=
  on_bridge dpid (fun br =>
    let '(rv, meters, error) := meter_table_meter_add (br_meters br) meter_mod band_list (br_now br) in
    (rv, error, set_br_meters meters br)).

Definition ofp_meter_mod_modify (dpid : Z) (meter_mod : ofp_meter_mod) (band_list : list meter_band)
    : bridges -> ofp_status * bridges :=
  on_bridge dpid (fun br =>
    let '(rv, meters, error) := meter_table_meter_modify (br_meters br) meter_mod band_list in
    (rv, error, set_br_meters meters br)).

Definition ofp_meter_mod_delete (dpid : Z) (meter_mod : ofp_meter_mod) : bridges -> ofp_status * bridges :=
  on_bridge dpid (fun br =>
    let '(rv, meters) := meter_table_meter_delete (br_meters br) meter_mod in
    (rv, None, set_br_meters meters br)).

(** ** The entry points are the commands of [FlowDBRun] *)

(** The invariant of every bridge. *)
Definition bridges_inv (m : bridges) : Prop := forall dpid br, m_hashtable m !! dpid = Some br -> bridge_inv br.

Lemma lookup_dpid_some m dpid br : dp_bridge_lookup_by_dpid m dpid = Some br -> m_hashtable m !! dpid = Some br.
Proof.
  unfold dp_bridge_lookup_by_dpid, lagopus_hashmap_find_no_lock, s_find.
  destruct (m_is_operational m); [|done]. by destruct (_ !! _).
Qed.

Lemma set_bridge_inv dpid br m : bridges_inv m -> bridge_inv br -> bridges_inv (set_bridge dpid br m).
Proof.
  intros Hm Hb dpid' br' H. cbn in H. apply lookup_insert_Some in H as [[_ <-]|[_ H]]; [done|by eapply Hm].
Qed.

Lemma on_bridge_inv dpid f c m :
  bridges_inv m -> command_ok c ->
  (forall br, (f br).2 = handle br c \/ (f br).2 = br) -> bridges_inv (on_bridge dpid f m).2.
Proof.
  intros Hm Hc Hf. unfold on_bridge. destruct (dp_bridge_lookup_by_dpid m dpid) as [br|] eqn:E; [|done].
  apply lookup_dpid_some, Hm in E. specialize (Hf br). destruct (f br) as [status br']. cbn [snd] in *.
  apply set_bridge_inv; [done|]. destruct Hf as [-> | ->]; [by apply handle_inv|done].
Qed.

Lemma flow_mod_check_add_inv dpid flow_mod ms il m :
  bridges_inv m -> match_list_ok ms -> 0 <= fm_priority flow_mod ->
  bridges_inv (ofp_flow_mod_check_add dpid flow_mod ms il m).2.
Proof. intros Hm Hms Hp. eapply (on_bridge_inv _ _ (FlowAdd flow_mod ms il)); [done|done|]. by left. Qed.

Lemma flow_mod_modify_inv dpid flow_mod ms il m : bridges_inv m -> bridges_inv (ofp_flow_mod_modify dpid flow_mod ms il m).2.
Proof.
  intros Hm. eapply (on_bridge_inv _ _ (FlowModify flow_mod ms il)); [done|done|]. intros br.
  destruct (_ || _); [by left|by right].
Qed.

Lemma flow_mod_delete_inv dpid flow_mod ms m : bridges_inv m -> bridges_inv (ofp_flow_mod_delete dpid flow_mod ms m).2.
Proof.
  intros Hm. eapply (on_bridge_inv _ _ (FlowDelete flow_mod ms)); [done|done|]. intros br.
  destruct (_ || _); [by left|by right].
Qed.

Lemma group_mod_add_inv fuel dpid group_mod bl m r :
  bridges_inv m -> dp_group_mod_add fuel dpid group_mod bl m = Some r -> bridges_inv r.2.
Proof.
  intros Hm. unfold dp_group_mod_add. destruct (dp_bridge_lookup_by_dpid m dpid) as [br|] eqn:E; [|by intros [= <-]].
  apply lookup_dpid_some, Hm in E. pose proof (handle_inv br (GroupAdd fuel group_mod bl) E I) as H. cbn [handle] in H.
  destruct (ofp_group_mod_add _ _ _ _ _) as [[[rv groups] e]|]; [|done]. intros [= <-]. by apply set_bridge_inv.
Qed.

Lemma group_mod_modify_inv dpid group_mod bl m : bridges_inv m -> bridges_inv (dp_group_mod_modify dpid group_mod bl m).2.
Proof.
  intros Hm. eapply (on_bridge_inv _ _ (GroupModify group_mod bl)); [done|done|]. intros br. left. cbn [handle].
  by destruct (ofp_group_mod_modify _ _ _) as [[rv groups] e].
Qed.

Lemma group_mod_delete_inv dpid group_mod m : bridges_inv m -> bridges_inv (dp_group_mod_delete dpid group_mod m).2.
Proof. intros Hm. eapply (on_bridge_inv _ _ (GroupDelete (gm_group_id group_mod))); [done|done|]. by left. Qed.

Lemma meter_mod_add_inv dpid meter_mod bl m : bridges_inv m -> bridges_inv (ofp_meter_mod_add dpid meter_mod bl m).2.
Proof.
  intros Hm. eapply (on_bridge_inv _ _ (MeterAdd meter_mod bl)); [done|done|]. intros br. left. cbn [handle].
  by destruct (meter_table_meter_add _ _ _ _) as [[rv meters] e].
Qed.

Lemma meter_mod_modify_inv dpid meter_mod bl m : bridges_inv m -> bridges_inv (ofp_meter_mod_modify dpid meter_mod bl m).2.
Proof.
  intros Hm. eapply (on_bridge_inv _ _ (MeterModify meter_mod bl)); [done|done|]. intros br. left. cbn [handle].
  by destruct (meter_table_meter_modify _ _ _) as [[rv meters] e].
Qed.

Lemma meter_mod_delete_inv dpid meter_mod m : bridges_inv m -> bridges_inv (ofp_meter_mod_delete dpid meter_mod m).2.
Proof.
  intros Hm. eapply (on_bridge_inv _ _ (MeterDelete meter_mod)); [done|done|]. intros br. left. cbn [handle].
  by destruct (meter_table_meter_delete _ _) as [rv meters].
Qed.

(** An empty bridge with the datapath identifier 1. *)
Definition one_bridge : bridges := Hashmap {[1 := empty_bridge]} 1 true true.

Lemma one_bridge_inv : bridges_inv one_bridge.
Proof. intros dpid br H. cbn in H. apply lookup_singleton_Some in H as [_ <-]. exact empty_bridge_inv. Qed.
