(* ===== verification/FlowModHandler.v ===== *)
(** * FLOW_MOD: from the bytes to the flow tables ([src/agent/ofp_flow_mod_handler.c])

    The handler decodes the message, checks its flags, parses the match and the instructions and
    hands them to the flow database of the channel's bridge.  Logging is not modelled, and neither
    is freeing the lists. *)
From S2P Require Import Prelude Monad OpenFlow Hashmap FlowEntry FlowinfoIntf Bridge FlowDB FlowDBInv FlowDBRun.
From S2P Require Import Pbuf Generator OpenFlowH Tlv MatchCodec ActionCodec InstructionCodec CodecSound Datapath.
From stdpp Require Import strings.
#[local] Open Scope Z_scope.

(** ** The handler *)

Definition OFPFF_OFPMF_FULL_MASK : Z :=
  Z.lor OFPFF_SEND_FLOW_REM (Z.lor OFPFF_CHECK_OVERLAP (Z.lor OFPFF_RESET_COUNTS
    (Z.lor OFPFF_NO_PKT_COUNTS OFPFF_NO_BYT_COUNTS))).

Definition flow_mod_flags_check (flags : Z) : ofp_status :=
  if Z.land flags (Z.lnot OFPFF_OFPMF_FULL_MASK) =? 0 then status_ok
  else ofp_fail OFPET_FLOW_MOD_FAILED OFPFMFC_BAD_FLAGS.

Definition flow_mod_deletes (flow_mod : ofp_flow_mod) : bool :=
  (fm_command flow_mod =? OFPFC_DELETE) || (fm_command flow_mod =? OFPFC_DELETE_STRICT).

(** The last switch. *)
Definition flow_mod_command (dpid : Z) (flow_mod : ofp_flow_mod) (match_list : list match_)
    (instruction_list : list instruction) (m : bridges) : ofp_status * bridges :=
  if fm_command flow_mod =? OFPFC_ADD then ofp_flow_mod_check_add dpid flow_mod match_list instruction_list m
  else if (fm_command flow_mod =? OFPFC_MODIFY) || (fm_command flow_mod =? OFPFC_MODIFY_STRICT) then
    ofp_flow_mod_modify dpid flow_mod match_list instruction_list m
  else if flow_mod_deletes flow_mod then ofp_flow_mod_delete dpid flow_mod match_list m
  else (ofp_fail OFPET_FLOW_MOD_FAILED OFPFMFC_BAD_COMMAND, m).

(** The instructions of the message; a delete skips them. *)
Definition flow_mod_instructions (flow_mod : ofp_flow_mod) : pm (ofp_status * list cinstruction) :=
  if flow_mod_deletes flow_mod then
    plen ← gets pbuf_plen_get;
    ret ← pbuf_forward plen;
    mret ((ret, None), [])
  else instructions_parse.

(** [version] and [dpid] are those of the channel. *)
Definition ofp_flow_mod_handle (version dpid : Z) (m : bridges) : pm (ofp_status * bridges) :=
  '(ret, pk) ← on_fresh (decode openflow13 "ofp_flow_mod" "");
  if is_ok ret then
    let flow_mod := flow_mod_view pk in
    let status := flow_mod_flags_check (fm_flags flow_mod) in
    if is_ok status.1 then
      '(status, match_list) ← ofp_match_parse version [];
      if is_ok status.1 then
        '(status, instruction_list) ← flow_mod_instructions flow_mod;
        if is_ok status.1 then
          mret (flow_mod_command dpid flow_mod match_list (map instruction_view instruction_list) m)
        else mret (status, m)
      else mret (status, m)
    else mret (status, m)
  else mret (ofp_fail OFPET_BAD_REQUEST OFPBRC_BAD_LEN, m).

(** ** The fixed part of the message *)

Abbreviation flow_mod_fields := (decoded_fields "ofp_flow_mod" "").

Lemma flow_mod_sizes :
  declared openflow13 "ofp_flow_mod" = true /\ sizeof openflow13 "ofp_flow_mod" = 56 /\
  leaves_size flow_mod_fields = 48%nat /\ NoDup (field_names flow_mod_fields).
Proof.
  split_and!; [vm_compute; reflexivity..|]. apply (bool_decide_eq_true_1 (NoDup (field_names flow_mod_fields))).
  vm_compute. reflexivity.
Qed.

Lemma flow_mod_decode b v rest :
  unread b (v ++ rest) -> length v = 48%nat -> bytes_ok v -> (8 <= length rest)%nat ->
  on_fresh (decode openflow13 "ofp_flow_mod" "") b =
  Done ((LAGOPUS_RESULT_OK, absorb flow_mod_fields v ∅), adv 48 b).
Proof.
  intros Hu Hv Hok Hrest. destruct flow_mod_sizes as (Hd & Hs & Hl & _).
  assert (sizeof openflow13 "ofp_flow_mod" <= pb_plen b) as Hle.
  { rewrite Hs. destruct Hu as (_ & -> & _). rewrite length_app. lia. }
  rewrite <- Hv in Hl |- *. eapply on_fresh_Done.
  exact (decode_adv openflow13 "ofp_flow_mod" "" b ∅ v rest openflow13_decoders Hd Hu Hle (eq_sym Hl) Hok).
Qed.

Lemma flow_mod_decode_short b l :
  unread b l -> (length l < 56)%nat ->
  exists pk, on_fresh (decode openflow13 "ofp_flow_mod" "") b = Done ((LAGOPUS_RESULT_OUT_OF_RANGE, pk), b).
Proof.
  intros Hu Hl. destruct flow_mod_sizes as (Hd & Hs & _).
  destruct (decode_short openflow13 "ofp_flow_mod" "" b ∅ Hd) as [H _].
  { rewrite Hs. destruct Hu as (_ & -> & _). lia. }
  eexists. by apply on_fresh_Done.
Qed.

(** What is read from a structure that was written. *)
Lemma absorb_pkt_get lfs pk name w n i :
  NoDup (field_names lfs) -> (name, w, n) ∈ lfs -> field_ok pk (name, w, n) -> (i < n)%nat ->
  pkt_get name i (absorb lfs (wire pk lfs) ∅) = pkt_get name i pk.
Proof.
  intros Hnd Hin Hok Hi. unfold pkt_get at 1. rewrite absorb_wire by done.
  pose proof (find_leaf lfs (name, w, n) Hnd Hin) as E. cbn [fst snd] in E. rewrite E. rewrite (field_ok_elements pk _ Hok). done.
Qed.

(** No field read is negative. *)
Lemma absorb_nonneg lfs v name i :
  NoDup (field_names lfs) -> length v = leaves_size lfs -> bytes_ok v -> 0 <= pkt_get name i (absorb lfs v ∅).
Proof.
  intros Hnd Hlen Hok. rewrite <- (wire_absorb lfs v ∅) at 1 by done.
  set (pk := absorb lfs v ∅). unfold pkt_get. rewrite absorb_wire by done.
  destruct (find (fun lf : string * nat * nat => String.eqb lf.1.1 name) lfs) as [[[f w] n]|]; [|rewrite lookup_empty; destruct i; cbn; lia].
  cbn [default id]. unfold leaf_elements. cbn [fst snd].
  destruct (nth_in_or_default i (map (fun i => pkt_get f i pk mod 256 ^ Z.of_nat w) (seq 0 n)) 0) as [H|H]; [|by rewrite H].
  apply in_map_iff in H as (j & <- & _). apply Z.mod_pos_bound. lia.
Qed.

(** ** A message that encodes a FLOW_MOD *)

(** The decoded view of the fixed part. *)
Lemma flow_mod_view_wire pk :
  Forall (field_ok pk) flow_mod_fields ->
  flow_mod_view (absorb flow_mod_fields (wire pk flow_mod_fields) ∅) = flow_mod_view pk.
Proof.
  intros Hok. destruct flow_mod_sizes as (_ & _ & _ & Hnd). rewrite Forall_forall in Hok.
  assert (forall name w, (name, w, 1%nat) ∈ flow_mod_fields ->
    pkt_get name 0 (absorb flow_mod_fields (wire pk flow_mod_fields) ∅) = pkt_get name 0 pk) as H.
  { intros name w Hin. apply (absorb_pkt_get _ _ name w 1); auto. }
  unfold flow_mod_view. f_equal; eapply H; apply list_elem_of_In; vm_compute; tauto.
Qed.

Definition flow_mod_message (pk : packet) (match_list : list match_) (body : bytes) : bytes :=
  wire pk flow_mod_fields ++ match_bytes match_list ++ body.

Lemma match_bytes_8 ml : Z.of_nat (length (match_bytes ml)) < 65536 -> (8 <= length (match_bytes ml))%nat.
Proof.
  intros Hlt. pose proof (match_length_ge ml). pose proof (match_bytes_aligned ml Hlt) as Ha.
  assert (4 <= length (match_bytes ml))%nat as H4 by (unfold match_bytes; rewrite !length_app, !length_be_bytes; lia).
  destruct (decide (8 <= length (match_bytes ml))%nat) as [?|Hn]; [done|exfalso].
  rewrite Z.mod_small in Ha; lia.
Qed.

Lemma flow_mod_decode_wire pk b rest :
  Forall (field_ok pk) flow_mod_fields -> unread b (wire pk flow_mod_fields ++ rest) -> (8 <= length rest)%nat ->
  exists q, on_fresh (decode openflow13 "ofp_flow_mod" "") b =
      Done ((LAGOPUS_RESULT_OK, q), adv (length (wire pk flow_mod_fields)) b) /\
    flow_mod_view q = flow_mod_view pk.
Proof.
  intros Hpk Hu H8. destruct flow_mod_sizes as (_ & _ & Hl & _).
  assert (length (wire pk flow_mod_fields) = 48%nat) as Hw by (by rewrite length_wire).
  eexists. split; [|by apply flow_mod_view_wire]. rewrite Hw.
  exact (flow_mod_decode b _ _ Hu Hw (bytes_ok_wire _ _) H8).
Qed.

Lemma flow_mod_instructions_law flow_mod ds body b :
  (if flow_mod_deletes flow_mod then ds = []
   else instructions_ok ds /\ body = instructions_bytes ds /\ Z.of_nat (length body) < 65536) ->
  unread b body ->
  flow_mod_instructions flow_mod b = Done ((status_ok, map d_final ds), adv (length body) b).
Proof.
  intros Hbody Hu. unfold flow_mod_instructions. destruct (flow_mod_deletes flow_mod).
  - subst ds. rewrite (bind_Done _ _ _ (pb_plen b) b) by done.
    rewrite <- (app_nil_r body) in Hu.
    assert (pb_plen b = Z.of_nat (length body)) as Hp by (destruct Hu as (_ & -> & _); by rewrite app_nil_r).
    by rewrite (bind_Done _ _ _ _ _ (forward_adv b body [] _ Hu Hp)).
  - destruct Hbody as (Hds & -> & Hlen). by apply instructions_parse_law.
Qed.

(** C8: From the bytes to the tables.  A FLOW_MOD message that encodes a command (its fixed part, a
    list of matches and, unless it deletes, a list of instructions with their actions) is handled
    by executing this command, with the matches in the order of their types and the instructions
    and actions with their lengths set, on the bridge of the channel; the message is consumed. *)
Theorem flow_mod_message_handled version dpid m pk ml ds body b :
  Forall (field_ok pk) flow_mod_fields ->
  flow_mod_flags_check (pkt_get "flags" 0 pk) = status_ok ->
  Forall match_ok ml -> Z.of_nat (length (match_bytes ml)) < 65536 ->
  (if flow_mod_deletes (flow_mod_view pk) then ds = []
   else instructions_ok ds /\ body = instructions_bytes ds /\ Z.of_nat (length body) < 65536) ->
  unread b (flow_mod_message pk ml body) ->
  ofp_flow_mod_handle version dpid m b =
  Done (flow_mod_command dpid (flow_mod_view pk) (parsed_list ml [])
          (map (fun d => instruction_view (d_final d)) ds) m,
        adv (length (flow_mod_message pk ml body)) b).
Proof.
  intros Hpk Hflags Hml Hlt Hbody Hu. pose proof (match_bytes_8 ml Hlt) as H8.
  unfold flow_mod_message in *. unfold ofp_flow_mod_handle.
  destruct (flow_mod_decode_wire pk b _ Hpk Hu ltac:(rewrite length_app; lia)) as (q & Hq & Hview).
  rewrite (bind_Done _ _ _ _ _ Hq). cbn [is_ok]. rewrite Hview.
  assert (fm_flags (flow_mod_view pk) = pkt_get "flags" 0 pk) as -> by done.
  rewrite Hflags. cbn [is_ok fst status_ok]. apply unread_adv in Hu.
  rewrite (bind_Done _ _ _ _ _ (match_parse_law ml version [] _ body Hml Hlt Hu)). cbn [is_ok fst status_ok].
  apply unread_adv in Hu. rewrite !length_app, <- !adv_add. set (b2 := adv (length (match_bytes ml)) _) in *.
  rewrite (bind_Done _ _ _ _ _ (flow_mod_instructions_law _ ds body b2 Hbody Hu)). cbn [is_ok fst status_ok].
  by rewrite map_map.
Qed.

(** ** Arbitrary messages *)

(** [m] ends in a state with [Q], or is undefined and [U], or runs out of fuel and [F]. *)
Definition runs (U F : Prop) {A} (m : pm A) (b : pbuf) (Q : A -> Prop) : Prop :=
  match m b with
  | Done (a, _) => Q a
  | Undefined => U
  | OutOfFuel => F
  end.

Lemma runs_ret (U F : Prop) {A} (a : A) b (Q : A -> Prop) : Q a -> runs U F (mret a) b Q.
Proof. done. Qed.

Lemma runs_gets (U F : Prop) {A B} (g : pbuf -> A) (f : A -> pm B) b (Q : B -> Prop) :
  runs U F (f (g b)) b Q -> runs U F (gets g ≫= f) b Q.
Proof. done. Qed.

Lemma runs_bind (U F : Prop) {A B} (m : pm A) (f : A -> pm B) b l (P : A -> nat -> Prop) (Q : B -> Prop) :
  msg b l -> parses U m b l P ->
  (forall a k, (k <= length l)%nat -> P a k -> msg (adv k b) (drop k l) -> runs U F (f a) (adv k b) Q) ->
  runs U F (m ≫= f) b Q.
Proof.
  unfold parses, runs, mbind, M_bind. intros Hm Hp Hf. destruct (m b) as [[a b']| |]; [|done..].
  destruct Hp as (k & Hk & -> & HP). by apply (Hf a k), msg_adv.
Qed.

Lemma match_list_ok_of ml acc : match_list_ok acc -> Forall match_ok ml -> match_list_ok (parsed_list ml acc).
Proof.
  intros Hacc Hml. unfold match_list_ok. unfold parsed_list. revert acc Hacc.
  induction Hml as [|m ml Hm Hml IH]; intros acc Hacc; cbn [foldl]; [done|]. apply IH.
  unfold match_list_ok in *. rewrite Forall_forall in *. intros x Hx.
  assert (x = m \/ x ∈ acc) as [->|Hin].
  { rewrite match_insert_perm in Hx. by apply elem_of_cons in Hx. }
  - destruct Hm as (_ & _ & _ & _ & Hlen & _ & Hok). split; [|done]. unfold match_sized. lia.
  - by apply Hacc.
Qed.

(** Decoding the fixed part of arbitrary bytes. *)
Lemma flow_mod_decode_any b l :
  msg b l ->
  (exists pk, on_fresh (decode openflow13 "ofp_flow_mod" "") b = Done ((LAGOPUS_RESULT_OUT_OF_RANGE, pk), b)) \/
  (exists pk, on_fresh (decode openflow13 "ofp_flow_mod" "") b = Done ((LAGOPUS_RESULT_OK, pk), adv 48 b) /\
     (48 <= length l)%nat /\ 0 <= pkt_get "priority" 0 pk).
Proof.
  intros [Hu Hok]. destruct (decide (length l < 56)%nat) as [H|H].
  - left. by eapply flow_mod_decode_short.
  - right. destruct flow_mod_sizes as (_ & _ & Hl & Hnd).
    assert (length (take 48 l) = 48%nat) as H48 by (rewrite length_take; lia).
    assert (bytes_ok (take 48 l)) as Hok' by (by apply Forall_take).
    rewrite <- (take_drop 48 l) in Hu.
    eexists. split_and!; [apply (flow_mod_decode b _ _ Hu H48 Hok'); rewrite length_drop; lia|lia|].
    apply absorb_nonneg; [exact Hnd|by rewrite Hl|exact Hok'].
Qed.

(** The bytes of a list of matches, whatever its type and padding. *)
Definition match_wire (v : bytes) : Prop :=
  exists t ml pad, Forall match_ok ml /\ v = be_bytes 2 t ++ be_bytes 2 (match_length ml) ++ oxms_bytes ml ++ pad /\
    Z.of_nat (length pad) = GET_64BIT_PADDING_LENGTH (match_length ml).

(** The instructions of a FLOW_MOD message hold an action that is too short. *)
Definition flow_mod_short (l : bytes) : Prop :=
  exists v rest, match_wire v /\ drop 48 l = v ++ rest /\ short_in_instructions rest.

(** Parsing the match of arbitrary bytes, with a margin behind them. *)
Lemma match_parse_any version b l :
  bytes_ok (pb_data b) -> msg b l -> pb_getp b + Z.of_nat (length l) + 258 <= Z.of_nat (length (pb_data b)) ->
  exists status ml b', ofp_match_parse version [] b = Done ((status, ml), b') /\
    (is_ok status.1 = true -> match_list_ok ml /\ exists v rest, match_wire v /\ l = v ++ rest /\ msg b' rest).
Proof.
  intros Hdata [Hu Hok] Hend. unfold ofp_match_parse.
  destruct (match_parse_body_sound version [] b l Hdata Hu Hend) as (status & l' & b' & E & H).
  rewrite (bind_Done _ _ _ _ _ E). exists status, (if is_ok status.1 then l' else []), b'. split; [done|].
  intros Hs. rewrite Hs. destruct H as [(_ & Hn & _)|(_ & t & ml & pad & rest & Hml & -> & _ & Hl & Hpad & Hrest)]; [congruence|].
  split; [by apply match_list_ok_of; [constructor|]|].
  exists (be_bytes 2 t ++ be_bytes 2 (match_length ml) ++ oxms_bytes ml ++ pad), rest.
  rewrite <- !app_assoc. split_and!; [by exists t, ml, pad|done|]. split; [done|].
  rewrite Hl, !app_assoc in Hok. by apply bytes_ok_app in Hok as [_ Hok].
Qed.

Lemma flow_mod_command_inv dpid flow_mod ms il m :
  bridges_inv m -> match_list_ok ms -> 0 <= fm_priority flow_mod ->
  bridges_inv (flow_mod_command dpid flow_mod ms il m).2.
Proof.
  intros Hm Hms Hp. unfold flow_mod_command.
  destruct (_ =? OFPFC_ADD); [by apply flow_mod_check_add_inv|].
  destruct (_ || _); [by apply flow_mod_modify_inv|].
  destruct (flow_mod_deletes flow_mod); [by apply flow_mod_delete_inv|done].
Qed.

Lemma flow_mod_instructions_any U flow_mod b l :
  msg b l -> (short_in_instructions l -> U) ->
  runs U False (flow_mod_instructions flow_mod) b (fun _ => True).
Proof.
  intros Hm HU. unfold flow_mod_instructions. destruct (flow_mod_deletes flow_mod).
  - unfold runs. rewrite (bind_Done _ _ _ (pb_plen b) b) by done. destruct Hm as [Hu _].
    rewrite <- (app_nil_r l) in Hu.
    rewrite (bind_Done _ _ _ _ _ (forward_adv b l [] (pb_plen b) Hu ltac:(destruct Hu as (_ & -> & _); by rewrite app_nil_r))).
    done.
  - unfold instructions_parse. unfold runs. rewrite (bind_Done _ _ _ (pb_plen b) b) by done.
    pose proof (parses_instructions_loop U (S (Z.to_nat (pb_plen b))) [] b l Hm HU) as H.
    unfold parses in H. rewrite (msg_plen b l Hm) in *. specialize (H ltac:(lia)).
    by destruct (instructions_parse_loop _ _ b) as [[]| |].
Qed.

(** The invariant of all bridges, for any bytes. *)
Lemma flow_mod_handle_any U version dpid m b l :
  bridges_inv m -> bytes_ok (pb_data b) -> unread b l -> (flow_mod_short l -> U) ->
  pb_getp b + Z.of_nat (length l) + 258 <= Z.of_nat (length (pb_data b)) ->
  runs U False (ofp_flow_mod_handle version dpid m) b (fun r => bridges_inv r.2).
Proof.
  intros Hm Hdata Hu HU Hend. assert (msg b l) as Hmsg by (split; [done|by eapply unread_bytes_ok]).
  unfold ofp_flow_mod_handle, runs.
  destruct (flow_mod_decode_any b l Hmsg) as [(pk & E)|(pk & E & H48 & Hp)]; rewrite (bind_Done _ _ _ _ _ E); cbn [is_ok]; [done|].
  destruct (is_ok (flow_mod_flags_check _).1); [|done].
  destruct (match_parse_any version (adv 48 b) (drop 48 l)) as (status & ml & b' & E' & Hml);
    [done|by apply msg_adv|cbn; rewrite length_drop; lia|].
  rewrite (bind_Done _ _ _ _ _ E'). destruct (is_ok status.1) eqn:Hs; [|done].
  destruct (Hml eq_refl) as [Hmlok (v & rest & Hv & Hl & Hmsg')].
  assert (short_in_instructions rest -> U) as HU' by (intros H; apply HU; by exists v, rest).
  pose proof (flow_mod_instructions_any U (flow_mod_view pk) b' _ Hmsg' HU') as Hi.
  unfold runs, mbind, M_bind in *. destruct (flow_mod_instructions _ b') as [[[status' il] b'']| |]; [|done..].
  destruct (is_ok status'.1); [|done]. by apply flow_mod_command_inv.
Qed.

Definition sample_add : packet := Eval vm_compute in
  list_to_map (zip (field_names flow_mod_fields)
    [[4]; [14]; [0]; [7]; [9]; [0]; [0]; [OFPFC_ADD]; [0]; [0]; [5]; [0xffffffff]; [0xffffffff]; [0xffffffff]; [0]; [0; 0]]).

Theorem flow_mod_message_handled_witness :
  let message := flow_mod_message sample_add two_matches (instructions_bytes two_instructions) in
  unread (holding message) message /\
  ofp_flow_mod_handle 4 1 one_bridge (holding message) =
  Done (flow_mod_command 1 (flow_mod_view sample_add) (parsed_list two_matches [])
          (map (fun d => instruction_view (d_final d)) two_instructions) one_bridge,
        adv (length message) (holding message)).
Proof.
  intros message. assert (unread (holding message) message) as Hu by (apply unread_holding; vm_compute; reflexivity).
  split; [exact Hu|]. apply flow_mod_message_handled.
  - apply fields_okb_spec. vm_compute. reflexivity.
  - vm_compute. reflexivity.
  - apply two_matches_ok.
  - vm_compute. reflexivity.
  - replace (flow_mod_deletes (flow_mod_view sample_add)) with false by (vm_compute; reflexivity).
    split; [apply two_instructions_ok|split; [reflexivity|vm_compute; reflexivity]].
  - exact Hu.
Defined.
