(* ===== verification/BucketCodec.v ===== *)
(** * Parsing and encoding of buckets ([src/agent/ofp_bucket.c])

    A bucket in memory is [struct ofp_bucket] and a list of actions.  Memory allocation succeeds. *)
From S2P Require Import Prelude Monad OpenFlow ActionSet Pbuf Generator OpenFlowH Tlv MatchCodec ActionCodec CodecSound Datapath.
From stdpp Require Import strings.
#[local] Open Scope Z_scope.

(** ** The data *)

Record cbucket := CBucket {
  cb_ofp : packet;
  cb_action_list : list caction
}.

Definition sizeof_ofp_bucket : Z := sizeof openflow13 "ofp_bucket".

Definition bucket_view (b : cbucket) : bucket :=
  let pk := cb_ofp b in
  Bucket (pkt_get "weight" 0 pk) (pkt_get "watch_port" 0 pk) (pkt_get "watch_group" 0 pk) 0 0
    (map action_view (cb_action_list b)) [].

(** ** Parsing *)

(** On errors the list is emptied. *)
Definition ofp_bucket_parse (bucket_list : list cbucket) : pm (ofp_status * list cbucket) :=
  bucket_head ← gets pbuf_getp_get;
  '(ret, pk) ← on_fresh (decode openflow13 "ofp_bucket" "");
  if is_ok ret then
    let action_length := u64 (pkt_get "len" 0 pk - sizeof_ofp_bucket) in
    ret ← gets (pbuf_plen_check action_length);
    if is_ok ret then
      '(status, action_list) ← ofp_action_parse action_length [];
      if is_ok status.1 then
        getp ← gets pbuf_getp_get;
        if bucket_head + pkt_get "len" 0 pk =? getp
        then mret (status_ok, bucket_list ++ [CBucket pk action_list])
        else mret (ofp_fail OFPET_BAD_REQUEST OFPBRC_BAD_LEN, [])
      else mret (status, [])
    else mret (ofp_fail OFPET_BAD_REQUEST OFPBRC_BAD_LEN, [])
  else mret (ofp_fail OFPET_BAD_REQUEST OFPBRC_BAD_LEN, []).

(** The loop of [s_parse_bucket_list] (in [ofp_group_mod_handler.c]), which leaves no byte in the
    buffer when it succeeds: the test behind it never fails. *)
Fixpoint s_parse_bucket_list_loop (fuel : nat) (bucket_list : list cbucket) : pm (ofp_status * list cbucket) :=
  match fuel with
  | O => out_of_fuel
  | S fuel' =>
      plen ← gets pbuf_plen_get;
      if 0 <? plen then
        '(status, bucket_list) ← ofp_bucket_parse bucket_list;
        if is_ok status.1 then s_parse_bucket_list_loop fuel' bucket_list
        else mret (status, bucket_list)
      else mret (status_ok, bucket_list)
  end.

Definition s_parse_bucket_list : pm (ofp_status * list cbucket) :=
  plen ← gets pb_plen;
  '(status, bucket_list) ← s_parse_bucket_list_loop (S (Z.to_nat plen)) [];
  plen ← gets pbuf_plen_get;
  mret (if is_ok status.1 && (0 <? plen) then ofp_fail OFPET_GROUP_MOD_FAILED OFPGMFC_BAD_BUCKET else status,
        bucket_list).

(** ** Encoding *)

(** [ofp_multipart_length_set]: the length is the first field. *)
Definition ofp_multipart_length_set (multipart_head length : Z) : pm lagopus_result :=
  poke multipart_head [u8 (Z.land (Z.shiftr length 8) 0xFF); u8 (Z.land length 0xFF)] ;;
  mret LAGOPUS_RESULT_OK.

Definition bucket_encode (b : cbucket) (total_length : Z) : pm (lagopus_result * Z * cbucket) :=
  ret ← encode openflow13 "ofp_bucket" "" (cb_ofp b);
  if is_ok ret then
    putp ← gets pbuf_putp_get;
    let bucket_head := putp - sizeof_ofp_bucket in
    '(ret, action_total_len, action_list) ← ofp_action_list_encode (cb_action_list b);
    let b := CBucket (cb_ofp b) action_list in
    if is_ok ret then
      let '(bucket_len, ret) := ofp_tlv_length_sum action_total_len sizeof_ofp_bucket in
      if is_ok ret then
        ret ← ofp_multipart_length_set bucket_head bucket_len;
        if is_ok ret then
          let '(total_length, ret) := ofp_tlv_length_sum total_length bucket_len in
          mret (ret, total_length, b)
        else mret (ret, total_length, b)
      else mret (ret, total_length, b)
    else mret (ret, total_length, b)
  else mret (ret, total_length, b).

Fixpoint bucket_list_encode_loop (bucket_list : list cbucket) (total_length : Z)
    : pm (lagopus_result * Z * list cbucket) :=
  match bucket_list with
  | [] => mret (LAGOPUS_RESULT_OK, total_length, [])
  | b :: bucket_list' =>
      '(ret, total_length, b) ← bucket_encode b total_length;
      if is_ok ret then
        '(ret, total_length, bucket_list') ← bucket_list_encode_loop bucket_list' total_length;
        mret (ret, total_length, b :: bucket_list')
      else mret (ret, total_length, b :: bucket_list')
  end.

Definition ofp_bucket_list_encode (bucket_list : list cbucket) : pm (lagopus_result * Z * list cbucket) :=
  bucket_list_encode_loop bucket_list 0.

(** ** What is encoded *)

(** A bucket with the structures of its actions. *)
Record dbucket := DBucket {
  db_ofp : packet;
  db_actions : list (string * caction)
}.

Definition db_size (d : dbucket) : Z := 16 + Z.of_nat (length (actions_bytes (db_actions d))).
Definition db_bucket (d : dbucket) : cbucket := CBucket (db_ofp d) (map snd (db_actions d)).
Definition db_encoded (d : dbucket) : cbucket :=
  CBucket (db_ofp d) (map (fun '(name, a) => action_encoded name a) (db_actions d)).
Definition db_final (d : dbucket) : cbucket :=
  CBucket (<["len" := [db_size d]]> (db_ofp d)) (map (fun '(name, a) => action_final name a) (db_actions d)).
Definition bucket_bytes (d : dbucket) : bytes :=
  wire (cb_ofp (db_final d)) (fields "ofp_bucket" "") ++ actions_bytes (db_actions d).
Definition buckets_bytes (l : list dbucket) : bytes := flat_map bucket_bytes l.

Definition bucket_ok (d : dbucket) : Prop :=
  exact "ofp_bucket" (cb_ofp (db_final d)) /\ actions_ok (db_actions d).

Lemma bucket_facts :
  declared openflow13 "ofp_bucket" = true /\ decodable "ofp_bucket" = true /\ sizeof_ofp_bucket = 16 /\
  exists lfs, fields "ofp_bucket" "" = [("len", 2%nat, 1%nat)] ++ lfs.
Proof. split_and!; [vm_compute; reflexivity..|]. eexists. vm_compute. reflexivity. Qed.

Lemma wire_leaf_other pk name v lf : name <> lf.1.1 -> wire_leaf (<[name := v]> pk) lf = wire_leaf pk lf.
Proof.
  intros Hne. unfold wire_leaf. apply flat_map_ext. intros i. unfold pkt_get. by rewrite lookup_insert_ne.
Qed.

(** The bytes of a bucket begin with its length. *)
Lemma wire_bucket pk :
  exists body, length body = 14%nat /\
    forall v, wire (<["len" := [v]]> pk) (fields "ofp_bucket" "") = be_bytes 2 v ++ body /\
    wire pk (fields "ofp_bucket" "") = be_bytes 2 (pkt_get "len" 0 pk) ++ body.
Proof.
  assert (exists lfs, fields "ofp_bucket" "" = ("len", 2%nat, 1%nat) :: lfs /\ leaves_size lfs = 14%nat /\
    Forall (fun lf : leaf => "len" <> lf.1.1) lfs) as (lfs & -> & Hs & Hne).
  { eexists. split; [vm_compute; reflexivity|]. split; [vm_compute; reflexivity|]. repeat constructor; done. }
  exists (wire pk lfs). split; [by rewrite length_wire|]. intros v. unfold wire. cbn [flat_map].
  unfold wire_leaf at 1 3. cbn [fst snd seq flat_map]. rewrite !app_nil_r. split; [|done].
  unfold pkt_get. rewrite lookup_insert_eq. cbn [default id nth]. f_equal.
  clear Hs. induction Hne as [|lf lfs Hlf _ IH]; [done|]. cbn [flat_map]. by rewrite IH, wire_leaf_other.
Qed.

Lemma length_bucket_bytes d : Z.of_nat (length (bucket_bytes d)) = db_size d.
Proof.
  destruct (wire_bucket (db_ofp d)) as (body & Hb & Hw). unfold bucket_bytes, db_size. cbn [cb_ofp db_final].
  destruct (Hw (db_size d)) as [-> _]. rewrite !length_app, length_be_bytes, Hb. lia.
Qed.

(** *** Parsing what was encoded *)

Lemma bucket_parse_law d acc b rest :
  bucket_ok d -> db_size d < 65536 -> unread b (bucket_bytes d ++ rest) ->
  ofp_bucket_parse acc b = Done ((status_ok, acc ++ [db_final d]), adv (length (bucket_bytes d)) b).
Proof.
  intros [Hex Hacts] Hlt Hu. destruct bucket_facts as (Hd & Hdec & Hs & _).
  pose proof (length_bucket_bytes d) as Hlen.
  unfold bucket_bytes in *. rewrite length_app in Hlen.
  rewrite <- app_assoc in Hu. unfold ofp_bucket_parse.
  rewrite (bind_Done _ _ _ (pb_getp b) b) by done.
  pose proof (on_fresh_Done _ _ _ _ _ (exact_decode _ b _ _ Hd Hdec Hex Hu)) as Hdecode.
  rewrite (bind_Done _ _ _ _ _ Hdecode). cbn [is_ok]. apply unread_adv in Hu.
  cbn [cb_ofp db_final] in *. set (w := wire _ _) in *. rewrite pkt_get_insert. cbn [nth].
  assert (u64 (db_size d - sizeof_ofp_bucket) = Z.of_nat (length (actions_bytes (db_actions d)))) as ->.
  { rewrite Hs. unfold u64, db_size. rewrite Z.mod_small; unfold db_size in Hlt; lia. }
  rewrite (bind_Done _ _ _ LAGOPUS_RESULT_OK (adv (length w) b)); cycle 1.
  { rewrite gets_Done, plen_check_ok; [done|]. destruct Hu as (_ & -> & _). rewrite length_app. lia. }
  cbn [is_ok]. assert (Z.of_nat (length (actions_bytes (db_actions d))) < 65536) as Hl by (unfold db_size in Hlt; lia).
  rewrite (bind_Done _ _ _ _ _ (actions_parse_law _ [] _ rest Hacts Hl Hu)). cbn [is_ok fst status_ok].
  rewrite adv_add. set (b2 := adv _ b). rewrite (bind_Done _ _ _ (pb_getp b2) b2) by done.
  assert (pb_getp b + db_size d = pb_getp b2) as -> by (unfold b2; cbn; lia).
  by rewrite Z.eqb_refl.
Qed.

Definition buckets_ok : list dbucket -> Prop := Forall bucket_ok.

Lemma buckets_parse_loop_law l acc b fuel :
  buckets_ok l -> Z.of_nat (length (buckets_bytes l)) < 65536 ->
  unread b (buckets_bytes l) -> (length (buckets_bytes l) < fuel)%nat ->
  s_parse_bucket_list_loop fuel acc b = Done ((status_ok, acc ++ map db_final l), adv (length (buckets_bytes l)) b).
Proof.
  intros Hok. revert acc b fuel. induction Hok as [|d l Hd Hok IH]; intros acc b fuel Hlt Hu Hfuel;
    (destruct fuel as [|fuel]; [lia|]); cbn [s_parse_bucket_list_loop];
    rewrite (bind_Done _ _ _ (pb_plen b) b) by done.
  { destruct Hu as (_ & -> & _). cbn. by rewrite app_nil_r, adv_0. }
  cbn [buckets_bytes flat_map map] in *. fold (buckets_bytes l) in *. rewrite length_app in *.
  pose proof (length_bucket_bytes d) as Hlen. assert (16 <= db_size d) as Hge by (unfold db_size; lia).
  assert (pb_plen b = Z.of_nat (length (bucket_bytes d) + length (buckets_bytes l))) as ->.
  { destruct Hu as (_ & -> & _). by rewrite length_app. }
  rewrite (proj2 (Z.ltb_lt _ _)) by lia.
  assert (db_size d < 65536) as Hsz by lia.
  rewrite (bind_Done _ _ _ _ _ (bucket_parse_law d acc b _ Hd Hsz Hu)). cbn [is_ok fst status_ok].
  apply unread_adv in Hu. rewrite IH by (done || lia). by rewrite adv_add, <- app_assoc.
Qed.

Lemma buckets_parse_law l b :
  buckets_ok l -> Z.of_nat (length (buckets_bytes l)) < 65536 -> unread b (buckets_bytes l) ->
  s_parse_bucket_list b = Done ((status_ok, map db_final l), adv (length (buckets_bytes l)) b).
Proof.
  intros Hok Hlt Hu. unfold s_parse_bucket_list. rewrite (bind_Done _ _ _ (pb_plen b) b) by done.
  assert (length (buckets_bytes l) < S (Z.to_nat (pb_plen b)))%nat as Hf by (destruct Hu as (_ & -> & _); lia).
  rewrite (bind_Done _ _ _ _ _ (buckets_parse_loop_law l [] b _ Hok Hlt Hu Hf)).
  set (b2 := adv _ b). rewrite (bind_Done _ _ _ (pb_plen b2) b2) by done.
  assert (pb_plen b2 = 0) as -> by (unfold b2; cbn; destruct Hu as (_ & -> & _); lia). done.
Qed.

(** *** Encoding *)

Lemma bucket_encode_law d total b :
  bucket_ok d -> 0 <= total -> total + db_size d < 65536 -> fits (length (bucket_bytes d)) b ->
  bucket_encode (db_bucket d) total b =
  Done ((LAGOPUS_RESULT_OK, total + db_size d, db_encoded d), put (bucket_bytes d) b).
Proof.
  intros [_ Hacts] H0 Hlt Hf. destruct bucket_facts as (Hd & _ & Hs & _).
  destruct (wire_bucket (db_ofp d)) as (body & Hbody & Hw).
  pose proof (length_bucket_bytes d) as Hlen. unfold bucket_bytes in *. cbn [cb_ofp db_final] in *.
  destruct (Hw (db_size d)) as [Hwl Hw0]. rewrite Hwl in *. clear Hw Hwl. unfold db_size in *.
  set (v := actions_bytes (db_actions d)) in *. set (w := wire (db_ofp d) (fields "ofp_bucket" "")) in *.
  assert (length w = 16%nat) as Hlw by (rewrite Hw0, length_app, length_be_bytes; lia).
  assert (fits (length w + length v) b) as Hf0.
  { eapply fits_weaken; [exact Hf|]. rewrite !length_app, length_be_bytes. lia. }
  unfold bucket_encode. cbn [cb_ofp cb_action_list db_bucket].
  assert (encode openflow13 "ofp_bucket" "" (db_ofp d) b = Done (LAGOPUS_RESULT_OK, put w b)) as He.
  { apply struct_encode; [done|]. eapply fits_weaken; [exact Hf0|].
    rewrite <- (length_wire (db_ofp d)). fold w. lia. }
  rewrite (bind_Done _ _ _ _ _ He). cbn [is_ok]. rewrite (bind_Done _ _ _ (pb_putp (put w b)) (put w b)) by done.
  assert (Z.of_nat (length v) < 65536) as Hlv by lia.
  rewrite (bind_Done _ _ _ _ _ (actions_encode_law _ (put w b) Hacts Hlv (put_fits _ _ _ Hf0))). cbn [is_ok]. fold v.
  rewrite Hs, ofp_tlv_length_sum_ok by lia. cbn [is_ok]. rewrite <- put_app by (by eapply fits_putp).
  replace (pb_putp (put w b) - 16) with (pb_putp b + Z.of_nat (length ([] : bytes)))
    by (unfold put; cbn [pb_putp length]; lia).
  rewrite (Z.add_comm (Z.of_nat (length v))).
  rewrite (bind_Done _ _ _ LAGOPUS_RESULT_OK (put ((be_bytes 2 (16 + Z.of_nat (length v)) ++ body) ++ v) b)); cycle 1.
  { rewrite <- app_assoc. apply (poke_length_put (pkt_get "len" 0 (db_ofp d)) _ [] (body ++ v));
      [by eapply fits_writable|rewrite length_app; destruct Hf0; lia|]. rewrite Hw0, <- !app_assoc. done. }
  cbn [is_ok]. rewrite ofp_tlv_length_sum_ok by lia. done.
Qed.

Lemma buckets_encode_loop_law l total b :
  buckets_ok l -> 0 <= total -> total + Z.of_nat (length (buckets_bytes l)) < 65536 ->
  fits (length (buckets_bytes l)) b ->
  bucket_list_encode_loop (map db_bucket l) total b =
  Done ((LAGOPUS_RESULT_OK, total + Z.of_nat (length (buckets_bytes l)), map db_encoded l), put (buckets_bytes l) b).
Proof.
  intros Hok. revert total b. induction Hok as [|d l Hd Hok IH]; intros total b H0 Hlt Hf;
    cbn [buckets_bytes flat_map map bucket_list_encode_loop] in *.
  { rewrite put_nil. by rewrite Z.add_0_r. }
  fold (buckets_bytes l) in *. rewrite length_app in *.
  pose proof (length_bucket_bytes d) as Hlen. assert (16 <= db_size d) as Hge by (unfold db_size; lia).
  assert (fits (length (bucket_bytes d)) b) as Hf0 by (eapply fits_weaken; [exact Hf|lia]).
  rewrite (bind_Done _ _ _ _ _ (bucket_encode_law d total b Hd H0 ltac:(lia) Hf0)). cbn [is_ok].
  specialize (IH (total + db_size d) (put (bucket_bytes d) b) ltac:(lia) ltac:(lia) (put_fits _ _ _ Hf)).
  rewrite (bind_Done _ _ _ _ _ IH). rewrite put_app by (by eapply fits_putp). unfold mret, M_ret.
  by replace (total + db_size d + _)
    with (total + Z.of_nat (length (bucket_bytes d) + length (buckets_bytes l))) by lia.
Qed.

(** What the switch encodes it parses again: for a list of buckets whose encoding fits the 16-bit
    length, [ofp_bucket_list_encode] puts the buckets with their actions one after the other, each
    with its length, and returns the number of bytes; a message that ends with these bytes is
    parsed to the same buckets, with all lengths set, and consumed. *)
Theorem buckets_roundtrip l b b' :
  buckets_ok l -> Z.of_nat (length (buckets_bytes l)) < 65536 -> fits (length (buckets_bytes l)) b ->
  let v := buckets_bytes l in
  ofp_bucket_list_encode (map db_bucket l) b =
    Done ((LAGOPUS_RESULT_OK, Z.of_nat (length v), map db_encoded l), put v b) /\
  (unread b' v -> s_parse_bucket_list b' = Done ((status_ok, map db_final l), adv (length v) b')).
Proof.
  intros Hok Hlt Hf v. split; [by apply (buckets_encode_loop_law l 0 b)|]. intros Hu. by apply buckets_parse_law.
Qed.

(** ** Examples *)

Definition two_buckets : list dbucket :=
  [DBucket (struct "ofp_bucket" [[0]; [1]; [2]; [0xffffffff]; [0; 0; 0; 0]]) two_actions;
   DBucket (struct "ofp_bucket" [[0]; [2]; [3]; [0xffffffff]; [0; 0; 0; 0]]) []].

Lemma two_buckets_ok : buckets_ok two_buckets.
Proof.
  unfold buckets_ok, two_buckets. apply Forall_cons; split; [|apply Forall_cons; split; [|constructor]]; split.
  1, 3: apply exactb_spec; vm_compute; reflexivity.
  - apply two_actions_ok.
  - constructor.
Qed.

Theorem buckets_roundtrip_witness :
  let l := two_buckets in
  let v := buckets_bytes l in
  let b := pbuf_plen_set 64 (pbuf_alloc 64) in
  let b' := holding v in
  unread b' v /\
  ofp_bucket_list_encode (map db_bucket l) b =
    Done ((LAGOPUS_RESULT_OK, Z.of_nat (length v), map db_encoded l), put v b) /\
  (unread b' v -> s_parse_bucket_list b' = Done ((status_ok, map db_final l), adv (length v) b')).
Proof.
  intros l v b b'. split; [apply unread_holding; vm_compute; reflexivity|].
  apply buckets_roundtrip; [apply two_buckets_ok|vm_compute; reflexivity|].
  replace (length (buckets_bytes l)) with 64%nat by (vm_compute; reflexivity). apply (fits_alloc 64). lia.
Defined.
