(* ===== verification/GroupModHandler.v ===== *)
(** * GROUP_MOD: from the bytes to the group table ([src/agent/ofp_group_mod_handler.c])

    The handler decodes the message, checks the type of the group, parses the buckets and hands
    them to the group table of the channel's bridge. *)
From S2P Require Import Prelude Monad OpenFlow Hashmap ActionSet Group FlowEntry Bridge FlowDB FlowDBInv FlowDBRun.
From S2P Require Import Pbuf Generator OpenFlowH Tlv MatchCodec ActionCodec CodecSound Datapath FlowModHandler BucketCodec.
From stdpp Require Import strings.
#[local] Open Scope Z_scope.

(** ** The handler *)

Definition group_mod_view (pk : packet) : ofp_group_mod := OfpGroupMod (pkt_get "group_id" 0 pk) (pkt_get "type" 0 pk).

Definition s_group_type_check (type : Z) : ofp_status :=
  if bool_decide (type ∈ [OFPGT_ALL; OFPGT_SELECT; OFPGT_INDIRECT; OFPGT_FF]) then status_ok
  else ofp_fail OFPET_GROUP_MOD_FAILED OFPGMFC_BAD_TYPE.

(** [fuel] bounds the search for loops among the groups. *)
Definition s_ofpgc_add (fuel : nat) (dpid : Z) (group_mod : ofp_group_mod) (m : bridges) : pm (ofp_status * bridges) :=
  '(status, bucket_list) ← s_parse_bucket_list;
  if is_ok status.1 then
    match dp_group_mod_add fuel dpid group_mod (map bucket_view bucket_list) m with
    | Some r => mret r
    | None => out_of_fuel
    end
  else mret (status, m).

Definition s_ofpgc_modify (dpid : Z) (group_mod : ofp_group_mod) (m : bridges) : pm (ofp_status * bridges) :=
  '(status, bucket_list) ← s_parse_bucket_list;
  if is_ok status.1 then mret (dp_group_mod_modify dpid group_mod (map bucket_view bucket_list) m)
  else mret (status, m).

Definition s_ofpgc_delete (dpid : Z) (group_mod : ofp_group_mod) (m : bridges) : pm (ofp_status * bridges) :=
  plen ← gets pbuf_plen_get;
  if plen =? 0 then mret (dp_group_mod_delete dpid group_mod m)
  else mret (ofp_fail OFPET_BAD_REQUEST OFPBRC_BAD_LEN, m).

Definition ofp_group_mod_handle (fuel : nat) (dpid : Z) (m : bridges) : pm (ofp_status * bridges) :=
  '(ret, pk) ← on_fresh (decode openflow13 "ofp_group_mod" "");
  if is_ok ret then
    let group_mod := group_mod_view pk in
    let command := pkt_get "command" 0 pk in
    let status := s_group_type_check (gm_type group_mod) in
    if is_ok status.1 then
      if command =? OFPGC_ADD then s_ofpgc_add fuel dpid group_mod m
      else if command =? OFPGC_MODIFY then s_ofpgc_modify dpid group_mod m
      else if command =? OFPGC_DELETE then s_ofpgc_delete dpid group_mod m
      else mret (ofp_fail OFPET_GROUP_MOD_FAILED OFPGMFC_BAD_COMMAND, m)
    else mret (status, m)
  else mret (ofp_fail OFPET_BAD_REQUEST OFPBRC_BAD_LEN, m).

(** ** A message that encodes a GROUP_MOD *)

Lemma group_mod_struct : declared openflow13 "ofp_group_mod" = true /\ decodable "ofp_group_mod" = true.
Proof. split; vm_compute; reflexivity. Qed.

Lemma group_mod_size : sizeof openflow13 "ofp_group_mod" = 16.
Proof. vm_compute. reflexivity. Qed.

Definition group_mod_message (pk : packet) (buckets : bytes) : bytes := wire pk (fields "ofp_group_mod" "") ++ buckets.

(** The command of a message on the bridges; [None] as in [dp_group_mod_add]. *)
Definition group_mod_command (fuel : nat) (dpid : Z) (pk : packet) (bucket_list : list bucket) (m : bridges)
    : option (ofp_status * bridges) :=
  let command := pkt_get "command" 0 pk in
  if command =? OFPGC_ADD then dp_group_mod_add fuel dpid (group_mod_view pk) bucket_list m
  else if command =? OFPGC_MODIFY then Some (dp_group_mod_modify dpid (group_mod_view pk) bucket_list m)
  else Some (dp_group_mod_delete dpid (group_mod_view pk) m).


(** ** Arbitrary messages *)

(** The bytes of a bucket as it stands in memory; the buckets the parser builds. *)
Definition bucket_wire (d : dbucket) : bytes := wire (db_ofp d) (fields "ofp_bucket" "") ++ actions_wire (db_actions d).
Definition bucket_parsed (d : dbucket) : Prop :=
  exact "ofp_bucket" (db_ofp d) /\ Forall (fun '(name, a) => action_parsed name a) (db_actions d) /\
  pkt_get "len" 0 (db_ofp d) = Z.of_nat (length (bucket_wire d)).

(** Behind some well-formed buckets, [l] goes on with a bucket with an action that is too short. *)
Definition short_in_buckets (l : bytes) : Prop :=
  exists ds pk l', Forall bucket_parsed ds /\ exact "ofp_bucket" pk /\
    l = flat_map bucket_wire ds ++ wire pk (fields "ofp_bucket" "") ++ l' /\ short_action l'.

Definition group_mod_short (l : bytes) : Prop := short_in_buckets (drop 16 l).

Lemma short_in_buckets_cons d l : bucket_parsed d -> short_in_buckets l -> short_in_buckets (bucket_wire d ++ l).
Proof.
  intros Hd (ds & pk & l' & Hds & Hex & -> & H). exists (d :: ds), pk, l'. cbn [flat_map]. rewrite <- app_assoc.
  split_and!; [by constructor|done..].
Qed.

Lemma short_in_buckets_here pk l l' :
  exact "ofp_bucket" pk -> l = wire pk (fields "ofp_bucket" "") ++ l' -> short_action l' -> short_in_buckets l.
Proof.
  intros Hex Hl H. exists [], pk, l'. split_and!; [constructor|exact Hex| |exact H].
  cbn [flat_map]. rewrite app_nil_l. exact Hl.
Qed.

(** Accepted buckets and the bytes they were read from. *)
Definition buckets_parsed (l : bytes) (acc : list cbucket) (r : ofp_status * list cbucket) (k : nat) : Prop :=
  (exists ds, r = (status_ok, acc ++ map db_bucket ds) /\ Forall bucket_parsed ds /\ (k <= length l)%nat /\
     take k l = flat_map bucket_wire ds) \/
  failed r.1.

Lemma parses_bucket U acc b l :
  msg b l -> (short_in_buckets l -> U) ->
  parses U (ofp_bucket_parse acc) b l
    (fun r k => (exists d, r = (status_ok, acc ++ [db_bucket d]) /\ bucket_parsed d /\ (0 < k <= length l)%nat /\
                   take k l = bucket_wire d) \/
                failed r.1).
Proof.
  intros Hm HU. destruct bucket_facts as (Hd & Hdec & Hs & _). unfold ofp_bucket_parse. apply parses_gets.
  apply (parses_bind _ _ _ _ _ _ _ Hm (parses_decode U _ b l Hd Hdec Hm)).
  intros r k Hk [(pk & -> & Hkn & _ & Hex & Hw)|(pk & -> & ->)] Hm'; cbn [is_ok]; [|apply parses_ret; right; apply failed_fail].
  assert (0 < k)%nat as Hpos by (change (sizeof openflow13 "ofp_bucket") with sizeof_ofp_bucket in Hkn; lia).
  clear Hkn Hs Hd Hdec.
  apply parses_plen_check; [done|intros _|apply parses_ret; right; apply failed_fail]. cbn [is_ok].
  eapply parses_bind; [done|apply parses_actions; [done|]|].
  { intros H. apply HU, (short_in_buckets_here pk l (drop k l) Hex); [|exact H]. rewrite Hw. symmetry. apply take_drop. }
  intros [status al] k' Hk' [[(al' & [= -> ->] & Hal & _ & Hw')|Hfail] _] Hm''; cbn [fst snd] in *; cycle 1.
  { rewrite (failed_not_ok _ Hfail). apply parses_ret. by right. }
  cbn [is_ok status_ok fst]. apply parses_gets. rewrite length_drop in Hk'.
  destruct (Z.eqb_spec (pbuf_getp_get b + pkt_get "len" 0 pk) (pbuf_getp_get (adv k' (adv k b)))) as [Hlen|_];
    apply parses_ret; rewrite Nat.add_0_r; [|right; apply failed_fail].
  left. exists (DBucket pk al').
  assert (take (k + k') l = bucket_wire (DBucket pk al')) as E.
  { unfold bucket_wire. cbn [db_ofp db_actions]. by rewrite Hw, <- Hw', take_take_drop. }
  split_and!; [done| |lia|lia|done]. split_and!; [done|done|]. rewrite <- E, length_take. cbn [db_ofp].
  unfold pbuf_getp_get, adv, set_pb_plen, set_pb_getp in Hlen. cbn [pb_getp] in Hlen. lia.
Qed.

Lemma parses_buckets_loop U fuel acc b l :
  msg b l -> (short_in_buckets l -> U) -> (length l < fuel)%nat ->
  parses U (s_parse_bucket_list_loop fuel acc) b l
    (fun r k => buckets_parsed l acc r k /\ (r.1 = status_ok -> k = length l)).
Proof.
  revert acc b l. induction fuel as [|fuel IH]; intros acc b l Hm HU Hf; [lia|]. cbn [s_parse_bucket_list_loop].
  apply parses_gets. unfold pbuf_plen_get. rewrite (msg_plen b l Hm). destruct (Z.ltb_spec 0 (Z.of_nat (length l))); cycle 1.
  { apply parses_ret. assert (length l = 0%nat) as -> by lia. split; [|done]. left. exists []. rewrite app_nil_r.
    split_and!; [done|constructor|lia|done]. }
  apply (parses_bind _ _ _ _ _ _ _ Hm (parses_bucket U acc b l Hm HU)).
  intros [status bl] k Hk [(d & [= -> ->] & Hd & Hpos & Hw)|Hfail] Hm'; cbn [fst snd] in *; cycle 1.
  { rewrite (failed_not_ok _ Hfail). apply parses_ret. split; [by right|]. cbn [fst]. intros ->. by apply failed_not_ok in Hfail. }
  cbn [is_ok status_ok fst]. eapply parses_mono; [|apply IH; [done| |rewrite length_drop; lia]]; cycle 1.
  { intros Hs. apply HU. rewrite <- (take_drop k l), Hw. by apply short_in_buckets_cons. }
  intros r k' Hk' [Hr Hend]. rewrite length_drop in *. split; [|intros Hok; specialize (Hend Hok); lia].
  destruct Hr as [(ds & -> & Hds & _ & Hw')|Hfail]; [left|by right]. exists (d :: ds). cbn [map flat_map].
  split_and!; [by rewrite <- app_assoc|by constructor|lia|]. by rewrite <- Hw, <- Hw', take_take_drop.
Qed.

Lemma parses_buckets U b l :
  msg b l -> (short_in_buckets l -> U) ->
  parses U s_parse_bucket_list b l (fun '(status, bl) k =>
    (status = status_ok /\ k = length l /\ exists ds, bl = map db_bucket ds /\ Forall bucket_parsed ds /\
       l = flat_map bucket_wire ds) \/
    failed status).
Proof.
  intros Hm HU. unfold s_parse_bucket_list. apply parses_gets.
  eapply parses_bind; [done|apply parses_buckets_loop; [done|done|rewrite (msg_plen _ _ Hm); lia]|].
  intros [status bl] k Hk [[(ds & [= -> ->] & Hds & _ & Hw)|Hfail] Hend] Hm'; apply parses_gets; cbn [fst snd] in *.
  - specialize (Hend eq_refl). subst k. unfold pbuf_plen_get. rewrite (msg_plen _ _ Hm'), drop_all.
    apply parses_ret. left. rewrite firstn_all in Hw. rewrite Nat.add_0_r. split_and!; [done|done|]. by exists ds.
  - apply parses_ret. right. by rewrite (failed_not_ok _ Hfail).
Qed.

(** The invariant of all bridges, for any bytes; [F]: the search for loops did not end. *)
Lemma group_mod_handle_any (U F : Prop) fuel dpid m b l :
  bridges_inv m -> msg b l -> (group_mod_short l -> U) ->
  (forall group_mod bl, dp_group_mod_add fuel dpid group_mod bl m = None -> F) ->
  runs U F (ofp_group_mod_handle fuel dpid m) b (fun r => bridges_inv r.2).
Proof.
  intros Hm Hmsg HU HF. destruct group_mod_struct as [Hd Hdec]. unfold ofp_group_mod_handle.
  apply (runs_bind _ _ _ _ _ _ _ _ Hmsg (parses_decode U _ b l Hd Hdec Hmsg)).
  intros r k Hk [(pk & -> & Hkn & _)|(pk & -> & ->)] Hm'; cbn [is_ok]; [|by apply runs_ret].
  destruct (is_ok (s_group_type_check _).1); [|by apply runs_ret].
  assert (k = 16%nat) as -> by (rewrite group_mod_size in Hkn; lia).
  pose proof (parses_buckets U (adv 16 b) (drop 16 l) Hm' HU) as Hp.
  destruct (_ =? OFPGC_ADD).
  { unfold s_ofpgc_add. apply (runs_bind _ _ _ _ _ _ _ _ Hm' Hp). intros [status bl] k' _ _ _.
    destruct (is_ok status.1); [|by apply runs_ret].
    destruct (dp_group_mod_add _ _ _ _ _) as [r|] eqn:E; [|by eapply HF].
    apply runs_ret. by eapply group_mod_add_inv. }
  destruct (_ =? OFPGC_MODIFY).
  { unfold s_ofpgc_modify. apply (runs_bind _ _ _ _ _ _ _ _ Hm' Hp). intros [status bl] k' _ _ _.
    destruct (is_ok status.1); apply runs_ret; [by apply group_mod_modify_inv|done]. }
  destruct (_ =? OFPGC_DELETE); [|by apply runs_ret].
  unfold s_ofpgc_delete. apply runs_gets.
  destruct (_ =? 0); apply runs_ret; [by apply group_mod_delete_inv|done].
Qed.

Definition sample_group_add : packet := Eval vm_compute in
  struct "ofp_group_mod" [[4]; [15]; [0]; [7]; [OFPGC_ADD]; [OFPGT_SELECT]; [0]; [5]].

