(* ===== verification/MeterModHandler.v ===== *)
(** * METER_MOD: from the bytes to the meter table

    The parsing and encoding of meter bands ([src/agent/ofp_band.c]), the test of identifiers
    ([ofp_meter.c]) and the handler ([ofp_meter_mod_handler.c]).  Memory allocation succeeds. *)
From S2P Require Import Prelude Monad OpenFlow Hashmap Meter FlowEntry Bridge FlowDB FlowDBInv FlowDBRun.
From S2P Require Import Pbuf Generator OpenFlowH Tlv MatchCodec ActionCodec CodecSound Datapath FlowModHandler.
From stdpp Require Import strings.
#[local] Open Scope Z_scope.

(** ** Bands *)

(** The structures of the bands. *)
Definition band_struct (type : Z) : option string :=
  if type =? OFPMBT_DROP then Some "ofp_meter_band_drop"
  else if type =? OFPMBT_DSCP_REMARK then Some "ofp_meter_band_dscp_remark"
  else if type =? OFPMBT_EXPERIMENTER then Some "ofp_meter_band_experimenter"
  else None.

Definition band_union (pk : packet) : meter_band_union :=
  MeterBandUnion (pkt_get "type" 0 pk) (pkt_get "len" 0 pk) (pkt_get "rate" 0 pk) (pkt_get "burst_size" 0 pk)
    (pkt_get "prec_level" 0 pk) (pkt_get "experimenter" 0 pk).

(** [ofp_meter_band_drop_parse], [ofp_meter_band_dscp_remark_parse] and
    [ofp_meter_band_experimenter_parse] differ in the structure. *)
Definition meter_band_parse (name : string) (band_list : list meter_band) : pm (ofp_status * list meter_band) :=
  '(ret, pk) ← on_fresh (decode openflow13 name "");
  if is_ok ret then
    match meter_band_alloc (band_union pk) with
    | Some meter_band => mret (status_ok, band_list ++ [meter_band])
    | None => mret ((LAGOPUS_RESULT_NO_MEMORY, None), band_list)
    end
  else mret (ofp_fail OFPET_BAD_REQUEST OFPBRC_BAD_LEN, band_list).

Definition set_mb_len (len : Z) (b : meter_band) : meter_band :=
  MeterBand (mb_type b) len (mb_rate b) (mb_burst_size b) (mb_prec_level b) (mb_experimenter b) (mb_stats b).

(** The structure that the encoders fill in; fields it has not are not encoded. *)
Definition band_packet (b : meter_band) : packet :=
  list_to_map [("type", [mb_type b]); ("len", [mb_len b]); ("rate", [mb_rate b]); ("burst_size", [mb_burst_size b]);
               ("prec_level", [mb_prec_level b]); ("experimenter", [mb_experimenter b])].

(** [ofp_drop_encode], [ofp_dscp_remark_encode] and [ofp_experimenter_encode]. *)
Definition meter_band_encode (b : meter_band) : pm (lagopus_result * meter_band) :=
  match band_struct (mb_type b) with
  | Some name =>
      let b := set_mb_len (u16 (sizeof openflow13 name)) b in
      ret ← encode openflow13 name "" (band_packet b);
      mret (ret, b)
  | None => mret (LAGOPUS_RESULT_OUT_OF_RANGE, b)
  end.

Fixpoint band_list_encode_loop (band_list : list meter_band) (total_length : Z)
    : pm (lagopus_result * Z * list meter_band) :=
  match band_list with
  | [] => mret (LAGOPUS_RESULT_OK, total_length, [])
  | b :: band_list' =>
      '(ret, b) ← meter_band_encode b;
      if is_ok ret then
        let '(total_length, ret) := ofp_tlv_length_sum total_length (mb_len b) in
        if is_ok ret then
          '(ret, total_length, band_list') ← band_list_encode_loop band_list' total_length;
          mret (ret, total_length, b :: band_list')
        else mret (ret, total_length, b :: band_list')
      else mret (ret, total_length, b :: band_list')
  end.

Definition ofp_band_list_encode (band_list : list meter_band) : pm (lagopus_result * Z * list meter_band) :=
  band_list_encode_loop band_list 0.

(** ** The handler *)

Definition OFPM_SLOWPATH := 0xfffffffd.
Definition OFPM_CONTROLLER := 0xfffffffe.
Definition OFPMF_FULL_MASK : Z := Z.lor OFPMF_KBPS (Z.lor OFPMF_PKTPS (Z.lor OFPMF_BURST OFPMF_STATS)).

Definition ofp_meter_id_check (meter_id : Z) : ofp_status :=
  if (OFPM_MAX <? meter_id) && negb (meter_id =? OFPM_SLOWPATH) && negb (meter_id =? OFPM_CONTROLLER) &&
     negb (meter_id =? OFPM_ALL)
  then ofp_fail OFPET_METER_MOD_FAILED OFPMMFC_INVALID_METER
  else status_ok.

Definition ofp_meter_flags_check (flags : Z) : ofp_status :=
  if Z.land flags (Z.lnot OFPMF_FULL_MASK) =? 0 then status_ok
  else ofp_fail OFPET_METER_MOD_FAILED OFPMMFC_BAD_FLAGS.

(** The loop over the bands: [status] is the result so far. *)
Fixpoint ofp_band_parse_loop (fuel : nat) (status : ofp_status) (band_list : list meter_band)
    : pm (ofp_status * list meter_band) :=
  match fuel with
  | O => out_of_fuel
  | S fuel' =>
      plen ← gets pbuf_plen_get;
      if 0 <? plen then
        '(ret, type, length) ← ofp_tlv_decode_sneak;
        if is_ok ret then
          getp ← gets pbuf_getp_get;
          let band_end := getp + length in
          '(status, band_list) ←
            match band_struct type with
            | Some name => meter_band_parse name band_list
            | None => mret (ofp_fail OFPET_METER_MOD_FAILED OFPMMFC_BAD_BAND, band_list)
            end;
          getp ← gets pbuf_getp_get;
          if is_ok status.1 then
            if band_end =? getp then ofp_band_parse_loop fuel' status band_list
            else mret (ofp_fail OFPET_BAD_REQUEST OFPBRC_BAD_LEN, band_list)
          else mret (status, band_list)
        else mret (ofp_fail OFPET_BAD_REQUEST OFPBRC_BAD_LEN, band_list)
      else mret (status, band_list)
  end.

Definition meter_mod_has_bands (command : Z) : bool := (command =? OFPMC_ADD) || (command =? OFPMC_MODIFY).

(** Without a band the result is the one [ret] starts with. *)
Definition ofp_band_parse (command : Z) : pm (ofp_status * list meter_band) :=
  if meter_mod_has_bands command then
    plen ← gets pb_plen;
    ofp_band_parse_loop (S (Z.to_nat plen)) (LAGOPUS_RESULT_ANY_FAILURES, None) []
  else
    plen ← gets pbuf_plen_get;
    ret ← pbuf_forward plen;
    mret (match ret with
          | LAGOPUS_RESULT_OUT_OF_RANGE => ofp_fail OFPET_BAD_REQUEST OFPBRC_BAD_LEN
          | _ => (ret, None)
          end, []).

Definition meter_mod_view (pk : packet) : ofp_meter_mod := OfpMeterMod (pkt_get "meter_id" 0 pk) (pkt_get "flags" 0 pk).

(** [meter_mod_add], [meter_mod_modify] and [meter_mod_delete] refuse the meter of the controller. *)
Definition not_controller (meter_mod : ofp_meter_mod) (f : bridges -> ofp_status * bridges) (m : bridges)
    : ofp_status * bridges :=
  if mm_meter_id meter_mod =? OFPM_CONTROLLER then (ofp_fail OFPET_METER_MOD_FAILED OFPMMFC_UNKNOWN_METER, m) else f m.

Definition meter_mod_add (dpid : Z) (meter_mod : ofp_meter_mod) (band_list : list meter_band) : bridges -> ofp_status * bridges :=
  not_controller meter_mod (ofp_meter_mod_add dpid meter_mod band_list).
Definition meter_mod_modify (dpid : Z) (meter_mod : ofp_meter_mod) (band_list : list meter_band) : bridges -> ofp_status * bridges :=
  not_controller meter_mod (ofp_meter_mod_modify dpid meter_mod band_list).
Definition meter_mod_delete (dpid : Z) (meter_mod : ofp_meter_mod) : bridges -> ofp_status * bridges :=
  not_controller meter_mod (ofp_meter_mod_delete dpid meter_mod).

(** The last switch. *)
Definition meter_mod_command (dpid command : Z) (meter_mod : ofp_meter_mod) (band_list : list meter_band) (m : bridges)
    : ofp_status * bridges :=
  if command =? OFPMC_ADD then meter_mod_add dpid meter_mod band_list m
  else if command =? OFPMC_MODIFY then meter_mod_modify dpid meter_mod band_list m
  else if command =? OFPMC_DELETE then meter_mod_delete dpid meter_mod m
  else (ofp_fail OFPET_METER_MOD_FAILED OFPMMFC_BAD_COMMAND, m).

(** [xid_length]: the length in the header, which the caller has read. *)
Definition ofp_meter_mod_handle (xid_length dpid : Z) (m : bridges) : pm (ofp_status * bridges) :=
  ret ← gets (pbuf_plen_check xid_length);
  if is_ok ret then
    '(ret, pk) ← on_fresh (decode openflow13 "ofp_meter_mod" "");
    if is_ok ret then
      let meter_mod := meter_mod_view pk in
      let status := ofp_meter_id_check (mm_meter_id meter_mod) in
      if is_ok status.1 then
        let status := ofp_meter_flags_check (mm_flags meter_mod) in
        if is_ok status.1 then
          '(status, band_list) ← ofp_band_parse (pkt_get "command" 0 pk);
          if is_ok status.1 then mret (meter_mod_command dpid (pkt_get "command" 0 pk) meter_mod band_list m)
          else mret (status, m)
        else mret (status, m)
      else mret (status, m)
    else mret (ofp_fail OFPET_BAD_REQUEST OFPBRC_BAD_LEN, m)
  else mret (ofp_fail OFPET_BAD_REQUEST OFPBRC_BAD_LEN, m).

(** ** What is encoded *)

Definition band_ok (b : meter_band) : Prop :=
  mb_type b ∈ [OFPMBT_DROP; OFPMBT_DSCP_REMARK; OFPMBT_EXPERIMENTER] /\
  0 <= mb_rate b < 2 ^ 32 /\ 0 <= mb_burst_size b < 2 ^ 32 /\
  (if mb_type b =? OFPMBT_DSCP_REMARK then 0 <= mb_prec_level b < 256 else mb_prec_level b = 0) /\
  (if mb_type b =? OFPMBT_EXPERIMENTER then 0 <= mb_experimenter b < 2 ^ 32 else mb_experimenter b = 0) /\
  mb_stats b = (0, 0).

(** A band with its length. *)
Definition band_final (b : meter_band) : meter_band := set_mb_len 16 b.

Definition band_bytes (b : meter_band) : bytes :=
  match band_struct (mb_type b) with
  | Some name => wire (band_packet (band_final b)) (fields name "")
  | None => []
  end.
Definition bands_bytes (l : list meter_band) : bytes := flat_map band_bytes l.

Lemma band_structs name type :
  band_struct type = Some name ->
  declared openflow13 name = true /\ decodable name = true /\ sizeof openflow13 name = 16 /\
  leaves_size (fields name "") = 16%nat /\
  ["type"; "len"; "rate"; "burst_size"] ⊆ field_names (fields name "").
Proof.
  unfold band_struct. repeat destruct (_ =? _); intros [= <-]; split_and!; try (vm_compute; reflexivity);
    apply (bool_decide_eq_true_1 (_ ⊆ _)); vm_compute; reflexivity.
Qed.

Lemma band_struct_some b : band_ok b -> exists name, band_struct (mb_type b) = Some name.
Proof.
  intros (Ht & _). repeat (apply elem_of_cons in Ht as [->|Ht]; [by eexists|]). by apply elem_of_nil in Ht.
Qed.

Lemma length_band_bytes b : band_ok b -> length (band_bytes b) = 16%nat.
Proof.
  intros Hok. destruct (band_struct_some b Hok) as (name & E). unfold band_bytes. rewrite E, length_wire.
  by apply (band_structs name (mb_type b)).
Qed.

(** Type and length come first. *)
Lemma band_bytes_split b :
  band_ok b -> exists body, band_bytes b = be_bytes 2 (mb_type b) ++ be_bytes 2 16 ++ body.
Proof.
  intros Hok. destruct (band_struct_some b Hok) as (name & E). unfold band_bytes. rewrite E.
  assert (exists lfs, fields name "" = header_fields ++ lfs) as (lfs & ->).
  { unfold band_struct in E. repeat destruct (_ =? _); try discriminate E; injection E as <-; eexists; vm_compute; reflexivity. }
  exists (wire (band_packet (band_final b)) lfs). rewrite wire_app. unfold header_fields at 1. unfold wire at 1.
  cbn [flat_map wire_leaf fst snd seq]. rewrite !app_nil_r, <- app_assoc. done.
Qed.

Lemma band_packet_get b :
  pkt_get "type" 0 (band_packet b) = mb_type b /\ pkt_get "len" 0 (band_packet b) = mb_len b /\
  pkt_get "rate" 0 (band_packet b) = mb_rate b /\ pkt_get "burst_size" 0 (band_packet b) = mb_burst_size b /\
  pkt_get "prec_level" 0 (band_packet b) = mb_prec_level b /\ pkt_get "experimenter" 0 (band_packet b) = mb_experimenter b.
Proof. destruct b. split_and!; vm_compute; reflexivity. Qed.

Lemma band_fields :
  (forall name, name ∈ ["ofp_meter_band_drop"; "ofp_meter_band_dscp_remark"; "ofp_meter_band_experimenter"] ->
   [("type", 2%nat, 1%nat); ("len", 2%nat, 1%nat); ("rate", 4%nat, 1%nat); ("burst_size", 4%nat, 1%nat)] ⊆ fields name "") /\
  ("prec_level", 1%nat, 1%nat) ∈ fields "ofp_meter_band_dscp_remark" "" /\
  ("experimenter", 4%nat, 1%nat) ∈ fields "ofp_meter_band_experimenter" "".
Proof.
  split_and!; [|apply list_elem_of_In; vm_compute; tauto..].
  intros name Hn lf Hlf. apply list_elem_of_In. apply list_elem_of_In in Hlf.
  each_type Hn; vm_compute in Hlf |- *; tauto.
Qed.

(** The band the parser makes of the decoded structure. *)
Lemma band_alloc_decoded b name q :
  band_ok b -> band_struct (mb_type b) = Some name ->
  (forall lf, lf ∈ fields name "" -> q !! lf.1.1 = Some (leaf_elements (band_packet (band_final b)) lf)) ->
  meter_band_alloc (band_union q) = Some (band_final b).
Proof.
  intros (Ht & Hr & Hb & Hp & He & Hst) E Hq.
  assert (forall f w v, (f, w, 1%nat) ∈ fields name "" -> pkt_get f 0 (band_packet (band_final b)) = v ->
    0 <= v < 256 ^ Z.of_nat w -> pkt_get f 0 q = v) as Hget.
  { intros f w v Hin <- Hrange. rewrite (pkt_get_leaf q (band_packet (band_final b)) f w 1 0 (Hq _ Hin)) by lia.
    by apply Z.mod_small. }
  destruct (band_packet_get (band_final b)) as (Gt & Gl & Gr & Gb & Gp & Ge). destruct band_fields as (Hf & Hfp & Hfe).
  assert (name ∈ ["ofp_meter_band_drop"; "ofp_meter_band_dscp_remark"; "ofp_meter_band_experimenter"]) as Hname.
  { unfold band_struct in E. rewrite !elem_of_cons. repeat destruct (_ =? _); injection E as <- || discriminate E; tauto. }
  specialize (Hf name Hname). clear Hname.
  assert (0 <= mb_type b < 256 ^ Z.of_nat 2) as Htr by (each_type Ht; done).
  pose proof (Hget "type" 2%nat _ ltac:(apply Hf; rewrite !elem_of_cons; tauto) Gt Htr) as Qt.
  pose proof (Hget "len" 2%nat _ ltac:(apply Hf; rewrite !elem_of_cons; tauto) Gl ltac:(done)) as Ql.
  pose proof (Hget "rate" 4%nat _ ltac:(apply Hf; rewrite !elem_of_cons; tauto) Gr Hr) as Qr.
  pose proof (Hget "burst_size" 4%nat _ ltac:(apply Hf; rewrite !elem_of_cons; tauto) Gb Hb) as Qb.
  unfold meter_band_alloc, band_union. cbn [bu_type bu_len bu_rate bu_burst_size bu_prec_level bu_experimenter].
  rewrite Qt, Ql, Qr, Qb. unfold band_struct in E. unfold band_final, set_mb_len in *.
  destruct b as [ty len rate burst prec ex st].
  cbn [mb_type mb_len mb_rate mb_burst_size mb_prec_level mb_experimenter mb_stats] in *. subst st.
  destruct (ty =? OFPMBT_DROP) eqn:E1.
  { apply Z.eqb_eq in E1. subst ty. cbn in Hp, He. by subst prec ex. }
  destruct (ty =? OFPMBT_DSCP_REMARK) eqn:E2.
  { apply Z.eqb_eq in E2. subst ty. injection E as <-. cbn in He. subst ex. do 2 f_equal.
    exact (Hget "prec_level" 1%nat _ Hfp Gp Hp). }
  destruct (ty =? OFPMBT_EXPERIMENTER) eqn:E3; [|discriminate E].
  injection E as <-. subst prec. do 2 f_equal. exact (Hget "experimenter" 4%nat _ Hfe Ge He).
Qed.

(** *** Parsing what was encoded *)

Lemma meter_band_parse_law m name acc b rest :
  band_ok m -> band_struct (mb_type m) = Some name -> unread b (band_bytes m ++ rest) ->
  meter_band_parse name acc b = Done ((status_ok, acc ++ [band_final m]), adv 16 b).
Proof.
  intros Hok E Hu. destruct (band_structs name _ E) as (Hd & Hdec & _). pose proof (length_band_bytes m Hok) as Hlen.
  unfold band_bytes in *. rewrite E in *.
  destruct (struct_decode_wire name b ∅ (band_packet (band_final m)) rest Hd Hdec Hu) as (q & Hq & _ & Hin & _).
  unfold meter_band_parse. rewrite (bind_Done _ _ _ _ _ (on_fresh_Done _ _ _ _ _ Hq)). cbn [is_ok].
  rewrite (band_alloc_decoded m name q Hok E Hin), Hlen. done.
Qed.

Definition bands_ok : list meter_band -> Prop := Forall band_ok.

Lemma length_bands_bytes l : bands_ok l -> length (bands_bytes l) = (16 * length l)%nat.
Proof.
  induction 1 as [|m l Hm _ IH]; [done|]. cbn [bands_bytes flat_map length]. fold (bands_bytes l).
  rewrite length_app, length_band_bytes, IH by done. lia.
Qed.

Lemma bands_parse_loop_law l status acc b fuel :
  bands_ok l -> unread b (bands_bytes l) -> (length (bands_bytes l) < fuel)%nat ->
  ofp_band_parse_loop fuel status acc b =
  Done ((if decide (l = []) then status else status_ok, acc ++ map band_final l), adv (length (bands_bytes l)) b).
Proof.
  intros Hok. revert status acc b fuel. induction Hok as [|m l Hm Hok IH]; intros status acc b fuel Hu Hfuel;
    (destruct fuel as [|fuel]; [lia|]); cbn [ofp_band_parse_loop];
    rewrite (bind_Done _ _ _ (pb_plen b) b) by done.
  { destruct Hu as (_ & -> & _). cbn. by rewrite app_nil_r, adv_0. }
  cbn [bands_bytes flat_map map] in *. fold (bands_bytes l) in *. rewrite length_app, (length_band_bytes m Hm) in *.
  assert (pb_plen b = Z.of_nat (16 + length (bands_bytes l))) as Hp.
  { destruct Hu as (_ & -> & _). by rewrite length_app, (length_band_bytes m Hm). }
  rewrite (proj2 (Z.ltb_lt _ _)) by lia.
  destruct (band_bytes_split m Hm) as (body & Hsplit). pose proof Hu as Hu'. rewrite Hsplit, <- !app_assoc in Hu'.
  destruct (band_struct_some m Hm) as (name & E).
  rewrite (bind_Done _ _ _ _ _ (ofp_tlv_decode_sneak_peek _ _ _ _ Hu')). cbn [is_ok].
  assert (u16 (mb_type m) = mb_type m) as ->.
  { destruct Hm as (Ht & _). unfold u16. by each_type Ht. }
  rewrite (bind_Done _ _ _ (pb_getp b) b) by done. rewrite E.
  rewrite (bind_Done _ _ _ _ _ (meter_band_parse_law m name acc b _ Hm E Hu)).
  rewrite (bind_Done _ _ _ (pb_getp (adv 16 b)) (adv 16 b)) by done. cbn [is_ok fst status_ok].
  change (pb_getp (adv 16 b)) with (pb_getp b + Z.of_nat 16). change (u16 16) with (Z.of_nat 16). rewrite Z.eqb_refl.
  apply unread_adv in Hu. rewrite (length_band_bytes m Hm) in Hu.
  rewrite IH by (done || lia). rewrite adv_add, <- app_assoc.
  destruct (decide (l = [])), (decide (m :: l = [])); done.
Qed.

Lemma meter_band_encode_law m b :
  band_ok m -> fits 16 b ->
  meter_band_encode m b = Done ((LAGOPUS_RESULT_OK, band_final m), put (band_bytes m) b).
Proof.
  intros Hok Hf. destruct (band_struct_some m Hok) as (name & E). destruct (band_structs name _ E) as (Hd & _ & Hs & Hl & _).
  unfold meter_band_encode, band_bytes. rewrite E, Hs. change (set_mb_len (u16 16) m) with (band_final m).
  rewrite <- Hl in Hf. by rewrite (bind_Done _ _ _ _ _ (struct_encode name (band_packet (band_final m)) b Hd Hf)).
Qed.

Lemma bands_encode_loop_law l total b :
  bands_ok l -> 0 <= total -> total + Z.of_nat (length (bands_bytes l)) < 65536 -> fits (length (bands_bytes l)) b ->
  band_list_encode_loop l total b =
  Done ((LAGOPUS_RESULT_OK, total + Z.of_nat (length (bands_bytes l)), map band_final l), put (bands_bytes l) b).
Proof.
  intros Hok. revert total b. induction Hok as [|m l Hm Hok IH]; intros total b H0 Hlt Hf;
    cbn [bands_bytes flat_map map band_list_encode_loop] in *.
  { rewrite put_nil. by rewrite Z.add_0_r. }
  fold (bands_bytes l) in *. rewrite length_app, (length_band_bytes m Hm) in *.
  assert (fits 16 b) as Hf0 by (eapply fits_weaken; [exact Hf|lia]).
  rewrite (bind_Done _ _ _ _ _ (meter_band_encode_law m b Hm Hf0)). cbn [is_ok].
  change (mb_len (band_final m)) with 16. rewrite ofp_tlv_length_sum_ok by lia. cbn [is_ok].
  rewrite <- (length_band_bytes m Hm) in Hf.
  specialize (IH (total + 16) (put (band_bytes m) b) ltac:(lia) ltac:(lia) (put_fits _ _ _ Hf)).
  rewrite (bind_Done _ _ _ _ _ IH). rewrite put_app by (by eapply fits_putp). unfold mret, M_ret.
  by replace (total + 16 + _) with (total + Z.of_nat (16 + length (bands_bytes l))) by lia.
Qed.

(** ** Messages *)

Lemma meter_mod_struct :
  declared openflow13 "ofp_meter_mod" = true /\ decodable "ofp_meter_mod" = true.
Proof. split; vm_compute; reflexivity. Qed.

Definition meter_mod_message (pk : packet) (bands : bytes) : bytes := wire pk (fields "ofp_meter_mod" "") ++ bands.

(** C32: From the bytes to the meters.  What [ofp_band_list_encode] writes for a list of bands,
    behind the fixed part of a METER_MOD ADD or MODIFY, is handled by executing the command on the
    meter table of the channel's bridge with the same bands, their lengths set, and the message
    is consumed; but without a band the handler fails, executes nothing and reports no error to
    the controller. *)
Theorem meter_mod_message_handled dpid m pk bands b b' :
  exact "ofp_meter_mod" pk -> meter_mod_has_bands (pkt_get "command" 0 pk) = true ->
  ofp_meter_id_check (pkt_get "meter_id" 0 pk) = status_ok -> ofp_meter_flags_check (pkt_get "flags" 0 pk) = status_ok ->
  bands_ok bands -> Z.of_nat (length (bands_bytes bands)) < 65536 -> fits (length (bands_bytes bands)) b ->
  let message := meter_mod_message pk (bands_bytes bands) in
  unread b' message ->
  ofp_band_list_encode bands b =
    Done ((LAGOPUS_RESULT_OK, Z.of_nat (length (bands_bytes bands)), map band_final bands), put (bands_bytes bands) b) /\
  ofp_meter_mod_handle (Z.of_nat (length message)) dpid m b' =
    Done (if decide (bands = []) then ((LAGOPUS_RESULT_ANY_FAILURES, None), m)
          else meter_mod_command dpid (pkt_get "command" 0 pk) (meter_mod_view pk) (map band_final bands) m,
          adv (length message) b').
Proof.
  intros Hex Hcmd Hid Hflags Hbands Hlt Hf message Hu. split; [by apply (bands_encode_loop_law bands 0 b)|].
  destruct meter_mod_struct as [Hd Hdec]. unfold ofp_meter_mod_handle.
  rewrite (bind_Done _ _ _ LAGOPUS_RESULT_OK b'); cycle 1.
  { rewrite gets_Done, plen_check_ok; [done|]. destruct Hu as (_ & -> & _). lia. }
  cbn [is_ok]. unfold message, meter_mod_message in *.
  pose proof (on_fresh_Done _ _ _ _ _ (exact_decode _ b' pk _ Hd Hdec Hex Hu)) as E.
  rewrite (bind_Done _ _ _ _ _ E). cbn [is_ok]. apply unread_adv in Hu. rewrite length_app, <- adv_add.
  set (b1 := adv (length (wire pk _)) b') in *.
  change (mm_meter_id (meter_mod_view pk)) with (pkt_get "meter_id" 0 pk). rewrite Hid. cbn [is_ok fst status_ok].
  change (mm_flags (meter_mod_view pk)) with (pkt_get "flags" 0 pk). rewrite Hflags. cbn [is_ok fst status_ok].
  assert (length (bands_bytes bands) < S (Z.to_nat (pb_plen b1)))%nat as Hfuel by (destruct Hu as (_ & -> & _); lia).
  pose proof (bands_parse_loop_law bands (LAGOPUS_RESULT_ANY_FAILURES, None) [] b1 _ Hbands Hu Hfuel) as Hp.
  unfold ofp_band_parse. rewrite Hcmd.
  erewrite bind_Done; [|rewrite (bind_Done _ _ _ (pb_plen b1) b1) by done; exact Hp].
  by destruct (decide (bands = [])).
Qed.

(** ** Arbitrary messages *)

Lemma parses_meter_band U name type acc b l :
  msg b l -> band_struct type = Some name -> parses U (meter_band_parse name acc) b l (fun r k => is_ok r.1.1 = true -> (0 < k)%nat).
Proof.
  intros Hm E. destruct (band_structs name _ E) as (Hd & Hdec & Hs & _). unfold meter_band_parse.
  apply (parses_bind _ _ _ _ _ _ _ Hm (parses_decode U _ b l Hd Hdec Hm)).
  intros r k Hk [(pk & -> & Hkn & _)|(pk & -> & ->)] Hm'; cbn [is_ok]; [|by apply parses_ret].
  destruct (meter_band_alloc _); apply parses_ret; intros _; lia.
Qed.

Lemma parses_bands_loop U fuel status acc b l :
  msg b l -> (length l < fuel)%nat -> parses U (ofp_band_parse_loop fuel status acc) b l (fun _ _ => True).
Proof.
  revert status acc b l. induction fuel as [|fuel IH]; intros status acc b l Hm Hf; [lia|]. cbn [ofp_band_parse_loop].
  apply parses_gets. destruct (0 <? _); [|by apply parses_ret].
  apply parses_tlv; [done| |by apply parses_ret]. intros t n rest _ _ _. cbn [is_ok]. apply parses_gets.
  apply (parses_bind _ _ _ _ _ (fun (r : ofp_status * list meter_band) k => is_ok r.1.1 = true -> (0 < k)%nat)); [done| |].
  - destruct (band_struct t) as [name|] eqn:E; [by eapply parses_meter_band|by apply parses_ret].
  - intros [status' bl] k Hk Hpos Hm'. apply parses_gets. cbn [fst] in *.
    destruct (is_ok status'.1); [|by apply parses_ret]. specialize (Hpos eq_refl).
    destruct (_ =? _); [|by apply parses_ret]. apply IH; [done|rewrite length_drop; lia].
Qed.

Lemma meter_mod_command_inv dpid command meter_mod bl m :
  bridges_inv m -> bridges_inv (meter_mod_command dpid command meter_mod bl m).2.
Proof.
  intros Hm. unfold meter_mod_command, meter_mod_add, meter_mod_modify, meter_mod_delete, not_controller.
  destruct (command =? OFPMC_ADD); [|destruct (command =? OFPMC_MODIFY); [|destruct (command =? OFPMC_DELETE); [|done]]];
    (destruct (_ =? OFPM_CONTROLLER); [done|]);
    by first [apply meter_mod_add_inv|apply meter_mod_modify_inv|apply meter_mod_delete_inv].
Qed.

(** The invariant of all bridges, for any bytes. *)
Lemma meter_mod_handle_any U xid_length dpid m b l :
  bridges_inv m -> msg b l ->
  runs U False (ofp_meter_mod_handle xid_length dpid m) b (fun r => bridges_inv r.2).
Proof.
  intros Hm Hmsg. destruct meter_mod_struct as [Hd Hdec]. unfold ofp_meter_mod_handle. apply runs_gets.
  destruct (is_ok (pbuf_plen_check _ _)); [|by apply runs_ret].
  apply (runs_bind _ _ _ _ _ _ _ _ Hmsg (parses_decode U _ b l Hd Hdec Hmsg)).
  intros r k Hk [(pk & -> & _)|(pk & -> & ->)] Hm'; cbn [is_ok]; [|by apply runs_ret]. cbv zeta.
  destruct (is_ok (ofp_meter_id_check _).1); [|by apply runs_ret].
  destruct (is_ok (ofp_meter_flags_check _).1); [|by apply runs_ret].
  apply (runs_bind _ _ _ _ _ _ (fun _ _ => True) _ Hm').
  - unfold ofp_band_parse. destruct (meter_mod_has_bands _).
    + apply parses_gets. apply parses_bands_loop; [done|rewrite (msg_plen _ _ Hm'); lia].
    + apply parses_gets. unfold parses. destruct Hm' as [Hu _]. rewrite <- (app_nil_r (drop k l)) in Hu.
      rewrite (bind_Done _ _ _ _ _ (forward_adv (adv k b) (drop k l) [] (pbuf_plen_get (adv k b)) Hu
        ltac:(destruct Hu as (_ & Hp & _); unfold pbuf_plen_get; by rewrite Hp, app_nil_r))).
      unfold mret, M_ret. eauto.
  - intros [status bl] k' _ _ _. destruct (is_ok status.1); apply runs_ret; [by apply meter_mod_command_inv|done].
Qed.

Definition sample_meter_add : packet := Eval vm_compute in
  struct "ofp_meter_mod" [[4]; [29]; [0]; [7]; [OFPMC_ADD]; [OFPMF_KBPS]; [3]].
Definition sample_bands : list meter_band :=
  [MeterBand OFPMBT_DROP 0 1000 100 0 0 (0, 0); MeterBand OFPMBT_DSCP_REMARK 0 500 100 1 0 (0, 0)].

Theorem meter_mod_message_handled_witness :
  let message := meter_mod_message sample_meter_add (bands_bytes sample_bands) in
  let b := pbuf_plen_set 32 (pbuf_alloc 32) in
  unread (holding message) message /\
  ofp_band_list_encode sample_bands b =
    Done ((LAGOPUS_RESULT_OK, Z.of_nat (length (bands_bytes sample_bands)), map band_final sample_bands),
          put (bands_bytes sample_bands) b) /\
  ofp_meter_mod_handle (Z.of_nat (length message)) 1 one_bridge (holding message) =
    Done (if decide (sample_bands = []) then ((LAGOPUS_RESULT_ANY_FAILURES, None), one_bridge)
          else meter_mod_command 1 (pkt_get "command" 0 sample_meter_add) (meter_mod_view sample_meter_add)
                 (map band_final sample_bands) one_bridge,
          adv (length message) (holding message)).
Proof.
  intros message b. assert (unread (holding message) message) as Hu by (apply unread_holding; vm_compute; reflexivity).
  split; [exact Hu|]. apply meter_mod_message_handled.
  - apply exactb_spec. vm_compute. reflexivity.
  - vm_compute. reflexivity.
  - vm_compute. reflexivity.
  - vm_compute. reflexivity.
  - unfold bands_ok, sample_bands. apply Forall_cons; split; [|apply Forall_cons; split; [|constructor]];
      unfold band_ok; cbn; decided.
  - vm_compute. reflexivity.
  - replace (length (bands_bytes sample_bands)) with 32%nat by (vm_compute; reflexivity). apply (fits_alloc 32). lia.
  - exact Hu.
Defined.
