(* ===== verification/Role.v ===== *)
(** * Controller roles ([src/agent/ofp_role.c], [ofp_role_request_handler.c], [ofp_set_async_handler.c])

    The channels to the controllers, the lists of the channels of a bridge with their generation
    identifier (of [channel.c] and [channel_mgr.c], as far as roles need them), the requests of
    roles, and the filters for messages.  A channel is a reference into the store of channels; the
    channels of the lists are in the store. *)
From S2P Require Import Prelude Monad OpenFlow Hashmap Pbuf Generator OpenFlowH Tlv MatchCodec ActionCodec CodecSound.
From stdpp Require Import strings.
#[local] Open Scope Z_scope.

(** ** Data *)

Definition OFPCR_ROLE_NOCHANGE := 0.
Definition OFPCR_ROLE_EQUAL := 1.
Definition OFPCR_ROLE_MASTER := 2.
Definition OFPCR_ROLE_SLAVE := 3.

Definition OFPT_HELLO := 0.
Definition OFPT_ERROR := 1.
Definition OFPT_SET_CONFIG := 9.
Definition OFPT_PACKET_IN := 10.
Definition OFPT_FLOW_REMOVED := 11.
Definition OFPT_PORT_STATUS := 12.
Definition OFPT_PACKET_OUT := 13.
Definition OFPT_FLOW_MOD := 14.
Definition OFPT_GROUP_MOD := 15.
Definition OFPT_PORT_MOD := 16.
Definition OFPT_TABLE_MOD := 17.
Definition OFPT_ROLE_REQUEST := 24.
Definition OFPT_ROLE_REPLY := 25.
Definition OFPT_SET_ASYNC := 28.
Definition OFPT_METER_MOD := 29.

(** [struct channel], as far as it is used here; [ch_role_mask] is [struct ofp_async_config]. *)
Record channel := Channel {
  ch_dpid : Z;
  ch_version : Z;
  ch_role : Z;
  ch_role_mask : packet
}.

(** [struct channel_list] *)
Record channel_list := ChannelList {
  cl_channel_h : list nat;
  cl_generation_is_defined : bool;
  cl_generation_id : Z
}.

(** The store of channels and [dp_table] of the channel manager. *)
Record channels := Channels {
  cs_channels : gmap nat channel;
  cs_dp_table : hashmap channel_list
}.

Definition set_cs_channels (v : gmap nat channel) (cs : channels) : channels := Channels v (cs_dp_table cs).
Definition set_ch_role (role : Z) (c : channel) : channel := Channel (ch_dpid c) (ch_version c) role (ch_role_mask c).
Definition set_ch_role_mask (m : packet) (c : channel) : channel := Channel (ch_dpid c) (ch_version c) (ch_role c) m.

Definition channel_role_set (id : nat) (role : Z) (cs : channels) : channels :=
  set_cs_channels (alter (set_ch_role role) id (cs_channels cs)) cs.
Definition channel_role_mask_set (id : nat) (m : packet) (cs : channels) : channels :=
  set_cs_channels (alter (set_ch_role_mask m) id (cs_channels cs)) cs.

(** *** The channels of a bridge *)

Definition channel_mgr_channels_lookup_by_dpid (dpid : Z) (cs : channels) : lagopus_result * option channel_list :=
  lagopus_hashmap_find_no_lock (Some (cs_dp_table cs)) dpid.

(** [channel_list_iterate] with a function that succeeds. *)
Definition channel_list_iterate (f : channel -> channel) (l : channel_list) (cs : channels) : lagopus_result * channels :=
  match cl_channel_h l with
  | [] => (LAGOPUS_RESULT_NOT_OPERATIONAL, cs)
  | ids => (LAGOPUS_RESULT_OK, set_cs_channels (foldl (fun m id => alter f id m) (cs_channels cs) ids) cs)
  end.

Definition channel_mgr_dpid_iterate (dpid : Z) (f : channel -> channel) (cs : channels) : lagopus_result * channels :=
  match channel_mgr_channels_lookup_by_dpid dpid cs with
  | (LAGOPUS_RESULT_OK, Some l) => channel_list_iterate f l cs
  | (ret, _) => (ret, cs)
  end.

Definition channel_mgr_generation_id_get (dpid : Z) (cs : channels) : lagopus_result * option Z :=
  match channel_mgr_channels_lookup_by_dpid dpid cs with
  | (LAGOPUS_RESULT_OK, Some l) =>
      if cl_generation_is_defined l then (LAGOPUS_RESULT_OK, Some (cl_generation_id l))
      else (LAGOPUS_RESULT_NOT_DEFINED, None)
  | _ => (LAGOPUS_RESULT_NOT_FOUND, None)
  end.

Definition channel_mgr_generation_id_set (dpid gen : Z) (cs : channels) : lagopus_result * channels :=
  match channel_mgr_channels_lookup_by_dpid dpid cs with
  | (LAGOPUS_RESULT_OK, Some l) =>
      let t := cs_dp_table cs in
      (LAGOPUS_RESULT_OK,
       Channels (cs_channels cs)
         (Hashmap (<[dpid := ChannelList (cl_channel_h l) true gen]> (m_hashtable t)) (m_n_entries t)
            (m_is_operational t) (m_del_proc t)))
  | _ => (LAGOPUS_RESULT_NOT_FOUND, cs)
  end.

(** ** Changing roles *)

Definition change_master2slave (c : channel) : channel :=
  if ch_role c =? OFPCR_ROLE_MASTER then set_ch_role OFPCR_ROLE_SLAVE c else c.

(** The role of the request afterwards, and the channels. *)
Definition ofp_role_channel_update (id : nat) (c : channel) (role dpid : Z) (cs : channels) : Z * channels :=
  let current_role := ch_role c in
  if (role =? current_role) || (role =? OFPCR_ROLE_NOCHANGE) then (current_role, cs)
  else
    let cs := if current_role =? OFPCR_ROLE_MASTER then (channel_mgr_dpid_iterate dpid change_master2slave cs).2
              else cs in
    (role, channel_role_set id role cs).

(** The difference of two generation identifiers as a signed 64-bit number. *)
Definition distance (generation_id current_generation_id : Z) : Z :=
  s64 (u64 (generation_id - current_generation_id)).

Definition ofp_role_generation_id_check (dpid role generation_id : Z) (cs : channels) : bool * channels :=
  if negb (role =? OFPCR_ROLE_MASTER) && negb (role =? OFPCR_ROLE_SLAVE) then (true, cs)
  else
    let set :=
      let '(ret, cs') := channel_mgr_generation_id_set dpid generation_id cs in
      if is_ok ret then (true, cs') else (false, cs') in
    match channel_mgr_generation_id_get dpid cs with
    | (LAGOPUS_RESULT_OK, Some gen) => if distance generation_id gen <? 0 then (false, cs) else set
    | (LAGOPUS_RESULT_NOT_DEFINED, _) => set
    | _ => (false, cs)
    end.

Definition role_check (role : Z) : ofp_status :=
  if bool_decide (role ∈ [OFPCR_ROLE_NOCHANGE; OFPCR_ROLE_EQUAL; OFPCR_ROLE_MASTER; OFPCR_ROLE_SLAVE]) then status_ok
  else ofp_fail OFPET_ROLE_REQUEST_FAILED OFPRRFC_BAD_ROLE.

Definition ofp_header_packet (version type length xid : Z) : packet :=
  list_to_map [("header.version", [version]); ("header.type", [type]); ("header.length", [length]); ("header.xid", [xid])].

(** The reply in a fresh buffer. *)
Definition ofp_role_reply_create (version xid role generation_id : Z) : outcome (lagopus_result * pbuf) :=
  let size := sizeof openflow13 "ofp_role_request" in
  let b := pbuf_plen_set size (pbuf_alloc size) in
  encode openflow13 "ofp_role_request" ""
    (<["role" := [role]]> (<["generation_id" := [generation_id]]>
      (ofp_header_packet version OFPT_ROLE_REPLY (u16 (pbuf_plen_get b)) xid))) b.

(** The last component is the reply that is sent. *)
Definition ofp_role_request_handle (id : nat) (xid : Z) (cs : channels) : pm (ofp_status * channels * option pbuf) :=
  '(ret, pk) ← on_fresh (decode openflow13 "ofp_role_request" "");
  if is_ok ret then
    let role := pkt_get "role" 0 pk in
    let generation_id := pkt_get "generation_id" 0 pk in
    let status := role_check role in
    if is_ok status.1 then
      match cs_channels cs !! id with
      | None => undefined
      | Some c =>
          let '(fresh, cs) := ofp_role_generation_id_check (ch_dpid c) role generation_id cs in
          if fresh : bool then
            let '(role, cs) := ofp_role_channel_update id c role (ch_dpid c) cs in
            match ofp_role_reply_create (ch_version c) xid role generation_id with
            | Done (ret, reply) => mret ((ret, None), cs, if is_ok ret then Some reply else None)
            | Undefined => undefined
            | OutOfFuel => out_of_fuel
            end
          else mret (ofp_fail OFPET_ROLE_REQUEST_FAILED OFPRRFC_STALE, cs, None)
      end
    else mret (status, cs, None)
  else mret (ofp_fail OFPET_BAD_REQUEST OFPBRC_BAD_LEN, cs, None).

(** ** What a role may do *)

Definition slave_forbidden : list Z :=
  [OFPT_SET_CONFIG; OFPT_TABLE_MOD; OFPT_FLOW_MOD; OFPT_GROUP_MOD; OFPT_PORT_MOD; OFPT_METER_MOD; OFPT_PACKET_OUT;
   OFPT_PACKET_IN; OFPT_FLOW_REMOVED].

Definition ofp_role_check (c : channel) (type : Z) : bool :=
  if ch_role c =? OFPCR_ROLE_SLAVE then bool_decide (type ∉ slave_forbidden) else true.

(** Which asynchronous messages a channel gets. *)
Definition DEFAULT_REASON_MASK : Z := 0xffffffff.
Definition ofp_role_channel_mask_init : packet :=
  list_to_map [("header.version", [0]); ("header.type", [0]); ("header.length", [0]); ("header.xid", [0]);
               ("packet_in_mask", [DEFAULT_REASON_MASK; DEFAULT_REASON_MASK]);
               ("port_status_mask", [DEFAULT_REASON_MASK; DEFAULT_REASON_MASK]);
               ("flow_removed_mask", [DEFAULT_REASON_MASK; DEFAULT_REASON_MASK])].

(** A shift by 32 or more, or of the sign bit out of range, does not occur: [reason] is the code of
    a message the switch sends. *)
Definition ofp_role_channel_check_mask (role_mask : packet) (type reason role : Z) : bool :=
  let check role_num :=
    let reason_bitmap := u32 (Z.shiftl 1 reason) in
    if type =? OFPT_PACKET_IN then 0 <? Z.land reason_bitmap (pkt_get "packet_in_mask" role_num role_mask)
    else if type =? OFPT_FLOW_REMOVED then 0 <? Z.land reason_bitmap (pkt_get "flow_removed_mask" role_num role_mask)
    else if type =? OFPT_PORT_STATUS then 0 <? Z.land reason_bitmap (pkt_get "port_status_mask" role_num role_mask)
    else false in
  if (role =? OFPCR_ROLE_MASTER) || (role =? OFPCR_ROLE_EQUAL) then check 0%nat
  else if role =? OFPCR_ROLE_SLAVE then check 1%nat
  else false.

Definition ofp_set_async_handle (id : nat) (xid_length : Z) (cs : channels) : pm (ofp_status * channels) :=
  ret ← gets (pbuf_plen_check xid_length);
  if is_ok ret then
    '(ret, pk) ← on_fresh (decode openflow13 "ofp_async_config" "");
    if is_ok ret then mret (status_ok, channel_role_mask_set id pk cs)
    else mret (ofp_fail OFPET_BAD_REQUEST OFPBRC_BAD_LEN, cs)
  else mret (ofp_fail OFPET_BAD_REQUEST OFPBRC_BAD_LEN, cs).

(** ** Lemmas *)

Definition master_or_slave (role : Z) : bool := (role =? OFPCR_ROLE_MASTER) || (role =? OFPCR_ROLE_SLAVE).

(** A request is stale when its identifier is less than half the circle behind the last one. *)
Definition stale (l : channel_list) (generation_id : Z) : bool :=
  cl_generation_is_defined l && (2 ^ 63 <=? (generation_id - cl_generation_id l) mod 2 ^ 64).

Lemma distance_neg a b : (distance a b <? 0) = (2 ^ 63 <=? (a - b) mod 2 ^ 64).
Proof.
  unfold distance, s64, u64. pose proof (Z.mod_pos_bound (a - b) (2 ^ 64) ltac:(lia)) as Hb.
  set (x := (a - b) mod 2 ^ 64) in *. clearbody x.
  destruct (Z.leb_spec (2 ^ 63) x).
  - rewrite <- (Z.mod_unique (x + 2 ^ 63) (2 ^ 64) 1 (x - 2 ^ 63)) by lia. apply Z.ltb_lt. lia.
  - rewrite Z.mod_small by lia. apply Z.ltb_ge. lia.
Qed.

Lemma channels_lookup dpid l cs :
  m_is_operational (cs_dp_table cs) = true -> m_hashtable (cs_dp_table cs) !! dpid = Some l ->
  channel_mgr_channels_lookup_by_dpid dpid cs = (LAGOPUS_RESULT_OK, Some l).
Proof. intros H1 H2. unfold channel_mgr_channels_lookup_by_dpid, lagopus_hashmap_find_no_lock, s_find. by rewrite H1, H2. Qed.

(** Setting the generation identifier of the bridge. *)
Definition with_generation (dpid gen : Z) (cs : channels) : channels := (channel_mgr_generation_id_set dpid gen cs).2.

Lemma generation_id_check_spec dpid l role gen cs :
  m_is_operational (cs_dp_table cs) = true -> m_hashtable (cs_dp_table cs) !! dpid = Some l ->
  ofp_role_generation_id_check dpid role gen cs =
  if master_or_slave role then
    if stale l gen then (false, cs) else (true, with_generation dpid gen cs)
  else (true, cs).
Proof.
  intros H1 H2. pose proof (channels_lookup dpid l cs H1 H2) as Hl.
  unfold ofp_role_generation_id_check, master_or_slave, stale, with_generation.
  rewrite <- negb_orb. destruct (_ || _); [|done]. cbn [negb].
  unfold channel_mgr_generation_id_get, channel_mgr_generation_id_set. rewrite Hl.
  destruct (cl_generation_is_defined l); [|done]. rewrite distance_neg. cbn [andb]. by destruct (_ <=? _).
Qed.

Lemma with_generation_channels dpid gen cs : cs_channels (with_generation dpid gen cs) = cs_channels cs.
Proof. unfold with_generation, channel_mgr_generation_id_set. by destruct (channel_mgr_channels_lookup_by_dpid dpid cs) as [[] []]. Qed.

(** A channel is left alone, or is a master that becomes a slave. *)
Definition kept_or_demoted (c c' : channel) : Prop :=
  c' = c \/ (ch_role c = OFPCR_ROLE_MASTER /\ c' = set_ch_role OFPCR_ROLE_SLAVE c).

Lemma demote_kept c : kept_or_demoted c (change_master2slave c).
Proof. unfold change_master2slave. destruct (Z.eqb_spec (ch_role c) OFPCR_ROLE_MASTER); [by right|by left]. Qed.

Lemma change_master2slave_idem c : change_master2slave (change_master2slave c) = change_master2slave c.
Proof.
  unfold change_master2slave at 2 3. destruct (ch_role c =? OFPCR_ROLE_MASTER) eqn:E; unfold change_master2slave; [done|by rewrite E].
Qed.

Lemma demote_all ids (m : gmap nat channel) id :
  foldl (fun m id => alter change_master2slave id m) m ids !! id =
  if decide (id ∈ ids) then change_master2slave <$> m !! id else m !! id.
Proof.
  revert m. induction ids as [|i ids IH]; intros m; cbn [foldl]; [done|]. rewrite IH.
  destruct (decide (i = id)) as [->|Hne].
  - rewrite lookup_alter_eq. rewrite (decide_True (P := id ∈ id :: ids)) by set_solver.
    destruct (decide (id ∈ ids)); [|done]. rewrite <- option_fmap_compose. destruct (m !! id) as [c|]; [|done].
    cbn. by rewrite change_master2slave_idem.
  - rewrite lookup_alter_ne by done. destruct (decide (id ∈ ids)), (decide (id ∈ i :: ids)); set_solver.
Qed.

(** What an update of a role does to every channel. *)
Definition update_ids (dpid : Z) (cs : channels) : list nat :=
  match channel_mgr_channels_lookup_by_dpid dpid cs with
  | (LAGOPUS_RESULT_OK, Some l) => cl_channel_h l
  | _ => []
  end.

Lemma dpid_iterate_lookup dpid cs id :
  cs_channels (channel_mgr_dpid_iterate dpid change_master2slave cs).2 !! id =
  if decide (id ∈ update_ids dpid cs) then change_master2slave <$> cs_channels cs !! id else cs_channels cs !! id.
Proof.
  unfold channel_mgr_dpid_iterate, update_ids.
  destruct (channel_mgr_channels_lookup_by_dpid dpid cs) as [[] [l|]]; try done.
  unfold channel_list_iterate. destruct (cl_channel_h l) as [|i ids]; [done|]. cbn [snd cs_channels set_cs_channels].
  apply demote_all.
Qed.

Lemma role_channel_update_spec id c role dpid cs :
  cs_channels cs !! id = Some c -> role ∈ [OFPCR_ROLE_NOCHANGE; OFPCR_ROLE_EQUAL; OFPCR_ROLE_MASTER; OFPCR_ROLE_SLAVE] ->
  let '(role', cs') := ofp_role_channel_update id c role dpid cs in
  role' = (if role =? OFPCR_ROLE_NOCHANGE then ch_role c else role) /\
  ch_role <$> cs_channels cs' !! id = Some role' /\
  (forall id' c', id' <> id -> cs_channels cs !! id' = Some c' ->
   exists c'', cs_channels cs' !! id' = Some c'' /\ kept_or_demoted c' c'' /\
     (ch_role c <> OFPCR_ROLE_MASTER \/ role' = OFPCR_ROLE_MASTER -> c'' = c')).
Proof.
  intros Hc Hr. unfold ofp_role_channel_update. destruct (Z.eqb_spec role OFPCR_ROLE_NOCHANGE) as [->|Hn].
  { rewrite orb_true_r. split_and!; [done|by rewrite Hc|]. intros id' c' _ ->. exists c'. split_and!; [done|by left|done]. }
  rewrite orb_false_r. destruct (Z.eqb_spec role (ch_role c)) as [->|Hch].
  { split_and!; [done|by rewrite Hc|]. intros id' c' _ ->. exists c'. split_and!; [done|by left|done]. }
  split_and!; [done| |].
  - cbn [channel_role_set set_cs_channels cs_channels]. rewrite lookup_alter_eq.
    destruct (ch_role c =? OFPCR_ROLE_MASTER); [|by rewrite Hc].
    rewrite dpid_iterate_lookup, Hc. by destruct (decide _).
  - intros id' c' Hne Hc'. cbn [channel_role_set set_cs_channels cs_channels]. rewrite lookup_alter_ne by done.
    destruct (Z.eqb_spec (ch_role c) OFPCR_ROLE_MASTER) as [Hm|Hm].
    + rewrite dpid_iterate_lookup, Hc'. destruct (decide _).
      * exists (change_master2slave c'). split_and!; [done|apply demote_kept|]. intros [?|Hrole]; congruence.
      * exists c'. split_and!; [done|by left|done].
    + exists c'. split_and!; [done|by left|done].
Qed.

Lemma role_channel_update_table id c role dpid cs :
  cs_dp_table (ofp_role_channel_update id c role dpid cs).2 = cs_dp_table cs.
Proof.
  unfold ofp_role_channel_update. destruct (_ || _); [done|]. destruct (_ =? OFPCR_ROLE_MASTER); [|done].
  unfold channel_mgr_dpid_iterate. destruct (channel_mgr_channels_lookup_by_dpid dpid cs) as [[] [l|]]; try done.
  unfold channel_list_iterate. by destruct (cl_channel_h l).
Qed.

(** *** The reply *)

Lemma role_request_struct :
  declared openflow13 "ofp_role_request" = true /\ decodable "ofp_role_request" = true /\
  sizeof openflow13 "ofp_role_request" = 24 /\ leaves_size (fields "ofp_role_request" "") = 24%nat.
Proof. split_and!; vm_compute; reflexivity. Qed.

Definition role_reply_packet (version xid role generation_id : Z) : packet :=
  <["role" := [role]]> (<["generation_id" := [generation_id]]> (ofp_header_packet version OFPT_ROLE_REPLY 24 xid)).

Lemma role_reply_create_spec version xid role generation_id :
  ofp_role_reply_create version xid role generation_id =
  Done (LAGOPUS_RESULT_OK,
        put (wire (role_reply_packet version xid role generation_id) (fields "ofp_role_request" ""))
          (pbuf_plen_set 24 (pbuf_alloc 24))).
Proof.
  destruct role_request_struct as (Hd & _ & Hs & Hl). unfold ofp_role_reply_create. rewrite Hs.
  change (u16 (pbuf_plen_get (pbuf_plen_set 24 (pbuf_alloc 24)))) with 24. apply struct_encode; [done|].
  rewrite Hl. unfold pbuf_alloc. change (24 <? PBUF_MIN_SIZE) with true. cbv iota.
  unfold fits, writable, pbuf_reset, pbuf_plen_set, set_pb_plen, set_pb_putp, set_pb_getp.
  cbn [pb_putp pb_plen pb_data]. rewrite length_replicate. unfold PBUF_MIN_SIZE. lia.
Qed.

(** ** Properties *)


(** *** Two masters

    The comment in [ofp_role_channel_update] says that every other master becomes a slave; the code
    does this when the channel that changes its role was the master before, not when it becomes it. *)
Definition two_channels : channels :=
  Channels {[ 0%nat := Channel 1 4 OFPCR_ROLE_MASTER ofp_role_channel_mask_init;
              1%nat := Channel 1 4 OFPCR_ROLE_EQUAL ofp_role_channel_mask_init ]}
    (Hashmap {[ 1 := ChannelList [1%nat; 0%nat] true 5 ]} 1 true true).

Definition master_request : bytes := [4; 24; 0; 24; 0; 0; 0; 9; 0; 0; 0; 2; 0; 0; 0; 0; 0; 0; 0; 0; 0; 0; 0; 6].

Theorem two_masters :
  exists cs reply b', ofp_role_request_handle 1 9 two_channels (Pbuf 1 24 0 24 24 master_request) =
      Done ((status_ok, cs, Some reply), b') /\
    ch_role <$> cs_channels cs !! 0%nat = Some OFPCR_ROLE_MASTER /\
    ch_role <$> cs_channels cs !! 1%nat = Some OFPCR_ROLE_MASTER.
Proof. do 3 eexists. split; [vm_compute; reflexivity|]. split; vm_compute; reflexivity. Qed.

