(* ===== verification/OfpHandler.v ===== *)
(** * Messages from the controllers ([s_process_channelq_entry] of [src/agent/ofp_handler.c])

    A message of a channel is checked (length, version, role of the channel) and dispatched by its
    type.  Modelled are the messages that change the tables (FLOW_MOD, GROUP_MOD, METER_MOD), the
    requests of roles, the masks of asynchronous messages, and the types that are refused; for
    the other types the result is [None].  Sending replies and errors is not modelled. *)
From S2P Require Import Prelude Monad OpenFlow Hashmap Group FlowEntry FlowinfoIntf Bridge FlowDB FlowDBInv FlowDBSpec FlowDBRun.
From S2P Require Import Pbuf Generator OpenFlowH Tlv MatchCodec ActionCodec InstructionCodec CodecSound Datapath.
From S2P Require Import FlowModHandler BucketCodec GroupModHandler MeterModHandler Role.
From stdpp Require Import strings.
#[local] Open Scope Z_scope.

(** ** The handler *)

(** The bridges, the protocol version of each, and the channels. *)
Record agent := Agent {
  ag_bridges : bridges;
  ag_versions : gmap Z Z;
  ag_channels : channels
}.

Definition set_ag_bridges (v : bridges) (ag : agent) : agent := Agent v (ag_versions ag) (ag_channels ag).
Definition set_ag_channels (v : channels) (ag : agent) : agent := Agent (ag_bridges ag) (ag_versions ag) v.

Definition ofp_header_version_check (ag : agent) (c : channel) (version : Z) : bool :=
  match ag_versions ag !! ch_dpid c with
  | Some bridge_ofp_version => bridge_ofp_version =? version
  | None => false
  end.

Definition s_ofp_version_check (ag : agent) (c : channel) (type version : Z) : bool :=
  (type =? OFPT_HELLO) || (type =? OFPT_ERROR) || ofp_header_version_check ag c version.

(** Types that only the switch sends, and those that are not defined. *)
Definition unsupported_types : list Z := [6; 8; OFPT_PACKET_IN; OFPT_FLOW_REMOVED; OFPT_PORT_STATUS; 19; 21; 23; OFPT_ROLE_REPLY; 27].
Definition OFPT_EXPERIMENTER := 4.

Definition ofp_unsupported_handle : ofp_status := ofp_fail OFPET_BAD_REQUEST OFPBRC_BAD_TYPE.
Definition ofp_bad_experimenter_handle : ofp_status := ofp_fail OFPET_BAD_REQUEST OFPBRC_BAD_EXPERIMENTER.

Definition with_bridges (ag : agent) (m : pm (ofp_status * bridges)) : pm (option (ofp_status * agent)) :=
  '(status, bridges) ← m; mret (Some (status, set_ag_bridges bridges ag)).

(** The start of the message, kept for an error ([channel_pbuf_list_get] gives an empty buffer of
    at least this size); the message stays as it is. *)
Definition OFP_ERROR_MAX_SIZE := 64.

Definition copy_request : pm (lagopus_result * pbuf) := fun b =>
  match pbuf_copy_with_length b OFP_ERROR_MAX_SIZE (pbuf_alloc OFP_ERROR_MAX_SIZE) with
  | Done (ret, req) => Done ((ret, req), b)
  | Undefined => Undefined
  | OutOfFuel => OutOfFuel
  end.

(** [None]: the handler of this type is not modelled. *)
Definition ofp_dispatch (fuel id : nat) (c : channel) (type length xid : Z) (ag : agent) : pm (option (ofp_status * agent)) :=
  if type =? OFPT_FLOW_MOD then with_bridges ag (ofp_flow_mod_handle (ch_version c) (ch_dpid c) (ag_bridges ag))
  else if type =? OFPT_GROUP_MOD then with_bridges ag (ofp_group_mod_handle fuel (ch_dpid c) (ag_bridges ag))
  else if type =? OFPT_METER_MOD then with_bridges ag (ofp_meter_mod_handle length (ch_dpid c) (ag_bridges ag))
  else if type =? OFPT_ROLE_REQUEST then
    '(status, cs, _) ← ofp_role_request_handle id xid (ag_channels ag);
    mret (Some (status, set_ag_channels cs ag))
  else if type =? OFPT_SET_ASYNC then
    '(status, cs) ← ofp_set_async_handle id length (ag_channels ag);
    mret (Some (status, set_ag_channels cs ag))
  else if type =? OFPT_EXPERIMENTER then mret (Some (ofp_bad_experimenter_handle, ag))
  else if bool_decide (type ∈ unsupported_types) || (OFPT_METER_MOD <? type) then mret (Some (ofp_unsupported_handle, ag))
  else mret None.

(** [fuel] bounds the search for loops among groups. *)
Definition s_process_channelq_entry (fuel id : nat) (ag : agent) : pm (option (ofp_status * agent)) :=
  match cs_channels (ag_channels ag) !! id with
  | None => undefined
  | Some c =>
      '(ret, req) ← copy_request;
      if negb (is_ok ret) then mret (Some (ofp_fail OFPET_BAD_REQUEST OFPBRC_BAD_LEN, ag)) else
      '(ret, header) ← on_fresh (decode_sneak openflow13 "ofp_header" "");
      if negb (is_ok ret) then mret (Some (ofp_fail OFPET_BAD_REQUEST OFPBRC_BAD_LEN, ag)) else
      let length := pkt_get "length" 0 header in
      ret ← gets (pbuf_plen_equal_check length);
      if negb (is_ok ret) then mret (Some (ofp_fail OFPET_BAD_REQUEST OFPBRC_BAD_LEN, ag)) else
      let type := pkt_get "type" 0 header in
      if negb (s_ofp_version_check ag c type (pkt_get "version" 0 header)) then
        mret (Some (ofp_fail OFPET_BAD_REQUEST OFPBRC_BAD_VERSION, ag))
      else if negb (ofp_role_check c type) then mret (Some (ofp_fail OFPET_BAD_REQUEST OFPBRC_IS_SLAVE, ag))
      else ofp_dispatch fuel id c type length (pkt_get "xid" 0 header) ag
  end.

(** The messages of the queue, in order; [None] after a type that is not modelled. *)
Fixpoint process_queue (fuel : nat) (queue : list (nat * pbuf)) (ag : agent) : outcome (option agent) :=
  match queue with
  | [] => Done (Some ag)
  | (id, b) :: queue' =>
      match s_process_channelq_entry fuel id ag b with
      | Done (Some (_, ag), _) => process_queue fuel queue' ag
      | Done (None, _) => Done None
      | Undefined => Undefined
      | OutOfFuel => OutOfFuel
      end
  end.

(** ** Lemmas *)

Lemma header_struct :
  declared openflow13 "ofp_header" = true /\ decodable "ofp_header" = true /\ sizeof openflow13 "ofp_header" = 8 /\
  leaves_size (fields "ofp_header" "") = 8%nat.
Proof. split_and!; vm_compute; reflexivity. Qed.

Lemma copy_request_Done b l :
  unread b l -> pb_putp b = pb_getp b + Z.of_nat (length l) ->
  copy_request b = Done ((LAGOPUS_RESULT_OK, appended (take 64 l) (pbuf_alloc OFP_ERROR_MAX_SIZE)), b).
Proof.
  intros Hu Hp. unfold copy_request. rewrite (copy_with_length_prefix b l); [done|done|done|done|done|].
  unfold OFP_ERROR_MAX_SIZE, pbuf_alloc, pbuf_reset, PBUF_MIN_SIZE. cbn. lia.
Qed.

(** Reading the header takes nothing. *)
Lemma header_sneak b l :
  msg b l ->
  exists ret pk, on_fresh (decode_sneak openflow13 "ofp_header" "") b = Done ((ret, pk), b).
Proof.
  intros [Hu Hok]. destruct header_struct as (Hd & Hdec & Hs & Hl).
  destruct (decide (length l < 8)%nat) as [Hlt|Hge].
  - destruct (decode_short openflow13 "ofp_header" "" b ∅ Hd) as [_ H].
    { rewrite Hs. destruct Hu as (_ & -> & _). lia. }
    do 2 eexists. by apply on_fresh_Done.
  - rewrite <- (take_drop 8 l) in Hu.
    destruct (struct_decode "ofp_header" b ∅ (take 8 l) (drop 8 l) Hd Hdec Hu) as [_ H].
    { rewrite Hl, length_take. lia. }
    { by apply Forall_take. }
    do 2 eexists. by apply on_fresh_Done.
Qed.

Definition agent_inv (ag : agent) : Prop := bridges_inv (ag_bridges ag).

(** A message as it is in the buffer of a channel, with a margin behind it. *)
Definition received (b : pbuf) (l : bytes) : Prop :=
  bytes_ok (pb_data b) /\ unread b l /\ pb_putp b = pb_getp b + Z.of_nat (length l) /\
  pb_getp b + Z.of_nat (length l) + 258 <= Z.of_nat (length (pb_data b)).

(** The channels that exist. *)
Definition channel_ids (ag : agent) : gset nat := dom (cs_channels (ag_channels ag)).

(** The invariant holds afterwards, and the channels are the same. *)
Definition keeps (ids : gset nat) (r : option (ofp_status * agent)) : Prop :=
  match r with Some (_, ag) => agent_inv ag /\ channel_ids ag = ids | None => True end.

(** The search for loops among the groups of the bridges may not end. *)
Definition endless_groups (fuel : nat) (m : bridges) : Prop :=
  exists dpid group_mod bl, dp_group_mod_add fuel dpid group_mod bl m = None.

Lemma with_bridges_runs U F ag m b :
  runs U F m b (fun r => bridges_inv r.2) -> runs U F (with_bridges ag m) b (keeps (channel_ids ag)).
Proof.
  unfold runs, with_bridges, mbind, M_bind. destruct (m b) as [[[status br] b']| |]; done.
Qed.

Lemma dpid_iterate_ids dpid f cs : dom (cs_channels (channel_mgr_dpid_iterate dpid f cs).2) = dom (cs_channels cs).
Proof.
  unfold channel_mgr_dpid_iterate. destruct (channel_mgr_channels_lookup_by_dpid dpid cs) as [[] [l|]]; try done.
  unfold channel_list_iterate. destruct (cl_channel_h l) as [|i ids]; [done|]. cbn [snd cs_channels set_cs_channels].
  generalize (cs_channels cs) as m, (i :: ids) as js. intros m js. revert m.
  induction js as [|j js IH]; intros m; cbn [foldl]; [done|]. by rewrite IH, dom_alter_L.
Qed.

Lemma role_channel_update_ids id c role dpid cs :
  dom (cs_channels (ofp_role_channel_update id c role dpid cs).2) = dom (cs_channels cs).
Proof.
  unfold ofp_role_channel_update. destruct (_ || _); [done|]. cbn [snd channel_role_set set_cs_channels cs_channels].
  rewrite dom_alter_L. destruct (_ =? OFPCR_ROLE_MASTER); [apply dpid_iterate_ids|done].
Qed.

Lemma generation_id_check_channels dpid role gen cs :
  cs_channels (ofp_role_generation_id_check dpid role gen cs).2 = cs_channels cs.
Proof.
  unfold ofp_role_generation_id_check, channel_mgr_generation_id_get, channel_mgr_generation_id_set.
  destruct (_ && _); [done|]. destruct (channel_mgr_channels_lookup_by_dpid dpid cs) as [[] [l|]]; try done.
  destruct (cl_generation_is_defined l); [|done]. by destruct (_ <? 0).
Qed.

Lemma role_request_runs U F id xid ag b l :
  msg b l -> is_Some (cs_channels (ag_channels ag) !! id) -> agent_inv ag ->
  runs U F ('(status, cs, _) ← ofp_role_request_handle id xid (ag_channels ag); mret (Some (status, set_ag_channels cs ag))) b
    (keeps (channel_ids ag)).
Proof.
  intros Hm [c Hc] Hi. destruct role_request_struct as (Hd & Hdec & _).
  apply (runs_bind _ _ _ _ _ _ (fun r _ => dom (cs_channels r.1.2) = channel_ids ag) _ Hm).
  2: { intros [[status cs] reply] k _ Hids _. by apply runs_ret. }
  unfold ofp_role_request_handle.
  apply (parses_bind _ _ _ _ _ _ _ Hm (parses_decode U _ b l Hd Hdec Hm)).
  intros r k _ [(pk & -> & _)|(pk & -> & ->)] Hm'; cbn [is_ok]; [|by apply parses_ret].
  destruct (is_ok (role_check _).1); [|by apply parses_ret]. rewrite Hc.
  pose proof (generation_id_check_channels (ch_dpid c) (pkt_get "role" 0 pk) (pkt_get "generation_id" 0 pk) (ag_channels ag)) as Hg.
  destruct (ofp_role_generation_id_check _ _ _ _) as [[] cs1]; cbn [snd] in Hg; cycle 1.
  { apply parses_ret. cbn. by rewrite Hg. }
  pose proof (role_channel_update_ids id c (pkt_get "role" 0 pk) (ch_dpid c) cs1) as Hids.
  destruct (ofp_role_channel_update _ _ _ _ _) as [role cs2]. rewrite role_reply_create_spec. apply parses_ret.
  cbn [snd fst] in *. by rewrite Hids, Hg.
Qed.

Lemma set_async_runs U F id length ag b l :
  msg b l -> agent_inv ag ->
  runs U F ('(status, cs) ← ofp_set_async_handle id length (ag_channels ag); mret (Some (status, set_ag_channels cs ag))) b
    (keeps (channel_ids ag)).
Proof.
  intros Hm Hi. assert (declared openflow13 "ofp_async_config" = true /\ decodable "ofp_async_config" = true) as [Hd Hdec]
    by (split; vm_compute; reflexivity).
  apply (runs_bind _ _ _ _ _ _ (fun r _ => dom (cs_channels r.2) = channel_ids ag) _ Hm).
  2: { intros [status cs] k _ Hids _. by apply runs_ret. }
  unfold ofp_set_async_handle. apply parses_gets. destruct (is_ok _); [|by apply parses_ret].
  apply (parses_bind _ _ _ _ _ _ _ Hm (parses_decode U _ b l Hd Hdec Hm)).
  intros [ret pk] k _ _ _. destruct (is_ok ret); apply parses_ret; [|done]. apply dom_alter_L.
Qed.

(** The fields of the header of a message. *)
Definition msg_version (l : bytes) : Z := nth 0 l 0.
Definition msg_type (l : bytes) : Z := nth 1 l 0.
Definition msg_length (l : bytes) : Z := be_val (take 2 (drop 2 l)).
Definition msg_xid (l : bytes) : Z := be_val (take 4 (drop 4 l)).

Lemma ofp_header_fields :
  fields "ofp_header" "" = [("version", 1%nat, 1%nat); ("type", 1%nat, 1%nat); ("length", 2%nat, 1%nat); ("xid", 4%nat, 1%nat)].
Proof. vm_compute. reflexivity. Qed.

Lemma header_sneak_long b l :
  msg b l -> (8 <= length l)%nat ->
  exists pk, on_fresh (decode_sneak openflow13 "ofp_header" "") b = Done ((LAGOPUS_RESULT_OK, pk), b) /\
    pkt_get "version" 0 pk = msg_version l /\ pkt_get "type" 0 pk = msg_type l /\ pkt_get "length" 0 pk = msg_length l /\
    pkt_get "xid" 0 pk = msg_xid l.
Proof.
  intros [Hu Hok] Hlen. destruct header_struct as (Hd & Hdec & Hs & Hl).
  rewrite <- (take_drop 8 l) in Hu.
  destruct (struct_decode "ofp_header" b ∅ (take 8 l) (drop 8 l) Hd Hdec Hu) as [_ H].
  { rewrite Hl, length_take. lia. }
  { by apply Forall_take. }
  eexists. split; [by apply on_fresh_Done|]. rewrite ofp_header_fields.
  do 8 (destruct l as [|? l]; [cbn in Hlen; lia|]). unfold msg_version, msg_type, msg_length, msg_xid.
  split_and!; [etrans; [|apply be_val_1]|etrans; [|apply be_val_1]|..]; vm_compute; reflexivity.
Qed.

(** What the checks of a message from the channel [c] answer, before it is dispatched. *)
Definition refusal (ag : agent) (c : channel) (l : bytes) : option ofp_status :=
  if (length l <? 8)%nat || negb (Z.of_nat (length l) =? msg_length l) then Some (ofp_fail OFPET_BAD_REQUEST OFPBRC_BAD_LEN)
  else if negb (s_ofp_version_check ag c (msg_type l) (msg_version l)) then
    Some (ofp_fail OFPET_BAD_REQUEST OFPBRC_BAD_VERSION)
  else if negb (ofp_role_check c (msg_type l)) then Some (ofp_fail OFPET_BAD_REQUEST OFPBRC_IS_SLAVE)
  else None.

Lemma entry_refusal fuel id ag c b l :
  cs_channels (ag_channels ag) !! id = Some c -> received b l ->
  s_process_channelq_entry fuel id ag b =
  match refusal ag c l with
  | Some status => Done (Some (status, ag), b)
  | None => ofp_dispatch fuel id c (msg_type l) (msg_length l) (msg_xid l) ag b
  end.
Proof.
  intros Hc (Hdata & Hu & Hp & _). assert (msg b l) as Hm by (split; [done|by eapply unread_bytes_ok]).
  unfold s_process_channelq_entry, refusal. rewrite Hc, (bind_Done _ _ _ _ _ (copy_request_Done b l Hu Hp)). cbn [is_ok negb].
  destruct (Nat.ltb_spec (length l) 8) as [Hlt|Hge].
  - destruct header_struct as (Hd & _ & Hs & _).
    destruct (decode_short openflow13 "ofp_header" "" b ∅ Hd) as [_ H].
    { rewrite Hs. destruct Hu as (_ & -> & _). lia. }
    by rewrite (bind_Done _ _ _ _ _ (on_fresh_Done _ _ _ _ _ H)).
  - destruct (header_sneak_long b l Hm Hge) as (pk & E & Ev & Et & El & Ex). rewrite (bind_Done _ _ _ _ _ E). cbn [is_ok negb orb].
    rewrite Ev, Et, El, Ex. unfold gets at 1. rewrite (bind_Done _ _ _ _ _ eq_refl). unfold pbuf_plen_equal_check.
    destruct Hu as (_ & -> & _). destruct (_ =? msg_length l); [|done]. cbn [negb is_ok].
    destruct (s_ofp_version_check _ _ _ _); [|done]. cbn [negb]. by destruct (ofp_role_check _ _).
Qed.

(** A FLOW_MOD or GROUP_MOD message with an action that is too short. *)
Definition short_action_in (l : bytes) : Prop :=
  (msg_type l = OFPT_FLOW_MOD /\ flow_mod_short l) \/ (msg_type l = OFPT_GROUP_MOD /\ group_mod_short l).

Lemma dispatch_runs fuel id c length' xid ag b l :
  agent_inv ag -> is_Some (cs_channels (ag_channels ag) !! id) -> received b l ->
  runs (short_action_in l) (endless_groups fuel (ag_bridges ag)) (ofp_dispatch fuel id c (msg_type l) length' xid ag) b
    (keeps (channel_ids ag)).
Proof.
  intros Hi Hid (Hdata & Hu & Hp & Hend). assert (msg b l) as Hm by (split; [done|by eapply unread_bytes_ok]).
  unfold ofp_dispatch.
  destruct (Z.eqb_spec (msg_type l) OFPT_FLOW_MOD) as [Et|_].
  { apply with_bridges_runs. pose proof (flow_mod_handle_any (short_action_in l) (ch_version c) (ch_dpid c)
      (ag_bridges ag) b l Hi Hdata Hu (fun H => or_introl (conj Et H)) Hend) as H.
    unfold runs in *. by destruct (ofp_flow_mod_handle _ _ _ b) as [[]| |]. }
  destruct (Z.eqb_spec (msg_type l) OFPT_GROUP_MOD) as [Et|_].
  { apply with_bridges_runs, (group_mod_handle_any _ _ _ _ _ _ l); [done|done|intros H; by right|].
    intros group_mod bl Hn. by exists (ch_dpid c), group_mod, bl. }
  destruct (_ =? OFPT_METER_MOD).
  { apply with_bridges_runs. pose proof (meter_mod_handle_any (short_action_in l) length' (ch_dpid c)
      (ag_bridges ag) b l Hi Hm) as H.
    unfold runs in *. by destruct (ofp_meter_mod_handle _ _ _ b) as [[]| |]. }
  destruct (_ =? OFPT_ROLE_REQUEST); [by eapply role_request_runs|].
  destruct (_ =? OFPT_SET_ASYNC); [by eapply set_async_runs|].
  destruct (_ =? OFPT_EXPERIMENTER); [done|]. by destruct (_ || _).
Qed.

Lemma entry_runs fuel id ag b l :
  agent_inv ag -> is_Some (cs_channels (ag_channels ag) !! id) -> received b l ->
  runs (short_action_in l) (endless_groups fuel (ag_bridges ag)) (s_process_channelq_entry fuel id ag) b
    (keeps (channel_ids ag)).
Proof.
  intros Hi Hid Hr. pose proof Hid as [c Hc]. unfold runs. rewrite (entry_refusal fuel id ag c b l Hc Hr).
  destruct (refusal ag c l); [done|]. by apply dispatch_runs.
Qed.

(** ** Properties *)


(** C13: A slave cannot change the switch.  A message of a type that is reserved for masters and
    equal controllers is answered with an error whatever its contents, and nothing changes: the
    error is "is slave" exactly if the length and the version of the message are right. *)
Theorem slave_cannot_modify fuel id ag c b l :
  cs_channels (ag_channels ag) !! id = Some c -> ch_role c = OFPCR_ROLE_SLAVE ->
  received b l -> (2 <= length l)%nat -> msg_type l ∈ slave_forbidden ->
  exists code, s_process_channelq_entry fuel id ag b = Done (Some (ofp_fail OFPET_BAD_REQUEST code, ag), b) /\
    (code = OFPBRC_IS_SLAVE <->
     Z.of_nat (length l) = msg_length l /\ (8 <= length l)%nat /\ ag_versions ag !! ch_dpid c = Some (msg_version l)).
Proof.
  intros Hc Hrole Hr Hlen Ht. rewrite (entry_refusal fuel id ag c b l Hc Hr). unfold refusal.
  assert (ofp_role_check c (msg_type l) = false) as ->.
  { unfold ofp_role_check. rewrite Hrole. cbn. by rewrite bool_decide_eq_false_2 by tauto. }
  destruct (Nat.ltb_spec (length l) 8) as [?|?]; cbn [orb].
  { eexists. split; [done|]. split; [done|lia]. }
  destruct (Z.eqb_spec (Z.of_nat (length l)) (msg_length l)) as [?|?]; cbn [negb].
  2: { eexists. split; [done|]. split; [done|tauto]. }
  assert (s_ofp_version_check ag c (msg_type l) (msg_version l) =
          bool_decide (ag_versions ag !! ch_dpid c = Some (msg_version l))) as ->.
  { unfold s_ofp_version_check, ofp_header_version_check.
    assert ((msg_type l =? OFPT_HELLO) || (msg_type l =? OFPT_ERROR) = false) as ->.
    { unfold slave_forbidden in Ht. rewrite !elem_of_cons in Ht.
      destruct Ht as [-> | [-> | [-> | [-> | [-> | [-> | [-> | [-> | [-> | Hn]]]]]]]]]; try done. by apply elem_of_nil in Hn. }
    cbn [orb]. destruct (ag_versions ag !! ch_dpid c) as [v|]; [|done].
    destruct (Z.eqb_spec v (msg_version l)); symmetry; [apply bool_decide_eq_true_2|apply bool_decide_eq_false_2]; congruence. }
  case_bool_decide; cbn [negb]; eexists; (split; [done|]); split; try done; tauto.
Qed.

(** ** Examples *)

(** A buffer of a channel that holds the message [l]. *)
Definition channel_buffer (l : bytes) : pbuf :=
  Pbuf 1 (Z.of_nat (length l)) 0 (Z.of_nat (length l)) (Z.of_nat (length l) + 258) (l ++ replicate 258 0).

Lemma channel_buffer_received l : bytes_ok l -> Z.of_nat (length l) < 2 ^ 64 -> received (channel_buffer l) l.
Proof.
  intros Hok Hlt. unfold received, unread, channel_buffer, bytes_ok. cbn [pb_data pb_getp pb_plen pb_putp].
  rewrite length_app, length_replicate, drop_0, take_app_length. split_and!; try done; try lia.
  apply Forall_app. split; [done|]. apply Forall_replicate. lia.
Qed.

(** A controller with the role [role] on the bridge 1. *)
Definition one_agent (role : Z) : agent :=
  Agent one_bridge {[ 1 := 4 ]}
    (Channels {[ 0%nat := Channel 1 4 role ofp_role_channel_mask_init ]} (Hashmap {[ 1 := ChannelList [0%nat] false 0 ]} 1 true true)).

(** A FLOW_MOD that adds a flow, and a message of an undefined type. *)
Definition sample_flow_add : bytes := Eval vm_compute in
  let m := flow_mod_message sample_add two_matches (instructions_bytes two_instructions) in
  memcpy_at 2 (be_bytes 2 (Z.of_nat (length m))) m.
Definition sample_queue : list (nat * pbuf) :=
  [(0%nat, channel_buffer sample_flow_add); (0%nat, channel_buffer [4; 77; 0; 8; 1; 2; 3; 4])].


Theorem slave_cannot_modify_witness :
  msg_type sample_flow_add ∈ slave_forbidden /\
  exists code, s_process_channelq_entry 10 0 (one_agent OFPCR_ROLE_SLAVE) (channel_buffer sample_flow_add) =
      Done (Some (ofp_fail OFPET_BAD_REQUEST code, one_agent OFPCR_ROLE_SLAVE), channel_buffer sample_flow_add).
Proof.
  assert (msg_type sample_flow_add ∈ slave_forbidden) as Ht by decided. split; [exact Ht|].
  destruct (slave_cannot_modify 10 0 (one_agent OFPCR_ROLE_SLAVE)
    (Channel 1 4 OFPCR_ROLE_SLAVE ofp_role_channel_mask_init) (channel_buffer sample_flow_add) sample_flow_add)
    as (code & E & _).
  - vm_compute. reflexivity.
  - reflexivity.
  - apply channel_buffer_received; [unfold bytes_ok; decided|vm_compute; reflexivity].
  - vm_compute. lia.
  - exact Ht.
  - exists code. exact E.
Defined.
