(* ===== verification/Framing.v ===== *)
(** * Cutting the byte stream of a channel into messages ([channel_read] of [src/agent/channel.c])

    A read takes what the socket delivers, at most the room of the input buffer.  Whenever the
    buffer holds a whole message, it becomes an entry of the queue of the handler, and what is
    behind the message moves to a new buffer. *)
From S2P Require Import Prelude Monad OpenFlow Pbuf Generator OpenFlowH Tlv MatchCodec ActionCodec CodecSound OfpHandler.
From stdpp Require Import strings.
#[local] Open Scope Z_scope.

(** ** Operations on the input buffer, [channel->in] *)

Definition OFP_PBUF_SIZE : Z := 64 * 1024.

Definition channel_packet_ready : pm (bool * packet) :=
  modify (fun b => pbuf_plen_set (pbuf_readable_size b) b) ;;
  '(ret, sneak) ← on_fresh (decode_sneak openflow13 "ofp_header" "");
  if negb (is_ok ret) then mret (false, sneak) else
  ret ← gets (pbuf_plen_check (pkt_get "length" 0 sneak));
  mret (is_ok ret, sneak).

(** The buffer of the entry, and the bytes behind the message in a new one; the channel of the
    entry is the one that reads. *)
Definition channelq_data_take (length : Z) : pm (option pbuf) := fun b =>
  let cdata_pbuf := pbuf_plen_set length b in
  match pbuf_copy_unread_data cdata_pbuf (pbuf_plen_get cdata_pbuf) (pbuf_alloc OFP_PBUF_SIZE) with
  | Done (cdata_pbuf, b) => Done (Some cdata_pbuf, b)
  | Undefined => Undefined
  | OutOfFuel => OutOfFuel
  end.

Definition channelq_data_create : pm (option pbuf) :=
  '(ready, sneak) ← channel_packet_ready;
  if (ready : bool) then channelq_data_take (pkt_get "length" 0 sneak) else mret None.

(** The loop of [channel_read]: the buffers it puts into the queue. *)
Fixpoint channelq_put_loop (fuel : nat) : pm (list pbuf) :=
  match fuel with
  | O => out_of_fuel
  | S fuel =>
      cdata ← channelq_data_create;
      match cdata with
      | Some b => bs ← channelq_put_loop fuel; mret (b :: bs)
      | None => mret []
      end
  end.

(** A read of the socket: when [n] bytes are there of the [stream] the controller sends. *)
Definition session_read (n : nat) (stream : bytes) (read_size : Z) : bytes :=
  take (Nat.min n (Z.to_nat read_size)) stream.

Definition pbuf_session_read (n : nat) (stream : bytes) : pm Z :=
  size ← gets pb_size;
  putp ← gets pb_putp;
  let chunk := session_read n stream (u64 (size - putp)) in
  poke putp chunk ;;
  modify (set_pb_putp (putp + Z.of_nat (length chunk))) ;;
  mret (Z.of_nat (length chunk)).

(** The part of [channel_read] after the connection is established.  [None]: the socket is
    closed; else the entries of the queue and what is left of the stream. *)
Definition channel_read_messages (n : nat) (stream : bytes) : pm (option (list pbuf * bytes)) :=
  nbytes ← pbuf_session_read n stream;
  if nbytes =? 0 then mret None
  else
    readable ← gets pbuf_readable_size;
    bs ← channelq_put_loop (S (Z.to_nat readable));
    mret (Some (bs, drop (Z.to_nat nbytes) stream)).

(** One read after the other, as long as there is something to read. *)
Fixpoint channel_reads (ns : list nat) (stream : bytes) : pm (list pbuf * bytes) :=
  match ns, stream with
  | n :: ns, _ :: _ =>
      r ← channel_read_messages n stream;
      match r with
      | Some (bs, stream) => '(bs', stream) ← channel_reads ns stream; mret (bs ++ bs', stream)
      | None => mret ([], stream)
      end
  | _, _ => mret ([], stream)
  end.

(** ** The messages of a stream *)

(** A whole message, as its header says, and bytes that are not yet one. *)
Definition frame (m : bytes) : Prop :=
  bytes_ok m /\ (8 <= length m)%nat /\ msg_length m = Z.of_nat (length m).
Definition incomplete (l : bytes) : Prop :=
  bytes_ok l /\ ((length l < 8)%nat \/ Z.of_nat (length l) < msg_length l).

Lemma msg_length_app m l : (8 <= length m)%nat -> msg_length (m ++ l) = msg_length m.
Proof. intros H. do 4 (destruct m as [|? m]; [cbn in H; lia|]). done. Qed.

Lemma msg_length_range l : bytes_ok l -> 0 <= msg_length l < 65536.
Proof.
  intros H. unfold msg_length. assert (bytes_ok (take 2 (drop 2 l))) as Hok by (by apply Forall_take, Forall_drop).
  pose proof (be_val_range _ Hok) as Hr. rewrite length_take in Hr.
  split; [lia|]. eapply Z.lt_le_trans; [apply Hr|]. etrans; [apply Z.pow_le_mono_r; [lia|]|].
  - instantiate (1 := 2). lia.
  - done.
Qed.

(** The input buffer holds [l]. *)
Definition in_buffer (b : pbuf) (l : bytes) : Prop :=
  pb_getp b = 0 /\ pb_putp b = Z.of_nat (length l) /\ pb_size b = OFP_PBUF_SIZE /\
  Z.of_nat (length (pb_data b)) = OFP_PBUF_SIZE /\ bytes_ok (pb_data b) /\ take (length l) (pb_data b) = l.

(** A buffer in the queue that holds the message [m]. *)
Definition entry (b : pbuf) (m : bytes) : Prop :=
  bytes_ok (pb_data b) /\ unread b m /\ pb_getp b = 0 /\ pb_putp b = Z.of_nat (length m) /\
  Z.of_nat (length (pb_data b)) = OFP_PBUF_SIZE.

(** ** Lemmas *)

Lemma pbuf_alloc_empty size :
  PBUF_MIN_SIZE <= size -> pbuf_alloc size = Pbuf 1 0 0 0 size (replicate (Z.to_nat size) 0).
Proof. intros H. unfold pbuf_alloc. by rewrite (proj2 (Z.ltb_ge _ _)). Qed.

Lemma in_buffer_alloc : in_buffer (pbuf_alloc OFP_PBUF_SIZE) [].
Proof.
  rewrite pbuf_alloc_empty by done. unfold in_buffer. cbn [pb_getp pb_putp pb_size pb_data length take].
  rewrite length_replicate, Z2Nat.id by done. split_and!; try reflexivity. apply Forall_replicate. lia.
Qed.

Lemma in_buffer_unread b l :
  in_buffer b l -> Z.of_nat (length l) <= OFP_PBUF_SIZE ->
  unread (pbuf_plen_set (pbuf_readable_size b) b) l.
Proof.
  intros (Hg & Hp & _ & Hd & _ & Ht) Hlen. unfold unread, pbuf_plen_set, set_pb_plen, pbuf_readable_size.
  unfold OFP_PBUF_SIZE in *. cbn [pb_getp pb_putp pb_plen pb_data]. rewrite Hg, Hp, Z.sub_0_r, u64_small by lia.
  rewrite drop_0. split_and!; try done; lia.
Qed.

Lemma in_buffer_length b l : in_buffer b l -> Z.of_nat (length l) <= OFP_PBUF_SIZE.
Proof. intros (_ & _ & _ & <- & _ & Ht). rewrite <- Ht, length_take. lia. Qed.

Lemma in_buffer_bytes_ok b l : in_buffer b l -> bytes_ok l.
Proof. intros (_ & _ & _ & _ & Hok & <-). by apply Forall_take. Qed.

(** Whether a message is ready depends on the bytes in the buffer alone. *)
Lemma packet_ready b l :
  in_buffer b l ->
  let b' := pbuf_plen_set (pbuf_readable_size b) b in
  (incomplete l -> exists pk, channel_packet_ready b = Done ((false, pk), b')) /\
  ((8 <= length l)%nat -> msg_length l <= Z.of_nat (length l) ->
   exists pk, channel_packet_ready b = Done ((true, pk), b') /\ pkt_get "length" 0 pk = msg_length l).
Proof.
  intros Hin. cbn zeta. set (b' := pbuf_plen_set _ b).
  pose proof (in_buffer_unread b l Hin (in_buffer_length b l Hin)) as Hu. fold b' in Hu.
  assert (msg b' l) as Hm by (split; [done|by eapply in_buffer_bytes_ok]).
  assert (channel_packet_ready b = ('(ret, sneak) ← on_fresh (decode_sneak openflow13 "ofp_header" "");
    if negb (is_ok ret) then mret (false, sneak) else
    ret ← gets (pbuf_plen_check (pkt_get "length" 0 sneak)); mret (is_ok ret, sneak)) b') as -> by done.
  destruct (decide (length l < 8)%nat) as [Hlt|Hge]; (split; [intros [_ Hinc]|intros Hge' Hle]); try lia.
  - destruct header_struct as (Hd & _ & Hs & _).
    destruct (decode_short openflow13 "ofp_header" "" b' ∅ Hd) as [_ H].
    { rewrite Hs. destruct Hu as (_ & -> & _). lia. }
    rewrite (bind_Done _ _ _ _ _ (on_fresh_Done _ _ _ _ _ H)). by eexists.
  - destruct Hinc as [?|Hinc]; [lia|]. destruct (header_sneak_long b' l Hm) as (pk & E & _ & _ & El & _); [lia|].
    rewrite (bind_Done _ _ _ _ _ E). cbn [is_ok negb]. unfold gets, mbind, M_bind, pbuf_plen_check.
    destruct Hu as (_ & -> & _). rewrite El, (proj2 (Z.ltb_lt _ _)) by done. by eexists.
  - destruct (header_sneak_long b' l Hm) as (pk & E & _ & _ & El & _); [done|].
    rewrite (bind_Done _ _ _ _ _ E). cbn [is_ok negb]. unfold gets, mbind, M_bind, pbuf_plen_check.
    destruct Hu as (_ & -> & _). rewrite El, (proj2 (Z.ltb_ge _ _)) by done. by eexists.
Qed.

Lemma data_create_incomplete b l :
  in_buffer b l -> incomplete l -> exists b', channelq_data_create b = Done (None, b') /\ in_buffer b' l.
Proof.
  intros Hin Hinc. destruct (packet_ready b l Hin) as [H _]. destruct (H Hinc) as [pk E].
  unfold channelq_data_create. rewrite (bind_Done _ _ _ _ _ E). by eexists.
Qed.

(** A message leaves the buffer, what is behind it stays. *)
Lemma data_create_split b m l :
  in_buffer b (m ++ l) -> (8 <= length (m ++ l))%nat -> msg_length (m ++ l) = Z.of_nat (length m) ->
  exists e b', channelq_data_create b = Done (Some e, b') /\ entry e m /\ in_buffer b' l.
Proof.
  intros Hin H8 Hlen. destruct (packet_ready b (m ++ l) Hin) as [_ H].
  assert (Z.of_nat (length (m ++ l)) <= OFP_PBUF_SIZE) as Hmax by by eapply in_buffer_length.
  specialize (H H8). rewrite Hlen, length_app in H. destruct H as (pk & E & Epk); [lia|].
  unfold channelq_data_create. rewrite (bind_Done _ _ _ _ _ E). unfold channelq_data_take.
  rewrite Epk. destruct Hin as (Hg & Hp & Hs & Hd & Hdok & Ht).
  rewrite length_app in Hmax, Hp. unfold OFP_PBUF_SIZE in *.
  set (src := pbuf_plen_set (Z.of_nat (length m)) (pbuf_plen_set _ b)). set (dst := pbuf_alloc _).
  assert (pb_putp src = pb_putp b /\ pb_getp src = pb_getp b /\ pbuf_plen_get src = Z.of_nat (length m) /\
    pb_data src = pb_data b) as (S1 & S2 & S3 & S4) by done.
  unfold pbuf_copy_unread_data. rewrite S1, S2, S3.
  assert (pb_putp dst = 0 /\ pb_getp dst = 0 /\ pb_plen dst = 0 /\ pb_size dst = 64 * 1024 /\
    exists N, Z.of_nat N = 64 * 1024 /\ pb_data dst = replicate N 0) as (D1 & D2 & D3 & D4 & N & DN & D5).
  { subst dst. rewrite pbuf_alloc_empty by done. split_and!; try reflexivity.
    exists (Z.to_nat (64 * 1024)). split; [by rewrite Z2Nat.id|reflexivity]. }
  clearbody dst. assert (drop (length m) (take (length m + length l) (pb_data b)) = l) as Hl.
  { rewrite <- length_app, Ht. apply drop_app_length. }
  assert (pbuf_copy_internal src (u64 (pb_putp b - pb_getp b)) (Z.of_nat (length m)) dst =
    Done (Z.of_nat (length l), appended l dst)) as Ec.
  { apply copy_internal_appended.
    - rewrite S2. apply peek_slice; rewrite ?S4.
      + rewrite Hg, Z.add_0_l, Nat2Z.id. rewrite <- Hl at 2. apply take_drop_commute.
      + lia.
      + lia.
    - rewrite Hg, Hp, (u64_small (_ - 0)), u64_small by lia. lia.
    - lia.
    - rewrite D1, D5, length_replicate. lia.
    - rewrite D1, D4. lia. }
  rewrite (bind_Done _ _ _ _ _ Ec). do 2 eexists. split; [done|]. split.
  - unfold pbuf_plen_get in S3. unfold entry, unread, set_pb_putp. cbn [pb_data pb_getp pb_plen pb_putp].
    rewrite S2, S3, S4, Hg, drop_0.
    split_and!; try done; try lia.
    apply (f_equal (take (length m))) in Ht. rewrite take_app_length, take_take, length_app, Nat.min_l in Ht by lia. done.
  - unfold in_buffer, appended. cbn [pb_data pb_getp pb_plen pb_putp pb_size].
    rewrite length_memcpy_at, D1, D2, D4, D5, length_replicate. split_and!; try done; try lia.
    + rewrite memcpy_at_split by (rewrite length_replicate; lia).
      apply Forall_app. split; [apply Forall_take, Forall_replicate; lia|].
      apply Forall_app. split; [|apply Forall_drop, Forall_replicate; lia].
      rewrite <- Hl. by apply Forall_drop, Forall_take.
    + rewrite memcpy_at_split by (rewrite length_replicate; lia). cbn [Z.to_nat take]. rewrite app_nil_l. apply take_app_length.
Qed.

Lemma data_create_frame b m l :
  in_buffer b (m ++ l) -> frame m ->
  exists e b', channelq_data_create b = Done (Some e, b') /\ entry e m /\ in_buffer b' l.
Proof. intros Hin (_ & H8 & Hl). apply data_create_split; [done|rewrite length_app; lia|by rewrite msg_length_app]. Qed.

Lemma put_loop_frames fuel b ms rest :
  in_buffer b (concat ms ++ rest) -> Forall frame ms -> incomplete rest -> (length ms < fuel)%nat ->
  exists es b', channelq_put_loop fuel b = Done (es, b') /\ Forall2 entry es ms /\ in_buffer b' rest.
Proof.
  revert b fuel. induction ms as [|m ms IH]; intros b fuel Hin Hms Hrest Hf; (destruct fuel as [|fuel]; [cbn in Hf; lia|]); cbn [channelq_put_loop].
  - destruct (data_create_incomplete b rest Hin Hrest) as (b' & E & Hb'). rewrite (bind_Done _ _ _ _ _ E). by exists [], b'.
  - apply Forall_cons in Hms as [Hm Hms]. cbn [concat] in Hin. rewrite <- app_assoc in Hin.
    destruct (data_create_frame b m _ Hin Hm) as (e & b1 & E & He & Hb1). rewrite (bind_Done _ _ _ _ _ E).
    destruct (IH b1 fuel Hb1 Hms Hrest) as (es & b2 & E2 & Hes & Hb2); [cbn in Hf; lia|].
    rewrite (bind_Done _ _ _ _ _ E2). exists (e :: es), b2. split_and!; [done|by constructor|done].
Qed.

(** A stream cut anywhere is whole messages and the begin of the next. *)
Lemma prefix_frames p q ms rest :
  p ++ q = concat ms ++ rest -> Forall frame ms -> incomplete rest ->
  exists ms1 ms2 r, ms = ms1 ++ ms2 /\ p = concat ms1 ++ r /\ incomplete r /\ r ++ q = concat ms2 ++ rest.
Proof.
  revert p. induction ms as [|m ms IH]; intros p E Hms Hrest.
  - exists [], [], p. split_and!; try done. cbn in E. subst rest. destruct Hrest as [Hok Hinc].
    apply bytes_ok_app in Hok as [Hok1 _]. split; [done|].
    destruct (decide (length p < 8)%nat) as [?|?]; [by left|right]. rewrite msg_length_app, length_app in Hinc by lia. lia.
  - apply Forall_cons in Hms as [Hm Hms]. cbn [concat] in E. rewrite <- app_assoc in E.
    destruct (decide (length p < length m)%nat) as [Hlt|Hge].
    + exists [], (m :: ms), p. split_and!; try done; [|by cbn; rewrite <- app_assoc].
      apply (f_equal (take (length p))) in E as Ep. rewrite take_app_length, take_app_le in Ep by lia.
      destruct Hm as (Hok & H8 & Hl). split; [rewrite Ep; by apply Forall_take|].
      destruct (decide (length p < 8)%nat) as [?|?]; [by left|right].
      rewrite <- (msg_length_app p (drop (length p) m)) by lia. rewrite Ep at 2. rewrite take_drop. lia.
    + apply (f_equal (take (length m))) in E as Em. rewrite take_app_length, take_app_le in Em by lia.
      rewrite <- (take_drop (length m) p), Em in E. rewrite <- app_assoc in E. apply app_inv_head in E.
      destruct (IH _ E Hms Hrest) as (ms1 & ms2 & r & -> & Ep & Hr & Erq).
      exists (m :: ms1), ms2, r. split_and!; try done. cbn [concat]. rewrite <- app_assoc, <- Ep. rewrite <- Em at 1. symmetry. apply take_drop.
Qed.

Lemma incomplete_length r : incomplete r -> Z.of_nat (length r) < OFP_PBUF_SIZE.
Proof. intros [Hok [?|H]]; unfold OFP_PBUF_SIZE; [lia|]. pose proof (msg_length_range r Hok). lia. Qed.

Lemma incomplete_no_frame r ms rest : incomplete r -> r = concat ms ++ rest -> Forall frame ms -> ms = [] /\ r = rest.
Proof.
  intros [Hok Hinc] E Hms. destruct ms as [|m ms]; [done|]. exfalso. apply Forall_cons in Hms as [(_ & H8 & Hl) _].
  cbn [concat] in E. rewrite <- app_assoc in E. subst r. rewrite msg_length_app, length_app in Hinc by done. lia.
Qed.

Lemma session_read_Done n stream b :
  let chunk := session_read n stream (u64 (pb_size b - pb_putp b)) in
  0 <= pb_putp b -> pb_putp b + Z.of_nat (length chunk) <= Z.of_nat (length (pb_data b)) ->
  pbuf_session_read n stream b = Done (Z.of_nat (length chunk),
    set_pb_putp (pb_putp b + Z.of_nat (length chunk)) (set_pb_data (memcpy_at (Z.to_nat (pb_putp b)) chunk (pb_data b)) b)).
Proof.
  intros chunk H1 H2. unfold pbuf_session_read, gets, mbind, M_bind. fold chunk. by rewrite (poke_fits _ chunk).
Qed.

(** One read delivers what became whole. *)
Lemma read_messages n b r stream ms rest :
  (0 < n)%nat -> stream <> [] -> in_buffer b r -> incomplete r -> Forall frame ms -> incomplete rest ->
  r ++ stream = concat ms ++ rest ->
  exists ms1 ms2 r' es b' stream', channel_read_messages n stream b = Done (Some (es, stream'), b') /\
    ms = ms1 ++ ms2 /\ Forall2 entry es ms1 /\ in_buffer b' r' /\ incomplete r' /\ r' ++ stream' = concat ms2 ++ rest /\
    (length stream' < length stream)%nat.
Proof.
  intros Hn Hs Hin Hinc Hms Hrest E. pose proof (incomplete_length r Hinc) as Hlen.
  destruct Hin as (Hg & Hp & Hsz & Hd & Hdok & Ht). unfold channel_read_messages.
  set (chunk := session_read n stream (u64 (pb_size b - pb_putp b))).
  assert (exists k, (0 < k <= length stream)%nat /\ chunk = take k stream /\ Z.of_nat (length r + k) <= OFP_PBUF_SIZE) as (k & Hk & Hc & Hfit).
  { subst chunk. unfold session_read. rewrite Hsz, Hp, u64_small by (unfold OFP_PBUF_SIZE in *; lia).
    exists (Nat.min (length stream) (Nat.min n (Z.to_nat (OFP_PBUF_SIZE - Z.of_nat (length r))))).
    destruct stream; [done|]. cbn [length] in *. split_and!; try lia.
    destruct (decide (Nat.min n (Z.to_nat (OFP_PBUF_SIZE - Z.of_nat (length r))) <= S (length stream))%nat).
    - f_equal. lia.
    - rewrite !take_ge by (cbn [length]; lia). done. }
  assert (length chunk = k) as Hck by (rewrite Hc, length_take; lia).
  pose proof (session_read_Done n stream b ltac:(fold chunk; lia) ltac:(fold chunk; lia)) as Er. fold chunk in Er.
  rewrite Hck in Er.
  rewrite (bind_Done _ _ _ _ _ Er). rewrite (proj2 (Z.eqb_neq _ _)) by lia. rewrite Nat2Z.id.
  set (b1 := set_pb_putp _ _).
  assert (in_buffer b1 (r ++ chunk)) as Hb1.
  { unfold in_buffer. subst b1. cbn [set_pb_putp set_pb_data pb_getp pb_putp pb_size pb_data].
    rewrite length_memcpy_at, length_app, Hck, Hp, Nat2Z.id. rewrite memcpy_at_split by lia.
    split_and!; try done; try lia.
    - rewrite Ht. assert (bytes_ok (concat ms ++ rest)) as Hall.
      { apply Forall_app. split; [|apply Hrest]. clear E. induction Hms as [|m ms [? _] _ IH]; [done|]. by apply Forall_app. }
      rewrite <- E in Hall. apply bytes_ok_app in Hall as [Hr Hstream]. apply Forall_app. split; [done|].
      apply Forall_app. split; [rewrite Hc; by apply Forall_take|by apply Forall_drop].
    - rewrite Ht, app_assoc. rewrite <- Hck at 1. rewrite <- length_app. apply take_app_length. }
  rewrite <- (take_drop k stream), app_assoc, <- Hc in E.
  destruct (prefix_frames _ _ _ _ E Hms Hrest) as (ms1 & ms2 & r' & -> & Ep & Hr' & Erq).
  apply Forall_app in Hms as [Hms1 Hms2]. rewrite Ep in Hb1.
  unfold gets at 1. rewrite (bind_Done _ _ _ _ _ eq_refl).
  destruct (put_loop_frames (S (Z.to_nat (pbuf_readable_size b1))) b1 ms1 r' Hb1 Hms1 Hr') as (es & b2 & E2 & Hes & Hb2).
  { pose proof (in_buffer_length _ _ Hb1) as Hmax. destruct Hb1 as (G & P & _). unfold pbuf_readable_size, OFP_PBUF_SIZE in *.
    rewrite G, P, Z.sub_0_r, u64_small, Nat2Z.id by lia. rewrite length_app.
    enough (length ms1 <= length (concat ms1))%nat by lia. clear -Hms1.
    induction Hms1 as [|m ms (_ & ? & _) _ IH]; cbn [concat length]; [lia|]. rewrite length_app. lia. }
  rewrite (bind_Done _ _ _ _ _ E2). exists ms1, ms2, r', es, b2, (drop k stream).
  split_and!; try done. rewrite length_drop. lia.
Qed.

(** A whole message in the queue is as the handler expects it. *)
Lemma entry_received e m : entry e m -> Z.of_nat (length m) + 258 <= OFP_PBUF_SIZE -> received e m.
Proof. intros (Hok & Hu & Hg & Hp & Hd) Hlen. unfold received. rewrite Hg, Hp, Hd. split_and!; try done; lia. Qed.

Lemma channel_reads_from ns stream b r ms rest :
  in_buffer b r -> incomplete r -> r ++ stream = concat ms ++ rest -> Forall frame ms -> incomplete rest ->
  Forall (lt 0) ns -> (length stream <= length ns)%nat ->
  exists es b', channel_reads ns stream b = Done (es, [], b') /\ Forall2 entry es ms /\ in_buffer b' rest.
Proof.
  revert stream b r ms. induction ns as [|n ns IH]; intros stream b r ms Hb Hr E Hms Hrest Hns Hlen.
  - destruct stream; [|cbn in Hlen; lia]. rewrite app_nil_r in E. destruct (incomplete_no_frame _ _ _ Hr E Hms) as [-> ->].
    by exists [], b.
  - apply Forall_cons in Hns as [Hn Hns]. destruct stream as [|x stream].
    + rewrite app_nil_r in E. destruct (incomplete_no_frame _ _ _ Hr E Hms) as [-> ->]. by exists [], b.
    + destruct (read_messages n b r (x :: stream) ms rest) as (ms1 & ms2 & r' & es & b1 & s' & Er & -> & He & Hb1 & Hr' & E1 & Hl);
        [done..|]. apply Forall_app in Hms as [_ Hms2].
      destruct (IH s' b1 r' ms2) as (es2 & b2 & E2 & He2 & Hb2); try done; [cbn [length] in *; lia|].
      cbn [channel_reads]. rewrite (bind_Done _ _ _ _ _ Er), (bind_Done _ _ _ _ _ E2).
      exists (es ++ es2), b2. split_and!; [done|by apply Forall2_app|done].
Qed.

(** ** Properties *)

(** C5: However the network cuts the byte stream of a controller, the handler gets its messages.
    If the stream is a sequence of messages whose headers state their lengths, and the begin of
    another, then reads of any sizes, each of at least one byte, put exactly these messages into the
    queue, in order and byte for byte, and the begin of the other stays in the input buffer; no
    read is taken for the end of the stream because the buffer is full. *)
Theorem channel_reads_messages ns stream ms rest :
  stream = concat ms ++ rest -> Forall frame ms -> incomplete rest ->
  Forall (lt 0) ns -> (length stream <= length ns)%nat ->
  exists es b, channel_reads ns stream (pbuf_alloc OFP_PBUF_SIZE) = Done (es, [], b) /\
    Forall2 entry es ms /\ in_buffer b rest.
Proof.
  intros E Hms Hrest Hns Hlen. apply (channel_reads_from ns stream _ [] ms rest); [apply in_buffer_alloc| |exact E|exact Hms|exact Hrest|exact Hns|exact Hlen].
  split; [by apply Forall_nil|left; cbn; lia].
Qed.

(** A header that states the length zero: the loop of [channel_read] never ends, and puts empty
    messages into the queue. *)
Theorem zero_length_never_ends fuel b l :
  in_buffer b l -> (8 <= length l)%nat -> msg_length l = 0 -> channelq_put_loop fuel b = OutOfFuel.
Proof.
  revert b. induction fuel as [|fuel IH]; intros b Hb H8 H0; cbn [channelq_put_loop]; [done|].
  destruct (data_create_split b [] l Hb H8 H0) as (e & b' & E & _ & Hb').
  rewrite (bind_Done _ _ _ _ _ E). unfold mbind, M_bind. by rewrite (IH b' Hb' H8 H0).
Qed.

(** ** Example *)

Definition two_frames : list bytes := [[4; 2; 0; 12; 0; 0; 0; 1; 97; 98; 99; 100]; [4; 20; 0; 8; 0; 0; 0; 2]].

Theorem channel_reads_messages_witness :
  Forall frame two_frames /\
  exists es b, channel_reads (replicate 26 3%nat) (concat two_frames ++ [4; 0; 0; 16; 0; 0]) (pbuf_alloc OFP_PBUF_SIZE) =
    Done (es, [], b) /\ Forall2 entry es two_frames /\ in_buffer b [4; 0; 0; 16; 0; 0].
Proof.
  assert (Forall frame two_frames) as Hf.
  { unfold two_frames. rewrite !Forall_cons. split_and!; [| |by apply Forall_nil];
      (split; [unfold bytes_ok; decided|split; [cbn; lia|reflexivity]]). }
  split; [exact Hf|]. apply (channel_reads_messages _ _ two_frames [4; 0; 0; 16; 0; 0]).
  - reflexivity.
  - exact Hf.
  - split; [unfold bytes_ok; decided|left; cbn; lia].
  - apply Forall_replicate. lia.
  - rewrite length_replicate. cbn. lia.
Defined.
