(* ===== verification/Hello.v ===== *)
(** * HELLO and the negotiation of the version
    ([src/agent/ofp_element.c], [ofp_hello_handler.c])

    The elements of a HELLO, their parser and encoder, the message the switch sends, and the handler
    of the message it gets.  Memory allocation succeeds. *)
From S2P Require Import Prelude Monad OpenFlow Pbuf Generator OpenFlowH Tlv MatchCodec ActionCodec InstructionCodec CodecSound Role.
From stdpp Require Import strings.
#[local] Open Scope Z_scope.

(** ** Elements *)

Definition OFPHET_VERSIONBITMAP : Z := 1.
Definition OFPET_HELLO_FAILED : Z := 0.
Definition OFPHFC_INCOMPATIBLE : Z := 0.

(** [struct element] with its [bitmap_list]. *)
Record element := Element {
  el_type : Z;
  el_length : Z;
  el_bitmap_list : list Z
}.

Definition ofp_vbitmap_decode : pm (lagopus_result * Z) :=
  ret ← gets (pbuf_plen_check 4);
  if is_ok ret then bitmap ← DECODE_GETL; mret (LAGOPUS_RESULT_OK, bitmap) else mret (ret, 0).

Definition ofp_vbitmap_encode (bitmap : Z) : pm lagopus_result :=
  ret ← gets (pbuf_plen_check 4);
  if is_ok ret then ENCODE_PUTL bitmap ;; mret LAGOPUS_RESULT_OK else mret ret.

(** The bitmaps of an element, while [length] bytes of it are left. *)
Fixpoint bitmaps_parse (fuel : nat) (length : Z) : pm (ofp_status * list Z) :=
  if negb (0 <? length) then mret (status_ok, [])
  else match fuel with
  | O => out_of_fuel
  | S fuel =>
      '(ret, bitmap) ← ofp_vbitmap_decode;
      if is_ok ret then
        '(status, bitmaps) ← bitmaps_parse fuel (length - 4);
        mret (status, bitmap :: bitmaps)
      else mret (ofp_fail OFPET_BAD_REQUEST OFPBRC_BAD_LEN, [])
  end.

Definition versionbitmap_parse : pm (ofp_status * element) :=
  '(ret, vbitmap) ← on_fresh (decode openflow13 "ofp_hello_elem_versionbitmap" "");
  let type := pkt_get "type" 0 vbitmap in
  let length := pkt_get "length" 0 vbitmap in
  if is_ok ret then
    '(status, bitmaps) ← bitmaps_parse (Z.to_nat length) (length - 4);
    mret (status, Element type length (if is_ok status.1 then bitmaps else []))
  else mret (ofp_fail OFPET_BAD_REQUEST OFPBRC_BAD_LEN, Element 0 0 []).

Definition forward_status (ret : lagopus_result) : ofp_status :=
  match ret with
  | LAGOPUS_RESULT_OUT_OF_RANGE => ofp_fail OFPET_BAD_REQUEST OFPBRC_BAD_LEN
  | ret => (ret, None)
  end.

(** The element behind the list; nothing is left of it or of the message after an error. *)
Definition element_parse_internal (element_list : list element) : pm (ofp_status * list element) :=
  '(ret, type, length) ← ofp_tlv_decode_sneak;
  if negb (is_ok ret) then mret (ofp_fail OFPET_BAD_REQUEST OFPBRC_BAD_LEN, element_list)
  else if length =? SIZEOF_OFP_TLV then
    plen ← gets pb_plen;
    mret (if plen =? 0 then status_ok else ofp_fail OFPET_BAD_REQUEST OFPBRC_BAD_LEN, element_list)
  else if length =? 0 then mret (ofp_fail OFPET_BAD_REQUEST OFPBRC_BAD_LEN, element_list)
  else
    let padding := GET_64BIT_PADDING_LENGTH length in
    if type =? OFPHET_VERSIONBITMAP then
      '(status, element) ← versionbitmap_parse;
      tmp_ret ← pbuf_forward padding;
      mret (if is_ok status.1 then (if is_ok tmp_ret then status else forward_status tmp_ret) else status,
            element_list ++ [element])
    else
      ret ← pbuf_forward (length + padding);
      mret (forward_status ret, element_list).

Definition ofp_element_parse (element_list : list element) : pm (ofp_status * list element) :=
  '(status, element_list) ← element_parse_internal element_list;
  if is_ok status.1 then mret (status, element_list)
  else
    plen ← gets pb_plen;
    _ ← pbuf_forward plen;
    mret (status, []).

Fixpoint versionbitmap_list_encode (bitmap_list : list Z) (res : lagopus_result) (total_length : Z) : pm (lagopus_result * Z) :=
  match bitmap_list with
  | [] => mret (res, total_length)
  | bitmap :: bitmap_list =>
      ret ← ofp_vbitmap_encode bitmap;
      if is_ok ret then
        let '(total_length, ret) := ofp_tlv_length_sum total_length 4 in
        if is_ok ret then versionbitmap_list_encode bitmap_list ret total_length else mret (ret, total_length)
      else mret (ret, total_length)
  end.

(** The result, and whether the header of the element was encoded. *)
Definition element_encode (el : element) : pm (lagopus_result * bool) :=
  element_head ← gets pb_putp;
  ret ← encode openflow13 "ofp_hello_elem_versionbitmap" "" (<["type" := [el_type el]]> (<["length" := [el_length el]]> ∅));
  if negb (is_ok ret) then mret (ret, false)
  else if el_type el =? OFPHET_VERSIONBITMAP then
    '(ret, element_len) ← versionbitmap_list_encode (el_bitmap_list el) LAGOPUS_RESULT_OK 0;
    if negb (is_ok ret) then mret (ret, true) else
    let '(element_len, ret) := ofp_tlv_length_sum element_len 4 in
    if negb (is_ok ret) then mret (ret, true) else
    ret ← ofp_tlv_length_set element_head element_len;
    if negb (is_ok ret) then mret (ret, true) else
    '(ret, _) ← ofp_padding_encode element_len;
    mret (ret, true)
  else mret (ret, true).

(** The [break]s after the header leave the [switch] only: the loop goes on with the next element. *)
Fixpoint element_list_encode_loop (element_list : list element) (ret : lagopus_result) : pm lagopus_result :=
  match element_list with
  | [] => mret ret
  | el :: element_list =>
      '(ret, header_encoded) ← element_encode el;
      if (header_encoded : bool) then element_list_encode_loop element_list ret else mret ret
  end.

Definition ofp_element_list_encode (element_list : list element) : pm lagopus_result :=
  element_list_encode_loop element_list LAGOPUS_RESULT_OK.

(** ** The handler *)

Definition BITMAP_SIZE : Z := 32.

(** Does one of the bitmaps of an element contain the version?  [i] counts from 1. *)
Fixpoint check_bitmaps (bridge_ofp_version i : Z) (bitmap_list : list Z) : bool :=
  match bitmap_list with
  | [] => false
  | bitmap :: bitmap_list =>
      if bridge_ofp_version <? BITMAP_SIZE * i then
        if negb (Z.land bitmap (u32 (Z.shiftl 1 bridge_ofp_version)) =? 0) then true
        else check_bitmaps bridge_ofp_version (i + 1) bitmap_list
      else check_bitmaps bridge_ofp_version i bitmap_list
  end.

Definition check_versions (bridge_ofp_version : Z) (element_list : list element) : bool :=
  existsb (fun el => (el_type el =? OFPHET_VERSIONBITMAP) && check_bitmaps bridge_ofp_version 1 (el_bitmap_list el))
    element_list.

Fixpoint hello_elements_parse (fuel : nat) (status : ofp_status) (element_list : list element) : pm (ofp_status * list element) :=
  plen ← gets pb_plen;
  if 0 <? plen then
    match fuel with
    | O => out_of_fuel
    | S fuel =>
        '(status, element_list) ← ofp_element_parse element_list;
        if is_ok status.1 then hello_elements_parse fuel status element_list else mret (status, element_list)
    end
  else mret (status, element_list).

(** The version of the bridge, when it is found, goes in.  Out comes, besides the result, the version
    the channel is set to: then [channel_hello_received_set] follows. *)
Definition ofp_hello_handle (bridge_ofp_version : option Z) : pm (ofp_status * option Z) :=
  '(ret, hello) ← on_fresh (decode openflow13 "ofp_hello" "");
  if negb (is_ok ret) then mret (ofp_fail OFPET_HELLO_FAILED OFPHFC_INCOMPATIBLE, None) else
  plen ← gets pb_plen;
  '(status, element_list) ← hello_elements_parse (Z.to_nat plen) status_ok [];
  if negb (is_ok status.1) then mret (status, None) else
  match bridge_ofp_version with
  | None => mret ((LAGOPUS_RESULT_NOT_FOUND, None), None)
  | Some v =>
      if (pkt_get "header.version" 0 hello =? v) || check_versions v element_list then mret (status_ok, Some v)
      else mret (ofp_fail OFPET_HELLO_FAILED OFPHFC_INCOMPATIBLE, None)
  end.

(** ** The HELLO of the switch *)

(** The buffer is one of [channel_pbuf_list_get] for this size: empty, with room for it. *)
Definition ofp_hello_create (bridge_ofp_version version_bitmap xid : Z) (b : pbuf) : outcome (lagopus_result * pbuf) :=
  let header_head := pbuf_getp_get b in
  (ret ← encode openflow13 "ofp_hello" "" (ofp_header_packet bridge_ofp_version OFPT_HELLO 0 xid);
   if negb (is_ok ret) then mret ret else
   ret ← ofp_element_list_encode [Element OFPHET_VERSIONBITMAP 0 [version_bitmap]];
   if negb (is_ok ret) then mret ret else
   '(ret, length) ← gets pbuf_length_get;
   match ret, length with
   | LAGOPUS_RESULT_OK, Some length =>
       ret ← ofp_tlv_length_set header_head length;
       modify pbuf_plen_reset ;; mret ret
   | _, _ => mret ret
   end) (pbuf_plen_set OFP_PACKET_MAX_SIZE b).

(** ** Lemmas *)

Lemma hello_structs :
  (declared openflow13 "ofp_hello" = true /\ decodable "ofp_hello" = true /\ fields "ofp_hello" "" =
   [("header.version", 1%nat, 1%nat); ("header.type", 1%nat, 1%nat); ("header.length", 2%nat, 1%nat); ("header.xid", 4%nat, 1%nat)]) /\
  (declared openflow13 "ofp_hello_elem_versionbitmap" = true /\ decodable "ofp_hello_elem_versionbitmap" = true /\
   fields "ofp_hello_elem_versionbitmap" "" = [("type", 2%nat, 1%nat); ("length", 2%nat, 1%nat); ("bitmaps", 4%nat, 0%nat)]).
Proof. split_and!; vm_compute; reflexivity. Qed.

(** The bytes of the HELLO. *)
Definition hello_head (version length xid : Z) : bytes :=
  be_bytes 1 version ++ be_bytes 1 OFPT_HELLO ++ be_bytes 2 length ++ be_bytes 4 xid.
Definition vbitmap_elem (length bitmap : Z) : bytes := be_bytes 2 OFPHET_VERSIONBITMAP ++ be_bytes 2 length ++ be_bytes 4 bitmap.
Definition hello_message (version bitmap xid : Z) : bytes := hello_head version 16 xid ++ vbitmap_elem 8 bitmap.

Lemma length_hello_message version bitmap xid : length (hello_message version bitmap xid) = 16%nat.
Proof. unfold hello_message, hello_head, vbitmap_elem. by rewrite !length_app, !length_be_bytes. Qed.

Lemma hello_wire v len xid : wire (ofp_header_packet v OFPT_HELLO len xid) (fields "ofp_hello" "") = hello_head v len xid.
Proof. rewrite (proj2 (proj2 (proj1 hello_structs))). reflexivity. Qed.

Lemma vbitmap_wire t len :
  wire (<["type" := [t]]> (<["length" := [len]]> ∅)) (fields "ofp_hello_elem_versionbitmap" "") = be_bytes 2 t ++ be_bytes 2 len.
Proof. rewrite (proj2 (proj2 (proj2 hello_structs))). reflexivity. Qed.

(** A version bitmap behind what was put. *)
Lemma element_encode_put bitmap w b :
  fits (length w + 8) b ->
  element_encode (Element OFPHET_VERSIONBITMAP 0 [bitmap]) (put w b) =
  Done ((LAGOPUS_RESULT_OK, true), put (w ++ vbitmap_elem 8 bitmap) b).
Proof.
  intros Hf. destruct (proj2 hello_structs) as (Hd & _ & Hfl). unfold element_encode, gets at 1.
  rewrite (bind_Done _ _ _ _ _ eq_refl). cbn [el_type el_length el_bitmap_list].
  assert (0 <= pb_putp b) as H0 by apply Hf.
  pose proof (struct_encode "ofp_hello_elem_versionbitmap" (<["type" := [OFPHET_VERSIONBITMAP]]> (<["length" := [0]]> ∅)) (put w b) Hd) as E1.
  rewrite vbitmap_wire, <- put_app in E1 by done.
  rewrite (bind_Done _ _ _ _ _ (E1 ltac:(rewrite Hfl; apply put_fits; eapply fits_weaken; [exact Hf|cbn; lia]))).
  cbn [is_ok negb]. change (OFPHET_VERSIONBITMAP =? OFPHET_VERSIONBITMAP) with true. cbv iota.
  set (h := be_bytes 2 OFPHET_VERSIONBITMAP ++ be_bytes 2 0).
  assert (fits (length (w ++ h) + 4) b) as Hf2 by (eapply fits_weaken; [exact Hf|unfold h; rewrite !length_app, !length_be_bytes; lia]).
  assert (versionbitmap_list_encode [bitmap] LAGOPUS_RESULT_OK 0 (put (w ++ h) b) =
    Done ((LAGOPUS_RESULT_OK, 4), put ((w ++ h) ++ be_bytes 4 bitmap) b)) as E2.
  { cbn [versionbitmap_list_encode]. unfold ofp_vbitmap_encode, gets at 1.
    erewrite bind_Done; cycle 1.
    { rewrite (bind_Done _ _ _ _ _ eq_refl). unfold pbuf_plen_check.
      assert ((pb_plen (put (w ++ h) b) <? 4) = false) as -> by (apply Z.ltb_ge; apply (put_fits _ _ _ Hf2)). cbn [is_ok].
      rewrite ENCODE_PUTL_be. rewrite (bind_Done _ _ _ _ _ (ENCODE_PUT_put (be_bytes 4 bitmap) _ (put_fits _ _ _ Hf2))).
      by rewrite <- put_app by done. }
    reflexivity. }
  rewrite (bind_Done _ _ _ _ _ E2). cbn [is_ok negb]. change (ofp_tlv_length_sum 4 4) with (8, LAGOPUS_RESULT_OK).
  cbn [is_ok negb].
  assert (pb_putp (put w b) = pb_putp b + Z.of_nat (length w)) as -> by done.
  pose proof (ofp_tlv_length_set_put OFPHET_VERSIONBITMAP 0 8 w (be_bytes 4 bitmap) b ((w ++ h) ++ be_bytes 4 bitmap) (proj1 Hf)) as E4.
  rewrite (bind_Done _ _ _ _ _ (E4 ltac:(destruct Hf2 as [_ ?]; rewrite length_app, length_be_bytes; lia)
    ltac:(by unfold h; rewrite <- !app_assoc))).
  cbn [is_ok negb]. set (k := w ++ _).
  assert (fits (length k + 0) b) as Hf3.
  { eapply fits_weaken; [exact Hf|]. unfold k. rewrite !length_app, !length_be_bytes. lia. }
  assert (ofp_padding_encode 8 (put k b) = Done ((LAGOPUS_RESULT_OK, 8), put k b)) as E3.
  { rewrite ofp_padding_encode_put; [|lia|reflexivity|by apply put_fits]. by rewrite put_nil. }
  rewrite (bind_Done _ _ _ _ _ E3). reflexivity.
Qed.

(** The bytes of a buffer that wait to be written to the socket. *)
Definition waiting (b : pbuf) : bytes :=
  take (Z.to_nat (pb_putp b - pb_getp b)) (drop (Z.to_nat (pb_getp b)) (pb_data b)).

Lemma waiting_put v b : pb_getp b = pb_putp b -> fits (length v) b -> waiting (put v b) = v.
Proof.
  intros Hg [(H1 & H2 & H3) Hf]. unfold waiting, put. cbn [pb_putp pb_getp pb_data].
  rewrite Hg. replace (Z.to_nat _) with (length v) by lia.
  rewrite memcpy_at_split by lia. rewrite drop_app_length' by (rewrite length_take; lia). apply take_app_length.
Qed.

Lemma hello_create_put version bitmap xid b :
  pb_getp b = 0 -> pb_putp b = 0 -> OFP_PACKET_MAX_SIZE <= Z.of_nat (length (pb_data b)) ->
  ofp_hello_create version bitmap xid b =
  Done (LAGOPUS_RESULT_OK, pbuf_plen_reset (put (hello_message version bitmap xid) (pbuf_plen_set OFP_PACKET_MAX_SIZE b))).
Proof.
  intros Hg Hp Hlen. destruct (proj1 hello_structs) as (Hd & _ & Hfl). unfold ofp_hello_create, pbuf_getp_get. rewrite Hg.
  set (b0 := pbuf_plen_set OFP_PACKET_MAX_SIZE b).
  assert (fits 16 b0) as Hf.
  { unfold fits, writable, b0. cbn [pbuf_plen_set set_pb_plen pb_putp pb_plen pb_data]. unfold OFP_PACKET_MAX_SIZE in *. lia. }
  pose proof (struct_encode "ofp_hello" (ofp_header_packet version OFPT_HELLO 0 xid) b0 Hd) as E1.
  rewrite hello_wire in E1. rewrite (bind_Done _ _ _ _ _ (E1 ltac:(rewrite Hfl; eapply fits_weaken; [exact Hf|cbn; lia]))).
  cbn [is_ok negb]. assert (length (hello_head version 0 xid) = 8%nat) as Hh by (unfold hello_head; by rewrite !length_app, !length_be_bytes).
  assert (ofp_element_list_encode [Element OFPHET_VERSIONBITMAP 0 [bitmap]] (put (hello_head version 0 xid) b0) =
    Done (LAGOPUS_RESULT_OK, put (hello_head version 0 xid ++ vbitmap_elem 8 bitmap) b0)) as E2.
  { unfold ofp_element_list_encode. cbn [element_list_encode_loop].
    by rewrite (bind_Done _ _ _ _ _ (element_encode_put bitmap (hello_head version 0 xid) b0 ltac:(by rewrite Hh))). }
  rewrite (bind_Done _ _ _ _ _ E2). cbn [is_ok negb]. set (v := hello_head version 0 xid ++ vbitmap_elem 8 bitmap).
  assert (length v = 16%nat) as Hv by (unfold v, vbitmap_elem; rewrite !length_app, !length_be_bytes, Hh; done).
  unfold gets at 1. rewrite (bind_Done _ _ _ _ _ eq_refl).
  assert (pbuf_length_get (put v b0) = (LAGOPUS_RESULT_OK, Some 16)) as ->.
  { unfold pbuf_length_get, put. cbn [pb_getp pb_putp b0 pbuf_plen_set set_pb_plen]. by rewrite Hg, Hp, Hv. }
  pose proof (poke_length_put 0 16 (be_bytes 1 version ++ be_bytes 1 OFPT_HELLO) (be_bytes 4 xid ++ vbitmap_elem 8 bitmap) b0 v (proj1 Hf)) as E3.
  assert (pb_putp b0 = 0) as Hp0 by done. rewrite Hp0 in E3.
  assert (ofp_tlv_length_set 0 16 (put v b0) = Done (LAGOPUS_RESULT_OK, put (hello_message version bitmap xid) b0)) as E4.
  { unfold ofp_tlv_length_set. etrans; [apply E3|].
    - destruct Hf as [_ ?]. lia.
    - unfold v, hello_head. by rewrite <- !app_assoc.
    - unfold hello_message, hello_head. by rewrite <- !app_assoc. }
  by rewrite (bind_Done _ _ _ _ _ E4).
Qed.

Lemma hello_waiting version bitmap xid b :
  pb_getp b = 0 -> pb_putp b = 0 -> OFP_PACKET_MAX_SIZE <= Z.of_nat (length (pb_data b)) ->
  waiting (pbuf_plen_reset (put (hello_message version bitmap xid) (pbuf_plen_set OFP_PACKET_MAX_SIZE b))) = hello_message version bitmap xid.
Proof.
  intros Hg Hp Hlen. transitivity (waiting (put (hello_message version bitmap xid) (pbuf_plen_set OFP_PACKET_MAX_SIZE b))); [done|].
  apply waiting_put; [cbn; by rewrite Hg, Hp|]. rewrite length_hello_message.
  unfold fits, writable. cbn [pbuf_plen_set set_pb_plen pb_putp pb_plen pb_data]. unfold OFP_PACKET_MAX_SIZE in *. lia.
Qed.

Lemma vbitmap_decode_adv bitmap b rest :
  unread b (be_bytes 4 bitmap ++ rest) ->
  ofp_vbitmap_decode b = Done ((LAGOPUS_RESULT_OK, u32 bitmap), adv 4 b).
Proof.
  intros Hu. unfold ofp_vbitmap_decode, gets at 1. rewrite (bind_Done _ _ _ _ _ eq_refl). unfold pbuf_plen_check.
  assert ((pb_plen b <? 4) = false) as -> by (apply Z.ltb_ge; destruct Hu as (_ & -> & _); rewrite length_app, length_be_bytes; lia).
  cbn [is_ok]. pose proof (DECODE_GET_adv b (be_bytes 4 bitmap) rest Hu) as E. rewrite length_be_bytes in E.
  assert (DECODE_GETL b = Done (u32 bitmap, adv 4 b)) as E'.
  { unfold DECODE_GETL. rewrite (bind_Done _ _ _ _ _ E). unfold mret, M_ret. do 2 f_equal.
    pose proof (be_bytes_range 4 bitmap) as Hok. pose proof (be_val_bytes 4 bitmap) as Hv. cbn [be_bytes app] in *.
    etrans; [apply word32_be; exact Hok|]. exact Hv. }
  by rewrite (bind_Done _ _ _ _ _ E').
Qed.

(** A 32-bit word holds the bit of the version. *)
Lemma version_bit bitmap v : 0 <= v < 32 -> negb (Z.land (u32 bitmap) (u32 (Z.shiftl 1 v)) =? 0) = Z.testbit bitmap v.
Proof.
  intros Hv. unfold u32. rewrite Z.shiftl_1_l, (Z.mod_small (2 ^ v)) by (split; [lia|apply Z.pow_lt_mono_r; lia]).
  assert (Z.testbit bitmap v = Z.testbit (bitmap mod 2 ^ 32) v) as -> by (rewrite Z.mod_pow2_bits_low by lia; done).
  set (w := bitmap mod 2 ^ 32).
  assert (Z.land w (2 ^ v) = if Z.testbit w v then 2 ^ v else 0) as ->.
  { apply Z.bits_inj'. intros i Hi. rewrite Z.land_spec. destruct (Z.testbit w v) eqn:E; rewrite ?Z.bits_0.
    - destruct (Z.eq_dec v i) as [<-|?]; [by rewrite E|]. rewrite Z.pow2_bits_false by lia. by rewrite andb_false_r.
    - destruct (Z.eq_dec v i) as [<-|?]; [by rewrite E|]. rewrite Z.pow2_bits_false by lia. by rewrite andb_false_r. }
  destruct (Z.testbit w v); [|done]. rewrite (proj2 (Z.eqb_neq _ _)); [done|]. pose proof (Z.pow_pos_nonneg 2 v). lia.
Qed.

(** The elements of the HELLO the switch sends. *)
Lemma hello_elements_vbitmap bitmap b :
  unread b (vbitmap_elem 8 bitmap) ->
  hello_elements_parse 8 status_ok [] b = Done ((status_ok, [Element OFPHET_VERSIONBITMAP 8 [u32 bitmap]]), adv 8 b).
Proof.
  intros Hu. destruct (proj2 hello_structs) as (Hd & Hdec & Hfl).
  assert (pb_plen b = 8) as Hplen by (destruct Hu as (_ & -> & _); unfold vbitmap_elem; by rewrite !length_app, !length_be_bytes).
  cbn [hello_elements_parse]. unfold gets at 1. rewrite (bind_Done _ _ _ _ _ eq_refl), Hplen. change (0 <? 8) with true. cbv iota.
  assert (versionbitmap_parse b = Done ((status_ok, Element OFPHET_VERSIONBITMAP 8 [u32 bitmap]), adv 8 b)) as E1.
  { set (pk := <["type" := [OFPHET_VERSIONBITMAP]]> (<["length" := [8]]> (∅ : packet))).
    assert (wire pk (fields "ofp_hello_elem_versionbitmap" "") = be_bytes 2 OFPHET_VERSIONBITMAP ++ be_bytes 2 8) as Hw by apply vbitmap_wire.
    destruct (struct_decode_wire "ofp_hello_elem_versionbitmap" b ∅ pk (be_bytes 4 bitmap) Hd Hdec) as (q & E & _ & Hq & _).
    { rewrite Hw, <- app_assoc. exact Hu. }
    rewrite Hw in E. unfold versionbitmap_parse. rewrite (bind_Done _ _ _ _ _ (on_fresh_Done _ _ _ _ _ E)). cbn [is_ok].
    rewrite Hfl in Hq. rewrite (pkt_get_leaf q pk "type" 2 1 0) by (try lia; apply (Hq ("type", 2%nat, 1%nat)); set_solver).
    rewrite (pkt_get_leaf q pk "length" 2 1 0) by (try lia; apply (Hq ("length", 2%nat, 1%nat)); set_solver).
    change (pkt_get "type" 0 pk mod _) with OFPHET_VERSIONBITMAP. change (pkt_get "length" 0 pk mod _) with 8.
    change (length (be_bytes 2 OFPHET_VERSIONBITMAP ++ be_bytes 2 8)) with 4%nat. change (Z.to_nat 8) with 8%nat.
    assert (unread (adv 4 b) (be_bytes 4 bitmap ++ [])) as Hu2.
    { rewrite app_nil_r. apply (unread_adv b (be_bytes 2 OFPHET_VERSIONBITMAP ++ be_bytes 2 8)). rewrite <- app_assoc. exact Hu. }
    assert (bitmaps_parse 8 (8 - 4) (adv 4 b) = Done ((status_ok, [u32 bitmap]), adv 4 (adv 4 b))) as E2.
    { cbn [bitmaps_parse]. change (negb (0 <? 8 - 4)) with false. cbv iota.
      by rewrite (bind_Done _ _ _ _ _ (vbitmap_decode_adv _ _ _ Hu2)). }
    rewrite (bind_Done _ _ _ _ _ E2), adv_add. done. }
  assert (ofp_element_parse [] b = Done ((status_ok, [Element OFPHET_VERSIONBITMAP 8 [u32 bitmap]]), adv 8 b)) as E.
  { unfold ofp_element_parse, element_parse_internal.
    erewrite bind_Done; cycle 1.
    { rewrite (bind_Done _ _ _ _ _ (ofp_tlv_decode_sneak_peek b OFPHET_VERSIONBITMAP 8 (be_bytes 4 bitmap) Hu)).
      change (u16 8) with 8. change (u16 OFPHET_VERSIONBITMAP) with 1. change (8 =? SIZEOF_OFP_TLV) with false.
      change (8 =? 0) with false. change (1 =? OFPHET_VERSIONBITMAP) with true. cbn [is_ok negb]. cbv iota.
      rewrite (bind_Done _ _ _ _ _ E1). change (GET_64BIT_PADDING_LENGTH 8) with 0.
      assert (pbuf_forward 0 (adv 8 b) = Done (LAGOPUS_RESULT_OK, adv 8 b)) as E2.
      { unfold pbuf_forward, pbuf_plen_check, adv. cbn. rewrite Hplen. cbn. by rewrite Z.add_0_r. }
      rewrite (bind_Done _ _ _ _ _ E2). reflexivity. }
    reflexivity. }
  rewrite (bind_Done _ _ _ _ _ E). cbn [is_ok status_ok fst]. cbn [hello_elements_parse].
  unfold gets at 1. rewrite (bind_Done _ _ _ _ _ eq_refl). cbn [adv set_pb_plen pb_plen]. by rewrite Hplen.
Qed.

(** ** Properties *)

(** C19: Two switches of this program agree on a version when one of them offers the other's.  The HELLO of a
    switch with the version [v'] and the bitmap [bitmap] is sixteen bytes in the buffer to be
    sent; a switch of the version [v] that gets these bytes accepts them, and sets the channel to its
    version [v], exactly if [v'] is [v] or the bit of [v] is set; otherwise it answers with
    HELLO_FAILED, INCOMPATIBLE, and the channel is not set. *)
Theorem hello_negotiation v v' bitmap xid bout bin :
  0 <= v < 32 -> 0 <= v' < 256 ->
  pb_getp bout = 0 -> pb_putp bout = 0 -> OFP_PACKET_MAX_SIZE <= Z.of_nat (length (pb_data bout)) ->
  exists sent, ofp_hello_create v' bitmap xid bout = Done (LAGOPUS_RESULT_OK, sent) /\
    length (waiting sent) = 16%nat /\
    (unread bin (waiting sent) ->
     ofp_hello_handle (Some v) bin =
     Done (if (v' =? v) || Z.testbit bitmap v then (status_ok, Some v)
           else (ofp_fail OFPET_HELLO_FAILED OFPHFC_INCOMPATIBLE, None), adv 16 bin)).
Proof.
  intros Hv Hv' Hg Hp Hlen. eexists. split; [by apply hello_create_put|].
  rewrite hello_waiting by done.
  split; [apply length_hello_message|]. intros Hu. destruct (proj1 hello_structs) as (Hd & Hdec & Hfl).
  unfold hello_message in Hu. rewrite <- hello_wire in Hu.
  destruct (struct_decode_wire "ofp_hello" bin ∅ (ofp_header_packet v' OFPT_HELLO 16 xid) _ Hd Hdec Hu) as (q & E & _ & Hq & _).
  apply unread_adv in Hu. rewrite hello_wire in E, Hu.
  assert (length (hello_head v' 16 xid) = 8%nat) as Hh by (unfold hello_head; by rewrite !length_app, !length_be_bytes).
  rewrite Hh in *. unfold ofp_hello_handle. rewrite (bind_Done _ _ _ _ _ (on_fresh_Done _ _ _ _ _ E)). cbn [is_ok negb].
  assert (pb_plen (adv 8 bin) = 8) as Hplen by (destruct Hu as (_ & -> & _); unfold vbitmap_elem; by rewrite !length_app, !length_be_bytes).
  unfold gets at 1. rewrite (bind_Done _ _ _ _ _ eq_refl), Hplen. change (Z.to_nat 8) with 8%nat.
  rewrite (bind_Done _ _ _ _ _ (hello_elements_vbitmap bitmap _ Hu)), adv_add. cbn [is_ok status_ok fst negb].
  rewrite Hfl in Hq.
  rewrite (pkt_get_leaf q (ofp_header_packet v' OFPT_HELLO 16 xid) "header.version" 1 1 0)
    by (try lia; apply (Hq ("header.version", 1%nat, 1%nat)); set_solver).
  assert (pkt_get "header.version" 0 (ofp_header_packet v' OFPT_HELLO 16 xid) mod 256 ^ Z.of_nat 1 = v') as ->
    by (cbn -[Z.modulo]; by rewrite Z.mod_small).
  unfold check_versions. cbn [existsb check_bitmaps el_type el_bitmap_list].
  change (OFPHET_VERSIONBITMAP =? OFPHET_VERSIONBITMAP) with true. change (BITMAP_SIZE * 1) with 32.
  rewrite (proj2 (Z.ltb_lt _ _)), version_bit by lia. cbn [andb]. rewrite orb_false_r.
  destruct (v' =? v), (Z.testbit bitmap v); done.
Qed.

(** *** More than one bitmap

    The bitmaps of an element are words of 32 versions each.  The handler tests every word for the
    bit of its version: the version 36, announced in the second word, is taken for 4. *)
Theorem second_bitmap_misread : check_versions 4 [Element OFPHET_VERSIONBITMAP 12 [0; 2 ^ 4]] = true.
Proof. reflexivity. Qed.

(** *** Arbitrary bytes *)

Lemma parses_forward U {B} n (f : lagopus_result -> pm B) b l Q :
  msg b l -> 0 <= n ->
  (n <= Z.of_nat (length l) -> parses U (f LAGOPUS_RESULT_OK) (adv (Z.to_nat n) b) (drop (Z.to_nat n) l)
     (fun c k => Q c (Z.to_nat n + k)%nat)) ->
  parses U (f LAGOPUS_RESULT_OUT_OF_RANGE) b l Q ->
  parses U (pbuf_forward n ≫= f) b l Q.
Proof.
  intros Hm Hn H1 H2. destruct (decide (n <= Z.of_nat (length l))) as [Hle|Hgt].
  - apply (parses_bind _ _ _ _ _ (fun r k => r = LAGOPUS_RESULT_OK /\ k = Z.to_nat n) _ Hm).
    + unfold parses. pose proof (forward_adv b (take (Z.to_nat n) l) (drop (Z.to_nat n) l) n) as E.
      rewrite take_drop, length_take, Nat.min_l in E by lia. rewrite E by (apply Hm || lia). exists (Z.to_nat n). split_and!; try done; lia.
    + intros r k _ [-> ->] _. by apply H1.
  - unfold parses, mbind, M_bind, pbuf_forward, pbuf_plen_check. rewrite (msg_plen b l Hm), (proj2 (Z.ltb_lt _ _)) by lia. exact H2.
Qed.

Section Any.
Context (U : Prop).

Lemma parses_bitmaps fuel n b l :
  msg b l -> n <= 4 * Z.of_nat fuel -> parses U (bitmaps_parse fuel n) b l (fun _ _ => True).
Proof.
  revert n b l. induction fuel as [|fuel IH]; intros n b l Hm Hn; cbn [bitmaps_parse].
  - rewrite (proj2 (Z.ltb_ge _ _)) by lia. by apply parses_ret.
  - destruct (0 <? n); [|by apply parses_ret]. cbn [negb]. unfold ofp_vbitmap_decode.
    assert (parses U (ret ← gets (pbuf_plen_check 4);
      if is_ok ret then bitmap ← DECODE_GETL; mret (LAGOPUS_RESULT_OK, bitmap) else mret (ret, 0)) b l (fun _ _ => True)) as H.
    { apply parses_plen_check; [done|intros H4; cbn [is_ok]|by apply parses_ret].
      unfold DECODE_GETL. unfold parses. rewrite bind_bind. fold (parses U
        (DECODE_GET 4 ≫= fun v => mret (u32 (Z.shiftl (rd8 v 0) 24 + Z.shiftl (rd8 v 1) 16 + Z.shiftl (rd8 v 2) 8 + rd8 v 3))
          ≫= fun bitmap => mret (LAGOPUS_RESULT_OK, bitmap)) b l (fun _ _ => True)).
      apply parses_get; [done|lia|]. by apply parses_ret. }
    apply (parses_bind _ _ _ _ _ _ _ Hm H). intros [ret bitmap] k _ _ Hm'. destruct (is_ok ret); [|by apply parses_ret].
    apply (parses_bind _ _ _ _ _ (fun _ _ => True) _ Hm'); [apply IH; [done|lia]|].
    intros [status bitmaps] k' _ _ _. by apply parses_ret.
Qed.

Lemma parses_versionbitmap b l :
  msg b l -> parses U versionbitmap_parse b l (fun r k => is_ok r.1.1 = true -> (0 < k)%nat).
Proof.
  intros Hm. destruct (proj2 hello_structs) as (Hd & Hdec & _). unfold versionbitmap_parse.
  apply (parses_bind _ _ _ _ _ _ _ Hm (parses_decode U _ b l Hd Hdec Hm)).
  intros r k _ [(pk & -> & Hk & _)|(pk & -> & ->)] Hm'; cbn [is_ok]; [|by apply parses_ret].
  assert (sizeof openflow13 "ofp_hello_elem_versionbitmap" = 4) as Hs by (vm_compute; reflexivity). rewrite Hs in Hk.
  apply (parses_bind _ _ _ _ _ (fun _ _ => True) _ Hm'); [apply parses_bitmaps; [done|lia]|].
  intros [status bitmaps] k' _ _ _. apply parses_ret. lia.
Qed.

Lemma parses_element es b l :
  msg b l -> parses U (ofp_element_parse es) b l (fun r k => is_ok r.1.1 = true -> (0 < k)%nat).
Proof.
  intros Hm. unfold ofp_element_parse.
  apply (parses_bind _ _ _ _ _ (fun r k => is_ok r.1.1 = true -> (0 < k)%nat) _ Hm).
  - unfold element_parse_internal. apply parses_tlv; [done| |by apply parses_ret].
    intros t n rest El Ht Hn. cbn [is_ok negb]. destruct (n =? SIZEOF_OFP_TLV).
    { apply parses_gets, parses_ret. rewrite (msg_plen b l Hm), El.
      rewrite (proj2 (Z.eqb_neq _ _)); [done|]. rewrite length_app, length_be_bytes. lia. }
    destruct (Z.eqb_spec n 0) as [?|?]; [by apply parses_ret|].
    pose proof (GET_64BIT_PADDING_LENGTH_spec n Hn) as [Hpad _].
    destruct (t =? OFPHET_VERSIONBITMAP).
    + apply (parses_bind _ _ _ _ _ _ _ Hm (parses_versionbitmap b l Hm)). intros [status el] k _ Hk Hm'. cbn [fst] in Hk.
      apply parses_forward; [done|lia|intros _|]; apply parses_ret; cbn [fst]; destruct (is_ok status.1) eqn:E; try done.
      all: try (rewrite E; done). intros _. specialize (Hk eq_refl). lia.
    + apply parses_forward; [done|lia|intros _|]; apply parses_ret; cbn [fst]; [|done]. intros _. lia.
  - intros [status es'] k Hk HP Hm'. cbn [fst] in HP. destruct (is_ok status.1) eqn:E.
    + apply parses_ret. intros _. specialize (HP eq_refl). lia.
    + apply parses_gets. assert (0 <= pb_plen (adv k b)) as Hplen by (rewrite (msg_plen _ _ Hm'); lia).
      apply parses_forward; [done|exact Hplen|intros _|]; apply parses_ret; cbn [fst]; by rewrite E.
Qed.

Lemma parses_hello_elements fuel status es b l :
  msg b l -> (length l <= fuel)%nat -> parses U (hello_elements_parse fuel status es) b l (fun _ _ => True).
Proof.
  revert status es b l. induction fuel as [|fuel IH]; intros status es b l Hm Hf; cbn [hello_elements_parse];
    apply parses_gets; rewrite (msg_plen b l Hm); destruct (Z.ltb_spec 0 (Z.of_nat (length l))); try by apply parses_ret.
  { lia. }
  apply (parses_bind _ _ _ _ _ _ _ Hm (parses_element es b l Hm)). intros [st es'] k _ Hk Hm'. cbn [fst] in Hk.
  destruct (is_ok st.1); [|by apply parses_ret]. apply IH; [done|]. rewrite length_drop. specialize (Hk eq_refl). lia.
Qed.

(** Whatever a HELLO holds, the handler ends, and takes nothing beyond it; it sets no version but that of the
    bridge. *)
Lemma hello_handle_any v b l :
  msg b l ->
  parses U (ofp_hello_handle v) b l (fun r _ => match r.2 with Some v' => v = Some v' /\ r.1 = status_ok | None => is_ok r.1.1 = false end).
Proof.
  intros Hm. destruct (proj1 hello_structs) as (Hd & Hdec & _). unfold ofp_hello_handle.
  apply (parses_bind _ _ _ _ _ _ _ Hm (parses_decode U _ b l Hd Hdec Hm)).
  intros r k _ [(pk & -> & _)|(pk & -> & ->)] Hm'; cbn [is_ok negb]; [|by apply parses_ret].
  apply parses_gets. apply (parses_bind _ _ _ _ _ (fun _ _ => True) _ Hm').
  - apply parses_hello_elements; [done|]. rewrite (msg_plen _ _ Hm'). lia.
  - intros [status es] k' _ _ Hm''. destruct (is_ok status.1) eqn:E; cbn [negb]; [|by apply parses_ret].
    destruct v as [v|]; [|by apply parses_ret]. destruct (_ || _); by apply parses_ret.
Qed.

End Any.

(** ** Example *)

Theorem hello_negotiation_witness :
  waiting (pbuf_plen_reset (put (hello_message 5 (2 ^ 4 + 2 ^ 5) 7) (pbuf_plen_set OFP_PACKET_MAX_SIZE (pbuf_alloc OFP_PACKET_MAX_SIZE)))) =
    hello_message 5 (2 ^ 4 + 2 ^ 5) 7 /\
  exists sent, ofp_hello_create 5 (2 ^ 4 + 2 ^ 5) 7 (pbuf_alloc OFP_PACKET_MAX_SIZE) = Done (LAGOPUS_RESULT_OK, sent) /\
    length (waiting sent) = 16%nat /\
    (unread (holding (hello_message 5 (2 ^ 4 + 2 ^ 5) 7)) (waiting sent) ->
     ofp_hello_handle (Some 4) (holding (hello_message 5 (2 ^ 4 + 2 ^ 5) 7)) =
     Done ((status_ok, Some 4), adv 16 (holding (hello_message 5 (2 ^ 4 + 2 ^ 5) 7)))).
Proof.
  split; [vm_compute; reflexivity|].
  apply (hello_negotiation 4 5 (2 ^ 4 + 2 ^ 5) 7 (pbuf_alloc OFP_PACKET_MAX_SIZE) (holding (hello_message 5 (2 ^ 4 + 2 ^ 5) 7)));
    [lia|lia|reflexivity|reflexivity|].
  unfold pbuf_alloc. change (OFP_PACKET_MAX_SIZE <? PBUF_MIN_SIZE) with false.
  cbn [pb_data pbuf_reset set_pb_plen set_pb_putp set_pb_getp]. rewrite length_replicate, Z2Nat.id by (unfold OFP_PACKET_MAX_SIZE; lia). lia.
Defined.
