(* ===== verification/Channel.v ===== *)
(** * The channel to a controller ([src/agent/channel.c], [session_*] of [src/lib/session.c])

    The state machine of a connection with its timer, and the reading and writing of the socket.  What a
    system call answers goes in as an argument; a lock is held for a whole step.  [connection] is [struct channel] without the role and the lists the
    channel is on, which are in [Role]. *)
From S2P Require Import Prelude Monad OpenFlow Pbuf Generator OpenFlowH Tlv MatchCodec ActionCodec OfpHandler Framing Hello.
From stdpp Require Import strings.
#[local] Open Scope Z_scope.

(** ** Data *)

Inductive channel_event :=
  | Channel_Start | Channel_Stop | Channel_Expired | TCP_Connection_Open | TCP_Connection_Closed
  | TCP_Connection_Failed | OpenFlow_Hello_Received | OpenFlow_Message_Received.

Inductive channel_status := Idle | Connect | HelloSent | Established | Disable.

#[global] Instance channel_status_eq_dec : EqDecision channel_status.
Proof. solve_decision. Defined.

(** A session: is it TLS, is there a socket, and the events it polls for. *)
Record session := Session {
  se_tls : bool;
  se_sock : bool;
  se_pollin : bool;
  se_pollout : bool
}.

(** The task of [channel->callout]: [channel_timer] after some seconds, or [ping_timer] every second. *)
Inductive callout_task := start_task (interval : Z) | ping_task.

Inductive switch_mode := SWITCH_MODE_OPENFLOW | SWITCH_MODE_SECURE | SWITCH_MODE_STANDALONE.
Inductive fail_mode := FAIL_SECURE_MODE | FAIL_STANDALONE_MODE.

Record connection := Connection {
  cn_version : Z;
  cn_xid : Z;
  cn_session : option session;
  cn_status : channel_status;
  cn_callout : option callout_task;
  cn_interval : Z;
  cn_in : pbuf;
  cn_out : pbuf_list;
  cn_is_alive : bool
}.

Definition CHANNEL_CONNECT_INTERVAL_DEFAULT := 1.
Definition CHANNEL_CONNECT_INTERVAL_MAX := 60.
Definition START_XID := 100.
Definition UINT32_MAX := 0xffffffff.

Definition set_cn_version v c := Connection v (cn_xid c) (cn_session c) (cn_status c) (cn_callout c) (cn_interval c) (cn_in c) (cn_out c) (cn_is_alive c).
Definition set_cn_xid v c := Connection (cn_version c) v (cn_session c) (cn_status c) (cn_callout c) (cn_interval c) (cn_in c) (cn_out c) (cn_is_alive c).
Definition set_cn_session v c := Connection (cn_version c) (cn_xid c) v (cn_status c) (cn_callout c) (cn_interval c) (cn_in c) (cn_out c) (cn_is_alive c).
Definition set_cn_status v c := Connection (cn_version c) (cn_xid c) (cn_session c) v (cn_callout c) (cn_interval c) (cn_in c) (cn_out c) (cn_is_alive c).
Definition set_cn_callout v c := Connection (cn_version c) (cn_xid c) (cn_session c) (cn_status c) v (cn_interval c) (cn_in c) (cn_out c) (cn_is_alive c).
Definition set_cn_interval v c := Connection (cn_version c) (cn_xid c) (cn_session c) (cn_status c) (cn_callout c) v (cn_in c) (cn_out c) (cn_is_alive c).
Definition set_cn_in v c := Connection (cn_version c) (cn_xid c) (cn_session c) (cn_status c) (cn_callout c) (cn_interval c) v (cn_out c) (cn_is_alive c).
Definition set_cn_out v c := Connection (cn_version c) (cn_xid c) (cn_session c) (cn_status c) (cn_callout c) (cn_interval c) (cn_in c) v (cn_is_alive c).
Definition set_cn_is_alive v c := Connection (cn_version c) (cn_xid c) (cn_session c) (cn_status c) (cn_callout c) (cn_interval c) (cn_in c) (cn_out c) v.

(** *** The world outside *)

(** What [session_connect] comes to: connected at once, in progress (both leave the socket
    open), or refused (the socket is closed again). *)
Inductive connect_result := connected | in_progress | refused.

(** What a check of the connection finds: an error of the socket, or none; then the result of the
    TLS handshake so far. *)
Inductive check_result := so_error | so_ready (handshake : lagopus_result).

(** The answers to the calls of one step: the connect, the checks in order; does another channel of the
    bridge live; the version, the version bitmap and the fail mode of the bridge, if it is found. *)
Record world := World {
  w_connect : connect_result;
  w_checks : list check_result;
  w_other_alive : bool;
  w_bridge : option (Z * Z * fail_mode)
}.

(** The state of a step: the channel, the checks that are left, the mode of the bridge, and whether
    the task of the channel's timer runs the step. *)
Record state := State {
  st_channel : connection;
  st_checks : list check_result;
  st_mode : switch_mode;
  st_in_timer : bool
}.

Abbreviation cm := (M state).

Definition on_channel (f : connection -> connection) : cm unit :=
  modify (fun s => State (f (st_channel s)) (st_checks s) (st_mode s) (st_in_timer s)).
Definition channel_get {A} (f : connection -> A) : cm A := gets (fun s => f (st_channel s)).
Definition set_mode (m : switch_mode) : cm unit := modify (fun s => State (st_channel s) (st_checks s) m (st_in_timer s)).

(** ** Sessions *)

Definition session_is_alive (s : option session) : bool :=
  match s with None => false | Some s => se_sock s end.

Definition session_read_event_set (s : session) : session := Session (se_tls s) (se_sock s) true (se_pollout s).
Definition session_write_event_set (s : session) : session := Session (se_tls s) (se_sock s) (se_pollin s) true.
Definition session_read_event_unset (s : session) : session := Session (se_tls s) (se_sock s) false (se_pollout s).
Definition session_write_event_unset (s : session) : session := Session (se_tls s) (se_sock s) (se_pollin s) false.
Definition set_se_sock (b : bool) (s : session) : session := Session (se_tls s) b (se_pollin s) (se_pollout s).

(** [close_default], or [close_tls], which leaves the socket as it is. *)
Definition session_close (s : session) : session := if se_tls s then s else set_se_sock false s.

(** The session of the channel; NULL is dereferenced otherwise. *)
Definition on_session (f : session -> session) : cm unit :=
  s ← channel_get cn_session;
  match s with
  | Some s => on_channel (set_cn_session (Some (f s)))
  | None => undefined
  end.

Definition next_check : cm check_result := fun s =>
  match st_checks s with
  | r :: rs => Done (r, State (st_channel s) rs (st_mode s) (st_in_timer s))
  | [] => OutOfFuel
  end.

(** Without a socket [getsockopt] fails. *)
Definition session_connect_check : cm lagopus_result :=
  s ← channel_get cn_session;
  match s with
  | None => mret LAGOPUS_RESULT_ANY_FAILURES
  | Some s =>
      if negb (se_sock s) then mret LAGOPUS_RESULT_ANY_FAILURES
      else
        r ← next_check;
        match r with
        | so_error => mret LAGOPUS_RESULT_SOCKET_ERROR
        | so_ready handshake => mret (if se_tls s then handshake else LAGOPUS_RESULT_OK)
        end
  end.

Section Step.
Context (w : world).

(** ** The functions of the state machine *)

Definition channel_read_on : cm unit := on_session session_read_event_set.
Definition channel_write_on : cm unit := on_session session_write_event_set.

Definition channel_send_packet_by_event_nolock (b : pbuf) : cm unit :=
  on_channel (fun c => set_cn_out (pbuf_list_add b (cn_out c)) c) ;;
  channel_write_on.

Definition channel_xid_get_nolock : cm Z :=
  xid ← channel_get cn_xid;
  let xid := if UINT32_MAX <=? xid then START_XID else xid in
  on_channel (set_cn_xid (u32 (xid + 1))) ;;
  mret xid.

(** [ofp_hello_send]; a buffer that is not sent goes back to the list. *)
Definition ofp_hello_send : cm lagopus_result :=
  match w_bridge w with
  | None => mret LAGOPUS_RESULT_NOT_FOUND
  | Some (version, bitmap, _) =>
      on_channel (set_cn_version version) ;;
      out ← channel_get cn_out;
      let '(b, out) := pbuf_list_get OFP_PACKET_MAX_SIZE out in
      on_channel (set_cn_out out) ;;
      xid ← channel_xid_get_nolock;
      match ofp_hello_create version bitmap xid b with
      | Done (LAGOPUS_RESULT_OK, b) => channel_send_packet_by_event_nolock b ;; mret LAGOPUS_RESULT_OK
      | Done (ret, b) => on_channel (fun c => set_cn_out (pbuf_list_unget b (cn_out c)) c) ;; mret ret
      | Undefined => undefined
      | OutOfFuel => out_of_fuel
      end
  end.

(** [LAGOPUS_RESULT_*] codes are negative numbers; the functions here return 0 or -1. *)
Definition channel_start : cm Z :=
  s ← channel_get cn_session;
  match s with
  | None => mret (-1)
  | Some s =>
      if se_sock s then mret (-1)
      else match w_connect w with
      | refused => mret (-1)
      | _ =>
          on_channel (fun c => set_cn_is_alive true (set_cn_session (Some (set_se_sock true s)) c)) ;;
          channel_read_on ;;
          channel_write_on ;;
          on_channel (set_cn_xid START_XID) ;;
          mret 0
      end
  end.

(** The mode of the bridge without a controller. *)
Definition fail_mode_set : cm unit :=
  if w_other_alive w then mret tt
  else match w_bridge w with
  | Some (_, _, FAIL_SECURE_MODE) => set_mode SWITCH_MODE_SECURE
  | Some (_, _, FAIL_STANDALONE_MODE) => set_mode SWITCH_MODE_STANDALONE
  | None => mret tt
  end.

(** [lagopus_callout_cancel_task] waits until the task does not run, for ever if the task itself calls it. *)
Definition cancel_callout : cm unit :=
  callout ← channel_get cn_callout;
  in_timer ← gets st_in_timer;
  match callout with
  | None => mret tt
  | Some _ => if in_timer : bool then undefined else on_channel (set_cn_callout None)
  end.

Definition channel_stop : cm Z :=
  s ← channel_get cn_session;
  (if session_is_alive s then on_session session_close else mret tt) ;;
  fail_mode_set ;;
  cancel_callout ;;
  mret 0.

Definition channel_expire : cm Z := channel_stop ;; mret 0.

Definition channel_ignore : cm Z := mret 0.
Definition channel_process : cm Z := mret 0.

Definition channel_connect_success : cm Z :=
  on_channel (set_cn_interval CHANNEL_CONNECT_INTERVAL_DEFAULT) ;;
  channel_read_on ;;
  _ ← ofp_hello_send;
  mret 0.

Definition channel_connect_fail : cm Z :=
  on_channel (fun c =>
    let interval := cn_interval c * 2 in
    set_cn_interval (if CHANNEL_CONNECT_INTERVAL_MAX <=? interval then CHANNEL_CONNECT_INTERVAL_MAX else interval) c) ;;
  _ ← channel_stop;
  mret 0.

Definition channel_hello_confirm : cm Z :=
  channel_read_on ;;
  (if w_bridge w is Some _ then set_mode SWITCH_MODE_OPENFLOW else mret tt) ;;
  cancel_callout ;;
  on_channel (set_cn_callout (Some ping_task)) ;;
  mret 0.

(** Update the status, and in [Idle] the timer. *)
Definition channel_update (next : channel_status) : cm unit :=
  on_channel (set_cn_status next) ;;
  c ← gets st_channel;
  match next, cn_callout c with
  | Idle, None => on_channel (set_cn_callout (Some (start_task (cn_interval c))))
  | _, _ => mret tt
  end.

(** ** The state machine *)

Inductive fsm_func := f_start | f_stop | f_expire | f_ignore | f_connect_check | f_connect_success | f_connect_fail
  | f_hello_confirm | f_process.

Definition FSM (status : channel_status) (event : channel_event) : fsm_func * channel_status :=
  match status, event with
  | Disable, Channel_Expired => (f_expire, Disable)
  | Disable, _ => (f_ignore, Disable)
  | _, Channel_Expired => (f_expire, Disable)
  | Idle, Channel_Start => (f_start, Connect)
  | Connect, Channel_Start => (f_connect_check, Connect)
  | Connect, TCP_Connection_Open => (f_connect_success, HelloSent)
  | Connect, TCP_Connection_Failed => (f_connect_fail, Idle)
  | HelloSent, Channel_Start => (f_ignore, HelloSent)
  | HelloSent, OpenFlow_Hello_Received => (f_hello_confirm, Established)
  | Established, Channel_Start => (f_ignore, Established)
  | Established, OpenFlow_Hello_Received => (f_process, Established)
  | Established, OpenFlow_Message_Received => (f_process, Established)
  | _, _ => (f_stop, Idle)
  end.

(** [channel_connect_check] calls the state machine, which may call it again. *)
Definition connect_check_with (event_nolock : channel_event -> cm unit) : cm Z :=
  status ← channel_get cn_status;
  (if decide (status = Disable) then event_nolock Channel_Expired
   else
     ret ← session_connect_check;
     match ret with
     | LAGOPUS_RESULT_OK => event_nolock TCP_Connection_Open
     | LAGOPUS_RESULT_EINPROGRESS => event_nolock Channel_Start
     | _ => event_nolock TCP_Connection_Failed
     end) ;;
  mret 0.

Fixpoint channel_event_nolock (fuel : nat) (event : channel_event) : cm unit :=
  match fuel with
  | O => out_of_fuel
  | S fuel =>
      status ← channel_get cn_status;
      let '(func, next) := FSM status event in
      ret ← match func with
            | f_start => channel_start
            | f_stop => channel_stop
            | f_expire => channel_expire
            | f_ignore => channel_ignore
            | f_connect_check => connect_check_with (channel_event_nolock fuel)
            | f_connect_success => channel_connect_success
            | f_connect_fail => channel_connect_fail
            | f_hello_confirm => channel_hello_confirm
            | f_process => channel_process
            end;
      if ret <? 0 then mret tt else channel_update next
  end.

(** Every turn of the recursion takes a check. *)
Definition fsm_fuel : nat := S (S (length (w_checks w))).
Definition channel_event_run (event : channel_event) : cm unit := channel_event_nolock fsm_fuel event.
Definition channel_connect_check : cm Z := connect_check_with (channel_event_nolock fsm_fuel).

(** ** Reading and writing *)

(** What a read of the socket gives: an error (EAGAIN or another), or at most [n] bytes of what the
    controller has sent; none at the end of the stream. *)
Inductive read_result := read_error (eagain : bool) | read_bytes (n : nat) (stream : bytes).

(** The messages that go into the queue of the handler. *)
Definition channel_read (input : read_result) : cm (list pbuf) :=
  status ← channel_get cn_status;
  if decide (status = Connect \/ status = Disable) then _ ← channel_connect_check; mret []
  else
    channel_read_on ;;
    match input with
    | read_error true => mret []
    | read_error false => channel_event_run TCP_Connection_Failed ;; mret []
    | read_bytes n stream =>
        b ← channel_get cn_in;
        match channel_read_messages n stream b with
        | Done (Some (entries, _), b) => on_channel (set_cn_in b) ;; mret entries
        | Done (None, b) => on_channel (set_cn_in b) ;; channel_event_run TCP_Connection_Closed ;; mret []
        | Undefined => undefined
        | OutOfFuel => out_of_fuel
        end
    end.

(** [sock_write] is the number of bytes the socket takes of those it is given, [None] an error;
    [eagain] says which. *)
Definition channel_write (sock_write : bytes -> option Z) (eagain : bool) : cm unit :=
  status ← channel_get cn_status;
  if decide (status = Connect \/ status = Disable) then _ ← channel_connect_check; mret tt
  else
    out ← channel_get cn_out;
    match pbuf_list_write sock_write out with
    | Done (nbytes, out) =>
        on_channel (set_cn_out out) ;;
        if nbytes <? 0 then (if eagain then mret tt else channel_event_run TCP_Connection_Failed)
        else if nbytes =? 0 then channel_event_run TCP_Connection_Closed
        else if pbuf_list_first out is Some _ then channel_write_on else mret tt
    | Undefined => undefined
    | OutOfFuel => out_of_fuel
    end.

(** [channel_timer], run by the timer; the task runs once and is freed then. *)
Definition channel_timer : cm unit :=
  channel_event_run Channel_Start ;;
  on_channel (set_cn_callout None).

Definition channel_enable : cm unit := channel_update Idle.

Definition channel_disable : cm unit :=
  alive ← channel_get cn_is_alive;
  if alive : bool then on_channel (set_cn_is_alive false) ;; channel_update Disable else mret tt.

Definition channel_hello_received_set : cm unit := channel_event_run OpenFlow_Hello_Received.

End Step.

Definition channel_is_alive (c : connection) : bool :=
  cn_is_alive c && bool_decide (cn_status c = Established \/ cn_status c = HelloSent) && session_is_alive (cn_session c).

(** [channel_alloc_internal]: a channel with a session of the protocol. *)
Definition channel_alloc_internal (tls : bool) : connection :=
  Connection 4 0 (Some (Session tls false false false)) Disable None CHANNEL_CONNECT_INTERVAL_DEFAULT
    (pbuf_alloc OFP_PBUF_SIZE) pbuf_list_alloc false.

(** *** Steps *)

(** What happens to a channel: its timer fires, its socket can be read or written, the handler has
    got a Hello, a command disables or enables it. *)
Inductive input :=
  | on_timer
  | on_readable (r : read_result)
  | on_writable (sock_write : bytes -> option Z) (eagain : bool)
  | on_hello
  | on_disable
  | on_enable.

Definition step_input (w : world) (i : input) : cm (list pbuf) :=
  match i with
  | on_timer => channel_timer w ;; mret []
  | on_readable r => on_session session_read_event_unset ;; channel_read w r
  | on_writable sock_write eagain => on_session session_write_event_unset ;; channel_write w sock_write eagain ;; mret []
  | on_hello => channel_hello_received_set w ;; mret []
  | on_disable => channel_disable ;; mret []
  | on_enable => channel_enable ;; mret []
  end.

Definition start_state (w : world) (i : input) (c : connection) (m : switch_mode) : state :=
  State c (w_checks w) m (if i is on_timer then true else false).

Definition step (w : world) (i : input) (c : connection) (m : switch_mode) : outcome (list pbuf * connection * switch_mode) :=
  match step_input w i (start_state w i c m) with
  | Done (entries, s) => Done (entries, st_channel s, st_mode s)
  | Undefined => Undefined
  | OutOfFuel => OutOfFuel
  end.

(** One step after the other; the messages for the handler in order. *)
Fixpoint steps (l : list (world * input)) (c : connection) (m : switch_mode) : outcome (list pbuf * connection * switch_mode) :=
  match l with
  | [] => Done ([], c, m)
  | (w, i) :: l =>
      match step w i c m with
      | Done (es, c, m) =>
          match steps l c m with
          | Done (es', c, m) => Done (es ++ es', c, m)
          | Undefined => Undefined
          | OutOfFuel => OutOfFuel
          end
      | Undefined => Undefined
      | OutOfFuel => OutOfFuel
      end
  end.

(** ** The invariant *)

(** Buffers that can be written, and buffers that know their size. *)
Definition sendable (b : pbuf) : Prop :=
  0 <= pb_getp b <= pb_putp b /\ pb_putp b <= Z.of_nat (length (pb_data b)) < 2 ^ 64.
Definition sized (b : pbuf) : Prop := pb_size b = Z.of_nat (length (pb_data b)) /\ pb_size b < 2 ^ 64.
Definition out_ok (l : pbuf_list) : Prop :=
  Forall sendable (pl_tailq l) /\ Forall sized (pl_tailq l) /\ Forall sized (pl_unused l).

(** What the status says about the socket and the timer, of a channel over TCP: one that is not connected
    is going to be, one that is being connected has a socket. *)
Definition status_inv (status : channel_status) (sock is_alive : bool) (interval : Z) (callout : option callout_task) : Prop :=
  match status with
  | Idle => sock = false /\ callout = Some (start_task interval)
  | Connect | HelloSent => sock = true /\ callout = None /\ is_alive = true
  | Established => sock = true /\ callout = Some ping_task /\ is_alive = true
  | Disable => True
  end.

Definition channel_inv (c : connection) : Prop :=
  match cn_session c with
  | None => False
  | Some s =>
      se_tls s = false /\ 1 <= cn_interval c <= CHANNEL_CONNECT_INTERVAL_MAX /\ out_ok (cn_out c) /\
      (exists r, in_buffer (cn_in c) r /\ incomplete r) /\
      status_inv (cn_status c) (se_sock s) (cn_is_alive c) (cn_interval c) (cn_callout c)
  end.

(** The socket sends whole messages and the begin of one. *)
Definition read_ok (c : connection) (r : read_result) : Prop :=
  match r with
  | read_error _ => True
  | read_bytes n stream =>
      forall r, in_buffer (cn_in c) r -> exists ms rest, r ++ stream = concat ms ++ rest /\ Forall frame ms /\ incomplete rest
  end.

(** The system call does not take more bytes than there are. *)
Definition write_ok (sock_write : bytes -> option Z) : Prop :=
  forall l n, sock_write l = Some n -> 0 <= n <= Z.of_nat (length l).

(** What the environment may do: the task in [callout] fires, an attempt to connect does not fail at
    once, there is an answer to a check, and a channel is enabled when it is closed. *)
Definition valid (w : world) (i : input) (c : connection) : Prop :=
  match i with
  | on_timer => (exists n, cn_callout c = Some (start_task n)) /\ w_connect w <> refused
  | on_readable r => w_checks w <> [] /\ read_ok c r
  | on_writable sock_write _ => w_checks w <> [] /\ write_ok sock_write
  | on_enable => cn_status c = Disable /\ session_is_alive (cn_session c) = false /\ cn_callout c = None
  | _ => True
  end.

(** *** Lemmas *)

Lemma list_write_ok sock_write l :
  out_ok l -> write_ok sock_write -> exists n l', pbuf_list_write sock_write l = Done (n, l') /\ out_ok l'.
Proof.
  intros (Hs & Hz & Hu) Hw. unfold pbuf_list_write. destruct (pl_tailq l) as [|b tailq] eqn:E.
  { exists 0, l. split; [done|]. unfold out_ok. by rewrite E. }
  apply Forall_cons in Hs as [(Hb1 & Hb2) Hs]. apply Forall_cons in Hz as [Hb3 Hz].
  unfold pbuf_readable_size. rewrite u64_small by lia. unfold peek, in_block.
  rewrite (proj2 (andb_true_iff _ _)) by (split; apply Z.leb_le; lia).
  set (chunk := take _ _). assert (Z.of_nat (length chunk) = pb_putp b - pb_getp b) as Hc.
  { unfold chunk. rewrite length_take, length_drop. lia. }
  set (b1 := if 0 <? _ then _ else b). assert (sendable b1 /\ sized b1) as [Hb4 Hb5].
  { unfold b1. destruct (sock_write chunk) as [n|] eqn:En; cbn [default id]; [|done]. pose proof (Hw _ _ En).
    destruct (0 <? n); [|done]. unfold sendable, sized, set_pb_getp in *. cbn. lia. }
  do 2 eexists. split; [done|]. unfold out_ok. destruct (pb_getp b1 =? pb_putp b1); cbn [pl_tailq pl_unused];
    split_and!; try done; by constructor.
Qed.

Lemma sized_alloc size : PBUF_MIN_SIZE <= size < 2 ^ 64 -> sized (pbuf_alloc size).
Proof.
  intros [H H']. rewrite pbuf_alloc_empty by done. unfold sized. cbn [pb_size pb_data]. rewrite length_replicate.
  unfold PBUF_MIN_SIZE in H. lia.
Qed.

Lemma try_big size unused n i : pbuf_list_try n size unused = Some i -> exists b, unused !! i = Some b /\ size <= pb_size b.
Proof.
  revert n i. induction unused as [|b unused IH]; intros n i; cbn [pbuf_list_try]; [done|].
  destruct (_ <? n); [done|]. destruct (Z.leb_spec size (pb_size b)); [intros [= <-]; by exists b|].
  destruct (pbuf_list_try _ _ _) as [j|] eqn:E; [|done]. intros [= <-]. by apply IH in E.
Qed.

(** A buffer of the list, empty and big enough. *)
Lemma list_get_ok size l :
  PBUF_MIN_SIZE <= size < 2 ^ 64 -> out_ok l ->
  exists b l', pbuf_list_get size l = (b, l') /\ out_ok l' /\ sized b /\ size <= pb_size b /\ pb_getp b = 0 /\ pb_putp b = 0 /\
    pl_tailq l' = pl_tailq l.
Proof.
  intros Hsize (Hs & Hz & Hu). unfold pbuf_list_get. pose proof (sized_alloc size Hsize) as Ha.
  assert (pb_size (pbuf_alloc size) = size /\ pb_getp (pbuf_alloc size) = 0 /\ pb_putp (pbuf_alloc size) = 0) as (A1 & A2 & A3)
    by (by rewrite pbuf_alloc_empty by lia).
  destruct (pbuf_list_try 0 size (pl_unused l)) as [i|] eqn:E.
  - destruct (try_big _ _ _ _ E) as (b & Hb & Hbig). rewrite Hb. do 2 eexists. split; [done|].
    assert (sized b) as Hsz by (by eapply (Forall_lookup_1 sized)).
    split_and!; try done. unfold out_ok. cbn [pl_tailq pl_unused]. split_and!; try done.
    rewrite (remove_at_perm i b _ Hb) in Hu. by apply Forall_cons in Hu as [_ ?].
  - exists (pbuf_alloc size), l. split_and!; try done. lia.
Qed.

Lemma hello_sendable v bitmap xid h :
  pb_getp h = 0 -> pb_putp h = 0 -> sized h -> OFP_PACKET_MAX_SIZE <= pb_size h ->
  let sent := pbuf_plen_reset (put (hello_message v bitmap xid) (pbuf_plen_set OFP_PACKET_MAX_SIZE h)) in sendable sent /\ sized sent.
Proof.
  intros G P Hsz Hbig. unfold sendable, sized, put in *. cbn [pbuf_plen_reset pbuf_plen_set set_pb_plen pb_getp pb_putp pb_data pb_size].
  rewrite length_memcpy_at, length_hello_message, G, P. unfold OFP_PACKET_MAX_SIZE in *. lia.
Qed.

(** The Hello is behind the messages that wait. *)
Lemma hello_send_ok w s :
  out_ok (cn_out (st_channel s)) -> cn_session (st_channel s) <> None ->
  exists ret s', ofp_hello_send w s = Done (ret, s') /\ out_ok (cn_out (st_channel s')) /\
    st_checks s' = st_checks s /\ st_in_timer s' = st_in_timer s /\
    (exists se se', cn_session (st_channel s) = Some se /\ cn_session (st_channel s') = Some se' /\
       se_tls se' = se_tls se /\ se_sock se' = se_sock se) /\
    cn_status (st_channel s') = cn_status (st_channel s) /\ cn_callout (st_channel s') = cn_callout (st_channel s) /\
    cn_interval (st_channel s') = cn_interval (st_channel s) /\ cn_in (st_channel s') = cn_in (st_channel s) /\
    cn_is_alive (st_channel s') = cn_is_alive (st_channel s) /\
    (forall version bitmap mode, w_bridge w = Some (version, bitmap, mode) ->
       ret = LAGOPUS_RESULT_OK /\ cn_version (st_channel s') = version /\
       exists xid hello, pl_tailq (cn_out (st_channel s')) = pl_tailq (cn_out (st_channel s)) ++ [hello] /\
         waiting hello = hello_message version bitmap xid).
Proof.
  destruct s as [[version xid [se|] status callout interval b out alive] checks mode in_timer]; [|done].
  cbn [st_channel cn_out cn_session]. intros Hout _. unfold ofp_hello_send.
  destruct (w_bridge w) as [[[v bitmap] fm]|]; cycle 1.
  { do 2 eexists. split; [done|]. cbn. split_and!; try done; by do 2 eexists. }
  unfold mbind, M_bind at 1. cbn [on_channel modify st_channel].
  destruct (list_get_ok OFP_PACKET_MAX_SIZE out) as (h & out' & E & (O1 & O2 & O3) & Hsz & Hbig & G & P & T); [done|done|].
  assert (OFP_PACKET_MAX_SIZE <= Z.of_nat (length (pb_data h))) as Hlen by (unfold sized in Hsz; lia).
  unfold channel_get, gets, M_bind. cbn [st_channel set_cn_version cn_out]. rewrite E.
  cbn [on_channel modify st_channel channel_xid_get_nolock set_cn_out cn_xid set_cn_xid].
  set (xid' := if UINT32_MAX <=? xid then START_XID else xid).
  unfold channel_xid_get_nolock, channel_get, gets, mbind, M_bind, on_channel, modify. cbn [st_channel cn_xid set_cn_xid]. fold xid'.
  cbn [mret M_ret]. unfold mret, M_ret. rewrite hello_create_put by done.
  change (if UINT32_MAX <=? _ then START_XID else _) with xid'.
  set (sent := pbuf_plen_reset _). pose proof (hello_waiting v bitmap xid' h G P Hlen) as Hw. fold sent in Hw.
  destruct (hello_sendable v bitmap xid' h G P Hsz Hbig) as [Hs1 Hs2]. fold sent in Hs1, Hs2. clearbody sent.
  unfold channel_send_packet_by_event_nolock, channel_write_on, on_session, channel_get, on_channel, modify, gets, mbind, M_bind.
  cbn [st_channel cn_session]. do 2 eexists. split; [reflexivity|].
  cbn [st_channel set_cn_session cn_session set_cn_out cn_out set_cn_version cn_version cn_status cn_callout cn_interval cn_in
    cn_is_alive st_checks st_in_timer pbuf_list_add pl_tailq pl_unused].
  split_and!; try done.
  - unfold out_ok. cbn [pbuf_list_add pl_tailq pl_unused]. split_and!; try done; apply Forall_app; by split; [|apply Forall_singleton].
  - by do 2 eexists.
  - intros v0 bitmap0 m0 [= <- <- <-]. split_and!; try done. exists xid', sent. split; [by rewrite <- T|exact Hw].
Qed.

Section Events.
Context (w : world).

(** The channel after its socket was closed, on its way to [status]. *)
Definition closed (status : channel_status) (c : connection) : connection :=
  set_cn_callout (if decide (status = Idle) then Some (start_task (cn_interval c)) else None)
    (set_cn_status status (set_cn_session (set_se_sock false <$> cn_session c) c)).

Lemma stop_closes se c ks m :
  cn_session c = Some se -> se_tls se = false ->
  exists m', channel_stop w (State c ks m false) =
    Done (0, State (set_cn_callout None (set_cn_session (Some (set_se_sock false se)) c)) ks m' false).
Proof.
  destruct c as [version xid s status callout interval b out alive]. cbn [cn_session]. intros -> Ht.
  destruct se as [tls sock pin pout]. cbn in Ht. subst tls.
  unfold channel_stop, fail_mode_set, cancel_callout, channel_get, gets, on_session, on_channel, set_mode, modify, mbind, M_bind.
  destruct sock, callout, (w_other_alive w), (w_bridge w) as [[[v bm] []]|]; by eexists.
Qed.

(** The events of the row of a status that stop the channel. *)
Lemma event_stops n e se c ks m :
  FSM (cn_status c) e = (f_stop, Idle) -> cn_session c = Some se -> se_tls se = false ->
  exists m', channel_event_nolock w (S n) e (State c ks m false) = Done (tt, State (closed Idle c) ks m' false).
Proof.
  intros HF Hs Ht. destruct (stop_closes se c ks m Hs Ht) as [m' E]. exists m'. cbn [channel_event_nolock].
  unfold channel_get, gets at 1. rewrite (bind_Done _ _ _ _ _ eq_refl). cbn [st_channel]. rewrite HF.
  rewrite (bind_Done _ _ _ _ _ E). unfold closed. rewrite Hs. by destruct c.
Qed.

Lemma event_expires n se c ks m :
  cn_session c = Some se -> se_tls se = false ->
  exists m', channel_event_nolock w (S n) Channel_Expired (State c ks m false) = Done (tt, State (closed Disable c) ks m' false).
Proof.
  intros Hs Ht. destruct (stop_closes se c ks m Hs Ht) as [m' E]. exists m'. cbn [channel_event_nolock].
  unfold channel_get, gets at 1. rewrite (bind_Done _ _ _ _ _ eq_refl). cbn [st_channel].
  assert (FSM (cn_status c) Channel_Expired = (f_expire, Disable)) as -> by by destruct (cn_status c).
  unfold channel_expire. rewrite bind_bind, (bind_Done _ _ _ _ _ E). unfold closed. rewrite Hs. by destruct c.
Qed.

Lemma closed_inv status c :
  channel_inv c -> status = Idle \/ status = Disable -> channel_inv (closed status c).
Proof.
  unfold channel_inv, closed. destruct (cn_session c) as [se|] eqn:Hs; [|done]. intros (Ht & Hi & Ho & Hin & _) Hst.
  destruct Hst as [-> | ->]; cbn; split_and!; try done; apply Hi.
Qed.

(** A failed connection: the interval doubles. *)
Definition backoff (interval : Z) : Z :=
  if CHANNEL_CONNECT_INTERVAL_MAX <=? interval * 2 then CHANNEL_CONNECT_INTERVAL_MAX else interval * 2.

Lemma event_fails n se c ks m :
  cn_status c = Connect -> cn_session c = Some se -> se_tls se = false ->
  exists m', channel_event_nolock w (S n) TCP_Connection_Failed (State c ks m false) =
    Done (tt, State (closed Idle (set_cn_interval (backoff (cn_interval c)) c)) ks m' false).
Proof.
  intros HC Hs Ht. destruct (stop_closes se (set_cn_interval (backoff (cn_interval c)) c) ks m) as [m' E]; [done..|].
  exists m'. cbn [channel_event_nolock]. unfold channel_get, gets at 1. rewrite (bind_Done _ _ _ _ _ eq_refl). cbn [st_channel]. rewrite HC.
  cbn [FSM]. unfold channel_connect_fail. rewrite bind_bind. unfold on_channel at 1, modify. rewrite (bind_Done _ _ _ _ _ eq_refl).
  rewrite bind_bind. cbn [st_channel st_checks st_mode st_in_timer]. fold (backoff (cn_interval c)).
  rewrite (bind_Done _ _ _ _ _ E). unfold closed. cbn [set_cn_interval cn_session]. rewrite Hs. by destruct c.
Qed.

Lemma event_opens n se c ks m :
  cn_status c = Connect -> cn_session c = Some se -> se_tls se = false -> out_ok (cn_out c) ->
  exists c' m' se', channel_event_nolock w (S n) TCP_Connection_Open (State c ks m false) = Done (tt, State c' ks m' false) /\
    cn_session c' = Some se' /\ se_tls se' = false /\ se_sock se' = se_sock se /\ cn_status c' = HelloSent /\
    cn_callout c' = cn_callout c /\ cn_interval c' = CHANNEL_CONNECT_INTERVAL_DEFAULT /\ cn_in c' = cn_in c /\ out_ok (cn_out c') /\
    cn_is_alive c' = cn_is_alive c /\
    (forall version bitmap mode, w_bridge w = Some (version, bitmap, mode) ->
       exists xid hello, pl_tailq (cn_out c') = pl_tailq (cn_out c) ++ [hello] /\ waiting hello = hello_message version bitmap xid).
Proof.
  intros HC Hs Ht Ho. destruct c as [version xid s status callout interval b out alive].
  cbn [cn_status cn_session cn_out cn_callout cn_interval cn_in cn_is_alive] in *. subst s status.
  set (c1 := Connection version xid (Some (session_read_event_set se)) Connect callout CHANNEL_CONNECT_INTERVAL_DEFAULT b out alive).
  destruct (hello_send_ok w (State c1 ks m false)) as (ret & [c2 k2 m2 t2] & E & O & K & T & (? & se' & [= <-] & Se & Tls & Sock) & St & Ca & In & Ib & Al & Hh);
    [done..|]. cbn [st_channel st_checks st_in_timer] in *. subst k2 t2.
  exists (set_cn_status HelloSent c2), m2, se'. split.
  - cbn [channel_event_nolock].
    unfold channel_connect_success, channel_read_on, on_session, channel_get, on_channel, modify, gets, mbind, M_bind.
    cbn [st_channel st_checks st_mode st_in_timer cn_status cn_session FSM set_cn_interval set_cn_session].
    match goal with |- context [ofp_hello_send w ?s] => change s with (State c1 ks m false) end. by rewrite E.
  - cbn -[hello_message]. split_and!; try done; [by rewrite Tls|]. intros v bm fm Hb. destruct (Hh v bm fm Hb) as (_ & _ & xid' & hello & H1 & H2). eauto.
Qed.

(** Checking the connection of a channel over TCP, and what it leads to. *)
Lemma connect_check_inv c m :
  channel_inv c -> cn_status c = Connect \/ cn_status c = Disable -> w_checks w <> [] ->
  exists c' ks' m', channel_connect_check w (State c (w_checks w) m false) = Done (0, State c' ks' m' false) /\ channel_inv c'.
Proof.
  intros Hc Hst Hw. pose proof Hc as Hc'. unfold channel_inv in Hc'. destruct (cn_session c) as [se|] eqn:Hs; [|done].
  destruct Hc' as (Ht & Hi & Ho & Hin & Hsi). unfold channel_connect_check, connect_check_with, fsm_fuel.
  unfold channel_get at 1, gets at 1. rewrite (bind_Done _ _ _ _ _ eq_refl). cbn [st_channel].
  destruct Hst as [HC|HD].
  2: { rewrite HD. destruct (event_expires (S (length (w_checks w))) se c (w_checks w) m Hs Ht) as [m' E].
       destruct (decide (Disable = Disable)); [|done]. rewrite (bind_Done _ _ _ _ _ E). do 3 eexists. split; [done|]. by apply closed_inv; [|right]. }
  rewrite HC in *. destruct (decide (Connect = Disable)); [done|]. destruct (w_checks w) as [|r ks]; [done|].
  cbn [status_inv] in Hsi. destruct Hsi as (Hsock & Hcall & Hal).
  assert (session_connect_check (State c (r :: ks) m false) =
    Done (if r is so_error then LAGOPUS_RESULT_SOCKET_ERROR else LAGOPUS_RESULT_OK, State c ks m false)) as E1.
  { unfold session_connect_check, channel_get, gets, mbind, M_bind. cbn [st_channel]. rewrite Hs, Hsock. cbn [negb].
    unfold next_check. cbn. destruct r; [done|]. by rewrite Ht. }
  rewrite bind_bind, (bind_Done _ _ _ _ _ E1). destruct r.
  - destruct (event_fails (S (length (so_error :: ks))) se c ks m HC Hs Ht) as [m' E].
    rewrite (bind_Done _ _ _ _ _ E). do 3 eexists. split; [done|]. apply closed_inv; [|by left].
    unfold channel_inv. cbn. rewrite Hs, HC. unfold status_inv. split_and!; try done;
      unfold backoff, CHANNEL_CONNECT_INTERVAL_MAX in *; destruct (Z.leb_spec 60 (cn_interval c * 2)); lia.
  - destruct (event_opens (S (length (so_ready handshake :: ks))) se c ks m HC Hs Ht Ho)
      as (c' & m' & se' & E & S1 & S2 & S3 & S4 & S5 & S6 & S7 & S8 & S9 & _).
    rewrite (bind_Done _ _ _ _ _ E). do 3 eexists. split; [done|]. unfold channel_inv.
    rewrite S1, S2, S3, S4, S5, S6, S7, S9. unfold status_inv, CHANNEL_CONNECT_INTERVAL_DEFAULT, CHANNEL_CONNECT_INTERVAL_MAX.
    split_and!; try done.
Qed.

End Events.


(** Polling for other events does not matter. *)
Lemma inv_session c se se' :
  channel_inv c -> cn_session c = Some se -> se_tls se' = se_tls se -> se_sock se' = se_sock se ->
  channel_inv (set_cn_session (Some se') c).
Proof. unfold channel_inv. intros H E E1 E2. rewrite E in H. cbn. by rewrite E1, E2. Qed.

Lemma inv_in c b : channel_inv c -> (exists r, in_buffer b r /\ incomplete r) -> channel_inv (set_cn_in b c).
Proof. unfold channel_inv. destruct c as [v xid [se|] st ca i b' out al]; cbn; [|done]. tauto. Qed.

Lemma inv_out c l : channel_inv c -> out_ok l -> channel_inv (set_cn_out l c).
Proof. unfold channel_inv. destruct c as [v xid [se|] st ca i b out al]; cbn; [|done]. tauto. Qed.

Lemma on_session_poll f c ks m t :
  (forall se, se_tls (f se) = se_tls se /\ se_sock (f se) = se_sock se) -> channel_inv c ->
  exists c', on_session f (State c ks m t) = Done (tt, State c' ks m t) /\ channel_inv c' /\ cn_status c' = cn_status c /\
    cn_in c' = cn_in c /\ cn_out c' = cn_out c /\ cn_callout c' = cn_callout c.
Proof.
  intros Hf Hc. pose proof Hc as H. unfold channel_inv in H. destruct (cn_session c) as [se|] eqn:Hs; [|done].
  exists (set_cn_session (Some (f se)) c). split_and!; try done.
  - unfold on_session, channel_get, gets, mbind, M_bind. cbn [st_channel]. by rewrite Hs.
  - by apply (inv_session c se); [..|apply Hf|apply Hf].
Qed.

Lemma event_stops_inv w n e c ks m :
  FSM (cn_status c) e = (f_stop, Idle) -> channel_inv c ->
  exists c' m', channel_event_nolock w (S n) e (State c ks m false) = Done (tt, State c' ks m' false) /\ channel_inv c'.
Proof.
  intros HF Hc. pose proof Hc as H. unfold channel_inv in H. destruct (cn_session c) as [se|] eqn:Hs; [|done].
  destruct (event_stops w n e se c ks m HF Hs (proj1 H)) as [m' E]. exists (closed Idle c), m'. split; [done|]. by apply closed_inv; [|left].
Qed.

(** Reading on the way to or in the established state. *)
Lemma read_inv w r c m :
  channel_inv c -> w_checks w <> [] -> read_ok c r ->
  exists es c' ks' m', channel_read w r (State c (w_checks w) m false) = Done (es, State c' ks' m' false) /\ channel_inv c'.
Proof.
  intros Hc Hw Hr. unfold channel_read, channel_get at 1, gets at 1. rewrite (bind_Done _ _ _ _ _ eq_refl). cbn [st_channel].
  destruct (decide _) as [Hst|Hst].
  { destruct (connect_check_inv w c m Hc Hst Hw) as (c' & ks' & m' & E & H). rewrite (bind_Done _ _ _ _ _ E). by do 4 eexists. }
  destruct (on_session_poll session_read_event_set c (w_checks w) m false ltac:(done) Hc) as (c1 & E1 & Hc1 & Hs1 & Hi1 & _).
  unfold channel_read_on. rewrite (bind_Done _ _ _ _ _ E1).
  assert (forall e c2 m2, (e = TCP_Connection_Failed \/ e = TCP_Connection_Closed) -> cn_status c2 = cn_status c -> channel_inv c2 ->
    exists c' m', channel_event_run w e (State c2 (w_checks w) m2 false) = Done (tt, State c' (w_checks w) m' false) /\ channel_inv c') as Hstop.
  { intros e c2 m2 He Hs2 Hc2. apply (event_stops_inv w (S (length (w_checks w))) e c2); [|done]. rewrite Hs2.
    destruct He as [-> | ->], (cn_status c); try done; destruct Hst; by auto. }
  destruct r as [[]|n stream]; [by do 4 eexists| |].
  - destruct (Hstop TCP_Connection_Failed c1 m) as (c' & m' & E & H); [by left|done|done|]. rewrite (bind_Done _ _ _ _ _ E). by do 4 eexists.
  - cbn [read_ok] in Hr. pose proof Hc as Hinv. unfold channel_inv in Hinv. destruct (cn_session c); [|done].
    destruct Hinv as (_ & _ & _ & (l & Hin & Hinc) & _). destruct (Hr l Hin) as (ms & rest & Es & Hms & Hrest).
    match goal with |- context [(?m ≫= ?k) ?s] => change ((m ≫= k) s) with (k (cn_in c1) s) end. rewrite Hi1.
    destruct (decide (n = 0%nat \/ stream = [])) as [Hz|Hnz].
    + assert (channel_read_messages n stream (cn_in c) = Done (None, cn_in c)) as E.
      { assert (session_read n stream (u64 (pb_size (cn_in c) - pb_putp (cn_in c))) = []) as Hch.
        { unfold session_read. destruct Hz as [-> | ->]; [done|by apply take_nil]. }
        pose proof (session_read_Done n stream (cn_in c)) as H. rewrite Hch in H. pose proof (incomplete_length _ Hinc).
        destruct Hin as (Hg & Hp & Hsz & Hd & _). cbn [length] in H. specialize (H ltac:(lia) ltac:(lia)).
        unfold channel_read_messages. rewrite (bind_Done _ _ _ _ _ H). change (Z.of_nat 0 =? 0) with true. cbv iota.
        rewrite Z.add_0_r. destruct (cn_in c). done. }
      rewrite E. unfold on_channel at 1, modify. rewrite (bind_Done _ _ _ _ _ eq_refl). cbn [st_channel st_checks st_mode st_in_timer].
      destruct (Hstop TCP_Connection_Closed (set_cn_in (cn_in c) c1) m) as (c' & m' & E2 & H); [by right|done|apply inv_in; eauto|].
      rewrite (bind_Done _ _ _ _ _ E2). by do 4 eexists.
    + destruct (read_messages n (cn_in c) l stream ms rest) as (ms1 & ms2 & r' & es & b' & s' & E & _ & _ & Hb & Hr' & _ & _);
        try done; [destruct (decide (n = 0%nat)); [tauto|lia]|tauto|].
      rewrite E. unfold on_channel, modify. rewrite (bind_Done _ _ _ _ _ eq_refl). cbn [st_channel st_checks st_mode st_in_timer].
      do 4 eexists. split; [reflexivity|]. apply inv_in; eauto.
Qed.

Lemma write_inv w sock_write eagain c m :
  channel_inv c -> w_checks w <> [] -> write_ok sock_write ->
  exists c' ks' m', channel_write w sock_write eagain (State c (w_checks w) m false) = Done (tt, State c' ks' m' false) /\ channel_inv c'.
Proof.
  intros Hc Hw Hr. unfold channel_write, channel_get at 1, gets at 1. rewrite (bind_Done _ _ _ _ _ eq_refl). cbn [st_channel].
  destruct (decide _) as [Hst|Hst].
  { destruct (connect_check_inv w c m Hc Hst Hw) as (c' & ks' & m' & E & H). rewrite (bind_Done _ _ _ _ _ E). by do 3 eexists. }
  match goal with |- context [(?m ≫= ?k) ?s] => change ((m ≫= k) s) with (k (cn_out c) s) end. cbv beta.
  assert (out_ok (cn_out c)) as Ho by (unfold channel_inv in Hc; by destruct (cn_session c); [apply Hc|done]).
  destruct (list_write_ok sock_write (cn_out c) Ho Hr) as (n & l' & -> & Ho').
  unfold on_channel at 1, modify. rewrite (bind_Done _ _ _ _ _ eq_refl). cbn [st_channel st_checks st_mode st_in_timer].
  pose proof (inv_out c l' Hc Ho') as Hc2. set (c2 := set_cn_out l' c) in *.
  assert (forall e, (e = TCP_Connection_Failed \/ e = TCP_Connection_Closed) ->
    exists c' ks' m', channel_event_run w e (State c2 (w_checks w) m false) = Done (tt, State c' ks' m' false) /\ channel_inv c') as Hstop.
  { intros e He. destruct (event_stops_inv w (S (length (w_checks w))) e c2 (w_checks w) m) as (c' & m' & E & H); [|done|by do 3 eexists].
    change (cn_status c2) with (cn_status c). destruct He as [-> | ->], (cn_status c); try done; destruct Hst; by auto. }
  destruct (n <? 0); [destruct eagain; [by do 3 eexists|apply Hstop; by left]|].
  destruct (n =? 0); [apply Hstop; by right|]. destruct (pbuf_list_first l'); [|by do 3 eexists].
  destruct (on_session_poll session_write_event_set c2 (w_checks w) m false ltac:(done) Hc2) as (c1 & E1 & Hc1 & _).
  by do 3 eexists.
Qed.

Lemma hello_inv w c m :
  channel_inv c ->
  exists c' ks' m', channel_hello_received_set w (State c (w_checks w) m false) = Done (tt, State c' ks' m' false) /\ channel_inv c'.
Proof.
  intros Hc. unfold channel_hello_received_set, channel_event_run, fsm_fuel.
  destruct (cn_status c) eqn:Hst.
  1, 2: destruct (event_stops_inv w (S (length (w_checks w))) OpenFlow_Hello_Received c (w_checks w) m) as (c' & m' & E & H);
    [by rewrite Hst|done|by do 3 eexists].
  all: unfold channel_inv in Hc; destruct c as [v xid [se|] st callout interval b out al]; [|done]; cbn in *; subst st;
    destruct Hc as (Ht & Hi & Ho & Hin & Hsi); destruct callout as [ca|]; cbn in Hsi;
    try (by destruct Hsi as (_ & ? & _)); destruct (w_bridge w) as [?|] eqn:Eb;
    (do 3 eexists; split; [first [reflexivity|
      unfold mbind, M_bind; cbn; unfold channel_hello_confirm, mbind, M_bind; rewrite Eb; reflexivity]|]); unfold channel_inv; cbn; split_and!; try done; try apply Hi; try apply Hsi.
Qed.

Lemma timer_inv w c m :
  channel_inv c -> valid w on_timer c ->
  exists c' ks' m', channel_timer w (State c (w_checks w) m true) = Done (tt, State c' ks' m' true) /\ channel_inv c'.
Proof.
  intros Hc [[n Hca] Hw]. unfold channel_inv in Hc. destruct c as [v xid [se|] st callout interval b out al]; [|done]. cbn in *.
  destruct Hc as (Ht & Hi & Ho & Hin & Hsi). subst callout. destruct se as [tls sock pin pout]. cbn in Ht. subst tls.
  unfold channel_timer, channel_event_run, fsm_fuel.
  destruct st; cbn in Hsi; try (by destruct Hsi as (_ & ? & _)).
  - destruct Hsi as [Hsock _]. cbn in Hsock. subst sock. destruct (w_connect w) eqn:Ew; try done;
      (do 3 eexists; split; [unfold mbind, M_bind; cbn; unfold channel_start, channel_get, gets, mbind, M_bind; cbn; rewrite Ew; reflexivity|]);
      unfold channel_inv; cbn; split_and!; try done; apply Hi.
  - do 3 eexists. split; [reflexivity|]. unfold channel_inv. cbn. split_and!; try done; apply Hi.
Qed.

(** ** Properties *)


(** *** Getting connected *)

(** The steps that are left to an established connection when the controller answers. *)
Definition to_established (w : world) (sock_write : bytes -> option Z) (status : channel_status) : list (world * input) :=
  match status with
  | Idle => [(w, on_timer); (w, on_writable sock_write false); (w, on_hello)]
  | Connect => [(w, on_writable sock_write false); (w, on_hello)]
  | HelloSent => [(w, on_hello)]
  | Established | Disable => []
  end.

Section Connecting.
Context (w : world) (version bitmap : Z) (mode : fail_mode) (handshake : lagopus_result).
Context (Hconnect : w_connect w <> refused) (Hchecks : w_checks w = [so_ready handshake]).
Context (Hbridge : w_bridge w = Some (version, bitmap, mode)).

Lemma step_confirms c m :
  channel_inv c -> cn_status c = HelloSent ->
  exists c', step w on_hello c m = Done ([], c', SWITCH_MODE_OPENFLOW) /\ cn_status c' = Established /\ cn_out c' = cn_out c.
Proof using Hbridge.
  intros Hc Hst. unfold channel_inv in Hc. destruct c as [v xid [se|] st callout interval b out al]; [|done]. cbn in Hst. subst st.
  destruct Hc as (_ & _ & _ & _ & (_ & Hca & _)). cbn in Hca. subst callout. eexists.
  split; [|split].
  - unfold step, start_state. cbn [step_input].
    unfold channel_hello_received_set, channel_event_run, fsm_fuel, mbind, M_bind. cbn.
    unfold channel_hello_confirm, mbind, M_bind. rewrite Hbridge. cbn. reflexivity.
  - reflexivity.
  - reflexivity.
Qed.

Lemma step_checks sock_write c m :
  channel_inv c -> cn_status c = Connect ->
  exists c' m', step w (on_writable sock_write false) c m = Done ([], c', m') /\ channel_inv c' /\ cn_status c' = HelloSent /\
    exists xid hello, pl_tailq (cn_out c') = pl_tailq (cn_out c) ++ [hello] /\ waiting hello = hello_message version bitmap xid.
Proof using Hchecks Hbridge.
  intros Hc Hst. unfold step, start_state. cbn [step_input].
  destruct (on_session_poll session_write_event_unset c (w_checks w) m false ltac:(done) Hc) as (c1 & E1 & Hc1 & Hs1 & _ & Ho1 & _).
  rewrite (bind_Done _ _ _ _ _ E1), Hchecks. rewrite Hst in Hs1. pose proof Hc1 as Hi. unfold channel_inv in Hi.
  destruct (cn_session c1) as [se|] eqn:Hs; [|done]. destruct Hi as (Ht & Hint & Ho & Hin & Hsi). rewrite Hs1 in Hsi. destruct Hsi as (Hsock & Hca & Hal).
  destruct (event_opens w 2 se c1 [] m Hs1 Hs Ht Ho)
    as (c' & m' & se' & E & S1 & S2 & S3 & S4 & S5 & S6 & S7 & S8 & S9 & Hh).
  exists c', m'. split; [|split; [|split; [done|]]].
  - enough (channel_write w sock_write false (State c1 [so_ready handshake] m false) = Done (tt, State c' [] m' false)) as E2
      by by rewrite (bind_Done _ _ _ _ _ E2).
    unfold channel_write. unfold channel_get at 1, gets at 1. rewrite (bind_Done _ _ _ _ _ eq_refl). cbn [st_channel]. rewrite Hs1.
    destruct (decide _) as [_|Hn]; [|tauto]. unfold channel_connect_check, connect_check_with, fsm_fuel. rewrite Hchecks. cbn [length].
    unfold mbind, M_bind. unfold channel_get at 1, gets at 1. cbn [st_channel]. rewrite Hs1. destruct (decide (Connect = Disable)); [done|].
    unfold session_connect_check, channel_get, gets, mbind, M_bind. cbn [st_channel]. rewrite Hs, Hsock. cbn [negb].
    unfold next_check. cbn [st_checks st_channel st_mode st_in_timer]. unfold mret, M_ret. rewrite Ht. by rewrite E.
  - unfold channel_inv. rewrite S1, S2, S3, S4, S5, S6, S7, S9. unfold status_inv, CHANNEL_CONNECT_INTERVAL_DEFAULT, CHANNEL_CONNECT_INTERVAL_MAX.
    split_and!; try done.
  - destruct (Hh _ _ _ Hbridge) as (xid & hello & H1 & H2). exists xid, hello. by rewrite H1, Ho1.
Qed.

Lemma step_starts c m :
  channel_inv c -> cn_status c = Idle ->
  exists c', step w on_timer c m = Done ([], c', m) /\ channel_inv c' /\ cn_status c' = Connect /\ cn_out c' = cn_out c.
Proof using Hconnect.
  intros Hc Hst. destruct (timer_inv w c m Hc) as (c1 & ks & m1 & E & H).
  { split; [|done]. unfold channel_inv in Hc. rewrite Hst in Hc. destruct (cn_session c); [|done]. eexists. apply Hc. }
  unfold channel_inv in Hc. destruct c as [v xid [se|] st callout interval b out al]; [|done]. cbn in Hst. subst st.
  destruct Hc as (Ht & _ & _ & _ & (Hsock & _)). destruct se as [tls sock pin pout]. cbn in Ht, Hsock. subst tls sock.
  assert (exists c', channel_timer w (State (Connection v xid (Some (Session false false pin pout)) Idle callout interval b out al) (w_checks w) m true)
    = Done (tt, State c' (w_checks w) m true) /\ cn_status c' = Connect /\ cn_out c' = out) as (c' & E' & H1 & H2).
  { unfold channel_timer, channel_event_run, fsm_fuel. unfold mbind, M_bind. cbn.
    unfold channel_start, channel_get, gets, mbind, M_bind. cbn. destruct (w_connect w); try done; by eexists. }
  rewrite E in E'. injection E' as -> -> ->. exists c'. split_and!; try done.
  unfold step, start_state. cbn [step_input]. rewrite (bind_Done _ _ _ _ _ E). done.
Qed.

End Connecting.

(** C23: A channel connects.  From any consistent state that is not disabled, a controller that
    accepts connections and sends a Hello gets the channel established in at most three steps:
    the timer, the socket becoming writable, the Hello; the bridge is then under the control of
    OpenFlow, and the switch's own Hello, with the version and the bitmap of the bridge, waits behind
    what was to be sent before. *)
Theorem channel_connects w sock_write version bitmap mode handshake c m :
  channel_inv c -> cn_status c <> Disable ->
  w_connect w <> refused -> w_checks w = [so_ready handshake] -> w_bridge w = Some (version, bitmap, mode) ->
  exists c' m', steps (to_established w sock_write (cn_status c)) c m = Done ([], c', m') /\ cn_status c' = Established /\
    (cn_status c <> Established -> m' = SWITCH_MODE_OPENFLOW) /\
    (cn_status c = Idle \/ cn_status c = Connect ->
     exists xid hello, pl_tailq (cn_out c') = pl_tailq (cn_out c) ++ [hello] /\ waiting hello = hello_message version bitmap xid).
Proof.
  intros Hc HD H1 H2 H3. destruct (cn_status c) eqn:Hst; [| | | |done]; cbn [to_established steps].
  - destruct (step_starts w H1 c m Hc Hst) as (c1 & E1 & Hc1 & Hs1 & Ho1). rewrite E1.
    destruct (step_checks w version bitmap mode handshake H2 H3 sock_write c1 m Hc1 Hs1) as (c2 & m2 & E2 & Hc2 & Hs2 & xid & hello & Ho2 & Hh). rewrite E2.
    destruct (step_confirms w version bitmap mode H3 c2 m2 Hc2 Hs2) as (c3 & E3 & Hs3 & Ho3). rewrite E3.
    do 2 eexists. split; [reflexivity|]. split_and!; try done. intros _. exists xid, hello. by rewrite Ho3, Ho2, Ho1.
  - destruct (step_checks w version bitmap mode handshake H2 H3 sock_write c m Hc Hst) as (c2 & m2 & E2 & Hc2 & Hs2 & xid & hello & Ho2 & Hh). rewrite E2.
    destruct (step_confirms w version bitmap mode H3 c2 m2 Hc2 Hs2) as (c3 & E3 & Hs3 & Ho3). rewrite E3.
    do 2 eexists. split; [reflexivity|]. split_and!; try done. intros _. exists xid, hello. by rewrite Ho3, Ho2.
  - destruct (step_confirms w version bitmap mode H3 c m Hc Hst) as (c3 & E3 & Hs3 & Ho3). rewrite E3.
    do 2 eexists. split; [reflexivity|]. split_and!; try done. by intros [?|?].
  - do 2 eexists. split; [reflexivity|]. split_and!; try done. by intros [?|?].
Qed.

(** *** What is outside the invariant *)

(** A channel in the state [status] with this session and timer. *)
Definition sample (tls sock : bool) (status : channel_status) (callout : option callout_task) (alive : bool) (b : pbuf) : connection :=
  Connection 4 100 (Some (Session tls sock false false)) status callout 1 b pbuf_list_alloc alive.
Definition sample_world (r : connect_result) (checks : list check_result) : world :=
  World r checks false (Some (4, 16, FAIL_SECURE_MODE)).

(** A connection that is refused at once (a closed port of the host itself, no route): the channel
    is idle with no timer, and nothing will connect it again. *)
Theorem refused_is_final :
  step (sample_world refused []) on_timer (sample false false Idle (Some (start_task 1)) false (pbuf_alloc 0)) SWITCH_MODE_SECURE =
  Done ([], sample false false Idle None false (pbuf_alloc 0), SWITCH_MODE_SECURE).
Proof. vm_compute. reflexivity. Qed.

(** TLS: closing the session leaves the socket open, so that the next attempt to connect finds
    the socket alive and gives up, again for ever. *)
Theorem tls_never_reconnects :
  exists c, steps [(sample_world connected [], on_hello); (sample_world connected [], on_timer)]
    (sample true true Connect None true (pbuf_alloc 0)) SWITCH_MODE_SECURE = Done ([], c, SWITCH_MODE_SECURE) /\
    cn_status c = Idle /\ cn_callout c = None /\ session_is_alive (cn_session c) = true.
Proof. eexists. split; [vm_compute; reflexivity|]. by vm_compute. Qed.

(** TLS: while the handshake is in progress the check runs again and again; when it succeeds, the
    outer call puts the status back to [Connect], and the next step sends a second Hello. *)
Theorem tls_hello_twice :
  match steps [(sample_world connected [so_ready LAGOPUS_RESULT_EINPROGRESS; so_ready LAGOPUS_RESULT_OK], on_readable (read_error true));
               (sample_world connected [so_ready LAGOPUS_RESULT_OK], on_readable (read_error true))]
    (sample true true Connect None true (pbuf_alloc 0)) SWITCH_MODE_SECURE with
  | Done (_, c, _) => length (pl_tailq (cn_out c)) = 2%nat
  | _ => False
  end.
Proof. vm_compute. reflexivity. Qed.

(** A channel that has not been connected yet ignores that it is disabled: it goes on to connect. *)
Theorem disable_ignored w c m :
  cn_is_alive c = false -> step w on_disable c m = Done ([], c, m).
Proof. intros H. unfold step, start_state, step_input, channel_disable, channel_get, gets, mbind, M_bind. cbn. by rewrite H. Qed.

(** What the old connection had begun to send is still in the input buffer of the new one. *)
Theorem stale_input b :
  steps [(sample_world connected [], on_readable (read_error false)); (sample_world connected [], on_timer)]
    (sample false true Established (Some ping_task) true b) SWITCH_MODE_OPENFLOW =
  Done ([], Connection 4 START_XID (Some (Session false true true true)) Connect None 1 b pbuf_list_alloc true, SWITCH_MODE_SECURE).
Proof. vm_compute. reflexivity. Qed.

(** ** Examples *)


Theorem channel_connects_witness :
  let c := set_cn_callout (Some (start_task 1)) (set_cn_status Idle (channel_alloc_internal false)) in
  let w := sample_world in_progress [so_ready LAGOPUS_RESULT_OK] in
  exists c' m', steps (to_established w (fun l => Some (Z.of_nat (length l))) Idle) c SWITCH_MODE_SECURE = Done ([], c', m') /\
    cn_status c' = Established /\ (Idle <> Established -> m' = SWITCH_MODE_OPENFLOW) /\
    (Idle = Idle \/ Idle = Connect ->
     exists xid hello, pl_tailq (cn_out c') = pl_tailq (cn_out c) ++ [hello] /\ waiting hello = hello_message 4 16 xid).
Proof.
  intros c w.
  assert (channel_inv c) as Hc.
  { unfold channel_inv, c, channel_alloc_internal. cbn [set_cn_callout set_cn_status cn_session cn_interval cn_out cn_in cn_status
      cn_callout cn_is_alive se_tls se_sock status_inv].
    split; [reflexivity|]. split; [unfold CHANNEL_CONNECT_INTERVAL_DEFAULT, CHANNEL_CONNECT_INTERVAL_MAX; lia|].
    split; [unfold out_ok; cbn; split_and!; apply Forall_nil; exact I|]. split; [|split; reflexivity].
    exists []. split; [apply in_buffer_alloc|]. split; [by apply Forall_nil|left; cbn; lia]. }
  apply (channel_connects w (fun l => Some (Z.of_nat (length l))) 4 16 FAIL_SECURE_MODE LAGOPUS_RESULT_OK c SWITCH_MODE_SECURE Hc);
    [discriminate|discriminate|reflexivity|reflexivity].
Defined.
