(* ===== verification/Multipart.v ===== *)
(** * Requests in several messages

    The reassembly of a request that comes in several messages ([channel_multipart_put],
    [channel_multipart_get] of [src/agent/channel.c]), as a refinement of a finite map.  Memory
    allocation succeeds. *)
From S2P Require Import Prelude Monad OpenFlow Pbuf Generator OpenFlowH Tlv MatchCodec ActionCodec CodecSound OfpHandler Framing Hello Role.
From stdpp Require Import strings.
#[local] Open Scope Z_scope.

(** ** Requests *)

(** [struct multipart], with the transaction of [ofp_header]. *)
Record multipart := Multipart {
  mp_xid : Z;
  mp_multipart_type : Z;
  mp_used : bool;
  mp_len : Z;
  mp_multipart_list : list pbuf
}.

Definition CHANNEL_SIMULTANEOUS_MULTIPART_MAX : nat := 16.

Definition multipart_reset (m : multipart) : multipart :=
  Multipart (mp_xid m) (mp_multipart_type m) false (mp_len m) (mp_multipart_list m).
Definition multipart_init : multipart := Multipart 0 0 false 0 [].

(** The buffers that are left go back. *)
Definition multipart_free (m : multipart) : multipart :=
  if mp_used m then Multipart (mp_xid m) (mp_multipart_type m) false (mp_len m) [] else m.

(** The loop of [channel_multipart_put], from the index [i], with the last free entry so far: the
    index where it stops, the free entry, and what it has found. *)
Inductive put_found := found_other_type | found_same (i : nat) | found_none (free : option nat).

Fixpoint put_scan (xid mtype : Z) (i : nat) (free : option nat) (ms : list multipart) : put_found :=
  match ms with
  | [] => found_none free
  | m :: ms =>
      if negb (mp_used m) then put_scan xid mtype (S i) (Some i) ms
      else if mp_xid m =? xid then
        if negb (mp_multipart_type m =? mtype) then found_other_type else found_same i
      else put_scan xid mtype (S i) free ms
  end.

Definition channel_multipart_put (b : pbuf) (xid mtype : Z) (ms : list multipart) : lagopus_result * list multipart :=
  match put_scan xid mtype 0 None ms with
  | found_other_type => (LAGOPUS_RESULT_OFP_ERROR, ms)
  | found_same i =>
      (LAGOPUS_RESULT_OK,
       alter (fun m => Multipart (mp_xid m) (mp_multipart_type m) (mp_used m) (u64 (mp_len m + pbuf_plen_get b))
                         (mp_multipart_list m ++ [pbuf_get b])) i ms)
  | found_none None => (LAGOPUS_RESULT_NO_MEMORY, ms)
  | found_none (Some i) =>
      (LAGOPUS_RESULT_OK,
       alter (fun m => Multipart xid mtype true (pbuf_plen_get b) (mp_multipart_list m ++ [pbuf_get b])) i ms)
  end.

Fixpoint get_scan (xid mtype : Z) (i : nat) (ms : list multipart) : option nat :=
  match ms with
  | [] => None
  | m :: ms =>
      if mp_used m && (mp_xid m =? xid) && (mp_multipart_type m =? mtype) then Some i
      else get_scan xid mtype (S i) ms
  end.

(** Copying the buffers of the list behind each other; each goes back once copied.  The result, and
    the buffers that are left. *)
Fixpoint multipart_copy (l : list pbuf) : pm (lagopus_result * list pbuf) :=
  match l with
  | [] => mret (LAGOPUS_RESULT_OK, [])
  | p :: l =>
      ret ← pbuf_copy p;
      match ret with
      | LAGOPUS_RESULT_OK => multipart_copy l
      | LAGOPUS_RESULT_OUT_OF_RANGE => mret (LAGOPUS_RESULT_NO_MEMORY, l)
      | ret => mret (ret, l)
      end
  end.

Definition channel_multipart_get (xid mtype : Z) (ms : list multipart) : outcome (lagopus_result * option pbuf * list multipart) :=
  match get_scan xid mtype 0 ms with
  | None => Done (LAGOPUS_RESULT_NOT_FOUND, None, ms)
  | Some i =>
      match ms !! i with
      | None => Undefined
      | Some m =>
          match multipart_copy (mp_multipart_list m) (pbuf_alloc (mp_len m)) with
          | Done (ret, rest, b) =>
              let m := Multipart (mp_xid m) (mp_multipart_type m) (mp_used m) (mp_len m) rest in
              Done (ret, Some b, <[i := if is_ok ret then multipart_reset m else multipart_free m]> ms)
          | Undefined => Undefined
          | OutOfFuel => OutOfFuel
          end
      end
  end.

(** *** The specification: at most sixteen requests, each of a type and with the bytes so far. *)

Abbreviation requests := (gmap Z (Z * bytes)).

Definition put_spec (body : bytes) (xid mtype : Z) (r : requests) : lagopus_result * requests :=
  match r !! xid with
  | Some (t, d) => if t =? mtype then (LAGOPUS_RESULT_OK, <[xid := (t, d ++ body)]> r) else (LAGOPUS_RESULT_OFP_ERROR, r)
  | None => if (size r <? CHANNEL_SIMULTANEOUS_MULTIPART_MAX)%nat then (LAGOPUS_RESULT_OK, <[xid := (mtype, body)]> r)
            else (LAGOPUS_RESULT_NO_MEMORY, r)
  end.

Definition get_spec (xid mtype : Z) (r : requests) : lagopus_result * option bytes * requests :=
  match r !! xid with
  | Some (t, d) => if t =? mtype then (LAGOPUS_RESULT_OK, Some d, delete xid r) else (LAGOPUS_RESULT_NOT_FOUND, None, r)
  | None => (LAGOPUS_RESULT_NOT_FOUND, None, r)
  end.

(** A buffer with the body of a message: what is behind its header. *)
Definition body_of (b : pbuf) : bytes := take (Z.to_nat (pb_plen b)) (drop (Z.to_nat (pb_getp b)) (pb_data b)).
Definition fragment (b : pbuf) : Prop :=
  unread b (body_of b) /\ pb_putp b = pb_getp b + Z.of_nat (length (body_of b)).

(** The bytes an entry has collected. *)
Definition collected (m : multipart) : bytes := concat (body_of <$> mp_multipart_list m).

(** The requests the entries stand for. *)
Definition used_entries (ms : list multipart) : list multipart := filter (fun m => mp_used m = true) ms.
Definition request_of (m : multipart) : Z * (Z * bytes) := (mp_xid m, (mp_multipart_type m, collected m)).
Definition requests_of (ms : list multipart) : requests := list_to_map (request_of <$> used_entries ms).

(** Free entries hold no buffers, used ones know how much they hold. *)
Definition entry_ok (m : multipart) : Prop :=
  if mp_used m then Forall fragment (mp_multipart_list m) /\ mp_len m = Z.of_nat (length (collected m))
  else mp_multipart_list m = [].
Definition multiparts_ok (ms : list multipart) : Prop :=
  length ms = CHANNEL_SIMULTANEOUS_MULTIPART_MAX /\ NoDup (mp_xid <$> used_entries ms) /\ Forall entry_ok ms.

Lemma multiparts_init :
  multiparts_ok (replicate CHANNEL_SIMULTANEOUS_MULTIPART_MAX multipart_init) /\
  requests_of (replicate CHANNEL_SIMULTANEOUS_MULTIPART_MAX multipart_init) = ∅.
Proof. split; [|done]. split_and!; [done|by apply NoDup_nil_2|by apply Forall_replicate]. Qed.

(** *** Lemmas *)

Lemma used_app l1 l2 : used_entries (l1 ++ l2) = used_entries l1 ++ used_entries l2.
Proof. apply filter_app. Qed.

Lemma used_cons m l : used_entries (m :: l) = if mp_used m then m :: used_entries l else used_entries l.
Proof. unfold used_entries. rewrite filter_cons. destruct (mp_used m); [by rewrite decide_True|by rewrite decide_False]. Qed.

Lemma fst_requests ms : (request_of <$> ms).*1 = mp_xid <$> ms.
Proof. rewrite <- list_fmap_compose. done. Qed.

(** A used entry among the others. *)
Lemma requests_used l1 m l2 :
  mp_used m = true -> NoDup (mp_xid <$> used_entries (l1 ++ m :: l2)) ->
  requests_of (l1 ++ m :: l2) = <[mp_xid m := (mp_multipart_type m, collected m)]> (requests_of (l1 ++ l2)) /\
  requests_of (l1 ++ l2) !! mp_xid m = None /\ NoDup (mp_xid <$> used_entries (l1 ++ l2)).
Proof.
  intros Hu Hnd. unfold requests_of. rewrite !used_app, used_cons, Hu in *.
  assert (request_of <$> (used_entries l1 ++ m :: used_entries l2) ≡ₚ request_of m :: (request_of <$> (used_entries l1 ++ used_entries l2))) as HP
    by (rewrite <- Permutation_middle; done).
  rewrite <- fst_requests in Hnd. pose proof Hnd as Hnd2. rewrite HP in Hnd2. cbn [fmap list_fmap] in Hnd2.
  apply NoDup_cons in Hnd2 as [Hn Hnd2].
  rewrite (list_to_map_proper _ _ Hnd HP). cbn [list_to_map foldr request_of uncurry]. split_and!; [done| |].
  - by apply not_elem_of_list_to_map_1.
  - by rewrite <- fst_requests.
Qed.

Lemma requests_free l1 m l2 :
  mp_used m = false -> used_entries (l1 ++ m :: l2) = used_entries (l1 ++ l2).
Proof. intros Hu. by rewrite !used_app, used_cons, Hu. Qed.

Lemma size_requests ms : NoDup (mp_xid <$> used_entries ms) -> size (requests_of ms) = length (used_entries ms).
Proof.
  intros H. rewrite <- fst_requests in H. unfold requests_of. rewrite <- length_map_to_list, map_to_list_to_map by done.
  apply length_fmap.
Qed.

(** What [put_scan] has found. *)
Lemma put_scan_spec xid mtype ms0 free ms :
  (forall i, free = Some i -> exists m, ms0 !! i = Some m /\ mp_used m = false) ->
  (free = None -> used_entries ms0 = ms0) ->
  match put_scan xid mtype (length ms0) free ms with
  | found_other_type => exists m, m ∈ ms /\ mp_used m = true /\ mp_xid m = xid /\ mp_multipart_type m <> mtype
  | found_same i => exists l1 m l2, ms0 ++ ms = l1 ++ m :: l2 /\ i = length l1 /\ mp_used m = true /\ mp_xid m = xid /\ mp_multipart_type m = mtype
  | found_none free' =>
      (forall m, m ∈ ms -> mp_used m = true -> mp_xid m <> xid) /\
      match free' with
      | Some i => exists m, (ms0 ++ ms) !! i = Some m /\ mp_used m = false
      | None => used_entries (ms0 ++ ms) = ms0 ++ ms
      end
  end.
Proof.
  revert ms0 free. induction ms as [|m ms IH]; intros ms0 free Hf Hn; cbn [put_scan].
  { split; [intros m Hm; by apply elem_of_nil in Hm|]. rewrite app_nil_r. destruct free as [i|]; [by apply Hf|by apply Hn]. }
  assert (ms0 ++ m :: ms = (ms0 ++ [m]) ++ ms) as E by by rewrite <- app_assoc.
  assert (S (length ms0) = length (ms0 ++ [m])) as El by (rewrite length_app; cbn; lia).
  destruct (mp_used m) eqn:Hu; cbn [negb].
  - destruct (Z.eqb_spec (mp_xid m) xid) as [Hx|Hx].
    + destruct (Z.eqb_spec (mp_multipart_type m) mtype) as [Ht|Ht]; cbn [negb].
      * by exists ms0, m, ms.
      * exists m. split_and!; try done. by left.
    + rewrite El, E. specialize (IH (ms0 ++ [m]) free).
      assert (match put_scan xid mtype (length (ms0 ++ [m])) free ms with
        | found_other_type => exists m, m ∈ ms /\ mp_used m = true /\ mp_xid m = xid /\ mp_multipart_type m <> mtype
        | found_same i => exists l1 m0 l2, (ms0 ++ [m]) ++ ms = l1 ++ m0 :: l2 /\ i = length l1 /\ mp_used m0 = true /\ mp_xid m0 = xid /\ mp_multipart_type m0 = mtype
        | found_none free' => (forall m, m ∈ ms -> mp_used m = true -> mp_xid m <> xid) /\
           match free' with
           | Some i => exists m0, ((ms0 ++ [m]) ++ ms) !! i = Some m0 /\ mp_used m0 = false
           | None => used_entries ((ms0 ++ [m]) ++ ms) = (ms0 ++ [m]) ++ ms
           end
        end) as H.
      { apply IH.
        - intros i Hi. destruct (Hf i Hi) as (m1 & H1 & H2). exists m1. split; [by apply lookup_app_l_Some|done].
        - intros Hi. rewrite used_app, Hn by done. by rewrite used_cons, Hu. }
      destruct (put_scan _ _ _ _ ms).
      * destruct H as (m1 & ? & ?). exists m1. split; [by right|done].
      * done.
      * destruct H as [H1 H2]. split; [|done]. intros m1 [-> |Hm1]%elem_of_cons Hu1; [done|by apply H1].
  - rewrite El, E. specialize (IH (ms0 ++ [m]) (Some (length ms0))).
    destruct (put_scan _ _ _ _ ms).
    + destruct IH as (m1 & ? & ?); [|done|exists m1; split; [by right|done]].
      intros i [= <-]. exists m. split; [by apply list_lookup_middle|done].
    + apply IH; [|done]. intros i0 [= <-]. exists m. split; [by apply list_lookup_middle|done].
    + destruct IH as [H1 H2]; [|done|].
      * intros i [= <-]. exists m. split; [by apply list_lookup_middle|done].
      * split; [|done]. intros m1 [-> |Hm1]%elem_of_cons Hu1; [by rewrite Hu in Hu1|by apply H1].
Qed.

Lemma list_alter_middle {A} (f : A -> A) l1 m l2 : alter f (length l1) (l1 ++ m :: l2) = l1 ++ f m :: l2.
Proof. induction l1 as [|x l1 IH]; [done|]. cbn. f_equal. apply IH. Qed.

Lemma requests_lookup m ms :
  NoDup (mp_xid <$> used_entries ms) -> m ∈ ms -> mp_used m = true -> requests_of ms !! mp_xid m = Some (mp_multipart_type m, collected m).
Proof.
  intros Hnd Hm Hu. unfold requests_of. apply elem_of_list_to_map_1; [by rewrite fst_requests|].
  apply (list_elem_of_fmap_2 request_of _ m). by apply list_elem_of_filter.
Qed.

Lemma requests_no xid ms : (forall m, m ∈ ms -> mp_used m = true -> mp_xid m <> xid) -> requests_of ms !! xid = None.
Proof.
  intros H. apply not_elem_of_list_to_map_1. rewrite fst_requests.
  intros (m & -> & Hm)%list_elem_of_fmap. apply list_elem_of_filter in Hm as [Hu Hm]. by apply (H m).
Qed.

Lemma collected_snoc x t u n l b : collected (Multipart x t u n (l ++ [b])) = concat (body_of <$> l) ++ body_of b.
Proof. unfold collected. cbn [mp_multipart_list]. by rewrite fmap_app, concat_app; cbn; rewrite app_nil_r. Qed.

(** The invariant, of an entry among the others. *)
Lemma multiparts_ok_replace l1 m m' l2 :
  multiparts_ok (l1 ++ m :: l2) -> entry_ok m' ->
  (mp_used m' = true -> requests_of (l1 ++ l2) !! mp_xid m' = None) ->
  multiparts_ok (l1 ++ m' :: l2).
Proof.
  intros (Hl & Hnd & Hok) Hm' Hx. split_and!.
  - by rewrite length_app in *.
  - assert (NoDup (mp_xid <$> used_entries (l1 ++ l2))) as Hnd'.
    { destruct (mp_used m) eqn:Hu; [by apply (requests_used l1 m l2)|by rewrite <- (requests_free l1 m l2)]. }
    destruct (mp_used m') eqn:Hu'; [|by rewrite requests_free].
    assert (mp_xid <$> used_entries (l1 ++ m' :: l2) ≡ₚ mp_xid m' :: (mp_xid <$> used_entries (l1 ++ l2))) as ->.
    { rewrite !used_app, used_cons, Hu'. by rewrite <- Permutation_middle. }
    apply NoDup_cons_2; [|done]. specialize (Hx eq_refl). unfold requests_of in Hx.
    apply not_elem_of_list_to_map_2 in Hx. by rewrite fst_requests in Hx.
  - apply Forall_app in Hok as [H1 H2]. apply Forall_cons in H2 as [_ H2]. apply Forall_app_2; [done|by apply Forall_cons].
Qed.

Lemma plen_body b : fragment b -> pbuf_plen_get b = Z.of_nat (length (body_of b)).
Proof. intros [(_ & H & _) _]. exact H. Qed.

Lemma fragment_get b : fragment b -> fragment (pbuf_get b).
Proof. done. Qed.

Lemma body_get b : body_of (pbuf_get b) = body_of b.
Proof. done. Qed.

(** Entries that hold at most [n] bytes. *)
Definition holding (n : Z) (ms : list multipart) : Prop := 0 <= n /\ Forall (fun m => mp_len m <= n) ms.

Lemma holding_replace n p l1 m m' l2 :
  holding n (l1 ++ m :: l2) -> 0 <= p -> mp_len m' <= n + p -> holding (n + p) (l1 ++ m' :: l2).
Proof.
  intros [Hn [H1 H2]%Forall_app] Hp Hm'. apply Forall_cons in H2 as [_ H2]. split; [lia|].
  apply Forall_app_2; [|apply Forall_cons; split; [done|]]; eapply Forall_impl; try done; cbn; intros; lia.
Qed.

Lemma holding_mono n p ms : holding n ms -> 0 <= p -> holding (n + p) ms.
Proof. intros [Hn H] Hp. split; [lia|]. eapply Forall_impl; [done|]. cbn. intros; lia. Qed.

(** A fragment goes to the entry of its request. *)
Lemma put_same b n l1 m l2 :
  multiparts_ok (l1 ++ m :: l2) -> fragment b -> holding n (l1 ++ m :: l2) -> n + pbuf_plen_get b < 2 ^ 64 -> mp_used m = true ->
  let m' := Multipart (mp_xid m) (mp_multipart_type m) (mp_used m) (u64 (mp_len m + pbuf_plen_get b)) (mp_multipart_list m ++ [pbuf_get b]) in
  requests_of (l1 ++ m' :: l2) = <[mp_xid m := (mp_multipart_type m, collected m ++ body_of b)]> (requests_of (l1 ++ m :: l2)) /\
  multiparts_ok (l1 ++ m' :: l2) /\ holding (n + pbuf_plen_get b) (l1 ++ m' :: l2).
Proof.
  intros Hok Hb Hn Hlen Hu m'. pose proof Hok as (_ & Hnd & Hent). pose proof (plen_body b Hb) as Hpl.
  apply Forall_app in Hent as [_ [Hm _]%Forall_cons]. pose proof Hn as [H0 [_ [Hmn _]%Forall_cons]%Forall_app].
  unfold entry_ok in Hm. rewrite Hu in Hm. destruct Hm as [Hfr Hml].
  assert (collected m' = collected m ++ body_of b) as Hc by (rewrite <- (body_get b); apply collected_snoc).
  assert (mp_len m' = mp_len m + pbuf_plen_get b) as Hlm by (cbn; rewrite u64_small; lia).
  assert (entry_ok m') as Hm'.
  { unfold entry_ok. rewrite Hlm, Hc, length_app. cbn [mp_used m']. rewrite Hu. split; [by apply Forall_app_2; [|apply Forall_singleton, fragment_get]|lia]. }
  destruct (requests_used l1 m l2) as (HE & HN & _); [done..|].
  assert (multiparts_ok (l1 ++ m' :: l2)) as Hok' by (apply (multiparts_ok_replace l1 m); [done..|by intros _]).
  destruct (requests_used l1 m' l2) as (HE' & _ & _); [done|apply Hok'|].
  rewrite HE, HE', Hc, insert_insert_eq. split_and!; [done..|]. apply (holding_replace n _ l1 m); [done|lia..].
Qed.

(** The first fragment of a request goes to a free entry. *)
Lemma put_free b n xid mtype l1 m l2 :
  multiparts_ok (l1 ++ m :: l2) -> fragment b -> holding n (l1 ++ m :: l2) -> mp_used m = false ->
  requests_of (l1 ++ m :: l2) !! xid = None ->
  let m' := Multipart xid mtype true (pbuf_plen_get b) (mp_multipart_list m ++ [pbuf_get b]) in
  requests_of (l1 ++ m' :: l2) = <[xid := (mtype, body_of b)]> (requests_of (l1 ++ m :: l2)) /\
  multiparts_ok (l1 ++ m' :: l2) /\ holding (n + pbuf_plen_get b) (l1 ++ m' :: l2) /\
  (size (requests_of (l1 ++ m :: l2)) < CHANNEL_SIMULTANEOUS_MULTIPART_MAX)%nat.
Proof.
  intros Hok Hb Hn Hu HN m'. pose proof Hok as (Hl & Hnd & Hent). pose proof (plen_body b Hb) as Hpl.
  apply Forall_app in Hent as [_ [Hm _]%Forall_cons]. unfold entry_ok in Hm. rewrite Hu in Hm.
  assert (collected m' = body_of b) as Hc by (unfold m'; rewrite collected_snoc, Hm; done).
  assert (entry_ok m') as Hm'.
  { unfold entry_ok. rewrite Hc. unfold m'. rewrite Hm. split; [by apply Forall_singleton, fragment_get|done]. }
  assert (requests_of (l1 ++ m :: l2) = requests_of (l1 ++ l2)) as HE by (unfold requests_of; by rewrite requests_free).
  rewrite HE in HN.
  assert (multiparts_ok (l1 ++ m' :: l2)) as Hok' by (apply (multiparts_ok_replace l1 m); [done..|by intros _]).
  destruct (requests_used l1 m' l2) as (HE' & _ & _); [done|apply Hok'|].
  rewrite HE, HE', Hc. split_and!; [done..| |].
  - pose proof Hn as [H0 _]. apply (holding_replace n _ l1 m); [done|lia|cbn; lia].
  - rewrite <- HE, size_requests, <- Hl, requests_free, length_app by done.
    pose proof (length_filter (fun m => mp_used m = true) (l1 ++ l2)). unfold used_entries. rewrite length_app in *. cbn [length]. lia.
Qed.

Lemma put_refines b n xid mtype ms :
  multiparts_ok ms -> fragment b -> holding n ms -> n + pbuf_plen_get b < 2 ^ 64 ->
  let '(ret, ms') := channel_multipart_put b xid mtype ms in
  put_spec (body_of b) xid mtype (requests_of ms) = (ret, requests_of ms') /\ multiparts_ok ms' /\
  holding (n + pbuf_plen_get b) ms'.
Proof.
  intros Hok Hb Hn Hlen. pose proof Hok as (Hl & Hnd & _). unfold channel_multipart_put, put_spec.
  pose proof (holding_mono n (pbuf_plen_get b) ms Hn ltac:(rewrite plen_body by done; lia)) as Hn'.
  pose proof (put_scan_spec xid mtype [] None ms) as Hscan. cbn [app length] in Hscan. specialize (Hscan ltac:(done) ltac:(done)).
  destruct (put_scan xid mtype 0 None ms) as [|i|[i|]].
  - destruct Hscan as (m & Hm & Hu & <- & Ht). by rewrite (requests_lookup m ms), (proj2 (Z.eqb_neq _ _)).
  - destruct Hscan as (l1 & m & l2 & -> & -> & Hu & <- & <-). rewrite list_alter_middle.
    rewrite (requests_lookup m), Z.eqb_refl by (done || apply elem_of_app; right; by left).
    destruct (put_same b n l1 m l2) as (-> & ? & ?); done.
  - destruct Hscan as [Hno (m & Hi & Hu)]. apply requests_no in Hno.
    assert (exists l1 l2, ms = l1 ++ m :: l2 /\ i = length l1) as (l1 & l2 & -> & ->).
    { exists (take i ms), (drop (S i) ms). split; [by rewrite take_drop_middle|]. apply lookup_lt_Some in Hi. rewrite length_take. lia. }
    rewrite list_alter_middle, Hno.
    destruct (put_free b n xid mtype l1 m l2) as (-> & ? & ? & Hsz%Nat.ltb_lt); [done..|]. by rewrite Hsz.
  - destruct Hscan as [Hno%requests_no Hall]. rewrite Hno, size_requests, Hall, Hl by done. done.
Qed.

(** A buffer that holds [l], from its start, and has place for [n] bytes. *)
Definition filled (l : bytes) (n : Z) (b : pbuf) : Prop :=
  pb_getp b = 0 /\ pb_putp b = Z.of_nat (length l) /\ pb_plen b = Z.of_nat (length l) /\
  pb_size b = Z.of_nat (length (pb_data b)) /\ n <= pb_size b /\ take (length l) (pb_data b) = l.

Lemma filled_alloc n : filled [] n (pbuf_alloc n).
Proof.
  unfold filled, pbuf_alloc, PBUF_MIN_SIZE. cbn [pb_getp pb_putp pb_plen pb_size pb_data pbuf_reset set_pb_plen set_pb_putp set_pb_getp].
  rewrite length_replicate. split_and!; try done; case (Z.ltb_spec n 1024); lia.
Qed.

Lemma copy_fragment src l n dst :
  filled l n dst -> fragment src -> Z.of_nat (length (l ++ body_of src)) <= n -> n < 2 ^ 64 ->
  exists dst', pbuf_copy src dst = Done (LAGOPUS_RESULT_OK, dst') /\ filled (l ++ body_of src) n dst'.
Proof.
  intros (Hg & Hp & Hl & Hs & Hn & Ht) [Hu Hsp] Hlen H64. rewrite length_app in Hlen.
  pose proof Hu as (U1 & U2 & U3 & U4 & U5). exists (appended (body_of src) dst). split.
  - unfold pbuf_copy. replace (u64 (pb_putp src - pb_getp src)) with (Z.of_nat (length (body_of src))) by (rewrite u64_small; lia).
    unfold gets, mbind, M_bind. rewrite !(proj2 (Z.leb_le _ _)), (proj2 (Z.eqb_eq _ _)) by lia. cbn [andb].
    rewrite (copy_internal_appended _ _ _ (body_of src)); [done| |rewrite Z.sub_0_r, u64_small; [done|lia]|lia..].
    rewrite Z.add_0_r. apply peek_slice; [exact U5|lia..].
  - unfold filled, appended. cbn [pb_getp pb_putp pb_plen pb_size pb_data]. rewrite length_memcpy_at, !length_app, Hp, Hl, Nat2Z.id, u64_small by lia.
    split_and!; try lia. rewrite memcpy_at_split by lia.
    rewrite Ht, take_app, take_ge by lia. f_equal. rewrite take_app_length'; [done|lia].
Qed.

Lemma copy_fragments ps l n dst :
  filled l n dst -> Forall fragment ps -> Z.of_nat (length (l ++ concat (body_of <$> ps))) <= n -> n < 2 ^ 64 ->
  exists dst', multipart_copy ps dst = Done (LAGOPUS_RESULT_OK, [], dst') /\ filled (l ++ concat (body_of <$> ps)) n dst'.
Proof.
  revert l dst. induction ps as [|p ps IH]; intros l dst Hf Hps Hlen Hn.
  { exists dst. cbn. by rewrite app_nil_r. }
  apply Forall_cons in Hps as [Hp Hps]. cbn [fmap list_fmap concat] in *. rewrite app_assoc in *.
  destruct (copy_fragment p l n dst) as (dst1 & E & Hf1); [done..|rewrite length_app in Hlen; lia|done|].
  cbn [multipart_copy]. rewrite (bind_Done _ _ _ _ _ E). by apply IH.
Qed.

Lemma filled_received l n b : filled l n b -> n < 2 ^ 64 -> Z.of_nat (length l) <= n -> unread b l /\ pb_putp b = pb_getp b + Z.of_nat (length l).
Proof.
  intros (Hg & Hp & Hl & Hs & Hn & Ht) H64 Hln. split; [|lia]. unfold unread. rewrite Hg, drop_0.
  split_and!; try done; try lia.
Qed.

Lemma get_scan_spec xid mtype ms0 ms :
  match get_scan xid mtype (length ms0) ms with
  | Some i => exists l1 m l2, ms0 ++ ms = l1 ++ m :: l2 /\ i = length l1 /\ mp_used m = true /\ mp_xid m = xid /\ mp_multipart_type m = mtype
  | None => forall m, m ∈ ms -> mp_used m = true -> mp_xid m = xid -> mp_multipart_type m <> mtype
  end.
Proof.
  revert ms0. induction ms as [|m ms IH]; intros ms0; cbn [get_scan]; [by intros m Hm%elem_of_nil|].
  destruct (mp_used m) eqn:Hu; cbn [andb].
  1: destruct (Z.eqb_spec (mp_xid m) xid) as [Hx|Hx]; cbn [andb].
  1: destruct (Z.eqb_spec (mp_multipart_type m) mtype) as [Ht|Ht]; [by exists ms0, m, ms|].
  all: specialize (IH (ms0 ++ [m])); rewrite length_app, Nat.add_1_r, <- app_assoc in IH; cbn [app] in IH.
  all: destruct (get_scan xid mtype (S (length ms0)) ms); [done|].
  all: intros m' [-> |Hm]%elem_of_cons; [|by apply IH].
  all: by rewrite ?Hu.
Qed.

(** The result of a look-up: the buffer holds the bytes. *)
Definition holds (ob : option pbuf) (ol : option bytes) : Prop :=
  match ob, ol with
  | Some b, Some l => unread b l /\ pb_putp b = pb_getp b + Z.of_nat (length l)
  | None, None => True
  | _, _ => False
  end.

Lemma get_refines n xid mtype ms :
  multiparts_ok ms -> holding n ms -> n < 2 ^ 64 ->
  exists ret ob ol ms', channel_multipart_get xid mtype ms = Done (ret, ob, ms') /\
    get_spec xid mtype (requests_of ms) = (ret, ol, requests_of ms') /\ holds ob ol /\ multiparts_ok ms' /\ holding n ms'.
Proof.
  intros Hok Hn Hlen. pose proof Hok as (Hl & Hnd & Hent). unfold channel_multipart_get, get_spec.
  pose proof (get_scan_spec xid mtype [] ms) as Hscan. cbn [app length] in Hscan. destruct (get_scan xid mtype 0 ms) as [i|].
  - destruct Hscan as (l1 & m & l2 & -> & -> & Hu & <- & <-). rewrite list_lookup_middle by done.
    rewrite (requests_lookup m), Z.eqb_refl by (done || apply elem_of_app; right; by left).
    pose proof Hent as Hm. apply Forall_app in Hm as [_ [Hm _]%Forall_cons]. unfold entry_ok in Hm. rewrite Hu in Hm. destruct Hm as [Hfr Hml].
    pose proof Hn as [H0 [_ [Hmn _]%Forall_cons]%Forall_app].
    destruct (copy_fragments (mp_multipart_list m) [] (mp_len m) (pbuf_alloc (mp_len m))) as (b & E & Hb);
      [apply filled_alloc|done|unfold collected in Hml; cbn [app]; lia|lia|].
    rewrite E. cbn [is_ok app] in *. change (concat (body_of <$> mp_multipart_list m)) with (collected m) in Hb.
    rewrite insert_app_r_alt, Nat.sub_diag by lia. cbn [insert list_insert]. unfold multipart_reset. cbn [mp_xid mp_multipart_type mp_len mp_multipart_list].
    set (m' := Multipart _ _ false _ _). do 4 eexists. split; [done|].
    destruct (requests_used l1 m l2) as (HE & HN & _); [done..|].
    assert (requests_of (l1 ++ m' :: l2) = requests_of (l1 ++ l2)) as -> by (unfold requests_of; by rewrite requests_free).
    rewrite HE, delete_insert_id by done. split_and!; [done| | |].
    + apply (filled_received _ (mp_len m)); [done|lia..].
    + by apply (multiparts_ok_replace l1 m).
    + rewrite <- (Z.add_0_r n). apply (holding_replace n 0 l1 m); [done|lia|cbn; lia].
  - exists LAGOPUS_RESULT_NOT_FOUND, None, None, ms. split; [done|]. split; [|done].
    destruct (requests_of ms !! xid) as [[t d]|] eqn:E; [|done].
    destruct (Z.eqb_spec t mtype) as [-> |]; [|done]. exfalso. unfold requests_of in E.
    apply elem_of_list_to_map_2 in E. apply list_elem_of_fmap in E as (m & [= -> -> ->] & [Hu Hm]%list_elem_of_filter). by apply (Hscan m).
Qed.

(** ** Requests that arrive interleaved *)

Inductive mp_op := op_put (b : pbuf) (xid mtype : Z) | op_get (xid mtype : Z).

(** The results of a sequence of operations; a put has no buffer. *)
Fixpoint mp_run (ops : list mp_op) (ms : list multipart) : outcome (list (lagopus_result * option pbuf)) :=
  match ops with
  | [] => Done []
  | op_put b xid mtype :: ops =>
      let '(ret, ms) := channel_multipart_put b xid mtype ms in
      match mp_run ops ms with Done rs => Done ((ret, None) :: rs) | Undefined => Undefined | OutOfFuel => OutOfFuel end
  | op_get xid mtype :: ops =>
      match channel_multipart_get xid mtype ms with
      | Done (ret, ob, ms) =>
          match mp_run ops ms with Done rs => Done ((ret, ob) :: rs) | Undefined => Undefined | OutOfFuel => OutOfFuel end
      | Undefined => Undefined
      | OutOfFuel => OutOfFuel
      end
  end.

Fixpoint mp_spec (ops : list mp_op) (r : requests) : list (lagopus_result * option bytes) :=
  match ops with
  | [] => []
  | op_put b xid mtype :: ops => let '(ret, r) := put_spec (body_of b) xid mtype r in (ret, None) :: mp_spec ops r
  | op_get xid mtype :: ops => let '(ret, l, r) := get_spec xid mtype r in (ret, l) :: mp_spec ops r
  end.

(** The bytes the operations bring. *)
Definition op_bytes (op : mp_op) : bytes := match op with op_put b _ _ => body_of b | op_get _ _ => [] end.
Definition op_ok (op : mp_op) : Prop := match op with op_put b _ _ => fragment b | op_get _ _ => True end.

Definition same_result (x : lagopus_result * option pbuf) (y : lagopus_result * option bytes) : Prop :=
  x.1 = y.1 /\ holds x.2 y.2.

Lemma mp_run_refines ops n ms :
  multiparts_ok ms -> holding n ms -> Forall op_ok ops -> n + Z.of_nat (length (concat (op_bytes <$> ops))) < 2 ^ 64 ->
  exists rs, mp_run ops ms = Done rs /\ Forall2 same_result rs (mp_spec ops (requests_of ms)).
Proof.
  revert n ms. induction ops as [|[b xid mtype|xid mtype] ops IH]; intros n ms Hok Hn Hops Hlen; [by exists []|..];
    apply Forall_cons in Hops as [Hop Hops]; cbn [fmap list_fmap concat op_bytes] in Hlen; rewrite length_app in Hlen;
    cbn [mp_run mp_spec].
  - pose proof (plen_body b Hop) as Hpl.
    pose proof (put_refines b n xid mtype ms Hok Hop Hn ltac:(lia)) as H.
    destruct (channel_multipart_put b xid mtype ms) as [ret ms']. destruct H as (-> & Hok' & Hn').
    destruct (IH _ ms' Hok' Hn' Hops) as (rs & -> & Hrs); [lia|]. eexists. split; [done|]. by apply Forall2_cons.
  - destruct (get_refines n xid mtype ms) as (ret & ob & ol & ms' & -> & -> & Hb & Hok' & Hn'); [done|done|lia|].
    destruct (IH n ms' Hok' Hn' Hops) as (rs & -> & Hrs); [cbn in Hlen; lia|].
    eexists. split; [done|]. by apply Forall2_cons.
Qed.

(** C16: however the messages of requests are interleaved, the sixteen entries of a channel behave as
    a finite map from transactions to a type and the bytes so far: every operation is defined, a
    message is refused for a wrong type or a seventeenth transaction, and a request that is complete
    comes back as exactly the concatenated bodies of its messages, in the order they came, which
    frees its entry. *)
Theorem multipart_reassembly ops :
  Forall op_ok ops -> Z.of_nat (length (concat (op_bytes <$> ops))) < 2 ^ 64 ->
  exists rs, mp_run ops (replicate CHANNEL_SIMULTANEOUS_MULTIPART_MAX multipart_init) = Done rs /\
    Forall2 same_result rs (mp_spec ops ∅).
Proof.
  intros Hops Hlen. destruct multiparts_init as [H1 H2]. rewrite <- H2.
  apply (mp_run_refines ops 0); [done| |done|lia]. split; [done|]. by apply Forall_replicate.
Qed.

(** Two requests in turns, and a message whose type is not that of its request. *)
Definition fragment_of (l : bytes) : pbuf := Pbuf 1 (Z.of_nat (16 + length l)) 16 (Z.of_nat (length l)) 2048 (replicate 16 0 ++ l).
Definition mp_example : list mp_op :=
  [op_put (fragment_of [1; 2; 3]) 7 12; op_put (fragment_of [9]) 8 1; op_put (fragment_of [4]) 7 12;
   op_put (fragment_of [5]) 8 12; op_get 7 12; op_get 7 12; op_get 8 1].

Theorem multipart_reassembly_witness :
  Forall op_ok mp_example /\
  mp_spec mp_example ∅ =
    [(LAGOPUS_RESULT_OK, None); (LAGOPUS_RESULT_OK, None); (LAGOPUS_RESULT_OK, None); (LAGOPUS_RESULT_OFP_ERROR, None);
     (LAGOPUS_RESULT_OK, Some [1; 2; 3; 4]); (LAGOPUS_RESULT_NOT_FOUND, None); (LAGOPUS_RESULT_OK, Some [9])] /\
  exists rs, mp_run mp_example (replicate CHANNEL_SIMULTANEOUS_MULTIPART_MAX multipart_init) = Done rs /\
    Forall2 same_result rs (mp_spec mp_example ∅).
Proof.
  assert (Forall op_ok mp_example) as H.
  { repeat apply Forall_cons_2; try apply Forall_nil_2; try done; (split; [|done]); split_and!; done. }
  split; [done|]. split; [vm_compute; reflexivity|]. apply (multipart_reassembly mp_example); [done|]. vm_compute. reflexivity.
Defined.
