(* ===== verification/MultipartReply.v ===== *)
(** * Replies in several messages

    The division of a reply into messages ([ofp_multipart_append] of [ofp_multipart_handler.c],
    [ofp_header_mp_copy] and [ofp_header_length_set] of [ofp_header_handler.c]), and the replies with
    statistics and descriptions that are built with it: tables, groups, queues, meters, ports and
    flows.  Memory allocation succeeds. *)
From S2P Require Import Prelude Monad OpenFlow Meter Pbuf Generator OpenFlowH Tlv MatchCodec ActionCodec InstructionCodec BucketCodec CodecSound MeterModHandler OfpHandler Framing Hello Role.
From stdpp Require Import strings.
#[local] Open Scope Z_scope.

Definition OFPT_MULTIPART_REPLY := 19.
Definition OFPMPF_REPLY_MORE := 1.
Definition OFPMP_FLOW := 1.
Definition OFPMP_TABLE := 3.
Definition OFPMP_PORT_STATS := 4.
Definition OFPMP_QUEUE := 5.
Definition OFPMP_GROUP := 6.
Definition OFPMP_GROUP_DESC := 7.
Definition OFPMP_METER := 9.
Definition OFPMP_METER_CONFIG := 10.
Definition OFPMP_PORT_DESC := 13.

(** ** Headers *)

(** The header of [src], the buffer of the state, is copied to [dst]; [src] gets its length and the
    flag for more, [dst] starts as the last message.  The result, and [dst]. *)
Definition ofp_header_mp_copy (dst : pbuf) : pm (lagopus_result * pbuf) :=
  let cur_dst_pbuf_info := pbuf_info_store dst in
  cur_src_pbuf_info ← gets pbuf_info_store;
  '(ret, cur_src_length) ← gets pbuf_length_get;
  if negb (is_ok ret) then mret (ret, dst) else
  modify (fun src => pbuf_info_load src (16, 0, 16)) ;;
  '(ret, mp_reply) ← on_fresh (decode openflow13 "ofp_multipart_reply" "");
  if negb (is_ok ret) then mret (ret, dst) else
  let mp_reply := <["flags" := [OFPMPF_REPLY_MORE]]> (<["header.length" := [default 0 cur_src_length]]> mp_reply) in
  modify pbuf_reset ;;
  modify (pbuf_plen_set 16) ;;
  ret ← encode openflow13 "ofp_multipart_reply" "" mp_reply;
  if negb (is_ok ret) then mret (ret, dst) else
  let mp_reply := <["flags" := [0]]> (<["header.length" := [16]]> mp_reply) in
  match encode openflow13 "ofp_multipart_reply" "" mp_reply (pbuf_plen_set cur_dst_pbuf_info.2 (pbuf_reset dst)) with
  | Done (ret, dst) =>
      if is_ok ret then modify (fun src => pbuf_info_load src cur_src_pbuf_info) ;; mret (ret, dst)
      else mret (ret, dst)
  | Undefined => undefined
  | OutOfFuel => out_of_fuel
  end.

Definition ofp_header_length_set (length : Z) : pm lagopus_result :=
  cur_pbuf_info ← gets pbuf_info_store;
  modify (fun b => pbuf_info_load b (8, 0, 8)) ;;
  '(ret, header) ← on_fresh (decode_sneak openflow13 "ofp_header" "");
  if negb (is_ok ret) then mret ret else
  let header := <["length" := [length]]> header in
  modify pbuf_reset ;;
  modify (pbuf_plen_set 8) ;;
  ret ← encode openflow13 "ofp_header" "" header;
  if is_ok ret then modify (fun b => pbuf_info_load b cur_pbuf_info) ;; mret ret
  else mret ret.

(** ** The list of messages *)

(** The last buffer of the list becomes these. *)
Definition replace_last (bs : list pbuf) (l : pbuf_list) : pbuf_list :=
  PbufList (pl_contents_size l) (removelast (pl_tailq l) ++ bs) (pl_unused l).

(** The buffer [*pbuf] that the caller gets is the last one of the list. *)
Definition ofp_multipart_append (src_pbuf : pbuf) (l : pbuf_list) : outcome (lagopus_result * pbuf_list) :=
  let '(dst_pbuf, l) := pbuf_list_last_get l in
  match pbuf_append src_pbuf dst_pbuf with
  | Done (LAGOPUS_RESULT_OUT_OF_RANGE, before_pbuf) =>
      let dst_pbuf := pbuf_plen_set OFP_PACKET_MAX_SIZE (pbuf_alloc OFP_PACKET_MAX_SIZE) in
      match ofp_header_mp_copy dst_pbuf before_pbuf with
      | Done (ret, dst_pbuf, before_pbuf) =>
          if is_ok ret then
            match pbuf_append src_pbuf dst_pbuf with
            | Done (ret, dst_pbuf) => Done (ret, replace_last [before_pbuf; dst_pbuf] l)
            | Undefined => Undefined
            | OutOfFuel => OutOfFuel
            end
          else Done (ret, replace_last [before_pbuf; dst_pbuf] l)
      | Undefined => Undefined
      | OutOfFuel => OutOfFuel
      end
  | Done (ret, dst_pbuf) => Done (ret, replace_last [dst_pbuf] l)
  | Undefined => Undefined
  | OutOfFuel => OutOfFuel
  end.

(** An operation on the last buffer. *)
Definition on_last {A} (m : pm A) (l : pbuf_list) : outcome (A * pbuf_list) :=
  let '(b, l) := pbuf_list_last_get l in
  match m b with
  | Done (a, b) => Done (a, replace_last [b] l)
  | Undefined => Undefined
  | OutOfFuel => OutOfFuel
  end.

Definition mp_reply_packet (version length mtype flags xid : Z) : packet :=
  <["type" := [mtype]]> (<["flags" := [flags]]> (ofp_header_packet version OFPT_MULTIPART_REPLY length xid)).

(** ** Replies: the handlers have the same two functions, that differ in the encoder of an entry *)
Section Reply.
Context {A : Type} (entry_encode : A -> pm lagopus_result).

(** The loop over the entries. *)
Fixpoint entries_append (entries : list A) (l : pbuf_list) : outcome (lagopus_result * pbuf_list) :=
  match entries with
  | [] => Done (LAGOPUS_RESULT_OK, l)
  | e :: entries =>
      match entry_encode e (pbuf_plen_set OFP_PACKET_MAX_SIZE (pbuf_alloc OFP_PACKET_MAX_SIZE)) with
      | Done (ret, entry_pbuf) =>
          if is_ok ret then
            match ofp_multipart_append entry_pbuf l with
            | Done (ret, l) => if is_ok ret then entries_append entries l else Done (ret, l)
            | Undefined => Undefined
            | OutOfFuel => OutOfFuel
            end
          else Done (ret, l)
      | Undefined => Undefined
      | OutOfFuel => OutOfFuel
      end
  end.

(** The length of the last message. *)
Definition last_length_set : pm lagopus_result :=
  '(ret, length) ← gets pbuf_length_get;
  if negb (is_ok ret) then mret ret else
  ret ← ofp_header_length_set (default 0 length);
  if is_ok ret then modify pbuf_plen_reset ;; mret ret else mret ret.

Definition reply_create (version mtype xid : Z) (entries : list A) : outcome (lagopus_result * pbuf_list) :=
  match on_last (modify (fun b => pbuf_plen_set (pbuf_size_get b) b) ;;
                 encode openflow13 "ofp_multipart_reply" "" (mp_reply_packet version 0 mtype 0 xid)) pbuf_list_alloc with
  | Done (ret, l) =>
      if is_ok ret then
        match entries_append entries l with
        | Done (ret, l) => if is_ok ret then on_last last_length_set l else Done (ret, l)
        | Undefined => Undefined
        | OutOfFuel => OutOfFuel
        end
      else Done (ret, l)
  | Undefined => Undefined
  | OutOfFuel => OutOfFuel
  end.

End Reply.

(** ** The entries of the replies *)

(** Lists of structures of one size: [ofp_bucket_counter_list_encode] and
    [ofp_meter_band_stats_list_encode]. *)
Fixpoint struct_list_encode_loop (name : string) (l : list packet) (total_length : Z) : pm (lagopus_result * Z) :=
  match l with
  | [] => mret (LAGOPUS_RESULT_OK, total_length)
  | pk :: l =>
      ret ← encode openflow13 name "" pk;
      if is_ok ret then
        let '(total_length, ret) := ofp_tlv_length_sum total_length (sizeof openflow13 name) in
        if is_ok ret then struct_list_encode_loop name l total_length else mret (ret, total_length)
      else mret (ret, total_length)
  end.

Definition ofp_bucket_counter_list_encode (l : list packet) : pm (lagopus_result * Z) :=
  struct_list_encode_loop "ofp_bucket_counter" l 0.
Definition ofp_meter_band_stats_list_encode (l : list packet) : pm (lagopus_result * Z) :=
  struct_list_encode_loop "ofp_meter_band_stats" l 0.

(** A structure, then a list, then the length of both at the offset [off] of the structure. *)
Definition entry_with_list (name : string) (off : Z) (pk : packet) (list_encode : pm (lagopus_result * Z))
    (failed : lagopus_result -> lagopus_result) : pm lagopus_result :=
  ret ← encode openflow13 name "" pk;
  if is_ok ret then
    putp ← gets pbuf_putp_get;
    let head := putp + off - sizeof openflow13 name in
    '(ret, total_length) ← list_encode;
    if is_ok ret then ofp_multipart_length_set head (u16 (total_length + sizeof openflow13 name))
    else mret ret
  else mret (failed ret).

Definition table_stats_encode (ofp : packet) : pm lagopus_result := encode openflow13 "ofp_table_stats" "" ofp.
Definition queue_stats_encode (ofp : packet) : pm lagopus_result := encode openflow13 "ofp_queue_stats" "" ofp.
Definition port_stats_encode (ofp : packet) : pm lagopus_result := encode openflow13 "ofp_port_stats" "" ofp.
Definition port_desc_encode (ofp : packet) : pm lagopus_result := encode openflow13 "ofp_port" "" ofp.

Record group_stats_entry := GroupStatsEntry { gs_ofp : packet; gs_bucket_counter_list : list packet }.
(** The only one with another result where the structure does not fit. *)
Definition group_stats_encode (e : group_stats_entry) : pm lagopus_result :=
  entry_with_list "ofp_group_stats" 0 (gs_ofp e) (ofp_bucket_counter_list_encode (gs_bucket_counter_list e))
    (fun _ => LAGOPUS_RESULT_NO_MEMORY).

Record meter_stats_entry := MeterStatsEntry { ms_ofp : packet; ms_meter_band_stats_list : list packet }.
Definition meter_stats_encode (e : meter_stats_entry) : pm lagopus_result :=
  entry_with_list "ofp_meter_stats" 4 (ms_ofp e) (ofp_meter_band_stats_list_encode (ms_meter_band_stats_list e)) id.

Record group_desc_entry := GroupDescEntry { gd_ofp : packet; gd_bucket_list : list cbucket }.
Definition group_desc_encode (e : group_desc_entry) : pm lagopus_result :=
  entry_with_list "ofp_group_desc" 0 (gd_ofp e)
    ('(ret, total_length, _) ← ofp_bucket_list_encode (gd_bucket_list e); mret (ret, total_length)) id.

Record meter_config_entry := MeterConfigEntry { mc_ofp : packet; mc_band_list : list meter_band }.
Definition meter_config_encode (e : meter_config_entry) : pm lagopus_result :=
  entry_with_list "ofp_meter_config" 0 (mc_ofp e)
    ('(ret, total_length, _) ← ofp_band_list_encode (mc_band_list e); mret (ret, total_length)) id.

Record flow_stats_entry := FlowStatsEntry { fs_ofp : packet; fs_match_list : list match_; fs_instruction_list : list cinstruction }.
Definition flow_stats_encode (e : flow_stats_entry) : pm lagopus_result :=
  ret ← encode openflow13 "ofp_flow_stats" "" (fs_ofp e);
  if negb (is_ok ret) then mret ret else
  putp ← gets pbuf_putp_get;
  let flow_stats_head := putp - sizeof openflow13 "ofp_flow_stats" in
  '(ret, match_total_len) ← ofp_match_list_encode (fs_match_list e);
  if negb (is_ok ret) then mret ret else
  '(ret, instruction_total_len, _) ← ofp_instruction_list_encode (fs_instruction_list e);
  if negb (is_ok ret) then mret ret else
  let '(flow_stats_len, ret) := ofp_tlv_length_sum match_total_len instruction_total_len in
  if negb (is_ok ret) then mret ret else
  let '(flow_stats_len, ret) := ofp_tlv_length_sum flow_stats_len (sizeof openflow13 "ofp_flow_stats") in
  if negb (is_ok ret) then mret ret else
  ofp_multipart_length_set flow_stats_head flow_stats_len.

Definition table_stats_reply_create := entries_append table_stats_encode.
Definition ofp_table_stats_reply_create (version xid : Z) := reply_create table_stats_encode version OFPMP_TABLE xid.
Definition queue_stats_reply_create := entries_append queue_stats_encode.
Definition ofp_queue_stats_reply_create (version xid : Z) := reply_create queue_stats_encode version OFPMP_QUEUE xid.
Definition s_port_stats_list_encode := entries_append port_stats_encode.
Definition ofp_port_stats_reply_create (version xid : Z) := reply_create port_stats_encode version OFPMP_PORT_STATS xid.
Definition port_desc_reply_create := entries_append port_desc_encode.
Definition ofp_port_desc_reply_create (version xid : Z) := reply_create port_desc_encode version OFPMP_PORT_DESC xid.
Definition group_stats_reply_create := entries_append group_stats_encode.
Definition ofp_group_stats_reply_create (version xid : Z) := reply_create group_stats_encode version OFPMP_GROUP xid.
Definition meter_stats_reply_create := entries_append meter_stats_encode.
Definition ofp_meter_stats_reply_create (version xid : Z) := reply_create meter_stats_encode version OFPMP_METER xid.
Definition group_desc_reply_create := entries_append group_desc_encode.
Definition ofp_group_desc_reply_create (version xid : Z) := reply_create group_desc_encode version OFPMP_GROUP_DESC xid.
Definition meter_config_reply_create := entries_append meter_config_encode.
Definition ofp_meter_config_reply_create (version xid : Z) := reply_create meter_config_encode version OFPMP_METER_CONFIG xid.
Definition s_flow_stats_list_encode := entries_append flow_stats_encode.
Definition ofp_flow_stats_reply_create (version xid : Z) := reply_create flow_stats_encode version OFPMP_FLOW xid.

(** ** The messages of a reply *)

Definition mp_head (version length mtype flags xid : Z) : bytes :=
  be_bytes 1 version ++ be_bytes 1 OFPT_MULTIPART_REPLY ++ be_bytes 2 length ++ be_bytes 4 xid ++
  be_bytes 2 mtype ++ be_bytes 2 flags ++ [0; 0; 0; 0].
Definition reply_message (version mtype flags xid : Z) (body : bytes) : bytes :=
  mp_head version (16 + Z.of_nat (length body)) mtype flags xid ++ body.

(** All but the last one say that there is more. *)
Fixpoint reply_messages (version mtype xid : Z) (bodies : list bytes) : list bytes :=
  match bodies with
  | [] => []
  | [body] => [reply_message version mtype 0 xid body]
  | body :: bodies => reply_message version mtype OFPMPF_REPLY_MORE xid body :: reply_messages version mtype xid bodies
  end.

(** Entries go behind each other as long as they fit into the message. *)
Fixpoint bodies_of (body : bytes) (entries : list bytes) : list bytes :=
  match entries with
  | [] => [body]
  | e :: entries =>
      if 16 + Z.of_nat (length (body ++ e)) <=? OFP_PACKET_MAX_SIZE then bodies_of (body ++ e) entries
      else body :: bodies_of e entries
  end.

Lemma bodies_concat body entries : concat (bodies_of body entries) = body ++ concat entries.
Proof.
  revert body. induction entries as [|e entries IH]; intros body; cbn [bodies_of]; [done|].
  destruct (_ <=? _); cbn [concat]; rewrite IH; [by rewrite <- app_assoc|done].
Qed.

Lemma bodies_fit body entries :
  16 + Z.of_nat (length body) <= OFP_PACKET_MAX_SIZE -> Forall (fun e => 16 + Z.of_nat (length e) <= OFP_PACKET_MAX_SIZE) entries ->
  Forall (fun b => 16 + Z.of_nat (length b) <= OFP_PACKET_MAX_SIZE) (bodies_of body entries).
Proof.
  intros Hb He. revert body Hb. induction He as [|e entries He _ IH]; intros body Hb; cbn [bodies_of]; [by apply Forall_singleton|].
  destruct (Z.leb_spec (16 + Z.of_nat (length (body ++ e))) OFP_PACKET_MAX_SIZE); [by apply IH|]. apply Forall_cons. split; [done|by apply IH].
Qed.

(** ** Lemmas on the headers *)

Lemma mp_reply_struct :
  declared openflow13 "ofp_multipart_reply" = true /\ decodable "ofp_multipart_reply" = true /\
  exists lfs, fields "ofp_multipart_reply" "" =
   [("header.version", 1%nat, 1%nat); ("header.type", 1%nat, 1%nat); ("header.length", 2%nat, 1%nat); ("header.xid", 4%nat, 1%nat);
    ("type", 2%nat, 1%nat); ("flags", 2%nat, 1%nat); ("pad", 1%nat, 4%nat)] ++ lfs /\ leaves_size lfs = 0%nat /\
    forall pk, wire pk lfs = [].
Proof. split_and!; [vm_compute; reflexivity..|]. eexists. split; [vm_compute; reflexivity|]. done. Qed.

Lemma header_fields :
  declared openflow13 "ofp_header" = true /\ decodable "ofp_header" = true /\
  fields "ofp_header" "" = [("version", 1%nat, 1%nat); ("type", 1%nat, 1%nat); ("length", 2%nat, 1%nat); ("xid", 4%nat, 1%nat)].
Proof. split_and!; vm_compute; reflexivity. Qed.

Lemma length_mp_head v n t f xid : length (mp_head v n t f xid) = 16%nat.
Proof. unfold mp_head. by rewrite !length_app, !length_be_bytes. Qed.

Lemma mp_reply_wire v n t f xid : wire (mp_reply_packet v n t f xid) (fields "ofp_multipart_reply" "") = mp_head v n t f xid.
Proof. destruct mp_reply_struct as (_ & _ & lfs & -> & _ & H). by rewrite wire_app, H, app_nil_r. Qed.

(** A field of bytes that were decoded, encoded again. *)
Lemma wire_leaf_decoded q pk lf : q !! lf.1.1 = Some (leaf_elements pk lf) -> wire_leaf q lf = wire_leaf pk lf.
Proof.
  intros H. apply wire_read_leaf; [by rewrite read_wire_leaf|apply length_wire_leaf|].
  pose proof (bytes_ok_wire pk [lf]) as Hok. unfold wire in Hok. cbn [flat_map] in Hok. by rewrite app_nil_r in Hok.
Qed.

Lemma reply_rewired q v n t f xid n' f' :
  (forall lf, lf ∈ fields "ofp_multipart_reply" "" -> q !! lf.1.1 = Some (leaf_elements (mp_reply_packet v n t f xid) lf)) ->
  wire (<["flags" := [f']]> (<["header.length" := [n']]> q)) (fields "ofp_multipart_reply" "") = mp_head v n' t f' xid.
Proof.
  destruct mp_reply_struct as (_ & _ & lfs & -> & _ & H0). intros Hq. rewrite wire_app, H0, app_nil_r.
  transitivity (wire (mp_reply_packet v n' t f' xid)
    [("header.version", 1%nat, 1%nat); ("header.type", 1%nat, 1%nat); ("header.length", 2%nat, 1%nat); ("header.xid", 4%nat, 1%nat);
     ("type", 2%nat, 1%nat); ("flags", 2%nat, 1%nat); ("pad", 1%nat, 4%nat)]); [|reflexivity].
  assert (forall lf, lf ∈ [("header.version", 1%nat, 1%nat); ("header.type", 1%nat, 1%nat); ("header.length", 2%nat, 1%nat); ("header.xid", 4%nat, 1%nat);
     ("type", 2%nat, 1%nat); ("flags", 2%nat, 1%nat); ("pad", 1%nat, 4%nat)] ++ lfs ->
     "flags" <> lf.1.1 -> "header.length" <> lf.1.1 ->
     wire_leaf (<["flags":=[f']]> (<["header.length":=[n']]> q)) lf = wire_leaf (mp_reply_packet v n t f xid) lf) as Hw.
  { intros lf Hlf H1 H2. rewrite !wire_leaf_other by done. by apply wire_leaf_decoded, Hq. }
  unfold wire. cbn [flat_map].
  rewrite (Hw ("header.version", 1%nat, 1%nat)), (Hw ("header.type", 1%nat, 1%nat)), (Hw ("header.xid", 4%nat, 1%nat)),
    (Hw ("type", 2%nat, 1%nat)), (Hw ("pad", 1%nat, 4%nat)) by (done || (cbn [app]; rewrite !elem_of_cons; tauto)).
  rewrite (wire_leaf_other _ "flags" _ ("header.length", 2%nat, 1%nat)) by done.
  assert (forall pk : packet, wire_leaf (<["flags":=[f']]> pk) ("flags", 2%nat, 1%nat) = be_bytes 2 f' ++ []) as ->.
  { intros pk. unfold wire_leaf, pkt_get. cbn [seq flat_map fst snd]. by rewrite lookup_insert_eq. }
  assert (wire_leaf (<["header.length":=[n']]> q) ("header.length", 2%nat, 1%nat) = be_bytes 2 n' ++ []) as ->.
  { unfold wire_leaf, pkt_get. cbn [seq flat_map fst snd]. by rewrite lookup_insert_eq. }
  reflexivity.
Qed.

(** ** Lemmas on the buffers *)

(** A buffer of the greatest size that holds [m], with the rest of its place free. *)
Definition message_buffer (m : bytes) (b : pbuf) : Prop :=
  pb_getp b = 0 /\ pb_putp b = Z.of_nat (length m) /\ pb_plen b = OFP_PACKET_MAX_SIZE - Z.of_nat (length m) /\
  pb_size b = OFP_PACKET_MAX_SIZE /\ Z.of_nat (length (pb_data b)) = OFP_PACKET_MAX_SIZE /\ take (length m) (pb_data b) = m.

Lemma message_buffer_alloc : message_buffer [] (pbuf_plen_set OFP_PACKET_MAX_SIZE (pbuf_alloc OFP_PACKET_MAX_SIZE)).
Proof.
  rewrite pbuf_alloc_empty by done. unfold message_buffer, pbuf_plen_set, set_pb_plen.
  cbn [pb_getp pb_putp pb_plen pb_size pb_data length take]. rewrite length_replicate, Z2Nat.id by done. by split_and!.
Qed.

Lemma message_buffer_length m b : message_buffer m b -> Z.of_nat (length m) <= OFP_PACKET_MAX_SIZE.
Proof. intros (_ & _ & _ & _ & H & Ht). rewrite <- Ht, length_take. lia. Qed.

Lemma message_buffer_put m v b :
  message_buffer m b -> Z.of_nat (length (m ++ v)) <= OFP_PACKET_MAX_SIZE -> message_buffer (m ++ v) (put v b).
Proof.
  intros (Hg & Hp & Hl & Hs & Hd & Ht) Hle. unfold message_buffer, put. cbn [pb_getp pb_putp pb_plen pb_size pb_data].
  rewrite length_app in *. rewrite length_memcpy_at, Hp, Nat2Z.id. split_and!; try lia.
  rewrite memcpy_at_split, Ht, app_assoc by lia. rewrite <- length_app. apply take_app_length.
Qed.

Lemma message_buffer_fits n m b : message_buffer m b -> Z.of_nat (length m) + Z.of_nat n <= OFP_PACKET_MAX_SIZE -> fits n b.
Proof.
  intros (Hg & Hp & Hl & Hs & Hd & Ht) Hle. unfold fits, writable. rewrite Hp, Hl, Hd. unfold OFP_PACKET_MAX_SIZE in *. lia.
Qed.

Lemma append_message m e src dst :
  message_buffer e src -> message_buffer m dst ->
  if Z.of_nat (length m) + Z.of_nat (length e) <=? OFP_PACKET_MAX_SIZE then
    exists dst', pbuf_append src dst = Done (LAGOPUS_RESULT_OK, dst') /\ message_buffer (m ++ e) dst'
  else pbuf_append src dst = Done (LAGOPUS_RESULT_OUT_OF_RANGE, dst).
Proof.
  intros He Hm. pose proof (message_buffer_length _ _ He) as Hel. pose proof (message_buffer_length _ _ Hm) as Hml.
  pose proof He as (Eg & Ep & El & Es & Ed & Et). pose proof Hm as (Hg & Hp & Hl & Hs & Hd & Ht). unfold pbuf_append, gets, mbind, M_bind.
  rewrite Eg, Ep, Z.sub_0_r, u64_small by (unfold OFP_PACKET_MAX_SIZE in *; lia). rewrite Z.add_0_l, Z.eqb_refl, Hl.
  rewrite (proj2 (Z.leb_le 0 _)) by lia. cbn [andb].
  destruct (Z.leb_spec (Z.of_nat (length m) + Z.of_nat (length e)) OFP_PACKET_MAX_SIZE) as [Hle|Hgt].
  2: { by rewrite (proj2 (Z.leb_gt _ _)) by lia. }
  rewrite (proj2 (Z.leb_le _ _)) by lia. exists (put e dst). split; [|apply message_buffer_put; [done|rewrite length_app; lia]].
  unfold pbuf_append_internal, copy. rewrite Z.sub_0_r, u64_small, Nat2Z.id, Eg by (unfold OFP_PACKET_MAX_SIZE in *; lia).
  rewrite (peek_slice _ _ src e) by (rewrite ?drop_0; done || lia). unfold gets, mbind, M_bind, modify, assert.
  assert ((if negb (Z.of_nat (length e) =? 0) then poke (pb_putp dst) e else mret tt) dst =
    Done (tt, set_pb_data (memcpy_at (Z.to_nat (pb_putp dst)) e (pb_data dst)) dst)) as ->.
  { destruct (Z.eqb_spec (Z.of_nat (length e)) 0) as [Hz|Hz]; cbn [negb]; [destruct e; [by destruct dst|done]|apply poke_fits; lia]. }
  cbn. rewrite (proj2 (Z.leb_le _ _)) by lia. unfold set_pb_plen, set_pb_putp, set_pb_data, put, mret, M_ret. cbn. repeat f_equal.
  rewrite u64_small; [lia|]. unfold OFP_PACKET_MAX_SIZE in *. lia.
Qed.

(** The bytes at the start of a buffer are replaced, and its positions restored. *)
Lemma head_replaced w w' p n b b0 :
  message_buffer (w ++ p) b -> length w' = length w -> pb_data b0 = pb_data b -> pb_size b0 = pb_size b ->
  message_buffer (w' ++ p) (pbuf_info_load (put w' (pbuf_plen_set n (pbuf_reset b0))) (pbuf_info_store b)).
Proof.
  intros Hm Hw Hd0 Hs0. pose proof (message_buffer_length _ _ Hm) as Hle. destruct Hm as (Hg & Hp & Hl & Hs & Hd & Ht).
  unfold message_buffer, pbuf_info_load, pbuf_info_store, put. cbn [set_pb_plen set_pb_getp set_pb_putp pbuf_plen_set pbuf_reset pb_getp pb_putp pb_plen pb_size pb_data].
  rewrite Hd0, Hs0, length_memcpy_at. rewrite length_app in *. rewrite Hw. split_and!; try done.
  change (Z.to_nat 0) with 0%nat. rewrite memcpy_at_split by lia. cbn [take]. rewrite app_nil_l, Nat.add_0_l.
  rewrite <- Hw, firstn_app_2. f_equal. rewrite take_drop_commute, Hw.
  apply (f_equal (drop (length w))) in Ht. by rewrite drop_app_length in Ht.
Qed.

Definition header_packet (version type length xid : Z) : packet :=
  list_to_map [("version", [version]); ("type", [type]); ("length", [length]); ("xid", [xid])].
Definition header_bytes (version type length xid : Z) : bytes :=
  be_bytes 1 version ++ be_bytes 1 type ++ be_bytes 2 length ++ be_bytes 4 xid.

Lemma header_packet_wire v t n xid : wire (header_packet v t n xid) (fields "ofp_header" "") = header_bytes v t n xid.
Proof. rewrite (proj2 (proj2 header_fields)). reflexivity. Qed.

Lemma header_rewired q v t n xid n' :
  (forall lf, lf ∈ fields "ofp_header" "" -> q !! lf.1.1 = Some (leaf_elements (header_packet v t n xid) lf)) ->
  wire (<["length" := [n']]> q) (fields "ofp_header" "") = header_bytes v t n' xid.
Proof.
  rewrite (proj2 (proj2 header_fields)). intros Hq.
  assert (forall lf, lf ∈ [("version", 1%nat, 1%nat); ("type", 1%nat, 1%nat); ("length", 2%nat, 1%nat); ("xid", 4%nat, 1%nat)] ->
     "length" <> lf.1.1 -> wire_leaf (<["length":=[n']]> q) lf = wire_leaf (header_packet v t n xid) lf) as Hw.
  { intros lf Hlf H1. rewrite wire_leaf_other by done. by apply wire_leaf_decoded, Hq. }
  unfold wire. cbn [flat_map].
  rewrite (Hw ("version", 1%nat, 1%nat)), (Hw ("type", 1%nat, 1%nat)), (Hw ("xid", 4%nat, 1%nat)) by (done || (rewrite !elem_of_cons; tauto)).
  assert (wire_leaf (<["length":=[n']]> q) ("length", 2%nat, 1%nat) = be_bytes 2 n' ++ []) as ->.
  { unfold wire_leaf, pkt_get. cbn [seq flat_map fst snd]. by rewrite lookup_insert_eq. }
  reflexivity.
Qed.

(** What is at the start of a message, ready to be decoded. *)
Lemma head_unread w p n b :
  message_buffer (w ++ p) b -> n = Z.of_nat (length w) -> unread (pbuf_info_load b (n, 0, n)) (w ++ []).
Proof.
  intros Hm ->. pose proof (message_buffer_length _ _ Hm) as Hle. destruct Hm as (Hg & Hp & Hl & Hs & Hd & Ht).
  rewrite length_app in *. rewrite app_nil_r. unfold unread, pbuf_info_load. cbn [set_pb_plen set_pb_getp set_pb_putp pb_getp pb_plen pb_data].
  change (Z.to_nat 0) with 0%nat. rewrite drop_0. unfold OFP_PACKET_MAX_SIZE in *. split_and!; try lia.
  apply (f_equal (take (length w))) in Ht. rewrite take_app_length, take_take, Nat.min_l in Ht by lia. done.
Qed.

Lemma fits_reset n b : Z.of_nat (length (pb_data b)) = OFP_PACKET_MAX_SIZE -> Z.of_nat n <= OFP_PACKET_MAX_SIZE -> fits n (pbuf_plen_set (Z.of_nat n) (pbuf_reset b)).
Proof.
  intros Hd Hn. unfold fits, writable, pbuf_plen_set, pbuf_reset. cbn [set_pb_plen set_pb_getp set_pb_putp pb_putp pb_plen pb_data].
  unfold OFP_PACKET_MAX_SIZE in *. lia.
Qed.

Lemma message_length_get m b : message_buffer m b -> pbuf_length_get b = (LAGOPUS_RESULT_OK, Some (Z.of_nat (length m))).
Proof.
  intros Hm. pose proof (message_buffer_length _ _ Hm) as Hle. destruct Hm as (Hg & Hp & _). unfold pbuf_length_get.
  rewrite Hg, Hp, Z.sub_0_r. unfold u16. rewrite Z.mod_small by (unfold OFP_PACKET_MAX_SIZE in *; lia).
  by rewrite (proj2 (Z.leb_le _ _)), Z.add_0_l, Z.eqb_refl by lia.
Qed.

Lemma length_set_law v n t f xid p n' b :
  message_buffer (mp_head v n t f xid ++ p) b ->
  exists b', ofp_header_length_set n' b = Done (LAGOPUS_RESULT_OK, b') /\ message_buffer (mp_head v n' t f xid ++ p) b'.
Proof.
  destruct header_fields as (Hd & Hdec & Hfl).
  assert (forall k, mp_head v k t f xid ++ p = header_bytes v OFPT_MULTIPART_REPLY k xid ++ ((be_bytes 2 t ++ be_bytes 2 f ++ [0; 0; 0; 0]) ++ p)) as Hsplit.
  { intros k. unfold mp_head, header_bytes. by rewrite <- !app_assoc. }
  rewrite !Hsplit. set (rest := _ ++ p). intros Hm.
  pose proof (head_unread _ _ 8 _ Hm eq_refl) as Hu. rewrite <- header_packet_wire in Hu.
  destruct (struct_decode_wire "ofp_header" _ ∅ _ [] Hd Hdec Hu) as (q & _ & E & Hq & _).
  unfold ofp_header_length_set, gets at 1, modify at 1. rewrite 2!(bind_Done _ _ _ _ _ eq_refl).
  rewrite (bind_Done _ _ _ _ _ (on_fresh_Done _ _ _ _ _ E)). cbn [is_ok negb].
  unfold modify at 1 2. rewrite 2!(bind_Done _ _ _ _ _ eq_refl).
  set (b0 := pbuf_info_load b (8, 0, 8)).
  pose proof (struct_encode "ofp_header" (<["length" := [n']]> q) (pbuf_plen_set 8 (pbuf_reset b0)) Hd) as E2.
  rewrite (header_rewired q v OFPT_MULTIPART_REPLY n xid n' Hq) in E2.
  rewrite (bind_Done _ _ _ _ _ (E2 ltac:(rewrite Hfl; apply (fits_reset 8); [apply Hm|done]))). cbn [is_ok].
  eexists. split; [reflexivity|]. by apply (head_replaced (header_bytes v OFPT_MULTIPART_REPLY n xid)).
Qed.

Lemma mp_copy_law v n t f xid p before dst :
  message_buffer (mp_head v n t f xid ++ p) before -> message_buffer [] dst ->
  exists dst' before', ofp_header_mp_copy dst before = Done (LAGOPUS_RESULT_OK, dst', before') /\
    message_buffer (reply_message v t OFPMPF_REPLY_MORE xid p) before' /\ message_buffer (mp_head v 16 t 0 xid) dst'.
Proof.
  destruct mp_reply_struct as (Hd & Hdec & lfs & Hfl & Hl0 & _). intros Hm Hdst.
  pose proof (head_unread _ _ 16 _ Hm (f_equal Z.of_nat (eq_sym (length_mp_head v n t f xid)))) as Hu. rewrite <- mp_reply_wire in Hu.
  destruct (struct_decode_wire "ofp_multipart_reply" _ ∅ _ [] Hd Hdec Hu) as (q & E & _ & Hq & _).
  assert (leaves_size (fields "ofp_multipart_reply" "") = 16%nat) as Hsz by by rewrite Hfl, leaves_size_app, Hl0.
  unfold ofp_header_mp_copy, gets at 1. rewrite (bind_Done _ _ _ _ _ eq_refl).
  rewrite (bind_Done _ _ _ _ _ eq_refl). rewrite (message_length_get _ _ Hm). cbn [is_ok negb default id].
  rewrite length_app, length_mp_head, Nat2Z.inj_add. change (Z.of_nat 16) with 16. set (n' := 16 + Z.of_nat (length p)).
  rewrite (bind_Done _ _ _ _ _ eq_refl).
  rewrite (bind_Done _ _ _ _ _ (on_fresh_Done _ _ _ _ _ E)). cbn [is_ok negb].
  unfold modify at 1 2. rewrite 2!(bind_Done _ _ _ _ _ eq_refl). set (b0 := adv _ _).
  pose proof (struct_encode "ofp_multipart_reply" (<["flags" := [OFPMPF_REPLY_MORE]]> (<["header.length" := [n']]> q)) (pbuf_plen_set 16 (pbuf_reset b0)) Hd) as E2.
  rewrite (reply_rewired q v n t f xid n' _ Hq) in E2.
  rewrite (bind_Done _ _ _ _ _ (E2 ltac:(rewrite Hsz; apply (fits_reset 16); [apply Hm|done]))). cbn [is_ok negb].
  set (d0 := pbuf_plen_set (pbuf_info_store dst).2 (pbuf_reset dst)). destruct Hdst as (Hg & Hp & Hl & Hs & Hdd & _).
  assert (message_buffer [] d0) as Hd0.
  { split_and!; [reflexivity|reflexivity|exact Hl|exact Hs|exact Hdd|reflexivity]. }
  rewrite (struct_encode _ _ d0 Hd) by (rewrite Hsz; by eapply message_buffer_fits).
  assert (<["flags" := [0]]> (<["header.length" := [16]]> (<["flags" := [OFPMPF_REPLY_MORE]]> (<["header.length" := [n']]> q))) =
    <["flags" := [0]]> (<["header.length" := [16]]> q)) as ->.
  { apply map_eq. intros j. destruct (decide (j = "flags")) as [-> |]; [by rewrite !lookup_insert_eq|].
    destruct (decide (j = "header.length")) as [-> |]; [by rewrite !(lookup_insert_ne _ "flags"), !lookup_insert_eq by done|].
    by rewrite !lookup_insert_ne by done. }
  rewrite (reply_rewired q v n t f xid 16 0 Hq). cbn [is_ok].
  eexists _, _. split; [reflexivity|]. split.
  - by apply (head_replaced (mp_head v n t f xid)).
  - apply (message_buffer_put [] (mp_head v 16 t 0 xid)); [done|]. rewrite length_app, length_mp_head. done.
Qed.

Lemma append_reply v n t xid p e src before l :
  message_buffer e src -> 16 + Z.of_nat (length e) <= OFP_PACKET_MAX_SIZE ->
  message_buffer (mp_head v n t 0 xid ++ p) before ->
  exists bs n' p' b, ofp_multipart_append src (PbufList 0 (l ++ [before]) []) = Done (LAGOPUS_RESULT_OK, PbufList 0 (l ++ bs ++ [b]) []) /\
    message_buffer (mp_head v n' t 0 xid ++ p') b /\
    if 16 + Z.of_nat (length (p ++ e)) <=? OFP_PACKET_MAX_SIZE then bs = [] /\ p' = p ++ e
    else p' = e /\ exists c, bs = [c] /\ message_buffer (reply_message v t OFPMPF_REPLY_MORE xid p) c.
Proof.
  intros Hsrc He Hm. unfold ofp_multipart_append, pbuf_list_last_get. cbn [pl_tailq]. rewrite last_snoc.
  pose proof (append_message _ _ _ _ Hsrc Hm) as H. rewrite (length_app p e).
  rewrite length_app, length_mp_head, !Nat2Z.inj_add in *. change (Z.of_nat 16) with 16 in H.
  rewrite <- Z.add_assoc in H. revert H. destruct (16 + (Z.of_nat (length p) + Z.of_nat (length e)) <=? OFP_PACKET_MAX_SIZE); intros H.
  - destruct H as (dst' & -> & Hd). exists [], n, (p ++ e), dst'. unfold replace_last. cbn [pl_contents_size pl_tailq pl_unused].
    rewrite removelast_last, (app_assoc (mp_head _ _ _ _ _)). by split_and!.
  - rewrite H. set (d0 := pbuf_plen_set OFP_PACKET_MAX_SIZE (pbuf_alloc OFP_PACKET_MAX_SIZE)).
    destruct (mp_copy_law v n t 0 xid p before d0 Hm message_buffer_alloc) as (dst' & before' & -> & Hb & Hd). cbn [is_ok].
    pose proof (append_message _ _ _ _ Hsrc Hd) as H2. rewrite length_mp_head in H2. change (Z.of_nat 16) with 16 in H2.
    rewrite (proj2 (Z.leb_le _ _)) in H2 by done. destruct H2 as (dst2 & -> & Hd2).
    exists [before'], 16, e, dst2. unfold replace_last. cbn [pl_contents_size pl_tailq pl_unused]. rewrite removelast_last.
    split_and!; try done. eauto.
Qed.

(** What an encoder promises for an entry: it puts these bytes into a buffer with enough place. *)
Definition encodes (m : pm lagopus_result) (v : bytes) : Prop :=
  16 + Z.of_nat (length v) <= OFP_PACKET_MAX_SIZE /\
  forall b, pb_putp b = 0 -> fits (Z.to_nat OFP_PACKET_MAX_SIZE) b -> m b = Done (LAGOPUS_RESULT_OK, put v b).

Lemma encodes_alloc m v :
  encodes m v -> exists b, m (pbuf_plen_set OFP_PACKET_MAX_SIZE (pbuf_alloc OFP_PACKET_MAX_SIZE)) = Done (LAGOPUS_RESULT_OK, b) /\ message_buffer v b.
Proof.
  intros [Hl H]. pose proof message_buffer_alloc as Hb. eexists. split.
  - apply H; [apply Hb|]. apply (message_buffer_fits _ _ _ Hb). by rewrite Z2Nat.id.
  - apply (message_buffer_put [] v); [done|]. cbn [app]. lia.
Qed.

(** The messages that are complete, and the last one. *)
Lemma entries_append_law {A} (enc : A -> pm lagopus_result) (bytes_of : A -> bytes) v t xid es n p l b :
  Forall (fun e => encodes (enc e) (bytes_of e)) es -> message_buffer (mp_head v n t 0 xid ++ p) b ->
  exists bs n' p' b' ps, entries_append enc es (PbufList 0 (l ++ [b]) []) = Done (LAGOPUS_RESULT_OK, PbufList 0 (l ++ bs ++ [b']) []) /\
    message_buffer (mp_head v n' t 0 xid ++ p') b' /\ bodies_of p (bytes_of <$> es) = ps ++ [p'] /\
    Forall2 (fun p c => message_buffer (reply_message v t OFPMPF_REPLY_MORE xid p) c) ps bs.
Proof.
  intros Hes. revert n p l b. induction Hes as [|e es He _ IH]; intros n p l b Hb; cbn [entries_append fmap list_fmap bodies_of].
  { by exists [], n, p, b, []. }
  destruct (encodes_alloc _ _ He) as (src & -> & Hsrc). cbn [is_ok].
  destruct (append_reply v n t xid p (bytes_of e) src b l Hsrc (proj1 He) Hb) as (bs1 & n1 & p1 & b1 & -> & Hb1 & H1). cbn [is_ok].
  destruct (IH n1 p1 (l ++ bs1) b1 Hb1) as (bs & n' & p' & b' & ps & E & Hb' & Hps & Hbs).
  rewrite <- app_assoc in E. revert H1. destruct (16 + Z.of_nat (length (p ++ bytes_of e)) <=? OFP_PACKET_MAX_SIZE); intros H1.
  - destruct H1 as [-> ->]. exists bs, n', p', b', ps. rewrite E. cbn [app]. by rewrite app_nil_r.
  - destruct H1 as (-> & c & -> & Hc). exists (c :: bs), n', p', b', (p :: ps). rewrite E, Hps.
    split_and!; try done; [by rewrite <- app_assoc|by apply Forall2_cons].
Qed.

Lemma reply_messages_snoc v t xid ps p :
  reply_messages v t xid (ps ++ [p]) = (reply_message v t OFPMPF_REPLY_MORE xid <$> ps) ++ [reply_message v t 0 xid p].
Proof.
  induction ps as [|q ps IH]; [done|]. cbn [app reply_messages fmap list_fmap]. rewrite <- IH. by destruct ps.
Qed.

Lemma waiting_message m b : message_buffer m b -> waiting b = m.
Proof.
  intros (Hg & Hp & _ & _ & _ & Ht). unfold waiting. rewrite Hg, Hp, Z.sub_0_r, Nat2Z.id. change (Z.to_nat 0) with 0%nat. by rewrite drop_0.
Qed.

Lemma reply_frame v t f xid p : bytes_ok p -> 16 + Z.of_nat (length p) <= OFP_PACKET_MAX_SIZE -> frame (reply_message v t f xid p).
Proof.
  intros Hp Hl. unfold reply_message. set (n := 16 + _). split_and!.
  - apply bytes_ok_app. split; [|done]. unfold mp_head. rewrite !bytes_ok_app. split_and!; try apply be_bytes_range. repeat first [apply Forall_nil_2 | apply Forall_cons_2; [lia|]].
  - rewrite length_app, length_mp_head. lia.
  - rewrite msg_length_app by (rewrite length_mp_head; lia). rewrite length_app, length_mp_head. unfold msg_length, mp_head.
    rewrite !app_assoc, <- (app_assoc (be_bytes 1 v)), <- !app_assoc. unfold OFP_PACKET_MAX_SIZE in *.
    rewrite app_assoc, drop_app_length', take_app_length' by (by rewrite ?length_app, ?length_be_bytes).
    rewrite be_val_bytes, Z.mod_small by (change (256 ^ Z.of_nat 2) with 65536; lia). lia.
Qed.

Lemma last_length_set_law v n t xid p b :
  message_buffer (mp_head v n t 0 xid ++ p) b ->
  exists b', last_length_set b = Done (LAGOPUS_RESULT_OK, b') /\ waiting b' = reply_message v t 0 xid p.
Proof.
  intros Hb. unfold last_length_set. rewrite (bind_Done _ _ _ _ _ eq_refl), (message_length_get _ _ Hb). cbn [is_ok negb default id].
  destruct (length_set_law v n t 0 xid p (Z.of_nat (length (mp_head v n t 0 xid ++ p))) b Hb) as (b' & E & Hb').
  rewrite (bind_Done _ _ _ _ _ E). cbn [is_ok]. eexists. split; [reflexivity|].
  rewrite length_app, length_mp_head, Nat2Z.inj_add in Hb'. exact (waiting_message _ _ Hb').
Qed.

(** The header of a reply, in the first buffer of a new list. *)
Lemma reply_start v t xid :
  exists b, on_last (modify (fun b => pbuf_plen_set (pbuf_size_get b) b) ;;
      encode openflow13 "ofp_multipart_reply" "" (mp_reply_packet v 0 t 0 xid)) pbuf_list_alloc =
    Done (LAGOPUS_RESULT_OK, PbufList 0 ([] ++ [b]) []) /\ message_buffer (mp_head v 0 t 0 xid ++ []) b.
Proof.
  destruct mp_reply_struct as (Hd & _ & lfs & Hfl & Hl0 & _).
  assert (leaves_size (fields "ofp_multipart_reply" "") = 16%nat) as Hsz by by rewrite Hfl, leaves_size_app, Hl0.
  pose proof message_buffer_alloc as Hb. unfold on_last, pbuf_list_last_get, pbuf_list_alloc. cbn [pl_tailq last pbuf_list_add].
  rewrite (bind_Done _ _ _ _ _ eq_refl).
  assert (pbuf_size_get (pbuf_alloc OFP_PACKET_MAX_SIZE) = OFP_PACKET_MAX_SIZE) as -> by (by rewrite pbuf_alloc_empty).
  set (b0 := pbuf_plen_set _ _) in *. pose proof (struct_encode "ofp_multipart_reply" (mp_reply_packet v 0 t 0 xid) b0 Hd) as E.
  rewrite mp_reply_wire in E. rewrite (E ltac:(rewrite Hsz; by eapply message_buffer_fits)).
  eexists. split; [reflexivity|]. rewrite app_nil_r. apply (message_buffer_put []); [done|]. rewrite length_app, length_mp_head. done.
Qed.

(** The messages of a reply, whatever its entries. *)
Lemma reply_create_law {A} (entry_encode : A -> pm lagopus_result) (bytes_of : A -> bytes) version mtype xid entries :
  Forall (fun e => encodes (entry_encode e) (bytes_of e) /\ bytes_ok (bytes_of e)) entries ->
  exists buffers, reply_create entry_encode version mtype xid entries = Done (LAGOPUS_RESULT_OK, PbufList 0 buffers []) /\
    waiting <$> buffers = reply_messages version mtype xid (bodies_of [] (bytes_of <$> entries)) /\
    concat (bodies_of [] (bytes_of <$> entries)) = concat (bytes_of <$> entries) /\
    Forall frame (waiting <$> buffers).
Proof.
  intros Hes. unfold reply_create. destruct (reply_start version mtype xid) as (b0 & -> & Hb0). cbn [is_ok].
  destruct (entries_append_law entry_encode bytes_of version mtype xid entries 0 [] [] b0) as (bs & n' & p' & b' & ps & -> & Hb' & Hps & Hbs);
    [by eapply Forall_impl; [exact Hes|]; intros ? []|done|]. cbn [is_ok app].
  unfold on_last, pbuf_list_last_get. cbn [pl_tailq]. rewrite last_snoc.
  destruct (last_length_set_law version n' mtype xid p' b' Hb') as (b'' & -> & Hw).
  assert (waiting <$> (bs ++ [b'']) = reply_messages version mtype xid (bodies_of [] (bytes_of <$> entries))) as E.
  { rewrite Hps, reply_messages_snoc, fmap_app. cbn [fmap list_fmap]. rewrite Hw. f_equal.
    clear -Hbs. induction Hbs as [|p c ps bs Hp _ IH]; [done|]. cbn [fmap list_fmap]. by rewrite (waiting_message _ _ Hp), IH. }
  eexists. split_and!.
  - unfold replace_last. cbn [pl_contents_size pl_tailq pl_unused]. by rewrite removelast_last.
  - done.
  - apply bodies_concat.
  - rewrite E. assert (Forall (fun p => bytes_ok p /\ 16 + Z.of_nat (length p) <= OFP_PACKET_MAX_SIZE) (bodies_of [] (bytes_of <$> entries))) as HF.
    { apply Forall_and. split.
      - assert (bytes_ok (concat (bodies_of [] (bytes_of <$> entries)))) as Hok.
        { rewrite bodies_concat. apply Forall_concat, Forall_fmap. eapply Forall_impl; [exact Hes|]. by intros ? []. }
        by apply Forall_concat in Hok.
      - apply bodies_fit; [done|]. apply Forall_fmap. eapply Forall_impl; [exact Hes|]. by intros ? [[] ?]. }
    clear -HF. induction HF as [|p ps [] HF IH]; [constructor|]. cbn [reply_messages].
    destruct ps; [by apply Forall_singleton, reply_frame|apply Forall_cons; split; [by apply reply_frame|exact IH]].
Qed.

(** ** The entries *)

Lemma struct_encodes name pk :
  declared openflow13 name = true -> 16 + Z.of_nat (leaves_size (fields name "")) <= OFP_PACKET_MAX_SIZE ->
  encodes (encode openflow13 name "" pk) (wire pk (fields name "")).
Proof.
  intros Hd Hs. split; [by rewrite length_wire|]. intros b _ Hf. apply struct_encode; [done|]. eapply fits_weaken; [exact Hf|]. lia.
Qed.

Lemma table_stats_encodes pk : encodes (table_stats_encode pk) (wire pk (fields "ofp_table_stats" "")).
Proof. apply struct_encodes; [vm_compute; reflexivity|vm_compute; done]. Qed.
Lemma queue_stats_encodes pk : encodes (queue_stats_encode pk) (wire pk (fields "ofp_queue_stats" "")).
Proof. apply struct_encodes; [vm_compute; reflexivity|vm_compute; done]. Qed.
Lemma port_stats_encodes pk : encodes (port_stats_encode pk) (wire pk (fields "ofp_port_stats" "")).
Proof. apply struct_encodes; [vm_compute; reflexivity|vm_compute; done]. Qed.
Lemma port_desc_encodes pk : encodes (port_desc_encode pk) (wire pk (fields "ofp_port" "")).
Proof. apply struct_encodes; [vm_compute; reflexivity|vm_compute; done]. Qed.

Lemma wire_other name v pk lfs : Forall (fun lf : leaf => name <> lf.1.1) lfs -> wire (<[name := v]> pk) lfs = wire pk lfs.
Proof.
  intros H. induction H as [|lf lfs Hlf _ IH]; [done|]. unfold wire in *. cbn [flat_map]. by rewrite wire_leaf_other, IH by done.
Qed.

(** The bytes of a structure with the length of what follows it, and of that. *)
Definition with_list_bytes (name lenname : string) (pk : packet) (lv : bytes) : bytes :=
  wire (<[lenname := [Z.of_nat (length lv) + sizeof openflow13 name]]> pk) (fields name "") ++ lv.

Lemma entry_with_list_encodes name lenname pre post pk lenc lv f :
  declared openflow13 name = true -> fields name "" = pre ++ [(lenname, 2%nat, 1%nat)] ++ post ->
  Forall (fun lf : leaf => lenname <> lf.1.1) (pre ++ post) ->
  16 + Z.of_nat (length lv) + sizeof openflow13 name <= OFP_PACKET_MAX_SIZE ->
  (forall w b, fits (length (w ++ lv)) b -> lenc (put w b) = Done ((LAGOPUS_RESULT_OK, Z.of_nat (length lv)), put (w ++ lv) b)) ->
  encodes (entry_with_list name (Z.of_nat (leaves_size pre)) pk lenc f) (with_list_bytes name lenname pk lv).
Proof.
  intros Hd Hfl Hne Hle Hl. pose proof (openflow13_regular _ Hd) as Hr. apply andb_prop in Hr as [_ Hsz%Z.eqb_eq].
  set (total := Z.of_nat (length lv) + sizeof openflow13 name). unfold with_list_bytes. fold total.
  split; [rewrite length_app, length_wire; lia|]. intros b Hp Hf. unfold entry_with_list.
  assert (fits (leaves_size (fields name "")) b) as Hf1 by (eapply fits_weaken; [exact Hf|unfold OFP_PACKET_MAX_SIZE in *; lia]).
  rewrite (bind_Done _ _ _ _ _ (struct_encode name pk b Hd Hf1)). cbn [is_ok]. rewrite (bind_Done _ _ _ _ _ eq_refl).
  set (w := wire pk (fields name "")). assert (length w = leaves_size (fields name "")) as Hw by apply length_wire.
  rewrite (bind_Done _ _ _ _ _ (Hl w b ltac:(eapply fits_weaken; [exact Hf|rewrite length_app; unfold OFP_PACKET_MAX_SIZE in *; lia]))). cbn [is_ok].
  fold total. assert (u16 total = total) as -> by (unfold u16; apply Z.mod_small; unfold OFP_PACKET_MAX_SIZE in *; lia).
  assert (pbuf_putp_get (put w b) + Z.of_nat (leaves_size pre) - sizeof openflow13 name = pb_putp b + Z.of_nat (length (wire pk pre))) as ->.
  { unfold pbuf_putp_get, put. cbn [pb_putp]. rewrite length_wire. lia. }
  unfold ofp_multipart_length_set. rewrite (poke_length_put (pkt_get lenname 0 pk) total (wire pk pre) (wire pk post ++ lv)).
  - do 2 f_equal. f_equal. rewrite Hfl, !wire_app. apply Forall_app in Hne as [H1 H2]. rewrite (wire_other _ _ _ pre), (wire_other _ _ _ post) by done.
    unfold wire at 4, wire_leaf, pkt_get. cbn [seq flat_map fst snd]. rewrite lookup_insert_eq. cbn [default id nth]. by rewrite !app_nil_r, <- !app_assoc.
  - apply Hf.
  - rewrite length_app, Hw. destruct Hf as [_ Hf]. unfold OFP_PACKET_MAX_SIZE in *. lia.
  - unfold w. rewrite Hfl, !wire_app, <- !app_assoc. do 2 f_equal.
Qed.

(** Lists of structures of one size. *)
Definition structs_bytes (name : string) (l : list packet) : bytes := flat_map (fun pk => wire pk (fields name "")) l.

Lemma struct_list_encode_put name l total w b :
  declared openflow13 name = true -> fits (length (w ++ structs_bytes name l)) b ->
  0 <= total -> total + Z.of_nat (length (structs_bytes name l)) < 65536 ->
  struct_list_encode_loop name l total (put w b) =
  Done ((LAGOPUS_RESULT_OK, total + Z.of_nat (length (structs_bytes name l))), put (w ++ structs_bytes name l) b).
Proof.
  intros Hd. pose proof (openflow13_regular _ Hd) as Hr. apply andb_prop in Hr as [_ Hsz%Z.eqb_eq].
  revert total w. induction l as [|pk l IH]; intros total w Hf H0 Hlt; cbn [structs_bytes flat_map struct_list_encode_loop] in *.
  { by rewrite Z.add_0_r, app_nil_r. }
  fold (structs_bytes name l) in *. rewrite app_assoc in *. pose proof Hf as Hf'. rewrite !length_app, !length_wire in Hf'. rewrite length_app, length_wire in Hlt.
  pose proof (struct_encode name pk (put w b) Hd ltac:(apply put_fits; eapply fits_weaken; [exact Hf'|lia])) as E.
  rewrite <- put_app in E by apply Hf. rewrite (bind_Done _ _ _ _ _ E). cbn [is_ok].
  rewrite Hsz. unfold ofp_tlv_length_sum, u16. rewrite Z.mod_small by lia.
  rewrite (proj2 (Z.ltb_ge _ _)) by lia. cbn [is_ok]. rewrite IH by (done || lia). rewrite length_app, length_wire. do 3 f_equal. lia.
Qed.

Definition group_stats_bytes (e : group_stats_entry) : bytes :=
  with_list_bytes "ofp_group_stats" "length" (gs_ofp e) (structs_bytes "ofp_bucket_counter" (gs_bucket_counter_list e)).
Definition meter_stats_bytes (e : meter_stats_entry) : bytes :=
  with_list_bytes "ofp_meter_stats" "len" (ms_ofp e) (structs_bytes "ofp_meter_band_stats" (ms_meter_band_stats_list e)).

Lemma length_structs_bytes name l : length (structs_bytes name l) = (length l * leaves_size (fields name ""))%nat.
Proof. induction l as [|pk l IH]; [done|]. unfold structs_bytes in *. cbn [flat_map length Nat.mul]. by rewrite length_app, length_wire, IH. Qed.

Lemma group_stats_encodes e : Z.of_nat (length (gs_bucket_counter_list e)) <= 4092 -> encodes (group_stats_encode e) (group_stats_bytes e).
Proof.
  intros Hl. assert (exists post, fields "ofp_group_stats" "" = [] ++ [("length", 2%nat, 1%nat)] ++ post /\ Forall (fun lf : leaf => "length" <> lf.1.1) post) as (post & Hfl & Hne).
  { eexists. split; [vm_compute; reflexivity|]. repeat first [apply Forall_nil_2 | apply Forall_cons_2; [done|]]. }
  assert (length (structs_bytes "ofp_bucket_counter" (gs_bucket_counter_list e)) = (length (gs_bucket_counter_list e) * 16)%nat) as Hlen by apply length_structs_bytes.
  apply (entry_with_list_encodes _ _ [] post); [vm_compute; reflexivity|exact Hfl|exact Hne| |].
  - rewrite Hlen. change (sizeof openflow13 "ofp_group_stats") with 40. unfold OFP_PACKET_MAX_SIZE. lia.
  - intros w b Hf. apply (struct_list_encode_put _ _ 0); [vm_compute; reflexivity|done|done|lia].
Qed.

Lemma meter_stats_encodes e : Z.of_nat (length (ms_meter_band_stats_list e)) <= 4092 -> encodes (meter_stats_encode e) (meter_stats_bytes e).
Proof.
  intros Hl. assert (exists pre post, fields "ofp_meter_stats" "" = pre ++ [("len", 2%nat, 1%nat)] ++ post /\ leaves_size pre = 4%nat /\ Forall (fun lf : leaf => "len" <> lf.1.1) (pre ++ post)) as (pre & post & Hfl & Hpre & Hne).
  { exists [("meter_id", 4%nat, 1%nat)]. eexists. split; [vm_compute; reflexivity|]. split; [done|]. repeat first [apply Forall_nil_2 | apply Forall_cons_2; [done|]]. }
  assert (length (structs_bytes "ofp_meter_band_stats" (ms_meter_band_stats_list e)) = (length (ms_meter_band_stats_list e) * 16)%nat) as Hlen by apply length_structs_bytes.
  pose proof (entry_with_list_encodes "ofp_meter_stats" "len" pre post (ms_ofp e)) as H. rewrite Hpre in H.
  unfold meter_stats_encode, meter_stats_bytes. change 4 with (Z.of_nat 4). apply H; [vm_compute; reflexivity|exact Hfl|exact Hne| |].
  - rewrite Hlen. change (sizeof openflow13 "ofp_meter_stats") with 40. unfold OFP_PACKET_MAX_SIZE. lia.
  - intros w b Hf. apply (struct_list_encode_put _ _ 0); [vm_compute; reflexivity|done|done|lia].
Qed.

Lemma fields_length_first name :
  match name with "ofp_group_desc" | "ofp_meter_config" => True | _ => False end ->
  declared openflow13 name = true /\ sizeof openflow13 name = 8 /\
  exists post, fields name "" = [] ++ [("length", 2%nat, 1%nat)] ++ post /\ Forall (fun lf : leaf => "length" <> lf.1.1) post.
Proof.
  intros H. assert (name = "ofp_group_desc" \/ name = "ofp_meter_config") as [-> | ->].
  { repeat match type of H with context [match ?x with _ => _ end] => destruct x; try done end; auto. }
  all: split; [vm_compute; reflexivity|]; split; [vm_compute; reflexivity|]; eexists; (split; [vm_compute; reflexivity|]);
    repeat first [apply Forall_nil_2 | apply Forall_cons_2; [done|]].
Qed.

(** A description of a group with the structures of its buckets. *)
Record dgroup := DGroup { dg_ofp : packet; dg_buckets : list dbucket }.
Definition dg_desc (d : dgroup) : group_desc_entry := GroupDescEntry (dg_ofp d) (map db_bucket (dg_buckets d)).
Definition group_desc_bytes (d : dgroup) : bytes := with_list_bytes "ofp_group_desc" "length" (dg_ofp d) (buckets_bytes (dg_buckets d)).
Definition meter_config_bytes (e : meter_config_entry) : bytes := with_list_bytes "ofp_meter_config" "length" (mc_ofp e) (bands_bytes (mc_band_list e)).

Lemma group_desc_encodes d :
  buckets_ok (dg_buckets d) -> Z.of_nat (length (buckets_bytes (dg_buckets d))) <= 65511 -> encodes (group_desc_encode (dg_desc d)) (group_desc_bytes d).
Proof.
  intros Hok Hl. destruct (fields_length_first "ofp_group_desc") as (Hd & Hs & post & Hfl & Hne); [done|].
  apply (entry_with_list_encodes _ _ [] post); [done|exact Hfl|exact Hne|rewrite Hs; unfold OFP_PACKET_MAX_SIZE; lia|].
  intros w b Hf. rewrite put_app by apply Hf. unfold ofp_bucket_list_encode. rewrite length_app in Hf.
  cbn [dg_desc gd_bucket_list]. rewrite (bind_Done _ _ _ _ _ (buckets_encode_loop_law _ 0 (put w b) Hok ltac:(lia) ltac:(lia) ltac:(by apply put_fits))). done.
Qed.

Lemma meter_config_encodes e :
  bands_ok (mc_band_list e) -> Z.of_nat (length (mc_band_list e)) <= 4094 -> encodes (meter_config_encode e) (meter_config_bytes e).
Proof.
  intros Hok Hl. destruct (fields_length_first "ofp_meter_config") as (Hd & Hs & post & Hfl & Hne); [done|].
  pose proof (length_bands_bytes _ Hok) as Hlen.
  apply (entry_with_list_encodes _ _ [] post); [done|exact Hfl|exact Hne|rewrite Hs, Hlen; unfold OFP_PACKET_MAX_SIZE; lia|].
  intros w b Hf. rewrite put_app by apply Hf. unfold ofp_band_list_encode. rewrite length_app in Hf.
  rewrite (bind_Done _ _ _ _ _ (bands_encode_loop_law _ 0 (put w b) Hok ltac:(lia) ltac:(lia) ltac:(by apply put_fits))). done.
Qed.

(** *** The replies of the handlers *)

Inductive reply :=
  | table_reply (l : list packet)
  | queue_reply (l : list packet)
  | port_reply (l : list packet)
  | port_desc_reply (l : list packet)
  | group_reply (l : list group_stats_entry)
  | meter_reply (l : list meter_stats_entry)
  | group_desc_reply (l : list dgroup)
  | meter_config_reply (l : list meter_config_entry).

Definition reply_handled (r : reply) (version xid : Z) : outcome (lagopus_result * pbuf_list) :=
  match r with
  | table_reply l => ofp_table_stats_reply_create version xid l
  | queue_reply l => ofp_queue_stats_reply_create version xid l
  | port_reply l => ofp_port_stats_reply_create version xid l
  | port_desc_reply l => ofp_port_desc_reply_create version xid l
  | group_reply l => ofp_group_stats_reply_create version xid l
  | meter_reply l => ofp_meter_stats_reply_create version xid l
  | group_desc_reply l => ofp_group_desc_reply_create version xid (dg_desc <$> l)
  | meter_config_reply l => ofp_meter_config_reply_create version xid l
  end.

Definition reply_type (r : reply) : Z :=
  match r with
  | table_reply _ => OFPMP_TABLE
  | queue_reply _ => OFPMP_QUEUE
  | port_reply _ => OFPMP_PORT_STATS
  | port_desc_reply _ => OFPMP_PORT_DESC
  | group_reply _ => OFPMP_GROUP
  | meter_reply _ => OFPMP_METER
  | group_desc_reply _ => OFPMP_GROUP_DESC
  | meter_config_reply _ => OFPMP_METER_CONFIG
  end.

(** The bytes of the entries: the structure, with the length of the entry, and what it lists. *)
Definition reply_entries (r : reply) : list bytes :=
  match r with
  | table_reply l => (fun pk => wire pk (fields "ofp_table_stats" "")) <$> l
  | queue_reply l => (fun pk => wire pk (fields "ofp_queue_stats" "")) <$> l
  | port_reply l => (fun pk => wire pk (fields "ofp_port_stats" "")) <$> l
  | port_desc_reply l => (fun pk => wire pk (fields "ofp_port" "")) <$> l
  | group_reply l => group_stats_bytes <$> l
  | meter_reply l => meter_stats_bytes <$> l
  | group_desc_reply l => group_desc_bytes <$> l
  | meter_config_reply l => meter_config_bytes <$> l
  end.

(** Every entry fits into a message. *)
Definition reply_ok (r : reply) : Prop :=
  match r with
  | table_reply _ | queue_reply _ | port_reply _ | port_desc_reply _ => True
  | group_reply l => Forall (fun e => Z.of_nat (length (gs_bucket_counter_list e)) <= 4092) l
  | meter_reply l => Forall (fun e => Z.of_nat (length (ms_meter_band_stats_list e)) <= 4092) l
  | group_desc_reply l =>
      Forall (fun d => buckets_ok (dg_buckets d) /\ bytes_ok (buckets_bytes (dg_buckets d)) /\
                       Z.of_nat (length (buckets_bytes (dg_buckets d))) <= 65511) l
  | meter_config_reply l => Forall (fun e => bands_ok (mc_band_list e) /\ Z.of_nat (length (mc_band_list e)) <= 4094) l
  end.

Lemma bytes_ok_structs name l : bytes_ok (structs_bytes name l).
Proof. induction l as [|pk l IH]; [constructor|]. apply bytes_ok_app. split; [apply bytes_ok_wire|exact IH]. Qed.

Lemma bytes_ok_with_list name lenname pk lv : bytes_ok lv -> bytes_ok (with_list_bytes name lenname pk lv).
Proof. intros H. apply bytes_ok_app. split; [apply bytes_ok_wire|done]. Qed.

Lemma bytes_ok_bands l : bytes_ok (bands_bytes l).
Proof.
  induction l as [|m l IH]; [constructor|]. apply bytes_ok_app. split; [|exact IH].
  unfold band_bytes. destruct (band_struct _); [apply bytes_ok_wire|constructor].
Qed.

Lemma reply_entries_law {A} (enc : A -> pm lagopus_result) (bytes_of : A -> bytes) (ok : A -> Prop) v t xid l :
  (forall e, ok e -> encodes (enc e) (bytes_of e) /\ bytes_ok (bytes_of e)) -> Forall ok l ->
  exists buffers, reply_create enc v t xid l = Done (LAGOPUS_RESULT_OK, PbufList 0 buffers []) /\
    waiting <$> buffers = reply_messages v t xid (bodies_of [] (bytes_of <$> l)) /\
    concat (bodies_of [] (bytes_of <$> l)) = concat (bytes_of <$> l) /\ Forall frame (waiting <$> buffers).
Proof. intros H Hl. apply reply_create_law. eapply Forall_impl; [exact Hl|exact H]. Qed.

Lemma entries_append_fmap {A B} (f : B -> A) (enc : A -> pm lagopus_result) es l :
  entries_append enc (f <$> es) l = entries_append (fun e => enc (f e)) es l.
Proof.
  revert l. induction es as [|e es IH]; intros l; [done|]. cbn [fmap list_fmap entries_append].
  destruct (enc (f e) _) as [[ret b]| |]; [|done..]. destruct (is_ok ret); [|done].
  destruct (ofp_multipart_append b l) as [[ret' l']| |]; [|done..]. destruct (is_ok ret'); [apply IH|done].
Qed.

Lemma reply_create_fmap {A B} (f : B -> A) (enc : A -> pm lagopus_result) v t xid es :
  reply_create enc v t xid (f <$> es) = reply_create (fun e => enc (f e)) v t xid es.
Proof.
  unfold reply_create. destruct (on_last _ _) as [[ret l]| |]; [|done..]. by rewrite entries_append_fmap.
Qed.

Lemma structs_ok (l : list packet) : Forall (fun _ => True) l.
Proof. by apply Forall_forall. Qed.


(** Three groups with two thousand buckets each need two messages. *)
Definition big_groups : reply := group_reply (replicate 3 (GroupStatsEntry ∅ (replicate 2000 ∅))).

