(* ===== verification/Output.v ===== *)
(** * Sending messages over a channel

    The three ways to the socket ([channel_send_packet_by_event], [channel_send_packet] and
    [channel_send_packet_list] of [src/agent/channel.c], [pbuf_list_session_write] of
    [src/lib/pbuf.c]), with the bytes the socket has taken. *)
From S2P Require Import Prelude Monad OpenFlow Pbuf Generator OpenFlowH Tlv MatchCodec ActionCodec OfpHandler Framing Hello Channel.
From stdpp Require Import strings.
#[local] Open Scope Z_scope.

(** ** Operations *)

(** The output of a channel: its list of buffers, and what the socket has taken. *)
Record output := Output {
  op_out : pbuf_list;
  op_stream : bytes
}.

(** [pbuf_list_session_write]: the answer of the socket is the number of bytes it takes, [None] an error. *)
Definition pbuf_list_session_write (answer : option Z) (l : pbuf_list) (stream : bytes) : outcome (Z * pbuf_list * bytes) :=
  match pbuf_list_write (fun _ => answer) l with
  | Done (nbytes, l') =>
      Done (nbytes, l', stream ++ match pbuf_list_first l with Some b => take (Z.to_nat nbytes) (waiting b) | None => [] end)
  | Undefined => Undefined
  | OutOfFuel => OutOfFuel
  end.

(** The result, of a write that may fail with EAGAIN. *)
Definition channel_send_packet_nolock_internal (answer : option Z) (eagain : bool) (l : pbuf_list) (stream : bytes)
    : outcome (lagopus_result * pbuf_list * bytes) :=
  match pbuf_list_session_write answer l stream with
  | Done (nbytes, l, stream) =>
      Done (if nbytes <? 0 then if eagain then LAGOPUS_RESULT_OK else LAGOPUS_RESULT_POSIX_API_ERROR else LAGOPUS_RESULT_OK,
            l, stream)
  | Undefined => Undefined
  | OutOfFuel => OutOfFuel
  end.

Definition channel_send_packet_nolock (b : pbuf) (answer : option Z) (eagain : bool) (o : output) : outcome output :=
  match channel_send_packet_nolock_internal answer eagain (pbuf_list_add b (op_out o)) (op_stream o) with
  | Done (_, l, stream) => Done (Output l stream)
  | Undefined => Undefined
  | OutOfFuel => OutOfFuel
  end.

Definition channel_send_packet (b : pbuf) (answer : option Z) (eagain : bool) (o : output) : outcome output :=
  channel_send_packet_nolock b answer eagain o.

(** The messages of a reply go to the socket past the list of the channel. *)
Fixpoint channel_send_packet_list (fuel : nat) (answers : list (option Z * bool)) (l : pbuf_list) (o : output)
    : outcome (lagopus_result * pbuf_list * output) :=
  match fuel with
  | O => OutOfFuel
  | S fuel =>
      match pl_tailq l, answers with
      | [], _ => Done (LAGOPUS_RESULT_ANY_FAILURES, l, o)
      | _ :: _, [] => OutOfFuel
      | _ :: _, (answer, eagain) :: answers =>
          match channel_send_packet_nolock_internal answer eagain l (op_stream o) with
          | Done (res, l, stream) =>
              if is_ok res then
                match pl_tailq l with
                | [] => Done (res, l, Output (op_out o) stream)
                | _ :: _ => channel_send_packet_list fuel answers l (Output (op_out o) stream)
                end
              else Done (res, l, Output (op_out o) stream)
          | Undefined => Undefined
          | OutOfFuel => OutOfFuel
          end
      end
  end.

(** What happens to the output of a channel: a message is queued or sent, or the socket can be written. *)
Inductive output_op :=
  | send_by_event (b : pbuf)
  | send_packet (b : pbuf) (answer : option Z) (eagain : bool)
  | socket_writable (answer : option Z).

Definition output_step (op : output_op) (o : output) : outcome output :=
  match op with
  | send_by_event b => Done (Output (pbuf_list_add b (op_out o)) (op_stream o))
  | send_packet b answer eagain => channel_send_packet b answer eagain o
  | socket_writable answer =>
      match pbuf_list_session_write answer (op_out o) (op_stream o) with
      | Done (_, l, stream) => Done (Output l stream)
      | Undefined => Undefined
      | OutOfFuel => OutOfFuel
      end
  end.

Fixpoint output_run (ops : list output_op) (o : output) : outcome output :=
  match ops with
  | [] => Done o
  | op :: ops =>
      match output_step op o with
      | Done o => output_run ops o
      | Undefined => Undefined
      | OutOfFuel => OutOfFuel
      end
  end.

(** ** The stream *)

(** The bytes that wait in a list, and the messages of the operations. *)
Definition pending (l : pbuf_list) : bytes := concat (waiting <$> pl_tailq l).
Definition op_messages (op : output_op) : list bytes :=
  match op with
  | send_by_event b | send_packet b _ _ => [waiting b]
  | socket_writable _ => []
  end.

(** A socket takes at most the bytes it is given; a buffer is one that can be sent. *)
Definition takes (answer : option Z) (l : pbuf_list) : Prop :=
  match answer, pbuf_list_first l with
  | Some n, Some b => 0 <= n <= Z.of_nat (length (waiting b))
  | _, _ => True
  end.
Definition op_valid (op : output_op) (o : output) : Prop :=
  match op with
  | send_by_event b => sendable b
  | send_packet b answer _ => sendable b /\ takes answer (pbuf_list_add b (op_out o))
  | socket_writable answer => takes answer (op_out o)
  end.
Fixpoint ops_valid (ops : list output_op) (o : output) : Prop :=
  match ops with
  | [] => True
  | op :: ops => op_valid op o /\ match output_step op o with Done o => ops_valid ops o | _ => True end
  end.

(** ** Lemmas *)

Lemma length_waiting b : sendable b -> Z.of_nat (length (waiting b)) = pb_putp b - pb_getp b.
Proof. intros [H1 H2]. unfold waiting. rewrite length_take, length_drop. lia. Qed.

Lemma waiting_forward b n :
  sendable b -> 0 <= n <= pb_putp b - pb_getp b ->
  waiting b = take (Z.to_nat n) (waiting b) ++ waiting (set_pb_getp (pb_getp b + n) b) /\ sendable (set_pb_getp (pb_getp b + n) b).
Proof.
  intros [H1 H2] Hn. split; [|unfold sendable, set_pb_getp; cbn; lia].
  rewrite <- (take_drop (Z.to_nat n) (waiting b)) at 1. f_equal. unfold waiting, set_pb_getp. cbn [pb_putp pb_getp pb_data].
  rewrite skipn_firstn_comm, drop_drop. f_equal; [lia|]. f_equal. lia.
Qed.

Lemma session_write_stream answer l stream :
  Forall sendable (pl_tailq l) -> takes answer l ->
  exists n l' stream', pbuf_list_session_write answer l stream = Done (n, l', stream') /\
    stream' ++ pending l' = stream ++ pending l /\ Forall sendable (pl_tailq l').
Proof.
  intros Hs Ht. unfold pbuf_list_session_write, pbuf_list_write, takes, pbuf_list_first in *. destruct (pl_tailq l) as [|b tailq] eqn:E.
  { exists 0, l, stream. split; [by rewrite app_nil_r|]. by rewrite E. }
  apply Forall_cons in Hs as [Hb Hs]. pose proof Hb as [H1 H2]. cbn [head].
  unfold pbuf_readable_size. rewrite u64_small by lia. unfold peek, in_block.
  rewrite (proj2 (andb_true_iff _ _)) by (split; apply Z.leb_le; lia).
  assert (pending l = waiting b ++ concat (waiting <$> tailq)) as Hp by (unfold pending; by rewrite E).
  destruct answer as [n|]; cbn [default id].
  - cbn [head] in Ht. rewrite length_waiting in Ht by done.
    assert ((if 0 <? n then set_pb_getp (pb_getp b + n) b else b) = set_pb_getp (pb_getp b + n) b) as ->.
    { destruct (Z.ltb_spec 0 n); [done|]. replace n with 0 by lia. rewrite Z.add_0_r. by destruct b. }
    destruct (waiting_forward b n Hb Ht) as [Hw Hb']. set (b' := set_pb_getp _ b) in *.
    do 3 eexists. split; [done|]. rewrite Hp. destruct (Z.eqb_spec (pb_getp b') (pb_putp b')) as [He|He]; unfold pending; cbn [pl_tailq fmap list_fmap concat].
    + split; [|done]. assert (waiting b' = []) as Hn by (apply nil_length_inv; pose proof (length_waiting b' Hb'); lia).
      rewrite Hn, app_nil_r in Hw. by rewrite <- Hw, app_assoc.
    + split; [|by apply Forall_cons]. rewrite Hw at 2. by rewrite !app_assoc.
  - change (0 <? -1) with false. cbv iota. do 3 eexists. split; [done|]. change (Z.to_nat (-1)) with 0%nat. cbn [take]. rewrite app_nil_r, Hp.
    destruct (Z.eqb_spec (pb_getp b) (pb_putp b)) as [He|He]; unfold pending; cbn [pl_tailq fmap list_fmap concat].
    + split; [|done]. assert (waiting b = []) as -> by (apply nil_length_inv; pose proof (length_waiting b Hb); lia). done.
    + split; [done|by apply Forall_cons].
Qed.

Lemma pending_add b l : pending (pbuf_list_add b l) = pending l ++ waiting b.
Proof. unfold pending, pbuf_list_add. cbn [pl_tailq]. rewrite fmap_app, concat_app. cbn. by rewrite app_nil_r. Qed.

Lemma sendable_add b l : sendable b -> Forall sendable (pl_tailq l) -> Forall sendable (pl_tailq (pbuf_list_add b l)).
Proof. intros Hb Hl. unfold pbuf_list_add. cbn [pl_tailq]. apply Forall_app_2; [done|by apply Forall_singleton]. Qed.

Lemma output_step_stream op o :
  Forall sendable (pl_tailq (op_out o)) -> op_valid op o ->
  exists o', output_step op o = Done o' /\ op_stream o' ++ pending (op_out o') = (op_stream o ++ pending (op_out o)) ++ concat (op_messages op) /\
    Forall sendable (pl_tailq (op_out o')).
Proof.
  intros Hs Hv. destruct op as [b|b answer eagain|answer]; cbn [output_step op_valid op_messages concat] in *.
  - eexists. split; [done|]. cbn [op_out op_stream]. rewrite pending_add, app_nil_r, app_assoc. split; [done|by apply sendable_add].
  - destruct Hv as [Hb Ht]. unfold channel_send_packet, channel_send_packet_nolock, channel_send_packet_nolock_internal.
    destruct (session_write_stream answer (pbuf_list_add b (op_out o)) (op_stream o)) as (n & l' & stream' & -> & H & Hs'); [by apply sendable_add|done|].
    eexists. split; [done|]. cbn [op_out op_stream]. rewrite H, pending_add, app_nil_r, app_assoc. done.
  - destruct (session_write_stream answer (op_out o) (op_stream o) Hs Hv) as (n & l' & stream' & -> & H & Hs').
    eexists. split; [done|]. cbn [op_out op_stream]. by rewrite H, app_nil_r.
Qed.

(** ** Properties *)

(** C20: the messages that go through the list of a channel reach the socket whole and in order:
    however the two ways to send and the partial writes of the socket alternate, what the socket
    has taken followed by what waits is the concatenation of the messages, in the order they were
    sent. *)
Theorem output_in_order ops :
  ops_valid ops (Output pbuf_list_alloc []) ->
  exists o, output_run ops (Output pbuf_list_alloc []) = Done o /\
    op_stream o ++ pending (op_out o) = concat (concat (op_messages <$> ops)).
Proof.
  assert (forall o, Forall sendable (pl_tailq (op_out o)) -> ops_valid ops o ->
    exists o', output_run ops o = Done o' /\ op_stream o' ++ pending (op_out o') = (op_stream o ++ pending (op_out o)) ++ concat (concat (op_messages <$> ops))) as H.
  { induction ops as [|op ops IH]; intros o Hs Hv; cbn [output_run fmap list_fmap concat].
    { exists o. by rewrite app_nil_r. }
    destruct Hv as [Hv Hvs]. destruct (output_step_stream op o Hs Hv) as (o1 & E & H1 & Hs1). rewrite E in *.
    destruct (IH o1 Hs1 Hvs) as (o' & E' & H'). exists o'. split; [done|]. by rewrite H', H1, concat_app, app_assoc. }
  intros Hv. destruct (H (Output pbuf_list_alloc [])) as (o & E & H1); [constructor|done|]. by exists o.
Qed.

(** *** Where it does not hold *)

Definition sent_buffer (l : bytes) : pbuf := Pbuf 1 (Z.of_nat (length l)) 0 0 2048 l.

(** [channel_send_packet_list] does not wait for the rest of a message that the socket has taken in
    part: the reply is in the middle of the message. *)
Theorem reply_splits_message :
  let first := [1; 2; 3; 4] in let reply := [9; 9] in
  match output_run [send_packet (sent_buffer first) (Some 2) false] (Output pbuf_list_alloc []) with
  | Done o =>
      match channel_send_packet_list 2 [(Some 2, false)] (pbuf_list_add (sent_buffer reply) pbuf_list_alloc) o with
      | Done (res, _, o) =>
          res = LAGOPUS_RESULT_OK /\
          match output_run [socket_writable (Some 2)] o with Done o => op_stream o = [1; 2; 9; 9; 3; 4] | _ => False end
      | _ => False
      end
  | _ => False
  end.
Proof. vm_compute. done. Qed.

(** While the socket would block it asks again and again, with the lock of the channel. *)
Theorem reply_spins fuel b bs c us o :
  sendable b -> pb_getp b <> pb_putp b ->
  channel_send_packet_list fuel (replicate fuel (None, true)) (PbufList c (b :: bs) us) o = OutOfFuel.
Proof.
  intros [H1 H2] Hne. revert o. induction fuel as [|fuel IH]; intros [l s]; [done|]. cbn [channel_send_packet_list pl_tailq replicate].
  unfold channel_send_packet_nolock_internal, pbuf_list_session_write, pbuf_list_write. cbn [pl_tailq pl_contents_size pl_unused default].
  unfold pbuf_readable_size. rewrite u64_small by lia. unfold peek, in_block.
  rewrite (proj2 (andb_true_iff _ _)) by (split; apply Z.leb_le; lia). change (0 <? id (-1)) with false. cbv iota.
  rewrite (proj2 (Z.eqb_neq _ _)) by done. cbn [id Z.ltb Z.compare is_ok pl_tailq]. apply IH.
Qed.

(** Two messages, of which the socket takes pieces. *)
Theorem output_in_order_witness :
  let ops := [send_by_event (sent_buffer [1; 2; 3; 4]); socket_writable (Some 3); send_packet (sent_buffer [5; 6]) (Some 1) false;
              socket_writable None; socket_writable (Some 1)] in
  ops_valid ops (Output pbuf_list_alloc []) /\
  exists o, output_run ops (Output pbuf_list_alloc []) = Done o /\
    op_stream o ++ pending (op_out o) = concat (concat (op_messages <$> ops)).
Proof.
  intros ops. assert (ops_valid ops (Output pbuf_list_alloc [])) as H by (vm_compute; repeat split; done).
  split; [exact H|]. apply (output_in_order ops H).
Defined.
