(* ===== verification/Cbuffer.v ===== *)
(** * The bounded blocking queue ([src/lib/cbuffer.c], [lagopus_bbq_*] of [lagopus_bbq.h])

    The circular buffer under the queues between the threads: its operations under the lock, and that
    they implement a queue of bounded length.  [CbufferThreads] has the threads that wait. *)
From S2P Require Import Prelude.
#[local] Open Scope Z_scope.

(** ** Data *)

(** The conditions of a buffer, and the poller that may be attached to it. *)
Inductive note := note_put | note_get | note_awakened | note_qmuxer.
Inductive poll_type := POLL_READABLE | POLL_WRITABLE.

#[global] Instance note_eq_dec : EqDecision note.
Proof. solve_decision. Defined.
#[global] Instance poll_type_eq_dec : EqDecision poll_type.
Proof. solve_decision. Defined.

(** Values of the functions: numbers of elements, or the codes of [lagopus_error.h], which are negative. *)
Definition R_OK := 0.
Definition R_ANY_FAILURES := -1.
Definition R_POSIX_API_ERROR := -2.
Definition R_NOT_OPERATIONAL := -6.
Definition R_TIMEDOUT := -10.
Definition R_WAKEUP_REQUESTED := -31.

Section Buffers.
(** The elements of a buffer have one size. *)
Context {V : Type}.

(** A cell of [m_data] for every element that has been allocated; [m_qmuxer] with [m_type]. *)
Record cbuffer := CBuffer {
  m_r_idx : Z;
  m_w_idx : Z;
  m_n_elements : Z;
  m_n_waiters : Z;
  m_is_operational : bool;
  m_is_awakened : bool;
  m_n_max_elements : Z;
  m_n_max_allocd_elements : Z;
  m_qmuxer : option poll_type;
  m_data : list V
}.

Definition N_EMPTY_ROOM := 1.

(** [v0] is the element of zero bytes; what [malloc] gives is not looked at. *)
Definition lagopus_cbuffer_create_with_size (v0 : V) (maxelems : Z) : cbuffer :=
  CBuffer 0 0 0 0 true false maxelems (maxelems + N_EMPTY_ROOM) None (replicate (Z.to_nat (maxelems + N_EMPTY_ROOM)) v0).

Definition set_indices (r w : Z) (cb : cbuffer) : cbuffer :=
  CBuffer r w (m_n_elements cb) (m_n_waiters cb) (m_is_operational cb) (m_is_awakened cb) (m_n_max_elements cb)
    (m_n_max_allocd_elements cb) (m_qmuxer cb) (m_data cb).
Definition set_n_elements (n : Z) (cb : cbuffer) : cbuffer :=
  CBuffer (m_r_idx cb) (m_w_idx cb) n (m_n_waiters cb) (m_is_operational cb) (m_is_awakened cb) (m_n_max_elements cb)
    (m_n_max_allocd_elements cb) (m_qmuxer cb) (m_data cb).
Definition set_n_waiters (n : Z) (cb : cbuffer) : cbuffer :=
  CBuffer (m_r_idx cb) (m_w_idx cb) (m_n_elements cb) n (m_is_operational cb) (m_is_awakened cb) (m_n_max_elements cb)
    (m_n_max_allocd_elements cb) (m_qmuxer cb) (m_data cb).
Definition set_is_operational (b : bool) (cb : cbuffer) : cbuffer :=
  CBuffer (m_r_idx cb) (m_w_idx cb) (m_n_elements cb) (m_n_waiters cb) b (m_is_awakened cb) (m_n_max_elements cb)
    (m_n_max_allocd_elements cb) (m_qmuxer cb) (m_data cb).
Definition set_is_awakened (b : bool) (cb : cbuffer) : cbuffer :=
  CBuffer (m_r_idx cb) (m_w_idx cb) (m_n_elements cb) (m_n_waiters cb) (m_is_operational cb) b (m_n_max_elements cb)
    (m_n_max_allocd_elements cb) (m_qmuxer cb) (m_data cb).
Definition set_m_data (d : list V) (cb : cbuffer) : cbuffer :=
  CBuffer (m_r_idx cb) (m_w_idx cb) (m_n_elements cb) (m_n_waiters cb) (m_is_operational cb) (m_is_awakened cb) (m_n_max_elements cb)
    (m_n_max_allocd_elements cb) (m_qmuxer cb) d.
Definition set_qmuxer (q : option poll_type) (cb : cbuffer) : cbuffer :=
  CBuffer (m_r_idx cb) (m_w_idx cb) (m_n_elements cb) (m_n_waiters cb) (m_is_operational cb) (m_is_awakened cb) (m_n_max_elements cb)
    (m_n_max_allocd_elements cb) q (m_data cb).

(** ** Operations *)

(** The index to write wraps around to a negative number. *)
Definition s_adjust_indices (cb : cbuffer) : cbuffer :=
  if 0 <=? m_w_idx cb then cb
  else set_indices (Z.rem (m_r_idx cb) (m_n_max_allocd_elements cb)) (m_n_max_allocd_elements cb) cb.

(** The cell of an index. *)
Definition s_data_addr (cb : cbuffer) (idx : Z) : option V :=
  if 0 <=? idx then m_data cb !! Z.to_nat (Z.rem idx (m_n_max_allocd_elements cb)) else None.

(** The values that are given to [m_del_proc]. *)
Definition s_freeup_all_values (cb : cbuffer) : list V * cbuffer :=
  let cb := s_adjust_indices cb in
  (omap (s_data_addr cb) (seqZ (m_r_idx cb) (m_w_idx cb - m_r_idx cb)), cb).

Definition s_clean (v0 : V) (free_values : bool) (cb : cbuffer) : list V * cbuffer :=
  let '(freed, cb) := if free_values then s_freeup_all_values cb else ([], cb) in
  (freed, set_n_elements 0 (set_m_data (replicate (Z.to_nat (m_n_max_allocd_elements cb)) v0) (set_indices 0 0 cb))).

(** A poller is there, and it waits for this. *)
Definition notify_poller (ty : poll_type) (cb : cbuffer) : list note :=
  if decide (m_qmuxer cb = Some ty) then [note_qmuxer] else [].

Definition s_shutdown (v0 : V) (free_values : bool) (cb : cbuffer) : list V * list note * cbuffer :=
  if m_is_operational cb then
    let '(freed, cb) := s_clean v0 free_values (set_is_operational false cb) in
    (freed, (if m_qmuxer cb is Some _ then [note_qmuxer] else []) ++ [note_get; note_put; note_awakened], cb)
  else ([], [], cb).

(** [memcpy] of [n] elements into the cells from [idx] on, in one piece or two; and out of them. *)
Definition write_cells (alloc idx n : Z) (buf d : list V) : list V :=
  if idx + n <=? alloc then list_inserts (Z.to_nat idx) (take (Z.to_nat n) buf) d
  else
    let n_0 := alloc - idx in
    let n_1 := n - n_0 in
    list_inserts 0 (take (Z.to_nat n_1) (drop (Z.to_nat n_0) buf)) (list_inserts (Z.to_nat idx) (take (Z.to_nat n_0) buf) d).

Definition read_cells (alloc idx n : Z) (d : list V) : list V :=
  if idx + n <=? alloc then take (Z.to_nat n) (drop (Z.to_nat idx) d)
  else
    let n_0 := alloc - idx in
    let n_1 := n - n_0 in
    take (Z.to_nat n_0) (drop (Z.to_nat idx) d) ++ take (Z.to_nat n_1) d.

Definition s_copyin (buf : list V) (cb : cbuffer) : Z * list note * cbuffer :=
  let max_rooms := m_n_max_elements cb - m_n_elements cb in
  let n := s64 (Z.of_nat (length buf)) in
  let max_n := if max_rooms <? n then max_rooms else n in
  let cb := s_adjust_indices cb in
  if 0 <? max_n then
    let alloc := m_n_max_allocd_elements cb in
    let cb := set_m_data (write_cells alloc (Z.rem (m_w_idx cb) alloc) max_n buf (m_data cb)) cb in
    let cb := set_n_elements (m_n_elements cb + max_n) cb in
    let cb := set_indices (m_r_idx cb) (s64 (m_w_idx cb + max_n)) cb in
    (max_n, notify_poller POLL_READABLE cb ++ [note_get], cb)
  else (max_n, [], cb).

Definition s_copyout (n : Z) (do_incr : bool) (cb : cbuffer) : Z * list V * list note * cbuffer :=
  let n := s64 n in
  let max_n := if n <? m_n_elements cb then n else m_n_elements cb in
  let cb := s_adjust_indices cb in
  if 0 <? max_n then
    let alloc := m_n_max_allocd_elements cb in
    let vs := read_cells alloc (Z.rem (m_r_idx cb) alloc) max_n (m_data cb) in
    if do_incr then
      let cb := set_n_elements (m_n_elements cb - max_n) cb in
      let cb := set_indices (s64 (m_r_idx cb + max_n)) (m_w_idx cb) cb in
      (max_n, vs, notify_poller POLL_WRITABLE cb ++ [note_put], cb)
    else (max_n, vs, [], cb)
  else (max_n, [], [], cb).

(** Looking at a buffer. *)
Definition when_operational (v : Z) (cb : cbuffer) : Z := if m_is_operational cb then v else R_NOT_OPERATIONAL.
Definition lagopus_cbuffer_size (cb : cbuffer) : Z := when_operational (m_n_elements cb) cb.
Definition lagopus_cbuffer_remaining_capacity (cb : cbuffer) : Z := when_operational (m_n_max_elements cb - m_n_elements cb) cb.
Definition lagopus_cbuffer_max_capacity (cb : cbuffer) : Z := when_operational (m_n_max_elements cb) cb.
Definition lagopus_cbuffer_is_full (cb : cbuffer) : Z * bool :=
  (when_operational R_OK cb, m_is_operational cb && (m_n_max_elements cb <=? m_n_elements cb)).
Definition lagopus_cbuffer_is_empty (cb : cbuffer) : Z * bool :=
  (when_operational R_OK cb, m_is_operational cb && (m_n_elements cb =? 0)).
Definition lagopus_cbuffer_is_operational (cb : cbuffer) : Z * bool := (R_OK, m_is_operational cb).

(** What a poller has to wait for, if anything: 1 is readable, 2 is writable; it is attached before it waits. *)
Definition cbuffer_setup_for_qmuxer (need_readable need_writable is_pre : bool) (cb : cbuffer) : Z * Z * Z * cbuffer :=
  if m_is_operational cb then
    let sz := m_n_elements cb in
    let rem := m_n_max_elements cb - m_n_elements cb in
    let ret := if need_readable && (sz =? 0) then Some POLL_READABLE
               else if need_writable && (rem =? 0) then Some POLL_WRITABLE else None in
    (match ret with Some POLL_READABLE => 1 | Some POLL_WRITABLE => 2 | None => 0 end, sz, rem,
     set_qmuxer (if is_pre then ret else None) cb)
  else (R_NOT_OPERATIONAL, 0, 0, cb).

(** ** The queue a buffer stands for *)

(** The [n] elements in the cells from [r] on, around the end. *)
Definition ring (alloc r n : Z) (d : list V) : list V :=
  let idx := Z.to_nat (r mod alloc) in take (Z.to_nat n) (drop idx d ++ take idx d).

(** The elements, from the one to be read next. *)
Definition contents (cb : cbuffer) : list V := ring (m_n_max_allocd_elements cb) (m_r_idx cb) (m_n_elements cb) (m_data cb).

Definition cb_inv (cb : cbuffer) : Prop :=
  1 <= m_n_max_elements cb < 2 ^ 62 /\ m_n_max_allocd_elements cb = m_n_max_elements cb + 1 /\
  Z.of_nat (length (m_data cb)) = m_n_max_allocd_elements cb /\
  0 <= m_r_idx cb /\ m_w_idx cb = m_r_idx cb + m_n_elements cb /\ m_w_idx cb < 2 ^ 63 /\
  0 <= m_n_elements cb <= m_n_max_elements cb.

(** *** Lemmas *)

Lemma length_ring a r n d : 0 < a -> Z.of_nat (length d) = a -> 0 <= n <= a -> Z.of_nat (length (ring a r n d)) = n.
Proof.
  intros Ha Hd Hn. pose proof (Z.mod_pos_bound r a Ha). unfold ring. rewrite length_take, length_app, length_drop, length_take. lia.
Qed.

(** An index and the cell it is in. *)
Lemma wrap_mod a r i : 0 < a -> 0 <= i < a -> (r + i) mod a = r mod a + i \/ (r + i) mod a = r mod a + i - a.
Proof.
  intros Ha Hi. pose proof (Z.mod_pos_bound r a Ha). rewrite <- Zplus_mod_idemp_l.
  destruct (decide (r mod a + i < a)); [left; apply Z.mod_small; lia|].
  right. symmetry. apply (Z.mod_unique _ _ 1); lia.
Qed.

Lemma lookup_ring a r n d (i : Z) :
  0 < a -> Z.of_nat (length d) = a -> n <= a -> 0 <= i < n -> ring a r n d !! Z.to_nat i = d !! Z.to_nat ((r + i) mod a).
Proof.
  intros Ha Hd Hn Hi. pose proof (Z.mod_pos_bound r a Ha) as Hb. pose proof (Z.mod_pos_bound (r + i) a Ha) as Hb2.
  unfold ring. rewrite lookup_take_lt by lia. destruct (wrap_mod a r i) as [E|E]; [lia..| |]; rewrite E in *.
  - rewrite lookup_app_l by (rewrite length_drop; lia). rewrite lookup_drop. f_equal. lia.
  - rewrite lookup_app_r by (rewrite length_drop; lia). rewrite length_drop, lookup_take_lt by lia. f_equal. lia.
Qed.

Lemma length_write_cells a idx n buf d : length (write_cells a idx n buf d) = length d.
Proof. unfold write_cells. destruct (_ <=? _); by rewrite !length_inserts. Qed.

Lemma lookup_write_cells a idx n buf d j :
  Z.of_nat (length d) = a -> 0 <= idx < a -> 0 < n < a -> n <= Z.of_nat (length buf) -> 0 <= j < a ->
  write_cells a idx n buf d !! Z.to_nat j =
    if (j - idx) mod a <? n then buf !! Z.to_nat ((j - idx) mod a) else d !! Z.to_nat j.
Proof.
  intros Hd Hi Hn Hb Hj. pose proof (Z.mod_pos_bound (j - idx) a ltac:(lia)).
  assert ((j - idx) mod a = j - idx /\ idx <= j \/ (j - idx) mod a = j - idx + a /\ j < idx) as Hk.
  { destruct (decide (idx <= j)); [left; split; [apply Z.mod_small|]; lia|right; split; [|lia]]. symmetry. apply (Z.mod_unique _ _ (-1)); lia. }
  set (k := (j - idx) mod a) in *. unfold write_cells. destruct (Z.leb_spec (idx + n) a) as [Hone|Htwo].
  - assert (length (take (Z.to_nat n) buf) = Z.to_nat n) as Hl by (rewrite length_take; lia).
    destruct Hk as [[Hk Hij]|[Hk Hij]]; destruct (Z.ltb_spec k n); try lia.
    + rewrite list_lookup_inserts by (rewrite ?Hl; lia). rewrite lookup_take_lt by lia. f_equal. lia.
    + by rewrite list_lookup_inserts_ge by (rewrite Hl; lia).
    + by rewrite list_lookup_inserts_lt by lia.
  - assert (length (take (Z.to_nat (a - idx)) buf) = Z.to_nat (a - idx)) as Hl0 by (rewrite length_take; lia).
    assert (length (take (Z.to_nat (n - (a - idx))) (drop (Z.to_nat (a - idx)) buf)) = Z.to_nat (n - (a - idx))) as Hl1
      by (rewrite length_take, length_drop; lia).
    destruct Hk as [[Hk Hij]|[Hk Hij]]; destruct (Z.ltb_spec k n); try lia.
    + rewrite list_lookup_inserts_ge by (rewrite Hl1; lia). rewrite list_lookup_inserts by (rewrite ?Hl0; lia).
      rewrite lookup_take_lt by lia. f_equal. lia.
    + rewrite list_lookup_inserts by (rewrite ?Hl1, ?length_inserts; lia). rewrite lookup_take_lt, lookup_drop by lia. f_equal. lia.
    + rewrite list_lookup_inserts_ge by (rewrite Hl1; lia). by rewrite list_lookup_inserts_lt by lia.
Qed.

(** Elements are written behind those that are there. *)
Lemma ring_write a r n m buf d :
  0 < a -> Z.of_nat (length d) = a -> 0 <= n -> 0 < m -> n + m < a -> m <= Z.of_nat (length buf) ->
  ring a r (n + m) (write_cells a ((r + n) mod a) m buf d) = ring a r n d ++ take (Z.to_nat m) buf.
Proof.
  intros Ha Hd Hn Hm Hnm Hb. pose proof (Z.mod_pos_bound (r + n) a Ha).
  pose proof (length_ring a r n d Ha Hd ltac:(lia)) as Hl.
  assert (Z.of_nat (length (write_cells a ((r + n) mod a) m buf d)) = a) as Hlw by (rewrite length_write_cells; lia).
  apply list_eq_same_length with (n := Z.to_nat (n + m)).
  - rewrite length_app, length_take. lia.
  - pose proof (length_ring a r (n + m) _ Ha Hlw ltac:(lia)). lia.
  - intros i x y Hi Hx Hy. rewrite <- (Nat2Z.id i) in Hx. rewrite lookup_ring in Hx by (done || lia).
    pose proof (Z.mod_pos_bound (r + Z.of_nat i) a Ha). rewrite lookup_write_cells in Hx by (done || lia).
    replace (((r + Z.of_nat i) mod a - (r + n) mod a) mod a) with ((Z.of_nat i - n) mod a) in Hx
      by (rewrite Zminus_mod_idemp_l, Zminus_mod_idemp_r; f_equal; lia).
    destruct (decide (Z.of_nat i < n)) as [Hold|Hnew].
    + replace ((Z.of_nat i - n) mod a) with (Z.of_nat i - n + a) in Hx by (apply (Z.mod_unique _ _ (-1)); lia).
      rewrite (proj2 (Z.ltb_ge _ _)) in Hx by lia. rewrite lookup_app_l in Hy by lia.
      rewrite <- (Nat2Z.id i) in Hy. rewrite lookup_ring in Hy by (done || lia). congruence.
    + rewrite (Z.mod_small (Z.of_nat i - n)) in Hx by lia. rewrite (proj2 (Z.ltb_lt _ _)) in Hx by lia.
      rewrite lookup_app_r in Hy by lia. rewrite lookup_take_lt in Hy by lia.
      replace (Z.to_nat (Z.of_nat i - n)) with (i - length (ring a r n d))%nat in Hx by lia. congruence.
Qed.

(** The first elements are read, and the rest is behind them. *)
Lemma ring_read a r n m d :
  0 < a -> Z.of_nat (length d) = a -> 0 < m <= n -> n < a -> read_cells a (r mod a) m d = take (Z.to_nat m) (ring a r n d).
Proof.
  intros Ha Hd Hm Hn. pose proof (Z.mod_pos_bound r a Ha). unfold ring, read_cells. rewrite take_take, Nat.min_l by lia.
  destruct (Z.leb_spec (r mod a + m) a).
  - by rewrite take_app_le by (rewrite length_drop; lia).
  - rewrite (take_ge (drop _ _)) by (rewrite length_drop; lia). rewrite take_app_ge by (rewrite length_drop; lia). f_equal.
    rewrite take_take, Nat.min_l by (rewrite length_drop; lia). f_equal. rewrite length_drop. lia.
Qed.

Lemma ring_drop a r n m d :
  0 < a -> Z.of_nat (length d) = a -> 0 <= m <= n -> n < a -> ring a (r + m) (n - m) d = drop (Z.to_nat m) (ring a r n d).
Proof.
  intros Ha Hd Hm Hn. pose proof (length_ring a r n d Ha Hd ltac:(lia)) as Hl.
  apply list_eq_same_length with (n := Z.to_nat (n - m)).
  - rewrite length_drop. lia.
  - pose proof (length_ring a (r + m) (n - m) d Ha Hd ltac:(lia)). lia.
  - intros i x y Hi Hx Hy. rewrite <- (Nat2Z.id i) in Hx. rewrite lookup_ring in Hx by (done || lia).
    rewrite lookup_drop in Hy. replace (Z.to_nat m + i)%nat with (Z.to_nat (m + Z.of_nat i)) in Hy by lia.
    rewrite lookup_ring in Hy by (done || lia). rewrite <- Z.add_assoc in Hx. congruence.
Qed.

Lemma create_inv v0 maxelems :
  1 <= maxelems < 2 ^ 62 ->
  cb_inv (lagopus_cbuffer_create_with_size v0 maxelems) /\ contents (lagopus_cbuffer_create_with_size v0 maxelems) = [].
Proof.
  intros H. split; [|done]. unfold cb_inv, lagopus_cbuffer_create_with_size, N_EMPTY_ROOM. cbn -[Z.pow]. rewrite length_replicate.
  split_and!; lia.
Qed.

Lemma adjust_id cb : cb_inv cb -> s_adjust_indices cb = cb.
Proof. intros (_ & _ & _ & Hr & Hw & _ & Hn). unfold s_adjust_indices. by rewrite (proj2 (Z.leb_le _ _)) by lia. Qed.

Lemma length_contents cb : cb_inv cb -> Z.of_nat (length (contents cb)) = m_n_elements cb.
Proof. intros (Hm & Ha & Hd & Hr & Hw & _ & Hn). apply length_ring; lia. Qed.

Lemma s64_id x : - 2 ^ 63 <= x < 2 ^ 63 -> s64 x = x.
Proof. intros. unfold s64. rewrite Z.mod_small by lia. lia. Qed.

(** The numbers of elements that are copied. *)
Definition puttable (cb : cbuffer) (buf : list V) : Z := Z.min (m_n_max_elements cb - m_n_elements cb) (Z.of_nat (length buf)).
Definition gettable (cb : cbuffer) (n : Z) : Z := Z.min n (m_n_elements cb).

(** What the operations leave of the rest. *)
Definition same_control (cb cb' : cbuffer) : Prop :=
  m_n_waiters cb' = m_n_waiters cb /\ m_is_operational cb' = m_is_operational cb /\ m_is_awakened cb' = m_is_awakened cb /\
  m_n_max_elements cb' = m_n_max_elements cb /\ m_qmuxer cb' = m_qmuxer cb.

Lemma copyin_count buf cb : cb_inv cb -> Z.of_nat (length buf) < 2 ^ 63 -> (s_copyin buf cb).1.1 = puttable cb buf.
Proof.
  intros Hinv Hb. pose proof Hinv as (Hm & Ha & Hd & Hr & Hw & _ & Hn). unfold s_copyin. rewrite adjust_id, s64_id by (done || lia).
  unfold puttable. destruct (Z.ltb_spec (m_n_max_elements cb - m_n_elements cb) (Z.of_nat (length buf))); destruct (0 <? _); cbn; lia.
Qed.

Lemma copyin_spec buf cb :
  cb_inv cb -> Z.of_nat (length buf) < 2 ^ 63 -> m_w_idx cb + puttable cb buf < 2 ^ 63 ->
  exists notes cb', s_copyin buf cb = (puttable cb buf, notes, cb') /\
    cb_inv cb' /\ contents cb' = contents cb ++ take (Z.to_nat (puttable cb buf)) buf /\ same_control cb cb' /\
    m_w_idx cb' = m_w_idx cb + puttable cb buf /\
    (puttable cb buf = 0 /\ notes = [] /\ cb' = cb \/ 0 < puttable cb buf /\ notes = notify_poller POLL_READABLE cb ++ [note_get]).
Proof.
  intros Hinv Hb Hw63. pose proof Hinv as (Hm & Ha & Hd & Hr & Hw & _ & Hn). unfold s_copyin. rewrite adjust_id by done.
  rewrite s64_id by lia.
  replace (if m_n_max_elements cb - m_n_elements cb <? Z.of_nat (length buf) then _ else _) with (puttable cb buf)
    by (unfold puttable; destruct (Z.ltb_spec (m_n_max_elements cb - m_n_elements cb) (Z.of_nat (length buf))); lia).
  assert (0 <= puttable cb buf /\ puttable cb buf <= Z.of_nat (length buf) /\ puttable cb buf <= m_n_max_elements cb - m_n_elements cb)
    as (Hp0 & Hp1 & Hp2) by (unfold puttable; lia).
  set (p := puttable cb buf) in *. destruct (Z.ltb_spec 0 p) as [Hpos|Hneg].
  2: { assert (p = 0) as -> by lia. exists [], cb. cbn [Z.to_nat take]. rewrite app_nil_r, Z.add_0_r. split_and!; try done. by left. }
  eexists _, _. split; [reflexivity|]. rewrite Z.rem_mod_nonneg by lia.
  unfold cb_inv, contents, same_control, set_indices, set_n_elements, set_m_data. cbn -[Z.pow s64 Z.to_nat]. rewrite length_write_cells, s64_id by lia.
  split_and!; try done; try lia; [|by right].
  rewrite Hw. apply ring_write; lia.
Qed.

Lemma copyout_spec n do_incr cb :
  cb_inv cb -> 0 <= n < 2 ^ 63 ->
  exists notes cb', s_copyout n do_incr cb = (gettable cb n, take (Z.to_nat (gettable cb n)) (contents cb), notes, cb') /\
    cb_inv cb' /\ contents cb' = (if do_incr then drop (Z.to_nat (gettable cb n)) (contents cb) else contents cb) /\ same_control cb cb' /\
    m_w_idx cb' = m_w_idx cb /\
    ((gettable cb n = 0 \/ do_incr = false) /\ notes = [] /\ cb' = cb \/
     0 < gettable cb n /\ do_incr = true /\ notes = notify_poller POLL_WRITABLE cb ++ [note_put]).
Proof.
  intros Hinv Hn63. pose proof Hinv as (Hm & Ha & Hd & Hr & Hw & Hw63 & Hn). unfold s_copyout. rewrite adjust_id by done.
  rewrite s64_id by lia.
  replace (if n <? m_n_elements cb then _ else _) with (gettable cb n)
    by (unfold gettable; destruct (Z.ltb_spec n (m_n_elements cb)); lia).
  assert (0 <= gettable cb n <= m_n_elements cb) as Hg by (unfold gettable; lia).
  set (g := gettable cb n) in *. destruct (Z.ltb_spec 0 g) as [Hpos|Hneg].
  2: { assert (g = 0) as -> by lia. exists [], cb. split_and!; try done; [by destruct do_incr|]. left. auto. }
  rewrite Z.rem_mod_nonneg, (ring_read _ _ (m_n_elements cb)) by lia. destruct do_incr.
  - eexists _, _. split; [reflexivity|].
    unfold cb_inv, contents, same_control, set_indices, set_n_elements. cbn -[Z.pow s64 Z.to_nat]. rewrite s64_id by lia.
    split_and!; try done; try lia; [|by right]. apply ring_drop; lia.
  - exists [], cb. split_and!; try done. left. auto.
Qed.

(** The values are freed in their order. *)
Lemma omap_seqZ (f : Z -> option V) l r :
  (forall i, (i < length l)%nat -> f (r + Z.of_nat i) = l !! i) -> omap f (seqZ r (Z.of_nat (length l))) = l.
Proof.
  revert r. induction l as [|v l IH]; intros r Hf; [done|]. rewrite seqZ_cons by (cbn; lia). cbn [omap list_omap].
  pose proof (Hf 0%nat ltac:(cbn; lia)) as H0. rewrite Z.add_0_r in H0. rewrite H0. cbn [lookup list_lookup]. f_equal.
  replace (Z.pred (Z.of_nat (length (v :: l)))) with (Z.of_nat (length l)) by (cbn; lia). apply IH. intros i Hi.
  replace (Z.succ r + Z.of_nat i) with (r + Z.of_nat (S i)) by lia. apply (Hf (S i)). cbn. lia.
Qed.

Lemma freeup_spec cb : cb_inv cb -> s_freeup_all_values cb = (contents cb, cb).
Proof.
  intros Hinv. pose proof Hinv as (Hm & Ha & Hd & Hr & Hw & Hw63 & Hn). unfold s_freeup_all_values. rewrite adjust_id by done. f_equal.
  pose proof (length_contents cb Hinv). replace (m_w_idx cb - m_r_idx cb) with (Z.of_nat (length (contents cb))) by lia.
  apply omap_seqZ. intros i Hi. rewrite <- (Nat2Z.id i) at 2. unfold contents. rewrite lookup_ring by lia.
  unfold s_data_addr. rewrite (proj2 (Z.leb_le _ _)), Z.rem_mod_nonneg by lia. done.
Qed.

Lemma clean_spec v0 free_values cb :
  cb_inv cb -> exists cb', s_clean v0 free_values cb = (if free_values then contents cb else [], cb') /\
    cb_inv cb' /\ contents cb' = [] /\ same_control cb cb' /\ m_w_idx cb' = 0.
Proof.
  intros Hinv. pose proof Hinv as (Hm & Ha & Hd & Hr & Hw & Hw63 & Hn). unfold s_clean. rewrite freeup_spec by done.
  eexists. split; [by destruct free_values|].
  destruct free_values; unfold cb_inv, same_control; cbn -[Z.pow Z.to_nat]; rewrite length_replicate; split_and!; try done; lia.
Qed.

(** A poller is attached only where it has to wait. *)
Lemma poller_waits need_readable need_writable is_pre cb ret sz rem cb' :
  cb_inv cb -> m_is_operational cb = true -> cbuffer_setup_for_qmuxer need_readable need_writable is_pre cb = (ret, sz, rem, cb') ->
  sz = Z.of_nat (length (contents cb)) /\ rem = m_n_max_elements cb - sz /\
  match m_qmuxer cb' with
  | Some POLL_READABLE => ret = 1 /\ contents cb' = []
  | Some POLL_WRITABLE => ret = 2 /\ Z.of_nat (length (contents cb')) = m_n_max_elements cb'
  | None => ret = 0 \/ is_pre = false
  end.
Proof.
  intros Hinv Ho E. unfold cbuffer_setup_for_qmuxer in E. rewrite Ho in E. pose proof (length_contents cb Hinv) as Hl.
  injection E as <- <- <- <-. split; [done|]. split; [done|]. unfold contents in *. cbn.
  destruct need_readable, need_writable, (Z.eqb_spec (m_n_elements cb) 0), (Z.eqb_spec (m_n_max_elements cb - m_n_elements cb) 0), is_pre; cbn;
    auto; split; try done; try lia; apply length_zero_iff_nil; lia.
Qed.
End Buffers.
