(* ===== verification/CbufferThreads.v ===== *)
(** * The threads at a bounded blocking queue ([src/lib/cbuffer.c])

    The blocking operations of [Cbuffer] as threads that share a buffer: a step is a critical section, from taking the
    lock to giving it back, at the end or in [lagopus_cond_wait].  A call is a thread of its own; the
    clock and the ways a wait can end without a notification are in the labels of the steps. *)
From S2P Require Import Prelude Cbuffer.
#[local] Open Scope Z_scope.

Section Threads.
Context {V : Type}.
#[local] Abbreviation cbuffer := (@cbuffer V).
Implicit Types cb : cbuffer.

(** ** Data *)

(** A call. *)
Inductive operation :=
  | op_put (vs : list V) (nsec : Z)
  | op_get (n_vals_max n_at_least nsec : Z) (do_incr : bool)
  | op_wait_gettable (nsec : Z)
  | op_wait_puttable (nsec : Z)
  | op_clear (free_values : bool)
  | op_shutdown (free_values : bool)
  | op_wakeup (nsec : Z).

(** The local variables of a call that waits; the time to wait is negative when there is no limit. *)
Inductive wait_frame :=
  | put_frame (vs : list V) (n_copyin to copy_start : Z)
  | get_frame (n_vals_max n_at_least : Z) (do_incr : bool) (got : list V) (n_copyout to copy_start : Z)
  | gettable_frame (nsec : Z)
  | puttable_frame (nsec : Z)
  | wakeup_frame (nsec : Z).

Definition frame_cond (fr : wait_frame) : note :=
  match fr with
  | put_frame _ _ _ _ | puttable_frame _ => note_put
  | get_frame _ _ _ _ _ _ _ | gettable_frame _ => note_get
  | wakeup_frame _ => note_awakened
  end.

Definition frame_timeout (fr : wait_frame) : Z :=
  match fr with
  | put_frame _ _ to _ | get_frame _ _ _ _ _ to _ => to
  | gettable_frame nsec | puttable_frame nsec | wakeup_frame nsec => nsec
  end.

(** How a critical section ends: the result with the number and the elements that go out through the arguments, or a wait. *)
Inductive section_end := finish (ret n : Z) (vs : list V) | sleep (fr : wait_frame).

(** What happens to the elements. *)
Inductive queue_event := ev_put (vs : list V) | ev_get (vs : list V) | ev_peek (vs : list V) | ev_clear (vs : list V).

Definition section_result : Type := section_end * list note * list queue_event * cbuffer.

(** ** Operations *)

(** [s_wait_io_ready] up to [lagopus_cond_wait], and from there on. *)
Definition s_wait_io_ready (fr : wait_frame) (cb : cbuffer) : section_end * cbuffer :=
  (sleep fr, set_n_waiters (u64 (m_n_waiters cb + 1)) cb).

Definition s_wait_io_return (r : Z) (cb : cbuffer) : Z * list note * cbuffer :=
  let n_waiters := u64 (m_n_waiters cb - 1) in
  let cb := set_n_waiters n_waiters cb in
  if (r =? R_OK) && m_is_awakened cb then
    if m_is_operational cb then
      if n_waiters =? 0 then (R_WAKEUP_REQUESTED, [note_awakened], set_is_awakened false cb)
      else (R_WAKEUP_REQUESTED, [], cb)
    else (R_NOT_OPERATIONAL, [note_awakened], set_is_awakened false cb)
  else (r, [], cb).

(** [check_inf] and [check_to] of [s_put_n]. *)
Definition put_check (vs : list V) (n_copyin ret to copy_start : Z) (cb : cbuffer) : section_result :=
  if m_is_operational cb then
    let rest := drop (Z.to_nat n_copyin) vs in
    let '(n, notes, cb) := s_copyin rest cb in
    let evs := [ev_put (take (Z.to_nat n) rest)] in
    let n_copyin := n_copyin + n in
    if u64 n_copyin <? Z.of_nat (length vs) then
      if m_n_max_elements cb <=? m_n_elements cb then
        let '(o, cb) := s_wait_io_ready (put_frame vs n_copyin to copy_start) cb in (o, notes, evs, cb)
      else (finish ret n_copyin [], notes, evs, cb)
    else (finish n_copyin n_copyin [], notes, evs, cb)
  else (finish R_NOT_OPERATIONAL n_copyin [], [], [], cb).

Definition s_put_n (vs : list V) (nsec copy_start : Z) (cb : cbuffer) : section_result :=
  if 0 <? Z.of_nat (length vs) then
    if nsec =? 0 then
      if m_is_operational cb then
        let '(n, notes, cb) := s_copyin vs cb in (finish n n [], notes, [ev_put (take (Z.to_nat n) vs)], cb)
      else (finish R_NOT_OPERATIONAL 0 [], [], [], cb)
    else put_check vs 0 R_ANY_FAILURES (if nsec <? 0 then -1 else nsec) copy_start cb
  else (finish R_OK 0 [], [], [], cb).

(** The end of a wait: another round, or the result. *)
Definition wait_again (to copy_start wait_end ret : Z) (again : Z -> section_result) (stop : Z -> section_result) : section_result :=
  if ret =? R_OK then
    if to <? 0 then again to
    else
      let to := s64 (to - s64 (wait_end - copy_start)) in
      if 0 <? to then again to else stop R_TIMEDOUT
  else stop ret.

Definition with_notes (notes : list note) (x : section_result) : section_result :=
  let '(o, ns, evs, cb) := x in (o, notes ++ ns, evs, cb).

Definition put_resume (vs : list V) (n_copyin to copy_start r wait_end now : Z) (cb : cbuffer) : section_result :=
  let '(ret, notes, cb) := s_wait_io_return r cb in
  with_notes notes (wait_again to copy_start wait_end ret
    (fun to => put_check vs n_copyin ret to now cb)
    (fun ret => (finish ret n_copyin [], [], [], cb))).

(** [check_inf] and [check_to] of [s_get_n]. *)
Definition get_check (n_vals_max n_at_least : Z) (do_incr : bool) (got : list V) (n_copyout ret to copy_start : Z) (cb : cbuffer) : section_result :=
  if m_is_operational cb then
    let '(n, vs, notes, cb) := s_copyout (u64 (n_vals_max - n_copyout)) do_incr cb in
    let evs := [if do_incr then ev_get vs else ev_peek vs] in
    let n_copyout := n_copyout + n in
    let got := got ++ vs in
    if u64 n_copyout <? (if to <? 0 then n_vals_max else n_at_least) then
      if m_n_elements cb <? 1 then
        let '(o, cb) := s_wait_io_ready (get_frame n_vals_max n_at_least do_incr got n_copyout to copy_start) cb in (o, notes, evs, cb)
      else (finish ret n_copyout got, notes, evs, cb)
    else (finish n_copyout n_copyout got, notes, evs, cb)
  else (finish R_NOT_OPERATIONAL n_copyout got, [], [], cb).

Definition s_get_n (n_vals_max n_at_least nsec : Z) (do_incr : bool) (copy_start : Z) (cb : cbuffer) : section_result :=
  if 0 <? n_vals_max then
    if nsec =? 0 then
      if m_is_operational cb then
        let '(n, vs, notes, cb) := s_copyout n_vals_max do_incr cb in (finish n n vs, notes, [if do_incr then ev_get vs else ev_peek vs], cb)
      else (finish R_NOT_OPERATIONAL 0 [], [], [], cb)
    else get_check n_vals_max n_at_least do_incr [] 0 R_ANY_FAILURES (if nsec <? 0 then -1 else nsec) copy_start cb
  else (finish R_OK 0 [], [], [], cb).

Definition get_resume (n_vals_max n_at_least : Z) (do_incr : bool) (got : list V) (n_copyout to copy_start r wait_end now : Z) (cb : cbuffer) : section_result :=
  let '(ret, notes, cb) := s_wait_io_return r cb in
  with_notes notes (wait_again to copy_start wait_end ret
    (fun to => get_check n_vals_max n_at_least do_incr got n_copyout ret to now cb)
    (fun ret => (finish ret n_copyout got, [], [], cb))).

Definition lagopus_cbuffer_wait_gettable (nsec : Z) (cb : cbuffer) : section_result :=
  if 0 <? m_n_elements cb then (finish (m_n_elements cb) 0 [], [], [], cb)
  else if nsec =? 0 then (finish (m_n_elements cb) 0 [], [], [], cb)
  else let '(o, cb) := s_wait_io_ready (gettable_frame nsec) cb in (o, [], [], cb).

Definition gettable_resume (r : Z) (cb : cbuffer) : section_result :=
  let '(ret, notes, cb) := s_wait_io_return r cb in
  (finish (if ret =? R_OK then m_n_elements cb else ret) 0 [], notes, [], cb).

Definition lagopus_cbuffer_wait_puttable (nsec : Z) (cb : cbuffer) : section_result :=
  let remains := m_n_max_elements cb - m_n_elements cb in
  if 0 <? remains then (finish remains 0 [], [], [], cb)
  else if nsec =? 0 then (finish remains 0 [], [], [], cb)
  else let '(o, cb) := s_wait_io_ready (puttable_frame nsec) cb in (o, [], [], cb).

Definition puttable_resume (r : Z) (cb : cbuffer) : section_result :=
  let '(ret, notes, cb) := s_wait_io_return r cb in
  (finish (if ret =? R_OK then m_n_max_elements cb - m_n_elements cb else ret) 0 [], notes, [], cb).

Definition lagopus_cbuffer_clear (v0 : V) (free_values : bool) (cb : cbuffer) : section_result :=
  let dropped := contents cb in
  let '(freed, cb) := s_clean v0 free_values cb in
  (finish R_OK 0 freed, notify_poller POLL_READABLE cb ++ [note_put], [ev_clear dropped], cb).

Definition lagopus_cbuffer_shutdown (v0 : V) (free_values : bool) (cb : cbuffer) : section_result :=
  let evs := if m_is_operational cb then [ev_clear (contents cb)] else [] in
  let '(freed, notes, cb) := s_shutdown v0 free_values cb in
  (finish R_OK 0 freed, notes, evs, cb).

(** [recheck] of [lagopus_cbuffer_wakeup]. *)
Definition wakeup_recheck (nsec : Z) (cb : cbuffer) : section_end :=
  if m_is_operational cb then if m_is_awakened cb then sleep (wakeup_frame nsec) else finish R_OK 0 []
  else finish R_NOT_OPERATIONAL 0 [].

Definition lagopus_cbuffer_wakeup (nsec : Z) (cb : cbuffer) : section_result :=
  if 0 <? m_n_waiters cb then
    if m_is_operational cb then
      if negb (m_is_awakened cb) then
        let cb := set_is_awakened true cb in
        (if nsec =? 0 then finish R_OK 0 [] else wakeup_recheck nsec cb, [note_get; note_put], [], cb)
      else (finish R_OK 0 [], [], [], cb)
    else (finish R_NOT_OPERATIONAL 0 [], [], [], cb)
  else (finish R_OK 0 [], [], [], cb).

Definition wakeup_resume (nsec r : Z) (cb : cbuffer) : section_result :=
  (if r =? R_OK then wakeup_recheck nsec cb else finish r 0 [], [], [], cb).

(** [lagopus_cbuffer_put_with_size] and [lagopus_cbuffer_get_with_size] of one element. *)
Definition single_result (n : Z) : Z := if n =? 1 then R_OK else n.

(** ** Threads *)

Inductive pc := ready | asleep (fr : wait_frame) | woken (fr : wait_frame) (r : Z) | returned (ret n : Z) (vs : list V).

Record thread := Thread { th_op : operation; th_pc : pc }.
Record queue_system := System { sy_cb : cbuffer; sy_threads : list thread; sy_log : list (nat * queue_event) }.

(** The critical section a thread goes through next. *)
Definition start_section (v0 : V) (op : operation) (now : Z) (cb : cbuffer) : section_result :=
  match op with
  | op_put vs nsec => s_put_n vs nsec now cb
  | op_get n_vals_max n_at_least nsec do_incr => s_get_n n_vals_max n_at_least nsec do_incr now cb
  | op_wait_gettable nsec => lagopus_cbuffer_wait_gettable nsec cb
  | op_wait_puttable nsec => lagopus_cbuffer_wait_puttable nsec cb
  | op_clear free_values => lagopus_cbuffer_clear v0 free_values cb
  | op_shutdown free_values => lagopus_cbuffer_shutdown v0 free_values cb
  | op_wakeup nsec => lagopus_cbuffer_wakeup nsec cb
  end.

Definition resume_section (fr : wait_frame) (r wait_end now : Z) (cb : cbuffer) : section_result :=
  match fr with
  | put_frame vs n_copyin to copy_start => put_resume vs n_copyin to copy_start r wait_end now cb
  | get_frame n_vals_max n_at_least do_incr got n_copyout to copy_start =>
      get_resume n_vals_max n_at_least do_incr got n_copyout to copy_start r wait_end now cb
  | gettable_frame _ => gettable_resume r cb
  | puttable_frame _ => puttable_resume r cb
  | wakeup_frame nsec => wakeup_resume nsec r cb
  end.

Definition pc_of (o : section_end) : pc := match o with finish ret n vs => returned ret n vs | sleep fr => asleep fr end.

Definition wake_pc (notes : list note) (p : pc) : pc :=
  match p with asleep fr => if decide (frame_cond fr ∈ notes) then woken fr R_OK else p | _ => p end.
Definition wake (notes : list note) (th : thread) : thread := Thread (th_op th) (wake_pc notes (th_pc th)).

(** A thread goes through a critical section, with the clock at the end of its wait and at the copying, or its wait ends: after the time it has,
    for no reason, or with an error. *)
Inductive thread_label := run (i : nat) (wait_end now : Z) | timeout (i : nat) | spurious (i : nat) | failure (i : nat).

Definition thread_step (v0 : V) (l : thread_label) (s : queue_system) : option queue_system :=
  match l with
  | run i wait_end now =>
      th ← sy_threads s !! i;
      '(o, notes, evs, cb) ← match th_pc th with
                             | ready => Some (start_section v0 (th_op th) now (sy_cb s))
                             | woken fr r => Some (resume_section fr r wait_end now (sy_cb s))
                             | _ => None
                             end;
      Some (System cb (<[i := Thread (th_op th) (pc_of o)]> (wake notes <$> sy_threads s)) (sy_log s ++ (pair i <$> evs)))
  | timeout i | spurious i | failure i =>
      th ← sy_threads s !! i;
      fr ← match th_pc th with asleep fr => Some fr | _ => None end;
      r ← match l with
          | timeout _ => if 0 <=? frame_timeout fr then Some R_TIMEDOUT else None
          | failure _ => Some R_POSIX_API_ERROR
          | _ => Some R_OK
          end;
      Some (System (sy_cb s) (<[i := Thread (th_op th) (woken fr r)]> (sy_threads s)) (sy_log s))
  end.

Fixpoint thread_steps (v0 : V) (ls : list thread_label) (s : queue_system) : option queue_system :=
  match ls with [] => Some s | l :: ls => s' ← thread_step v0 l s; thread_steps v0 ls s' end.

Definition start_system (v0 : V) (maxelems : Z) (ops : list operation) : queue_system :=
  System (lagopus_cbuffer_create_with_size v0 maxelems) ((fun op => Thread op ready) <$> ops) [].

(** ** A queue of bounded length *)

Inductive fifo_step (max : Z) : list V -> queue_event -> list V -> Prop :=
  | fifo_put q vs : Z.of_nat (length (q ++ vs)) <= max -> fifo_step max q (ev_put vs) (q ++ vs)
  | fifo_get q vs : fifo_step max (vs ++ q) (ev_get vs) q
  | fifo_peek q vs : fifo_step max (vs ++ q) (ev_peek vs) (vs ++ q)
  | fifo_clear q : fifo_step max q (ev_clear q) [].

Inductive fifo_runs (max : Z) : list V -> list queue_event -> list V -> Prop :=
  | fifo_nil q : fifo_runs max q [] q
  | fifo_cons q e q' es q'' : fifo_step max q e q' -> fifo_runs max q' es q'' -> fifo_runs max q (e :: es) q''.

Lemma fifo_app max q es q' es' q'' : fifo_runs max q es q' -> fifo_runs max q' es' q'' -> fifo_runs max q (es ++ es') q''.
Proof. induction 1; [done|]. intros. cbn. econstructor; [done|]. auto. Qed.

Lemma fifo_one max q e q' : fifo_step max q e q' -> fifo_runs max q [e] q'.
Proof. intros. econstructor; [done|constructor]. Qed.

Lemma fifo_get_take max q k : fifo_step max q (ev_get (take k q)) (drop k q).
Proof. pose proof (fifo_get max (drop k q) (take k q)) as H. by rewrite take_drop in H. Qed.
Lemma fifo_peek_take max q k : fifo_step max q (ev_peek (take k q)) q.
Proof. pose proof (fifo_peek max (drop k q) (take k q)) as H. by rewrite take_drop in H. Qed.

(** The elements that go in and out, and those that are looked at. *)
Definition ev_puts (e : queue_event) : list V := match e with ev_put vs => vs | _ => [] end.
Definition ev_gets (e : queue_event) : list V := match e with ev_get vs => vs | _ => [] end.
Definition ev_peeks (e : queue_event) : list V := match e with ev_peek vs => vs | _ => [] end.
Definition given (es : list queue_event) : list V := es ≫= ev_puts.
Definition taken (es : list queue_event) : list V := es ≫= ev_gets.
Definition peeked (es : list queue_event) : list V := es ≫= ev_peeks.
Definition moved (es : list queue_event) : list V * list V * list V := (given es, taken es, peeked es).

Lemma puts_app a b : given (a ++ b) = given a ++ given b.
Proof. apply bind_app. Qed.
Lemma moved_app a b p g k p' g' k' : moved a = (p, g, k) -> moved b = (p', g', k') -> moved (a ++ b) = (p ++ p', g ++ g', k ++ k').
Proof. unfold moved, given, taken, peeked. intros [= <- <- <-] [= <- <- <-]. by rewrite !bind_app. Qed.

(** ** What the threads rely on *)

(** The condition a thread that sleeps waits for has not come. *)
Definition cond_blocked (c : note) (cb : cbuffer) : Prop :=
  match c with
  | note_get => m_n_elements cb = 0
  | note_put => m_n_elements cb = m_n_max_elements cb
  | note_awakened => m_is_operational cb = true /\ m_is_awakened cb = true
  | note_qmuxer => False
  end.

(** Conditions come with a notification. *)
Definition keeps_blocked (notes : list note) (cb cb' : cbuffer) : Prop := forall c, c ∉ notes -> cond_blocked c cb -> cond_blocked c cb'.

Lemma keeps_trans n1 n2 a b c : keeps_blocked n1 a b -> keeps_blocked n2 b c -> keeps_blocked (n1 ++ n2) a c.
Proof. intros H1 H2 x Hx Ha. apply not_elem_of_app in Hx as [? ?]. by apply H2, H1. Qed.

(** One of [m_n_waiters]. *)
Definition frame_weight (fr : wait_frame) : Z := match fr with wakeup_frame _ => 0 | _ => 1 end.
Definition pc_weight (p : pc) : Z := match p with asleep fr | woken fr _ => frame_weight fr | _ => 0 end.

Definition asleep_blocked (p : pc) (cb : cbuffer) : Prop := match p with asleep fr => cond_blocked (frame_cond fr) cb | _ => True end.

(** What a critical section does to the buffer, for a thread that was one of [w] waiters. *)
Definition section_ok (w : Z) (cb : cbuffer) (x : section_result) : Prop :=
  let '(o, notes, evs, cb') := x in
  cb_inv cb' /\ m_n_max_elements cb' = m_n_max_elements cb /\
  fifo_runs (m_n_max_elements cb) (contents cb) evs (contents cb') /\
  m_w_idx cb' <= m_w_idx cb + Z.of_nat (length (given evs)) /\
  keeps_blocked notes cb cb' /\ m_n_waiters cb' = m_n_waiters cb - w + pc_weight (pc_of o) /\ asleep_blocked (pc_of o) cb'.

(** The number of elements that are put has 63 bits. *)
Definition puts_fit (cb : cbuffer) (x : section_result) : Prop :=
  let '(_, _, evs, _) := x in m_w_idx cb + Z.of_nat (length (given evs)) < 2 ^ 63.

(** ** What a call gives *)

Definition time_ok (nsec to : Z) : Prop := nsec < 0 /\ to < 0 \/ 0 < nsec /\ 0 < to.

(** An error that a call with a time limit of [nsec] returns. *)
Definition call_error (nsec ret : Z) : Prop :=
  ret = R_NOT_OPERATIONAL \/ nsec <> 0 /\ (ret = R_WAKEUP_REQUESTED \/ ret = R_POSIX_API_ERROR) \/ 0 < nsec /\ ret = R_TIMEDOUT.

Definition put_returns (vs : list V) (nsec ret n : Z) : Prop :=
  ret = n /\ (nsec = 0 \/ n = Z.of_nat (length vs)) \/ call_error nsec ret.

(** A get that asks for at least more than at most, or a peek that is to wait, can come back with fewer elements and no error of its own. *)
Definition get_returns (n_vals_max n_at_least nsec : Z) (do_incr : bool) (ret n : Z) : Prop :=
  ret = n /\ (nsec = 0 \/ n = n_vals_max \/ 0 < nsec /\ n_at_least <= n) \/ call_error nsec ret \/
  (ret = R_ANY_FAILURES \/ ret = R_OK) /\ (do_incr = false /\ nsec <> 0 \/ 0 < nsec /\ n_vals_max < n_at_least).

(** The events of a call that waits, and of one that has returned. *)
Definition frame_ok (op : operation) (fr : wait_frame) (es : list queue_event) : Prop :=
  match op, fr with
  | op_put vs nsec, put_frame vs' n to _ =>
      vs' = vs /\ 0 <= n <= Z.of_nat (length vs) /\ moved es = (take (Z.to_nat n) vs, [], []) /\ time_ok nsec to
  | op_get n_max n_least nsec do_incr, get_frame n_max' n_least' do_incr' got n to _ =>
      n_max' = n_max /\ n_least' = n_least /\ do_incr' = do_incr /\ n = Z.of_nat (length got) /\ n <= n_max /\
      moved es = ([], if do_incr then got else [], if do_incr then [] else got) /\ time_ok nsec to
  | op_wait_gettable nsec, gettable_frame nsec' | op_wait_puttable nsec, puttable_frame nsec' | op_wakeup nsec, wakeup_frame nsec' =>
      nsec' = nsec /\ es = []
  | _, _ => False
  end.

Definition result_ok (op : operation) (ret n : Z) (out : list V) (es : list queue_event) : Prop :=
  match op with
  | op_put vs nsec =>
      out = [] /\ 0 <= n <= Z.of_nat (length vs) /\ moved es = (take (Z.to_nat n) vs, [], []) /\ put_returns vs nsec ret n
  | op_get n_max n_least nsec do_incr =>
      n = Z.of_nat (length out) /\ n <= n_max /\
      moved es = ([], if do_incr then out else [], if do_incr then [] else out) /\ get_returns n_max n_least nsec do_incr ret n
  | op_clear free_values => exists q, es = [ev_clear q] /\ out = if free_values then q else []
  | op_shutdown free_values => es = [] /\ out = [] \/ exists q, es = [ev_clear q] /\ out = if free_values then q else []
  | op_wait_gettable _ | op_wait_puttable _ | op_wakeup _ => es = [] /\ out = []
  end.

Definition wait_result (fr : wait_frame) (r : Z) : Prop := r = R_OK \/ r = R_POSIX_API_ERROR \/ r = R_TIMEDOUT /\ 0 <= frame_timeout fr.

Definition pc_ok (op : operation) (p : pc) (es : list queue_event) : Prop :=
  match p with
  | ready => es = []
  | asleep fr => frame_ok op fr es
  | woken fr r => frame_ok op fr es /\ wait_result fr r
  | returned ret n out => result_ok op ret n out es
  end.

(** The arguments are sizes of what is in memory. *)
Definition call_args_ok (op : operation) : Prop :=
  match op with
  | op_put vs _ => Z.of_nat (length vs) < 2 ^ 63
  | op_get n_max _ _ _ => 0 <= n_max < 2 ^ 63
  | _ => True
  end.

Definition call_ok (op : operation) (w : Z) (es : list queue_event) (cb : cbuffer) (x : section_result) : Prop :=
  section_ok w cb x /\ let '(o, _, evs, _) := x in pc_ok op (pc_of o) (es ++ evs).

(** ** Critical sections *)

Lemma u64_id x : 0 <= x < 2 ^ 64 -> u64 x = x.
Proof. intros. by apply Z.mod_small. Qed.

Lemma keeps_refl notes cb : keeps_blocked notes cb cb.
Proof. by intros c _ H. Qed.

Lemma keeps_nil n a b c : keeps_blocked n a b -> keeps_blocked [] b c -> keeps_blocked n a c.
Proof. intros H1 H2. rewrite <- (app_nil_r n). by eapply keeps_trans. Qed.

(** Only the number of waiters changes. *)
Lemma keeps_waiters notes n cb : keeps_blocked notes cb (set_n_waiters n cb).
Proof. by intros [] _ H. Qed.

Lemma contents_full cb : cb_inv cb -> Z.of_nat (length (contents cb)) <= m_n_max_elements cb.
Proof. intros H. rewrite length_contents by done. apply H. Qed.

(** The elements that are copied into the buffer. *)
Lemma copyin_section buf cb n notes cb' :
  cb_inv cb -> Z.of_nat (length buf) < 2 ^ 63 -> s_copyin buf cb = (n, notes, cb') ->
  n = puttable cb buf /\
  (m_w_idx cb + Z.of_nat (length (take (Z.to_nat n) buf)) < 2 ^ 63 ->
   cb_inv cb' /\ same_control cb cb' /\ fifo_runs (m_n_max_elements cb) (contents cb) [ev_put (take (Z.to_nat n) buf)] (contents cb') /\
   m_w_idx cb' = m_w_idx cb + Z.of_nat (length (take (Z.to_nat n) buf)) /\ keeps_blocked notes cb cb' /\ m_n_elements cb' = m_n_elements cb + n).
Proof.
  intros Hinv Hb E. pose proof (copyin_count buf cb Hinv Hb) as Hc. rewrite E in Hc. cbn in Hc. split; [done|]. intros Hfit.
  pose proof Hinv as (Hm & _ & _ & _ & _ & _ & Hn). rewrite Hc in Hfit |- *.
  assert (Z.of_nat (length (take (Z.to_nat (puttable cb buf)) buf)) = puttable cb buf) as Hl by (rewrite length_take; unfold puttable in *; lia).
  rewrite Hl in Hfit |- *. destruct (copyin_spec buf cb Hinv Hb Hfit) as (ns & c & E' & Hinv' & Hcont & Hsame & Hw & Hcase).
  rewrite E in E'. injection E' as _ <- <-.
  pose proof (length_contents _ Hinv') as Hlc. rewrite Hcont, length_app in Hlc. pose proof (length_contents _ Hinv).
  split_and!; try done; [| |lia].
  - rewrite Hcont. apply fifo_one. constructor. rewrite <- Hcont. destruct Hsame as (_ & _ & _ & <- & _). by apply contents_full.
  - destruct Hcase as [(_ & -> & ->)|(Hpos & ->)]; [apply keeps_refl|]. destruct Hsame as (_ & Ho & Ha & Hmax & _).
    intros [] Hnot Hbl; cbn in *; try done; [unfold puttable in Hpos; lia|set_solver|by rewrite Ho, Ha].
Qed.

Lemma copyout_section n do_incr cb g vs notes cb' :
  cb_inv cb -> 0 <= n < 2 ^ 63 -> s_copyout n do_incr cb = (g, vs, notes, cb') ->
  g = gettable cb n /\ Z.of_nat (length vs) = g /\ cb_inv cb' /\ same_control cb cb' /\
  fifo_runs (m_n_max_elements cb) (contents cb) [if do_incr then ev_get vs else ev_peek vs] (contents cb') /\
  m_w_idx cb' = m_w_idx cb /\ keeps_blocked notes cb cb' /\ m_n_elements cb' = m_n_elements cb - (if do_incr then g else 0).
Proof.
  intros Hinv Hn E. destruct (copyout_spec n do_incr cb Hinv Hn) as (ns & c & E' & Hinv' & Hcont & Hsame & Hw & Hcase).
  rewrite E in E'. injection E' as -> -> <- <-. pose proof Hinv as (Hm & _ & _ & _ & _ & _ & Hn').
  pose proof (length_contents _ Hinv) as Hl. pose proof (length_contents _ Hinv') as Hl'. assert (0 <= gettable cb n <= m_n_elements cb) by (unfold gettable; lia).
  assert (m_n_elements cb' = m_n_elements cb - (if do_incr then gettable cb n else 0)) as Hne
    by (rewrite <- Hl', <- Hl, Hcont; destruct do_incr; rewrite ?length_drop; lia).
  split_and!; try done.
  - rewrite length_take. lia.
  - rewrite Hcont. apply fifo_one. destruct do_incr; [apply fifo_get_take|apply fifo_peek_take].
  - destruct Hcase as [(_ & -> & ->)|(Hpos & -> & ->)]; [apply keeps_refl|]. destruct Hsame as (_ & Ho & Ha & Hmax & _).
    intros [] Hnot Hbl; cbn in *; try done; [set_solver|lia|by rewrite Ho, Ha].
Qed.

Lemma wait_return_section r cb ret notes cb' :
  s_wait_io_return r cb = (ret, notes, cb') -> 1 <= m_n_waiters cb < 2 ^ 64 ->
  m_r_idx cb' = m_r_idx cb /\ m_w_idx cb' = m_w_idx cb /\ m_n_elements cb' = m_n_elements cb /\ m_data cb' = m_data cb /\
  m_n_max_elements cb' = m_n_max_elements cb /\ m_n_max_allocd_elements cb' = m_n_max_allocd_elements cb /\
  m_n_waiters cb' = m_n_waiters cb - 1 /\ keeps_blocked notes cb cb' /\
  (ret = r \/ ret = R_WAKEUP_REQUESTED \/ ret = R_NOT_OPERATIONAL).
Proof.
  unfold s_wait_io_return. intros E Hw. rewrite u64_id in E by lia.
  destruct (_ && _); [destruct (m_is_operational _); [destruct (_ =? 0)|]|]; simplify_eq; cbn; split_and!; auto;
    intros [] Hnot Hbl; cbn in *; try done; set_solver.
Qed.

Lemma moved_put vs : moved [ev_put vs] = (vs, [], []).
Proof. unfold moved. cbn. by rewrite app_nil_r. Qed.
Lemma moved_out (do_incr : bool) vs :
  moved [if do_incr then ev_get vs else ev_peek vs] = ([], if do_incr then vs else [], if do_incr then [] else vs).
Proof. destruct do_incr; unfold moved; cbn; by rewrite app_nil_r. Qed.
Lemma puts_out (do_incr : bool) vs : given [if do_incr then ev_get vs else ev_peek vs] = [].
Proof. by destruct do_incr. Qed.

Lemma still_section w cb o :
  cb_inv cb -> w = pc_weight (pc_of o) -> asleep_blocked (pc_of o) cb -> section_ok w cb (o, [], [], cb).
Proof. intros Hinv Hw Hbl. split_and!; [done|done|constructor|cbn; lia|apply keeps_refl|lia|done]. Qed.

(** A thread that begins to wait, behind a section that has changed the buffer. *)
Lemma wait_section cb cb1 fr notes evs :
  section_ok 0 cb (finish 0 0 [], notes, evs, cb1) -> 0 <= m_n_waiters cb1 < 2 ^ 64 - 1 -> frame_weight fr = 1 -> cond_blocked (frame_cond fr) cb1 ->
  section_ok 0 cb (let '(o, cb2) := s_wait_io_ready fr cb1 in (o, notes, evs, cb2)).
Proof.
  intros (Hinv & Hmax & Hruns & Hw & Hk & Hn & _) Hw64 Hfr Hbl. cbn in Hn. unfold s_wait_io_ready. rewrite u64_id by lia.
  split_and!; [done|done|done|done|by eapply keeps_nil; [|apply keeps_waiters]|cbn; lia|by destruct fr].
Qed.

Lemma finish_section w cb notes evs cb1 ret n vs ret' n' vs' :
  section_ok w cb (finish ret n vs, notes, evs, cb1) -> section_ok w cb (finish ret' n' vs', notes, evs, cb1).
Proof. done. Qed.

Lemma put_check_ok vs nsec n ret to copy_start es cb :
  cb_inv cb -> 0 <= n <= Z.of_nat (length vs) -> Z.of_nat (length vs) < 2 ^ 63 -> moved es = (take (Z.to_nat n) vs, [], []) -> time_ok nsec to ->
  0 <= m_n_waiters cb < 2 ^ 64 - 1 -> puts_fit cb (put_check vs n ret to copy_start cb) ->
  call_ok (op_put vs nsec) 0 es cb (put_check vs n ret to copy_start cb).
Proof.
  intros Hinv Hn Hvs Hes Hto Hwt Hfit. unfold put_check in *. destruct (m_is_operational cb).
  2: { split; [by apply still_section|]. cbn. rewrite app_nil_r. split_and!; try done; try lia. right. by left. }
  destruct (s_copyin _ cb) as [[m notes] cb1] eqn:E.
  assert (Z.of_nat (length (drop (Z.to_nat n) vs)) = Z.of_nat (length vs) - n) as Hd by (rewrite length_drop; lia).
  destruct (copyin_section (drop (Z.to_nat n) vs) _ _ _ _ Hinv ltac:(lia) E) as [Hm Hsec].
  pose proof Hinv as (Hmx & _ & _ & _ & _ & _ & Hne). assert (0 <= m <= Z.of_nat (length vs) - n) as Hm' by (rewrite Hm; unfold puttable; lia).
  set (evs := [ev_put _]) in *. assert (m_w_idx cb + Z.of_nat (length (given evs)) < 2 ^ 63) as Hfit'.
  { revert Hfit. destruct (_ <? _); [destruct (_ <=? _)|]; done. }
  unfold evs, given in Hfit'. cbn [mbind list_bind ev_puts] in Hfit'. rewrite app_nil_r in Hfit'.
  destruct (Hsec Hfit') as (Hinv' & Hsame & Hruns & Hw & Hk & Hne'). clear Hfit Hfit' Hsec.
  assert (section_ok 0 cb (finish 0 0 [], notes, evs, cb1)) as Hok.
  { destruct Hsame as (Hwt' & _ & _ & Hmx' & _). split_and!; try done; cbn; rewrite ?app_nil_r; lia. }
  assert (moved (es ++ evs) = (take (Z.to_nat (n + m)) vs, [], [])) as Hmv.
  { unfold evs. rewrite (moved_app _ _ _ _ _ _ _ _ Hes (moved_put _)). rewrite take_take_drop, <- Z2Nat.inj_add by lia. done. }
  rewrite u64_id by lia. destruct Hsame as (Hwt' & _ & _ & Hmx' & _). destruct (Z.ltb_spec (n + m) (Z.of_nat (length vs))) as [Hlt|Hge].
  - assert (m_n_elements cb1 = m_n_max_elements cb1) as Hfull by (rewrite Hmx', Hne', Hm; unfold puttable in *; lia).
    rewrite (proj2 (Z.leb_le _ _)) by lia. split; [apply wait_section; [done|lia|done|done]|]. cbn. split_and!; try done; lia.
  - split; [done|]. cbn. split_and!; try done; try lia. left. split; [done|]. right. lia.
Qed.

Lemma get_check_ok n_max n_least nsec (do_incr : bool) got n ret to copy_start es cb :
  cb_inv cb -> n = Z.of_nat (length got) -> n <= n_max < 2 ^ 63 -> moved es = ([], if do_incr then got else [], if do_incr then [] else got) -> time_ok nsec to ->
  0 <= m_n_waiters cb < 2 ^ 64 - 1 -> ret = R_ANY_FAILURES \/ ret = R_OK ->
  call_ok (op_get n_max n_least nsec do_incr) 0 es cb (get_check n_max n_least do_incr got n ret to copy_start cb).
Proof.
  intros Hinv Hn Hmax Hes Hto Hwt Hret. unfold get_check. destruct (m_is_operational cb).
  2: { split; [by apply still_section|]. cbn. rewrite app_nil_r. split_and!; try done; try lia. right. left. by left. }
  rewrite (u64_id (n_max - n)) by lia. destruct (s_copyout _ _ cb) as [[[g vs] notes] cb1] eqn:E.
  destruct (copyout_section (n_max - n) _ _ _ _ _ _ Hinv ltac:(lia) E) as (Hg & Hl & Hinv' & Hsame & Hruns & Hw & Hk & Hne').
  pose proof Hinv as (Hmx & _ & _ & _ & _ & _ & Hne). pose proof Hinv' as (_ & _ & _ & _ & _ & _ & Hne1).
  assert (0 <= g <= n_max - n) as Hg' by (rewrite Hg; unfold gettable; lia).
  set (evs := [if do_incr then _ else _]) in *.
  assert (section_ok 0 cb (finish 0 0 [], notes, evs, cb1)) as Hok.
  { destruct Hsame as (Hwt' & _ & _ & Hmx' & _). unfold section_ok. unfold evs at 2. rewrite puts_out. split_and!; try done; cbn; lia. }
  assert (moved (es ++ evs) = ([], if do_incr then got ++ vs else [], if do_incr then [] else got ++ vs)) as Hmv.
  { unfold evs. rewrite (moved_app _ _ _ _ _ _ _ _ Hes (moved_out do_incr _)). by destruct do_incr. }
  rewrite u64_id by lia. destruct Hsame as (Hwt' & _ & _ & Hmx' & _).
  assert (n + g = Z.of_nat (length (got ++ vs))) as Hlen by (rewrite length_app; lia).
  destruct (Z.ltb_spec (n + g) (if to <? 0 then n_max else n_least)) as [Hlt|Hge]; [destruct (Z.ltb_spec (m_n_elements cb1) 1)|].
  - split; [apply wait_section; [done|lia|done|cbn; lia]|]. cbn. split_and!; try done; lia.
  - split; [done|]. cbn. split_and!; try done; try lia. right. right. split; [done|]. destruct do_incr; [right|left; split; [done|destruct Hto; lia]].
    assert (g = n_max - n) by (rewrite Hg; unfold gettable in *; lia). destruct (Z.ltb_spec to 0); [lia|]. destruct Hto; lia.
  - split; [done|]. cbn. split_and!; try done; try lia. left. split; [done|]. right. destruct (Z.ltb_spec to 0); [left; lia|right]. destruct Hto; lia.
Qed.

Lemma time_ok_start nsec : nsec <> 0 -> time_ok nsec (if nsec <? 0 then -1 else nsec).
Proof. intros H. unfold time_ok. destruct (Z.ltb_spec nsec 0); lia. Qed.

Lemma put_ok vs nsec now cb :
  cb_inv cb -> Z.of_nat (length vs) < 2 ^ 63 -> 0 <= m_n_waiters cb < 2 ^ 64 - 1 -> puts_fit cb (s_put_n vs nsec now cb) ->
  call_ok (op_put vs nsec) 0 [] cb (s_put_n vs nsec now cb).
Proof.
  intros Hinv Hvs Hwt Hfit. unfold s_put_n in *. destruct (Z.ltb_spec 0 (Z.of_nat (length vs))) as [Hpos|Hz].
  2: { split; [by apply still_section|]. cbn. split_and!; try done; try lia. left. split; [done|]. right. lia. }
  destruct (Z.eqb_spec nsec 0) as [->|Hns]; [|by apply put_check_ok; auto using time_ok_start; lia].
  destruct (m_is_operational cb); [|split; [by apply still_section|]; cbn; split_and!; try done; try lia; right; by left].
  destruct (s_copyin vs cb) as [[m notes] cb1] eqn:E. destruct (copyin_section vs _ _ _ _ Hinv Hvs E) as [Hm Hsec].
  unfold puts_fit, given in Hfit. cbn [mbind list_bind ev_puts] in Hfit. rewrite app_nil_r in Hfit.
  destruct (Hsec Hfit) as (Hinv' & (Hwt' & _ & _ & Hmx' & _) & Hruns & Hw & Hk & _).
  pose proof Hinv as (Hmx & _ & _ & _ & _ & _ & Hne). assert (0 <= m <= Z.of_nat (length vs)) as Hm' by (rewrite Hm; unfold puttable; lia).
  split; [split_and!; try done; cbn; rewrite ?app_nil_r; lia|]. cbn. rewrite moved_put. split_and!; try done; try lia. left. split; [done|by left].
Qed.

Lemma get_ok n_max n_least nsec do_incr now cb :
  cb_inv cb -> 0 <= n_max < 2 ^ 63 -> 0 <= m_n_waiters cb < 2 ^ 64 - 1 ->
  call_ok (op_get n_max n_least nsec do_incr) 0 [] cb (s_get_n n_max n_least nsec do_incr now cb).
Proof.
  intros Hinv Hmax Hwt. assert (moved (@nil queue_event) = ([], if do_incr then [] else [], if do_incr then [] else [])) as Hnil by (by destruct do_incr).
  unfold s_get_n. destruct (Z.ltb_spec 0 n_max) as [Hpos|Hz].
  2: { split; [by apply still_section|]. cbn. split_and!; try done; try lia. left. split; [done|]. right. left. lia. }
  destruct (Z.eqb_spec nsec 0) as [->|Hns]; [|apply get_check_ok; auto using time_ok_start; cbn; lia].
  destruct (m_is_operational cb); [|split; [by apply still_section|]; cbn; split_and!; try done; try lia; right; left; by left].
  destruct (s_copyout _ _ cb) as [[[g vs] notes] cb1] eqn:E.
  destruct (copyout_section n_max _ _ _ _ _ _ Hinv Hmax E) as (Hg & Hl & Hinv' & (Hwt' & _ & _ & Hmx' & _) & Hruns & Hw & Hk & _).
  split; [unfold section_ok; rewrite puts_out; split_and!; try done; cbn; lia|]. cbn. rewrite moved_out. unfold gettable in Hg.
  split_and!; try done; try lia. left. split; [done|by left].
Qed.

(** The section of a thread whose wait has ended. *)
Lemma resume_ok op w es r cb ret notes cb1 x :
  s_wait_io_return r cb = (ret, notes, cb1) -> cb_inv cb -> 1 <= m_n_waiters cb < 2 ^ 64 - 1 -> w = 1 -> puts_fit cb (with_notes notes x) ->
  (cb_inv cb1 -> 0 <= m_n_waiters cb1 < 2 ^ 64 - 1 -> puts_fit cb1 x -> call_ok op 0 es cb1 x) -> call_ok op w es cb (with_notes notes x).
Proof.
  intros E Hinv Hwt -> Hfit Hx.
  destruct (wait_return_section _ _ _ _ _ E ltac:(lia)) as (E1 & E2 & E3 & E4 & E5 & E6 & E7 & Hk & _).
  assert (contents cb1 = contents cb) as Hc by (unfold contents; congruence).
  assert (cb_inv cb1) as Hinv1 by (unfold cb_inv in *; by rewrite E1, E2, E3, E4, E5, E6).
  destruct x as [[[o ns] evs] cb2]. unfold with_notes, puts_fit, call_ok in *. rewrite <- E2 in Hfit.
  destruct (Hx Hinv1 ltac:(lia) Hfit) as [(Q1 & Q2 & Q3 & Q4 & Q5 & Q6 & Q7) Hpc]. rewrite Hc, E5 in Q3. rewrite E2 in Q4. rewrite E5 in Q2.
  split; [|done]. split_and!; try done; [by eapply keeps_trans|lia].
Qed.

Lemma wait_again_ok nsec to copy_start wait_end ret again stop (P : section_result -> Prop) :
  time_ok nsec to -> (ret = R_TIMEDOUT -> 0 <= to) ->
  (ret = R_OK \/ ret = R_POSIX_API_ERROR \/ ret = R_TIMEDOUT \/ ret = R_WAKEUP_REQUESTED \/ ret = R_NOT_OPERATIONAL) ->
  (forall to', ret = R_OK -> time_ok nsec to' -> P (again to')) -> (forall e, call_error nsec e -> P (stop e)) ->
  P (wait_again to copy_start wait_end ret again stop).
Proof.
  intros Hto Htm Hret Hagain Hstop. unfold wait_again. destruct (Z.eqb_spec ret R_OK) as [->|Hne].
  - destruct (Z.ltb_spec to 0); [by apply Hagain|]. destruct (Z.ltb_spec 0 (s64 (to - s64 (wait_end - copy_start)))).
    + apply Hagain; [done|]. destruct Hto; [lia|]. right. lia.
    + apply Hstop. right. right. split; [|done]. destruct Hto; lia.
  - apply Hstop. unfold call_error. destruct Hto, Hret as [?|[?|[?|[?|?]]]]; try done; try (right; left; split; [lia|auto]; fail); auto 6 with lia.
Qed.

(** What [s_wait_io_ready] gives back. *)
Lemma wait_return_codes fr r cb ret notes cb1 :
  wait_result fr r -> 1 <= m_n_waiters cb < 2 ^ 64 - 1 -> s_wait_io_return r cb = (ret, notes, cb1) ->
  (ret = R_TIMEDOUT -> 0 <= frame_timeout fr) /\
  (ret = R_OK \/ ret = R_POSIX_API_ERROR \/ ret = R_TIMEDOUT \/ ret = R_WAKEUP_REQUESTED \/ ret = R_NOT_OPERATIONAL).
Proof.
  intros Hr Hw E. destruct (wait_return_section _ _ _ _ _ E ltac:(lia)) as (_ & _ & _ & _ & _ & _ & _ & _ & Hret).
  destruct Hr as [->|[->|[-> Ht]]], Hret as [->|[->| -> ]]; auto 7; split; auto 7; discriminate.
Qed.

Lemma frame_section op fr r wait_end now es cb :
  call_args_ok op -> frame_ok op fr es -> wait_result fr r -> cb_inv cb -> frame_weight fr <= m_n_waiters cb < 2 ^ 64 - 1 -> 0 <= m_n_waiters cb ->
  puts_fit cb (resume_section fr r wait_end now cb) -> call_ok op (frame_weight fr) es cb (resume_section fr r wait_end now cb).
Proof.
  intros Hop Hfr Hr Hinv Hw Hw0 Hfit. destruct op, fr; try done; cbn [resume_section frame_weight call_args_ok frame_ok] in *.
  - destruct Hfr as (-> & Hn & Hes & Hto). unfold put_resume in *. destruct (s_wait_io_return r cb) as [[ret notes] cb1] eqn:E.
    destruct (wait_return_codes _ _ _ _ _ _ Hr Hw E) as [Htm Hcodes]. cbn [frame_timeout] in Htm.
    eapply resume_ok; [exact E|done|lia|done|done|]. intros Hinv1 Hw1. clear Hfit. apply (wait_again_ok nsec); [done|done|done| |].
    + intros to' Hok Hto' Hfit1. by apply put_check_ok.
    + intros e He _. split; [by apply still_section|]. cbn. rewrite app_nil_r. split_and!; try done; try lia. by right.
  - destruct Hfr as (-> & -> & -> & -> & Hn & Hes & Hto). unfold get_resume in *. destruct (s_wait_io_return r cb) as [[ret notes] cb1] eqn:E.
    destruct (wait_return_codes _ _ _ _ _ _ Hr Hw E) as [Htm Hcodes]. cbn [frame_timeout] in Htm.
    eapply resume_ok; [exact E|done|lia|done|done|]. intros Hinv1 Hw1 _. clear Hfit. apply (wait_again_ok nsec); [done|done|done| |].
    + intros to' Hok Hto'. apply get_check_ok; auto; lia.
    + intros e He. split; [by apply still_section|]. cbn. rewrite app_nil_r. split_and!; try done; try lia. right. by left.
  - destruct Hfr as (-> & ->). unfold gettable_resume in *. destruct (s_wait_io_return r cb) as [[ret notes] cb1] eqn:E.
    rewrite <- (app_nil_r notes) in Hfit |- *. eapply (resume_ok _ _ _ _ _ _ _ _ (_, [], [], _)); [exact E|done|lia|done|done|].
    intros Hinv1 _ _. by split; [apply still_section|].
  - destruct Hfr as (-> & ->). unfold puttable_resume in *. destruct (s_wait_io_return r cb) as [[ret notes] cb1] eqn:E.
    rewrite <- (app_nil_r notes) in Hfit |- *. eapply (resume_ok _ _ _ _ _ _ _ _ (_, [], [], _)); [exact E|done|lia|done|done|].
    intros Hinv1 _ _. by split; [apply still_section|].
  - destruct Hfr as (-> & ->). unfold wakeup_resume, wakeup_recheck in *. destruct (r =? R_OK); [|by split; [apply still_section|]].
    destruct (m_is_operational cb) eqn:Eo; [destruct (m_is_awakened cb) eqn:Ea|]; by split; [apply still_section|].
Qed.

Lemma clear_section v0 free_values es cb :
  cb_inv cb -> es = [] -> call_ok (op_clear free_values) 0 es cb (lagopus_cbuffer_clear v0 free_values cb).
Proof.
  intros Hinv ->. unfold lagopus_cbuffer_clear. destruct (clean_spec v0 free_values cb Hinv) as (cb' & -> & Hinv' & Hc & (Hwt & Ho & Ha & Hmx & _) & Hw).
  pose proof (length_contents _ Hinv') as Hl. rewrite Hc in Hl. pose proof Hinv as (Hm & _ & _ & Hr & Hwi & _ & Hn).
  split; [split_and!|]; [done|done|rewrite Hc; apply fifo_one; constructor|cbn; lia| |cbn; lia|done|cbn; eauto].
  intros [] Hnot Hbl; cbn in *; try done; [set_solver|by rewrite Ho, Ha].
Qed.

Lemma shutdown_section v0 free_values es cb :
  cb_inv cb -> es = [] -> call_ok (op_shutdown free_values) 0 es cb (lagopus_cbuffer_shutdown v0 free_values cb).
Proof.
  intros Hinv ->. unfold lagopus_cbuffer_shutdown, s_shutdown. destruct (m_is_operational cb); [|split; [by apply still_section|by left]].
  assert (cb_inv (set_is_operational false cb)) as Hinv0 by exact Hinv.
  destruct (clean_spec v0 free_values _ Hinv0) as (cb' & -> & Hinv' & Hc & (Hwt & Ho & Ha & Hmx & _) & Hw).
  pose proof Hinv as (Hm & _ & _ & Hr & Hwi & _ & Hn). cbn in *.
  split; [split_and!|]; [done|done|rewrite Hc; apply fifo_one; constructor|cbn; lia| |cbn; lia|done|cbn; eauto].
  intros [] Hnot Hbl; set_solver.
Qed.

Lemma wakeup_section nsec es cb :
  cb_inv cb -> es = [] -> call_ok (op_wakeup nsec) 0 es cb (lagopus_cbuffer_wakeup nsec cb).
Proof.
  intros Hinv ->. unfold lagopus_cbuffer_wakeup. destruct (0 <? _); [|by split; [apply still_section|]].
  destruct (m_is_operational cb) eqn:Eo; [|by split; [apply still_section|]].
  destruct (m_is_awakened cb) eqn:Ea; cbn [negb]; [by split; [apply still_section|]|].
  unfold wakeup_recheck. cbn [m_is_operational m_is_awakened set_is_awakened]. rewrite Eo.
  destruct (nsec =? 0); (split; [split_and!|done]); [done|done|constructor|cbn; lia| |cbn; lia|done..|constructor|cbn; lia| |cbn; lia|done];
    intros [] Hnot Hbl; cbn in *; try done; by destruct Hbl.
Qed.

Lemma call_section v0 op now cb :
  call_args_ok op -> cb_inv cb -> 0 <= m_n_waiters cb < 2 ^ 64 - 1 -> puts_fit cb (start_section v0 op now cb) ->
  call_ok op 0 [] cb (start_section v0 op now cb).
Proof.
  intros Hop Hinv Hw Hfit. pose proof Hinv as (Hm & _ & _ & _ & _ & _ & Hn). destruct op; cbn [start_section call_args_ok] in *.
  - by apply put_ok.
  - by apply get_ok.
  - unfold lagopus_cbuffer_wait_gettable. destruct (Z.ltb_spec 0 (m_n_elements cb)); [by split; [apply still_section|]|].
    destruct (nsec =? 0); [by split; [apply still_section|]|]. split; [|done].
    apply (wait_section cb cb (gettable_frame nsec) [] []); [by apply still_section|lia|done|cbn; lia].
  - unfold lagopus_cbuffer_wait_puttable. cbv zeta. destruct (Z.ltb_spec 0 (m_n_max_elements cb - m_n_elements cb)); [by split; [apply still_section|]|].
    destruct (nsec =? 0); [by split; [apply still_section|]|]. split; [|done].
    apply (wait_section cb cb (puttable_frame nsec) [] []); [by apply still_section|lia|done|cbn; lia].
  - by apply clear_section.
  - by apply shutdown_section.
  - by apply wakeup_section.
Qed.

(** ** Reachable states *)

(** The events of a thread, and the number of threads that are waiters. *)
Definition own (i : nat) (log : list (nat * queue_event)) : list queue_event := (filter (fun p => p.1 = i) log).*2.
Definition waiters (ths : list thread) : Z := foldr (fun th n => pc_weight (th_pc th) + n) 0 ths.

Lemma own_app i a b : own i (a ++ b) = own i a ++ own i b.
Proof. unfold own. by rewrite filter_app, fmap_app. Qed.

Lemma own_same i es : own i (pair i <$> es) = es.
Proof. induction es as [|e es IH]; [done|]. unfold own in *. rewrite fmap_cons, filter_cons_True by done. cbn. by f_equal. Qed.

Lemma own_other i j es : i <> j -> own i (pair j <$> es) = [].
Proof. intros H. induction es as [|e es IH]; [done|]. unfold own in *. by rewrite fmap_cons, filter_cons_False by (cbn; congruence). Qed.

Lemma weight_range p : 0 <= pc_weight p <= 1.
Proof. destruct p as [|[]|[]|]; cbn; lia. Qed.

Lemma waiters_range ths : 0 <= waiters ths <= Z.of_nat (length ths).
Proof.
  induction ths as [|th ths IH]; [done|]. pose proof (weight_range (th_pc th)). cbn [waiters foldr length]. unfold waiters in IH. lia.
Qed.

Lemma waiters_insert ths i th th' :
  ths !! i = Some th -> waiters (<[i := th']> ths) = waiters ths - pc_weight (th_pc th) + pc_weight (th_pc th').
Proof.
  revert i. induction ths as [|t ths IH]; intros [|i] H; [by cbn in *|by cbn in *|cbn in *; simplify_eq; lia|].
  pose proof (IH i H) as Hi. cbn [insert list_insert waiters foldr]. unfold waiters, insert in Hi |- *. lia.
Qed.

Lemma waiters_lookup ths i th : ths !! i = Some th -> pc_weight (th_pc th) <= waiters ths.
Proof.
  revert i. induction ths as [|t ths IH]; intros [|i] H; cbn in *; simplify_eq; pose proof (waiters_range ths); unfold waiters in *; [lia|].
  pose proof (IH _ H). pose proof (weight_range (th_pc t)). lia.
Qed.

Lemma wake_weight notes th : pc_weight (th_pc (wake notes th)) = pc_weight (th_pc th).
Proof. destruct th as [op [|fr| |]]; try done. cbn. by case_decide. Qed.

Lemma waiters_wake notes ths : waiters (wake notes <$> ths) = waiters ths.
Proof. induction ths as [|th ths IH]; [done|]. cbn [fmap list_fmap waiters foldr]. rewrite wake_weight. unfold waiters in IH. by rewrite IH. Qed.

Record system_ok (maxelems : Z) (ops : list operation) (s : queue_system) : Prop := {
  so_inv : cb_inv (sy_cb s);
  so_max : m_n_max_elements (sy_cb s) = maxelems;
  so_fifo : fifo_runs maxelems [] (sy_log s).*2 (contents (sy_cb s));
  so_index : m_w_idx (sy_cb s) <= Z.of_nat (length (given (sy_log s).*2));
  so_waiters : m_n_waiters (sy_cb s) = waiters (sy_threads s);
  so_ops : th_op <$> sy_threads s = ops;
  so_pcs i th : sy_threads s !! i = Some th -> pc_ok (th_op th) (th_pc th) (own i (sy_log s));
  so_asleep i th : sy_threads s !! i = Some th -> asleep_blocked (th_pc th) (sy_cb s)
}.

Lemma start_ok v0 maxelems ops : 1 <= maxelems < 2 ^ 62 -> system_ok maxelems ops (start_system v0 maxelems ops).
Proof.
  intros Hm. destruct (create_inv v0 maxelems Hm) as [Hinv Hc]. unfold start_system.
  split; cbn [sy_cb sy_threads sy_log]; [done|done|rewrite Hc; constructor|cbn; lia| | | |].
  - cbn [m_n_waiters lagopus_cbuffer_create_with_size]. by induction ops.
  - rewrite <- list_fmap_compose. apply list_fmap_id.
  - intros i th Hth. apply list_lookup_fmap_Some in Hth as (op & -> & _). done.
  - intros i th Hth. apply list_lookup_fmap_Some in Hth as (op & -> & _). done.
Qed.

Lemma wake_pc_ok notes op p es : pc_ok op p es -> pc_ok op (wake_pc notes p) es.
Proof. destruct p as [|fr| |]; try done. cbn. case_decide; [|done]. split; [done|by left]. Qed.

Lemma wake_asleep notes p cb cb' : keeps_blocked notes cb cb' -> asleep_blocked p cb -> asleep_blocked (wake_pc notes p) cb'.
Proof. intros Hk. destruct p as [|fr| |]; try done. cbn. case_decide; [done|]. cbn. intros. by apply Hk. Qed.

Lemma ops_insert (ths : list thread) i th p : ths !! i = Some th -> th_op <$> <[i := Thread (th_op th) p]> ths = th_op <$> ths.
Proof. intros H. rewrite list_fmap_insert. apply list_insert_id. by rewrite list_lookup_fmap, H. Qed.

(** A critical section of a thread. *)
Lemma section_step maxelems ops s i th o notes evs cb :
  system_ok maxelems ops s -> sy_threads s !! i = Some th ->
  call_ok (th_op th) (pc_weight (th_pc th)) (own i (sy_log s)) (sy_cb s) (o, notes, evs, cb) ->
  system_ok maxelems ops (System cb (<[i := Thread (th_op th) (pc_of o)]> (wake notes <$> sy_threads s)) (sy_log s ++ (pair i <$> evs))).
Proof.
  intros [Hinv Hmax Hfifo Hidx Hwt Hops Hpcs Has] Hth [(Hinv' & Hmax' & Hruns & Hw & Hk & Hwt' & Hbl) Hpc].
  assert ((pair i <$> evs).*2 = evs) as Hsnd by (rewrite <- list_fmap_compose; apply list_fmap_id).
  assert ((wake notes <$> sy_threads s) !! i = Some (wake notes th)) as Hthw by (by rewrite list_lookup_fmap, Hth).
  split; cbn [sy_cb sy_threads sy_log].
  - done.
  - congruence.
  - rewrite fmap_app, Hsnd. eapply fifo_app; [done|]. by rewrite <- Hmax.
  - rewrite fmap_app, Hsnd, puts_app, length_app. lia.
  - rewrite (waiters_insert _ _ _ _ Hthw), wake_weight, waiters_wake. cbn [th_pc]. lia.
  - rewrite (ops_insert _ _ (wake notes th) _ Hthw), <- list_fmap_compose. by rewrite <- Hops.
  - intros j thj Hj. rewrite own_app. destruct (decide (i = j)) as [<-|Hij].
    + rewrite list_lookup_insert_eq in Hj by (by eapply lookup_lt_Some, Hthw). simplify_eq. by rewrite own_same.
    + rewrite list_lookup_insert_ne in Hj by done. rewrite own_other, app_nil_r by done.
      apply list_lookup_fmap_Some in Hj as (t & -> & Ht). cbn [wake th_op th_pc]. apply wake_pc_ok. by apply Hpcs.
  - intros j thj Hj. destruct (decide (i = j)) as [<-|Hij].
    + rewrite list_lookup_insert_eq in Hj by (by eapply lookup_lt_Some, Hthw). by simplify_eq.
    + rewrite list_lookup_insert_ne in Hj by done. apply list_lookup_fmap_Some in Hj as (t & -> & Ht). cbn. eapply wake_asleep; [done|]. by apply (Has j).
Qed.

(** The end of a wait. *)
Lemma wait_ends_step maxelems ops s i th fr r :
  system_ok maxelems ops s -> sy_threads s !! i = Some th -> th_pc th = asleep fr -> wait_result fr r ->
  system_ok maxelems ops (System (sy_cb s) (<[i := Thread (th_op th) (woken fr r)]> (sy_threads s)) (sy_log s)).
Proof.
  intros [Hinv Hmax Hfifo Hidx Hwt Hops Hpcs Has] Hth Hpc Hr.
  split; cbn [sy_cb sy_threads sy_log]; [done|done|done|done| | | |].
  - rewrite (waiters_insert _ _ _ _ Hth), Hpc. cbn. lia.
  - by rewrite (ops_insert _ _ th _ Hth).
  - intros j thj Hj. destruct (decide (i = j)) as [<-|Hij].
    + rewrite list_lookup_insert_eq in Hj by (by eapply lookup_lt_Some, Hth). simplify_eq. cbn. split; [|done].
      pose proof (Hpcs _ _ Hth) as H. by rewrite Hpc in H.
    + rewrite list_lookup_insert_ne in Hj by done. by apply Hpcs.
  - intros j thj Hj. destruct (decide (i = j)) as [<-|Hij].
    + rewrite list_lookup_insert_eq in Hj by (by eapply lookup_lt_Some, Hth). by simplify_eq.
    + rewrite list_lookup_insert_ne in Hj by done. by apply (Has j).
Qed.

Lemma step_log v0 l s s' : thread_step v0 l s = Some s' -> exists es, sy_log s' = sy_log s ++ es.
Proof.
  destruct l; cbn; intros H; repeat case_match || simplify_option_eq; eauto using app_nil_r; exists []; by rewrite app_nil_r.
Qed.

Lemma steps_log v0 ls s s' : thread_steps v0 ls s = Some s' -> exists es, sy_log s' = sy_log s ++ es.
Proof.
  revert s. induction ls as [|l ls IH]; intros s H; cbn in H; [simplify_eq; exists []; by rewrite app_nil_r|].
  destruct (thread_step v0 l s) as [s1|] eqn:E; [|done]. destruct (step_log _ _ _ _ E) as [e1 H1]. destruct (IH _ H) as [e2 H2].
  exists (e1 ++ e2). by rewrite H2, H1, app_assoc.
Qed.

Lemma step_ok v0 maxelems ops l s s' :
  Forall call_args_ok ops -> Z.of_nat (length ops) < 2 ^ 64 - 1 -> thread_step v0 l s = Some s' -> Z.of_nat (length (given (sy_log s').*2)) < 2 ^ 63 ->
  system_ok maxelems ops s -> system_ok maxelems ops s'.
Proof.
  intros Hops Hlen H Hfit Hs. pose proof Hs as [Hinv Hmax Hfifo Hidx Hwt Ho Hpcs Has].
  assert (0 <= m_n_waiters (sy_cb s) < 2 ^ 64 - 1) as Hw64.
  { rewrite Hwt. pose proof (waiters_range (sy_threads s)). rewrite <- Ho, length_fmap in Hlen. lia. }
  assert (forall i th, sy_threads s !! i = Some th -> call_args_ok (th_op th)) as Hop.
  { intros i th Hth. rewrite Forall_lookup in Hops. apply (Hops i). by rewrite <- Ho, list_lookup_fmap, Hth. }
  destruct l as [i we now|i|i|i]; cbn in H; destruct (sy_threads s !! i) as [th|] eqn:Hth; try done; cbn in H;
    destruct (th_pc th) as [|fr|fr r|] eqn:Hpc; try done; cbn in H.
  - destruct (start_section _ _ _ _) as [[[o notes] evs] cb] eqn:E. simplify_eq. eapply section_step; [done|done|].
    rewrite Hpc. pose proof (Hpcs _ _ Hth) as Hes. rewrite Hpc in Hes. cbn in Hes. rewrite Hes, <- E. apply call_section; [by eapply Hop|done|done|].
    rewrite E. cbn in Hfit. rewrite fmap_app, puts_app, <- list_fmap_compose, list_fmap_id, length_app in Hfit. cbn. lia.
  - destruct (resume_section _ _ _ _ _) as [[[o notes] evs] cb] eqn:E. simplify_eq. eapply section_step; [done|done|].
    rewrite Hpc. pose proof (Hpcs _ _ Hth) as Hes. rewrite Hpc in Hes. destruct Hes as [Hfr Hr].
    pose proof (waiters_lookup _ _ _ Hth) as Hwl. rewrite Hpc in Hwl. cbn [pc_weight] in Hwl |- *. rewrite <- E.
    apply frame_section; [by eapply Hop|done|done|done|lia|lia|].
    rewrite E. cbn in Hfit. rewrite fmap_app, puts_app, <- list_fmap_compose, list_fmap_id, length_app in Hfit. cbn. lia.
  - destruct (Z.leb_spec 0 (frame_timeout fr)); [|done]. cbn in H. simplify_eq. eapply wait_ends_step; [done|done|done|by right; right].
  - simplify_eq. eapply wait_ends_step; [done|done|done|by left].
  - simplify_eq. eapply wait_ends_step; [done|done|done|by right; left].
Qed.

Lemma steps_ok v0 maxelems ops ls s s' :
  Forall call_args_ok ops -> Z.of_nat (length ops) < 2 ^ 64 - 1 -> thread_steps v0 ls s = Some s' -> Z.of_nat (length (given (sy_log s').*2)) < 2 ^ 63 ->
  system_ok maxelems ops s -> system_ok maxelems ops s'.
Proof.
  intros Hops Hlen. revert s. induction ls as [|l ls IH]; intros s H Hfit Hs; cbn in H; [by simplify_eq|].
  destruct (thread_step v0 l s) as [s1|] eqn:E; [|done]. apply (IH s1); [done|done|]. eapply step_ok; [done|done|done| |done].
  destruct (steps_log _ _ _ _ H) as [es Hes]. rewrite Hes, fmap_app, puts_app, length_app in Hfit. lia.
Qed.

(** ** Properties *)

(** The runs that are considered: a queue that calls with arguments of their size use, and
    that has not had more elements than an index counts. *)
Record run_of (v0 : V) (maxelems : Z) (ops : list operation) (ls : list thread_label) (s : queue_system) : Prop := {
  rn_max : 1 <= maxelems < 2 ^ 62;
  rn_ops : Forall call_args_ok ops;
  rn_count : Z.of_nat (length ops) < 2 ^ 64 - 1;
  rn_puts : Z.of_nat (length (given (sy_log s).*2)) < 2 ^ 63;
  rn_steps : thread_steps v0 ls (start_system v0 maxelems ops) = Some s
}.

Lemma run_system_ok v0 maxelems ops ls s : run_of v0 maxelems ops ls s -> system_ok maxelems ops s.
Proof. intros [Hm Ho Hc Hp Hs]. eapply steps_ok; [exact Ho|exact Hc|exact Hs|exact Hp|]. by apply start_ok. Qed.


(** C22: No wakeup is lost: in every reachable state a thread that sleeps for elements faces an empty queue, one that sleeps for room a
    full queue, and a waker that sleeps an operational queue with [m_is_awakened] still set; so there are never a thread that sleeps to put and one that sleeps to get
    at the same time.  [m_n_waiters] is the number of threads between [s_wait_io_ready] and its return. *)
Theorem no_lost_wakeup v0 maxelems ops ls s :
  run_of v0 maxelems ops ls s ->
  m_n_waiters (sy_cb s) = waiters (sy_threads s) /\
  (forall i op fr, sy_threads s !! i = Some (Thread op (asleep fr)) ->
     match frame_cond fr with
     | note_get => contents (sy_cb s) = []
     | note_put => Z.of_nat (length (contents (sy_cb s))) = maxelems
     | _ => m_is_operational (sy_cb s) = true /\ m_is_awakened (sy_cb s) = true
     end) /\
  (forall i j op op' fr fr', sy_threads s !! i = Some (Thread op (asleep fr)) -> sy_threads s !! j = Some (Thread op' (asleep fr')) ->
     ~ (frame_cond fr = note_get /\ frame_cond fr' = note_put)).
Proof.
  intros Hrun. apply run_system_ok in Hrun as [Hinv Hmax Hfifo Hidx Hwt Ho Hpcs Has]. split; [done|].
  pose proof (length_contents _ Hinv) as Hl. split.
  - intros i op fr Hth. specialize (Has _ _ Hth). cbn in Has.
    destruct (frame_cond fr); cbn in Has; [lia| |done|done]. apply length_zero_iff_nil. lia.
  - intros i j op op' fr fr' Hi Hj [Eg Ep]. pose proof (Has _ _ Hi) as Hg. pose proof (Has _ _ Hj) as Hp. cbn in Hg, Hp.
    rewrite Eg in Hg. rewrite Ep in Hp. cbn in Hg, Hp. destruct Hinv as (Hm & _). lia.
Qed.
End Threads.

(** ** Examples *)

(** A getter and a putter that take turns at a queue of two elements, a thread that peeks, and a waker. *)
Definition example_calls : list (@operation Z) := [op_get 3 0 (-1) true; op_put [1; 2; 3; 4] (-1); op_get 2 1 1000 false; op_wakeup (-1)].
Definition example_labels : list thread_label := [run 0 0 0; run 1 0 0; run 0 5 5; run 1 6 6; run 2 7 7; run 3 8 8].
Definition example_state : queue_system :=
  System (CBuffer 2 4 2 1 true true 2 3 None [4; 2; 3])
    [Thread (op_get 3 0 (-1) true) (woken (get_frame 3 0 true [1; 2] 2 (-1) 5) R_OK);
     Thread (op_put [1; 2; 3; 4] (-1)) (returned 4 4 []);
     Thread (op_get 2 1 1000 false) (returned 2 2 [3; 4]);
     Thread (op_wakeup (-1)) (asleep (wakeup_frame (-1)))]
    [(0%nat, ev_get []); (1%nat, ev_put [1; 2]); (0%nat, ev_get [1; 2]); (1%nat, ev_put [3; 4]); (2%nat, ev_peek [3; 4])].

Lemma example_run : run_of 0 2 example_calls example_labels example_state.
Proof. split; [lia|repeat constructor; cbn; lia|cbn; lia|cbn; lia|vm_compute; reflexivity]. Qed.


Lemma no_lost_wakeup_witness :
  run_of 0 2 example_calls example_labels example_state /\ waiters (sy_threads example_state) = 1 /\
  m_is_operational (sy_cb example_state) = true /\ m_is_awakened (sy_cb example_state) = true.
Proof.
  destruct (no_lost_wakeup 0 2 example_calls example_labels example_state example_run) as (H1 & H2 & _).
  split; [exact example_run|]. split; [symmetry; exact H1|]. exact (H2 3%nat _ _ eq_refl).
Defined.

(** *** Defects *)

Definition pcs (s : option (@queue_system Z)) : option (list pc) := (fun s => th_pc <$> sy_threads s) <$> s.

(** A put that must not wait, at a full queue, puts nothing; [lagopus_bbq_put] of one element then says that it is done. *)
Example full_put_succeeds :
  pcs (thread_steps 0 [run 0 0 0; run 1 0 0] (start_system 0 2 [op_put [1; 2] 0; op_put [3] 0])) = Some [returned 2 2 []; returned 0 0 []] /\
  single_result 0 = R_OK.
Proof. split; vm_compute; reflexivity. Qed.

(** A thread whose time is over is still counted: the waker that comes now waits for it, and nobody is left to wake it. *)
Example waker_stuck :
  pcs (thread_steps 0 [run 0 0 0; timeout 0; run 1 0 0; run 0 100 0] (start_system 0 2 [op_get 1 1 100 true; op_wakeup (-1)])) =
    Some [returned R_TIMEDOUT 0 []; asleep (wakeup_frame (-1))].
Proof. vm_compute. reflexivity. Qed.

(** A peek of two elements without a limit of time does not block when there is one: it fails, or it returns 0. *)
Example peek_does_not_block :
  pcs (thread_steps 0 [run 0 0 0; run 1 0 0; run 2 0 0; run 3 0 0; run 4 0 0; run 3 0 0]
         (start_system 0 2 [op_put [1] 0; op_get 2 2 (-1) false; op_get 1 1 (-1) true; op_get 2 2 (-1) false; op_put [5] 0])) =
    Some [returned 1 1 []; returned R_ANY_FAILURES 1 [1]; returned 1 1 [1]; returned R_OK 1 [5]; returned 1 1 []].
Proof. vm_compute. reflexivity. Qed.

(** [lagopus_cbuffer_wait_gettable] does not look whether the queue has been shut down. *)
Example waits_after_shutdown :
  pcs (thread_steps 0 [run 0 0 0; run 1 0 0] (start_system 0 2 [op_shutdown true; op_wait_gettable (-1)])) =
    Some [returned R_OK 0 []; asleep (gettable_frame (-1))].
Proof. vm_compute. reflexivity. Qed.

(** [lagopus_cbuffer_clear] makes room, but it is the poller that waits for elements that is told. *)
Example clear_tells_reader :
  (lagopus_cbuffer_clear 0 false (CBuffer 0 2 2 0 true false 2 3 (Some POLL_WRITABLE) [1; 2; 0])).1.1.2 = [note_put].
Proof. reflexivity. Qed.

(** The index of the buffer to write overflows; [s_adjust_indices] then moves it away from the elements: 2 and 0 are read where 2 and 3 were put. *)
Example index_overflow :
  let cb := CBuffer (2 ^ 63 - 2) (2 ^ 63 - 1) 1 0 true false 2 3 None [1; 0; 0] in
  contents cb = [1] /\
  let '(_, _, cb) := s_copyin [2] cb in
  let '(_, vs, _, cb) := s_copyout 1 true cb in
  let '(_, _, cb) := s_copyin [3] cb in
  let '(_, ws, _, _) := s_copyout 2 true cb in (vs, ws) = ([1], [2; 0]).
Proof. split; vm_compute; reflexivity. Qed.
